(* ===== verification/_CoqProject ===== *)
-Q . S2P
Prelude.v
Strings.v
Libc.v
MadBit.v
MadTimer.v
MadStream.v
Snd.v
Ring.v
IoBuffer.v
Console.v
Event.v
Cmd.v
HostShared.v
Id3tag.v
Resfs.v
Salloc.v
Net.v
State.v
Fs.v
LcdPanel.v
Libmad.v
Player.v
Main.v
Keeps.v
FsKeeps.v
System.v
HostNull.v
MadFrame.v
MadFrameProps.v
MadFixed.v
MadLayer12.v
MadLayer12Props.v
MadSynth.v
MadCos.v
MadDct.v
MadSynthProps.v
MadHuffman.v
MadTables3.v
MadSide.v
MadHuff.v
MadHybrid.v
MadLayer3.v
MadRun.v
MadHuffProps.v
MadHuffRef.v
MadLines.v
MadImdct.v
MadHybridProps.v
MadGranule.v
MadDecoder.v
MadLayers.v
MadReservoir.v
LibmadProps.v
FsProps.v
PlayerProps.v
Properties.v
Posix.v
HostLinux.v
HostLinuxProps.v
LinuxProps.v
MadProps.v
Board.v
Stm32Timer.v
Gfx.v
Pcd8544.v
Pcd8544Props.v
Audio.v
AudioProps.v
Stm32Sound.v
Stm32SoundProps.v
Stm32Console.v
Stm32ConsoleProps.v
Stm32Fs.v
Stm32FsProps.v
Lwip.v
Stm32Net.v
Stm32NetProps.v
HostStm32.v
Apart.v
Stm32Props.v
