(* ===== verification/Prelude.v ===== *)
(** * mardio: a verification of the player

    mardio is an internet radio and file player.  Its portable part (src/common,
    with src/libs/libc and src/libs/id3tag) runs on three hosts: Linux, the STM32
    board and an empty "null" host.  A main loop polls the components in a fixed
    order; they share static variables and talk through two rings of buffers, a
    queue of events and the player's state.

    ** The parts and how they interact

    - the console (console.c) collects a line; its events go into the event queue
      (event.c); the dispatcher [event_loop] runs the command interpreter (cmd.c,
      commands.h) on the line, and commands push further events for the player;
    - the player (player.c) starts and stops a source: a file (fs.c, resources in
      resfs.c) or a network stream (net.c and the host);
    - the pollers of the source fill the input ring (compressed data) or, for sound
      files, the output ring directly (iobuffer.c); libmad.c feeds the MP3 decoder
      from the input ring and puts decoded blocks into the output ring; the host's
      sound loop empties it;
    - lcd.c decides which picture is shown; drawing is the host's;
    - libs/libc holds the string functions, the number parser, the formatter and
      the slot allocator every part uses; libs/id3tag measures ID3 tags;
      libs/libmad-0.15.1b finds and decodes the frames of an MP3 stream;
    - linux/ drives terminal, files, sockets, sound device and window of the Linux
      program; stm32/ drives serial line, USB stick, ethernet, audio codec and display
      of the board.

    ** Files

    - Prelude: machine integers and their wrap-around, the target (signedness of
      [char], width of [long]), the build configuration, string literals, the
      monad [M] of the C code (state, console output, undefined behaviour [Fault],
      exhausted fuel [NoFuel]), its two program logics [wp] (no fault, and the
      postcondition) and [pp] (it ends, and the postcondition unless it faults),
      and the lemmas and tactics the components share;
    - Strings: libs/libc/strings.c over a byte memory;
    - Libc: [q3_atoi] of libc.c and xprintf.c;
    - Snd: common/snd.c; Ring: views of a ring buffer; IoBuffer: common/iobuffer.c;
      Console: common/console.c; Event: common/event.c; Cmd: common/cmd.c;
      Id3tag: libs/id3tag; Resfs: common/resfs.c; Salloc: libs/libc/salloc.c and
      allocs.c; Net: the parsers of common/net.c;
    - State: common/platform.h as the class [Platform], the decoder library as the
      class [Mad], the static variables of all components in one record [state],
      and the forwarding functions of snd.c, net.c and console.c;
    - Fs: common/fs.c; LcdPanel: common/lcd.c; Libmad: common/libmad.c;
      Player: common/player.c; Main: commands.h, [cmd_exec], [event_loop],
      version.c and the main programs;
    - Keeps: the laws of a host ([PlatformLaws]) and of a decoder ([MadLaws]), and
      which parts of the state each operation leaves alone; FsKeeps: the handle
      protocol of fs.c; System: the invariant [inv] of the main loop and that
      starting up, every frame and any number of frames keep it;
    - HostNull: the null host and a small decoder as instances of the interfaces,
      and concrete states built with them;
    - MadBit, MadTimer, MadStream, MadFrame: bit.c, timer.c, stream.c and frame.c of
      libmad, a pointer being an offset into the input; MadFrameProps: what they
      compute; MadFixed: fixed.h, for FPM_ARM and FPM_DEFAULT; MadLayer12: layer12.c;
      MadSynth: synth.c; MadCos: the cosines of a transform, fixed-point values near real
      ones; MadLayer12Props, MadDct and MadSynthProps: what these files compute;
    - MadHuffman and MadTables3: the tables of huffman.c, layer3.c and rq_table.dat;
      MadSide: side information and scalefactors; MadHuff: exponents, requantization and
      Huffman decoding; MadHybrid: reordering, joint stereo, alias reduction, the inverse
      transforms and overlapping; MadLayer3: granules, the reservoir of main data and
      [mad_layer_III]; MadRun: two logics for results that may be a fault, [yields] and
      [may], and that loops end; MadHuffProps, MadHuffRef, MadGranule, MadReservoir:
      code words, the reference decoder, the channels of a granule, the reservoir;
      MadLines, MadImdct, MadHybridProps: requantized lines and the order of the lines of
      short blocks, the inverse transforms, the hybrid filter bank;
    - MadDecoder: libmad, over the layer decoders ([Layers], [LayerLaws]), as the instance
      [mad_decoder] of [Mad], and its laws; MadLayers: the laws of the three
      layers and [decoder_table], the table of frame.c;
    - Posix: the operating system, ALSA and SDL as the class [Posix] with the promises
      of their manuals ([PosixLaws]); HostLinux: linux/*.c over them, the instance
      [linux_platform] of [Platform]; HostLinuxProps: its laws; LinuxProps and
      MadProps: theorems about the Linux drivers, the Linux program and libmad;
    - Board: the peripherals of the STM32 board as the class [Board] with what the
      manuals promise ([BoardLaws]); Stm32Timer: timer.c and rng.c; Gfx and Pcd8544:
      the pictures of gfx.h and lcd.c; Audio: libs/Audio; Stm32Sound: sound.c;
      Stm32Console: console.c; Stm32Fs: fs.c over FatFs (class [FatFs], [FatFsLaws]);
      Lwip and Stm32Net: net.c over lwIP (classes [Lwip], [LwipLaws]), its callbacks
      run when [net_timers] calls the stack; HostStm32: the instance [stm32_platform]
      of [Platform], the commands of this host, usb.c, the interrupts and main.c;
      Pcd8544Props, AudioProps, Stm32SoundProps, Stm32ConsoleProps, Stm32FsProps and
      Stm32NetProps: theorems about the drivers; HostShared: what the sound and
      network drivers of both hosts share; Apart: what touches the console and the
      events; Stm32Props: interrupts between the steps of the main loop;
    - Properties, LibmadProps, FsProps, PlayerProps: theorems about the whole
      player, the decoder's feeder, the file system and the player.

    One definition stands for one C function, under its name; a loop is a [Fixpoint]
    of its own.  A C string is the list of its bytes, a pointer into a buffer an
    offset; an out-of-range access, a missing variadic argument and a signed
    overflow are [Fault] (but the sums of two times in timer.c and the counter of
    frames in libmad.c are taken to wrap around).  Values of machine width are kept in range with [u8],
    [u16], [u32], [s32], [ulong] where the code converts or wraps.

    ** What is shown

    - the main loop (C1, C5, C36): for every host and decoder that obey their laws,
      every frame ends and keeps the invariant of every component, the dispatcher
      leaves no event behind, and the decoder's loop is bounded by its input; the
      Linux drivers obey the laws of a host, which gives the same for the Linux
      program with every decoder that obeys its laws (C2): the Makefile
      links the system's libmad there; the vendored one obeys them by [mad_decoder];
    - refinement: the rings are two FIFO queues (C9), the console is an edited line
      (C38), the
      player is the state machine [poll_spec] (C6), the in-place tokenizer is the
      reference tokenizer (C10);
    - the data path: the next block of a sound file (C12), compressed blocks into
      the decoder's buffer (C34), decoded samples into blocks (C13), the chunk
      walk of sound files (C35);
    - libmad: Layer III: the table walk decodes a complete prefix code (C23), the main
      data of a channel is decoded like a bit-by-bit reference does it, without a fault
      (C16), the main data that a frame finds is that of one sequence of bytes
      (C22), a requantized line is the power of the standard (C18), the
      lines of short blocks are put in order (C21), and a granule leaves the hybrid filter bank of
      the standard, to a fifth of a step of a 16-bit sample (C17), because the fast transforms
      of long and short blocks are the windowed IMDCT (C19, C20); the CRC is the one of a serial divider (C33), headers (C15),
      the search for frames is safe and makes progress on any input (C14), timers (C37);
      Layer I frames are decoded to the subband samples of the standard (C24),
      the decoders of Layers I and II keep the shapes and ranges of the samples (C26),
      the fast transform of the synthesis filter is the cosine transform, to one step of
      a 16-bit sample (C25), and the synthesis filter is the polyphase filter bank
      of the standard, to three (C7);
    - the Linux drivers: the sound loop plays every block (C27), the network poll appends
      what it receives (C32);
    - the board: the display shows the picture drawn last (C8), the audio output plays
      the buffers it is given in order under every interleaving with its interrupt (C3)
      and never blocks for ever (C29), the sound loop hands over every block (C28);
      whatever is typed and however the interrupts fall, the console is never locked for
      good (C4); the bytes of a stream arrive in the
      input ring (C30); only open files are used (C31);
    - the libraries: formatter and number parser (C40); their other theorems, and those
      of the components above, stand in their files;
    - what the code does and should not: files that never open on the board (C39); the files have more, such as
      [event_push_queue] (the oldest event is lost), [riff_walk_loops_on_32_bit] (an endless chunk walk),
      [io_push_on_full], [rate_change_loses_buffer], [output_slot_reuse], [layer_I_overruns],
      [requantize_wraps], [libmad_loop_overruns], [volume_steps], [linux_setup_error_lost],
      [stm32_remote_close_undefined] and [stm32_unknown_host_undefined].

    ** Bounds and fuel

    [LIBMAD_FUEL] (one round per byte of [libmad_buffer] and one more), 28 rounds of
    [event_loop] (nine events can be pending, console input counts three times),
    [RIFF_FUEL] (chunks advance by 8 inside 128 bytes), and the fuel of the string
    loops and of [xvprintf] (the length of the text) are proved to be enough;
    [FRAME_EVENTS] bounds the events of one frame, so that the invariant covers the
    2^32 / 30 frames until the event counter wraps around.

    Searching a header takes at most one round per byte of the buffer, Euclid's
    algorithm 130 rounds for 64-bit numbers; a code word of Layer III takes at most
    [HUFF_FUEL] = 8 lookups, and 144 quadruples fill the 576 lines of a channel; the console reads what the terminal has,
    and the sound loop takes one round per block.

    ** What is not modelled

    What libmad's allocator answers is a parameter ([Pool]); decoder.c and version.c of
    libmad are not called; lwIP, FatFs, the USB and STM32
    libraries and the artwork, which are third-party, and the glue between them
    (ethernetif.c, usb_bsp.c, [usb_init], [usb_loop]), where none of the player's code
    runs; [xgets], [xfgets], [xatoi] and the wide modes of [put_dump], which nothing calls;
    [abort], which a failed assertion of layer3.c calls, is [Fault].  The invariant of the main loop is about 64-bit targets, because of
    the chunk walk of fs.c; for the board the theorems are about its drivers and its
    console. *)

From Stdlib Require Export ZArith Lia.
From Stdlib Require Ascii.
From stdpp Require Export base numbers list strings option.

#[export] Set Default Goal Selector "!".

Open Scope Z_scope.

(** ** Machine integers

    Every C integer is a [Z]; the conversions below are the ones the compiler
    inserts when a value is stored into a variable of the given width. *)

Definition u8 (x : Z) : Z := x mod 256.
Definition u16 (x : Z) : Z := x mod 65536.
Definition u32 (x : Z) : Z := x mod 4294967296.
Definition u64 (x : Z) : Z := x mod 18446744073709551616.
Definition s8 (x : Z) : Z := (x + 128) mod 256 - 128.
Definition s16 (x : Z) : Z := (x + 32768) mod 65536 - 32768.
Definition s32 (x : Z) : Z := (x + 2147483648) mod 4294967296 - 2147483648.

Ltac Zify.zify_post_hook ::= Z.to_euclidean_division_equations.

#[global] Arguments Z.testbit : simpl never.

(** [wraps] exposes the definitions of the width conversions to [lia]. *)
Ltac wraps := unfold u8, u16, u32, u64, s8, s16, s32 in *.

Lemma u8_id x : 0 <= x < 256 -> u8 x = x.
Proof. wraps; lia. Qed.
Lemma u16_id x : 0 <= x < 65536 -> u16 x = x.
Proof. wraps; lia. Qed.
Lemma u32_id x : 0 <= x < 4294967296 -> u32 x = x.
Proof. wraps; lia. Qed.
Lemma s32_id x : -2147483648 <= x < 2147483648 -> s32 x = x.
Proof. wraps; lia. Qed.
Lemma u8_range x : 0 <= u8 x < 256.
Proof. wraps; lia. Qed.
Lemma u16_range x : 0 <= u16 x < 65536.
Proof. wraps; lia. Qed.
Lemma u32_range x : 0 <= u32 x < 4294967296.
Proof. wraps; lia. Qed.
Lemma s16_range x : -32768 <= s16 x < 32768.
Proof. wraps; lia. Qed.

(** Shifting in a digit below the base. *)
Lemma lor_low v d k : 0 <= d < 2 ^ k -> 0 <= k -> Z.lor (v * 2 ^ k) d = v * 2 ^ k + d.
Proof.
  intros Hd Hk.
  assert (Hz : Z.land (v * 2 ^ k) d = 0).
  { apply Z.bits_inj'. intros i Hi. rewrite Z.land_spec, Z.bits_0.
    destruct (Z.ltb_spec i k).
    - by rewrite Z.mul_pow2_bits_low by lia.
    - assert (d < 2 ^ i) by (apply Z.lt_le_trans with (2 ^ k); [lia|apply Z.pow_le_mono_r; lia]).
      assert (Z.testbit d i = false) as ->; [|apply andb_false_r].
      rewrite Z.testbit_false by lia. by rewrite Z.div_small by lia. }
  rewrite <- Z.lxor_lor by done. symmetry. by apply Z.add_nocarry_lxor.
Qed.

Lemma shift_in v d k : 0 <= v -> 0 <= d < 2 ^ k -> 0 <= k -> v * 2 ^ k < 4294967296 ->
  Z.lor (u32 (Z.shiftl v k)) d = v * 2 ^ k + d.
Proof.
  intros Hv Hd Hk Hlt. rewrite Z.shiftl_mul_pow2 by done.
  rewrite u32_id by (split; [nia|done]). by apply lor_low.
Qed.

(** The two compilation targets of the Makefile differ in the signedness of
    plain [char] and in the width of [long]: x86-64 Linux has a signed [char]
    and a 64-bit [long], the STM32F4 an unsigned [char] and a 32-bit [long]. *)
Class Target := { char_signed : bool; long64 : bool }.

Definition linux_target : Target := {| char_signed := true; long64 := true |}.
Definition stm32_target : Target := {| char_signed := false; long64 := false |}.

(** The value of a [char] that holds the byte [c]. *)
Definition chr `{Target} (c : Z) : Z := if char_signed then s8 c else u8 c.

(** The value converted to [unsigned long] and to [long]. *)
Definition ulong `{Target} (x : Z) : Z := if long64 then u64 x else u32 x.
Definition slong `{Target} (x : Z) : Z :=
  if long64 then (x + 9223372036854775808) mod 18446744073709551616 - 9223372036854775808
  else s32 x.

(** The build configuration: the debug macros of the Makefile ([DEF_DEBUG]) and
    whether the LCD is compiled in.  Theorems hold for every configuration. *)
Class Config := {
  CONFIG_SOUND_DEBUG : bool;
  CONFIG_LIBMAD_DEBUG : bool;
  CONFIG_SALLOC_DEBUG : bool;
  CONFIG_LCD_DEBUG : bool;
  CONFIG_NET_DEBUG : bool;
  CONFIG_USB_DEBUG : bool;
  CONFIG_FS_DEBUG : bool;
  CONFIG_RESOURCES_DEBUG : bool;
  CONFIG_IOBUFFER_DEBUG : bool;
  CONFIG_PLAYER_DEBUG : bool;
  NO_LCD : bool
}.

(** The Makefile's default: all debug messages on; [lcd] is off on Linux. *)
Definition default_config (no_lcd : bool) : Config :=
  Build_Config true true true true true true true true true true no_lcd.

(** ** Literals

    A C string literal is the list of its bytes without the terminating NUL.
    The escapes of the sources (backslash n, r, b, and e for the octal 033) are
    interpreted. *)
Definition byte_of (c : Ascii.ascii) : Z := Z.of_nat (Ascii.nat_of_ascii c).

Definition char_of (s : string) : Z :=
  match s with String c _ => byte_of c | EmptyString => 0 end.

Definition escape (c : Z) : Z :=
  if c =? 110 then 10 else if c =? 114 then 13
  else if c =? 98 then 8 else if c =? 101 then 27 else c.

Fixpoint bytes_of_string (s : string) : list Z :=
  match s with
  | EmptyString => []
  | String b r =>
      if byte_of b =? 92 then
        match r with
        | EmptyString => []
        | String c r => escape (byte_of c) :: bytes_of_string r
        end
      else byte_of b :: bytes_of_string r
  end.

Declare Scope mardio_scope.
Delimit Scope mardio_scope with mardio.
(** [&"text"] is a string literal and [ch "c"] a character literal; both stand
    for their computed values. *)
Notation "& s" := (ltac:(let x := eval vm_compute in (bytes_of_string s) in exact x))
  (at level 9, only parsing) : mardio_scope.
Abbreviation ch s := (ltac:(let x := eval vm_compute in (char_of s) in exact x)) (only parsing).
Open Scope mardio_scope.

(** A byte list is a C string when it holds no NUL and only bytes. *)
Definition is_byte (c : Z) : Prop := 0 <= c < 256.
Definition cstring (s : list Z) : Prop := Forall (fun c => 0 < c < 256) s.

(** ** Outcomes and the state monad

    A C function is a computation over the static data it can reach.  It ends
    normally ([Done]), it executes something the C language leaves undefined
    ([Fault]: an access outside an object, a null dereference, a missing
    variadic argument), or the fuel given to one of its loops is used up
    ([NoFuel]; excluded by the totality theorems).  The bytes handed to the
    console output device are collected on the way. *)
Inductive res (A : Type) : Type :=
| Done (a : A)
| Fault
| NoFuel.
Arguments Done {A} a.
Arguments Fault {A}.
Arguments NoFuel {A}.

(** Computations without a state. *)
Definition res_bind {A B} (r : res A) (k : A -> res B) : res B :=
  match r with Done a => k a | Fault => Fault | NoFuel => NoFuel end.
Definition res_opt {A} (o : option A) : res A := match o with Some a => Done a | None => Fault end.

Definition M (S A : Type) : Type := S -> res (A * S * list Z).

Section Monad.
Context {S : Type}.

Definition ret {A} (a : A) : M S A := fun s => Done (a, s, []).

Definition bind {A B} (m : M S A) (k : A -> M S B) : M S B := fun s =>
  match m s with
  | Done (a, s', o) =>
      match k a s' with
      | Done (b, s'', o') => Done (b, s'', o ++ o')
      | Fault => Fault
      | NoFuel => NoFuel
      end
  | Fault => Fault
  | NoFuel => NoFuel
  end.

Definition fault {A} : M S A := fun _ => Fault.
Definition nofuel {A} : M S A := fun _ => NoFuel.
Definition get : M S S := fun s => Done (s, s, []).
Definition gets {A} (f : S -> A) : M S A := fun s => Done (f s, s, []).
Definition put (s : S) : M S unit := fun _ => Done (tt, s, []).
Definition modify (f : S -> S) : M S unit := fun s => Done (tt, f s, []).
Definition tell (o : list Z) : M S unit := fun s => Done (tt, s, o).

(** A pure partial operation: [None] is undefined behaviour. *)
Definition lift {A} (o : option A) : M S A := fun s =>
  match o with Some a => Done (a, s, []) | None => Fault end.

(** A pure operation with loops of its own. *)
Definition lift_res {A} (r : res A) : M S A := fun s =>
  match r with Done a => Done (a, s, []) | Fault => Fault | NoFuel => NoFuel end.

Definition when (b : bool) (m : M S unit) : M S unit := if b then m else ret tt.
End Monad.

(** Run a computation on a part of the state. *)
Definition zoom {S C A} (proj : S -> C) (upd : C -> S -> S) (m : M C A) : M S A := fun s =>
  match m (proj s) with
  | Done (a, c, o) => Done (a, upd c s, o)
  | Fault => Fault
  | NoFuel => NoFuel
  end.

Notation "'let*' x := m 'in' k" := (bind m (fun x => k))
  (at level 10, x pattern, m at level 100, k at level 200,
   format "'[v' 'let*'  x  :=  m  'in' '/' k ']'") : mardio_scope.
Notation "'let!' x := m 'in' k" := (res_bind m (fun x => k))
  (at level 10, x pattern, m at level 100, k at level 200,
   format "'[v' 'let!'  x  :=  m  'in' '/' k ']'") : mardio_scope.
Notation "m ;; k" := (bind m (fun _ => k))
  (at level 100, k at level 200, right associativity,
   format "'[v' m  ;; '/' k ']'") : mardio_scope.

(** [for (x = lo; x < lo + n; x++) body(x)] *)
Fixpoint for_range {S} (lo : Z) (n : nat) (body : Z -> M S unit) : M S unit :=
  match n with
  | O => ret tt
  | Datatypes.S n' => body lo ;; for_range (lo + 1) n' body
  end.

(** *** Arrays indexed by C integers *)

Definition zget {A} (l : list A) (i : Z) : option A :=
  if i <? 0 then None else l !! Z.to_nat i.

Definition zset {A} (l : list A) (i : Z) (x : A) : option (list A) :=
  if (0 <=? i) && (i <? Z.of_nat (length l)) then Some (<[Z.to_nat i := x]> l) else None.

Definition zlen {A} (l : list A) : Z := Z.of_nat (length l).

(** The character at index [i] of a C string: the terminating NUL is readable,
    nothing behind it is. *)
Definition cchar (s : list Z) (i : Z) : option Z :=
  if i =? zlen s then Some 0 else zget s i.

(** ** Total weakest preconditions

    [wp m Q s]: the computation [m], started in [s], ends normally, in a state
    and with a result that satisfy [Q].  It excludes both [Fault] and
    [NoFuel]. *)
Definition wp {S A} (m : M S A) (Q : A -> S -> Prop) (s : S) : Prop :=
  match m s with
  | Done (a, s', _) => Q a s'
  | Fault => False
  | NoFuel => False
  end.

Section Wp.
Context {S : Type}.
Implicit Types s : S.

Lemma wp_mono {A} (m : M S A) (P Q : A -> S -> Prop) s :
  (forall a s', P a s' -> Q a s') -> wp m P s -> wp m Q s.
Proof. unfold wp. destruct (m s) as [[[a s'] o]| |]; auto. Qed.

Lemma wp_ret {A} (a : A) (Q : A -> S -> Prop) s : Q a s -> wp (ret a) Q s.
Proof. done. Qed.

Lemma wp_bind {A B} (m : M S A) (k : A -> M S B) Q s :
  wp m (fun a => wp (k a) Q) s -> wp (bind m k) Q s.
Proof.
  unfold wp, bind. destruct (m s) as [[[a s'] o]| |]; auto.
  destruct (k a s') as [[[b s''] o']| |]; auto.
Qed.

Lemma wp_bind_inv {A B} (m : M S A) (k : A -> M S B) Q s :
  wp (bind m k) Q s -> wp m (fun a => wp (k a) Q) s.
Proof.
  unfold wp, bind. destruct (m s) as [[[a s'] o]| |]; auto.
  destruct (k a s') as [[[b s''] o']| |]; auto.
Qed.

Lemma wp_get Q s : Q s s -> wp get Q s.
Proof. done. Qed.
Lemma wp_gets {A} (f : S -> A) Q s : Q (f s) s -> wp (gets f) Q s.
Proof. done. Qed.
Lemma wp_put s' Q s : Q tt s' -> wp (put s') Q s.
Proof. done. Qed.
Lemma wp_modify f Q s : Q tt (f s) -> wp (modify f) Q s.
Proof. done. Qed.
Lemma wp_tell o Q s : Q tt s -> wp (tell o) Q s.
Proof. done. Qed.
Lemma wp_lift {A} (o : option A) a Q s : o = Some a -> Q a s -> wp (lift o) Q s.
Proof. intros ->. done. Qed.
Lemma wp_when b (m : M S unit) Q s :
  (b = true -> wp m Q s) -> (b = false -> Q tt s) -> wp (when b m) Q s.
Proof. destruct b; intros H1 H2; [by apply H1|by apply wp_ret, H2]. Qed.
Lemma wp_if {A} (b : bool) (m n : M S A) Q s :
  (b = true -> wp m Q s) -> (b = false -> wp n Q s) -> wp (if b then m else n) Q s.
Proof. destruct b; auto. Qed.

Lemma wp_conj {A} (m : M S A) P Q s :
  wp m P s -> wp m Q s -> wp m (fun a s' => P a s' /\ Q a s') s.
Proof. unfold wp. destruct (m s) as [[[a s'] o]| |]; auto. Qed.

(** What [wp] says about the run of the computation. *)
Lemma wp_run {A} (m : M S A) Q s :
  wp m Q s <-> exists a s' o, m s = Done (a, s', o) /\ Q a s'.
Proof.
  unfold wp. split.
  - destruct (m s) as [[[a s'] o]| |]; naive_solver.
  - intros (a & s' & o & -> & ?). done.
Qed.
End Wp.

Lemma wp_zoom {S C A} (proj : S -> C) upd (m : M C A) Q s :
  wp m (fun a c => Q a (upd c s)) (proj s) -> wp (zoom proj upd m) Q s.
Proof. unfold wp, zoom. destruct (m (proj s)) as [[[a c] o]| |]; auto. Qed.

(** A loop of [n] rounds preserves what its body preserves. *)
Lemma wp_for_range {S} (I : Z -> S -> Prop) n : forall lo (body : Z -> M S unit) s,
  (forall i s', lo <= i < lo + Z.of_nat n -> I i s' ->
     wp (body i) (fun _ s'' => I (i + 1) s'') s') ->
  I lo s -> wp (for_range lo n body) (fun _ s' => I (lo + Z.of_nat n) s') s.
Proof.
  induction n as [|n IH]; intros lo body s Hb Hi; simpl.
  - apply wp_ret. by rewrite Z.add_0_r.
  - apply wp_bind. eapply wp_mono; [|apply Hb; [lia|done]].
    intros a s' Hi'. eapply wp_mono; [|apply IH; [|done]].
    + simpl. intros ? s''. by replace (lo + 1 + Z.of_nat n) with (lo + Z.of_nat (Datatypes.S n)) by lia.
    + intros i s'' ? ?. apply Hb; [lia|done].
Qed.

(** ** Termination and invariants, short of undefined behaviour

    [pp m Q s]: the computation [m], started in [s], ends (no loop exhausts its
    fuel), and unless it runs into undefined behaviour it ends in a state and
    with a result that satisfy [Q].  The invariants of the whole system are
    stated with it: what they say holds for every input, also for those that
    drive the program into undefined behaviour sooner or later. *)
Definition pp {S A} (m : M S A) (Q : A -> S -> Prop) (s : S) : Prop :=
  match m s with
  | Done (a, s', _) => Q a s'
  | Fault => True
  | NoFuel => False
  end.

Section Pp.
Context {S : Type}.
Implicit Types s : S.

Lemma wp_pp {A} (m : M S A) Q s : wp m Q s -> pp m Q s.
Proof. unfold wp, pp. destruct (m s) as [[[a s'] o]| |]; auto. Qed.

Lemma pp_mono {A} (m : M S A) (P Q : A -> S -> Prop) s :
  (forall a s', P a s' -> Q a s') -> pp m P s -> pp m Q s.
Proof. unfold pp. destruct (m s) as [[[a s'] o]| |]; auto. Qed.

Lemma pp_ret {A} (a : A) (Q : A -> S -> Prop) s : Q a s -> pp (ret a) Q s.
Proof. done. Qed.

Lemma pp_bind {A B} (m : M S A) (k : A -> M S B) Q s :
  pp m (fun a => pp (k a) Q) s -> pp (bind m k) Q s.
Proof.
  unfold pp, bind. destruct (m s) as [[[a s'] o]| |]; auto.
  destruct (k a s') as [[[b s''] o']| |]; auto.
Qed.

Lemma pp_get Q s : Q s s -> pp get Q s.
Proof. done. Qed.
Lemma pp_gets {A} (f : S -> A) Q s : Q (f s) s -> pp (gets f) Q s.
Proof. done. Qed.
Lemma pp_put s' Q s : Q tt s' -> pp (put s') Q s.
Proof. done. Qed.
Lemma pp_modify f Q s : Q tt (f s) -> pp (modify f) Q s.
Proof. done. Qed.
Lemma pp_fault {A} (Q : A -> S -> Prop) s : pp fault Q s.
Proof. done. Qed.
Lemma pp_lift {A} (o : option A) Q s : (forall a, o = Some a -> Q a s) -> pp (lift o) Q s.
Proof. unfold pp, lift. destruct o; auto. Qed.
Lemma pp_lift_res {A} (r : res A) Q s : r <> NoFuel -> (forall a, r = Done a -> Q a s) -> pp (lift_res r) Q s.
Proof. unfold pp, lift_res. destruct r; auto. Qed.
Lemma pp_when b (m : M S unit) Q s :
  (b = true -> pp m Q s) -> (b = false -> Q tt s) -> pp (when b m) Q s.
Proof. destruct b; intros H1 H2; [by apply H1|by apply pp_ret, H2]. Qed.
Lemma pp_if {A} (b : bool) (m n : M S A) Q s :
  (b = true -> pp m Q s) -> (b = false -> pp n Q s) -> pp (if b then m else n) Q s.
Proof. destruct b; auto. Qed.
Lemma pp_conj {A} (m : M S A) P Q s :
  pp m P s -> pp m Q s -> pp m (fun a s' => P a s' /\ Q a s') s.
Proof. unfold pp. destruct (m s) as [[[a s'] o]| |]; auto. Qed.
End Pp.

Lemma pp_zoom {S C A} (proj : S -> C) upd (m : M C A) Q s :
  pp m (fun a c => Q a (upd c s)) (proj s) -> pp (zoom proj upd m) Q s.
Proof. unfold pp, zoom. destruct (m (proj s)) as [[[a c] o]| |]; auto. Qed.

Lemma pp_for_range {S} (I : S -> Prop) n : forall lo (body : Z -> M S unit) s,
  (forall i s', I s' -> pp (body i) (fun _ => I) s') ->
  I s -> pp (for_range lo n body) (fun _ => I) s.
Proof.
  induction n as [|n IH]; intros lo body s Hb Hi; simpl; [by apply pp_ret|].
  apply pp_bind. eapply pp_mono; [|by apply Hb]. intros a s' Hi'. by apply IH.
Qed.

(** The state a run ends in, for concrete runs. *)
Definition is_done {S A} (m : M S A) (s : S) : bool := match m s with Done _ => true | _ => false end.
Definition final {S A} (m : M S A) (s : S) : S := match m s with Done (_, s', _) => s' | _ => s end.

Lemma pp_final {S A} (m : M S A) (Q : S -> Prop) s : pp m (fun _ => Q) s -> is_done m s = true -> Q (final m s).
Proof. unfold pp, is_done, final. by destruct (m s) as [[[a s'] o]| |]. Qed.

(** [pp_step] is the counterpart of [wp_step] below. *)
Ltac pp_step :=
  lazymatch goal with
  | |- pp (bind _ _) _ _ => apply pp_bind
  | |- pp (ret _) _ _ => apply pp_ret
  | |- pp get _ _ => apply pp_get
  | |- pp (gets _) _ _ => apply pp_gets
  | |- pp (put _) _ _ => apply pp_put
  | |- pp (modify _) _ _ => apply pp_modify
  | |- pp fault _ _ => apply pp_fault
  | |- pp (lift _) _ _ => apply pp_lift; intros
  | |- pp (zoom _ _ _) _ _ => apply pp_zoom
  | |- pp (when _ _) _ _ => apply pp_when; intros
  end.
Ltac pp_steps := repeat (pp_step; cbn beta).

(** [wp_step] runs one step of a straight-line computation. *)
Ltac wp_step :=
  lazymatch goal with
  | |- wp (bind _ _) _ _ => apply wp_bind
  | |- wp (ret _) _ _ => apply wp_ret
  | |- wp get _ _ => apply wp_get
  | |- wp (gets _) _ _ => apply wp_gets
  | |- wp (put _) _ _ => apply wp_put
  | |- wp (modify _) _ _ => apply wp_modify
  | |- wp (tell _) _ _ => apply wp_tell
  | |- wp (zoom _ _ _) _ _ => apply wp_zoom
  end.
Ltac wp_steps := repeat (wp_step; cbn beta).

(** ** Arrays: the lemmas the components share *)

Section Arrays.
Context {A : Type}.
Implicit Types l : list A.

Lemma zlen_nonneg l : 0 <= zlen l.
Proof. unfold zlen. lia. Qed.

Lemma zlen_app l1 l2 : zlen (l1 ++ l2) = zlen l1 + zlen l2.
Proof. unfold zlen. rewrite length_app. lia. Qed.

Lemma zlen_cons x l : zlen (x :: l) = 1 + zlen l.
Proof. unfold zlen. simpl. lia. Qed.

Lemma zlen_nil : zlen (@nil A) = 0.
Proof. done. Qed.
Lemma zlen_insert (i : nat) x l : zlen (<[i := x]> l : list A) = zlen l.
Proof. unfold zlen. by rewrite length_insert. Qed.
Lemma zlen_repeat (x : A) n : zlen (repeat x n) = Z.of_nat n.
Proof. unfold zlen. by rewrite repeat_length. Qed.

Lemma zget_some l i : 0 <= i < zlen l -> exists x, zget l i = Some x.
Proof.
  intros Hi. unfold zget. case_match; [lia|].
  destruct (lookup_lt_is_Some_2 l (Z.to_nat i)) as [x Hx]; [unfold zlen in Hi; lia|eauto].
Qed.

Lemma zget_nat l (i : nat) : zget l (Z.of_nat i) = l !! i.
Proof. unfold zget. rewrite (proj2 (Z.ltb_ge _ 0)) by lia. by rewrite Nat2Z.id. Qed.

Lemma zget_range l i x : zget l i = Some x -> 0 <= i < zlen l.
Proof.
  unfold zget, zlen. case_match; [done|]. intros Hx.
  apply lookup_lt_Some in Hx. lia.
Qed.
Lemma zget_lookup l i x : zget l i = Some x -> l !! Z.to_nat i = Some x.
Proof. unfold zget. by case_match. Qed.

Lemma zset_some l i x : 0 <= i < zlen l -> zset l i x = Some (<[Z.to_nat i := x]> l).
Proof.
  intros Hi. unfold zset, zlen in *.
  destruct (0 <=? i) eqn:?, (i <? Z.of_nat (length l)) eqn:?; simpl; try done; lia.
Qed.

Lemma zset_none l i x : ~ (0 <= i < zlen l) -> zset l i x = None.
Proof.
  intros Hi. unfold zset, zlen in *.
  destruct (0 <=? i) eqn:?, (i <? Z.of_nat (length l)) eqn:?; simpl; try done; lia.
Qed.

Lemma zset_length l i x l' : zset l i x = Some l' -> length l' = length l.
Proof. unfold zset. case_match; [|done]. intros [= <-]. by rewrite length_insert. Qed.

Lemma zget_zset_eq l i x l' : zset l i x = Some l' -> zget l' i = Some x.
Proof.
  unfold zset, zget. case_match eqn:Hb; [|done]. intros [= <-].
  apply andb_true_iff in Hb as [H0 H1]. case_match; [lia|].
  apply list_lookup_insert_eq. lia.
Qed.

Lemma zget_zset_ne l i j x l' : zset l i x = Some l' -> i <> j -> zget l' j = zget l j.
Proof.
  unfold zset, zget. case_match eqn:Hb; [|done]. intros [= <-] Hij.
  apply andb_true_iff in Hb as [H0 H1]. case_match; [done|].
  apply list_lookup_insert_ne. lia.
Qed.
End Arrays.

Create HintDb mardio.
#[export] Hint Resolve zlen_nonneg u8_range u16_range u32_range s16_range : mardio.
#[export] Hint Resolve wp_ret : mardio.
