(* ===== verification/Strings.v ===== *)
(** * libs/libc/strings.c: the memory and string routines

    The routines run over a byte memory, so that overlapping regions and reads
    behind a terminator are visible: an access to an address that belongs to no
    object is a [Fault].  [bytes_at] describes an object, [cstr_at] a
    NUL-terminated string.  The second half of the file gives the list-level
    counterparts that the other components use (a component keeps its buffers
    as byte lists) and proves that the memory-level routines compute them. *)

From stdpp Require Import gmap.
From S2P Require Import Prelude.

(** ** The memory *)

Abbreviation mem := (gmap Z Z).

Definition NULL : Z := 0.

Definition load (p : Z) : M mem Z := fun m =>
  match m !! p with Some b => Done (b, m, []) | None => Fault end.

Definition store (p v : Z) : M mem unit := fun m =>
  match m !! p with Some _ => Done (tt, <[p := v]> m, []) | None => Fault end.

(** ** The routines *)

Fixpoint memset_loop (p c : Z) (n : nat) : M mem unit :=
  match n with
  | O => ret tt
  | S n' => store p (u8 c) ;; memset_loop (p + 1) c n'
  end.

Definition uc_memset (s c : Z) (n : nat) : M mem Z :=
  memset_loop s c n ;; ret s.

Fixpoint memcpy_loop (r1 r2 : Z) (n : nat) : M mem unit :=
  match n with
  | O => ret tt
  | S n' => let* b := load r2 in store r1 b ;; memcpy_loop (r1 + 1) (r2 + 1) n'
  end.

Definition uc_memcpy (s1 s2 : Z) (n : nat) : M mem Z :=
  memcpy_loop s1 s2 n ;; ret s1.

(** [while (n-- && ((r = *r1++ - *r2++) == 0));] *)
Fixpoint memcmp_loop (r1 r2 : Z) (n : nat) (r : Z) : M mem Z :=
  match n with
  | O => ret r
  | S n' =>
      let* a := load r1 in
      let* b := load r2 in
      if a - b =? 0 then memcmp_loop (r1 + 1) (r2 + 1) n' (a - b) else ret (a - b)
  end.

Definition uc_memcmp (s1 s2 : Z) (n : nat) : M mem Z := memcmp_loop s1 s2 n 0.

(** The branch of [uc_memmove] that copies from the end. *)
Fixpoint memmove_back (s p : Z) (n : nat) : M mem unit :=
  match n with
  | O => ret tt
  | S n' =>
      let* b := load (p + Z.of_nat n') in
      store (s + Z.of_nat n') b ;; memmove_back s p n'
  end.

Definition uc_memmove (s1 s2 : Z) (n : nat) : M mem Z :=
  (if s2 >=? s1 then memcpy_loop s1 s2 n else memmove_back s1 s2 n) ;; ret s1.

Fixpoint uc_memchr (r c : Z) (n : nat) : M mem Z :=
  match n with
  | O => ret NULL
  | S n' =>
      let* b := load r in
      if b =? u8 c then ret r else uc_memchr (r + 1) c n'
  end.

Fixpoint strstr_loop (fuel : nat) (s2 s1 s p : Z) : M mem Z :=
  match fuel with
  | O => nofuel
  | S fuel' =>
      let* pc := load p in
      if pc =? 0 then ret s1
      else
        let* sc := load s in
        if pc =? sc then strstr_loop fuel' s2 s1 (s + 1) (p + 1)
        else if sc =? 0 then ret NULL
        else strstr_loop fuel' s2 (s1 + 1) (s1 + 1) s2
  end.

Definition uc_strstr (fuel : nat) (s1 s2 : Z) : M mem Z := strstr_loop fuel s2 s1 s1 s2.

Fixpoint strlen_loop (fuel : nat) (s p : Z) : M mem Z :=
  match fuel with
  | O => nofuel
  | S fuel' =>
      let* c := load p in
      if c =? 0 then ret (p - s) else strlen_loop fuel' s (p + 1)
  end.

Definition uc_strlen (fuel : nat) (s : Z) : M mem Z := strlen_loop fuel s s.

Fixpoint uc_strcmp (fuel : nat) (s1 s2 : Z) : M mem Z :=
  match fuel with
  | O => nofuel
  | S fuel' =>
      let* a := load s1 in
      let* b := load s2 in
      if a - b =? 0 then
        (if a =? 0 then ret (a - b) else uc_strcmp fuel' (s1 + 1) (s2 + 1))
      else ret (a - b)
  end.

Fixpoint strncmp_loop (s1 s2 : Z) (n : nat) (r : Z) : M mem Z :=
  match n with
  | O => ret r
  | S n' =>
      let* a := load s1 in
      let* b := load s2 in
      if a - b =? 0 then
        (if a =? 0 then ret (a - b) else strncmp_loop (s1 + 1) (s2 + 1) n' (a - b))
      else ret (a - b)
  end.

Definition uc_strncmp (s1 s2 : Z) (n : nat) : M mem Z := strncmp_loop s1 s2 n 0.

Fixpoint strcpy_loop (fuel : nat) (s s2 : Z) : M mem unit :=
  match fuel with
  | O => nofuel
  | S fuel' =>
      let* c := load s2 in
      store s c ;; if c =? 0 then ret tt else strcpy_loop fuel' (s + 1) (s2 + 1)
  end.

Definition uc_strcpy (fuel : nat) (s1 s2 : Z) : M mem Z := strcpy_loop fuel s1 s2 ;; ret s1.

(** ** List-level counterparts *)

(** Both arguments are the readable bytes of the objects compared, the
    terminators included; [None] is a read behind the end of one of them. *)
Fixpoint memcmp_l (a b : list Z) (n : nat) {struct n} : option Z :=
  match n with
  | O => Some 0
  | S n' =>
      match a, b with
      | x :: a', y :: b' => if x - y =? 0 then memcmp_l a' b' n' else Some (x - y)
      | _, _ => None
      end
  end.

Fixpoint strncmp_l (a b : list Z) (n : nat) {struct n} : option Z :=
  match n with
  | O => Some 0
  | S n' =>
      match a, b with
      | x :: a', y :: b' =>
          if x - y =? 0 then (if x =? 0 then Some 0 else strncmp_l a' b' n') else Some (x - y)
      | _, _ => None
      end
  end.

(** The readable bytes of the C string [s]. *)
Definition cz (s : list Z) : list Z := s ++ [0].

(** First position at which [needle] occurs in [hay]. *)
Fixpoint find_sub (needle hay : list Z) : option nat :=
  if bool_decide (needle `prefix_of` hay) then Some O
  else match hay with [] => None | _ :: t => S <$> find_sub needle t end.

(** [uc_strstr(hay, needle) != NULL] *)
Definition strstr_found (hay needle : list Z) : bool :=
  match find_sub needle hay with Some _ => true | None => false end.

(** ** Objects in memory *)

Fixpoint bytes_at (m : mem) (p : Z) (l : list Z) : Prop :=
  match l with
  | [] => True
  | b :: l' => m !! p = Some b /\ bytes_at m (p + 1) l'
  end.

Definition mapped (m : mem) (p : Z) (n : nat) : Prop :=
  forall a, p <= a < p + Z.of_nat n -> is_Some (m !! a).

Definition same_outside (p : Z) (n : nat) (m m' : mem) : Prop :=
  forall a, ~ (p <= a < p + Z.of_nat n) -> m' !! a = m !! a.

Definition cstr_at (m : mem) (p : Z) (s : list Z) : Prop :=
  bytes_at m p (cz s) /\ cstring s.

Lemma bytes_at_app m p l1 l2 :
  bytes_at m p (l1 ++ l2) <-> bytes_at m p l1 /\ bytes_at m (p + zlen l1) l2.
Proof.
  revert p; induction l1 as [|b l1 IH]; intros p; simpl.
  - unfold zlen; simpl. rewrite Z.add_0_r. tauto.
  - rewrite IH. unfold zlen; simpl length.
    replace (p + 1 + Z.of_nat (length l1)) with (p + Z.of_nat (S (length l1))) by lia.
    tauto.
Qed.

Lemma bytes_at_ext m m' p l :
  (forall a, p <= a < p + zlen l -> m' !! a = m !! a) -> bytes_at m p l -> bytes_at m' p l.
Proof.
  revert p; induction l as [|b l IH]; intros p Hm; simpl; [done|].
  unfold zlen in *; simpl in Hm. intros [Hb Hl]. split.
  - rewrite Hm; [done|lia].
  - apply IH; [|done]. intros a Ha. apply Hm. lia.
Qed.

Lemma bytes_at_insert m p l a v :
  ~ (p <= a < p + zlen l) -> bytes_at m p l -> bytes_at (<[a := v]> m) p l.
Proof.
  intros Ha. apply bytes_at_ext. intros x Hx. apply lookup_insert_ne. lia.
Qed.

Lemma mapped_insert m p n a v : mapped m p n -> mapped (<[a := v]> m) p n.
Proof.
  intros Hm x Hx. destruct (decide (a = x)) as [->|Hne].
  - rewrite lookup_insert_eq. eauto.
  - rewrite lookup_insert_ne by done. auto.
Qed.

Lemma mapped_S m p n : mapped m p (S n) -> is_Some (m !! p) /\ mapped m (p + 1) n.
Proof. intros Hm. split; [apply Hm; lia|]. intros a Ha. apply Hm. lia. Qed.

(** *** Rules for the memory accesses *)

Lemma wp_load m p b (Q : Z -> mem -> Prop) : m !! p = Some b -> Q b m -> wp (load p) Q m.
Proof. intros Hb HQ. unfold wp, load. by rewrite Hb. Qed.

Lemma wp_store m p v (Q : unit -> mem -> Prop) :
  is_Some (m !! p) -> Q tt (<[p := v]> m) -> wp (store p v) Q m.
Proof. intros [b Hb] HQ. unfold wp, store. by rewrite Hb. Qed.

Ltac mem_step :=
  first [ wp_step; cbn beta
        | eapply wp_load; [solve [eauto]|]
        | eapply wp_store; [solve [eauto]|] ].

(** ** Copying *)

Lemma memcpy_loop_spec l : forall m dst src,
  bytes_at m src l -> mapped m dst (length l) ->
  dst <= src \/ src + zlen l <= dst ->
  wp (memcpy_loop dst src (length l))
     (fun _ m' => bytes_at m' dst l /\ same_outside dst (length l) m m') m.
Proof.
  induction l as [|b l IH]; intros m dst src Hs Hd Hov; simpl.
  - apply wp_ret. split; [done|]. by intros a _.
  - destruct Hs as [Hb Hs]. apply mapped_S in Hd as [Hd0 Hd].
    unfold zlen in Hov; simpl in Hov. repeat mem_step.
    eapply wp_mono; [|apply IH].
    + intros [] m' [Hl Ho]. split; [split; [|done]|].
      * rewrite Ho by lia. apply lookup_insert_eq.
      * intros a Ha. rewrite Ho by lia. apply lookup_insert_ne. lia.
    + apply bytes_at_insert; [unfold zlen; lia|done].
    + by apply mapped_insert.
    + unfold zlen. lia.
Qed.

Lemma memmove_back_spec m dst src l :
  bytes_at m src l -> mapped m dst (length l) -> src <= dst ->
  wp (memmove_back dst src (length l))
     (fun _ m' => bytes_at m' dst l /\ same_outside dst (length l) m m') m.
Proof.
  revert m. induction l as [|b l IH] using rev_ind; intros m Hs Hd Hov.
  - apply wp_ret. split; [done|]. by intros a _.
  - apply bytes_at_app in Hs as [Hs [Hb _]].
    rewrite length_app, Nat.add_1_r in *. simpl.
    assert (is_Some (m !! (dst + Z.of_nat (length l)))) by (apply Hd; lia).
    repeat mem_step. eapply wp_mono; [|apply IH].
    + intros [] m' [Hl Ho]. split.
      * apply bytes_at_app. split; [done|]. split; [|done].
        unfold zlen. rewrite Ho by lia. apply lookup_insert_eq.
      * intros a Ha. rewrite Ho by lia. apply lookup_insert_ne. lia.
    + apply bytes_at_insert; [unfold zlen; lia|done].
    + apply mapped_insert. intros a Ha. apply Hd. lia.
    + done.
Qed.

(** [uc_memmove] copies an object correctly whatever the overlap of source
    and destination: the destination holds the bytes the source held before the
    call, nothing else changes, and the destination pointer is returned. *)
Theorem uc_memmove_correct m dst src l :
  bytes_at m src l -> mapped m dst (length l) ->
  wp (uc_memmove dst src (length l))
     (fun r m' => r = dst /\ bytes_at m' dst l /\ same_outside dst (length l) m m') m.
Proof.
  intros Hs Hd. unfold uc_memmove. wp_step.
  destruct (src >=? dst) eqn:Hcmp; (eapply wp_mono; [|first
    [apply memcpy_loop_spec | apply memmove_back_spec]; try done; lia]);
    intros [] m' ?; by apply wp_ret.
Qed.

Lemma uc_memcpy_correct m dst src l :
  bytes_at m src l -> mapped m dst (length l) ->
  dst <= src \/ src + zlen l <= dst ->
  wp (uc_memcpy dst src (length l))
     (fun r m' => r = dst /\ bytes_at m' dst l /\ same_outside dst (length l) m m') m.
Proof.
  intros Hs Hd Hov. unfold uc_memcpy. wp_step.
  eapply wp_mono; [|by apply memcpy_loop_spec]. intros [] m' ?. by apply wp_ret.
Qed.

Lemma memset_loop_spec n : forall m p c,
  mapped m p n ->
  wp (memset_loop p c n)
     (fun _ m' => bytes_at m' p (repeat (u8 c) n) /\ same_outside p n m m') m.
Proof.
  induction n as [|n IH]; intros m p c Hp; simpl.
  - apply wp_ret. split; [done|]. by intros a _.
  - apply mapped_S in Hp as [Hp0 Hp]. repeat mem_step.
    eapply wp_mono; [|apply IH; by apply mapped_insert].
    intros [] m' [Hl Ho]. split; [split; [|done]|].
    + rewrite Ho by lia. apply lookup_insert_eq.
    + intros a Ha. rewrite Ho by lia. apply lookup_insert_ne. lia.
Qed.

Lemma uc_memset_correct m p c n :
  mapped m p n ->
  wp (uc_memset p c n)
     (fun r m' => r = p /\ bytes_at m' p (repeat (u8 c) n) /\ same_outside p n m m') m.
Proof.
  intros Hp. unfold uc_memset. wp_step.
  eapply wp_mono; [|by apply memset_loop_spec]. intros [] m' ?. by apply wp_ret.
Qed.

(** ** Lengths, comparisons and searches *)

Lemma strlen_loop_spec s : forall m base p fuel,
  cstr_at m p s -> (length s < fuel)%nat ->
  wp (strlen_loop fuel base p) (fun r m' => r = p + zlen s - base /\ m' = m) m.
Proof.
  induction s as [|c s IH]; intros m base p fuel [Hb Hc] Hf;
    (destruct fuel as [|fuel]; [simpl in Hf; lia|]); simpl in Hb, Hf |- *.
  - destruct Hb as [Hb _]. repeat mem_step. simpl. apply wp_ret.
    split; [unfold zlen; simpl; lia|done].
  - destruct Hb as [Hb Hs]. inversion Hc; subst. repeat mem_step.
    rewrite (proj2 (Z.eqb_neq c 0)) by lia.
    eapply wp_mono; [|apply IH; [by split|lia]].
    simpl. intros r m' [-> ->]. split; [unfold zlen; simpl; lia|done].
Qed.

Lemma uc_strlen_correct m p s fuel :
  cstr_at m p s -> (length s < fuel)%nat ->
  wp (uc_strlen fuel p) (fun r m' => r = zlen s /\ m' = m) m.
Proof.
  intros Hs Hf. eapply wp_mono; [|by apply strlen_loop_spec].
  simpl. intros r m' [-> ->]. split; [lia|done].
Qed.

Lemma memcmp_loop_refines n : forall m a b p q r,
  bytes_at m p a -> bytes_at m q b -> memcmp_l a b n = Some r ->
  wp (memcmp_loop p q n 0) (fun r' m' => r' = r /\ m' = m) m.
Proof.
  induction n as [|n IH]; intros m a b p q r Ha Hb Hr; simpl in *.
  - apply wp_ret. split; [congruence|done].
  - destruct a as [|x a], b as [|y b]; try done.
    destruct Ha as [Hx Ha], Hb as [Hy Hb]. repeat mem_step.
    revert Hr. destruct (x - y =? 0) eqn:Hxy; intros Hr.
    + replace (x - y) with 0 by lia. eauto.
    + apply wp_ret. split; [congruence|done].
Qed.

Lemma strncmp_loop_refines n : forall m a b p q r,
  bytes_at m p a -> bytes_at m q b -> strncmp_l a b n = Some r ->
  wp (strncmp_loop p q n 0) (fun r' m' => r' = r /\ m' = m) m.
Proof.
  induction n as [|n IH]; intros m a b p q r Ha Hb Hr; simpl in *.
  - apply wp_ret. split; [congruence|done].
  - destruct a as [|x a], b as [|y b]; try done.
    destruct Ha as [Hx Ha], Hb as [Hy Hb]. repeat mem_step.
    revert Hr. destruct (x - y =? 0) eqn:Hxy; intros Hr.
    + replace (x - y) with 0 by lia.
      revert Hr. destruct (x =? 0); intros Hr; [apply wp_ret; split; [congruence|done]|eauto].
    + apply wp_ret. split; [congruence|done].
Qed.

(** Comparing the first [length y] bytes of two C strings is a prefix test: the
    terminator of the shorter one ends the comparison, so nothing behind it is
    read. *)
Lemma memcmp_prefix x y :
  cstring x -> cstring y ->
  exists r, memcmp_l (cz x) (cz y) (length y) = Some r /\ (r = 0 <-> y `prefix_of` x).
Proof.
  revert x. induction y as [|c y IH]; intros x Hx Hy.
  - exists 0. split; [done|]. split; [intros _; apply prefix_nil|done].
  - inversion Hy as [|? ? Hc Hy']; subst. destruct x as [|d x]; simpl.
    + exists (0 - c). rewrite (proj2 (Z.eqb_neq (0 - c) 0)) by lia.
      split; [done|]. split; [lia|]. intros [k Hk]. done.
    + inversion Hx as [|? ? Hd Hx']; subst.
      destruct (d - c =? 0) eqn:Hdc.
      * assert (d = c) as -> by lia. destruct (IH x Hx' Hy') as (r & Hr & Hp).
        exists r. split; [done|]. rewrite Hp. split.
        -- by apply prefix_cons.
        -- by apply prefix_cons_inv_2.
      * exists (d - c). split; [done|]. split; [lia|].
        intros Hp. apply prefix_cons_inv_1 in Hp. lia.
Qed.

(** The same for [uc_strncmp]. *)
(** Exchanging the arguments negates the result. *)
Lemma memcmp_opp a b n : memcmp_l a b n = Z.opp <$> memcmp_l b a n.
Proof.
  revert a b. induction n as [|n IH]; intros [|x a] [|y b]; simpl; try done.
  destruct (Z.eqb_spec (x - y) 0), (Z.eqb_spec (y - x) 0); try lia; [apply IH|].
  simpl. f_equal. lia.
Qed.

Lemma strncmp_prefix x y :
  cstring x -> cstring y ->
  exists r, strncmp_l (cz x) (cz y) (length y) = Some r /\ (r = 0 <-> y `prefix_of` x).
Proof.
  revert x. induction y as [|c y IH]; intros x Hx Hy.
  - exists 0. split; [done|]. split; [intros _; apply prefix_nil|done].
  - inversion Hy as [|? ? Hc Hy']; subst. destruct x as [|d x]; simpl.
    + exists (0 - c). rewrite (proj2 (Z.eqb_neq (0 - c) 0)) by lia.
      split; [done|]. split; [lia|]. intros [k Hk]. done.
    + inversion Hx as [|? ? Hd Hx']; subst.
      destruct (d - c =? 0) eqn:Hdc.
      * assert (d = c) as -> by lia. rewrite (proj2 (Z.eqb_neq c 0)) by lia.
        destruct (IH x Hx' Hy') as (r & Hr & Hp).
        exists r. split; [done|]. rewrite Hp. split.
        -- by apply prefix_cons.
        -- by apply prefix_cons_inv_2.
      * exists (d - c). split; [done|]. split; [lia|].
        intros Hp. apply prefix_cons_inv_1 in Hp. lia.
Qed.

(** *** [uc_strstr] *)

Lemma find_sub_unfold needle h :
  find_sub needle h =
  (if bool_decide (needle `prefix_of` h) then Some O
   else match h with [] => None | _ :: t => S <$> find_sub needle t end).
Proof. by destruct h. Qed.

Lemma find_sub_short needle h : (length h < length needle)%nat -> find_sub needle h = None.
Proof.
  induction h as [|c h IH]; intros Hl; rewrite find_sub_unfold;
    rewrite bool_decide_false by (intros Hp%prefix_length; simpl in *; lia); [done|].
  rewrite IH by (simpl in *; lia). done.
Qed.

(** One state of the loop: [pre] is the part of the needle already matched at
    [s1], [h'] what is left of the text there, [n'] what is left of the needle. *)
Lemma strstr_loop_spec s2 needle m :
  cstr_at m s2 needle ->
  forall fuel s1 pre h' n',
  needle = pre ++ n' -> cstr_at m s1 (pre ++ h') ->
  (length (pre ++ h') * S (length needle) + length n' < fuel)%nat ->
  wp (strstr_loop fuel s2 s1 (s1 + zlen pre) (s2 + zlen pre))
     (fun r m' => m' = m /\
        r = match find_sub needle (pre ++ h') with
            | Some k => s1 + Z.of_nat k | None => NULL end) m.
Proof.
  intros [Hn Hnc]. induction fuel as [|fuel IH]; intros s1 pre h' n' Hnd [Hh Hhc] Hf; [lia|].
  assert (Hn' := Hn). rewrite Hnd in Hn'. unfold cz in Hn', Hh.
  rewrite <- app_assoc, bytes_at_app in Hn', Hh. simpl.
  destruct Hn' as [_ Hn'], Hh as [Hpre Hh'].
  destruct n' as [|c n']; simpl in Hn'; destruct Hn' as [Hc Hn'].
  { repeat mem_step. apply wp_ret. rewrite app_nil_r in Hnd. subst pre.
    rewrite find_sub_unfold, bool_decide_true by (by apply prefix_app_r). split; [done|lia]. }
  assert (0 < c < 256) as Hcr.
  { rewrite Hnd in Hnc. apply Forall_app in Hnc as [_ Hnc]. by inversion Hnc. }
  destruct h' as [|d h']; simpl in Hh'; destruct Hh' as [Hd Hh'].
  { repeat mem_step. rewrite (proj2 (Z.eqb_neq c 0)) by lia. repeat mem_step.
    rewrite (proj2 (Z.eqb_neq c 0)) by lia. simpl. apply wp_ret. split; [done|].
    rewrite find_sub_short; [done|]. rewrite Hnd, !length_app. simpl. lia. }
  repeat mem_step. rewrite (proj2 (Z.eqb_neq c 0)) by lia. repeat mem_step.
  assert (0 < d < 256) as Hdr.
  { apply Forall_app in Hhc as [_ Hhc]. by inversion Hhc. }
  destruct (c =? d) eqn:Hcd.
  - assert (d = c) as -> by lia.
    assert (Hx : forall l, pre ++ c :: l = (pre ++ [c]) ++ l)
      by (intros l; by rewrite <- app_assoc).
    replace (s1 + zlen pre + 1) with (s1 + zlen (pre ++ [c]))
      by (unfold zlen; rewrite length_app; simpl; lia).
    replace (s2 + zlen pre + 1) with (s2 + zlen (pre ++ [c]))
      by (unfold zlen; rewrite length_app; simpl; lia).
    rewrite (Hx h'). apply (IH s1 (pre ++ [c]) h' n').
    + by rewrite <- Hx.
    + rewrite <- Hx. split; [|done]. unfold cz. rewrite <- app_assoc. apply bytes_at_app.
      split; [done|]. by split.
    + rewrite <- Hx. simpl in Hf. lia.
  - rewrite (proj2 (Z.eqb_neq d 0)) by lia.
    assert (Hstart : s1 + 1 = s1 + 1 + zlen (@nil Z)) by (unfold zlen; simpl; lia).
    assert (Hstart2 : s2 = s2 + zlen (@nil Z)) by (unfold zlen; simpl; lia).
    destruct (pre ++ d :: h') as [|x rest] eqn:Hrest; [by destruct pre|].
    assert (Hnp : ~ needle `prefix_of` x :: rest).
    { rewrite <- Hrest, Hnd. intros Hp%prefix_app_inv.
      apply prefix_cons_inv_1 in Hp. lia. }
    rewrite Hstart at 2. rewrite Hstart2 at 2.
    eapply wp_mono; [|apply (IH (s1 + 1) [] rest needle); [done| |]].
    + intros r m' [-> ->]. split; [done|]. change ([] ++ rest) with rest.
      rewrite (find_sub_unfold needle (x :: rest)), bool_decide_false by done.
      destruct (find_sub needle rest); simpl; [lia|done].
    + inversion Hhc; subst. split; [|done]. simpl app. unfold cz.
      assert (Hall : bytes_at m s1 ((x :: rest) ++ [0])).
      { rewrite <- Hrest, <- app_assoc. apply bytes_at_app. split; [done|]. by split. }
      apply Hall.
    + simpl app. simpl length in Hf. nia.
Qed.

(** [uc_strstr] returns, within a number of rounds bounded by the product of
    the lengths, the address of the FIRST occurrence of the needle, or NULL when
    the needle does not occur; memory is not changed. *)
Theorem uc_strstr_correct m s1 s2 hay needle fuel :
  cstr_at m s1 hay -> cstr_at m s2 needle ->
  (length hay * S (length needle) + length needle < fuel)%nat ->
  wp (uc_strstr fuel s1 s2)
     (fun r m' => m' = m /\
        r = match find_sub needle hay with
            | Some k => s1 + Z.of_nat k | None => NULL end) m.
Proof.
  intros Hh Hn Hf. unfold uc_strstr.
  pose proof (strstr_loop_spec s2 needle m Hn fuel s1 [] hay needle eq_refl Hh Hf) as H.
  unfold zlen in H. simpl length in H. rewrite !Z.add_0_r in H. exact H.
Qed.

(** ** Concrete memories *)

Fixpoint mem_of (p : Z) (l : list Z) : mem :=
  match l with [] => ∅ | b :: l' => <[p := b]> (mem_of (p + 1) l') end.

Lemma mem_of_mapped l : forall p q n,
  p <= q -> q + Z.of_nat n <= p + zlen l -> mapped (mem_of p l) q n.
Proof.
  induction l as [|b l IH]; intros p q n Hq Hn a Ha; unfold zlen in *; simpl in *; [lia|].
  destruct (decide (p = a)) as [->|Hne].
  - rewrite lookup_insert_eq. eauto.
  - rewrite lookup_insert_ne by done. apply (IH (p + 1) (p + 1) (length l)); lia.
Qed.

(** Shifting four bytes up by one inside one object: the regions overlap. *)
Lemma uc_memmove_correct_witness :
  wp (uc_memmove 101 100 4)
     (fun r m' => r = 101 /\ bytes_at m' 101 [1; 2; 3; 4] /\
        same_outside 101 4 (mem_of 100 [1; 2; 3; 4; 5]) m') (mem_of 100 [1; 2; 3; 4; 5]).
Proof.
  apply (uc_memmove_correct (mem_of 100 [1; 2; 3; 4; 5]) 101 100 [1; 2; 3; 4]).
  - repeat split.
  - apply mem_of_mapped; unfold zlen; simpl; lia.
Defined.

(** Looking for "404" in "HTTP 404". *)
Lemma uc_strstr_correct_witness :
  wp (uc_strstr 36 200 100)
     (fun r m' => m' = mem_of 100 (cz &"404") ∪ mem_of 200 (cz &"HTTP 404") /\
        r = match find_sub &"404" &"HTTP 404" with
            | Some k => 200 + Z.of_nat k | None => NULL end)
     (mem_of 100 (cz &"404") ∪ mem_of 200 (cz &"HTTP 404")).
Proof.
  apply (uc_strstr_correct (mem_of 100 (cz &"404") ∪ mem_of 200 (cz &"HTTP 404"))
           200 100 &"HTTP 404" &"404" 36).
  - split; [repeat split|repeat constructor].
  - split; [repeat split|repeat constructor].
  - vm_compute. lia.
Defined.

Example strstr_404 : find_sub &"404" &"HTTP 404" = Some 5%nat.
Proof. reflexivity. Qed.
