(* ===== verification/Libc.v ===== *)
(** * libs/libc/libc.c and libs/libc/xprintf.c: number parsing and formatted output

    [q3_atoi] reads a decimal number from a C string; a value that does not fit
    an [int] is signed overflow, hence [None].  [xvprintf] is the formatter
    behind every console message; it produces the characters it hands to
    [xputc], and [xputc] turns each line feed into CR LF.  The device side
    (output device, memory destination) is the small state [xio]. *)

From S2P Require Import Prelude.

(** ** q3_atoi *)

Section Atoi.
Context `{T : Target}.

(** Skip whitespace; [None] is the early [return 0] at the end of the string. *)
Fixpoint atoi_skip (s : list Z) : option (list Z) :=
  match s with
  | [] => None
  | c :: r =>
      if chr c <=? 32 then (if c =? 0 then None else atoi_skip r) else Some s
  end.

Definition is_digit (c : Z) : bool := (48 <=? c) && (c <=? 57).

Definition int_max : Z := 2147483647.

(** [value = value * 10 + c] until the first character that is no digit. *)
Fixpoint atoi_digits (s : list Z) (value : Z) : option Z :=
  match s with
  | [] => Some value
  | c :: r =>
      if is_digit (chr c) then
        (let v := value * 10 + (chr c - 48) in
         if v <=? int_max then atoi_digits r v else None)
      else Some value
  end.

Definition q3_atoi (s : list Z) : option Z :=
  match atoi_skip s with
  | None => Some 0
  | Some [] => Some 0
  | Some (c :: r) =>
      if c =? 43 then atoi_digits r 0
      else if c =? 45 then (fun v => v * (-1)) <$> atoi_digits r 0
      else atoi_digits (c :: r) 0
  end.
End Atoi.

(** ** xvprintf *)

(** A variadic argument: an [int], a [long] or a string. *)
Inductive arg : Type :=
| AInt (z : Z)
| ALong (z : Z)
| AStr (s : list Z).

Section Printf.
Context `{T : Target}.

(** [c = *fmt++]; behind the last character is the terminating NUL. *)
Definition fmt_next (fmt : list Z) : Z * list Z :=
  match fmt with [] => (0, []) | c :: r => (chr c, r) end.

(** [for (w = 0; c >= '0' && c <= '9'; c = *fmt++) w = w * 10 + c - '0';] *)
Fixpoint fmt_width (c : Z) (fmt : list Z) (w : Z) {struct fmt} : Z * Z * list Z :=
  if is_digit c then
    match fmt with
    | [] => (u32 (w * 10 + c - 48), 0, [])
    | c' :: r => fmt_width (chr c') r (u32 (w * 10 + c - 48))
    end
  else (w, c, fmt).

(** The digits in the order they enter [s[]]: least significant first, at most
    [n] of them. *)
Fixpoint num_digits (n : nat) (v r c : Z) : list Z :=
  match n with
  | O => []
  | S n' =>
      let d := v mod r in
      let d := if 9 <? d then d + (if c =? 120 then 39 else 7) else d in
      (d + 48) :: (if v / r =? 0 then [] else num_digits n' (v / r) r c)
  end.

(** [while (!(f & 2) && j++ < w) xputc(d);] with the value of [j] left behind. *)
Definition pad_left (ljust : bool) (j w d : Z) : list Z * Z :=
  if ljust then ([], j) else (repeat d (Z.to_nat (w - j)), Z.max j w + 1).

(** [while (j++ < w) xputc(' ');] *)
Definition pad_right (j w : Z) : list Z := repeat 32 (Z.to_nat (w - j)).

(** The text of one numeric conversion; [None] is the store of the sign behind
    the end of [s[16]]. *)
Definition put_number (zero ljust neg : bool) (w v r c : Z) : option (list Z) :=
  let s := num_digits 16 v r c in
  if neg && (length s =? 16)%nat then None
  else
    let s := if neg then s ++ [45] else s in
    let '(p, j) := pad_left ljust (zlen s) w (if zero then 48 else 32) in
    Some (p ++ rev s ++ pad_right j w).

Definition put_string (ljust : bool) (w : Z) (p : list Z) : list Z :=
  let '(l, j) := pad_left ljust (zlen p) w 32 in l ++ p ++ pad_right j w.

(** [va_arg(arp, int)], [va_arg(arp, long)] and [va_arg(arp, char * )].  Every
    argument takes one slot, so an [int] can be read from a [long]; the upper
    half of an [int] slot is indeterminate where [long] is wider. *)
Definition va_int (args : list arg) : option (Z * list arg) :=
  match args with
  | AInt z :: r => Some (s32 z, r)
  | ALong z :: r => Some (s32 z, r)
  | _ => None
  end.
Definition va_long (args : list arg) : option (Z * list arg) :=
  match args with
  | AInt z :: r => if long64 then None else Some (s32 z, r)
  | ALong z :: r => Some (slong z, r)
  | _ => None
  end.
Definition va_str (args : list arg) : option (list Z * list arg) :=
  match args with AStr s :: r => Some (s, r) | _ => None end.

Definition emit (o : list Z) (k : res (list Z)) : res (list Z) :=
  match k with Done o' => Done (o ++ o') | Fault => Fault | NoFuel => NoFuel end.

Definition radix (d : Z) : option Z :=
  if d =? ch "B" then Some 2 else if d =? ch "O" then Some 8
  else if (d =? ch "D") || (d =? ch "U") then Some 10
  else if d =? ch "X" then Some 16 else None.

(** The part of a conversion between the percent sign and its type letter: the
    flags, the minimum width and the size prefix.  Gives ('0' flag, '-' flag,
    width, 'l' prefix), the type letter and the rest of the format. *)
Definition fmt_spec (fmt : list Z) : (bool * bool * Z * bool) * Z * list Z :=
  let '(c, fmt) := fmt_next fmt in
  let '(zero, ljust, (c, fmt)) :=
    if c =? ch "0" then (true, false, fmt_next fmt)
    else if c =? ch "-" then (false, true, fmt_next fmt)
    else (false, false, (c, fmt)) in
  let '(w, c, fmt) := fmt_width c fmt 0 in
  let '(lng, (c, fmt)) :=
    if (c =? ch "l") || (c =? ch "L") then (true, fmt_next fmt) else (false, (c, fmt)) in
  (zero, ljust, w, lng, c, fmt).

Definition upcase (c : Z) : Z := if ch "a" <=? c then c - 32 else c.

Fixpoint xvprintf_loop (fuel : nat) (fmt : list Z) (args : list arg) : res (list Z) :=
  match fuel with
  | O => NoFuel
  | S fuel' =>
      let '(c, fmt) := fmt_next fmt in
      if c =? 0 then Done []
      else if negb (c =? ch "%") then emit [u8 c] (xvprintf_loop fuel' fmt args)
      else
        let '(zero, ljust, w, lng, c, fmt) := fmt_spec fmt in
        if c =? 0 then Done []
        else
          let d := upcase c in
          if d =? ch "S" then
            match va_str args with
            | None => Fault
            | Some (p, args) => emit (put_string ljust w p) (xvprintf_loop fuel' fmt args)
            end
          else if d =? ch "C" then
            match va_int args with
            | None => Fault
            | Some (v, args) => emit [u8 v] (xvprintf_loop fuel' fmt args)
            end
          else
            match radix d with
            | None => emit [u8 c] (xvprintf_loop fuel' fmt args)
            | Some r =>
                match (if lng then va_long args else va_int args) with
                | None => Fault
                | Some (a, args) =>
                    let v := ulong (if lng then a else if d =? ch "D" then a else u32 a) in
                    let neg := (d =? ch "D") && Z.testbit v 31 in
                    let v := if neg then ulong (0 - v) else v in
                    match put_number zero ljust neg w v r c with
                    | None => Fault
                    | Some o => emit o (xvprintf_loop fuel' fmt args)
                    end
                end
            end
  end.

(** Every round consumes at least one character of the format. *)
Definition xvprintf (fmt : list Z) (args : list arg) : res (list Z) :=
  xvprintf_loop (S (length fmt)) fmt args.

(** [xputc]: a line feed is preceded by a carriage return. *)
Definition xputc_bytes (c : Z) : list Z := if c =? 10 then [13; 10] else [u8 c].

(** [xprintf] as the components see it: the bytes go to the console device. *)
Definition xprintf {S} (fmt : list Z) (args : list arg) : M S unit := fun s =>
  match xvprintf fmt args with
  | Done o => Done (tt, s, flat_map xputc_bytes o)
  | Fault => Fault
  | NoFuel => NoFuel
  end.

(** [put_dump] of [len] bytes, one byte wide: [bp] are the readable bytes. *)
Definition put_dump_char {S} (bp : list Z) (addr : Z) (len : nat) : M S unit :=
  xprintf &"%08lX " [ALong addr] ;;
  for_range 0 len (fun i => let* b := lift (zget bp i) in xprintf &" %02X" [AInt b]) ;;
  tell [32] ;;
  for_range 0 len (fun i =>
    let* b := lift (zget bp i) in
    tell (xputc_bytes (if (32 <=? b) && (b <=? ch "~") then b else ch "."))) ;;
  tell (xputc_bytes 10).

(** The bytes [xsprintf] stores into its buffer, the terminator excluded. *)
Definition sprintf_bytes (fmt : list Z) (args : list arg) : res (list Z) :=
  match xvprintf fmt args with
  | Done o => Done (flat_map xputc_bytes o)
  | Fault => Fault
  | NoFuel => NoFuel
  end.
End Printf.

(** The samples of the comment above [xvprintf]. *)
Section Samples.
#[local] Existing Instance stm32_target.
Example fmt1 : xvprintf &"%d" [AInt 1234] = Done &"1234". Proof. reflexivity. Qed.
Example fmt2 : xvprintf &"%6d,%3d%%" [AInt (-200); AInt 5] = Done &"  -200,  5%". Proof. reflexivity. Qed.
Example fmt3 : xvprintf &"%-6u" [AInt 100] = Done &"100   ". Proof. reflexivity. Qed.
Example fmt4 : xvprintf &"%ld" [ALong 12345678] = Done &"12345678". Proof. reflexivity. Qed.
Example fmt5 : xvprintf &"%04x" [AInt 163] = Done &"00a3". Proof. reflexivity. Qed.
Example fmt6 : xvprintf &"%08LX" [ALong 1194684] = Done &"00123ABC". Proof. reflexivity. Qed.
Example fmt7 : xvprintf &"%016b" [AInt 21775] = Done &"0101010100001111". Proof. reflexivity. Qed.
Example fmt8 : xvprintf &"%-4s" [AStr &"abc"] = Done &"abc ". Proof. reflexivity. Qed.
Example fmt9 : xvprintf &"%4s" [AStr &"abc"] = Done &" abc". Proof. reflexivity. Qed.
End Samples.

(** ** Printing a number and reading it back *)

Section Roundtrip.
Context `{T : Target}.

Lemma chr_ascii c : 0 <= c < 128 -> chr c = c.
Proof. intros Hc. unfold chr. destruct char_signed; wraps; lia. Qed.

Lemma is_digit_true c : is_digit c = true <-> 48 <= c <= 57.
Proof. unfold is_digit. rewrite andb_true_iff, !Z.leb_le. lia. Qed.

Lemma num_digits_ascii n v c :
  0 <= v -> Forall (fun d => 48 <= d <= 57) (num_digits n v 10 c).
Proof.
  revert v. induction n as [|n IH]; intros v Hv; simpl; [constructor|].
  assert (0 <= v mod 10 < 10) by lia.
  rewrite (proj2 (Z.ltb_ge 9 (v mod 10))) by lia.
  constructor; [lia|]. destruct (v / 10 =? 0); [constructor|]. apply IH. lia.
Qed.

Lemma num_digits_length n v c : 0 <= v < 10 ^ Z.of_nat n -> (1 <= n)%nat ->
  (1 <= length (num_digits n v 10 c) <= n)%nat.
Proof.
  revert v. induction n as [|n IH]; intros v Hv Hn; [lia|]. simpl.
  destruct (v / 10 =? 0) eqn:Hz; simpl; [lia|].
  destruct n as [|n]; [simpl in Hv; lia|].
  assert (0 <= v / 10 < 10 ^ Z.of_nat (S n)).
  { rewrite (Nat2Z.inj_succ (S n)), Z.pow_succ_r in Hv by lia. lia. }
  specialize (IH (v / 10) H ltac:(lia)). lia.
Qed.

(** More slots than digits make no difference. *)
Lemma num_digits_fuel n k v c :
  0 <= v < 10 ^ Z.of_nat n -> (1 <= n)%nat -> num_digits (n + k) v 10 c = num_digits n v 10 c.
Proof.
  revert v. induction n as [|n IH]; intros v Hv Hn; [lia|]. simpl. f_equal.
  destruct (v / 10 =? 0) eqn:Hz; [done|].
  destruct n as [|n]; [simpl in Hv; lia|]. apply IH; [|lia].
  rewrite (Nat2Z.inj_succ (S n)), Z.pow_succ_r in Hv by lia. lia.
Qed.

(** Reading the printed digits gives the number back. *)
Lemma atoi_num_digits n v c tl :
  0 <= v < 10 ^ Z.of_nat n -> (1 <= n)%nat -> v <= int_max ->
  atoi_digits (rev (num_digits n v 10 c) ++ tl) 0 = atoi_digits tl v.
Proof.
  revert v tl. induction n as [|n IH]; intros v tl Hv Hn Hmax; [lia|]. simpl.
  assert (0 <= v mod 10 < 10) by lia.
  rewrite (proj2 (Z.ltb_ge 9 (v mod 10))) by lia.
  assert (Hstep : forall acc, acc * 10 + v mod 10 = v ->
    atoi_digits ((v mod 10 + 48) :: tl) acc = atoi_digits tl v).
  { intros acc Hacc. simpl. rewrite chr_ascii by lia.
    rewrite (proj2 (is_digit_true _)) by lia.
    replace (acc * 10 + (v mod 10 + 48 - 48)) with v by lia.
    by rewrite (proj2 (Z.leb_le v int_max)) by lia. }
  destruct (v / 10 =? 0) eqn:Hz.
  - simpl rev. simpl app. apply Hstep. lia.
  - simpl rev. rewrite <- app_assoc. destruct n as [|n]; [simpl in Hv; lia|].
    rewrite IH; [apply Hstep; lia| |lia|unfold int_max in *; lia].
    rewrite (Nat2Z.inj_succ (S n)), Z.pow_succ_r in Hv by lia. lia.
Qed.

(** The text of [%d] for an [int]. *)
Definition dec_text (z : Z) : list Z :=
  (if z <? 0 then [45] else []) ++ rev (num_digits 10 (Z.abs z) 10 (ch "d")).

Lemma testbit31_nonneg v : 0 <= v < 2147483648 -> Z.testbit v 31 = false.
Proof.
  intros Hv. rewrite Z.testbit_false by lia. rewrite Z.div_small; [done|].
  change (2 ^ 31) with 2147483648. lia.
Qed.

Lemma ulong_nonneg z : 0 <= z < 2147483648 -> ulong z = z.
Proof. intros Hz. unfold ulong. destruct long64; wraps; lia. Qed.

Lemma ulong_neg_bit z : -2147483648 <= z < 0 -> Z.testbit (ulong z) 31 = true.
Proof.
  intros Hz. apply Z.testbit_true; [lia|]. change (2 ^ 31) with 2147483648.
  unfold ulong. destruct long64; wraps; lia.
Qed.

Lemma ulong_negate z : -2147483648 <= z < 0 -> ulong (0 - ulong z) = - z.
Proof. intros Hz. unfold ulong. destruct long64; wraps; lia. Qed.

Lemma pad_left_none j d : 0 <= j -> pad_left false j 0 d = ([], j + 1).
Proof.
  intros Hj. unfold pad_left. replace (Z.to_nat (0 - j)) with O by lia. f_equal. lia.
Qed.

Lemma pad_right_none j : 0 <= j -> pad_right j 0 = [].
Proof. intros Hj. unfold pad_right. by replace (Z.to_nat (0 - j)) with O by lia. Qed.

Lemma put_number_dec z c : -2147483648 <= z < 2147483648 ->
  put_number false false (z <? 0) 0 (Z.abs z) 10 c
  = Some ((if z <? 0 then [45] else []) ++ rev (num_digits 10 (Z.abs z) 10 c)).
Proof.
  intros Hz. unfold put_number.
  rewrite (num_digits_fuel 10 6); [|split; [lia|]; change (10 ^ Z.of_nat 10) with 10000000000; lia|lia].
  pose proof (num_digits_length 10 (Z.abs z) c) as Hlen.
  change (10 ^ Z.of_nat 10) with 10000000000 in Hlen.
  specialize (Hlen ltac:(lia) ltac:(lia)).
  rewrite (proj2 (Nat.eqb_neq _ 16)) by lia. rewrite andb_false_r.
  rewrite pad_left_none by apply zlen_nonneg. rewrite pad_right_none by (pose proof (zlen_nonneg
    (if z <? 0 then num_digits 10 (Z.abs z) 10 c ++ [45] else num_digits 10 (Z.abs z) 10 c)); lia).
  rewrite app_nil_r. destruct (z <? 0); simpl; [|done]. by rewrite rev_app_distr.
Qed.

Lemma fmt_spec_d fmt : fmt_spec (ch "d" :: fmt) = (false, false, 0, false, ch "d", fmt).
Proof. unfold fmt_spec. cbn [fmt_next]. rewrite chr_ascii by lia. by destruct fmt. Qed.

Lemma xvprintf_loop_d fuel fmt z args : -2147483648 <= z < 2147483648 ->
  xvprintf_loop (S fuel) (ch "%" :: ch "d" :: fmt) (AInt z :: args)
  = emit (dec_text z) (xvprintf_loop fuel fmt args).
Proof.
  intros Hz. cbn [xvprintf_loop fmt_next]. rewrite chr_ascii by lia. cbn [Z.eqb Pos.eqb negb].
  rewrite fmt_spec_d. cbn [Z.eqb]. change (upcase 100) with 68. cbn [Z.eqb Pos.eqb radix orb va_int andb].
  rewrite s32_id by lia.
  assert (Hv : (if Z.testbit (ulong z) 31 then ulong (0 - ulong z) else ulong z) = Z.abs z
               /\ Z.testbit (ulong z) 31 = (z <? 0)).
  { destruct (Z.ltb_spec z 0).
    - rewrite ulong_neg_bit, ulong_negate by lia. split; [lia|done].
    - rewrite ulong_nonneg, testbit31_nonneg by lia. split; [lia|done]. }
  destruct Hv as [Hv Hb]. rewrite Hv, Hb, put_number_dec by lia. done.
Qed.

Lemma xvprintf_d z : -2147483648 <= z < 2147483648 ->
  xvprintf &"%d" [AInt z] = Done (dec_text z).
Proof.
  intros Hz. unfold xvprintf. simpl length. rewrite xvprintf_loop_d by done. simpl. by rewrite app_nil_r.
Qed.

Lemma atoi_dec_text z : -2147483648 < z < 2147483648 -> q3_atoi (dec_text z) = Some z.
Proof.
  intros Hz. unfold dec_text.
  assert (Hat : atoi_digits (rev (num_digits 10 (Z.abs z) 10 (ch "d"))) 0 = Some (Z.abs z)).
  { rewrite <- (app_nil_r (rev _)). rewrite atoi_num_digits; [done| |lia|unfold int_max; lia].
    change (10 ^ Z.of_nat 10) with 10000000000. lia. }
  pose proof (num_digits_ascii 10 (Z.abs z) (ch "d") ltac:(lia)) as Hasc.
  apply Forall_rev in Hasc. unfold q3_atoi.
  destruct (Z.ltb_spec z 0) as [Hneg|Hpos]; cbn [app].
  - cbn [atoi_skip]. rewrite chr_ascii by lia. cbn -[atoi_digits rev num_digits].
    rewrite Hat. simpl. f_equal. lia.
  - destruct (rev (num_digits 10 (Z.abs z) 10 (ch "d"))) as [|c r] eqn:Hr.
    + simpl in Hat. injection Hat as Hat. simpl. f_equal. lia.
    + inversion Hasc as [|? ? Hc _]; subst. cbn [atoi_skip]. rewrite chr_ascii by lia.
      rewrite (proj2 (Z.leb_gt c 32)), (proj2 (Z.eqb_neq c 43)), (proj2 (Z.eqb_neq c 45)) by lia.
      rewrite Hat. f_equal. lia.
Qed.

(** C40: for every [int] but the smallest, formatting it with [%d] and reading
    the text with [q3_atoi] gives the number back, on both targets.  (The
    smallest [int] prints as 2147483648 behind the sign, which [q3_atoi] cannot
    hold.) *)
Theorem xprintf_atoi_roundtrip z :
  -2147483648 < z < 2147483648 ->
  exists t, xvprintf &"%d" [AInt z] = Done t /\ q3_atoi t = Some z.
Proof.
  intros Hz. exists (dec_text z). split; [apply xvprintf_d; lia|by apply atoi_dec_text].
Qed.
End Roundtrip.

Lemma xprintf_atoi_roundtrip_witness :
  exists t, @xvprintf linux_target &"%d" [AInt (-2147483647)] = Done t
            /\ @q3_atoi linux_target t = Some (-2147483647).
Proof. apply (@xprintf_atoi_roundtrip linux_target (-2147483647)). lia. Defined.

(** ** When a message is well formed

    Whether [xprintf] runs without undefined behaviour depends only on the
    format and on the kinds of the arguments, so it is decided by evaluation. *)

Inductive kind : Type := KInt | KLong | KStr.

Definition arg_kind (a : arg) : kind :=
  match a with AInt _ => KInt | ALong _ => KLong | AStr _ => KStr end.

Definition ascii (c : Z) : bool := (0 <? c) && (c <? 128).

Definition take_number (lng : bool) (d : Z) (ks : list kind) : option (list kind) :=
  match ks with
  | KInt :: ks => if lng then None else Some ks
  | KLong :: ks => if lng && (d =? ch "D") then None else Some ks
  | _ => None
  end.

Fixpoint fmt_ok_loop (fuel : nat) (fmt : list Z) (ks : list kind) : bool :=
  match fuel, fmt with
  | O, _ => false
  | S _, [] => true
  | S fuel', c :: fmt =>
      if negb (c =? ch "%") then fmt_ok_loop fuel' fmt ks
      else
        let '(_, lng, c, fmt) := @fmt_spec stm32_target fmt in
        if c =? 0 then true
        else
          let d := upcase c in
          if d =? ch "S" then match ks with KStr :: ks => fmt_ok_loop fuel' fmt ks | _ => false end
          else if d =? ch "C" then
            match ks with (KInt | KLong) :: ks => fmt_ok_loop fuel' fmt ks | _ => false end
          else
            match radix d with
            | None => fmt_ok_loop fuel' fmt ks
            | Some _ =>
                match take_number lng d ks with
                | Some ks => fmt_ok_loop fuel' fmt ks
                | None => false
                end
            end
  end.

Definition fmt_ok (fmt : list Z) (args : list arg) : bool :=
  forallb ascii fmt && fmt_ok_loop (S (length fmt)) fmt (map arg_kind args).

Section FmtOk.
Context `{T : Target}.

Lemma chr_target c : ascii c = true -> @chr T c = @chr stm32_target c.
Proof.
  unfold ascii. rewrite andb_true_iff, Z.ltb_lt, Z.ltb_lt. intros Hc.
  rewrite !chr_ascii by lia. done.
Qed.

Lemma fmt_next_target fmt : forallb ascii fmt = true ->
  @fmt_next T fmt = @fmt_next stm32_target fmt /\ forallb ascii (@fmt_next T fmt).2 = true.
Proof.
  destruct fmt as [|c r]; simpl; [done|]. rewrite andb_true_iff. intros [Hc Hr].
  by rewrite (chr_target c Hc).
Qed.

Lemma fmt_width_target fmt : forall c w, forallb ascii fmt = true ->
  @fmt_width T c fmt w = @fmt_width stm32_target c fmt w
  /\ forallb ascii (@fmt_width T c fmt w).2 = true.
Proof.
  induction fmt as [|c' r IH]; intros c w; simpl; [by destruct (is_digit c)|].
  rewrite andb_true_iff. intros [Hc Hr]. destruct (is_digit c); [|simpl; by rewrite Hc, Hr].
  rewrite (chr_target c' Hc). by apply IH.
Qed.

Lemma fmt_spec_target fmt : forallb ascii fmt = true ->
  @fmt_spec T fmt = @fmt_spec stm32_target fmt /\ forallb ascii (@fmt_spec T fmt).2 = true.
Proof.
  intros Hf. unfold fmt_spec.
  destruct (fmt_next_target fmt Hf) as [<- Hf1]. destruct (fmt_next fmt) as [c f1]. simpl in Hf1.
  destruct (fmt_next_target f1 Hf1) as [<- Hf2].
  assert (Hx : forall z l (c0 : Z) f0, forallb ascii f0 = true ->
    (let '(w, c, fmt) := @fmt_width T c0 f0 0 in
     let '(lng, (c, fmt)) := if (c =? ch "l") || (c =? ch "L") then (true, @fmt_next T fmt)
       else (false, (c, fmt)) in (z, l, w, lng, c, fmt)) =
    (let '(w, c, fmt) := @fmt_width stm32_target c0 f0 0 in
     let '(lng, (c, fmt)) := if (c =? ch "l") || (c =? ch "L") then (true, @fmt_next stm32_target fmt)
       else (false, (c, fmt)) in ((z : bool), (l : bool), w, lng, c, fmt)) /\
    forallb ascii (let '(w, c, fmt) := @fmt_width T c0 f0 0 in
     let '(lng, (c, fmt)) := if (c =? ch "l") || (c =? ch "L") then (true, @fmt_next T fmt)
       else (false, (c, fmt)) in (z, l, w, lng, c, fmt)).2 = true).
  { intros z l c0 f0 H0. destruct (fmt_width_target f0 c0 0 H0) as [<- H1].
    destruct (fmt_width c0 f0 0) as [[w c1] f2]. simpl in H1.
    destruct (fmt_next_target f2 H1) as [<- H2]. destruct (fmt_next f2) as [c2 f3].
    by destruct ((c1 =? ch "l") || (c1 =? ch "L")). }
  destruct (fmt_next f1) as [c1 f2]. simpl in Hf2.
  destruct (c =? ch "0"); [by apply Hx|]. destruct (c =? ch "-"); by apply Hx.
Qed.

Lemma s32_range z : -2147483648 <= s32 z < 2147483648.
Proof. wraps; lia. Qed.

(** Without the sign there is always room. *)
Lemma put_number_plain zero ljust w v r c : exists o, put_number zero ljust false w v r c = Some o.
Proof. unfold put_number. simpl. destruct (pad_left _ _ _ _) as [p j]. eexists. reflexivity. Qed.

(** The sign of an [int] always finds room behind its digits. *)
Lemma put_number_int zero ljust w (a d r c : Z) :
  -2147483648 <= a < 2147483648 -> radix d = Some r ->
  let v := ulong (if d =? ch "D" then a else u32 a) in
  let neg := (d =? ch "D") && Z.testbit v 31 in
  exists o, put_number zero ljust neg w (if neg then ulong (0 - v) else v) r c = Some o.
Proof.
  intros Ha Hr. simpl.
  destruct (d =? ch "D") eqn:Hd; simpl; [|apply put_number_plain].
  assert (r = 10) as -> by (unfold radix in Hr; repeat case_match; simplify_eq; lia).
  destruct (Z.testbit (ulong a) 31) eqn:Hb; simpl; [|apply put_number_plain].
  assert (a < 0) by (destruct (Z.ltb_spec a 0); [done|];
    rewrite ulong_nonneg, testbit31_nonneg in Hb by lia; done).
  rewrite ulong_negate by lia. unfold put_number.
  pose proof (num_digits_length 10 (- a) c) as Hlen.
  change (10 ^ Z.of_nat 10) with 10000000000 in Hlen. specialize (Hlen ltac:(lia) ltac:(lia)).
  rewrite (num_digits_fuel 10 6); [|split; [lia|]; change (10 ^ Z.of_nat 10) with 10000000000; lia|lia].
  rewrite (proj2 (Nat.eqb_neq _ 16)) by lia.
  simpl. destruct (pad_left _ _ _ _) as [p j]. eexists. reflexivity.
Qed.

Lemma emit_done o k : (exists o', k = Done o') -> exists o', emit o k = Done o'.
Proof. intros [o' ->]. simpl. eauto. Qed.

Lemma fmt_ok_loop_sound fuel : forall fmt args,
  forallb ascii fmt = true -> fmt_ok_loop fuel fmt (map arg_kind args) = true ->
  exists o, xvprintf_loop fuel fmt args = Done o.
Proof.
  induction fuel as [|fuel IH]; intros fmt args Hf Hok; [done|].
  destruct fmt as [|c fmt]; simpl in *; [eauto|].
  apply andb_true_iff in Hf as [Hc Hf]. unfold ascii in Hc.
  rewrite andb_true_iff, Z.ltb_lt, Z.ltb_lt in Hc.
  rewrite chr_ascii, (proj2 (Z.eqb_neq c 0)) by lia.
  destruct (negb (c =? ch "%")); [apply emit_done; eauto|].
  destruct (fmt_spec_target fmt Hf) as [Heq Hf']. rewrite <- Heq in Hok.
  destruct (fmt_spec fmt) as [[[[[zero ljust] w] lng] c'] fmt']. simpl in Hf'.
  destruct (c' =? 0); [eauto|].
  destruct (upcase c' =? ch "S").
  { destruct args as [|[z|z|p] args]; simpl in *; try done. apply emit_done; eauto. }
  destruct (upcase c' =? ch "C").
  { destruct args as [|[z|z|p] args]; simpl in *; try done; apply emit_done; eauto. }
  destruct (radix (upcase c')) as [r|] eqn:Hr; [|apply emit_done; eauto].
  destruct args as [|[z|z|p] args]; try done; simpl in Hok.
  - destruct lng; [done|]. simpl.
    destruct (put_number_int zero ljust w (s32 z) _ r c' (s32_range z) Hr) as [o Ho].
    simpl in Ho. rewrite Ho. apply emit_done; eauto.
  - destruct lng; simpl in Hok |- *.
    + destruct (upcase c' =? ch "D") eqn:Hd; [done|]. simpl.
      destruct (put_number_plain zero ljust w (ulong (slong z)) r c') as [o Ho].
      rewrite Ho. apply emit_done; eauto.
    + destruct (put_number_int zero ljust w (s32 z) _ r c' (s32_range z) Hr) as [o Ho].
      simpl in Ho. rewrite Ho. apply emit_done; eauto.
Qed.

(** The rule for [xprintf]: a well-formed message changes no state. *)
Lemma wp_xprintf {S} fmt args (Q : unit -> S -> Prop) s :
  fmt_ok fmt args = true -> Q tt s -> wp (xprintf fmt args) Q s.
Proof.
  unfold fmt_ok. rewrite andb_true_iff. intros [Hf Hok] HQ.
  destruct (fmt_ok_loop_sound _ _ _ Hf Hok) as [o Ho].
  unfold wp, xprintf, xvprintf. by rewrite Ho.
Qed.
End FmtOk.

(** [wp_print] runs a message whose well-formedness is decided by evaluation. *)
Ltac wp_print := apply wp_xprintf; [vm_compute; reflexivity|].

(** ** Every message ends

    Whatever the format and the arguments, the formatter's loop ends within the
    fuel [xvprintf] gives it. *)
Section Ends.
Context `{T : Target}.

Lemma fmt_next_length fmt : (length (fmt_next fmt).2 <= length fmt)%nat.
Proof. destruct fmt; simpl; lia. Qed.

Lemma fmt_width_length fmt : forall c w, (length (fmt_width c fmt w).2 <= length fmt)%nat.
Proof.
  induction fmt as [|c' r IH]; intros c w; simpl; [by destruct (is_digit c)|].
  destruct (is_digit c); [|simpl; lia]. specialize (IH (chr c') (u32 (w * 10 + c - 48))). lia.
Qed.

Lemma fmt_spec_length fmt : (length (fmt_spec fmt).2 <= length fmt)%nat.
Proof.
  unfold fmt_spec. pose proof (fmt_next_length fmt) as H1.
  destruct (fmt_next fmt) as [c f1]. simpl in H1. pose proof (fmt_next_length f1) as H2.
  assert (Hx : forall z l (c0 : Z) f0,
    let r := let '(w, c, fmt) := fmt_width c0 f0 0 in
     let '(lng, (c, fmt)) := if (c =? ch "l") || (c =? ch "L") then (true, fmt_next fmt)
       else (false, (c, fmt)) in ((z : bool), (l : bool), w, lng, c, fmt) in
    (length r.2 <= length f0)%nat).
  { intros z l c0 f0. pose proof (fmt_width_length f0 c0 0) as H3.
    destruct (fmt_width c0 f0 0) as [[w c1] f2]. simpl in H3. pose proof (fmt_next_length f2) as H4.
    destruct (fmt_next f2) as [c2 f3]. simpl in H4.
    destruct ((c1 =? ch "l") || (c1 =? ch "L")); simpl; lia. }
  destruct (fmt_next f1) as [c1 f2]. simpl in H2.
  destruct (c =? ch "0"); [|destruct (c =? ch "-")].
  - eapply Nat.le_trans; [apply (Hx true false c1 f2)|lia].
  - eapply Nat.le_trans; [apply (Hx false true c1 f2)|lia].
  - eapply Nat.le_trans; [apply (Hx false false c f1)|lia].
Qed.

Lemma emit_ends o k : k <> NoFuel -> emit o k <> NoFuel.
Proof. by destruct k. Qed.

Lemma xvprintf_loop_ends fuel : forall fmt args, (length fmt < fuel)%nat ->
  xvprintf_loop fuel fmt args <> NoFuel.
Proof.
  induction fuel as [|fuel IH]; intros fmt args Hf; [lia|]. cbn [xvprintf_loop].
  destruct fmt as [|c fmt]; [done|]. cbn [fmt_next]. simpl in Hf.
  destruct (chr c =? 0); [done|]. destruct (negb _); [apply emit_ends, IH; lia|].
  pose proof (fmt_spec_length fmt) as Hs.
  destruct (fmt_spec fmt) as [[[[[zero ljust] w] lng] c'] fmt']. simpl in Hs.
  destruct (c' =? 0); [done|].
  destruct (upcase c' =? ch "S"); [destruct (va_str args) as [[p ar]|]; [apply emit_ends, IH; lia|done]|].
  destruct (upcase c' =? ch "C"); [destruct (va_int args) as [[p ar]|]; [apply emit_ends, IH; lia|done]|].
  destruct (radix _) as [r|]; [|apply emit_ends, IH; lia].
  destruct (if lng then va_long args else va_int args) as [[a ar]|]; [|done].
  destruct (put_number _ _ _ _ _ _ _); [apply emit_ends, IH; lia|done].
Qed.

Lemma pp_xprintf {S} fmt args (Q : unit -> S -> Prop) s :
  Q tt s -> pp (xprintf fmt args) Q s.
Proof.
  intros HQ. unfold pp, xprintf, xvprintf.
  pose proof (xvprintf_loop_ends (Datatypes.S (length fmt)) fmt args ltac:(lia)) as Hne.
  by destruct (xvprintf_loop _ _ _).
Qed.

(** The debug macros of the components. *)
Lemma pp_debug {S} b fmt args (Q : unit -> S -> Prop) s :
  Q tt s -> pp (when b (xprintf fmt args)) Q s.
Proof. intros HQ. destruct b; [by apply pp_xprintf|done]. Qed.
End Ends.

(** ** The device side: xputc, xputs, xprintf, xsprintf, xfprintf *)

(** [xfunc_out] is the output device (0 is NULL), [outptr] the bytes stored so
    far when output goes to memory, [xlog] what each device received. *)
Record xio : Type := Xio { xfunc_out : Z; outptr : option (list Z); xlog : list (Z * Z) }.

Definition set_xfunc_out (d : Z) (x : xio) : xio := Xio d (outptr x) (xlog x).
Definition set_outptr (p : option (list Z)) (x : xio) : xio := Xio (xfunc_out x) p (xlog x).

Section Device.
Context `{T : Target}.

Definition xput_raw (c : Z) : M xio unit :=
  modify (fun x =>
    match outptr x with
    | Some b => set_outptr (Some (b ++ [u8 c])) x
    | None =>
        if xfunc_out x =? 0 then x
        else Xio (xfunc_out x) None (xlog x ++ [(xfunc_out x, u8 c)])
    end).

Definition xputc (c : Z) : M xio unit :=
  when (c =? 10) (xput_raw 13) ;; xput_raw c.

Fixpoint xputs (s : list Z) : M xio unit :=
  match s with [] => ret tt | c :: r => xputc c ;; xputs r end.

Definition xfputs (func : Z) (s : list Z) : M xio unit :=
  let* pf := gets xfunc_out in
  modify (set_xfunc_out func) ;; xputs s ;; modify (set_xfunc_out pf).

Definition xvprintf_dev (fmt : list Z) (args : list arg) : M xio unit :=
  match xvprintf fmt args with Done o => xputs o | Fault => fault | NoFuel => nofuel end.

Definition xprintf_dev (fmt : list Z) (args : list arg) : M xio unit := xvprintf_dev fmt args.

(** Gives the buffer as written, the terminating NUL included. *)
Definition xsprintf (fmt : list Z) (args : list arg) : M xio (list Z) :=
  modify (set_outptr (Some [])) ;; xvprintf_dev fmt args ;;
  let* p := gets outptr in
  let* b := lift p in
  modify (set_outptr None) ;; ret (b ++ [0]).

Definition xfprintf (func : Z) (fmt : list Z) (args : list arg) : M xio unit :=
  let* pf := gets xfunc_out in
  modify (set_xfunc_out func) ;; xvprintf_dev fmt args ;; modify (set_xfunc_out pf).
End Device.

Section DeviceFacts.
Context `{T : Target}.

(** What a run of [xputs] adds, by destination. *)
Definition deliver (o : list Z) (x : xio) : xio :=
  match outptr x with
  | Some b => set_outptr (Some (b ++ flat_map xputc_bytes o)) x
  | None =>
      if xfunc_out x =? 0 then x
      else Xio (xfunc_out x) None
             (xlog x ++ map (fun c => (xfunc_out x, c)) (flat_map xputc_bytes o))
  end.

Lemma deliver_nil x : deliver [] x = x.
Proof.
  destruct x as [d [b|] l]; unfold deliver; simpl.
  - unfold set_outptr. simpl. by rewrite app_nil_r.
  - destruct (d =? 0); [done|]. by rewrite app_nil_r.
Qed.

Lemma xputc_run c x : xputc c x = Done (tt, deliver [c] x, []).
Proof.
  unfold xputc, bind, when, xput_raw, modify, ret, deliver, xputc_bytes, set_outptr.
  destruct x as [d [b|] l]; simpl; destruct (c =? 10) eqn:Hc; simpl; try done.
  - assert (c = 10) as -> by lia. by rewrite <- app_assoc.
  - assert (c = 10) as -> by lia. destruct (d =? 0) eqn:Hd; simpl; rewrite ?Hd; [done|].
    by rewrite <- app_assoc.
Qed.

Lemma deliver_app a b x : deliver b (deliver a x) = deliver (a ++ b) x.
Proof.
  destruct x as [d [m|] l]; unfold deliver, set_outptr; simpl; rewrite ?flat_map_app.
  - by rewrite <- app_assoc.
  - destruct (d =? 0) eqn:Hd; simpl; rewrite Hd; [done|]. by rewrite map_app, <- app_assoc.
Qed.

Lemma xputs_run o : forall x, xputs o x = Done (tt, deliver o x, []).
Proof.
  induction o as [|c o IH]; intros x; simpl.
  - unfold ret. by rewrite deliver_nil.
  - unfold bind. rewrite xputc_run, IH. simpl.
    change (c :: o) with ([c] ++ o). by rewrite deliver_app.
Qed.

Lemma xvprintf_done fmt args : fmt_ok fmt args = true ->
  exists o, xvprintf fmt args = Done o.
Proof.
  unfold fmt_ok. rewrite andb_true_iff. intros [Hf Hok]. by apply fmt_ok_loop_sound.
Qed.

(** For a well-formed message, [xsprintf] stores exactly the formatted text
    (each line feed expanded to CR LF) and a terminating NUL, sends nothing to
    any device and leaves output directed at the device it was directed at
    before; [xprintf] sends the same bytes to that device, and [xfprintf]
    restores the device it replaced. *)
Theorem xprintf_destinations fmt args x :
  fmt_ok fmt args = true -> outptr x = None -> xfunc_out x <> 0 ->
  exists o, sprintf_bytes fmt args = Done o /\
    xsprintf fmt args x = Done (o ++ [0], x, []) /\
    xprintf_dev fmt args x =
      Done (tt, Xio (xfunc_out x) None (xlog x ++ map (fun c => (xfunc_out x, c)) o), []) /\
    forall func, func <> 0 ->
      xfprintf func fmt args x =
      Done (tt, Xio (xfunc_out x) None (xlog x ++ map (fun c => (func, c)) o), []).
Proof.
  intros Hok Hp Hd. destruct (xvprintf_done fmt args Hok) as [o Ho].
  exists (flat_map xputc_bytes o). destruct x as [d p l]; simpl in *; subst p.
  unfold sprintf_bytes, xsprintf, xprintf_dev, xfprintf, xvprintf_dev. rewrite Ho.
  split; [done|]. split; [|split].
  - unfold bind, modify, gets, lift, ret. rewrite xputs_run. simpl. done.
  - rewrite xputs_run. unfold deliver. simpl. by rewrite (proj2 (Z.eqb_neq d 0) Hd).
  - intros func Hf. unfold bind, modify, gets. rewrite xputs_run. unfold deliver. simpl.
    by rewrite (proj2 (Z.eqb_neq func 0) Hf).
Qed.
End DeviceFacts.

Lemma xprintf_destinations_witness :
  exists o, @sprintf_bytes linux_target &"rx: %d KB.\n" [AInt 5] = Done o /\
    @xsprintf linux_target &"rx: %d KB.\n" [AInt 5] (Xio 7 None []) = Done (o ++ [0], Xio 7 None [], []) /\
    @xprintf_dev linux_target &"rx: %d KB.\n" [AInt 5] (Xio 7 None []) =
      Done (tt, Xio 7 None ([] ++ map (fun c => (7, c)) o), []) /\
    forall func, func <> 0 ->
      @xfprintf linux_target func &"rx: %d KB.\n" [AInt 5] (Xio 7 None []) =
      Done (tt, Xio 7 None ([] ++ map (fun c => (func, c)) o), []).
Proof.
  apply (@xprintf_destinations linux_target &"rx: %d KB.\n" [AInt 5] (Xio 7 None [])).
  - reflexivity.
  - reflexivity.
  - discriminate.
Defined.
