(* ===== verification/MadBit.v ===== *)
(** * libs/libmad-0.15.1b/bit.c: the bit reader and the CRC

    A [mad_bitptr] is a position inside a byte buffer; a pointer is an offset into
    it, and reading outside of the buffer is [None].  The bit reader delivers the
    bits of the buffer most significant first; the table-driven CRC is the
    bit-serial one. *)

From S2P Require Import Prelude.

Definition CHAR_BIT : Z := 8.

Record mad_bitptr : Type := BitPtr {
  bp_byte : Z;
  bp_cache : Z;  (* unsigned short *)
  bp_left : Z    (* unsigned short *)
}.

Definition crc_table : list Z := [
  0; 32773; 32783; 10; 32795; 30; 20; 32785; 32819; 54; 60; 32825; 40; 32813; 32807; 34;
  32867; 102; 108; 32873; 120; 32893; 32887; 114; 80; 32853; 32863; 90; 32843; 78; 68; 32833;
  32963; 198; 204; 32969; 216; 32989; 32983; 210; 240; 33013; 33023; 250; 33003; 238; 228; 32993;
  160; 32933; 32943; 170; 32955; 190; 180; 32945; 32915; 150; 156; 32921; 136; 32909; 32903; 130;
  33155; 390; 396; 33161; 408; 33181; 33175; 402; 432; 33205; 33215; 442; 33195; 430; 420; 33185;
  480; 33253; 33263; 490; 33275; 510; 500; 33265; 33235; 470; 476; 33241; 456; 33229; 33223; 450;
  320; 33093; 33103; 330; 33115; 350; 340; 33105; 33139; 374; 380; 33145; 360; 33133; 33127; 354;
  33059; 294; 300; 33065; 312; 33085; 33079; 306; 272; 33045; 33055; 282; 33035; 270; 260; 33025;
  33539; 774; 780; 33545; 792; 33565; 33559; 786; 816; 33589; 33599; 826; 33579; 814; 804; 33569;
  864; 33637; 33647; 874; 33659; 894; 884; 33649; 33619; 854; 860; 33625; 840; 33613; 33607; 834;
  960; 33733; 33743; 970; 33755; 990; 980; 33745; 33779; 1014; 1020; 33785; 1000; 33773; 33767; 994;
  33699; 934; 940; 33705; 952; 33725; 33719; 946; 912; 33685; 33695; 922; 33675; 910; 900; 33665;
  640; 33413; 33423; 650; 33435; 670; 660; 33425; 33459; 694; 700; 33465; 680; 33453; 33447; 674;
  33507; 742; 748; 33513; 760; 33533; 33527; 754; 720; 33493; 33503; 730; 33483; 718; 708; 33473;
  33347; 582; 588; 33353; 600; 33373; 33367; 594; 624; 33397; 33407; 634; 33387; 622; 612; 33377;
  544; 33317; 33327; 554; 33339; 574; 564; 33329; 33299; 534; 540; 33305; 520; 33293; 33287; 514
].
Definition CRC_POLY : Z := 32773.

(** [*ptr]: the buffers hold [unsigned char]s. *)
Definition load (buf : list Z) (k : Z) : option Z :=
  match zget buf k with Some c => Some (u8 c) | None => None end.

Section Ops.
Context `{T : Target} (buf : list Z).

Definition mad_bit_init (byte : Z) : mad_bitptr := BitPtr byte 0 CHAR_BIT.

Definition mad_bit_length (begin end_ : mad_bitptr) : Z :=
  u32 (bp_left begin + CHAR_BIT * (bp_byte end_ - (bp_byte begin + 1)) + (CHAR_BIT - bp_left end_)).

Definition mad_bit_nextbyte (bp : mad_bitptr) : Z :=
  if bp_left bp =? CHAR_BIT then bp_byte bp else bp_byte bp + 1.

Definition mad_bit_skip (bp : mad_bitptr) (len : Z) : option mad_bitptr :=
  let byte := bp_byte bp + len / CHAR_BIT in
  let lft := u16 (bp_left bp - len mod CHAR_BIT) in
  let '(byte, lft) := if lft >? CHAR_BIT then (byte + 1, u16 (lft + CHAR_BIT)) else (byte, lft) in
  if lft <? CHAR_BIT then
    match load buf byte with Some c => Some (BitPtr byte c lft) | None => None end
  else Some (BitPtr byte (bp_cache bp) lft).

(** [while (len >= CHAR_BIT)]: whole bytes, [n] of them. *)
Fixpoint read_bytes (n : nat) (byte value : Z) : option (Z * Z) :=
  match n with
  | O => Some (byte, value)
  | S n' =>
      match load buf byte with
      | Some c => read_bytes n' (byte + 1) (Z.lor (ulong (Z.shiftl value CHAR_BIT)) c)
      | None => None
      end
  end.

Definition mad_bit_read (bp : mad_bitptr) (len : Z) : option (Z * mad_bitptr) :=
  let cache := if bp_left bp =? CHAR_BIT then load buf (bp_byte bp) else Some (bp_cache bp) in
  match cache with
  | None => None
  | Some cache =>
      let lft := bp_left bp in
      let rest := Z.land cache (Z.shiftl 1 lft - 1) in
      if len <? lft then
        Some (Z.shiftr rest (lft - len), BitPtr (bp_byte bp) cache (lft - len))
      else
        let len := len - lft in
        match read_bytes (Z.to_nat (len / CHAR_BIT)) (bp_byte bp + 1) rest with
        | None => None
        | Some (byte, value) =>
            let len := len mod CHAR_BIT in
            if len >? 0 then
              match load buf byte with
              | None => None
              | Some c =>
                  Some (Z.lor (ulong (Z.shiftl value len)) (Z.shiftr c (CHAR_BIT - len)),
                        BitPtr byte c (CHAR_BIT - len))
              end
            else Some (value, BitPtr byte cache CHAR_BIT)
        end
  end.

(** One table step with the byte [d]. *)
Definition crc_byte (crc d : Z) : option Z :=
  match zget crc_table (Z.land (Z.lxor (Z.shiftr crc 8) d) 255) with
  | Some t => Some (Z.lxor (u32 (Z.shiftl crc 8)) t)
  | None => None
  end.

(** The four steps for a word of 32 bits. *)
Definition crc_word (crc data : Z) : option Z :=
  match crc_byte crc (Z.shiftr data 24) with
  | None => None
  | Some crc =>
      match crc_byte crc (Z.shiftr data 16) with
      | None => None
      | Some crc =>
          match crc_byte crc (Z.shiftr data 8) with
          | None => None
          | Some crc => crc_byte crc data
          end
      end
  end.

Fixpoint crc_words (n : nat) (bp : mad_bitptr) (crc : Z) : option (Z * mad_bitptr) :=
  match n with
  | O => Some (crc, bp)
  | S n' =>
      match mad_bit_read bp 32 with
      | None => None
      | Some (data, bp) =>
          match crc_word crc data with Some crc => crc_words n' bp crc | None => None end
      end
  end.

(** The cases 3, 2 and 1 of the switch. *)
Fixpoint crc_bytes (n : nat) (bp : mad_bitptr) (crc : Z) : option (Z * mad_bitptr) :=
  match n with
  | O => Some (crc, bp)
  | S n' =>
      match mad_bit_read bp 8 with
      | None => None
      | Some (d, bp) =>
          match crc_byte crc d with Some crc => crc_bytes n' bp crc | None => None end
      end
  end.

(** [while (len--)]: bit by bit. *)
Fixpoint crc_bits (n : nat) (bp : mad_bitptr) (crc : Z) : option Z :=
  match n with
  | O => Some crc
  | S n' =>
      match mad_bit_read bp 1 with
      | None => None
      | Some (b, bp) =>
          let msb := Z.lxor b (Z.shiftr crc 15) in
          let crc := u32 (Z.shiftl crc 1) in
          crc_bits n' bp (if Z.testbit msb 0 then Z.lxor crc CRC_POLY else crc)
      end
  end.

Definition mad_bit_crc (bp : mad_bitptr) (len init : Z) : option Z :=
  match crc_words (Z.to_nat (len / 32)) bp init with
  | None => None
  | Some (crc, bp) =>
      let len := len mod 32 in
      match crc_bytes (Z.to_nat (len / 8)) bp crc with
      | None => None
      | Some (crc, bp) =>
          match crc_bits (Z.to_nat (len mod 8)) bp crc with
          | Some crc => Some (Z.land crc 65535)
          | None => None
          end
      end
  end.
End Ops.

(** ** The bits of a buffer *)

Section Bits.
Context (buf : list Z).

Definition byte_at (k : Z) : Z := default 0 (load buf k).
Definition bit_at (p : Z) : bool := Z.testbit (byte_at (p / 8)) (7 - p mod 8).

(** The number made of the [n] bits from bit [p] on, most significant first. *)
Fixpoint bits_val (p : Z) (n : nat) : Z :=
  match n with
  | O => 0
  | S n' => 2 * bits_val p n' + Z.b2z (bit_at (p + Z.of_nat n'))
  end.

Lemma bits_val_range p n : 0 <= bits_val p n < 2 ^ Z.of_nat n.
Proof.
  induction n as [|n IH]; [done|]. cbn [bits_val]. rewrite Nat2Z.inj_succ, Z.pow_succ_r by lia.
  destruct (bit_at _); cbn [Z.b2z]; lia.
Qed.

Lemma bits_val_app p a b :
  bits_val p (a + b) = bits_val p a * 2 ^ Z.of_nat b + bits_val (p + Z.of_nat a) b.
Proof.
  induction b as [|b IH]; [rewrite Nat.add_0_r; simpl; lia|].
  rewrite Nat.add_succ_r. cbn [bits_val]. rewrite IH, Nat2Z.inj_succ, Z.pow_succ_r, Nat2Z.inj_add by lia.
  rewrite Z.add_assoc. ring.
Qed.

(** One more bit of a quotient. *)
Lemma div_pow2_step y j : 0 <= j -> y / 2 ^ j = 2 * (y / 2 ^ (j + 1)) + Z.b2z (Z.testbit y j).
Proof.
  intros Hj. rewrite Z.testbit_spec' by done. rewrite Z.pow_add_r, Z.pow_1_r by lia.
  rewrite <- Z.div_div by (try apply Z.pow_nonzero; lia). pose proof (Z.div_mod (y / 2 ^ j) 2). lia.
Qed.

Lemma is_byte_at k : is_byte (byte_at k).
Proof. unfold byte_at, load. destruct (zget buf k) as [c|]; [apply u8_range|done]. Qed.

(** The bits inside one byte. *)
Lemma bits_val_byte k i n : 0 <= i -> i + Z.of_nat n <= 8 ->
  bits_val (8 * k + i) n = (byte_at k mod 2 ^ (8 - i)) / 2 ^ (8 - i - Z.of_nat n).
Proof.
  intros Hi. induction n as [|n IH]; intros Hn.
  - simpl. rewrite Z.sub_0_r. symmetry. apply Z.div_small, Z.mod_pos_bound, Z.pow_pos_nonneg; lia.
  - cbn [bits_val]. rewrite IH by lia.
    assert (Hp : bit_at (8 * k + i + Z.of_nat n) = Z.testbit (byte_at k mod 2 ^ (8 - i)) (8 - i - Z.of_nat (S n))).
    { unfold bit_at. replace ((8 * k + i + Z.of_nat n) / 8) with k by lia.
      replace (7 - (8 * k + i + Z.of_nat n) mod 8) with (8 - i - Z.of_nat (S n)) by lia.
      symmetry. apply Z.mod_pow2_bits_low. lia. }
    rewrite Hp. replace (8 - i - Z.of_nat n) with (8 - i - Z.of_nat (S n) + 1) by lia.
    symmetry. apply div_pow2_step. lia.
Qed.

Lemma bits_val_full k : bits_val (8 * k) 8 = byte_at k.
Proof.
  pose proof (is_byte_at k) as Hk. unfold is_byte in Hk.
  replace (8 * k) with (8 * k + 0) by lia. rewrite bits_val_byte by lia.
  change (8 - 0 - Z.of_nat 8) with 0. change (8 - 0) with 8. rewrite Z.pow_0_r, Z.div_1_r, Z.mod_small; [done|]. lia.
Qed.
End Bits.

(** ** The reader *)

Section Read.
Context `{T : Target} (buf : list Z).

Definition bp_pos (bp : mad_bitptr) : Z := 8 * bp_byte bp + 8 - bp_left bp.
Definition bp_ok (bp : mad_bitptr) : Prop :=
  0 <= bp_byte bp /\ 0 <= bp_left bp <= 8 /\ (bp_left bp < 8 -> bp_cache bp = byte_at buf (bp_byte bp)).

Lemma load_byte k : 0 <= k < zlen buf -> load buf k = Some (byte_at buf k).
Proof. intros Hk. unfold byte_at, load. by destruct (zget_some buf k Hk) as [x ->]. Qed.

Lemma shift_in_ulong v d k : 0 <= v -> 0 <= d < 2 ^ k -> 0 <= k -> v * 2 ^ k < 4294967296 ->
  Z.lor (ulong (Z.shiftl v k)) d = v * 2 ^ k + d.
Proof.
  intros Hv Hd Hk Hlt. rewrite <- (shift_in v d k) by done. f_equal.
  rewrite Z.shiftl_mul_pow2 by done. assert (0 <= v * 2 ^ k) by nia.
  unfold ulong. destruct long64; wraps; rewrite ?Z.mod_small by lia; done.
Qed.

Lemma read_bytes_val n : forall byte value, 0 <= byte -> byte + Z.of_nat n <= zlen buf ->
  0 <= value -> (value + 1) * 2 ^ (8 * Z.of_nat n) <= 4294967296 ->
  read_bytes buf n byte value =
    Some (byte + Z.of_nat n, value * 2 ^ (8 * Z.of_nat n) + bits_val buf (8 * byte) (8 * n)).
Proof.
  induction n as [|n IH]; intros byte value Hb Hlen Hv Hlt.
  { cbn. do 2 f_equal; lia. }
  cbn [read_bytes]. rewrite load_byte by lia. pose proof (is_byte_at buf byte) as Hc. unfold is_byte in Hc.
  rewrite Nat2Z.inj_succ in Hlt. replace (8 * Z.succ (Z.of_nat n)) with (8 * Z.of_nat n + 8) in Hlt by lia.
  rewrite Z.pow_add_r in Hlt by lia. change (2 ^ 8) with 256 in Hlt.
  assert (Hpos : 1 <= 2 ^ (8 * Z.of_nat n)) by (apply (Z.pow_le_mono_r 2 0); lia).
  unfold CHAR_BIT. rewrite shift_in_ulong; [|done|change (2 ^ 8) with 256; lia|lia|change (2 ^ 8) with 256; nia].
  change (2 ^ 8) with 256. rewrite IH; [|lia|lia|lia|nia].
  replace (8 * S n)%nat with (8 + 8 * n)%nat by lia. rewrite bits_val_app, bits_val_full.
  change (Z.of_nat 8) with 8. rewrite Nat2Z.inj_succ, Nat2Z.inj_mul. change (Z.of_nat 8) with 8.
  replace (8 * Z.succ (Z.of_nat n)) with (8 * Z.of_nat n + 8) by lia.
  replace (8 * (byte + 1)) with (8 * byte + 8) by lia. rewrite Z.pow_add_r by lia.
  change (2 ^ 8) with 256. do 2 f_equal; [lia|ring].
Qed.

(** The bits of the current byte that are left. *)
Lemma rest_val k i n : 0 <= i -> 0 <= n <= i -> i <= 8 ->
  Z.shiftr (Z.land (byte_at buf k) (Z.shiftl 1 i - 1)) (i - n) = bits_val buf (8 * k + 8 - i) (Z.to_nat n).
Proof.
  intros Hi Hn Hi8. rewrite Z.shiftl_1_l, Z.sub_1_r, <- Z.ones_equiv, Z.land_ones, Z.shiftr_div_pow2 by lia.
  replace (8 * k + 8 - i) with (8 * k + (8 - i)) by lia. rewrite bits_val_byte by lia.
  rewrite Z2Nat.id by lia. by replace (8 - (8 - i)) with i by lia.
Qed.

Lemma rest_all k i : 0 <= i <= 8 ->
  Z.land (byte_at buf k) (Z.shiftl 1 i - 1) = bits_val buf (8 * k + 8 - i) (Z.to_nat i).
Proof. intros Hi. rewrite <- rest_val by lia. by rewrite Z.sub_diag, Z.shiftr_0_r. Qed.

Lemma top_bits k n : 0 < n <= 8 -> Z.shiftr (byte_at buf k) (8 - n) = bits_val buf (8 * k) (Z.to_nat n).
Proof.
  intros Hn. pose proof (is_byte_at buf k) as Hk. unfold is_byte in Hk.
  replace (8 * k) with (8 * k + 8 - 8) by lia. rewrite <- rest_val by lia. f_equal.
  change (Z.shiftl 1 8 - 1) with (Z.ones 8). rewrite Z.land_ones, Z.mod_small by (change (2 ^ 8) with 256; lia). done.
Qed.

Lemma read_cache bp len : bp_ok bp -> 1 <= len -> bp_pos bp + len <= 8 * zlen buf ->
  (if bp_left bp =? CHAR_BIT then load buf (bp_byte bp) else Some (bp_cache bp)) = Some (byte_at buf (bp_byte bp)).
Proof.
  intros (Hbyte & Hleft & Hcache) Hlen Hend. unfold bp_pos in Hend. unfold CHAR_BIT.
  destruct (Z.eqb_spec (bp_left bp) 8); [apply load_byte; lia|]. f_equal. apply Hcache. lia.
Qed.

(** The bits after those of the current byte: [m] of them. *)
Lemma bits_split p a b : 0 <= a -> 0 <= b ->
  bits_val buf p (Z.to_nat (a + b)) = bits_val buf p (Z.to_nat a) * 2 ^ b + bits_val buf (p + a) (Z.to_nat b).
Proof. intros Ha Hb. rewrite Z2Nat.inj_add, bits_val_app, !Z2Nat.id by lia. done. Qed.

(** The reader at every alignment. *)
Lemma mad_bit_read_bits bp len :
  bp_ok bp -> 1 <= len <= 32 -> bp_pos bp + len <= 8 * zlen buf ->
  exists bp', mad_bit_read buf bp len = Some (bits_val buf (bp_pos bp) (Z.to_nat len), bp') /\
              bp_ok bp' /\ bp_pos bp' = bp_pos bp + len.
Proof.
  intros Hok Hlen Hend. unfold mad_bit_read. rewrite (read_cache bp len) by (done || lia).
  destruct Hok as (Hbyte & Hleft & Hcache). unfold bp_pos in *. cbv zeta.
  destruct (Z.ltb_spec len (bp_left bp)) as [Hlt|Hge].
  { rewrite rest_val by lia. eexists. split; [done|]. split; [|cbn; lia]. split_and!; cbn; (done || lia). }
  rewrite rest_all by lia. set (lft := bp_left bp) in *. set (m := len - lft). unfold CHAR_BIT.
  pose proof (bits_val_range buf (8 * bp_byte bp + 8 - lft) (Z.to_nat lft)) as Hr. rewrite Z2Nat.id in Hr by lia.
  assert (Hm : 0 <= m / 8 /\ m = 8 * (m / 8) + m mod 8 /\ 0 <= m mod 8 < 8) by lia.
  assert (Hpow0 : 2 ^ lft * 2 ^ (8 * (m / 8)) <= 4294967296).
  { rewrite <- !Z.pow_add_r by lia. change 4294967296 with (2 ^ 32). apply Z.pow_le_mono_r; lia. }
  assert (Hpow : 2 ^ lft * 2 ^ (8 * (m / 8)) * 2 ^ (m mod 8) <= 4294967296).
  { rewrite <- !Z.pow_add_r by lia. change 4294967296 with (2 ^ 32). apply Z.pow_le_mono_r; lia. }
  pose proof (Z.pow_pos_nonneg 2 (8 * (m / 8))). pose proof (Z.pow_pos_nonneg 2 (m mod 8)).
  rewrite read_bytes_val; [|lia|lia|lia|].
  2: { rewrite Z2Nat.id by lia. transitivity (2 ^ lft * 2 ^ (8 * (m / 8))); [|done]. apply Z.mul_le_mono_nonneg_r; lia. }
  rewrite Z2Nat.id by lia. replace (8 * (bp_byte bp + 1)) with (8 * bp_byte bp + 8 - lft + lft) by lia.
  replace (8 * Z.to_nat (m / 8))%nat with (Z.to_nat (8 * (m / 8))) by lia.
  rewrite <- bits_split by lia. pose proof (bits_val_range buf (8 * bp_byte bp + 8 - lft) (Z.to_nat (lft + 8 * (m / 8)))) as Hr2.
  rewrite Z2Nat.id, Z.pow_add_r in Hr2 by lia.
  destruct (Z.gtb_spec (m mod 8) 0) as [Hgt|Hz].
  - rewrite load_byte, top_bits by lia. pose proof (bits_val_range buf (8 * (bp_byte bp + 1 + m / 8)) (Z.to_nat (m mod 8))) as Hr3.
    rewrite Z2Nat.id in Hr3 by lia. rewrite shift_in_ulong by (done || lia || nia).
    replace (8 * (bp_byte bp + 1 + m / 8)) with (8 * bp_byte bp + 8 - lft + (lft + 8 * (m / 8))) by lia.
    rewrite <- bits_split by lia. replace (lft + 8 * (m / 8) + m mod 8) with len by lia.
    eexists. split; [done|]. split; [|cbn; lia]. split_and!; cbn; (done || lia).
  - replace (lft + 8 * (m / 8)) with len by lia. eexists. split; [done|]. split; [|cbn; lia].
    split_and!; cbn; (done || lia).
Qed.
(** [mad_bit_skip] moves by [len] bits; the byte it lands in is fetched. *)
Lemma mad_bit_skip_ok bp len :
  bp_ok bp -> 0 <= len -> bp_pos bp + len <= 8 * zlen buf ->
  exists bp', mad_bit_skip buf bp len = Some bp' /\ bp_ok bp' /\ bp_pos bp' = bp_pos bp + len.
Proof.
  intros (Hbyte & Hleft & Hcache) Hlen Hend. unfold bp_pos in *. unfold mad_bit_skip, CHAR_BIT. cbv zeta.
  assert (Hm : len = 8 * (len / 8) + len mod 8 /\ 0 <= len mod 8 < 8 /\ 0 <= len / 8) by lia.
  destruct (Z.le_gt_cases (len mod 8) (bp_left bp)) as [Hle|Hgt].
  - replace (u16 (bp_left bp - len mod 8)) with (bp_left bp - len mod 8) by (wraps; lia).
    destruct (Z.gtb_spec (bp_left bp - len mod 8) 8); [lia|].
    destruct (Z.ltb_spec (bp_left bp - len mod 8) 8).
    + rewrite load_byte by lia. eexists. split; [done|]. split; [|cbn; lia]. split_and!; cbn; (done || lia).
    + eexists. split; [done|]. split; [|cbn; lia]. split_and!; cbn; (done || lia).
  - replace (u16 (bp_left bp - len mod 8)) with (65536 + bp_left bp - len mod 8) by (wraps; lia).
    destruct (Z.gtb_spec (65536 + bp_left bp - len mod 8) 8); [|lia].
    replace (u16 (65536 + bp_left bp - len mod 8 + 8)) with (bp_left bp - len mod 8 + 8) by (wraps; lia).
    destruct (Z.ltb_spec (bp_left bp - len mod 8 + 8) 8); [|lia].
    rewrite load_byte by lia. eexists. split; [done|]. split; [|cbn; lia]. split_and!; cbn; (done || lia).
Qed.
(** [mad_bit_read] delivers the [len] bits at the position, most significant first,
    for every width up to 32 bits, wherever the position is inside a byte, and
    advances by [len]. *)
Theorem mad_bit_read_correct bp len :
  bp_ok bp -> 1 <= len <= 32 -> bp_pos bp + len <= 8 * zlen buf ->
  exists bp', mad_bit_read buf bp len = Some (bits_val buf (bp_pos bp) (Z.to_nat len), bp') /\
              bp_ok bp' /\ bp_pos bp' = bp_pos bp + len.
Proof. apply mad_bit_read_bits. Qed.
End Read.

(** ** The CRC *)

(** The bit-serial register: shift one bit in, subtract the polynomial when the
    bit that falls out is set. *)
Definition crc_shift (x : Z) : Z :=
  Z.lxor (Z.land (Z.shiftl x 1) 65535) (if Z.testbit x 15 then CRC_POLY else 0).
Definition crc_bit (x : Z) (b : bool) : Z := crc_shift (Z.lxor x (if b then 32768 else 0)).

Definition byte_bits (d : Z) : list bool :=
  [Z.testbit d 7; Z.testbit d 6; Z.testbit d 5; Z.testbit d 4; Z.testbit d 3; Z.testbit d 2; Z.testbit d 1; Z.testbit d 0].

Lemma land_lxor_distr a b c : Z.land (Z.lxor a b) c = Z.lxor (Z.land a c) (Z.land b c).
Proof.
  apply Z.bits_inj'. intros i Hi. rewrite ?Z.land_spec, ?Z.lxor_spec, ?Z.land_spec.
  by destruct (Z.testbit a i), (Z.testbit b i), (Z.testbit c i).
Qed.

Lemma lxor_swap a b c d : Z.lxor (Z.lxor a b) (Z.lxor c d) = Z.lxor (Z.lxor a c) (Z.lxor b d).
Proof. rewrite !Z.lxor_assoc. f_equal. rewrite <- !Z.lxor_assoc. f_equal. apply Z.lxor_comm. Qed.

Lemma crc_shift_lxor x y : crc_shift (Z.lxor x y) = Z.lxor (crc_shift x) (crc_shift y).
Proof.
  unfold crc_shift. rewrite Z.shiftl_lxor, land_lxor_distr, Z.lxor_spec, lxor_swap. f_equal.
  by destruct (Z.testbit x 15), (Z.testbit y 15).
Qed.

Definition crc_fold (bs : list bool) (x : Z) : Z := fold_left crc_bit bs x.
Fixpoint crc_shifts (n : nat) (x : Z) : Z := match n with O => x | S n => crc_shifts n (crc_shift x) end.

Lemma crc_shifts_lxor n : forall x y, crc_shifts n (Z.lxor x y) = Z.lxor (crc_shifts n x) (crc_shifts n y).
Proof. induction n as [|n IH]; intros x y; [done|]. cbn. by rewrite crc_shift_lxor, IH. Qed.

(** The register is linear: what is in it and what comes in add up. *)
Lemma crc_fold_linear bs : forall x, crc_fold bs x = Z.lxor (crc_shifts (length bs) x) (crc_fold bs 0).
Proof.
  unfold crc_fold. induction bs as [|b bs IH]; intros x; [cbn; by rewrite Z.lxor_0_r|].
  cbn [fold_left length crc_shifts]. rewrite IH, (IH (crc_bit 0 b)). unfold crc_bit.
  rewrite crc_shift_lxor, crc_shifts_lxor, Z.lxor_0_l, Z.lxor_assoc. done.
Qed.

(** A decidable property of every byte, by evaluation. *)
Lemma all_bytes (P : Z -> bool) : forallb P (map Z.of_nat (seq 0 256)) = true -> forall c, is_byte c -> P c = true.
Proof.
  intros Hall c Hc. rewrite forallb_forall in Hall. apply Hall, in_map_iff. exists (Z.to_nat c).
  unfold is_byte in Hc. split; [lia|]. apply in_seq. lia.
Qed.

(** The table holds eight shifts of its index, entered in the upper half of the
    register. *)
Lemma crc_table_entry h : is_byte h -> zget crc_table h = Some (crc_shifts 8 (Z.shiftl h 8)).
Proof.
  intros Hh. apply (bool_decide_eq_true_1 _).
  revert h Hh. apply all_bytes. vm_compute. reflexivity.
Qed.

(** Eight bits entered one by one are the byte entered in the upper half. *)
Lemma crc_fold_byte d : is_byte d -> crc_fold (byte_bits d) 0 = crc_shifts 8 (Z.shiftl d 8).
Proof.
  intros Hh. apply (bool_decide_eq_true_1 _).
  revert d Hh. apply all_bytes. vm_compute. reflexivity.
Qed.

(** The lower half only moves up. *)
Lemma crc_low l : is_byte l -> crc_shifts 8 l = Z.shiftl l 8.
Proof.
  intros Hh. apply (bool_decide_eq_true_1 _).
  revert l Hh. apply all_bytes. vm_compute. reflexivity.
Qed.

Lemma land_byte x : is_byte (Z.land x 255).
Proof. unfold is_byte. change 255 with (Z.ones 8). rewrite Z.land_ones by lia. apply Z.mod_pos_bound. lia. Qed.

Lemma split_halves c : 0 <= c ->
  Z.land c 65535 = Z.lxor (Z.shiftl (Z.land (Z.shiftr c 8) 255) 8) (Z.land c 255).
Proof.
  intros Hc. change 65535 with (Z.ones 16). change 255 with (Z.ones 8). apply Z.bits_inj'. intros i Hi.
  rewrite Z.lxor_spec, Z.shiftl_spec, !Z.land_spec, !Z.testbit_ones by lia.
  destruct (Z.ltb_spec (i - 8) 0) as [Hlt|Hge].
  - rewrite (Z.testbit_neg_r (Z.shiftr c 8)) by lia.
    destruct (Z.testbit c i), (Z.leb_spec 0 i), (Z.ltb_spec i 16), (Z.ltb_spec i 8); cbn; (done || lia).
  - rewrite Z.shiftr_spec by lia. replace (i - 8 + 8) with i by lia.
    destruct (Z.testbit c i), (Z.leb_spec 0 i), (Z.leb_spec 0 (i - 8)), (Z.ltb_spec i 16), (Z.ltb_spec i 8), (Z.ltb_spec (i - 8) 8); cbn; (done || lia).
Qed.

Lemma crc_shift_16 x : Z.land (crc_shift x) 65535 = crc_shift x.
Proof.
  unfold crc_shift. rewrite land_lxor_distr, <- Z.land_assoc, Z.land_diag. f_equal.
  by destruct (Z.testbit x 15).
Qed.

Lemma crc_shifts_16 n : forall x, Z.land (crc_shifts (S n) x) 65535 = crc_shifts (S n) x.
Proof. induction n as [|n IH]; intros x; [apply crc_shift_16|]. apply IH. Qed.

Lemma shl8_16 c : 0 <= c -> Z.land (u32 (Z.shiftl c 8)) 65535 = Z.shiftl (Z.land c 255) 8.
Proof.
  intros Hc. change 65535 with (Z.ones 16). change 255 with (Z.ones 8).
  rewrite !Z.land_ones, !Z.shiftl_mul_pow2 by lia. wraps. change (2 ^ 8) with 256. change (2 ^ 16) with 65536. lia.
Qed.

(** A step of the table is eight steps of the register. *)
Lemma crc_byte_ok c d : 0 <= c ->
  exists c', crc_byte c d = Some c' /\ 0 <= c' /\
             Z.land c' 65535 = crc_fold (byte_bits (Z.land d 255)) (Z.land c 65535).
Proof.
  intros Hc. unfold crc_byte. rewrite crc_table_entry by apply land_byte.
  eexists. split; [done|]. split.
  { apply Z.lxor_nonneg. rewrite <- crc_shifts_16, Z.land_nonneg. wraps. lia. }
  rewrite crc_fold_linear, crc_fold_byte by apply land_byte. change (length (byte_bits (Z.land d 255))) with 8%nat.
  rewrite (split_halves c), crc_shifts_lxor, (crc_low (Z.land c 255)) by (done || apply land_byte).
  rewrite !land_lxor_distr, crc_shifts_16, shl8_16, Z.shiftl_lxor, crc_shifts_lxor by done.
  rewrite (Z.lxor_comm _ (Z.shiftl (Z.land c 255) 8)), Z.lxor_assoc. done.
Qed.

Section Crc.
Context `{T : Target} (buf : list Z).

Fixpoint bit_list (p : Z) (n : nat) : list bool :=
  match n with O => [] | S n => bit_at buf p :: bit_list (p + 1) n end.

Lemma bit_list_app n m : forall p, bit_list p (n + m) = bit_list p n ++ bit_list (p + Z.of_nat n) m.
Proof.
  induction n as [|n IH]; intros p; [cbn; by rewrite Z.add_0_r|].
  cbn [Nat.add bit_list app]. rewrite IH. do 3 f_equal. lia.
Qed.

Lemma bits_val_testbit p n : forall i, 0 <= i < Z.of_nat n ->
  Z.testbit (bits_val buf p n) i = bit_at buf (p + Z.of_nat n - 1 - i).
Proof.
  induction n as [|n IH]; intros i Hi; [lia|]. cbn [bits_val].
  destruct (Z.eq_dec i 0) as [->|Hn0].
  { rewrite Z.testbit_0_r. f_equal. lia. }
  replace i with (Z.succ (i - 1)) at 1 by lia. rewrite Z.testbit_succ_r by lia.
  rewrite IH by lia. f_equal. lia.
Qed.

Lemma byte_bits_val p : byte_bits (bits_val buf p 8) = bit_list p 8.
Proof.
  unfold byte_bits. rewrite !bits_val_testbit by lia. cbn [bit_list].
  do 8 (apply (f_equal2 cons); [f_equal; lia|]). done.
Qed.

(** A byte inside a wider number. *)
Lemma bits_val_mid p a b :
  Z.land (Z.shiftr (bits_val buf p (a + 8 + b)) (Z.of_nat b)) 255 = bits_val buf (p + Z.of_nat a) 8.
Proof.
  change 255 with (Z.ones 8). rewrite Z.land_ones, Z.shiftr_div_pow2, bits_val_app by lia.
  pose proof (bits_val_range buf (p + Z.of_nat (a + 8)) b) as Hr.
  rewrite Z.div_add_l, (Z.div_small (bits_val _ _ b)), Z.add_0_r, bits_val_app by lia.
  change (Z.of_nat 8) with 8. rewrite Z.add_comm, Z.mod_add, Z.mod_small by (try apply (bits_val_range buf _ 8); lia).
  done.
Qed.

Lemma crc_byte_of p a b c d : 0 <= c -> d = Z.shiftr (bits_val buf p (a + 8 + b)) (Z.of_nat b) ->
  exists c', crc_byte c d = Some c' /\ 0 <= c' /\
             Z.land c' 65535 = crc_fold (bit_list (p + Z.of_nat a) 8) (Z.land c 65535).
Proof.
  intros Hc ->. destruct (crc_byte_ok c (Z.shiftr (bits_val buf p (a + 8 + b)) (Z.of_nat b)) Hc) as (c' & Heq & Hc' & Hl).
  exists c'. rewrite bits_val_mid, byte_bits_val in Hl. done.
Qed.

Lemma crc_word_ok p c : 0 <= c ->
  exists c', crc_word c (bits_val buf p 32) = Some c' /\ 0 <= c' /\
             Z.land c' 65535 = crc_fold (bit_list p 32) (Z.land c 65535).
Proof.
  intros Hc. unfold crc_word.
  destruct (crc_byte_of p 0 24 c (Z.shiftr (bits_val buf p 32) 24) Hc eq_refl) as (c1 & -> & H1 & E1).
  destruct (crc_byte_of p 8 16 c1 (Z.shiftr (bits_val buf p 32) 16) H1 eq_refl) as (c2 & -> & H2 & E2).
  destruct (crc_byte_of p 16 8 c2 (Z.shiftr (bits_val buf p 32) 8) H2 eq_refl) as (c3 & -> & H3 & E3).
  destruct (crc_byte_of p 24 0 c3 (bits_val buf p 32) H3) as (c4 & -> & H4 & E4); [by rewrite Z.shiftr_0_r|].
  exists c4. split; [done|]. split; [done|]. rewrite E4, E3, E2, E1. unfold crc_fold. rewrite <- !fold_left_app.
  change 32%nat with (8 + 8 + 8 + 8)%nat. rewrite !bit_list_app, Z.add_0_r. done.
Qed.

(** What a loop of the CRC does: read [w] bits [n] times and fold them in. *)
Definition folds_bits (w : nat) (loop : nat -> mad_bitptr -> Z -> option (Z * mad_bitptr)) : Prop :=
  forall n bp crc, bp_ok buf bp -> 0 <= crc -> bp_pos bp + Z.of_nat (n * w) <= 8 * zlen buf ->
  exists crc' bp', loop n bp crc = Some (crc', bp') /\ bp_ok buf bp' /\ 0 <= crc' /\
    bp_pos bp' = bp_pos bp + Z.of_nat (n * w) /\
    Z.land crc' 65535 = crc_fold (bit_list (bp_pos bp) (n * w)) (Z.land crc 65535).

Lemma crc_words_ok : folds_bits 32 (crc_words buf).
Proof.
  intros n. induction n as [|n IH]; intros bp crc Hok Hc Hend.
  { exists crc, bp. cbn. rewrite Z.add_0_r. done. }
  cbn [crc_words]. destruct (mad_bit_read_bits buf bp 32) as (bp1 & -> & Hok1 & Hpos1); [done|lia|lia|].
  change (Z.to_nat 32) with 32%nat. destruct (crc_word_ok (bp_pos bp) crc Hc) as (c1 & -> & Hc1 & E1).
  destruct (IH bp1 c1 Hok1 Hc1) as (c2 & bp2 & -> & Hok2 & Hc2 & Hpos2 & E2); [lia|].
  exists c2, bp2. split_and!; [done..|lia|]. rewrite E2, E1, Hpos1. unfold crc_fold. rewrite <- fold_left_app.
  by rewrite Nat.mul_succ_l, Nat.add_comm, bit_list_app.
Qed.

Lemma crc_bytes_ok : folds_bits 8 (crc_bytes buf).
Proof.
  intros n. induction n as [|n IH]; intros bp crc Hok Hc Hend.
  { exists crc, bp. cbn. rewrite Z.add_0_r. done. }
  cbn [crc_bytes]. destruct (mad_bit_read_bits buf bp 8) as (bp1 & -> & Hok1 & Hpos1); [done|lia|lia|].
  change (Z.to_nat 8) with 8%nat.
  destruct (crc_byte_of (bp_pos bp) 0 0 crc (bits_val buf (bp_pos bp) 8) Hc) as (c1 & -> & Hc1 & E1); [by rewrite Z.shiftr_0_r|].
  rewrite Z.add_0_r in E1.
  destruct (IH bp1 c1 Hok1 Hc1) as (c2 & bp2 & -> & Hok2 & Hc2 & Hpos2 & E2); [lia|].
  exists c2, bp2. split_and!; [done..|lia|]. rewrite E2, E1, Hpos1. unfold crc_fold. rewrite <- fold_left_app.
  by rewrite Nat.mul_succ_l, Nat.add_comm, bit_list_app.
Qed.

Lemma crc_bit_step crc b : 0 <= crc ->
  let crc1 := u32 (Z.shiftl crc 1) in
  let crc' := if Z.testbit (Z.lxor (Z.b2z b) (Z.shiftr crc 15)) 0 then Z.lxor crc1 CRC_POLY else crc1 in
  0 <= crc' /\ Z.land crc' 65535 = crc_bit (Z.land crc 65535) b.
Proof.
  intros Hc crc1 crc'. assert (H1 : 0 <= crc1) by (unfold crc1; wraps; lia).
  assert (H2 : Z.land crc1 65535 = Z.land (Z.shiftl (Z.land crc 65535) 1) 65535).
  { unfold crc1. change 65535 with (Z.ones 16). rewrite !Z.land_ones, !Z.shiftl_mul_pow2 by lia. wraps.
    change (2 ^ 16) with 65536. change (2 ^ 1) with 2. lia. }
  assert (Hb : Z.testbit (Z.lxor (Z.b2z b) (Z.shiftr crc 15)) 0 = xorb b (Z.testbit (Z.land crc 65535) 15)).
  { rewrite Z.lxor_spec, Z.shiftr_spec, Z.land_spec, andb_true_r by lia. by rewrite Z.b2z_bit0. }
  unfold crc'. rewrite Hb. split; [destruct (xorb _ _); [apply Z.lxor_nonneg; done|done]|].
  unfold crc_bit, crc_shift. rewrite Z.lxor_spec, Z.shiftl_lxor, land_lxor_distr, <- H2.
  destruct b; destruct (Z.testbit (Z.land crc 65535) 15); cbn [xorb];
    rewrite ?land_lxor_distr; by rewrite ?Z.lxor_0_r.
Qed.

Lemma crc_bits_ok n : forall bp crc, bp_ok buf bp -> 0 <= crc -> bp_pos bp + Z.of_nat n <= 8 * zlen buf ->
  exists crc', crc_bits buf n bp crc = Some crc' /\ 0 <= crc' /\
               Z.land crc' 65535 = crc_fold (bit_list (bp_pos bp) n) (Z.land crc 65535).
Proof.
  induction n as [|n IH]; intros bp crc Hok Hc Hend; [by exists crc|].
  cbn [crc_bits]. destruct (mad_bit_read_bits buf bp 1) as (bp1 & -> & Hok1 & Hpos1); [done|lia|lia|].
  change (Z.to_nat 1) with 1%nat. cbn [bits_val]. rewrite Z.mul_0_r, Z.add_0_l, Z.add_0_r.
  destruct (crc_bit_step crc (bit_at buf (bp_pos bp)) Hc) as [H1 E1].
  destruct (IH bp1 _ Hok1 H1) as (c2 & -> & Hc2 & E2); [lia|]. exists c2. split; [done|]. split; [done|].
  rewrite E2, E1, Hpos1. done.
Qed.

(** Words, bytes and bits together. *)
Lemma mad_bit_crc_bits bp len init :
  bp_ok buf bp -> 0 <= len -> bp_pos bp + len <= 8 * zlen buf -> 0 <= init < 65536 ->
  mad_bit_crc buf bp len init = Some (crc_fold (bit_list (bp_pos bp) (Z.to_nat len)) init).
Proof.
  intros Hok Hlen Hend Hi. unfold mad_bit_crc.
  assert (Hm : len = 32 * (len / 32) + 8 * (len mod 32 / 8) + len mod 32 mod 8 /\ 0 <= len / 32 /\ 0 <= len mod 32 / 8 /\ 0 <= len mod 32 mod 8) by lia.
  destruct (crc_words_ok (Z.to_nat (len / 32)) bp init) as (c1 & bp1 & -> & Hok1 & Hc1 & Hpos1 & E1); [done|lia|lia|].
  destruct (crc_bytes_ok (Z.to_nat (len mod 32 / 8)) bp1 c1) as (c2 & bp2 & -> & Hok2 & Hc2 & Hpos2 & E2); [done|lia|lia|].
  destruct (crc_bits_ok (Z.to_nat (len mod 32 mod 8)) bp2 c2) as (c3 & -> & Hc3 & E3); [done|lia|lia|].
  rewrite E3, E2, E1, Hpos2, Hpos1. unfold crc_fold. rewrite <- !fold_left_app, ?app_assoc.
  replace (Z.land init 65535) with init
    by (change 65535 with (Z.ones 16); rewrite Z.land_ones, Z.mod_small by lia; done).
  rewrite <- bit_list_app, <- Z.add_assoc, <- Nat2Z.inj_add, <- bit_list_app. do 3 f_equal. lia.
Qed.

(** C33: [mad_bit_crc], which works through a table 32 and 8 bits at a time and
    then bit by bit, is the bit-serial CRC of the [len] bits at the position with
    the polynomial 0x8005: at every alignment, for every length inside the buffer. *)
Theorem mad_bit_crc_serial bp len init :
  bp_ok buf bp -> 0 <= len -> bp_pos bp + len <= 8 * zlen buf -> 0 <= init < 65536 ->
  mad_bit_crc buf bp len init = Some (crc_fold (bit_list (bp_pos bp) (Z.to_nat len)) init).
Proof. apply mad_bit_crc_bits. Qed.
End Crc.

Lemma mad_bit_crc_serial_witness :
  let _ := stm32_target in
  mad_bit_crc [255; 251; 144; 100; 18; 52; 86; 120] (BitPtr 1 251 5) 45 65535 =
    Some (crc_fold (bit_list [255; 251; 144; 100; 18; 52; 86; 120] 11 45) 65535).
Proof.
  apply (mad_bit_crc_serial _).
  - split_and!; cbn; (lia || done).
  - lia.
  - vm_compute. done.
  - lia.
Defined.

Lemma mad_bit_read_correct_witness :
  let _ := stm32_target in
  exists bp', mad_bit_read [255; 251; 144; 100] (BitPtr 0 255 5) 21 = Some (bits_val [255; 251; 144; 100] 3 21, bp') /\
              bp_ok [255; 251; 144; 100] bp' /\ bp_pos bp' = 24.
Proof.
  apply (mad_bit_read_correct [255; 251; 144; 100]) with (bp := BitPtr 0 255 5) (len := 21).
  - split_and!; cbn; (lia || done).
  - lia.
  - vm_compute. done.
Defined.
