(* ===== verification/MadTimer.v ===== *)
(** * libs/libmad-0.15.1b/timer.c: playing time

    A timer is a number of whole seconds and a fraction in units of 1/352800000 of a
    second, which every supported sampling rate divides. *)

From S2P Require Import Prelude Libc.

Record mad_timer_t : Type := MadTimer { seconds : Z; fraction : Z }.

Definition MAD_TIMER_RESOLUTION : Z := 352800000.
Definition mad_timer_zero : mad_timer_t := MadTimer 0 0.

(** [enum mad_units] *)
Definition MAD_UNITS_HOURS : Z := -2.
Definition MAD_UNITS_MINUTES : Z := -1.
Definition MAD_UNITS_SECONDS : Z := 0.
Definition MAD_UNITS_MILLISECONDS : Z := 1000.
(** The units that divide a second, as the cases of the switches list them. *)
Definition metric_units : list Z :=
  [10; 100; 1000; 8000; 11025; 12000; 16000; 22050; 24000; 32000; 44100; 48000; 24; 25; 30; 48; 50; 60; 75].
(** The drop-frame units. *)
Definition drop_units : list Z := [-24; -25; -30; -48; -50; -60].

Section Timer.
Context `{T : Target}.

Definition mad_timer_compare (t1 t2 : mad_timer_t) : Z :=
  let diff := slong (seconds t1 - seconds t2) in
  if diff <? 0 then -1
  else if diff >? 0 then 1
  else
    let diff := slong (fraction t1 - fraction t2) in
    if diff <? 0 then -1 else if diff >? 0 then 1 else 0.

Definition mad_timer_negate (t : mad_timer_t) : mad_timer_t :=
  let s := slong (- seconds t) in
  if negb (fraction t =? 0) then MadTimer (slong (s - 1)) (ulong (MAD_TIMER_RESOLUTION - fraction t))
  else MadTimer s (fraction t).

Definition mad_timer_abs (t : mad_timer_t) : mad_timer_t := if seconds t <? 0 then mad_timer_negate t else t.

Definition reduce_timer (t : mad_timer_t) : mad_timer_t :=
  MadTimer (slong (seconds t + fraction t / MAD_TIMER_RESOLUTION)) (fraction t mod MAD_TIMER_RESOLUTION).

Fixpoint gcd_loop (fuel : nat) (num1 num2 : Z) : res Z :=
  match fuel with
  | O => NoFuel
  | S fuel' => if negb (num2 =? 0) then gcd_loop fuel' num2 (num1 mod num2) else Done num1
  end.

(** Two rounds halve the product of two 64-bit numbers at least. *)
Definition gcd (num1 num2 : Z) : res Z := gcd_loop 130 num1 num2.

Definition reduce_rational (numer denom : Z) : res (Z * Z) :=
  res_bind (gcd numer denom) (fun factor =>
    if factor =? 0 then Fault else Done (numer / factor, denom / factor)).

Definition scale_rational (numer denom scale : Z) : res Z :=
  res_bind (reduce_rational numer denom) (fun '(numer, denom) =>
  res_bind (reduce_rational scale denom) (fun '(scale, denom) =>
    if denom =? 0 then Fault
    else if denom <? scale then
      Done (ulong (ulong (numer * (scale / denom)) + ulong (numer * (scale mod denom)) / denom))
    else if denom <? numer then
      Done (ulong (ulong (scale * (numer / denom)) + ulong (scale * (numer mod denom)) / denom))
    else Done (ulong (numer * scale) / denom))).

(** The cases of [mad_timer_set] in which the fraction is a multiple. *)
Definition set_denoms : list Z := [1000; 8000; 11025; 12000; 16000; 22050; 24000; 32000; 44100; 48000].

(** [seconds] is a [signed long], but what is stored into it and added to it is an [unsigned long],
    so that the sum is one of [unsigned long], converted back: it wraps, also here and in
    [reduce_timer].  The sums of two [seconds] in the other functions are signed; they are
    taken to wrap as well. *)
Definition mad_timer_set (secs numer denom : Z) : res mad_timer_t :=
  let '(s, numer) :=
    if (numer >=? denom) && (denom >? 0) then (slong (slong secs + numer / denom), numer mod denom)
    else (slong secs, numer) in
  let frac :=
    if (denom =? 0) || (denom =? 1) then Done 0
    else if denom =? MAD_TIMER_RESOLUTION then Done numer
    else if existsb (Z.eqb denom) set_denoms then Done (ulong (numer * (MAD_TIMER_RESOLUTION / denom)))
    else scale_rational numer denom MAD_TIMER_RESOLUTION in
  res_bind frac (fun frac =>
    let t := MadTimer s frac in
    Done (if frac >=? MAD_TIMER_RESOLUTION then reduce_timer t else t)).

Definition timer_add (t incr : mad_timer_t) : mad_timer_t :=
  let t := MadTimer (slong (seconds t + seconds incr)) (ulong (fraction t + fraction incr)) in
  if fraction t >=? MAD_TIMER_RESOLUTION then reduce_timer t else t.

(** [while (factor)]: one round per bit. *)
Fixpoint multiply_loop (fuel : nat) (t addend : mad_timer_t) (factor : Z) : res mad_timer_t :=
  match fuel with
  | O => NoFuel
  | S fuel' =>
      if factor =? 0 then Done t
      else
        let t := if negb (Z.land factor 1 =? 0) then timer_add t addend else t in
        multiply_loop fuel' t (timer_add addend addend) (Z.shiftr factor 1)
  end.

Definition mad_timer_multiply (t : mad_timer_t) (scalar : Z) : res mad_timer_t :=
  let '(factor, t) :=
    if scalar <? 0 then (ulong (slong (- scalar)), mad_timer_negate t) else (ulong scalar, t) in
  multiply_loop 65 mad_timer_zero t factor.

(** The branch of [mad_timer_count] for the units that divide a second. *)
Definition count_metric (t : mad_timer_t) (units : Z) : res Z :=
  res_bind (scale_rational (fraction t) MAD_TIMER_RESOLUTION (ulong units)) (fun x =>
    Done (slong (slong (seconds t * units) + slong x))).

Definition mad_timer_count (t : mad_timer_t) (units : Z) : res Z :=
  if units =? MAD_UNITS_HOURS then Done (Z.quot (Z.quot (seconds t) 60) 60)
  else if units =? MAD_UNITS_MINUTES then Done (Z.quot (seconds t) 60)
  else if units =? MAD_UNITS_SECONDS then Done (seconds t)
  else if existsb (Z.eqb units) metric_units then count_metric t units
  else if existsb (Z.eqb units) drop_units then
    (* the call of itself with -units, which is one of the metric units *)
    res_bind (count_metric t (- units)) (fun n => Done (Z.quot (slong (slong (n + 1) * 1000)) 1001))
  else Done 0.

Definition mad_timer_fraction (t : mad_timer_t) (denom : Z) : res Z :=
  let t := mad_timer_abs t in
  if denom =? 0 then
    Done (if negb (fraction t =? 0) then MAD_TIMER_RESOLUTION / fraction t else MAD_TIMER_RESOLUTION + 1)
  else if denom =? MAD_TIMER_RESOLUTION then Done (fraction t)
  else scale_rational (fraction t) MAD_TIMER_RESOLUTION denom.

(** The first switch of [mad_timer_string]: (seconds, frac, sub). *)
Definition string_parts (t : mad_timer_t) (fracunits subparts : Z) : res (Z * Z * Z) :=
  let secs := ulong (seconds t) in
  if existsb (Z.eqb fracunits) metric_units then
    let denom := MAD_TIMER_RESOLUTION / fracunits in
    res_bind (scale_rational (fraction t mod denom) denom subparts) (fun sub =>
      Done (secs, u32 (fraction t / denom), sub))
  else if existsb (Z.eqb fracunits) drop_units then
    res_bind (mad_timer_count t fracunits) (fun n =>
      let frame := ulong n in
      let cycle := ulong (- fracunits * 60 * 10 - (10 - 1) * 2) in
      let d := frame / cycle in
      let m := frame mod cycle in
      let frame := ulong (frame + (10 - 1) * 2 * d) in
      let frame := if m >? 2 then ulong (frame + 2 * ((m - 2) / (cycle / 10))) else frame in
      Done (frame / (- fracunits), u32 (frame mod (- fracunits)), 0))
  else Done (secs, 0, 0).

(** The text stored into [dest]; [None]: nothing is stored. *)
Definition mad_timer_string (t : mad_timer_t) (format : list Z) (units fracunits subparts : Z) : res (option (list Z)) :=
  let t := mad_timer_abs t in
  res_bind (string_parts t fracunits subparts) (fun '(secs, frac, sub) =>
    let print args := res_bind (sprintf_bytes format args) (fun o => Done (Some o)) in
    if units =? MAD_UNITS_HOURS then
      let minutes := secs / 60 in
      print [ALong (minutes / 60); AInt (u32 (minutes mod 60)); AInt (u32 (secs mod 60)); AInt frac; ALong sub]
    else if units =? MAD_UNITS_MINUTES then
      print [ALong (secs / 60); AInt (u32 (secs mod 60)); AInt frac; ALong sub]
    else if units =? MAD_UNITS_SECONDS then print [ALong secs; AInt frac; ALong sub]
    else if existsb (Z.eqb units) drop_units then
      let sub := if fracunits <? 0 then 0 else sub in
      res_bind (mad_timer_count t units) (fun n => print [ALong n; ALong sub])
    else if existsb (Z.eqb units) metric_units then
      res_bind (mad_timer_count t units) (fun n => print [ALong n; ALong sub])
    else Done None).
End Timer.

(** ** Greatest common divisor *)

Lemma gcd_loop_small fuel : forall a b, 0 <= a -> 0 <= b <= a -> a * b < 2 ^ Z.of_nat fuel ->
  gcd_loop (S fuel) a b = Done (Z.gcd a b).
Proof.
  induction fuel as [|fuel IH]; intros a b Ha Hb Hf; cbn [gcd_loop].
  - destruct (Z.eqb_spec b 0) as [->|]; cbn [negb].
    + by rewrite Z.gcd_0_r_nonneg.
    + change (2 ^ Z.of_nat 0) with 1 in Hf. nia.
  - destruct (Z.eqb_spec b 0) as [->|Hb0]; cbn [negb]; [by rewrite Z.gcd_0_r_nonneg|].
    pose proof (Z.mod_pos_bound a b) as Hm. rewrite (Z.gcd_comm a b), <- (Z.gcd_mod a b), (Z.gcd_comm (a mod b)) by done.
    apply IH; [lia|lia|]. rewrite Nat2Z.inj_succ, Z.pow_succ_r in Hf by lia.
    assert (2 * (a mod b) < a).
    { pose proof (Z.div_mod a b Hb0). assert (1 <= a / b) by (apply Z.div_le_lower_bound; lia). nia. }
    nia.
Qed.

Lemma gcd_loop_S n a b : b <> 0 -> gcd_loop (S n) a b = gcd_loop n b (a mod b).
Proof. intros Hb. cbn [gcd_loop]. by destruct (Z.eqb_spec b 0). Qed.

(** [gcd] ends for all numbers of 64 bits and is the greatest common divisor. *)
Lemma gcd_correct a b : 0 <= a < 2 ^ 64 -> 0 <= b < 2 ^ 64 -> gcd a b = Done (Z.gcd a b).
Proof.
  intros Ha Hb. unfold gcd. destruct (Z.le_gt_cases b a) as [Hle|Hgt].
  - apply gcd_loop_small; [lia|lia|]. apply (Z.lt_le_trans _ (2 ^ 64 * 2 ^ 64)); [nia|done].
  - change 130%nat with (S 129). rewrite gcd_loop_S by lia.
    rewrite (Z.mod_small a) by lia. rewrite Z.gcd_comm. apply gcd_loop_small; [lia|lia|].
    apply (Z.lt_le_trans _ (2 ^ 64 * 2 ^ 64)); [nia|done].
Qed.

Lemma reduce_rational_correct n d : 0 <= n < 2 ^ 64 -> 0 < d < 2 ^ 64 ->
  reduce_rational n d = Done (n / Z.gcd n d, d / Z.gcd n d).
Proof.
  intros Hn Hd. unfold reduce_rational. rewrite gcd_correct by lia. cbn [res_bind].
  destruct (Z.eqb_spec (Z.gcd n d) 0) as [Hz|]; [|done]. apply Z.gcd_eq_0_r in Hz. lia.
Qed.

(** ** Timers are residues

    A timer whose seconds wrap around at the width of [long] stands for a number of
    1/352800000 seconds. *)
Section Laws.
Context `{T : Target}.

Definition timer_of (v : Z) : mad_timer_t :=
  MadTimer (slong (v / MAD_TIMER_RESOLUTION)) (v mod MAD_TIMER_RESOLUTION).

Ltac timer := unfold timer_of, slong, ulong, MAD_TIMER_RESOLUTION in *; cbn [seconds fraction] in *; destruct long64; wraps.

Lemma ulong_small x : 0 <= x < 4294967296 -> ulong x = x.
Proof. intros Hx. unfold ulong. destruct long64; wraps; lia. Qed.

Lemma timer_add_of v w : timer_add (timer_of v) (timer_of w) = timer_of (v + w).
Proof.
  unfold timer_add, timer_of. cbn [seconds fraction].
  assert (Hf : 0 <= v mod MAD_TIMER_RESOLUTION + w mod MAD_TIMER_RESOLUTION < 2 * MAD_TIMER_RESOLUTION)
    by (unfold MAD_TIMER_RESOLUTION; lia).
  rewrite ulong_small by (unfold MAD_TIMER_RESOLUTION in *; lia).
  unfold reduce_timer, MAD_TIMER_RESOLUTION in *. cbn [seconds fraction].
  destruct (Z.geb_spec (v mod 352800000 + w mod 352800000) 352800000); f_equal; try lia;
    unfold slong; destruct long64; wraps; lia.
Qed.

Lemma mad_timer_negate_of v : mad_timer_negate (timer_of v) = timer_of (- v).
Proof.
  unfold mad_timer_negate, timer_of. cbn [seconds fraction].
  rewrite (ulong_small (MAD_TIMER_RESOLUTION - _)) by (unfold MAD_TIMER_RESOLUTION; lia).
  unfold MAD_TIMER_RESOLUTION. destruct (Z.eqb_spec (v mod 352800000) 0); cbn [negb]; f_equal; try lia;
    unfold slong; destruct long64; wraps; lia.
Qed.

Lemma timer_of_0 : timer_of 0 = mad_timer_zero.
Proof. unfold timer_of, slong. by destruct long64. Qed.

Lemma multiply_loop_S n t a k : k <> 0 ->
  multiply_loop (S n) t a k =
    multiply_loop n (if k mod 2 =? 0 then t else timer_add t a) (timer_add a a) (k / 2).
Proof.
  intros Hk. cbn [multiply_loop]. destruct (Z.eqb_spec k 0); [done|].
  rewrite Z.shiftr_div_pow2 by lia. change (2 ^ 1) with 2. change 1 with (Z.ones 1) at 1.
  rewrite Z.land_ones by lia. change (2 ^ 1) with 2. by destruct (k mod 2 =? 0).
Qed.

Lemma multiply_loop_of fuel : forall v a k, 0 <= k < 2 ^ Z.of_nat fuel ->
  multiply_loop (S fuel) (timer_of v) (timer_of a) k = Done (timer_of (v + k * a)).
Proof.
  induction fuel as [|fuel IH]; intros v a k Hk.
  - change (2 ^ Z.of_nat 0) with 1 in Hk. replace k with 0 by lia. cbn. by rewrite Z.add_0_r.
  - destruct (Z.eq_dec k 0) as [->|Hk0]; [cbn; by rewrite Z.add_0_r|]. rewrite multiply_loop_S by done.
    rewrite !timer_add_of. rewrite Nat2Z.inj_succ, Z.pow_succ_r in Hk by lia.
    destruct (Z.eqb_spec (k mod 2) 0); (rewrite IH by lia); do 2 f_equal;
      pose proof (Z.div_mod k 2 ltac:(done)); set (q := k / 2) in *; clearbody q; [replace k with (2 * q) by lia|replace k with (2 * q + 1) by lia]; ring.
Qed.

Lemma mad_timer_multiply_of v k :
  -9223372036854775808 <= k < 9223372036854775808 -> (long64 = false -> -2147483648 <= k < 2147483648) ->
  mad_timer_multiply (timer_of v) k = Done (timer_of (k * v)).
Proof.
  intros Hk Hk32. unfold mad_timer_multiply. rewrite <- timer_of_0.
  assert (Hu : forall x, 0 <= x <= 9223372036854775808 -> (long64 = false -> x <= 2147483648) ->
    ulong x = x /\ ulong (slong x) = x).
  { intros x Hx Hx32. unfold ulong, slong. destruct long64; [|specialize (Hx32 eq_refl)]; wraps; lia. }
  destruct (Z.ltb_spec k 0).
  - rewrite (proj2 (Hu (- k) ltac:(lia) ltac:(lia))), mad_timer_negate_of, multiply_loop_of by lia.
    do 2 f_equal. lia.
  - rewrite (proj1 (Hu k ltac:(lia) ltac:(lia))), multiply_loop_of by lia. done.
Qed.

Lemma abs_fraction t : 0 <= fraction t < MAD_TIMER_RESOLUTION -> 0 <= fraction (mad_timer_abs t) < MAD_TIMER_RESOLUTION.
Proof.
  intros Hf. unfold mad_timer_abs, mad_timer_negate. destruct (seconds t <? 0); [|done].
  destruct (Z.eqb_spec (fraction t) 0); cbn [negb fraction]; [done|].
  rewrite ulong_small; unfold MAD_TIMER_RESOLUTION in *; lia.
Qed.

(** ** Exactness of the conversions *)

(** Splitting a factor keeps the quotient rounded down. *)
Lemma scale_split x y d : 0 < d -> x * (y / d) + x * (y mod d) / d = x * y / d.
Proof.
  intros Hd. rewrite <- Z.div_add_l by lia. f_equal. rewrite (Z.div_mod y d) at 3 by lia. ring.
Qed.

Lemma split_le x y d : 0 <= x -> 0 <= y -> 0 < d ->
  0 <= x * (y / d) <= x * y /\ 0 <= x * (y mod d) <= x * y /\ 0 <= x * y / d <= x * y.
Proof.
  intros Hx Hy Hd. pose proof (Z.mod_pos_bound y d Hd). assert (0 <= y / d) by (apply Z.div_pos; lia).
  assert (y / d <= y) by (apply Z.div_le_upper_bound; nia). assert (y mod d <= y) by (apply Z.mod_le; lia).
  assert (0 <= x * y / d) by (apply Z.div_pos; nia). assert (x * y / d <= x * y) by (apply Z.div_le_upper_bound; nia).
  split_and!; nia.
Qed.

(** Scaling a fraction of [d] to a fraction of [s] is exact, rounded down, when the
    product of the reduced numbers fits. *)
Lemma scale_rational_reduced n d s : 0 <= n < 2 ^ 64 -> 0 < d < 2 ^ 64 -> 0 <= s < 2 ^ 64 ->
  n / Z.gcd n d * (s / Z.gcd s (d / Z.gcd n d)) < 4294967296 ->
  scale_rational n d s = Done (n * s / d).
Proof.
  intros Hn Hd Hs Hu. unfold scale_rational. rewrite reduce_rational_correct by done. cbn [res_bind].
  set (g := Z.gcd n d) in *. assert (Hg : 0 < g) by (pose proof (Z.gcd_nonneg n d); pose proof (Z.gcd_eq_0_r n d); lia).
  destruct (Z.gcd_divide_l n d) as [n1 Hn1]. destruct (Z.gcd_divide_r n d) as [d1 Hd1]. fold g in Hn1, Hd1.
  assert (En : n / g = n1) by (rewrite Hn1; apply Z.div_mul; lia).
  assert (Ed : d / g = d1) by (rewrite Hd1; apply Z.div_mul; lia). rewrite En, Ed in *.
  assert (0 < d1 < 2 ^ 64) by nia. rewrite reduce_rational_correct by lia. cbn [res_bind].
  set (h := Z.gcd s d1) in *. assert (Hh : 0 < h) by (pose proof (Z.gcd_nonneg s d1); pose proof (Z.gcd_eq_0_r s d1); lia).
  destruct (Z.gcd_divide_l s d1) as [s2 Hs2]. destruct (Z.gcd_divide_r s d1) as [d2 Hd2]. fold h in Hs2, Hd2.
  assert (Es : s / h = s2) by (rewrite Hs2; apply Z.div_mul; lia).
  assert (Ed2 : d1 / h = d2) by (rewrite Hd2; apply Z.div_mul; lia). rewrite Es, Ed2 in *.
  assert (0 < d2) by nia. assert (0 <= n1) by nia. assert (0 <= s2) by nia.
  replace (n * s / d) with (n1 * s2 / d2).
  2: { rewrite Hn1, Hs2, Hd1, Hd2. replace (n1 * g * (s2 * h)) with (n1 * s2 * (g * h)) by ring.
       replace (d2 * h * g) with (d2 * (g * h)) by ring. rewrite Z.div_mul_cancel_r; nia. }
  clear - Hu H0 H1 H2. destruct (Z.eqb_spec d2 0); [lia|].
  destruct (split_le n1 s2 d2) as (? & ? & ?); [done..|]. destruct (split_le s2 n1 d2) as (? & ? & ?); [done..|].
  destruct (d2 <? s2); [|destruct (d2 <? n1)].
  - rewrite (ulong_small (n1 * (s2 / d2))), (ulong_small (n1 * (s2 mod d2))), scale_split, ulong_small by lia. done.
  - rewrite (ulong_small (s2 * (n1 / d2))), (ulong_small (s2 * (n1 mod d2))), scale_split, ulong_small by lia.
    by rewrite Z.mul_comm.
  - by rewrite ulong_small by nia.
Qed.

(** ... which it does when [s] divides [d]. *)
Lemma scale_rational_divides n d s : 0 <= n < 4294967296 -> 0 < d < 2 ^ 64 -> 0 < s -> (s | d) ->
  scale_rational n d s = Done (n * s / d).
Proof.
  intros Hn Hd Hs Hdiv. assert (s <= d) by (apply Z.divide_pos_le; [lia|done]).
  apply scale_rational_reduced; [lia|lia|lia|]. set (g := Z.gcd n d).
  assert (Hg : 0 < g) by (pose proof (Z.gcd_nonneg n d); pose proof (Z.gcd_eq_0_r n d); lia).
  destruct (Z.gcd_divide_l n d) as [n1 Hn1]. destruct (Z.gcd_divide_r n d) as [d1 Hd1]. fold g in Hn1, Hd1.
  replace (n / g) with n1 by (rewrite Hn1; symmetry; apply Z.div_mul; lia).
  replace (d / g) with d1 by (rewrite Hd1; symmetry; apply Z.div_mul; lia).
  assert (Hle : s / Z.gcd s d1 <= g).
  { set (h := Z.gcd s d1). assert (Hh : h <> 0) by (pose proof (Z.gcd_eq_0_l s d1); lia).
    destruct (Z.gcd_divide_l s d1) as [s2 Hs2]. destruct (Z.gcd_divide_r s d1) as [d2 Hd2]. fold h in Hs2, Hd2.
    assert (Es : s / h = s2) by (rewrite Hs2; apply Z.div_mul; lia).
    assert (Ed : d1 / h = d2) by (rewrite Hd2; apply Z.div_mul; lia).
    apply Z.divide_pos_le; [done|]. apply (Z.gauss _ d2).
    - rewrite Es. apply (Z.mul_divide_cancel_r _ _ h); [done|]. rewrite <- Hs2.
      replace (d2 * g * h) with d by (rewrite Hd1, Hd2; ring). done.
    - rewrite <- Ed. by apply Z.gcd_div_gcd. }
  nia.
Qed.

Lemma in_units u l : existsb (Z.eqb u) l = true <-> In u l.
Proof.
  rewrite existsb_exists. split; [intros (x & Hx & He); apply Z.eqb_eq in He; by subst|].
  intros Hu. exists u. split; [done|apply Z.eqb_refl].
Qed.

Lemma metric_divides u : In u metric_units -> 0 < u <= 48000 /\ (u | MAD_TIMER_RESOLUTION).
Proof.
  intros Hu. assert (Hall : Forall (fun u => (0 <? u) && (u <=? 48000) && (MAD_TIMER_RESOLUTION mod u =? 0) = true) metric_units)
    by (repeat constructor).
  rewrite List.Forall_forall in Hall. specialize (Hall u Hu). apply andb_true_iff in Hall as [Hr Hm].
  apply andb_true_iff in Hr. split; [lia|]. apply Z.mod_divide; lia.
Qed.

Lemma scale_0 n d : 0 <= n < 2 ^ 64 -> 0 < d < 2 ^ 64 -> scale_rational n d 0 = Done 0.
Proof.
  intros Hn Hd. rewrite scale_rational_reduced; [by rewrite Z.mul_0_r|done|done|done|]. by rewrite Zdiv_0_l, Z.mul_0_r.
Qed.

(** Counting in a unit that divides a second is exact, rounded down. *)
Lemma count_metric_exact t u : 0 <= fraction t < MAD_TIMER_RESOLUTION -> In u metric_units ->
  -2147483648 <= seconds t * u -> (seconds t * MAD_TIMER_RESOLUTION + fraction t) * u / MAD_TIMER_RESOLUTION < 2147483648 ->
  count_metric t u = Done ((seconds t * MAD_TIMER_RESOLUTION + fraction t) * u / MAD_TIMER_RESOLUTION).
Proof.
  intros Hf Hu Hlo Hhi. destruct (metric_divides u Hu) as [Hr Hd]. unfold count_metric.
  rewrite ulong_small by lia. rewrite scale_rational_divides; [|unfold MAD_TIMER_RESOLUTION in *; lia|done|lia|done].
  cbn [res_bind]. set (x := fraction t * u / MAD_TIMER_RESOLUTION).
  replace ((seconds t * MAD_TIMER_RESOLUTION + fraction t) * u / MAD_TIMER_RESOLUTION) with (seconds t * u + x) in *.
  2: { unfold x. rewrite <- Z.div_add_l by done. f_equal. ring. }
  assert (Hx : 0 <= x < 48000).
  { unfold x. split; [apply Z.div_pos; unfold MAD_TIMER_RESOLUTION in *; nia|].
    apply Z.div_lt_upper_bound; unfold MAD_TIMER_RESOLUTION in *; nia. }
  f_equal. unfold slong. destruct long64; wraps; lia.
Qed.

(** Setting a timer to a number of samples at a supported rate is exact. *)
Lemma mad_timer_set_of secs numer denom : In denom set_denoms -> 0 <= numer ->
  mad_timer_set secs numer denom = Done (timer_of ((secs * denom + numer) * (MAD_TIMER_RESOLUTION / denom))).
Proof.
  intros Hin Hn. unfold mad_timer_set.
  assert (Hm : In denom metric_units) by (unfold set_denoms, metric_units in *; cbn in *; tauto).
  destruct (metric_divides denom Hm) as [Hr [q Hq]]. rewrite (proj2 (in_units _ _) Hin).
  assert (H10 : 1000 <= denom) by (cbn in Hin; lia).
  destruct (Z.eqb_spec denom 0); [lia|]. destruct (Z.eqb_spec denom 1); [lia|]. cbn [orb].
  destruct (Z.eqb_spec denom MAD_TIMER_RESOLUTION); [unfold MAD_TIMER_RESOLUTION in *; lia|].
  replace (MAD_TIMER_RESOLUTION / denom) with q by (rewrite Hq; symmetry; apply Z.div_mul; lia).
  assert (Hq0 : 0 < q) by (unfold MAD_TIMER_RESOLUTION in Hq; nia).
  assert (Hgo : forall s m, 0 <= m < denom -> s * denom + m = secs * denom + numer ->
    res_bind (Done (ulong (m * q))) (fun frac => Done (if frac >=? MAD_TIMER_RESOLUTION
      then reduce_timer (MadTimer (slong s) frac) else MadTimer (slong s) frac)) =
    Done (timer_of ((secs * denom + numer) * q))).
  { intros s m Hnd He. assert (0 <= m * q < MAD_TIMER_RESOLUTION) by nia.
    rewrite ulong_small by (unfold MAD_TIMER_RESOLUTION in *; lia). cbn [res_bind].
    destruct (Z.geb_spec (m * q) MAD_TIMER_RESOLUTION); [lia|]. rewrite <- He. unfold timer_of.
    replace ((s * denom + m) * q) with (m * q + s * MAD_TIMER_RESOLUTION) by (rewrite Hq; ring).
    rewrite Z.div_add, Z.mod_add, Z.div_small, Z.mod_small by (done || lia). done. }
  assert (Hs : forall x, slong (slong secs + x) = slong (secs + x)) by (intros x; unfold slong; destruct long64; wraps; lia).
  destruct (Z.geb_spec numer denom) as [Hge|Hlt]; cbn [andb].
  - destruct (Z.gtb_spec denom 0); [|lia]. rewrite Hs. apply Hgo; [apply Z.mod_pos_bound; lia|].
    pose proof (Z.div_mod numer denom). nia.
  - apply Hgo; [lia|done].
Qed.

(** Timers are numbers of 1/352800000 seconds modulo the width of [long]:
    adding, negating and multiplying by any [long] (by repeated doubling) are the
    operations on the numbers, without rounding, and the multiplication loop ends. *)
Theorem mad_timer_arith v w k :
  -9223372036854775808 <= k < 9223372036854775808 -> (long64 = false -> -2147483648 <= k < 2147483648) ->
  timer_add (timer_of v) (timer_of w) = timer_of (v + w) /\
  mad_timer_negate (timer_of v) = timer_of (- v) /\
  mad_timer_multiply (timer_of v) k = Done (timer_of (k * v)).
Proof. intros Hk Hk32. split_and!; [apply timer_add_of|apply mad_timer_negate_of|by apply mad_timer_multiply_of]. Qed.

(** C37: No sample is lost: a timer set to a number of samples below 2^31 at one of the sampling
    rates, given as whole seconds and a rest of any size, counts the same number of samples in that rate again. *)
Theorem mad_timer_set_count secs numer denom :
  In denom set_denoms -> 0 <= secs -> 0 <= numer -> secs * denom + numer < 2147483648 ->
  res_bind (mad_timer_set secs numer denom) (fun t => mad_timer_count t denom) = Done (secs * denom + numer).
Proof.
  intros Hin Hs Hn Hlt. rewrite mad_timer_set_of by done. cbn [res_bind].
  assert (Hm : In denom metric_units) by (unfold set_denoms, metric_units in *; cbn in *; tauto).
  destruct (metric_divides denom Hm) as [Hr [q Hq]]. assert (H10 : 1000 <= denom) by (cbn in Hin; lia).
  replace (MAD_TIMER_RESOLUTION / denom) with q by (rewrite Hq; symmetry; apply Z.div_mul; lia).
  assert (Hq0 : 0 < q) by (unfold MAD_TIMER_RESOLUTION in Hq; nia).
  set (v := (secs * denom + numer) * q). assert (Hv : 0 <= v / MAD_TIMER_RESOLUTION < 2147483648).
  { unfold v. rewrite Hq, (Z.mul_comm q denom), Z.div_mul_cancel_r by lia.
    split; [apply Z.div_pos; nia|]. apply Z.div_lt_upper_bound; nia. }
  assert (Hsl : slong (v / MAD_TIMER_RESOLUTION) = v / MAD_TIMER_RESOLUTION) by (unfold slong; destruct long64; wraps; lia).
  assert (Hex : (v / MAD_TIMER_RESOLUTION * MAD_TIMER_RESOLUTION + v mod MAD_TIMER_RESOLUTION) * denom / MAD_TIMER_RESOLUTION
                = secs * denom + numer).
  { rewrite (Z.mul_comm (v / _)), <- Z.div_mod by done. unfold v. rewrite <- Z.mul_assoc, <- Hq. by apply Z.div_mul. }
  unfold mad_timer_count, MAD_UNITS_HOURS, MAD_UNITS_MINUTES, MAD_UNITS_SECONDS.
  repeat (match goal with |- context [denom =? ?z] => destruct (Z.eqb_spec denom z); [lia|] end).
  rewrite (proj2 (in_units _ _) Hm). unfold timer_of. rewrite Hsl, count_metric_exact; cbn [seconds fraction].
  - by rewrite Hex.
  - apply Z.mod_pos_bound. done.
  - done.
  - nia.
  - by rewrite Hex.
Qed.

End Laws.

(** On Linux the time cannot be printed as [cmd_libmad_state] asks for it: the format
    reads the seconds as a [long], and they are passed as an [int]. *)
Lemma xvprintf_long_int a b rest :
  xvprintf (T := linux_target) &"%lu:%02lu.%03u" (ALong a :: AInt b :: rest) = Fault.
Proof. lazy -[put_number slong ulong Z.testbit]. by destruct (put_number _ _ _ _ _ _ _). Qed.

Lemma mad_timer_string_linux t : 0 <= fraction (mad_timer_abs (T := linux_target) t) < MAD_TIMER_RESOLUTION ->
  mad_timer_string (T := linux_target) t &"%lu:%02lu.%03u" MAD_UNITS_MINUTES MAD_UNITS_MILLISECONDS 0 = Fault.
Proof.
  intros Hf. unfold mad_timer_string, string_parts. change (existsb (Z.eqb MAD_UNITS_MILLISECONDS) metric_units) with true.
  cbn iota. change (MAD_TIMER_RESOLUTION / MAD_UNITS_MILLISECONDS) with 352800.
  rewrite scale_0; [|lia|done]. cbn [res_bind].
  change (MAD_UNITS_MINUTES =? MAD_UNITS_HOURS) with false. change (MAD_UNITS_MINUTES =? MAD_UNITS_MINUTES) with true.
  cbn iota. unfold sprintf_bytes. by rewrite xvprintf_long_int.
Qed.

Example timer_string_stm32 :
  mad_timer_string (T := stm32_target) (MadTimer 185 123480000) &"%lu:%02lu.%03u" MAD_UNITS_MINUTES MAD_UNITS_MILLISECONDS 0
    = Done (Some &"3:05.350").
Proof. vm_compute. reflexivity. Qed.

Lemma mad_timer_arith_witness :
  timer_add (T := stm32_target) (timer_of (T := stm32_target) 400000000) (timer_of (T := stm32_target) 5) = timer_of (T := stm32_target) (400000000 + 5) /\
  mad_timer_negate (T := stm32_target) (timer_of (T := stm32_target) 400000000) = timer_of (T := stm32_target) (- 400000000) /\
  mad_timer_multiply (T := stm32_target) (timer_of (T := stm32_target) 400000000) (-7) = Done (timer_of (T := stm32_target) (-7 * 400000000)).
Proof. apply (mad_timer_arith (T := stm32_target) 400000000 5 (-7)); lia. Defined.

Lemma mad_timer_set_count_witness :
  res_bind (mad_timer_set (T := stm32_target) 3 1152 44100) (fun t => mad_timer_count (T := stm32_target) t 44100) = Done (3 * 44100 + 1152).
Proof. apply (mad_timer_set_count (T := stm32_target) 3 1152 44100); [cbn; tauto|lia..]. Defined.
