(* ===== verification/MadStream.v ===== *)
(** * libs/libmad-0.15.1b: the structures of frame.h and stream.h, and stream.c

    A pointer into the input is an offset into the buffer that [mad_stream_buffer]
    was given; [None] is NULL. *)

From S2P Require Import Prelude MadBit MadTimer.

(** [struct mad_header] *)
Record header_t : Type := Header {
  hd_layer : Z;
  hd_mode : Z;
  hd_mode_extension : Z;
  hd_emphasis : Z;
  hd_bitrate : Z;
  hd_samplerate : Z;
  hd_crc_check : Z;
  hd_crc_target : Z;
  hd_flags : Z;
  hd_private_bits : Z;
  hd_duration : mad_timer_t
}.

(** [struct mad_frame] *)
Record frame_t : Type := Frame {
  fr_header : header_t;
  fr_options : Z;
  fr_sbsample : list (list (list Z));        (* [2][36][32] *)
  fr_overlap : option (list (list (list Z))) (* [2][32][18] *)
}.

(** [struct mad_stream] *)
Record stream_t : Type := Stream {
  st_bufend : option Z;
  st_skiplen : Z;
  st_sync : Z;
  st_freerate : Z;
  st_this_frame : option Z;
  st_next_frame : option Z;
  st_ptr : mad_bitptr;
  st_anc_ptr : mad_bitptr;
  st_anc_bitlen : Z;
  st_main_data : option (list Z);
  st_md_len : Z;
  st_options : Z;
  st_error : Z
}.

Section Setters.
Implicit Types s : stream_t.
Definition set_bufend x s := Stream x (st_skiplen s) (st_sync s) (st_freerate s) (st_this_frame s) (st_next_frame s) (st_ptr s) (st_anc_ptr s) (st_anc_bitlen s) (st_main_data s) (st_md_len s) (st_options s) (st_error s).
Definition set_skiplen x s := Stream (st_bufend s) x (st_sync s) (st_freerate s) (st_this_frame s) (st_next_frame s) (st_ptr s) (st_anc_ptr s) (st_anc_bitlen s) (st_main_data s) (st_md_len s) (st_options s) (st_error s).
Definition set_sync x s := Stream (st_bufend s) (st_skiplen s) x (st_freerate s) (st_this_frame s) (st_next_frame s) (st_ptr s) (st_anc_ptr s) (st_anc_bitlen s) (st_main_data s) (st_md_len s) (st_options s) (st_error s).
Definition set_freerate x s := Stream (st_bufend s) (st_skiplen s) (st_sync s) x (st_this_frame s) (st_next_frame s) (st_ptr s) (st_anc_ptr s) (st_anc_bitlen s) (st_main_data s) (st_md_len s) (st_options s) (st_error s).
Definition set_this_frame x s := Stream (st_bufend s) (st_skiplen s) (st_sync s) (st_freerate s) x (st_next_frame s) (st_ptr s) (st_anc_ptr s) (st_anc_bitlen s) (st_main_data s) (st_md_len s) (st_options s) (st_error s).
Definition set_next_frame x s := Stream (st_bufend s) (st_skiplen s) (st_sync s) (st_freerate s) (st_this_frame s) x (st_ptr s) (st_anc_ptr s) (st_anc_bitlen s) (st_main_data s) (st_md_len s) (st_options s) (st_error s).
Definition set_ptr x s := Stream (st_bufend s) (st_skiplen s) (st_sync s) (st_freerate s) (st_this_frame s) (st_next_frame s) x (st_anc_ptr s) (st_anc_bitlen s) (st_main_data s) (st_md_len s) (st_options s) (st_error s).
Definition set_anc p n s := Stream (st_bufend s) (st_skiplen s) (st_sync s) (st_freerate s) (st_this_frame s) (st_next_frame s) (st_ptr s) p n (st_main_data s) (st_md_len s) (st_options s) (st_error s).
Definition set_anc_bitlen n s := set_anc (st_anc_ptr s) n s.
Definition set_main_data x s := Stream (st_bufend s) (st_skiplen s) (st_sync s) (st_freerate s) (st_this_frame s) (st_next_frame s) (st_ptr s) (st_anc_ptr s) (st_anc_bitlen s) x (st_md_len s) (st_options s) (st_error s).
Definition set_error x s := Stream (st_bufend s) (st_skiplen s) (st_sync s) (st_freerate s) (st_this_frame s) (st_next_frame s) (st_ptr s) (st_anc_ptr s) (st_anc_bitlen s) (st_main_data s) (st_md_len s) (st_options s) x.
End Setters.

(** [enum mad_error] *)
Definition MAD_ERROR_NONE : Z := 0.
Definition MAD_ERROR_NOMEM : Z := 49.
Definition MAD_ERROR_LOSTSYNC : Z := 257.
Definition MAD_ERROR_BADEMPHASIS : Z := 261.
Definition MAD_ERROR_BADCRC : Z := 513.
Definition MAD_ERROR_BADDATAPTR : Z := 565.
Definition MAD_ERROR_BUFLEN : Z := 1.
Definition MAD_ERROR_BUFPTR : Z := 2.
Definition MAD_ERROR_BADLAYER : Z := 258.
Definition MAD_ERROR_BADBITRATE : Z := 259.
Definition MAD_ERROR_BADSAMPLERATE : Z := 260.

Definition MAD_RECOVERABLE (error : Z) : bool := negb (Z.land error 65280 =? 0).

Definition MAD_BUFFER_GUARD : Z := 8.

(** A bit pointer that is not set: no byte of the buffer. *)
Definition null_bitptr : mad_bitptr := mad_bit_init (-1).

Definition mad_stream_init : stream_t :=
  Stream None 0 0 0 None None null_bitptr null_bitptr 0 None 0 0 MAD_ERROR_NONE.

(** The memory of [main_data] goes back to the allocator. *)
Definition mad_stream_finish (s : stream_t) : stream_t := set_main_data None s.

Definition mad_stream_buffer (buffer length : Z) (s : stream_t) : stream_t :=
  let s := set_bufend (Some (buffer + length)) s in
  let s := set_this_frame (Some buffer) s in
  let s := set_next_frame (Some buffer) s in
  let s := set_sync 1 s in
  set_ptr (mad_bit_init buffer) s.

(** The two tests for a sync word: eleven set bits. *)
Definition is_sync (buf : list Z) (ptr : Z) : option bool :=
  match load buf ptr with
  | None => None
  | Some a =>
      if a =? 255 then
        match load buf (ptr + 1) with Some b => Some (Z.land b 224 =? 224) | None => None end
      else Some false
  end.

(** [while (ptr < end - 1 && !(...)) ++ptr;] with [n] places left to look at. *)
Fixpoint sync_scan (buf : list Z) (n : nat) (ptr : Z) : option Z :=
  match n with
  | O => Some ptr
  | S n' =>
      match is_sync buf ptr with
      | None => None
      | Some true => Some ptr
      | Some false => sync_scan buf n' (ptr + 1)
      end
  end.

Definition mad_stream_sync (buf : list Z) (s : stream_t) : option (Z * stream_t) :=
  match st_bufend s with
  | None => None
  | Some end_ =>
      let ptr := mad_bit_nextbyte (st_ptr s) in
      match sync_scan buf (Z.to_nat (end_ - 1 - ptr)) ptr with
      | None => None
      | Some ptr =>
          if end_ - ptr <? MAD_BUFFER_GUARD then Some (-1, s)
          else Some (0, set_ptr (mad_bit_init ptr) s)
      end
  end.

(** The texts of [mad_stream_errorstr], by error code. *)
Definition error_texts : list (Z * list Z) := [
  (MAD_ERROR_NONE, &"no error");
  (MAD_ERROR_BUFLEN, &"input buffer too small (or EOF)");
  (MAD_ERROR_BUFPTR, &"invalid (null) buffer pointer");
  (MAD_ERROR_NOMEM, &"not enough memory");
  (MAD_ERROR_LOSTSYNC, &"lost synchronization");
  (MAD_ERROR_BADLAYER, &"reserved header layer value");
  (MAD_ERROR_BADBITRATE, &"forbidden bitrate value");
  (MAD_ERROR_BADSAMPLERATE, &"reserved sample frequency value");
  (MAD_ERROR_BADEMPHASIS, &"reserved emphasis value");
  (MAD_ERROR_BADCRC, &"CRC check failed");
  (529, &"forbidden bit allocation value");
  (545, &"bad scalefactor index");
  (546, &"bad bitrate/mode combination");
  (561, &"bad frame length");
  (562, &"bad big_values count");
  (563, &"reserved block_type");
  (564, &"bad scalefactor selection info");
  (MAD_ERROR_BADDATAPTR, &"bad main_data_begin pointer");
  (566, &"bad audio data length");
  (567, &"bad Huffman table select");
  (568, &"Huffman data overrun");
  (569, &"incompatible block_type for JS")
].

Fixpoint find_text (l : list (Z * list Z)) (error : Z) : option (list Z) :=
  match l with
  | [] => None
  | (e, t) :: l => if error =? e then Some t else find_text l error
  end.

(** NULL for a code that is not in the table. *)
Definition mad_stream_errorstr (error : Z) : option (list Z) := find_text error_texts error.
