(* ===== verification/Snd.v ===== *)
(** * common/snd.c: sample rates and the software volume *)

From S2P Require Import Prelude.

(** common/snd.h *)
Inductive sound_state_e : Type := SS_UNKNOWN | SS_INIT | SS_PLAYING | SS_PAUSE | SS_ERROR.

Inductive sound_rate_e : Type :=
| SR_UNKNOWN | SR_8000_HZ | SR_11025_HZ | SR_12000_HZ | SR_16000_HZ | SR_22050_HZ
| SR_24000_HZ | SR_32000_HZ | SR_44100_HZ | SR_48000_HZ.

#[export] Instance sound_state_eq_dec : EqDecision sound_state_e.
Proof. solve_decision. Defined.
#[export] Instance sound_rate_eq_dec : EqDecision sound_rate_e.
Proof. solve_decision. Defined.

(** The value of the enumerator. *)
Definition rate_code (r : sound_rate_e) : Z :=
  match r with
  | SR_UNKNOWN => 0 | SR_8000_HZ => 1 | SR_11025_HZ => 2 | SR_12000_HZ => 3
  | SR_16000_HZ => 4 | SR_22050_HZ => 5 | SR_24000_HZ => 6 | SR_32000_HZ => 7
  | SR_44100_HZ => 8 | SR_48000_HZ => 9
  end.

Definition snd_rate2freq (rate : sound_rate_e) : Z :=
  match rate with
  | SR_UNKNOWN => 0
  | SR_8000_HZ => 8000
  | SR_11025_HZ => 11025
  | SR_12000_HZ => 12000
  | SR_16000_HZ => 16000
  | SR_22050_HZ => 22050
  | SR_24000_HZ => 24000
  | SR_32000_HZ => 32000
  | SR_44100_HZ => 44100
  | SR_48000_HZ => 48000
  end.

(** The parameter is a [uint16_t]: a caller's wider value is cut to 16 bits. *)
Definition snd_freq2rate (f : Z) : sound_rate_e :=
  let freq := u16 f in
  if freq =? 8000 then SR_8000_HZ
  else if freq =? 11025 then SR_11025_HZ
  else if freq =? 12000 then SR_12000_HZ
  else if freq =? 16000 then SR_16000_HZ
  else if freq =? 22050 then SR_22050_HZ
  else if freq =? 24000 then SR_24000_HZ
  else if freq =? 32000 then SR_32000_HZ
  else if freq =? 44100 then SR_44100_HZ
  else if freq =? 48000 then SR_48000_HZ
  else SR_UNKNOWN.

(** [sample = ((sample * volume * volume) >> 8)], stored into an [int16_t]. *)
Definition apply_volume (volume sample : Z) : Z :=
  s16 (Z.shiftr (sample * volume * volume) 8).

(** The loop over the sample array, [None] for a NULL array. *)
Definition pcm_apply_volume (samples : option (list Z)) (count : nat) (volume : Z)
    : option (list Z) :=
  match samples with
  | None => Some []
  | Some l =>
      if (count =? 0)%nat then Some l
      else if (count <=? length l)%nat
      then Some (map (apply_volume volume) (take count l) ++ drop count l)
      else None
  end.

(** ** Samples as bytes: the output buffers hold little-endian 16-bit samples *)

Fixpoint samples_of_bytes (l : list Z) : list Z :=
  match l with
  | a :: b :: r => s16 (a + 256 * b) :: samples_of_bytes r
  | _ => []
  end.

Fixpoint bytes_of_samples (l : list Z) : list Z :=
  match l with
  | [] => []
  | x :: r => u8 x :: u8 (Z.shiftr x 8) :: bytes_of_samples r
  end.

(** ** Properties *)

(** The two rate tables are inverse to each other: a rate converted to a
    frequency converts back to the same rate, and a frequency that is recognised
    converts back to the same frequency.  The table decides on 16 bits: 44100 Hz
    and 44100 + 65536 Hz are the same to it. *)
Theorem rate_freq_roundtrip :
  (forall r, snd_freq2rate (snd_rate2freq r) = r) /\
  (forall f, 0 <= f < 65536 -> snd_freq2rate f <> SR_UNKNOWN ->
     snd_rate2freq (snd_freq2rate f) = f) /\
  (forall f, snd_freq2rate (f + 65536) = snd_freq2rate f).
Proof.
  split; [by intros []|split].
  - intros f Hf. unfold snd_freq2rate. rewrite u16_id by done. simpl.
    repeat (case_match; [simpl; intros _; lia|]). done.
  - intros f. unfold snd_freq2rate. by replace (u16 (f + 65536)) with (u16 f) by (wraps; lia).
Qed.

Lemma scale_volume_range volume sample :
  0 <= volume <= 16 -> -32768 <= sample < 32768 ->
  Z.min 0 sample <= Z.shiftr (sample * volume * volume) 8 <= Z.max 0 sample.
Proof.
  intros Hv Hs. rewrite Z.shiftr_div_pow2 by lia. change (2 ^ 8) with 256.
  assert (0 <= volume * volume <= 256) by nia. rewrite <- Z.mul_assoc.
  generalize dependent (volume * volume). intros p Hp. split.
  - apply Z.div_le_lower_bound; [lia|]. destruct (Z.min_spec 0 sample) as [[? ->]|[? ->]]; nia.
  - apply Z.div_le_upper_bound; [lia|]. destruct (Z.max_spec 0 sample) as [[? ->]|[? ->]]; nia.
Qed.

(** For every volume setting of the player (0 to 16) the product stays
    inside an [int], the result inside an [int16_t], and the sample is never
    amplified; volume 16 leaves the sample as it is, volume 0 silences it, and a
    larger volume never makes a positive sample quieter. *)
Theorem volume_scaling volume sample :
  0 <= volume <= 16 -> -32768 <= sample < 32768 ->
  -2147483648 <= sample * volume * volume < 2147483648 /\
  - Z.abs sample <= apply_volume volume sample <= Z.abs sample /\
  apply_volume volume sample = Z.shiftr (sample * volume * volume) 8 /\
  apply_volume 16 sample = sample /\ apply_volume 0 sample = 0 /\
  (forall v, 0 <= v <= volume -> 0 <= sample ->
     apply_volume v sample <= apply_volume volume sample).
Proof.
  intros Hv Hs.
  assert (Hap : forall v, 0 <= v <= 16 ->
    apply_volume v sample = Z.shiftr (sample * v * v) 8).
  { intros v Hvr. pose proof (scale_volume_range v sample Hvr Hs).
    unfold apply_volume, s16. generalize dependent (Z.shiftr (sample * v * v) 8). lia. }
  pose proof (scale_volume_range volume sample Hv Hs).
  split; [nia|]. rewrite !Hap by lia. split; [lia|]. split; [done|].
  split; [|split].
  - rewrite Z.shiftr_div_pow2 by lia. change (2 ^ 8) with 256. lia.
  - rewrite Z.shiftr_div_pow2 by lia. change (2 ^ 8) with 256. lia.
  - intros v Hle Hpos. rewrite Hap by lia. rewrite !Z.shiftr_div_pow2 by lia.
    apply Z.div_le_mono; [lia|]. rewrite <- !Z.mul_assoc.
    apply Z.mul_le_mono_nonneg_l; [done|]. apply Z.square_le_mono_nonneg; lia.
Qed.

Lemma volume_scaling_witness :
  -2147483648 <= -32768 * 15 * 15 < 2147483648 /\
  - Z.abs (-32768) <= apply_volume 15 (-32768) <= Z.abs (-32768) /\
  apply_volume 15 (-32768) = Z.shiftr (-32768 * 15 * 15) 8 /\
  apply_volume 16 (-32768) = -32768 /\ apply_volume 0 (-32768) = 0 /\
  (forall v, 0 <= v <= 15 -> 0 <= -32768 -> apply_volume v (-32768) <= apply_volume 15 (-32768)).
Proof. apply (volume_scaling 15 (-32768)); lia. Defined.

Lemma samples_bytes_roundtrip l :
  Forall (fun x => -32768 <= x < 32768) l -> samples_of_bytes (bytes_of_samples l) = l.
Proof.
  induction 1 as [|x l Hx Hl IH]; simpl; [done|]. rewrite IH. f_equal.
  rewrite Z.shiftr_div_pow2 by lia. change (2 ^ 8) with 256. wraps. lia.
Qed.
