(* ===== verification/Ring.v ===== *)
(** * Ring buffers

    common/event.c and common/iobuffer.c index a fixed array with two counters
    that only grow: slot [k mod max] holds the element with running number [k],
    the pending elements are those from [tail] up to [head].  [ring_view] is that
    queue of pending elements; the lemmas say how a store into the array and a
    step of a counter change it. *)

From S2P Require Import Prelude.

Definition slot {A} (buf : list A) (max k : Z) : list A :=
  match zget buf (k mod max) with Some x => [x] | None => [] end.

Fixpoint ring_view {A} (buf : list A) (max t : Z) (n : nat) : list A :=
  match n with
  | O => []
  | S n' => slot buf max t ++ ring_view buf max (t + 1) n'
  end.

Section Ring.
Context {A : Type}.
Implicit Types buf : list A.

Lemma ring_view_snoc buf max n : forall t,
  ring_view buf max t (S n) = ring_view buf max t n ++ slot buf max (t + Z.of_nat n).
Proof.
  induction n as [|n IH]; intros t.
  - simpl. by rewrite Z.add_0_r, app_nil_r.
  - change (ring_view buf max t (S (S n))) with
      (slot buf max t ++ ring_view buf max (t + 1) (S n)).
    rewrite IH. simpl. rewrite <- app_assoc.
    by replace (t + 1 + Z.of_nat n) with (t + Z.of_nat (S n)) by lia.
Qed.

(** Two running numbers less than [max] apart use different slots. *)
Lemma mod_distinct a b max : 0 < max -> a < b < a + max -> a mod max <> b mod max.
Proof.
  intros Hm Hab Heq.
  assert (Hd : (b - a) mod max = 0) by (rewrite Zminus_mod, Heq, Z.sub_diag; apply Z.mod_0_l; lia).
  rewrite Z.mod_small in Hd by lia. lia.
Qed.

Lemma slot_insert_ne buf max k i x buf' :
  zset buf i x = Some buf' -> k mod max <> i -> slot buf' max k = slot buf max k.
Proof. intros Hs Hk. unfold slot. by rewrite (zget_zset_ne _ _ _ _ _ Hs) by congruence. Qed.

Lemma slot_insert_eq buf max k x buf' :
  zset buf (k mod max) x = Some buf' -> slot buf' max k = [x].
Proof. intros Hs. unfold slot. by rewrite (zget_zset_eq _ _ _ _ Hs). Qed.

Lemma ring_view_insert_out buf max i x buf' n : forall t,
  zset buf i x = Some buf' ->
  (forall k, t <= k < t + Z.of_nat n -> k mod max <> i) ->
  ring_view buf' max t n = ring_view buf max t n.
Proof.
  induction n as [|n IH]; intros t Hs Hk; simpl; [done|].
  rewrite (slot_insert_ne buf max t i x) by (auto; apply Hk; lia).
  rewrite IH; [done|done|]. intros k Hr. apply Hk. lia.
Qed.

(** Storing into the slot of the running number [t + n] with at most [max]
    elements pending and stepping [head]: the element is appended. *)
Lemma ring_view_push buf max t n x buf' :
  0 < max -> Z.of_nat n < max -> zset buf ((t + Z.of_nat n) mod max) x = Some buf' ->
  ring_view buf' max t (S n) = ring_view buf max t n ++ [x].
Proof.
  intros Hm Hn Hs. rewrite ring_view_snoc, (slot_insert_eq _ _ _ _ _ Hs).
  rewrite (ring_view_insert_out _ _ _ _ _ n t Hs); [done|].
  intros k Hk. apply mod_distinct; lia.
Qed.

(** Pushing onto a full ring replaces the oldest element, and the new element
    becomes the last one as well. *)
Lemma ring_view_push_full buf max t n x buf' y rest :
  0 < max -> Z.of_nat (S n) = max -> ring_view buf max t (S n) = y :: rest ->
  slot buf max t = [y] ->
  zset buf ((t + Z.of_nat (S n)) mod max) x = Some buf' ->
  ring_view buf' max t (S (S n)) = x :: rest ++ [x].
Proof.
  intros Hm Hn Hv Hy Hs.
  assert (Hmod : (t + Z.of_nat (S n)) mod max = t mod max).
  { rewrite Hn, Z.add_mod, Z.mod_same, Z.add_0_r, Z.mod_mod by lia. done. }
  rewrite ring_view_snoc, (slot_insert_eq _ _ _ _ _ Hs).
  simpl in Hv |- *. rewrite Hy in Hv. simpl in Hv. injection Hv as Hrest.
  assert (Hslot : slot buf' max t = [x]).
  { unfold slot. rewrite <- Hmod. by rewrite (zget_zset_eq _ _ _ _ Hs). }
  rewrite Hslot, (ring_view_insert_out _ _ _ _ _ n (t + 1) Hs); [by rewrite Hrest|].
  intros k Hk. rewrite Hmod. apply not_eq_sym, mod_distinct; lia.
Qed.

Lemma slot_some buf max k : 0 < max -> zlen buf = max -> exists x, slot buf max k = [x].
Proof.
  intros Hm Hl. unfold slot. destruct (zget_some buf (k mod max)) as [x ->]; [|eauto].
  rewrite Hl. apply Z.mod_pos_bound. lia.
Qed.

(** The same for a ring whose array has [max] elements. *)
Lemma ring_view_overwrite buf max t x buf' :
  0 < max -> zlen buf = max -> zset buf ((t + max) mod max) x = Some buf' ->
  ring_view buf' max t (S (Z.to_nat max)) = x :: tl (ring_view buf max t (Z.to_nat max)) ++ [x].
Proof.
  intros Hm Hl Hs. destruct (slot_some buf max t Hm Hl) as [y Hy].
  replace (Z.to_nat max) with (S (Z.to_nat (max - 1))) by lia.
  assert (Hv : ring_view buf max t (S (Z.to_nat (max - 1))) = y :: ring_view buf max (t + 1) (Z.to_nat (max - 1)))
    by (simpl; by rewrite Hy).
  rewrite (ring_view_push_full buf max t _ x buf' y (ring_view buf max (t + 1) (Z.to_nat (max - 1))));
    [by rewrite Hv|done|lia|done|done|].
  by replace (t + Z.of_nat (S (Z.to_nat (max - 1)))) with (t + max) by lia.
Qed.

Lemma ring_view_length buf max n : forall t, 0 < max -> zlen buf = max ->
  length (ring_view buf max t n) = n.
Proof.
  induction n as [|n IH]; intros t Hm Hl; simpl; [done|].
  destruct (slot_some buf max t Hm Hl) as [x ->]. simpl. by rewrite IH.
Qed.
End Ring.
