(* ===== verification/IoBuffer.v ===== *)
(** * common/iobuffer.c: the input and output buffer rings

    Compressed data travels through the ring [i], decoded samples through the
    ring [o].  A [struct input_s *] handed out by [i_push] or [i_pop] is the
    index of the buffer in its array. *)

From S2P Require Import Prelude Libc Snd Ring.

Definition MAX_INPUT_BUFFERS : Z := 4.
Definition MAX_OUTPUT_BUFFERS : Z := 4.
Definition IO_INPUT_BUFFER_SIZE : Z := 1024.
Definition IO_OUTPUT_BUFFER_SIZE : Z := 4608.

Record io_s : Type := Io {
  io_name : list Z;
  head : Z;        (* uint32_t *)
  tail : Z;        (* uint32_t *)
  max_buffers : Z  (* uint16_t *)
}.

Record input_s : Type := Input {
  in_data : list Z;
  in_size : Z;     (* uint16_t *)
  in_used : Z      (* uint16_t *)
}.

Record output_s : Type := Output {
  out_data : list Z;
  out_size : Z;    (* uint16_t *)
  out_used : Z;    (* uint16_t *)
  out_rate : sound_rate_e;
  out_channels : Z (* int *)
}.

(** The static variables of the file. *)
Record io_t : Type := IoState {
  io_i : io_s;
  io_o : io_s;
  input : list input_s;
  output : list output_s
}.

Definition set_io_i (x : io_s) (s : io_t) : io_t := IoState x (io_o s) (input s) (output s).
Definition set_io_o (x : io_s) (s : io_t) : io_t := IoState (io_i s) x (input s) (output s).
Definition set_input (x : list input_s) (s : io_t) : io_t :=
  IoState (io_i s) (io_o s) x (output s).
Definition set_output (x : list output_s) (s : io_t) : io_t :=
  IoState (io_i s) (io_o s) (input s) x.
Definition set_tail (t : Z) (x : io_s) : io_s := Io (io_name x) (head x) t (max_buffers x).
Definition set_head (h : Z) (x : io_s) : io_s := Io (io_name x) h (tail x) (max_buffers x).

(** ** The operations on one ring *)

Definition io_used (io : io_s) : Z := u16 (u32 (head io - tail io)).
Definition io_free (io : io_s) : Z := u16 (u32 (max_buffers io - u32 (head io - tail io))).

Definition fresh_input : input_s :=
  Input (repeat 0 (Z.to_nat IO_INPUT_BUFFER_SIZE)) IO_INPUT_BUFFER_SIZE 0.
Definition fresh_output : output_s :=
  Output (repeat 0 (Z.to_nat IO_OUTPUT_BUFFER_SIZE)) IO_OUTPUT_BUFFER_SIZE 0 SR_UNKNOWN 0.

Section Ops.
Context `{T : Target} `{C : Config}.

Definition io_debug {S} (fmt : list Z) (args : list arg) : M S unit :=
  when CONFIG_IOBUFFER_DEBUG (xprintf fmt args).

Definition io_push : M io_s Z :=
  let* io := get in
  if max_buffers io =? 0 then fault
  else
    let index := u16 (head io mod max_buffers io) in
    when (u32 (head io - tail io) >? max_buffers io)
      (xprintf &"io_push: io buffer '%s' is full, loosing data.\n" [AStr (io_name io)] ;;
       modify (fun io => set_tail (u32 (tail io + 1)) io)) ;;
    modify (fun io => set_head (u32 (head io + 1)) io) ;;
    ret index.

Definition io_pop : M io_s Z :=
  let* io := get in
  if head io >? tail io then
    (if max_buffers io =? 0 then fault
     else
       let index := u16 (tail io mod max_buffers io) in
       modify (fun io => set_tail (u32 (tail io + 1)) io) ;;
       ret index)
  else
    io_debug &"io_pop: popping empty buffer.\n" [] ;;
    ret 65535.

Definition io_input_reset_buffer (index : Z) : M io_t unit :=
  let* s := get in
  let* l := lift (zset (input s) index fresh_input) in
  put (set_input l s).

Definition io_output_reset_buffer (index : Z) : M io_t unit :=
  let* s := get in
  let* l := lift (zset (output s) index fresh_output) in
  put (set_output l s).

Definition io_reset_input : M io_t unit :=
  modify (set_io_i (Io &"input" 0 0 MAX_INPUT_BUFFERS)) ;;
  for_range 0 (Z.to_nat MAX_INPUT_BUFFERS) io_input_reset_buffer.

Definition io_reset_output : M io_t unit :=
  modify (set_io_o (Io &"output" 0 0 MAX_OUTPUT_BUFFERS)) ;;
  for_range 0 (Z.to_nat MAX_OUTPUT_BUFFERS) io_output_reset_buffer.

Definition io_init : M io_t unit :=
  io_debug &"io_init\n" [] ;;
  io_reset_input ;;
  io_reset_output ;;
  let* s := get in
  let* i0 := lift (zget (input s) 0) in
  io_debug &"    Input: %d buffers, each %d, total %dKB\n"
    [AInt (max_buffers (io_i s)); AInt (in_size i0);
     AInt (Z.quot (max_buffers (io_i s) * in_size i0) 1024)] ;;
  let* o0 := lift (zget (output s) 0) in
  io_debug &"    Output: %d buffers, each %d, total %dKB\n"
    [AInt (max_buffers (io_o s)); AInt (out_size o0);
     AInt (Z.quot (max_buffers (io_o s) * out_size o0) 1024)].

(** ** The input ring *)

Definition i_push : M io_t Z :=
  let* index := zoom io_i set_io_i io_push in
  io_input_reset_buffer index ;;
  ret index.

(** [None] is the NULL pointer. *)
Definition i_pop : M io_t (option Z) :=
  let* index := zoom io_i set_io_i io_pop in
  if index =? 65535 then
    io_debug &"i_pop: popping null buffer.\n" [] ;; ret None
  else ret (Some index).

Definition i_free : M io_t Z := gets (fun s => io_free (io_i s)).
Definition i_used : M io_t Z := gets (fun s => io_used (io_i s)).

(** ** The output ring *)

Definition o_push : M io_t Z :=
  let* index := zoom io_o set_io_o io_push in
  io_output_reset_buffer index ;;
  ret index.

Definition o_pop : M io_t (option Z) :=
  let* index := zoom io_o set_io_o io_pop in
  if index =? 65535 then
    io_debug &"o_pop: NULL!\n" [] ;; ret None
  else ret (Some index).

Definition o_peek : M io_t (option Z) :=
  let* s := get in
  if head (io_o s) >? tail (io_o s) then
    (if max_buffers (io_o s) =? 0 then fault
     else ret (Some (u16 (tail (io_o s) mod max_buffers (io_o s)))))
  else
    io_debug &"o_peek: popping empty buffer.\n" [] ;;
    ret None.

Definition o_free : M io_t Z := gets (fun s => io_free (io_o s)).
Definition o_free_size : M io_t Z :=
  gets (fun s => u16 (io_free (io_o s) * IO_OUTPUT_BUFFER_SIZE)).
Definition o_used : M io_t Z := gets (fun s => io_used (io_o s)).

Definition io_starving : M io_t bool :=
  let* i := i_used in
  if negb (i =? 0) then ret false
  else let* o := o_used in ret (o =? 0).

Definition cmd_io_state : M io_t unit :=
  let* s := get in
  xprintf &"Input: Free %d/%d buffers.\n" [AInt (io_free (io_i s)); AInt (max_buffers (io_i s))] ;;
  xprintf &"Output: Free %d/%d buffers.\n" [AInt (io_free (io_o s)); AInt (max_buffers (io_o s))] ;;
  xprintf &"\n" [].
End Ops.

(** ** Writing through the pointers the rings hand out *)

Definition with_input (index : Z) (f : input_s -> input_s) : M io_t unit :=
  let* s := get in
  let* b := lift (zget (input s) index) in
  let* l := lift (zset (input s) index (f b)) in
  put (set_input l s).

Definition with_output (index : Z) (f : output_s -> output_s) : M io_t unit :=
  let* s := get in
  let* b := lift (zget (output s) index) in
  let* l := lift (zset (output s) index (f b)) in
  put (set_output l s).

(** ** The rings implement bounded FIFO queues *)

(** The well-formedness of one ring.  The counters never wrap while less than
    2^32 buffers have been pushed since the last reset. *)
Definition ring_ok (io : io_s) : Prop :=
  0 < max_buffers io < 65535 /\ 0 <= tail io <= head io /\
  head io < 4294967296 /\ head io - tail io <= max_buffers io.

Definition io_ok (s : io_t) : Prop :=
  ring_ok (io_i s) /\ zlen (input s) = max_buffers (io_i s) /\
  ring_ok (io_o s) /\ zlen (output s) = max_buffers (io_o s).

(** The pending elements of a ring over the array [buf]. *)
Definition pending {A} (io : io_s) (buf : list A) : list A :=
  ring_view buf (max_buffers io) (tail io) (Z.to_nat (head io - tail io)).

Definition i_queue (s : io_t) : list input_s := pending (io_i s) (input s).
Definition o_queue (s : io_t) : list output_s := pending (io_o s) (output s).

Lemma io_used_ok io : ring_ok io -> io_used io = head io - tail io.
Proof. intros (? & ? & ? & ?). unfold io_used. wraps. lia. Qed.

Lemma io_free_ok io : ring_ok io -> io_free io = max_buffers io - (head io - tail io).
Proof. intros (? & ? & ? & ?). unfold io_free. wraps. lia. Qed.

Lemma pending_length {A} io (buf : list A) :
  ring_ok io -> zlen buf = max_buffers io -> zlen (pending io buf) = head io - tail io.
Proof.
  intros (? & ? & ? & ?) Hl. unfold pending, zlen.
  rewrite ring_view_length by (done || lia). lia.
Qed.

Section Specs.
Context `{T : Target} `{C : Config}.

Lemma wp_io_debug {S} fmt args (Q : unit -> S -> Prop) s :
  fmt_ok fmt args = true -> Q tt s -> wp (io_debug fmt args) Q s.
Proof. intros Hf HQ. apply wp_when; intros _; [by apply wp_xprintf|done]. Qed.

(** [io_push] on a ring with room: no message, the counter advances, and the
    index is the slot of the new element. *)
Lemma wp_io_push io (Q : Z -> io_s -> Prop) :
  ring_ok io -> head io - tail io <= max_buffers io -> head io < 4294967295 ->
  Q (head io mod max_buffers io) (set_head (head io + 1) io) -> wp io_push Q io.
Proof.
  intros (Hm & Ht & Hh & Hn) _ Hlt HQ. unfold io_push. wp_steps.
  rewrite (proj2 (Z.eqb_neq _ 0)) by lia. wp_steps. apply wp_when; intros Hgt.
  { unfold u32 in Hgt. rewrite Z.mod_small in Hgt by lia. lia. }
  wp_steps. rewrite u32_id by lia. rewrite u16_id; [done|].
  pose proof (Z.mod_pos_bound (head io) (max_buffers io)). lia.
Qed.

Lemma wp_io_pop io (Q : Z -> io_s -> Prop) :
  ring_ok io ->
  (head io = tail io -> Q 65535 io) ->
  (tail io < head io -> Q (tail io mod max_buffers io) (set_tail (tail io + 1) io)) ->
  wp io_pop Q io.
Proof.
  intros (Hm & Ht & Hh & Hn) He Hs. unfold io_pop. wp_steps.
  destruct (head io >? tail io) eqn:Hgt.
  - rewrite (proj2 (Z.eqb_neq _ 0)) by lia. wp_steps. rewrite u32_id by lia.
    rewrite u16_id; [apply Hs; lia|].
    pose proof (Z.mod_pos_bound (tail io) (max_buffers io)). lia.
  - wp_step. apply wp_io_debug; [reflexivity|]. apply wp_ret, He. lia.
Qed.

(** Appending and taking, for the array of either ring. *)
Lemma pending_push {A} io (buf buf' : list A) x :
  ring_ok io -> head io - tail io < max_buffers io ->
  zset buf (head io mod max_buffers io) x = Some buf' ->
  pending (set_head (head io + 1) io) buf' = pending io buf ++ [x].
Proof.
  intros (Hm & Ht & Hh & Hn) Hlt Hs. unfold pending. simpl.
  replace (Z.to_nat (head io + 1 - tail io)) with (S (Z.to_nat (head io - tail io))) by lia.
  apply ring_view_push; [lia|lia|].
  by replace (tail io + Z.of_nat (Z.to_nat (head io - tail io))) with (head io) by lia.
Qed.

Lemma pending_pop {A} io (buf : list A) :
  ring_ok io -> zlen buf = max_buffers io -> tail io < head io ->
  exists x, zget buf (tail io mod max_buffers io) = Some x /\
    pending io buf = x :: pending (set_tail (tail io + 1) io) buf.
Proof.
  intros (Hm & Ht & Hh & Hn) Hl Hlt. unfold pending. simpl.
  replace (Z.to_nat (head io - tail io)) with (S (Z.to_nat (head io - (tail io + 1)))) by lia.
  simpl. unfold slot.
  destruct (zget_some buf (tail io mod max_buffers io)) as [x ->]; [|eauto].
  rewrite Hl. apply Z.mod_pos_bound. lia.
Qed.

Lemma pending_nil {A} io (buf : list A) : head io = tail io -> pending io buf = [].
Proof. intros Heq. unfold pending. by rewrite Heq, Z.sub_diag. Qed.

Lemma ring_ok_push io : ring_ok io -> head io - tail io < max_buffers io ->
  head io < 4294967295 -> ring_ok (set_head (head io + 1) io).
Proof. intros (? & ? & ? & ?) ? ?. unfold ring_ok. simpl. lia. Qed.

Lemma ring_ok_pop io : ring_ok io -> tail io < head io -> ring_ok (set_tail (tail io + 1) io).
Proof. intros (? & ? & ? & ?) ?. unfold ring_ok. simpl. lia. Qed.

(** The producer's use of the input ring (fs_poll_mp3, host_net_poll): take a
    buffer with [i_push], then fill it through the pointer. *)
Definition i_put (f : input_s -> input_s) : M io_t unit :=
  let* index := i_push in with_input index f.

Definition o_put (f : output_s -> output_s) : M io_t unit :=
  let* index := o_push in with_output index f.

Lemma slot_in_range {A} io (buf : list A) k :
  ring_ok io -> zlen buf = max_buffers io -> 0 <= k mod max_buffers io < zlen buf.
Proof. intros (? & _) ->. apply Z.mod_pos_bound. lia. Qed.

Lemma zset_twice {A} (l l1 l2 : list A) i x y :
  zset l i x = Some l1 -> zset l1 i y = Some l2 -> zset l i y = Some l2.
Proof.
  unfold zset. repeat case_match; try done. intros [= <-] [= <-].
  by rewrite list_insert_insert_eq.
Qed.

Lemma zset_zset_some {A} (l : list A) i x y : 0 <= i < zlen l ->
  exists l1 l2, zset l i x = Some l1 /\ zget l1 i = Some x /\
    zset l1 i y = Some l2 /\ zset l i y = Some l2 /\ zlen l2 = zlen l.
Proof.
  intros Hi. exists (<[Z.to_nat i := x]> l), (<[Z.to_nat i := y]> l).
  assert (H1 : zset l i x = Some (<[Z.to_nat i := x]> l)) by by apply zset_some.
  assert (H2 : zset (<[Z.to_nat i := x]> l) i y = Some (<[Z.to_nat i := y]> l)).
  { rewrite zset_some; [by rewrite list_insert_insert_eq|].
    unfold zlen. by rewrite length_insert. }
  split_and!; [done|by eapply zget_zset_eq|done|by eapply zset_twice|].
  unfold zlen. by rewrite length_insert.
Qed.

(** Taking the next buffer and looking into it. *)
Definition i_take : M io_t (option input_s) :=
  let* r := i_pop in
  match r with
  | None => ret None
  | Some k => let* s := get in let* b := lift (zget (input s) k) in ret (Some b)
  end.

Definition o_take : M io_t (option output_s) :=
  let* r := o_pop in
  match r with
  | None => ret None
  | Some k => let* s := get in let* b := lift (zget (output s) k) in ret (Some b)
  end.

Definition o_look : M io_t (option output_s) :=
  let* r := o_peek in
  match r with
  | None => ret None
  | Some k => let* s := get in let* b := lift (zget (output s) k) in ret (Some b)
  end.

(** The counters of both rings stay below [n]. *)
Definition pushed (n : Z) (s : io_t) : Prop := head (io_i s) <= n /\ head (io_o s) <= n.

Definition queues (s : io_t) (qi : list input_s) (qo : list output_s) : Prop :=
  io_ok s /\ i_queue s = qi /\ o_queue s = qo.

Lemma wp_i_put f s qi qo n :
  queues s qi qo -> zlen qi < max_buffers (io_i s) -> pushed n s -> n < 4294967295 ->
  wp (i_put f) (fun _ s' => queues s' (qi ++ [f fresh_input]) qo /\ pushed (n + 1) s' /\
    max_buffers (io_i s') = max_buffers (io_i s) /\ max_buffers (io_o s') = max_buffers (io_o s)) s.
Proof.
  intros ((Hi & Hil & Ho & Hol) & Hqi & Hqo) Hlt [Hn1 Hn2] Hn.
  assert (Hroom : head (io_i s) - tail (io_i s) < max_buffers (io_i s)).
  { rewrite <- Hqi in Hlt. unfold i_queue in Hlt. by rewrite pending_length in Hlt. }
  unfold i_put, i_push. do 3 wp_step. apply wp_io_push; [done|lia|lia|].
  unfold io_input_reset_buffer. wp_steps. simpl.
  destruct (zset_zset_some (input s) (head (io_i s) mod max_buffers (io_i s)) fresh_input (f fresh_input))
    as (l1 & l2 & H1 & Hg & H2 & H12 & Hl); [by apply slot_in_range|].
  eapply wp_lift; [exact H1|]. wp_steps. unfold with_input. wp_steps. simpl.
  eapply wp_lift; [exact Hg|]. wp_step. eapply wp_lift; [exact H2|]. wp_steps.
  unfold queues, io_ok, pushed, i_queue, o_queue. simpl.
  rewrite (pending_push _ _ _ _ Hi Hroom H12).
  split_and!; try done; [apply ring_ok_push; try done; lia|lia|by f_equal|lia|lia].
Qed.

Lemma wp_o_put f s qi qo n :
  queues s qi qo -> zlen qo < max_buffers (io_o s) -> pushed n s -> n < 4294967295 ->
  wp (o_put f) (fun _ s' => queues s' qi (qo ++ [f fresh_output]) /\ pushed (n + 1) s' /\
    max_buffers (io_i s') = max_buffers (io_i s) /\ max_buffers (io_o s') = max_buffers (io_o s)) s.
Proof.
  intros ((Hi & Hil & Ho & Hol) & Hqi & Hqo) Hlt [Hn1 Hn2] Hn.
  assert (Hroom : head (io_o s) - tail (io_o s) < max_buffers (io_o s)).
  { rewrite <- Hqo in Hlt. unfold o_queue in Hlt. by rewrite pending_length in Hlt. }
  unfold o_put, o_push. do 3 wp_step. apply wp_io_push; [done|lia|lia|].
  unfold io_output_reset_buffer. wp_steps. simpl.
  destruct (zset_zset_some (output s) (head (io_o s) mod max_buffers (io_o s)) fresh_output (f fresh_output))
    as (l1 & l2 & H1 & Hg & H2 & H12 & Hl); [by apply slot_in_range|].
  eapply wp_lift; [exact H1|]. wp_steps. unfold with_output. wp_steps. simpl.
  eapply wp_lift; [exact Hg|]. wp_step. eapply wp_lift; [exact H2|]. wp_steps.
  unfold queues, io_ok, pushed, i_queue, o_queue. simpl.
  rewrite (pending_push _ _ _ _ Ho Hroom H12).
  split_and!; try done; [apply ring_ok_push; try done; lia|lia|by f_equal|lia|lia].
Qed.

(** A buffer is filled through its pointer after the push: [o_last s i qi qo x]
    says that slot [i] is the last element of the output queue and holds [x], that
    [qo] is pending before it and [qi] on the input side. *)
Definition o_last (s : io_t) (i : Z) (qi : list input_s) (qo : list output_s) (x : output_s) : Prop :=
  ring_ok (io_i s) /\ zlen (input s) = max_buffers (io_i s) /\ i_queue s = qi /\
  exists io buf, ring_ok io /\ head io - tail io < max_buffers io /\ head io < 4294967295 /\
    zlen buf = max_buffers io /\ pending io buf = qo /\ i = head io mod max_buffers io /\
    io_o s = set_head (head io + 1) io /\ zset buf i x = Some (output s).

Lemma o_last_queues s i qi qo x : o_last s i qi qo x ->
  queues s qi (qo ++ [x]) /\ zget (output s) i = Some x.
Proof.
  intros (Hi & Hil & Hqi & io & buf & Ho & Hroom & Hlt & Hl & Hqo & -> & Hio & Hset).
  split; [|by eapply zget_zset_eq]. unfold queues, io_ok, o_queue. rewrite Hio.
  split_and!; try done; [by apply ring_ok_push|simpl; rewrite <- Hl; unfold zlen; by rewrite (zset_length _ _ _ _ Hset)|].
  rewrite (pending_push _ _ _ _ Ho Hroom Hset). by rewrite Hqo.
Qed.

Lemma wp_o_push_last s qi qo (Q : Z -> io_t -> Prop) :
  queues s qi qo -> zlen qo < max_buffers (io_o s) -> head (io_o s) < 4294967295 ->
  (forall i s', o_last s' i qi qo fresh_output -> Q i s') -> wp o_push Q s.
Proof.
  intros ((Hi & Hil & Ho & Hol) & Hqi & Hqo) Hlt Hn HQ.
  assert (Hroom : head (io_o s) - tail (io_o s) < max_buffers (io_o s)).
  { rewrite <- Hqo in Hlt. unfold o_queue in Hlt. by rewrite pending_length in Hlt. }
  unfold o_push. do 2 wp_step. apply wp_io_push; [done|lia|lia|].
  unfold io_output_reset_buffer. wp_steps. simpl.
  eapply wp_lift; [apply zset_some; by apply slot_in_range|]. wp_steps. apply HQ. split_and!; try done.
  exists (io_o s), (output s). split_and!; try done. simpl. apply zset_some. by apply slot_in_range.
Qed.

Lemma wp_with_output_last f s i qi qo x (Q : unit -> io_t -> Prop) :
  o_last s i qi qo x -> (forall s', o_last s' i qi qo (f x) -> Q tt s') -> wp (with_output i f) Q s.
Proof.
  intros Hl HQ. destruct (o_last_queues _ _ _ _ _ Hl) as [_ Hg].
  destruct Hl as (Hi & Hil & Hqi & io & buf & Ho & Hroom & Hlt & Hbl & Hqo & Hidx & Hio & Hset).
  unfold with_output. wp_steps. eapply wp_lift; [exact Hg|]. wp_step.
  eapply wp_lift; [apply zset_some; by eapply zget_range|]. wp_steps. apply HQ. split_and!; try done.
  exists io, buf. split_and!; try done. simpl.
  eapply zset_twice; [exact Hset|]. apply zset_some. by eapply zget_range.
Qed.

(** The same for the input ring: whatever is stored through the pointer becomes
    the last element of the queue. *)
Definition i_last (s : io_t) (i : Z) (qi : list input_s) (qo : list output_s) (x : input_s) : Prop :=
  zget (input s) i = Some x /\ (forall y buf, zset (input s) i y = Some buf -> queues (set_input buf s) (qi ++ [y]) qo).

Lemma wp_i_push_last s qi qo (Q : Z -> io_t -> Prop) :
  queues s qi qo -> zlen qi < max_buffers (io_i s) -> head (io_i s) < 4294967295 ->
  (forall i s', i_last s' i qi qo fresh_input -> max_buffers (io_i s') = max_buffers (io_i s) -> Q i s') -> wp i_push Q s.
Proof.
  intros ((Hi & Hil & Ho & Hol) & Hqi & Hqo) Hlt Hn HQ.
  assert (Hroom : head (io_i s) - tail (io_i s) < max_buffers (io_i s)).
  { rewrite <- Hqi in Hlt. unfold i_queue in Hlt. by rewrite pending_length in Hlt. }
  unfold i_push. do 2 wp_step. apply wp_io_push; [done|lia|lia|].
  unfold io_input_reset_buffer. wp_steps. simpl. set (k := head (io_i s) mod max_buffers (io_i s)).
  destruct (zset (input s) k fresh_input) as [l1|] eqn:H1; [|rewrite zset_some in H1 by (by apply slot_in_range); done].
  eapply wp_lift; [reflexivity|]. wp_steps. apply HQ; [|done].
  split; [by eapply zget_zset_eq|]. simpl. intros y buf Hset. pose proof (zset_twice _ _ _ _ _ _ H1 Hset) as Hs.
  unfold queues, io_ok, i_queue, o_queue. simpl. rewrite (pending_push _ _ _ _ Hi Hroom Hs).
  split_and!; try done; [by apply ring_ok_push| |by f_equal].
  rewrite <- Hil. unfold zlen. by rewrite (zset_length _ _ _ _ Hs).
Qed.

Lemma wp_with_input_last f s i qi qo x (Q : unit -> io_t -> Prop) :
  i_last s i qi qo x -> (forall buf, queues (set_input buf s) (qi ++ [f x]) qo -> Q tt (set_input buf s)) ->
  wp (with_input i f) Q s.
Proof.
  intros [Hg Hl] HQ. unfold with_input. wp_steps. eapply wp_lift; [exact Hg|]. wp_step.
  destruct (zset (input s) i (f x)) as [buf|] eqn:Hs; [|rewrite zset_some in Hs by (by eapply zget_range); done].
  eapply wp_lift; [reflexivity|]. wp_steps. apply HQ, Hl, Hs.
Qed.

(** A buffer that has been taken is read and written through its pointer without
    touching what is pending. *)
Definition o_popped (s : io_t) (i : Z) (qi : list input_s) (qo : list output_s) (b : output_s) : Prop :=
  queues s qi qo /\ zget (output s) i = Some b /\
  (forall y buf, zset (output s) i y = Some buf -> queues (set_output buf s) qi qo).

Lemma slot_index_valid io k : ring_ok io -> (k mod max_buffers io =? 65535) = false.
Proof.
  intros (Hm & _). pose proof (Z.mod_pos_bound k (max_buffers io)). apply Z.eqb_neq. lia.
Qed.

Lemma wp_i_take s qi qo n : queues s qi qo -> pushed n s ->
  wp i_take (fun r s' => r = hd_error qi /\ queues s' (tl qi) qo /\ pushed n s' /\
    max_buffers (io_i s') = max_buffers (io_i s) /\ max_buffers (io_o s') = max_buffers (io_o s)) s.
Proof.
  intros ((Hi & Hil & Ho & Hol) & Hqi & Hqo) [Hn1 Hn2].
  unfold i_take, i_pop. do 3 wp_step. apply wp_io_pop; [done| |]; intros Hht.
  - simpl. wp_step. apply wp_io_debug; [reflexivity|]. wp_steps.
    assert (qi = []) as -> by (rewrite <- Hqi; by apply pending_nil).
    simpl. destruct s. split_and!; done.
  - destruct (pending_pop _ _ Hi Hil Hht) as (x & Hg & Hp).
    rewrite slot_index_valid by done. wp_steps. simpl. eapply wp_lift; [exact Hg|]. wp_steps.
    unfold i_queue in Hqi. rewrite Hp in Hqi. subst qi.
    unfold queues, io_ok, pushed, i_queue. simpl.
    split_and!; try done. by apply ring_ok_pop.
Qed.

Lemma wp_o_take s qi qo n : queues s qi qo -> pushed n s ->
  wp o_take (fun r s' => r = hd_error qo /\ queues s' qi (tl qo) /\ pushed n s' /\
    max_buffers (io_i s') = max_buffers (io_i s) /\ max_buffers (io_o s') = max_buffers (io_o s)) s.
Proof.
  intros ((Hi & Hil & Ho & Hol) & Hqi & Hqo) [Hn1 Hn2].
  unfold o_take, o_pop. do 3 wp_step. apply wp_io_pop; [done| |]; intros Hht.
  - simpl. wp_step. apply wp_io_debug; [reflexivity|]. wp_steps.
    assert (qo = []) as -> by (rewrite <- Hqo; by apply pending_nil).
    simpl. destruct s. split_and!; done.
  - destruct (pending_pop _ _ Ho Hol Hht) as (x & Hg & Hp).
    rewrite slot_index_valid by done. wp_steps. simpl. eapply wp_lift; [exact Hg|]. wp_steps.
    unfold o_queue in Hqo. rewrite Hp in Hqo. subst qo.
    unfold queues, io_ok, pushed, o_queue. simpl.
    split_and!; try done. by apply ring_ok_pop.
Qed.

Lemma wp_o_pop_at s qi qo b (Q : option Z -> io_t -> Prop) : queues s qi (b :: qo) ->
  (forall s', o_popped s' (tail (io_o s) mod max_buffers (io_o s)) qi qo b -> tail (io_o s') = tail (io_o s) + 1 ->
     max_buffers (io_o s') = max_buffers (io_o s) -> output s' = output s ->
     Q (Some (tail (io_o s) mod max_buffers (io_o s))) s') -> wp o_pop Q s.
Proof.
  intros ((Hi & Hil & Ho & Hol) & Hqi & Hqo) HQ. pose proof Ho as (Hm & Ht & Hh & Hn).
  unfold o_pop. do 2 wp_step. apply wp_io_pop; [done| |]; intros Hht.
  { unfold o_queue in Hqo. by rewrite (pending_nil _ _ Hht) in Hqo. }
  destruct (pending_pop _ _ Ho Hol Hht) as (x & Hg & Hp). rewrite slot_index_valid by done. wp_steps.
  unfold o_queue in Hqo. rewrite Hp in Hqo. injection Hqo as -> Hqo.
  pose proof (ring_ok_pop _ Ho Hht) as Ho'. apply HQ; [|done|done|done]. split_and!; [|done|].
  - unfold queues, io_ok, o_queue. simpl. done.
  - simpl. intros y buf Hs. unfold queues, io_ok, i_queue, o_queue. simpl. split_and!; try done.
    + rewrite <- Hol. unfold zlen. by rewrite (zset_length _ _ _ _ Hs).
    + unfold pending in *. rewrite (ring_view_insert_out _ _ _ _ _ _ _ Hs); [done|].
      simpl. intros k Hk. apply not_eq_sym, mod_distinct; lia.
Qed.

Lemma wp_o_pop_some s qi qo b (Q : option Z -> io_t -> Prop) : queues s qi (b :: qo) ->
  (forall i s', o_popped s' i qi qo b -> Q (Some i) s') -> wp o_pop Q s.
Proof. intros Hq HQ. apply (wp_o_pop_at s qi qo b); [done|]. intros s' Hs _ _ _. by apply HQ. Qed.

Lemma wp_with_output_popped f s i qi qo b (Q : unit -> io_t -> Prop) : o_popped s i qi qo b ->
  (forall s', o_popped s' i qi qo (f b) -> Q tt s') -> wp (with_output i f) Q s.
Proof.
  intros (Hq & Hg & Hl) HQ. unfold with_output. wp_steps. eapply wp_lift; [exact Hg|]. wp_step.
  destruct (zset (output s) i (f b)) as [buf|] eqn:Hs; [|rewrite zset_some in Hs by (by eapply zget_range); done].
  eapply wp_lift; [reflexivity|]. wp_steps. apply HQ. split_and!; [by eapply Hl|by eapply zget_zset_eq|].
  simpl. intros y buf' Hs'. eapply (Hl y), zset_twice; done.
Qed.

Lemma wp_o_look s qi qo : queues s qi qo ->
  wp o_look (fun r s' => r = hd_error qo /\ s' = s) s.
Proof.
  intros ((Hi & Hil & Ho & Hol) & Hqi & Hqo). unfold o_look, o_peek. wp_steps.
  pose proof Ho as (Hm & Ht & Hh & Hn).
  destruct (head (io_o s) >? tail (io_o s)) eqn:Hgt.
  - rewrite (proj2 (Z.eqb_neq _ 0)) by lia.
    destruct (pending_pop _ _ Ho Hol ltac:(lia)) as (x & Hg & Hp). wp_steps.
    eapply wp_lift; [rewrite u16_id; [exact Hg|]; pose proof (Z.mod_pos_bound (tail (io_o s)) (max_buffers (io_o s))); lia|].
    wp_steps. unfold o_queue in Hqo. rewrite Hp in Hqo. by subst qo.
  - wp_step. apply wp_io_debug; [reflexivity|]. wp_steps.
    assert (qo = []) as -> by (rewrite <- Hqo; apply pending_nil; lia). done.
Qed.
End Specs.

(** ** Whole runs against an abstract pair of bounded queues *)

Inductive io_op : Type :=
| OpIPut (b : input_s)
| OpIPop
| OpOPut (b : output_s)
| OpOPop
| OpOPeek.

Inductive io_answer : Type :=
| AnsNone
| AnsIn (b : option input_s)
| AnsOut (b : option output_s).

(** The specification: two queues; a producer must not put into a full one (all
    producers ask [i_free] or [o_free] first). *)
Definition queue_step (op : io_op) (qi : list input_s) (qo : list output_s)
  : option (io_answer * list input_s * list output_s) :=
  match op with
  | OpIPut b => if zlen qi <? MAX_INPUT_BUFFERS then Some (AnsNone, qi ++ [b], qo) else None
  | OpIPop => Some (AnsIn (hd_error qi), tl qi, qo)
  | OpOPut b => if zlen qo <? MAX_OUTPUT_BUFFERS then Some (AnsNone, qi, qo ++ [b]) else None
  | OpOPop => Some (AnsOut (hd_error qo), qi, tl qo)
  | OpOPeek => Some (AnsOut (hd_error qo), qi, qo)
  end.

Fixpoint queue_run (ops : list io_op) (qi : list input_s) (qo : list output_s)
  : option (list io_answer * list input_s * list output_s) :=
  match ops with
  | [] => Some ([], qi, qo)
  | op :: ops =>
      match queue_step op qi qo with
      | None => None
      | Some (a, qi, qo) =>
          match queue_run ops qi qo with
          | None => None
          | Some (l, qi, qo) => Some (a :: l, qi, qo)
          end
      end
  end.

Section Runs.
Context `{T : Target} `{C : Config}.

Definition io_step (op : io_op) : M io_t io_answer :=
  match op with
  | OpIPut b => i_put (fun _ => b) ;; ret AnsNone
  | OpIPop => let* r := i_take in ret (AnsIn r)
  | OpOPut b => o_put (fun _ => b) ;; ret AnsNone
  | OpOPop => let* r := o_take in ret (AnsOut r)
  | OpOPeek => let* r := o_look in ret (AnsOut r)
  end.

Fixpoint io_run (ops : list io_op) : M io_t (list io_answer) :=
  match ops with
  | [] => ret []
  | op :: ops => let* a := io_step op in let* l := io_run ops in ret (a :: l)
  end.

(** The state the rings are in between two operations. *)
Definition sized (s : io_t) : Prop :=
  max_buffers (io_i s) = MAX_INPUT_BUFFERS /\ max_buffers (io_o s) = MAX_OUTPUT_BUFFERS.

Lemma wp_io_step op s qi qo n a qi' qo' :
  queues s qi qo -> sized s -> pushed n s -> n < 4294967295 ->
  queue_step op qi qo = Some (a, qi', qo') ->
  wp (io_step op) (fun r s' => r = a /\ queues s' qi' qo' /\ sized s' /\ pushed (n + 1) s') s.
Proof.
  intros Hq [Hsi Hso] Hp Hn Hs.
  assert (Hmono : forall s', pushed n s' -> pushed (n + 1) s') by (unfold pushed; lia).
  destruct op; simpl in Hs; repeat case_match; simplify_eq/=; wp_step.
  - eapply wp_mono; [|by apply (wp_i_put _ s qi' qo' n) || apply (wp_i_put _ s qi qo' n); try done; lia].
    intros [] s' (? & ? & ? & ?). apply wp_ret. unfold sized. split_and!; congruence || done.
  - eapply wp_mono; [|by apply (wp_i_take s qi qo' n)].
    intros r s' (-> & ? & ? & ? & ?). apply wp_ret. unfold sized. split_and!; auto; congruence.
  - eapply wp_mono; [|apply (wp_o_put _ s qi' qo n); try done; lia].
    intros [] s' (? & ? & ? & ?). apply wp_ret. unfold sized. split_and!; congruence || done.
  - eapply wp_mono; [|by apply (wp_o_take s qi' qo n)].
    intros r s' (-> & ? & ? & ? & ?). apply wp_ret. unfold sized. split_and!; auto; congruence.
  - eapply wp_mono; [|by apply (wp_o_look s qi' qo')].
    intros r s' (-> & ->). apply wp_ret. unfold sized. split_and!; auto.
Qed.

Lemma wp_io_run ops : forall s qi qo n l qi' qo',
  queues s qi qo -> sized s -> pushed n s -> n + zlen ops <= 4294967295 ->
  queue_run ops qi qo = Some (l, qi', qo') ->
  wp (io_run ops) (fun r s' => r = l /\ queues s' qi' qo' /\ sized s') s.
Proof.
  induction ops as [|op ops IH]; intros s qi qo n l qi' qo' Hq Hs Hp Hn Hr; simpl in Hr |- *.
  - simplify_eq. apply wp_ret. done.
  - destruct (queue_step op qi qo) as [[[a qi1] qo1]|] eqn:Hstep; [|done].
    destruct (queue_run ops qi1 qo1) as [[[l1 qi2] qo2]|] eqn:Hrun; [|done]. simplify_eq.
    unfold zlen in *. simpl in Hn. wp_step.
    eapply wp_mono; [|apply (wp_io_step op s qi qo n a qi1 qo1); try done; lia].
    intros r s1 (-> & Hq1 & Hs1 & Hp1). wp_step.
    eapply wp_mono; [|apply (IH s1 qi1 qo1 (n + 1) l1 qi' qo'); try done; lia].
    intros r s2 (-> & Hq2 & Hs2). by apply wp_ret.
Qed.

Lemma wp_reset_input_loop s : zlen (input s) = MAX_INPUT_BUFFERS ->
  wp (for_range 0 (Z.to_nat MAX_INPUT_BUFFERS) io_input_reset_buffer)
    (fun _ s' => s' = set_input (repeat fresh_input 4) s) s.
Proof.
  destruct s as [i o inp out]. unfold zlen, MAX_INPUT_BUFFERS. simpl. intros Hl.
  do 5 (destruct inp as [|? inp]; simpl in Hl; try lia). reflexivity.
Qed.

Lemma wp_reset_output_loop s : zlen (output s) = MAX_OUTPUT_BUFFERS ->
  wp (for_range 0 (Z.to_nat MAX_OUTPUT_BUFFERS) io_output_reset_buffer)
    (fun _ s' => s' = set_output (repeat fresh_output 4) s) s.
Proof.
  destruct s as [i o inp out]. unfold zlen, MAX_OUTPUT_BUFFERS. simpl. intros Hl.
  do 5 (destruct out as [|? out]; simpl in Hl; try lia). reflexivity.
Qed.

Definition io_arrays (s : io_t) : Prop :=
  zlen (input s) = MAX_INPUT_BUFFERS /\ zlen (output s) = MAX_OUTPUT_BUFFERS.

Lemma wp_io_reset_input s (Q : unit -> io_t -> Prop) : io_arrays s ->
  Q tt (set_input (repeat fresh_input 4) (set_io_i (Io &"input" 0 0 MAX_INPUT_BUFFERS) s)) ->
  wp io_reset_input Q s.
Proof.
  intros [Hi Ho] HQ. unfold io_reset_input. wp_steps.
  eapply wp_mono; [|by apply wp_reset_input_loop]. by intros [] s' ->.
Qed.

Lemma wp_io_reset_output s (Q : unit -> io_t -> Prop) : io_arrays s ->
  Q tt (set_output (repeat fresh_output 4) (set_io_o (Io &"output" 0 0 MAX_OUTPUT_BUFFERS) s)) ->
  wp io_reset_output Q s.
Proof.
  intros [Hi Ho] HQ. unfold io_reset_output. wp_steps.
  eapply wp_mono; [|by apply wp_reset_output_loop]. by intros [] s' ->.
Qed.

Lemma wp_io_init s : io_arrays s ->
  wp io_init (fun _ s' => queues s' [] [] /\ sized s' /\ pushed 0 s' /\ io_arrays s') s.
Proof.
  intros Ha. unfold io_init. wp_step. apply wp_io_debug; [reflexivity|].
  wp_step. apply wp_io_reset_input; [done|]. wp_step. apply wp_io_reset_output; [split; apply Ha || done|].
  wp_steps. eapply wp_lift; [reflexivity|]. wp_step.
  apply wp_io_debug; [vm_compute; reflexivity|]. wp_step. eapply wp_lift; [reflexivity|].
  apply wp_io_debug; [vm_compute; reflexivity|].
  unfold queues, io_ok, ring_ok, sized, pushed, io_arrays. simpl.
  vm_compute. split_and!; try done; intros ?; discriminate.
Qed.

(** C9: after [io_init], any sequence of puts, pops and peeks that never puts
    into a full ring runs without undefined behaviour and answers exactly as a
    pair of independent FIFO queues does, as long as the running counters do not
    wrap (fewer than 2^32 operations since the reset). *)
Theorem io_refines_queues s ops answers qi qo :
  io_arrays s -> zlen ops <= 4294967295 -> queue_run ops [] [] = Some (answers, qi, qo) ->
  wp (io_init ;; io_run ops)
    (fun r s' => r = answers /\ io_ok s' /\ i_queue s' = qi /\ o_queue s' = qo) s.
Proof.
  intros Ha Hn Hr. wp_step. eapply wp_mono; [|by apply wp_io_init].
  intros [] s' (Hq & Hs & Hp & _).
  eapply wp_mono; [|by apply (wp_io_run ops s' [] [] 0 answers qi qo)].
  intros r s'' (-> & (? & ? & ?) & _). done.
Qed.

(** The full check of [io_push] lets one push too many through.  On a ring
    that is exactly full it prints nothing; the index it returns is the slot of
    the oldest pending buffer, and from then on [io_free] reports 65535 free
    buffers, so a producer that polls it never stops. *)
Theorem io_push_on_full io :
  ring_ok io -> head io - tail io = max_buffers io -> head io < 4294967295 ->
  exists io', io_push io = Done (tail io mod max_buffers io, io', [])
    /\ io_used io' = max_buffers io + 1 /\ io_free io' = 65535.
Proof.
  intros (Hm & Ht & Hh & Hn) Hfull Hlt. eexists. unfold io_push, bind, get, modify, ret, when.
  rewrite (proj2 (Z.eqb_neq _ 0)) by lia. rewrite (u32_id (head io - tail io)) by lia.
  rewrite Hfull. replace (max_buffers io >? max_buffers io) with false by (symmetry; rewrite Z.gtb_ltb; apply Z.ltb_irrefl).
  simpl. assert (Hmod : head io mod max_buffers io = tail io mod max_buffers io).
  { replace (head io) with (tail io + 1 * max_buffers io) by lia. by rewrite Z.mod_add by lia. }
  split_and!.
  - rewrite Hmod, u16_id; [done|]. pose proof (Z.mod_pos_bound (tail io) (max_buffers io)). lia.
  - unfold io_used. simpl. rewrite (u32_id (head io + 1)), u32_id, u16_id by lia. lia.
  - unfold io_free. simpl. rewrite (u32_id (head io + 1)) by lia.
    rewrite (u32_id (head io + 1 - tail io)) by lia.
    replace (max_buffers io - (head io + 1 - tail io)) with (-1) by lia. reflexivity.
Qed.
End Runs.

Definition io_zero : io_t :=
  IoState (Io [] 0 0 0) (Io [] 0 0 0) (repeat (Input [] 0 0) 4) (repeat (Output [] 0 0 SR_UNKNOWN 0) 4).

Lemma io_refines_queues_witness :
  wp (@io_init linux_target (default_config true) ;;
      @io_run linux_target (default_config true)
        [OpIPut (Input [1] 1 0); OpIPut (Input [2] 1 0); OpIPop; OpIPop; OpIPop])
    (fun r s' => r = [AnsNone; AnsNone; AnsIn (Some (Input [1] 1 0));
                      AnsIn (Some (Input [2] 1 0)); AnsIn None]
      /\ io_ok s' /\ i_queue s' = [] /\ o_queue s' = []) io_zero.
Proof.
  apply (@io_refines_queues linux_target (default_config true) io_zero).
  - split; reflexivity.
  - vm_compute. discriminate.
  - reflexivity.
Defined.

Lemma io_push_on_full_witness :
  exists io', @io_push linux_target (Io &"input" 4 0 4) = Done (0 mod 4, io', [])
    /\ io_used io' = 4 + 1 /\ io_free io' = 65535.
Proof.
  apply (@io_push_on_full linux_target (Io &"input" 4 0 4)).
  - unfold ring_ok. simpl. lia.
  - reflexivity.
  - reflexivity.
Defined.
