(* ===== verification/Console.v ===== *)
(** * common/console.c: the input line

    The console keeps one line of at most [MAX_CONSOLE_INPUT] characters that the
    host fills character by character and that the command interpreter reads.
    The line is locked from the end of input until the command has run. *)

From S2P Require Import Prelude Libc.

Definition MAX_CONSOLE_INPUT : Z := 128.

Definition PROMPT : list Z := &"] ".

Record con_t : Type := Con {
  con_lock : Z;          (* uint8_t *)
  con_index : Z;         (* uint16_t *)
  con_input : list Z     (* char input[MAX_CONSOLE_INPUT] *)
}.

Definition con_zero : con_t := Con 0 0 (repeat 0 (Z.to_nat MAX_CONSOLE_INPUT)).

Section Ops.
Context `{T : Target}.

Definition con_input_lock : M con_t unit :=
  modify (fun c => Con 1 (con_index c) (con_input c)).
Definition con_input_unlock : M con_t unit :=
  modify (fun c => Con 0 (con_index c) (con_input c)).
Definition con_input_islocked : M con_t Z := gets con_lock.
Definition con_input_hasinput : M con_t Z := gets con_index.

Definition con_reset : M con_t unit :=
  modify (fun c => Con (con_lock c) 0 (repeat 0 (Z.to_nat MAX_CONSOLE_INPUT))) ;;
  con_input_unlock.

(** The memory part of [con_init]; the host part follows it. *)
Definition con_clear : M con_t unit := put con_zero.

Definition con_prompt {S} : M S unit := xprintf &"%s" [AStr PROMPT].

Definition con_input_push (ch : Z) : M con_t unit :=
  let* c := get in
  if negb (con_lock c =? 0) || (MAX_CONSOLE_INPUT <=? con_index c) then ret tt
  else
    let* l := lift (zset (con_input c) (con_index c) (u8 ch)) in
    put (Con (con_lock c) (u16 (con_index c + 1)) l).

Definition con_input_del : M con_t unit :=
  let* c := get in
  if con_index c =? 0 then ret tt
  else
    let i := u16 (con_index c - 1) in
    let* l := lift (zset (con_input c) i 0) in
    put (Con (con_lock c) i l).

Definition con_input_data : M con_t (list Z) := gets con_input.

Definition con_input_echo : M con_t Z :=
  let* c := get in
  if con_index c =? 0 then ret 0
  else let* x := lift (zget (con_input c) (con_index c - 1)) in ret (chr x).
End Ops.

(** ** The line that has been typed *)

Definition con_ok (c : con_t) : Prop :=
  0 <= con_index c <= MAX_CONSOLE_INPUT /\ (con_lock c = 0 \/ con_lock c = 1) /\
  exists l, zlen l = con_index c /\ Forall is_byte l /\
    con_input c = l ++ repeat 0 (Z.to_nat (MAX_CONSOLE_INPUT - con_index c)).

Definition con_line (c : con_t) : list Z := take (Z.to_nat (con_index c)) (con_input c).

(** The specification: a lock and a line. *)
Inductive key : Type := KeyPush (ch : Z) | KeyDel | KeyLock | KeyUnlock | KeyReset.

Definition line_step (st : bool * list Z) (k : key) : bool * list Z :=
  let '(locked, l) := st in
  match k with
  | KeyPush ch => if locked || (MAX_CONSOLE_INPUT <=? zlen l) then (locked, l) else (locked, l ++ [u8 ch])
  | KeyDel => (locked, removelast l)
  | KeyLock => (true, l)
  | KeyUnlock => (false, l)
  | KeyReset => (false, [])
  end.

Definition con_step (k : key) : M con_t unit :=
  match k with
  | KeyPush ch => con_input_push ch
  | KeyDel => con_input_del
  | KeyLock => con_input_lock
  | KeyUnlock => con_input_unlock
  | KeyReset => con_reset
  end.

Fixpoint con_run (ks : list key) : M con_t unit :=
  match ks with [] => ret tt | k :: ks => con_step k ;; con_run ks end.

(** The concrete state represents the pair of the specification. *)
Definition con_rep (c : con_t) (st : bool * list Z) : Prop :=
  con_lock c = (if st.1 then 1 else 0) /\ con_index c = zlen st.2 /\
  zlen st.2 <= MAX_CONSOLE_INPUT /\ Forall is_byte st.2 /\
  con_input c = st.2 ++ repeat 0 (Z.to_nat (MAX_CONSOLE_INPUT - zlen st.2)).

Lemma con_rep_zero : con_rep con_zero (false, []).
Proof. unfold con_rep. simpl. split_and!; done || constructor. Qed.

Lemma con_rep_ok c st : con_rep c st -> con_ok c.
Proof.
  intros (Hl & Hi & Hm & Hb & Hin). unfold con_ok. rewrite Hi.
  split; [pose proof (zlen_nonneg st.2); lia|].
  split; [rewrite Hl; destruct st.1; auto|]. exists st.2. done.
Qed.

Lemma con_rep_line c st : con_rep c st -> con_line c = st.2.
Proof.
  intros (_ & Hi & _ & _ & Hin). unfold con_line. rewrite Hin, Hi. unfold zlen.
  rewrite Nat2Z.id. by rewrite take_app_length.
Qed.

(** Storing into the zeros behind the line, and cutting its last character. *)
Lemma zset_tail (l : list Z) n x : (0 < n)%nat ->
  zset (l ++ repeat 0 n) (zlen l) x = Some (l ++ x :: repeat 0 (n - 1)).
Proof.
  intros Hn. destruct n as [|n]; [lia|]. rewrite zset_some.
  - unfold zlen. rewrite Nat2Z.id, <- (Nat.add_0_r (length l)), insert_app_r. simpl.
    by rewrite Nat.sub_0_r.
  - unfold zlen. rewrite length_app. simpl. lia.
Qed.

Lemma zset_last (l : list Z) a n :
  zset ((l ++ [a]) ++ repeat 0 n) (zlen l) 0 = Some (l ++ repeat 0 (S n)).
Proof.
  rewrite zset_some.
  - unfold zlen. rewrite Nat2Z.id, <- app_assoc, <- (Nat.add_0_r (length l)), insert_app_r. done.
  - unfold zlen. rewrite !length_app. simpl. lia.
Qed.

Lemma wp_con_step k c st : con_rep c st ->
  wp (con_step k) (fun _ c' => con_rep c' (line_step st k)) c.
Proof.
  destruct st as [locked l]. unfold con_rep. simpl. intros (Hl & Hi & Hm & Hb & Hin).
  assert (Hlen : 0 <= zlen l) by apply zlen_nonneg. unfold MAX_CONSOLE_INPUT in *.
  destruct k; simpl.
  - unfold con_input_push. wp_steps. rewrite Hl, Hi.
    replace (negb ((if locked then 1 else 0) =? 0)) with locked by by destruct locked.
    destruct (locked || (MAX_CONSOLE_INPUT <=? zlen l)) eqn:Hfull; unfold MAX_CONSOLE_INPUT in *; rewrite Hfull; wp_steps.
    + split_and!; done.
    + apply orb_false_iff in Hfull as [-> Hroom]. apply Z.leb_gt in Hroom.
      rewrite Hin. eapply wp_lift; [apply zset_tail; lia|]. wp_steps. simpl.
      unfold zlen in *. rewrite length_app. simpl.
      split_and!; [done|rewrite u16_id; lia|lia| |].
      * apply Forall_app. split; [done|]. constructor; [apply u8_range|constructor].
      * rewrite <- app_assoc. simpl. do 3 f_equal. lia.
  - unfold con_input_del. wp_steps. destruct (con_index c =? 0) eqn:Hz; wp_steps.
    + assert (l = []) as -> by (destruct l; [done|unfold zlen in *; simpl in *; lia]).
      split_and!; done.
    + destruct l as [|a l' _] using rev_ind; [unfold zlen in *; simpl in *; lia|].
      rewrite removelast_last. unfold zlen in *. rewrite length_app in *. simpl in *.
      replace (u16 (con_index c - 1)) with (zlen l') by (rewrite Hi, u16_id; unfold zlen; lia).
      rewrite Hin. eapply wp_lift; [apply zset_last|]. wp_steps. simpl. unfold zlen.
      split_and!; [done|done|lia|by apply Forall_app in Hb as [? _]|].
      replace (Z.to_nat (128 - Z.of_nat (length l')))
        with (S (Z.to_nat (128 - Z.of_nat (length l' + 1)))) by lia. done.
  - wp_steps. simpl. split_and!; done.
  - wp_steps. simpl. split_and!; done.
  - unfold con_reset, con_input_unlock. wp_steps. simpl. split_and!; done || constructor.
Qed.

Lemma wp_con_run ks : forall c st, con_rep c st ->
  wp (con_run ks) (fun _ c' => con_rep c' (fold_left line_step ks st)) c.
Proof.
  induction ks as [|k ks IH]; intros c st Hr; simpl; [by apply wp_ret|].
  wp_step. eapply wp_mono; [|by apply wp_con_step]. intros [] c' Hr'. by apply IH.
Qed.

(** C38: from the cleared console, any sequence of keystrokes, deletions, locks
    and resets runs without touching memory outside the line buffer, keeps the
    console well formed (everything behind the line is zero), and leaves exactly
    the line and the lock that the line-editing specification prescribes: input
    is ignored while locked and when 128 characters are there. *)
Theorem con_refines_line ks :
  wp (con_clear ;; con_run ks)
    (fun _ c => con_ok c /\ con_line c = (fold_left line_step ks (false, [])).2 /\
       con_lock c = (if (fold_left line_step ks (false, [])).1 then 1 else 0)) con_zero.
Proof.
  unfold con_clear. wp_steps. eapply wp_mono; [|apply (wp_con_run ks _ (false, [])), con_rep_zero].
  intros [] c Hr. split; [by eapply con_rep_ok|]. split; [by apply con_rep_line|]. apply Hr.
Qed.

(** A line that is full leaves no room for the terminating NUL: after 128
    characters without a break the array that [con_input_data] hands to the
    tokenizer is not a C string. *)
Theorem con_full_line_not_terminated c ch :
  0 < u8 ch -> con_rep c (false, []) ->
  wp (con_run (repeat (KeyPush ch) 128))
    (fun _ c' => forall i x, zget (con_input c') i = Some x -> x <> 0) c.
Proof.
  intros Hch Hr. eapply wp_mono; [|by apply wp_con_run].
  assert (Hfold : fold_left line_step (repeat (KeyPush ch) 128) (false, []) = (false, repeat (u8 ch) 128))
    by reflexivity.
  rewrite Hfold. intros [] c' (_ & Hi & _ & _ & Hin) i x. rewrite Hin.
  change (Z.to_nat (MAX_CONSOLE_INPUT - zlen (false, repeat (u8 ch) 128).2)) with O.
  change (false, repeat (u8 ch) 128).2 with (repeat (u8 ch) 128). change (repeat 0 0) with (@nil Z).
  rewrite (app_nil_r (repeat (u8 ch) 128)). unfold zget. case_match; [done|].
  intros Hx. apply list_elem_of_lookup_2, list_elem_of_In, repeat_spec in Hx. lia.
Qed.

Lemma con_full_line_not_terminated_witness :
  wp (con_run (repeat (KeyPush 97) 128))
    (fun _ c' => forall i x, zget (con_input c') i = Some x -> x <> 0) con_zero.
Proof. apply (con_full_line_not_terminated con_zero 97); [reflexivity|exact con_rep_zero]. Defined.
