(* ===== verification/Event.v ===== *)
(** * common/event.c: the event queue

    A ring of [MAX_EVENTS] events between the hosts and the console commands
    (producers) and the main loop (consumer).  The dispatcher [event_loop] calls
    into the player and is modelled with it. *)

From S2P Require Import Prelude Libc Ring.

Definition MAX_EVENTS : Z := 8.

Inductive event_type_e : Type :=
| E_NONE
| E_CON_INPUT
| E_CON_ECHO
| E_CON_DEL
| E_PL_STOP
| E_PL_PLAY
| E_PL_VOLUP
| E_PL_VOLDOWN
| E_PL_VOLSET.

#[export] Instance event_type_eq_dec : EqDecision event_type_e.
Proof. solve_decision. Defined.

(** The pointer of an event: NULL, a pointer into [cmd.token_buffer] (which the
    next command overwrites), or a string constant. *)
Inductive ptr : Type := PNull | PTok (off : Z) | PStr (s : list Z).

Record event_t : Type := Event {
  e_time : Z;            (* uint32_t *)
  e_type : event_type_e;
  e_par : Z;             (* uint32_t *)
  e_ptr : ptr
}.

Record ev_t : Type := Ev {
  events : list event_t;
  ev_head : Z;           (* uint32_t *)
  ev_tail : Z            (* uint32_t *)
}.

Definition event_zero : event_t := Event 0 E_NONE 0 PNull.
Definition ev_zero : ev_t := Ev (repeat event_zero (Z.to_nat MAX_EVENTS)) 0 0.

Section Ops.
Context `{T : Target}.

Definition event_init : M ev_t unit := put ev_zero.

(** [time] is the value of [get_local_time()]. *)
Definition event_push (time : Z) (type : event_type_e) (par : Z) (p : ptr) : M ev_t unit :=
  let* ev := get in
  let e := ev_head ev mod MAX_EVENTS in
  when (u32 (ev_head ev - ev_tail ev) >? MAX_EVENTS)
    (xprintf &"event_push: event overflow\n" [] ;;
     modify (fun ev => Ev (events ev) (ev_head ev) (u32 (ev_tail ev + 1)))) ;;
  modify (fun ev => Ev (events ev) (u32 (ev_head ev + 1)) (ev_tail ev)) ;;
  let* ev := get in
  let* l := lift (zset (events ev) e (Event (u32 time) type (u32 par) p)) in
  put (Ev l (ev_head ev) (ev_tail ev)).

Definition event_pop : M ev_t event_t :=
  let* ev := get in
  if ev_head ev >? ev_tail ev then
    let t := u32 (ev_tail ev + 1) in
    put (Ev (events ev) (ev_head ev) t) ;;
    lift (zget (events ev) (u32 (t - 1) mod MAX_EVENTS))
  else ret event_zero.
End Ops.

(** ** The queue of pending events *)

(** One element more than the ring holds can be pending, because the full check
    of [event_push] is off by one. *)
Definition ev_ok (ev : ev_t) : Prop :=
  zlen (events ev) = MAX_EVENTS /\ 0 <= ev_tail ev <= ev_head ev /\
  ev_head ev < 4294967296 /\ ev_head ev - ev_tail ev <= MAX_EVENTS + 1.

Definition ev_queue (ev : ev_t) : list event_t :=
  ring_view (events ev) MAX_EVENTS (ev_tail ev) (Z.to_nat (ev_head ev - ev_tail ev)).

Lemma ev_ok_zero : ev_ok ev_zero.
Proof. unfold ev_ok. vm_compute. split_and!; congruence. Qed.

Lemma ev_queue_zero : ev_queue ev_zero = [].
Proof. reflexivity. Qed.

Lemma ev_queue_length ev : ev_ok ev -> zlen (ev_queue ev) = ev_head ev - ev_tail ev.
Proof.
  intros (Hl & Ht & _). unfold ev_queue, zlen.
  rewrite ring_view_length by (done || (unfold MAX_EVENTS; lia)). lia.
Qed.

Section Specs.
Context `{T : Target}.

Lemma ev_slot ev : ev_ok ev -> 0 <= ev_head ev mod MAX_EVENTS < zlen (events ev).
Proof. intros (-> & _). apply Z.mod_pos_bound. done. Qed.

(** What a push does, whatever the fill level: below [MAX_EVENTS] pending events
    it appends.  At that level and above, the new event also replaces the oldest
    event still pending. *)
Definition ev_push_spec (q : list event_t) (e : event_t) : list event_t :=
  if zlen q <? MAX_EVENTS then q ++ [e]
  else if zlen q =? MAX_EVENTS then e :: tl q ++ [e]
  else e :: tl (tl q) ++ [e].

Lemma wp_event_push time type par p ev (Q : unit -> ev_t -> Prop) :
  ev_ok ev -> ev_head ev < 4294967295 ->
  (forall ev', ev_ok ev' -> ev_head ev' = ev_head ev + 1 ->
     ev_queue ev' = ev_push_spec (ev_queue ev) (Event (u32 time) type (u32 par) p) -> Q tt ev') ->
  wp (event_push time type par p) Q ev.
Proof.
  intros Hok Hlt HQ. pose proof Hok as (Hl & Ht & Hh & Hn).
  destruct (zset (events ev) (ev_head ev mod MAX_EVENTS) (Event (u32 time) type (u32 par) p))
    as [l|] eqn:Hset; [|rewrite zset_some in Hset by (by apply ev_slot); done].
  assert (Hll : zlen l = MAX_EVENTS) by (unfold zlen; by rewrite (zset_length _ _ _ _ Hset)).
  pose proof (ev_queue_length ev Hok) as Hq. set (e := Event (u32 time) type (u32 par) p) in *.
  unfold ev_push_spec in HQ. rewrite Hq in HQ. clear Hq. unfold ev_queue in HQ.
  unfold event_push, MAX_EVENTS in *. wp_step. apply wp_get. wp_step.
  apply wp_when; intros Hgt; rewrite u32_id in Hgt by lia.
  - wp_step. wp_print. wp_steps. simpl. eapply wp_lift; [exact Hset|]. wp_steps.
    rewrite (u32_id (ev_head ev + 1)), (u32_id (ev_tail ev + 1)) by lia.
    apply HQ; [unfold ev_ok, MAX_EVENTS; simpl; split_and!; done || lia|done|]. simpl.
    replace (ev_head ev + 1 - (ev_tail ev + 1)) with 9 by lia.
    replace (ev_head ev - ev_tail ev) with 9 by lia. change (Z.to_nat 9) with (S (Z.to_nat 8)).
    rewrite (ring_view_overwrite (events ev) 8 (ev_tail ev + 1) e l);
      [|done|done|by replace (ev_tail ev + 1 + 8) with (ev_head ev) by lia].
    destruct (slot_some (events ev) 8 (ev_tail ev)) as [y Hy]; [done|done|].
    cbn [ring_view Z.ltb Z.eqb Z.compare Pos.compare Pos.compare_cont Pos.eqb]. by rewrite Hy.
  - wp_steps. simpl. eapply wp_lift; [exact Hset|]. wp_steps. rewrite (u32_id (ev_head ev + 1)) by lia.
    apply HQ; [unfold ev_ok, MAX_EVENTS; simpl; split_and!; done || lia|done|]. simpl.
    replace (Z.to_nat (ev_head ev + 1 - ev_tail ev)) with (S (Z.to_nat (ev_head ev - ev_tail ev))) by lia.
    destruct (Z.ltb_spec (ev_head ev - ev_tail ev) 8).
    + apply ring_view_push; [done|lia|].
      by replace (ev_tail ev + Z.of_nat (Z.to_nat (ev_head ev - ev_tail ev))) with (ev_head ev) by lia.
    + replace (ev_head ev - ev_tail ev) with 8 by lia.
      apply ring_view_overwrite; [done|done|by replace (ev_tail ev + 8) with (ev_head ev) by lia].
Qed.

Lemma wp_event_pop ev (Q : event_t -> ev_t -> Prop) :
  ev_ok ev ->
  (ev_queue ev = [] -> Q event_zero ev) ->
  (forall e q ev', ev_queue ev = e :: q -> ev_ok ev' -> ev_queue ev' = q ->
     ev_head ev' = ev_head ev -> Q e ev') ->
  wp event_pop Q ev.
Proof.
  intros Hok He Hc. pose proof Hok as (Hl & Ht & Hh & Hn). unfold event_pop. wp_steps.
  destruct (ev_head ev >? ev_tail ev) eqn:Hgt.
  - wp_steps. rewrite (u32_id (ev_tail ev + 1)) by lia.
    rewrite (u32_id (ev_tail ev + 1 - 1)) by lia. rewrite Z.add_simpl_r.
    destruct (zget_some (events ev) (ev_tail ev mod MAX_EVENTS)) as [e Hg].
    { rewrite Hl. apply Z.mod_pos_bound. done. }
    eapply wp_lift; [exact Hg|].
    apply (Hc e (ring_view (events ev) MAX_EVENTS (ev_tail ev + 1)
                   (Z.to_nat (ev_head ev - (ev_tail ev + 1))))); [|split_and!; simpl; done || lia|done|done].
    unfold ev_queue.
    replace (Z.to_nat (ev_head ev - ev_tail ev)) with (S (Z.to_nat (ev_head ev - (ev_tail ev + 1)))) by lia.
    simpl. unfold slot. by rewrite Hg.
  - wp_steps. apply He. unfold ev_queue. by replace (Z.to_nat (ev_head ev - ev_tail ev)) with O by lia.
Qed.

(** Nobody pushes an event of type [E_NONE], which would end the dispatcher's loop. *)
Definition ev_inv (ev : ev_t) : Prop :=
  ev_ok ev /\ Forall (fun e => e_type e <> E_NONE) (ev_queue ev).

Lemma ev_push_spec_Forall (R : event_t -> Prop) q e : Forall R q -> R e -> Forall R (ev_push_spec q e).
Proof.
  intros Hq He. unfold ev_push_spec.
  assert (Htl : forall l, Forall R l -> Forall R (tl l)) by (by intros ? [|? ? ? ?]).
  assert (Hl : forall l, Forall R l -> Forall R (e :: l ++ [e])).
  { intros l Hl. constructor; [done|]. by apply Forall_app_2; [|constructor]. }
  destruct (_ <? _); [by apply Forall_app_2; [|constructor]|]. destruct (_ =? _); auto.
Qed.

(** Pushing onto a queue with room appends the event; on a queue that is
    already full ([MAX_EVENTS] pending) the oldest pending event is lost without
    a message and the new event is delivered twice, first in its place and then
    at the end. *)
Theorem event_push_queue time type par p ev :
  ev_ok ev -> ev_head ev < 4294967295 ->
  let e := Event (u32 time) type (u32 par) p in
  wp (event_push time type par p)
    (fun _ ev' => ev_ok ev' /\
      (zlen (ev_queue ev) < MAX_EVENTS -> ev_queue ev' = ev_queue ev ++ [e]) /\
      (zlen (ev_queue ev) = MAX_EVENTS -> ev_queue ev' = e :: tl (ev_queue ev) ++ [e])) ev.
Proof.
  intros Hok Hlt e. apply wp_event_push; [done|done|]. intros ev' Hok' _ Hq.
  unfold ev_push_spec in Hq. split; [done|]. rewrite Hq. split; intros Hn.
  - by rewrite (proj2 (Z.ltb_lt _ _) Hn).
  - rewrite Hn. done.
Qed.

(** [event_pop] takes the oldest pending event, and returns an event of type
    [E_NONE] exactly when nothing is pending: what is pushed while there is room
    comes out in the order it was pushed. *)
Theorem event_pop_fifo ev :
  ev_ok ev ->
  wp event_pop (fun e ev' => ev_ok ev' /\
    match ev_queue ev with
    | [] => e = event_zero /\ ev' = ev
    | first :: rest => e = first /\ ev_queue ev' = rest
    end) ev.
Proof.
  intros Hok. apply wp_event_pop; [done| |].
  - intros ->. done.
  - intros e q ev' -> ? ? ?. done.
Qed.
End Specs.

Definition ev_one : ev_t :=
  Ev (Event 5 E_PL_STOP 0 PNull :: repeat event_zero 7) 1 0.

Lemma event_push_queue_witness :
  wp (@event_push linux_target 7 E_PL_VOLSET 3 PNull)
    (fun _ ev' => ev_ok ev' /\
      (zlen (ev_queue ev_one) < MAX_EVENTS ->
        ev_queue ev' = ev_queue ev_one ++ [Event (u32 7) E_PL_VOLSET (u32 3) PNull]) /\
      (zlen (ev_queue ev_one) = MAX_EVENTS ->
        ev_queue ev' = Event (u32 7) E_PL_VOLSET (u32 3) PNull :: tl (ev_queue ev_one)
          ++ [Event (u32 7) E_PL_VOLSET (u32 3) PNull])) ev_one.
Proof.
  apply (@event_push_queue linux_target 7 E_PL_VOLSET 3 PNull ev_one).
  - unfold ev_ok. vm_compute. split_and!; congruence.
  - reflexivity.
Defined.

Lemma event_pop_fifo_witness :
  wp event_pop (fun e ev' => ev_ok ev' /\ e = Event 5 E_PL_STOP 0 PNull /\ ev_queue ev' = []) ev_one.
Proof.
  apply (event_pop_fifo ev_one). unfold ev_ok. vm_compute. split_and!; congruence.
Defined.
