(* ===== verification/Cmd.v ===== *)
(** * common/cmd.c: the command line tokenizer

    [cmd_tokenize] copies the tokens of a line into [token_buffer] and keeps a
    pointer to each in [cmd_argv]; a [char *] into the buffer is its offset.  The
    dispatcher [cmd_exec] calls the commands of all components and is modelled
    with them; the comparison it selects a command with is here. *)

From S2P Require Import Prelude Libc Strings Console Event.

Definition MAX_TOKENS : Z := 16.
Definition CMD_INPUT_BUFFER_SIZE : Z := MAX_CONSOLE_INPUT.
Definition TOKEN_BUFFER_SIZE : Z := CMD_INPUT_BUFFER_SIZE + MAX_TOKENS.
Definition NULL_STR : list Z := [].

Record cmd_t : Type := Cmd {
  token_buffer : list Z;
  cmd_argc : Z;
  cmd_argv : list (option Z)   (* offsets into token_buffer; None is NULL *)
}.

Definition set_token_buffer (b : list Z) (c : cmd_t) : cmd_t := Cmd b (cmd_argc c) (cmd_argv c).
Definition set_argc (n : Z) (c : cmd_t) : cmd_t := Cmd (token_buffer c) n (cmd_argv c).
Definition set_argv (v : list (option Z)) (c : cmd_t) : cmd_t := Cmd (token_buffer c) (cmd_argc c) v.

Definition cmd_zero : cmd_t :=
  Cmd (repeat 0 (Z.to_nat TOKEN_BUFFER_SIZE)) 0 (repeat None (Z.to_nat MAX_TOKENS)).

(** The C string that starts at the head of a byte list; [None] when the bytes
    end before a NUL. *)
Fixpoint cstr (l : list Z) : option (list Z) :=
  match l with
  | [] => None
  | c :: r => if c =? 0 then Some [] else cons c <$> cstr r
  end.

Definition skip_spaces : list Z -> option (list Z) :=
  fix skip l := match l with
  | [] => None
  | c :: r => if c =? 32 then skip r else Some l
  end.

Section Ops.
Context `{T : Target}.

Definition cmd_init : M cmd_t unit := put cmd_zero.

Definition cmd_Argc : M cmd_t Z := gets cmd_argc.

Definition cmd_Argv (i : Z) : M cmd_t ptr :=
  let* c := get in
  if (cmd_argc c =? 0) || (cmd_argc c <=? i) then ret (PStr NULL_STR)
  else
    let* p := lift (zget (cmd_argv c) i) in
    ret (match p with Some off => PTok off | None => PNull end).

(** The string a pointer points to at this moment. *)
Definition deref (p : ptr) : M cmd_t (list Z) :=
  match p with
  | PNull => fault
  | PStr s => ret s
  | PTok off =>
      let* c := get in
      if off <? 0 then fault else lift (cstr (drop (Z.to_nat off) (token_buffer c)))
  end.

Definition cmd_arg (i : Z) : M cmd_t (list Z) := let* p := cmd_Argv i in deref p.

Definition cmd_debug : M cmd_t unit :=
  let* c := get in
  xprintf &"cmd_argc: %d\n" [AInt (cmd_argc c)] ;;
  for_range 0 (Z.to_nat (cmd_argc c)) (fun i =>
    let* p := lift (zget (cmd_argv c) i) in
    let* s := deref (match p with Some off => PTok off | None => PNull end) in
    xprintf &"%d : '%s' (%d)\n" [AInt i; AStr s; ALong (zlen s)]).

Definition store_token (out c : Z) : M cmd_t unit :=
  let* s := get in
  let* b := lift (zset (token_buffer s) out c) in
  put (set_token_buffer b s).

(** [while (p( *text)) *text_out++ = *text++;] *)
Fixpoint copy_while (p : Z -> bool) (text : list Z) (out : Z) : M cmd_t (list Z * Z) :=
  match text with
  | [] => fault
  | c :: r => if p c then store_token out c ;; copy_while p r (out + 1) else ret (text, out)
  end.

Definition in_quote (c : Z) : bool := negb (c =? 34) && negb (c =? 0).
Definition in_word (c : Z) : bool := chr c >? 32.

(** [cmd.cmd_argv[cmd.cmd_argc] = text_out; cmd.cmd_argc++;] *)
Definition new_token (out : Z) : M cmd_t unit :=
  let* s := get in
  let* v := lift (zset (cmd_argv s) (cmd_argc s) (Some out)) in
  put (set_argc (cmd_argc s + 1) (set_argv v s)).

(** [text] is what the pointer of the same name points to, [out] the offset of
    [text_out]. *)
Fixpoint tokenize_loop (fuel : nat) (text : list Z) (out : Z) : M cmd_t unit :=
  match fuel with
  | O => nofuel
  | S fuel' =>
      let* argc := cmd_Argc in
      if argc =? MAX_TOKENS then ret tt
      else
        let* c0 := lift (zget text 0) in
        let* c1 := (if c0 =? ch "/" then lift (zget text 1) else ret 0) in
        if (c0 =? ch "/") && (c1 =? ch "/") then ret tt
        else if c0 =? ch "#" then ret tt
        else
          let* text := lift (skip_spaces text) in
          let* c := lift (zget text 0) in
          if c =? 10 then ret tt
          else if c =? 13 then ret tt
          else if c =? 0 then ret tt
          else if c =? 34 then
            new_token out ;;
            let* (text, out) := copy_while in_quote (tail text) out in
            store_token out 0 ;;
            let* c := lift (zget text 0) in
            if c =? 0 then ret tt
            else tokenize_loop fuel' (tail text) (out + 1)
          else
            new_token out ;;
            let* (text, out) := copy_while in_word text out in
            store_token out 0 ;;
            let* c := lift (zget text 0) in
            if c =? 0 then ret tt
            else tokenize_loop fuel' text (out + 1)
  end.

(** Every round but the last adds a token. *)
Definition cmd_tokenize (text_in : option (list Z)) : M cmd_t unit :=
  modify (set_argc 0) ;;
  match text_in with
  | None => ret tt
  | Some text =>
      modify (set_token_buffer (repeat 0 (Z.to_nat TOKEN_BUFFER_SIZE))) ;;
      tokenize_loop (S (Z.to_nat MAX_TOKENS)) text 0
  end.

(** [!uc_memcmp(a, b, n)] on two C strings. *)
Definition memcmp_eq (a b : list Z) (n : Z) : option bool :=
  (fun r => r =? 0) <$> memcmp_l (cz a) (cz b) (Z.to_nat n).

(** The comparison of [cmd_exec]: the command's name and the first token agree
    over the length of either. *)
Definition cmd_match (name arg : list Z) : option bool :=
  match memcmp_eq name arg (zlen arg) with
  | None => None
  | Some false => Some false
  | Some true => memcmp_eq name arg (zlen name)
  end.

Definition cmd_echo : M cmd_t unit :=
  let* argc := cmd_Argc in
  for_range 1 (Z.to_nat (argc - 1)) (fun index =>
    let* s := cmd_arg index in xprintf &"%s " [AStr s]) ;;
  xprintf &"\n" [].

Definition cmd_cls {S} : M S unit :=
  xprintf &"\e[2J" [] ;; xprintf &"\e[1;1H" [].
End Ops.

(** ** The reference tokenizer *)

Fixpoint span (p : Z -> bool) (l : list Z) : list Z * list Z :=
  match l with
  | [] => ([], [])
  | c :: r => if p c then let '(a, b) := span p r in (c :: a, b) else ([], l)
  end.

Fixpoint drop_spaces (l : list Z) : list Z :=
  match l with [] => [] | c :: r => if c =? 32 then drop_spaces r else l end.

Definition comment (l : list Z) : bool :=
  match l with
  | 35 :: _ => true
  | 47 :: 47 :: _ => true
  | _ => false
  end.

Section Reference.
Context `{T : Target}.

(** At most [n] tokens of the line [l]. *)
Fixpoint tokens (n : nat) (l : list Z) : list (list Z) :=
  match n with
  | O => []
  | S n' =>
      if comment l then []
      else
        match drop_spaces l with
        | [] => []
        | c :: r =>
            if (c =? 10) || (c =? 13) then []
            else if c =? 34 then
              let '(t, rest) := span (fun c => negb (c =? 34)) r in
              t :: match rest with [] => [] | _ :: rest => tokens n' rest end
            else
              let '(t, rest) := span in_word (c :: r) in
              t :: match rest with [] => [] | _ => tokens n' rest end
        end
  end.

(** The buffer holds the tokens, each with its NUL, and zeros behind them; the
    pointers are the offsets of the tokens. *)
Definition flat (ts : list (list Z)) : list Z := concat (map cz ts).

Fixpoint offsets (o : Z) (ts : list (list Z)) : list Z :=
  match ts with [] => [] | t :: ts => o :: offsets (o + zlen t + 1) ts end.

Definition cmd_rep (c : cmd_t) (ts : list (list Z)) : Prop :=
  cmd_argc c = zlen ts /\ zlen ts <= MAX_TOKENS /\ zlen (cmd_argv c) = MAX_TOKENS /\
  zlen (flat ts) <= TOKEN_BUFFER_SIZE /\
  token_buffer c = flat ts ++ repeat 0 (Z.to_nat (TOKEN_BUFFER_SIZE - zlen (flat ts))) /\
  take (length ts) (cmd_argv c) = map Some (offsets 0 ts).

Lemma flat_app a b : flat (a ++ b) = flat a ++ flat b.
Proof. unfold flat. by rewrite map_app, concat_app. Qed.

Lemma offsets_app a : forall o b, offsets o (a ++ b) = offsets o a ++ offsets (o + zlen (flat a)) b.
Proof.
  induction a as [|t a IH]; intros o b; simpl.
  - unfold flat. simpl. by rewrite (zlen_nil (A:=Z)), Z.add_0_r.
  - rewrite IH. do 2 f_equal. change (flat (t :: a)) with (cz t ++ flat a).
    unfold cz. rewrite !zlen_app, zlen_cons, (zlen_nil (A:=Z)). f_equal. lia.
Qed.

Lemma span_app p l a b : span p l = (a, b) -> l = a ++ b.
Proof.
  revert a. induction l as [|c l IH]; intros a; simpl; [by intros [= <- <-]|].
  destruct (p c); [|by intros [= <- <-]]. destruct (span p l) as [a' b'] eqn:Hs.
  intros [= <- <-]. simpl. f_equal. by apply IH.
Qed.

Lemma drop_spaces_suffix l : exists a, l = a ++ drop_spaces l.
Proof.
  induction l as [|c l [a IH]]; simpl; [by exists []|].
  destruct (c =? 32); [exists (c :: a); simpl; congruence|by exists []].
Qed.

Lemma skip_spaces_spec l junk :
  skip_spaces (l ++ 0 :: junk) = Some (drop_spaces l ++ 0 :: junk).
Proof. induction l as [|c l IH]; simpl; [done|]. destruct (c =? 32); [apply IH|done]. Qed.

(** A store into the zeros behind what the buffer holds. *)
Lemma wp_store_token c (Q : unit -> cmd_t -> Prop) s pre k :
  token_buffer s = pre ++ repeat 0 k -> (0 < k)%nat ->
  Q tt (set_token_buffer (pre ++ [c] ++ repeat 0 (k - 1)) s) ->
  wp (store_token (zlen pre) c) Q s.
Proof.
  intros Hb Hk HQ. unfold store_token. wp_steps. rewrite Hb.
  eapply wp_lift; [by apply zset_tail|]. by wp_steps.
Qed.

Lemma wp_copy_while p (Q : list Z * Z -> cmd_t -> Prop) junk l : forall a b s pre k,
  p 0 = false -> span p l = (a, b) -> token_buffer s = pre ++ repeat 0 k -> (length a <= k)%nat ->
  Q (b ++ 0 :: junk, zlen pre + zlen a)
    (set_token_buffer ((pre ++ a) ++ repeat 0 (k - length a)) s) ->
  wp (copy_while p (l ++ 0 :: junk) (zlen pre)) Q s.
Proof.
  induction l as [|c l IH]; intros a b s pre k Hp0 Hs Hb Hk HQ; simpl in *.
  - injection Hs as <- <-. rewrite Hp0. wp_steps.
    rewrite app_nil_r, Nat.sub_0_r, (zlen_nil (A:=Z)), Z.add_0_r, <- Hb in HQ. by destruct s.
  - destruct (p c) eqn:Hpc.
    + destruct (span p l) as [a' b'] eqn:Hs'. injection Hs as <- <-. simpl in Hk.
      wp_step. eapply (wp_store_token c _ s pre k Hb); [lia|].
      replace (zlen pre + 1) with (zlen (pre ++ [c])) by (rewrite zlen_app; done).
      apply (IH a' b' _ (pre ++ [c]) (k - 1)%nat); [done|done| |lia|].
      * simpl. by rewrite <- app_assoc.
      * rewrite zlen_app, zlen_cons, (zlen_nil (A:=Z)). simpl. rewrite zlen_cons in HQ.
        replace (zlen pre + (1 + 0) + zlen a') with (zlen pre + (1 + zlen a')) by lia.
        rewrite <- (app_assoc pre). simpl.
        by replace (k - 1 - length a')%nat with (k - S (length a'))%nat by lia.
    + injection Hs as <- <-. wp_steps.
      rewrite app_nil_r, Nat.sub_0_r, (zlen_nil (A:=Z)), Z.add_0_r, <- Hb in HQ. by destruct s.
Qed.
Lemma flat_snoc ts t : flat (ts ++ [t]) = flat ts ++ t ++ [0].
Proof. rewrite flat_app. unfold flat at 2. simpl. by rewrite app_nil_r. Qed.

Lemma cmd_rep_add s ts t v :
  cmd_rep s ts -> zlen ts < MAX_TOKENS -> zlen (flat ts) + zlen t + 1 <= TOKEN_BUFFER_SIZE ->
  zset (cmd_argv s) (zlen ts) (Some (zlen (flat ts))) = Some v ->
  cmd_rep (Cmd ((flat ts ++ t ++ [0]) ++ repeat 0 (Z.to_nat (TOKEN_BUFFER_SIZE - zlen (flat ts) - zlen t - 1)))
    (zlen ts + 1) v) (ts ++ [t]).
Proof.
  intros (Ha & Hm & Hv & Hf & Hb & Ht) Hlt Hroom Hset.
  unfold cmd_rep. simpl. rewrite flat_snoc, !zlen_app, !zlen_cons, !(zlen_nil (A:=Z)), (zlen_nil (A:=list Z)).
  split_and!; [lia|lia|unfold zlen; rewrite (zset_length _ _ _ _ Hset); exact Hv|lia| |].
  - do 2 f_equal. lia.
  - rewrite offsets_app, map_app, <- Ht. unfold zlen in Hset.
    unfold zset in Hset. case_match eqn:Hr; [|done]. injection Hset as <-.
    rewrite length_app. simpl. unfold zlen in *. rewrite Nat2Z.id in *.
    rewrite Nat.add_1_r, (take_S_r _ _ (Some (0 + Z.of_nat (length (flat ts))))).
    + by rewrite take_insert_ge by lia.
    + rewrite list_lookup_insert_eq by lia. by rewrite Z.add_0_l.
Qed.

#[local] Ltac tbuf :=
  unfold TOKEN_BUFFER_SIZE, CMD_INPUT_BUFFER_SIZE, MAX_CONSOLE_INPUT, MAX_TOKENS in *; lia.

(** One token: the pointer is recorded, the characters and the NUL are copied. *)
Lemma wp_add_token p (k : list Z -> Z -> M cmd_t unit) (Q : unit -> cmd_t -> Prop) junk l t b s ts :
  p 0 = false -> span p l = (t, b) -> cmd_rep s ts -> zlen ts < MAX_TOKENS ->
  zlen (flat ts) + zlen t + 1 <= TOKEN_BUFFER_SIZE ->
  (forall s', cmd_rep s' (ts ++ [t]) ->
     wp (k (b ++ 0 :: junk) (zlen (flat ts) + zlen t)) Q s') ->
  wp (new_token (zlen (flat ts)) ;;
      let* (text, out) := copy_while p (l ++ 0 :: junk) (zlen (flat ts)) in
      store_token out 0 ;; k text out) Q s.
Proof.
  intros Hp0 Hs Hrep Hlt Hroom HQ. pose proof Hrep as (Ha & Hm & Hv & Hf & Hb & Ht).
  pose proof (zlen_nonneg ts). pose proof (zlen_nonneg t).
  destruct (zset (cmd_argv s) (zlen ts) (Some (zlen (flat ts)))) as [v|] eqn:Hset;
    [|rewrite zset_some in Hset by (rewrite Hv; lia); done].
  unfold new_token. wp_steps. rewrite Ha. eapply wp_lift; [exact Hset|]. wp_steps.
  eapply (wp_copy_while p _ junk l t b _ (flat ts)); [done|done|exact Hb|unfold zlen in *; lia|].
  wp_step. rewrite <- zlen_app.
  eapply wp_store_token; [reflexivity|unfold zlen in *; lia|]. rewrite zlen_app. apply HQ.
  pose proof (cmd_rep_add s ts t v Hrep Hlt Hroom Hset) as Hnew.
  unfold set_token_buffer, set_argc, set_argv in *. simpl.
  rewrite <- !app_assoc. rewrite <- app_assoc, <- (app_assoc t) in Hnew.
  replace (Z.to_nat (TOKEN_BUFFER_SIZE - zlen (flat ts)) - length t - 1)%nat
    with (Z.to_nat (TOKEN_BUFFER_SIZE - zlen (flat ts) - zlen t - 1)) by (unfold zlen; lia).
  exact Hnew.
Qed.

Lemma span_ext p q l : Forall (fun c => p c = q c) l -> span p l = span q l.
Proof. induction 1 as [|c l Hc _ IH]; simpl; [done|]. by rewrite Hc, IH. Qed.

Lemma in_quote_cstring l : cstring l -> span in_quote l = span (fun c => negb (c =? 34)) l.
Proof.
  intros Hl. apply span_ext. eapply List.Forall_impl; [|exact Hl]. intros c Hc. simpl in *.
  unfold in_quote. rewrite (proj2 (Z.eqb_neq c 0)) by lia. by rewrite andb_true_r.
Qed.

(** The two comment checks at the head of a round. *)
Lemma wp_comment l junk s (k : M cmd_t unit) (Q : unit -> cmd_t -> Prop) :
  cstring l ->
  (comment l = true -> Q tt s) -> (comment l = false -> wp k Q s) ->
  wp (let* c0 := lift (zget (l ++ 0 :: junk) 0) in
      let* c1 := (if c0 =? ch "/" then lift (zget (l ++ 0 :: junk) 1) else ret 0) in
      if (c0 =? ch "/") && (c1 =? ch "/") then ret tt
      else if c0 =? ch "#" then ret tt else k) Q s.
Proof.
  intros Hl Ht Hf. wp_step.
  destruct l as [|c0 l]; simpl; (eapply wp_lift; [reflexivity|]); wp_step.
  { apply wp_ret. simpl. by apply Hf. }
  inversion Hl as [|? ? Hc0 Hl']; subst. destruct (Z.eqb_spec c0 47) as [->|Hn].
  - destruct l as [|c1 l]; simpl; (eapply wp_lift; [reflexivity|]); cbn beta.
    { simpl. by apply Hf. }
    destruct (Z.eqb_spec c1 47) as [->|Hn1]; simpl.
    + apply wp_ret. by apply Ht.
    + apply Hf. unfold comment. repeat case_match; simplify_eq; done.
  - apply wp_ret. simpl. destruct (Z.eqb_spec c0 35) as [->|Hn1].
    + apply wp_ret. by apply Ht.
    + apply Hf. unfold comment. repeat case_match; simplify_eq; done.
Qed.

Lemma cstring_app a b : cstring (a ++ b) -> cstring a /\ cstring b.
Proof. apply Forall_app. Qed.

Lemma wp_tokenize_loop n junk : forall l s ts,
  cstring l -> cmd_rep s ts -> zlen ts + Z.of_nat n = MAX_TOKENS ->
  zlen (flat ts) - zlen ts + zlen l <= CMD_INPUT_BUFFER_SIZE ->
  wp (tokenize_loop (S n) (l ++ 0 :: junk) (zlen (flat ts)))
    (fun _ s' => cmd_rep s' (ts ++ tokens n l)) s.
Proof.
  induction n as [|n IH]; intros l s ts Hl Hrep Hn Hroom; cbn [tokenize_loop];
    unfold cmd_Argc; wp_steps; pose proof Hrep as (Ha & _); rewrite Ha.
  { simpl. rewrite app_nil_r. replace (zlen ts =? MAX_TOKENS) with true by lia. by apply wp_ret. }
  replace (zlen ts =? MAX_TOKENS) with false by (symmetry; apply Z.eqb_neq; lia).
  apply wp_comment; [done| |]; intros Hcom; cbn [tokens]; rewrite Hcom.
  { by rewrite app_nil_r. }
  wp_step. eapply wp_lift; [apply skip_spaces_spec|]. wp_step.
  destruct (drop_spaces_suffix l) as [sp Hsp].
  assert (Hl' : cstring (drop_spaces l)) by (rewrite Hsp in Hl; by apply cstring_app in Hl as [_ ?]).
  assert (Hlen : zlen (drop_spaces l) <= zlen l)
    by (rewrite Hsp at 2; rewrite zlen_app; pose proof (zlen_nonneg sp); lia).
  clear Hsp. destruct (drop_spaces l) as [|c r] eqn:Hd; (eapply wp_lift; [reflexivity|]); cbn beta.
  { simpl. rewrite app_nil_r. by apply wp_ret. }
  inversion Hl' as [|? ? Hc Hr]; subst. unfold MAX_TOKENS, CMD_INPUT_BUFFER_SIZE, MAX_CONSOLE_INPUT in *.
  destruct (Z.eqb_spec c 10) as [->|H10]; [simpl; rewrite app_nil_r; by apply wp_ret|].
  destruct (Z.eqb_spec c 13) as [->|H13]; [simpl; rewrite app_nil_r; by apply wp_ret|].
  destruct (Z.eqb_spec c 0) as [->|H0]; [lia|]. cbn [orb].
  rewrite zlen_cons in Hlen.
  assert (Hnext : forall t rest s', cmd_rep s' (ts ++ [t]) -> cstring rest -> zlen t + zlen rest <= zlen l ->
    wp (tokenize_loop (S n) (rest ++ 0 :: junk) (zlen (flat ts) + zlen t + 1))
      (fun _ s'' => cmd_rep s'' (ts ++ t :: tokens n rest)) s').
  { intros t rest s' Hr' Hc' Hz. assert (Hfl : zlen (flat (ts ++ [t])) = zlen (flat ts) + zlen t + 1)
      by (rewrite flat_snoc, !zlen_app; change (zlen [0]) with 1; lia).
    rewrite <- Hfl. replace (ts ++ t :: tokens n rest) with ((ts ++ [t]) ++ tokens n rest) by by rewrite <- app_assoc.
    apply IH; [done|done| |];
      rewrite ?Hfl, zlen_app; change (zlen [t]) with 1; lia. }
  unfold MAX_TOKENS, TOKEN_BUFFER_SIZE, CMD_INPUT_BUFFER_SIZE, MAX_CONSOLE_INPUT in *.
  clear IH. destruct (Z.eqb_spec c 34) as [->|H34].
  - cbn [tail app list.tail]. pose proof (in_quote_cstring r Hr) as Heq.
    destruct (span (fun c => negb (c =? 34)) r) as [t b] eqn:Hspan.
    pose proof (span_app _ _ _ _ Hspan) as ->. rewrite zlen_app in Hlen.
    apply cstring_app in Hr as [Ht Hb]. pose proof (zlen_nonneg b).
    eapply (wp_add_token in_quote); [done|exact Heq|done|unfold MAX_TOKENS; lia|tbuf|].
    intros s' Hrep'. wp_step.
    destruct b as [|d b]; simpl; (eapply wp_lift; [reflexivity|]); cbn beta; [by apply wp_ret|].
    inversion Hb as [|? ? Hd' Hb']; subst. rewrite (proj2 (Z.eqb_neq d 0)) by lia.
    rewrite zlen_cons in Hlen. apply Hnext; [done|done|lia].
  - destruct (span in_word (c :: r)) as [t b] eqn:Hspan.
    pose proof (span_app _ _ _ _ Hspan) as Hcr. rewrite Hcr in Hl'.
    apply cstring_app in Hl' as [Ht Hb]. pose proof (zlen_nonneg b).
    assert (Hl2 : zlen t + zlen b <= zlen l) by (rewrite <- zlen_app, <- Hcr, zlen_cons; lia).
    eapply (wp_add_token in_word); [by unfold in_word, chr; destruct char_signed|exact Hspan|done|unfold MAX_TOKENS; lia|tbuf|].
    intros s' Hrep'. wp_step.
    destruct b as [|d b]; simpl; (eapply wp_lift; [reflexivity|]); cbn beta; [by apply wp_ret|].
    inversion Hb as [|? ? Hd' Hb']; subst. rewrite (proj2 (Z.eqb_neq d 0)) by lia.
    change (d :: b ++ 0 :: junk) with ((d :: b) ++ 0 :: junk). by apply Hnext.
Qed.
End Reference.

(** ** What the commands see *)

Section Arguments.
Context `{T : Target}.

Lemma cstring_tokens n : forall l, cstring l -> Forall cstring (tokens n l).
Proof.
  induction n as [|n IH]; intros l Hl; cbn [tokens]; [constructor|].
  destruct (comment l); [constructor|]. destruct (drop_spaces_suffix l) as [sp Hsp].
  assert (Hd : cstring (drop_spaces l)) by (rewrite Hsp in Hl; by apply cstring_app in Hl as [_ ?]).
  destruct (drop_spaces l) as [|c r]; [constructor|].
  destruct ((c =? 10) || (c =? 13)); [constructor|]. destruct (c =? 34).
  - destruct (span _ r) as [t rest] eqn:Hs. inversion Hd as [|? ? _ Hr]; subst.
    pose proof (span_app _ _ _ _ Hs) as ->. apply cstring_app in Hr as [Ht Hr].
    constructor; [done|]. destruct rest as [|d rest]; [constructor|].
    inversion Hr; subst. by apply IH.
  - destruct (span in_word (c :: r)) as [t rest] eqn:Hs.
    pose proof (span_app _ _ _ _ Hs) as Hcr. rewrite Hcr in Hd. apply cstring_app in Hd as [Ht Hr].
    constructor; [done|]. destruct rest as [|d rest]; [constructor|]. by apply IH.
Qed.

Lemma cstr_app t rest : cstring t -> cstr (t ++ 0 :: rest) = Some t.
Proof.
  induction 1 as [|c t Hc Ht IH]; simpl; [done|].
  rewrite (proj2 (Z.eqb_neq c 0)) by lia. by rewrite IH.
Qed.

Lemma offsets_lookup ts : forall o i t, ts !! i = Some t ->
  offsets o ts !! i = Some (o + zlen (flat (take i ts))).
Proof.
  induction ts as [|u ts IH]; intros o i t; [done|].
  destruct i as [|i]; simpl.
  - intros _. unfold flat. simpl. by rewrite zlen_nil, Z.add_0_r.
  - intros Ht. rewrite (IH _ _ _ Ht). f_equal. change (flat (u :: take i ts)) with (cz u ++ flat (take i ts)).
    unfold cz. rewrite !zlen_app. change (zlen [0]) with 1. lia.
Qed.

Lemma flat_drop ts i t junk : ts !! i = Some t ->
  drop (length (flat (take i ts))) (flat ts ++ junk) = t ++ 0 :: (flat (drop (S i) ts) ++ junk).
Proof.
  intros Ht. rewrite <- (take_drop_middle ts i t Ht) at 2.
  rewrite flat_app, <- app_assoc, drop_app_length.
  change (flat (t :: drop (S i) ts)) with (cz t ++ flat (drop (S i) ts)).
  unfold cz. by rewrite <- !app_assoc.
Qed.

(** [cmd_Argv(i)] is token [i], and the empty string past the last one. *)
Lemma wp_cmd_arg c ts i (Q : list Z -> cmd_t -> Prop) :
  cmd_rep c ts -> Forall cstring ts -> 0 <= i -> Q (nth (Z.to_nat i) ts []) c ->
  wp (cmd_arg i) Q c.
Proof.
  intros (Ha & Hm & Hv & Hf & Hb & Ht) Hts Hi HQ. unfold cmd_arg, cmd_Argv. wp_steps. rewrite Ha.
  destruct ((zlen ts =? 0) || (zlen ts <=? i)) eqn:Hout.
  - wp_steps. simpl. wp_steps. rewrite nth_overflow in HQ; [done|]. unfold zlen in Hout. lia.
  - apply orb_false_iff in Hout as [Hz Hlt]. apply Z.leb_gt in Hlt. unfold zlen in *.
    destruct (lookup_lt_is_Some_2 ts (Z.to_nat i)) as [t Hti]; [lia|].
    assert (Hg : zget (cmd_argv c) i = Some (Some (zlen (flat (take (Z.to_nat i) ts))))).
    { unfold zget. case_match; [lia|]. rewrite <- (take_drop (length ts) (cmd_argv c)), Ht.
      rewrite lookup_app_l by (rewrite length_map, <- (length_map Some), <- Ht, length_take; lia).
      rewrite list_lookup_fmap, (offsets_lookup ts 0 _ t Hti). simpl. by rewrite Z.add_0_l. }
    wp_step. eapply wp_lift; [exact Hg|]. wp_steps. simpl. wp_steps.
    rewrite (proj2 (Z.ltb_ge _ 0)) by apply zlen_nonneg.
    unfold zlen. rewrite Nat2Z.id, Hb, (flat_drop _ _ _ _ Hti).
    eapply wp_lift; [apply cstr_app; by eapply Forall_lookup_1|].
    by rewrite (nth_lookup_Some _ _ [] _ Hti) in HQ.
Qed.

Lemma wp_cmd_tokenize l junk c (Q : unit -> cmd_t -> Prop) :
  cstring l -> zlen l <= CMD_INPUT_BUFFER_SIZE -> zlen (cmd_argv c) = MAX_TOKENS ->
  (forall c', cmd_rep c' (tokens (Z.to_nat MAX_TOKENS) l) -> Q tt c') ->
  wp (cmd_tokenize (Some (l ++ 0 :: junk))) Q c.
Proof.
  intros Hl Hlen Hv HQ. unfold cmd_tokenize. wp_steps.
  eapply wp_mono; [|apply (wp_tokenize_loop (Z.to_nat MAX_TOKENS) junk l _ [])]; try done.
  intros [] c' Hc'. by apply HQ.
Qed.

(** C10: on every line of at most 128 characters the tokenizer stays inside its
    buffers, ends after at most 17 rounds, and leaves in [cmd_Argc]/[cmd_Argv]
    exactly the tokens of the reference tokenizer (quotes, comments, line ends,
    at most 16 tokens); arguments past the last are the empty string. *)
Theorem cmd_tokenize_correct l junk c :
  cstring l -> zlen l <= CMD_INPUT_BUFFER_SIZE -> zlen (cmd_argv c) = MAX_TOKENS ->
  wp (cmd_tokenize (Some (l ++ 0 :: junk)))
    (fun _ c' => cmd_argc c' = zlen (tokens 16 l) /\
       forall i, 0 <= i ->
         wp (cmd_arg i) (fun s c'' => s = nth (Z.to_nat i) (tokens 16 l) [] /\ c'' = c') c') c.
Proof.
  intros Hl Hlen Hv. apply wp_cmd_tokenize; [done|done|done|]. intros c' Hc'.
  split; [apply Hc'|]. intros i Hi. eapply wp_cmd_arg; [done|by apply cstring_tokens|done|done].
Qed.

(** ** Words *)

(** A word the user can type without quotes. *)
Definition word (w : list Z) : Prop :=
  w <> [] /\ Forall (fun c => 32 < c < 127) w /\ hd 0 w <> 34.

Fixpoint join (ws : list (list Z)) : list Z :=
  match ws with
  | [] => []
  | [w] => w
  | w :: ws => w ++ 32 :: join ws
  end.

Lemma span_all p a b : Forall (fun c => p c = true) a ->
  match b with [] => True | c :: _ => p c = false end -> span p (a ++ b) = (a, b).
Proof.
  intros Ha Hb. induction Ha as [|c a Hc Ha IH]; simpl.
  - destruct b; simpl; [done|]. by rewrite Hb.
  - by rewrite Hc, IH.
Qed.

Lemma word_in_word w : Forall (fun c => 32 < c < 127) w -> Forall (fun c => in_word c = true) w.
Proof.
  intros Hw. eapply List.Forall_impl; [|exact Hw]. intros c Hc. unfold in_word. simpl in Hc.
  rewrite chr_ascii by lia. lia.
Qed.

(** Behind a word the next round starts at the space, which hides comments. *)
Lemma tokens_word n w rest :
  word w -> comment (w ++ rest) = false ->
  match rest with [] => True | c :: _ => c = 32 end ->
  tokens (S n) (w ++ rest) = w :: match rest with [] => [] | _ => tokens n rest end.
Proof.
  intros (Hne & Hw & Hq) Hcom Hr. cbn [tokens]. rewrite Hcom.
  destruct w as [|c w]; [done|]. inversion Hw as [|? ? Hc _]; subst. simpl in Hq.
  assert (Hds : drop_spaces ((c :: w) ++ rest) = (c :: w) ++ rest)
    by (cbn [app drop_spaces]; by rewrite (proj2 (Z.eqb_neq c 32)) by lia).
  rewrite Hds. cbn [app]. rewrite (proj2 (Z.eqb_neq c 10)), (proj2 (Z.eqb_neq c 13)), (proj2 (Z.eqb_neq c 34)) by lia.
  change (c :: w ++ rest) with ((c :: w) ++ rest). cbn [orb].
  rewrite (span_all in_word (c :: w) rest); [done|by apply word_in_word|].
  destruct rest as [|d rest]; [done|]. subst d. unfold in_word. by rewrite chr_ascii by lia.
Qed.

Lemma tokens_space n l : comment l = false -> tokens n (32 :: l) = tokens n l.
Proof. intros Hl. destruct n; [done|]. cbn [tokens]. rewrite Hl. done. Qed.

Lemma tokens_space_word n ws : Forall word ws -> (length ws <= n)%nat ->
  match ws with [] => True | _ => tokens n (32 :: join ws) = ws end.
Proof.
  revert n. induction ws as [|w ws IH]; intros n Hws Hn; [done|].
  inversion Hws as [|? ? Hw Hws']; subst. destruct n as [|n]; simpl in Hn; [lia|].
  pose proof Hw as (Hne & Hch & Hq). destruct w as [|c w]; [done|]. simpl in Hq.
  inversion Hch as [|? ? Hc _]; subst.
  assert (Hone : forall rest, match rest with [] => True | d :: _ => d = 32 end ->
    tokens (S n) (32 :: (c :: w) ++ rest) = (c :: w) :: match rest with [] => [] | _ => tokens n rest end).
  { intros rest Hr. cbn [tokens comment]. cbn [app drop_spaces].
    rewrite (proj2 (Z.eqb_neq c 32)) by lia. change (32 =? 32) with true. cbn iota.
    rewrite (proj2 (Z.eqb_neq c 10)), (proj2 (Z.eqb_neq c 13)), (proj2 (Z.eqb_neq c 34)) by lia.
    change (c :: w ++ rest) with ((c :: w) ++ rest). cbn [orb].
    rewrite (span_all in_word (c :: w) rest); [done|by apply word_in_word|].
    destruct rest as [|d rest]; [done|]. subst d. unfold in_word. by rewrite chr_ascii by lia. }
  destruct ws as [|w2 ws].
  - simpl join. rewrite <- (app_nil_r (c :: w)) at 1. by apply Hone.
  - change (join ((c :: w) :: w2 :: ws)) with ((c :: w) ++ 32 :: join (w2 :: ws)).
    rewrite Hone by done. f_equal. apply (IH n); [done|simpl in *; lia].
Qed.

Lemma tokens_join ws : Forall word ws -> (length ws <= 16)%nat -> comment (join ws) = false ->
  tokens 16 (join ws) = ws.
Proof.
  intros Hws Hn Hcom. destruct ws as [|w ws]; [done|]. inversion Hws as [|? ? Hw Hws']; subst.
  destruct ws as [|w2 ws].
  - simpl join in *. rewrite <- (app_nil_r w) in Hcom |- *. rewrite tokens_word by done.
    by rewrite app_nil_r.
  - change (join (w :: w2 :: ws)) with (w ++ 32 :: join (w2 :: ws)) in *.
    rewrite tokens_word by done. f_equal. apply (tokens_space_word 15 (w2 :: ws)); [done|simpl in *; lia].
Qed.
End Arguments.

Section Typed.
Context `{T : Target}.

Lemma cstring_word w : word w -> cstring w.
Proof. intros (_ & Hw & _). eapply List.Forall_impl; [|exact Hw]. simpl. lia. Qed.

Lemma cstring_join ws : Forall word ws -> cstring (join ws).
Proof.
  induction 1 as [|w ws Hw Hws IH]; [constructor|]. destruct ws as [|w2 ws]; [by apply cstring_word|].
  change (join (w :: w2 :: ws)) with (w ++ 32 :: join (w2 :: ws)).
  apply Forall_app. split; [by apply cstring_word|]. constructor; [lia|done].
Qed.

(** What is typed is what the commands get: a console line that consists of
    at most 16 words joined by single spaces (and is not full) is split into
    exactly these words.  A word may start with a comment mark unless it is the
    first one: the comment checks of the code look only at the start of a round,
    before the spaces are skipped, so after a space they find nothing. *)
Theorem typed_words_are_arguments con locked ws c :
  Forall word ws -> (length ws <= 16)%nat -> comment (join ws) = false ->
  con_rep con (locked, join ws) -> zlen (join ws) < MAX_CONSOLE_INPUT ->
  zlen (cmd_argv c) = MAX_TOKENS ->
  wp (cmd_tokenize (Some (con_input con)))
    (fun _ c' => cmd_argc c' = zlen ws /\
       forall i w, ws !! i = Some w ->
         wp (cmd_arg (Z.of_nat i)) (fun s _ => s = w) c') c.
Proof.
  intros Hws Hn Hcom (_ & _ & _ & _ & Hin) Hlen Hv. simpl in Hin.
  replace (Z.to_nat (MAX_CONSOLE_INPUT - zlen (join ws)))
    with (S (Z.to_nat (MAX_CONSOLE_INPUT - zlen (join ws) - 1))) in Hin by lia.
  rewrite Hin. simpl repeat. pose proof (cstring_join ws Hws) as Hc.
  apply wp_cmd_tokenize; [done|unfold CMD_INPUT_BUFFER_SIZE; lia|done|]. intros c' Hc'.
  split; [change (Z.to_nat MAX_TOKENS) with 16%nat in Hc'; rewrite tokens_join in Hc' by done; apply Hc'|].
  intros i w Hi. eapply wp_cmd_arg; [done|by apply cstring_tokens|lia|].
  change (Z.to_nat MAX_TOKENS) with 16%nat. rewrite tokens_join by done. rewrite Nat2Z.id.
  by apply nth_lookup_Some.
Qed.

(** The comparison that selects a command accepts the first token exactly
    when it is the command's name: neither abbreviations nor longer words match,
    and no byte behind either string is read. *)
Theorem cmd_match_exact name arg :
  cstring name -> cstring arg -> cmd_match name arg = Some (bool_decide (name = arg)).
Proof.
  intros Hn Ha. unfold cmd_match, memcmp_eq, zlen. rewrite !Nat2Z.id.
  destruct (memcmp_prefix name arg Hn Ha) as (r & Hr & Hp). rewrite Hr. cbn [fmap option_fmap option_map].
  destruct (memcmp_prefix arg name Ha Hn) as (r' & Hr' & Hp').
  rewrite (memcmp_opp (cz name) (cz arg)), Hr'. cbn [fmap option_fmap option_map].
  destruct (Z.eqb_spec r 0) as [H0|H0].
  - apply Hp in H0. f_equal. destruct (Z.eqb_spec (- r') 0) as [H1|H1].
    + assert (name `prefix_of` arg) by (apply Hp'; lia).
      symmetry. apply bool_decide_true. by apply (anti_symm prefix).
    + symmetry. apply bool_decide_false. intros ->. apply H1. rewrite (proj2 Hp'); [done|reflexivity].
  - f_equal. symmetry. apply bool_decide_false. intros ->. apply H0, Hp. reflexivity.
Qed.
End Typed.

Definition con_typed (l : list Z) : con_t :=
  Con 1 (zlen l) (l ++ repeat 0 (Z.to_nat (MAX_CONSOLE_INPUT - zlen l))).

Lemma cmd_tokenize_correct_witness :
  wp (@cmd_tokenize linux_target (Some (&"svol up" ++ 0 :: [])))
    (fun _ c' => cmd_argc c' = 2 /\ forall i, 0 <= i ->
         wp (cmd_arg i) (fun s c'' => s = nth (Z.to_nat i) [&"svol"; &"up"] [] /\ c'' = c') c') cmd_zero.
Proof.
  apply (@cmd_tokenize_correct linux_target &"svol up" [] cmd_zero).
  - repeat constructor.
  - vm_compute. discriminate.
  - reflexivity.
Defined.

Lemma typed_words_are_arguments_witness :
  wp (@cmd_tokenize linux_target (Some (con_input (con_typed &"play //x"))))
    (fun _ c' => cmd_argc c' = 2 /\ forall i w, [&"play"; &"//x"] !! i = Some w ->
         wp (cmd_arg (Z.of_nat i)) (fun s _ => s = w) c') cmd_zero.
Proof.
  apply (@typed_words_are_arguments linux_target (con_typed &"play //x") true [&"play"; &"//x"] cmd_zero).
  - repeat constructor; discriminate.
  - simpl. lia.
  - reflexivity.
  - unfold con_rep. simpl. split_and!; try done. repeat constructor; discriminate.
  - reflexivity.
  - reflexivity.
Defined.

Lemma cmd_match_exact_witness : cmd_match &"net" &"ne" = Some (bool_decide (&"net" = &"ne")).
Proof. apply (cmd_match_exact &"net" &"ne"); repeat constructor. Defined.
