(* ===== verification/HostShared.v ===== *)
(** * What the drivers of both hosts share

    linux/sound.c and stm32/sound.c have the same test for bogus frames and scale the samples of a block of
    the output ring alike; linux/net.c and stm32/net.c send the same request and search the response for the
    same text. *)

From S2P Require Import Prelude Strings Libc Snd IoBuffer Cmd.

(** ** Blocks of sound *)

Definition bogus_frame (buff : output_s) : bool :=
  (rate_code (out_rate buff) =? 0) || (out_channels buff =? 0) || (out_size buff =? 0).

(** A block with a rate, channels and not more bytes in use than it has. *)
Definition playable (b : output_s) : Prop :=
  bogus_frame b = false /\ (Z.to_nat (out_used b / 2) <= length (samples_of_bytes (out_data b)))%nat.

(** The samples of a block at a volume: those in use are scaled. *)
Definition scaled (volume : Z) (b : output_s) : list Z :=
  let n := Z.to_nat (out_used b / 2) in
  let l := samples_of_bytes (out_data b) in
  map (apply_volume volume) (take n l) ++ drop n l.

Lemma pcm_apply_playable v b : playable b ->
  pcm_apply_volume (Some (samples_of_bytes (out_data b))) (Z.to_nat (out_used b / 2)) v = Some (scaled v b).
Proof.
  intros [_ Hn]. unfold pcm_apply_volume, scaled. destruct (_ =? 0)%nat eqn:Hz.
  - apply Nat.eqb_eq in Hz. rewrite Hz. by rewrite take_0, drop_0.
  - by rewrite (proj2 (Nat.leb_le _ _) Hn).
Qed.

Lemma o_used_queue io qi qo : queues io qi qo -> io_used (io_o io) = zlen qo.
Proof.
  intros ((_ & _ & Ho & Hol) & _ & Hqo). rewrite io_used_ok by done. rewrite <- Hqo. symmetry. by apply pending_length.
Qed.

Lemma i_free_queue io qi qo : queues io qi qo -> io_free (io_i io) = max_buffers (io_i io) - zlen qi.
Proof.
  intros ((Hi & Hil & _) & Hqi & _). rewrite io_free_ok by done. rewrite <- Hqi.
  unfold i_queue. by rewrite pending_length.
Qed.

(** ** The HTTP request *)

(** [uc_strstr(buf, needle) != NULL] in an array: the search must end before the
    array does. *)
Definition strstr_in (buf needle : list Z) : option bool :=
  match cstr buf with
  | Some s => Some (strstr_found s needle)
  | None => if strstr_found buf needle then Some true else None
  end.

Definition HTTP_REQUEST : list Z :=
  &"GET %s HTTP/1.0\r\nPragma: no-cache\r\nHost: %s\r\nUser-Agent: xmms/1.2.7\r\nAccept: * / *\r\n\r\n".

Section Request.
Context `{T : Target}.

(** [xsprintf(httprequest, ...)]: the text and its NUL must fit the array. *)
Definition request_text {S} (size : Z) (filename hostname : list Z) : M S (list Z) := fun h =>
  match sprintf_bytes HTTP_REQUEST [AStr filename; AStr hostname] with
  | Done text => if zlen text <? size then Done (text, h, []) else Fault
  | Fault => Fault
  | NoFuel => NoFuel
  end.
End Request.

(** ** The text of the request *)

(** Text of a console line: no control characters. *)
Definition printable (s : list Z) : Prop := Forall (fun c => 32 <= c < 256) s.

Lemma put_string_plain p : put_string false 0 p = p.
Proof.
  unfold put_string. pose proof (zlen_nonneg p). unfold pad_left, pad_right.
  replace (Z.to_nat (0 - zlen p)) with O by lia.
  replace (Z.to_nat (0 - (Z.max (zlen p) 0 + 1))) with O by lia. apply app_nil_r.
Qed.

Lemma xputc_printable p : printable p -> flat_map xputc_bytes p = p.
Proof.
  induction 1 as [|c p Hc Hp IH]; [done|]. cbn [flat_map]. rewrite IH. unfold xputc_bytes.
  rewrite (proj2 (Z.eqb_neq c 10)), u8_id by lia. done.
Qed.

(** What goes over the wire for a file and a host. *)
Definition http_text (filename hostname : list Z) : list Z :=
  &"GET " ++ filename ++ &" HTTP/1.0\r\r\nPragma: no-cache\r\r\nHost: " ++ hostname ++
  &"\r\r\nUser-Agent: xmms/1.2.7\r\r\nAccept: * / *\r\r\n\r\r\n".

Section Text.
Context `{T : Target}.

Lemma http_format f h : xvprintf HTTP_REQUEST [AStr f; AStr h] =
  Done (&"GET " ++ f ++ &" HTTP/1.0\r\nPragma: no-cache\r\nHost: " ++ h ++
    &"\r\nUser-Agent: xmms/1.2.7\r\nAccept: * / *\r\n\r\n").
Proof.
  rewrite <- (put_string_plain f) at 2. rewrite <- (put_string_plain h) at 2. destruct T as [[] l]; reflexivity.
Qed.

(** The length of the request without its two parts. *)
Definition HTTP_FIXED : Z := Eval vm_compute in zlen (http_text [] []).

Lemma zlen_http f h : zlen (http_text f h) = HTTP_FIXED + zlen f + zlen h.
Proof.
  assert (Hz : zlen (http_text [] []) = HTTP_FIXED) by reflexivity. rewrite <- Hz. unfold http_text.
  rewrite !zlen_app, !zlen_nil. lia.
Qed.

(** The request that is sent names the file and the host of the URL, whenever
    both fit the buffer together with the fixed text.  Its lines end with CR CR LF: the format has CR LF,
    and the formatter puts another CR before each line feed. *)
Theorem http_request_text {S} (s : S) size filename hostname :
  printable filename -> printable hostname -> HTTP_FIXED + zlen filename + zlen hostname < size ->
  request_text size filename hostname s = Done (http_text filename hostname, s, []).
Proof.
  intros Hf Hh Hlt. unfold request_text, sprintf_bytes. rewrite http_format.
  assert (Ht : flat_map xputc_bytes (&"GET " ++ filename ++ &" HTTP/1.0\r\nPragma: no-cache\r\nHost: " ++ hostname ++
    &"\r\nUser-Agent: xmms/1.2.7\r\nAccept: * / *\r\n\r\n") = http_text filename hostname).
  { rewrite !flat_map_app, (xputc_printable filename), (xputc_printable hostname) by done. done. }
  rewrite Ht, zlen_http. by rewrite (proj2 (Z.ltb_lt _ _) Hlt).
Qed.
End Text.

Lemma http_request_text_witness :
  @request_text linux_target unit 1024 &"/radio.mp3" &"10.0.0.1" tt = Done (http_text &"/radio.mp3" &"10.0.0.1", tt, []).
Proof.
  refine (@http_request_text linux_target unit tt 1024 &"/radio.mp3" &"10.0.0.1" _ _ _); [unfold printable; repeat constructor; lia..|reflexivity].
Defined.
