(* ===== verification/Id3tag.v ===== *)
(** * libs/id3tag/id3tag.c: recognizing ID3 tags

    [data] is the list of the bytes that may be read; a read behind it is
    undefined behaviour ([None]).  The pointer the parsers advance is an index. *)

From S2P Require Import Prelude.

Inductive tag_type : Type := TAG_NONE | TAG_ID3V1 | TAG_ID3V2 | TAG_ID3V2_FOOTER.

Definition ID3_TAG_FLAG_FOOTERPRESENT : Z := 16.

(** Conditions whose operands may be undefined, with C's evaluation order. *)
Definition oand (a b : option bool) : option bool :=
  match a with Some true => b | _ => a end.
Definition oor (a b : option bool) : option bool :=
  match a with Some false => b | _ => a end.

Definition byte_is (data : list Z) (i v : Z) : option bool := (fun b => b =? v) <$> zget data i.
Definition byte_lt (data : list Z) (i v : Z) : option bool := (fun b => b <? v) <$> zget data i.

(** [value = (value << sh) | ( *( *ptr)++ & mask)] *)
Definition parse_step (data : list Z) (sh mask : Z) (st : option (Z * Z)) : option (Z * Z) :=
  match st with
  | None => None
  | Some (value, p) =>
      match zget data p with
      | None => None
      | Some b => Some (Z.lor (u32 (Z.shiftl value sh)) (Z.land b mask), p + 1)
      end
  end.

(** The cases of both parsers fall through. *)
Definition parse_uint (data : list Z) (ptr bytes : Z) : option (Z * Z) :=
  let step := parse_step data 8 255 in
  if bytes =? 4 then step (step (step (step (Some (0, ptr)))))
  else if bytes =? 3 then step (step (step (Some (0, ptr))))
  else if bytes =? 2 then step (step (Some (0, ptr)))
  else if bytes =? 1 then step (Some (0, ptr))
  else Some (0, ptr).

Definition parse_syncsafe (data : list Z) (ptr bytes : Z) : option (Z * Z) :=
  let step := parse_step data 7 127 in
  if bytes =? 5 then step (step (step (step (parse_step data 4 15 (Some (0, ptr))))))
  else if bytes =? 4 then step (step (step (step (Some (0, ptr)))))
  else Some (0, ptr).

Definition tagtype (data : list Z) (length : Z) : option tag_type :=
  let has := byte_is data in
  let below := byte_lt data in
  match oand (Some (length >? 3)) (oand (has 0 (ch "T")) (oand (has 1 (ch "A")) (has 2 (ch "G")))) with
  | None => None
  | Some true => Some TAG_ID3V1
  | Some false =>
      match
        oand (Some (length >? 10))
          (oand (oor (oand (has 0 (ch "I")) (oand (has 1 (ch "D")) (has 2 (ch "3"))))
                     (oand (has 0 (ch "3")) (oand (has 1 (ch "D")) (has 2 (ch "I")))))
             (oand (below 3 255) (oand (below 4 255)
                (oand (below 6 128) (oand (below 7 128) (oand (below 8 128) (below 9 128)))))))
      with
      | None => None
      | Some true => (fun b : bool => if b then TAG_ID3V2 else TAG_ID3V2_FOOTER) <$> has 0 (ch "I")
      | Some false => Some TAG_NONE
      end
  end.

(** Version, flags and size. *)
Definition parse_header (data : list Z) (ptr : Z) : option (Z * Z * Z) :=
  match parse_uint data (ptr + 3) 2 with
  | None => None
  | Some (version, ptr) =>
      match parse_uint data ptr 1 with
      | None => None
      | Some (flags, ptr) =>
          match parse_syncsafe data ptr 4 with
          | None => None
          | Some (size, _) => Some (u16 version, s16 flags, size)
          end
      end
  end.

Section Query.
Context `{T : Target}.

Definition id3_tag_query (data : list Z) (length : Z) : option Z :=
  match tagtype data length with
  | None => None
  | Some TAG_ID3V1 => Some 128
  | Some TAG_ID3V2 =>
      match parse_header data 0 with
      | None => None
      | Some (_, flags, size) =>
          let size := if Z.land flags ID3_TAG_FLAG_FOOTERPRESENT =? 0 then size else u32 (size + 10) in
          Some (slong (u32 (10 + size)))
      end
  | Some TAG_ID3V2_FOOTER =>
      match parse_header data 0 with
      | None => None
      | Some (_, _, size) => Some (slong (u32 (u32 (- size) - 10)))
      end
  | Some TAG_NONE => Some 0
  end.
End Query.

(** ** Tags as the ID3v2 format writes them *)

(** A 28-bit number in four bytes of seven bits. *)
Definition syncsafe (n : Z) : list Z :=
  [n / 2097152 mod 128; n / 16384 mod 128; n / 128 mod 128; n mod 128].

Definition id3v2_header (id : list Z) (major minor flags n : Z) : list Z :=
  id ++ [major; minor; flags] ++ syncsafe n.

Lemma land_mask7 d : 0 <= d < 128 -> Z.land d 127 = d.
Proof. intros Hd. change 127 with (Z.ones 7). rewrite Z.land_ones by lia. apply Z.mod_small. lia. Qed.

Lemma land_mask8 d : 0 <= d < 256 -> Z.land d 255 = d.
Proof. intros Hd. change 255 with (Z.ones 8). rewrite Z.land_ones by lia. apply Z.mod_small. lia. Qed.

Lemma parse_step_7 data v p d :
  zget data p = Some d -> 0 <= d < 128 -> 0 <= v -> v * 128 < 4294967296 ->
  parse_step data 7 127 (Some (v, p)) = Some (v * 128 + d, p + 1).
Proof.
  intros Hg Hd Hv Hlt. simpl. rewrite Hg, land_mask7 by done.
  rewrite (shift_in v d 7); [done|done|done|done|done].
Qed.

(** The header parser on an encoded header. *)
Lemma parse_header_encoded i0 i1 i2 major minor flags n rest :
  0 <= major < 256 -> 0 <= minor < 256 -> 0 <= flags < 256 -> 0 <= n < 268435456 ->
  parse_header (i0 :: i1 :: i2 :: major :: minor :: flags :: syncsafe n ++ rest) 0
  = Some (major * 256 + minor, flags, n).
Proof.
  intros Hma Hmi Hf Hn. unfold parse_header, parse_uint, parse_syncsafe.
  set (data := i0 :: _). cbn [Z.eqb Pos.eqb].
  assert (Hstep8 : forall v p d, zget data p = Some d -> 0 <= d < 256 -> 0 <= v -> v * 256 < 4294967296 ->
    parse_step data 8 255 (Some (v, p)) = Some (v * 256 + d, p + 1)).
  { intros v p d Hg Hd Hv Hlt. simpl. rewrite Hg, land_mask8 by done.
    by rewrite (shift_in v d 8). }
  rewrite (Hstep8 0 (0 + 3) major eq_refl) by lia.
  rewrite (Hstep8 _ (0 + 3 + 1) minor eq_refl) by lia.
  rewrite (Hstep8 0 (0 + 3 + 1 + 1) flags eq_refl) by lia.
  assert (H1 : 0 <= n / 2097152 mod 128 < 128) by (clear -Hn; lia).
  assert (H2 : 0 <= n / 16384 mod 128 < 128) by (clear -Hn; lia).
  assert (H3 : 0 <= n / 128 mod 128 < 128) by (clear -Hn; lia).
  assert (H4 : 0 <= n mod 128 < 128) by (clear -Hn; lia).
  rewrite (parse_step_7 data 0 (0 + 3 + 1 + 1 + 1) _ eq_refl H1) by (clear; lia).
  rewrite (parse_step_7 data _ (0 + 3 + 1 + 1 + 1 + 1) _ eq_refl H2) by (clear -Hn H1; lia).
  rewrite (parse_step_7 data _ (0 + 3 + 1 + 1 + 1 + 1 + 1) _ eq_refl H3) by (clear -Hn H1 H2; lia).
  rewrite (parse_step_7 data _ (0 + 3 + 1 + 1 + 1 + 1 + 1 + 1) _ eq_refl H4) by (clear -Hn H1 H2 H3; lia).
  assert (Hv : (((0 * 128 + n / 2097152 mod 128) * 128 + n / 16384 mod 128) * 128 + n / 128 mod 128) * 128
     + n mod 128 = n) by (clear -Hn; lia).
  rewrite Hv. do 3 f_equal; [|wraps; lia]. rewrite u16_id; lia.
Qed.

Lemma tagtype_encoded (foot : bool) major minor flags n rest length :
  0 <= major < 255 -> 0 <= minor < 255 -> 0 <= n < 268435456 -> 10 < length ->
  tagtype (id3v2_header (if foot then &"3DI" else &"ID3") major minor flags n ++ rest) length
  = Some (if foot then TAG_ID3V2_FOOTER else TAG_ID3V2).
Proof.
  intros Hma Hmi Hn Hl. unfold tagtype, id3v2_header, syncsafe.
  replace (length >? 3) with true by lia. replace (length >? 10) with true by lia.
  assert (Hlt : forall d k, 0 <= d < k -> (d <? k) = true) by (intros; lia).
  destruct foot; cbn -[Z.modulo Z.div Z.ltb Z.eqb]; unfold byte_lt, byte_is; simpl fmap.
  all: cbn -[Z.modulo Z.div Z.ltb]; rewrite !Hlt by lia; reflexivity.
Qed.

(** On a buffer that starts with an ID3v2 tag whose 28-bit size field is
    [n], [id3_tag_query] gives the length of the whole tag: the header, the
    [n] bytes announced and, when the flag says so, the footer; on both targets.
    The size survives the syncsafe encoding. *)
Theorem id3_query_length `{Target} major minor flags n rest length :
  0 <= major < 255 -> 0 <= minor < 255 -> 0 <= flags < 256 -> 0 <= n < 268435456 -> 10 < length ->
  id3_tag_query (id3v2_header &"ID3" major minor flags n ++ rest) length
  = Some (10 + n + if Z.testbit flags 4 then 10 else 0).
Proof.
  intros Hma Hmi Hf Hn Hl. unfold id3_tag_query.
  rewrite (tagtype_encoded false) by done. unfold id3v2_header. cbn [app].
  rewrite parse_header_encoded by lia.
  assert (Hbit : (Z.land flags ID3_TAG_FLAG_FOOTERPRESENT =? 0) = negb (Z.testbit flags 4)).
  { unfold ID3_TAG_FLAG_FOOTERPRESENT. change 16 with (2 ^ 4). clear.
    destruct (Z.testbit flags 4) eqn:Hb; simpl.
    - apply Z.eqb_neq. intros H0. assert (Z.testbit (Z.land flags (2 ^ 4)) 4 = false) as Hc by (rewrite H0; done).
      rewrite Z.land_spec, Hb in Hc. done.
    - apply Z.eqb_eq, Z.bits_inj'. intros i Hi. rewrite Z.land_spec, Z.bits_0.
      destruct (Z.eq_dec i 4) as [->|Hne]; [by rewrite Hb|].
      rewrite (Z.pow2_bits_false 4 i) by lia. apply andb_false_r. }
  rewrite Hbit. f_equal. unfold slong. destruct (Z.testbit flags 4); simpl; destruct long64; wraps; lia.
Qed.

(** At a footer, found from behind, the result is meant to be negative (skip
    backwards).  The subtraction is done in [uint32_t]: with a 32-bit [long] the
    conversion gives the negative number, with a 64-bit [long] the caller gets a
    positive number of about 4 billion; the [int] that [libmad_error] stores it
    into is negative again on both. *)
Theorem id3_query_footer `{Target} major minor flags n rest length :
  0 <= major < 255 -> 0 <= minor < 255 -> 0 <= flags < 256 -> 0 <= n < 268435456 -> 10 < length ->
  exists r, id3_tag_query (id3v2_header &"3DI" major minor flags n ++ rest) length = Some r
    /\ r = (if long64 then 4294967296 else 0) - n - 10 /\ s32 r = - n - 10.
Proof.
  intros Hma Hmi Hf Hn Hl. unfold id3_tag_query.
  rewrite (tagtype_encoded true) by done. unfold id3v2_header. cbn [app].
  rewrite parse_header_encoded by lia. eexists. split; [done|].
  unfold slong. destruct long64; wraps; lia.
Qed.

(** Ten readable bytes are enough for the header. *)
Lemma parse_header_some data : 10 <= zlen data -> exists v, parse_header data 0 = Some v.
Proof.
  intros Hl. do 10 (destruct data as [|? data]; [unfold zlen in Hl; simpl in Hl; lia|]).
  unfold parse_header, parse_uint, parse_syncsafe. cbn -[Z.lor Z.land u32 Z.shiftl u16 s16]. eauto.
Qed.

(** The query reads nothing behind the length it is given. *)
Lemma id3_tag_query_safe `{Target} data length :
  length <= zlen data -> exists r, id3_tag_query data length = Some r.
Proof.
  intros Hl. unfold id3_tag_query. destruct (Z.ltb_spec 10 length) as [H10|H10].
  - destruct (parse_header_some data ltac:(lia)) as [[[v f] sz] Hh]. rewrite Hh.
    assert (Ht : exists t, tagtype data length = Some t).
    { clear Hh. do 10 (destruct data as [|? data]; [unfold zlen in Hl; simpl in Hl; lia|]).
      unfold tagtype, byte_is, byte_lt, oand, oor. simpl. repeat case_match; simplify_eq; eauto. }
    destruct Ht as [[] ->]; eauto.
  - unfold tagtype. replace (length >? 10) with false by lia.
    destruct (length >? 3) eqn:H3; [|simpl; eauto].
    do 3 (destruct data as [|? data]; [unfold zlen in Hl; simpl in Hl; lia|]).
    unfold byte_is, oand. simpl. repeat case_match; simplify_eq; eauto.
Qed.

Section Witnesses.
#[local] Existing Instance linux_target.

Lemma id3_query_length_witness :
  id3_tag_query (id3v2_header &"ID3" 3 0 16 1000 ++ []) 64 = Some (10 + 1000 + 10).
Proof. apply (id3_query_length 3 0 16 1000 [] 64); lia. Defined.

Lemma id3_query_footer_witness :
  exists r, id3_tag_query (id3v2_header &"3DI" 3 0 0 1000 ++ []) 64 = Some r
    /\ r = 4294967296 - 1000 - 10 /\ s32 r = - (1000) - 10.
Proof. apply (@id3_query_footer linux_target 3 0 0 1000 [] 64); lia. Defined.
End Witnesses.
