(* ===== verification/Resfs.v ===== *)
(** * common/resfs.c: files compiled into the program

    The table [entries] comes from a generated header; the state holds the table
    (its read positions change) and the number of resources.  A table ends with
    an entry without a name; the table of a build without resources is
    [no_entries]. *)

From S2P Require Import Prelude Libc Strings.

Record rsentry_s : Type := RsEntry {
  rs_name : option (list Z);   (* None is NULL *)
  rs_size : Z;                 (* int32_t *)
  rs_data : list Z;            (* the bytes data points to *)
  rs_addr : Z;                 (* the address data holds *)
  rs_pos : Z                   (* int32_t *)
}.

Record rs_t : Type := Rs { rs_count : Z; entries : list rsentry_s }.

Definition null_entry : rsentry_s := RsEntry None 0 [] 0 0.
Definition no_entries : list rsentry_s := [null_entry; null_entry].

Definition set_pos (p : Z) (e : rsentry_s) : rsentry_s :=
  RsEntry (rs_name e) (rs_size e) (rs_data e) (rs_addr e) p.

Section Ops.
Context `{T : Target} `{C : Config}.

Definition res_debug {S} (fmt : list Z) (args : list arg) : M S unit :=
  when CONFIG_RESOURCES_DEBUG (xprintf fmt args).

(** The loop [for (i = 0; i < rs.count; i++)] over the table from entry [i] on. *)
Fixpoint find_loop (name : list Z) (i : Z) (n : nat) (l : list rsentry_s) : option Z :=
  match n, l with
  | O, _ => Some (-1)
  | S _, [] => None
  | S n', e :: l' =>
      match rs_name e with
      | None => None
      | Some en =>
          match strncmp_l (cz name) (cz en) (length en) with
          | None => None
          | Some r => if r =? 0 then Some (s8 i) else find_loop name (i + 1) n' l'
          end
      end
  end.

Definition res_find_handle (name : option (list Z)) : M rs_t Z :=
  let* s := get in
  match name with
  | None => ret (-1)
  | Some n =>
      if rs_count s =? 0 then ret (-1)
      else lift (find_loop n 0 (Z.to_nat (rs_count s)) (entries s))
  end.

(** [while (entries[i].name != NULL) i++;] *)
Fixpoint count_entries (l : list rsentry_s) : option Z :=
  match l with
  | [] => None
  | e :: l' =>
      match rs_name e with
      | None => Some 0
      | Some _ => (fun n => n + 1) <$> count_entries l'
      end
  end.

Definition res_init : M rs_t unit :=
  res_debug &"res_init: " [] ;;
  modify (fun s => Rs 0 (entries s)) ;;
  let* s := get in
  let* e0 := lift (zget (entries s) 0) in
  match rs_name e0 with
  | None => res_debug &"have no resources.\n" []
  | Some _ =>
      let* n := lift (count_entries (entries s)) in
      put (Rs n (entries s)) ;;
      res_debug &"%d resources found.\n" [AInt n]
  end.

Definition res_done : M rs_t unit := res_debug &"res_done\n" [].

Definition res_open (name : list Z) : M rs_t Z :=
  res_debug &"res_open ('%s'): " [AStr name] ;;
  let* i := res_find_handle (Some name) in
  res_debug &"%d\n" [AInt i] ;;
  ret i.

Definition with_entry (handle : Z) (f : rsentry_s -> rsentry_s) : M rs_t unit :=
  let* s := get in
  let* e := lift (zget (entries s) handle) in
  let* l := lift (zset (entries s) handle (f e)) in
  put (Rs (rs_count s) l).

Definition res_close (handle : Z) : M rs_t unit :=
  res_debug &"res_close (handle = %d)\n" [AInt handle] ;;
  let* s := get in
  if (handle >? rs_count s) || (handle <? 0) then ret tt
  else with_entry handle (set_pos 0).

(** The bytes a [memcpy] of [n] bytes from offset [pos] copies. *)
Definition slice (data : list Z) (pos n : Z) : option (list Z) :=
  if (n <? 0) || (pos <? 0) || (zlen data <? pos + n) then None
  else Some (take (Z.to_nat n) (drop (Z.to_nat pos) data)).

(** An [int] sum; overflow is undefined. *)
Definition int_add (a b : Z) : option Z :=
  if (-2147483648 <=? a + b) && (a + b <=? 2147483647) then Some (a + b) else None.

(** The return value and the bytes stored into a buffer that is not NULL. *)
Definition res_read (handle size : Z) : M rs_t (Z * list Z) :=
  let* s := get in
  if (handle >? rs_count s) || (handle <? 0) then ret (0, [])
  else
    let* e := lift (zget (entries s) handle) in
    let toread := s32 size in
    let* sum := lift (int_add (rs_pos e) toread) in
    let* toread := (if sum >? rs_size e then lift (int_add (rs_size e) (- rs_pos e)) else ret toread) in
    let* data := lift (slice (rs_data e) (rs_pos e) toread) in
    let* p := lift (int_add (rs_pos e) toread) in
    with_entry handle (set_pos (if p >? rs_size e then rs_size e else p)) ;;
    ret (u32 toread, data).

Definition res_seek (handle offset : Z) : M rs_t unit :=
  res_debug &"res_seek (handle = %d, offset = 0x%x)\n" [AInt handle; AInt offset] ;;
  let* s := get in
  if (handle >? rs_count s) || (handle <? 0) then ret tt
  else with_entry handle (fun e => set_pos (if u32 (rs_size e) >=? offset then s32 offset else rs_size e) e).

(** The address of the data, 0 when there is none. *)
Definition res_data_byname (name : list Z) : M rs_t Z :=
  res_debug &"res_data_byname (name = %s): " [AStr name] ;;
  let* i := res_find_handle (Some name) in
  let* s := get in
  let* data := (if i >? 0 then let* e := lift (zget (entries s) i) in ret (rs_addr e) else ret 0) in
  res_debug &"0x%x\n" [ALong data] ;;
  ret data.

Definition res_data_byid (handle : Z) : M rs_t Z :=
  res_debug &"res_data_byid (handle = %d)\n" [AInt handle] ;;
  let* s := get in
  if (handle <? 0) || (handle >? rs_count s) then ret 0
  else let* e := lift (zget (entries s) handle) in ret (rs_addr e).

Definition res_size_byname (name : list Z) : M rs_t Z :=
  res_debug &"res_size_byname (name = %s): " [AStr name] ;;
  let* i := res_find_handle (Some name) in
  let* s := get in
  let* size := (if i >? 0 then let* e := lift (zget (entries s) i) in ret (rs_size e) else ret (-1)) in
  res_debug &"%d\n" [AInt size] ;;
  ret size.

Definition res_size_byid (handle : Z) : M rs_t Z :=
  res_debug &"res_size_byid (handle = %d)\n" [AInt handle] ;;
  let* s := get in
  if (handle <? 0) || (handle >? rs_count s) then ret (-1)
  else let* e := lift (zget (entries s) handle) in ret (rs_size e).

Definition cmd_res_list : M rs_t unit :=
  let* s := get in
  if rs_count s =? 0 then xprintf &"No resources found.\n\n" []
  else
    xprintf &"No. | Size | Pos | Data | Name \n" [] ;;
    for_range 0 (Z.to_nat (rs_count s)) (fun i =>
      let* e := lift (zget (entries s) i) in
      let* n := lift (rs_name e) in
      xprintf &"%2d, %4d, %4d, 0x%x, %s\n"
        [AInt i; AInt (rs_size e); AInt (rs_pos e); ALong (rs_addr e); AStr n]) ;;
    xprintf &"\n" [].
End Ops.

(** ** Well-formed tables *)

Definition entry_ok (e : rsentry_s) : Prop :=
  (exists n, rs_name e = Some n /\ cstring n) /\
  0 <= rs_pos e <= rs_size e /\ zlen (rs_data e) = rs_size e /\ rs_size e <= 2147483647.

(** The named entries, the terminator, and what the table holds behind it. *)
Definition table_ok (l : list rsentry_s) (n : Z) : Prop :=
  exists fs t junk, l = fs ++ t :: junk /\ zlen fs = n /\ Forall entry_ok fs /\
    rs_name t = None /\ rs_size t = 0 /\ rs_data t = [] /\ rs_pos t = 0.

Definition res_ok (s : rs_t) : Prop := table_ok (entries s) (rs_count s).

Lemma table_ok_lookup l n h : table_ok l n -> 0 <= h < n -> exists e, zget l h = Some e /\ entry_ok e.
Proof.
  intros (fs & t & junk & -> & Hn & Hf & _) Hh. unfold zget. case_match; [lia|]. unfold zlen in Hn.
  rewrite lookup_app_l by lia. destruct (lookup_lt_is_Some_2 fs (Z.to_nat h)) as [e He]; [lia|].
  exists e. split; [done|]. by eapply Forall_lookup_1.
Qed.

Lemma table_ok_update l n h e l' :
  table_ok l n -> 0 <= h < n -> entry_ok e -> zset l h e = Some l' -> table_ok l' n.
Proof.
  intros (fs & t & junk & -> & Hn & Hf & Ht) Hh He Hs. unfold zlen in Hn.
  unfold zset in Hs. case_match; [|done]. injection Hs as <-.
  rewrite insert_app_l by lia. exists (<[Z.to_nat h := e]> fs), t, junk.
  split_and!; try apply Ht; [done|unfold zlen; by rewrite length_insert|by apply Forall_insert].
Qed.

Section Specs.
Context `{T : Target} `{C : Config}.

Lemma wp_res_debug {S} fmt args (Q : unit -> S -> Prop) s :
  fmt_ok fmt args = true -> Q tt s -> wp (res_debug fmt args) Q s.
Proof. intros Hf HQ. apply wp_when; intros _; [by apply wp_xprintf|done]. Qed.

Lemma count_entries_app fs t junk : Forall entry_ok fs -> rs_name t = None ->
  count_entries (fs ++ t :: junk) = Some (zlen fs).
Proof.
  intros Hf Ht. induction Hf as [|e fs ((n & Hn & _) & _) Hf IH]; simpl; [by rewrite Ht|].
  rewrite Hn, IH. simpl. by rewrite zlen_cons, Z.add_comm.
Qed.

(** [res_init] counts the named entries, whatever the count was. *)
Lemma wp_res_init s n (Q : unit -> rs_t -> Prop) :
  table_ok (entries s) n -> Q tt (Rs n (entries s)) -> wp res_init Q s.
Proof.
  intros Ht HQ. pose proof Ht as (fs & t & junk & Hl & Hn & Hf & Hnm & _).
  unfold res_init. wp_step. apply wp_res_debug; [reflexivity|]. wp_steps. simpl.
  pose proof (count_entries_app fs t junk Hf Hnm) as Hc. rewrite <- Hl in Hc.
  destruct fs as [|e fs]; rewrite Hl; (eapply wp_lift; [reflexivity|]); cbn beta.
  - rewrite Hnm. apply wp_res_debug; [reflexivity|]. rewrite zlen_nil in Hn. by subst n; rewrite <- Hl.
  - inversion Hf as [|? ? ((nm & Hnme & _) & _) _]; subst. rewrite Hnme, <- Hl. wp_step.
    eapply wp_lift; [exact Hc|]. wp_steps. apply wp_res_debug; [reflexivity|]. done.
Qed.

Lemma slice_some data pos n : 0 <= pos -> 0 <= n -> pos + n <= zlen data ->
  slice data pos n = Some (take (Z.to_nat n) (drop (Z.to_nat pos) data)).
Proof.
  intros Hp Hn Hl. unfold slice.
  rewrite (proj2 (Z.ltb_ge n 0)), (proj2 (Z.ltb_ge pos 0)), (proj2 (Z.ltb_ge (zlen data) (pos + n))) by lia. done.
Qed.

Lemma int_add_some a b : -2147483648 <= a + b <= 2147483647 -> int_add a b = Some (a + b).
Proof.
  intros Hab. unfold int_add.
  by rewrite (proj2 (Z.leb_le (-2147483648) (a + b))), (proj2 (Z.leb_le (a + b) 2147483647)) by lia.
Qed.

Lemma wp_with_entry h f s e l (Q : unit -> rs_t -> Prop) :
  zget (entries s) h = Some e -> zset (entries s) h (f e) = Some l ->
  Q tt (Rs (rs_count s) l) -> wp (with_entry h f) Q s.
Proof.
  intros Hg Hs HQ. unfold with_entry. wp_steps. eapply wp_lift; [exact Hg|]. wp_step.
  eapply wp_lift; [exact Hs|]. by wp_steps.
Qed.

Lemma zget_zset_some {A} (l : list A) i x y : zget l i = Some x ->
  exists l', zset l i y = Some l'.
Proof. intros Hg. apply zget_range in Hg. eexists. by apply zset_some. Qed.

Lemma entry_ok_pos e p : entry_ok e -> 0 <= p <= rs_size e -> entry_ok (set_pos p e).
Proof. intros (Hn & _ & Hd & Hs) Hp. unfold entry_ok. simpl. auto. Qed.

Lemma wp_res_read s h e size :
  res_ok s -> 0 <= h < rs_count s -> zget (entries s) h = Some e ->
  0 <= size -> rs_size e + size <= 2147483647 ->
  let n := Z.min size (rs_size e - rs_pos e) in
  wp (res_read h size)
    (fun r s' => r = (n, take (Z.to_nat n) (drop (Z.to_nat (rs_pos e)) (rs_data e))) /\
       res_ok s' /\ rs_count s' = rs_count s /\
       zget (entries s') h = Some (set_pos (rs_pos e + n) e) /\
       forall k, k <> h -> zget (entries s') k = zget (entries s) k) s.
Proof.
  intros Hok Hh Hg Hsz Hmax n.
  assert (Hmin : n = Z.min size (rs_size e - rs_pos e)) by done. clearbody n.
  destruct (table_ok_lookup _ _ _ Hok Hh) as (e' & He' & Hent). rewrite Hg in He'. injection He' as <-.
  pose proof Hent as (_ & Hp & Hd & Hs).
  destruct (zget_zset_some _ _ _ (set_pos (rs_pos e + n) e) Hg) as [l' Hl'].
  unfold res_read. wp_steps.
  replace ((h >? rs_count s) || (h <? 0)) with false by lia. wp_step.
  eapply wp_lift; [exact Hg|]. wp_step. rewrite (s32_id size) by lia.
  eapply wp_lift; [apply int_add_some; lia|]. wp_step.
  assert (Hn : (if rs_pos e + size >? rs_size e then int_add (rs_size e) (- rs_pos e) else Some size) = Some n).
  { destruct (rs_pos e + size >? rs_size e) eqn:Hgt.
    - rewrite int_add_some by lia. f_equal. lia.
    - f_equal. lia. }
  assert (Hk : forall k : Z -> M rs_t (Z * list Z), forall Q,
    wp (k n) Q s -> wp (if rs_pos e + size >? rs_size e then lift (int_add (rs_size e) (- rs_pos e)) else ret size)
      (fun a => wp (k a) Q) s).
  { intros k Q HQ. destruct (rs_pos e + size >? rs_size e).
    - by eapply wp_lift. - injection Hn as ->. by apply wp_ret. }
  apply Hk. assert (0 <= n <= rs_size e - rs_pos e) by lia.
  wp_step. eapply wp_lift; [apply slice_some; lia|]. wp_step.
  eapply wp_lift; [apply int_add_some; lia|]. wp_step.
  replace (rs_pos e + n >? rs_size e) with false by lia.
  eapply wp_with_entry; [exact Hg|exact Hl'|]. wp_steps. rewrite u32_id by lia. simpl.
  split_and!; [done| |done|by eapply zget_zset_eq|intros k Hk'; by eapply zget_zset_ne].
  eapply table_ok_update; [exact Hok|done| |exact Hl']. apply entry_ok_pos; [done|lia].
Qed.

(** A read on an open resource copies the bytes from the read position on,
    as many as asked for or as are left, returns their number and moves the
    position behind them, which stays inside the file; no other entry of the
    table changes. *)
Theorem res_read_correct s h e size :
  res_ok s -> 0 <= h < rs_count s -> zget (entries s) h = Some e ->
  0 <= size -> rs_size e + size <= 2147483647 ->
  let n := Z.min size (rs_size e - rs_pos e) in
  wp (res_read h size)
    (fun r s' => r = (n, take (Z.to_nat n) (drop (Z.to_nat (rs_pos e)) (rs_data e))) /\
       res_ok s' /\ rs_count s' = rs_count s /\
       zget (entries s') h = Some (set_pos (rs_pos e + n) e) /\
       forall k, k <> h -> zget (entries s') k = zget (entries s) k) s.
Proof. apply wp_res_read. Qed.
End Specs.

(** ** Reading a file to its end *)

Section ReadAll.
Context `{T : Target} `{C : Config}.

(** What the pollers of fs.c do over many frames: read blocks of [k] bytes until
    a read returns 0. *)
Fixpoint read_all (fuel : nat) (h k : Z) : M rs_t (list Z) :=
  match fuel with
  | O => nofuel
  | S fuel' =>
      let* (n, d) := res_read h k in
      if n =? 0 then ret [] else let* rest := read_all fuel' h k in ret (d ++ rest)
  end.

(** Reading in blocks of any positive size gives exactly the bytes from the
    read position to the end of the resource, after finitely many reads: nothing
    is lost, repeated or invented. *)
Theorem res_read_all_correct fuel : forall s h e k,
  res_ok s -> 0 <= h < rs_count s -> zget (entries s) h = Some e ->
  0 < k -> rs_size e + k <= 2147483647 -> rs_size e - rs_pos e < Z.of_nat fuel ->
  wp (read_all fuel h k) (fun d _ => d = drop (Z.to_nat (rs_pos e)) (rs_data e)) s.
Proof.
  induction fuel as [|fuel IH]; intros s h e k Hok Hh Hg Hk Hmax Hf;
    destruct (table_ok_lookup _ _ _ Hok Hh) as (e' & He' & Hent); rewrite Hg in He';
    injection He' as <-; pose proof Hent as (_ & Hp & Hd & Hs); [lia|].
  cbn [read_all]. wp_step.
  eapply wp_mono; [|by apply (wp_res_read s h e k); try lia].
  intros [n d] s' ([= -> ->] & Hok' & Hc' & Hg' & _).
  unfold zlen in Hd. destruct (Z.eqb_spec (Z.min k (rs_size e - rs_pos e)) 0) as [Hz|Hz].
  - apply wp_ret. rewrite drop_ge by lia. done.
  - wp_step. eapply wp_mono; [|apply (IH s' h _ k Hok' ltac:(rewrite Hc'; done) Hg'); simpl; lia].
    intros rest s'' ->. apply wp_ret. simpl.
    replace (Z.to_nat (rs_pos e + Z.min k (rs_size e - rs_pos e)))
      with (Z.to_nat (rs_pos e) + Z.to_nat (Z.min k (rs_size e - rs_pos e)))%nat by lia.
    rewrite <- drop_drop. apply take_drop.
Qed.

(** ** Looking up a name *)

Lemma find_loop_spec name : forall fs i t junk, cstring name -> Forall entry_ok fs ->
  exists r, find_loop name i (length fs) (fs ++ t :: junk) = Some r /\
    ((r = -1 /\ forall e n, e ∈ fs -> rs_name e = Some n -> ~ n `prefix_of` name) \/
     exists k e n, fs !! k = Some e /\ rs_name e = Some n /\ n `prefix_of` name /\
       r = s8 (i + Z.of_nat k) /\
       forall k' e' n', (k' < k)%nat -> fs !! k' = Some e' -> rs_name e' = Some n' -> ~ n' `prefix_of` name).
Proof.
  intros fs. induction fs as [|e fs IH]; intros i t junk Hname Hf; simpl.
  - exists (-1). split; [done|]. left. split; [done|]. intros e n He. by apply not_elem_of_nil in He.
  - inversion Hf as [|? ? ((n & Hn & Hcn) & _) Hf']; subst. rewrite Hn.
    destruct (strncmp_prefix name n Hname Hcn) as (r & Hr & Hp). rewrite Hr.
    destruct (Z.eqb_spec r 0) as [->|Hne].
    + exists (s8 i). split; [done|]. right. exists O, e, n. split_and!; try done.
      * by apply Hp. * by rewrite Z.add_0_r. * intros k' ? ? Hk'. lia.
    + assert (Hnp : ~ n `prefix_of` name) by (rewrite <- Hp; done).
      destruct (IH (i + 1) t junk Hname Hf') as (r' & Hr' & [[-> Hall]|(k & e1 & n1 & Hk & Hn1 & Hp1 & -> & Hfirst)]).
      * exists (-1). split; [done|]. left. split; [done|]. intros e1 n1 He1 Hn1.
        apply elem_of_cons in He1 as [->|He1]; [|by eapply Hall]. rewrite Hn in Hn1. by injection Hn1 as <-.
      * eexists. split; [exact Hr'|]. right. exists (S k), e1, n1. split_and!; try done.
        -- f_equal. lia.
        -- intros [|k'] e' n' Hlt Hlk Hn'; simpl in Hlk.
           ++ injection Hlk as <-. rewrite Hn in Hn'. by injection Hn' as <-.
           ++ eapply (Hfirst k'); [lia|done|done].
Qed.

(** Opening a resource succeeds with the first entry whose name is a prefix
    of the requested one, not the entry of that name; with at most 128 resources
    a result of -1 means that no entry's name is a prefix. *)
Theorem res_open_first_prefix s name :
  res_ok s -> cstring name -> rs_count s <= 128 ->
  wp (res_open name)
    (fun h s' => s' = s /\
       if h =? -1 then
         forall k e n, 0 <= k < rs_count s -> zget (entries s) k = Some e -> rs_name e = Some n ->
           ~ n `prefix_of` name
       else
         0 <= h < rs_count s /\
         (exists e n, zget (entries s) h = Some e /\ rs_name e = Some n /\ n `prefix_of` name) /\
         forall k e n, 0 <= k < h -> zget (entries s) k = Some e -> rs_name e = Some n ->
           ~ n `prefix_of` name) s.
Proof.
  intros (fs & t & junk & Hl & Hn & Hf & _) Hname Hmax. unfold res_open. wp_step.
  apply wp_res_debug; [reflexivity|]. unfold res_find_handle. wp_steps.
  assert (Hzget : forall k, 0 <= k < rs_count s -> zget (entries s) k = fs !! Z.to_nat k).
  { intros k Hk. unfold zget. case_match; [lia|]. rewrite Hl. apply lookup_app_l. unfold zlen in Hn. lia. }
  destruct (Z.eqb_spec (rs_count s) 0) as [Hz|Hz].
  { wp_steps. apply wp_res_debug; [reflexivity|]. wp_steps. split; [done|]. simpl. intros; lia. }
  destruct (find_loop_spec name fs 0 t junk Hname Hf) as (r & Hr & Hcase).
  unfold zlen in Hn. rewrite Hl, <- Hn, Nat2Z.id in *. eapply wp_lift; [exact Hr|]. wp_step.
  apply wp_res_debug; [reflexivity|]. wp_steps. split; [done|].
  destruct Hcase as [[-> Hall]|(k & e & n & Hk & Hne & Hp & -> & Hfirst)]; simpl.
  - intros k e n Hk. rewrite Hzget by lia. intros Hke Hne. eapply Hall; [|done].
    by eapply list_elem_of_lookup_2.
  - pose proof (lookup_lt_Some _ _ _ Hk). rewrite Z.add_0_l.
    replace (s8 (Z.of_nat k)) with (Z.of_nat k) by (wraps; lia).
    rewrite (proj2 (Z.eqb_neq _ (-1))) by lia.
    split_and!; [lia|lia| |].
    + exists e, n. rewrite Hzget, Nat2Z.id by lia. done.
    + intros k' e' n' Hk'. rewrite Hzget by lia. apply Hfirst. lia.
Qed.
End ReadAll.

(** ** Witnesses and deviations *)

Definition demo_entries : list rsentry_s :=
  [RsEntry (Some &"beep") 3 [1; 2; 3] 4096 0; RsEntry (Some &"gong") 2 [8; 9] 8192 1; null_entry].
Definition demo : rs_t := Rs 2 demo_entries.

Lemma demo_ok : res_ok demo.
Proof.
  exists [RsEntry (Some &"beep") 3 [1; 2; 3] 4096 0; RsEntry (Some &"gong") 2 [8; 9] 8192 1], null_entry, [].
  split_and!; try done. repeat constructor; simpl; try lia; eexists; (split; [reflexivity|repeat constructor]).
Qed.

Section Witnesses.
#[local] Existing Instance linux_target.
#[local] Instance cfg : Config := default_config true.

Lemma res_read_correct_witness :
  wp (res_read 0 2)
    (fun r s' => r = (2, [1; 2]) /\ res_ok s' /\ rs_count s' = 2 /\
       zget (entries s') 0 = Some (set_pos 2 (RsEntry (Some &"beep") 3 [1; 2; 3] 4096 0)) /\
       forall k, k <> 0 -> zget (entries s') k = zget demo_entries k) demo.
Proof.
  apply (res_read_correct demo 0 (RsEntry (Some &"beep") 3 [1; 2; 3] 4096 0) 2);
    [exact demo_ok|simpl; lia|reflexivity|lia|simpl; lia].
Defined.

Lemma res_read_all_correct_witness :
  wp (read_all 5 0 2) (fun d _ => d = [1; 2; 3]) demo.
Proof.
  apply (res_read_all_correct 5 demo 0 (RsEntry (Some &"beep") 3 [1; 2; 3] 4096 0) 2);
    [exact demo_ok|simpl; lia|reflexivity|lia|simpl; lia|simpl; lia].
Defined.

Lemma res_open_first_prefix_witness :
  wp (res_open &"gong.wav")
    (fun h s' => s' = demo /\
       if h =? -1 then
         forall k e n, 0 <= k < rs_count demo -> zget (entries demo) k = Some e -> rs_name e = Some n ->
           ~ n `prefix_of` &"gong.wav"
       else
         0 <= h < rs_count demo /\
         (exists e n, zget (entries demo) h = Some e /\ rs_name e = Some n /\ n `prefix_of` &"gong.wav") /\
         forall k e n, 0 <= k < h -> zget (entries demo) k = Some e -> rs_name e = Some n ->
           ~ n `prefix_of` &"gong.wav") demo.
Proof.
  apply (res_open_first_prefix demo &"gong.wav"); [exact demo_ok|repeat constructor|simpl; lia].
Defined.

(** The lookups by name test the handle with [> 0], so the resource in entry
    0, which [res_open] and the lookups by number find, has neither data nor size
    by name. *)
Theorem res_byname_misses_first :
  (exists o, res_open &"beep" demo = Done (0, demo, o)) /\
  (exists o, res_size_byname &"beep" demo = Done (-1, demo, o)) /\
  (exists o, res_data_byname &"beep" demo = Done (0, demo, o)) /\
  (exists o, res_size_byid 0 demo = Done (3, demo, o)) /\
  (exists o, res_size_byname &"gong" demo = Done (2, demo, o)).
Proof. split_and!; eexists; vm_compute; reflexivity. Qed.
End Witnesses.
