(* ===== verification/Salloc.v ===== *)
(** * libs/libc/salloc.c and stm32/allocs.c, null/allocs.c: the slot allocator

    A pool is cut into slots of fixed sizes; an allocation takes the first empty
    slot that is large enough.  Addresses are numbers, NULL is 0; the bytes of
    the pool live in the memory of the string functions. *)

From S2P Require Import Prelude Libc Strings.

Inductive salloc_slot_state_e : Type := SS_EMPTY | SS_USED.

#[export] Instance slot_state_eq_dec : EqDecision salloc_slot_state_e.
Proof. solve_decision. Defined.

Record slot_s : Type := Slot {
  sl_state : salloc_slot_state_e;
  sl_size : Z;        (* uint32_t *)
  sl_allocated : Z;   (* uint32_t *)
  sl_data : Z         (* void * *)
}.

Definition SA_ENTRY (size : Z) : slot_s := Slot SS_EMPTY size 0 0.

Record salloc_s : Type := Salloc {
  sa_name : list Z;
  sa_data : Z;        (* void * *)
  sa_data_size : Z;   (* int *)
  slot_count : Z;     (* uint16_t *)
  used_slots : Z;     (* uint16_t *)
  slots : list slot_s
}.

Definition set_slots (l : list slot_s) (s : salloc_s) : salloc_s :=
  Salloc (sa_name s) (sa_data s) (sa_data_size s) (slot_count s) (used_slots s) l.
Definition set_used_slots (n : Z) (s : salloc_s) : salloc_s :=
  Salloc (sa_name s) (sa_data s) (sa_data_size s) (slot_count s) n (slots s).

(** The allocator works on its descriptor and on memory. *)
Definition heap : Type := salloc_s * mem.
Definition on_sas {A} (m : M salloc_s A) : M heap A := zoom fst (fun s h => (s, snd h)) m.
Definition on_mem {A} (m : M mem A) : M heap A := zoom snd (fun x h => (fst h, x)) m.

Section Ops.
Context `{T : Target} `{C : Config}.

Definition sa_debug {S} (fmt : list Z) (args : list arg) : M S unit :=
  when CONFIG_SALLOC_DEBUG (xprintf fmt args).

(** [SLOT(i).data = ptr; ptr += SLOT(i).size;] for the first [n] slots. *)
Fixpoint lay_out (ptr : Z) (n : nat) (l : list slot_s) : option (list slot_s) :=
  match n, l with
  | O, _ => Some l
  | S _, [] => None
  | S n', x :: l' =>
      cons (Slot (sl_state x) (sl_size x) (sl_allocated x) ptr) <$> lay_out (ptr + sl_size x) n' l'
  end.

Definition sa_init : M heap unit :=
  let* h := get in
  let s := fst h in
  sa_debug &"sa_init (name = %s, data_size = %d, slots = %d): "
    [AStr (sa_name s); AInt (sa_data_size s); AInt (slot_count s)] ;;
  let* l := lift (lay_out (sa_data s) (Z.to_nat (slot_count s)) (slots s)) in
  put (set_slots l s, snd h) ;;
  on_mem (uc_memset (sa_data s) 0 (Z.to_nat (sa_data_size s))) ;;
  sa_debug &"OK\n" [].

(** The search loop of [sa_alloc]: the index of the first empty slot that is
    large enough, among the [n] slots from [i] on. *)
Fixpoint first_fit (size : Z) (i : Z) (n : nat) (l : list slot_s) : option (option Z) :=
  match n, l with
  | O, _ => Some None
  | S _, [] => None
  | S n', x :: l' =>
      if bool_decide (sl_state x = SS_EMPTY) && (size <=? sl_size x) then Some (Some i)
      else first_fit size (i + 1) n' l'
  end.

Definition sa_alloc (n : Z) : M salloc_s Z :=
  let* s := get in
  sa_debug &"sa_alloc (name = %s, size = %d bytes): " [AStr (sa_name s); ALong n] ;;
  let error := (sa_debug &" Failed\n" [] ;; ret NULL) in
  if slot_count s =? used_slots s then
    sa_debug &"all slots are used." [] ;; error
  else
    let* r := lift (first_fit n 0 (Z.to_nat (slot_count s)) (slots s)) in
    match r with
    | None => sa_debug &"not suitable slot found." [] ;; error
    | Some i =>
        let* x := lift (zget (slots s) i) in
        let* l := lift (zset (slots s) i (Slot SS_USED (sl_size x) (u32 n) (sl_data x))) in
        put (set_slots l s) ;;
        sa_debug &"OK\n" [] ;;
        modify (fun s => set_used_slots (u16 (used_slots s + 1)) s) ;;
        ret (sl_data x)
    end.

(** The search loop of [sa_free]. *)
Fixpoint find_ptr (ptr : Z) (i : Z) (n : nat) (l : list slot_s) : option (option Z) :=
  match n, l with
  | O, _ => Some None
  | S _, [] => None
  | S n', x :: l' => if sl_data x =? ptr then Some (Some i) else find_ptr ptr (i + 1) n' l'
  end.

Definition sa_free (ptr : Z) : M salloc_s unit :=
  let* s := get in
  sa_debug &"sa_free (name = %s, ptr = 0x%x)\n" [AStr (sa_name s); ALong ptr] ;;
  if ptr =? NULL then ret tt
  else
    let* r := lift (find_ptr ptr 0 (Z.to_nat (slot_count s)) (slots s)) in
    match r with
    | None => ret tt
    | Some i =>
        let* x := lift (zget (slots s) i) in
        let* l := lift (zset (slots s) i (Slot SS_EMPTY (sl_size x) 0 (sl_data x))) in
        put (set_used_slots (u16 (used_slots s - 1)) (set_slots l s))
    end.

Definition sa_calloc (nmemb size : Z) : M heap Z :=
  let total_size := u32 (nmemb * size) in
  if total_size =? 0 then ret NULL
  else
    let* ptr := on_sas (sa_alloc total_size) in
    if ptr =? NULL then ret NULL
    else on_mem (uc_memset ptr 0 (Z.to_nat total_size)) ;; ret ptr.

(** The result of the copy is dropped: control falls through to [return NULL]. *)
Definition sa_realloc (ptr size : Z) : M heap Z :=
  if ptr =? NULL then ret NULL
  else if size =? 0 then on_sas (sa_free ptr) ;; ret NULL
  else
    let* nptr := on_sas (sa_alloc size) in
    if nptr =? NULL then ret NULL
    else on_mem (uc_memcpy nptr ptr (Z.to_nat size)) ;; ret NULL.
End Ops.

(** The pool of libmad: two slots in [libmad_pool], which is at address [a]. *)
Definition libmad_alloc (a : Z) : salloc_s :=
  Salloc &"libmad" a (3 * 1024 + 5 * 1024) 2 0 [SA_ENTRY (3 * 1024); SA_ENTRY (5 * 1024)].

Section Lma.
Context `{T : Target} `{C : Config}.
Definition lma_init : M heap unit := sa_init.
Definition lma_malloc (size : Z) : M heap Z := on_sas (sa_alloc size).
Definition lma_free (ptr : Z) : M heap unit := on_sas (sa_free ptr).
Definition lma_calloc (nmemb size : Z) : M heap Z := sa_calloc nmemb size.
End Lma.

(** ** The allocator's invariant *)

Definition used (x : slot_s) : bool := bool_decide (sl_state x = SS_USED).

Definition count_used (l : list slot_s) : Z := zlen (filter (fun x => used x = true) l).

(** An empty slot has nothing allocated, a used one at most its size. *)
Definition sl_fill (x : slot_s) : Prop :=
  if used x then 0 <= sl_allocated x <= sl_size x else sl_allocated x = 0.

(** The slots lie one behind the other from address [p] on. *)
Fixpoint laid_out (p : Z) (l : list slot_s) : Prop :=
  match l with
  | [] => True
  | x :: l => sl_data x = p /\ 0 < sl_size x < 4294967296 /\
      sl_fill x /\ laid_out (p + sl_size x) l
  end.

Definition sa_ok (s : salloc_s) : Prop :=
  slot_count s = zlen (slots s) /\ slot_count s < 65536 /\
  used_slots s = count_used (slots s) /\ 0 < sa_data s /\ laid_out (sa_data s) (slots s).

Lemma count_used_cons x l : count_used (x :: l) = (if used x then 1 else 0) + count_used l.
Proof.
  unfold count_used. rewrite filter_cons. destruct (used x) eqn:Hx.
  - rewrite decide_True by done. apply zlen_cons.
  - rewrite decide_False by done. lia.
Qed.

Lemma count_used_bound l : 0 <= count_used l <= zlen l.
Proof.
  induction l as [|x l IH]; [done|]. rewrite count_used_cons, zlen_cons. destruct (used x); lia.
Qed.

Lemma count_used_insert l : forall i x y, l !! i = Some x ->
  count_used (<[i := y]> l) = count_used l - (if used x then 1 else 0) + (if used y then 1 else 0).
Proof.
  induction l as [|z l IH]; intros [|i] x y Hi; simpl in *; try done; rewrite !count_used_cons.
  - injection Hi as <-. lia.
  - rewrite (IH _ _ y Hi). lia.
Qed.

Lemma laid_out_insert l : forall p i x y, laid_out p l -> l !! i = Some x ->
  sl_data y = sl_data x -> sl_size y = sl_size x -> sl_fill y ->
  laid_out p (<[i := y]> l).
Proof.
  induction l as [|z l IH]; intros p [|i] x y Hl Hi Hd Hs Ha; simpl in *; try done.
  - injection Hi as <-. rewrite Hd, Hs in *. destruct Hl as (-> & ? & ? & ?). split_and!; done || lia.
  - destruct Hl as (? & ? & ? & ?). split_and!; try done || lia. by eapply IH.
Qed.

(** Where slot [i] lies. *)
Lemma laid_out_lookup l : forall p i x, laid_out p l -> l !! i = Some x ->
  p <= sl_data x /\ 0 < sl_size x < 4294967296.
Proof.
  induction l as [|z l IH]; intros p [|i] x Hl Hi; simpl in *; try done.
  - injection Hi as <-. lia.
  - destruct Hl as (? & ? & ? & Hl). destruct (IH _ _ _ Hl Hi). lia.
Qed.

(** Two different slots do not overlap. *)
Lemma laid_out_disjoint l : forall p i j x y, laid_out p l -> (i < j)%nat ->
  l !! i = Some x -> l !! j = Some y -> sl_data x + sl_size x <= sl_data y.
Proof.
  induction l as [|z l IH]; intros p [|i] [|j] x y Hl Hij Hi Hj; simpl in *; try done; try lia.
  - injection Hi as <-. destruct Hl as (-> & ? & ? & Hl). by destruct (laid_out_lookup _ _ _ _ Hl Hj).
  - destruct Hl as (? & ? & ? & Hl). eapply (IH _ i j); [done|lia|done|done].
Qed.

Section Specs.
Context `{T : Target} `{C : Config}.

Lemma wp_sa_debug {S} fmt args (Q : unit -> S -> Prop) s :
  fmt_ok fmt args = true -> Q tt s -> wp (sa_debug fmt args) Q s.
Proof. intros Hf HQ. apply wp_when; intros _; [by apply wp_xprintf|done]. Qed.

Definition fits (n : Z) (x : slot_s) : Prop := used x = false /\ n <= sl_size x.

Lemma fits_test n x : bool_decide (sl_state x = SS_EMPTY) && (n <=? sl_size x) = true <-> fits n x.
Proof.
  unfold fits, used. rewrite andb_true_iff, bool_decide_eq_true, bool_decide_eq_false, Z.leb_le.
  destruct (sl_state x); intuition congruence.
Qed.

Lemma first_fit_spec n l : forall k,
  exists r, first_fit n k (length l) l = Some r /\
    match r with
    | None => Forall (fun x => ~ fits n x) l
    | Some i => exists j x, i = k + Z.of_nat j /\ l !! j = Some x /\ fits n x /\
        forall j' y, (j' < j)%nat -> l !! j' = Some y -> ~ fits n y
    end.
Proof.
  induction l as [|x l IH]; intros k; simpl; [exists None; split; [done|constructor]|].
  destruct (_ && _) eqn:Hx.
  - apply fits_test in Hx. exists (Some k). split; [done|]. exists O, x.
    split_and!; [lia|done|done|]. intros; lia.
  - assert (Hnf : ~ fits n x) by (rewrite <- fits_test, Hx; done).
    destruct (IH (k + 1)) as ([i|] & Hr & Hspec); eexists; (split; [exact Hr|]).
    + destruct Hspec as (j & y & -> & Hj & Hf & Hall). exists (S j), y.
      split_and!; [lia|done|done|]. intros [|j'] z Hlt Hz; simpl in Hz; [congruence|].
      eapply (Hall j'); [lia|done].
    + by constructor.
Qed.

Lemma find_ptr_spec p l i x : forall base k, laid_out base l -> l !! i = Some x -> sl_data x = p ->
  find_ptr p k (length l) l = Some (Some (k + Z.of_nat i)).
Proof.
  revert i. induction l as [|y l IH]; intros i base k Hl Hi Hp; [done|]. simpl.
  destruct i as [|i]; simpl in Hi.
  - injection Hi as ->. rewrite Hp, Z.eqb_refl. do 2 f_equal. lia.
  - pose proof (laid_out_disjoint (y :: l) base 0 (S i) y x Hl ltac:(lia) eq_refl Hi) as Hd.
    destruct Hl as (? & ? & ? & Hl). rewrite (proj2 (Z.eqb_neq (sl_data y) p)) by lia.
    rewrite (IH i _ (k + 1) Hl Hi Hp). do 2 f_equal. lia.
Qed.

(** The state after taking slot [i]. *)
Definition take_slot (i : nat) (x : slot_s) (n : Z) (s : salloc_s) : salloc_s :=
  set_used_slots (used_slots s + 1)
    (set_slots (<[i := Slot SS_USED (sl_size x) n (sl_data x)]> (slots s)) s).

Lemma sa_ok_take s i x n : sa_ok s -> slots s !! i = Some x -> fits n x -> 0 <= n ->
  used_slots s + 1 <= slot_count s /\ sa_ok (take_slot i x n s).
Proof.
  intros (Hc & Hm & Hu & Hd & Hl) Hi [Hf Hn] Hn0.
  pose proof (count_used_insert _ i x (Slot SS_USED (sl_size x) n (sl_data x)) Hi) as Hcu.
  rewrite Hf in Hcu. change (used (Slot SS_USED (sl_size x) n (sl_data x))) with true in Hcu. simpl in Hcu.
  pose proof (count_used_bound (<[i := Slot SS_USED (sl_size x) n (sl_data x)]> (slots s))) as Hb.
  unfold zlen in Hb. rewrite length_insert in Hb. unfold zlen in Hc.
  split; [lia|]. unfold sa_ok, take_slot. simpl. unfold zlen. rewrite length_insert.
  split_and!; [done|done|lia|done|]. eapply laid_out_insert; [done|done|done|done|].
  unfold sl_fill. simpl. lia.
Qed.

Lemma wp_sa_alloc s n (Q : Z -> salloc_s -> Prop) :
  sa_ok s -> 0 <= n < 4294967296 ->
  (Forall (fun x => ~ fits n x) (slots s) -> Q NULL s) ->
  (forall i x, slots s !! i = Some x -> fits n x ->
     (forall j y, (j < i)%nat -> slots s !! j = Some y -> ~ fits n y) ->
     Q (sl_data x) (take_slot i x n s)) ->
  wp (sa_alloc n) Q s.
Proof.
  intros Hok Hn HN HS. pose proof Hok as (Hc & Hm & Hu & Hd & Hl).
  unfold sa_alloc. wp_steps. apply wp_sa_debug; [reflexivity|].
  destruct (first_fit_spec n (slots s) 0) as (r & Hr & Hspec).
  destruct (Z.eqb_spec (slot_count s) (used_slots s)) as [Hfull|Hfull].
  - wp_step. apply wp_sa_debug; [reflexivity|]. wp_step. apply wp_sa_debug; [reflexivity|]. wp_steps.
    apply HN. destruct r as [i|]; [|done]. destruct Hspec as (j & x & _ & Hj & Hf & _).
    destruct (sa_ok_take s j x n Hok Hj Hf); lia.
  - wp_step. unfold zlen in Hc. rewrite Hc, Nat2Z.id. eapply wp_lift; [exact Hr|].
    destruct r as [i|].
    + destruct Hspec as (j & x & -> & Hj & Hf & Hfirst).
      assert (Hg : zget (slots s) (0 + Z.of_nat j) = Some x)
        by (rewrite Z.add_0_l, zget_nat; done).
      pose proof (zget_range _ _ _ Hg) as Hrange. wp_step. eapply wp_lift; [exact Hg|]. wp_step.
      eapply wp_lift; [by apply zset_some|]. wp_steps. apply wp_sa_debug; [reflexivity|]. wp_steps.
      destruct (sa_ok_take s j x n Hok Hj Hf ltac:(lia)) as [Hroom _].
      pose proof (count_used_bound (slots s)).
      rewrite (u32_id n) by lia. simpl. rewrite u16_id by lia.
      rewrite Z.add_0_l, Nat2Z.id. by apply HS.
    + wp_step. apply wp_sa_debug; [reflexivity|]. wp_step. apply wp_sa_debug; [reflexivity|]. wp_steps.
      by apply HN.
Qed.

(** The state after emptying slot [i]. *)
Definition give_slot (i : nat) (x : slot_s) (s : salloc_s) : salloc_s :=
  set_used_slots (used_slots s - 1)
    (set_slots (<[i := Slot SS_EMPTY (sl_size x) 0 (sl_data x)]> (slots s)) s).

Lemma wp_sa_free s i x (Q : unit -> salloc_s -> Prop) :
  sa_ok s -> slots s !! i = Some x -> used x = true ->
  Q tt (give_slot i x s) -> wp (sa_free (sl_data x)) Q s.
Proof.
  intros (Hc & Hm & Hu & Hd & Hl) Hi Hx HQ. unfold sa_free. wp_steps.
  apply wp_sa_debug; [reflexivity|]. destruct (laid_out_lookup _ _ _ _ Hl Hi) as [Hp _].
  rewrite (proj2 (Z.eqb_neq (sl_data x) NULL)) by (unfold NULL; lia). wp_step.
  unfold zlen in Hc. rewrite Hc, Nat2Z.id.
  eapply wp_lift; [by eapply find_ptr_spec|]. cbn beta iota.
  assert (Hg : zget (slots s) (0 + Z.of_nat i) = Some x)
    by (rewrite Z.add_0_l, zget_nat; done).
  pose proof (zget_range _ _ _ Hg) as Hrange. wp_step. eapply wp_lift; [exact Hg|]. wp_step.
  eapply wp_lift; [by apply zset_some|]. wp_steps.
  pose proof (count_used_insert _ i x (SA_ENTRY 0) Hi) as Hcu. rewrite Hx in Hcu.
  change (used (SA_ENTRY 0)) with false in Hcu. simpl in Hcu.
  pose proof (count_used_bound (<[i:=SA_ENTRY 0]> (slots s))) as Hb.
  pose proof (count_used_bound (slots s)) as Hb2. unfold zlen in Hb2.
  rewrite Z.add_0_l, Nat2Z.id, u16_id by lia. done.
Qed.

(** From a well-formed pool, an allocation returns the first empty slot that
    is large enough, disjoint from every other slot, and keeps the pool well
    formed (the counter of used slots included); it returns NULL exactly when no
    empty slot is large enough, and then changes nothing. *)
Theorem sa_alloc_first_fit s n :
  sa_ok s -> 0 <= n < 4294967296 ->
  wp (sa_alloc n)
    (fun p s' => sa_ok s' /\
       ((p = NULL /\ s' = s /\ Forall (fun x => ~ fits n x) (slots s)) \/
        exists i x, slots s !! i = Some x /\ fits n x /\ p = sl_data x /\ p <> NULL /\
          s' = take_slot i x n s /\
          (forall j y, (j < i)%nat -> slots s !! j = Some y -> ~ fits n y) /\
          (forall j y, j <> i -> slots s !! j = Some y ->
             p + n <= sl_data y \/ sl_data y + sl_size y <= p))) s.
Proof.
  intros Hok Hn. apply wp_sa_alloc; [done|done|intros Hall; auto|]. intros i x Hi Hf Hfirst.
  pose proof Hok as (_ & _ & _ & Hd & Hl). destruct (laid_out_lookup _ _ _ _ Hl Hi) as [Hp _].
  split; [apply (sa_ok_take s i x n Hok Hi Hf ltac:(lia))|]. right. exists i, x.
  split_and!; try done; [unfold NULL; lia|]. intros j y Hj Hy. destruct Hf as [_ Hfit].
  destruct (Nat.lt_total i j) as [Hlt|[->|Hlt]]; [|done|].
  - left. pose proof (laid_out_disjoint _ _ _ _ _ _ Hl Hlt Hi Hy). lia.
  - right. apply (laid_out_disjoint _ _ _ _ _ _ Hl Hlt Hy Hi).
Qed.

Lemma salloc_eta s l u : slots s = l -> used_slots s = u -> set_used_slots u (set_slots l s) = s.
Proof. destruct s. simpl. by intros <- <-. Qed.

(** Freeing what was just allocated gives the pool back exactly as it was,
    whether the allocation succeeded or not. *)
Theorem sa_free_alloc s n :
  sa_ok s -> 0 <= n < 4294967296 ->
  wp (let* p := sa_alloc n in sa_free p) (fun _ s' => s' = s) s.
Proof.
  intros Hok Hn. wp_step. apply wp_sa_alloc; [done|done| |].
  - intros _. unfold sa_free. wp_steps. apply wp_sa_debug; [reflexivity|]. simpl. by wp_steps.
  - intros i x Hi Hf _. pose proof Hok as (_ & _ & _ & _ & Hl).
    assert (Hi' : slots (take_slot i x n s) !! i = Some (Slot SS_USED (sl_size x) n (sl_data x))).
    { simpl. apply list_lookup_insert_eq. by eapply lookup_lt_Some. }
    change (sl_data x) with (sl_data (Slot SS_USED (sl_size x) n (sl_data x))).
    eapply wp_sa_free; [apply (sa_ok_take s i x n Hok Hi Hf ltac:(lia))|exact Hi'|done|].
    unfold give_slot, take_slot. simpl. rewrite list_insert_insert_eq.
    unfold set_used_slots, set_slots. simpl.
    assert (Hx : Slot SS_EMPTY (sl_size x) 0 (sl_data x) = x).
    { assert (Hfill : forall p l j, laid_out p l -> l !! j = Some x -> sl_fill x).
      { intros p l. revert p. induction l as [|z l IH]; intros p [|j] Hlo Hj; simpl in *; try done.
        - injection Hj as ->. apply Hlo. - eapply IH; [apply Hlo|done]. }
      specialize (Hfill _ _ _ Hl Hi). destruct Hf as [Hu _]. unfold sl_fill in Hfill. rewrite Hu in Hfill.
      destruct x as [st sz al da]. unfold used in Hu. simpl in *. subst al.
      destruct st; [done|]. by rewrite bool_decide_eq_false in Hu. }
    rewrite Hx, list_insert_id by done. destruct s; simpl. f_equal. lia.
Qed.
End Specs.

(** ** The pool of libmad, clearing allocation, and the deviations *)

Section Pool.
Context `{T : Target} `{C : Config}.

Lemma lay_out_ok l : forall p, Forall (fun x => 0 < sl_size x < 4294967296 /\ sl_fill x) l ->
  exists l', lay_out p (length l) l = Some l' /\ laid_out p l' /\ length l' = length l /\
    count_used l' = count_used l.
Proof.
  induction l as [|x l IH]; intros p Hl; simpl; [by exists []|].
  inversion Hl as [|? ? [Hs Hf] Hl']; subst. destruct (IH (p + sl_size x) Hl') as (l' & -> & Hlo & Hlen & Hcu).
  eexists. split; [reflexivity|]. simpl. rewrite !count_used_cons, Hlen, Hcu. split_and!; done || lia || exact Hf.
Qed.

(** [lma_init] makes the pool well formed and clears it. *)
Lemma wp_lma_init a m :
  0 < a -> mapped m a (3 * 1024 + 5 * 1024) ->
  wp lma_init (fun _ h => sa_ok (fst h) /\ count_used (slots (fst h)) = 0 /\
    bytes_at (snd h) a (repeat 0 (3 * 1024 + 5 * 1024))) (libmad_alloc a, m).
Proof.
  intros Ha Hm. unfold lma_init, sa_init. wp_step. apply wp_get. wp_step.
  apply wp_sa_debug; [reflexivity|]. wp_step.
  destruct (lay_out_ok (slots (libmad_alloc a)) a) as (l & Hl & Hlo & Hlen & Hcu).
  { unfold libmad_alloc, sl_fill. simpl. repeat constructor; simpl; lia || done. }
  eapply wp_lift; [exact Hl|]. wp_step. apply wp_put. wp_step.
  unfold on_mem. apply wp_zoom. eapply wp_mono; [|by apply uc_memset_correct].
  cbn [fst snd]. intros r m' (_ & Hb & _). apply wp_sa_debug; [reflexivity|]. cbn [fst snd].
  split_and!; [|exact Hcu|exact Hb].
  unfold sa_ok. simpl. rewrite Hcu. unfold zlen. rewrite Hlen. by split_and!.
Qed.

(** A successful [sa_calloc] returns a slot whose first [nmemb * size] bytes
    are zero; bytes outside it keep their values. *)
Theorem sa_calloc_zeroed s m nmemb size :
  sa_ok s -> 0 < nmemb * size < 4294967296 ->
  (forall i x, slots s !! i = Some x -> mapped m (sl_data x) (Z.to_nat (sl_size x))) ->
  wp (sa_calloc nmemb size)
    (fun p h => sa_ok (fst h) /\
       (p <> NULL -> bytes_at (snd h) p (repeat 0 (Z.to_nat (nmemb * size))) /\
          same_outside p (Z.to_nat (nmemb * size)) m (snd h)) /\
       (p = NULL -> h = (s, m))) (s, m).
Proof.
  intros Hok Hn Hmap. unfold sa_calloc. rewrite (u32_id (nmemb * size)) by lia.
  rewrite (proj2 (Z.eqb_neq _ 0)) by lia. wp_step. unfold on_sas. apply wp_zoom.
  apply wp_sa_alloc; [done|lia| |]; cbn [fst snd].
  - intros _. simpl. apply wp_ret. split; [done|]. by split.
  - intros i x Hi Hf _. pose proof Hok as (_ & _ & _ & Hd & Hl).
    destruct (laid_out_lookup _ _ _ _ Hl Hi) as [Hp _].
    rewrite (proj2 (Z.eqb_neq (sl_data x) NULL)) by (unfold NULL; lia).
    wp_step. unfold on_mem. apply wp_zoom. cbn [snd].
    eapply wp_mono; [|apply uc_memset_correct].
    + intros r m' (_ & Hb & Hs). apply wp_ret. cbn [fst snd].
      split; [apply (sa_ok_take s i x _ Hok Hi Hf ltac:(lia))|]. split; [done|]. unfold NULL. lia.
    + destruct Hf as [_ Hfit]. specialize (Hmap i x Hi). unfold mapped in *.
      intros k Hk. apply Hmap. lia.
Qed.

(** [sa_realloc] returns NULL whenever it returns, on every path.  When a
    slot is large enough it is taken and stays taken, although the caller never
    learns its address. *)
Theorem sa_realloc_null s m ptr size p s' m' o :
  sa_ok s -> 0 < ptr -> 0 < size < 4294967296 ->
  sa_realloc ptr size (s, m) = Done (p, (s', m'), o) ->
  p = NULL /\
  ((exists i x, slots s !! i = Some x /\ fits size x) -> used_slots s' = used_slots s + 1).
Proof.
  intros Hok Hp Hn Hrun. unfold sa_realloc in Hrun.
  rewrite (proj2 (Z.eqb_neq ptr NULL)), (proj2 (Z.eqb_neq size 0)) in Hrun by (unfold NULL; lia).
  assert (Hw : wp (sa_alloc size) (fun q s1 =>
    (q = NULL /\ Forall (fun x => ~ fits size x) (slots s)) \/
    (q <> NULL /\ used_slots s1 = used_slots s + 1)) s).
  { apply wp_sa_alloc; [done|lia|by left|]. intros i x Hi Hf _. right. simpl.
    pose proof Hok as (_ & _ & _ & Hd & Hl). destruct (laid_out_lookup _ _ _ _ Hl Hi). unfold NULL. lia. }
  apply wp_run in Hw as (q & s1 & o1 & Hrun1 & Hcase).
  unfold bind at 1, on_sas, zoom in Hrun. cbn [fst snd] in Hrun. rewrite Hrun1 in Hrun.
  destruct Hcase as [[-> Hall]|[Hq Hu]].
  - simpl in Hrun. injection Hrun as <- <- <- <-. split; [done|]. intros (i & x & Hi & Hf).
    exfalso. rewrite Forall_lookup in Hall. by eapply Hall.
  - rewrite (proj2 (Z.eqb_neq q NULL)) in Hrun by done. unfold bind, on_mem, zoom in Hrun. cbn [snd fst] in Hrun.
    destruct (uc_memcpy q ptr (Z.to_nat size) m) as [[[r m1] o2]| |]; simpl in Hrun; try done.
    injection Hrun as <- <- <- <-. done.
Qed.
End Pool.

Definition demo_pool : salloc_s :=
  Salloc &"demo" 16 8 2 0 [Slot SS_EMPTY 3 0 16; Slot SS_EMPTY 5 0 19].

Definition demo_mem : mem := mem_of 16 (repeat 7 8).

Lemma demo_pool_ok : sa_ok demo_pool.
Proof. unfold sa_ok. simpl. unfold sl_fill. simpl. split_and!; done. Qed.

Lemma demo_mem_mapped i x : slots demo_pool !! i = Some x ->
  mapped demo_mem (sl_data x) (Z.to_nat (sl_size x)).
Proof.
  unfold demo_pool, demo_mem. intros Hi.
  assert (Hm : mapped (mem_of 16 (repeat 7 8)) 16 8) 
    by (apply (mem_of_mapped (repeat 7 8)); unfold zlen; simpl; lia).
  destruct i as [|[|i]]; simpl in Hi; simplify_eq; unfold mapped in *; simpl; intros a Ha; apply Hm; lia.
Qed.

Section Witnesses.
#[local] Existing Instance stm32_target.
#[local] Instance cfg : Config := default_config false.

Lemma sa_alloc_first_fit_witness :
  wp (sa_alloc 4)
    (fun p s' => sa_ok s' /\
       ((p = NULL /\ s' = demo_pool /\ Forall (fun x => ~ fits 4 x) (slots demo_pool)) \/
        exists i x, slots demo_pool !! i = Some x /\ fits 4 x /\ p = sl_data x /\ p <> NULL /\
          s' = take_slot i x 4 demo_pool /\
          (forall j y, (j < i)%nat -> slots demo_pool !! j = Some y -> ~ fits 4 y) /\
          (forall j y, j <> i -> slots demo_pool !! j = Some y ->
             p + 4 <= sl_data y \/ sl_data y + sl_size y <= p))) demo_pool.
Proof. apply (sa_alloc_first_fit demo_pool 4); [exact demo_pool_ok|lia]. Defined.

Lemma sa_free_alloc_witness :
  wp (let* p := sa_alloc 4 in sa_free p) (fun _ s' => s' = demo_pool) demo_pool.
Proof. apply (sa_free_alloc demo_pool 4); [exact demo_pool_ok|lia]. Defined.

Lemma sa_calloc_zeroed_witness :
  wp (sa_calloc 2 2)
    (fun p h => sa_ok (fst h) /\
       (p <> NULL -> bytes_at (snd h) p (repeat 0 4) /\ same_outside p 4 demo_mem (snd h)) /\
       (p = NULL -> h = (demo_pool, demo_mem))) (demo_pool, demo_mem).
Proof.
  apply (sa_calloc_zeroed demo_pool demo_mem 2 2); [exact demo_pool_ok|lia|exact demo_mem_mapped].
Defined.

Lemma sa_realloc_null_witness :
  exists p s' m' o, sa_realloc 16 2 (demo_pool, demo_mem) = Done (p, (s', m'), o) /\
    p = NULL /\ ((exists i x, slots demo_pool !! i = Some x /\ fits 2 x) -> used_slots s' = 0 + 1).
Proof.
  eexists _, _, _, _. split; [vm_compute; reflexivity|].
  eapply (sa_realloc_null demo_pool demo_mem 16 2); [exact demo_pool_ok|lia|lia|].
  vm_compute. reflexivity.
Defined.

(** [sa_free] does not look at the state of the slot.  Freeing the same
    pointer twice makes the counter of used slots wrap to 65535, after which the
    pool no longer notices that it is full by its counter. *)
Theorem sa_double_free :
  exists s' o, (let* p := sa_alloc 3 in sa_free p ;; sa_free p) demo_pool = Done (tt, s', o)
    /\ used_slots s' = 65535 /\ count_used (slots s') = 0.
Proof. eexists _, _. vm_compute. split_and!; reflexivity. Qed.
End Witnesses.
