(* ===== verification/Net.v ===== *)
(** * common/net.c: URLs and IP addresses

    The functions of the file that compute; the others only forward to the host.
    A pointer into the address is an index; the buffers the parser fills are its
    results (the caller's buffers are compared with their lengths where the
    hosts call it). *)

From S2P Require Import Prelude Libc Strings.

Definition HTTP_URI : list Z := &"http://".
Definition MAX_HOSTNAME : Z := 128.
Definition MAX_URL : Z := 128.

Inductive net_state_e : Type := NET_UNKNOWN | NET_PENDING | NET_OPEN | NET_CLOSED | NET_ERROR.

#[export] Instance net_state_eq_dec : EqDecision net_state_e.
Proof. solve_decision. Defined.

(** [while (p(index[0]) && (index - address) < input_str) index++;] from [index]
    on; [rest] is the address from there. *)
Fixpoint scan (p : Z -> bool) (index : Z) (rest : list Z) : Z :=
  match rest with
  | [] => index
  | c :: r => if p c then scan p (index + 1) r else index
  end.

Definition host_char (c : Z) : bool := negb (c =? ch ":") && negb (c =? ch "/").

Section Ops.
Context `{T : Target} `{C : Config}.

Definition net_debug {S} (fmt : list Z) (args : list arg) : M S unit :=
  when CONFIG_NET_DEBUG (xprintf fmt args).

(** The bytes stored into [hostname], the value stored into [port] ([None]: it is
    not written) and the bytes stored into [remote].  No terminator is stored. *)
Definition net_parse_url {S} (address : list Z) : M S (list Z * option Z * list Z) :=
  let input_str := zlen address in
  net_debug &"%s: address lenght is %d.\n" [AStr &"net_parse_url"; ALong input_str] ;;
  let* r := lift (memcmp_l (cz address) (cz HTTP_URI) (length HTTP_URI)) in
  let old_index := if r =? 0 then zlen HTTP_URI else 0 in
  let index := scan host_char old_index (drop (Z.to_nat old_index) address) in
  let len := u16 (index - old_index) in
  let hostname := take (Z.to_nat len) (drop (Z.to_nat old_index) address) in
  let* c := lift (cchar address index) in
  let* (port, index) :=
    (if c =? ch ":" then
       let old_index := index + 1 in
       let index := scan (fun c => is_digit (chr c)) old_index (drop (Z.to_nat old_index) address) in
       let* port := lift (q3_atoi (drop (Z.to_nat old_index) address)) in
       ret (Some port, index)
     else ret (None, index)) in
  ret (hostname, port, if index <? input_str then drop (Z.to_nat index) address else []).

(** The loop of [net_str2ip]; [Some None] is the result -1. *)
Fixpoint str2ip_loop (fuel : nat) (str : list Z) (head tail tmp_ip : Z) : option (option Z) :=
  match fuel with
  | O => None
  | S fuel' =>
      if head <=? zlen str then
        match cchar str head with
        | None => None
        | Some c =>
            if (c =? ch ".") || (head =? zlen str) then
              if head - tail >? 3 then Some None
              else
                match q3_atoi (take (Z.to_nat (head - tail)) (drop (Z.to_nat tail) str)) with
                | None => None
                | Some seg =>
                    if u32 seg >? 255 then Some None
                    else str2ip_loop fuel' str (head + 2) (head + 1)
                           (Z.lor (u32 (Z.shiftl tmp_ip 8)) (u32 seg))
                end
            else str2ip_loop fuel' str (head + 1) tail tmp_ip
        end
      else Some (Some tmp_ip)
  end.

(** The inner result is [None] for -1, else the address; every round advances
    [head]. *)
Definition net_str2ip (str : option (list Z)) : option (option Z) :=
  match str with
  | None => Some None
  | Some s =>
      if (zlen s =? 0) || (zlen s <? 7) then Some None
      else str2ip_loop (length s + 2) s 0 0 0
  end.
End Ops.

(** ** Parsing the URLs of the player *)

Section Url.
Context `{T : Target} `{C : Config}.

Lemma wp_net_debug {S} fmt args (Q : unit -> S -> Prop) s :
  fmt_ok fmt args = true -> Q tt s -> wp (net_debug fmt args) Q s.
Proof. intros Hf HQ. apply wp_when; intros _; [by apply wp_xprintf|done]. Qed.

Lemma scan_app p a b : forall i, Forall (fun c => p c = true) a ->
  match b with [] => True | c :: _ => p c = false end -> scan p i (a ++ b) = i + zlen a.
Proof.
  induction a as [|c a IH]; intros i Ha Hb; simpl.
  - destruct b as [|d b]; simpl; [|rewrite Hb]; rewrite zlen_nil; lia.
  - inversion Ha as [|? ? Hc Ha']; subst. rewrite Hc, IH, zlen_cons by done. lia.
Qed.

Lemma drop_zlen_app (a b : list Z) : drop (Z.to_nat (zlen a)) (a ++ b) = b.
Proof. unfold zlen. by rewrite Nat2Z.id, drop_app_length. Qed.

Lemma take_zlen_app (a b : list Z) : take (Z.to_nat (zlen a)) (a ++ b) = a.
Proof. unfold zlen. by rewrite Nat2Z.id, take_app_length. Qed.

Lemma cchar_app a b : cchar (a ++ b) (zlen a) = Some (hd 0 b).
Proof.
  unfold cchar. rewrite zlen_app. destruct b as [|c b]; simpl.
  - by rewrite zlen_nil, Z.add_0_r, Z.eqb_refl.
  - rewrite (proj2 (Z.eqb_neq _ _)) by (rewrite zlen_cons; pose proof (zlen_nonneg b); lia).
    unfold zlen. rewrite zget_nat. by rewrite lookup_app_r, Nat.sub_diag by lia.
Qed.

Lemma dec_text_digits z : 0 <= z -> Forall (fun c => 48 <= c <= 57) (dec_text z).
Proof.
  intros Hz. unfold dec_text. rewrite (proj2 (Z.ltb_ge z 0)) by lia. cbn [app].
  apply Forall_rev, num_digits_ascii. lia.
Qed.

(** Text behind a number that is no digit does not change what is read. *)
Lemma atoi_dec_text_tail z b : 0 <= z < 2147483648 ->
  match b with [] => True | c :: _ => is_digit (chr c) = false end ->
  q3_atoi (dec_text z ++ b) = Some z.
Proof.
  intros Hz Hb. assert (Hd : forall l v, atoi_digits l v = None \/
    exists w, atoi_digits l v = Some w /\ (atoi_digits (l ++ b) v = Some w)).
  { induction l as [|c l IH]; intros v; simpl.
    - right. exists v. split; [done|]. destruct b as [|c b]; [done|]. simpl. by rewrite Hb.
    - destruct (is_digit (chr c)); [|right; by exists v]. destruct (_ <=? _); [apply IH|by left]. }
  pose proof (atoi_dec_text z ltac:(lia)) as Ha. pose proof (dec_text_digits z ltac:(lia)) as Hdig.
  destruct (dec_text z) as [|c l] eqn:Hl.
  { unfold dec_text in Hl. rewrite (proj2 (Z.ltb_ge z 0)) in Hl by lia. cbn [app] in Hl.
    pose proof (num_digits_length 10 (Z.abs z) 100) as Hlen. change (10 ^ Z.of_nat 10) with 10000000000 in Hlen.
    specialize (Hlen ltac:(lia) ltac:(lia)). apply (f_equal (@length Z)) in Hl.
    rewrite length_rev in Hl. simpl in Hl. lia. }
  inversion Hdig as [|? ? Hc _]; subst. unfold q3_atoi in *. cbn [atoi_skip app] in *.
  rewrite chr_ascii in * by lia. rewrite (proj2 (Z.leb_gt c 32)) in * by lia.
  rewrite (proj2 (Z.eqb_neq c 43)), (proj2 (Z.eqb_neq c 45)) in * by lia.
  destruct (Hd (c :: l) 0) as [Hn|(w & Hw & Hw')]; [congruence|].
  change (c :: l ++ b) with ((c :: l) ++ b). rewrite Hw'. congruence.
Qed.

(** A URL of the form http://host:port/path (the path may be empty) is split
    into exactly these three parts. *)
Theorem net_parse_url_full {S} (s : S) host port path :
  cstring host -> Forall (fun c => host_char c = true) host -> zlen host < 65536 ->
  0 <= port < 2147483648 -> (path = [] \/ exists r, path = ch "/" :: r) ->
  wp (net_parse_url (HTTP_URI ++ host ++ ch ":" :: dec_text port ++ path))
    (fun r s' => r = (host, Some port, path) /\ s' = s) s.
Proof.
  intros Hc Hh Hl Hp Hpath. unfold net_parse_url. wp_step. apply wp_net_debug; [reflexivity|]. wp_step.
  eapply wp_lift; [reflexivity|]. cbn [Z.eqb]. pose proof (zlen_nonneg host).
  rewrite drop_zlen_app, (scan_app host_char host) by done. rewrite Z.add_simpl_l, u16_id by lia.
  rewrite take_zlen_app. wp_step.
  rewrite app_assoc, <- zlen_app. eapply wp_lift; [apply cchar_app|]. cbn [hd Z.eqb Pos.eqb].
  assert (Hdrop : drop (Z.to_nat (zlen (HTTP_URI ++ host) + 1)) ((HTTP_URI ++ host) ++ ch ":" :: dec_text port ++ path)
    = dec_text port ++ path).
  { replace (zlen (HTTP_URI ++ host) + 1) with (zlen ((HTTP_URI ++ host) ++ [ch ":"]))
      by (rewrite (zlen_app _ [ch ":"]); done).
    rewrite (cons_middle _ (HTTP_URI ++ host) (dec_text port ++ path)), (app_assoc (HTTP_URI ++ host)).
    apply drop_zlen_app. }
  rewrite Hdrop.
  assert (Hpath' : match path with [] => True | c :: _ => is_digit (chr c) = false end).
  { destruct Hpath as [->|[r ->]]; [done|]. by rewrite chr_ascii by lia. }
  wp_step. wp_step. eapply wp_lift; [by apply atoi_dec_text_tail|]. wp_steps. split; [|done].
  rewrite scan_app; [|eapply List.Forall_impl; [|apply dec_text_digits; lia]|done].
  - do 2 f_equal. rewrite (cons_middle _ (HTTP_URI ++ host) (dec_text port ++ path)), !app_assoc.
    replace (zlen (HTTP_URI ++ host) + 1 + zlen (dec_text port))
      with (zlen (((HTTP_URI ++ host) ++ [ch ":"]) ++ dec_text port))
      by (rewrite !zlen_app; reflexivity).
    rewrite drop_zlen_app, (zlen_app _ path). destruct path as [|c path].
    + by destruct (_ <? _).
    + by rewrite (proj2 (Z.ltb_lt _ _)) by (rewrite zlen_cons; pose proof (zlen_nonneg path); lia).
  - intros c Hcd. simpl in Hcd. rewrite chr_ascii by lia. by apply is_digit_true.
Qed.

(** Without a port the caller's variable keeps its value. *)
Lemma net_parse_url_no_port {S} (s : S) host path :
  cstring host -> Forall (fun c => host_char c = true) host -> zlen host < 65536 ->
  (path = [] \/ exists r, path = ch "/" :: r) ->
  wp (net_parse_url (HTTP_URI ++ host ++ path))
    (fun r s' => r = (host, None, path) /\ s' = s) s.
Proof.
  intros Hc Hh Hl Hpath. unfold net_parse_url. wp_step. apply wp_net_debug; [reflexivity|]. wp_step.
  eapply wp_lift; [reflexivity|]. cbn [Z.eqb]. pose proof (zlen_nonneg host).
  rewrite drop_zlen_app, (scan_app host_char host) by (destruct Hpath as [->|[r ->]]; done).
  rewrite Z.add_simpl_l, u16_id by lia. rewrite take_zlen_app. wp_step.
  rewrite app_assoc, <- zlen_app. eapply wp_lift; [apply cchar_app|]. wp_step.
  replace (hd 0 path =? 58) with false by (destruct Hpath as [->|[r ->]]; done). wp_steps.
  split; [|done]. rewrite drop_zlen_app, (zlen_app _ path). destruct path as [|c path].
  - by destruct (_ <? _).
  - by rewrite (proj2 (Z.ltb_lt _ _)) by (rewrite zlen_cons; pose proof (zlen_nonneg path); lia).
Qed.

(** ** Dotted addresses *)

Lemma zget_middle (pre t b : list Z) i : 0 <= i < zlen t ->
  zget (pre ++ t ++ b) (zlen pre + i) = t !! Z.to_nat i.
Proof.
  intros Hi. unfold zlen in *. replace (Z.of_nat (length pre) + i) with (Z.of_nat (length pre + Z.to_nat i)) by lia.
  rewrite zget_nat, lookup_app_r by lia. rewrite lookup_app_l by lia. f_equal. lia.
Qed.

(** Inside a segment the loop only advances. *)
Lemma str2ip_advance pre t b tail ip fuel : Forall (fun c => 48 <= c <= 57) t ->
  forall n i, 0 <= i -> i + Z.of_nat n = zlen t ->
  str2ip_loop (n + fuel) (pre ++ t ++ b) (zlen pre + i) tail ip
  = str2ip_loop fuel (pre ++ t ++ b) (zlen pre + zlen t) tail ip.
Proof.
  intros Ht. induction n as [|n IH]; intros i Hi Hn.
  - cbn [Nat.add]. f_equal. lia.
  - cbn [Nat.add str2ip_loop]. pose proof (zlen_nonneg pre). pose proof (zlen_nonneg b).
    rewrite (proj2 (Z.leb_le _ _)) by (rewrite !zlen_app; lia).
    unfold cchar. rewrite (proj2 (Z.eqb_neq _ _)) by (rewrite !zlen_app; lia).
    rewrite zget_middle by lia. destruct (t !! Z.to_nat i) as [c|] eqn:Hc;
      [|apply lookup_ge_None in Hc; unfold zlen in *; lia].
    pose proof (Forall_lookup_1 _ _ _ _ Ht Hc) as Hd. simpl in Hd.
    rewrite (proj2 (Z.eqb_neq c 46)) by lia. cbn [orb].
    replace (zlen pre + i + 1) with (zlen pre + (i + 1)) by lia. apply IH; lia.
Qed.

Lemma dec_text_octet v : 0 <= v < 256 -> 1 <= zlen (dec_text v) <= 3.
Proof.
  intros Hv. unfold dec_text, zlen. rewrite (proj2 (Z.ltb_ge v 0)) by lia. cbn [app].
  rewrite length_rev, (num_digits_fuel 3 7) by (change (10 ^ Z.of_nat 3) with 1000; lia).
  pose proof (num_digits_length 3 (Z.abs v) 100) as Hl. change (10 ^ Z.of_nat 3) with 1000 in Hl. lia.
Qed.

(** One segment: the octet is shifted in and both pointers move behind the dot. *)
Lemma str2ip_segment s pre v b ip fuel n i : s = pre ++ dec_text v ++ b -> 0 <= v < 256 -> 0 <= ip < 16777216 ->
  (b = [] \/ exists r, b = ch "." :: r) -> 0 <= i -> i + Z.of_nat n = zlen (dec_text v) ->
  str2ip_loop (n + S fuel) s (zlen pre + i) (zlen pre) ip
  = str2ip_loop fuel s (zlen (pre ++ dec_text v ++ [ch "."]) + 1)
      (zlen (pre ++ dec_text v ++ [ch "."])) (ip * 256 + v).
Proof.
  intros -> Hv Hip Hb Hi Hn. rewrite str2ip_advance by (done || apply dec_text_digits; lia).
  pose proof (zlen_nonneg b). pose proof (zlen_nonneg pre). pose proof (dec_text_octet v Hv).
  cbn [str2ip_loop]. rewrite (proj2 (Z.leb_le _ _)) by (rewrite !zlen_app; lia).
  replace (cchar (pre ++ dec_text v ++ b) (zlen pre + zlen (dec_text v))) with (Some (hd 0 b))
    by (rewrite app_assoc, <- zlen_app; symmetry; apply cchar_app).
  assert (Hend : (hd 0 b =? 46) || (zlen pre + zlen (dec_text v) =? zlen (pre ++ dec_text v ++ b)) = true).
  { destruct Hb as [->|[r ->]]; [|done]. rewrite app_nil_r, zlen_app, Z.eqb_refl. apply orb_true_r. }
  rewrite Hend. replace (zlen pre + zlen (dec_text v) - zlen pre) with (zlen (dec_text v)) by lia.
  replace (zlen (dec_text v) >? 3) with false by lia.
  rewrite drop_zlen_app, take_zlen_app, atoi_dec_text by lia.
  rewrite (u32_id v) by lia. replace (v >? 255) with false by lia.
  assert (Hor : Z.lor (u32 (Z.shiftl ip 8)) v = ip * 256 + v) by (apply (shift_in ip v 8); lia).
  rewrite Hor, !zlen_app. change (zlen [46]) with 1. f_equal; lia.
Qed.

Definition ip_text (a b c d : Z) : list Z :=
  dec_text a ++ ch "." :: dec_text b ++ ch "." :: dec_text c ++ ch "." :: dec_text d.

Lemma xvprintf_ip a b c d :
  0 <= a < 256 -> 0 <= b < 256 -> 0 <= c < 256 -> 0 <= d < 256 ->
  xvprintf &"%d.%d.%d.%d" [AInt a; AInt b; AInt c; AInt d] = Done (ip_text a b c d).
Proof.
  intros Ha Hb Hc Hd. unfold xvprintf. cbn [length].
  assert (Hdot : forall f fmt args, xvprintf_loop (S f) (ch "." :: fmt) args = emit [ch "."] (xvprintf_loop f fmt args)).
  { intros f fmt args. cbn [xvprintf_loop fmt_next]. rewrite chr_ascii by lia. done. }
  rewrite !xvprintf_loop_d, Hdot by lia. rewrite !xvprintf_loop_d, Hdot by lia.
  rewrite !xvprintf_loop_d, Hdot by lia. rewrite !xvprintf_loop_d by lia.
  simpl. unfold ip_text. rewrite app_nil_r, <- ?app_assoc. done.
Qed.

(** An address printed with [%d.%d.%d.%d] is read back by [net_str2ip] as
    the 32-bit number with these octets. *)
Theorem net_str2ip_roundtrip a b c d :
  0 <= a < 256 -> 0 <= b < 256 -> 0 <= c < 256 -> 0 <= d < 256 ->
  exists t, xvprintf &"%d.%d.%d.%d" [AInt a; AInt b; AInt c; AInt d] = Done t /\
    net_str2ip (Some t) = Some (Some (((a * 256 + b) * 256 + c) * 256 + d)).
Proof.
  intros Ha Hb Hc Hd. exists (ip_text a b c d). split; [by apply xvprintf_ip|].
  pose proof (dec_text_octet a Ha). pose proof (dec_text_octet b Hb).
  pose proof (dec_text_octet c Hc). pose proof (dec_text_octet d Hd).
  assert (Hlen : zlen (ip_text a b c d) = zlen (dec_text a) + zlen (dec_text b) + zlen (dec_text c) + zlen (dec_text d) + 3)
    by (unfold ip_text; repeat (rewrite zlen_app || rewrite zlen_cons); lia).
  unfold net_str2ip. rewrite (proj2 (Z.eqb_neq _ 0)), (proj2 (Z.ltb_ge _ 7)) by lia. cbn [orb].
  replace (length (ip_text a b c d) + 2)%nat with
    (length (dec_text a) + S ((length (dec_text b) - 1) + S ((length (dec_text c) - 1)
      + S ((length (dec_text d) - 1) + S 4))))%nat by (unfold zlen in *; lia).
  pose (p1 := [] ++ dec_text a ++ [ch "."]). pose (p2 := p1 ++ dec_text b ++ [ch "."]).
  pose (p3 := p2 ++ dec_text c ++ [ch "."]).
  assert (E1 : ip_text a b c d = p1 ++ dec_text b ++ ch "." :: dec_text c ++ ch "." :: dec_text d)
    by (unfold ip_text, p1; cbn [app]; by rewrite <- app_assoc).
  assert (E2 : ip_text a b c d = p2 ++ dec_text c ++ ch "." :: dec_text d)
    by (rewrite E1; unfold p2; by rewrite <- !app_assoc).
  assert (E3 : ip_text a b c d = p3 ++ dec_text d ++ [])
    by (rewrite E2; unfold p3; by rewrite app_nil_r, <- !app_assoc).
  change 0 with (zlen (@nil Z) + 0) at 1. change 0 with (zlen (@nil Z)) at 2.
  rewrite (str2ip_segment (ip_text a b c d) [] a (ch "." :: dec_text b ++ ch "." :: dec_text c ++ ch "." :: dec_text d))
    by (done || lia || (right; by eexists) || (unfold zlen; lia)). fold p1.
  rewrite (str2ip_segment (ip_text a b c d) p1 b (ch "." :: dec_text c ++ ch "." :: dec_text d))
    by (done || lia || (right; by eexists) || (unfold zlen in *; lia)). fold p2.
  rewrite (str2ip_segment (ip_text a b c d) p2 c (ch "." :: dec_text d))
    by (done || lia || (right; by eexists) || (unfold zlen in *; lia)). fold p3.
  rewrite (str2ip_segment (ip_text a b c d) p3 d [])
    by (done || lia || (left; done) || (unfold zlen in *; lia)).
  cbn [str2ip_loop]. rewrite (proj2 (Z.leb_gt _ _)); [f_equal; f_equal; lia|].
  rewrite E3, !zlen_app. change (zlen [46]) with 1. change (zlen (@nil Z)) with 0. lia.
Qed.
End Url.

Section Witnesses.
#[local] Existing Instance linux_target.
#[local] Instance cfg : Config := default_config true.

Lemma net_parse_url_full_witness :
  wp (net_parse_url (HTTP_URI ++ &"live.slovakradio.sk" ++ ch ":" :: dec_text 8000 ++ &"/Devin_128.mp3"))
    (fun r s' => r = (&"live.slovakradio.sk", Some 8000, &"/Devin_128.mp3") /\ s' = tt) tt.
Proof.
  apply (net_parse_url_full tt &"live.slovakradio.sk" 8000 &"/Devin_128.mp3").
  - repeat constructor.
  - repeat constructor.
  - vm_compute. reflexivity.
  - lia.
  - right. by eexists.
Defined.

Lemma net_str2ip_roundtrip_witness :
  exists t, xvprintf &"%d.%d.%d.%d" [AInt 62; AInt 168; AInt 92; AInt 250] = Done t /\
    net_str2ip (Some t) = Some (Some (((62 * 256 + 168) * 256 + 92) * 256 + 250)).
Proof. apply (net_str2ip_roundtrip 62 168 92 250); lia. Defined.

(** [net_str2ip] does not count segments: three of them are accepted (and
    give an address with a zero first octet), so are five (the first is shifted
    out), a dot at the end, and text that is no number. *)
Theorem net_str2ip_accepts_malformed :
  net_str2ip (Some &"10.20.30") = Some (Some ((10 * 256 + 20) * 256 + 30)) /\
  net_str2ip (Some &"1.2.3.4.5") = Some (Some (((2 * 256 + 3) * 256 + 4) * 256 + 5)) /\
  net_str2ip (Some &"10.0.0.1.") = Some (Some (((10 * 256 + 0) * 256 + 0) * 256 + 1)) /\
  net_str2ip (Some &"abc.def") = Some (Some 0).
Proof. split_and!; reflexivity. Qed.
End Witnesses.
