(* ===== verification/State.v ===== *)
(** * The state of the player and the interfaces it is built on

    common/platform.h is the interface between the common part and a host; it is
    the class [Platform].  What common/libmad.c uses of the MP3 decoder is the
    class [Mad].  The record [state] holds the static variables of every
    component of the common part next to the state of host and decoder; an
    operation of a component runs on its own part of it ([on_con], [on_ev],
    ...). *)

From S2P Require Import Prelude Libc Snd IoBuffer Console Event Cmd Resfs Net.

(** ** common/platform.h *)

(** lcd.h: resources are numbers, because the volume is added to one. *)
Definition LR_BLANK : Z := 0.
Definition LR_STARTUP : Z := 1.
Definition LR_WELLCOME : Z := 2.
Definition LR_ERROR : Z := 3.
Definition LR_ERROR_INIT : Z := 4.
Definition LR_ERROR_NET : Z := 5.
Definition LR_ERROR_FS : Z := 6.
Definition LR_ERROR_SOUND : Z := 7.
Definition LR_ERROR_LIBMAD : Z := 8.
Definition LR_RADIO : Z := 9.
Definition LR_FILE : Z := 10.
Definition LR_PLAY : Z := 11.
Definition LR_STOP : Z := 12.
Definition LR_VOLUME_00 : Z := 13.
Definition LR_VOLUME_15 : Z := 28.

Record lcd_cfg_s : Type := LcdCfg { width : Z; height : Z; bpp : Z }.

(** player.h *)
Inductive pl_state_e : Type := PL_UNKNOWN | PL_STOP | PL_PLAYING | PL_BUFFERING.
Inductive pl_source_e : Type := PS_UNKNOWN | PS_NET | PS_FILE.

#[export] Instance pl_state_eq_dec : EqDecision pl_state_e.
Proof. solve_decision. Defined.
#[export] Instance pl_source_eq_dec : EqDecision pl_source_e.
Proof. solve_decision. Defined.
#[export] Instance sound_state_eq_dec : EqDecision sound_state_e.
Proof. solve_decision. Defined.

(** The host operations.  The type of each says what of the common part the
    hosts touch in it: the console line and the events, or the buffer rings.
    [host_fs_read] gives the count and the bytes it stores; the sound loop is
    given the player's state and volume, which it reads. *)
Class Platform (H : Type) := {
  get_local_time : M H Z;
  host_con_init : M H unit;
  host_con_poll : M (H * con_t * ev_t) unit;
  host_fs_init : M H unit;
  host_fs_open : list Z -> M H Z;
  host_fs_close : Z -> M H unit;
  host_fs_read : Z -> Z -> M H (Z * list Z);
  host_fs_seek : Z -> Z -> M H unit;
  host_net_init : M H unit;
  host_net_done : M H unit;
  host_net_open : list Z -> M H unit;
  host_net_close : M H unit;
  host_net_poll : M (H * io_t) unit;
  host_net_state : M H net_state_e;
  host_snd_init : M H unit;
  host_snd_done : M H unit;
  host_snd_loop : pl_state_e -> Z -> M (H * io_t) unit;
  host_snd_state : M H sound_state_e;
  host_lcd_init : M H unit;
  host_lcd_done : M H unit;
  host_lcd_draw : Z -> M H unit;
  host_lcd_get_cfg : M H lcd_cfg_s;
  host_lcd_putpixel : Z -> Z -> Z -> M H unit;
  host_lcd_update_screen : M H unit;
  host_lcd_clean_screen : M H unit;
  host_cmd_net_state : M H unit;
  host_cmd_snd_state : Z -> M H unit
}.

(** ** What libmad.c uses of the decoder library *)

(** The fields of [struct mad_stream] that libmad.c reads; the pointers are
    offsets into [libmad_buffer], [None] is NULL. *)
Record mad_stream : Type := MadStream {
  this_frame : option Z;
  next_frame : option Z;
  bufend : option Z;
  ms_error : Z;
  skiplen : Z
}.

(** [struct mad_header] and [struct mad_pcm], as far as they are read. *)
Record mad_header : Type := MadHeader {
  mh_layer : Z; mh_mode : Z; mh_bitrate : Z; mh_samplerate : Z; mh_flags : Z
}.
Record mad_pcm : Type := MadPcm {
  pcm_samplerate : Z; pcm_channels : Z; pcm_length : Z;
  pcm_left : list Z; pcm_right : list Z
}.

(** The decoder proper.  [D] is everything it keeps beside the stream fields. *)
Class Mad (D : Type) := {
  mad_init : D -> D;
  mad_finish : D -> D;
  mad_buffered : D -> D;
  mad_header_decode : list Z -> mad_stream -> D -> res (Z * mad_stream * D);
  mad_frame_decode : list Z -> mad_stream -> D -> res (Z * mad_stream * D);
  mad_frame_mute : D -> D;
  mad_timer_add : D -> D;
  mad_synth_frame : D -> res D;
  mad_get_header : D -> mad_header;
  mad_get_pcm : D -> mad_pcm;
  mad_errorstr : Z -> option (list Z);
  mad_timer_text : D -> res (list Z)
}.

(** ** The static variables of the components *)

(** fs.c *)
Inductive fs_state_e : Type := FSS_UNKNOWN | FSS_OPEN | FSS_CLOSED | FSS_ERROR.
Inductive fs_type_e : Type := FST_UNKNOWN | FST_NONE | FST_RIFF | FST_MP3.
Inductive fssource_e : Type := FSO_CLOSED | FSO_RESOURCE | FSO_HOST.

#[export] Instance fs_state_eq_dec : EqDecision fs_state_e.
Proof. solve_decision. Defined.
#[export] Instance fs_type_eq_dec : EqDecision fs_type_e.
Proof. solve_decision. Defined.
#[export] Instance fssource_eq_dec : EqDecision fssource_e.
Proof. solve_decision. Defined.

Record fshandle_s : Type := FsHandle { fh_source : fssource_e; fh_handle : Z }.

Record fss_t : Type := Fss {
  fss_state : fs_state_e;
  fss_type : fs_type_e;
  fss_rate : sound_rate_e;
  fss_channels : Z;
  fss_handle : Z;
  fss_handles : list fshandle_s
}.

(** lcd.c *)
Record lcd_timer_s : Type := LcdTimer { timeout : Z; active : Z }.
Record lcd_t : Type := Lcd { lcd_tvolume : lcd_timer_s; lcd_tmedia : lcd_timer_s; lcd_err : Z }.

Definition lcd_zero : lcd_t := Lcd (LcdTimer 0 0) (LcdTimer 0 0) 0.

(** libmad.c *)
Inductive libmad_state_e : Type := LM_UNKNOWN | LM_INIT | LM_DONE | LM_ERROR.

#[export] Instance libmad_state_eq_dec : EqDecision libmad_state_e.
Proof. solve_decision. Defined.

Record mad_t (D : Type) : Type := MadState {
  m_stream : mad_stream;
  m_dec : D;
  m_frames : Z;      (* long *)
  m_banner : Z;
  m_err_count : Z;
  m_state : libmad_state_e;
  libmad_buffer : list Z
}.
Arguments MadState {D}.
Arguments m_stream {D}.
Arguments m_dec {D}.
Arguments m_frames {D}.
Arguments m_banner {D}.
Arguments m_err_count {D}.
Arguments m_state {D}.
Arguments libmad_buffer {D}.

(** player.c *)
Record pl_t : Type := Pl {
  source_addr : list Z;   (* char source_addr[MAX_CONSOLE_INPUT] *)
  source_type : pl_source_e;
  pl_st : pl_state_e;
  volume : Z              (* uint8_t *)
}.

Record state (H D : Type) : Type := State {
  s_con : con_t;
  s_ev : ev_t;
  s_cmd : cmd_t;
  s_io : io_t;
  s_fss : fss_t;
  s_res : rs_t;
  s_lcd : lcd_t;
  s_mad : mad_t D;
  s_pl : pl_t;
  s_host : H;
  s_quit : Z              (* char quit *)
}.
Arguments State {H D}.
Arguments s_con {H D}.
Arguments s_ev {H D}.
Arguments s_cmd {H D}.
Arguments s_io {H D}.
Arguments s_fss {H D}.
Arguments s_res {H D}.
Arguments s_lcd {H D}.
Arguments s_mad {H D}.
Arguments s_pl {H D}.
Arguments s_host {H D}.
Arguments s_quit {H D}.

Section Parts.
Context {H D : Type}.
Implicit Types s : state H D.

Definition set_con (x : con_t) s : state H D :=
  State x (s_ev s) (s_cmd s) (s_io s) (s_fss s) (s_res s) (s_lcd s) (s_mad s) (s_pl s) (s_host s) (s_quit s).
Definition set_ev (x : ev_t) s : state H D :=
  State (s_con s) x (s_cmd s) (s_io s) (s_fss s) (s_res s) (s_lcd s) (s_mad s) (s_pl s) (s_host s) (s_quit s).
Definition set_cmd (x : cmd_t) s : state H D :=
  State (s_con s) (s_ev s) x (s_io s) (s_fss s) (s_res s) (s_lcd s) (s_mad s) (s_pl s) (s_host s) (s_quit s).
Definition set_io (x : io_t) s : state H D :=
  State (s_con s) (s_ev s) (s_cmd s) x (s_fss s) (s_res s) (s_lcd s) (s_mad s) (s_pl s) (s_host s) (s_quit s).
Definition set_fss (x : fss_t) s : state H D :=
  State (s_con s) (s_ev s) (s_cmd s) (s_io s) x (s_res s) (s_lcd s) (s_mad s) (s_pl s) (s_host s) (s_quit s).
Definition set_res (x : rs_t) s : state H D :=
  State (s_con s) (s_ev s) (s_cmd s) (s_io s) (s_fss s) x (s_lcd s) (s_mad s) (s_pl s) (s_host s) (s_quit s).
Definition set_lcd (x : lcd_t) s : state H D :=
  State (s_con s) (s_ev s) (s_cmd s) (s_io s) (s_fss s) (s_res s) x (s_mad s) (s_pl s) (s_host s) (s_quit s).
Definition set_mad (x : mad_t D) s : state H D :=
  State (s_con s) (s_ev s) (s_cmd s) (s_io s) (s_fss s) (s_res s) (s_lcd s) x (s_pl s) (s_host s) (s_quit s).
Definition set_pl (x : pl_t) s : state H D :=
  State (s_con s) (s_ev s) (s_cmd s) (s_io s) (s_fss s) (s_res s) (s_lcd s) (s_mad s) x (s_host s) (s_quit s).
Definition set_host (x : H) s : state H D :=
  State (s_con s) (s_ev s) (s_cmd s) (s_io s) (s_fss s) (s_res s) (s_lcd s) (s_mad s) (s_pl s) x (s_quit s).
Definition set_quit (x : Z) s : state H D :=
  State (s_con s) (s_ev s) (s_cmd s) (s_io s) (s_fss s) (s_res s) (s_lcd s) (s_mad s) (s_pl s) (s_host s) x.

Definition on_con {A} : M con_t A -> M (state H D) A := zoom s_con set_con.
Definition on_ev {A} : M ev_t A -> M (state H D) A := zoom s_ev set_ev.
Definition on_cmd {A} : M cmd_t A -> M (state H D) A := zoom s_cmd set_cmd.
Definition on_io {A} : M io_t A -> M (state H D) A := zoom s_io set_io.
Definition on_res {A} : M rs_t A -> M (state H D) A := zoom s_res set_res.
Definition on_host {A} : M H A -> M (state H D) A := zoom s_host set_host.
Definition on_host_io {A} : M (H * io_t) A -> M (state H D) A :=
  zoom (fun s => (s_host s, s_io s)) (fun x s => set_io (snd x) (set_host (fst x) s)).
Definition on_host_con {A} : M (H * con_t * ev_t) A -> M (state H D) A :=
  zoom (fun s => (s_host s, s_con s, s_ev s))
    (fun x s => set_ev (snd x) (set_con (snd (fst x)) (set_host (fst (fst x)) s))).

Definition upd_fss (f : fss_t -> fss_t) : M (state H D) unit := modify (fun s => set_fss (f (s_fss s)) s).
Definition upd_lcd (f : lcd_t -> lcd_t) : M (state H D) unit := modify (fun s => set_lcd (f (s_lcd s)) s).
Definition upd_mad (f : mad_t D -> mad_t D) : M (state H D) unit := modify (fun s => set_mad (f (s_mad s)) s).
Definition upd_pl (f : pl_t -> pl_t) : M (state H D) unit := modify (fun s => set_pl (f (s_pl s)) s).
End Parts.

(** ** The forwarding functions of snd.c, net.c and the event push *)

Section Forward.
Context {H D : Type} `{T : Target} `{C : Config} `{P : Platform H}.

Definition local_time : M (state H D) Z := on_host get_local_time.

Definition push_event (type : event_type_e) (par : Z) (p : ptr) : M (state H D) unit :=
  let* time := local_time in on_ev (event_push time type par p).

Definition snd_init : M (state H D) unit := on_host host_snd_init.
Definition snd_done : M (state H D) unit := on_host host_snd_done.
Definition snd_state : M (state H D) sound_state_e := on_host host_snd_state.
Definition snd_loop : M (state H D) unit :=
  let* s := get in on_host_io (host_snd_loop (pl_st (s_pl s)) (volume (s_pl s))).

Definition net_init : M (state H D) unit := on_host host_net_init.
Definition net_done : M (state H D) unit := on_host host_net_done.
Definition net_open (url : list Z) : M (state H D) unit := on_host (host_net_open url).
Definition net_close : M (state H D) unit := on_host host_net_close.
Definition net_poll : M (state H D) unit := on_host_io host_net_poll.
Definition net_state : M (state H D) net_state_e := on_host host_net_state.

Definition con_init : M (state H D) unit := on_con con_clear ;; on_host host_con_init.
Definition con_poll : M (state H D) unit := on_host_con host_con_poll.
End Forward.
