(* ===== verification/Fs.v ===== *)
(** * common/fs.c: files, file types and the file pollers

    A file is found on the host or among the resources; [fss.handles] says which.
    One file at a time is played: [fss.handle] is its handle, the pollers move
    its blocks into the buffer rings. *)

From S2P Require Import Prelude Libc Snd IoBuffer Cmd Id3tag Resfs State.

Definition MAX_OPEN_FILES : Z := 3.

Definition fss_zero : fss_t :=
  Fss FSS_UNKNOWN FST_UNKNOWN SR_UNKNOWN 0 0 (repeat (FsHandle FSO_CLOSED 0) (Z.to_nat MAX_OPEN_FILES)).

(** ['R' << 0 | 'I' << 8 | 'F' << 16 | 'F' << 24] and the other chunk names *)
Definition fourcc (l : list Z) : Z :=
  match l with
  | [a; b; c; d] => a + 256 * b + 65536 * c + 16777216 * d
  | _ => 0
  end.
Definition RIFF_SIGNATURE : Z := fourcc &"RIFF".
Definition RIFF_FORMAT : Z := fourcc &"WAVE".
Definition RIFF_FMT : Z := fourcc &"fmt ".
Definition RIFF_DATA : Z := fourcc &"data".
Definition RIFF_FACT : Z := fourcc &"fact".
Definition RIFF_FMT_PCM : Z := 1.
Definition RIFF_FMT_GSM : Z := 49.

(** Little-endian fields of the structures laid over a buffer of [uint8_t]. *)
Definition le16 (l : list Z) (off : Z) : option Z :=
  match zget l off, zget l (off + 1) with
  | Some a, Some b => Some (u8 a + 256 * u8 b)
  | _, _ => None
  end.
Definition le32 (l : list Z) (off : Z) : option Z :=
  match le16 l off, le16 l (off + 2) with
  | Some a, Some b => Some (a + 65536 * b)
  | _, _ => None
  end.

Definition set_fstate (x : fs_state_e) (f : fss_t) : fss_t :=
  Fss x (fss_type f) (fss_rate f) (fss_channels f) (fss_handle f) (fss_handles f).
Definition set_fhandle (x : Z) (f : fss_t) : fss_t :=
  Fss (fss_state f) (fss_type f) (fss_rate f) (fss_channels f) x (fss_handles f).
Definition set_fhandles (x : list fshandle_s) (f : fss_t) : fss_t :=
  Fss (fss_state f) (fss_type f) (fss_rate f) (fss_channels f) (fss_handle f) x.
Definition set_fformat (ty : fs_type_e) (r : sound_rate_e) (ch : Z) (f : fss_t) : fss_t :=
  Fss (fss_state f) ty r ch (fss_handle f) (fss_handles f).

Section Ops.
Context {H D : Type} `{T : Target} `{C : Config} `{P : Platform H}.
Abbreviation MS := (M (state H D)).

Definition fs_debug {S} (fmt : list Z) (args : list arg) : M S unit :=
  when CONFIG_FS_DEBUG (xprintf fmt args).

Lemma wp_fs_debug {S} fmt args (Q : unit -> S -> Prop) s :
  fmt_ok fmt args = true -> Q tt s -> wp (fs_debug fmt args) Q s.
Proof. intros Hf HQ. apply wp_when; intros _; [by apply wp_xprintf|done]. Qed.

(** ** Handles *)

Definition fs_init : MS unit :=
  fs_debug &"fs_init\n" [] ;;
  upd_fss (fun _ => fss_zero) ;;
  on_host host_fs_init ;;
  on_res res_init ;;
  upd_fss (set_fstate FSS_CLOSED) ;;
  upd_fss (set_fhandle (-1)).

Fixpoint free_slot (i : Z) (n : nat) (l : list fshandle_s) : option Z :=
  match n, l with
  | O, _ => Some (-1)
  | S _, [] => None
  | S n', h :: l' => if bool_decide (fh_source h = FSO_CLOSED) then Some i else free_slot (i + 1) n' l'
  end.

Definition fs_get_handle : MS Z :=
  let* s := get in lift (free_slot 0 (Z.to_nat MAX_OPEN_FILES) (fss_handles (s_fss s))).

Definition set_handle (i : Z) (h : fshandle_s) : MS unit :=
  let* s := get in
  let* l := lift (zset (fss_handles (s_fss s)) i h) in
  upd_fss (set_fhandles l).

Definition fs_open (name : list Z) : MS Z :=
  fs_debug &"fs_open (name = '%s')\n" [AStr name] ;;
  let* fs_handle := fs_get_handle in
  if fs_handle =? -1 then
    fs_debug &"fs_open: Maximum of open files reached (%d)\n" [AInt MAX_OPEN_FILES] ;;
    ret (-1)
  else
    let* host_handle := on_host (host_fs_open name) in
    if negb (host_handle =? -1) then
      set_handle fs_handle (FsHandle FSO_HOST host_handle) ;; ret fs_handle
    else
      let* host_handle := on_res (res_open name) in
      if negb (host_handle =? -1) then
        set_handle fs_handle (FsHandle FSO_RESOURCE host_handle) ;; ret fs_handle
      else ret (-1).

Definition bad_handle (handle : Z) : bool := (handle <? 0) || (handle >? MAX_OPEN_FILES).

Definition get_handle (handle : Z) : MS fshandle_s :=
  let* s := get in lift (zget (fss_handles (s_fss s)) handle).

Definition fs_close (handle : Z) : MS unit :=
  fs_debug &"fs_close (handle = %d)\n" [AInt handle] ;;
  if bad_handle handle then ret tt
  else
    let* h := get_handle handle in
    match fh_source h with
    | FSO_HOST =>
        on_host (host_fs_close (fh_handle h)) ;;
        set_handle handle (FsHandle FSO_CLOSED (fh_handle h))
    | FSO_RESOURCE =>
        on_res (res_close (fh_handle h)) ;;
        set_handle handle (FsHandle FSO_CLOSED (fh_handle h))
    | FSO_CLOSED =>
        xprintf &"fs_close: someone closing a not open file (handle = %d)?\n" [AInt handle]
    end.

Definition MINUS1 : Z := 4294967295.

(** The return value, a [uint32_t], and the bytes stored into the buffer, which
    is not NULL. *)
Definition fs_read (handle size : Z) : MS (Z * list Z) :=
  if bad_handle handle then ret (MINUS1, [])
  else if size =? 0 then ret (MINUS1, [])
  else
    let* h := get_handle handle in
    match fh_source h with
    | FSO_HOST =>
        let* (got, data) := on_host (host_fs_read (fh_handle h) size) in ret (u32 got, data)
    | FSO_RESOURCE =>
        let* (got, data) := on_res (res_read (fh_handle h) size) in ret (u32 got, data)
    | FSO_CLOSED =>
        xprintf &"fs_read: someone reading in a closed file (handle = %d)?\n" [AInt handle] ;;
        ret (MINUS1, [])
    end.

Definition fs_seek (handle offset : Z) : MS unit :=
  if bad_handle handle then ret tt
  else
    let* h := get_handle handle in
    match fh_source h with
    | FSO_HOST => on_host (host_fs_seek (fh_handle h) offset)
    | FSO_RESOURCE => on_res (res_seek (fh_handle h) offset)
    | FSO_CLOSED =>
        xprintf &"fs_seek: someone seeking in a closed file (handle = %d)?\n" [AInt handle]
    end.

Definition fs_stop : MS unit :=
  fs_debug &"fs_stop\n" [] ;;
  let* s := get in
  if negb (fss_handle (s_fss s) =? -1) then
    fs_close (fss_handle (s_fss s)) ;;
    upd_fss (set_fhandle (-1)) ;;
    upd_fss (set_fstate FSS_CLOSED)
  else ret tt.

Definition fs_done : MS unit := fs_stop ;; on_res res_done ;; fs_debug &"fs_done\n" [].

Definition fs_state : MS fs_state_e := gets (fun s => fss_state (s_fss s)).
Definition fs_playing : MS fs_type_e := gets (fun s => fss_type (s_fss s)).

(** ** The type of a file *)

Definition fs_type (name : list Z) : MS fs_type_e :=
  let* f := fs_open name in
  if f =? -1 then
    fs_debug &"fs_type: Unable to open file '%s'.\n" [AStr name] ;; ret FST_NONE
  else
    let* (got, buff) := fs_read f 64 in
    let got := s32 got in
    fs_close f ;;
    if got <? 44 then
      fs_debug &"fs_type: File '%s' is too small to contain sound data.\n" [AStr name] ;;
      ret FST_UNKNOWN
    else
      let* signature := lift (le32 buff 0) in
      let* format := lift (le32 buff 8) in
      if (signature =? RIFF_SIGNATURE) && (format =? RIFF_FORMAT) then ret FST_RIFF
      else
        let* tag := lift (id3_tag_query buff 64) in
        ret (if negb (s32 tag =? 0) then FST_MP3 else FST_UNKNOWN).

(** ** RIFF files *)

Definition fn_open_riff : list Z := &"fs_open_riff".

(** What the walk over the chunks finds: the offset of the chunk named "data" and
    of the body of the last "fmt " chunk before it. *)
Inductive riff_walk : Type :=
| RiffData (off : Z) (fmt : option Z)
| RiffUnknown (sig : Z).

(** [ptr += block->size + sizeof(struct riff_block_s)], a sum in [size_t]; the
    pointer must stay inside [buff[128]]. *)
Definition next_block (off size : Z) : option Z :=
  let off' := off + ulong (size + 8) in
  if off' <=? 128 then Some off' else None.

Definition debug_fmt (buff : list Z) (fmt : Z) : MS unit :=
  when CONFIG_FS_DEBUG
    (let* format := lift (le16 buff fmt) in
     xprintf &"%s:    format: %d\n" [AStr fn_open_riff; AInt format] ;;
     let* channels := lift (le16 buff (fmt + 2)) in
     xprintf &"%s:    channels: %d\n" [AStr fn_open_riff; AInt channels] ;;
     let* samplerate := lift (le32 buff (fmt + 4)) in
     xprintf &"%s:    samplerate: %d\n" [AStr fn_open_riff; AInt samplerate] ;;
     let* byterate := lift (le32 buff (fmt + 8)) in
     xprintf &"%s:    byterate: %d\n" [AStr fn_open_riff; AInt byterate] ;;
     let* blockalign := lift (le16 buff (fmt + 12)) in
     xprintf &"%s:    blockalign: %d\n" [AStr fn_open_riff; AInt blockalign] ;;
     let* bitspersample := lift (le16 buff (fmt + 14)) in
     xprintf &"%s:    bitspersample: %d\n" [AStr fn_open_riff; AInt bitspersample]).

(** The loop from [try_again] on. *)
Fixpoint riff_blocks (fuel : nat) (buff : list Z) (off : Z) (fmt : option Z) : MS riff_walk :=
  match fuel with
  | O => nofuel
  | S fuel' =>
      fs_debug &"%s: RIFF block (0x%x):\n" [AStr fn_open_riff; ALong off] ;;
      let* signature := lift (le32 buff off) in
      when CONFIG_FS_DEBUG
        (let* size := lift (le32 buff (off + 4)) in
         xprintf &"%s:  size: %d (0x%x)\n" [AStr fn_open_riff; AInt size; AInt size] ;;
         xprintf &"%s:  signature: 0x%x (%c%c%c%c)\n"
           [AStr fn_open_riff; AInt signature; AInt (Z.land signature 255);
            AInt (Z.land (Z.shiftr signature 8) 255); AInt (Z.land (Z.shiftr signature 16) 255);
            AInt (Z.land (Z.shiftr signature 24) 255)]) ;;
      if signature =? RIFF_FMT then
        fs_debug &"%s:  FMT section:\n" [AStr fn_open_riff] ;;
        debug_fmt buff (off + 8) ;;
        let* size := lift (le32 buff (off + 4)) in
        let* off' := lift (next_block off size) in
        riff_blocks fuel' buff off' (Some (off + 8))
      else if signature =? RIFF_FACT then
        fs_debug &"%s:  FACT section at offset 0x%x\n" [AStr fn_open_riff; ALong off] ;;
        when CONFIG_FS_DEBUG
          (let* samplelength := lift (le32 buff (off + 8)) in
           xprintf &"%s:    sample length: %d\n" [AStr fn_open_riff; AInt samplelength]) ;;
        let* size := lift (le32 buff (off + 4)) in
        let* off' := lift (next_block off size) in
        riff_blocks fuel' buff off' fmt
      else if signature =? RIFF_DATA then
        fs_debug &"%s:  DATA section at offset 0x%x\n" [AStr fn_open_riff; ALong off] ;;
        ret (RiffData off fmt)
      else ret (RiffUnknown signature)
  end.

(** Chunks advance the offset inside 128 bytes. *)
Definition RIFF_FUEL : nat := 130.

Definition fs_open_riff (name : list Z) : MS unit :=
  let* handle := fs_open name in
  if handle =? -1 then
    (* the second argument of the format is missing *)
    xprintf &"%s: Unable to open file '%s'.\n" [AStr fn_open_riff] ;; fs_stop
  else
    let* (got, buff) := fs_read handle 128 in
    if got =? MINUS1 then fs_stop
    else
      when CONFIG_FS_DEBUG
        (xprintf &"%s: RIFF header:\n" [AStr fn_open_riff] ;;
         let* size := lift (le32 buff 4) in
         xprintf &"%s:  size: %d\n" [AStr fn_open_riff; AInt size]) ;;
      let* w := riff_blocks RIFF_FUEL buff 12 None in
      match w with
      | RiffUnknown signature =>
          xprintf &"%s: Unknown section 0x%x\n" [AStr fn_open_riff; AInt signature] ;; fs_stop
      | RiffData off None =>
          xprintf &"%s: FMT section not present in file. Cannot play.\n" [AStr fn_open_riff] ;; fs_stop
      | RiffData off (Some fmt) =>
          let* format := lift (le16 buff fmt) in
          if negb (format =? RIFF_FMT_PCM) then
            xprintf &"%s: Not a PCM file. Cannot play.\n" [AStr fn_open_riff] ;; fs_stop
          else
            let* samplerate := lift (le32 buff (fmt + 4)) in
            let rate := snd_freq2rate samplerate in
            if rate_code rate =? 0 then
              xprintf &"%s: Unknown sample rate (%d). Cannot play.\n" [AStr fn_open_riff; AInt samplerate] ;;
              fs_stop
            else
              xprintf &"%s: RIFF WAVE " [AStr fn_open_riff] ;;
              (if format =? RIFF_FMT_PCM then xprintf &"Microsoft PCM" []
               else if format =? RIFF_FMT_GSM then xprintf &"GSM 6.10" []
               else xprintf &"unknown (0x%x)" [AInt format]) ;;
              let* channels := lift (le16 buff (fmt + 2)) in
              let* byterate := lift (le32 buff (fmt + 8)) in
              xprintf &" %s, bitrate: %d, samplerate %dHz\n"
                [AStr (if channels =? 2 then &"stereo" else &"mono"); AInt byterate; AInt samplerate] ;;
              upd_fss (set_fformat FST_RIFF rate channels) ;;
              upd_fss (set_fstate FSS_OPEN) ;;
              upd_fss (set_fhandle handle) ;;
              fs_debug &"%s: Seeking file to offset %d (0x%x).\n"
                [AStr fn_open_riff; AInt off; AInt off] ;;
              fs_seek handle off
      end.

(** The bytes of [data] at the start of the buffer. *)
Definition fill (data buf : list Z) : option (list Z) :=
  if zlen data <=? zlen buf then Some (data ++ drop (length data) buf) else None.

(** [got = fs_read(fss.handle, out->data, out->size)] *)
Definition read_into_output (index : Z) : MS Z :=
  let* s := get in
  let* out := lift (zget (output (s_io s)) index) in
  let* (got, data) := fs_read (fss_handle (s_fss s)) (out_size out) in
  let* buf := lift (fill data (out_data out)) in
  on_io (with_output index (fun o => Output buf (out_size o) (out_used o) (out_rate o) (out_channels o))) ;;
  ret got.

Definition read_into_input (index : Z) : MS Z :=
  let* s := get in
  let* inp := lift (zget (input (s_io s)) index) in
  let* (got, data) := fs_read (fss_handle (s_fss s)) (in_size inp) in
  let* buf := lift (fill data (in_data inp)) in
  on_io (with_input index (fun i => Input buf (in_size i) (in_used i))) ;;
  ret got.

Definition fs_poll_riff : MS unit :=
  let* free := on_io o_free in
  if free =? 0 then ret tt
  else
    let* out := on_io o_push in
    let* got := read_into_output out in
    if got =? MINUS1 then xprintf &"fs_poll_riff: Error reading file.\n" [] ;; fs_stop
    else if got =? 0 then fs_debug &"fs_poll_riff: File finished.\n" [] ;; fs_stop
    else
      let* s := get in
      on_io (with_output out (fun o =>
        Output (out_data o) (out_size o) (u16 got) (fss_rate (s_fss s)) (fss_channels (s_fss s)))).

(** ** MP3 files *)

Definition fs_open_mp3 (name : list Z) : MS unit :=
  let* got := fs_open name in
  let r := u32 got in
  if r =? MINUS1 then
    (* the argument of the format is missing *)
    xprintf &"fs_open_mp3: Unable to open file '%s'.\n" [] ;; fs_stop
  else
    upd_fss (fun f => set_fformat FST_MP3 (fss_rate f) (fss_channels f) f) ;;
    upd_fss (set_fstate FSS_OPEN) ;;
    upd_fss (set_fhandle (s32 r)).

Definition fs_poll_mp3 : MS unit :=
  let* free := on_io i_free in
  if free =? 0 then ret tt
  else
    let* inp := on_io i_push in
    let* got := read_into_input inp in
    if got =? MINUS1 then xprintf &"fs_poll_mp3: Error reading file.\n" [] ;; fs_stop
    else if got =? 0 then fs_debug &"fs_poll_mp3: File finished.\n" [] ;; fs_stop
    else on_io (with_input inp (fun i => Input (in_data i) (in_size i) (u16 got))).

Definition fs_play (name : list Z) : MS unit :=
  let* type := fs_type name in
  fs_debug &"fs_play: Detect file: " [] ;;
  match type with
  | FST_RIFF => fs_debug &"RIFF/WAVE\n" [] ;; fs_open_riff name
  | FST_MP3 => fs_debug &"MP3\n" [] ;; fs_open_mp3 name
  | FST_NONE => xprintf &"File '%s' does not exist.\n" [AStr name]
  | FST_UNKNOWN => xprintf &"Type of file '%s' is not known.\n" [AStr name]
  end.

Definition fs_poll : MS unit :=
  let* s := get in
  if fss_handle (s_fss s) =? -1 then ret tt
  else
    match fss_type (s_fss s) with
    | FST_RIFF => fs_poll_riff
    | FST_MP3 => fs_poll_mp3
    | _ => ret tt
    end.

(** ** Commands *)

Definition type_code (t : fs_type_e) : Z :=
  match t with FST_UNKNOWN => 0 | FST_NONE => 1 | FST_RIFF => 2 | FST_MP3 => 3 end.

Definition cmd_ftype : MS unit :=
  let* argc := on_cmd cmd_Argc in
  if negb (argc =? 2) then xprintf &"Enter file name to determine file type.\n\n" []
  else
    let* name := on_cmd (cmd_arg 1) in
    let* ftype := fs_type name in
    match ftype with
    | FST_MP3 => xprintf &"MP3\n" []
    | FST_RIFF => xprintf &"RIFF Wave.\n" []
    | t => xprintf &"unknown (%d).\n" [AInt (type_code t)]
    end ;;
    xprintf &"\n" [].

Definition cmd_fplay : MS unit :=
  let* argc := on_cmd cmd_Argc in
  if negb (argc =? 2) then xprintf &"Enter file name to play file.\n\n" []
  else
    let* name := on_cmd (cmd_arg 1) in
    fs_play name ;;
    xprintf &"\n" [].

Definition cmd_fstate : MS unit :=
  let* s := get in
  xprintf &"Played file is " [] ;;
  match fss_state (s_fss s) with
  | FSS_UNKNOWN => xprintf &"in unknown state??\n" []
  | FSS_CLOSED => xprintf &"closed.\n" []
  | FSS_ERROR => xprintf &"in terrible plain.\n" []
  | FSS_OPEN =>
      xprintf &"playing " [] ;;
      match fss_type (s_fss s) with
      | FST_UNKNOWN => xprintf &"unknown type??\n" []
      | FST_NONE => xprintf &"none type??\n" []
      | FST_MP3 => xprintf &"MP3 file.\n" []
      | FST_RIFF => xprintf &"WAV/RIFF file.\n" []
      end
  end ;;
  xprintf &"Played file handle is set to %d.\n\n" [AInt (fss_handle (s_fss s))] ;;
  xprintf &"Max open files is set to %d.\n" [AInt MAX_OPEN_FILES] ;;
  for_range 0 (Z.to_nat MAX_OPEN_FILES) (fun i =>
    xprintf &"Handle %d is " [AInt i] ;;
    let* h := get_handle i in
    match fh_source h with
    | FSO_CLOSED => xprintf &"closed.\n" []
    | FSO_HOST => xprintf &"open on host fs, handle is %d.\n" [AInt (fh_handle h)]
    | FSO_RESOURCE => xprintf &"open on resource fs, handle is %d.\n" [AInt (fh_handle h)]
    end) ;;
  xprintf &"\n" [].
End Ops.
