(* ===== verification/LcdPanel.v ===== *)
(** * common/lcd.c: what the display shows

    The component decides which picture is shown and when it is replaced; drawing
    is the host's.  With [NO_LCD] every function is empty. *)

From S2P Require Import Prelude Libc Snd State.

Definition LCD_TIMEOUT_VOLUME : Z := 3000.
Definition LCD_TIMEOUT_MEDIA : Z := 3000.

Inductive lcd_ss_e : Type := LSS_BLANK | LSS_INIT | LSS_WELLCOME.
Inductive lcd_err_e : Type := LER_COMMON | LER_INIT | LER_NET | LER_FS | LER_SOUND | LER_LIBMAD.

Definition set_lcd_tvolume (t : lcd_timer_s) (l : lcd_t) : lcd_t := Lcd t (lcd_tmedia l) (lcd_err l).
Definition set_lcd_tmedia (t : lcd_timer_s) (l : lcd_t) : lcd_t := Lcd (lcd_tvolume l) t (lcd_err l).
Definition set_lcd_err (e : Z) (l : lcd_t) : lcd_t := Lcd (lcd_tvolume l) (lcd_tmedia l) e.

Section Ops.
Context {H D : Type} `{T : Target} `{C : Config} `{P : Platform H}.
Abbreviation MS := (M (state H D)).

Definition lcd_debug {S} (fmt : list Z) (args : list arg) : M S unit :=
  when CONFIG_LCD_DEBUG (xprintf fmt args).

(** The body of a function that [NO_LCD] empties. *)
Definition lcd_on (m : MS unit) : MS unit := if NO_LCD then ret tt else m.

Definition lcd_reset : MS unit :=
  lcd_on (lcd_debug &"%s\n" [AStr &"lcd_reset"] ;; upd_lcd (fun _ => lcd_zero)).

(** The argument of the callers is never NULL. *)
Definition lcd_get_cfg : MS lcd_cfg_s :=
  if NO_LCD then ret (LcdCfg 0 0 0) else on_host host_lcd_get_cfg.

Definition lcd_init : MS unit :=
  lcd_on
    (lcd_debug &"%s\n" [AStr &"lcd_init"] ;;
     lcd_reset ;;
     on_host host_lcd_init ;;
     let* cfg := lcd_get_cfg in
     lcd_debug &"%s: Got configuration %dx%d pixels, %dbpp\n"
       [AStr &"lcd_init"; AInt (width cfg); AInt (height cfg); AInt (bpp cfg)]).

Definition lcd_done : MS unit :=
  lcd_on (on_host host_lcd_done ;; lcd_debug &"%s\n" [AStr &"lcd_done"]).

Definition lcd_draw (resource : Z) : MS unit :=
  let* s := get in
  if negb (lcd_err (s_lcd s) =? 0) then ret tt else on_host (host_lcd_draw resource).

Definition expired (t : lcd_timer_s) (time : Z) : bool :=
  negb (active t =? 0) && (timeout t <? time).

(** The code behind the label [event]. *)
Definition lcd_timer_event : MS unit :=
  let* s := get in
  if bool_decide (pl_st (s_pl s) = PL_PLAYING) then
    match source_type (s_pl s) with
    | PS_NET => lcd_draw LR_RADIO
    | PS_FILE => lcd_draw LR_FILE
    | PS_UNKNOWN => xprintf &"%s: Unknown player source while playing?\n" [AStr &"lcd_timer"]
    end
  else lcd_draw LR_WELLCOME.

Definition lcd_timer : MS unit :=
  let* time := local_time in
  let* s := get in
  if expired (lcd_tvolume (s_lcd s)) time then
    upd_lcd (set_lcd_tvolume (LcdTimer 0 0)) ;; lcd_timer_event
  else if expired (lcd_tmedia (s_lcd s)) time then
    upd_lcd (set_lcd_tmedia (LcdTimer 0 0)) ;; lcd_timer_event
  else ret tt.

Definition lcd_poll : MS unit :=
  lcd_on
    (let* s := get in
     if negb (lcd_err (s_lcd s) =? 0) then ret tt else lcd_timer).

Definition lcd_startup (stage : lcd_ss_e) : MS unit :=
  lcd_on
    match stage with
    | LSS_BLANK => lcd_draw LR_BLANK
    | LSS_INIT => lcd_draw LR_STARTUP
    | LSS_WELLCOME => lcd_draw LR_WELLCOME
    end.

Definition lcd_error (error : lcd_err_e) : MS unit :=
  lcd_on
    (lcd_draw
       match error with
       | LER_COMMON => LR_ERROR
       | LER_INIT => LR_ERROR_INIT
       | LER_NET => LR_ERROR_NET
       | LER_FS => LR_ERROR_FS
       | LER_SOUND => LR_ERROR_SOUND
       | LER_LIBMAD => LR_ERROR_LIBMAD
       end ;;
     upd_lcd (set_lcd_err 1)).

Definition start_media_timer : MS unit :=
  let* time := local_time in
  upd_lcd (set_lcd_tmedia (LcdTimer (u32 (LCD_TIMEOUT_MEDIA + time)) 1)).

Definition lcd_play : MS unit := lcd_on (lcd_draw LR_PLAY ;; start_media_timer).
Definition lcd_stop : MS unit := lcd_on (lcd_draw LR_STOP ;; start_media_timer).

Definition lcd_volume : MS unit :=
  lcd_on
    (let* s := get in
     lcd_draw (u8 (volume (s_pl s)) + LR_VOLUME_00) ;;
     let* time := local_time in
     upd_lcd (set_lcd_tvolume (LcdTimer (u32 (LCD_TIMEOUT_VOLUME + time)) 1))).

Definition lcd_putpixel (x y color : Z) : MS unit := lcd_on (on_host (host_lcd_putpixel x y color)).
Definition lcd_update_screen : MS unit := lcd_on (on_host host_lcd_update_screen).
Definition lcd_clean_screen : MS unit := lcd_on (on_host host_lcd_clean_screen).
End Ops.
