(* ===== verification/Libmad.v ===== *)
(** * common/libmad.c: feeding the MP3 decoder

    Compressed blocks are collected in [libmad_buffer], the decoder library takes
    frames out of it, and the decoded samples go to the output ring.  The decoder
    itself is the class [Mad]. *)

From S2P Require Import Prelude Libc MadStream Snd IoBuffer Id3tag Resfs State Fs.

Definition MAX_LIBMAD_ERRORS : Z := 4.
Definition LIBMAD_BUFFER_SIZE : Z := 2 * 1024 + 32.
Definition DECOMPRESS_SIZE : Z := LIBMAD_BUFFER_SIZE * 8.


Inductive mad_flow : Type := MAD_FLOW_CONTINUE | MAD_FLOW_STOP | MAD_FLOW_BREAK | MAD_FLOW_IGNORE.

Definition MAD_F_FRACBITS : Z := 28.
Definition MAD_F_ONE : Z := 268435456.

Definition zero_buffer : list Z := repeat 0 (Z.to_nat (LIBMAD_BUFFER_SIZE + MAD_BUFFER_GUARD)).
Definition null_stream : mad_stream := MadStream None None None 0 0.

Section Setters.
Context {D : Type}.
Implicit Types m : mad_t D.
Definition set_m_stream (x : mad_stream) m := MadState x (m_dec m) (m_frames m) (m_banner m) (m_err_count m) (m_state m) (libmad_buffer m).
Definition set_m_dec (x : D) m := MadState (m_stream m) x (m_frames m) (m_banner m) (m_err_count m) (m_state m) (libmad_buffer m).
Definition set_m_frames (x : Z) m := MadState (m_stream m) (m_dec m) x (m_banner m) (m_err_count m) (m_state m) (libmad_buffer m).
Definition set_m_banner (x : Z) m := MadState (m_stream m) (m_dec m) (m_frames m) x (m_err_count m) (m_state m) (libmad_buffer m).
Definition set_m_err_count (x : Z) m := MadState (m_stream m) (m_dec m) (m_frames m) (m_banner m) x (m_state m) (libmad_buffer m).
Definition set_m_state (x : libmad_state_e) m := MadState (m_stream m) (m_dec m) (m_frames m) (m_banner m) (m_err_count m) x (libmad_buffer m).
Definition set_m_buffer (x : list Z) m := MadState (m_stream m) (m_dec m) (m_frames m) (m_banner m) (m_err_count m) (m_state m) x.
End Setters.

(** ** From the decoder's fixed point to 16-bit samples *)

Section Samples.
Context `{T : Target}.

(** A sum of type [long]; [None]: it overflows. *)
Definition long_sum (x y : Z) : option Z := if slong (x + y) =? x + y then Some (x + y) else None.

(** The constant is [1L], so that the sum is one of [long], and then an [int] again: a sample
    next to the largest [int] overflows where [long] has 32 bits and wraps around where it has 64. *)
Definition scale (sample : Z) : option Z :=
  sum ← long_sum sample (Z.shiftl 1 (MAD_F_FRACBITS - 16));
  let sample := s32 sum in
  let sample :=
    if sample >=? MAD_F_ONE then MAD_F_ONE - 1
    else if sample <? - MAD_F_ONE then - MAD_F_ONE else sample in
  Some (Z.shiftr sample (MAD_F_FRACBITS + 1 - 16)).

Definition sample_bytes (sample : Z) : list Z := [u8 sample; u8 (Z.shiftr sample 8)].

(** The loop of [libmad_output]: the bytes written for [n] samples from [i] on. *)
Fixpoint pcm_bytes (channels : Z) (l r : list Z) (i : Z) (n : nat) : option (list Z) :=
  match n with
  | O => Some []
  | S n' =>
      match zget l i ≫= scale, (if channels =? 2 then zget r i ≫= scale else Some 0), pcm_bytes channels l r (i + 1) n' with
      | Some a, Some b, Some rest => Some (sample_bytes a ++ (if channels =? 2 then sample_bytes b else []) ++ rest)
      | _, _, _ => None
      end
  end.
End Samples.

Section Ops.
Context {H D : Type} `{T : Target} `{C : Config} `{P : Platform H} `{MD : Mad D}.
Abbreviation MS := (M (state H D)).

Definition libmad_debug {S} (fmt : list Z) (args : list arg) : M S unit :=
  when CONFIG_LIBMAD_DEBUG (xprintf fmt args).

Definition libmad_init : MS unit :=
  upd_mad (set_m_stream null_stream) ;;
  upd_mad (fun m => set_m_dec (mad_init (m_dec m)) m) ;;
  upd_mad (set_m_buffer zero_buffer) ;;
  upd_mad (set_m_frames 0) ;;
  upd_mad (set_m_banner 0) ;;
  upd_mad (set_m_err_count 0) ;;
  upd_mad (set_m_state LM_INIT) ;;
  libmad_debug &"libmad_init (libmad buffer = %d, DECOMPRESS_SIZE = %d)\n"
    [ALong (LIBMAD_BUFFER_SIZE + MAD_BUFFER_GUARD); AInt DECOMPRESS_SIZE].

Definition libmad_done : MS unit :=
  upd_mad (fun m => set_m_dec (mad_finish (m_dec m)) m) ;;
  upd_mad (set_m_state LM_DONE) ;;
  libmad_debug &"libmad_done\n" [].

Definition libmad_state : MS libmad_state_e := gets (fun s => m_state (s_mad s)).

Definition libmad_headerinfo (h : mad_header) : MS unit :=
  xprintf &"Layer: " [] ;;
  (if mh_layer h =? 1 then xprintf &"I" []
   else if mh_layer h =? 2 then xprintf &"II" []
   else if mh_layer h =? 3 then xprintf &"III" [] else ret tt) ;;
  xprintf &", " [] ;;
  (if mh_mode h =? 0 then xprintf &"single channel" []
   else if mh_mode h =? 1 then xprintf &"dual channel" []
   else if mh_mode h =? 2 then xprintf &"joint (MS/intensity) stereo" []
   else if mh_mode h =? 3 then xprintf &"normal LR stereo" [] else ret tt) ;;
  xprintf &", bitrate: %d" [ALong (mh_bitrate h)] ;;
  xprintf &", samplerate: %d" [AInt (mh_samplerate h)] ;;
  when CONFIG_LIBMAD_DEBUG (xprintf &", flags: 0x%x" [AInt (mh_flags h)]) ;;
  xprintf &"\n" [] ;;
  upd_mad (set_m_banner 1).

(** [mad_stream_skip] *)
Definition mad_stream_skip (n : Z) (st : mad_stream) : mad_stream :=
  MadStream (this_frame st) (next_frame st) (bufend st) (ms_error st) (ulong (skiplen st + ulong n)).

Definition libmad_error : MS mad_flow :=
  let* s := get in
  let st := m_stream (s_mad s) in
  let error := ms_error st in
  if error =? MAD_ERROR_BADCRC then
    upd_mad (fun m => set_m_dec (mad_frame_mute (m_dec m)) m) ;; ret MAD_FLOW_IGNORE
  else if error =? MAD_ERROR_BADDATAPTR then ret MAD_FLOW_CONTINUE
  else if error =? MAD_ERROR_LOSTSYNC then
    let* this := lift (this_frame st) in
    let* bend := lift (bufend st) in
    let* q := lift (id3_tag_query (drop (Z.to_nat this) (libmad_buffer (s_mad s))) (u32 (bend - this))) in
    let tagsize := s32 q in
    when (negb (tagsize =? 0))
      (libmad_debug &"libmad_error: Skipping tag of size %d.\n" [AInt tagsize] ;;
       upd_mad (fun m => set_m_stream (mad_stream_skip tagsize (m_stream m)) m)) ;;
    ret MAD_FLOW_CONTINUE
  else
    when CONFIG_LIBMAD_DEBUG
      (let* this := lift (this_frame st) in
       let* text := lift (mad_errorstr error) in
       xprintf &"libmad_error: decoding error 0x%04x (%s) at byte offset %u\n"
         [AInt error; AStr text; ALong this] ;;
       put_dump_char (drop (Z.to_nat this) (libmad_buffer (s_mad s))) 0 16 ;;
       xprintf &"\n" []) ;;
    upd_mad (fun m => set_m_err_count (s32 (m_err_count m + 1)) m) ;;
    let* s := get in
    when (m_err_count (s_mad s) >? MAX_LIBMAD_ERRORS) (upd_mad (set_m_state LM_ERROR)) ;;
    ret MAD_FLOW_CONTINUE.

(** The number of bytes left in the buffer behind the last decoded frame. *)
Definition mad_remain (st : mad_stream) : option Z :=
  match bufend st, next_frame st with
  | Some e, Some n => Some (u32 (e - n))
  | None, None => Some 0
  | _, _ => None
  end.

(** [uc_memmove(libmad_buffer, Stream->next_frame, remain)] *)
Definition keep_remaining (st : mad_stream) (remain : Z) (buf : list Z) : option (list Z) :=
  if remain =? 0 then Some buf
  else
    match next_frame st with
    | None => None
    | Some n => match slice buf n remain with None => None | Some d => fill d buf end
    end.

(** [uc_memcpy(libmad_buffer + remain, buff->data, buff->used)] *)
Definition append_block (remain : Z) (block : list Z) (buf : list Z) : option (list Z) :=
  if (remain <? 0) || (zlen buf <? remain + zlen block) then None
  else Some (take (Z.to_nat remain) buf ++ block ++ drop (Z.to_nat remain + length block) buf).

Definition libmad_input : MS mad_flow :=
  let* s := get in
  let* remain := lift (mad_remain (m_stream (s_mad s))) in
  let* buf := lift (keep_remaining (m_stream (s_mad s)) remain (libmad_buffer (s_mad s))) in
  upd_mad (set_m_buffer buf) ;;
  let* r := on_io i_pop in
  match r with
  | None => xprintf &"libmad_input: got a NULL input buffer.\n" [] ;; ret MAD_FLOW_STOP
  | Some index =>
      let* s := get in
      let* buff := lift (zget (input (s_io s)) index) in
      let total := u32 (in_used buff + remain) in
      if total >? LIBMAD_BUFFER_SIZE then
        xprintf &"libmad_input: overflowing data in %d bytes.\n" [AInt (u32 (total - LIBMAD_BUFFER_SIZE))] ;;
        upd_mad (set_m_state LM_ERROR) ;;
        ret MAD_FLOW_STOP
      else
        let* block := lift (slice (in_data buff) 0 (in_used buff)) in
        let* buf := lift (append_block remain block (libmad_buffer (s_mad s))) in
        upd_mad (set_m_buffer buf) ;;
        if total =? 0 then ret MAD_FLOW_STOP
        else
          upd_mad (fun m =>
            set_m_dec (mad_buffered (m_dec m))
              (set_m_stream (MadStream (Some 0) (Some 0) (Some total)
                 (ms_error (m_stream m)) (skiplen (m_stream m))) m)) ;;
          ret MAD_FLOW_CONTINUE
  end.

Definition libmad_output : MS unit :=
  let* s := get in
  let pcm := mad_get_pcm (m_dec (s_mad s)) in
  let nchannels := pcm_channels pcm in
  let* index := on_io o_push in
  on_io (with_output index (fun o =>
    Output (out_data o) (out_size o) (u16 (nchannels * pcm_length pcm * 2))
      (snd_freq2rate (pcm_samplerate pcm)) nchannels)) ;;
  let* s := get in
  let* buff := lift (zget (output (s_io s)) index) in
  if out_used buff >? out_size buff then
    xprintf &"libmad_output: snd buffer overflow.\n" [] ;;
    upd_mad (set_m_state LM_ERROR)
  else
    let* bytes := lift (pcm_bytes nchannels (pcm_left pcm) (pcm_right pcm) 0 (Z.to_nat (pcm_length pcm))) in
    let* data := lift (fill bytes (out_data buff)) in
    on_io (with_output index (fun o => Output data (out_size o) (out_used o) (out_rate o) (out_channels o))).

(** One call of [mad_header_decode] or [mad_frame_decode]. *)
(** [mad_synth_frame(&ml.synth, &ml.frame)] *)
Definition mad_synth : MS unit :=
  let* s := get in
  let* d := lift_res (mad_synth_frame (m_dec (s_mad s))) in
  upd_mad (set_m_dec d).

Definition mad_call (f : list Z -> mad_stream -> D -> res (Z * mad_stream * D)) : MS Z :=
  let* s := get in
  let* (r, st, d) := lift_res (f (libmad_buffer (s_mad s)) (m_stream (s_mad s)) (m_dec (s_mad s))) in
  upd_mad (fun m => set_m_dec d (set_m_stream st m)) ;;
  ret r.

(** How the loop goes on after a call: to the next round, to the next step of the
    round, or out of the loop. *)
Inductive loop_step : Type := NextRound | NextStep | LeaveLoop.

Definition after_call (r : Z) : MS loop_step :=
  if r =? -1 then
    let* s := get in
    if negb (MAD_RECOVERABLE (ms_error (m_stream (s_mad s)))) then ret LeaveLoop
    else
      let* flow := libmad_error in
      ret match flow with
          | MAD_FLOW_STOP | MAD_FLOW_BREAK => LeaveLoop
          | MAD_FLOW_IGNORE => NextStep
          | MAD_FLOW_CONTINUE => NextRound
          end
  else ret NextStep.

(** One round of the [while (1)] loop; [true]: once more. *)
Definition decode_round : MS bool :=
  let* s := get in
  if negb (bool_decide (m_state (s_mad s) = LM_INIT)) then ret false
  else
    let* r := mad_call mad_header_decode in
    let* step := after_call r in
    match step with
    | LeaveLoop => ret false
    | NextRound => ret true
    | NextStep =>
        let* s := get in
        when (CONFIG_LIBMAD_DEBUG && (m_frames (s_mad s) =? 4) && (m_banner (s_mad s) =? 0))
          (libmad_headerinfo (mad_get_header (m_dec (s_mad s)))) ;;
        let* r := mad_call mad_frame_decode in
        let* step := after_call r in
        match step with
        | LeaveLoop => ret false
        | NextRound => ret true
        | NextStep =>
            upd_mad (fun m => set_m_dec (mad_timer_add (m_dec m)) m) ;;
            mad_synth ;;
            libmad_output ;;
            upd_mad (fun m => set_m_frames (slong (m_frames m + 1)) m) ;;
            ret true
        end
    end.

Fixpoint decode_loop (fuel : nat) : MS unit :=
  match fuel with
  | O => nofuel
  | S fuel' => let* more := decode_round in if (more : bool) then decode_loop fuel' else ret tt
  end.

Definition libmad_loop (fuel : nat) : MS unit :=
  let* s := get in
  if negb (bool_decide (m_state (s_mad s) = LM_INIT)) then ret tt
  else if bool_decide (pl_st (s_pl s) = PL_BUFFERING) then ret tt
  else
    let* used := on_io i_used in
    if used =? 0 then ret tt
    else
      let* free := on_io o_free_size in
      if free <? DECOMPRESS_SIZE then ret tt
      else
        let* flow := libmad_input in
        match flow with
        | MAD_FLOW_STOP | MAD_FLOW_BREAK => ret tt
        | MAD_FLOW_IGNORE | MAD_FLOW_CONTINUE => decode_loop fuel
        end.

Definition cmd_libmad_state : MS unit :=
  let* s := get in
  let m := s_mad s in
  let* buff := lift_res (mad_timer_text (m_dec m)) in
  xprintf &"Encoded %d frames, %s seconds.\n" [ALong (m_frames m); AStr buff] ;;
  xprintf &"Libmad is " [] ;;
  match m_state m with
  | LM_UNKNOWN => xprintf &"not initialized, yet" []
  | LM_INIT => xprintf &"initialized" []
  | LM_DONE => xprintf &"deinitialized" []
  | LM_ERROR => xprintf &"in error sate" []
  end ;;
  xprintf &", error count: %d.\n" [AInt (m_err_count m)] ;;
  when ((m_frames m >? 4) && bool_decide (pl_st (s_pl s) = PL_PLAYING))
    (libmad_headerinfo (mad_get_header (m_dec m))) ;;
  xprintf &"\n" [].
End Ops.
