(* ===== verification/Player.v ===== *)
(** * common/player.c: the player *)

From S2P Require Import Prelude Libc Strings Snd IoBuffer Console Event Cmd Net State Fs LcdPanel Libmad.

Definition PL_MIN_VOLUME : Z := 0.
Definition PL_MAX_VOLUME : Z := 16.
Definition PL_DEF_VOLUME : Z := 8.

Definition pl_zero : pl_t := Pl (repeat 0 (Z.to_nat MAX_CONSOLE_INPUT)) PS_UNKNOWN PL_UNKNOWN 0.

Definition set_source_addr (x : list Z) (p : pl_t) : pl_t := Pl x (source_type p) (pl_st p) (volume p).
Definition set_source_type (x : pl_source_e) (p : pl_t) : pl_t := Pl (source_addr p) x (pl_st p) (volume p).
Definition set_pl_st (x : pl_state_e) (p : pl_t) : pl_t := Pl (source_addr p) (source_type p) x (volume p).
Definition set_volume (x : Z) (p : pl_t) : pl_t := Pl (source_addr p) (source_type p) (pl_st p) x.

(** The table of pre-selected stations. *)
Definition radios : list (list Z * list Z) := [
  (&"Slovensko 128 bit", &"http://live.slovakradio.sk:8000/Slovensko_128.mp3");
  (&"Radio Devin 128 bit", &"http://live.slovakradio.sk:8000/Devin_128.mp3");
  (&"Radio Litera 128 bit", &"http://live.slovakradio.sk:8000/Litera_128.mp3");
  (&"Radio Junior 128 bit", &"http://live.slovakradio.sk:8000/Junior_128.mp3");
  (&"Radio Paradise 128 bit", &"http://stream-uk1.radioparadise.com:80/mp3-128");
  (&"Fun Radio 128 bit", &"http://stream.funradio.sk:8000/fun128.mp3");
  (&"Slovensko 256 bit", &"http://live.slovakradio.sk:8000/Slovensko_256.mp3");
  (&"Radio Litera 256 bit", &"http://live.slovakradio.sk:8000/Litera_256.mp3");
  (&"Radio Devin 256 bit", &"http://live.slovakradio.sk:8000/Devin_256.mp3");
  (&"Radio Junior 256 bit", &"http://live.slovakradio.sk:8000/Junior_256.mp3");
  (&"Radio Paradise 192 bit", &"http://stream-uk1.radioparadise.com:80/mp3-192");
  (&"Fun Radio 256 bit", &"http://stream.funradio.sk:8000/fun256.mp3");
  (&"Slovensko 128 bit (IP)", &"http://62.168.92.250:8000/Slovensko_128.mp3");
  (&"Slovensko 256 bit (IP)", &"http://62.168.92.250:8000/Slovensko_256.mp3");
  (&"Radio 128 bit (ogg)", &"http://live.slovakradio.sk:8000/Devin_128.ogg");
  (&"Fun Radio 128 bit (ogg)", &"http://stream.funradio.sk:8000/fun128.ogg")
].

Section Ops.
Context {H D : Type} `{T : Target} `{C : Config} `{P : Platform H} `{MD : Mad D}.
Abbreviation MS := (M (state H D)).

Definition pl_debug {S} (fmt : list Z) (args : list arg) : M S unit :=
  when CONFIG_PLAYER_DEBUG (xprintf fmt args).

(** [what] is not NULL: [pl_play] has read it before. *)
Definition pl_save_source (what : list Z) : MS unit :=
  upd_pl (set_source_addr (repeat 0 (Z.to_nat MAX_CONSOLE_INPUT))) ;;
  if zlen what >? MAX_CONSOLE_INPUT then
    xprintf &"pl_save_source: Saving of source failed.\n" []
  else
    let* addr := lift (fill what (repeat 0 (Z.to_nat MAX_CONSOLE_INPUT))) in
    upd_pl (set_source_addr addr).

(** ** Volume *)

Definition pl_volume_get : MS Z := gets (fun s => volume (s_pl s)).

Definition pl_volume_set (new_volume : Z) : MS unit :=
  upd_pl (set_volume (u8 new_volume)) ;;
  let* v := pl_volume_get in
  when (v <? PL_MIN_VOLUME) (upd_pl (set_volume PL_MIN_VOLUME)) ;;
  let* v := pl_volume_get in
  when (v >? PL_MAX_VOLUME) (upd_pl (set_volume PL_MAX_VOLUME)) ;;
  lcd_volume.

Definition pl_volume_up : MS unit := let* v := pl_volume_get in pl_volume_set (v + 1).
Definition pl_volume_down : MS unit := let* v := pl_volume_get in pl_volume_set (v - 1).

(** ** Playing *)

Definition pl_init : MS unit :=
  pl_debug &"pl_init\n" [] ;;
  upd_pl (fun _ => pl_zero) ;;
  upd_pl (set_pl_st PL_STOP) ;;
  upd_pl (set_volume PL_DEF_VOLUME).

Definition pl_running (st : pl_state_e) : bool :=
  bool_decide (st = PL_PLAYING) || bool_decide (st = PL_BUFFERING).

Definition pl_stop : MS unit :=
  pl_debug &"pl_stop\n" [] ;;
  let* s := get in
  if pl_running (pl_st (s_pl s)) then
    fs_stop ;;
    net_close ;;
    libmad_done ;;
    upd_pl (set_pl_st PL_STOP) ;;
    lcd_stop
  else ret tt.

Definition pl_play (what : list Z) : MS unit :=
  pl_stop ;;
  pl_debug &"pl_play (what='%s')\n" [AStr what] ;;
  pl_save_source what ;;
  on_io io_init ;;
  libmad_init ;;
  lcd_reset ;;
  let* r := lift (memcmp_l (cz what) (cz HTTP_URI) (length HTTP_URI)) in
  if r =? 0 then
    lcd_startup LSS_INIT ;;
    upd_pl (set_source_type PS_NET) ;;
    net_open what ;;
    upd_pl (set_pl_st PL_BUFFERING) ;;
    lcd_play
  else
    upd_pl (set_source_type PS_FILE) ;;
    fs_play what ;;
    let* t := fs_playing in
    match t with
    | FST_UNKNOWN | FST_NONE => pl_stop
    | FST_RIFF => upd_pl (set_pl_st PL_PLAYING)
    | FST_MP3 => upd_pl (set_pl_st PL_BUFFERING)
    end ;;
    lcd_play.

(** The errors [pl_poll] shows before it stops. *)
Definition pl_poll_errors (net_st : net_state_e) (snd_st : sound_state_e)
    (mad_st : libmad_state_e) (fs_st : fs_state_e) : MS unit :=
  when (bool_decide (net_st = NET_ERROR))
    (xprintf &"pl_loop: net error\n" [] ;; lcd_error LER_NET) ;;
  when (bool_decide (snd_st = SS_ERROR))
    (xprintf &"pl_loop: sound error\n" [] ;; lcd_error LER_SOUND) ;;
  when (bool_decide (mad_st = LM_ERROR))
    (xprintf &"pl_loop: libmad error\n" [] ;; lcd_error LER_LIBMAD) ;;
  when (bool_decide (fs_st = FSS_ERROR))
    (xprintf &"pl_loop: fs error\n" [] ;; lcd_error LER_FS) ;;
  pl_stop.

(** The end of the source: the file is closed, or the connection is. *)
Definition pl_poll_source (net_st : net_state_e) (fs_st : fs_state_e) : MS unit :=
  let* s := get in
  when (pl_running (pl_st (s_pl s)))
    (let* s := get in
     when (bool_decide (source_type (s_pl s) = PS_FILE) && bool_decide (fs_st = FSS_CLOSED)) pl_stop ;;
     let* s := get in
     when (bool_decide (source_type (s_pl s) = PS_NET) && bool_decide (net_st = NET_CLOSED)) pl_stop).

Definition pl_poll : MS unit :=
  let* net_st := net_state in
  let* fs_st := fs_state in
  let* snd_st := snd_state in
  let* mad_st := libmad_state in
  let* s := get in
  if negb (pl_running (pl_st (s_pl s))) then ret tt
  else
    let* free := on_io i_free in
    when (bool_decide (pl_st (s_pl s) = PL_BUFFERING) && (free =? 0))
      (upd_pl (set_pl_st PL_PLAYING) ;; pl_debug &"%s: playing.\n" [AStr &"pl_poll"]) ;;
    when (bool_decide (net_st = NET_ERROR) || bool_decide (snd_st = SS_ERROR)
          || bool_decide (mad_st = LM_ERROR))
      (pl_poll_errors net_st snd_st mad_st fs_st) ;;
    pl_poll_source net_st fs_st ;;
    let* s := get in
    let* starving := on_io io_starving in
    when (bool_decide (pl_st (s_pl s) = PL_PLAYING) && starving)
      (upd_pl (set_pl_st PL_BUFFERING) ;; pl_debug &"%s: buffering.\n" [AStr &"pl_poll"]).

(** The string [pl_what()] points to. *)
Definition pl_what : MS (list Z) := let* s := get in lift (cstr (source_addr (s_pl s))).

(** ** Commands *)

Definition cmd_pl_play : MS unit :=
  let* argc := on_cmd cmd_Argc in
  if negb (argc =? 2) then xprintf &"Enter name of file or URL to play.\n" []
  else
    let* arg := on_cmd (cmd_Argv 1) in
    push_event E_PL_PLAY 0 arg ;;
    xprintf &"\n" [].

Definition cmd_pl_stop : MS unit := push_event E_PL_STOP 0 PNull ;; xprintf &"\n" [].

Definition cmd_pl_status : MS unit :=
  let* net_st := net_state in
  let* fs_st := fs_state in
  let* snd_st := snd_state in
  let* mad_st := libmad_state in
  let* s := get in
  xprintf &"Player is " [] ;;
  match pl_st (s_pl s) with
  | PL_UNKNOWN => xprintf &"not initialized, yet.\n" []
  | PL_STOP => xprintf &"not playing now.\n" []
  | PL_PLAYING =>
      xprintf &"is playing" [] ;;
      let* what := pl_what in
      if zlen what >? 0 then xprintf &" '%s'.\n" [AStr what] else xprintf &".\n" []
  | PL_BUFFERING => xprintf &"is buffering.\n" []
  end ;;
  xprintf &"Network " [] ;;
  match net_st with
  | NET_UNKNOWN => xprintf &"is not initialized.\n" []
  | NET_PENDING => xprintf &"is waiting for a reply from remote.\n" []
  | NET_OPEN => xprintf &"connection is established.\n" []
  | NET_CLOSED => xprintf &"connection is closed.\n" []
  | NET_ERROR => xprintf &"encountered an error.\n" []
  end ;;
  match fs_st with
  | FSS_UNKNOWN => xprintf &"Files have been not initialized.\n" []
  | FSS_OPEN => xprintf &"A file is being played.\n" []
  | FSS_CLOSED => xprintf &"No file is being played.\n" []
  | FSS_ERROR => xprintf &"An error occuring while accessing a file.\n" []
  end ;;
  xprintf &"Sound device " [] ;;
  match snd_st with
  | SS_UNKNOWN => xprintf &"has not been initialized.\n" []
  | SS_INIT => xprintf &"is not playing any sound.\n" []
  | SS_PLAYING => xprintf &"is playing now.\n" []
  | SS_PAUSE => xprintf &"is paused.\n" []
  | SS_ERROR => xprintf &"has encountered errors.\n" []
  end ;;
  xprintf &"Libmad decoder " [] ;;
  match mad_st with
  | LM_UNKNOWN => xprintf &"is not initialized.\n" []
  | LM_INIT => xprintf &"is initalized.\n" []
  | LM_DONE => xprintf &"has been deinitialized.\n" []
  | LM_ERROR => xprintf &"has encountered error.\n" []
  end ;;
  xprintf &"\n" [].

(** [!uc_memcmp(a, b, n)], also through pointers to C strings. *)
Definition memcmp_is (a b : list Z) (n : Z) : MS bool := lift (memcmp_eq a b n).

(** The code from [set_volume] on. *)
Definition push_volume (volume : Z) : MS unit :=
  let volume := if volume <? PL_MIN_VOLUME then PL_MIN_VOLUME else volume in
  let volume := if volume >? PL_MAX_VOLUME then PL_MAX_VOLUME else volume in
  push_event E_PL_VOLSET volume PNull ;;
  xprintf &"\n" [].

Definition cmd_snd_volume : MS unit :=
  let* volume := pl_volume_get in
  let* argc := on_cmd cmd_Argc in
  if negb (argc =? 2) then
    let* arg0 := on_cmd (cmd_arg 0) in
    let* mute := memcmp_is arg0 &"mute" (zlen arg0) in
    if (mute : bool) then push_volume 0
    else xprintf &"Sound volume is %d.\n\n" [AInt volume]
  else
    let* param := on_cmd (cmd_arg 1) in
    let len := zlen param in
    let* up := memcmp_is param &"up" len in
    let* plus := (if (up : bool) then ret true else memcmp_is param &"+" len) in
    if (plus : bool) then push_volume (volume + 1)
    else
      let* down := memcmp_is param &"down" len in
      let* minus := (if (down : bool) then ret true else memcmp_is param &"-" len) in
      if (minus : bool) then push_volume (volume - 1)
      else
        let* mute := memcmp_is param &"mute" len in
        if (mute : bool) then push_volume 0
        else let* v := lift (q3_atoi param) in push_volume v.

(** [while (radios[choice].url != NULL) xprintf(...)] *)
Fixpoint list_radios (choice : Z) (l : list (list Z * list Z)) : MS unit :=
  match l with
  | [] => ret tt
  | (desc, _) :: l' => xprintf &"%d - %s\n" [AInt choice; AStr desc] ;; list_radios (choice + 1) l'
  end.

Definition cmd_radio : MS unit :=
  let* argc := on_cmd cmd_Argc in
  (if negb (argc =? 2) then list_radios 0 radios
   else
     let max_choice := zlen radios in
     let* arg := on_cmd (cmd_arg 1) in
     let* choice := lift (q3_atoi arg) in
     if (choice <? 0) || (choice >=? max_choice) then
       xprintf &"Invalid choice. Try 0 - %d.\n" [AInt (max_choice - 1)]
     else
       let* r := lift (zget radios choice) in
       push_event E_PL_PLAY 0 (PStr (snd r))) ;;
  xprintf &"\n" [].
End Ops.
