(* ===== verification/Main.v ===== *)
(** * Commands, the event loop and the main program

    commands.h (the command table), [cmd_exec] and [cmd_input] of cmd.c,
    [event_loop] of event.c, version.c, and the init/frame/done functions of
    linux/main.c, null/main.c and stm32/main.c. *)

From S2P Require Import Prelude Libc Snd IoBuffer Console Event Cmd Net Resfs State Fs LcdPanel Libmad Player.

(** The entries of [commands[]].  Entries that only one host has name the host's
    function. *)
Inductive command (S : Type) : Type :=
| CHelp | CEcho | CCls | CPlay | CStop | CVolume | CRadio
| CIo | CNet | CSnd | CLibmad | CPls | CFss | CRls | CVer
| CHost (m : M S unit).
Arguments CHelp {S}.
Arguments CEcho {S}.
Arguments CCls {S}.
Arguments CPlay {S}.
Arguments CStop {S}.
Arguments CVolume {S}.
Arguments CRadio {S}.
Arguments CIo {S}.
Arguments CNet {S}.
Arguments CSnd {S}.
Arguments CLibmad {S}.
Arguments CPls {S}.
Arguments CFss {S}.
Arguments CRls {S}.
Arguments CVer {S}.
Arguments CHost {S}.

Section Ops.
Context {H D : Type} `{T : Target} `{C : Config} `{P : Platform H} `{MD : Mad D}.
Abbreviation MS := (M (state H D)).
Abbreviation command_s := (list Z * command (state H D))%type.

Definition MARDIO_STR : list Z := &"mardio".
Definition MARDIO_VER : list Z := &"0.1h".
Definition MARDIO_OPT : list Z := [].

Definition version : MS unit :=
  xprintf &"%s %s %s\n" [AStr MARDIO_STR; AStr MARDIO_VER; AStr MARDIO_OPT].
Definition cmd_version : MS unit := version ;; xprintf &"\n" [].

Definition cmd_exit : MS unit :=
  xprintf &"Exiting ... \n\n" [] ;; modify (set_quit 1).

(** The table, with the entries of the three conditional blocks. *)
Definition commands (stm32_fs stm32_snd linux_exit : list command_s) : list command_s :=
  [(&"help", CHelp); (&"echo", CEcho); (&"cls", CCls);
   (&"play", CPlay); (&"stop", CStop);
   (&"svol", CVolume); (&"mute", CVolume); (&"radio", CRadio)]
  ++ stm32_fs ++
  [(&"io", CIo); (&"net", CNet); (&"snd", CSnd); (&"libmad", CLibmad);
   (&"pls", CPls); (&"fss", CFss); (&"rls", CRls)]
  ++ stm32_snd ++ [(&"ver", CVer)] ++ linux_exit.

Definition commands_null : list command_s := commands [] [] [].
Definition commands_linux : list command_s := commands [] [] [(&"exit", CHost cmd_exit)].

Fixpoint help_names (l : list command_s) : MS unit :=
  match l with
  | [] => ret tt
  | (name, _) :: l => xprintf &"%s " [AStr name] ;; help_names l
  end.

Definition cmd_help (cmds : list command_s) : MS unit :=
  xprintf &"List of known commands: \n" [] ;;
  help_names cmds ;;
  xprintf &"\n\n" [].

Definition run_command (cmds : list command_s) (c : command (state H D)) : MS unit :=
  match c with
  | CHelp => cmd_help cmds
  | CEcho => on_cmd cmd_echo
  | CCls => cmd_cls
  | CPlay => cmd_pl_play
  | CStop => cmd_pl_stop
  | CVolume => cmd_snd_volume
  | CRadio => cmd_radio
  | CIo => on_io cmd_io_state
  | CNet => on_host host_cmd_net_state
  | CSnd => let* v := pl_volume_get in on_host (host_cmd_snd_state v)
  | CLibmad => cmd_libmad_state
  | CPls => cmd_pl_status
  | CFss => cmd_fstate
  | CRls => on_res cmd_res_list
  | CVer => cmd_version
  | CHost m => m
  end.

(** The loop of [cmd_exec] over the table: the first entry whose name matches. *)
Fixpoint find_command (arg : list Z) (l : list command_s) : option (option (command (state H D))) :=
  match l with
  | [] => Some None
  | (name, c) :: l =>
      match cmd_match name arg with
      | None => None
      | Some true => Some (Some c)
      | Some false => find_command arg l
      end
  end.

Lemma find_command_In arg cmds k : find_command arg cmds = Some (Some k) -> exists n, (n, k) ∈ cmds.
Proof.
  induction cmds as [|[n k'] cmds IH]; cbn [find_command]; [done|].
  destruct (cmd_match n arg) as [[]|]; [intros [= ->]; exists n; by left| |done].
  intros Hf. destruct (IH Hf) as [n' Hin]. exists n'. by right.
Qed.

Definition cmd_exec (cmds : list command_s) : MS unit :=
  let* argc := on_cmd cmd_Argc in
  if argc =? 0 then ret tt
  else
    let* arg := on_cmd (cmd_arg 0) in
    let* c := lift (find_command arg cmds) in
    match c with
    | Some c => run_command cmds c
    | None => xprintf &"'%s' command not found.\n\n" [AStr arg]
    end.

Definition cmd_input (cmds : list command_s) : MS unit :=
  let* text := on_con con_input_data in
  on_cmd (cmd_tokenize (Some text)) ;;
  cmd_exec cmds.

(** ** event_loop *)

Definition handle_event (cmds : list command_s) (e : event_t) : MS unit :=
  match e_type e with
  | E_NONE => ret tt
  | E_CON_INPUT => cmd_input cmds ;; on_con con_reset ;; con_prompt
  | E_CON_ECHO => when (negb (e_par e =? 0)) (xprintf &"%c" [AInt (chr (e_par e))])
  | E_CON_DEL => xprintf &"\b" []
  | E_PL_STOP => pl_stop
  | E_PL_PLAY => let* what := on_cmd (deref (e_ptr e)) in pl_play what
  | E_PL_VOLUP => pl_volume_up
  | E_PL_VOLDOWN => pl_volume_down
  | E_PL_VOLSET => pl_volume_set (e_par e)
  end.

Fixpoint event_loop_n (fuel : nat) (cmds : list command_s) : MS unit :=
  match fuel with
  | O => nofuel
  | S fuel' =>
      let* e := on_ev event_pop in
      handle_event cmds e ;;
      if bool_decide (e_type e = E_NONE) then ret tt else event_loop_n fuel' cmds
  end.

(** At most nine events can be pending and only console input makes new ones, so
    28 rounds are enough ([pp_event_loop_n] in System). *)
Definition event_loop (cmds : list command_s) : MS unit := event_loop_n 28 cmds.

(** ** main.c of the Linux host; [printf] writes to the same terminal *)

Definition init_linux : MS unit :=
  tell &"\n\n=== Init Start ===\n" ;;
  con_init ;; lcd_init ;;
  lcd_startup LSS_BLANK ;; lcd_startup LSS_INIT ;;
  on_io io_init ;; on_ev event_init ;; on_cmd cmd_init ;;
  fs_init ;; net_init ;; snd_init ;; pl_init ;;
  lcd_startup LSS_WELLCOME ;;
  version ;;
  xprintf &"=== Init Done ===\n\n" [] ;;
  on_con con_input_unlock ;;
  con_prompt.

Definition done_linux : MS unit :=
  xprintf &"\n\n" [] ;;
  xprintf &"=== Shutdown ===\n" [] ;;
  net_done ;; fs_done ;; snd_done ;; lcd_done ;;
  xprintf &"=== Done ===\n\n" [].

(** The order of Linux and of the null host; [fuel] bounds the decoder's loop. *)
Definition frame (fuel : nat) (cmds : list command_s) : MS unit :=
  con_poll ;; fs_poll ;; net_poll ;; libmad_loop fuel ;; snd_loop ;;
  event_loop cmds ;; pl_poll ;; lcd_poll.

(** On the STM32 the player is polled before the events are handled. *)
Definition frame_stm32 (fuel : nat) (cmds : list command_s) : MS unit :=
  con_poll ;; fs_poll ;; net_poll ;; libmad_loop fuel ;; snd_loop ;;
  pl_poll ;; event_loop cmds ;; lcd_poll.

(** [run] of the Linux host, for at most [n] frames. *)
Fixpoint run (n fuel : nat) (cmds : list command_s) : MS unit :=
  match n with
  | O => ret tt
  | S n' =>
      let* q := gets s_quit in
      if negb (q =? 0) then ret tt else frame fuel cmds ;; run n' fuel cmds
  end.

(** [main]: start, at most [n] frames, shut down. *)
Definition main_linux (n fuel : nat) (cmds : list command_s) : MS unit :=
  init_linux ;; run n fuel cmds ;; done_linux.

(** ** main.c of the null host *)

Definition null_init (lma_init : MS unit) : MS unit :=
  con_init ;;
  xprintf &"\n\n==== Init start ====\n" [] ;;
  lcd_init ;; lcd_startup LSS_BLANK ;; lcd_startup LSS_INIT ;;
  on_io io_init ;; lma_init ;; on_ev event_init ;; on_cmd cmd_init ;;
  fs_init ;; net_init ;; snd_init ;; pl_init ;;
  lcd_startup LSS_WELLCOME ;;
  version ;;
  xprintf &"==== Init done ====\n\n" [] ;;
  on_con con_input_unlock ;;
  con_prompt.

Definition null_done : MS unit :=
  net_done ;; fs_done ;; snd_done ;; lcd_done ;;
  xprintf &"=== Done ===\n\n" [].

Definition null_frame (fuel : nat) (cmds : list command_s) : MS unit :=
  con_poll ;; fs_poll ;; net_poll ;; libmad_loop fuel ;; snd_loop ;;
  event_loop cmds ;; pl_poll ;; lcd_poll.

Fixpoint null_run (n fuel : nat) (cmds : list command_s) : MS unit :=
  match n with
  | O => ret tt
  | S n' =>
      let* q := gets s_quit in
      if negb (q =? 0) then ret tt else null_frame fuel cmds ;; null_run n' fuel cmds
  end.

(** [main], for at most [n] rounds of its loop. *)
Definition main_null (lma_init : MS unit) (n fuel : nat) (cmds : list command_s) : MS unit :=
  null_init lma_init ;; null_run n fuel cmds ;; null_done.
End Ops.
