(* ===== verification/Keeps.v ===== *)
(** * What the operations keep

    The laws a host and a decoder must obey ([PlatformLaws], [MadLaws]) and, for
    every operation of the common part, which components it leaves alone.  The
    assertion [base c e p f] fixes the console, the events, the player and the
    file system and says that host, buffers and display are well formed; an
    operation that [keeps] it for all [c], [e], [p] and [f] touches none of the
    four. *)

From S2P Require Import Prelude Libc MadStream Snd IoBuffer Console Event Cmd Id3tag Net Resfs State Fs LcdPanel Libmad.

(** ** Weak well-formedness of the rings: enough for memory safety, whatever the
    counters are *)

Definition io_wf (s : io_t) : Prop :=
  max_buffers (io_i s) = MAX_INPUT_BUFFERS /\ max_buffers (io_o s) = MAX_OUTPUT_BUFFERS /\ io_arrays s.

Definition con_inv (c : con_t) : Prop := exists st, con_rep c st.

Definition flag (x : Z) : Prop := x = 0 \/ x = 1.
Definition lcd_wf (l : lcd_t) : Prop :=
  flag (lcd_err l) /\ flag (active (lcd_tvolume l)) /\ flag (active (lcd_tmedia l)).

(** ** The laws of a host *)

Class PlatformLaws (H : Type) (P : Platform H) := {
  host_ok : H -> Prop;
  law_time h : host_ok h -> pp get_local_time (fun _ => host_ok) h;
  law_con_init h : host_ok h -> pp host_con_init (fun _ => host_ok) h;
  (** Polling the console edits the line and queues at most two events. *)
  law_con_poll h c e : host_ok h -> con_inv c -> ev_inv e -> ev_head e < 4294967294 ->
    pp host_con_poll (fun _ x => host_ok (fst (fst x)) /\ con_inv (snd (fst x)) /\
      ev_inv (snd x) /\ ev_head (snd x) <= ev_head e + 2) (h, c, e);
  law_fs_init h : host_ok h -> pp host_fs_init (fun _ => host_ok) h;
  law_fs_open h n : host_ok h -> pp (host_fs_open n) (fun _ => host_ok) h;
  law_fs_close h k : host_ok h -> pp (host_fs_close k) (fun _ => host_ok) h;
  law_fs_read h k n : host_ok h -> pp (host_fs_read k n) (fun _ => host_ok) h;
  law_fs_seek h k n : host_ok h -> pp (host_fs_seek k n) (fun _ => host_ok) h;
  law_net_init h : host_ok h -> pp host_net_init (fun _ => host_ok) h;
  law_net_open h u : host_ok h -> pp (host_net_open u) (fun _ => host_ok) h;
  law_net_close h : host_ok h -> pp host_net_close (fun _ => host_ok) h;
  law_net_poll h io : host_ok h -> io_wf io ->
    pp host_net_poll (fun _ x => host_ok (fst x) /\ io_wf (snd x)) (h, io);
  law_net_state h : host_ok h -> pp host_net_state (fun _ => host_ok) h;
  law_snd_init h : host_ok h -> pp host_snd_init (fun _ => host_ok) h;
  law_snd_loop h io st v : host_ok h -> io_wf io ->
    pp (host_snd_loop st v) (fun _ x => host_ok (fst x) /\ io_wf (snd x)) (h, io);
  law_snd_state h : host_ok h -> pp host_snd_state (fun _ => host_ok) h;
  law_lcd_init h : host_ok h -> pp host_lcd_init (fun _ => host_ok) h;
  law_lcd_draw h r : host_ok h -> pp (host_lcd_draw r) (fun _ => host_ok) h;
  law_lcd_get_cfg h : host_ok h -> pp host_lcd_get_cfg (fun _ => host_ok) h;
  law_cmd_net_state h : host_ok h -> pp host_cmd_net_state (fun _ => host_ok) h;
  law_cmd_snd_state h v : host_ok h -> pp (host_cmd_snd_state v) (fun _ => host_ok) h
}.

(** ** The laws of the decoder

    A call of the decoder ends; it keeps what the decoder needs of its own state
    ([inv]), and it either reports an error that ends the loop or leaves things
    [fine] for the next call. *)
Definition decoded {D} (inv : D -> Prop) (fine : mad_stream -> D -> Prop) (r : res (Z * mad_stream * D)) : Prop :=
  match r with
  | Done (r, st, d) =>
      (0 <= skiplen st /\ inv d) /\ ((r = -1 /\ MAD_RECOVERABLE (ms_error st) = false) \/ fine st d)
  | Fault => True
  | NoFuel => False
  end.

(** The size of [libmad_buffer]. *)
Definition MAD_BUFFER_BYTES : Z := LIBMAD_BUFFER_SIZE + MAD_BUFFER_GUARD.

(** [mad_inv] holds of the decoder between two blocks, [mad_ok] while a block is
    being decoded.  [mad_work] bounds the number of headers the decoder can still
    find: looking for a header either uses up input or reports an error that ends
    the loop, and nothing else makes work; a buffer of [n] bytes is work for at
    most [n] headers. *)
Class MadLaws (D : Type) (MD : Mad D) := {
  mad_inv : D -> Prop;
  mad_ok : mad_stream -> D -> Prop;
  mad_work : mad_stream -> D -> nat;
  law_init d : mad_inv (mad_init d);
  law_text d : mad_inv d -> mad_timer_text d <> NoFuel;
  law_finish d : mad_inv d -> mad_inv (mad_finish d);
  law_ok st d : mad_ok st d -> 0 <= skiplen st /\ mad_inv d;
  law_header buf st d : mad_ok st d -> zlen buf = MAD_BUFFER_BYTES ->
    decoded mad_inv (fun st' d' => mad_ok st' d' /\ (mad_work st' d' < mad_work st d)%nat) (mad_header_decode buf st d);
  law_frame buf st d : mad_ok st d -> zlen buf = MAD_BUFFER_BYTES ->
    decoded mad_inv (fun st' d' => mad_ok st' d' /\ (mad_work st' d' <= mad_work st d)%nat) (mad_frame_decode buf st d);
  law_mute st d : mad_ok st d ->
    mad_ok st (mad_frame_mute d) /\ (mad_work st (mad_frame_mute d) <= mad_work st d)%nat;
  law_skip st d n : mad_ok st d -> 0 <= n ->
    let st' := MadStream (this_frame st) (next_frame st) (bufend st) (ms_error st) n in
    mad_ok st' d /\ (mad_work st' d <= mad_work st d)%nat;
  law_timer st d : mad_ok st d ->
    mad_ok st (mad_timer_add d) /\ (mad_work st (mad_timer_add d) <= mad_work st d)%nat;
  law_synth st d : mad_ok st d ->
    match mad_synth_frame d with Done d' => mad_ok st d' /\ (mad_work st d' <= mad_work st d)%nat | Fault => True | NoFuel => False end;
  law_buffered n e k d : mad_inv d -> 0 <= n <= LIBMAD_BUFFER_SIZE -> 0 <= k ->
    let st := MadStream (Some 0%Z) (Some 0%Z) (Some n) e k in
    mad_ok st (mad_buffered d) /\ (mad_work st (mad_buffered d) <= Z.to_nat n)%nat
}.

(** The decoder's part of the invariant of the player. *)
Definition mad_wf {D} {MD : Mad D} {ML : MadLaws D MD} (m : mad_t D) : Prop :=
  0 <= skiplen (m_stream m) /\ mad_inv (m_dec m) /\ zlen (libmad_buffer m) = MAD_BUFFER_BYTES.

(** ** Keeping an assertion *)

Definition keeps {S A} (I : S -> Prop) (m : M S A) : Prop :=
  forall s, I s -> pp m (fun _ s' => I s') s.

Section Rules.
Context {S : Type} (I : S -> Prop).

Lemma keeps_ret {A} (a : A) : keeps I (ret a).
Proof. intros s Hs. by apply pp_ret. Qed.
Lemma keeps_get : keeps I get.
Proof. intros s Hs. by apply pp_get. Qed.
Lemma keeps_gets {A} (f : S -> A) : keeps I (gets f).
Proof. intros s Hs. by apply pp_gets. Qed.
Lemma keeps_lift {A} (o : option A) : keeps I (lift o).
Proof. intros s Hs. by apply pp_lift. Qed.
Lemma keeps_lift_res {A} (r : res A) : r <> NoFuel -> keeps I (lift_res r).
Proof. intros Hr s Hs. by apply pp_lift_res. Qed.
Lemma keeps_fault {A} : keeps I (@fault S A).
Proof. by intros s Hs. Qed.
Lemma keeps_tell o : keeps I (tell o).
Proof. intros s Hs. exact Hs. Qed.
Lemma keeps_modify f : (forall s, I s -> I (f s)) -> keeps I (modify f).
Proof. intros Hf s Hs. by apply pp_modify, Hf. Qed.
Lemma keeps_bind {A B} (m : M S A) (k : A -> M S B) :
  keeps I m -> (forall a, keeps I (k a)) -> keeps I (bind m k).
Proof. intros Hm Hk s Hs. apply pp_bind. eapply pp_mono; [|by apply Hm]. intros a s' Hs'. by apply Hk. Qed.
Lemma keeps_when b (m : M S unit) : keeps I m -> keeps I (when b m).
Proof. intros Hm. destruct b; [done|apply keeps_ret]. Qed.
Lemma keeps_if {A} (b : bool) (m n : M S A) : keeps I m -> keeps I n -> keeps I (if b then m else n).
Proof. by destruct b. Qed.
Lemma keeps_for_range lo n (body : Z -> M S unit) : (forall i, keeps I (body i)) -> keeps I (for_range lo n body).
Proof. intros Hb s Hs. apply pp_for_range; [|done]. intros i s' Hs'. by apply Hb. Qed.
Lemma keeps_xprintf `{Target} fmt args : keeps I (xprintf fmt args).
Proof. intros s Hs. by apply pp_xprintf. Qed.
Lemma keeps_pp {A} (m : M S A) s (Q : A -> S -> Prop) :
  keeps I m -> I s -> (forall a s', I s' -> Q a s') -> pp m Q s.
Proof. intros Hm Hs HQ. eapply pp_mono; [|by apply Hm]. auto. Qed.
End Rules.

Lemma keeps_zoom {S C A} (I : S -> Prop) (J : C -> Prop) proj upd (m : M C A) :
  keeps J m -> (forall s, I s -> J (proj s)) -> (forall s c, I s -> J c -> I (upd c s)) ->
  keeps I (zoom proj upd m).
Proof. intros Hm Hp Hu s Hs. apply pp_zoom. eapply pp_mono; [|by apply Hm, Hp]. intros a c Hc. by apply Hu. Qed.

Create HintDb keeps.
#[export] Hint Resolve keeps_ret keeps_get keeps_gets keeps_lift keeps_lift_res keeps_fault keeps_tell keeps_xprintf : keeps.

(** [keep] goes through a computation; what it does not know is left to the hints
    of the database. *)
Ltac keep_step :=
  lazymatch goal with
  | |- keeps _ (bind _ _) => apply keeps_bind; [|intros ?]
  | |- keeps _ (when _ _) => apply keeps_when
  | |- keeps _ (for_range _ _ _) => apply keeps_for_range; intros ?
  | |- keeps _ (if ?b then _ else _) => destruct b
  | |- keeps _ (match ?x with _ => _ end) => destruct x
  | |- _ => solve [auto with keeps nocore]
  end.
Ltac keep := intros; cbn beta iota; repeat (keep_step; cbn beta iota).

(** ** The buffer rings *)

Section Io.
Context `{T : Target} `{C : Config}.

Lemma io_wf_input s l : io_wf s -> zlen l = zlen (input s) -> io_wf (set_input l s).
Proof. intros (? & ? & ? & ?) Hl. unfold io_wf, io_arrays in *. simpl. split_and!; congruence. Qed.
Lemma io_wf_output s l : io_wf s -> zlen l = zlen (output s) -> io_wf (set_output l s).
Proof. intros (? & ? & ? & ?) Hl. unfold io_wf, io_arrays in *. simpl. split_and!; congruence. Qed.

Lemma zlen_zset {A} (l l' : list A) i x : zset l i x = Some l' -> zlen l' = zlen l.
Proof. intros Hs. unfold zlen. by rewrite (zset_length _ _ _ _ Hs). Qed.

Lemma keeps_with_input i f : keeps io_wf (with_input i f).
Proof.
  intros s Hs. unfold with_input. pp_steps. apply io_wf_input; [done|by eapply zlen_zset].
Qed.
Lemma keeps_with_output i f : keeps io_wf (with_output i f).
Proof.
  intros s Hs. unfold with_output. pp_steps. apply io_wf_output; [done|by eapply zlen_zset].
Qed.
Lemma keeps_input_reset i : keeps io_wf (io_input_reset_buffer i).
Proof.
  intros s Hs. unfold io_input_reset_buffer. pp_steps. apply io_wf_input; [done|by eapply zlen_zset].
Qed.
Lemma keeps_output_reset i : keeps io_wf (io_output_reset_buffer i).
Proof.
  intros s Hs. unfold io_output_reset_buffer. pp_steps. apply io_wf_output; [done|by eapply zlen_zset].
Qed.

(** Pushing and popping change the counters only. *)
Lemma keeps_max_push n : keeps (fun io => max_buffers io = n) io_push.
Proof.
  unfold io_push. keep; apply keeps_modify; done.
Qed.
Lemma keeps_max_pop n : keeps (fun io => max_buffers io = n) io_pop.
Proof.
  unfold io_pop, io_debug. keep. apply keeps_modify; done.
Qed.

Lemma keeps_on_i {A} (m : M io_s A) : (forall n, keeps (fun io => max_buffers io = n) m) ->
  keeps io_wf (zoom io_i set_io_i m).
Proof.
  intros Hm. apply (keeps_zoom _ (fun io => max_buffers io = MAX_INPUT_BUFFERS)); [apply Hm|by intros s [? _]|].
  intros s io (Hi & Ho & Ha) Hio. by split_and!.
Qed.
Lemma keeps_on_o {A} (m : M io_s A) : (forall n, keeps (fun io => max_buffers io = n) m) ->
  keeps io_wf (zoom io_o set_io_o m).
Proof.
  intros Hm. apply (keeps_zoom _ (fun io => max_buffers io = MAX_OUTPUT_BUFFERS)); [apply Hm|by intros s (_ & ? & _)|].
  intros s io (Hi & Ho & Ha) Hio. by split_and!.
Qed.
Hint Resolve keeps_with_input keeps_with_output keeps_input_reset keeps_output_reset : keeps.
Hint Resolve keeps_on_i keeps_on_o keeps_max_push keeps_max_pop : keeps.

Lemma keeps_i_push : keeps io_wf i_push.
Proof. unfold i_push. keep. Qed.
Lemma keeps_o_push : keeps io_wf o_push.
Proof. unfold o_push. keep. Qed.
Lemma keeps_i_pop : keeps io_wf i_pop.
Proof. unfold i_pop, io_debug. keep. Qed.
Lemma keeps_o_pop : keeps io_wf o_pop.
Proof. unfold o_pop, io_debug. keep. Qed.
Lemma keeps_io_init : keeps io_wf io_init.
Proof.
  assert (Hr : keeps io_wf io_reset_input).
  { unfold io_reset_input. keep. apply keeps_modify. by intros s (? & ? & ?). }
  assert (Ho : keeps io_wf io_reset_output).
  { unfold io_reset_output. keep. apply keeps_modify. by intros s (? & ? & ?). }
  unfold io_init, io_debug. keep.
Qed.
Lemma keeps_io_starving : keeps io_wf io_starving.
Proof. unfold io_starving, i_used, o_used. keep. Qed.
Lemma keeps_cmd_io_state : keeps io_wf cmd_io_state.
Proof. unfold cmd_io_state. keep. Qed.
End Io.
#[export] Hint Resolve keeps_with_input keeps_with_output keeps_i_push keeps_o_push keeps_i_pop
  keeps_o_pop keeps_io_init keeps_io_starving keeps_cmd_io_state : keeps.

(** ** The parts of the state *)

Section Base.
Context {H D : Type} `{T : Target} `{C : Config} `{P : Platform H} `{PL : !PlatformLaws H P}
  `{MD : Mad D} `{ML : !MadLaws D MD}.

Definition base (c : con_t) (e : ev_t) (p : pl_t) (f : fss_t) (s : state H D) : Prop :=
  host_ok (s_host s) /\ io_wf (s_io s) /\ lcd_wf (s_lcd s) /\ mad_wf (s_mad s) /\
  s_con s = c /\ s_ev s = e /\ s_pl s = p /\ s_fss s = f.

Lemma keeps_on_host {A} (m : M H A) c e p f :
  (forall h, host_ok h -> pp m (fun _ => host_ok) h) -> keeps (base c e p f) (on_host m).
Proof.
  intros Hm. apply (keeps_zoom _ host_ok); [exact Hm|by intros s [? _]|].
  intros s h (Hh & Hr) Hh'. by split.
Qed.

Lemma keeps_on_io {A} (m : M io_t A) c e p f : keeps io_wf m -> keeps (base c e p f) (on_io m).
Proof.
  intros Hm. apply (keeps_zoom _ io_wf); [exact Hm|by intros s (_ & ? & _)|].
  intros s io (? & ? & ? & ? & ? & ? & ? & ?) Hio. by split_and!.
Qed.

Lemma keeps_on_host_io {A} (m : M (H * io_t) A) c e p f :
  (forall h io, host_ok h -> io_wf io -> pp m (fun _ x => host_ok (fst x) /\ io_wf (snd x)) (h, io)) ->
  keeps (base c e p f) (on_host_io m).
Proof.
  intros Hm. apply (keeps_zoom _ (fun x => host_ok (fst x) /\ io_wf (snd x))).
  - intros [h io] [Hh Hio]. by apply Hm.
  - by intros s (? & ? & _).
  - intros s [h io] (? & ? & ? & ? & ? & ? & ? & ?) [Hh Hio]. by split_and!.
Qed.

(** Commands and resources are not in [base]; their operations must end. *)
Definition ends {S A} (m : M S A) : Prop := forall s, pp m (fun _ _ => True) s.

Lemma keeps_on_res {A} (m : M rs_t A) c e p f : ends m ->
  keeps (base c e p f) (on_res m).
Proof. intros Hm. apply (keeps_zoom _ (fun _ => True)); [by intros r _|done|]. intros s r Hs _. exact Hs. Qed.

Lemma keeps_on_cmd {A} (m : M cmd_t A) c e p f : ends m ->
  keeps (base c e p f) (on_cmd m).
Proof. intros Hm. apply (keeps_zoom _ (fun _ => True)); [by intros r _|done|]. intros s r Hs _. exact Hs. Qed.

Lemma keeps_upd_mad g c e p f : (forall m : mad_t D, mad_wf m -> mad_wf (g m)) -> keeps (base c e p f) (@upd_mad H D g).
Proof.
  intros Hg. apply keeps_modify. intros s (? & ? & ? & ? & ? & ? & ? & ?). split_and!; try done. by apply Hg.
Qed.

Lemma keeps_upd_lcd g c e p f : (forall l, lcd_wf l -> lcd_wf (g l)) -> keeps (base c e p f) (@upd_lcd H D g).
Proof.
  intros Hg. apply keeps_modify. intros s (? & ? & ? & ? & ? & ? & ? & ?). split_and!; try done. by apply Hg.
Qed.
End Base.
#[export] Hint Resolve keeps_on_host keeps_on_io keeps_on_host_io keeps_on_res keeps_on_cmd keeps_upd_mad : keeps.
#[export] Hint Extern 1 (forall m, mad_wf m -> mad_wf _) => (by intros ? (? & ? & ?); split_and!) : keeps.
#[export] Hint Resolve law_time law_fs_open law_fs_close law_fs_read law_fs_seek law_net_open law_net_close
  law_net_poll law_net_state law_snd_loop law_snd_state law_lcd_draw law_cmd_net_state law_cmd_snd_state
  law_con_init law_fs_init law_net_init law_snd_init law_lcd_init law_lcd_get_cfg : keeps.

(** ** Resources and the tokenizer end *)

Section Ends.
Context `{T : Target} `{C : Config}.

Lemma keeps_ends {S A} (m : M S A) : keeps (fun _ => True) m -> ends m.
Proof. intros Hm s. by apply Hm. Qed.

Lemma keeps_true_put {S} (s : S) : keeps (fun _ => True) (put s).
Proof. by intros s' _. Qed.
Lemma keeps_true_modify {S} (f : S -> S) : keeps (fun _ => True) (modify f).
Proof. by intros s' _. Qed.
Hint Resolve keeps_true_put keeps_true_modify : keeps.

Lemma ends_res_open n : ends (res_open n).
Proof. apply keeps_ends. unfold res_open, res_debug, res_find_handle. keep. Qed.
Lemma ends_res_close n : ends (res_close n).
Proof. apply keeps_ends. unfold res_close, res_debug, with_entry. keep. Qed.
Lemma ends_res_read n k : ends (res_read n k).
Proof. apply keeps_ends. unfold res_read, with_entry. keep. Qed.
Lemma ends_res_seek n k : ends (res_seek n k).
Proof. apply keeps_ends. unfold res_seek, res_debug, with_entry. keep. Qed.
Lemma ends_res_init : ends res_init.
Proof. apply keeps_ends. unfold res_init, res_debug. keep. Qed.
Lemma ends_res_done : ends res_done.
Proof. apply keeps_ends. unfold res_done, res_debug. keep. Qed.
Lemma ends_cmd_res_list : ends cmd_res_list.
Proof. apply keeps_ends. unfold cmd_res_list. keep. Qed.

Lemma keeps_deref p : keeps (fun _ => True) (deref p).
Proof. unfold deref. keep. Qed.
Hint Resolve keeps_deref : keeps.
Lemma ends_cmd_Argc : ends cmd_Argc.
Proof. apply keeps_ends. unfold cmd_Argc. keep. Qed.
Lemma ends_cmd_Argv i : ends (cmd_Argv i).
Proof. apply keeps_ends. unfold cmd_Argv. keep. Qed.
Lemma ends_cmd_arg i : ends (cmd_arg i).
Proof. apply keeps_ends. unfold cmd_arg, cmd_Argv. keep. Qed.
Lemma ends_deref p : ends (deref p).
Proof. apply keeps_ends, keeps_deref. Qed.
Lemma ends_cmd_init : ends cmd_init.
Proof. apply keeps_ends. unfold cmd_init. keep. Qed.
Lemma ends_cmd_echo : ends cmd_echo.
Proof. apply keeps_ends. unfold cmd_echo, cmd_Argc, cmd_arg, cmd_Argv. keep. Qed.

Lemma keeps_copy_while q text : forall out, keeps (fun _ => True) (copy_while q text out).
Proof. induction text as [|c r IH]; intros out; cbn [copy_while]; unfold store_token; keep. Qed.
Hint Resolve keeps_copy_while : keeps.

(** The tokenizer's loop ends for every text, because each round adds a token. *)
Lemma tokenize_loop_ends fuel : forall text out c,
  cmd_argc c <= MAX_TOKENS -> MAX_TOKENS - cmd_argc c < Z.of_nat fuel ->
  pp (tokenize_loop fuel text out) (fun _ _ => True) c.
Proof.
  induction fuel as [|fuel IH]; intros text out c Hle Hf; [lia|]. cbn [tokenize_loop].
  unfold cmd_Argc. pp_steps. destruct (Z.eqb_spec (cmd_argc c) MAX_TOKENS) as [|Hne]; [by apply pp_ret|].
  pp_step. apply pp_lift. intros c0 _. pp_step.
  assert (Hc1 : forall (k : Z -> M cmd_t unit), (forall a, pp (k a) (fun _ _ => True) c) ->
    pp (if c0 =? 47 then lift (zget text 1) else ret 0) (fun a => pp (k a) (fun _ _ => True)) c).
  { intros k Hk. destruct (c0 =? 47); [by apply pp_lift|by apply pp_ret]. }
  apply Hc1. intros c1. clear Hc1.
  destruct (_ && _); [by apply pp_ret|]. destruct (c0 =? 35); [by apply pp_ret|].
  pp_step. apply pp_lift. intros t _. pp_step. apply pp_lift. intros c2 _.
  repeat (match goal with |- pp (if ?b then ret tt else _) _ _ => destruct b; [by apply pp_ret|] end).
  assert (Htok : forall q txt out (k : list Z -> Z -> M cmd_t unit),
    (forall txt out c', cmd_argc c' = cmd_argc c + 1 -> pp (k txt out) (fun _ _ => True) c') ->
    pp (new_token out ;; let* (text, out) := copy_while q txt out in store_token out 0 ;; k text out)
      (fun _ _ => True) c).
  { clear. intros q txt out k Hk. unfold new_token. pp_steps.
    match goal with |- pp _ _ ?s => remember s as c1 end.
    assert (Hc1 : cmd_argc c1 = cmd_argc c + 1) by (subst c1; done). clear -Hk Hc1. revert out c1 Hc1.
    induction txt as [|x r IH]; intros out c1 Hc1; cbn [copy_while]; [pp_steps|].
    destruct (q x).
    - unfold store_token at 1. pp_steps. apply IH. done.
    - unfold store_token. pp_steps. by apply Hk. }
  destruct (c2 =? 34); apply Htok; clear Htok; intros txt out' c' Hc'; pp_step; apply pp_lift; intros c3 _;
    destruct (c3 =? 0); try (by apply pp_ret); apply IH; lia.
Qed.

Lemma ends_cmd_tokenize text : ends (cmd_tokenize text).
Proof.
  intros c. unfold cmd_tokenize. pp_steps. destruct text; [|by apply pp_ret].
  pp_steps. by apply tokenize_loop_ends.
Qed.
End Ends.
#[export] Hint Resolve ends_res_open ends_res_close ends_res_read ends_res_seek ends_res_init ends_res_done
  ends_cmd_res_list ends_cmd_Argc ends_cmd_Argv ends_cmd_arg ends_deref ends_cmd_init ends_cmd_echo
  ends_cmd_tokenize : keeps.

(** ** Display and decoder *)

Section LcdKeeps.
Context {H D : Type} `{T : Target} `{C : Config} `{P : Platform H} `{PL : !PlatformLaws H P}
  `{MD : Mad D} `{ML : !MadLaws D MD}.
Context (c : con_t) (e : ev_t) (p : pl_t) (f : fss_t).
Abbreviation B := (@base H D P PL MD ML c e p f).

Lemma keeps_local_time : keeps B local_time.
Proof. unfold local_time. keep. Qed.
Hint Resolve keeps_local_time : keeps.

Lemma keeps_lcd_on (m : M (state H D) unit) : keeps B m -> keeps B (lcd_on m).
Proof. intros Hm. unfold lcd_on. keep. Qed.
Lemma keeps_lcd_draw r : keeps B (lcd_draw r).
Proof. unfold lcd_draw. keep. Qed.
Hint Resolve keeps_lcd_on keeps_lcd_draw : keeps.

Lemma keeps_lcd_reset : keeps B lcd_reset.
Proof.
  unfold lcd_reset, lcd_debug. apply keeps_lcd_on. keep. apply keeps_upd_lcd. intros _ _.
  by split_and!; left.
Qed.
Lemma keeps_lcd_startup st : keeps B (lcd_startup st).
Proof. unfold lcd_startup. apply keeps_lcd_on. keep. Qed.
Lemma keeps_lcd_error er : keeps B (lcd_error er).
Proof.
  unfold lcd_error. apply keeps_lcd_on. keep. apply keeps_upd_lcd. intros l (? & ? & ?).
  split_and!; [by right|done|done].
Qed.
Lemma keeps_start_media_timer : keeps B start_media_timer.
Proof.
  unfold start_media_timer. keep. apply keeps_upd_lcd. intros l (? & ? & ?). split_and!; [done|done|by right].
Qed.
Hint Resolve keeps_start_media_timer : keeps.
Lemma keeps_lcd_play : keeps B lcd_play.
Proof. unfold lcd_play. apply keeps_lcd_on. keep. Qed.
Lemma keeps_lcd_stop : keeps B lcd_stop.
Proof. unfold lcd_stop. apply keeps_lcd_on. keep. Qed.
Lemma keeps_lcd_volume : keeps B lcd_volume.
Proof.
  unfold lcd_volume. apply keeps_lcd_on. keep. apply keeps_upd_lcd. intros l (? & ? & ?).
  split_and!; [done|by right|done].
Qed.
Lemma keeps_lcd_timer_event : keeps B lcd_timer_event.
Proof. unfold lcd_timer_event. keep. Qed.
Hint Resolve keeps_lcd_timer_event : keeps.
Lemma keeps_lcd_poll : keeps B lcd_poll.
Proof.
  unfold lcd_poll, lcd_timer. apply keeps_lcd_on. keep; apply keeps_upd_lcd; intros l (? & ? & ?);
    split_and!; done || by left.
Qed.
Lemma keeps_lcd_init : keeps B lcd_init.
Proof.
  unfold lcd_init, lcd_debug, lcd_get_cfg. apply keeps_lcd_on. keep; apply keeps_lcd_reset.
Qed.
End LcdKeeps.
#[export] Hint Resolve keeps_local_time keeps_lcd_reset keeps_lcd_startup keeps_lcd_error keeps_lcd_play keeps_lcd_stop
  keeps_lcd_volume keeps_lcd_poll keeps_lcd_init : keeps.

Section MadKeeps.
Context {H D : Type} `{T : Target} `{C : Config} `{P : Platform H} `{PL : !PlatformLaws H P}
  `{MD : Mad D} `{ML : !MadLaws D MD}.
Context (c : con_t) (e : ev_t) (p : pl_t) (f : fss_t).
Abbreviation B := (@base H D P PL MD ML c e p f).

Lemma keeps_libmad_init : keeps B libmad_init.
Proof.
  intros s Hb. unfold libmad_init, libmad_debug, upd_mad. pp_steps; [apply pp_xprintf|];
    destruct Hb as (? & ? & ? & ? & ? & ? & ? & ?); split_and!; try done; (split_and!; [done|apply law_init|done]).
Qed.
Lemma keeps_libmad_done : keeps B libmad_done.
Proof.
  unfold libmad_done, libmad_debug. keep. apply keeps_upd_mad. intros m (Hk & Hm & Hl). split_and!; [done| |done]. by apply law_finish.
Qed.
Lemma keeps_libmad_headerinfo h : keeps B (libmad_headerinfo h).
Proof. unfold libmad_headerinfo. keep. Qed.
Hint Resolve keeps_libmad_headerinfo : keeps.
Lemma keeps_cmd_libmad_state : keeps B cmd_libmad_state.
Proof.
  intros s Hb. unfold cmd_libmad_state. pp_step. apply pp_get. pp_step.
  pose proof Hb as (_ & _ & _ & (_ & Hi & _) & _). apply pp_lift_res; [by apply law_text|]. intros buff _.
  apply (keeps_pp B); [keep|done|done].
Qed.

(** A block is being decoded, and fewer than [n] headers are left in it. *)
Definition mad_busy (n : nat) (m : mad_t D) : Prop :=
  mad_ok (m_stream m) (m_dec m) /\ (mad_work (m_stream m) (m_dec m) < n)%nat /\ zlen (libmad_buffer m) = MAD_BUFFER_BYTES.

(** Keeping [base] without making work for the decoder. *)
Definition Bw (n : nat) (s : state H D) : Prop := B s /\ mad_busy n (s_mad s).

Lemma mad_busy_wf n m : mad_busy n m -> mad_wf m.
Proof. intros (Hok & _ & Hl). apply law_ok in Hok as [? ?]. by split_and!. Qed.

Lemma base_set_mad m s : B s -> mad_wf m -> B (set_mad m s).
Proof. intros (? & ? & ? & ? & ? & ? & ? & ?) Hm. by split_and!. Qed.

Lemma keeps_Bw_on_io {A} (m : M io_t A) n : keeps io_wf m -> keeps (Bw n) (on_io m).
Proof.
  intros Hm s [Hb Hw]. unfold on_io. apply pp_zoom.
  eapply pp_mono; [|apply Hm; apply Hb]. intros a io Hio. split; [|exact Hw].
  destruct Hb as (? & ? & ? & ? & ? & ? & ? & ?). by split_and!.
Qed.
Lemma keeps_Bw_upd_mad g n : (forall m, mad_busy n m -> mad_busy n (g m)) -> keeps (Bw n) (@upd_mad H D g).
Proof.
  intros Hg. apply keeps_modify. intros s [Hb Hw]. apply Hg in Hw. split; [|done].
  apply base_set_mad; [done|by eapply mad_busy_wf].
Qed.
Hint Resolve keeps_Bw_on_io keeps_Bw_upd_mad : keeps.
Hint Extern 1 (forall m, mad_busy _ m -> mad_busy _ _) => (by intros ? (? & ? & ?); split_and!) : keeps.

Lemma mad_busy_le n m m' : mad_busy n m -> libmad_buffer m' = libmad_buffer m ->
  (mad_ok (m_stream m) (m_dec m) ->
   mad_ok (m_stream m') (m_dec m') /\ (mad_work (m_stream m') (m_dec m') <= mad_work (m_stream m) (m_dec m))%nat) ->
  mad_busy n m'.
Proof. intros (Hok & Hw & Hl) Hb Hle. destruct (Hle Hok). split_and!; [done|lia|congruence]. Qed.

Lemma keeps_Bw_put_dump n bp a k : keeps (Bw n) (put_dump_char bp a k).
Proof. unfold put_dump_char. keep. Qed.
Hint Resolve keeps_Bw_put_dump : keeps.

Lemma ulong_ge0 x : 0 <= ulong x.
Proof. unfold ulong. destruct long64; wraps; lia. Qed.

Lemma keeps_Bw_libmad_error n : keeps (Bw n) libmad_error.
Proof.
  unfold libmad_error, libmad_debug. keep; apply keeps_Bw_upd_mad; intros m Hm; (eapply mad_busy_le; [exact Hm|done|]); intros Hok.
  - by apply law_mute.
  - apply law_skip; [done|apply ulong_ge0].
Qed.

(** What a call of the decoder leaves behind: the end of the loop, or work. *)
Definition called (n : nat) (r : Z) (s : state H D) : Prop :=
  B s /\ ((r = -1 /\ MAD_RECOVERABLE (ms_error (m_stream (s_mad s))) = false) \/ mad_busy n (s_mad s)).

Lemma pp_after_call n r s : called n r s ->
  pp (after_call r) (fun step s' => B s' /\ (step <> LeaveLoop -> Bw n s')) s.
Proof.
  intros [Hb [[-> Hun]|Hw]]; unfold after_call.
  - change (-1 =? -1) with true. cbn iota. pp_step. apply pp_get. rewrite Hun. by pp_steps.
  - eapply (keeps_pp (Bw n)); [pose proof (keeps_Bw_libmad_error n); keep|by split|].
    intros step s' Hs'. split; [apply Hs'|done].
Qed.

Lemma pp_mad_call g n s : B s ->
  decoded mad_inv (fun st d => mad_ok st d /\ (mad_work st d < n)%nat)
    (g (libmad_buffer (s_mad s)) (m_stream (s_mad s)) (m_dec (s_mad s))) ->
  pp (mad_call g) (called n) s.
Proof.
  intros Hb Hf. unfold mad_call. pp_step. apply pp_get. pp_step. apply pp_lift_res.
  { intros Hn. by rewrite Hn in Hf. }
  intros [[r st] d] Hd. rewrite Hd in Hf. destruct Hf as [[Hk Hi] Hf]. unfold upd_mad. pp_steps.
  pose proof Hb as (_ & _ & _ & (_ & _ & Hl) & _).
  split; [apply base_set_mad; [done|by split_and!]|]. destruct Hf as [Hf|[? ?]]; [by left|right]. by split_and!.
Qed.

Lemma keeps_Bw_headerinfo n h : keeps (Bw n) (libmad_headerinfo h).
Proof. unfold libmad_headerinfo. keep. Qed.

Lemma keeps_Bw_libmad_output n : keeps (Bw n) libmad_output.
Proof. unfold libmad_output. keep. Qed.

Lemma keeps_Bw_mad_synth n : keeps (Bw n) mad_synth.
Proof.
  intros s [Hb Hm]. unfold mad_synth. pp_step. apply pp_get. pp_step. pose proof Hm as (Hok & Hw & Hl). pose proof (law_synth _ _ Hok) as Hs.
  apply pp_lift_res; [intros Hn; by rewrite Hn in Hs|]. intros d Hd. rewrite Hd in Hs. unfold upd_mad. pp_steps.
  assert (Hm' : mad_busy n (set_m_dec d (s_mad s))) by (eapply mad_busy_le; [exact Hm|done|by intros _]).
  split; [apply base_set_mad; [done|by eapply mad_busy_wf]|exact Hm'].
Qed.

(** The end of a round: the frame is converted and handed on. *)
Lemma keeps_Bw_frame_out n : keeps (Bw n)
  (upd_mad (fun m => set_m_dec (mad_timer_add (m_dec m)) m) ;;
   mad_synth ;;
   libmad_output ;;
   upd_mad (fun m => set_m_frames (slong (m_frames m + 1)) m) ;; ret true).
Proof.
  pose proof (keeps_Bw_libmad_output n). pose proof (keeps_Bw_mad_synth n).
  keep; apply keeps_Bw_upd_mad; intros m Hm; (eapply mad_busy_le; [exact Hm|done|]); intros Hok. by apply law_timer.
Qed.

Lemma decoded_mono {inv : D -> Prop} (F G : mad_stream -> D -> Prop) r :
  (forall st d, F st d -> G st d) -> decoded inv F r -> decoded inv G r.
Proof. intros HFG. destruct r as [[[r st] d]| |]; [|done|done]. intros [? [?|?]]; split; auto. Qed.

(** A round that asks for another one has used up input. *)
Lemma decode_round_work n s : Bw (S n) s ->
  pp decode_round (fun more s' => B s' /\ (more = true -> Bw n s')) s.
Proof.
  intros [Hb (Hok & Hw & Hl)]. unfold decode_round. pp_step. apply pp_get.
  destruct (negb _); [by apply pp_ret|]. pp_step. refine (pp_mono _ _ _ _ _ (pp_mad_call _ n s Hb _)).
  2: { eapply decoded_mono; [|by apply law_header]. cbn. intros st d [? ?]. split; [done|lia]. }
  intros r s1 Hs1. pp_step. refine (pp_mono _ _ _ _ _ (pp_after_call n r s1 Hs1)). intros step s2 [Hb2 Hs2].
  destruct step; [apply pp_ret; split; [done|intros _; by apply Hs2]| |by apply pp_ret]. pp_step. apply pp_get. pp_step.
  apply (keeps_pp (Bw n)); [apply keeps_when, keeps_Bw_headerinfo|by apply Hs2|]. intros [] s3 [Hb3 (Hok3 & Hw3 & Hl3)].
  pp_step. refine (pp_mono _ _ _ _ _ (pp_mad_call _ n s3 Hb3 _)).
  2: { eapply decoded_mono; [|by apply law_frame]. cbn. intros st d [? ?]. split; [done|lia]. }
  intros r' s4 Hs4. pp_step. refine (pp_mono _ _ _ _ _ (pp_after_call n r' s4 Hs4)). intros step s5 [Hb5 Hs5].
  destruct step; [apply pp_ret; split; [done|intros _; by apply Hs5]| |by apply pp_ret].
  apply (keeps_pp (Bw n)); [apply keeps_Bw_frame_out|by apply Hs5|]. intros more s6 Hs6. split; [apply Hs6|done].
Qed.

Lemma decode_loop_ends fuel : forall s, Bw fuel s -> pp (decode_loop fuel) (fun _ s' => B s') s.
Proof.
  induction fuel as [|fuel IH]; intros s Hs; [destruct Hs as (_ & _ & Hw & _); lia|]. cbn [decode_loop].
  pp_step. refine (pp_mono _ _ _ _ _ (decode_round_work fuel s Hs)). intros more s' [Hb' Hs'].
  destruct more; [by apply IH, Hs'|by apply pp_ret].
Qed.

Lemma zlen_fill data buf l : fill data buf = Some l -> zlen l = zlen buf.
Proof.
  unfold fill. destruct (Z.leb_spec (zlen data) (zlen buf)) as [Hle|]; [|done]. intros [= <-].
  rewrite zlen_app. unfold zlen in *. rewrite length_drop. lia.
Qed.

Lemma keep_remaining_len st remain buf buf' : keep_remaining st remain buf = Some buf' -> zlen buf' = zlen buf.
Proof.
  unfold keep_remaining. destruct (remain =? 0); [by intros [= ->]|]. destruct (next_frame st); [|done].
  destruct (slice _ _ _); [|done]. apply zlen_fill.
Qed.

Lemma append_block_len remain block buf buf' : append_block remain block buf = Some buf' -> zlen buf' = zlen buf.
Proof.
  unfold append_block. destruct (Z.ltb_spec remain 0); [done|]. destruct (Z.ltb_spec (zlen buf) (remain + zlen block)); [done|].
  cbn [orb]. intros [= <-]. unfold zlen in *. rewrite !length_app, length_take, length_drop. lia.
Qed.

Lemma libmad_input_work s : B s -> m_state (s_mad s) = LM_INIT ->
  pp libmad_input (fun flow s' => B s' /\ (flow = MAD_FLOW_CONTINUE -> Bw 2081 s') /\ flow <> MAD_FLOW_IGNORE) s.
Proof.
  intros Hb Hst. unfold libmad_input. pp_step. apply pp_get. pp_step. apply pp_lift. intros remain _.
  pp_step. apply pp_lift. intros buf Hkeep. apply keep_remaining_len in Hkeep.
  set (I := fun s : state H D => B s /\ m_state (s_mad s) = LM_INIT).
  assert (Hlen : zlen buf = MAD_BUFFER_BYTES) by (pose proof Hb as (_ & _ & _ & (_ & _ & Hl) & _); congruence).
  pp_step. apply (keeps_pp I); [|by split|].
  { apply keeps_modify. intros s0 [Hs0 He0]. split; [|done]. apply base_set_mad; [done|].
    pose proof Hs0 as (_ & _ & _ & (? & ? & _) & _). by split_and!. }
  intros [] s1 Hb1. pp_step. apply (keeps_pp I); [|done|].
  { intros s0 [Hs0 He0]. unfold on_io. apply pp_zoom. eapply pp_mono; [|apply keeps_i_pop; apply Hs0].
    intros a io Hio. split; [|done]. destruct Hs0 as (? & ? & ? & ? & ? & ? & ? & ?). by split_and!. }
  intros r s2 [Hb2 Hst2]. destruct r as [index|].
  - pp_step. apply pp_get. pp_step. apply pp_lift. intros buff _.
    destruct (_ >? _) eqn:Hgt.
    + pp_step. apply pp_xprintf. pp_step. apply (keeps_pp B); [keep|done|].
      intros [] s3 Hb3. by apply pp_ret.
    + pp_step. apply pp_lift. intros block _. pp_step. apply pp_lift. intros buf' Happ. apply append_block_len in Happ. unfold upd_mad. pp_steps.
      pose proof Hb2 as (_ & _ & _ & (Hk & Hi & Hl) & _).
      destruct (_ =? 0); [apply pp_ret; split; [apply base_set_mad; [exact Hb2|split_and!; [done|done|exact (eq_trans Happ Hl)]]|done]|]. pp_steps.
      pose proof (u32_range (in_used buff + remain)).
      destruct (law_buffered (u32 (in_used buff + remain)) (ms_error (m_stream (s_mad s2))) (skiplen (m_stream (s_mad s2))) (m_dec (s_mad s2))) as [Hok Hw];
        [done|lia|done|].
      assert (Hbusy : forall m : mad_t D, m_stream m = MadStream (Some 0) (Some 0) (Some (u32 (in_used buff + remain)))
                (ms_error (m_stream (s_mad s2))) (skiplen (m_stream (s_mad s2))) ->
              m_dec m = mad_buffered (m_dec (s_mad s2)) -> libmad_buffer m = buf' -> mad_busy 2081 m).
      { intros m E1 E2 E3. unfold mad_busy. rewrite E1, E2, E3. unfold LIBMAD_BUFFER_SIZE in Hgt.
        split_and!; [done|lia|congruence]. }
      match goal with |- B ?s' /\ _ => assert (Hs' : Bw 2081 s') end; [|by split; [apply Hs'|]].
      split; [|by apply Hbusy]. refine (base_set_mad _ s2 Hb2 _). eapply mad_busy_wf. by apply Hbusy.
  - pp_step. apply pp_xprintf. by apply pp_ret.
Qed.

(** The bytes in the buffer bound the rounds. *)
Definition LIBMAD_FUEL : nat := 2081.

Lemma keeps_libmad_loop : keeps B (libmad_loop LIBMAD_FUEL).
Proof.
  intros s Hb. unfold libmad_loop. pp_step. apply pp_get.
  destruct (bool_decide (m_state (s_mad s) = LM_INIT)) eqn:Hst; [|by apply pp_ret].
  apply bool_decide_eq_true_1 in Hst. cbn [negb].
  destruct (bool_decide _); [by apply pp_ret|]. unfold i_used, o_free_size, on_io. pp_steps.
  destruct (_ =? 0); [by apply pp_ret|]. pp_steps.
  destruct (_ <? DECOMPRESS_SIZE); [by apply pp_ret|]. pp_step.
  refine (pp_mono _ _ _ _ _ (libmad_input_work _ _ _)); [|exact Hb|exact Hst]. intros flow s3 (Hb3 & Hw & Hni).
  destruct flow; [|by apply pp_ret|by apply pp_ret|done]. by apply decode_loop_ends, Hw.
Qed.
End MadKeeps.
#[export] Hint Resolve keeps_libmad_init keeps_libmad_done keeps_cmd_libmad_state keeps_libmad_loop : keeps.
