(* ===== verification/FsKeeps.v ===== *)
(** * The protocol of the file system

    One handle slot belongs to the file that is played; the others are free or
    belong to someone else.  [fss_ok] says so, and the lemmas of this file follow
    it through every operation of fs.c. *)

From S2P Require Import Prelude Libc Snd IoBuffer Console Event Cmd Id3tag Net Resfs State Fs LcdPanel Libmad Keeps.

Definition fs_idle (f : fss_t) : Prop := fss_handle f = -1 /\ fss_state f = FSS_CLOSED.

Definition slot_open (f : fss_t) (i : Z) : Prop :=
  exists h, zget (fss_handles f) i = Some h /\ fh_source h <> FSO_CLOSED.

Definition fs_busy (f : fss_t) : Prop :=
  0 <= fss_handle f < MAX_OPEN_FILES /\ fss_state f = FSS_OPEN /\
  (fss_type f = FST_RIFF \/ fss_type f = FST_MP3) /\ slot_open f (fss_handle f).

(** No file is played and the state says closed, or the played file has an open
    slot, the state says open and the type is one the pollers know. *)
Definition fss_ok (f : fss_t) : Prop :=
  zlen (fss_handles f) = MAX_OPEN_FILES /\ (fs_idle f \/ fs_busy f).

Lemma fss_ok_handle f : fss_ok f -> fss_handle f = -1 \/ 0 <= fss_handle f < MAX_OPEN_FILES.
Proof. intros [_ [[? ?]|[? ?]]]; auto. Qed.

Lemma fss_ok_idle f : fss_ok f -> fss_handle f = -1 -> fs_idle f.
Proof. intros [_ [?|[? _]]] Hh; [done|lia]. Qed.

(** Other slots may change. *)
Lemma fss_ok_slots f l : fss_ok f -> zlen l = MAX_OPEN_FILES ->
  (slot_open f (fss_handle f) -> slot_open (set_fhandles l f) (fss_handle f)) ->
  fss_ok (set_fhandles l f).
Proof.
  intros [Hl [Hi|(Hr & Hs & Ht & Ho)]] Hll Hop; (split; [done|]); [by left|right].
  split_and!; simpl; try done; try lia. by apply Hop.
Qed.

Lemma free_slot_spec l : forall n i r, free_slot i n l = Some r -> 0 <= i ->
  r = -1 \/ (i <= r < i + Z.of_nat n /\ exists h, zget l (r - i) = Some h /\ fh_source h = FSO_CLOSED).
Proof.
  induction l as [|h l IH]; intros n i r Hf Hi; (destruct n as [|n]; cbn [free_slot] in Hf; [left; congruence|]);
    [done|].
  case_bool_decide as Hc.
  - injection Hf as <-. right. split; [lia|]. exists h. split; [|done]. by rewrite Z.sub_diag.
  - destruct (IH _ _ _ Hf ltac:(lia)) as [->|(Hr & h' & Hg & Hc')]; [by left|]. right. split; [lia|].
    exists h'. split; [|done]. rewrite <- Hg.
    replace (r - i) with (Z.of_nat (S (Z.to_nat (r - (i + 1))))) by lia.
    replace (r - (i + 1)) with (Z.of_nat (Z.to_nat (r - (i + 1)))) at 2 by lia.
    by rewrite !zget_nat.
Qed.

Section FsKeeps.
Context {H D : Type} `{T : Target} `{C : Config} `{P : Platform H} `{PL : !PlatformLaws H P}
  `{MD : Mad D} `{ML : !MadLaws D MD}.
Context (c : con_t) (e : ev_t) (p : pl_t).
Abbreviation B := (@base H D P PL MD ML c e p).

Lemma base_set_fss f f' s : B f s -> B f' (set_fss f' s).
Proof. intros (? & ? & ? & ? & ? & ? & ? & ?). by split_and!. Qed.

Lemma base_fss f s : B f s -> s_fss s = f.
Proof. by intros (_ & _ & _ & _ & _ & _ & _ & ?). Qed.

Lemma pp_upd_fss g f s (Q : unit -> state H D -> Prop) :
  B f s -> (forall s', B (g f) s' -> Q tt s') -> pp (upd_fss g) Q s.
Proof.
  intros Hb HQ. unfold upd_fss. apply pp_modify, HQ. rewrite (base_fss _ _ Hb). by eapply base_set_fss.
Qed.

Lemma keeps_fs_debug f fmt args : keeps (B f) (fs_debug fmt args).
Proof. unfold fs_debug. keep. Qed.
Lemma keeps_get_handle f i : keeps (B f) (get_handle i).
Proof. unfold get_handle. keep. Qed.
Hint Resolve keeps_fs_debug keeps_get_handle : keeps.

Lemma keeps_fs_read f h n : keeps (B f) (fs_read h n).
Proof. unfold fs_read. keep. Qed.
Lemma keeps_fs_seek f h n : keeps (B f) (fs_seek h n).
Proof. unfold fs_seek. keep. Qed.
Hint Resolve keeps_fs_read keeps_fs_seek : keeps.

Lemma pp_set_handle f i h s (Q : unit -> state H D -> Prop) : B f s ->
  (forall l s', zset (fss_handles f) i h = Some l -> B (set_fhandles l f) s' -> Q tt s') ->
  pp (set_handle i h) Q s.
Proof.
  intros Hb HQ. unfold set_handle. pp_step. apply pp_get. pp_step. apply pp_lift. intros l Hl.
  eapply pp_upd_fss; [done|]. intros s' Hs'. eapply HQ; [|done]. by rewrite <- (base_fss _ _ Hb).
Qed.

(** Opening takes a slot that was closed. *)
Lemma pp_fs_open f name s (Q : Z -> state H D -> Prop) : B f s ->
  (forall s', B f s' -> Q (-1) s') ->
  (forall i h0 h l s', 0 <= i < MAX_OPEN_FILES -> zget (fss_handles f) i = Some h0 -> fh_source h0 = FSO_CLOSED ->
     fh_source h <> FSO_CLOSED -> zset (fss_handles f) i h = Some l -> B (set_fhandles l f) s' -> Q i s') ->
  pp (fs_open name) Q s.
Proof.
  intros Hb Hno Hyes. unfold fs_open. pp_step. eapply keeps_pp; [apply keeps_fs_debug|exact Hb|].
  clear dependent s. intros _ s Hb. pp_step. unfold fs_get_handle. pp_step. apply pp_get. apply pp_lift.
  intros i Hi. rewrite (base_fss _ _ Hb) in Hi. apply free_slot_spec in Hi; [|done]. rewrite Z.sub_0_r in Hi.
  destruct (Z.eqb_spec i (-1)) as [->|Hne].
  { pp_step. eapply keeps_pp; [apply keeps_fs_debug|exact Hb|]. intros _ s1 Hb1. by apply pp_ret, Hno. }
  destruct Hi as [?|(Hr & h0 & Hg & Hc)]; [done|].
  assert (Hset : forall src hh s1, src <> FSO_CLOSED -> B f s1 ->
    pp (set_handle i (FsHandle src hh) ;; ret i) Q s1).
  { intros src hh s1 Hsrc Hb1. pp_step. eapply pp_set_handle; [done|]. intros l s2 Hl Hb2. apply pp_ret.
    apply (Hyes i h0 (FsHandle src hh) l); done. }
  pp_step. eapply (keeps_pp (B f)); [keep|done|]. intros hh s1 Hb1.
  destruct (negb (hh =? -1)); [by apply Hset|].
  pp_step. eapply (keeps_pp (B f)); [keep|done|]. intros hh' s2 Hb2.
  destruct (negb (hh' =? -1)); [by apply Hset|]. by apply pp_ret, Hno.
Qed.

(** Closing touches the one slot. *)
Lemma pp_fs_close f i s (Q : unit -> state H D -> Prop) : B f s ->
  (forall l s', zlen l = zlen (fss_handles f) -> (forall j, j <> i -> zget l j = zget (fss_handles f) j) ->
     B (set_fhandles l f) s' -> Q tt s') ->
  pp (fs_close i) Q s.
Proof.
  intros Hb HQ.
  assert (Hsame : forall s', B f s' -> Q tt s').
  { intros s' Hs'. apply (HQ (fss_handles f)); [done|done|]. by destruct f. }
  unfold fs_close. pp_step. eapply keeps_pp; [apply keeps_fs_debug|exact Hb|].
  intros _ s1 Hb1. destruct (bad_handle i); [by apply pp_ret, Hsame|].
  pp_step. eapply keeps_pp; [apply keeps_get_handle|exact Hb1|]. intros h s2 Hb2.
  assert (Hset : forall s3, B f s3 -> pp (set_handle i (FsHandle FSO_CLOSED (fh_handle h))) Q s3).
  { intros s3 Hb3. eapply pp_set_handle; [done|]. intros l s4 Hl Hb4. apply (HQ l); [by eapply zlen_zset| |done].
    intros j Hj. by eapply zget_zset_ne. }
  destruct (fh_source h).
  - eapply keeps_pp; [apply keeps_xprintf|exact Hb2|]. intros [] ? ?. by apply Hsame.
  - pp_step. eapply (keeps_pp (B f)); [keep|exact Hb2|]. intros ? ? ?. by apply Hset.
  - pp_step. eapply (keeps_pp (B f)); [keep|exact Hb2|]. intros ? ? ?. by apply Hset.
Qed.

(** After [fs_stop] no file is played; the type of the last one stays. *)
Lemma pp_fs_stop f s (Q : unit -> state H D -> Prop) : B f s -> fss_ok f ->
  (forall f' s', B f' s' -> fss_ok f' -> fs_idle f' -> fss_type f' = fss_type f -> Q tt s') ->
  pp fs_stop Q s.
Proof.
  intros Hb Hok HQ. unfold fs_stop. pp_step. eapply keeps_pp; [apply keeps_fs_debug|exact Hb|].
  intros _ s1 Hb1. pp_step. apply pp_get. rewrite (base_fss _ _ Hb1).
  destruct (Z.eqb_spec (fss_handle f) (-1)) as [Hh|Hh]; simpl.
  - apply pp_ret. eapply HQ; [done|done|by apply fss_ok_idle|done].
  - pp_step. eapply pp_fs_close; [done|]. intros l s2 Hl _ Hb2.
    pp_step. eapply pp_upd_fss; [done|]. intros s3 Hb3. eapply pp_upd_fss; [done|]. intros s4 Hb4.
    eapply HQ; [exact Hb4| |done|done]. split; [|by left]. simpl. rewrite Hl. apply Hok.
Qed.

(** Opening a file for someone else, and closing it, leaves the played file alone. *)
Lemma fss_ok_opened f i h0 h l : fss_ok f -> zget (fss_handles f) i = Some h0 -> fh_source h0 = FSO_CLOSED ->
  fh_source h <> FSO_CLOSED -> zset (fss_handles f) i h = Some l ->
  fss_ok (set_fhandles l f) /\ (fs_busy f -> i <> fss_handle f).
Proof.
  intros Hok Hg Hc Ho Hset.
  assert (Hne : slot_open f (fss_handle f) -> i <> fss_handle f).
  { intros (h1 & Hg1 & Hc1) ->. congruence. }
  split; [|intros (_ & _ & _ & ?); by apply Hne].
  apply fss_ok_slots; [done|rewrite (zlen_zset _ _ _ _ Hset); apply Hok|].
  intros Hop. pose proof (Hne Hop). destruct Hop as (h1 & Hg1 & Hc1). exists h1. split; [|done]. simpl.
  by rewrite (zget_zset_ne _ _ _ _ _ Hset).
Qed.

Lemma fss_ok_closed f i l : fss_ok f -> zlen l = zlen (fss_handles f) ->
  (forall j, j <> i -> zget l j = zget (fss_handles f) j) -> (fs_busy f -> i <> fss_handle f) ->
  fss_ok (set_fhandles l f).
Proof.
  intros [Hl [Hi|Hbusy]] Hll Hoth Hne; (split; [by simpl; rewrite Hll|]); [by left|right].
  specialize (Hne Hbusy). destruct Hbusy as (? & ? & ? & h1 & Hg1 & Hc1). split_and!; try done; simpl; try lia.
  exists h1. split; [|done]. simpl. rewrite Hoth; done.
Qed.

(** What is played and of which type. *)
Definition fsJ (hd : Z) (ty : fs_type_e) (s : state H D) : Prop :=
  exists f, B f s /\ fss_ok f /\ fss_handle f = hd /\ fss_type f = ty.

Lemma keeps_fsJ {A} (m : M (state H D) A) hd ty : (forall f, keeps (B f) m) -> keeps (fsJ hd ty) m.
Proof.
  intros Hm s (f & Hb & Hr). eapply keeps_pp; [apply Hm|exact Hb|]. intros _ s' Hb'. by exists f.
Qed.

Lemma keeps_fs_type hd ty name : keeps (fsJ hd ty) (fs_type name).
Proof.
  intros s (f & Hb & Hok & Hhd & Hty). unfold fs_type. pp_step. eapply pp_fs_open; [done| |].
  - intros s1 Hb1. change (-1 =? -1) with true. cbn iota. eapply (keeps_pp (B f)); [keep|done|].
    intros _ s2 Hb2. by exists f.
  - intros i h0 h l s1 Hi Hg Hc Ho Hset Hb1. destruct (Z.eqb_spec i (-1)); [lia|].
    destruct (fss_ok_opened f i h0 h l) as [Hok1 Hne]; [done..|].
    pp_step. eapply keeps_pp; [apply keeps_fs_read|exact Hb1|]. intros [got buff] s2 Hb2.
    pp_step. eapply pp_fs_close; [done|]. intros l' s3 Hl' Hoth Hb3.
    assert (HJ : fsJ hd ty s3).
    { exists (set_fhandles l' f). split; [done|]. split; [|done].
      apply (fss_ok_closed (set_fhandles l f) i l'); [done|done|done|].
      intros (? & ? & ? & ?). apply Hne. destruct Hok as [? [[? ?]|?]]; [|done].
      simpl in *. lia. }
    eapply (keeps_pp (fsJ hd ty)); [|exact HJ|done]. apply keeps_fsJ. intros f'. keep.
Qed.

(** ** The walk over the RIFF chunks *)

Lemma le16_range l off x : le16 l off = Some x -> 0 <= x < 65536.
Proof.
  unfold le16. destruct (zget l off) as [a|]; [|done]. destruct (zget l (off + 1)) as [b|]; [|done].
  intros [= <-]. pose proof (u8_range a). pose proof (u8_range b). lia.
Qed.

Lemma le32_range l off x : le32 l off = Some x -> 0 <= x < 4294967296.
Proof.
  unfold le32. destruct (le16 l off) as [a|] eqn:Ha; [|done]. destruct (le16 l (off + 2)) as [b|] eqn:Hb; [|done].
  intros [= <-]. apply le16_range in Ha, Hb. lia.
Qed.

(** With a 64-bit [size_t] every chunk moves the pointer forward. *)
Lemma next_block_advances l off' off size k : long64 = true -> le32 l off' = Some size ->
  next_block off size = Some k -> off + 8 <= k <= 128.
Proof.
  intros H64 Hs. apply le32_range in Hs. unfold next_block, ulong. rewrite H64.
  unfold u64. rewrite Z.mod_small by lia. destruct (Z.leb_spec (off + (size + 8)) 128); [|done]. intros [= <-]. lia.
Qed.

Lemma keeps_debug_fmt f buff fmt : keeps (B f) (debug_fmt buff fmt).
Proof. unfold debug_fmt. keep. Qed.
Hint Resolve keeps_debug_fmt : keeps.

Lemma keeps_riff_blocks f fuel : long64 = true -> forall buff off fmt,
  off <= 128 -> 128 - off < 8 * Z.of_nat fuel -> keeps (B f) (riff_blocks fuel buff off fmt).
Proof.
  intros H64. induction fuel as [|fuel IH]; intros buff off fmt Hle Hf; [lia|]. cbn [riff_blocks].
  assert (Hnext : forall fmt', keeps (B f)
    (let* size := lift (le32 buff (off + 4)) in
     let* off' := lift (next_block off size) in riff_blocks fuel buff off' fmt')).
  { intros fmt' s Hs. pp_step. apply pp_lift. intros size Hsize. pp_step. apply pp_lift. intros off' Hoff.
    pose proof (next_block_advances _ _ _ _ _ H64 Hsize Hoff). apply IH; [lia|lia|done]. }
  repeat (first [apply Hnext|keep_step]; cbn beta iota).
Qed.

(** ** Playing a file *)

(** The handle may become anything, or only -1. *)
Definition allowed (o : option Z) (hd : Z) : Prop :=
  match o with None => True | Some hd0 => hd = -1 \/ hd = hd0 end.

Definition fsK (o : option Z) (s : state H D) : Prop :=
  exists f, B f s /\ fss_ok f /\ allowed o (fss_handle f).

Lemma keeps_fsK {A} (m : M (state H D) A) o : (forall f, keeps (B f) m) -> keeps (fsK o) m.
Proof. intros Hm s (f & Hb & Hok & Ha). eapply keeps_pp; [apply Hm|exact Hb|]. intros _ s' Hb'. by exists f. Qed.

Lemma allowed_stop o f : fs_idle f -> allowed o (fss_handle f).
Proof. intros [Hh _]. destruct o; [by left|done]. Qed.

Lemma keeps_fs_stop o : keeps (fsK o) fs_stop.
Proof.
  intros s (f & Hb & Hok & _). eapply pp_fs_stop; [done|done|]. intros f' s' Hb' Hok' Hi _.
  exists f'. split_and!; [done|done|by apply allowed_stop].
Qed.

Lemma keeps_fs_type_K name : keeps (fsK None) (fs_type name).
Proof.
  intros s (f & Hb & Hok & _). eapply (keeps_pp (fsJ (fss_handle f) (fss_type f))); [apply keeps_fs_type|by exists f|].
  intros _ s' (f' & Hb' & Hok' & _). by exists f'.
Qed.

Lemma keeps_xprintf_stop fmt args o : keeps (fsK o) (xprintf fmt args ;; fs_stop).
Proof. apply keeps_bind; [apply keeps_xprintf|]. intros _. apply keeps_fs_stop. Qed.
Hint Resolve keeps_fs_stop keeps_fs_type_K keeps_xprintf_stop : keeps.

(** The file that was opened is the one that is played from now on. *)
Lemma fss_ok_play f i h l r ch ty : fss_ok f -> 0 <= i < MAX_OPEN_FILES -> fh_source h <> FSO_CLOSED ->
  zset (fss_handles f) i h = Some l -> ty = FST_RIFF \/ ty = FST_MP3 ->
  fss_ok (set_fhandle i (set_fstate FSS_OPEN (set_fformat ty r ch (set_fhandles l f)))).
Proof.
  intros [Hl _] Hi Ho Hset Hty. split; [simpl; by rewrite (zlen_zset _ _ _ _ Hset)|]. right.
  split_and!; simpl; try done; try lia. exists h. split; [|done]. simpl. by eapply zget_zset_eq.
Qed.

Lemma keeps_fs_open_riff name : long64 = true -> keeps (fsK None) (fs_open_riff name).
Proof.
  intros H64 s (f & Hb & Hok & _). unfold fs_open_riff. pp_step. eapply pp_fs_open; [done| |].
  { intros s1 Hb1. change (-1 =? -1) with true. cbn iota. eapply (keeps_pp (fsK None)); [apply keeps_xprintf_stop|by exists f|done]. }
  intros i h0 h l s1 Hi Hg Hc Ho Hset Hb1. destruct (Z.eqb_spec i (-1)); [lia|].
  destruct (fss_ok_opened f i h0 h l) as [Hok1 _]; [done..|].
  set (f1 := set_fhandles l f) in *.
  pp_step. eapply keeps_pp; [apply keeps_fs_read|exact Hb1|]. intros [got buff] s2 Hb2.
  destruct (got =? MINUS1); [eapply (keeps_pp (fsK None)); [apply keeps_fs_stop|by exists f1|done]|].
  pp_step. eapply (keeps_pp (B f1)); [keep|exact Hb2|]. intros _ s3 Hb3.
  pp_step. eapply (keeps_pp (B f1)); [apply keeps_riff_blocks; [done|lia|unfold RIFF_FUEL; lia]|exact Hb3|]. intros w s4 Hb4.
  assert (HK : fsK None s4) by (by exists f1).
  destruct w as [off [fmt|]|sig]; [|by eapply (keeps_pp (fsK None)); [apply keeps_xprintf_stop| |]..].
  pp_step. apply pp_lift. intros format _.
  destruct (negb (format =? RIFF_FMT_PCM)); [by eapply (keeps_pp (fsK None)); [apply keeps_xprintf_stop| |]|].
  pp_step. apply pp_lift. intros samplerate _. cbv zeta.
  destruct (rate_code _ =? 0); [by eapply (keeps_pp (fsK None)); [apply keeps_xprintf_stop| |]|].
  pp_step. eapply (keeps_pp (B f1)); [keep|exact Hb4|]. intros _ s5 Hb5.
  pp_step. eapply (keeps_pp (B f1)); [keep|exact Hb5|]. intros _ s6 Hb6.
  pp_step. apply pp_lift. intros channels _. pp_step. apply pp_lift. intros byterate _.
  pp_step. eapply (keeps_pp (B f1)); [keep|exact Hb6|]. intros _ s7 Hb7.
  pp_step. eapply pp_upd_fss; [done|]. intros s8 Hb8. pp_step. eapply pp_upd_fss; [done|]. intros s9 Hb9.
  pp_step. eapply pp_upd_fss; [done|]. intros s10 Hb10.
  eapply (keeps_pp (fsK None)); [apply keeps_fsK; intros f'; keep| |done].
  eexists. split; [exact Hb10|]. split; [|done]. eapply fss_ok_play; [done|done|exact Ho|done|by left].
Qed.

Lemma keeps_fs_open_mp3 name : keeps (fsK None) (fs_open_mp3 name).
Proof.
  intros s (f & Hb & Hok & _). unfold fs_open_mp3. pp_step. eapply pp_fs_open; [done| |].
  { intros s1 Hb1. change (u32 (-1) =? MINUS1) with true. cbn iota zeta.
    eapply (keeps_pp (fsK None)); [apply keeps_xprintf_stop|by exists f|done]. }
  intros i h0 h l s1 Hi Hg Hc Ho Hset Hb1. unfold MAX_OPEN_FILES in Hi. cbv zeta.
  rewrite u32_id by lia. destruct (Z.eqb_spec i MINUS1) as [E|_]; [unfold MINUS1 in E; lia|].
  rewrite s32_id by lia.
  pp_step. eapply pp_upd_fss; [done|]. intros s8 Hb8. pp_step. eapply pp_upd_fss; [done|]. intros s9 Hb9.
  eapply pp_upd_fss; [done|]. intros s10 Hb10.
  eexists. split; [exact Hb10|]. split; [|done]. eapply fss_ok_play; [done|done|exact Ho|done|by right].
Qed.

Lemma keeps_fs_play name : long64 = true -> keeps (fsK None) (fs_play name).
Proof.
  intros H64. pose proof (keeps_fs_open_riff name H64). pose proof (keeps_fs_open_mp3 name).
  unfold fs_play, fs_debug. keep.
Qed.

(** ** Polling the file that is played *)

Lemma keeps_read_into_output o i : keeps (fsK o) (read_into_output i).
Proof. apply keeps_fsK. intros f. unfold read_into_output. keep. Qed.
Lemma keeps_read_into_input o i : keeps (fsK o) (read_into_input i).
Proof. apply keeps_fsK. intros f. unfold read_into_input. keep. Qed.
Lemma keeps_fsK_io {A} (m : M io_t A) o : keeps io_wf m -> keeps (fsK o) (on_io m).
Proof. intros Hm. apply keeps_fsK. intros f. by apply keeps_on_io. Qed.
Hint Resolve keeps_read_into_output keeps_read_into_input keeps_fsK_io : keeps.

Lemma keeps_fs_poll o : keeps (fsK o) fs_poll.
Proof. unfold fs_poll, fs_poll_riff, fs_poll_mp3, o_free, i_free, fs_debug. keep. Qed.

Lemma keeps_cmd_fstate f : keeps (B f) cmd_fstate.
Proof. unfold cmd_fstate. keep. Qed.
End FsKeeps.
#[export] Hint Resolve keeps_cmd_fstate keeps_fs_debug : keeps.
