(* ===== verification/System.v ===== *)
(** * The whole player

    The invariant of the main loop, that starting up establishes it, that every
    frame of every host keeps it, and that a frame always ends. *)

From S2P Require Import Prelude Libc Snd IoBuffer Console Event Cmd Id3tag Net Resfs.
From S2P Require Import State Fs LcdPanel Libmad Player Main Keeps FsKeeps.

(** ** The invariant of the player

    The volume is in range, the remembered source fits its array, and a file is
    open for playing only while the player runs and plays from a file. *)
Definition pl_ok (p : pl_t) (f : fss_t) : Prop :=
  PL_MIN_VOLUME <= volume p <= PL_MAX_VOLUME /\ zlen (source_addr p) = MAX_CONSOLE_INPUT /\
  pl_st p <> PL_UNKNOWN /\ (pl_running (pl_st p) = true -> source_type p <> PS_UNKNOWN) /\
  (fss_handle f <> -1 -> pl_running (pl_st p) = true /\ source_type p = PS_FILE).

Section System.
Context {H D : Type} `{T : Target} `{C : Config} `{P : Platform H} `{PL : !PlatformLaws H P}
  `{MD : Mad D} `{ML : !MadLaws D MD}.

Section Player.
Context (c : con_t) (e : ev_t).

(** Everything but console and events, which are [c] and [e]. *)
Definition plJ (s : state H D) : Prop :=
  exists p f, base c e p f s /\ fss_ok f /\ pl_ok p f.

Lemma keeps_plJ {A} (m : M (state H D) A) : (forall p f, keeps (base c e p f) m) -> keeps plJ m.
Proof. intros Hm s (p & f & Hb & Hr). eapply keeps_pp; [apply Hm|exact Hb|]. intros _ s' Hb'. by exists p, f. Qed.

Lemma base_pl p f (s : state H D) : base c e p f s -> s_pl s = p.
Proof. by intros (_ & _ & _ & _ & _ & _ & ? & _). Qed.

Lemma pp_upd_pl g p f s (Q : unit -> state H D -> Prop) : base c e p f s ->
  (forall s', base c e (g p) f s' -> Q tt s') -> pp (upd_pl g) Q s.
Proof.
  intros Hb HQ. unfold upd_pl. apply pp_modify, HQ. rewrite (base_pl _ _ _ Hb).
  destruct Hb as (? & ? & ? & ? & ? & ? & ? & ?). by split_and!.
Qed.

Lemma keeps_net_close p f : keeps (base c e p f) (@net_close H D P).
Proof. unfold net_close. keep. Qed.
Lemma keeps_pl_debug p f fmt args : keeps (base c e p f) (pl_debug (S := state H D) fmt args).
Proof. unfold pl_debug. keep. Qed.

(** After [pl_stop] nothing is played, from a file or from the network. *)
Lemma pp_pl_stop s (Q : unit -> state H D -> Prop) : plJ s ->
  (forall p f s', base c e p f s' -> fss_ok f -> pl_ok p f -> pl_running (pl_st p) = false -> fss_handle f = -1 ->
     Q tt s') ->
  pp pl_stop Q s.
Proof.
  intros (p & f & Hb & Hok & Hpl) HQ. unfold pl_stop. pp_step. eapply keeps_pp; [apply keeps_pl_debug|exact Hb|].
  clear dependent s. intros _ s Hb. pp_step. apply pp_get. rewrite (base_pl _ _ _ Hb).
  destruct (pl_running (pl_st p)) eqn:Hr.
  - pp_step. eapply pp_fs_stop; [done|done|]. intros f' s1 Hb1 Hok1 [Hh _] _.
    pp_step. eapply keeps_pp; [apply keeps_net_close|exact Hb1|]. intros _ s2 Hb2.
    pp_step. eapply keeps_pp; [apply keeps_libmad_done|exact Hb2|]. intros _ s3 Hb3.
    pp_step. eapply pp_upd_pl; [exact Hb3|]. intros s4 Hb4.
    eapply keeps_pp; [apply keeps_lcd_stop|exact Hb4|]. intros [] s5 Hb5.
    eapply HQ; [exact Hb5|done| |done|done]. destruct Hpl as (? & ? & ? & ? & ?).
    split_and!; simpl; try done; lia.
  - apply pp_ret. eapply HQ; [exact Hb|done|done|done|].
    destruct Hpl as (? & ? & ? & ? & Hh). destruct (decide (fss_handle f = -1)) as [|Hne]; [done|].
    destruct (Hh Hne). congruence.
Qed.

Lemma keeps_pl_stop : keeps plJ pl_stop.
Proof. intros s Hs. apply pp_pl_stop; [done|]. intros p f s' ? ? ? _ _. by exists p, f. Qed.

(** A change of the volume, whatever the argument. *)
Lemma pl_ok_volume p f v : pl_ok p f -> PL_MIN_VOLUME <= v <= PL_MAX_VOLUME -> pl_ok (set_volume v p) f.
Proof. by intros (? & ? & ? & ? & ?) ?. Qed.

Lemma keeps_pl_volume_set v : keeps plJ (pl_volume_set v).
Proof.
  intros s (p & f & Hb & Hok & Hpl). unfold pl_volume_set, pl_volume_get.
  pp_step. eapply pp_upd_pl; [done|]. intros s1 Hb1. pp_step. apply pp_gets.
  rewrite (base_pl _ _ _ Hb1). simpl. pp_step. pose proof (u8_range v) as Hv.
  apply pp_when; intros Hlt; [unfold PL_MIN_VOLUME in Hlt; lia|].
  pp_step. apply pp_gets. rewrite (base_pl _ _ _ Hb1). simpl. pp_step.
  assert (Hend : forall w s', base c e (set_volume w p) f s' -> PL_MIN_VOLUME <= w <= PL_MAX_VOLUME ->
    pp lcd_volume (fun _ => plJ) s').
  { intros w s' Hb' Hw. eapply (keeps_pp plJ); [apply keeps_plJ; intros ? ?; keep| |done].
    exists (set_volume w p), f. split_and!; [done|done|by apply pl_ok_volume]. }
  apply pp_when; intros Hgt.
  - eapply pp_upd_pl; [done|]. intros s2 Hb2. apply (Hend PL_MAX_VOLUME); [exact Hb2|done].
  - apply (Hend (u8 v)); [done|unfold PL_MIN_VOLUME in *; lia].
Qed.

Lemma pp_pl_save_source what p f s (Q : unit -> state H D -> Prop) : base c e p f s ->
  (forall a s', zlen a = MAX_CONSOLE_INPUT -> base c e (set_source_addr a p) f s' -> Q tt s') ->
  pp (pl_save_source what) Q s.
Proof.
  intros Hb HQ. unfold pl_save_source. pp_step. eapply pp_upd_pl; [done|]. intros s1 Hb1.
  destruct (_ >? _).
  - eapply (keeps_pp (base c e _ f)); [apply keeps_xprintf|exact Hb1|]. intros [] s2 Hb2. eapply HQ; [|exact Hb2]. done.
  - pp_step. apply pp_lift. intros a Ha. eapply pp_upd_pl; [done|]. intros s2 Hb2.
    apply (HQ a); [|done]. by rewrite (zlen_fill _ _ _ Ha).
Qed.

Lemma keeps_pl_play what : long64 = true -> keeps plJ (pl_play what).
Proof.
  intros H64 s Hs. unfold pl_play. pp_step. apply pp_pl_stop; [done|].
  clear dependent s. intros p f s Hb Hok Hpl Hnr Hh.
  pp_step. eapply keeps_pp; [apply keeps_pl_debug|exact Hb|]. intros _ s1 Hb1.
  pp_step. eapply pp_pl_save_source; [done|]. intros a s2 Ha Hb2.
  set (p2 := set_source_addr a p) in *.
  pp_step. eapply (keeps_pp (base c e p2 f)); [keep|done|]. intros _ s3 Hb3.
  pp_step. eapply (keeps_pp (base c e p2 f)); [keep|done|]. intros _ s4 Hb4.
  pp_step. eapply (keeps_pp (base c e p2 f)); [keep|done|]. intros _ s5 Hb5.
  pp_step. apply pp_lift. intros r _.
  assert (Hp2 : forall ty st f', fss_ok f' -> ty <> PS_UNKNOWN -> st <> PL_UNKNOWN ->
    (fss_handle f' <> -1 -> pl_running st = true /\ ty = PS_FILE) -> pl_ok (set_pl_st st (set_source_type ty p2)) f').
  { destruct Hpl as (? & ? & ? & ? & ?). intros ty st f' ? ? ? Hf. unfold pl_ok. simpl. split_and!; try done; lia. }
  destruct (r =? 0).
  - pp_step. eapply (keeps_pp (base c e p2 f)); [keep|done|]. intros _ s6 Hb6.
    pp_step. eapply pp_upd_pl; [done|]. intros s7 Hb7.
    pp_step. eapply (keeps_pp (base c e (set_source_type PS_NET p2) f)); [unfold net_open; keep|done|]. intros _ s8 Hb8.
    pp_step. eapply pp_upd_pl; [done|]. intros s9 Hb9.
    eapply (keeps_pp plJ); [apply keeps_plJ; intros ? ?; keep| |done].
    exists (set_pl_st PL_BUFFERING (set_source_type PS_NET p2)), f.
    split_and!; [done|done|]. by apply Hp2.
  - pp_step. eapply pp_upd_pl; [done|]. intros s7 Hb7.
    pp_step. eapply (keeps_pp (fsK c e (set_source_type PS_FILE p2) None)); [by apply keeps_fs_play|by exists f|].
    intros _ s8 (f' & Hb8 & Hok' & _). pp_step. apply pp_gets. rewrite (base_fss _ _ _ _ _ Hb8).
    pp_step.
    assert (Hgo : forall st, pl_running st = true -> pp (upd_pl (set_pl_st st)) (fun (_ : unit) (s' : state H D) => plJ s') s8).
    { intros st Hst. eapply pp_upd_pl; [done|]. intros s9 Hb9. exists (set_pl_st st (set_source_type PS_FILE p2)), f'.
      split_and!; [exact Hb9|done|]. apply Hp2; [done|done|by intros ->|done]. }
    assert (Hend : forall m : M (state H D) unit, pp m (fun _ s' => plJ s') s8 -> pp m (fun _ => pp lcd_play (fun _ => plJ)) s8).
    { intros m Hm. eapply pp_mono; [|exact Hm]. intros [] s9 Hs9.
      eapply (keeps_pp plJ); [apply keeps_plJ; intros ? ?; keep|exact Hs9|done]. }
    assert (Hno : (fss_type f' = FST_UNKNOWN \/ fss_type f' = FST_NONE) -> plJ s8).
    { intros Hty. exists (set_source_type PS_FILE p2), f'. split_and!; [done|done|].
      assert (Hid : fss_handle f' = -1).
      { destruct Hok' as [_ [[? _]|(_ & _ & Hbt & _)]]; [done|]. destruct Hty as [Hty|Hty], Hbt; congruence. }
      replace (set_source_type PS_FILE p2) with (set_pl_st (pl_st p2) (set_source_type PS_FILE p2)) by done.
      apply Hp2; [done|done|apply Hpl|]. by intros ?. }
    destruct (fss_type f'); apply Hend; [apply keeps_pl_stop, Hno; auto..|by apply Hgo|by apply Hgo].
Qed.

(** Switching between playing and buffering. *)
Lemma keeps_switch st st' fmt args s : plJ s -> pl_st (s_pl s) = st -> pl_running st = true -> pl_running st' = true ->
  pp (upd_pl (set_pl_st st') ;; pl_debug fmt args) (fun _ => plJ) s.
Proof.
  intros (p & f & Hb & Hok & Hpl) Hst Hr Hr'. pp_step. eapply pp_upd_pl; [done|]. intros s1 Hb1.
  rewrite (base_pl _ _ _ Hb) in Hst.
  eapply (keeps_pp plJ); [apply keeps_plJ; intros ? ?; apply keeps_pl_debug| |done].
  exists (set_pl_st st' p), f. split_and!; [done|done|]. destruct Hpl as (? & ? & ? & Hs & Hf).
  rewrite Hst in Hs, Hf. unfold pl_ok. simpl. split_and!; try done; [lia|lia|by intros ->|by intros _; apply Hs|].
  intros Hne. split; [done|by apply Hf].
Qed.

Lemma keeps_pl_poll_errors n sn m fs : keeps plJ (pl_poll_errors n sn m fs).
Proof.
  pose proof keeps_pl_stop. unfold pl_poll_errors. keep; apply keeps_plJ; intros; keep.
Qed.
Lemma keeps_pl_poll_source n fs : keeps plJ (pl_poll_source n fs).
Proof. pose proof keeps_pl_stop. unfold pl_poll_source. keep. Qed.

(** The player falls back to buffering only while it plays. *)
Lemma keeps_pl_starving : keeps plJ
  (let* s := get in
   let* starving := on_io io_starving in
   when (bool_decide (pl_st (s_pl s) = PL_PLAYING) && starving)
     (upd_pl (set_pl_st PL_BUFFERING) ;; pl_debug &"%s: buffering.\n" [AStr &"pl_poll"])).
Proof.
  intros s (p & f & Hb & Hok & Hpl). pp_step. apply pp_get. rewrite (base_pl _ _ _ Hb).
  pp_step. eapply (keeps_pp (base c e p f)); [keep|exact Hb|]. intros starving s1 Hb1.
  apply pp_when; intros Hw; [|by exists p, f].
  apply andb_true_iff in Hw as [Hst%bool_decide_eq_true_1 _].
  eapply (keeps_switch PL_PLAYING); [by exists p, f|by rewrite (base_pl _ _ _ Hb1)|done|done].
Qed.

Lemma keeps_pl_poll : keeps plJ pl_poll.
Proof.
  unfold pl_poll, fs_state, libmad_state.
  apply keeps_bind; [apply keeps_plJ; intros; unfold net_state; keep|intros n].
  apply keeps_bind; [keep|intros fs]. apply keeps_bind; [apply keeps_plJ; intros; unfold snd_state; keep|intros sn].
  apply keeps_bind; [keep|intros m]. intros s (p & f & Hb & Hok & Hpl). pp_step. apply pp_get.
  rewrite (base_pl _ _ _ Hb). destruct (negb (pl_running (pl_st p))); [by apply pp_ret; exists p, f|].
  pp_step. eapply (keeps_pp (base c e p f)); [unfold i_free; keep|exact Hb|]. intros free s1 Hb1.
  pp_step. apply (pp_mono _ (fun _ => plJ)).
  - intros [] s2 Hs2. revert s2 Hs2. apply keeps_bind; [apply keeps_when, keeps_pl_poll_errors|intros _].
    apply keeps_bind; [apply keeps_pl_poll_source|intros _]. apply keeps_pl_starving.
  - apply pp_when; intros Hw; [|by exists p, f].
    apply andb_true_iff in Hw as [Hst%bool_decide_eq_true_1 _].
    eapply (keeps_switch PL_BUFFERING); [by exists p, f|by rewrite (base_pl _ _ _ Hb1)|done|done].
Qed.

(** Reading the file that is played: at its end the player is still running. *)
Lemma keeps_fs_poll_pl : keeps plJ fs_poll.
Proof.
  intros s (p & f & Hb & Hok & Hpl).
  eapply (keeps_pp (fsK c e p (Some (fss_handle f)))); [apply keeps_fs_poll|exists f; split_and!; [done|done|by right]|].
  intros _ s' (f' & Hb' & Hok' & Hal). exists p, f'. split_and!; [done|done|].
  destruct Hpl as (? & ? & ? & ? & Hf). split_and!; try done; try lia. intros Hne. apply Hf.
  destruct Hal as [|Hal]; [done|by rewrite <- Hal].
Qed.
End Player.

(** ** Events

    Handling console input can make one more event; every other event makes none.
    So an event weighs one, console input three. *)
Definition weight1 (x : event_t) : Z := if bool_decide (e_type x = E_CON_INPUT) then 3 else 1.
Definition weight (q : list event_t) : Z := foldr (fun x w => weight1 x + w) 0 q.

Lemma weight1_pos x : 1 <= weight1 x <= 3.
Proof. unfold weight1. case_bool_decide; lia. Qed.
Lemma weight_app q q' : weight (q ++ q') = weight q + weight q'.
Proof. induction q as [|x q IH]; simpl; [done|]. fold (weight (q ++ q')) (weight q). lia. Qed.
Lemma weight_bounds q : zlen q <= weight q <= 3 * zlen q.
Proof.
  induction q as [|x q IH]; [done|]. cbn [weight foldr]. fold (weight q). rewrite zlen_cons.
  pose proof (weight1_pos x). lia.
Qed.
Lemma weight_tl q : weight (tl q) <= weight q - (if bool_decide (q = []) then 0 else 1).
Proof.
  destruct q as [|x q]; [done|]. rewrite bool_decide_false by done. cbn [tl weight foldr].
  fold (weight q). pose proof (weight1_pos x). lia.
Qed.

Lemma weight_push q x : weight1 x = 1 -> weight (ev_push_spec q x) <= weight q + 1.
Proof.
  intros Hx. unfold ev_push_spec, MAX_EVENTS.
  assert (Hx1 : weight [x] = 1) by (cbn [weight foldr]; lia).
  assert (Hc : forall l, weight (x :: l ++ [x]) = weight l + 2).
  { intros l. cbn [weight foldr]. fold (weight (l ++ [x])). rewrite weight_app. lia. }
  destruct (Z.ltb_spec (zlen q) 8); [rewrite weight_app; lia|].
  pose proof (weight_tl q) as Ht. rewrite bool_decide_false in Ht by (intros ->; by cbv in *).
  destruct (Z.eqb_spec (zlen q) 8); rewrite Hc; [lia|].
  pose proof (weight_tl (tl q)) as Ht2. rewrite bool_decide_false in Ht2; [lia|].
  destruct q as [|? [|? q]]; simpl; try done; intros _; by cbv in *.
Qed.

Definition evL (c : con_t) (B w : Z) (s : state H D) : Prop :=
  exists e, plJ c e s /\ ev_inv e /\ ev_head e <= B /\ weight (ev_queue e) <= w.

(** [calm]: the console and the events are left alone.  [pushes]: at most one event
    is queued, and it is neither console input nor none. *)
Definition calm {A} (m : M (state H D) A) : Prop := forall c B w, keeps (evL c B w) m.
Definition pushes {A} (m : M (state H D) A) : Prop :=
  forall c B w s, B < 4294967295 -> evL c B w s -> pp m (fun _ => evL c (B + 1) (w + 1)) s.

Lemma calm_plJ {A} (m : M (state H D) A) : (forall c e, keeps (plJ c e) m) -> calm m.
Proof. intros Hm c B w s (e & Hj & Hr). eapply keeps_pp; [apply Hm|exact Hj|]. intros _ s' Hj'. by exists e. Qed.
Lemma calm_base {A} (m : M (state H D) A) : (forall c e p f, keeps (base c e p f) m) -> calm m.
Proof. intros Hm. apply calm_plJ. intros c e. apply keeps_plJ. intros p f. apply Hm. Qed.

Lemma evL_mono c B w B' w' s : evL c B w s -> B <= B' -> w <= w' -> evL c B' w' s.
Proof. intros (e & ? & ? & ? & ?) ? ?. exists e. split_and!; done || lia. Qed.

Lemma pushes_calm {A} (m : M (state H D) A) : calm m -> pushes m.
Proof.
  intros Hm c B w s _ Hs. eapply keeps_pp; [apply Hm|exact Hs|]. intros _ s' Hs'.
  eapply evL_mono; [done|lia|lia].
Qed.
Lemma pushes_bind_calm {A A'} (m : M (state H D) A) (k : A -> M (state H D) A') :
  calm m -> (forall a, pushes (k a)) -> pushes (bind m k).
Proof.
  intros Hm Hk c B w s HB Hs. pp_step. eapply keeps_pp; [apply Hm|exact Hs|]. intros a s' Hs'. by apply Hk.
Qed.
Lemma pushes_then {A A'} (m : M (state H D) A) (k : A -> M (state H D) A') :
  pushes m -> (forall a, calm (k a)) -> pushes (bind m k).
Proof.
  intros Hm Hk c B w s HB Hs. pp_step. eapply pp_mono; [|by apply Hm]. intros a s' Hs'. by apply Hk.
Qed.

Lemma pushes_push_event type par q : type <> E_CON_INPUT -> type <> E_NONE -> pushes (push_event type par q).
Proof.
  intros Hty Hnn c B w s HB (e & (p & f & Hb & Hok & Hpl) & [He Hnone] & Hh & Hw). unfold push_event.
  pp_step. eapply keeps_pp; [apply keeps_local_time|exact Hb|]. intros time s1 Hb1.
  unfold on_ev. apply pp_zoom, wp_pp. destruct Hb1 as (? & ? & ? & ? & ? & -> & ? & ?).
  apply wp_event_push; [done|lia|]. intros e' He' Hh' Hq. exists e'.
  split; [exists p, f; by split_and!|]. unfold ev_inv. rewrite Hq.
  split_and!; [done|by apply ev_push_spec_Forall|lia|].
  etransitivity; [apply weight_push|lia]. unfold weight1. by rewrite bool_decide_false.
Qed.

(** ** Commands *)

Ltac is_calm := solve [apply calm_base; intros; keep].
Ltac push_step :=
  lazymatch goal with
  | |- pushes (push_event _ _ _) => by apply pushes_push_event
  | |- pushes (push_event _ _ _ ;; _) => apply pushes_then; [by apply pushes_push_event|intros ?; is_calm]
  | |- pushes (bind _ _) => apply pushes_bind_calm; [is_calm|intros ?]
  | |- pushes (if ?b then _ else _) => destruct b
  | |- _ => apply pushes_calm; is_calm
  end.

Lemma pushes_cmd_pl_play : pushes cmd_pl_play.
Proof. unfold cmd_pl_play. repeat push_step. Qed.
Lemma pushes_cmd_pl_stop : pushes cmd_pl_stop.
Proof. unfold cmd_pl_stop. repeat push_step. Qed.
Lemma pushes_push_volume v : pushes (push_volume v).
Proof. unfold push_volume. cbv zeta. repeat push_step. Qed.
Lemma pushes_cmd_snd_volume : pushes cmd_snd_volume.
Proof.
  pose proof pushes_push_volume. unfold cmd_snd_volume, pl_volume_get, memcmp_is.
  repeat (push_step || done).
Qed.
Lemma calm_list_radios l : forall i, calm (list_radios i l).
Proof.
  induction l as [|[d u] l IH]; intros i; cbn [list_radios]; [is_calm|].
  intros c B w. apply keeps_bind; [apply keeps_xprintf|intros _; apply IH].
Qed.
Lemma pushes_cmd_radio : pushes cmd_radio.
Proof.
  pose proof (calm_list_radios radios 0). unfold cmd_radio. apply pushes_bind_calm; [is_calm|intros argc].
  apply pushes_then; [|intros ?; is_calm]. destruct (negb _); [by apply pushes_calm|]. cbv zeta.
  repeat push_step.
Qed.

Lemma calm_pl_status : calm cmd_pl_status.
Proof.
  apply calm_base. intros. unfold cmd_pl_status, net_state, fs_state, snd_state, libmad_state, pl_what. keep.
Qed.
Lemma calm_help cmds : calm (cmd_help cmds).
Proof.
  assert (Hn : calm (help_names cmds)).
  { induction cmds as [|[n k] cmds IH]; cbn [help_names]; [is_calm|]. intros c B w.
    apply keeps_bind; [apply keeps_xprintf|intros _; apply IH]. }
  intros c B w. unfold cmd_help. specialize (Hn c B w). keep.
Qed.

(** The entries a host adds to the table must be calm. *)
Definition cmds_ok (cmds : list (list Z * command (state H D))) : Prop :=
  forall n m, (n, CHost m) ∈ cmds -> calm m.

Lemma pushes_run_command cmds k : (forall m, k = CHost m -> calm m) -> pushes (run_command cmds k).
Proof.
  intros Hk. destruct k; cbn [run_command]; unfold cmd_cls, cmd_version, version, pl_volume_get; try by (apply pushes_calm; is_calm).
  - apply pushes_calm, calm_help.
  - apply pushes_cmd_pl_play.
  - apply pushes_cmd_pl_stop.
  - apply pushes_cmd_snd_volume.
  - apply pushes_cmd_radio.
  - apply pushes_calm, calm_pl_status.
  - by apply pushes_calm, Hk.
Qed.

Lemma pushes_cmd_input cmds : cmds_ok cmds -> pushes (cmd_input cmds).
Proof.
  intros Hc. unfold cmd_input. apply pushes_bind_calm.
  { apply calm_base. intros c e p f s Hb. unfold on_con, con_input_data. pp_steps. destruct s. exact Hb. }
  intros text. apply pushes_bind_calm; [is_calm|intros _]. unfold cmd_exec.
  apply pushes_bind_calm; [is_calm|intros argc]. destruct (argc =? 0); [push_step|].
  apply pushes_bind_calm; [is_calm|intros arg].
  intros c B w s HB Hs. pp_step. apply pp_lift. intros k Hk.
  destruct k as [k|]; [|apply pushes_calm; [is_calm|done|done]].
  apply pushes_run_command; [|done|done]. intros m ->. destruct (find_command_In _ _ _ Hk) as [n Hin]. by eapply Hc.
Qed.

(** ** The event loop *)

(** [K] says what is known of the console; [fresh]: no line and no lock. *)
Definition evK (K : con_t -> Prop) (B w : Z) (s : state H D) : Prop := exists c, evL c B w s /\ K c.
Definition evJ (B w : Z) (s : state H D) : Prop := evK con_inv B w s.
Definition fresh (c : con_t) : Prop := con_rep c (false, []).
Definition is_input (x : event_t) : Prop := e_type x = E_CON_INPUT.

Lemma fresh_inv c : fresh c -> con_inv c.
Proof. intros Hc. by exists (false, []). Qed.

Lemma evK_mono (K K' : con_t -> Prop) B w B' w' s : evK K B w s -> (forall c, K c -> K' c) -> B <= B' -> w <= w' -> evK K' B' w' s.
Proof. intros (c & Hl & Hc) HK HB Hw. exists c. split; [by eapply evL_mono|auto]. Qed.

Lemma keeps_evK {A} (m : M (state H D) A) K B w : calm m -> keeps (evK K B w) m.
Proof. intros Hm s (c & Hl & Hc). eapply keeps_pp; [apply Hm|exact Hl|]. intros _ s' Hl'. by exists c. Qed.
Lemma keeps_evJ {A} (m : M (state H D) A) B w : calm m -> keeps (evJ B w) m.
Proof. apply keeps_evK. Qed.

Lemma evL_set_con c c' B w s : evL c B w s -> evL c' B w (set_con c' s).
Proof.
  intros (e & (p & f & (? & ? & ? & ? & ? & ? & ? & ?) & Hok & Hpl) & Hr). exists e. split; [|done].
  exists p, f. split; [|done]. by split_and!.
Qed.

(** The room a handler needs for new events. *)
Definition makes (x : event_t) : Z := if bool_decide (e_type x = E_CON_INPUT) then 1 else 0.

(** Console input leaves a fresh console; any other event leaves the queue alone. *)
Definition handled (K : con_t -> Prop) (x : event_t) (B w : Z) (e : ev_t) (s : state H D) : Prop :=
  evK K (B + makes x) (w + makes x) s /\ (is_input x -> evK fresh (B + makes x) (w + makes x) s) /\ (~ is_input x -> s_ev s = e).

Lemma pp_handle_other (m : M (state H D) unit) K x B w s : ~ is_input x -> (forall c e, keeps (plJ c e) m) -> evK K B w s ->
  pp m (fun _ => handled K x B w (s_ev s)) s.
Proof.
  intros Hx Hm (c & (e & Hj & Hr) & Hc). unfold handled, makes. rewrite bool_decide_false by done. rewrite !Z.add_0_r.
  eapply keeps_pp; [apply (Hm c e)|exact Hj|]. intros _ s' Hj'. split; [|split; [done|]].
  - exists c. split; [by exists e|done].
  - intros _. destruct Hj as (? & ? & (? & ? & ? & ? & ? & -> & ? & ?) & _). by destruct Hj' as (? & ? & (? & ? & ? & ? & ? & -> & ? & ?) & _).
Qed.

Lemma pp_handle_event cmds K x B w s : long64 = true -> cmds_ok cmds -> B < 4294967295 -> (forall c, fresh c -> K c) -> evK K B w s ->
  pp (handle_event cmds x) (fun _ => handled K x B w (s_ev s)) s.
Proof.
  intros H64 Hc HB HK Hs. unfold handle_event.
  assert (Hother : forall m : M (state H D) unit, ~ is_input x -> (forall c e, keeps (plJ c e) m) -> pp m (fun _ => handled K x B w (s_ev s)) s)
    by (intros m Hx Hm; by apply pp_handle_other).
  destruct (e_type x) eqn:Hx; try (apply Hother; [unfold is_input; congruence|intros c e]);
    try solve [apply keeps_plJ; intros; keep | apply keeps_pl_stop | apply keeps_pl_volume_set].
  - destruct Hs as (c & Hl & _). pp_step. eapply pp_mono; [|by apply pushes_cmd_input]. intros [] s1 Hl1.
    pp_step. unfold on_con, con_reset, con_input_unlock. pp_steps. simpl.
    eapply keeps_pp; [apply keeps_xprintf|by apply (evL_set_con _ (Con 0 0 _) _ _ _ Hl1)|].
    intros _ s2 Hl2. unfold handled, makes. rewrite bool_decide_true by done.
    assert (Hf : evK fresh (B + 1) (w + 1) s2) by (eexists; split; [exact Hl2|]; apply con_rep_zero).
    split; [by eapply evK_mono|]. split; [done|by intros []].
  - apply keeps_bind; [apply keeps_plJ; intros; keep|intros what]. by apply keeps_pl_play.
  - unfold pl_volume_up, pl_volume_get. apply keeps_bind; [apply keeps_plJ; intros; keep|intros v]. apply keeps_pl_volume_set.
  - unfold pl_volume_down, pl_volume_get. apply keeps_bind; [apply keeps_plJ; intros; keep|intros v]. apply keeps_pl_volume_set.
Qed.

Lemma pp_event_pop K B w s : evK K B w s ->
  pp (on_ev event_pop) (fun x s' =>
    (x = event_zero /\ evK K B w s' /\ ev_queue (s_ev s') = [] /\ ev_queue (s_ev s) = []) \/
    (evK K B (w - weight1 x) s' /\ 0 <= w - weight1 x /\ e_type x <> E_NONE /\ ev_queue (s_ev s) = x :: ev_queue (s_ev s'))) s.
Proof.
  intros (c & (e & (p & f & (Hh & Hio & Hlcd & Hmad & Hcc & Hev & Hp & Hf) & Hok & Hpl) & [He Hnone] & HhB & Hw) & Hci).
  assert (Hnew : forall e' w', ev_inv e' -> ev_head e' <= B -> weight (ev_queue e') <= w' -> evK K B w' (set_ev e' s)).
  { intros e' w' ? ? ?. exists c. split; [|done]. exists e'. split_and!; try done. exists p, f. by split_and!. }
  unfold on_ev. apply pp_zoom, wp_pp. rewrite Hev. apply wp_event_pop; [done| |].
  - intros Hq. left. split; [done|]. by split; [apply Hnew|].
  - intros x q e' Hq He' Hq' Hh'. right. rewrite Hq in Hw, Hnone. apply Forall_cons_1 in Hnone as [Hx Hnone]. cbn [weight foldr] in Hw. fold (weight q) in Hw.
    pose proof (weight_bounds q). pose proof (zlen_nonneg q). split; [|split_and!; [lia|done|by rewrite Hq; cbn [set_ev s_ev]; rewrite Hq']].
    apply Hnew; [by split; [|rewrite Hq']|lia|]. rewrite Hq'. lia.
Qed.

(** The loop ends, because the weight of what is pending goes down in every round,
    and it ends when nothing is pending any more; pending console input has been taken. *)
Lemma pp_event_loop_n cmds fuel : long64 = true -> cmds_ok cmds -> forall K B w s,
  (forall c, fresh c -> K c) -> B + Z.of_nat fuel < 4294967295 -> w < Z.of_nat fuel -> evK K B w s ->
  pp (event_loop_n fuel cmds) (fun _ s' => evK K (B + Z.of_nat fuel) w s' /\
    (Exists is_input (ev_queue (s_ev s)) -> evK fresh (B + Z.of_nat fuel) w s') /\ ev_queue (s_ev s') = []) s.
Proof.
  intros H64 Hc. induction fuel as [|fuel IH]; intros K B w s HK HB Hw Hs; [destruct Hs as (c & (e & _ & _ & _ & Hwe) & _)|].
  { pose proof (weight_bounds (ev_queue e)). pose proof (zlen_nonneg (ev_queue e)). lia. }
  cbn [event_loop_n]. pp_step. eapply pp_mono; [|by apply pp_event_pop].
  intros x s1 [(-> & Hs1 & Hq & Hq0)|(Hs1 & Hnn & Hx & Hq)].
  - pp_step. apply pp_ret, pp_ret. split; [eapply evK_mono; [exact Hs1|done|lia|lia]|]. split; [|done]. rewrite Hq0. by intros ?%Exists_nil.
  - pp_step. eapply pp_mono; [|apply (pp_handle_event cmds K x B (w - weight1 x)); try done; lia]. intros [] s2 (Hs2 & Hin & Hout).
    assert (Hm : makes x - weight1 x <= -1 /\ 0 <= makes x <= 1).
    { unfold makes, weight1. case_bool_decide; lia. }
    rewrite bool_decide_false by done. destruct (decide (e_type x = E_CON_INPUT)) as [Hi|Hi].
    + eapply pp_mono; [|apply (IH fresh (B + makes x) (w - weight1 x + makes x)); [done|lia|lia|by apply Hin]].
      intros [] s3 (Hs3 & _ & Hq3). assert (Hf : evK fresh (B + Z.of_nat (S fuel)) w s3) by (eapply evK_mono; [exact Hs3|done|lia|lia]).
      split; [by eapply evK_mono|done].
    + eapply pp_mono; [|apply (IH K (B + makes x) (w - weight1 x + makes x)); [done|lia|lia|exact Hs2]].
      intros [] s3 (Hs3 & Hf3 & Hq3). split; [eapply evK_mono; [exact Hs3|done|lia|lia]|]. split; [|done].
      rewrite Hq, <- (Hout Hi). intros [?|?]%Exists_cons; [done|]. eapply evK_mono; [by apply Hf3|done|lia|lia].
Qed.

(** ** The invariant of the main loop

    [B] bounds how many events have been pushed since the start. *)
Definition inv (B : Z) (s : state H D) : Prop :=
  host_ok (s_host s) /\ io_wf (s_io s) /\ lcd_wf (s_lcd s) /\ mad_wf (s_mad s) /\ con_inv (s_con s) /\
  ev_inv (s_ev s) /\ ev_head (s_ev s) <= B /\ fss_ok (s_fss s) /\ pl_ok (s_pl s) (s_fss s).

Lemma inv_evJ B s : inv B s -> evJ B 27 s.
Proof.
  intros (? & ? & ? & ? & ? & Hev & ? & ? & ?). exists (s_con s). split; [|done]. exists (s_ev s).
  pose proof (proj1 Hev) as He. pose proof (ev_queue_length _ He). destruct He as (? & ? & ? & Hn). unfold MAX_EVENTS in *.
  pose proof (weight_bounds (ev_queue (s_ev s))). split; [|by split_and!; done || lia].
  exists (s_pl s), (s_fss s). by split_and!.
Qed.

Lemma evJ_inv B w s : evJ B w s -> inv B s.
Proof.
  intros (c & (e & (p & f & (? & ? & ? & ? & <- & <- & <- & <-) & ? & ?) & ? & ? & ?) & ?). by split_and!.
Qed.

Lemma keeps_inv {A} (m : M (state H D) A) B : calm m -> keeps (inv B) m.
Proof.
  intros Hm s Hs. eapply (keeps_pp (evJ B 27)); [by apply keeps_evJ|by apply inv_evJ|]. intros _ s'. apply evJ_inv.
Qed.

Lemma inv_mono B B' s : inv B s -> B <= B' -> inv B' s.
Proof. intros (? & ? & ? & ? & ? & ? & ? & ? & ?) ?. split_and!; try done; lia. Qed.

Lemma pp_con_poll B s : inv B s -> B < 4294967294 -> pp con_poll (fun _ => inv (B + 2)) s.
Proof.
  intros (? & ? & ? & ? & ? & ? & ? & ? & ?) HB. unfold con_poll, on_host_con. apply pp_zoom.
  eapply pp_mono; [|apply law_con_poll; try done; lia]. intros [] [[h c] e] (? & ? & ? & ?). simpl in *.
  split_and!; try done. simpl. lia.
Qed.

Definition FRAME_EVENTS : Z := 30.

Lemma pp_event_loop cmds B s : long64 = true -> cmds_ok cmds -> B + 28 < 4294967295 -> inv B s ->
  pp (event_loop cmds) (fun _ s' => inv (B + 28) s' /\ ev_queue (s_ev s') = [] /\
    (Exists is_input (ev_queue (s_ev s)) -> con_line (s_con s') = [] /\ con_lock (s_con s') = 0)) s.
Proof.
  intros H64 Hc HB Hs. eapply pp_mono; [|apply (pp_event_loop_n cmds 28 H64 Hc con_inv B 27); [apply fresh_inv|lia|lia|by apply inv_evJ]].
  intros [] s' (Hs' & Hf & Hq). split; [by eapply evJ_inv|]. split; [done|]. intros Hi.
  destruct (Hf Hi) as (c & (e & (p & f & (_ & _ & _ & _ & -> & _) & _) & _) & Hcr). unfold fresh in Hcr. by rewrite (con_rep_line _ _ Hcr), (proj1 Hcr).
Qed.

Lemma calm_frame_parts : calm fs_poll /\ calm net_poll /\ calm (libmad_loop LIBMAD_FUEL) /\ calm snd_loop /\
  calm pl_poll /\ calm lcd_poll.
Proof.
  split_and!; [apply calm_plJ; intros; apply keeps_fs_poll_pl| | | |apply calm_plJ; intros; apply keeps_pl_poll|];
    apply calm_base; intros; unfold net_poll, snd_loop; keep.
Qed.

Lemma pp_frame cmds B s : long64 = true -> cmds_ok cmds -> inv B s -> B + FRAME_EVENTS < 4294967295 ->
  pp (frame LIBMAD_FUEL cmds) (fun _ => inv (B + FRAME_EVENTS)) s.
Proof.
  intros H64 Hc Hs HB. unfold FRAME_EVENTS in *. destruct calm_frame_parts as (? & ? & ? & ? & ? & ?).
  unfold frame. pp_step. eapply pp_mono; [|apply (pp_con_poll B); [done|lia]]. clear dependent s. intros [] s Hs.
  do 4 (pp_step; eapply keeps_pp; [by apply keeps_inv|exact Hs|]; clear dependent s; intros [] s Hs).
  pp_step. eapply pp_mono; [|apply (pp_event_loop cmds (B + 2)); try done; lia].
  intros [] s2 (Hs2 & _). clear dependent s. rewrite <- Z.add_assoc in Hs2.
  pp_step. eapply keeps_pp; [by apply keeps_inv|exact Hs2|]. intros [] s1 Hs1. by apply keeps_inv.
Qed.

Lemma pp_run cmds n : long64 = true -> cmds_ok cmds -> forall B s, inv B s ->
  B + FRAME_EVENTS * Z.of_nat n < 4294967295 ->
  pp (run n LIBMAD_FUEL cmds) (fun _ => inv (B + FRAME_EVENTS * Z.of_nat n)) s.
Proof.
  intros H64 Hc. unfold FRAME_EVENTS. induction n as [|n IH]; intros B s Hs HB; cbn [run].
  { apply pp_ret. by rewrite Z.add_0_r. }
  pp_step. apply pp_gets. destruct (negb _); [apply pp_ret; eapply inv_mono; [done|lia]|].
  pp_step. eapply pp_mono; [|apply (pp_frame cmds B); try done; unfold FRAME_EVENTS; lia]. intros [] s1 Hs1.
  eapply pp_mono; [|apply (IH (B + FRAME_EVENTS)); [done|unfold FRAME_EVENTS; lia]].
  unfold FRAME_EVENTS. intros [] s2 Hs2. by replace (B + 30 * Z.of_nat (S n)) with (B + 30 + 30 * Z.of_nat n) by lia.
Qed.

(** ** Starting up *)

(** The static variables before [main]; host, decoder and the linked resources
    have their own. *)
Definition boot (h : H) (d : D) (r : rs_t) : state H D :=
  State con_zero ev_zero cmd_zero io_zero fss_zero r lcd_zero
    (MadState null_stream d 0 0 0 LM_UNKNOWN zero_buffer) pl_zero h 0.

(** Until the buffers are set up the rings have no size. *)
Definition early (s : state H D) : Prop :=
  host_ok (s_host s) /\ io_arrays (s_io s) /\ lcd_wf (s_lcd s) /\ mad_wf (s_mad s) /\ s_con s = con_zero.

Lemma keeps_early_host {A} (m : M H A) : (forall h, host_ok h -> pp m (fun _ => host_ok) h) -> keeps early (on_host m).
Proof.
  intros Hm. apply (keeps_zoom _ host_ok); [exact Hm|by intros s [? _]|]. intros s h (Hh & Hr) Hh'. by split.
Qed.
Lemma keeps_early_lcd_reset : keeps early lcd_reset.
Proof.
  unfold lcd_reset, lcd_on, lcd_debug. keep. apply keeps_modify. intros s (? & ? & ? & ? & ?).
  split_and!; try done. by split_and!; left.
Qed.
Hint Resolve keeps_early_host keeps_early_lcd_reset : keeps.
Lemma keeps_early_lcd_init : keeps early lcd_init.
Proof. unfold lcd_init, lcd_on, lcd_debug, lcd_get_cfg. keep. Qed.
Lemma keeps_early_lcd_startup st : keeps early (lcd_startup st).
Proof. unfold lcd_startup, lcd_on, lcd_draw. keep. Qed.

Lemma pp_io_init s (Q : unit -> state H D -> Prop) : early s ->
  (forall s', base con_zero (s_ev s') (s_pl s') (s_fss s') s' -> Q tt s') -> pp (on_io io_init) Q s.
Proof.
  intros (Hh & Hio & Hl & Hm & Hc) HQ. unfold on_io. apply pp_zoom, wp_pp. eapply wp_mono; [|by apply wp_io_init].
  intros [] io (_ & [Hi Ho] & _ & Ha). apply HQ. by split_and!.
Qed.

Lemma pp_fs_init c e p f s (Q : unit -> state H D -> Prop) : base c e p f s ->
  (forall f' s', base c e p f' s' -> fss_ok f' -> fs_idle f' -> Q tt s') -> pp fs_init Q s.
Proof.
  intros Hb HQ. unfold fs_init. pp_step. eapply keeps_pp; [apply keeps_fs_debug|exact Hb|]. intros _ s1 Hb1.
  pp_step. eapply pp_upd_fss; [done|]. intros s2 Hb2.
  pp_step. eapply (keeps_pp (base c e p fss_zero)); [keep|done|]. intros _ s3 Hb3.
  pp_step. eapply (keeps_pp (base c e p fss_zero)); [keep|done|]. intros _ s4 Hb4.
  pp_step. eapply pp_upd_fss; [done|]. intros s5 Hb5. eapply pp_upd_fss; [done|]. intros s6 Hb6.
  eapply HQ; [exact Hb6| |done]. split; [done|by left].
Qed.

Lemma pp_pl_init c e p f s (Q : unit -> state H D -> Prop) : base c e p f s -> fss_handle f = -1 ->
  (forall p' s', base c e p' f s' -> pl_ok p' f -> Q tt s') -> pp pl_init Q s.
Proof.
  intros Hb Hh HQ. unfold pl_init. pp_step. eapply keeps_pp; [apply keeps_pl_debug|exact Hb|]. intros _ s1 Hb1.
  pp_step. eapply pp_upd_pl; [done|]. intros s2 Hb2. pp_step. eapply pp_upd_pl; [done|]. intros s3 Hb3.
  eapply pp_upd_pl; [done|]. intros s4 Hb4. eapply HQ; [exact Hb4|]. by split_and!.
Qed.

(** What the hosts do once the buffers are set up. *)
Lemma pp_init_tail msg s : base con_zero (s_ev s) (s_pl s) (s_fss s) s ->
  pp (on_ev event_init ;; on_cmd cmd_init ;; fs_init ;; net_init ;; snd_init ;; pl_init ;;
      lcd_startup LSS_WELLCOME ;; version ;; xprintf msg [] ;; on_con con_input_unlock ;; con_prompt)
    (fun _ => inv 0) s.
Proof.
  intros Hb. pp_step. unfold on_ev, event_init. pp_steps.
  assert (Hb1 : base con_zero ev_zero (s_pl s) (s_fss s) (set_ev ev_zero s)).
  { destruct Hb as (? & ? & ? & ? & ? & ? & ? & ?). by split_and!. }
  clear Hb. generalize dependent (set_ev ev_zero s). generalize (s_pl s) (s_fss s). clear s. intros p f s Hb.
  eapply (keeps_pp (base con_zero ev_zero p f)); [keep|exact Hb|]. clear s Hb. intros _ s Hb.
  pp_step. eapply pp_fs_init; [done|]. clear f s Hb. intros f s Hb Hok [Hfh _].
  do 2 (pp_step; eapply (keeps_pp (base con_zero ev_zero p f));
    [unfold net_init, snd_init; keep|exact Hb|]; clear s Hb; intros _ s Hb).
  pp_step. eapply pp_pl_init; [done|done|]. clear p s Hb. intros p s Hb Hpl.
  do 3 (pp_step; eapply (keeps_pp (base con_zero ev_zero p f)); [unfold version; keep|exact Hb|];
    clear s Hb; intros _ s Hb).
  pp_step. unfold on_con, con_input_unlock. pp_steps.
  destruct Hb as (? & ? & ? & ? & Hc & He & ? & ?).
  eapply (keeps_pp (inv 0)); [apply keeps_xprintf| |done].
  unfold inv. cbn [set_con s_host s_io s_lcd s_mad s_con s_ev s_fss s_pl]. rewrite Hc, He.
  split_and!; [done|done|done|done|exists (false, []); apply con_rep_zero|split; [apply ev_ok_zero|constructor]
    |done|congruence|congruence].
Qed.

Lemma early_boot h d r : host_ok h -> mad_inv d -> early (boot h d r).
Proof. intros Hh Hd. split_and!; try done. by split_and!; left. Qed.

Lemma keeps_early_con_init : keeps early con_init.
Proof.
  apply keeps_bind; [|intros _; keep]. intros s (? & ? & ? & ? & ?). unfold on_con, con_clear. pp_steps. by split_and!.
Qed.

(** The display and the rings. *)
Lemma pp_init_buffers {A} (k : M (state H D) A) (Q : A -> state H D -> Prop) s : early s ->
  (forall s', base con_zero (s_ev s') (s_pl s') (s_fss s') s' -> pp k Q s') ->
  pp (lcd_init ;; lcd_startup LSS_BLANK ;; lcd_startup LSS_INIT ;; on_io io_init ;; k) Q s.
Proof.
  intros Hs Hk. pp_step. eapply keeps_pp; [apply keeps_early_lcd_init|exact Hs|]. clear s Hs. intros _ s Hs.
  do 2 (pp_step; eapply keeps_pp; [apply keeps_early_lcd_startup|exact Hs|]; clear s Hs; intros _ s Hs).
  pp_step. by apply pp_io_init.
Qed.

Lemma pp_init_linux h d r : host_ok h -> mad_inv d -> pp init_linux (fun _ => inv 0) (boot h d r).
Proof.
  intros Hh Hd. apply (early_boot h d r Hh) in Hd. revert Hd. generalize (boot h d r). intros s Hs. unfold init_linux.
  pp_step. eapply keeps_pp; [apply keeps_tell|exact Hs|]. clear s Hs. intros _ s Hs.
  pp_step. eapply keeps_pp; [apply keeps_early_con_init|exact Hs|]. clear s Hs. intros _ s Hs.
  apply pp_init_buffers; [done|]. apply pp_init_tail.
Qed.

(** The start and [n] frames. *)
Lemma pp_program h d r cmds n :
  long64 = true -> cmds_ok cmds -> host_ok h -> mad_inv d -> FRAME_EVENTS * Z.of_nat n < 4294967295 ->
  pp (init_linux ;; run n LIBMAD_FUEL cmds) (fun _ s => inv (FRAME_EVENTS * Z.of_nat n) s) (boot h d r).
Proof.
  intros H64 Hc Hh Hd Hn. pp_step. eapply pp_mono; [|by apply pp_init_linux]. intros [] s Hs.
  by apply (pp_run cmds n H64 Hc 0).
Qed.
End System.
