(* ===== verification/HostNull.v ===== *)
(** * The null host (null/*.c), and concrete states on it

    The host that builds without hardware: no input, no files, no network, no
    sound.  Its functions are an instance of [Platform] and obey the laws of
    [PlatformLaws]; its state is the pool of null/allocs.c, which only [lma_init]
    and the decoder touch.  Behind it a small decoder as an instance of [Mad], and
    the player on this host with that decoder, right after the start and in a few
    situations behind it: the inputs of the witnesses. *)

From S2P Require Import Prelude Strings Libc MadStream Snd IoBuffer Console Event Cmd Id3tag Resfs Salloc Net State.
From S2P Require Import Fs LcdPanel Libmad Player Main Keeps FsKeeps System.

(** The functions, file by file. *)
Module Null.
Abbreviation MH := (M heap).
(** timer.c *)
Definition get_local_time : MH Z := ret 0.
(** console.c *)
Definition host_con_init : MH unit := ret tt.
Definition host_con_poll : M (heap * con_t * ev_t) unit := ret tt.
(** fs.c *)
Definition host_fs_init : MH unit := ret tt.
Definition host_fs_done : MH unit := ret tt.
Definition host_fs_open (name : list Z) : MH Z := ret (-1).
Definition host_fs_close (handle : Z) : MH unit := ret tt.
Definition host_fs_read (handle size : Z) : MH (Z * list Z) := ret (0, []).
Definition host_fs_seek (handle offset : Z) : MH unit := ret tt.
(** net.c *)
Definition host_net_init : MH unit := ret tt.
Definition host_net_done : MH unit := ret tt.
Definition host_net_open (url : list Z) : MH unit := ret tt.
Definition host_net_close : MH unit := ret tt.
Definition host_net_poll : M (heap * io_t) unit := ret tt.
Definition host_net_state : MH net_state_e := ret NET_CLOSED.
Definition cmd_net_state : MH unit := ret tt.
(** sound.c *)
Definition host_snd_init : MH unit := ret tt.
Definition host_snd_done : MH unit := ret tt.
Definition host_snd_loop (st : pl_state_e) (volume : Z) : M (heap * io_t) unit := ret tt.
Definition host_snd_state : MH sound_state_e := ret SS_UNKNOWN.
Definition cmd_snd_state (volume : Z) : MH unit := ret tt.
(** lcd.c *)
Definition host_lcd_init : MH unit := ret tt.
Definition host_lcd_done : MH unit := ret tt.
Definition host_lcd_draw (resource : Z) : MH unit := ret tt.
Definition host_lcd_get_cfg : MH lcd_cfg_s := ret (LcdCfg 0 0 0).
Definition host_lcd_putpixel (x y color : Z) : MH unit := ret tt.
Definition host_lcd_update_screen : MH unit := ret tt.
Definition host_lcd_clean_screen : MH unit := ret tt.
End Null.

Section Null.
Context `{T : Target} `{C : Config}.

#[export] Instance null_platform : Platform heap := {|
  get_local_time := Null.get_local_time;
  host_con_init := Null.host_con_init;
  host_con_poll := Null.host_con_poll;
  host_fs_init := Null.host_fs_init;
  host_fs_open := Null.host_fs_open;
  host_fs_close := Null.host_fs_close;
  host_fs_read := Null.host_fs_read;
  host_fs_seek := Null.host_fs_seek;
  host_net_init := Null.host_net_init;
  host_net_done := Null.host_net_done;
  host_net_open := Null.host_net_open;
  host_net_close := Null.host_net_close;
  host_net_poll := Null.host_net_poll;
  host_net_state := Null.host_net_state;
  host_snd_init := Null.host_snd_init;
  host_snd_done := Null.host_snd_done;
  host_snd_loop := Null.host_snd_loop;
  host_snd_state := Null.host_snd_state;
  host_lcd_init := Null.host_lcd_init;
  host_lcd_done := Null.host_lcd_done;
  host_lcd_draw := Null.host_lcd_draw;
  host_lcd_get_cfg := Null.host_lcd_get_cfg;
  host_lcd_putpixel := Null.host_lcd_putpixel;
  host_lcd_update_screen := Null.host_lcd_update_screen;
  host_lcd_clean_screen := Null.host_lcd_clean_screen;
  host_cmd_net_state := Null.cmd_net_state;
  host_cmd_snd_state := Null.cmd_snd_state
|}.

#[export] Program Instance null_laws : PlatformLaws heap null_platform := {| host_ok _ := True |}.
Solve All Obligations with (intros; cbn; try done; split_and!; try done; lia).
End Null.

(** ** A decoder

    The simplest one that obeys the laws: every byte of the buffer is a header,
    and a header makes one silent stereo sample. *)
Definition one_sample : mad_pcm := MadPcm 44100 2 1 [0] [0].

Definition byte_header (buf : list Z) (st : mad_stream) (d : unit) : res (Z * mad_stream * unit) :=
  match next_frame st, bufend st with
  | Some n, Some e =>
      if n <? e then Done (0, MadStream (Some n) (Some (n + 1)) (Some e) 0 (skiplen st), d)
      else Done (-1, MadStream (Some n) (Some n) (Some e) 1 (skiplen st), d)
  | _, _ => Done (-1, MadStream (this_frame st) (next_frame st) (bufend st) 2 (skiplen st), d)
  end.

#[export] Instance byte_decoder : Mad unit := {|
  mad_init d := d;
  mad_finish d := d;
  mad_buffered d := d;
  mad_header_decode := byte_header;
  mad_frame_decode buf st d := Done (0, st, d);
  mad_frame_mute d := d;
  mad_timer_add d := d;
  mad_synth_frame d := Done d;
  mad_get_header _ := MadHeader 3 2 128000 44100 0;
  mad_get_pcm _ := one_sample;
  mad_errorstr _ := Some &"error";
  mad_timer_text _ := Done &"0"
|}.

Definition bytes_left (st : mad_stream) (d : unit) : nat :=
  match next_frame st, bufend st with Some n, Some e => Z.to_nat (e - n) | _, _ => O end.

Lemma byte_header_law buf st d : 0 <= skiplen st ->
  decoded (fun _ => True) (fun st' d' => 0 <= skiplen st' /\ (bytes_left st' d' < bytes_left st d)%nat) (byte_header buf st d).
Proof.
  intros Hk. unfold byte_header, bytes_left. destruct (next_frame st) as [n|]; [|by split; [|left]].
  destruct (bufend st) as [e|]; [|by split; [|left]].
  destruct (Z.ltb_spec n e); (split; [done|]); [right; cbn; split; [done|lia]|by left].
Qed.

#[export] Program Instance byte_laws : MadLaws unit byte_decoder := {|
  mad_inv _ := True;
  mad_ok st _ := 0 <= skiplen st;
  mad_work := bytes_left;
  law_header buf st d Hk _ := byte_header_law buf st d Hk
|}.
Solve All Obligations with (intros; cbn; try done; repeat split; try done; try (by right); unfold bytes_left; cbn; lia).

(** ** Concrete states *)

Definition demo_config : Config := default_config true.
Definition demo_heap : heap := (libmad_alloc 4096, ∅).
Definition demo_res : rs_t := Rs 0 no_entries.
Abbreviation demo_state := (state heap unit).
Definition demo_boot : demo_state := boot demo_heap tt demo_res.

#[local] Existing Instance linux_target.
#[local] Existing Instance demo_config.

Lemma linux_cmds_ok {H D} `{P : Platform H} `{PL : !PlatformLaws H P} `{MD : Mad D} `{ML : !MadLaws D MD} `{T : Target} `{C : Config} :
  cmds_ok (H := H) (D := D) commands_linux.
Proof.
  intros n m Hin. unfold commands_linux, commands in Hin. simpl in Hin.
  assert (m = cmd_exit) as ->.
  { repeat (apply elem_of_cons in Hin as [Hin|Hin]; [congruence|]). by apply elem_of_nil in Hin. }
  apply calm_base. intros. unfold cmd_exit. keep. apply keeps_modify. by intros s Hs.
Qed.

(** The state behind the start, and one in which a line has been typed. *)
Definition started : demo_state := final init_linux demo_boot.

Lemma started_inv : inv 0 started.
Proof.
  unfold started. apply (pp_final init_linux (inv 0) demo_boot); [by apply (pp_init_linux demo_heap tt demo_res)|]. vm_compute. reflexivity.
Qed.

Lemma started_mad : mad_wf (s_mad started).
Proof. pose proof started_inv as (_ & _ & _ & Hm & _). exact Hm. Qed.

(** The decoder is ready and [n] compressed bytes are pending. *)
Definition compressed (n : Z) : demo_state :=
  final (upd_pl (set_pl_st PL_PLAYING) ;; libmad_init ;;
         on_io (i_put (fun b => Input (repeat 7 1024) (in_size b) n))) started.

(** One block is pending for the sound device. *)
Definition sounding : demo_state := final (on_io (o_put (fun b => b))) (compressed 10).

Lemma compressed_queues : queues (s_io (compressed 10)) [Input (repeat 7 1024) 1024 10] [].
Proof. unfold queues, io_ok, ring_ok. vm_compute. split_and!; try done; intros ?; discriminate. Qed.
