(* ===== verification/MadFrame.v ===== *)
(** * libs/libmad-0.15.1b/frame.c: finding and decoding frame headers

    [decode_header] reads the fields of a header, [free_bitrate] measures the length
    of a frame in free format, [mad_header_decode] finds the next header, and
    [mad_frame_decode] hands its data to the decoder of the layer, which is a
    parameter ([Layers]). *)

From S2P Require Import Prelude MadBit MadTimer MadStream.

Definition MAD_LAYER_I : Z := 1.
Definition MAD_LAYER_II : Z := 2.
Definition MAD_LAYER_III : Z := 3.

Definition MAD_FLAG_INCOMPLETE : Z := 8.
Definition MAD_FLAG_PROTECTION : Z := 16.
Definition MAD_FLAG_COPYRIGHT : Z := 32.
Definition MAD_FLAG_ORIGINAL : Z := 64.
Definition MAD_FLAG_PADDING : Z := 128.
Definition MAD_FLAG_FREEFORMAT : Z := 1024.
Definition MAD_FLAG_LSF_EXT : Z := 4096.
Definition MAD_FLAG_MPEG_2_5_EXT : Z := 16384.
Definition MAD_PRIVATE_HEADER : Z := 256.

Definition bitrate_table : list (list Z) := [
  [0; 32000; 64000; 96000; 128000; 160000; 192000; 224000; 256000; 288000; 320000; 352000; 384000; 416000; 448000];
  [0; 32000; 48000; 56000; 64000; 80000; 96000; 112000; 128000; 160000; 192000; 224000; 256000; 320000; 384000];
  [0; 32000; 40000; 48000; 56000; 64000; 80000; 96000; 112000; 128000; 160000; 192000; 224000; 256000; 320000];
  [0; 32000; 48000; 56000; 64000; 80000; 96000; 112000; 128000; 144000; 160000; 176000; 192000; 224000; 256000];
  [0; 8000; 16000; 24000; 32000; 40000; 48000; 56000; 64000; 80000; 96000; 112000; 128000; 144000; 160000]
].

Definition samplerate_table : list Z := [44100; 48000; 32000].

Section Header.
Implicit Types h : header_t.
Definition set_layer x h := Header x (hd_mode h) (hd_mode_extension h) (hd_emphasis h) (hd_bitrate h) (hd_samplerate h) (hd_crc_check h) (hd_crc_target h) (hd_flags h) (hd_private_bits h) (hd_duration h).
Definition set_modes m x e h := Header (hd_layer h) m x e (hd_bitrate h) (hd_samplerate h) (hd_crc_check h) (hd_crc_target h) (hd_flags h) (hd_private_bits h) (hd_duration h).
Definition set_bitrate x h := Header (hd_layer h) (hd_mode h) (hd_mode_extension h) (hd_emphasis h) x (hd_samplerate h) (hd_crc_check h) (hd_crc_target h) (hd_flags h) (hd_private_bits h) (hd_duration h).
Definition set_samplerate x h := Header (hd_layer h) (hd_mode h) (hd_mode_extension h) (hd_emphasis h) (hd_bitrate h) x (hd_crc_check h) (hd_crc_target h) (hd_flags h) (hd_private_bits h) (hd_duration h).
Definition set_crc_check x h := Header (hd_layer h) (hd_mode h) (hd_mode_extension h) (hd_emphasis h) (hd_bitrate h) (hd_samplerate h) x (hd_crc_target h) (hd_flags h) (hd_private_bits h) (hd_duration h).
Definition set_crc_target x h := Header (hd_layer h) (hd_mode h) (hd_mode_extension h) (hd_emphasis h) (hd_bitrate h) (hd_samplerate h) (hd_crc_check h) x (hd_flags h) (hd_private_bits h) (hd_duration h).
Definition set_flags x h := Header (hd_layer h) (hd_mode h) (hd_mode_extension h) (hd_emphasis h) (hd_bitrate h) (hd_samplerate h) (hd_crc_check h) (hd_crc_target h) x (hd_private_bits h) (hd_duration h).
Definition set_private_bits x h := Header (hd_layer h) (hd_mode h) (hd_mode_extension h) (hd_emphasis h) (hd_bitrate h) (hd_samplerate h) (hd_crc_check h) (hd_crc_target h) (hd_flags h) x (hd_duration h).
Definition set_duration x h := Header (hd_layer h) (hd_mode h) (hd_mode_extension h) (hd_emphasis h) (hd_bitrate h) (hd_samplerate h) (hd_crc_check h) (hd_crc_target h) (hd_flags h) (hd_private_bits h) x.
(** [header->flags |= f] when [b], and the test of a flag *)
Definition or_flag (b : bool) f h := if b then set_flags (Z.lor (hd_flags h) f) h else h.
Definition has_flag f h : bool := negb (Z.land (hd_flags h) f =? 0).
Definition lsf h : bool := has_flag MAD_FLAG_LSF_EXT h.
End Header.

Definition mad_header_init : header_t := Header 0 0 0 0 0 0 0 0 0 0 mad_timer_zero.

Definition MAD_NSBSAMPLES (h : header_t) : Z :=
  if hd_layer h =? MAD_LAYER_I then 12 else if (hd_layer h =? MAD_LAYER_III) && lsf h then 18 else 36.

(** ** Frames *)

Definition zero_block (a b : nat) : list (list (list Z)) := repeat (repeat (repeat 0 b) a) 2.

Definition mad_frame_mute (f : frame_t) : frame_t :=
  Frame (fr_header f) (fr_options f) (zero_block 36 32)
    (match fr_overlap f with Some _ => Some (zero_block 32 18) | None => None end).

Definition mad_frame_init (f : frame_t) : frame_t :=
  mad_frame_mute (Frame mad_header_init 0 (fr_sbsample f) None).

(** The memory of [overlap] goes back to the allocator. *)
Definition mad_frame_finish (f : frame_t) : frame_t := Frame (fr_header f) (fr_options f) (fr_sbsample f) None.

Section Decode.
Context `{T : Target} (buf : list Z).

Definition bit_read (p : mad_bitptr) (n : Z) : res (Z * mad_bitptr) := res_opt (mad_bit_read buf p n).

(** The result of a decoding step: what it returns, the header, the stream. *)
Definition decode_header (header : header_t) (stream : stream_t) : res (Z * header_t * stream_t) :=
  let fail header ptr error := Done (-1, header, set_error error (set_ptr ptr stream)) in
  let header := set_private_bits 0 (set_flags 0 header) in
  let! ptr := res_opt (mad_bit_skip buf (st_ptr stream) 11) in
  let! (b, ptr) := bit_read ptr 1 in
  let header := or_flag (b =? 0) MAD_FLAG_MPEG_2_5_EXT header in
  let! (b, ptr) := bit_read ptr 1 in
  if negb (b =? 0) && has_flag MAD_FLAG_MPEG_2_5_EXT header then fail header ptr MAD_ERROR_LOSTSYNC
  else
    let header := or_flag (b =? 0) MAD_FLAG_LSF_EXT header in
    let! (v, ptr) := bit_read ptr 2 in
    let header := set_layer (4 - v) header in
    if hd_layer header =? 4 then fail header ptr MAD_ERROR_BADLAYER
    else
      let! (b, ptr) := bit_read ptr 1 in
      let! header :=
        if b =? 0 then
          let! crc := res_opt (mad_bit_crc buf ptr 16 65535) in
          Done (set_crc_check crc (or_flag true MAD_FLAG_PROTECTION header))
        else Done header in
      let! (index, ptr) := bit_read ptr 4 in
      if index =? 15 then fail header ptr MAD_ERROR_BADBITRATE
      else
        let row := if lsf header then 3 + Z.shiftr (hd_layer header) 1 else hd_layer header - 1 in
        let! rates := res_opt (zget bitrate_table row) in
        let! rate := res_opt (zget rates index) in
        let header := set_bitrate rate header in
        let! (index, ptr) := bit_read ptr 2 in
        if index =? 3 then fail header ptr MAD_ERROR_BADSAMPLERATE
        else
          let! rate := res_opt (zget samplerate_table index) in
          let rate :=
            if lsf header then (if has_flag MAD_FLAG_MPEG_2_5_EXT header then rate / 2 / 2 else rate / 2) else rate in
          let header := set_samplerate rate header in
          let! (b, ptr) := bit_read ptr 1 in
          let header := or_flag (negb (b =? 0)) MAD_FLAG_PADDING header in
          let! (b, ptr) := bit_read ptr 1 in
          let header :=
            if negb (b =? 0) then set_private_bits (Z.lor (hd_private_bits header) MAD_PRIVATE_HEADER) header else header in
          let! (mode, ptr) := bit_read ptr 2 in
          let! (ext, ptr) := bit_read ptr 2 in
          let! (b, ptr) := bit_read ptr 1 in
          let header := or_flag (negb (b =? 0)) MAD_FLAG_COPYRIGHT header in
          let! (b, ptr) := bit_read ptr 1 in
          let header := or_flag (negb (b =? 0)) MAD_FLAG_ORIGINAL header in
          let! (emphasis, ptr) := bit_read ptr 2 in
          let header := set_modes (3 - mode) ext emphasis header in
          let! (header, ptr) :=
            if has_flag MAD_FLAG_PROTECTION header then
              let! (target, ptr) := bit_read ptr 16 in
              Done (set_crc_target target header, ptr)
            else Done (header, ptr) in
          Done (0, header, set_ptr ptr stream).

Definition pad_slot (h : header_t) : Z := if has_flag MAD_FLAG_PADDING h then 1 else 0.
Definition slots_per_frame (h : header_t) : Z :=
  if (hd_layer h =? MAD_LAYER_III) && lsf h then 72 else 144.

(** The rate that a frame of [N] bytes makes, in kbit/s. *)
Definition rate_of (h : header_t) (N : Z) : Z :=
  if hd_layer h =? MAD_LAYER_I then ulong (hd_samplerate h * u32 (N - 4 * pad_slot h + 4)) / 48 / 1000
  else ulong (hd_samplerate h * u32 (N - pad_slot h + 1)) / slots_per_frame h / 1000.

(** [while (mad_stream_sync(stream) == 0)]: gives the last computed rate. *)
Fixpoint free_loop (fuel : nat) (header : header_t) (stream : stream_t) (rate : Z) : res Z :=
  match fuel with
  | O => NoFuel
  | S fuel' =>
      let! (r, stream) := res_opt (mad_stream_sync buf stream) in
      if negb (r =? 0) then Done rate
      else
        let! (r, peek_header, _) := decode_header header stream in
        let! this := res_opt (st_this_frame stream) in
        let same := (r =? 0) && (hd_layer peek_header =? hd_layer header) &&
                    (hd_samplerate peek_header =? hd_samplerate header) in
        let rate := if same then rate_of header (u32 (mad_bit_nextbyte (st_ptr stream) - this)) else rate in
        if same && (rate >=? 8) then Done rate
        else
          let! ptr := res_opt (mad_bit_skip buf (st_ptr stream) 8) in
          free_loop fuel' header (set_ptr ptr stream) rate
  end.

(** Every round looks at another byte of the buffer. *)
Definition free_bitrate (stream : stream_t) (header : header_t) : res (Z * stream_t) :=
  let! rate := free_loop (S (length buf)) header stream 0 in
  if (rate <? 8) || ((hd_layer header =? MAD_LAYER_III) && (rate >? 640)) then
    Done (-1, set_error MAD_ERROR_LOSTSYNC stream)
  else Done (0, set_freerate (ulong (rate * 1000)) stream).

(** The number of bytes of the frame. *)
Definition frame_length (h : header_t) : Z :=
  if hd_layer h =? MAD_LAYER_I then u32 ((ulong (12 * hd_bitrate h) / hd_samplerate h + pad_slot h) * 4)
  else u32 (ulong (slots_per_frame h * hd_bitrate h) / hd_samplerate h + pad_slot h).

(** [fail:] *)
Definition header_fail (error : Z) (header : header_t) (stream : stream_t) : res (Z * header_t * stream_t) :=
  Done (-1, header, set_sync 0 (set_error error stream)).

(** From the label [sync] to the place where the header begins; [None]: failed. *)
Definition find_frame (stream : stream_t) (ptr end_ : Z) : res (stream_t * option Z) :=
  if negb (st_sync stream =? 0) then
    if end_ - ptr <? MAD_BUFFER_GUARD then
      Done (set_error MAD_ERROR_BUFLEN (set_next_frame (Some ptr) stream), None)
    else
      let! b := res_opt (is_sync buf ptr) in
      if (b : bool) then Done (stream, Some ptr)
      else Done (set_error MAD_ERROR_LOSTSYNC (set_next_frame (Some (ptr + 1)) (set_this_frame (Some ptr) stream)), None)
  else
    let stream := set_ptr (mad_bit_init ptr) stream in
    let! (r, stream) := res_opt (mad_stream_sync buf stream) in
    if r =? -1 then
      let! next := res_opt (st_next_frame stream) in
      let stream := if end_ - next >=? MAD_BUFFER_GUARD then set_next_frame (Some (end_ - MAD_BUFFER_GUARD)) stream else stream in
      Done (set_error MAD_ERROR_BUFLEN stream, None)
    else Done (stream, Some (mad_bit_nextbyte (st_ptr stream))).

(** The header at [this_frame]: its fields, the duration of the frame, and the free
    bit rate. *)
Definition read_header (header : header_t) (stream : stream_t) : res (Z * header_t * stream_t) :=
  let! (r, header, stream) := decode_header header stream in
  if r =? -1 then Done (-1, header, stream)
  else
    let! duration := mad_timer_set 0 (32 * MAD_NSBSAMPLES header) (hd_samplerate header) in
    let header := set_duration duration header in
    if hd_bitrate header =? 0 then
      let! (r, stream) :=
        if (st_freerate stream =? 0) || (st_sync stream =? 0) ||
           ((hd_layer header =? MAD_LAYER_III) && (st_freerate stream >? 640000))
        then free_bitrate stream header else Done (0, stream) in
      if r =? -1 then Done (-1, header, stream)
      else Done (0, or_flag true MAD_FLAG_FREEFORMAT (set_bitrate (st_freerate stream) header), stream)
    else Done (0, header, stream).

(** From the label [sync] on. *)
Fixpoint header_loop (fuel : nat) (header : header_t) (stream : stream_t) (ptr end_ : Z) : res (Z * header_t * stream_t) :=
  match fuel with
  | O => NoFuel
  | S fuel' =>
      let! (stream, found) := find_frame stream ptr end_ in
      match found with
      | None => header_fail (st_error stream) header stream
      | Some ptr =>
          let stream := set_next_frame (Some (ptr + 1)) (set_this_frame (Some ptr) stream) in
          let stream := set_ptr (mad_bit_init ptr) stream in
          let! (r, header, stream) := read_header header stream in
          if r =? -1 then header_fail (st_error stream) header stream
          else
            let N := frame_length header in
            if u32 (N + MAD_BUFFER_GUARD) >? end_ - ptr then
              header_fail MAD_ERROR_BUFLEN header (set_next_frame (Some ptr) stream)
            else
              let stream := set_next_frame (Some (ptr + N)) stream in
              let! follows := if st_sync stream =? 0 then res_opt (is_sync buf (ptr + N)) else Done true in
              if negb (follows : bool) then
                header_loop fuel' header (set_next_frame (Some (ptr + 1)) stream) (ptr + 1) end_
              else
                Done (0, or_flag true MAD_FLAG_INCOMPLETE header, set_sync 1 stream)
      end
  end.

Definition mad_header_decode (header : header_t) (stream : stream_t) : res (Z * header_t * stream_t) :=
  match st_next_frame stream with
  | None => header_fail MAD_ERROR_BUFPTR header stream
  | Some ptr =>
      let! end_ := res_opt (st_bufend stream) in
      let fuel := S (length buf) in
      if negb (st_skiplen stream =? 0) then
        let! ptr := if st_sync stream =? 0 then res_opt (st_this_frame stream) else Done ptr in
        if ulong (end_ - ptr) <? st_skiplen stream then
          header_fail MAD_ERROR_BUFLEN header
            (set_next_frame (Some end_) (set_skiplen (ulong (st_skiplen stream - (end_ - ptr))) stream))
        else
          header_loop fuel header (set_sync 1 (set_skiplen 0 stream)) (ptr + st_skiplen stream) end_
      else header_loop fuel header stream ptr end_
  end.
End Decode.

(** ** Frames *)

(** The layer decoders: [decoder_table[layer - 1](stream, frame)]. *)
Class Layers := {
  mad_layer : Z -> list Z -> stream_t -> frame_t -> res (Z * stream_t * frame_t)
}.

Section FrameDecode.
Context `{T : Target} `{L : Layers} (buf : list Z).

Definition set_fr_header (h : header_t) (f : frame_t) : frame_t := Frame h (fr_options f) (fr_sbsample f) (fr_overlap f).

Definition frame_fail (frame : frame_t) (stream : stream_t) : res (Z * frame_t * stream_t) :=
  Done (-1, frame, set_anc_bitlen 0 stream).

(** From [audio_data()] on: the header has been read. *)
Definition frame_data (frame : frame_t) (stream : stream_t) : res (Z * frame_t * stream_t) :=
  let header := fr_header frame in
  let header := set_flags (Z.ldiff (hd_flags header) MAD_FLAG_INCOMPLETE) header in
  let frame := set_fr_header header frame in
  if (hd_layer header <? 1) || (3 <? hd_layer header) then Fault
  else
    let! (r, stream, frame) := mad_layer (hd_layer header) buf stream frame in
    if r =? -1 then
      frame_fail frame (if negb (MAD_RECOVERABLE (st_error stream)) then set_next_frame (st_this_frame stream) stream else stream)
    else if negb (hd_layer (fr_header frame) =? MAD_LAYER_III) then
      let! next := res_opt (st_next_frame stream) in
      let next_frame := mad_bit_init next in
      Done (0, frame, set_anc (st_ptr stream) (mad_bit_length (st_ptr stream) next_frame) stream)
    else Done (0, frame, stream).

Definition mad_frame_decode (frame : frame_t) (stream : stream_t) : res (Z * frame_t * stream_t) :=
  let frame := Frame (fr_header frame) (st_options stream) (fr_sbsample frame) (fr_overlap frame) in
  let! (r, header, stream) :=
    if negb (has_flag MAD_FLAG_INCOMPLETE (fr_header frame)) then mad_header_decode buf (fr_header frame) stream
    else Done (0, fr_header frame, stream) in
  let frame := set_fr_header header frame in
  if r =? -1 then frame_fail frame stream
  else frame_data frame stream.
End FrameDecode.
