(* ===== verification/MadFrameProps.v ===== *)
(** * Facts about libmad's frame.c and stream.c

    The search for a sync word, the fields of a header, and that looking for a
    header never reads outside the buffer and always gets on. *)

From S2P Require Import Prelude MadBit MadTimer MadStream MadFrame.

(** ** The sync word *)

Section Sync.
Context (buf : list Z).

(** Eleven set bits at byte [p]. *)
Definition sync_at (p : Z) : bool := (byte_at buf p =? 255) && (Z.land (byte_at buf (p + 1)) 224 =? 224).

Lemma is_sync_at p : 0 <= p -> p + 1 < zlen buf -> is_sync buf p = Some (sync_at p).
Proof.
  intros Hp Hl. unfold is_sync, sync_at. rewrite load_byte by lia. destruct (byte_at buf p =? 255); [|done].
  by rewrite load_byte by lia.
Qed.

Lemma sync_scan_spec n : forall p, 0 <= p -> p + Z.of_nat n + 1 <= zlen buf ->
  exists q, sync_scan buf n p = Some q /\ p <= q <= p + Z.of_nat n /\
    (forall k, p <= k < q -> sync_at k = false) /\ (q < p + Z.of_nat n -> sync_at q = true).
Proof.
  induction n as [|n IH]; intros p Hp Hl; cbn [sync_scan].
  { exists p. split_and!; [done|lia|lia|lia|lia]. }
  rewrite is_sync_at by lia. destruct (sync_at p) eqn:Hs.
  { exists p. split_and!; [done|lia|lia|lia|done]. }
  destruct (IH (p + 1)) as (q & -> & Hq & Hno & Hyes); [lia|lia|]. exists q. split_and!; [done|lia|lia| |].
  - intros k Hk. destruct (Z.eq_dec k p) as [->|]; [done|]. apply Hno. lia.
  - intros Hlt. apply Hyes. lia.
Qed.

(** [mad_stream_sync] finds the first sync word that is followed by enough data, and
    fails only if there is none. *)
Lemma mad_stream_sync_spec s e : st_bufend s = Some e -> e <= zlen buf ->
  let p := mad_bit_nextbyte (st_ptr s) in 0 <= p ->
  exists q, p <= q /\ (forall k, p <= k < q -> k < e - 1 -> sync_at k = false) /\
    ((mad_stream_sync buf s = Some (-1, s) /\ e - q < MAD_BUFFER_GUARD) \/
     (mad_stream_sync buf s = Some (0, set_ptr (mad_bit_init q) s) /\ q + MAD_BUFFER_GUARD <= e /\ sync_at q = true)).
Proof.
  intros He Hl p Hp. unfold mad_stream_sync. rewrite He. fold p. unfold MAD_BUFFER_GUARD.
  destruct (Z.le_gt_cases (e - 1) p) as [Hge|Hlt].
  { replace (Z.to_nat (e - 1 - p)) with O by lia. cbn [sync_scan]. exists p. split_and!; [lia|lia|].
    left. destruct (Z.ltb_spec (e - p) 8); [done|lia]. }
  destruct (sync_scan_spec (Z.to_nat (e - 1 - p)) p) as (q & -> & Hq & Hno & Hyes); [done|lia|].
  exists q. split_and!; [lia|intros k Hk _; by apply Hno|].
  destruct (Z.ltb_spec (e - q) 8); [by left|right]. split_and!; [done|lia|]. apply Hyes. lia.
Qed.
End Sync.

(** ** The fields of a header *)

Section Fields.
Context `{T : Target} (buf : list Z).

(** A bit pointer at bit [p]. *)
Definition at_bit (bp : mad_bitptr) (p : Z) : Prop := bp_ok buf bp /\ bp_pos bp = p.

Lemma at_bit_init p : 0 <= p -> at_bit (mad_bit_init p) (8 * p).
Proof.
  intros Hp. unfold at_bit, bp_ok, bp_pos, mad_bit_init, CHAR_BIT. cbn [bp_byte bp_left bp_cache]. split_and!; lia.
Qed.

Lemma bit_read_at bp p n : at_bit bp p -> 1 <= n <= 32 -> p + n <= 8 * zlen buf ->
  exists bp', bit_read buf bp n = Done (bits_val buf p (Z.to_nat n), bp') /\ at_bit bp' (p + n).
Proof.
  intros [Hok <-] Hn Hl. destruct (mad_bit_read_bits buf bp n Hok Hn Hl) as (bp' & Hr & Hok' & Hp).
  exists bp'. unfold bit_read. rewrite Hr. by split.
Qed.

Lemma bit_skip_at bp p n : at_bit bp p -> 0 <= n -> p + n <= 8 * zlen buf ->
  exists bp', mad_bit_skip buf bp n = Some bp' /\ at_bit bp' (p + n).
Proof.
  intros [Hok <-] Hn Hl. destruct (mad_bit_skip_ok buf bp n Hok Hn Hl) as (bp' & Hr & Hok' & Hp). by exists bp'.
Qed.

Lemma nextbyte_at bp k : at_bit bp (8 * k) -> mad_bit_nextbyte bp = k.
Proof.
  intros [(Hb & Hl & _) Hp]. unfold bp_pos in Hp. unfold mad_bit_nextbyte, CHAR_BIT.
  destruct (Z.eqb_spec (bp_left bp) 8); lia.
Qed.

(** The field of [n] bits at bit [off] of the header at byte [p]. *)
Definition field (p off : Z) (n : nat) : Z := bits_val buf (8 * p + off) n.

(** What the fields of a header say. *)
Definition header_mpeg25 p : bool := field p 11 1 =? 0.
Definition header_lsf p : bool := field p 12 1 =? 0.
Definition header_protected p : bool := field p 15 1 =? 0.
Definition header_flags p : Z :=
  (if header_mpeg25 p then MAD_FLAG_MPEG_2_5_EXT else 0) + (if header_lsf p then MAD_FLAG_LSF_EXT else 0) +
  (if header_protected p then MAD_FLAG_PROTECTION else 0) + (if field p 22 1 =? 0 then 0 else MAD_FLAG_PADDING) +
  (if field p 28 1 =? 0 then 0 else MAD_FLAG_COPYRIGHT) + (if field p 29 1 =? 0 then 0 else MAD_FLAG_ORIGINAL).
Definition header_bitrate p : option Z :=
  let layer := 4 - field p 13 2 in
  rates ← zget bitrate_table (if header_lsf p then 3 + layer / 2 else layer - 1);
  zget rates (field p 16 4).
Definition header_samplerate p : option Z :=
  rate ← zget samplerate_table (field p 20 2);
  Some (if header_lsf p then if header_mpeg25 p then rate / 2 / 2 else rate / 2 else rate).

(** A header with all its fields. *)
Definition header_at (p : Z) (bitrate samplerate : Z) (h : header_t) : header_t :=
  Header (4 - field p 13 2) (3 - field p 24 2) (field p 26 2) (field p 30 2) bitrate samplerate
    (if header_protected p then crc_fold (bit_list buf (8 * p + 16) 16) 65535 else hd_crc_check h)
    (if header_protected p then field p 32 16 else hd_crc_target h)
    (header_flags p) (if field p 23 1 =? 0 then 0 else MAD_PRIVATE_HEADER) (hd_duration h).

(** The values that no header may have. *)
Definition header_error (p : Z) : option Z :=
  if header_mpeg25 p && negb (header_lsf p) then Some MAD_ERROR_LOSTSYNC
  else if field p 13 2 =? 0 then Some MAD_ERROR_BADLAYER
  else if field p 16 4 =? 15 then Some MAD_ERROR_BADBITRATE
  else if field p 20 2 =? 3 then Some MAD_ERROR_BADSAMPLERATE
  else None.

Lemma field_range p off n : 0 <= field p off n < 2 ^ Z.of_nat n.
Proof. apply bits_val_range. Qed.

Lemma crc_at bp p len init : at_bit bp p -> 0 <= len -> p + len <= 8 * zlen buf -> 0 <= init < 65536 ->
  mad_bit_crc buf bp len init = Some (crc_fold (bit_list buf p (Z.to_nat len)) init).
Proof. intros [Hok <-] Hlen Hl Hi. by apply mad_bit_crc_bits. Qed.

(** Reading the next field. *)
Lemma read_field_at bp p off n off' : at_bit bp (8 * p + off) -> 1 <= n <= 32 -> p + 6 <= zlen buf -> off' <= 48 ->
  off' = off + n -> exists bp', bit_read buf bp n = Done (field p off (Z.to_nat n), bp') /\ at_bit bp' (8 * p + off').
Proof. intros Hb Hn Hl H48 ->. rewrite Z.add_assoc. apply bit_read_at; [done|done|lia]. Qed.

Ltac read_field off' :=
  match goal with H : at_bit ?b (8 * ?p + ?off), Hl : ?p + 6 <= _ |- context [bit_read buf ?b ?n] =>
    let bp := fresh "bp" in let E := fresh "E" in let Hb := fresh "Hb" in
    destruct (read_field_at b p off n off' H ltac:(lia) Hl ltac:(lia) eq_refl) as (bp & E & Hb);
    rewrite E; clear E H; cbn [res_opt res_bind]; simpl Z.to_nat
  end.

(** The tables. *)
Lemma bitrate_lookup row i : 0 <= row < 5 -> 0 <= i < 15 ->
  exists rates rate, zget bitrate_table row = Some rates /\ zget rates i = Some rate /\
    (rate = 0 \/ 8000 <= rate <= 448000).
Proof.
  intros Hr Hi. destruct (zget_some bitrate_table row) as [rates Hrow]; [done|]. exists rates.
  assert (Hall : forallb (fun l => (zlen l =? 15) &&
    forallb (fun x => (x =? 0) || (8000 <=? x) && (x <=? 448000)) l) bitrate_table = true) by reflexivity.
  assert (Hin : forall A (l : list A) k x, zget l k = Some x -> In x l).
  { intros A l k x Hg. unfold zget in Hg. destruct (k <? 0); [done|]. apply list_elem_of_lookup_2 in Hg. by apply list_elem_of_In. }
  rewrite forallb_forall in Hall. destruct (andb_prop _ _ (Hall _ (Hin _ _ _ _ Hrow))) as [Hlen Hf].
  destruct (zget_some rates i) as [rate Hi']; [lia|]. exists rate. split_and!; [done|done|].
  rewrite forallb_forall in Hf. specialize (Hf _ (Hin _ _ _ _ Hi')). lia.
Qed.

Lemma samplerate_lookup i : 0 <= i < 3 -> exists rate, zget samplerate_table i = Some rate /\ In rate samplerate_table.
Proof. intros Hi. assert (i = 0 \/ i = 1 \/ i = 2) as [->|[->| ->]] by lia; eexists; (split; [done|]); cbn; tauto. Qed.

(** The fields, one after the other. *)
Lemma decode_header_run h s p :
  at_bit (st_ptr s) (8 * p) -> 0 <= p -> p + 6 <= zlen buf ->
  match header_error p with
  | Some e => exists h' bp, decode_header buf h s = Done (-1, h', set_error e (set_ptr bp s))
  | None => exists bitrate samplerate bp,
      header_bitrate p = Some bitrate /\ header_samplerate p = Some samplerate /\
      decode_header buf h s = Done (0, header_at p bitrate samplerate h, set_ptr bp s) /\
      at_bit bp (8 * (p + if header_protected p then 6 else 4))
  end.
Proof.
  intros Hp H0 Hl. unfold decode_header, header_error.
  destruct (bit_skip_at (st_ptr s) (8 * p) 11 Hp) as (bp0 & -> & Hp0); [lia|lia|]. cbn [res_opt res_bind]. clear Hp.
  read_field 12. read_field 13. change (Z.to_nat 1) with 1%nat. fold (header_mpeg25 p) (header_lsf p).
  pose proof (field_range p 13 2) as Hlay. change (2 ^ Z.of_nat 2) with 4 in Hlay.
  destruct (header_mpeg25 p) eqn:Hm, (header_lsf p) eqn:Hlsf; cbn [andb negb]; [|by eauto| |].
  all: read_field 15; change (Z.to_nat 2) with 2%nat; cbn [hd_layer set_layer];
    destruct (Z.eqb_spec (field p 13 2) 0) as [Hz|Hnz];
    [rewrite Hz; change (4 - 0 =? 4) with true; cbn iota; by eauto|];
    destruct (Z.eqb_spec (4 - field p 13 2) 4); [lia|];
    read_field 16; change (Z.to_nat 1) with 1%nat; fold (header_protected p).
  all: destruct (header_protected p) eqn:Hprot; cbn iota;
    [match goal with H : at_bit ?b _ |- context [mad_bit_crc buf ?b 16 65535] => rewrite (crc_at b _ 16 65535 H) by lia end; cbn [res_opt res_bind]|cbn [res_bind]];
    read_field 20; change (Z.to_nat 4) with 4%nat; (destruct (Z.eqb_spec (field p 16 4) 15) as [Hz|Hbr]; [by eauto|]).
  all: match goal with |- context [zget bitrate_table ?r] =>
      destruct (bitrate_lookup (if header_lsf p then 3 + (4 - field p 13 2) / 2 else 4 - field p 13 2 - 1) (field p 16 4))
        as (rates & rate & Hrow & Hrate & _);
      [rewrite Hlsf; lia|pose proof (field_range p 16 4); change (2 ^ Z.of_nat 4) with 16 in *; lia|];
      rewrite Hlsf in Hrow;
      match type of Hlsf with
      | _ = true => change r with (3 + Z.shiftr (4 - field p 13 2) 1); rewrite Z.shiftr_div_pow2 by lia; change (2 ^ 1) with 2
      | _ = false => change r with (4 - field p 13 2 - 1)
      end; rewrite Hrow; cbn [res_opt res_bind]; rewrite Hrate; cbn [res_opt res_bind]
    end.
  all: read_field 22; change (Z.to_nat 2) with 2%nat; (destruct (Z.eqb_spec (field p 20 2) 3) as [Hz|Hsr]; [by eauto|]);
    (destruct (samplerate_lookup (field p 20 2)) as (srate & Hsrate & _);
      [pose proof (field_range p 20 2); change (2 ^ Z.of_nat 2) with 4 in *; lia|]);
    rewrite Hsrate; cbn [res_opt res_bind];
    read_field 23; read_field 24; read_field 26; read_field 28; read_field 29; read_field 30; read_field 32.
  all: change (Z.to_nat 1) with 1%nat; change (Z.to_nat 2) with 2%nat; change (Z.to_nat 16) with 16%nat.
  all: exists rate, (if header_lsf p then if header_mpeg25 p then srate / 2 / 2 else srate / 2 else srate).
  all: unfold header_bitrate, header_samplerate, header_at, header_flags; rewrite Hprot, Hlsf, Hm, Hsrate; cbn [mbind option_bind].
  all: rewrite Hrow; cbn [mbind option_bind]; rewrite Hrate.
  all: destruct (field p 22 1 =? 0), (field p 23 1 =? 0), (field p 28 1 =? 0), (field p 29 1 =? 0); cbn [negb].
  all: match goal with |- context [has_flag MAD_FLAG_PROTECTION ?h] =>
    match type of Hprot with _ = ?b => change (has_flag MAD_FLAG_PROTECTION h) with b end end; cbn iota.
  all: first [read_field 48; change (Z.to_nat 16) with 16%nat|cbn [res_bind]].
  all: eexists; split; [reflexivity|split; [reflexivity|split; [reflexivity|]]].
  all: first [replace (8 * (p + 6)) with (8 * p + 48) by lia; assumption|replace (8 * (p + 4)) with (8 * p + 32) by lia; assumption].
Qed.

(** ** What a header that was read guarantees *)

(** The free bit rate that a buffer of at most [MAX_STREAM] bytes can show. *)
Definition MAX_STREAM : Z := 16384.
Definition MAX_FREERATE : Z := 16388000.

Definition header_ok (h : header_t) : Prop :=
  1 <= hd_layer h <= 3 /\ In (hd_samplerate h) set_denoms /\ 8000 <= hd_samplerate h <= 48000 /\
  (lsf h = true -> hd_samplerate h <= 24000).
Definition rate_ok (b : Z) : Prop := 8000 <= b <= MAX_FREERATE.

Lemma lsf_header_at p b r h : lsf (header_at p b r h) = header_lsf p.
Proof.
  unfold lsf, has_flag, header_at, header_flags. cbn [hd_flags].
  by destruct (header_mpeg25 p), (header_lsf p), (header_protected p), (field p 22 1 =? 0), (field p 28 1 =? 0), (field p 29 1 =? 0).
Qed.

Lemma header_at_ok p b r h : header_error p = None -> header_bitrate p = Some b -> header_samplerate p = Some r ->
  header_ok (header_at p b r h) /\ (b = 0 \/ rate_ok b).
Proof.
  unfold header_error. intros He Hb Hr.
  pose proof (field_range p 13 2) as Hlay. change (2 ^ Z.of_nat 2) with 4 in Hlay.
  pose proof (field_range p 16 4) as Hbr. change (2 ^ Z.of_nat 4) with 16 in Hbr.
  pose proof (field_range p 20 2) as Hsr. change (2 ^ Z.of_nat 2) with 4 in Hsr.
  destruct (header_mpeg25 p && negb (header_lsf p)) eqn:Hv; [done|].
  destruct (Z.eqb_spec (field p 13 2) 0); [done|]. destruct (Z.eqb_spec (field p 16 4) 15); [done|].
  destruct (Z.eqb_spec (field p 20 2) 3); [done|].
  split.
  - unfold header_ok. rewrite lsf_header_at. cbn [header_at hd_layer hd_samplerate]. split; [lia|].
    unfold header_samplerate in Hr. destruct (samplerate_lookup (field p 20 2)) as (sr & Hsr' & Hin); [lia|].
    rewrite Hsr' in Hr. cbn [mbind option_bind] in Hr. apply (inj Some) in Hr. subst r.
    destruct (header_lsf p); [destruct (header_mpeg25 p)|destruct (header_mpeg25 p); [done|]];
      destruct Hin as [<-|[<-|[<-|[]]]]; cbn; split_and!; try lia; tauto.
  - unfold header_bitrate in Hb.
    destruct (bitrate_lookup (if header_lsf p then 3 + (4 - field p 13 2) / 2 else 4 - field p 13 2 - 1) (field p 16 4))
      as (rates & rate & Hrow & Hrate & Hok); [destruct (header_lsf p); lia|lia|].
    rewrite Hrow in Hb. cbn [mbind option_bind] in Hb. rewrite Hrate in Hb. apply (inj Some) in Hb. subst b.
    unfold rate_ok, MAX_FREERATE. lia.
Qed.

(** Every header the decoder reads is good or reports an error it can recover from. *)
Lemma decode_header_good h s p : at_bit (st_ptr s) (8 * p) -> 0 <= p -> p + 6 <= zlen buf ->
  (exists h' bp e, decode_header buf h s = Done (-1, h', set_error e (set_ptr bp s)) /\ MAD_RECOVERABLE e = true) \/
  (exists h' bp k, decode_header buf h s = Done (0, h', set_ptr bp s) /\ header_ok h' /\
     (hd_bitrate h' = 0 \/ rate_ok (hd_bitrate h')) /\ at_bit bp (8 * k) /\ p + 4 <= k <= p + 6).
Proof.
  intros Hp H0 Hl. pose proof (decode_header_run h s p Hp H0 Hl) as Hd.
  destruct (header_error p) as [e|] eqn:He.
  - left. destruct Hd as (h' & bp & Hd). exists h', bp, e. split; [done|]. unfold header_error in He.
    repeat (match type of He with (if ?b then _ else _) = _ => destruct b; [apply (inj Some) in He; by subst e|] end). done.
  - right. destruct Hd as (br & sr & bp & Hb & Hs & Hd & Hat).
    destruct (header_at_ok p br sr h He Hb Hs). exists (header_at p br sr h), bp, (p + if header_protected p then 6 else 4).
    split_and!; try done; destruct (header_protected p); lia.
Qed.

(** The length of a frame is positive and computed without overflow. *)
Lemma frame_length_bounds h : header_ok h -> rate_ok (hd_bitrate h) -> 8 <= frame_length h <= 300000.
Proof.
  intros (Hlay & _ & Hsr & Hlsf) Hb. unfold rate_ok, MAX_FREERATE in Hb. unfold frame_length, slots_per_frame, MAD_LAYER_I, MAD_LAYER_III.
  assert (Hpad : 0 <= pad_slot h <= 1) by (unfold pad_slot; destruct (has_flag _ h); lia).
  assert (Hq : forall k, 0 < k -> k <= 144 -> ulong (k * hd_bitrate h) / hd_samplerate h = k * hd_bitrate h / hd_samplerate h)
    by (intros k ? ?; rewrite ulong_small; [done|]; assert (0 <= k * hd_bitrate h <= 144 * 16388000) by nia; lia).
  assert (Hup : forall k, 0 < k -> k <= 144 -> k * hd_bitrate h / hd_samplerate h <= 294984)
    by (intros k ? ?; apply Z.div_le_upper_bound; [lia|]; assert (k * hd_bitrate h <= 144 * 16388000) by nia; lia).
  assert (Hlo : forall k m, 0 < k -> m * hd_samplerate h <= k * 8000 -> m <= k * hd_bitrate h / hd_samplerate h)
    by (intros k m ? ?; apply Z.div_le_lower_bound; [lia|]; assert (k * 8000 <= k * hd_bitrate h) by nia; lia).
  destruct (hd_layer h =? 1).
  - rewrite Hq by lia. pose proof (Hlo 12 2 ltac:(lia) ltac:(lia)).
    assert (12 * hd_bitrate h / hd_samplerate h <= 24582) by (apply Z.div_le_upper_bound; lia). wraps. rewrite Z.mod_small; lia.
  - destruct ((hd_layer h =? 3) && lsf h) eqn:E.
    + rewrite Hq by lia. apply andb_true_iff in E as [_ E]. specialize (Hlsf E).
      pose proof (Hlo 72 8 ltac:(lia) ltac:(lia)). pose proof (Hup 72 ltac:(lia) ltac:(lia)). wraps. rewrite Z.mod_small; lia.
    + rewrite Hq by lia. pose proof (Hlo 144 8 ltac:(lia) ltac:(lia)). pose proof (Hup 144 ltac:(lia) ltac:(lia)).
      wraps. rewrite Z.mod_small; lia.
Qed.

(** ** The free bit rate *)

Lemma rate_of_bounds h N : header_ok h -> 4 <= N <= MAX_STREAM -> 0 <= rate_of h N <= 16388.
Proof.
  intros (_ & _ & Hsr & Hlsf) HN. unfold MAX_STREAM in HN. unfold rate_of, slots_per_frame.
  assert (Hpad : 0 <= pad_slot h <= 1) by (unfold pad_slot; destruct (has_flag _ h); lia).
  assert (Hd : forall x k, 0 < k -> 0 <= x -> x <= 16388 * k * 1000 -> 0 <= x / k / 1000 <= 16388).
  { intros x k Hk Hx Hm. split; [apply Z.div_pos; [apply Z.div_pos; lia|lia]|].
    apply Z.div_le_upper_bound; [lia|]. apply Z.div_le_upper_bound; lia. }
  destruct (hd_layer h =? MAD_LAYER_I).
  - replace (u32 (N - 4 * pad_slot h + 4)) with (N - 4 * pad_slot h + 4) by (wraps; lia).
    assert (0 <= hd_samplerate h * (N - 4 * pad_slot h + 4) <= 48000 * 16388) by nia.
    rewrite ulong_small by lia. apply Hd; lia.
  - replace (u32 (N - pad_slot h + 1)) with (N - pad_slot h + 1) by (wraps; lia).
    assert (0 <= hd_samplerate h * (N - pad_slot h + 1) <= 48000 * 16385) by nia.
    rewrite ulong_small by lia. destruct (_ && _); apply Hd; lia.
Qed.

(** The search for the next header of the same kind ends: every round starts behind the
    sync word of the last one. *)
Lemma free_loop_spec fuel : forall h s rate e t q,
  header_ok h -> st_bufend s = Some e -> e <= zlen buf -> e <= MAX_STREAM -> st_this_frame s = Some t -> 0 <= t ->
  at_bit (st_ptr s) (8 * q) -> t + 4 <= q -> e - q < Z.of_nat fuel -> (0 < fuel)%nat -> 0 <= rate <= 16388 ->
  exists rate', free_loop buf fuel h s rate = Done rate' /\ 0 <= rate' <= 16388.
Proof.
  induction fuel as [|fuel IH]; intros h s rate e t q Hh He Hl Hmax Ht H0 Hq Htq Hf Hpos Hr; [lia|].
  cbn [free_loop]. pose proof (nextbyte_at _ _ Hq) as Hnb.
  destruct (mad_stream_sync_spec buf s e He Hl) as (x & Hx & _ & Hs); [lia|]. rewrite Hnb in *. unfold MAD_BUFFER_GUARD in Hs.
  destruct Hs as [[-> _]|(-> & Hxe & _)]; cbn [res_opt res_bind]; [by eauto|]. change (negb (0 =? 0)) with false. cbn iota.
  set (s1 := set_ptr (mad_bit_init x) s). assert (Hp1 : at_bit (st_ptr s1) (8 * x)) by (apply at_bit_init; lia).
  assert (Hnb1 : mad_bit_nextbyte (st_ptr s1) = x) by (by apply nextbyte_at).
  assert (Hdec : exists r h', exists s', decode_header buf h s1 = Done (r, h', s')).
  { destruct (decode_header_good h s1 x Hp1) as [(h' & bp & e' & -> & _)|(h' & bp & k & -> & _)]; [lia|lia|eauto|eauto]. }
  destruct Hdec as (r & h' & s' & ->). cbn [res_bind]. change (st_this_frame s1) with (st_this_frame s). rewrite Ht. cbn [res_opt res_bind].
  rewrite Hnb1. replace (u32 (x - t)) with (x - t) by (unfold MAX_STREAM in Hmax; wraps; lia).
  pose proof (rate_of_bounds h (x - t) Hh ltac:(lia)) as Hro.
  destruct (bit_skip_at (st_ptr s1) (8 * x) 8 Hp1) as (bp & -> & Hbp); [lia|lia|]. cbn [res_opt res_bind].
  assert (Hgo : forall rate1, 0 <= rate1 <= 16388 -> exists rate', free_loop buf fuel h (set_ptr bp s1) rate1 = Done rate' /\ 0 <= rate' <= 16388).
  { intros rate1 Hr1. apply (IH _ _ _ e t (x + 1)); try done; [|lia|lia|lia]. by replace (8 * (x + 1)) with (8 * x + 8) by lia. }
  match goal with |- context [if ?b then rate_of _ _ else _] => destruct b end; cbn [andb]; [|by apply Hgo].
  destruct (_ >=? 8); [by eauto|by apply Hgo].
Qed.

Lemma free_bitrate_spec h s e t q :
  header_ok h -> st_bufend s = Some e -> e <= zlen buf -> e <= MAX_STREAM -> st_this_frame s = Some t -> 0 <= t ->
  at_bit (st_ptr s) (8 * q) -> t + 4 <= q ->
  free_bitrate buf s h = Done (-1, set_error MAD_ERROR_LOSTSYNC s) \/
  (exists f, free_bitrate buf s h = Done (0, set_freerate f s) /\ rate_ok f).
Proof.
  intros Hh He Hl Hmax Ht H0 Hq Htq. unfold free_bitrate.
  destruct (free_loop_spec (S (length buf)) h s 0 e t q) as (rate & -> & Hr); try done; [unfold zlen in Hl; lia|lia|].
  cbn [res_bind]. destruct (_ || _) eqn:Ho; [by left|right]. apply orb_false_iff in Ho as [Ho _].
  exists (ulong (rate * 1000)). rewrite ulong_small by lia. split; [done|]. unfold rate_ok, MAX_FREERATE. lia.
Qed.

(** ** Looking for a header *)

Definition free_ok (f : Z) : Prop := f = 0 \/ rate_ok f.

(** Two streams at the same place in the same buffer. *)
Definition same_place (s s' : stream_t) : Prop :=
  st_bufend s' = st_bufend s /\ st_skiplen s' = st_skiplen s /\ st_sync s' = st_sync s /\
  st_this_frame s' = st_this_frame s /\ st_next_frame s' = st_next_frame s.

Lemma mad_timer_set_done n d : In d set_denoms -> 0 <= n -> exists t, mad_timer_set 0 n d = Done t.
Proof. intros Hd Hn. rewrite mad_timer_set_of by done. eauto. Qed.

Lemma header_ok_or b f h : header_ok h -> Z.land f MAD_FLAG_LSF_EXT = 0 -> header_ok (or_flag b f h).
Proof.
  intros (? & ? & ? & Hlsf) Hf. unfold or_flag. destruct b; [|done]. unfold header_ok, lsf, has_flag in *. cbn.
  split_and!; try done; try lia. rewrite Z.land_lor_distr_l, Hf, Z.lor_0_r. done.
Qed.

Lemma read_header_spec h s e p :
  st_bufend s = Some e -> e <= zlen buf -> e <= MAX_STREAM -> st_this_frame s = Some p -> 0 <= p -> p + 8 <= e ->
  at_bit (st_ptr s) (8 * p) -> free_ok (st_freerate s) ->
  exists r h' s', read_header buf h s = Done (r, h', s') /\ same_place s s' /\ free_ok (st_freerate s') /\
    ((r = -1 /\ MAD_RECOVERABLE (st_error s') = true) \/ (r = 0 /\ header_ok h' /\ rate_ok (hd_bitrate h'))).
Proof.
  intros He Hl Hmax Ht H0 Hpe Hat Hfr. unfold read_header.
  destruct (decode_header_good h s p Hat H0 ltac:(lia)) as [(h' & bp & er & -> & Hrec)|(h' & bp & k & -> & Hok & Hbr & Hk & Hpk)];
    cbn [res_bind].
  { change (-1 =? -1) with true. cbn iota. eexists _, _, _. split; [done|]. split; [done|]. split; [done|]. by left. }
  change (0 =? -1) with false. cbn iota.
  destruct (mad_timer_set_done (32 * MAD_NSBSAMPLES h') (hd_samplerate h')) as [t ->]; [apply Hok|unfold MAD_NSBSAMPLES; repeat case_match; lia|].
  cbn [res_bind]. set (h1 := set_duration t h'). assert (Hok1 : header_ok h1) by exact Hok.
  change (hd_bitrate h1) with (hd_bitrate h'). destruct (Z.eqb_spec (hd_bitrate h') 0) as [Hz|Hnz].
  2: { eexists _, _, _. split; [done|]. split; [done|]. split; [done|]. right. split; [done|]. split; [done|]. by destruct Hbr. }
  assert (Hfree : forall s1, same_place s s1 -> rate_ok (st_freerate s1) -> exists r h2 s2,
     Done (0, or_flag true MAD_FLAG_FREEFORMAT (set_bitrate (st_freerate s1) h1), s1) = Done (r, h2, s2) /\ same_place s s2 /\
     free_ok (st_freerate s2) /\ ((r = -1 /\ MAD_RECOVERABLE (st_error s2) = true) \/ (r = 0 /\ header_ok h2 /\ rate_ok (hd_bitrate h2)))).
  { intros s1 Hs1 Hr1. eexists _, _, _. split; [done|]. split; [done|]. split; [by right|]. right. split; [done|].
    split; [|exact Hr1]. by apply header_ok_or. }
  destruct (_ || _) eqn:Ho.
  - destruct (free_bitrate_spec h1 (set_ptr bp s) e p k) as [->|(f & -> & Hf)]; try done; [lia| |]; cbn [res_bind].
    + change (-1 =? -1) with true. cbn iota. eexists _, _, _. split; [done|]. split; [done|]. split; [done|]. by left.
    + change (0 =? -1) with false. cbn iota. by apply Hfree.
  - cbn [res_bind]. change (0 =? -1) with false. cbn iota. apply Hfree; [done|]. cbn.
    destruct Hfr as [Hfr|Hfr]; [|done]. cbn in Ho. rewrite Hfr in Ho. done.
Qed.

(** [find_frame] gives a place with a sync word and enough data behind it. *)
Lemma find_frame_spec s e ptr n :
  st_bufend s = Some e -> e <= zlen buf -> 0 <= ptr <= e -> st_next_frame s = Some n -> 0 <= n <= e ->
  exists s' found, find_frame buf s ptr e = Done (s', found) /\ st_bufend s' = Some e /\
    st_skiplen s' = st_skiplen s /\ st_freerate s' = st_freerate s /\ st_sync s' = st_sync s /\
    match found with
    | Some q => ptr <= q /\ q + 8 <= e /\ sync_at buf q = true
    | None =>
        (st_error s' = MAD_ERROR_BUFLEN /\ exists n', st_next_frame s' = Some n' /\ 0 <= n' <= e) \/
        (st_error s' = MAD_ERROR_LOSTSYNC /\ st_this_frame s' = Some ptr /\ st_next_frame s' = Some (ptr + 1) /\ ptr + 8 <= e)
    end.
Proof.
  intros He Hl Hp Hn Hne. unfold find_frame, MAD_BUFFER_GUARD. destruct (Z.eqb_spec (st_sync s) 0) as [Hs|Hs]; cbn [negb].
  - set (s1 := set_ptr (mad_bit_init ptr) s).
    assert (Hnb : mad_bit_nextbyte (st_ptr s1) = ptr) by (apply nextbyte_at, at_bit_init; lia).
    destruct (mad_stream_sync_spec buf s1 e He Hl) as (q & Hq & _ & Hr); [lia|]. rewrite Hnb in Hq. unfold MAD_BUFFER_GUARD in Hr.
    destruct Hr as [[-> _]|(-> & Hqe & Hsy)]; cbn [res_opt res_bind].
    + change (-1 =? -1) with true. cbn iota. change (st_next_frame s1) with (st_next_frame s). rewrite Hn. cbn [res_opt res_bind].
      destruct (Z.geb_spec (e - n) 8); eexists _, _; (split; [done|]); (split_and!; [done..|]); left; (split; [done|]); eexists; (split; [done|]); lia.
    + change (0 =? -1) with false. cbn iota. eexists _, _. split; [done|]. split_and!; [done..| | |];
        (rewrite (nextbyte_at _ q) by (apply at_bit_init; lia)); [lia|lia|done].
  - destruct (Z.ltb_spec (e - ptr) 8).
    + eexists _, _. split; [done|]. split_and!; [done..|]. left. split; [done|]. exists ptr. split; [done|lia].
    + rewrite is_sync_at by lia. cbn [res_opt res_bind]. destruct (sync_at buf ptr) eqn:Hsy; eexists _, _; (split; [done|]).
      * split_and!; done || lia.
      * split_and!; [done..|]. right. split_and!; done || lia.
Qed.

(** What looking for a header from [ptr] on gives: a header with a frame that is in the
    buffer with the guard bytes behind it; or an error, which says where to go on. *)
Definition header_result (ptr e : Z) (r : Z) (h : header_t) (s : stream_t) : Prop :=
  st_bufend s = Some e /\ free_ok (st_freerate s) /\
  ((r = 0 /\ st_sync s = 1 /\ has_flag MAD_FLAG_INCOMPLETE h = true /\ header_ok h /\
    exists t N, st_this_frame s = Some t /\ st_next_frame s = Some (t + N) /\ ptr <= t /\ 8 <= N /\
      t + N + MAD_BUFFER_GUARD <= e /\ sync_at buf t = true) \/
   (r = -1 /\ st_sync s = 0 /\ st_error s = MAD_ERROR_BUFLEN /\ exists n, st_next_frame s = Some n /\ 0 <= n <= e) \/
   (r = -1 /\ st_sync s = 0 /\ MAD_RECOVERABLE (st_error s) = true /\
    exists t, st_this_frame s = Some t /\ st_next_frame s = Some (t + 1) /\ ptr <= t /\ t + MAD_BUFFER_GUARD <= e)).

Lemma has_flag_or f h : f <> 0 -> has_flag f (or_flag true f h) = true.
Proof.
  intros Hf. unfold has_flag, or_flag. cbn [set_flags hd_flags].
  rewrite Z.lor_comm, Z.land_comm.
  replace (Z.land f (Z.lor f (hd_flags h))) with f.
  2: { apply Z.bits_inj'. intros i Hi. rewrite Z.land_spec, Z.lor_spec. by destruct (Z.testbit f i). }
  by destruct (Z.eqb_spec f 0).
Qed.

Lemma header_result_le ptr ptr' e r h s : ptr <= ptr' -> header_result ptr' e r h s -> header_result ptr e r h s.
Proof.
  intros Hle (? & ? & [(? & ? & ? & ? & t & N & ? & ? & ? & ? & ? & ?)|[?|(? & ? & ? & t & ? & ? & ? & ?)]]);
    (split; [done|]); (split; [done|]).
  - left. split_and!; try done. exists t, N. split_and!; try done. lia.
  - by right; left.
  - right; right. split_and!; try done. exists t. split_and!; try done. lia.
Qed.

Lemma header_loop_spec fuel : forall h s ptr e n,
  st_bufend s = Some e -> e <= zlen buf -> e <= MAX_STREAM -> 0 <= ptr <= e -> st_next_frame s = Some n -> 0 <= n <= e ->
  free_ok (st_freerate s) -> e - ptr < Z.of_nat fuel ->
  exists r h' s', header_loop buf fuel h s ptr e = Done (r, h', s') /\ st_skiplen s' = st_skiplen s /\ header_result ptr e r h' s'.
Proof.
  induction fuel as [|fuel IH]; intros h s ptr e n He Hl Hmax Hp Hn Hne Hfr Hf; [lia|]. cbn [header_loop].
  destruct (find_frame_spec s e ptr n He Hl Hp Hn Hne) as (s1 & found & -> & He1 & Hk1 & Hf1 & Hs1 & Hr1). cbn [res_bind].
  destruct found as [q|].
  2: { eexists _, _, _. split; [done|]. split; [done|]. split; [done|]. split; [by rewrite <- Hf1 in Hfr|]. right.
       destruct Hr1 as [(-> & n' & ? & ?)|(-> & ? & ? & ?)]; [left|right]; split_and!; try done; eauto.
       exists ptr. split_and!; done || lia. }
  destruct Hr1 as (Hq & Hqe & Hsy).
  set (s2 := set_ptr (mad_bit_init q) (set_next_frame (Some (q + 1)) (set_this_frame (Some q) s1))).
  destruct (read_header_spec h s2 e q) as (r & h' & s3 & -> & (He3 & Hk3 & Hs3 & Ht3 & Hn3) & Hf3 & Hr3); try done;
    [lia|apply at_bit_init; lia|by rewrite <- Hf1 in Hfr|]. cbn [res_bind].
  destruct Hr3 as [(-> & Hrec)|(-> & Hok & Hbr)].
  { change (-1 =? -1) with true. cbn iota. eexists _, _, _. split; [done|]. split; [exact (eq_trans Hk3 Hk1)|].
    split; [exact (eq_trans He3 He1)|]. split; [exact Hf3|]. right; right. split_and!; try done. exists q. split_and!; done || lia. }
  change (0 =? -1) with false. cbn iota. pose proof (frame_length_bounds h' Hok Hbr) as HN.
  set (N := frame_length h') in *. unfold MAD_BUFFER_GUARD at 1. replace (u32 (N + 8)) with (N + 8) by (wraps; lia).
  destruct (Z.gtb_spec (N + 8) (e - q)) as [Hbig|Hfit].
  { eexists _, _, _. split; [done|]. split; [exact (eq_trans Hk3 Hk1)|]. split; [exact (eq_trans He3 He1)|]. split; [exact Hf3|].
    right; left. split_and!; try done. exists q. split; [done|lia]. }
  assert (Hgood : exists r h2 s', Done (0, or_flag true MAD_FLAG_INCOMPLETE h', set_sync 1 (set_next_frame (Some (q + N)) s3)) = Done (r, h2, s') /\
     st_skiplen s' = st_skiplen s /\ header_result ptr e r h2 s').
  { eexists _, _, _. split; [done|]. split; [exact (eq_trans Hk3 Hk1)|]. split; [exact (eq_trans He3 He1)|]. split; [exact Hf3|].
    left. split_and!; try done; [by apply has_flag_or|by apply header_ok_or|]. exists q, N. unfold MAD_BUFFER_GUARD.
    split_and!; try done; lia. }
  change (st_sync (set_next_frame (Some (q + N)) s3)) with (st_sync s3).
  destruct (Z.eqb_spec (st_sync s3) 0) as [Hz|Hnz]; [|by apply Hgood].
  rewrite is_sync_at by lia. cbn [res_opt res_bind]. destruct (sync_at buf (q + N)); cbn [negb]; [by apply Hgood|].
  destruct (IH h' (set_next_frame (Some (q + 1)) (set_next_frame (Some (q + N)) s3)) (q + 1) e (q + 1)) as (r & h4 & s4 & -> & Hk4 & Hr4);
    try done; [exact (eq_trans He3 He1)|lia|lia|lia|].
  eexists _, _, _. split; [done|]. split; [exact (eq_trans Hk4 (eq_trans Hk3 Hk1))|]. eapply header_result_le; [|done]. lia.
Qed.

(** A stream between two calls. *)
Definition stream_ok (s : stream_t) (e t n : Z) : Prop :=
  st_bufend s = Some e /\ e <= MAX_STREAM /\ st_this_frame s = Some t /\ 0 <= t <= e /\
  st_next_frame s = Some n /\ 0 <= n <= e /\ (st_sync s = 0 -> n <= t + 1) /\
  0 <= st_skiplen s /\ free_ok (st_freerate s).

Lemma mad_header_decode_result h s e t n : stream_ok s e t n -> e <= zlen buf ->
  exists r h' s', mad_header_decode buf h s = Done (r, h', s') /\ 0 <= st_skiplen s' /\ header_result n e r h' s'.
Proof.
  intros (He & Hmax & Ht & Hte & Hn & Hne & Hsync & Hk & Hfr) Hl. unfold mad_header_decode. rewrite Hn, He. cbn [res_opt res_bind].
  destruct (Z.eqb_spec (st_skiplen s) 0) as [Hz|Hnz]; cbn [negb].
  - destruct (header_loop_spec (S (length buf)) h s n e n) as (r & h' & s' & -> & Hk' & Hr); try done; [unfold zlen in *; lia|].
    exists r, h', s'. split_and!; [done|lia|done].
  - assert (Hstart : exists p, (if st_sync s =? 0 then res_opt (st_this_frame s) else Done n) = Done p /\ 0 <= p <= e /\ n <= p + 1).
    { destruct (Z.eqb_spec (st_sync s) 0); [rewrite Ht; exists t|exists n]; split_and!; try done; lia. }
    destruct Hstart as (p & -> & Hpe & Hnp). cbn [res_bind].
    rewrite ulong_small by (unfold MAX_STREAM in Hmax; lia). destruct (Z.ltb_spec (e - p) (st_skiplen s)) as [Hlt|Hge].
    + eexists _, _, _. split; [done|]. cbn. split; [unfold ulong; destruct long64; wraps; lia|].
      split; [done|]. split; [done|]. right; left. split_and!; try done. exists e. split; [done|lia].
    + destruct (header_loop_spec (S (length buf)) h (set_sync 1 (set_skiplen 0 s)) (p + st_skiplen s) e n) as (r & h' & s' & -> & Hk' & Hr);
        try done; [lia|unfold zlen in *; lia|].
      exists r, h', s'. split; [done|]. split; [by rewrite Hk'|]. eapply header_result_le; [|done]. lia.
Qed.
End Fields.
