(* ===== verification/MadFixed.v ===== *)
(** * libs/libmad-0.15.1b/fixed.h and fixed.c: fixed-point numbers

    A [mad_fixed_t] has 28 fractional bits.  The Makefile selects FPM_ARM for the board
    and FPM_DEFAULT for the null host, and does not define SIZEOF_INT, so that the type is
    [signed long] inside the library. *)

From S2P Require Import Prelude.

(** Which FPM_ macro is defined. *)
Class Fpm := { fpm_arm : bool }.

Definition MAD_F_FRACBITS : Z := 28.
Definition MAD_F_SCALEBITS : Z := MAD_F_FRACBITS.
Definition MAD_F_ONE : Z := 268435456.

(** Signed arithmetic that overflows is undefined. *)
Definition fits `{Target} (x : Z) : option Z := if slong x =? x then Some x else None.

(** FPM_ARM: [smull] leaves the product in two registers, [movs] shifts the lower one and
    leaves the last bit shifted out in the carry, [adc] adds the upper one and the carry. *)
Definition mul_arm (x y : Z) : Z :=
  let lo := u32 (x * y) in
  let hi := Z.shiftr (x * y) 32 in
  let carry := Z.b2z (Z.testbit lo (MAD_F_SCALEBITS - 1)) in
  s32 (Z.shiftr lo MAD_F_SCALEBITS + Z.shiftl hi (32 - MAD_F_SCALEBITS) + carry).

(** FPM_DEFAULT *)
Definition mul_default `{Target} (x y : Z) : option Z :=
  match fits (x + Z.shiftl 1 11), fits (y + Z.shiftl 1 15) with
  | Some a, Some b => fits (Z.shiftr a 12 * Z.shiftr b 16)
  | _, _ => None
  end.

Definition mad_f_mul `{Target} `{Fpm} (x y : Z) : option Z :=
  if fpm_arm then Some (mul_arm x y) else mul_default x y.

(** ** What they compute *)

(** A number of the type whose magnitude is below [b]. *)
Definition below (b x : Z) : Prop := - b < x < b.

Lemma fits_32 `{Target} x : - 2147483648 <= x < 2147483648 -> fits x = Some x.
Proof.
  intros Hx. unfold fits, slong. destruct long64; [|unfold s32]; rewrite Z.mod_small by lia; by rewrite Z.add_simpl_r, Z.eqb_refl.
Qed.

(** [mul_arm] rounds the product to the nearest number, ties upwards. *)
Lemma mul_arm_rounds x y : mul_arm x y = s32 ((x * y + 134217728) / MAD_F_ONE).
Proof.
  unfold mul_arm, MAD_F_SCALEBITS, MAD_F_FRACBITS, MAD_F_ONE, u32. set (p := x * y). f_equal.
  rewrite !Z.shiftr_div_pow2, Z.shiftl_mul_pow2, Z.testbit_spec' by lia.
  change (2 ^ 32) with 4294967296. change (2 ^ 28) with 268435456. change (2 ^ (32 - 28)) with 16. change (2 ^ (28 - 1)) with 134217728.
  set (lo := p mod 4294967296). assert (Hp : p = 4294967296 * (p / 4294967296) + lo) by (apply Z.div_mod; lia).
  assert (Hlo : 0 <= lo < 4294967296) by (apply Z.mod_pos_bound; lia). set (q := p / 4294967296) in *. clearbody q lo. lia.
Qed.

Lemma s32_small x : - 2147483648 <= x < 2147483648 -> s32 x = x.
Proof. intros Hx. unfold s32. rewrite Z.mod_small; lia. Qed.

(** The error of [mad_f_mul] on the board is at most half a unit. *)
Lemma mul_arm_error x y : - 576460752303423488 <= x * y < 576460752169205760 ->
  Z.abs (MAD_F_ONE * mul_arm x y - x * y) <= 134217728.
Proof. intros Hp. rewrite mul_arm_rounds, s32_small; unfold MAD_F_ONE; lia. Qed.
