(* ===== verification/MadLayer12.v ===== *)
(** * libs/libmad-0.15.1b/layer12.c: the decoders of Layer I and Layer II

    The local arrays hold [None] until they are written; reading such a cell, like an index
    out of range, is undefined.  OPT_STRICT is not defined. *)

From S2P Require Import Prelude MadBit MadTimer MadStream MadFrame MadFixed.

Definition MAD_MODE_JOINT_STEREO : Z := 2.
Definition MAD_FLAG_I_STEREO : Z := 256.
Definition MAD_OPTION_IGNORECRC : Z := 1.
Definition MAD_ERROR_BADBITALLOC : Z := 529.
Definition MAD_ERROR_BADMODE : Z := 546.
Definition MAD_NCHANNELS (h : header_t) : Z := if hd_mode h =? 0 then 1 else 2.

Definition sf_table : list Z := [
  536870912; 426114725; 338207482; 268435456; 213057363; 169103741; 134217728; 106528681;
  84551870; 67108864; 53264341; 42275935; 33554432; 26632170; 21137968; 16777216;
  13316085; 10568984; 8388608; 6658043; 5284492; 4194304; 3329021; 2642246;
  2097152; 1664511; 1321123; 1048576; 832255; 660561; 524288; 416128;
  330281; 262144; 208064; 165140; 131072; 104032; 82570; 65536;
  52016; 41285; 32768; 26008; 20643; 16384; 13004; 10321;
  8192; 6502; 5161; 4096; 3251; 2580; 2048; 1625;
  1290; 1024; 813; 645; 512; 406; 323; 0
].
Definition linear_table : list Z := [
  357913941; 306783378; 286331153; 277094664; 272696336; 270549121; 269488144;
  268960770; 268697856; 268566592; 268501008; 268468228; 268451841; 268443648
].

(** The number of subbands and the classes of their allocations. *)
Definition sbquant_table : list (Z * list Z) := [
  (27, [7; 7; 7; 6; 6; 6; 6; 6; 6; 6; 6; 3; 3; 3; 3; 3; 3; 3; 3; 3; 3; 3; 3; 0; 0; 0; 0; 0; 0; 0]);
  (30, [7; 7; 7; 6; 6; 6; 6; 6; 6; 6; 6; 3; 3; 3; 3; 3; 3; 3; 3; 3; 3; 3; 3; 0; 0; 0; 0; 0; 0; 0]);
  (8, [5; 5; 2; 2; 2; 2; 2; 2; 0; 0; 0; 0; 0; 0; 0; 0; 0; 0; 0; 0; 0; 0; 0; 0; 0; 0; 0; 0; 0; 0]);
  (12, [5; 5; 2; 2; 2; 2; 2; 2; 2; 2; 2; 2; 0; 0; 0; 0; 0; 0; 0; 0; 0; 0; 0; 0; 0; 0; 0; 0; 0; 0]);
  (30, [4; 4; 4; 4; 2; 2; 2; 2; 2; 2; 2; 1; 1; 1; 1; 1; 1; 1; 1; 1; 1; 1; 1; 1; 1; 1; 1; 1; 1; 1])
].
(** [nbal] and [offset] *)
Definition bitalloc_table : list (Z * Z) := [(2, 0); (2, 3); (3, 3); (3, 1); (4, 2); (4, 3); (4, 4); (4, 5)].
Definition offset_table : list (list Z) := [
  [0; 1; 16; 0; 0; 0; 0; 0; 0; 0; 0; 0; 0; 0; 0];
  [0; 1; 2; 3; 4; 5; 16; 0; 0; 0; 0; 0; 0; 0; 0];
  [0; 1; 2; 3; 4; 5; 6; 7; 8; 9; 10; 11; 12; 13; 14];
  [0; 1; 3; 4; 5; 6; 7; 8; 9; 10; 11; 12; 13; 14; 15];
  [0; 1; 2; 3; 4; 5; 6; 7; 8; 9; 10; 11; 12; 13; 16];
  [0; 2; 4; 5; 6; 7; 8; 9; 10; 11; 12; 13; 14; 15; 16]
].
Record quantclass : Type := QuantClass { qc_nlevels : Z; qc_group : Z; qc_bits : Z; qc_C : Z; qc_D : Z }.
Definition qc_table : list quantclass := [
  QuantClass 3 2 5 357913941 134217728;
  QuantClass 5 3 7 429496730 134217728;
  QuantClass 7 0 3 306783378 67108864;
  QuantClass 9 4 10 477218588 134217728;
  QuantClass 15 0 4 286331153 33554432;
  QuantClass 31 0 5 277094664 16777216;
  QuantClass 63 0 6 272696336 8388608;
  QuantClass 127 0 7 270549121 4194304;
  QuantClass 255 0 8 269488144 2097152;
  QuantClass 511 0 9 268960770 1048576;
  QuantClass 1023 0 10 268697856 524288;
  QuantClass 2047 0 11 268566592 262144;
  QuantClass 4095 0 12 268501008 131072;
  QuantClass 8191 0 13 268468228 65536;
  QuantClass 16383 0 14 268451841 32768;
  QuantClass 32767 0 15 268443648 16384;
  QuantClass 65535 0 16 268439552 8192
].

(** The local variables of a decoder and the samples of the frame. *)
Abbreviation cells := (list (option Z)).
Record lay_t : Type := Lay {
  ly_ptr : mad_bitptr;
  ly_alloc : cells;    (* allocation[2][32] *)
  ly_scfsi : cells;    (* scfsi[2][32] *)
  ly_scf : cells;      (* scalefactor[2][32] or scalefactor[2][32][3] *)
  ly_sb : list (list (list Z))  (* sbsample[2][36][32] *)
}.
Section Setters.
Implicit Types s : lay_t.
Definition set_ly_ptr x s := Lay x (ly_alloc s) (ly_scfsi s) (ly_scf s) (ly_sb s).
Definition set_ly_alloc x s := Lay (ly_ptr s) x (ly_scfsi s) (ly_scf s) (ly_sb s).
Definition set_ly_scfsi x s := Lay (ly_ptr s) (ly_alloc s) x (ly_scf s) (ly_sb s).
Definition set_ly_scf x s := Lay (ly_ptr s) (ly_alloc s) (ly_scfsi s) x (ly_sb s).
Definition set_ly_sb x s := Lay (ly_ptr s) (ly_alloc s) (ly_scfsi s) (ly_scf s) x.
End Setters.

Definition in_range (i n : Z) : bool := (0 <=? i) && (i <? n).

(** [a[ch][sb]] and [a[ch][sb][k]] *)
Definition at2 (ch sb : Z) : option Z := if in_range ch 2 && in_range sb 32 then Some (32 * ch + sb) else None.
Definition at3 (ch sb k : Z) : option Z :=
  if in_range ch 2 && in_range sb 32 && in_range k 3 then Some (96 * ch + 3 * sb + k) else None.

Definition cell_get (a : cells) (i : option Z) : option Z :=
  match i with
  | Some i => match zget a i with Some (Some v) => Some v | _ => None end
  | None => None
  end.
Definition cell_set (a : cells) (i : option Z) (v : Z) : option cells :=
  match i with Some i => zset a i (Some v) | None => None end.

(** [sbsample[ch][s][sb] = v] *)
Definition sample_set (a : list (list (list Z))) (ch s sb v : Z) : option (list (list (list Z))) :=
  match zget a ch with
  | None => None
  | Some b =>
      match zget b s with
      | None => None
      | Some c =>
          match zset c sb v with
          | None => None
          | Some c => match zset b s c with Some b => zset a ch b | None => None end
          end
      end
  end.

(** A loop with an early return. *)
Fixpoint for_ok {S} (lo : Z) (n : nat) (body : Z -> M S bool) : M S bool :=
  match n with
  | O => ret true
  | Datatypes.S n' =>
      let* ok := body lo in
      if ok : bool then for_ok (lo + 1) n' body else ret false
  end.

(** Invert the most significant of [nb] bits, extend the sign, scale.  The compilers the
    Makefile names shift negative numbers like any other. *)
Definition extend (v nb : Z) : Z :=
  let top := Z.shiftl 1 (nb - 1) in
  let x := Z.lxor v top in
  Z.lor x (- Z.land x top).
Definition to_fixed (v nb : Z) : Z := Z.shiftl (extend v nb) (MAD_F_FRACBITS - (nb - 1)).

Section Layers12.
Context `{T : Target} `{FP : Fpm} (buf : list Z).
Abbreviation ML := (M lay_t).

Definition upto (lo hi : Z) : nat := Z.to_nat (hi - lo).

Definition bits (n : Z) : ML Z :=
  let* s := get in
  let* x := lift (mad_bit_read buf (ly_ptr s) n) in
  modify (set_ly_ptr x.2) ;;
  ret x.1.

Definition get_alloc (ch sb : Z) : ML Z := let* s := get in lift (cell_get (ly_alloc s) (at2 ch sb)).
Definition set_alloc (ch sb v : Z) : ML unit :=
  let* s := get in let* a := lift (cell_set (ly_alloc s) (at2 ch sb) v) in modify (set_ly_alloc a).
Definition get_scfsi (ch sb : Z) : ML Z := let* s := get in lift (cell_get (ly_scfsi s) (at2 ch sb)).
Definition set_scfsi (ch sb v : Z) : ML unit :=
  let* s := get in let* a := lift (cell_set (ly_scfsi s) (at2 ch sb) v) in modify (set_ly_scfsi a).
Definition get_scf (i : option Z) : ML Z := let* s := get in lift (cell_get (ly_scf s) i).
Definition set_scf (i : option Z) (v : Z) : ML unit :=
  let* s := get in let* a := lift (cell_set (ly_scf s) i v) in modify (set_ly_scf a).
Definition set_sample (ch s sb v : Z) : ML unit :=
  let* x := get in let* a := lift (sample_set (ly_sb x) ch s sb v) in modify (set_ly_sb a).

Definition mul (x y : Z) : ML Z := lift (mad_f_mul x y).
Definition sf (i : Z) : ML Z := lift (zget sf_table i).

(** ** Layer I *)

Definition I_sample (nb : Z) : ML Z :=
  let* v := bits nb in
  let* sample := lift (fits (to_fixed v nb + Z.shiftr MAD_F_ONE (nb - 1))) in
  let* factor := lift (zget linear_table (nb - 2)) in
  mul sample factor.

(** One allocation; [false] for the forbidden value. *)
Definition I_alloc (store : Z -> ML unit) : ML bool :=
  let* nb := bits 4 in
  if nb =? 15 then ret false
  else store (if nb =? 0 then 0 else nb + 1) ;; ret true.

Definition I_allocations (nch bound : Z) : ML bool :=
  let* ok := for_ok 0 (Z.to_nat bound) (fun sb =>
    for_ok 0 (Z.to_nat nch) (fun ch => I_alloc (set_alloc ch sb))) in
  if ok : bool then
    for_ok bound (upto bound 32) (fun sb => I_alloc (fun nb => set_alloc 1 sb nb ;; set_alloc 0 sb nb))
  else ret false.

Definition I_scalefactors (nch : Z) : ML unit :=
  for_range 0 32 (fun sb =>
    for_range 0 (Z.to_nat nch) (fun ch =>
      let* nb := get_alloc ch sb in
      when (negb (nb =? 0)) (let* v := bits 6 in set_scf (at2 ch sb) v))).

(** A sample, scaled for the channel. *)
Definition I_store (s sb sample ch : Z) : ML unit :=
  let* i := get_scf (at2 ch sb) in
  let* f := sf i in
  let* v := mul sample f in
  set_sample ch s sb v.

Definition I_samples (nch bound s : Z) : ML unit :=
  for_range 0 (Z.to_nat bound) (fun sb =>
    for_range 0 (Z.to_nat nch) (fun ch =>
      let* nb := get_alloc ch sb in
      if negb (nb =? 0) then let* sample := I_sample nb in I_store s sb sample ch
      else set_sample ch s sb 0)) ;;
  for_range bound (upto bound 32) (fun sb =>
    let* nb := get_alloc 0 sb in
    if negb (nb =? 0) then
      let* sample := I_sample nb in
      for_range 0 (Z.to_nat nch) (I_store s sb sample)
    else for_range 0 (Z.to_nat nch) (fun ch => set_sample ch s sb 0)).

Definition I_data (nch bound : Z) : ML bool :=
  let* ok := I_allocations nch bound in
  if ok : bool then
    I_scalefactors nch ;;
    for_range 0 12 (I_samples nch bound) ;;
    ret true
  else ret false.

(** [bound], and the flag of intensity stereo. *)
Definition stereo_bound (header : header_t) : Z * header_t :=
  if hd_mode header =? MAD_MODE_JOINT_STEREO
  then (4 + hd_mode_extension header * 4, set_flags (Z.lor (hd_flags header) MAD_FLAG_I_STEREO) header)
  else (32, header).

(** The check of the CRC word over [len] bits at [bp]. *)
Definition crc_checked (bp : mad_bitptr) (len options : Z) (header : header_t) : res (bool * header_t) :=
  if has_flag MAD_FLAG_PROTECTION header then
    let! crc := res_opt (mad_bit_crc buf bp len (hd_crc_check header)) in
    let header := set_crc_check crc header in
    Done (negb (negb (hd_crc_check header =? hd_crc_target header) && (Z.land options MAD_OPTION_IGNORECRC =? 0)), header)
  else Done (true, header).

Definition lay_start (ptr : mad_bitptr) (scfs : nat) (sbsample : list (list (list Z))) : lay_t :=
  Lay ptr (repeat None 64) (repeat None 64) (repeat None scfs) sbsample.

(** What has been read and decoded, in the structures of the caller. *)
Definition lay_done (stream : stream_t) (frame : frame_t) (header : header_t) (s : lay_t) : stream_t * frame_t :=
  (set_ptr (ly_ptr s) stream, Frame header (fr_options frame) (ly_sb s) (fr_overlap frame)).

Definition mad_layer_I (stream : stream_t) (frame : frame_t) : res (Z * stream_t * frame_t) :=
  let header := fr_header frame in
  let nch := MAD_NCHANNELS header in
  let '(bound, header) := stereo_bound header in
  let! (ok, header) := crc_checked (st_ptr stream) (4 * (bound * nch + (32 - bound))) (fr_options frame) header in
  if negb ok then Done (-1, set_error MAD_ERROR_BADCRC stream, set_fr_header header frame)
  else
    let! (ok, s, _) := I_data nch bound (lay_start (st_ptr stream) 64 (fr_sbsample frame)) in
    let '(stream, frame) := lay_done stream frame header s in
    if ok : bool then Done (0, stream, frame)
    else Done (-1, set_error MAD_ERROR_BADBITALLOC stream, frame).

(** ** Layer II *)

(** The three samples of a code, by degrouping or one by one. *)
Definition II_codes (q : quantclass) : ML (Z * Z * Z) :=
  if negb (qc_group q =? 0) then
    let* c := bits (qc_bits q) in
    let n := qc_nlevels q in
    ret (c mod n, c / n mod n, c / n / n mod n)
  else
    let* a := bits (qc_bits q) in
    let* b := bits (qc_bits q) in
    let* c := bits (qc_bits q) in
    ret (a, b, c).

Definition II_requantize (q : quantclass) (sample : Z) : ML Z :=
  let nb := if negb (qc_group q =? 0) then qc_group q else qc_bits q in
  let* x := lift (fits (to_fixed sample nb + qc_D q)) in
  mul x (qc_C q).

Definition II_samples (q : quantclass) : ML (Z * Z * Z) :=
  let* (a, b, c) := II_codes q in
  let* x := II_requantize q a in
  let* y := II_requantize q b in
  let* z := II_requantize q c in
  ret (x, y, z).

(** The row of [sbquant_table]; [None] is the error of a bitrate that one channel may not
    have. *)
Definition II_index (nch : Z) (header : header_t) : option Z :=
  let freeformat := if hd_samplerate header =? 48000 then 0 else 1 in
  if has_flag MAD_FLAG_LSF_EXT header then Some 4
  else if has_flag MAD_FLAG_FREEFORMAT header then Some freeformat
  else
    let per_channel := if nch =? 2 then hd_bitrate header / 2 else hd_bitrate header in
    if negb (nch =? 2) && (per_channel >? 192000) then None
    else if per_channel <=? 48000 then Some (if hd_samplerate header =? 32000 then 3 else 2)
    else if per_channel <=? 80000 then Some 0
    else Some freeformat.

Section Table.
Context (offsets : list Z).

(** [bitalloc_table[offsets[sb]]] *)
Definition bitalloc (sb : Z) : ML (Z * Z) :=
  let* i := lift (zget offsets sb) in lift (zget bitalloc_table i).

Definition II_allocations (nch bound sblimit : Z) : ML unit :=
  for_range 0 (Z.to_nat bound) (fun sb =>
    let* (nbal, _) := bitalloc sb in
    for_range 0 (Z.to_nat nch) (fun ch => let* v := bits nbal in set_alloc ch sb v)) ;;
  for_range bound (upto bound sblimit) (fun sb =>
    let* (nbal, _) := bitalloc sb in
    let* v := bits nbal in
    set_alloc 1 sb v ;; set_alloc 0 sb v).

Definition II_scfsi (nch sblimit : Z) : ML unit :=
  for_range 0 (Z.to_nat sblimit) (fun sb =>
    for_range 0 (Z.to_nat nch) (fun ch =>
      let* a := get_alloc ch sb in
      when (negb (a =? 0)) (let* v := bits 2 in set_scfsi ch sb v))).

(** The scalefactors of one subband, as its selection information says. *)
Definition II_scf (ch sb : Z) : ML unit :=
  let* v0 := bits 6 in
  set_scf (at3 ch sb 0) v0 ;;
  let* si := get_scfsi ch sb in
  (if si =? 2 then
     let* v := get_scf (at3 ch sb 0) in
     set_scf (at3 ch sb 1) v ;; set_scf (at3 ch sb 2) v
   else
     when (si =? 0) (let* v1 := bits 6 in set_scf (at3 ch sb 1) v1) ;;
     when ((si =? 0) || (si =? 1) || (si =? 3)) (let* v2 := bits 6 in set_scf (at3 ch sb 2) v2)) ;;
  when (negb (Z.land si 1 =? 0))
    (let* v := get_scf (at3 ch sb (si - 1)) in set_scf (at3 ch sb 1) v).

Definition II_scalefactors (nch sblimit : Z) : ML unit :=
  for_range 0 (Z.to_nat sblimit) (fun sb =>
    for_range 0 (Z.to_nat nch) (fun ch =>
      let* a := get_alloc ch sb in
      when (negb (a =? 0)) (II_scf ch sb))).

(** [qc_table[offset_table[bitalloc_table[offsets[sb]].offset][index - 1]]] *)
Definition II_class (sb index : Z) : ML quantclass :=
  let* (_, offset) := bitalloc sb in
  let* row := lift (zget offset_table offset) in
  let* i := lift (zget row (index - 1)) in
  lift (zget qc_table i).

Definition II_store (gr sb : Z) (samples : Z * Z * Z) (ch : Z) : ML unit :=
  let store k x :=
    let* i := get_scf (at3 ch sb (gr / 4)) in
    let* f := sf i in
    let* v := mul x f in
    set_sample ch (3 * gr + k) sb v in
  let '(x, y, z) := samples in
  store 0 x ;; store 1 y ;; store 2 z.

Definition II_zero (gr sb ch : Z) : ML unit :=
  for_range 0 3 (fun k => set_sample ch (3 * gr + k) sb 0).

Definition II_granule (nch bound sblimit gr : Z) : ML unit :=
  for_range 0 (Z.to_nat bound) (fun sb =>
    for_range 0 (Z.to_nat nch) (fun ch =>
      let* index := get_alloc ch sb in
      if negb (index =? 0) then
        let* q := II_class sb index in
        let* samples := II_samples q in
        II_store gr sb samples ch
      else II_zero gr sb ch)) ;;
  for_range bound (upto bound sblimit) (fun sb =>
    let* index := get_alloc 0 sb in
    if negb (index =? 0) then
      let* q := II_class sb index in
      let* samples := II_samples q in
      for_range 0 (Z.to_nat nch) (II_store gr sb samples)
    else for_range 0 (Z.to_nat nch) (II_zero gr sb)) ;;
  for_range 0 (Z.to_nat nch) (fun ch =>
    for_range 0 3 (fun k =>
      for_range sblimit (upto sblimit 32) (fun sb => set_sample ch (3 * gr + k) sb 0))).
End Table.

Definition mad_layer_II (stream : stream_t) (frame : frame_t) : res (Z * stream_t * frame_t) :=
  let header := fr_header frame in
  let nch := MAD_NCHANNELS header in
  match II_index nch header with
  | None => Done (-1, set_error MAD_ERROR_BADMODE stream, frame)
  | Some index =>
      let! (sblimit, offsets) := res_opt (zget sbquant_table index) in
      let '(bound, header) := stereo_bound header in
      let bound := if bound >? sblimit then sblimit else bound in
      let start := st_ptr stream in
      let! (_, s, _) := (II_allocations offsets nch bound sblimit ;; II_scfsi nch sblimit)
                          (lay_start start 192 (fr_sbsample frame)) in
      let! (ok, header) := crc_checked start (mad_bit_length start (ly_ptr s)) (fr_options frame) header in
      if negb ok then
        let '(stream, frame) := lay_done stream frame header s in
        Done (-1, set_error MAD_ERROR_BADCRC stream, frame)
      else
        let! (_, s, _) := (II_scalefactors nch sblimit ;;
                           for_range 0 12 (II_granule offsets nch bound sblimit)) s in
        let '(stream, frame) := lay_done stream frame header s in
        Done (0, stream, frame)
  end.
End Layers12.
