(* ===== verification/MadLayer12Props.v ===== *)
(** * What the decoders of Layer I and Layer II compute

    Every number the decoders read is described by its place in the stream: the bits of a
    frame are laid out as ISO/IEC 11172-3 says, and the decoders read all of them, at those
    places, and nothing else. *)

From S2P Require Import Prelude MadBit MadTimer MadStream MadFrame MadFixed MadLayer12.

(** ** Requantization *)

Lemma lor_opp_pow v k : 0 <= k -> 0 <= v < 2 ^ k -> Z.lor (v + 2 ^ k) (- 2 ^ k) = v - 2 ^ k.
Proof.
  intros Hk Hv. assert (E : forall a b, Z.lor a (Z.lnot b) = Z.lnot (Z.land (Z.lnot a) b)).
  { intros a b. apply Z.bits_inj'. intros i Hi. rewrite Z.lor_spec, !Z.lnot_spec, Z.land_spec, Z.lnot_spec by lia.
    by destruct (Z.testbit a i), (Z.testbit b i). }
  replace (- 2 ^ k) with (Z.lnot (Z.ones k)) by (unfold Z.lnot; rewrite Z.ones_equiv; lia). rewrite E, Z.land_ones by lia. unfold Z.lnot.
  replace (Z.pred (- (v + 2 ^ k))) with (2 ^ k - 1 - v + (-2) * 2 ^ k) by lia. rewrite Z.mod_add, Z.mod_small; lia.
Qed.

Lemma land_low x k : 0 <= k -> 0 <= x < 2 ^ k -> Z.land x (2 ^ k) = 0.
Proof.
  intros Hk Hx. apply Z.bits_inj'. intros i Hi. rewrite Z.land_spec, Z.bits_0, Z.pow2_bits_eqb by lia.
  destruct (Z.eqb_spec k i) as [<-|?]; [|by rewrite andb_false_r]. rewrite andb_true_r, <- (Z.mod_small x (2 ^ k)) by lia.
  apply Z.mod_pow2_bits_high. lia.
Qed.

Lemma lxor_top x k : 0 <= k -> 0 <= x < 2 ^ k -> Z.lxor x (2 ^ k) = x + 2 ^ k.
Proof. intros Hk Hx. symmetry. apply Z.add_nocarry_lxor. by apply land_low. Qed.

Lemma extend_value v nb : 1 <= nb -> 0 <= v < 2 ^ nb -> extend v nb = v - 2 ^ (nb - 1).
Proof.
  intros Hnb Hv. unfold extend. rewrite Z.shiftl_1_l. set (k := nb - 1).
  assert (H2 : 2 ^ nb = 2 * 2 ^ k) by (rewrite <- Z.pow_succ_r by lia; f_equal; lia).
  assert (Hk : 0 <= k) by lia. destruct (Z.lt_ge_cases v (2 ^ k)) as [Hlt|Hge].
  - assert (Ht : Z.land (Z.lxor v (2 ^ k)) (2 ^ k) = 2 ^ k).
    { rewrite land_lxor_distr, land_low, Z.lxor_0_l, Z.land_diag by lia. done. }
    rewrite Ht, lxor_top by lia. apply lor_opp_pow; lia.
  - replace (Z.lxor v (2 ^ k)) with (v - 2 ^ k); [by rewrite land_low, Z.lor_0_r by lia|].
    replace v with (v - 2 ^ k + 2 ^ k) at 2 by lia. rewrite <- lxor_top, Z.lxor_assoc, Z.lxor_nilpotent, Z.lxor_0_r by lia. done.
Qed.

(** The code [v] of [nb] bits as a number between -1 and 1. *)
Lemma to_fixed_value v nb : 1 <= nb <= 29 -> 0 <= v < 2 ^ nb -> to_fixed v nb = (v - 2 ^ (nb - 1)) * 2 ^ (29 - nb).
Proof.
  intros Hnb Hv. unfold to_fixed, MAD_F_FRACBITS. rewrite extend_value, Z.shiftl_mul_pow2 by lia. do 2 f_equal. lia.
Qed.

(** A product of fixed-point numbers with a factor of at most 2. *)
Lemma mul_range `{Target} `{Fpm} m x y : 1 <= m <= 2 -> - (268435456 * m) <= x <= 268435456 * m -> 0 <= y <= 536870912 ->
  exists v, mad_f_mul x y = Some v /\ - (536870912 * m) <= v <= 536870912 * m.
Proof.
  intros Hm Hx Hy. unfold mad_f_mul. destruct fpm_arm.
  - exists (mul_arm x y). split; [done|]. rewrite mul_arm_rounds. unfold MAD_F_ONE.
    assert (Hp : - (144115188075855872 * m) <= x * y <= 144115188075855872 * m) by nia. rewrite s32_small; lia.
  - unfold mul_default. change (Z.shiftl 1 11) with 2048. change (Z.shiftl 1 15) with 32768.
    rewrite !fits_32, !Z.shiftr_div_pow2 by lia. change (2 ^ 12) with 4096. change (2 ^ 16) with 65536.
    assert (Ha : - (65536 * m) <= (x + 2048) / 4096 <= 65536 * m) by lia. assert (Hb : 0 <= (y + 32768) / 65536 <= 8192) by lia.
    assert (Hp : - (536870912 * m) <= (x + 2048) / 4096 * ((y + 32768) / 65536) <= 536870912 * m) by nia.
    rewrite fits_32 by lia. eauto.
Qed.

(** ** Arrays *)

Definition shape (a : list (list (list Z))) : Prop :=
  length a = 2%nat /\ Forall (fun b => length b = 36%nat /\ Forall (fun c => length c = 32%nat) b) a.

Definition sample_get (a : list (list (list Z))) (ch s sb : Z) : option Z :=
  match zget a ch with
  | Some b => match zget b s with Some c => zget c sb | None => None end
  | None => None
  end.

Lemma zget_Forall {A} (P : A -> Prop) l i x : Forall P l -> zget l i = Some x -> P x.
Proof. intros Hl Hx. unfold zget in Hx. case_match; [done|]. by eapply Forall_lookup_1. Qed.

Lemma zset_Forall {A} (P : A -> Prop) l i x l' : Forall P l -> P x -> zset l i x = Some l' -> Forall P l'.
Proof. intros Hl Hx. unfold zset. case_match; [|done]. intros [= <-]. by apply Forall_insert. Qed.

Lemma zget_zset {A} (l : list A) i j x l' : zset l i x = Some l' -> zget l' j = if decide (i = j) then Some x else zget l j.
Proof. intros Hs. destruct (decide (i = j)) as [<-|?]; [by eapply zget_zset_eq|by eapply zget_zset_ne]. Qed.

Lemma zset_in {A} (l : list A) i x : 0 <= i < zlen l -> exists l', zset l i x = Some l' /\ length l' = length l.
Proof. intros Hi. exists (<[Z.to_nat i := x]> l). split; [by apply zset_some|by rewrite length_insert]. Qed.

Lemma sample_set_ok a ch s sb v : shape a -> 0 <= ch < 2 -> 0 <= s < 36 -> 0 <= sb < 32 ->
  exists a', sample_set a ch s sb v = Some a' /\ shape a' /\
    forall ch' s' sb', sample_get a' ch' s' sb' = if decide (ch' = ch /\ s' = s /\ sb' = sb) then Some v else sample_get a ch' s' sb'.
Proof.
  intros [Hla Ha] Hch Hs Hsb. unfold sample_set.
  destruct (zget_some a ch) as [b Hb]; [unfold zlen; lia|]. rewrite Hb. destruct (zget_Forall _ _ _ _ Ha Hb) as [Hlb Hb'].
  destruct (zget_some b s) as [c Hc]; [unfold zlen; lia|]. rewrite Hc. pose proof (zget_Forall _ _ _ _ Hb' Hc) as Hlc. cbn in Hlc.
  destruct (zset_in c sb v) as (c' & Hc' & Hlc'); [unfold zlen; lia|]. rewrite Hc'.
  destruct (zset_in b s c') as (b' & Hb2 & Hlb'); [unfold zlen; lia|]. rewrite Hb2.
  destruct (zset_in a ch b') as (a' & Ha2 & Hla'); [unfold zlen; lia|]. exists a'. split; [done|]. split.
  - split; [lia|]. eapply zset_Forall; [exact Ha| |exact Ha2]. split; [lia|]. eapply zset_Forall; [exact Hb'| |exact Hb2]. cbn. lia.
  - intros ch' s' sb'. unfold sample_get. rewrite (zget_zset _ _ _ _ _ Ha2).
    destruct (decide (ch = ch')) as [<-|?]; [|rewrite decide_False; [done|intros (? & ? & ?); congruence]].
    rewrite Hb, (zget_zset _ _ _ _ _ Hb2). destruct (decide (s = s')) as [<-|?]; [|rewrite decide_False; [done|intros (? & ? & ?); congruence]].
    rewrite Hc, (zget_zset _ _ _ _ _ Hc'). destruct (decide (sb = sb')) as [<-|?]; [by rewrite decide_True|rewrite decide_False; [done|intros (? & ? & ?); congruence]].
Qed.

Lemma in_range_true i n : 0 <= i < n -> in_range i n = true.
Proof. intros Hi. unfold in_range. apply andb_true_iff. split; lia. Qed.
Lemma at2_in ch sb : 0 <= ch < 2 -> 0 <= sb < 32 -> at2 ch sb = Some (32 * ch + sb).
Proof. intros ? ?. unfold at2. by rewrite !in_range_true. Qed.
Lemma at3_in ch sb k : 0 <= ch < 2 -> 0 <= sb < 32 -> 0 <= k < 3 -> at3 ch sb k = Some (96 * ch + 3 * sb + k).
Proof. intros ? ? ?. unfold at3. by rewrite !in_range_true. Qed.

Lemma cell_set_ok a i v : 0 <= i < zlen a ->
  exists a', cell_set a (Some i) v = Some a' /\ length a' = length a /\
    forall j, cell_get a' (Some j) = if decide (i = j) then Some v else cell_get a (Some j).
Proof.
  intros Hi. destruct (zset_in a i (Some v) Hi) as (a' & Hs & Hl). exists a'. split; [done|]. split; [done|].
  intros j. cbn. rewrite (zget_zset _ _ _ _ _ Hs). by destruct (decide (i = j)).
Qed.

(** ** Loops *)

Lemma wp_for_ok {S} (I : Z -> S -> Prop) (F : S -> Prop) n : forall lo (body : Z -> M S bool) s,
  (forall i s', lo <= i < lo + Z.of_nat n -> I i s' -> wp (body i) (fun ok s'' => if ok : bool then I (i + 1) s'' else F s'') s') ->
  I lo s -> wp (for_ok lo n body) (fun ok s' => if ok : bool then I (lo + Z.of_nat n) s' else F s') s.
Proof.
  induction n as [|n IH]; intros lo body s Hb Hi; cbn [for_ok].
  - wp_step. by rewrite Z.add_0_r.
  - wp_step. eapply wp_mono; [|apply Hb; [lia|done]]. intros [] s' Hi'; [|by wp_step].
    eapply wp_mono; [|apply IH; [|exact Hi']].
    + intros ok s''. by replace (lo + 1 + Z.of_nat n) with (lo + Z.of_nat (Datatypes.S n)) by lia.
    + intros i s'' ? ?. apply Hb; [lia|done].
Qed.

(** Two nested loops, subbands outside and channels inside. *)
Lemma wp_for_cells {S} (I : Z -> Z -> S -> Prop) lo n m (body : Z -> Z -> M S unit) s :
  (forall sb ch s', lo <= sb < lo + Z.of_nat n -> 0 <= ch < Z.of_nat m -> I sb ch s' -> wp (body sb ch) (fun _ s'' => I sb (ch + 1) s'') s') ->
  (forall sb s', lo <= sb < lo + Z.of_nat n -> I sb (Z.of_nat m) s' -> I (sb + 1) 0 s') -> I lo 0 s ->
  wp (for_range lo n (fun sb => for_range 0 m (body sb))) (fun _ s' => I (lo + Z.of_nat n) 0 s') s.
Proof.
  intros Hb Hn Hi. apply (wp_for_range (fun sb => I sb 0)); [|done]. intros sb s' Hsb Hs.
  eapply wp_mono; [|apply (wp_for_range (I sb)); [|exact Hs]]; [intros ? s''; by apply Hn|]. intros ch s'' Hch. apply Hb; lia.
Qed.

(** Sums *)
Fixpoint sum_to (f : Z -> Z) (n : nat) : Z := match n with O => 0 | S n' => sum_to f n' + f (Z.of_nat n') end.
Definition sum (f : Z -> Z) (n : Z) : Z := sum_to f (Z.to_nat n).

Lemma sum_0 f : sum f 0 = 0.
Proof. done. Qed.
Lemma sum_succ f n : 0 <= n -> sum f (n + 1) = sum f n + f n.
Proof. intros Hn. unfold sum. replace (Z.to_nat (n + 1)) with (S (Z.to_nat n)) by lia. cbn. by rewrite Z2Nat.id. Qed.
Lemma sum_mono f n m : (forall i, 0 <= f i) -> 0 <= n <= m -> 0 <= sum f n <= sum f m.
Proof.
  intros Hf Hnm. unfold sum. assert (H0 : forall k, 0 <= sum_to f k) by (intros k; induction k; cbn; [lia|pose proof (Hf (Z.of_nat k)); lia]).
  split; [done|]. replace (Z.to_nat m) with (Z.to_nat (m - n) + Z.to_nat n)%nat by lia.
  induction (Z.to_nat (m - n)) as [|k IH]; [done|]. cbn. pose proof (Hf (Z.of_nat (k + Z.to_nat n))). lia.
Qed.
Lemma sum_bound f n b : 0 <= n -> (forall i, 0 <= i < n -> f i <= b) -> sum f n <= b * n.
Proof.
  intros Hn Hf. unfold sum. rewrite <- (Z2Nat.id n) at 2 by lia. assert (Hf' : forall i, 0 <= i < Z.of_nat (Z.to_nat n) -> f i <= b) by (intros; apply Hf; lia).
  clear Hf. induction (Z.to_nat n) as [|k IH]; [cbn; lia|]. cbn [sum_to]. rewrite Nat2Z.inj_succ, Z.mul_succ_r. pose proof (Hf' (Z.of_nat k)). assert (IH' : sum_to f k <= b * Z.of_nat k) by (apply IH; intros; apply Hf'; lia). lia.
Qed.

(** ** The steps of the decoders *)

Section Steps.
Context `{T : Target} `{FP : Fpm} (buf : list Z).
Implicit Types x : lay_t.

Definition at_pos x (p : Z) : Prop := bp_ok buf (ly_ptr x) /\ bp_pos (ly_ptr x) = p.
Definition field (p n : Z) : Z := bits_val buf p (Z.to_nat n).

Lemma bit_field_range p n : 0 <= n -> 0 <= field p n < 2 ^ n.
Proof. intros Hn. unfold field. pose proof (bits_val_range buf p (Z.to_nat n)) as Hr. by rewrite Z2Nat.id in Hr. Qed.

Lemma wp_bits p n (Q : Z -> lay_t -> Prop) x : at_pos x p -> 1 <= n <= 32 -> p + n <= 8 * zlen buf ->
  (forall bp, at_pos (set_ly_ptr bp x) (p + n) -> Q (field p n) (set_ly_ptr bp x)) -> wp (bits buf n) Q x.
Proof.
  intros [Hok <-] Hn Hend HQ. unfold bits. destruct (mad_bit_read_bits buf (ly_ptr x) n) as (bp & Hr & Hok' & Hpos); [done|done|done|].
  wp_step; wp_step. wp_step. eapply wp_lift; [exact Hr|]. wp_steps. by apply HQ.
Qed.

(** The cells of an array that have their values. *)
Definition alloc_at x ch sb := cell_get (ly_alloc x) (at2 ch sb).
Definition scf_at x ch sb := cell_get (ly_scf x) (at2 ch sb).

Lemma cell2_ne ch sb ch' sb' : 0 <= sb < 32 -> 0 <= sb' < 32 -> 32 * ch + sb = 32 * ch' + sb' -> ch = ch' /\ sb = sb'.
Proof. lia. Qed.

Lemma cell_set2 a ch sb v : length a = 64%nat -> 0 <= ch < 2 -> 0 <= sb < 32 ->
  exists a', cell_set a (at2 ch sb) v = Some a' /\ length a' = 64%nat /\ cell_get a' (at2 ch sb) = Some v /\
    forall ch' sb', 0 <= ch' < 2 -> 0 <= sb' < 32 -> (ch' <> ch \/ sb' <> sb) -> cell_get a' (at2 ch' sb') = cell_get a (at2 ch' sb').
Proof.
  intros Hl Hch Hsb. rewrite at2_in by done. destruct (cell_set_ok a (32 * ch + sb) v) as (a' & Hs & Hl' & Hg); [unfold zlen; lia|].
  exists a'. split; [done|]. split; [lia|]. split; [by rewrite Hg, decide_True|].
  intros ch' sb' Hch' Hsb' Hne. rewrite at2_in by done. rewrite Hg, decide_False; [done|]. intros E. apply cell2_ne in E; lia.
Qed.

Lemma wp_set_alloc ch sb v (Q : unit -> lay_t -> Prop) x : length (ly_alloc x) = 64%nat -> 0 <= ch < 2 -> 0 <= sb < 32 ->
  (forall a, length a = 64%nat -> cell_get a (at2 ch sb) = Some v ->
     (forall ch' sb', 0 <= ch' < 2 -> 0 <= sb' < 32 -> (ch' <> ch \/ sb' <> sb) -> cell_get a (at2 ch' sb') = alloc_at x ch' sb') ->
     Q tt (set_ly_alloc a x)) -> wp (set_alloc ch sb v) Q x.
Proof.
  intros Hl Hch Hsb HQ. destruct (cell_set2 (ly_alloc x) ch sb v) as (a & Hs & Hl' & Hg & Hne); [done..|].
  unfold set_alloc. wp_step; wp_step. wp_step. eapply wp_lift; [exact Hs|]. wp_step. by apply HQ.
Qed.

Lemma wp_set_scf2 ch sb v (Q : unit -> lay_t -> Prop) x : length (ly_scf x) = 64%nat -> 0 <= ch < 2 -> 0 <= sb < 32 ->
  (forall a, length a = 64%nat -> cell_get a (at2 ch sb) = Some v ->
     (forall ch' sb', 0 <= ch' < 2 -> 0 <= sb' < 32 -> (ch' <> ch \/ sb' <> sb) -> cell_get a (at2 ch' sb') = scf_at x ch' sb') ->
     Q tt (set_ly_scf a x)) -> wp (set_scf (at2 ch sb) v) Q x.
Proof.
  intros Hl Hch Hsb HQ. destruct (cell_set2 (ly_scf x) ch sb v) as (a & Hs & Hl' & Hg & Hne); [done..|].
  unfold set_scf. wp_step; wp_step. wp_step. eapply wp_lift; [exact Hs|]. wp_step. by apply HQ.
Qed.

Lemma wp_get_alloc ch sb v (Q : Z -> lay_t -> Prop) x : alloc_at x ch sb = Some v -> Q v x -> wp (get_alloc ch sb) Q x.
Proof. intros Hv HQ. unfold get_alloc. wp_step; wp_step. by eapply wp_lift. Qed.

Lemma wp_get_scf i v (Q : Z -> lay_t -> Prop) x : cell_get (ly_scf x) i = Some v -> Q v x -> wp (get_scf i) Q x.
Proof. intros Hv HQ. unfold get_scf. wp_step; wp_step. by eapply wp_lift. Qed.

Lemma wp_set_sample ch s sb v (Q : unit -> lay_t -> Prop) x : shape (ly_sb x) -> 0 <= ch < 2 -> 0 <= s < 36 -> 0 <= sb < 32 ->
  (forall a, shape a -> (forall ch' s' sb', sample_get a ch' s' sb' = if decide (ch' = ch /\ s' = s /\ sb' = sb) then Some v else sample_get (ly_sb x) ch' s' sb') ->
     Q tt (set_ly_sb a x)) -> wp (set_sample ch s sb v) Q x.
Proof.
  intros Hl Hch Hs Hsb HQ. destruct (sample_set_ok (ly_sb x) ch s sb v) as (a & Hset & Hl' & Hg); [done..|].
  unfold set_sample. wp_step; wp_step. wp_step. eapply wp_lift; [exact Hset|]. wp_step. by apply HQ.
Qed.

(** A scalefactor index of six bits is in the table. *)
Lemma sf_table_range i : 0 <= i < 64 -> exists f, zget sf_table i = Some f /\ 0 <= f <= 536870912.
Proof.
  intros Hi. destruct (zget_some sf_table i) as [f Hf]; [by cbn|]. exists f. split; [done|].
  assert (Ha : Forall (fun f => 0 <= f <= 536870912) sf_table) by (repeat constructor; lia). by apply (zget_Forall _ _ _ _ Ha Hf).
Qed.
End Steps.

(** ** Layer I *)

Section LayerI.
Context `{T : Target} `{FP : Fpm} (buf : list Z).
Implicit Types x : lay_t.

(** The number that the code [v] of [nb] bits stands for: (2^nb / (2^nb - 1)) times
    (v + 1 - 2^(nb-1)) / 2^(nb-1). *)
Definition I_number (nb v : Z) : option Z :=
  match zget linear_table (nb - 2) with
  | Some l => mad_f_mul ((v + 1 - 2 ^ (nb - 1)) * 2 ^ (29 - nb)) l
  | None => None
  end.
(** ... scaled with the factor of index [i]. *)
Definition scaled (r i : Z) : option Z := match zget sf_table i with Some f => mad_f_mul r f | None => None end.

Lemma pow2_split nb : 2 <= nb <= 28 -> 2 ^ (nb - 1) * 2 ^ (29 - nb) = 268435456 /\ 0 < 2 ^ (nb - 1) /\ 0 < 2 ^ (29 - nb) /\ 2 ^ nb = 2 * 2 ^ (nb - 1).
Proof.
  intros Hnb. rewrite <- Z.pow_add_r by lia. replace (nb - 1 + (29 - nb)) with 28 by lia.
  split_and!; [done|apply Z.pow_pos_nonneg; lia|apply Z.pow_pos_nonneg; lia|rewrite <- Z.pow_succ_r by lia; f_equal; lia].
Qed.

Lemma I_number_ok nb v : 2 <= nb <= 15 -> 0 <= v < 2 ^ nb ->
  - 268435456 <= (v + 1 - 2 ^ (nb - 1)) * 2 ^ (29 - nb) <= 268435456 /\
  to_fixed v nb + Z.shiftr MAD_F_ONE (nb - 1) = (v + 1 - 2 ^ (nb - 1)) * 2 ^ (29 - nb) /\
  exists l r, zget linear_table (nb - 2) = Some l /\ mad_f_mul ((v + 1 - 2 ^ (nb - 1)) * 2 ^ (29 - nb)) l = Some r /\ - 536870912 <= r <= 536870912.
Proof.
  intros Hnb Hv. destruct (pow2_split nb ltac:(lia)) as (Hs & Ha & Hb & H2).
  assert (Hx : - 268435456 <= (v + 1 - 2 ^ (nb - 1)) * 2 ^ (29 - nb) <= 268435456) by nia. split; [done|]. split.
  - rewrite to_fixed_value, Z.shiftr_div_pow2 by lia. unfold MAD_F_ONE. replace 268435456 with (2 ^ (29 - nb) * 2 ^ (nb - 1)) by lia. rewrite Z.div_mul by lia. lia.
  - destruct (zget_some linear_table (nb - 2)) as [l Hl]; [change (zlen linear_table) with 14; lia|].
    assert (Hr : Forall (fun l => 0 <= l <= 536870912) linear_table) by (repeat constructor; lia). pose proof (zget_Forall _ _ _ _ Hr Hl) as Hl'. cbn in Hl'.
    destruct (mul_range 1 _ l ltac:(lia) Hx Hl') as (r & Hm & Hrr). exists l, r. split_and!; [done|done|lia|lia].
Qed.

Lemma scaled_ok r i : - 536870912 <= r <= 536870912 -> 0 <= i < 64 -> exists v, scaled r i = Some v /\ - 1073741824 <= v <= 1073741824.
Proof.
  intros Hr Hi. unfold scaled. destruct (sf_table_range i Hi) as (f & -> & Hf).
  destruct (mul_range 2 r f ltac:(lia) ltac:(lia) Hf) as (v & Hm & Hv). exists v. split; [done|lia].
Qed.

Lemma wp_I_sample p nb (Q : Z -> lay_t -> Prop) x : at_pos buf x p -> 2 <= nb <= 15 -> p + nb <= 8 * zlen buf ->
  (forall bp r, at_pos buf (set_ly_ptr bp x) (p + nb) -> I_number nb (field buf p nb) = Some r -> - 536870912 <= r <= 536870912 ->
     Q r (set_ly_ptr bp x)) -> wp (I_sample buf nb) Q x.
Proof.
  intros Hp Hnb Hend HQ. unfold I_sample. wp_step. eapply wp_bits; [exact Hp|lia|done|]. intros bp Hp'.
  pose proof (bit_field_range buf p nb ltac:(lia)) as Hv. destruct (I_number_ok nb (field buf p nb) Hnb Hv) as (Hx & Hfix & l & r & Hl & Hm & Hr).
  wp_step. eapply wp_lift; [rewrite Hfix; apply fits_32; lia|]. wp_step. eapply wp_lift; [exact Hl|]. unfold mul. eapply wp_lift; [exact Hm|].
  apply HQ; [done| |done]. unfold I_number. by rewrite Hl.
Qed.

Lemma wp_I_store s sb r ch i (Q : unit -> lay_t -> Prop) x : scf_at x ch sb = Some i -> 0 <= i < 64 -> - 536870912 <= r <= 536870912 ->
  shape (ly_sb x) -> 0 <= ch < 2 -> 0 <= s < 36 -> 0 <= sb < 32 ->
  (forall v a, scaled r i = Some v -> - 1073741824 <= v <= 1073741824 -> shape a ->
     (forall ch' s' sb', sample_get a ch' s' sb' = if decide (ch' = ch /\ s' = s /\ sb' = sb) then Some v else sample_get (ly_sb x) ch' s' sb') ->
     Q tt (set_ly_sb a x)) -> wp (I_store s sb r ch) Q x.
Proof.
  intros Hi Hir Hr Hsh Hch Hs Hsb HQ. unfold I_store. wp_step. eapply wp_get_scf; [exact Hi|].
  destruct (scaled_ok r i Hr Hir) as (v & Hv & Hvr). pose proof Hv as Hv'. unfold scaled in Hv'. destruct (zget sf_table i) as [f|] eqn:Hf; [|done].
  wp_step. eapply wp_lift; [exact Hf|]. wp_step. eapply wp_lift; [exact Hv'|]. apply wp_set_sample; [done..|]. intros a Ha Hg. by eapply HQ.
Qed.

(** *** The places of a frame's fields *)

Context (p nch bound : Z).

Definition I_cell (ch sb : Z) : Z := if sb <? bound then sb * nch + ch else bound * nch + (sb - bound).
Definition I_code (ch sb : Z) : Z := field buf (p + 4 * I_cell ch sb) 4.
Definition I_width (ch sb : Z) : Z := if I_code ch sb =? 0 then 0 else I_code ch sb + 1.
Definition I_used (ch sb : Z) : Z := if I_width ch sb =? 0 then 0 else 1.

Definition I_scf_place (ch sb : Z) : Z :=
  p + 4 * (bound * nch + (32 - bound)) +
  6 * (sum (fun sb => sum (fun ch => I_used ch sb) nch) sb + sum (fun ch => I_used ch sb) ch).
Definition I_scf (ch sb : Z) : Z := field buf (I_scf_place ch sb) 6.

Definition I_column (sb : Z) : Z := if sb <? bound then sum (fun ch => I_width ch sb) nch else I_width 0 sb.
Definition I_place (s ch sb : Z) : Z :=
  I_scf_place 0 32 + s * sum I_column 32 + sum I_column sb + (if sb <? bound then sum (fun ch => I_width ch sb) ch else 0).

Definition I_value (s ch sb : Z) : option Z :=
  if I_width ch sb =? 0 then Some 0
  else match I_number (I_width ch sb) (field buf (I_place s ch sb) (I_width ch sb)) with
       | Some r => scaled r (I_scf ch sb)
       | None => None
       end.
(** The end of the frame's data. *)
Definition I_end : Z := I_place 12 0 0.

Context (Hnch : nch = 1 \/ nch = 2) (Hbound : 0 <= bound <= 32) (Hone : bound < 32 -> nch = 2) (Hend : I_end <= 8 * zlen buf).

Lemma I_width_range ch sb : I_width ch sb = 0 \/ 2 <= I_width ch sb <= 16.
Proof. unfold I_width, I_code. pose proof (bit_field_range buf (p + 4 * I_cell ch sb) 4 ltac:(lia)). destruct (Z.eqb_spec (field buf (p + 4 * I_cell ch sb) 4) 0); lia. Qed.
Lemma I_used_range ch sb : 0 <= I_used ch sb <= 1.
Proof. unfold I_used. destruct (_ =? 0); lia. Qed.
Lemma I_column_range sb : 0 <= I_column sb.
Proof.
  unfold I_column. pose proof (sum_mono (fun ch => I_width ch sb) 0 nch) as Hs. cbn in Hs.
  destruct (sb <? bound); [apply Hs; [intros i|]|]; [pose proof (I_width_range i sb)| |pose proof (I_width_range 0 sb)]; lia.
Qed.

(** The places grow along the loops. *)
Lemma I_scf_places ch sb : 0 <= ch <= nch -> 0 <= sb < 32 ->
  p + 4 * (bound * nch + (32 - bound)) <= I_scf_place ch sb /\ I_scf_place ch sb <= I_scf_place nch sb /\
  I_scf_place nch sb = I_scf_place 0 (sb + 1) /\ I_scf_place 0 (sb + 1) <= I_scf_place 0 32.
Proof.
  intros Hch Hsb. unfold I_scf_place. rewrite sum_succ, !sum_0 by lia. set (row := fun sb => sum (fun ch => I_used ch sb) nch).
  assert (Hrow : forall i, 0 <= row i) by (intros i; apply (sum_mono _ nch nch); [intros; apply I_used_range|lia]).
  pose proof (sum_mono row 0 sb Hrow ltac:(lia)). pose proof (sum_mono row (sb + 1) 32 Hrow ltac:(lia)) as H2. rewrite sum_succ in H2 by lia.
  pose proof (sum_mono (fun ch => I_used ch sb) ch nch (fun i => proj1 (I_used_range i sb)) ltac:(lia)). change (sum (fun ch => I_used ch sb) nch) with (row sb) in *. lia.
Qed.

Lemma I_places s ch sb : 0 <= s < 12 -> 0 <= ch <= nch -> 0 <= sb < 32 ->
  I_scf_place 0 32 <= I_place s ch sb /\
  (sb < bound -> I_place s ch sb <= I_place s nch sb /\ I_place s nch sb = I_place s 0 (sb + 1)) /\
  (bound <= sb -> I_place s 0 sb + I_width 0 sb = I_place s 0 (sb + 1) /\ I_place s ch sb = I_place s 0 sb) /\
  I_place s 0 (sb + 1) <= I_place s 0 32 /\ I_place s 0 32 = I_place (s + 1) 0 0 /\ I_place (s + 1) 0 0 <= I_end.
Proof.
  intros Hs Hch Hsb. unfold I_end, I_place.
  assert (Hz : forall sb, (if sb <? bound then sum (fun ch => I_width ch sb) 0 else 0) = 0) by (intros i; destruct (_ <? _); [apply sum_0|done]).
  rewrite !Hz, !sum_0, sum_succ by lia.
  pose proof (sum_mono I_column 0 sb I_column_range ltac:(lia)) as H1. pose proof (sum_mono I_column (sb + 1) 32 I_column_range ltac:(lia)) as H2.
  rewrite sum_succ in H2 by lia. rewrite sum_0 in H1.
  assert (Hc : I_column sb = if sb <? bound then sum (fun ch => I_width ch sb) nch else I_width 0 sb) by done. pose proof (I_column_range sb).
  assert (Hw : forall i, 0 <= I_width i sb) by (intros i; pose proof (I_width_range i sb); lia).
  pose proof (sum_mono (fun ch => I_width ch sb) ch nch Hw ltac:(lia)).
  set (W := sum I_column 32) in *. assert (HW : 0 <= W) by (subst W; apply (sum_mono I_column 32 32 I_column_range); lia).
  assert (Hm : 0 <= s * W /\ (s + 1) * W = s * W + W /\ (s + 1) * W <= 12 * W) by nia.
  destruct (Z.ltb_spec sb bound); split_and!; intros; try split; lia.
Qed.

(** *** The allocations *)

Lemma I_place_le s sb : 0 <= s < 12 -> 0 <= sb < 32 ->
  I_scf_place 0 32 <= I_place s 0 sb /\ I_place s 0 sb <= I_place s 0 (sb + 1) /\ I_place s 0 (sb + 1) <= I_end.
Proof.
  intros Hs Hsb. destruct (I_places s 0 sb ltac:(lia) ltac:(lia) ltac:(lia)) as (H1 & HA & HB & H2 & H3 & H4).
  destruct (Z.lt_ge_cases sb bound) as [Hlt|Hge]; [destruct (HA Hlt)|destruct (HB Hge); pose proof (I_width_range 0 sb)]; lia.
Qed.

Lemma I_room k : 0 <= k <= bound * nch + (32 - bound) -> p + 4 * k <= 8 * zlen buf.
Proof.
  intros Hk. destruct (I_place_le 0 0 ltac:(lia) ltac:(lia)) as (H1 & H2 & H3).
  destruct (I_scf_places 0 0 ltac:(lia) ltac:(lia)) as (H5 & H6 & H7 & H8). lia.
Qed.

(** The allocations of the subbands below [n], and of [m] channels of the next one. *)
Definition I_alloc_to (n m : Z) x : Prop :=
  forall ch sb, 0 <= ch < nch -> 0 <= sb < 32 -> (sb < n \/ (sb = n /\ ch < m)) ->
    I_code ch sb <> 15 /\ alloc_at x ch sb = Some (I_width ch sb).

Definition I_other (x0 x : lay_t) : Prop := length (ly_alloc x) = 64%nat /\ ly_scf x = ly_scf x0 /\ ly_sb x = ly_sb x0.
Definition I_forbidden (x0 x : lay_t) : Prop :=
  ly_sb x = ly_sb x0 /\ bp_ok buf (ly_ptr x) /\ exists ch sb, 0 <= ch < nch /\ 0 <= sb < 32 /\ I_code ch sb = 15.

Lemma wp_I_alloc q store (Q : bool -> lay_t -> Prop) x : at_pos buf x q -> q + 4 <= 8 * zlen buf ->
  (field buf q 4 = 15 -> forall bp, at_pos buf (set_ly_ptr bp x) (q + 4) -> Q false (set_ly_ptr bp x)) ->
  (field buf q 4 <> 15 -> forall bp, at_pos buf (set_ly_ptr bp x) (q + 4) ->
     wp (store (if field buf q 4 =? 0 then 0 else field buf q 4 + 1)) (fun _ => Q true) (set_ly_ptr bp x)) ->
  wp (I_alloc buf store) Q x.
Proof.
  intros Hp Hq Hbad Hok. unfold I_alloc. wp_step. eapply wp_bits; [exact Hp|lia|done|]. intros bp Hp'.
  destruct (Z.eqb_spec (field buf q 4) 15); [wp_step; by apply Hbad|]. wp_step. eapply wp_mono; [|by apply Hok]. intros ? x' HQ. by wp_step.
Qed.

Lemma wp_I_alloc_low x : at_pos buf x p -> length (ly_alloc x) = 64%nat ->
  wp (for_ok 0 (Z.to_nat bound) (fun sb => for_ok 0 (Z.to_nat nch) (fun ch => I_alloc buf (set_alloc ch sb))))
    (fun ok x' => if ok : bool then at_pos buf x' (p + 4 * (bound * nch)) /\ I_other x x' /\ I_alloc_to bound 0 x' else I_forbidden x x') x.
Proof.
  intros Hp Hl. set (I sb ch x' := at_pos buf x' (p + 4 * (sb * nch + ch)) /\ I_other x x' /\ I_alloc_to sb ch x').
  eapply wp_mono; [|apply (wp_for_ok (fun sb => I sb 0) (I_forbidden x))].
  { intros [] x'; [|done]. rewrite Z2Nat.id, Z.add_0_l by lia. unfold I. by rewrite Z.add_0_r. }
  - intros sb x1 Hsb Hi. rewrite Z2Nat.id in Hsb by lia. eapply wp_mono; [|apply (wp_for_ok (I sb) (I_forbidden x)); [|exact Hi]].
    + intros [] x2; [|done]. rewrite Z2Nat.id, Z.add_0_l by lia. intros (Hp2 & Ho2 & Ha2). split_and!; [|done|].
      * by replace ((sb + 1) * nch + 0) with (sb * nch + nch) by lia.
      * intros ch' sb' Hch' Hsb' Hd. apply Ha2; lia.
    + intros ch x2 Hch (Hp2 & (Hl2 & Hs2 & Hb2) & Ha2). rewrite Z2Nat.id in Hch by lia.
      assert (Hcell : I_cell ch sb = sb * nch + ch) by (unfold I_cell; by rewrite (proj2 (Z.ltb_lt _ _)) by lia).
      eapply wp_I_alloc; [exact Hp2| | |]; rewrite <- Hcell in *.
      * pose proof (I_room (sb * nch + ch + 1)). nia.
      * intros H15 bp [Hok _]. split; [done|]. split; [done|]. exists ch, sb. unfold I_code. split_and!; (done || lia).
      * intros H15 bp Hp3. apply wp_set_alloc; [done|lia|lia|]. intros a Hla Hg Hne. unfold I. split_and!; try done.
        { replace (sb * nch + (ch + 1)) with (I_cell ch sb + 1) by lia. replace (p + 4 * (I_cell ch sb + 1)) with (p + 4 * I_cell ch sb + 4) by lia. done. }
        intros ch' sb' Hch' Hsb' Hd. destruct (decide (ch' = ch /\ sb' = sb)) as [[-> ->]|Hn]; [done|].
        destruct (Ha2 ch' sb' Hch' Hsb') as [? Hv]; [lia|]. split; [done|]. unfold alloc_at. cbn. rewrite Hne; [done|lia|lia|lia].
  - unfold I. split_and!; try done; [by rewrite Z.mul_0_l, Z.add_0_r|]. intros ch sb ? ? ?. lia.
Qed.

Lemma wp_I_alloc_high x0 x : bound < 32 -> at_pos buf x (p + 4 * (bound * nch)) -> I_other x0 x -> I_alloc_to bound 0 x ->
  wp (for_ok bound (upto bound 32) (fun sb => I_alloc buf (fun nb => set_alloc 1 sb nb ;; set_alloc 0 sb nb)))
    (fun ok x' => if ok : bool then at_pos buf x' (p + 4 * (bound * nch + (32 - bound))) /\ I_other x0 x' /\ I_alloc_to 32 0 x' else I_forbidden x0 x') x.
Proof.
  intros Hb Hp Ho Ha. set (I sb x' := at_pos buf x' (p + 4 * (bound * nch + (sb - bound))) /\ I_other x0 x' /\ I_alloc_to sb 0 x').
  eapply wp_mono; [|apply (wp_for_ok I (I_forbidden x0))].
  { intros [] x'; [|done]. unfold upto. rewrite Z2Nat.id by lia. by replace (bound + (32 - bound)) with 32 by lia. }
  - intros sb x1 Hsb (Hp1 & (Hl1 & Hs1 & Hb1) & Ha1). unfold upto in Hsb. rewrite Z2Nat.id in Hsb by lia.
    assert (Hcell : forall ch, I_cell ch sb = bound * nch + (sb - bound)) by (intros ch; unfold I_cell; by rewrite (proj2 (Z.ltb_ge _ _)) by lia).
    assert (Hcode : forall ch, I_code ch sb = field buf (p + 4 * (bound * nch + (sb - bound))) 4) by (intros ch; unfold I_code; by rewrite Hcell).
    eapply wp_I_alloc; [exact Hp1| | |]; [|rewrite <- (Hcode 0)..].
    + pose proof (I_room (bound * nch + (sb - bound) + 1)). lia.
    + intros H15 bp [Hok _]. split; [done|]. split; [done|]. exists 0, sb. split_and!; (done || lia).
    + intros H15 bp Hp2. wp_step. apply wp_set_alloc; [done|lia|lia|]. intros a1 Hl2 Hg1 Hn1. apply wp_set_alloc; [done|lia|lia|].
      intros a2 Hl3 Hg2 Hn2. unfold I. split_and!; try done.
      { by replace (p + 4 * (bound * nch + (sb + 1 - bound))) with (p + 4 * (bound * nch + (sb - bound)) + 4) by lia. }
      intros ch' sb' Hch' Hsb' Hd. unfold alloc_at in *. cbn in *. destruct (decide (sb' = sb)) as [->|Hne].
      * rewrite (Hcode ch'), <- (Hcode 0). split; [done|]. unfold I_width. rewrite (Hcode ch'), <- (Hcode 0).
        destruct (decide (ch' = 0)) as [->|?]; [done|]. replace ch' with 1 by lia. rewrite Hn2 by lia. done.
      * destruct (Ha1 ch' sb' Hch' Hsb') as [? Hv]; [lia|]. split; [done|]. unfold alloc_at in Hv. rewrite Hn2 by lia. rewrite Hn1 by lia. done.
  - unfold I. rewrite Z.sub_diag, Z.add_0_r. done.
Qed.

Lemma wp_I_allocations x : at_pos buf x p -> length (ly_alloc x) = 64%nat ->
  wp (I_allocations buf nch bound) (fun ok x' =>
    if ok : bool then at_pos buf x' (I_scf_place 0 0) /\ I_other x x' /\ I_alloc_to 32 0 x' else I_forbidden x x') x.
Proof.
  intros Hp Hl. unfold I_allocations. wp_step. eapply wp_mono; [|by apply wp_I_alloc_low]. intros [] x1; [|by intros; wp_step].
  intros (Hp1 & Ho1 & Ha1). assert (Hpl : I_scf_place 0 0 = p + 4 * (bound * nch + (32 - bound))) by (unfold I_scf_place; rewrite !sum_0; lia). rewrite Hpl.
  destruct (Z.lt_ge_cases bound 32) as [Hlt|Hge]; [by apply wp_I_alloc_high|]. assert (bound = 32) as -> by lia. cbn [for_ok upto Z.sub Z.to_nat Z.add Z.opp Z.pos_sub].
  change (upto 32 32) with 0%nat. cbn [for_ok]. wp_step. rewrite Z.sub_diag, Z.add_0_r. done.
Qed.

(** *** The scalefactors *)

(** All allocations are known, and what does not change any more. *)
Definition I_allocated x : Prop := I_alloc_to 32 0 x.
Definition I_scf_to (n m : Z) x : Prop :=
  forall ch sb, 0 <= ch < nch -> 0 <= sb < 32 -> (sb < n \/ (sb = n /\ ch < m)) -> I_width ch sb <> 0 -> scf_at x ch sb = Some (I_scf ch sb).

Lemma wp_I_scalefactors x : at_pos buf x (I_scf_place 0 0) -> I_allocated x -> length (ly_scf x) = 64%nat ->
  wp (I_scalefactors buf nch) (fun _ x' => at_pos buf x' (I_scf_place 0 32) /\ I_allocated x' /\ I_scf_to 32 0 x' /\ ly_sb x' = ly_sb x) x.
Proof.
  intros Hp Ha Hl. unfold I_scalefactors.
  set (I sb ch x' := at_pos buf x' (I_scf_place ch sb) /\ I_allocated x' /\ I_scf_to sb ch x' /\ ly_sb x' = ly_sb x /\ length (ly_scf x') = 64%nat).
  eapply wp_mono; [|apply (wp_for_cells I)].
  { intros [] x' (? & ? & ? & ? & _). done. }
  - intros sb ch x1 Hsb Hch (Hp1 & Ha1 & Hs1 & Hb1 & Hl1). rewrite Z2Nat.id in Hch by lia.
    destruct (Ha1 ch sb ltac:(lia) ltac:(lia) ltac:(lia)) as [_ Hw]. wp_step. eapply wp_get_alloc; [exact Hw|].
    assert (Hnext : I_scf_place (ch + 1) sb = I_scf_place ch sb + 6 * I_used ch sb) by (unfold I_scf_place; rewrite (sum_succ _ ch) by lia; lia).
    unfold I_used in Hnext. apply wp_when; destruct (Z.eqb_spec (I_width ch sb) 0) as [Hz|Hnz]; try done; intros _.
    + wp_step. eapply wp_bits; [exact Hp1|lia| |].
      { destruct (I_scf_places (ch + 1) sb ltac:(lia) ltac:(lia)) as (_ & H1 & H2 & H3). destruct (I_place_le 0 0 ltac:(lia) ltac:(lia)). lia. }
      intros bp Hp2. apply wp_set_scf2; [done|lia|lia|]. intros a Hla Hg Hne. unfold I. split_and!; try done.
      * by replace (I_scf_place (ch + 1) sb) with (I_scf_place ch sb + 6) by lia.
      * intros ch' sb' Hch' Hsb' Hd Hw'. unfold scf_at. cbn. destruct (decide (ch' = ch /\ sb' = sb)) as [[-> ->]|Hn]; [done|].
        rewrite Hne by lia. apply Hs1; (done || lia).
    + unfold I. split_and!; try done; [by replace (I_scf_place (ch + 1) sb) with (I_scf_place ch sb) by lia|].
      intros ch' sb' Hch' Hsb' Hd Hw'. destruct (decide (ch' = ch /\ sb' = sb)) as [[-> ->]|Hn]; [done|]. apply Hs1; (done || lia).
  - intros sb x1 Hsb (Hp1 & Ha1 & Hs1 & Hb1 & Hl1). rewrite Z2Nat.id in * by lia. unfold I. split_and!; try done.
    + destruct (I_scf_places 0 sb ltac:(lia) ltac:(lia)) as (_ & _ & E & _). by rewrite <- E.
    + intros ch' sb' Hch' Hsb' Hd. apply Hs1; (done || lia).
  - unfold I. split_and!; try done. intros ch sb ? ? ?. lia.
Qed.

(** *** The samples *)

Definition I_before (s sb ch s' sb' ch' : Z) : Prop := s' < s \/ (s' = s /\ (sb' < sb \/ (sb' = sb /\ ch' < ch))).
Definition I_samples_to (s sb ch : Z) (a0 a : list (list (list Z))) : Prop :=
  shape a /\
  (forall ch' s' sb', 0 <= ch' < nch -> 0 <= s' < 12 -> 0 <= sb' < 32 -> I_before s sb ch s' sb' ch' ->
     exists v, I_value s' ch' sb' = Some v /\ - 1073741824 <= v <= 1073741824 /\ sample_get a ch' s' sb' = Some v) /\
  (forall ch' s' sb', ~ (0 <= ch' < nch /\ 0 <= s' < 12) -> sample_get a ch' s' sb' = sample_get a0 ch' s' sb').

Lemma I_samples_step s sb ch a0 a a' v : 0 <= s < 12 -> 0 <= sb < 32 -> 0 <= ch < nch -> I_samples_to s sb ch a0 a ->
  I_value s ch sb = Some v -> - 1073741824 <= v <= 1073741824 -> shape a' ->
  (forall ch' s' sb', sample_get a' ch' s' sb' = if decide (ch' = ch /\ s' = s /\ sb' = sb) then Some v else sample_get a ch' s' sb') ->
  I_samples_to s sb (ch + 1) a0 a'.
Proof.
  intros Hs Hsb Hch (_ & Hd & Hu) Hv Hr Hsh Hg. split; [done|]. split.
  - intros ch' s' sb' Hch' Hs' Hsb' Hb. rewrite Hg. destruct (decide _) as [(-> & -> & ->)|Hn]; [by exists v|]. apply Hd; try done. unfold I_before in *. lia.
  - intros ch' s' sb' Hn. rewrite Hg, decide_False by lia. by apply Hu.
Qed.

Lemma I_samples_mono s sb ch s2 sb2 ch2 a0 a : I_samples_to s sb ch a0 a ->
  (forall s' sb' ch', 0 <= ch' < nch -> 0 <= s' < 12 -> 0 <= sb' < 32 -> I_before s2 sb2 ch2 s' sb' ch' -> I_before s sb ch s' sb' ch') ->
  I_samples_to s2 sb2 ch2 a0 a.
Proof. intros (Hsh & Hd & Hu) Hm. split_and!; try done. intros ch' s' sb' ? ? ? ?. apply Hd; try done. by apply Hm. Qed.

Definition I_ready x : Prop := I_allocated x /\ I_scf_to 32 0 x.

Lemma I_scf_range ch sb : 0 <= I_scf ch sb < 64.
Proof. exact (bit_field_range buf _ 6 ltac:(lia)). Qed.

Lemma I_high_width ch sb : bound <= sb -> I_width ch sb = I_width 0 sb.
Proof. intros Hsb. unfold I_width, I_code, I_cell. by rewrite (proj2 (Z.ltb_ge _ _)) by lia. Qed.

(** A channel of a low subband. *)
Lemma wp_I_low a0 s sb ch x : 0 <= s < 12 -> 0 <= sb < bound -> 0 <= ch < nch ->
  at_pos buf x (I_place s ch sb) -> I_ready x -> I_samples_to s sb ch a0 (ly_sb x) ->
  wp (let* nb := get_alloc ch sb in
      if negb (nb =? 0) then let* sample := I_sample buf nb in I_store s sb sample ch else set_sample ch s sb 0)
    (fun _ x' => at_pos buf x' (I_place s (ch + 1) sb) /\ I_ready x' /\ I_samples_to s sb (ch + 1) a0 (ly_sb x')) x.
Proof.
  intros Hs Hsb Hch Hp [Ha Hf] Hd. pose proof Hd as (Hsh & _). destruct (Ha ch sb ltac:(lia) ltac:(lia) ltac:(lia)) as [H15 Hw].
  wp_step. eapply wp_get_alloc; [exact Hw|].
  assert (Hnext : I_place s (ch + 1) sb = I_place s ch sb + I_width ch sb).
  { unfold I_place. rewrite (proj2 (Z.ltb_lt _ _)), (sum_succ _ ch) by lia. lia. }
  destruct (I_places s (ch + 1) sb Hs ltac:(lia) ltac:(lia)) as (_ & HA & _ & H2 & H3 & H4). destruct (HA ltac:(lia)) as [H5 H6].
  destruct (Z.eqb_spec (I_width ch sb) 0) as [Hz|Hnz]; cbn [negb].
  - apply wp_set_sample; [done|lia|lia|lia|]. intros a Hsa Hg. split_and!; [by rewrite Hnext, Hz, Z.add_0_r|done|].
    eapply I_samples_step; [done|lia|done|exact Hd| | |done|exact Hg]; [|lia]. unfold I_value. by rewrite Hz.
  - pose proof (I_width_range ch sb) as Hr. assert (I_width ch sb <> 16) by (unfold I_width in *; destruct (I_code ch sb =? 0); lia).
    wp_step. eapply wp_I_sample; [exact Hp|lia|lia|]. intros bp r Hp' Hnum Hrr.
    eapply wp_I_store; [apply Hf; (done || lia)|apply I_scf_range|done|done|lia|lia|lia|]. intros v a Hv Hvr Hsa Hg.
    split_and!; [by rewrite Hnext|done|]. eapply I_samples_step; [done|lia|done|exact Hd| |done|done|exact Hg].
    unfold I_value. rewrite (proj2 (Z.eqb_neq _ _) Hnz). by rewrite Hnum.
Qed.

(** A subband that both channels share. *)
Lemma wp_I_high a0 s sb x : 0 <= s < 12 -> bound <= sb < 32 ->
  at_pos buf x (I_place s 0 sb) -> I_ready x -> I_samples_to s sb 0 a0 (ly_sb x) ->
  wp (let* nb := get_alloc 0 sb in
      if negb (nb =? 0) then let* sample := I_sample buf nb in for_range 0 (Z.to_nat nch) (I_store s sb sample)
      else for_range 0 (Z.to_nat nch) (fun ch => set_sample ch s sb 0))
    (fun _ x' => at_pos buf x' (I_place s 0 (sb + 1)) /\ I_ready x' /\ I_samples_to s sb nch a0 (ly_sb x')) x.
Proof.
  intros Hs Hsb Hp [Ha Hf] Hd. destruct (Ha 0 sb ltac:(lia) ltac:(lia) ltac:(lia)) as [H15 Hw].
  wp_step. eapply wp_get_alloc; [exact Hw|].
  destruct (I_places s 0 sb Hs ltac:(lia) ltac:(lia)) as (_ & _ & HB & H2 & H3 & H4). destruct (HB ltac:(lia)) as [H5 _].
  assert (Hsame : forall ch, I_place s ch sb = I_place s 0 sb) by (intros ch; unfold I_place; by rewrite (proj2 (Z.ltb_ge _ _)) by lia).
  assert (Hloop : forall (body : Z -> M lay_t unit) x1, at_pos buf x1 (I_place s 0 (sb + 1)) -> I_ready x1 -> I_samples_to s sb 0 a0 (ly_sb x1) ->
    (forall ch x2, 0 <= ch < nch -> ly_alloc x2 = ly_alloc x1 -> ly_scf x2 = ly_scf x1 -> I_samples_to s sb ch a0 (ly_sb x2) ->
       wp (body ch) (fun _ x3 => exists v a, x3 = set_ly_sb a x2 /\ I_value s ch sb = Some v /\ - 1073741824 <= v <= 1073741824 /\ shape a /\
         (forall ch' s' sb', sample_get a ch' s' sb' = if decide (ch' = ch /\ s' = s /\ sb' = sb) then Some v else sample_get (ly_sb x2) ch' s' sb')) x2) ->
    wp (for_range 0 (Z.to_nat nch) body) (fun _ x' => at_pos buf x' (I_place s 0 (sb + 1)) /\ I_ready x' /\ I_samples_to s sb nch a0 (ly_sb x')) x1).
  { intros body x1 Hp1 Hr1 Hd1 Hb. set (I ch x' := ly_ptr x' = ly_ptr x1 /\ ly_alloc x' = ly_alloc x1 /\ ly_scf x' = ly_scf x1 /\ I_samples_to s sb ch a0 (ly_sb x')).
    eapply wp_mono; [|apply (wp_for_range I); [|done]].
    - intros [] x' (E1 & E2 & E3 & Hd'). rewrite Z2Nat.id in Hd' by lia. unfold at_pos, I_ready, I_allocated, I_alloc_to, I_scf_to, alloc_at, scf_at in *. by rewrite E1, E2, E3.
    - intros ch x2 Hch (E1 & E2 & E3 & Hd2). rewrite Z2Nat.id in Hch by lia. eapply wp_mono; [|apply Hb; (done || lia)].
      intros [] x3 (v & a & -> & Hv & Hvr & Hsa & Hg). unfold I. cbn. split_and!; try done. eapply I_samples_step; try done; lia. }
  assert (Hwc : forall ch, I_width ch sb = I_width 0 sb) by (intros ch; apply I_high_width; lia).
  destruct (Z.eqb_spec (I_width 0 sb) 0) as [Hz|Hnz]; cbn [negb].
  - apply Hloop; [by rewrite <- H5, Hz, Z.add_0_r|done|done|]. intros ch x2 Hch _ _ (Hsh & _). apply wp_set_sample; [done|lia|lia|lia|].
    intros a Hsa Hg. exists 0, a. split_and!; try done. unfold I_value. by rewrite Hwc, Hz.
  - pose proof (I_width_range 0 sb) as Hr. assert (I_width 0 sb <> 16) by (unfold I_width in *; destruct (I_code 0 sb =? 0); lia).
    wp_step. eapply wp_I_sample; [exact Hp|lia|lia|]. intros bp r Hp' Hnum Hrr. apply Hloop; [by rewrite <- H5|done|done|].
    intros ch x2 Hch _ E3 (Hsh & _). eapply wp_I_store; [unfold scf_at; rewrite E3; apply Hf; rewrite ?Hwc; (done || lia)|apply I_scf_range|done|done|lia|lia|lia|].
    intros v a Hv Hvr Hsa Hg. exists v, a. split_and!; try done; try lia. unfold I_value. rewrite Hwc, (proj2 (Z.eqb_neq _ _) Hnz), Hsame. by rewrite Hnum.
Qed.

Lemma wp_I_samples a0 s x : 0 <= s < 12 -> at_pos buf x (I_place s 0 0) -> I_ready x -> I_samples_to s 0 0 a0 (ly_sb x) ->
  wp (I_samples buf nch bound s) (fun _ x' => at_pos buf x' (I_place (s + 1) 0 0) /\ I_ready x' /\ I_samples_to (s + 1) 0 0 a0 (ly_sb x')) x.
Proof.
  intros Hs Hp Hr Hd. unfold I_samples. wp_step.
  set (I sb ch x' := at_pos buf x' (I_place s ch sb) /\ I_ready x' /\ I_samples_to s sb ch a0 (ly_sb x')).
  assert (Hrow : forall sb a, I_samples_to s sb nch a0 a -> I_samples_to s (sb + 1) 0 a0 a).
  { intros sb a Ha. eapply I_samples_mono; [exact Ha|]. unfold I_before. lia. }
  eapply wp_mono; [|apply (wp_for_cells I)].
  2: { intros sb ch x1 Hsb Hch (Hp1 & Hr1 & Hd1). rewrite Z2Nat.id in * by lia. apply wp_I_low; (done || lia). }
  2: { intros sb x1 Hsb (Hp1 & Hr1 & Hd1). rewrite Z2Nat.id in * by lia. unfold I. split_and!; [|done|by apply Hrow].
       destruct (I_places s 0 sb Hs ltac:(lia) ltac:(lia)) as (_ & HA & _). destruct (HA ltac:(lia)) as [_ <-]. done. }
  2: done.
  intros [] x1. rewrite Z2Nat.id, Z.add_0_l by lia. intros Hi1.
  eapply wp_mono; [|apply (wp_for_range (fun sb => I sb 0)); [|exact Hi1]].
  - intros [] x2 (Hp2 & Hr2 & Hd2). unfold upto in *. rewrite Z2Nat.id in * by lia. replace (bound + (32 - bound)) with 32 in * by lia.
    destruct (I_places s 0 0 Hs ltac:(lia) ltac:(lia)) as (_ & _ & _ & _ & E & _). rewrite <- E. split_and!; [done|done|].
    eapply I_samples_mono; [exact Hd2|]. unfold I_before. lia.
  - intros sb x2 Hsb (Hp2 & Hr2 & Hd2). unfold upto in *. rewrite Z2Nat.id in * by lia. eapply wp_mono; [|apply (wp_I_high a0); (done || lia)].
    intros [] x3 (Hp3 & Hr3 & Hd3). unfold I. split_and!; [done|done|by apply Hrow].
Qed.

(** The data of a frame. *)
Lemma wp_I_data x : at_pos buf x p -> length (ly_alloc x) = 64%nat -> length (ly_scf x) = 64%nat -> shape (ly_sb x) ->
  wp (I_data buf nch bound) (fun ok x' =>
    if ok : bool then (forall ch sb, 0 <= ch < nch -> 0 <= sb < 32 -> I_code ch sb <> 15) /\ at_pos buf x' I_end /\ I_samples_to 12 0 0 (ly_sb x) (ly_sb x')
    else I_forbidden x x') x.
Proof.
  intros Hp Hla Hls Hsh. unfold I_data. wp_step. eapply wp_mono; [|by apply wp_I_allocations]. intros [] x1; [|intros Hf; by wp_step].
  intros (Hp1 & (_ & Hs1 & Hb1) & Ha1). wp_step. eapply wp_mono; [|apply wp_I_scalefactors; [done|done|by rewrite Hs1]].
  intros [] x2 (Hp2 & Ha2 & Hf2 & Hb2). wp_step. rewrite Hb1 in Hb2.
  set (I s x' := at_pos buf x' (I_place s 0 0) /\ I_ready x' /\ I_samples_to s 0 0 (ly_sb x) (ly_sb x')).
  eapply wp_mono; [|apply (wp_for_range I)].
  - intros [] x3 (Hp3 & Hr3 & Hd3). wp_step. split_and!; [|done|done]. intros ch sb ? ?. apply (Ha1 ch sb); lia.
  - intros s x3 Hs (Hp3 & Hr3 & Hd3). apply wp_I_samples; (done || lia).
  - unfold I. split_and!; [|done|]. { unfold I_place. rewrite sum_0. destruct (0 <? bound); rewrite ?sum_0, Z.mul_0_l, !Z.add_0_r; done. }
    rewrite Hb2. split_and!; [done| |done]. unfold I_before. lia.
Qed.
End LayerI.

(** ** Layer II *)

Section LayerII.
Context `{T : Target} `{FP : Fpm} (buf : list Z) (p0 : Z).
Implicit Types x : lay_t.

(** At least [n] bits are left, and the place is not before [p0]. *)
Definition left_bits x (n : Z) : Prop := bp_ok buf (ly_ptr x) /\ p0 <= bp_pos (ly_ptr x) <= 8 * zlen buf - n.

Lemma wp_bits_left n k (Q : Z -> lay_t -> Prop) x : left_bits x n -> 1 <= k <= 32 -> k <= n ->
  (forall v bp, 0 <= v < 2 ^ k -> left_bits (set_ly_ptr bp x) (n - k) -> Q v (set_ly_ptr bp x)) -> wp (bits buf k) Q x.
Proof.
  intros [Hok Hl] Hk Hn HQ. eapply wp_bits; [by split|done|lia|]. intros bp [Hok' Hp]. apply HQ; [apply bit_field_range; lia|]. split; [done|cbn in *; lia].
Qed.

(** The classes of the table: [nb] bits of a sample, whose largest code is [top]. *)
Definition qc_nb (q : quantclass) : Z := if negb (qc_group q =? 0) then qc_group q else qc_bits q.
Definition qc_top (q : quantclass) : Z := if negb (qc_group q =? 0) then qc_nlevels q - 1 else 2 ^ qc_bits q - 1.
Definition qc_ok (q : quantclass) : bool :=
  (2 <=? qc_nb q) && (qc_nb q <=? 16) && (qc_top q <? 2 ^ qc_nb q) && (1 <=? qc_bits q) && (qc_bits q <=? 16) && (1 <=? qc_nlevels q) &&
  (0 <=? qc_C q) && (qc_C q <=? 536870912) && (0 <=? qc_D q) &&
  ((qc_top q - 2 ^ (qc_nb q - 1)) * 2 ^ (29 - qc_nb q) + qc_D q <=? 268435456).

Lemma qc_table_ok : forallb qc_ok qc_table = true.
Proof. vm_compute. reflexivity. Qed.

Lemma wp_II_codes q n (Q : Z * Z * Z -> lay_t -> Prop) x : qc_ok q = true -> left_bits x n -> 48 <= n ->
  (forall a b c bp, 0 <= a <= qc_top q -> 0 <= b <= qc_top q -> 0 <= c <= qc_top q -> left_bits (set_ly_ptr bp x) (n - 48) -> Q (a, b, c) (set_ly_ptr bp x)) ->
  wp (II_codes buf q) Q x.
Proof.
  intros Hq Hl Hn HQ. unfold qc_ok in Hq. rewrite !andb_true_iff, !Z.leb_le in Hq. unfold II_codes, qc_top in *. destruct (qc_group q =? 0); cbn [negb] in *.
  - wp_step. eapply wp_bits_left; [exact Hl|lia|lia|]. intros a bp1 Ha Hl1. wp_step. eapply wp_bits_left; [exact Hl1|lia|lia|]. intros b bp2 Hb Hl2.
    wp_step. eapply wp_bits_left; [exact Hl2|lia|lia|]. intros c bp3 Hc [Hok Hl3]. wp_step. apply (HQ a b c bp3); [lia|lia|lia|]. split; [done|]. cbn in *. lia.
  - wp_step. eapply wp_bits_left; [exact Hl|lia|lia|]. intros c bp Hc [Hok Hl1]. wp_step. set (m := qc_nlevels q) in *.
    assert (Hm : forall y, 0 <= y -> 0 <= y mod m <= m - 1) by (intros y Hy; pose proof (Z.mod_pos_bound y m); lia).
    apply HQ; [apply Hm; lia|apply Hm, Z.div_pos; lia|apply Hm, Z.div_pos; [apply Z.div_pos|]; lia|]. split; [done|]. cbn in *. lia.
Qed.

Lemma wp_II_requantize q v (Q : Z -> lay_t -> Prop) x : qc_ok q = true -> 0 <= v <= qc_top q ->
  (forall r, mad_f_mul ((v - 2 ^ (qc_nb q - 1)) * 2 ^ (29 - qc_nb q) + qc_D q) (qc_C q) = Some r -> - 536870912 <= r <= 536870912 -> Q r x) ->
  wp (II_requantize q v) Q x.
Proof.
  intros Hq Hv HQ. unfold qc_ok in Hq. rewrite !andb_true_iff, !Z.leb_le, Z.ltb_lt in Hq. unfold II_requantize. fold (qc_nb q).
  destruct (pow2_split (qc_nb q) ltac:(lia)) as (Hs & Ha & Hb & _).
  assert (Hx : - 268435456 <= (v - 2 ^ (qc_nb q - 1)) * 2 ^ (29 - qc_nb q) + qc_D q <= 268435456) by nia.
  destruct (mul_range 1 _ (qc_C q) ltac:(lia) Hx ltac:(lia)) as (r & Hm & Hr).
  wp_step. eapply wp_lift; [rewrite to_fixed_value by lia; apply fits_32; lia|]. eapply wp_lift; [exact Hm|]. apply HQ; [done|lia].
Qed.

Lemma wp_II_samples q n (Q : Z * Z * Z -> lay_t -> Prop) x : qc_ok q = true -> left_bits x n -> 48 <= n ->
  (forall a b c bp, (forall r, In r [a; b; c] -> - 536870912 <= r <= 536870912) -> left_bits (set_ly_ptr bp x) (n - 48) -> Q (a, b, c) (set_ly_ptr bp x)) ->
  wp (II_samples buf q) Q x.
Proof.
  intros Hq Hl Hn HQ. unfold II_samples. wp_step. eapply wp_II_codes; [done|exact Hl|done|]. intros a b c bp Ha Hb Hc Hl'.
  wp_step. apply wp_II_requantize; [done|done|]. intros r1 _ H1. wp_step. apply wp_II_requantize; [done|done|]. intros r2 _ H2.
  wp_step. apply wp_II_requantize; [done|done|]. intros r3 _ H3. wp_step. apply HQ; [|done]. intros r [<-|[<-|[<-|[]]]]; done.
Qed.

(** *** The tables *)

Definition sbq_ok (t : Z * list Z) : bool :=
  (8 <=? t.1) && (t.1 <=? 30) &&
  forallb (fun sb => match zget t.2 sb with
    | Some i => match zget bitalloc_table i with
        | Some (nbal, off) => (2 <=? nbal) && (nbal <=? 4) &&
            match zget offset_table off with
            | Some row => (zlen row =? 15) && forallb (fun i => (0 <=? i) && (i <? 17)) row
            | None => false end
        | None => false end
    | None => false end) (map Z.of_nat (seq 0 (Z.to_nat t.1))).

Lemma sbquant_table_ok : forallb sbq_ok sbquant_table = true.
Proof. vm_compute. reflexivity. Qed.

Lemma forallb_zget {A} (f : A -> bool) l i y : forallb f l = true -> zget l i = Some y -> f y = true.
Proof. intros Hl Hy. apply (zget_Forall (fun y => f y = true) l i y); [|done]. apply Forall_forall. intros z Hz. rewrite forallb_forall in Hl. by apply Hl. Qed.

Context (nch bound sblimit : Z) (offsets : list Z) (Hq : sbq_ok (sblimit, offsets) = true)
  (Hnch : nch = 1 \/ nch = 2) (Hbound : 0 <= bound <= sblimit) (Hone : bound < sblimit -> nch = 2).

Lemma sblimit_range : 8 <= sblimit <= 30.
Proof. unfold sbq_ok in Hq. rewrite !andb_true_iff, !Z.leb_le in Hq. cbn in Hq. lia. Qed.

Lemma II_row sb : 0 <= sb < sblimit -> exists i nbal off row, zget offsets sb = Some i /\ zget bitalloc_table i = Some (nbal, off) /\ 2 <= nbal <= 4 /\
  zget offset_table off = Some row /\ forall v, 1 <= v <= 15 -> exists k q, zget row (v - 1) = Some k /\ zget qc_table k = Some q /\ qc_ok q = true.
Proof.
  intros Hsb. unfold sbq_ok in Hq. rewrite !andb_true_iff in Hq. destruct Hq as (_ & Hf). cbn [fst snd] in Hf. rewrite forallb_forall in Hf.
  assert (Hin : In sb (map Z.of_nat (seq 0 (Z.to_nat sblimit)))) by (apply in_map_iff; exists (Z.to_nat sb); rewrite in_seq; lia). specialize (Hf sb Hin).
  destruct (zget offsets sb) as [i|] eqn:E1; [|done].
  destruct (zget bitalloc_table i) as [[nbal off]|] eqn:E2; [|done]. rewrite !andb_true_iff, !Z.leb_le in Hf. destruct Hf as (Hn & Hf).
  destruct (zget offset_table off) as [row|] eqn:E3; [|done]. rewrite andb_true_iff, Z.eqb_eq in Hf. destruct Hf as (Hl & Hr).
  exists i, nbal, off, row. split_and!; try done; try lia. intros v Hv. destruct (zget_some row (v - 1)) as [k Hk]; [lia|].
  pose proof (forallb_zget _ _ _ _ Hr Hk) as Hkr. cbn in Hkr. rewrite andb_true_iff, Z.leb_le, Z.ltb_lt in Hkr.
  destruct (zget_some qc_table k) as [q Hqk]; [change (zlen qc_table) with 17; lia|]. exists k, q. split_and!; [done|done|]. by apply (forallb_zget _ _ _ _ qc_table_ok Hqk).
Qed.

(** *** The arrays *)

Definition scfsi_at x ch sb := cell_get (ly_scfsi x) (at2 ch sb).
Definition scf3_at x ch sb k := cell_get (ly_scf x) (at3 ch sb k).
Definition typed (a : list (list (list Z))) : Prop :=
  shape a /\ forall ch s sb v, sample_get a ch s sb = Some v -> - 1073741824 <= v <= 1073741824.

(** The subbands below [n], and [m] channels of the next one *)
Definition upto_cell (n m ch sb : Z) : Prop := 0 <= ch < nch /\ 0 <= sb < sblimit /\ (sb < n \/ (sb = n /\ ch < m)).
Definition alloc_typed (n m : Z) x : Prop := length (ly_alloc x) = 64%nat /\
  forall ch sb, upto_cell n m ch sb -> exists v, alloc_at x ch sb = Some v /\ 0 <= v <= 15 /\ (bound <= sb -> alloc_at x 0 sb = Some v).
Definition scfsi_typed (n m : Z) x : Prop := length (ly_scfsi x) = 64%nat /\
  forall ch sb, upto_cell n m ch sb -> alloc_at x ch sb <> Some 0 -> exists v, scfsi_at x ch sb = Some v /\ 0 <= v <= 3.
Definition scf_typed (n m : Z) x : Prop := length (ly_scf x) = 192%nat /\
  forall ch sb k, upto_cell n m ch sb -> 0 <= k < 3 -> alloc_at x ch sb <> Some 0 -> exists v, scf3_at x ch sb k = Some v /\ 0 <= v < 64.

Lemma wp_set_scfsi ch sb v (Q : unit -> lay_t -> Prop) x : length (ly_scfsi x) = 64%nat -> 0 <= ch < 2 -> 0 <= sb < 32 ->
  (forall a, length a = 64%nat -> cell_get a (at2 ch sb) = Some v ->
     (forall ch' sb', 0 <= ch' < 2 -> 0 <= sb' < 32 -> (ch' <> ch \/ sb' <> sb) -> cell_get a (at2 ch' sb') = scfsi_at x ch' sb') ->
     Q tt (set_ly_scfsi a x)) -> wp (set_scfsi ch sb v) Q x.
Proof.
  intros Hl Hch Hsb HQ. destruct (cell_set2 (ly_scfsi x) ch sb v) as (a & Hs & Hl' & Hg & Hne); [done..|].
  unfold set_scfsi. wp_step; wp_step. wp_step. eapply wp_lift; [exact Hs|]. wp_step. by apply HQ.
Qed.

Lemma wp_set_scf3 ch sb k v (Q : unit -> lay_t -> Prop) x : length (ly_scf x) = 192%nat -> 0 <= ch < 2 -> 0 <= sb < 32 -> 0 <= k < 3 ->
  (forall a, length a = 192%nat ->
     (forall ch' sb' k', 0 <= ch' < 2 -> 0 <= sb' < 32 -> 0 <= k' < 3 ->
        cell_get a (at3 ch' sb' k') = if decide (ch' = ch /\ sb' = sb /\ k' = k) then Some v else scf3_at x ch' sb' k') ->
     Q tt (set_ly_scf a x)) -> wp (set_scf (at3 ch sb k) v) Q x.
Proof.
  intros Hl Hch Hsb Hk HQ. destruct (cell_set_ok (ly_scf x) (96 * ch + 3 * sb + k) v) as (a & Hs & Hl' & Hg); [unfold zlen; lia|].
  unfold set_scf. rewrite at3_in by done. wp_step; wp_step. wp_step. eapply wp_lift; [exact Hs|]. wp_step. apply HQ; [lia|].
  intros ch' sb' k' ? ? ?. unfold scf3_at. rewrite !at3_in by done. rewrite Hg. by destruct (decide _), (decide _); try lia.
Qed.

(** *** The loops *)

Lemma wp_bitalloc sb (Q : Z * Z -> lay_t -> Prop) x : 0 <= sb < sblimit ->
  (forall nbal off row, 2 <= nbal <= 4 -> zget offset_table off = Some row ->
     (forall v, 1 <= v <= 15 -> exists k q, zget row (v - 1) = Some k /\ zget qc_table k = Some q /\ qc_ok q = true) -> Q (nbal, off) x) ->
  wp (bitalloc offsets sb) Q x.
Proof.
  intros Hsb HQ. destruct (II_row sb Hsb) as (i & nbal & off & row & E1 & E2 & Hn & E3 & Hr).
  unfold bitalloc. wp_step. eapply wp_lift; [exact E1|]. eapply wp_lift; [exact E2|]. by apply (HQ nbal off row).
Qed.

Lemma wp_II_class sb v (Q : quantclass -> lay_t -> Prop) x : 0 <= sb < sblimit -> 1 <= v <= 15 ->
  (forall q, qc_ok q = true -> Q q x) -> wp (II_class offsets sb v) Q x.
Proof.
  intros Hsb Hv HQ. unfold II_class. wp_step. apply wp_bitalloc; [done|]. intros nbal off row _ E3 Hr. destruct (Hr v Hv) as (k & q & E4 & E5 & Hok).
  wp_step. eapply wp_lift; [exact E3|]. wp_step. eapply wp_lift; [exact E4|]. eapply wp_lift; [exact E5|]. by apply HQ.
Qed.

Lemma pow2_nbal nbal : 2 <= nbal <= 4 -> 2 ^ nbal <= 16.
Proof. intros Hn. change 16 with (2 ^ 4). apply Z.pow_le_mono_r; lia. Qed.

Lemma upto_cell_next n m ch sb : upto_cell n (m + 1) ch sb -> (ch = m /\ sb = n) \/ upto_cell n m ch sb.
Proof. unfold upto_cell. lia. Qed.

Lemma alloc_typed_set n m v a x : alloc_typed n m x -> 0 <= v <= 15 -> length a = 64%nat -> 0 <= n < bound ->
  cell_get a (at2 m n) = Some v ->
  (forall ch' sb', 0 <= ch' < 2 -> 0 <= sb' < 32 -> (ch' <> m \/ sb' <> n) -> cell_get a (at2 ch' sb') = alloc_at x ch' sb') ->
  alloc_typed n (m + 1) (set_ly_alloc a x).
Proof.
  intros [_ Ha] Hv Hl Hn Hg Hne. pose proof sblimit_range. split; [done|]. intros ch sb Hc. apply upto_cell_next in Hc as [[-> ->]|Hc]; [exists v; split_and!; [done|lia|lia|lia]|].
  destruct (Ha ch sb Hc) as (w & Hw & Hr & _). exists w. unfold upto_cell in Hc. split; [|lia]. unfold alloc_at. cbn. rewrite Hne; [done|lia|lia|lia].
Qed.

Lemma wp_II_allocations N x : left_bits x N -> 240 <= N -> length (ly_alloc x) = 64%nat ->
  wp (II_allocations buf offsets nch bound sblimit) (fun _ x' => left_bits x' (N - 240) /\ alloc_typed sblimit 0 x' /\
    ly_scfsi x' = ly_scfsi x /\ ly_scf x' = ly_scf x /\ ly_sb x' = ly_sb x) x.
Proof.
  intros Hl HN Hla. pose proof sblimit_range as Hlim. unfold II_allocations. wp_step.
  set (I n m x' := left_bits x' (N - 8 * n - 4 * m) /\ alloc_typed n m x' /\ ly_scfsi x' = ly_scfsi x /\ ly_scf x' = ly_scf x /\ ly_sb x' = ly_sb x).
  assert (Hnext : forall n x', I n nch x' -> I (n + 1) 0 x').
  { intros n x' ([Hok Hb] & [Hl' Ha] & Ho). split; [split; [done|lia]|]. split; [|done]. split; [done|]. intros ch sb Hc. apply Ha. unfold upto_cell in *. lia. }
  eapply wp_mono; [|apply (wp_for_range (fun n => I n 0))].
  - intros [] x1. rewrite Z2Nat.id, Z.add_0_l by lia. intros Hi1. eapply wp_mono; [|apply (wp_for_range (fun n => I n 0)); [|exact Hi1]].
    + intros [] x2 ([Hok Hb] & Ha & Ho). unfold upto in *. rewrite Z2Nat.id in * by lia. replace (bound + (sblimit - bound)) with sblimit in * by lia.
      split; [split; [done|lia]|done].
    + intros sb x2 Hsb (Hl2 & Ha2 & Ho2). unfold upto in Hsb. rewrite Z2Nat.id in Hsb by lia. wp_step. apply wp_bitalloc; [lia|].
      intros nbal off row Hn _ _. wp_step. eapply wp_bits_left; [exact Hl2|lia|lia|]. intros v bp Hv [Hok Hl3]. pose proof (pow2_nbal nbal Hn).
      pose proof Ha2 as [Hla2 Ha2']. wp_step. apply wp_set_alloc; [done|lia|lia|]. intros a Hla3 Hg1 Hn1. apply wp_set_alloc; [done|lia|lia|].
      intros a2 Hla4 Hg2 Hn2. split; [split; [done|cbn in *; lia]|]. split; [|done]. split; [done|]. intros ch sb' Hc. unfold alloc_at. cbn.
      unfold upto_cell in Hc. unfold alloc_at in *. cbn in *. destruct (decide (sb' = sb)) as [->|Hne].
      * exists v. split; [|split; [lia|done]]. destruct (decide (ch = 0)) as [->|?]; [done|]. replace ch with 1 by lia. rewrite Hn2 by lia. done.
      * destruct (Ha2' ch sb') as (w & Hw & Hr & Hs); [unfold upto_cell; lia|]. exists w.
        rewrite !Hn2 by lia. rewrite !Hn1 by lia. done.
  - intros sb x1 Hsb Hi1. rewrite Z2Nat.id in Hsb by lia. wp_step. apply wp_bitalloc; [lia|]. intros nbal off row Hn _ _.
    eapply wp_mono; [|apply (wp_for_range (I sb)); [|exact Hi1]].
    + intros [] x2 Hi2. rewrite Z2Nat.id in Hi2 by lia. by apply Hnext.
    + intros ch x2 Hch (Hl2 & Ha2 & Ho2). rewrite Z2Nat.id in Hch by lia. wp_step. eapply wp_bits_left; [exact Hl2|lia|lia|].
      intros v bp Hv [Hok Hl3]. pose proof (pow2_nbal nbal Hn). pose proof Ha2 as [Hla2 _]. apply wp_set_alloc; [done|lia|lia|]. intros a Hla3 Hg1 Hn1.
      split; [split; [done|cbn in *; lia]|]. split; [|done]. apply (alloc_typed_set sb ch v a (set_ly_ptr bp x2)); [exact Ha2|lia|done|lia|done|done].
  - split; [by replace (N - 8 * 0 - 4 * 0) with N by lia|]. split; [|done]. split; [done|]. unfold upto_cell. lia.
Qed.

Lemma wp_II_scfsi N x : left_bits x N -> 120 <= N -> alloc_typed sblimit 0 x -> length (ly_scfsi x) = 64%nat ->
  wp (II_scfsi buf nch sblimit) (fun _ x' => left_bits x' (N - 120) /\ alloc_typed sblimit 0 x' /\ scfsi_typed sblimit 0 x' /\ ly_scf x' = ly_scf x /\ ly_sb x' = ly_sb x) x.
Proof.
  intros Hl HN Ha Hls. pose proof sblimit_range as Hlim. unfold II_scfsi.
  set (I n m x' := left_bits x' (N - 4 * n - 2 * m) /\ alloc_typed sblimit 0 x' /\ scfsi_typed n m x' /\ ly_scf x' = ly_scf x /\ ly_sb x' = ly_sb x).
  eapply wp_mono; [|apply (wp_for_cells I)].
  - intros [] x'. rewrite Z2Nat.id, Z.add_0_l by lia. intros ([Hok Hb] & Ho). split; [split; [done|lia]|done].
  - intros sb ch x1 Hsb Hch (Hl1 & Ha1 & Hs1 & Ho1). rewrite Z2Nat.id in * by lia. pose proof Ha1 as [_ Ha1']. destruct (Ha1' ch sb) as (v & Hv & Hvr & Hsame); [unfold upto_cell; lia|].
    wp_step. eapply wp_get_alloc; [exact Hv|]. apply wp_when; intros Hz.
    + wp_step. eapply wp_bits_left; [exact Hl1|lia|lia|]. intros w bp Hw [Hok Hl2]. pose proof Hs1 as [Hls1 Hs1']. apply wp_set_scfsi; [done|lia|lia|]. intros a Hla Hg Hne.
      split; [split; [done|cbn in *; lia]|]. split; [done|]. split; [|done]. split; [done|]. intros ch' sb' Hc Hnz. apply upto_cell_next in Hc as [[-> ->]|Hc].
      * exists w. split; [done|]. change (2 ^ 2) with 4 in Hw. lia.
      * destruct (Hs1' ch' sb' Hc Hnz) as (u & Hu & Hur). exists u. split; [|done]. unfold upto_cell in Hc. unfold scfsi_at. cbn. destruct (decide (ch' = ch /\ sb' = sb)); [lia|]. rewrite Hne; [done|lia|lia|lia].
    + assert (v = 0) as -> by (destruct (Z.eqb_spec v 0); [done|discriminate Hz]). destruct Hl1 as [Hok Hb1]. split; [split; [done|lia]|]. split; [done|]. split; [|done].
      destruct Hs1 as [Hls1 Hs1]. split; [done|]. intros ch' sb' Hc Hnz. apply upto_cell_next in Hc as [[-> ->]|Hc]; [done|]. by apply Hs1.
  - intros sb x1 Hsb ([Hok Hb] & Ha1 & [Hl1 Hs1] & Ho1). rewrite Z2Nat.id in * by lia. split; [split; [done|lia]|]. split; [done|]. split; [|done]. split; [done|].
    intros ch' sb' Hc. apply Hs1. unfold upto_cell in *. lia.
  - split; [by replace (N - 4 * 0 - 2 * 0) with N by lia|]. split; [done|]. split; [|done]. split; [done|]. unfold upto_cell. lia.
Qed.

(** The scalefactors of a subband: all three are set, others stay. *)
Definition scf_others (ch sb : Z) x (a : cells) : Prop :=
  forall ch' sb' k, 0 <= ch' < 2 -> 0 <= sb' < 32 -> 0 <= k < 3 -> ch' <> ch \/ sb' <> sb -> cell_get a (at3 ch' sb' k) = scf3_at x ch' sb' k.
Definition scf_valid (a : cells) (ch sb k : Z) : Prop := exists v, cell_get a (at3 ch sb k) = Some v /\ 0 <= v < 64.
(** The state [x'] has the scalefactors [a], and is [x] otherwise but for [n] bits left. *)
Definition scf_state (ch sb : Z) x (n : Z) (a : cells) x' : Prop :=
  left_bits x' n /\ ly_alloc x' = ly_alloc x /\ ly_scfsi x' = ly_scfsi x /\ ly_sb x' = ly_sb x /\ ly_scf x' = a /\ length a = 192%nat /\ scf_others ch sb x a.
Definition scf_set (ch sb : Z) x (n : Z) x' : Prop :=
  exists a, scf_state ch sb x n a x' /\ forall k, 0 <= k < 3 -> scf_valid a ch sb k.

Section Scf.
Context (ch sb : Z) (Hch : 0 <= ch < 2) (Hsb : 0 <= sb < 32).

Lemma wp_scf_store x n a x1 k v (Q : unit -> lay_t -> Prop) : scf_state ch sb x n a x1 -> 0 <= k < 3 -> 0 <= v < 64 ->
  (forall a' x2, scf_state ch sb x n a' x2 -> scf_valid a' ch sb k -> (forall j, 0 <= j < 3 -> scf_valid a ch sb j -> scf_valid a' ch sb j) ->
     cell_get a' (at3 ch sb k) = Some v -> Q tt x2) -> wp (set_scf (at3 ch sb k) v) Q x1.
Proof.
  intros (Hl & E1 & E2 & E3 & E4 & Hla & Ho) Hk Hv HQ. apply wp_set_scf3; [by rewrite E4|done|done|done|]. unfold scf3_at. rewrite E4. intros a' Hla' Hg.
  assert (Hkk : cell_get a' (at3 ch sb k) = Some v) by by rewrite Hg, decide_True by lia.
  apply (HQ a'); [|by exists v| |done].
  - unfold scf_state. cbn. split_and!; try done. intros ch' sb' j ? ? ? ?. rewrite Hg, decide_False by lia. by apply Ho.
  - intros j Hj (w & Hw & Hwr). unfold scf_valid. rewrite Hg by lia. destruct (decide _); [by exists v|by exists w].
Qed.

Lemma wp_scf_read x n a x1 k (Q : unit -> lay_t -> Prop) : scf_state ch sb x n a x1 -> 6 <= n -> 0 <= k < 3 ->
  (forall a' x2, scf_state ch sb x (n - 6) a' x2 -> scf_valid a' ch sb k -> (forall j, 0 <= j < 3 -> scf_valid a ch sb j -> scf_valid a' ch sb j) -> Q tt x2) ->
  wp (let* v := bits buf 6 in set_scf (at3 ch sb k) v) Q x1.
Proof.
  intros (Hl & Hrest) Hn Hk HQ. wp_step. eapply wp_bits_left; [exact Hl|lia|lia|]. intros v bp Hv Hl1. change (2 ^ 6) with 64 in Hv.
  eapply (wp_scf_store x (n - 6) a); [by split|done|lia|]. intros a' x2 Hs2 Hval Hkeep _. by apply (HQ a').
Qed.

Lemma scf_state_left x n m a x1 : scf_state ch sb x n a x1 -> m <= n -> scf_state ch sb x m a x1.
Proof. intros ([Hok Hl] & Hr) Hm. split; [split; [done|lia]|done]. Qed.

Lemma wp_II_scf N si x : left_bits x N -> 18 <= N -> length (ly_scf x) = 192%nat -> scfsi_at x ch sb = Some si -> 0 <= si <= 3 ->
  wp (II_scf buf ch sb) (fun _ x' => scf_set ch sb x (N - 18) x') x.
Proof.
  intros Hl HN Hls Hsi Hr. unfold II_scf. wp_step. eapply wp_bits_left; [exact Hl|lia|lia|]. intros v0 bp Hv0 Hl1. change (2 ^ 6) with 64 in Hv0.
  wp_step. eapply (wp_scf_store x (N - 6) (ly_scf x) (set_ly_ptr bp x)); [by split_and!|lia|lia|]. intros a0 x0 Hs0 H0 _ Hg0.
  wp_step. unfold get_scfsi. do 2 wp_step. pose proof Hs0 as (_ & _ & E2 & _ & E4 & _). eapply wp_lift; [rewrite E2; exact Hsi|]. wp_step.
  assert (Hend : forall n a x1 (sj : Z), scf_state ch sb x n a x1 -> N - 18 <= n -> scf_valid a ch sb 0 -> scf_valid a ch sb 2 -> (Z.land sj 1 = 0 -> scf_valid a ch sb 1) -> 0 <= sj <= 3 ->
    wp (when (negb (Z.land sj 1 =? 0)) (let* v := get_scf (at3 ch sb (sj - 1)) in set_scf (at3 ch sb 1) v)) (fun _ x' => scf_set ch sb x (N - 18) x') x1).
  { intros n a x1 sj Hs1 Hn V0 V2 V1 Hsj. apply wp_when; intros Hodd.
    - assert (sj = 1 \/ sj = 3) as Hj by (assert (sj = 0 \/ sj = 1 \/ sj = 2 \/ sj = 3) as [->|[->|[->| ->]]] by lia; (discriminate Hodd || lia)).
      assert (scf_valid a ch sb (sj - 1)) as (w & Hw & Hwr) by (destruct Hj as [->| ->]; done). pose proof Hs1 as (_ & _ & _ & _ & E & _).
      wp_step. eapply wp_get_scf; [rewrite E; exact Hw|]. eapply wp_scf_store; [exact Hs1|lia|done|]. intros a' x2 Hs2 W1 Hk _. exists a'. split; [by eapply scf_state_left|].
      intros k Hk3. assert (k = 0 \/ k = 1 \/ k = 2) as [->|[->| ->]] by lia; [by apply Hk|done|by apply Hk].
    - exists a. split; [by eapply scf_state_left|]. intros k Hk3. assert (k = 0 \/ k = 1 \/ k = 2) as [->|[->| ->]] by lia; [done| |done].
      apply V1. destruct (Z.eqb_spec (Z.land sj 1) 0); [done|discriminate Hodd]. }
  destruct (Z.eqb_spec si 2) as [->|H2].
  - wp_step. eapply wp_get_scf; [rewrite E4; exact Hg0|]. wp_step. eapply wp_scf_store; [exact Hs0|lia|done|]. intros a1 x1 Hs1 H1 K1 _.
    eapply wp_scf_store; [exact Hs1|lia|done|]. intros a2 x2 Hs2 H3 K2 _. eapply Hend; [exact Hs2|lia|by apply K2, K1|done|intros _; by apply K2|lia].
  - replace ((si =? 0) || (si =? 1) || (si =? 3)) with true by (assert (si = 0 \/ si = 1 \/ si = 3) as [->|[->| ->]] by lia; done).
    wp_step. apply wp_when; intros Hz.
    + eapply wp_scf_read; [exact Hs0|lia|lia|]. intros a1 x1 Hs1 H1 K1. cbn [when]. eapply wp_scf_read; [exact Hs1|lia|lia|]. intros a2 x2 Hs2 H3 K2.
      eapply Hend; [exact Hs2|lia|by apply K2, K1|done|intros _; by apply K2|lia].
    + cbn [when]. eapply wp_scf_read; [exact Hs0|lia|lia|]. intros a1 x1 Hs1 H1 K1. eapply Hend; [exact Hs1|lia|by apply K1|done| |lia].
      intros Hev. assert (si = 0 \/ si = 1 \/ si = 3) as [->|[->| ->]] by lia; [discriminate Hz|discriminate Hev..].
Qed.
End Scf.

Lemma wp_II_scalefactors N x : left_bits x N -> 1080 <= N -> alloc_typed sblimit 0 x -> scfsi_typed sblimit 0 x -> length (ly_scf x) = 192%nat ->
  wp (II_scalefactors buf nch sblimit) (fun _ x' => left_bits x' (N - 1080) /\ alloc_typed sblimit 0 x' /\ scf_typed sblimit 0 x' /\ ly_sb x' = ly_sb x) x.
Proof.
  intros Hl HN Ha Hs Hls. pose proof sblimit_range as Hlim. unfold II_scalefactors.
  set (I n m x' := left_bits x' (N - 36 * n - 18 * m) /\ alloc_typed sblimit 0 x' /\ scfsi_typed sblimit 0 x' /\ scf_typed n m x' /\ ly_sb x' = ly_sb x).
  eapply wp_mono; [|apply (wp_for_cells I)].
  - intros [] x'. rewrite Z2Nat.id, Z.add_0_l by lia. intros ([Hok Hb] & ? & _ & ?). split; [split; [done|lia]|done].
  - intros sb ch x1 Hsb Hch (Hl1 & Ha1 & Hs1 & [Hf1 Hf1'] & Ho1). rewrite Z2Nat.id in * by lia. assert (Hc1 : upto_cell sblimit 0 ch sb) by (unfold upto_cell; lia).
    destruct (proj2 Ha1 ch sb Hc1) as (v & Hv & Hvr & Hsame). wp_step. eapply wp_get_alloc; [exact Hv|]. apply wp_when; intros Hz.
    + destruct (proj2 Hs1 ch sb Hc1) as (si & Hsi & Hsir). { rewrite Hv. intros [= ->]. discriminate Hz. }
      eapply wp_mono; [|apply (wp_II_scf ch sb ltac:(lia) ltac:(lia) (N - 36 * sb - 18 * ch) si); (done || lia)].
      intros [] x2 (a & ([Hok Hb] & E1 & E2 & E3 & E4 & Hl2 & Hoth) & Hset). split; [split; [done|lia]|].
      unfold alloc_typed, scfsi_typed, scf_typed, alloc_at, scfsi_at, scf3_at in *. rewrite E1, E2, E3, E4. split; [done|]. split; [done|]. split; [|done]. split; [done|].
      intros ch' sb' k Hc Hk Hnz. apply upto_cell_next in Hc as [[-> ->]|Hc]; [by apply Hset|]. destruct (decide (ch' = ch /\ sb' = sb)); [unfold upto_cell in Hc; lia|].
      rewrite Hoth; [by apply Hf1'|unfold upto_cell in Hc; lia..].
    + assert (v = 0) as -> by (destruct (Z.eqb_spec v 0); [done|discriminate Hz]). destruct Hl1 as [Hok Hb1]. split; [split; [done|lia]|]. split; [done|]. split; [done|]. split; [|done]. split; [done|].
      intros ch' sb' k Hc Hk Hnz. apply upto_cell_next in Hc as [[-> ->]|Hc]; [done|]. by apply Hf1'.
  - intros sb x1 Hsb ([Hok Hb] & Ha1 & Hs1 & [Hf1 Hf1'] & Ho1). rewrite Z2Nat.id in * by lia. split; [split; [done|lia]|]. split; [done|]. split; [done|]. split; [|done]. split; [done|].
    intros ch' sb' k Hc. apply Hf1'. unfold upto_cell in *. lia.
  - split; [by replace (N - 36 * 0 - 18 * 0) with N by lia|]. split; [done|]. split; [done|]. split; [|done]. split; [done|]. unfold upto_cell. lia.
Qed.

(** *** The samples *)

Lemma wp_set_sample_typed ch s sb v (Q : unit -> lay_t -> Prop) x : typed (ly_sb x) -> 0 <= ch < 2 -> 0 <= s < 36 -> 0 <= sb < 32 -> - 1073741824 <= v <= 1073741824 ->
  (forall a, typed a -> Q tt (set_ly_sb a x)) -> wp (set_sample ch s sb v) Q x.
Proof.
  intros [Hsh Ht] Hch Hs Hsb Hv HQ. apply wp_set_sample; [done..|]. intros a Hsa Hg. apply HQ. split; [done|].
  intros ch' s' sb' w. rewrite Hg. destruct (decide _); [intros [= <-]; done|apply Ht].
Qed.

(** What the loops over the samples keep. *)
Definition II_ready (n : Z) x : Prop := left_bits x n /\ alloc_typed sblimit 0 x /\ scf_typed sblimit 0 x /\ typed (ly_sb x).

Lemma II_ready_sb n a x : II_ready n x -> typed a -> II_ready n (set_ly_sb a x).
Proof. intros (? & ? & ? & ?) ?. by split_and!. Qed.
Lemma II_ready_left n m x : II_ready n x -> m <= n -> II_ready m x.
Proof. intros ([Hok Hl] & Hr) Hm. split; [split; [done|lia]|done]. Qed.

Lemma wp_II_store n gr sb a b c ch x : II_ready n x -> 0 <= gr < 12 -> upto_cell sblimit 0 ch sb -> alloc_at x ch sb <> Some 0 ->
  (forall r, In r [a; b; c] -> - 536870912 <= r <= 536870912) -> wp (II_store gr sb (a, b, c) ch) (fun _ x' => II_ready n x' /\ ly_alloc x' = ly_alloc x) x.
Proof.
  intros Hr Hgr Hc Hnz Hin. pose proof sblimit_range. pose proof Hc as (Hch & Hsb & _). assert (Hk : 0 <= gr / 4 < 3) by lia.
  assert (Hone1 : forall k r x1 (Q : unit -> lay_t -> Prop), 0 <= k < 3 -> In r [a; b; c] -> II_ready n x1 -> ly_alloc x1 = ly_alloc x ->
    (forall x2, II_ready n x2 -> ly_alloc x2 = ly_alloc x -> Q tt x2) ->
    wp (let* i := get_scf (at3 ch sb (gr / 4)) in let* f := sf i in let* v := mul r f in set_sample ch (3 * gr + k) sb v) Q x1).
  { intros k r x1 Q Hkk Hi Hr1 E HQ. pose proof Hr1 as (_ & _ & [_ Hs] & Ht). destruct (Hs ch sb (gr / 4) Hc Hk) as (i & Hgi & Hir); [unfold alloc_at; rewrite E; exact Hnz|].
    destruct (scaled_ok r i (Hin r Hi) Hir) as (v & Hv & Hvr). unfold scaled in Hv. destruct (zget sf_table i) as [f|] eqn:Hf; [|done].
    wp_step. eapply wp_get_scf; [exact Hgi|]. wp_step. eapply wp_lift; [exact Hf|]. wp_step. eapply wp_lift; [exact Hv|].
    apply wp_set_sample_typed; [done|lia|lia|lia|done|]. intros a' Ha'. apply HQ; [by apply II_ready_sb|done]. }
  unfold II_store. wp_step. apply Hone1; [lia|by left|done|done|]. intros x1 Hr1 E1. wp_step. apply Hone1; [lia|by right; left|done|done|]. intros x2 Hr2 E2.
  apply Hone1; [lia|by right; right; left|done|done|]. done.
Qed.

Lemma wp_zeros n (s : Z -> Z) (sb : Z -> Z) ch k lo x : II_ready n x -> 0 <= ch < nch -> (forall i, lo <= i < lo + Z.of_nat k -> 0 <= s i < 36 /\ 0 <= sb i < 32) ->
  wp (for_range lo k (fun i => set_sample ch (s i) (sb i) 0)) (fun _ x' => II_ready n x' /\ ly_alloc x' = ly_alloc x) x.
Proof.
  intros Hr Hch Hin. apply (wp_for_range (fun _ x' => II_ready n x' /\ ly_alloc x' = ly_alloc x)); [|done]. intros i x1 Hi [Hr1 E]. destruct (Hin i Hi) as [Hs Hsb].
  pose proof Hr1 as (_ & _ & _ & Ht). apply wp_set_sample_typed; [done|lia|lia|lia|lia|]. intros a Ha. split; [by apply II_ready_sb|done].
Qed.

(** One cell of a granule: its samples are stored by [store], for one channel or for both. *)
Lemma wp_II_cell n gr sb ch (store : Z * Z * Z -> M lay_t unit) zero x : II_ready n x -> 48 <= n -> 0 <= gr < 12 -> upto_cell sblimit 0 ch sb ->
  (forall a b c x1, II_ready (n - 48) x1 -> alloc_at x1 ch sb <> Some 0 -> (forall r, In r [a; b; c] -> - 536870912 <= r <= 536870912) -> ly_alloc x1 = ly_alloc x ->
     wp (store (a, b, c)) (fun _ x' => II_ready (n - 48) x') x1) ->
  wp zero (fun _ x' => II_ready (n - 48) x') x ->
  wp (let* index := get_alloc ch sb in
      if negb (index =? 0) then let* q := II_class offsets sb index in let* samples := II_samples buf q in store samples else zero)
    (fun _ x' => II_ready (n - 48) x') x.
Proof.
  intros Hr Hn Hgr Hc Hst Hz. pose proof Hr as (Hl & [Hla Ha] & Hs & Ht). destruct (Ha ch sb Hc) as (v & Hv & Hvr & Hsame). wp_step. eapply wp_get_alloc; [exact Hv|].
  destruct (Z.eqb_spec v 0) as [->|Hnz]; cbn [negb]; [done|]. pose proof Hc as (_ & Hsb & _). wp_step. apply wp_II_class; [lia|lia|]. intros q Hok.
  wp_step. eapply wp_II_samples; [done|exact Hl|done|]. intros a b c bp Hin Hl'. apply Hst; [by split_and!| |done|done]. unfold alloc_at in *. cbn. rewrite Hv. congruence.
Qed.

Lemma wp_II_granule n gr x : II_ready n x -> 2880 <= n -> 0 <= gr < 12 -> wp (II_granule buf offsets nch bound sblimit gr) (fun _ x' => II_ready (n - 2880) x') x.
Proof.
  intros Hr Hn Hgr. pose proof sblimit_range as Hlim. unfold II_granule. wp_step.
  set (I sb ch x' := II_ready (n - 96 * sb - 48 * ch) x').
  eapply wp_mono; [|apply (wp_for_cells I)].
  2: { intros sb ch x1 Hsb Hch Hi. rewrite Z2Nat.id in * by lia. unfold I. replace (n - 96 * sb - 48 * (ch + 1)) with (n - 96 * sb - 48 * ch - 48) by lia.
       apply (wp_II_cell (n - 96 * sb - 48 * ch) gr); [exact Hi|lia|done|unfold upto_cell; lia| |].
       - intros a b c x2 Hr2 Hnz Hin _. eapply wp_mono; [|apply (wp_II_store (n - 96 * sb - 48 * ch - 48)); [exact Hr2|done|unfold upto_cell; lia|done|done]]. by intros [] x3 [? _].
       - eapply wp_mono; [|apply (wp_zeros (n - 96 * sb - 48 * ch - 48) (fun k => 3 * gr + k) (fun _ => sb) ch 3 0); [by eapply II_ready_left; [exact Hi|lia]|lia|cbn; lia]]. by intros [] x3 [? _]. }
  2: { intros sb x1 Hsb Hi. rewrite Z2Nat.id in * by lia. eapply II_ready_left; [exact Hi|lia]. }
  2: { unfold I. by replace (n - 96 * 0 - 48 * 0) with n by lia. }
  intros [] x1 Hi1. rewrite Z2Nat.id, Z.add_0_l in Hi1 by lia. wp_step. eapply wp_mono; [|apply (wp_for_range (fun sb => I sb 0)); [|exact Hi1]].
  - intros [] x2 Hi2. unfold upto in Hi2. rewrite Z2Nat.id in Hi2 by lia. replace (bound + (sblimit - bound)) with sblimit in Hi2 by lia.
    apply (wp_for_range (fun _ x' => II_ready (n - 2880) x')); [|eapply II_ready_left; [exact Hi2|lia]]. intros ch x3 Hch Hr3. rewrite Z2Nat.id in Hch by lia.
    apply (wp_for_range (fun _ x' => II_ready (n - 2880) x')); [|done]. intros k x4 Hk Hr4.
    eapply wp_mono; [|apply (wp_zeros (n - 2880) (fun _ => 3 * gr + k) (fun sb => sb) ch); [done|lia|unfold upto; intros; lia]]. by intros [] x5 [? _].
  - intros sb x2 Hsb Hi2. unfold upto in Hsb. rewrite Z2Nat.id in Hsb by lia. unfold I in *. eapply wp_mono; [|apply (wp_II_cell (n - 96 * sb - 48 * 0) gr); [exact Hi2|lia|done|unfold upto_cell; lia| |]].
    + intros [] x3 Hr3. eapply II_ready_left; [exact Hr3|lia].
    + intros a b c x3 Hr3 Hnz Hin E. eapply wp_mono; [|apply (wp_for_range (fun _ x' => II_ready (n - 96 * sb - 48 * 0 - 48) x' /\ ly_alloc x' = ly_alloc x3)); [|done]]; [by intros [] x4 [? _]|].
      intros ch x4 Hch [Hr4 E4]. rewrite Z2Nat.id in Hch by lia. eapply wp_mono; [|apply (wp_II_store (n - 96 * sb - 48 * 0 - 48)); [exact Hr4|done|unfold upto_cell; lia| |done]].
      { intros [] x5 [? E5]. split; [done|congruence]. }
      destruct Hr4 as (_ & [_ Ha4] & _). destruct (Ha4 ch sb ltac:(unfold upto_cell; lia)) as (v & -> & _ & Hs0).
      rewrite <- (Hs0 ltac:(lia)). unfold alloc_at in *. by rewrite E4.
    + apply (wp_for_range (fun _ x' => II_ready (n - 96 * sb - 48 * 0 - 48) x')); [|eapply II_ready_left; [exact Hi2|lia]]. intros ch x3 Hch Hr3. rewrite Z2Nat.id in Hch by lia.
      eapply wp_mono; [|apply (wp_zeros (n - 96 * sb - 48 * 0 - 48) (fun k => 3 * gr + k) (fun _ => sb) ch 3 0); [done|lia|cbn; lia]]. by intros [] x4 [? _].
Qed.
End LayerII.

(** ** The decoders *)

Section Decoders.
Context `{T : Target} `{FP : Fpm} (buf : list Z).

(** The CRC word of the frame is wrong, and this matters. *)
Definition crc_fails (p len options : Z) (h : header_t) : bool :=
  has_flag MAD_FLAG_PROTECTION h && negb (crc_fold (bit_list buf p (Z.to_nat len)) (hd_crc_check h) =? hd_crc_target h) &&
  (Z.land options MAD_OPTION_IGNORECRC =? 0).

Lemma crc_checked_ok bp len options h : bp_ok buf bp -> 0 <= len -> bp_pos bp + len <= 8 * zlen buf -> 0 <= hd_crc_check h < 65536 ->
  exists h', crc_checked buf bp len options h = Done (negb (crc_fails (bp_pos bp) len options h), h').
Proof.
  intros Hok Hl Hend Hc. unfold crc_checked, crc_fails. destruct (has_flag _ h); [|by eexists].
  rewrite mad_bit_crc_bits by done. cbn [res_opt res_bind]. eexists. f_equal.
Qed.

(** The number of channels and the first shared subband of a header. *)
Definition header_modes (h : header_t) : Prop := 0 <= hd_mode h <= 3 /\ 0 <= hd_mode_extension h <= 3 /\ 0 <= hd_crc_check h < 65536.

Lemma stereo_bound_ok h : header_modes h -> exists bound h', stereo_bound h = (bound, h') /\ 0 <= bound <= 32 /\
  (MAD_NCHANNELS h = 1 \/ MAD_NCHANNELS h = 2) /\ (bound < 32 -> MAD_NCHANNELS h = 2) /\ hd_crc_check h' = hd_crc_check h.
Proof.
  intros (Hm & He & _). unfold stereo_bound, MAD_NCHANNELS, MAD_MODE_JOINT_STEREO. destruct (Z.eqb_spec (hd_mode h) 2) as [->|?].
  - do 2 eexists. split; [done|]. cbn. split_and!; (lia || by right || done).
  - do 2 eexists. split; [done|]. split_and!; [lia|lia| |lia|done]. destruct (hd_mode h =? 0); auto.
Qed.

(** What [mad_layer_I] may return for a frame at [p]. *)
Definition I_outcome (frame : frame_t) (p : Z) (r : Z) (stream' : stream_t) (frame' : frame_t) : Prop :=
  let nch := MAD_NCHANNELS (fr_header frame) in
  let '(bound, h) := stereo_bound (fr_header frame) in
  if crc_fails p (4 * (bound * nch + (32 - bound))) (fr_options frame) h
  then r = -1 /\ st_error stream' = MAD_ERROR_BADCRC /\ fr_sbsample frame' = fr_sbsample frame
  else (r = -1 /\ st_error stream' = MAD_ERROR_BADBITALLOC /\ fr_sbsample frame' = fr_sbsample frame /\
          exists ch sb, 0 <= ch < nch /\ 0 <= sb < 32 /\ I_code buf p nch bound ch sb = 15) \/
       (r = 0 /\ bp_pos (st_ptr stream') = I_end buf p nch bound /\
          (forall ch sb, 0 <= ch < nch -> 0 <= sb < 32 -> I_code buf p nch bound ch sb <> 15) /\
          (forall ch s sb, 0 <= ch < nch -> 0 <= s < 12 -> 0 <= sb < 32 ->
            exists v, I_value buf p nch bound s ch sb = Some v /\ - 1073741824 <= v <= 1073741824 /\ sample_get (fr_sbsample frame') ch s sb = Some v) /\
          (forall ch s sb, ~ (0 <= ch < nch /\ 0 <= s < 12) -> sample_get (fr_sbsample frame') ch s sb = sample_get (fr_sbsample frame) ch s sb)).

Definition I_bits_end (frame : frame_t) (p : Z) : Z := I_end buf p (MAD_NCHANNELS (fr_header frame)) (stereo_bound (fr_header frame)).1.

Lemma layer_I_result stream frame : let p := bp_pos (st_ptr stream) in
  header_modes (fr_header frame) -> bp_ok buf (st_ptr stream) -> shape (fr_sbsample frame) -> I_bits_end frame p <= 8 * zlen buf ->
  exists r stream' frame', mad_layer_I buf stream frame = Done (r, stream', frame') /\ shape (fr_sbsample frame') /\ bp_ok buf (st_ptr stream') /\
    I_outcome frame p r stream' frame'.
Proof.
  intros p Hh Hok Hsh Hend. pose proof Hh as (_ & _ & Hcrc). unfold I_bits_end, I_outcome in *. set (nch := MAD_NCHANNELS (fr_header frame)) in *.
  destruct (stereo_bound_ok (fr_header frame) Hh) as (bound' & h' & E & Hb & Hn & H1 & Hcc). unfold mad_layer_I. rewrite E in *. cbn [fst snd] in *.
  pose proof (I_room buf p nch bound' Hn Hb H1 Hend) as Hroom.
  destruct (crc_checked_ok (st_ptr stream) (4 * (bound' * nch + (32 - bound'))) (fr_options frame) h') as (h2 & Hc); [done|nia|apply Hroom; nia|lia|].
  fold p nch in Hc |- *. rewrite Hc. cbn [res_bind]. destruct (crc_fails _ _ _ _) eqn:Hf; cbn [negb].
  { do 3 eexists. split; [reflexivity|]. done. }
  pose proof (wp_I_data buf p nch bound' Hn Hb H1 Hend (lay_start (st_ptr stream) 64 (fr_sbsample frame))) as Hw. unfold wp in Hw.
  destruct (I_data buf nch bound' _) as [[[ok x] o]| |]; [|exfalso; by apply Hw..]. specialize (Hw ltac:(done) eq_refl eq_refl Hsh). cbn [res_bind lay_done].
  destruct ok.
  - destruct Hw as (Hv & [Hok' Hp] & Hs & Hd & Hu). do 3 eexists. split; [reflexivity|]. split; [done|]. split; [done|]. right. cbn. split_and!; try done.
    intros ch s sb ? ? ?. apply Hd; try done. unfold I_before. lia.
  - destruct Hw as (Hs & Hok' & Hbad). do 3 eexists. split; [reflexivity|]. cbn in Hs |- *. rewrite Hs. split; [done|]. split; [done|]. left. done.
Qed.

Lemma I_end_bound p nch bound : nch = 1 \/ nch = 2 -> 0 <= bound <= 32 -> I_end buf p nch bound <= p + 12928.
Proof.
  intros Hn Hb. unfold I_end, I_place, I_scf_place.
  assert (Hz : (if 0 <? bound then sum (fun ch => I_width buf p nch bound ch 0) 0 else 0) = 0) by (destruct (_ <? _); done). rewrite Hz, !sum_0.
  assert (Hu : sum (fun sb => sum (fun ch => I_used buf p nch bound ch sb) nch) 32 <= 2 * 32).
  { apply sum_bound; [lia|]. intros sb _. pose proof (sum_bound (fun ch => I_used buf p nch bound ch sb) nch 1) as Hs. rewrite Z.mul_1_l in Hs.
    etransitivity; [apply Hs; [lia|]|lia]. intros ch _. apply I_used_range. }
  assert (Hc : sum (I_column buf p nch bound) 32 <= 32 * 32).
  { apply sum_bound; [lia|]. intros sb _. unfold I_column. pose proof (sum_bound (fun ch => I_width buf p nch bound ch sb) nch 16) as Hs.
    destruct (sb <? bound); [etransitivity; [apply Hs; [lia|]|lia]|]; [intros ch _; pose proof (I_width_range buf p nch bound ch sb); lia|pose proof (I_width_range buf p nch bound 0 sb); lia]. }
  nia.
Qed.

Lemma II_index_row nch h i : II_index nch h = Some i -> exists t, zget sbquant_table i = Some t /\ sbq_ok t = true.
Proof.
  intros Hi. assert (0 <= i < 5) as Hr by (unfold II_index in Hi; repeat case_match; first [discriminate Hi|injection Hi as <-; lia]).
  destruct (zget_some sbquant_table i) as [t Ht]; [done|]. exists t. split; [done|]. apply (forallb_zget _ _ _ _ sbquant_table_ok Ht).
Qed.

Lemma layer_II_result stream frame :
  header_modes (fr_header frame) -> bp_ok buf (st_ptr stream) -> typed (fr_sbsample frame) -> bp_pos (st_ptr stream) + 36000 <= 8 * zlen buf ->
  exists r stream' frame', mad_layer_II buf stream frame = Done (r, stream', frame') /\ typed (fr_sbsample frame') /\ bp_ok buf (st_ptr stream') /\
    (r = 0 \/ (r = -1 /\ (st_error stream' = MAD_ERROR_BADMODE \/ st_error stream' = MAD_ERROR_BADCRC))).
Proof.
  intros Hh Hok Ht Hroom. pose proof Hh as (_ & _ & Hcrc). unfold mad_layer_II. destruct (II_index _ _) as [i|] eqn:Hi; [|do 3 eexists; split; [reflexivity|]; by split_and!; [| |right; auto]].
  destruct (II_index_row _ _ _ Hi) as ([sblimit offsets] & -> & Hq). cbn [res_opt res_bind].
  destruct (stereo_bound_ok (fr_header frame) Hh) as (bound' & h' & -> & Hb & Hn & H1 & Hcc). set (nch := MAD_NCHANNELS (fr_header frame)) in *.
  pose proof (sblimit_range sblimit offsets Hq) as Hlim. set (bound := if bound' >? sblimit then sblimit else bound').
  assert (Hbound : 0 <= bound <= sblimit) by (unfold bound; destruct (Z.gtb_spec bound' sblimit); lia).
  assert (Hone : bound < sblimit -> nch = 2) by (unfold bound; destruct (Z.gtb_spec bound' sblimit); [lia|intros; apply H1; lia]).
  set (x0 := lay_start (st_ptr stream) 192 (fr_sbsample frame)). set (p0 := bp_pos (st_ptr stream)) in *.
  assert (Hw1 : wp (II_allocations buf offsets nch bound sblimit ;; II_scfsi buf nch sblimit) (fun _ x => left_bits buf p0 x 35640 /\ alloc_typed nch bound sblimit sblimit 0 x /\
    scfsi_typed nch sblimit sblimit 0 x /\ ly_scf x = repeat None 192 /\ ly_sb x = fr_sbsample frame) x0).
  { wp_step. eapply wp_mono; [|apply (wp_II_allocations buf p0 nch bound sblimit offsets Hq Hn Hbound Hone 36000); [split; [done|cbn; fold p0; lia]|lia|done]]. intros [] x (Hl & Ha & E1 & E2 & E3).
    eapply wp_mono; [|apply (wp_II_scfsi buf p0 nch bound sblimit offsets Hq Hn (36000 - 240)); [done|lia|done|by rewrite E1]]. intros [] x' (Hl' & Ha' & Hs' & E4 & E5).
    split_and!; try done; [by rewrite E4|by rewrite E5]. }
  apply wp_run in Hw1 as ([] & x & o & -> & ([Hokx Hlx] & Ha & Hs & E4 & E5)). cbn [res_bind].
  destruct (crc_checked_ok (st_ptr stream) (mad_bit_length (st_ptr stream) (ly_ptr x)) (fr_options frame) h') as (h2 & Hc); [done| | |lia|].
  1,2: unfold mad_bit_length; pose proof (u32_range (bp_left (st_ptr stream) + CHAR_BIT * (bp_byte (ly_ptr x) - (bp_byte (st_ptr stream) + 1)) + (CHAR_BIT - bp_left (ly_ptr x)))).
  { lia. }
  { assert (Hd : bp_left (st_ptr stream) + CHAR_BIT * (bp_byte (ly_ptr x) - (bp_byte (st_ptr stream) + 1)) + (CHAR_BIT - bp_left (ly_ptr x)) = bp_pos (ly_ptr x) - p0) by (unfold p0, bp_pos, CHAR_BIT; lia).
    rewrite Hd. assert (u32 (bp_pos (ly_ptr x) - p0) <= bp_pos (ly_ptr x) - p0) by (unfold u32; apply Z.mod_le; lia). fold p0. lia. }
  rewrite Hc. cbn [res_bind]. destruct (crc_fails _ _ _ _); cbn [negb lay_done].
  { do 3 eexists. split; [reflexivity|]. cbn. rewrite E5. split_and!; [done..|]. right. auto. }
  assert (Hw2 : wp (II_scalefactors buf nch sblimit ;; for_range 0 12 (II_granule buf offsets nch bound sblimit)) (fun _ x' => left_bits buf p0 x' 0 /\ typed (ly_sb x')) x).
  { wp_step. eapply wp_mono; [|apply (wp_II_scalefactors buf p0 nch bound sblimit offsets Hq Hn 35640); [by split|lia|done|done|by rewrite E4]]. intros [] x1 (Hl1 & Ha1 & Hs1 & E1).
    eapply wp_mono; [|apply (wp_for_range (fun gr x' => II_ready buf p0 nch bound sblimit (34560 - 2880 * gr) x'))].
    - intros [] x2 (Hl2 & _ & _ & Ht2). done.
    - intros gr x2 Hgr Hr2. replace (34560 - 2880 * (gr + 1)) with (34560 - 2880 * gr - 2880) by lia. apply (wp_II_granule buf p0 nch bound sblimit offsets Hq Hn Hbound Hone); [done|lia|lia].
    - split_and!; try done; try apply Ha1; try apply Hs1. by rewrite E1, E5. }
  apply wp_run in Hw2 as ([] & x' & o' & -> & ([Hok' _] & Ht')). cbn [res_bind lay_done]. do 3 eexists. split; [reflexivity|]. by split_and!; [| |left].
Qed.

(** C24: a frame of Layer I is decoded as ISO/IEC 11172-3 lays it out.  The decoder reads the
    allocations, the scalefactors and the samples at their places and stops behind the last
    one; every sample is the requantized code times its scalefactor.  It rejects a wrong CRC
    word and the forbidden allocation, and does nothing undefined as long as the buffer
    holds the bits that the allocations ask for. *)
Theorem mad_layer_I_decodes stream frame : let p := bp_pos (st_ptr stream) in
  header_modes (fr_header frame) -> bp_ok buf (st_ptr stream) -> shape (fr_sbsample frame) -> I_bits_end frame p <= 8 * zlen buf ->
  exists r stream' frame', mad_layer_I buf stream frame = Done (r, stream', frame') /\ I_outcome frame p r stream' frame'.
Proof. intros p Hh Hok Hsh Hend. destruct (layer_I_result stream frame Hh Hok Hsh Hend) as (r & s' & f' & ? & _ & _ & ?). eauto. Qed.

(** C26: the decoders of Layer I and Layer II keep the types.  Whatever the frame contains,
    with 4500 bytes of input they return, they leave 2 x 36 x 32 samples that are fixed-point
    numbers between -4 and 4, and a bit pointer that is consistent with the buffer. *)
Theorem mad_layer12_typed decoder stream frame :
  decoder = mad_layer_I buf \/ decoder = mad_layer_II buf ->
  header_modes (fr_header frame) -> bp_ok buf (st_ptr stream) -> typed (fr_sbsample frame) -> bp_pos (st_ptr stream) + 36000 <= 8 * zlen buf ->
  exists r stream' frame', decoder stream frame = Done (r, stream', frame') /\ (r = 0 \/ r = -1) /\
    typed (fr_sbsample frame') /\ bp_ok buf (st_ptr stream').
Proof.
  intros Hd Hh Hok Ht Hroom. destruct Hd as [->| ->].
  - destruct (stereo_bound_ok (fr_header frame) Hh) as (bound & h & E & Hb & Hn & _). pose proof Ht as [Hsh Hr].
    assert (He : I_bits_end frame (bp_pos (st_ptr stream)) <= 8 * zlen buf) by (unfold I_bits_end; rewrite E; etransitivity; [apply I_end_bound; done|lia]).
    destruct (layer_I_result stream frame Hh Hok Hsh He) as (r & s' & f' & Hm & Hsh' & Hok' & Ho). exists r, s', f'. split; [done|].
    unfold I_outcome in Ho. rewrite E in Ho. destruct (crc_fails _ _ _ _).
    { destruct Ho as (-> & _ & Hs). rewrite Hs. split; [by right|done]. }
    destruct Ho as [(-> & _ & Hs & _)|(-> & _ & _ & Hv & Hu)]; [rewrite Hs; split; [by right|done]|]. split; [by left|]. split; [|done]. split; [done|].
    intros ch s sb v Hg. destruct (decide ((0 <= ch < MAD_NCHANNELS (fr_header frame) /\ 0 <= s < 12) /\ 0 <= sb < 32)) as [[[Hch Hs] Hsb]|Hout].
    + destruct (Hv ch s sb Hch Hs Hsb) as (w & _ & Hw & Hgw). congruence.
    + destruct (decide (0 <= ch < MAD_NCHANNELS (fr_header frame) /\ 0 <= s < 12)) as [?|Hn2]; [|rewrite Hu in Hg by done; by eapply Hr].
      exfalso. apply Hout. split; [done|]. unfold sample_get in Hg. destruct (zget _ ch) as [b|] eqn:Eb; [|done]. destruct (zget b s) as [c|] eqn:Ec; [|done].
      destruct (zget_Forall _ _ _ _ (proj2 Hsh') Eb) as [_ Hb2]. pose proof (zget_Forall _ _ _ _ Hb2 Ec) as Hc. apply zget_range in Hg. unfold zlen in Hg. cbn in Hc. lia.
  - destruct (layer_II_result stream frame Hh Hok Ht Hroom) as (r & s' & f' & ? & ? & ? & Ho). exists r, s', f'. split_and!; try done. destruct Ho as [->|[-> _]]; auto.
Qed.
End Decoders.

(** ** A frame of one channel with one subband *)

#[local] Existing Instance stm32_target.
#[local] Instance arm : Fpm := {| fpm_arm := true |}.

Definition quiet_frame (mode : Z) : frame_t :=
  Frame (Header MAD_LAYER_I mode 0 0 32000 48000 0 0 0 0 mad_timer_zero) 0 (zero_block 36 32) None.
Definition stream_at (k : Z) : stream_t := set_ptr (mad_bit_init k) mad_stream_init.

(** Two bits per sample for the first subband, scalefactor 2.0, and twelve codes. *)
Definition tiny_frame : list Z := [16; 0; 0; 0; 0; 0; 0; 0; 0; 0; 0; 0; 0; 0; 0; 0; 2; 102; 102; 100].

Lemma bp_ok_init buf k : 0 <= k -> bp_ok buf (mad_bit_init k).
Proof. intros Hk. unfold bp_ok, mad_bit_init, CHAR_BIT. cbn [bp_byte bp_left]. split_and!; [done|lia|lia|]. intros H. lia. Qed.

Lemma zero_block_shape : shape (zero_block 36 32).
Proof. unfold shape, zero_block. cbn. split; [done|]. repeat (constructor; [split; [done|]; repeat (constructor; [done|]); constructor|]). constructor. Qed.

Lemma Forall_rep {A} (P : A -> Prop) y n : P y -> Forall P (repeat y n).
Proof. intros Hy. induction n; cbn; by constructor. Qed.

Lemma zero_block_typed : typed (zero_block 36 32).
Proof.
  split; [exact zero_block_shape|]. intros ch s sb v Hg. unfold sample_get in Hg. destruct (zget _ ch) as [b|] eqn:Eb; [|done]. destruct (zget b s) as [c|] eqn:Ec; [|done].
  assert (Hz : Forall (Forall (Forall (fun v => v = 0))) (zero_block 36 32)) by (unfold zero_block; by repeat apply Forall_rep).
  pose proof (zget_Forall _ _ _ _ (zget_Forall _ _ _ _ (zget_Forall _ _ _ _ Hz Eb) Ec) Hg) as Hv. cbn in Hv. lia.
Qed.

Lemma mad_layer_I_decodes_witness : exists r stream' frame',
  mad_layer_I tiny_frame (stream_at 0) (quiet_frame 0) = Done (r, stream', frame') /\ r = 0 /\ bp_pos (st_ptr stream') = 158 /\
  sample_get (fr_sbsample frame') 0 0 0 = Some 357913942.
Proof.
  destruct (mad_layer_I_decodes tiny_frame (stream_at 0) (quiet_frame 0)) as (r & s' & f' & Hm & Ho).
  - unfold header_modes. cbn. lia.
  - apply bp_ok_init. lia.
  - exact zero_block_shape.
  - vm_compute. discriminate.
  - exists r, s', f'. split; [exact Hm|]. unfold I_outcome in Ho. change (stereo_bound (fr_header (quiet_frame 0))) with (32, fr_header (quiet_frame 0)) in Ho.
    cbv beta iota zeta in Ho. match type of Ho with context [crc_fails ?a ?b ?c ?d ?e] => change (crc_fails a b c d e) with false in Ho end. cbv iota in Ho. destruct Ho as [(_ & _ & _ & ch & sb & Hch & Hsb & H15)|(-> & Hp & _ & Hv & _)].
    + exfalso. revert H15. change (MAD_NCHANNELS (fr_header (quiet_frame 0))) with 1 in *. assert (ch = 0) as -> by lia.
      assert (Hall : forallb (fun sb => negb (I_code tiny_frame (bp_pos (st_ptr (stream_at 0))) 1 32 0 sb =? 15)) (map Z.of_nat (seq 0 32)) = true) by (vm_compute; reflexivity).
      rewrite forallb_forall in Hall. intros H15. specialize (Hall sb). rewrite H15 in Hall. discriminate Hall. apply in_map_iff. exists (Z.to_nat sb). rewrite in_seq. lia.
    + split; [reflexivity|]. split; [rewrite Hp; vm_compute; reflexivity|]. destruct (Hv 0 0 0) as (v & Hval & _ & Hg); [cbn; lia..|]. rewrite Hg. rewrite <- Hval. vm_compute. reflexivity.
Defined.

Lemma mad_layer12_typed_witness : exists r stream' frame',
  mad_layer_II (repeat 170 5000) (stream_at 0) (quiet_frame 3) = Done (r, stream', frame') /\ typed (fr_sbsample frame').
Proof.
  destruct (mad_layer12_typed (repeat 170 5000) (mad_layer_II (repeat 170 5000)) (stream_at 0) (quiet_frame 3)) as (r & s' & f' & Hm & _ & Ht & _).
  - by right.
  - unfold header_modes. cbn. lia.
  - apply bp_ok_init. lia.
  - exact zero_block_typed.
  - vm_compute. discriminate.
  - eauto.
Defined.

(** A frame of 32 bytes, the shortest of Layer I, whose allocations ask for 12160 bits: at the
    end of the input the decoder reads behind the guard bytes. *)
Theorem layer_I_overruns : mad_layer_I (repeat 238 32 ++ repeat 0 8) (stream_at 4) (quiet_frame 3) = Fault.
Proof. vm_compute. reflexivity. Qed.
