(* ===== verification/MadSynth.v ===== *)
(** * libs/libmad-0.15.1b/synth.c: the synthesis filter

    [dct32] is a straight line of 209 assignments.  They are kept as a list [dct32_code] and
    run by an interpreter that is generic in the numbers, so that the same code can be run
    on fixed-point numbers, as the library does, and on exact ones. *)

From S2P Require Import Prelude MadBit MadTimer MadStream MadFrame MadFixed MadLayer12.

(** ** The code of [dct32] *)

Inductive dexpr : Type :=
| tv (n : nat)             (* t41 *)
| inp (k : nat)            (* in[31] *)
| dplus (a b : dexpr)
| dminus (a b : dexpr)
| MUL (a : dexpr) (c : nat)  (* MUL(a, costab16) *)
| twice (a : dexpr).         (* a * 2 *)

Inductive dstmt : Type :=
| assign (n : nat) (e : dexpr)      (* t41 = e *)
| hi_store (row : nat) (e : dexpr)  (* hi[15][slot] = SHIFT(e) *)
| lo_store (row : nat) (e : dexpr). (* lo[ 0][slot] = SHIFT(e) *)

Declare Scope dct_scope.
Delimit Scope dct_scope with dct.
Bind Scope dct_scope with dexpr.
Notation "a + b" := (dplus a b) : dct_scope.
Notation "a - b" := (dminus a b) : dct_scope.

Definition dct32_code : list dstmt := [
  assign 0 (inp 0 + inp 31);
  assign 16 (MUL (inp 0 - inp 31) 1);
  assign 1 (inp 15 + inp 16);
  assign 17 (MUL (inp 15 - inp 16) 31);
  assign 41 (tv 16 + tv 17);
  assign 59 (MUL (tv 16 - tv 17) 2);
  assign 33 (tv 0 + tv 1);
  assign 50 (MUL (tv 0 - tv 1) 2);
  assign 2 (inp 7 + inp 24);
  assign 18 (MUL (inp 7 - inp 24) 15);
  assign 3 (inp 8 + inp 23);
  assign 19 (MUL (inp 8 - inp 23) 17);
  assign 42 (tv 18 + tv 19);
  assign 60 (MUL (tv 18 - tv 19) 30);
  assign 34 (tv 2 + tv 3);
  assign 51 (MUL (tv 2 - tv 3) 30);
  assign 4 (inp 3 + inp 28);
  assign 20 (MUL (inp 3 - inp 28) 7);
  assign 5 (inp 12 + inp 19);
  assign 21 (MUL (inp 12 - inp 19) 25);
  assign 43 (tv 20 + tv 21);
  assign 61 (MUL (tv 20 - tv 21) 14);
  assign 35 (tv 4 + tv 5);
  assign 52 (MUL (tv 4 - tv 5) 14);
  assign 6 (inp 4 + inp 27);
  assign 22 (MUL (inp 4 - inp 27) 9);
  assign 7 (inp 11 + inp 20);
  assign 23 (MUL (inp 11 - inp 20) 23);
  assign 44 (tv 22 + tv 23);
  assign 62 (MUL (tv 22 - tv 23) 18);
  assign 36 (tv 6 + tv 7);
  assign 53 (MUL (tv 6 - tv 7) 18);
  assign 8 (inp 1 + inp 30);
  assign 24 (MUL (inp 1 - inp 30) 3);
  assign 9 (inp 14 + inp 17);
  assign 25 (MUL (inp 14 - inp 17) 29);
  assign 45 (tv 24 + tv 25);
  assign 63 (MUL (tv 24 - tv 25) 6);
  assign 37 (tv 8 + tv 9);
  assign 54 (MUL (tv 8 - tv 9) 6);
  assign 10 (inp 6 + inp 25);
  assign 26 (MUL (inp 6 - inp 25) 13);
  assign 11 (inp 9 + inp 22);
  assign 27 (MUL (inp 9 - inp 22) 19);
  assign 46 (tv 26 + tv 27);
  assign 64 (MUL (tv 26 - tv 27) 26);
  assign 38 (tv 10 + tv 11);
  assign 55 (MUL (tv 10 - tv 11) 26);
  assign 12 (inp 2 + inp 29);
  assign 28 (MUL (inp 2 - inp 29) 5);
  assign 13 (inp 13 + inp 18);
  assign 29 (MUL (inp 13 - inp 18) 27);
  assign 47 (tv 28 + tv 29);
  assign 65 (MUL (tv 28 - tv 29) 10);
  assign 39 (tv 12 + tv 13);
  assign 56 (MUL (tv 12 - tv 13) 10);
  assign 14 (inp 5 + inp 26);
  assign 30 (MUL (inp 5 - inp 26) 11);
  assign 15 (inp 10 + inp 21);
  assign 31 (MUL (inp 10 - inp 21) 21);
  assign 48 (tv 30 + tv 31);
  assign 66 (MUL (tv 30 - tv 31) 22);
  assign 40 (tv 14 + tv 15);
  assign 57 (MUL (tv 14 - tv 15) 22);
  assign 69 (tv 33 + tv 34);
  assign 89 (MUL (tv 33 - tv 34) 4);
  assign 70 (tv 35 + tv 36);
  assign 90 (MUL (tv 35 - tv 36) 28);
  assign 71 (tv 37 + tv 38);
  assign 91 (MUL (tv 37 - tv 38) 12);
  assign 72 (tv 39 + tv 40);
  assign 92 (MUL (tv 39 - tv 40) 20);
  assign 73 (tv 41 + tv 42);
  assign 94 (MUL (tv 41 - tv 42) 4);
  assign 74 (tv 43 + tv 44);
  assign 95 (MUL (tv 43 - tv 44) 28);
  assign 75 (tv 45 + tv 46);
  assign 96 (MUL (tv 45 - tv 46) 12);
  assign 76 (tv 47 + tv 48);
  assign 97 (MUL (tv 47 - tv 48) 20);
  assign 78 (tv 50 + tv 51);
  assign 100 (MUL (tv 50 - tv 51) 4);
  assign 79 (tv 52 + tv 53);
  assign 101 (MUL (tv 52 - tv 53) 28);
  assign 80 (tv 54 + tv 55);
  assign 102 (MUL (tv 54 - tv 55) 12);
  assign 81 (tv 56 + tv 57);
  assign 103 (MUL (tv 56 - tv 57) 20);
  assign 83 (tv 59 + tv 60);
  assign 106 (MUL (tv 59 - tv 60) 4);
  assign 84 (tv 61 + tv 62);
  assign 107 (MUL (tv 61 - tv 62) 28);
  assign 85 (tv 63 + tv 64);
  assign 108 (MUL (tv 63 - tv 64) 12);
  assign 86 (tv 65 + tv 66);
  assign 109 (MUL (tv 65 - tv 66) 20);
  assign 113 (tv 69 + tv 70);
  assign 114 (tv 71 + tv 72);
  hi_store 15 (tv 113 + tv 114);
  lo_store 0 (MUL (tv 113 - tv 114) 16);
  assign 115 (tv 73 + tv 74);
  assign 116 (tv 75 + tv 76);
  assign 32 (tv 115 + tv 116);
  hi_store 14 (tv 32);
  assign 118 (tv 78 + tv 79);
  assign 119 (tv 80 + tv 81);
  assign 58 (tv 118 + tv 119);
  hi_store 13 (tv 58);
  assign 121 (tv 83 + tv 84);
  assign 122 (tv 85 + tv 86);
  assign 67 (tv 121 + tv 122);
  assign 49 (twice (tv 67) - tv 32);
  hi_store 12 (tv 49);
  assign 125 (tv 89 + tv 90);
  assign 126 (tv 91 + tv 92);
  assign 93 (tv 125 + tv 126);
  hi_store 11 (tv 93);
  assign 128 (tv 94 + tv 95);
  assign 129 (tv 96 + tv 97);
  assign 98 (tv 128 + tv 129);
  assign 68 (twice (tv 98) - tv 49);
  hi_store 10 (tv 68);
  assign 132 (tv 100 + tv 101);
  assign 133 (tv 102 + tv 103);
  assign 104 (tv 132 + tv 133);
  assign 82 (twice (tv 104) - tv 58);
  hi_store 9 (tv 82);
  assign 136 (tv 106 + tv 107);
  assign 137 (tv 108 + tv 109);
  assign 110 (tv 136 + tv 137);
  assign 87 (twice (tv 110) - tv 67);
  assign 77 (twice (tv 87) - tv 68);
  hi_store 8 (tv 77);
  assign 141 (MUL (tv 69 - tv 70) 8);
  assign 142 (MUL (tv 71 - tv 72) 24);
  assign 143 (tv 141 + tv 142);
  hi_store 7 (tv 143);
  lo_store 8 (twice (MUL (tv 141 - tv 142) 16) - tv 143);
  assign 144 (MUL (tv 73 - tv 74) 8);
  assign 145 (MUL (tv 75 - tv 76) 24);
  assign 146 (tv 144 + tv 145);
  assign 88 (twice (tv 146) - tv 77);
  hi_store 6 (tv 88);
  assign 148 (MUL (tv 78 - tv 79) 8);
  assign 149 (MUL (tv 80 - tv 81) 24);
  assign 150 (tv 148 + tv 149);
  assign 105 (twice (tv 150) - tv 82);
  hi_store 5 (tv 105);
  assign 152 (MUL (tv 83 - tv 84) 8);
  assign 153 (MUL (tv 85 - tv 86) 24);
  assign 154 (tv 152 + tv 153);
  assign 111 (twice (tv 154) - tv 87);
  assign 99 (twice (tv 111) - tv 88);
  hi_store 4 (tv 99);
  assign 157 (MUL (tv 89 - tv 90) 8);
  assign 158 (MUL (tv 91 - tv 92) 24);
  assign 159 (tv 157 + tv 158);
  assign 127 (twice (tv 159) - tv 93);
  hi_store 3 (tv 127);
  assign 160 (twice (MUL (tv 125 - tv 126) 16) - tv 127);
  lo_store 4 (tv 160);
  lo_store 12 (twice (twice (MUL (tv 157 - tv 158) 16) - tv 159) - tv 160);
  assign 161 (MUL (tv 94 - tv 95) 8);
  assign 162 (MUL (tv 96 - tv 97) 24);
  assign 163 (tv 161 + tv 162);
  assign 130 (twice (tv 163) - tv 98);
  assign 112 (twice (tv 130) - tv 99);
  hi_store 2 (tv 112);
  assign 164 (twice (MUL (tv 128 - tv 129) 16) - tv 130);
  assign 166 (MUL (tv 100 - tv 101) 8);
  assign 167 (MUL (tv 102 - tv 103) 24);
  assign 168 (tv 166 + tv 167);
  assign 134 (twice (tv 168) - tv 104);
  assign 120 (twice (tv 134) - tv 105);
  hi_store 1 (tv 120);
  assign 135 (twice (MUL (tv 118 - tv 119) 16) - tv 120);
  lo_store 2 (tv 135);
  assign 169 (twice (MUL (tv 132 - tv 133) 16) - tv 134);
  assign 151 (twice (tv 169) - tv 135);
  lo_store 6 (tv 151);
  assign 170 (twice (twice (MUL (tv 148 - tv 149) 16) - tv 150) - tv 151);
  lo_store 10 (tv 170);
  lo_store 14 (twice (twice (twice (MUL (tv 166 - tv 167) 16) - tv 168) - tv 169) - tv 170);
  assign 171 (MUL (tv 106 - tv 107) 8);
  assign 172 (MUL (tv 108 - tv 109) 24);
  assign 173 (tv 171 + tv 172);
  assign 138 (twice (tv 173) - tv 110);
  assign 123 (twice (tv 138) - tv 111);
  assign 139 (twice (MUL (tv 121 - tv 122) 16) - tv 123);
  assign 117 (twice (tv 123) - tv 112);
  hi_store 0 (tv 117);
  assign 124 (twice (MUL (tv 115 - tv 116) 16) - tv 117);
  lo_store 1 (tv 124);
  assign 131 (twice (tv 139) - tv 124);
  lo_store 3 (tv 131);
  assign 140 (twice (tv 164) - tv 131);
  lo_store 5 (tv 140);
  assign 174 (twice (MUL (tv 136 - tv 137) 16) - tv 138);
  assign 155 (twice (tv 174) - tv 139);
  assign 147 (twice (tv 155) - tv 140);
  lo_store 7 (tv 147);
  assign 156 (twice (twice (MUL (tv 144 - tv 145) 16) - tv 146) - tv 147);
  lo_store 9 (tv 156);
  assign 175 (twice (twice (MUL (tv 152 - tv 153) 16) - tv 154) - tv 155);
  assign 165 (twice (tv 175) - tv 156);
  lo_store 11 (tv 165);
  assign 176 (twice (twice (twice (MUL (tv 161 - tv 162) 16) - tv 163) - tv 164) - tv 165);
  lo_store 13 (tv 176);
  lo_store 15 (twice (twice (twice (twice (MUL (tv 171 - tv 172) 16) - tv 173) - tv 174) - tv 175) - tv 176)
].

(** [costab1] to [costab31] *)
Definition costab : list Z := [
  268112114; 267142866; 265530048; 263277544; 260390782; 256876715; 252743810; 248002024;
  242662778; 236738937; 230244771; 223195925; 215609380; 207503414; 198897553; 189812531;
  180270234; 170293651; 159906814; 149134749; 138003405; 126539598; 114770946; 102725802;
  90433181; 77922700; 65224495; 52369160; 39387662; 26311276; 13171504
].

(** ** Running it *)

Record dops (A : Type) : Type := Dops {
  d_add : A -> A -> option A;
  d_sub : A -> A -> option A;
  d_mul : A -> nat -> option A;
  d_twice : A -> option A
}.
Arguments Dops {A}.
Arguments d_add {A}.
Arguments d_sub {A}.
Arguments d_mul {A}.
Arguments d_twice {A}.

Definition obind {A B} (o : option A) (k : A -> option B) : option B := match o with Some a => k a | None => None end.

Section Run.
Context {A : Type} (O : dops A) (input : list A).

(** The temporaries, [None] until they are assigned. *)
Abbreviation temps := (list (option A)).

Fixpoint deval (T : temps) (e : dexpr) : option A :=
  match e with
  | tv n => match T !! n with Some (Some v) => Some v | _ => None end
  | inp k => input !! k
  | dplus a b => obind (deval T a) (fun x => obind (deval T b) (fun y => d_add O x y))
  | dminus a b => obind (deval T a) (fun x => obind (deval T b) (fun y => d_sub O x y))
  | MUL a c => obind (deval T a) (fun x => d_mul O x c)
  | twice a => obind (deval T a) (d_twice O)
  end.

(** The values that are stored, in the order of the code: into [hi] ([true]) or [lo]. *)
Fixpoint dexec (code : list dstmt) (T : temps) : option (list (bool * nat * A)) :=
  match code with
  | [] => Some []
  | assign n e :: code => obind (deval T e) (fun v => dexec code (<[n := Some v]> T))
  | hi_store r e :: code => obind (deval T e) (fun v => obind (dexec code T) (fun l => Some ((true, r, v) :: l)))
  | lo_store r e :: code => obind (deval T e) (fun v => obind (dexec code T) (fun l => Some ((false, r, v) :: l)))
  end.

Definition dct32_run : option (list (bool * nat * A)) := dexec dct32_code (repeat None 177).
End Run.

Section Synth.
Context `{T : Target} `{FP : Fpm}.

(** [MUL] is [mad_f_mul], with or without OPT_SSO. *)
Definition fixed_ops : dops Z := {|
  d_add a b := fits (a + b);
  d_sub a b := fits (a - b);
  d_mul a c := obind (zget costab (Z.of_nat c - 1)) (mad_f_mul a);
  d_twice a := fits (a * 2)
|}.

(** FPM_DEFAULT defines OPT_SSO. *)
Definition DCT_SHIFT (x : Z) : option Z :=
  if fpm_arm then Some x else obind (fits (x + Z.shiftl 1 11)) (fun y => Some (Z.shiftr y 12)).

(** [a[r][slot] = v] *)
Definition set_slot2 (a : list (list Z)) (r slot v : Z) : option (list (list Z)) :=
  obind (zget a r) (fun row => obind (zset row slot v) (fun row => zset a r row)).

Fixpoint dct_stores (l : list (bool * nat * Z)) (slot : Z) (lo hi : list (list Z)) : option (list (list Z) * list (list Z)) :=
  match l with
  | [] => Some (lo, hi)
  | (true, r, v) :: l => obind (DCT_SHIFT v) (fun v => obind (set_slot2 hi (Z.of_nat r) slot v) (fun hi => dct_stores l slot lo hi))
  | (false, r, v) :: l => obind (DCT_SHIFT v) (fun v => obind (set_slot2 lo (Z.of_nat r) slot v) (fun lo => dct_stores l slot lo hi))
  end.

Definition dct32 (input : list Z) (slot : Z) (lo hi : list (list Z)) : option (list (list Z) * list (list Z)) :=
  obind (dct32_run fixed_ops input) (fun l => dct_stores l slot lo hi).

(** ** The window *)

Definition D_dat : list (list Z) := [
  [0; -118784; 872448; -1880064; 8343552; -21106688; 26927104; -153554944; 307355648; 153554944; 26927104; 21106688; 8343552; 1880064; 872448; 118784; 0; -118784; 872448; -1880064; 8343552; -21106688; 26927104; -153554944; 307355648; 153554944; 26927104; 21106688; 8343552; 1880064; 872448; 118784];
  [-4096; -126976; 892928; -2125824; 8192000; -22597632; 24408064; -161120256; 307167232; 145981440; 29220864; 19611648; 8450048; 1642496; 851968; 106496; -4096; -126976; 892928; -2125824; 8192000; -22597632; 24408064; -161120256; 307167232; 145981440; 29220864; 19611648; 8450048; 1642496; 851968; 106496];
  [-4096; -143360; 909312; -2379776; 7995392; -24080384; 21659648; -168656896; 306610176; 138407936; 31293440; 18124800; 8519680; 1421312; 827392; 98304; -4096; -143360; 909312; -2379776; 7995392; -24080384; 21659648; -168656896; 306610176; 138407936; 31293440; 18124800; 8519680; 1421312; 827392; 98304];
  [-4096; -155648; 921600; -2641920; 7753728; -25546752; 18681856; -176152576; 305684480; 130854912; 33144832; 16642048; 8548352; 1204224; 802816; 86016; -4096; -155648; 921600; -2641920; 7753728; -25546752; 18681856; -176152576; 305684480; 130854912; 33144832; 16642048; 8548352; 1204224; 802816; 86016];
  [-4096; -167936; 929792; -2912256; 7462912; -26988544; 15466496; -183586816; 304386048; 123338752; 34783232; 15175680; 8540160; 999424; 778240; 77824; -4096; -167936; 929792; -2912256; 7462912; -26988544; 15466496; -183586816; 304386048; 123338752; 34783232; 15175680; 8540160; 999424; 778240; 77824];
  [-4096; -184320; 933888; -3190784; 7122944; -28405760; 12021760; -190943232; 302727168; 115871744; 36208640; 13725696; 8499200; 806912; 749568; 69632; -4096; -184320; 933888; -3190784; 7122944; -28405760; 12021760; -190943232; 302727168; 115871744; 36208640; 13725696; 8499200; 806912; 749568; 69632];
  [-4096; -200704; 933888; -3473408; 6733824; -29782016; 8343552; -198205440; 300707840; 108470272; 37433344; 12304384; 8425472; 626688; 720896; 65536; -4096; -200704; 933888; -3473408; 6733824; -29782016; 8343552; -198205440; 300707840; 108470272; 37433344; 12304384; 8425472; 626688; 720896; 65536];
  [-8192; -217088; 929792; -3764224; 6287360; -31117312; 4431872; -205361152; 298332160; 101146624; 38457344; 10907648; 8323072; 454656; 692224; 57344; -8192; -217088; 929792; -3764224; 6287360; -31117312; 4431872; -205361152; 298332160; 101146624; 38457344; 10907648; 8323072; 454656; 692224; 57344];
  [-8192; -237568; 917504; -4059136; 5791744; -32399360; 286720; -212389888; 295604224; 93917184; 39288832; 9543680; 8196096; 294912; 659456; 53248; -8192; -237568; 917504; -4059136; 5791744; -32399360; 286720; -212389888; 295604224; 93917184; 39288832; 9543680; 8196096; 294912; 659456; 53248];
  [-8192; -258048; 905216; -4358144; 5242880; -33624064; -4087808; -219275264; 292536320; 86790144; 39936000; 8216576; 8036352; 147456; 630784; 45056; -8192; -258048; 905216; -4358144; 5242880; -33624064; -4087808; -219275264; 292536320; 86790144; 39936000; 8216576; 8036352; 147456; 630784; 45056];
  [-8192; -278528; 880640; -4657152; 4632576; -34779136; -8691712; -226009088; 289136640; 79781888; 40398848; 6930432; 7860224; 8192; 602112; 40960; -8192; -278528; 880640; -4657152; 4632576; -34779136; -8691712; -226009088; 289136640; 79781888; 40398848; 6930432; 7860224; 8192; 602112; 40960];
  [-12288; -299008; 851968; -4956160; 3973120; -35860480; -13516800; -232562688; 285405184; 72904704; 40693760; 5685248; 7659520; -118784; 569344; 36864; -12288; -299008; 851968; -4956160; 3973120; -35860480; -13516800; -232562688; 285405184; 72904704; 40693760; 5685248; 7659520; -118784; 569344; 36864];
  [-12288; -323584; 819200; -5255168; 3252224; -36855808; -18567168; -238931968; 281362432; 66170880; 40820736; 4485120; 7442432; -233472; 540672; 32768; -12288; -323584; 819200; -5255168; 3252224; -36855808; -18567168; -238931968; 281362432; 66170880; 40820736; 4485120; 7442432; -233472; 540672; 32768];
  [-16384; -348160; 774144; -5554176; 2478080; -37761024; -23830528; -245096448; 277008384; 59588608; 40792064; 3334144; 7204864; -339968; 512000; 28672; -16384; -348160; 774144; -5554176; 2478080; -37761024; -23830528; -245096448; 277008384; 59588608; 40792064; 3334144; 7204864; -339968; 512000; 28672];
  [-16384; -372736; 724992; -5849088; 1646592; -38567936; -29302784; -251039744; 272359424; 53166080; 40615936; 2232320; 6955008; -434176; 479232; 28672; -16384; -372736; 724992; -5849088; 1646592; -38567936; -29302784; -251039744; 272359424; 53166080; 40615936; 2232320; 6955008; -434176; 479232; 28672];
  [-20480; -397312; 667648; -6135808; 757760; -39260160; -34979840; -256753664; 267427840; 46919680; 40296448; 1179648; 6692864; -520192; 454656; 24576; -20480; -397312; 667648; -6135808; 757760; -39260160; -34979840; -256753664; 267427840; 46919680; 40296448; 1179648; 6692864; -520192; 454656; 24576];
  [-20480; -425984; 598016; -6418432; -184320; -39841792; -40857600; -262221824; 262221824; 40857600; 39841792; 184320; 6418432; -598016; 425984; 20480; -20480; -425984; 598016; -6418432; -184320; -39841792; -40857600; -262221824; 262221824; 40857600; 39841792; 184320; 6418432; -598016; 425984; 20480]
].

Definition PRESHIFT (x : Z) : Z := if fpm_arm then Z.shiftr x 12 else Z.shiftr (x + Z.shiftl 1 13) 14.
(** [D[sb][i]]: the entries are [PRESHIFT(x)] or [-PRESHIFT(x)]. *)
Definition Dw (sb i : Z) : option Z :=
  obind (zget D_dat sb) (fun row => obind (zget row i) (fun x => Some (if x <? 0 then - PRESHIFT (- x) else PRESHIFT x))).

(** The accumulator: a pair of registers for FPM_ARM, an [unsigned long] for OPT_SSO. *)
Definition s64 (x : Z) : Z := (x + 9223372036854775808) mod 18446744073709551616 - 9223372036854775808.
Definition MLA (acc x y : Z) : option Z :=
  if fpm_arm then Some (s64 (acc + x * y)) else obind (fits (x * y)) (fun p => Some (ulong (acc + p))).
Definition MLN (acc : Z) : Z := if fpm_arm then s64 (- acc) else ulong (- acc).
(** MAD_F_SCALEBITS is 28 - 12 here. *)
Definition MLZ (acc : Z) : Z :=
  if fpm_arm then
    let lo := u32 acc in
    let hi := Z.shiftr acc 32 in
    s32 (Z.shiftr lo 16 + Z.shiftl hi 16 + Z.b2z (Z.testbit lo 15))
  else slong acc.
Definition PCM_SHIFT (x : Z) : Z := if fpm_arm then x else Z.shiftr x 2.

(** Eight products: [f[k]] with the entry of [D[sb]] at [at k]. *)
Definition taps : list Z := [0; 1; 2; 3; 4; 5; 6; 7].
(** [ptr = *Dptr + p]: [ptr[0]], [ptr[14]], [ptr[12]], ... *)
Definition plus_tap (p k : Z) : Z := p + (if k =? 0 then 0 else 16 - 2 * k).
(** [ptr = *Dptr - p]: [ptr[31 - 16]], [ptr[31 - 14]], ... *)
Definition minus_tap (p k : Z) : Z := 31 - (16 - 2 * k) - p.

Fixpoint mac (sb : Z) (at_ : Z -> Z) (f : list Z) (l : list Z) (acc : Z) : option Z :=
  match l with
  | [] => Some acc
  | k :: l =>
      obind (zget f k) (fun x => obind (Dw sb (at_ k)) (fun y => obind (MLA acc x y) (mac sb at_ f l)))
  end.

(** One channel: its part of [filter], and its samples. *)
Record chan_t : Type := Chan { cf : list (list (list (list Z))); cp : list Z }.
Abbreviation MC := (M chan_t).

(** [filter[eo][peo]] and [filter[eo][peo][r]] *)
Definition f_part (eo peo : Z) : MC (list (list Z)) :=
  let* c := get in lift (obind (zget (cf c) eo) (fun a => zget a peo)).
Definition f_row (eo peo r : Z) : MC (list Z) := let* a := f_part eo peo in lift (zget a r).
Definition set_part (eo peo : Z) (x : list (list Z)) : MC unit :=
  let* c := get in
  let* f := lift (obind (zget (cf c) eo) (fun a => obind (zset a peo x) (fun a => zset (cf c) eo a))) in
  modify (fun c => Chan f (cp c)).
Definition put_pcm (i v : Z) : MC unit :=
  let* c := get in let* l := lift (zset (cp c) i v) in modify (fun c => Chan (cf c) l).

(** [dct32(in, phase >> 1, filter[0][phase & 1], filter[1][phase & 1])] *)
Definition synth_dct (input : list Z) (phase : Z) : MC unit :=
  let* lo := f_part 0 (Z.land phase 1) in
  let* hi := f_part 1 (Z.land phase 1) in
  let* x := lift (dct32 input (Z.shiftr phase 1) lo hi) in
  set_part 0 (Z.land phase 1) x.1 ;;
  set_part 1 (Z.land phase 1) x.2.

Definition phase_even (phase : Z) : Z := Z.land phase (Z.lnot 1).
Definition phase_odd (phase : Z) : Z := Z.lor (Z.land (phase - 1) 15) 1.
Definition other (phase : Z) : Z := Z.land (Z.lnot phase) 1.

(** The first sample, the two of a subband, and the middle one. *)
Definition first_sample (phase i : Z) : MC unit :=
  let* fx := f_row 0 (other phase) 0 in
  let* a := lift (mac 0 (plus_tap (phase_odd phase)) fx taps 0) in
  let* fe := f_row 0 (Z.land phase 1) 0 in
  let* a := lift (mac 0 (plus_tap (phase_even phase)) fe taps (MLN a)) in
  put_pcm i (PCM_SHIFT (MLZ a)).

Definition low_sample (phase sb i : Z) : MC unit :=
  let* fo := f_row 1 (other phase) (sb - 1) in
  let* a := lift (mac sb (plus_tap (phase_odd phase)) fo taps 0) in
  let* fe := f_row 0 (Z.land phase 1) sb in
  let* a := lift (mac sb (plus_tap (phase_even phase)) fe (rev taps) (MLN a)) in
  put_pcm i (PCM_SHIFT (MLZ a)).

Definition high_sample (phase sb i : Z) : MC unit :=
  let* fe := f_row 0 (Z.land phase 1) sb in
  let* a := lift (mac sb (minus_tap (phase_even phase)) fe taps 0) in
  let* fo := f_row 1 (other phase) (sb - 1) in
  let* a := lift (mac sb (minus_tap (phase_odd phase)) fo (rev taps) a) in
  put_pcm i (PCM_SHIFT (MLZ a)).

(** The same in [synth_half], where the two sums are in the other order. *)
Definition high_sample_half (phase sb i : Z) : MC unit :=
  let* fo := f_row 1 (other phase) (sb - 1) in
  let* a := lift (mac sb (minus_tap (phase_odd phase)) fo (rev taps) 0) in
  let* fe := f_row 0 (Z.land phase 1) sb in
  let* a := lift (mac sb (minus_tap (phase_even phase)) fe taps a) in
  put_pcm i (PCM_SHIFT (MLZ a)).

Definition middle_sample (phase i : Z) : MC unit :=
  let* fo := f_row 1 (other phase) 15 in
  let* a := lift (mac 16 (plus_tap (phase_odd phase)) fo taps 0) in
  let* v := lift (fits (- MLZ a)) in
  put_pcm i (PCM_SHIFT v).

(** One round of the loops over [s]: [pcm1] is at [base]. *)
Definition full_round (input : list Z) (phase base : Z) : MC unit :=
  synth_dct input phase ;;
  first_sample phase base ;;
  for_range 1 15 (fun sb => low_sample phase sb (base + sb) ;; high_sample phase sb (base + 32 - sb)) ;;
  middle_sample phase (base + 16).

Definition half_round (input : list Z) (phase base : Z) : MC unit :=
  synth_dct input phase ;;
  first_sample phase base ;;
  for_range 1 15 (fun sb =>
    when (Z.land sb 1 =? 0)
      (low_sample phase sb (base + sb / 2) ;; high_sample_half phase sb (base + 16 - sb / 2))) ;;
  middle_sample phase (base + 8).

(** The samples [s] to [s + n - 1] of a channel; [width] is 32 or 16. *)
Fixpoint synth_loop (round : list Z -> Z -> Z -> MC unit) (width : Z) (sbsample : list (list Z)) (n : nat) (s phase : Z) : MC unit :=
  match n with
  | O => ret tt
  | S n' =>
      let* input := lift (zget sbsample s) in
      round input phase (width * s) ;;
      synth_loop round width sbsample n' (s + 1) ((phase + 1) mod 16)
  end.

Record synth_t : Type := SynthT {
  sy_filter : list (list (list (list (list Z))));
  sy_phase : Z;
  sy_samplerate : Z;
  sy_channels : Z;
  sy_length : Z;
  sy_samples : list (list Z)
}.

Definition zero_filter : list (list (list (list (list Z)))) := repeat (repeat (repeat (repeat (repeat 0 8) 16) 2) 2) 2.

Definition mad_synth_mute (y : synth_t) : synth_t :=
  SynthT zero_filter (sy_phase y) (sy_samplerate y) (sy_channels y) (sy_length y) (sy_samples y).
Definition mad_synth_init (y : synth_t) : synth_t :=
  SynthT zero_filter 0 0 0 0 (sy_samples (mad_synth_mute y)).

(** [synth_full] and [synth_half] *)
Fixpoint synth_channels (round : list Z -> Z -> Z -> MC unit) (width : Z) (frame : frame_t) (ns : Z) (n : nat) (ch : Z) (y : synth_t) : res synth_t :=
  match n with
  | O => Done y
  | S n' =>
      let! sbsample := res_opt (zget (fr_sbsample frame) ch) in
      let! f := res_opt (zget (sy_filter y) ch) in
      let! p := res_opt (zget (sy_samples y) ch) in
      let! (_, c, _) := synth_loop round width sbsample (Z.to_nat ns) 0 (sy_phase y) (Chan f p) in
      let! fs := res_opt (zset (sy_filter y) ch (cf c)) in
      let! ps := res_opt (zset (sy_samples y) ch (cp c)) in
      synth_channels round width frame ns n' (ch + 1)
        (SynthT fs (sy_phase y) (sy_samplerate y) (sy_channels y) (sy_length y) ps)
  end.

Definition synth_full (y : synth_t) (frame : frame_t) (nch ns : Z) : res synth_t := synth_channels full_round 32 frame ns (Z.to_nat nch) 0 y.
Definition synth_half (y : synth_t) (frame : frame_t) (nch ns : Z) : res synth_t := synth_channels half_round 16 frame ns (Z.to_nat nch) 0 y.

Definition MAD_OPTION_HALFSAMPLERATE : Z := 2.

Definition mad_synth_frame (y : synth_t) (frame : frame_t) : res synth_t :=
  let nch := MAD_NCHANNELS (fr_header frame) in
  let ns := MAD_NSBSAMPLES (fr_header frame) in
  let rate := hd_samplerate (fr_header frame) in
  let half := negb (Z.land (fr_options frame) MAD_OPTION_HALFSAMPLERATE =? 0) in
  let y := SynthT (sy_filter y) (sy_phase y) (if half then rate / 2 else rate) nch
             (if half then 32 * ns / 2 else 32 * ns) (sy_samples y) in
  let! y := (if half then synth_half else synth_full) y frame nch ns in
  Done (SynthT (sy_filter y) (u32 (sy_phase y + ns) mod 16) (sy_samplerate y) (sy_channels y) (sy_length y) (sy_samples y)).
End Synth.
