(* ===== verification/MadCos.v ===== *)
(** * Linear combinations of cosines, and numbers that are near to them

    The fast transforms of libmad are run on exact numbers: linear forms in the inputs whose
    coefficients are integer combinations of the cosines of the multiples of pi / (2 b), with
    [b] = 32 for the synthesis filter and 36 for the hybrid filter bank of Layer III.  A number of the
    fixed-point code is described by such a form and by how far it is from it. *)

From Stdlib Require Import Reals Lra Rtrigo1.
From S2P Require Import Prelude MadFixed.
Open Scope Z_scope.

Lemma Rabs_le_inv x y : (Rabs x <= y -> - y <= x <= y)%R.
Proof. pose proof (Rle_abs x). pose proof (Rle_abs (- x)) as H1. rewrite Rabs_Ropp in H1. lra. Qed.
Lemma Rabs_mult_le a b x y : (Rabs a <= x -> Rabs b <= y -> - (x * y) <= a * b <= x * y)%R.
Proof. intros Ha Hb. apply Rabs_le_inv. rewrite Rabs_mult. pose proof (Rabs_pos a). pose proof (Rabs_pos b). nra. Qed.

(** ** Cosines *)

Class Base (b : Z) := base_pos : 0 < b.

Section Cosines.
Context (b : Z) `{Hb : Base b}.

Definition C (n : Z) : R := cos (IZR n * PI / IZR (2 * b)).

Lemma base_R : (0 < IZR b)%R.
Proof. apply IZR_lt, base_pos. Qed.
#[local] Hint Resolve base_R : core.

Lemma C_0 : C 0 = 1%R.
Proof. unfold C. rewrite Rmult_0_l, Rdiv_0_l. apply cos_0. Qed.
Lemma C_opp n : C (- n) = C n.
Proof. unfold C. rewrite opp_IZR, <- cos_neg. f_equal. unfold Rdiv. ring. Qed.
Lemma C_abs n : C (Z.abs n) = C n.
Proof. destruct (Z.abs_spec n) as [[_ ->]|[_ ->]]; [done|apply C_opp]. Qed.
Lemma C_base : C b = 0%R.
Proof. unfold C. rewrite <- cos_PI2, mult_IZR. f_equal. pose proof base_R. field. lra. Qed.
Lemma C_mirror n : C (2 * b - n) = (- C n)%R.
Proof.
  unfold C. rewrite minus_IZR. pose proof base_R. replace ((IZR (2 * b) - IZR n) * PI / IZR (2 * b))%R with (PI - IZR n * PI / IZR (2 * b))%R by (rewrite mult_IZR; field; lra).
  rewrite cos_minus, cos_PI, sin_PI. lra.
Qed.
Lemma C_product i j : (2 * (C i * C j) = C (i + j) + C (i - j))%R.
Proof.
  unfold C. rewrite plus_IZR, minus_IZR. unfold Rdiv. rewrite !Rmult_plus_distr_r, !Rmult_minus_distr_r, cos_plus, cos_minus. lra.
Qed.
Lemma C_half m : (2 * (C m * C m) = 1 + C (2 * m))%R.
Proof. rewrite C_product, Z.sub_diag, C_0. replace (m + m) with (2 * m) by lia. lra. Qed.
Lemma C_pos m : 0 <= m <= b -> (0 <= C m <= 1)%R.
Proof.
  intros Hm. split; [|apply COS_bound]. unfold C. pose proof PI_RGT_0 as HP. pose proof base_R as HB. assert (H0 : (0 <= IZR m)%R) by (apply IZR_le; lia). assert (H1 : (IZR m <= IZR b)%R) by (apply IZR_le; lia).
  assert (H2 : (0 <= IZR m / IZR b <= 1)%R).
  { split; [apply Rmult_le_pos; [lra|left; by apply Rinv_0_lt_compat]|]. apply (Rmult_le_reg_r (IZR b)); [lra|]. unfold Rdiv. rewrite Rmult_assoc, Rinv_l; lra. }
  replace (IZR m * PI / IZR (2 * b))%R with (IZR m / IZR b * (PI / 2))%R by (rewrite mult_IZR; field; lra). apply cos_ge_0; nra.
Qed.
Lemma C_one m : (Rabs (C m) <= 1)%R.
Proof. apply Rabs_le, COS_bound. Qed.

Lemma C_period n q : C (n + 4 * b * q) = C n.
Proof.
  assert (Hn : forall (m : nat) j, C (j + 4 * b * Z.of_nat m) = C j).
  { intros m j. unfold C. rewrite plus_IZR, !mult_IZR, <- INR_IZR_INZ. pose proof base_R. rewrite <- (cos_period (IZR j * PI / (2 * IZR b)) m). f_equal. field. lra. }
  destruct (Z.le_ge_cases 0 q); [rewrite <- (Z2Nat.id q) by done; apply Hn|].
  rewrite <- (Hn (Z.to_nat (- q)) (n + 4 * b * q)), Z2Nat.id by lia. f_equal. lia.
Qed.

Definition reduce (n : Z) : Z := (n + 2 * b) mod (4 * b) - 2 * b.
Lemma C_reduce n : C (reduce n) = C n.
Proof.
  rewrite <- (C_period (reduce n) ((n + 2 * b) / (4 * b))). unfold reduce. f_equal. pose proof (base_pos (b := b)). pose proof (Z.div_mod (n + 2 * b) (4 * b)). lia.
Qed.
Lemma reduce_range n : - (2 * b) <= reduce n <= 2 * b.
Proof. pose proof (base_pos (b := b)). unfold reduce. pose proof (Z.mod_pos_bound (n + 2 * b) (4 * b)). lia. Qed.

(** ** Bounds of the cosines of 1 to [b - 1], times 2^60 *)

Definition one60 : Z := 1152921504606846976.
Context (tab : list (Z * Z)).
Definition bound_lo (m : Z) : Z := match zget tab (m - 1) with Some (l, _) => l | None => 0 end.
Definition bound_hi (m : Z) : Z := match zget tab (m - 1) with Some (_, h) => h | None => 0 end.
Definition bounded (m : Z) : Prop := (IZR (bound_lo m) <= IZR one60 * C m <= IZR (bound_hi m))%R.

(** Those of the double angle. *)
Definition half_lo (m : Z) : Z := if 2 * m =? b then 0 else if 2 * m <? b then bound_lo (2 * m) else - bound_hi (2 * b - 2 * m).
Definition half_hi (m : Z) : Z := if 2 * m =? b then 0 else if 2 * m <? b then bound_hi (2 * m) else - bound_lo (2 * b - 2 * m).

Lemma bounded_half m : 1 <= m < b -> (2 * m < b -> bounded (2 * m)) -> (b < 2 * m -> bounded (2 * b - 2 * m)) ->
  (0 <=? bound_lo m) && (0 <=? bound_hi m) && (2 * bound_lo m * bound_lo m <=? one60 * one60 + one60 * half_lo m) &&
  (one60 * one60 + one60 * half_hi m <=? 2 * bound_hi m * bound_hi m) = true -> bounded m.
Proof.
  intros Hm Hlow Hhigh Hc. rewrite !andb_true_iff, !Z.leb_le in Hc. destruct Hc as (((Hl0 & Hh0) & Hl) & Hh).
  assert (Hd : (IZR (half_lo m) <= IZR one60 * C (2 * m) <= IZR (half_hi m))%R).
  { unfold half_lo, half_hi. destruct (Z.eqb_spec (2 * m) b) as [->|Hn]; [rewrite C_base; lra|].
    destruct (Z.ltb_spec (2 * m) b); [by apply Hlow|]. destruct (Hhigh ltac:(lia)) as [H1 H2]. rewrite C_mirror in H1, H2. rewrite !opp_IZR. lra. }
  pose proof (C_half m) as E. pose proof (C_pos m ltac:(lia)) as [Hc _].
  apply IZR_le in Hl0, Hh0, Hl, Hh. rewrite !plus_IZR, !mult_IZR in Hl, Hh.
  assert (HP : (0 < IZR one60)%R) by (apply IZR_lt; done). set (P := IZR one60) in *. set (c := C m) in *. set (d := C (2 * m)) in *.
  assert (Hsq : (2 * (P * c) * (P * c) = P * P + P * (P * d))%R) by nra. unfold bounded. fold P c. assert (Hpc : (0 <= P * c)%R) by nra.
  assert (Hsquare : forall x y : R, (0 <= x -> 0 <= y -> x * x <= y * y -> x <= y)%R) by (intros x y Hx Hy Hxy; nra).
  split; apply Hsquare; try done; try lra; nra.
Qed.

(** A number that is [k C(m)] in fixed point, to 9/16. *)
Definition close_to (k c m : Z) : bool :=
  (Z.abs (4294967296 * c - k * bound_lo m) <=? 2415919104) && (Z.abs (4294967296 * c - k * bound_hi m) <=? 2415919104).
Lemma close_to_spec k c m : 0 <= k -> bounded m -> close_to k c m = true -> (Rabs (IZR c - 268435456 * (IZR k * C m)) <= 9 / 16)%R.
Proof.
  intros Hk [Hl Hh]. unfold close_to. rewrite andb_true_iff, !Z.leb_le. intros [H1 H2]. unfold one60 in *. apply IZR_le in Hk.
  assert (H4 : 4294967296 * c <= k * bound_lo m + 2415919104 /\ k * bound_hi m - 2415919104 <= 4294967296 * c) by lia.
  destruct H4 as [H4 H5]. apply IZR_le in H4, H5. rewrite plus_IZR, !mult_IZR in H4. rewrite minus_IZR, !mult_IZR in H5.
  pose proof (Rmult_le_compat_l _ _ _ Hk Hl). pose proof (Rmult_le_compat_l _ _ _ Hk Hh). apply Rabs_le. lra.
Qed.

(** ** Combinations *)

(** [veval_from j v]: the sum of [v_i C(j + i)]. *)
Fixpoint veval_from (j : Z) (v : list Z) : R := match v with [] => 0%R | x :: v => (IZR x * C j + veval_from (j + 1) v)%R end.
Abbreviation veval := (veval_from 0).
Abbreviation full v := (zlen v = b).

Definition add_at (i x : Z) (v : list Z) : list Z := match v !! Z.to_nat i with Some y => <[Z.to_nat i := y + x]> v | None => v end.
(** Add [x C(i)]: only the cosines of 0 to [b - 1] are kept. *)
Definition add_cos (i x : Z) (v : list Z) : list Z :=
  let i := Z.abs i in if i <? b then add_at i x v else if i =? b then v else add_at (2 * b - i) (- x) v.

Lemma veval_insert v : forall j i y x, v !! i = Some y -> veval_from j (<[i := y + x]> v) = (veval_from j v + IZR x * C (j + Z.of_nat i))%R.
Proof.
  induction v as [|z v IH]; intros j i y x Hi; [done|]. destruct i as [|i].
  - injection Hi as ->. change (<[0%nat := y + x]> (y :: v)) with (y + x :: v). cbn [veval_from]. rewrite plus_IZR, Z.add_0_r. lra.
  - change (<[S i := y + x]> (z :: v)) with (z :: <[i := y + x]> v). cbn [veval_from]. rewrite (IH (j + 1) i y x Hi). replace (j + 1 + Z.of_nat i) with (j + Z.of_nat (S i)) by lia. lra.
Qed.

Lemma add_at_length i x v : zlen (add_at i x v) = zlen v.
Proof. unfold add_at. case_match; [apply zlen_insert|done]. Qed.
Lemma add_cos_length i x v : zlen (add_cos i x v) = zlen v.
Proof. unfold add_cos. cbv zeta. repeat case_match; try done; apply add_at_length. Qed.

Lemma veval_add_at i x v : full v -> 0 <= i < b -> veval (add_at i x v) = (veval v + IZR x * C i)%R.
Proof.
  intros Hl Hi. unfold add_at. destruct (lookup_lt_is_Some_2 v (Z.to_nat i)) as [y Hy]; [unfold zlen in Hl; lia|]. rewrite Hy, (veval_insert v 0 _ y x Hy), Z2Nat.id, Z.add_0_l by lia. done.
Qed.

Lemma veval_add_cos i x v : full v -> - (2 * b) <= i <= 2 * b -> veval (add_cos i x v) = (veval v + IZR x * C i)%R.
Proof.
  intros Hl Hi. unfold add_cos. cbv zeta. rewrite <- (C_abs i). set (k := Z.abs i). assert (Hk : 0 <= k <= 2 * b) by lia. clearbody k.
  destruct (Z.ltb_spec k b); [apply veval_add_at; (done || lia)|]. destruct (Z.eqb_spec k b) as [->|?]; [rewrite C_base; lra|].
  rewrite veval_add_at by (done || lia). rewrite opp_IZR. replace (C k) with (- C (2 * b - k))%R; [lra|]. rewrite C_mirror. lra.
Qed.

(** Add [2 C(m)] times a combination. *)
Fixpoint vmul_from (m j : Z) (v r : list Z) : list Z :=
  match v with [] => r | x :: v => vmul_from m (j + 1) v (add_cos (j + m) x (add_cos (j - m) x r)) end.

Lemma veval_vmul m v : forall j r, full r -> 0 <= m < b -> 0 <= j -> j + zlen v <= b ->
  full (vmul_from m j v r) /\ veval (vmul_from m j v r) = (veval r + 2 * C m * veval_from j v)%R.
Proof.
  induction v as [|x v IH]; intros j r Hl Hm Hj Hv; cbn [vmul_from veval_from]; [split; [done|lra]|]. rewrite zlen_cons in Hv. pose proof (zlen_nonneg v).
  destruct (IH (j + 1) (add_cos (j + m) x (add_cos (j - m) x r))) as [H1 H2]; [by rewrite !add_cos_length|done|lia|lia|]. split; [done|].
  rewrite H2, !veval_add_cos by (rewrite ?add_cos_length; (done || lia)). pose proof (C_product j m). nra.
Qed.

Definition zeros : list Z := repeat 0 (Z.to_nat b).
Lemma zeros_full : full zeros.
Proof. unfold zeros. rewrite zlen_repeat, Z2Nat.id; [done|]. pose proof (base_pos (b := b)). lia. Qed.

Lemma veval_map f (k : R) v : (forall x, In x v -> IZR (f x) = k * IZR x)%R -> forall j, veval_from j (map f v) = (k * veval_from j v)%R.
Proof.
  induction v as [|x v IH]; intros Hv j; cbn [map veval_from]; [lra|]. rewrite (IH (fun y Hy => Hv y (or_intror Hy))), (Hv x (or_introl eq_refl)). lra.
Qed.
Lemma veval_zeros n : forall j, veval_from j (repeat 0 n) = 0%R.
Proof. induction n as [|n IH]; intros j; cbn; [done|]. rewrite IH. lra. Qed.

(** [v + s w] *)
Definition vcomb (s : Z) (v w : list Z) : list Z := zip_with (fun x y => x + s * y) v w.
Lemma veval_vcomb s v : forall w j, zlen v = zlen w -> veval_from j (vcomb s v w) = (veval_from j v + IZR s * veval_from j w)%R.
Proof.
  induction v as [|x v IH]; intros [|y w] j Hl; rewrite ?zlen_cons in Hl; try (pose proof (zlen_nonneg v)); try (pose proof (zlen_nonneg w)); cbn [vcomb zip_with veval_from]; [lra|unfold zlen in Hl; cbn in Hl; lia..|].
  fold (vcomb s v w). rewrite (IH w (j + 1)) by lia. rewrite plus_IZR, mult_IZR. lra.
Qed.
Lemma vcomb_length s v w : zlen v = zlen w -> zlen (vcomb s v w) = zlen v.
Proof. unfold zlen, vcomb. intros H. rewrite length_zip_with. lia. Qed.

Fixpoint norm1 (v : list Z) : Z := match v with [] => 0 | x :: v => Z.abs x + norm1 v end.
Lemma norm1_nonneg v : 0 <= norm1 v.
Proof. induction v; cbn; lia. Qed.
Lemma veval_norm v : forall j, (Rabs (veval_from j v) <= IZR (norm1 v))%R.
Proof.
  induction v as [|x v IH]; intros j; cbn [veval_from norm1]; [rewrite Rabs_R0; lra|]. rewrite plus_IZR, abs_IZR. eapply Rle_trans; [apply Rabs_triang|].
  apply Rplus_le_compat; [|apply IH]. rewrite Rabs_mult. pose proof (Rabs_pos (IZR x)). pose proof (C_one j). nra.
Qed.
End Cosines.

(** ** Linear forms

    A form is one combination of cosines for each of the [n] inputs, in units of 1/1024; [vmag] bounds
    the value of a combination. *)

Abbreviation form := (list (list Z)).

Class Magnitude (b : Z) (vmag : list Z -> Z) := {
  vmag_nonneg v : 0 <= vmag v;
  vmag_ok v : zlen v = b -> (Rabs (veval_from b 0 v) <= IZR (vmag v))%R
}.

Section Forms.
Context (b : Z) `{Hb : Base b} (vmag : list Z -> Z) `{Hmag : Magnitude b vmag} (n : nat).
Abbreviation C := (C b).
Abbreviation veval := (veval_from b 0).

Fixpoint feval (f : form) (x : list Z) : R := match f, x with v :: f, k :: x => (veval v * IZR k + feval f x)%R | _, _ => 0%R end.
Definition rows_full (f : form) : Prop := Forall (fun v => zlen v = b) f.
Definition wf (f : form) : Prop := length f = n /\ rows_full f.
Definition fcomb (s : Z) (f g : form) : form := zip_with (vcomb s) f g.
Fixpoint mag (f : form) : Z := match f with [] => 0 | v :: f => Z.max (vmag v) (mag f) end.

Lemma feval_fcomb s f : forall g x, length f = length g -> rows_full f -> rows_full g -> feval (fcomb s f g) x = (feval f x + IZR s * feval g x)%R.
Proof.
  induction f as [|v f IH]; intros [|w g] [|k x] Hl Hf Hg; try done; cbn [fcomb zip_with feval]; try lra.
  apply Forall_cons_1 in Hf as [Hv Hf]. apply Forall_cons_1 in Hg as [Hw Hg]. injection Hl as Hl. rewrite veval_vcomb by congruence. fold (fcomb s f g). rewrite (IH g x Hl Hf Hg). lra.
Qed.

Lemma fcomb_wf s f g : wf f -> wf g -> wf (fcomb s f g).
Proof.
  intros [Hf Ff] [Hg Fg]. split; [unfold fcomb; rewrite length_zip_with; lia|]. unfold fcomb. clear Hf Hg. revert g Fg.
  induction f as [|v f IH]; intros [|w g] Fg; cbn; try done; try by constructor. apply Forall_cons_1 in Ff as [Hv Ff]. apply Forall_cons_1 in Fg as [Hw Fg].
  constructor; [rewrite vcomb_length; congruence|by apply IH].
Qed.

(** A multiplication of all combinations. *)
Lemma feval_map (k : R) g f : rows_full f -> (forall v, zlen v = b -> zlen (g v) = b /\ veval (g v) = (k * veval v)%R) ->
  rows_full (map g f) /\ forall x, feval (map g f) x = (k * feval f x)%R.
Proof.
  intros Hf Hg. induction f as [|v f IH]; [split; [constructor|]; intros [|]; cbn; lra|]. apply Forall_cons_1 in Hf as [Hv Hf]. destruct (IH Hf) as [H1 H2]. destruct (Hg v Hv) as [H3 H4].
  split; [by constructor|]. intros [|y x]; cbn [map feval]; [lra|]. rewrite H4, H2. lra.
Qed.

Lemma mag_nonneg f : 0 <= mag f.
Proof. induction f; cbn; lia. Qed.

Lemma feval_mag f : rows_full f -> forall x, (Rabs (feval f x) <= IZR (mag f) * IZR (norm1 x))%R.
Proof.
  assert (H0 : forall g y, (0 <= IZR (mag g) * IZR (norm1 y))%R) by (intros g y; rewrite <- mult_IZR; apply IZR_le; pose proof (mag_nonneg g); pose proof (norm1_nonneg y); nia).
  induction f as [|v f IH]; intros Hf [|k x]; cbn [feval]; try (rewrite Rabs_R0; apply H0). apply Forall_cons_1 in Hf as [Hv Hf]. eapply Rle_trans; [apply Rabs_triang|].
  rewrite Rabs_mult. cbn [norm1]. rewrite plus_IZR, Rmult_plus_distr_l, abs_IZR. pose proof (Rabs_pos (IZR k)).
  assert (H1 : (IZR (vmag v) <= IZR (mag (v :: f)))%R) by (apply IZR_le; cbn; lia). assert (H2 : (IZR (mag f) <= IZR (mag (v :: f)))%R) by (apply IZR_le; cbn; lia).
  assert (H3 : (0 <= IZR (norm1 x))%R) by (apply IZR_le, norm1_nonneg). pose proof (vmag_ok v Hv) as H4. specialize (IH Hf x).
  apply Rplus_le_compat; [|eapply Rle_trans; [apply IH|]]; apply Rmult_le_compat_r; lra.
Qed.

(** ** Numbers with an error, in units of 1/1024 of the last bit

    The magnitudes of the inputs add up to [span] at most. *)

Context (span : Z).
Abbreviation approx := (form * Z)%type.
Definition reach (a : approx) : Z := mag a.1 * span + a.2.
Definition guard (a : approx) : option approx := if (0 <=? a.2) && (reach a <=? 2147483647 * 1024) then Some a else None.

Definition near (x : list Z) (z : Z) (a : approx) : Prop :=
  wf a.1 /\ 0 <= a.2 /\ reach a <= 2147483647 * 1024 /\ (Rabs (1024 * IZR z - feval a.1 x) <= IZR a.2)%R.

Context `{T : Target} (x : list Z) (Hx : norm1 x <= span).

Lemma near_bound z a : near x z a -> (1024 * Rabs (IZR z) <= IZR (reach a))%R /\ - 2147483647 <= z <= 2147483647.
Proof.
  intros ([_ Hw] & He & Hg & Hn). assert (H1 : (1024 * Rabs (IZR z) <= IZR (reach a))%R).
  { pose proof (feval_mag a.1 Hw x) as Hm. apply IZR_le in Hx. pose proof (mag_nonneg a.1) as H0. apply IZR_le in H0. unfold reach. rewrite plus_IZR, mult_IZR.
    replace (1024 * Rabs (IZR z))%R with (Rabs (1024 * IZR z)) by (rewrite Rabs_mult, (Rabs_right 1024); lra).
    replace (1024 * IZR z)%R with ((1024 * IZR z - feval a.1 x) + feval a.1 x)%R by lra. eapply Rle_trans; [apply Rabs_triang|]. nra. }
  split; [done|]. apply IZR_le in Hg. rewrite <- abs_IZR, <- mult_IZR in H1. pose proof (Rle_trans _ _ _ H1 Hg) as H2. apply le_IZR in H2. lia.
Qed.

Lemma guard_some a c : guard a = Some c -> c = a /\ 0 <= a.2 /\ reach a <= 2147483647 * 1024.
Proof. unfold guard. destruct (_ && _) eqn:E; [|done]. intros [= <-]. rewrite andb_true_iff, !Z.leb_le in E. naive_solver. Qed.

Lemma near_comb s z w a c r : s = 1 \/ s = -1 -> near x z a -> near x w c -> guard (fcomb s a.1 c.1, a.2 + c.2) = Some r ->
  fits (z + s * w) = Some (z + s * w) /\ near x (z + s * w) r.
Proof.
  intros Hs (Wa & _ & _ & Na) (Wb & _ & _ & Nb) (-> & H0 & H1)%guard_some. assert (HN : near x (z + s * w) (fcomb s a.1 c.1, a.2 + c.2)).
  { split; [by apply fcomb_wf|]. do 2 (split; [done|]). cbn [fst snd]. destruct Wa as [La Fa], Wb as [Lb Fb]. rewrite feval_fcomb by (done || lia).
    rewrite !plus_IZR, mult_IZR. apply Rabs_le_inv in Na, Nb. apply Rabs_le. destruct Hs as [-> | ->]; lra. }
  split; [|done]. apply near_bound in HN as [_ HN]. apply fits_32. lia.
Qed.

(** The product with a constant [c] that is [K] in fixed point, to 9/16. *)
Definition mul_err (c : Z) (a : approx) : Z := 512 + (reach a * 9 / 4294967296 + 1) + (a.2 * (Z.abs c + 1) / 268435456 + 1).

Lemma near_mul K c z a f r : (Rabs (IZR c - 268435456 * K) <= 9 / 16)%R -> reach a * Z.abs c <= 590295809000000000000 -> near x z a ->
  wf f -> (feval f x = K * feval a.1 x)%R -> guard (f, mul_err c a) = Some r -> near x (mul_arm z c) r.
Proof.
  intros Hcl Hc Hn Wf Hv (-> & H0 & H1)%guard_some. destruct (near_bound z a Hn) as [Hb' Hz]. destruct Hn as ([La Fa] & He & _ & Hn).
  split; [done|]. do 2 (split; [done|]). cbn [fst snd]. rewrite Hv. clear Hv.
  assert (Hzc : Z.abs (z * c) <= 590295809000000000000 / 1024).
  { apply Z.div_le_lower_bound; [lia|]. rewrite Z.abs_mul. rewrite <- abs_IZR, <- mult_IZR in Hb'. apply le_IZR in Hb'. nia. }
  change (590295809000000000000 / 1024) with 576460750976562500 in Hzc. pose proof (mul_arm_error z c ltac:(lia)) as Hmul. unfold MAD_F_ONE in Hmul. set (w := mul_arm z c) in *. clearbody w.
  unfold mul_err. set (B := reach a) in *. set (e := a.2) in *. clearbody B.
  assert (Hq1 : B * 9 <= 4294967296 * (B * 9 / 4294967296 + 1)) by (pose proof (Z.mul_succ_div_gt (B * 9) 4294967296); lia).
  assert (Hq2 : e * (Z.abs c + 1) <= 268435456 * (e * (Z.abs c + 1) / 268435456 + 1)) by (pose proof (Z.mul_succ_div_gt (e * (Z.abs c + 1)) 268435456); lia).
  set (q1 := B * 9 / 4294967296 + 1) in *. set (q2 := e * (Z.abs c + 1) / 268435456 + 1) in *. clearbody q1 q2.
  assert (Hmul' : (Rabs (268435456 * IZR w - IZR z * IZR c) <= 134217728)%R) by (rewrite <- !mult_IZR, <- minus_IZR, <- abs_IZR; by apply IZR_le).
  apply IZR_le in Hq1, Hq2, He. rewrite !mult_IZR in Hq1, Hq2. rewrite plus_IZR in Hq2. rewrite abs_IZR in Hq2. rewrite !plus_IZR.
  set (F := feval a.1 x) in *. clearbody F. apply Rabs_le_inv in Hmul'.
  destruct (Rabs_mult_le (IZR z) (IZR c - 268435456 * K) (IZR B / 1024) (9 / 16)) as [P1 P2]; [lra|done|].
  destruct (Rabs_mult_le (268435456 * K) (1024 * IZR z - F) (Rabs (IZR c) + 1) (IZR e)) as [P3 P4]; [|done|].
  { replace (268435456 * K)%R with (IZR c + - (IZR c - 268435456 * K))%R by lra. eapply Rle_trans; [apply Rabs_triang|]. rewrite Rabs_Ropp. lra. }
  apply Rabs_le. nra.
Qed.

(** The inputs themselves are exact. *)
Definition unit_vec : list Z := 1024 :: repeat 0 (Z.to_nat (b - 1)).
Definition unit_form (k : nat) : form := <[k := unit_vec]> (repeat (zeros b) n).
Definition inputs : list approx := map (fun k => (unit_form k, 0)) (seq 0 n).

Lemma feval_zeros m y : feval (repeat (zeros b) m) y = 0%R.
Proof. revert y. induction m as [|m IH]; intros [|v y]; cbn [repeat feval]; try done. rewrite IH. unfold zeros. rewrite veval_zeros. lra. Qed.
Lemma feval_unit m y : forall k v, (k < m)%nat -> y !! k = Some v -> feval (<[k := unit_vec]> (repeat (zeros b) m)) y = (1024 * IZR v)%R.
Proof.
  revert y. induction m as [|m IH]; intros [|w y] [|k] v Hk Hv; try done; try lia.
  - injection Hv as ->. change (<[0%nat := unit_vec]> (repeat (zeros b) (S m))) with (unit_vec :: repeat (zeros b) m). cbn [feval]. rewrite feval_zeros.
    unfold unit_vec. cbn [veval_from]. rewrite veval_zeros, C_0. lra.
  - change (<[S k := unit_vec]> (repeat (zeros b) (S m))) with (zeros b :: <[k := unit_vec]> (repeat (zeros b) m)). cbn [feval]. rewrite (IH y k v ltac:(lia) Hv). unfold zeros at 1. rewrite veval_zeros. lra.
Qed.

Lemma near_inputs : length x = n -> forallb (fun k => reach (unit_form k, 0) <=? 2147483647 * 1024) (seq 0 n) = true -> Forall2 (near x) x inputs.
Proof.
  intros Hl Hr. apply Forall2_same_length_lookup_2; [unfold inputs; by rewrite length_map, length_seq|]. intros k v a Hv Ha. apply lookup_lt_Some in Hv as Hk. rewrite Hl in Hk.
  unfold inputs in Ha. rewrite list_lookup_fmap, lookup_seq_lt in Ha by done. injection Ha as <-. cbn [Nat.add].
  rewrite forallb_forall in Hr. specialize (Hr k ltac:(apply in_seq; lia)). apply Z.leb_le in Hr. pose proof (base_pos (b := b)).
  split; [split; [cbn [fst]; unfold unit_form; by rewrite length_insert, repeat_length|]|].
  - apply Forall_insert; [|unfold unit_vec; rewrite zlen_cons, zlen_repeat; lia]. apply Forall_forall. intros v' ->%repeat_spec. apply zeros_full, _.
  - split; [done|]. split; [done|]. cbn [fst snd]. unfold unit_form. rewrite (feval_unit n x k v Hk Hv), Rminus_diag, Rabs_R0. lra.
Qed.
End Forms.
