(* ===== verification/MadDct.v ===== *)
(** * The fast transform of synth.c is the 32-point cosine transform

    [dct32] of libmad factors the transform into 80 multiplications.  Its code is run here
    on linear forms in the 32 inputs.  This proves that it computes the
    cosine transform, and how far the fixed-point code of the board is from it. *)

From Stdlib Require Import Reals Lra Rtrigo1.
From S2P Require Import Prelude MadFixed MadSynth MadCos.
Open Scope Z_scope.

#[export] Instance base_32 : Base 32 := eq_refl.
Abbreviation C := (MadCos.C 32).
Abbreviation veval := (veval_from 32 0).
Abbreviation full v := (zlen v = 32).

Lemma cos_C n : cos (IZR n * PI / 64) = C n.
Proof. done. Qed.

(** Bounds of the cosines times 2^60: each follows from the one of the double angle. *)
Definition cos_bounds : list (Z * Z) := [
  (1151532760162549489, 1151532760162549491);
  (1147369872436662990, 1147369872436662992);
  (1140442870190345040, 1140442870190345041);
  (1130768441178740757, 1130768441178740758);
  (1118369891948718997, 1118369891948718998);
  (1103277091691359534, 1103277091691359535);
  (1085526400284455519, 1085526400284455520);
  (1065160580698383124, 1065160580698383125);
  (1042228695976360312, 1042228695976360313);
  (1016785991037278313, 1016785991037278314);
  (988893759585853128, 988893759585853129);
  (958619196450722177, 958619196450722178);
  (926035235706216537, 926035235706216539);
  (891220374967787609, 891220374967787611);
  (854258486284375918, 854258486284375920);
  (815238614083298888, 815238614083298889);
  (774254760654426064, 774254760654426067);
  (731405659690429195, 731405659690429197);
  (686794538428668528, 686794538428668530);
  (640528868967736374, 640528868967736375);
  (592720109357758155, 592720109357758156);
  (543483435088187079, 543483435088187080);
  (492937461619961866, 492937461619961868);
  (441203958630471859, 441203958630471861);
  (388407556659738431, 388407556659738433);
  (334675446864527721, 334675446864527723);
  (280137074603713365, 280137074603713367);
  (224923827593068885, 224923827593068888);
  (169168719380752195, 169168719380752198);
  (113006068906017468, 113006068906017472);
  (56571176913125530, 56571176913125541)
].
Abbreviation bounded := (MadCos.bounded 32 cos_bounds).

Ltac bound_next m :=
  assert (bounded m) by (apply bounded_half; [apply _|lia|intros ?; first [exfalso; lia|assumption]|intros ?; first [exfalso; lia|assumption]|vm_compute; reflexivity]).

Lemma all_bounded m : 1 <= m <= 31 -> bounded m.
Proof.
  intros Hm. bound_next 16. bound_next 8. bound_next 24. bound_next 4. bound_next 12. bound_next 20. bound_next 28.
  bound_next 2. bound_next 6. bound_next 10. bound_next 14. bound_next 18. bound_next 22. bound_next 26. bound_next 30.
  bound_next 1. bound_next 3. bound_next 5. bound_next 7. bound_next 9. bound_next 11. bound_next 13. bound_next 15.
  bound_next 17. bound_next 19. bound_next 21. bound_next 23. bound_next 25. bound_next 27. bound_next 29. bound_next 31.
  assert (Hin : In m (map Z.of_nat (seq 1 31))) by (apply in_map_iff; exists (Z.to_nat m); rewrite in_seq; lia).
  cbn [seq map] in Hin. repeat (destruct Hin as [<-|Hin]; [assumption|]). done.
Qed.

(** The table is accurate to 9/16 of the last bit. *)
Definition table_close (m : Z) : bool :=
  match zget costab (m - 1) with Some c => (0 <=? c) && (c <? 268435456) && close_to cos_bounds 1 c m | None => false end.

Lemma costab_close m : 1 <= m <= 31 -> exists c, zget costab (m - 1) = Some c /\ 0 <= c < 268435456 /\ (Rabs (IZR c - 268435456 * C m) <= 9 / 16)%R.
Proof.
  intros Hm. assert (Ht : forallb table_close (map Z.of_nat (seq 1 31)) = true) by (vm_compute; reflexivity).
  rewrite forallb_forall in Ht. specialize (Ht m ltac:(apply in_map_iff; exists (Z.to_nat m); rewrite in_seq; lia)). unfold table_close in Ht.
  destruct (zget costab (m - 1)) as [c|]; [|done]. rewrite !andb_true_iff, Z.leb_le, Z.ltb_lt in Ht. destruct Ht as [Hr Hc]. exists c. split; [done|]. split; [done|].
  pose proof (close_to_spec 32 cos_bounds 1 c m ltac:(lia) (all_bounded m Hm) Hc) as H. by rewrite Rmult_1_l in H.
Qed.

(** ** Products with a cosine *)

(** Half of [vmul_from], when that is possible. *)
Definition vmul (m : Z) (v : list Z) : option (list Z) :=
  let r := vmul_from 32 m 0 v (zeros 32) in
  if forallb Z.even r then Some (map (fun x => x / 2) r) else None.

Lemma vmul_value m v r : full v -> 0 <= m < 32 -> vmul m v = Some r -> full r /\ veval r = (C m * veval v)%R.
Proof.
  intros Hl Hm. unfold vmul. destruct (forallb _ _) eqn:He; [|done]. intros [= <-]. rewrite forallb_forall in He.
  destruct (veval_vmul 32 m v 0 (zeros 32)) as [H1 H2]; [apply zeros_full, _|done|lia|lia|]. split; [unfold zlen in *; by rewrite length_map|].
  rewrite (veval_map 32 _ (/ 2)), H2.
  - unfold zeros. rewrite veval_zeros. lra.
  - intros x Hx. apply He, Z.even_spec in Hx as [y ->]. replace (2 * y / 2) with y by (rewrite Z.mul_comm, Z.div_mul; lia). rewrite mult_IZR. lra.
Qed.

Fixpoint fmul (m : Z) (f : form) : option form :=
  match f with [] => Some [] | v :: f => obind (vmul m v) (fun v => obind (fmul m f) (fun f => Some (v :: f))) end.
Lemma fmul_value m f : forall r, 0 <= m < 32 -> rows_full 32 f -> fmul m f = Some r -> length r = length f /\ rows_full 32 r /\ forall x, feval 32 r x = (C m * feval 32 f x)%R.
Proof.
  induction f as [|v f IH]; intros r Hm Hf; cbn [fmul]; [intros [= <-]; split; [done|]; split; [constructor|]; intros [|]; cbn; lra|].
  apply Forall_cons_1 in Hf as [Hv Hf]. destruct (vmul m v) as [v'|] eqn:Ev; [|done]. cbn [obind]. destruct (fmul m f) as [f'|] eqn:Ef; [|done]. intros [= <-].
  destruct (vmul_value m v v' Hv Hm Ev) as [Hv' He]. destruct (IH f' Hm Hf eq_refl) as (Hl & Hf' & Hx). split; [cbn; lia|]. split; [by constructor|].
  intros [|k x]; cbn [feval]; [lra|]. rewrite He, Hx. lra.
Qed.

(** ** Numbers with an error *)

(** The magnitudes of the inputs add up to 2 at most, in fixed point. *)
Definition span : Z := 536870912.
#[export] Instance norm1_magnitude : Magnitude 32 norm1 := {| vmag_nonneg := norm1_nonneg; vmag_ok v _ := veval_norm 32 v 0 |}.
Abbreviation approx := (form * Z)%type.
Abbreviation guard := (MadCos.guard norm1 span).
Abbreviation near := (MadCos.near 32 norm1 32 span).
Definition approx_ops : dops approx := {|
  d_add a b := guard (fcomb 1 a.1 b.1, a.2 + b.2);
  d_sub a b := guard (fcomb (-1) a.1 b.1, a.2 + b.2);
  d_mul a m := obind (zget costab (Z.of_nat m - 1)) (fun c => obind (fmul (Z.of_nat m) a.1) (fun f => guard (f, mul_err norm1 span c a)));
  d_twice a := guard (fcomb 1 a.1 a.1, a.2 + a.2)
|}.

Section Near.
Context `{T : Target} `{FP : Fpm} (x : list Z).
Hypothesis (Harm : fpm_arm = true) (Hx : norm1 x <= span).

Lemma near_cosine m c z a f r : 1 <= m <= 31 -> zget costab (m - 1) = Some c -> near x z a -> fmul m a.1 = Some f -> guard (f, mul_err norm1 span c a) = Some r ->
  near x (mul_arm z c) r.
Proof.
  intros Hm Hc Hn Hf Hg. destruct (costab_close m Hm) as (c' & Hc' & Hr & Hcl). simplify_eq. pose proof Hn as ((La & Fa) & _ & Hreach & _).
  destruct (fmul_value m a.1 f ltac:(lia) Fa Hf) as (Lf & Ff & Hv). eapply (near_mul 32 norm1 32 span x Hx (C m)); [exact Hcl| |exact Hn|split; [by rewrite Lf|done]|apply Hv|exact Hg].
  rewrite Z.abs_eq by lia. etransitivity; [apply Z.mul_le_mono_nonneg_r; [lia|exact Hreach]|lia].
Qed.

(** Where the code can be run on descriptions it can be run on numbers, and they agree. *)
Definition near_temp (z : option Z) (a : option approx) : Prop :=
  match z, a with Some z, Some a => near x z a | None, None => True | _, _ => False end.

Lemma near_deval xs as_ Tz Ta e : Forall2 (near x) xs as_ -> Forall2 near_temp Tz Ta -> forall a, deval approx_ops as_ Ta e = Some a ->
  exists z, deval fixed_ops xs Tz e = Some z /\ near x z a.
Proof.
  intros Hin HT. induction e as [n|k|e1 IH1 e2 IH2|e1 IH1 e2 IH2|e1 IH1 m|e1 IH1]; intros a; cbn [deval].
  - destruct (Ta !! n) as [[b|]|] eqn:Ha; [|done|done]. intros [= ->]. destruct (Forall2_lookup_r _ _ _ _ _ HT Ha) as (z & Hz & Hn).
    rewrite Hz. destruct z as [z|]; [|done]. by exists z.
  - intros Ha. destruct (Forall2_lookup_r _ _ _ _ _ Hin Ha) as (z & Hz & Hn). by exists z.
  - destruct (deval approx_ops as_ Ta e1) as [a1|]; [|done]. destruct (deval approx_ops as_ Ta e2) as [a2|]; [|done]. cbn. intros Ha.
    destruct (IH1 a1 eq_refl) as (z1 & -> & H1). destruct (IH2 a2 eq_refl) as (z2 & -> & H2).
    destruct (near_comb 32 norm1 32 span x Hx 1 z1 z2 a1 a2 a) as [E N]; [by left|done..|]. rewrite Z.mul_1_l in E, N. by exists (z1 + z2).
  - destruct (deval approx_ops as_ Ta e1) as [a1|]; [|done]. destruct (deval approx_ops as_ Ta e2) as [a2|]; [|done]. cbn. intros Ha.
    destruct (IH1 a1 eq_refl) as (z1 & -> & H1). destruct (IH2 a2 eq_refl) as (z2 & -> & H2).
    destruct (near_comb 32 norm1 32 span x Hx (-1) z1 z2 a1 a2 a) as [E N]; [by right|done..|]. replace (z1 + -1 * z2) with (z1 - z2) in E, N by lia. by exists (z1 - z2).
  - destruct (deval approx_ops as_ Ta e1) as [a1|]; [|done]. cbn. destruct (zget costab (Z.of_nat m - 1)) as [c|] eqn:Hc; [|done]. cbn.
    destruct (fmul (Z.of_nat m) a1.1) as [f|] eqn:Hf; [|done]. cbn. intros Ha. destruct (IH1 a1 eq_refl) as (z1 & -> & H1). cbn. unfold mad_f_mul. rewrite Harm.
    exists (mul_arm z1 c). split; [done|]. eapply near_cosine; [|exact Hc|done..]. apply zget_range in Hc. change (zlen costab) with 31 in Hc. lia.
  - destruct (deval approx_ops as_ Ta e1) as [a1|]; [|done]. cbn. intros Ha. destruct (IH1 a1 eq_refl) as (z1 & -> & H1).
    destruct (near_comb 32 norm1 32 span x Hx 1 z1 z1 a1 a1 a) as [E N]; [by left|done..|]. replace (z1 + 1 * z1) with (z1 * 2) in E, N by lia. by exists (z1 * 2).
Qed.

Definition near_store (p : bool * nat * Z) (q : bool * nat * approx) : Prop := p.1 = q.1 /\ near x p.2 q.2.

Lemma near_dexec xs as_ code : Forall2 (near x) xs as_ -> forall Tz Ta l, Forall2 near_temp Tz Ta -> dexec approx_ops as_ code Ta = Some l ->
  exists l', dexec fixed_ops xs code Tz = Some l' /\ Forall2 near_store l' l.
Proof.
  intros Hin. induction code as [|[n e|r e|r e] code IH]; intros Tz Ta l HT; cbn [dexec]; [intros [= <-]; by exists []| | |];
    (destruct (deval approx_ops as_ Ta e) as [a|] eqn:Ea; [|done]); cbn [obind]; destruct (near_deval xs as_ Tz Ta e Hin HT a Ea) as (z & -> & Hn); cbn [obind].
  - apply IH. by apply Forall2_insert.
  - destruct (dexec approx_ops as_ code Ta) as [m|] eqn:Em; [|done]. intros [= <-]. destruct (IH Tz Ta m HT Em) as (m' & -> & Hm). eexists. split; [done|by constructor].
  - destruct (dexec approx_ops as_ code Ta) as [m|] eqn:Em; [|done]. intros [= <-]. destruct (IH Tz Ta m HT Em) as (m' & -> & Hm). eexists. split; [done|by constructor].
Qed.
End Near.

(** ** The cosine transform *)

(** The sum of [x_k cos((2 k + 1) i pi / 64)], from [k] on. *)
Fixpoint dct_from (k i : Z) (x : list Z) : R := match x with [] => 0%R | v :: x => (IZR v * cos (IZR ((2 * k + 1) * i) * PI / 64) + dct_from (k + 1) i x)%R end.
Definition dct (i : Z) (x : list Z) : R := dct_from 0 i x.

(** The form of one output. *)
Fixpoint dct_form (n : nat) (k i : Z) : form := match n with O => [] | S n => add_cos 32 (reduce 32 ((2 * k + 1) * i)) 1024 (zeros 32) :: dct_form n (k + 1) i end.
Lemma feval_dct i x : forall k, feval 32 (dct_form (length x) k i) x = (1024 * dct_from k i x)%R.
Proof.
  induction x as [|v x IH]; intros k; cbn [length dct_form feval dct_from]; [lra|]. rewrite IH, veval_add_cos, C_reduce.
  - unfold zeros. rewrite veval_zeros. rewrite cos_C. lra.
  - apply _.
  - apply _.
  - apply (zeros_full 32).
  - apply (reduce_range 32).
Qed.

Abbreviation inputs := (MadCos.inputs 32 32).

(** Output [i] is in row [15 - i] of [hi] or [i - 16] of [lo]. *)
Definition out_index (b : bool) (r : nat) : Z := if b then 15 - Z.of_nat r else 16 + Z.of_nat r.
Definition store_ok (q : bool * nat * approx) : bool :=
  bool_decide (q.2.1 = dct_form 32 0 (out_index q.1.1 q.1.2)) && (q.2.2 <=? 8192 * 1024) && (q.1.2 <? 16)%nat.

(** The code run on the inputs gives the forms of the cosine transform. *)
Lemma dct_symbolic : exists l, dct32_run approx_ops inputs = Some l /\ (forall q, In q l -> store_ok q = true) /\ NoDup (map fst l) /\
  forall b r, (r < 16)%nat -> (b, r) ∈ map fst l.
Proof.
    assert (H : match dct32_run approx_ops inputs with
              | Some l => forallb store_ok l && bool_decide (NoDup (map fst l)) &&
                  forallb (fun r => bool_decide ((true, r) ∈ map fst l) && bool_decide ((false, r) ∈ map fst l)) (seq 0 16)
              | None => false end = true) by (vm_compute; reflexivity).
  destruct (dct32_run approx_ops inputs) as [l|]; [|discriminate H]. exists l. split; [reflexivity|]. rewrite !andb_true_iff, bool_decide_eq_true, !forallb_forall in H. destruct H as ((H1 & H2) & H3). split; [exact H1|]. split; [exact H2|].
  intros b r Hr. specialize (H3 r ltac:(apply in_seq; lia)). rewrite andb_true_iff, !bool_decide_eq_true in H3. destruct b; apply H3.
Qed.

Local Opaque MadCos.inputs dct_form dct32_code.

Lemma near_run `{T : Target} `{FP : Fpm} x l : fpm_arm = true -> length x = 32%nat -> norm1 x <= span -> dct32_run approx_ops inputs = Some l ->
  exists l', dct32_run fixed_ops x = Some l' /\ Forall2 (near_store x) l' l.
Proof.
  intros Harm Hl Hn. apply (near_dexec x Harm Hn x inputs dct32_code (near_inputs 32 norm1 32 span x Hl eq_refl)).
  apply Forall2_same_length_lookup_2; [done|]. intros i a b Ha%list_elem_of_lookup_2%list_elem_of_In%repeat_spec Hb%list_elem_of_lookup_2%list_elem_of_In%repeat_spec. by subst.
Qed.

(** ** The stores *)

Section Stores.
Context `{T : Target} `{FP : Fpm}.
Hypothesis Harm : fpm_arm = true.

(** mad_fixed_t [16][8] *)
Definition rows8 (a : list (list Z)) : Prop := length a = 16%nat /\ Forall (fun r => length r = 8%nat) a.
Definition cell (a : list (list Z)) (r : nat) (s : Z) : option Z := obind (a !! r) (fun row => zget row s).

Lemma set_slot2_spec a r slot v : rows8 a -> (r < 16)%nat -> 0 <= slot < 8 -> exists a', set_slot2 a (Z.of_nat r) slot v = Some a' /\ rows8 a' /\
  (forall r' s, cell a' r' s = if decide (r' = r /\ s = slot) then Some v else cell a r' s).
Proof.
  intros [Hl Hf] Hr Hs. destruct (lookup_lt_is_Some_2 a r) as [row Hrow]; [lia|]. pose proof (Forall_lookup_1 _ _ _ _ Hf Hrow) as H8. cbn beta in H8.
  unfold set_slot2. rewrite zget_nat, Hrow. cbn [obind]. destruct (zset row slot v) as [row'|] eqn:Erow; [|rewrite zset_some in Erow by (unfold zlen; lia); done]. cbn [obind].
  rewrite zset_some by (unfold zlen; lia). rewrite Nat2Z.id. eexists. split; [done|]. split.
  - split; [by rewrite length_insert|]. apply Forall_insert; [done|]. by rewrite (zset_length _ _ _ _ Erow).
  - intros r' s. unfold cell. destruct (decide (r' = r)) as [->|Hne].
    + rewrite list_lookup_insert_eq, Hrow by lia. cbn [obind]. destruct (decide (r = r /\ s = slot)) as [[_ ->]|Hs']; [by apply zget_zset_eq in Erow|].
      apply (zget_zset_ne row slot s v row' Erow). naive_solver.
    + rewrite list_lookup_insert_ne, decide_False by naive_solver. done.
Qed.

(** What one list of stores leaves. *)
Lemma dct_stores_spec l slot : Forall (fun p : bool * nat * Z => (p.1.2 < 16)%nat) l -> NoDup (map fst l) -> 0 <= slot < 8 ->
  forall lo hi, rows8 lo -> rows8 hi -> exists lo' hi', dct_stores l slot lo hi = Some (lo', hi') /\ rows8 lo' /\ rows8 hi' /\
    (forall (b : bool) r v, (b, r, v) ∈ l -> cell (if b then hi' else lo') r slot = Some v) /\
    (forall (b : bool) r s, (b, r) ∉ map fst l \/ s <> slot -> cell (if b then hi' else lo') r s = cell (if b then hi else lo) r s).
Proof.
  intros Hr Hnd Hs. induction l as [|[[b r] v] l IH]; intros lo hi Hlo Hhi; [exists lo, hi; repeat split; (done || apply Hlo || apply Hhi || by intros ? ? ? ?%elem_of_nil)|].
  apply Forall_cons_1 in Hr as [Hr0 Hr]. cbn in Hr0. inversion Hnd as [|? ? Hn Hnd']; subst; clear Hnd; rename Hnd' into Hnd. cbn [dct_stores]. unfold DCT_SHIFT. rewrite Harm. cbn [obind].
  destruct (set_slot2_spec (if b then hi else lo) r slot v) as (a' & Ea & Ha' & Hc); [by destruct b|done|done|].
  destruct (IH Hr Hnd (if b then lo else a') (if b then a' else hi)) as (lo' & hi' & E & Hlo' & Hhi' & Hin & Hout); [by destruct b|by destruct b|].
  exists lo', hi'. split; [destruct b; rewrite Ea; exact E|]. do 2 (split; [done|]). split.
  - intros b' r' v' [Heq|Hv']%elem_of_cons; [|by apply Hin]. simplify_eq. rewrite (Hout b r slot) by (by left). specialize (Hc r slot).
    rewrite decide_True in Hc by done. by destruct b.
  - intros b' r' s Hs'. rewrite (Hout b' r' s); [|destruct Hs' as [Hs'|Hs']; [left; intros Hx; apply Hs'; by right|by right]].
    destruct (decide (b' = b)) as [->|Hb]; [|by destruct b, b']. assert (Hne : ~ (r' = r /\ s = slot)) by (intros [-> ->]; destruct Hs' as [Hs'|Hs']; [apply Hs'; by left|done]).
    specialize (Hc r' s). rewrite decide_False in Hc by done. by destruct b.
Qed.
End Stores.

Lemma dct32_close `{T : Target} `{FP : Fpm} (input : list Z) (slot : Z) (lo hi : list (list Z)) :
  fpm_arm = true -> length input = 32%nat -> norm1 input <= span -> 0 <= slot < 8 -> rows8 lo -> rows8 hi ->
  exists lo' hi', dct32 input slot lo hi = Some (lo', hi') /\ rows8 lo' /\ rows8 hi' /\
    (forall (b : bool) r, (r < 16)%nat -> exists v, cell (if b then hi' else lo') r slot = Some v /\ (Rabs (IZR v - dct (out_index b r) input) <= 8192)%R) /\
    (forall (b : bool) r s, s <> slot -> cell (if b then hi' else lo') r s = cell (if b then hi else lo) r s).
Proof.
  intros Harm Hl Hn Hs Hlo Hhi. destruct dct_symbolic as (l & El & Hok & Hnd & Hall).
  destruct (near_run input l Harm Hl Hn El) as (l' & El' & HF). clear El.
  assert (Hk : map fst l' = map fst l) by (clear -HF; induction HF as [|p q l' l [E _] _ IH]; [done|cbn; by rewrite E, IH]).
  destruct (dct_stores_spec Harm l' slot) with (lo := lo) (hi := hi) as (lo' & hi' & E & Hlo' & Hhi' & Hin & Hout); [|by rewrite Hk|done..|].
  { apply Forall_lookup_2. intros i p Hp. destruct (Forall2_lookup_l _ _ _ _ _ HF Hp) as (q & Hq & Eq & _). rewrite Eq.
    apply list_elem_of_lookup_2, list_elem_of_In, Hok in Hq. unfold store_ok in Hq. rewrite !andb_true_iff, Nat.ltb_lt in Hq. naive_solver. }
  exists lo', hi'. unfold dct32. rewrite El'. cbn [obind]. do 3 (split; [done|]). split; [|intros b r s Hne; apply Hout; by right].
  intros b r Hr. specialize (Hall b r Hr). rewrite <- Hk in Hall. apply list_elem_of_fmap in Hall as ([[b' r'] v] & Er & Hv). injection Er as <- <-.
  exists v. split; [by apply Hin|]. apply list_elem_of_lookup_1 in Hv as [j Hv]. destruct (Forall2_lookup_l _ _ _ _ _ HF Hv) as ([br [f e]] & Hq & Eq & (_ & _ & _ & Hnear)).
  cbn in Eq, Hnear. subst br. apply list_elem_of_lookup_2, list_elem_of_In, Hok in Hq. unfold store_ok in Hq. rewrite !andb_true_iff, bool_decide_eq_true, Z.leb_le in Hq.
  cbn [fst snd] in Hq. destruct Hq as ((Hf & He) & _).
  pose proof (feval_dct (out_index b r) input 0) as Hd. rewrite Hl, <- Hf in Hd. fold (dct (out_index b r) input) in Hd. rewrite Hd in Hnear. apply IZR_le in He. rewrite mult_IZR in He.
  apply Rabs_le_inv in Hnear. apply Rabs_le. lra.
Qed.

Definition output_row (i : Z) : bool * nat := if i <? 16 then (true, Z.to_nat (15 - i)) else (false, Z.to_nat (i - 16)).

(** C25: [dct32] of the synthesis filter computes the 32-point cosine transform.  On the board,
    for 32 subband samples whose magnitudes add up to at most 2.0, none of its additions
    overflows and each of the 32 outputs is within 8192 units of the last place, one step of
    a 16-bit sample, of the sum of [in_k cos((2 k + 1) i pi / 64)]; output [i] is stored in slot
    [slot] of row [15 - i] of [hi] or of row [i - 16] of [lo], and the other slots are not touched. *)
Theorem dct32_accurate `{T : Target} `{FP : Fpm} (input : list Z) (slot : Z) (lo hi : list (list Z)) :
  fpm_arm = true -> length input = 32%nat -> norm1 input <= 2 * MAD_F_ONE -> 0 <= slot < 8 -> rows8 lo -> rows8 hi ->
  exists lo' hi', dct32 input slot lo hi = Some (lo', hi') /\ rows8 lo' /\ rows8 hi' /\
    (forall i, 0 <= i < 32 -> exists v, cell (if (output_row i).1 then hi' else lo') (output_row i).2 slot = Some v /\ (Rabs (IZR v - dct i input) <= 8192)%R) /\
    (forall (b : bool) r s, s <> slot -> cell (if b then hi' else lo') r s = cell (if b then hi else lo) r s).
Proof.
  intros Harm Hl Hn Hs Hlo Hhi. destruct (dct32_close input slot lo hi) as (lo' & hi' & E & H1 & H2 & Hv & Hout); try done.
  exists lo', hi'. do 3 (split; [done|]). split; [|done]. intros i Hi. unfold output_row. destruct (Z.ltb_spec i 16); cbn [fst snd].
  - specialize (Hv true (Z.to_nat (15 - i)) ltac:(lia)). by replace (out_index true (Z.to_nat (15 - i))) with i in Hv by (unfold out_index; lia).
  - specialize (Hv false (Z.to_nat (i - 16)) ltac:(lia)). by replace (out_index false (Z.to_nat (i - 16))) with i in Hv by (unfold out_index; lia).
Qed.

Lemma dct32_accurate_witness : exists (input : list Z) (a : list (list Z)),
  let _ : Target := stm32_target in let _ : Fpm := {| fpm_arm := true |} in
  exists lo hi v, dct32 input 3 a a = Some (lo, hi) /\ cell hi 14 3 = Some v /\ (Rabs (IZR v - dct 1 input) <= 8192)%R.
Proof.
  exists (map (fun k => 4000000 * Z.of_nat k) (seq 0 16) ++ repeat 0 16), (repeat (repeat 0 8) 16). intros _T _F.
  destruct (dct32_accurate (map (fun k => 4000000 * Z.of_nat k) (seq 0 16) ++ repeat 0 16) 3 (repeat (repeat 0 8) 16) (repeat (repeat 0 8) 16)) as (lo & hi & E & _ & _ & H & _).
  - reflexivity.
  - reflexivity.
  - vm_compute; discriminate.
  - lia.
  - split; [reflexivity|repeat constructor].
  - split; [reflexivity|repeat constructor].
  - destruct (H 1 ltac:(lia)) as (v & Hv & Hd). exists lo, hi, v. split; [exact E|]. split; [exact Hv|exact Hd].
Defined.
