(* ===== verification/MadSynthProps.v ===== *)
(** * The synthesis filter of synth.c is the polyphase filter bank of the standard

    ISO/IEC 11172-3 describes the filter with a vector V of 16 blocks of 64 values, one for
    each of the last 16 inputs, of which half are multiplied with the window D.  synth.c
    keeps only 32 of the 64 values, in an order that saves all copying.  The filter is
    followed here by the age of an input. *)

From Stdlib Require Import Reals Lra.
From S2P Require Import Prelude MadBit MadTimer MadStream MadFrame MadFixed MadLayer12 MadSynth MadCos MadDct.
Open Scope Z_scope.

(** ** The reference *)

(** The window: rows above 16 follow from the ones below. *)
Definition D_at (j i : Z) : Z := match zget D_dat j with Some row => match zget row i with Some x => x | None => 0 end | None => 0 end.
Definition window (j i : Z) : Z := if j <=? 16 then D_at j i else - D_at (32 - j) (31 - i).

(** [V_m]: the sum of [x_k cos((16 + m) (2 k + 1) pi / 64)]. *)
Definition V (m : Z) (x : list Z) : R := dct (16 + m) x.

(** The input of age [i]; before the first one there was silence. *)
Definition aged (hist : list (list Z)) (i : Z) : list Z := nth (Z.to_nat i) hist [].

Fixpoint rsum (g : Z -> R) (l : list Z) : R := match l with [] => 0%R | i :: l => (g i + rsum g l)%R end.
Fixpoint zsum (g : Z -> Z) (l : list Z) : Z := match l with [] => 0 | i :: l => g i + zsum g l end.
Definition ages0 : list Z := [0; 2; 4; 6; 8; 10; 12; 14].
Definition ages1 : list Z := [1; 3; 5; 7; 9; 11; 13; 15].

(** Sample [j] of 32, in units of the last place: inputs of even age contribute with
    [V_j], those of odd age with [V_(j + 32)]. *)
Definition polyphase (j : Z) (hist : list (list Z)) : R :=
  (rsum (fun i => IZR (window j i) * V j (aged hist i)) ages0 / 268435456 +
   rsum (fun i => IZR (window j i) * V (32 + j) (aged hist i)) ages1 / 268435456)%R.

(** ** The cosine transform at other places *)

Lemma dct_mirror n x : dct (64 - n) x = (- dct n x)%R.
Proof.
  unfold dct. generalize 0 at 1 2. induction x as [|v x IH]; intros k; cbn [dct_from]; [lra|]. rewrite IH.
  rewrite !cos_C. replace ((2 * k + 1) * (64 - n)) with (2 * 32 - (2 * k + 1) * n + 4 * 32 * k) by lia.
  rewrite (C_period 32), (C_mirror 32). lra.
Qed.
Lemma dct_half_turn n x : dct (64 + n) x = (- dct n x)%R.
Proof.
  rewrite <- (Z.opp_involutive n) at 1. change (64 + - - n) with (64 - (- n)). rewrite dct_mirror. f_equal.
  unfold dct. generalize 0 at 1 2. induction x as [|v x IH]; intros k; cbn [dct_from]; [done|]. rewrite IH.
  rewrite !cos_C. by rewrite Z.mul_opp_r, C_opp.
Qed.
Lemma dct_32 x : dct 32 x = 0%R.
Proof. pose proof (dct_mirror 32 x) as H. change (64 - 32) with 32 in H. lra. Qed.
Lemma dct_norm n x : (Rabs (dct n x) <= IZR (norm1 x))%R.
Proof.
  unfold dct. generalize 0 at 1. induction x as [|v x IH]; intros k; cbn [dct_from norm1]; [rewrite Rabs_R0; lra|].
  rewrite plus_IZR, abs_IZR. eapply Rle_trans; [apply Rabs_triang|]. apply Rplus_le_compat; [|apply IH]. rewrite Rabs_mult.
  assert (Rabs (cos (IZR ((2 * k + 1) * n) * PI / 64)) <= 1)%R by (apply Rabs_le, COS_bound). pose proof (Rabs_pos (IZR v)). nra.
Qed.

(** ** Weighted sums *)

Definition Dz (sb i : Z) : Z := D_at sb i / 4096.

Lemma weights_close (w : Z -> Z) X (Y : Z -> R) l e : (forall i, In i l -> (Rabs (IZR (X i) - Y i) <= e)%R) ->
  (Rabs (IZR (zsum (fun i => X i * w i)%Z l) - rsum (fun i => Y i * IZR (w i)) l) <= e * IZR (zsum (fun i => Z.abs (w i)) l))%R.
Proof.
  induction l as [|i l IH]; intros H; cbn [zsum rsum]; [rewrite Rminus_diag, Rabs_R0; lra|]. specialize (IH ltac:(intros; apply H; by right)). specialize (H i ltac:(by left)).
  rewrite !plus_IZR, mult_IZR, abs_IZR. replace (IZR (X i) * IZR (w i) + IZR (zsum (fun i => X i * w i)%Z l) - (Y i * IZR (w i) + rsum (fun i => Y i * IZR (w i)) l))%R
    with ((IZR (X i) - Y i) * IZR (w i) + (IZR (zsum (fun i => X i * w i)%Z l) - rsum (fun i => Y i * IZR (w i)) l))%R by lra.
  eapply Rle_trans; [apply Rabs_triang|]. rewrite Rmult_plus_distr_l. apply Rplus_le_compat; [|done]. rewrite Rabs_mult. pose proof (Rabs_pos (IZR (w i))). nra.
Qed.

Lemma weights_bound w (Y : Z -> R) l B : (forall i, In i l -> (Rabs (Y i) <= B)%R) -> (Rabs (rsum (fun i => Y i * IZR (w i)) l) <= B * IZR (zsum (fun i => Z.abs (w i)) l))%R.
Proof.
  intros H. pose proof (weights_close w (fun _ => 0) Y l B) as Hc. replace (zsum _ l) with 0 in Hc by (clear; induction l; cbn; lia).
  rewrite Rminus_0_l, Rabs_Ropp in Hc. apply Hc. intros i Hi. rewrite Rminus_0_l, Rabs_Ropp. by apply H.
Qed.

Lemma rsum_ext g h l : (forall i, In i l -> g i = h i) -> rsum g l = rsum h l.
Proof. induction l as [|i l IH]; intros H; cbn; [done|]. rewrite H by (by left). rewrite IH by (intros; apply H; by right). done. Qed.
Lemma rsum_scale c g l : rsum (fun i => c * g i)%R l = (c * rsum g l)%R.
Proof. induction l as [|i l IH]; cbn; [lra|]. rewrite IH. lra. Qed.

(** The rows of the window repeat after 16 entries, and the preshift loses nothing. *)
Definition window_ok (sb : Z) : bool :=
  forallb (fun i => match Dw (FP := {| fpm_arm := true |}) sb i with Some w => (w =? Dz sb (i mod 16)) && (Z.abs w <? 131072) && (4096 * w =? D_at sb i) && (4096 * w =? D_at sb (i mod 16)) | None => false end) (map Z.of_nat (seq 0 32)) &&
  (zsum (fun i => Z.abs (Dz sb i)) ages0 + zsum (fun i => Z.abs (Dz sb i)) ages1 <=? 178947) &&
  (zsum (fun i => Z.abs (Dz sb (15 - i))) ages0 + zsum (fun i => Z.abs (Dz sb (15 - i))) ages1 <=? 178947).
Lemma window_table : forallb window_ok (map Z.of_nat (seq 0 17)) = true.
Proof. vm_compute. reflexivity. Qed.

Section Filter.
Context `{T : Target} `{FP : Fpm}.
Hypothesis Harm : fpm_arm = true.

Lemma window_facts sb : 0 <= sb <= 16 -> window_ok sb = true.
Proof. intros Hs. pose proof window_table as H. rewrite forallb_forall in H. apply H, in_map_iff. exists (Z.to_nat sb). rewrite in_seq. lia. Qed.

Lemma Dw_spec sb i : 0 <= sb <= 16 -> 0 <= i < 32 -> Dw sb i = Some (Dz sb (i mod 16)) /\ Z.abs (Dz sb (i mod 16)) < 131072 /\
  4096 * Dz sb (i mod 16) = D_at sb i /\ 4096 * Dz sb (i mod 16) = D_at sb (i mod 16).
Proof.
  intros Hs Hi. pose proof (window_facts sb Hs) as H. unfold window_ok in H. rewrite !andb_true_iff, forallb_forall in H. destruct H as ((H & _) & _).
  specialize (H i ltac:(apply in_map_iff; exists (Z.to_nat i); rewrite in_seq; lia)).
  replace (Dw sb i) with (Dw (FP := {| fpm_arm := true |}) sb i) by (unfold Dw, PRESHIFT; rewrite Harm; reflexivity).
  destruct (Dw _ _) as [w|]; [|done]. rewrite !andb_true_iff, !Z.eqb_eq, Z.ltb_lt in H. destruct H as (((-> & H1) & H2) & H3). done.
Qed.
Lemma Dz_scaled sb i : 0 <= sb <= 16 -> 0 <= i < 16 -> 4096 * Dz sb i = D_at sb i /\ 4096 * Dz sb i = D_at sb (i + 16).
Proof.
  intros Hs Hi. destruct (Dw_spec sb i Hs ltac:(lia)) as (_ & _ & H & _). destruct (Dw_spec sb (i + 16) Hs ltac:(lia)) as (_ & _ & H' & _).
  rewrite Z.mod_small in H by lia. replace ((i + 16) mod 16) with i in H' by lia. done.
Qed.

Lemma s64_small x : - 9223372036854775808 <= x < 9223372036854775808 -> s64 x = x.
Proof. intros Hx. unfold s64. rewrite Z.mod_small; lia. Qed.

(** [big]: what a value of the filter stays below. *)
Definition big : Z := 1073741824.

Lemma mac_sum sb at_ f (F W : Z -> Z) l : forall acc,
  (forall k, In k l -> zget f k = Some (F k) /\ Z.abs (F k) <= big /\ Dw sb (at_ k) = Some (W k) /\ Z.abs (W k) < 131072) ->
  Z.abs acc + 140737488355328 * zlen l < 9223372036854775808 ->
  mac sb at_ f l acc = Some (acc + zsum (fun k => F k * W k) l).
Proof.
  unfold big. induction l as [|k l IH]; intros acc Hl Ha; cbn [mac zsum]; [by rewrite Z.add_0_r|]. rewrite zlen_cons in Ha. pose proof (zlen_nonneg l).
  destruct (Hl k ltac:(by left)) as (-> & HF & -> & HW). cbn [obind]. assert (HP : Z.abs (F k * W k) <= 140737488355328) by (rewrite Z.abs_mul; nia).
  unfold MLA. rewrite Harm, s64_small by lia. cbn [obind]. rewrite IH; [f_equal; lia|intros; apply Hl; by right|lia].
Qed.

(** The slots of a row, in the order of their age. *)
Definition ages (p : Z) : list Z := if Z.even p then ages0 else ages1.
Lemma zsum_map G h l : zsum (fun k => G (h k)) l = zsum G (map h l).
Proof. induction l as [|k l IH]; cbn; [done|]. by rewrite IH. Qed.
Lemma slots_by_age (G : Z -> Z) p : 0 <= p < 16 -> zsum (fun k => G ((p - 2 * k) mod 16)) taps = zsum G (ages p).
Proof.
  intros Hp. assert (Hin : In p (map Z.of_nat (seq 0 16))) by (apply in_map_iff; exists (Z.to_nat p); rewrite in_seq; lia). rewrite (zsum_map G (fun k => (p - 2 * k) mod 16)).
  cbn [map seq] in Hin. repeat (destruct Hin as [<-|Hin];
    [match goal with |- zsum G ?l = zsum G ?r => let l' := eval vm_compute in l in let r' := eval vm_compute in r in change (zsum G l' = zsum G r') end; cbn [zsum]; lia|]). done.
Qed.
Lemma zsum_rev G l : zsum G (rev l) = zsum G l.
Proof.
  assert (Happ : forall a b, zsum G (a ++ b) = zsum G a + zsum G b) by (intros a; induction a as [|x a IHa]; intros b; cbn; [done|]; rewrite IHa; lia).
  induction l as [|k l IH]; cbn; [done|]. rewrite Happ, IH. cbn. lia.
Qed.
Lemma zsum_ext G H l : (forall k, In k l -> G k = H k) -> zsum G l = zsum H l.
Proof. induction l as [|k l IH]; intros E; cbn; [done|]. rewrite E by (by left). rewrite IH by (intros; apply E; by right). done. Qed.

Lemma tap_range k : In k taps -> 0 <= k < 8.
Proof. unfold taps. cbn. lia. Qed.

(** [f] holds at slot [k] the value for age [p - 2 k]. *)
Definition row_of (p : Z) (X : Z -> Z) (f : list Z) : Prop := forall k, 0 <= k < 8 -> zget f k = Some (X ((p - 2 * k) mod 16)).
Definition small (X : Z -> Z) : Prop := forall a, 0 <= a < 16 -> Z.abs (X a) <= big.

Lemma mac_taps (l : list Z) sb p X f at_ W acc : (l = taps \/ l = rev taps) -> 0 <= sb <= 16 -> 0 <= p < 16 -> row_of p X f -> small X -> Z.abs acc <= 1152921504606846976 ->
  (forall k, 0 <= k < 8 -> 0 <= at_ k < 32 /\ Dz sb (at_ k mod 16) = W ((p - 2 * k) mod 16)) ->
  mac sb at_ f l acc = Some (acc + zsum (fun a => X a * W a) (ages p)).
Proof.
  intros Hl Hs Hp Hf Hx Ha Hw. rewrite <- (slots_by_age (fun a => X a * W a) p Hp).
  rewrite (mac_sum sb at_ f (fun k => X ((p - 2 * k) mod 16)) (fun k => W ((p - 2 * k) mod 16))).
  - by destruct Hl as [-> | ->]; rewrite ?zsum_rev.
  - intros k Hk. assert (Hk8 : 0 <= k < 8) by (apply tap_range; destruct Hl as [-> | ->]; [done|by apply in_rev in Hk]).
    destruct (Hw k Hk8) as [Hr <-]. destruct (Dw_spec sb (at_ k) Hs Hr) as (HD & Hb & _). split; [by apply Hf|]. split; [apply Hx; lia|]. done.
  - replace (zlen l) with 8 by (by destruct Hl as [-> | ->]). lia.
Qed.

Lemma mac_plus l sb p X f acc : (l = taps \/ l = rev taps) -> 0 <= sb <= 16 -> 0 <= p < 16 -> row_of p X f -> small X -> Z.abs acc <= 1152921504606846976 ->
  mac sb (plus_tap p) f l acc = Some (acc + zsum (fun a => X a * Dz sb a) (ages p)).
Proof.
  intros Hl Hs Hp Hf Hx Ha. apply (mac_taps l sb p X f _ (Dz sb)); try done. intros k Hk. unfold plus_tap. destruct (Z.eqb_spec k 0) as [->|Hk0]; (split; [lia|f_equal; lia]).
Qed.
Lemma mac_minus l sb p X f acc : (l = taps \/ l = rev taps) -> 0 <= sb <= 16 -> 0 <= p < 16 -> row_of p X f -> small X -> Z.abs acc <= 1152921504606846976 ->
  mac sb (minus_tap p) f l acc = Some (acc + zsum (fun a => X a * Dz sb (15 - a)) (ages p)).
Proof.
  intros Hl Hs Hp Hf Hx Ha. apply (mac_taps l sb p X f _ (fun a => Dz sb (15 - a))); try done. intros k Hk. unfold minus_tap. split; [lia|f_equal; lia].
Qed.

(** ** The filter *)

(** The value at row [r] of [filter[eo]] that was stored at phase [q]. *)
Definition part (f : list (list (list (list Z)))) (eo peo : Z) : option (list (list Z)) := obind (zget f eo) (fun a => zget a peo).
Definition fcell (f : list (list (list (list Z)))) (eo q : Z) (r : nat) : option Z := obind (part f eo (q mod 2)) (fun a => cell a r (q / 2)).
Definition fvalue (f : list (list (list (list Z)))) (eo q : Z) (r : nat) : Z := match fcell f eo q r with Some v => v | None => 0 end.
Definition shaped (f : list (list (list (list Z)))) : Prop := forall eo peo, 0 <= eo < 2 -> 0 <= peo < 2 -> exists a, part f eo peo = Some a /\ rows8 a.

(** The filter after the input of phase [p] holds the transforms of the last 16 inputs. *)
Definition holds (f : list (list (list (list Z)))) (p : Z) (hist : list (list Z)) : Prop :=
  shaped f /\ 0 <= p < 16 /\ (forall a, 0 <= a < 16 -> norm1 (aged hist a) <= span) /\
  forall (b : bool) a r, 0 <= a < 16 -> (r < 16)%nat ->
    (Rabs (IZR (fvalue f (if b then 1 else 0) ((p - a) mod 16) r) - dct (out_index b r) (aged hist a)) <= 8192)%R.

Lemma shaped_cell f eo q r : shaped f -> 0 <= eo < 2 -> 0 <= q < 16 -> (r < 16)%nat -> fcell f eo q r = Some (fvalue f eo q r).
Proof.
  intros Hf He Hq Hr. unfold fvalue, fcell. destruct (Hf eo (q mod 2) He ltac:(lia)) as (a & -> & Hl & H8). cbn [obind].
  unfold cell. destruct (lookup_lt_is_Some_2 a r) as [row Hrow]; [lia|]. rewrite Hrow. cbn [obind]. pose proof (Forall_lookup_1 _ _ _ _ H8 Hrow) as Hlen. cbn beta in Hlen.
  destruct (zget_some row (q / 2)) as [v ->]; [unfold zlen; lia|]. done.
Qed.

Lemma holds_small f p hist (b : bool) a r : holds f p hist -> 0 <= a < 16 -> (r < 16)%nat -> Z.abs (fvalue f (if b then 1 else 0) ((p - a) mod 16) r) <= big.
Proof.
  intros (_ & _ & Hn & Hv) Ha Hr. specialize (Hv b a r Ha Hr). pose proof (dct_norm (out_index b r) (aged hist a)) as Hd. specialize (Hn a Ha). apply IZR_le in Hn.
  set (v := fvalue _ _ _ _) in *. clearbody v. apply Rabs_le_inv in Hv, Hd. unfold span in Hn. apply Z.abs_le. unfold big. split; apply le_IZR; rewrite ?opp_IZR; lra.
Qed.

(** [f_row]: the part written at the parity of [p'], which is [p] or [p - 1]. *)
Lemma wp_f_row eo p' (r : nat) (c : chan_t) (Q : list Z -> chan_t -> Prop) peo : shaped (cf c) -> 0 <= eo < 2 -> 0 <= p' < 16 -> (r < 16)%nat -> peo = p' mod 2 ->
  (forall row, (forall k, 0 <= k < 8 -> zget row k = Some (fvalue (cf c) eo (2 * k + p' mod 2) r)) -> Q row c) ->
  wp (f_row eo peo (Z.of_nat r)) Q c.
Proof.
  intros Hf He Hp Hr -> HQ. unfold f_row, f_part. wp_steps. destruct (Hf eo (p' mod 2) He ltac:(lia)) as (a & Ea & Hl & H8). unfold part in Ea.
  eapply wp_lift; [exact Ea|]. destruct (lookup_lt_is_Some_2 a r) as [row Hrow]; [lia|]. eapply wp_lift; [by rewrite zget_nat|]. apply HQ. intros k Hk.
  rewrite <- (shaped_cell (cf c) eo (2 * k + p' mod 2) r Hf He ltac:(lia) Hr). unfold fcell. replace ((2 * k + p' mod 2) mod 2) with (p' mod 2) by lia. unfold part. rewrite Ea. cbn [obind].
  unfold cell. rewrite Hrow. cbn [obind]. f_equal. lia.
Qed.

Lemma phase_facts p : 0 <= p < 16 -> phase_even p = p - p mod 2 /\ phase_odd p = (if Z.even p then (p - 1) mod 16 else p) /\ other p = 1 - p mod 2 /\
  Z.land p 1 = p mod 2 /\ Z.shiftr p 1 = p / 2 /\ ages (phase_even p) = ages0 /\ ages (phase_odd p) = ages1.
Proof.
  intros Hp. assert (Hin : In p (map Z.of_nat (seq 0 16))) by (apply in_map_iff; exists (Z.to_nat p); rewrite in_seq; lia).
  cbn [map seq] in Hin. repeat (destruct Hin as [<-|Hin]; [vm_compute; tauto|]). done.
Qed.
Lemma phase_ranges p : 0 <= p < 16 -> 0 <= phase_even p < 16 /\ 0 <= phase_odd p < 16.
Proof. intros Hp. destruct (phase_facts p Hp) as (-> & -> & _). destruct (Z.even p); lia. Qed.

(** What a row holds, by age. *)
Definition by_age (f : list (list (list (list Z)))) (p : Z) (b : bool) (r : nat) : Z -> Z := fun a => fvalue f (if b then 1 else 0) ((p - a) mod 16) r.

Lemma wp_row_even p (b : bool) (r : nat) (c : chan_t) (Q : list Z -> chan_t -> Prop) : shaped (cf c) -> 0 <= p < 16 -> (r < 16)%nat ->
  (forall row, row_of (phase_even p) (by_age (cf c) p b r) row -> Q row c) -> wp (f_row (if b then 1 else 0) (Z.land p 1) (Z.of_nat r)) Q c.
Proof.
  intros Hf Hp Hr HQ. destruct (phase_facts p Hp) as (He & _ & _ & Hl & _). eapply (wp_f_row _ p); [done|by destruct b|done|done|done|]. intros row Hrow. apply HQ.
  intros k Hk. rewrite (Hrow k Hk). unfold by_age. rewrite He. do 2 f_equal. lia.
Qed.
Lemma wp_row_odd p (b : bool) (r : nat) (c : chan_t) (Q : list Z -> chan_t -> Prop) : shaped (cf c) -> 0 <= p < 16 -> (r < 16)%nat ->
  (forall row, row_of (phase_odd p) (by_age (cf c) p b r) row -> Q row c) -> wp (f_row (if b then 1 else 0) (other p) (Z.of_nat r)) Q c.
Proof.
  intros Hf Hp Hr HQ. destruct (phase_facts p Hp) as (_ & Ho & Hx & _). eapply (wp_f_row _ ((p + 1) mod 16)); [done|by destruct b|lia|done|rewrite Hx; lia|].
  intros row Hrow. apply HQ. intros k Hk. rewrite (Hrow k Hk). unfold by_age. rewrite Ho. do 2 f_equal. destruct (Z.even p) eqn:E; rewrite Zeven_mod in E; lia.
Qed.

(** ** Rounding *)

Lemma MLZ_rounds acc : MLZ acc = s32 ((acc + 32768) / 65536).
Proof.
  unfold MLZ. rewrite Harm. f_equal. unfold u32. rewrite !Z.shiftr_div_pow2, Z.shiftl_mul_pow2, Z.testbit_spec' by lia.
  change (2 ^ 32) with 4294967296. change (2 ^ 16) with 65536. change (2 ^ 15) with 32768.
  set (lo := acc mod 4294967296). assert (Hp : acc = 4294967296 * (acc / 4294967296) + lo) by (apply Z.div_mod; lia).
  assert (Hlo : 0 <= lo < 4294967296) by (apply Z.mod_pos_bound; lia). set (q := acc / 4294967296) in *. clearbody q lo. lia.
Qed.

Lemma close_sample acc (ref : R) (X Y : Z -> Z) (P Q : Z -> R) w s : s = 1 \/ s = -1 ->
  (forall a, 0 <= a < 16 -> (Rabs (IZR (X a) - P a) <= 8192)%R /\ (Rabs (P a) <= 536870912)%R) ->
  (forall a, 0 <= a < 16 -> (Rabs (IZR (Y a) - Q a) <= 8192)%R /\ (Rabs (Q a) <= 536870912)%R) ->
  zsum (fun a => Z.abs (w a)) ages0 + zsum (fun a => Z.abs (w a)) ages1 <= 178947 ->
  acc = zsum (fun a => X a * w a) ages0 + s * zsum (fun a => Y a * w a) ages1 ->
  (65536 * ref = rsum (fun a => P a * IZR (w a)) ages0 + IZR s * rsum (fun a => Q a * IZR (w a)) ages1)%R ->
  - 2147483648 < MLZ acc < 2147483648 /\ (Rabs (IZR (MLZ acc) - ref) <= 24576)%R.
Proof.
  assert (Hage : forall a, In a ages0 \/ In a ages1 -> 0 <= a < 16) by (unfold ages0, ages1; cbn; lia).
  intros Hs HX HY Hw Ha Href.
  pose proof (weights_close w X P ages0 8192 ltac:(intros; apply HX, Hage; by left)) as H1. pose proof (weights_close w Y Q ages1 8192 ltac:(intros; apply HY, Hage; by right)) as H2.
  pose proof (weights_bound w P ages0 536870912 ltac:(intros; apply HX, Hage; by left)) as H3. pose proof (weights_bound w Q ages1 536870912 ltac:(intros; apply HY, Hage; by right)) as H4.
  set (A := zsum (fun a => X a * w a) ages0) in *. set (B := zsum (fun a => Y a * w a) ages1) in *. set (RA := rsum (fun a => P a * IZR (w a))%R ages0) in *. set (RB := rsum (fun a => Q a * IZR (w a))%R ages1) in *.
  set (wa := zsum (fun a => Z.abs (w a)) ages0) in *. set (wb := zsum (fun a => Z.abs (w a)) ages1) in *. clearbody A B RA RB wa wb.
  apply IZR_le in Hw. rewrite plus_IZR in Hw. apply Rabs_le_inv in H1, H2, H3, H4.
  assert (Hacc : (IZR acc = IZR A + IZR s * IZR B)%R) by (by rewrite Ha, plus_IZR, mult_IZR).
  assert (Hd : (Rabs (IZR acc - 65536 * ref) <= 8192 * 178947)%R) by (apply Rabs_le; destruct Hs as [-> | ->]; lra).
  assert (Hb : (Rabs (65536 * ref) <= 536870912 * 178947)%R) by (apply Rabs_le; destruct Hs as [-> | ->]; lra). apply Rabs_le_inv in Hd, Hb.
  assert (Hz : Z.abs acc <= 96073000000000) by (apply Z.abs_le; split; apply le_IZR; rewrite ?opp_IZR; lra). clear H1 H2 H3 H4 Hacc Href.
  rewrite MLZ_rounds, s32_small by lia. set (m := (acc + 32768) / 65536). assert (Hm : 65536 * m - 32768 <= acc <= 65536 * m + 32768) by lia. split; [lia|].
  destruct Hm as [Hm1 Hm2]. apply IZR_le in Hm1, Hm2. rewrite minus_IZR, mult_IZR in Hm1. rewrite plus_IZR, mult_IZR in Hm2. apply Rabs_le. lra.
Qed.

(** ** The reference in terms of what the filter holds *)

Definition P_lo (hist : list (list Z)) (r : Z) : Z -> R := fun a => dct (16 + r) (aged hist a).
Definition P_hi (hist : list (list Z)) (r : Z) : Z -> R := fun a => dct (16 - r) (aged hist a).

Lemma polyphase_low j hist : 0 <= j <= 16 ->
  (65536 * polyphase j hist = rsum (fun a => P_lo hist j a * IZR (Dz j a)) ages0 + IZR (-1) * rsum (fun a => P_hi hist j a * IZR (Dz j a)) ages1)%R.
Proof.
  intros Hj. unfold polyphase. assert (Hw : forall i, 0 <= i < 16 -> IZR (window j i) = (4096 * IZR (Dz j i))%R).
  { intros i Hi. unfold window. rewrite (proj2 (Z.leb_le j 16)) by lia. destruct (Dz_scaled j i Hj Hi) as [<- _]. by rewrite mult_IZR. }
  rewrite (rsum_ext _ (fun a => 4096 * (P_lo hist j a * IZR (Dz j a)))%R ages0).
  2:{ intros i Hi. rewrite Hw by (unfold ages0 in Hi; cbn in Hi; lia). unfold V, P_lo. lra. }
  rewrite (rsum_ext _ (fun a => -4096 * (P_hi hist j a * IZR (Dz j a)))%R ages1).
  2:{ intros i Hi. rewrite Hw by (unfold ages1 in Hi; cbn in Hi; lia). unfold V, P_hi. replace (16 + (32 + j)) with (64 - (16 - j)) by lia. rewrite dct_mirror. lra. }
  rewrite !rsum_scale. lra.
Qed.

Lemma polyphase_high sb hist : 1 <= sb <= 15 ->
  (65536 * polyphase (32 - sb) hist = rsum (fun a => P_lo hist sb a * IZR (Dz sb (15 - a))) ages0 + IZR 1 * rsum (fun a => P_hi hist sb a * IZR (Dz sb (15 - a))) ages1)%R.
Proof.
  intros Hj. unfold polyphase. assert (Hw : forall i, 0 <= i < 16 -> IZR (window (32 - sb) i) = (- 4096 * IZR (Dz sb (15 - i)))%R).
  { intros i Hi. unfold window. rewrite (proj2 (Z.leb_gt (32 - sb) 16)) by lia. destruct (Dz_scaled sb (15 - i) ltac:(lia) ltac:(lia)) as [_ E].
    replace (32 - (32 - sb)) with sb by lia. replace (31 - i) with (15 - i + 16) by lia. rewrite <- E, opp_IZR, mult_IZR. lra. }
  rewrite (rsum_ext _ (fun a => 4096 * (P_lo hist sb a * IZR (Dz sb (15 - a))))%R ages0).
  2:{ intros i Hi. rewrite Hw by (unfold ages0 in Hi; cbn in Hi; lia). unfold V, P_lo. replace (16 + (32 - sb)) with (64 - (16 + sb)) by lia. rewrite dct_mirror. lra. }
  rewrite (rsum_ext _ (fun a => 4096 * (P_hi hist sb a * IZR (Dz sb (15 - a))))%R ages1).
  2:{ intros i Hi. rewrite Hw by (unfold ages1 in Hi; cbn in Hi; lia). unfold V, P_hi. replace (16 + (32 + (32 - sb))) with (64 + (16 - sb)) by lia. rewrite dct_half_turn. lra. }
  rewrite !rsum_scale. lra.
Qed.

Lemma window_sums sb : 0 <= sb <= 16 ->
  zsum (fun a => Z.abs (Dz sb a)) ages0 + zsum (fun a => Z.abs (Dz sb a)) ages1 <= 178947 /\
  zsum (fun a => Z.abs (Dz sb (15 - a))) ages0 + zsum (fun a => Z.abs (Dz sb (15 - a))) ages1 <= 178947.
Proof. intros Hs. pose proof (window_facts sb Hs) as H. unfold window_ok in H. rewrite !andb_true_iff, !Z.leb_le in H. tauto. Qed.

Section Samples.
Context (f : list (list (list (list Z)))) (p : Z) (hist : list (list Z)).
Hypothesis Hh : holds f p hist.

Lemma lo_close (r : nat) : (r < 16)%nat -> forall a, 0 <= a < 16 -> (Rabs (IZR (by_age f p false r a) - P_lo hist (Z.of_nat r) a) <= 8192)%R /\ (Rabs (P_lo hist (Z.of_nat r) a) <= 536870912)%R.
Proof.
  intros Hr a Ha. destruct Hh as (_ & _ & Hn & Hv). split; [apply (Hv false a r Ha Hr)|]. specialize (Hn a Ha). apply IZR_le in Hn. unfold span in Hn. pose proof (dct_norm (16 + Z.of_nat r) (aged hist a)). unfold P_lo. lra.
Qed.
Lemma hi_close (r : nat) : (r < 16)%nat -> forall a, 0 <= a < 16 -> (Rabs (IZR (by_age f p true r a) - P_hi hist (Z.of_nat r + 1) a) <= 8192)%R /\ (Rabs (P_hi hist (Z.of_nat r + 1) a) <= 536870912)%R.
Proof.
  intros Hr a Ha. destruct Hh as (_ & _ & Hn & Hv). specialize (Hn a Ha). apply IZR_le in Hn. unfold span in Hn. pose proof (dct_norm (16 - (Z.of_nat r + 1)) (aged hist a)). unfold P_hi. split; [|lra].
  specialize (Hv true a r Ha Hr). unfold out_index in Hv. replace (15 - Z.of_nat r) with (16 - (Z.of_nat r + 1)) in Hv by lia. exact Hv.
Qed.
Lemma by_age_small b r : (r < 16)%nat -> small (by_age f p b r).
Proof. intros Hr a Ha. by apply (holds_small f p hist). Qed.

(** A sum of eight products stays small. *)
Lemma eight_small X w sb l : small X -> 0 <= sb <= 16 -> (w = Dz sb \/ w = fun a => Dz sb (15 - a)) -> (l = ages0 \/ l = ages1) -> Z.abs (zsum (fun a => X a * w a) l) <= 1125899906842624.
Proof.
  intros HX Hs Hw Hl. assert (Hb : forall a, 0 <= a < 16 -> Z.abs (X a * w a) <= 140737488355328).
  { intros a Ha. rewrite Z.abs_mul. specialize (HX a Ha). unfold big in HX. assert (Z.abs (w a) < 131072); [|nia].
    destruct Hw as [-> | ->]; [destruct (Dw_spec sb a Hs ltac:(lia)) as (_ & H & _)|destruct (Dw_spec sb (15 - a) Hs ltac:(lia)) as (_ & H & _)]; by rewrite Z.mod_small in H by lia. }
  destruct Hl as [-> | ->]; cbn [zsum ages0 ages1];
    [pose proof (Hb 0); pose proof (Hb 2); pose proof (Hb 4); pose proof (Hb 6); pose proof (Hb 8); pose proof (Hb 10); pose proof (Hb 12); pose proof (Hb 14)
    |pose proof (Hb 1); pose proof (Hb 3); pose proof (Hb 5); pose proof (Hb 7); pose proof (Hb 9); pose proof (Hb 11); pose proof (Hb 13); pose proof (Hb 15)]; lia.
Qed.

(** ** The samples *)

Definition close_to (j v : Z) : Prop := (Rabs (IZR v - polyphase j hist) <= 24576)%R.

Lemma wp_put_pcm i v (c : chan_t) (Q : unit -> chan_t -> Prop) : 0 <= i < zlen (cp c) -> Q tt (Chan (cf c) (<[Z.to_nat i := v]> (cp c))) -> wp (put_pcm i v) Q c.
Proof. intros Hi HQ. unfold put_pcm. wp_steps. eapply wp_lift; [by apply zset_some|]. wp_steps. exact HQ. Qed.

Lemma MLN_small x : Z.abs x <= 1152921504606846976 -> MLN x = - x.
Proof. intros Hx. unfold MLN. rewrite Harm. apply s64_small. lia. Qed.

Section One.
Context (c : chan_t) (i : Z) (Q : unit -> chan_t -> Prop).
Hypothesis (Hf : cf c = f) (Hi : 0 <= i < zlen (cp c)).
Definition stored (j : Z) : Prop := forall v, close_to j v -> Q tt (Chan f (<[Z.to_nat i := v]> (cp c))).

Lemma finish_sample j acc X Y P R w s : s = 1 \/ s = -1 ->
  (forall a, 0 <= a < 16 -> (Rabs (IZR (X a) - P a) <= 8192)%R /\ (Rabs (P a) <= 536870912)%R) ->
  (forall a, 0 <= a < 16 -> (Rabs (IZR (Y a) - R a) <= 8192)%R /\ (Rabs (R a) <= 536870912)%R) ->
  zsum (fun a => Z.abs (w a)) ages0 + zsum (fun a => Z.abs (w a)) ages1 <= 178947 ->
  acc = zsum (fun a => X a * w a) ages0 + s * zsum (fun a => Y a * w a) ages1 ->
  (65536 * polyphase j hist = rsum (fun a => P a * IZR (w a)) ages0 + IZR s * rsum (fun a => R a * IZR (w a)) ages1)%R ->
  stored j -> wp (put_pcm i (PCM_SHIFT (MLZ acc))) Q c.
Proof.
  intros Hs HX HY Hw Ha Href HQ. unfold PCM_SHIFT. rewrite Harm. apply wp_put_pcm; [done|]. rewrite Hf. apply HQ.
  by destruct (close_sample acc (polyphase j hist) X Y P R w s Hs HX HY Hw Ha Href).
Qed.

Lemma wp_first_sample : stored 0 -> wp (first_sample p i) Q c.
Proof.
  intros HQ. destruct Hh as (Hsh & Hp & _). destruct (phase_facts p Hp) as (_ & _ & _ & _ & _ & A0 & A1). destruct (phase_ranges p Hp) as [Re Ro]. rewrite <- Hf in Hsh.
  unfold first_sample. wp_step. apply (wp_row_odd p false 0 c); [done|done|lia|]. intros fx Hfx. wp_step. rewrite Hf in Hfx.
  eapply wp_lift; [apply mac_plus; [by left|lia|done|exact Hfx|apply by_age_small; lia|done]|]. rewrite A1, Z.add_0_l.
  pose proof (eight_small (by_age f p false 0) (Dz 0) 0 ages1 ltac:(apply by_age_small; lia) ltac:(lia) ltac:(by left) ltac:(by right)) as Hb. rewrite MLN_small by lia.
  wp_step. apply (wp_row_even p false 0 c); [done|done|lia|]. intros fe Hfe. wp_step. rewrite Hf in Hfe.
  eapply wp_lift; [apply mac_plus; [by left|lia|done|exact Hfe|apply by_age_small; lia|lia]|]. rewrite A0.
  apply (finish_sample 0 _ (by_age f p false 0) (by_age f p false 0) (P_lo hist 0) (P_hi hist 0) (Dz 0) (-1)); [by right|apply (lo_close 0); lia|apply (lo_close 0); lia|by apply window_sums|lia|by apply polyphase_low|done].
Qed.

Lemma wp_low_sample (r : nat) : (1 <= r <= 15)%nat -> stored (Z.of_nat r) -> wp (low_sample p (Z.of_nat r) i) Q c.
Proof.
  intros Hr HQ. destruct Hh as (Hsh & Hp & _). destruct (phase_facts p Hp) as (_ & _ & _ & _ & _ & A0 & A1). destruct (phase_ranges p Hp) as [Re Ro]. rewrite <- Hf in Hsh.
  unfold low_sample. replace (Z.of_nat r - 1) with (Z.of_nat (r - 1)) by lia.
  wp_step. apply (wp_row_odd p true (r - 1) c); [done|done|lia|]. intros fo Hfo. wp_step. rewrite Hf in Hfo.
  eapply wp_lift; [apply mac_plus; [by left|lia|done|exact Hfo|apply by_age_small; lia|done]|]. rewrite A1, Z.add_0_l.
  pose proof (eight_small (by_age f p true (r - 1)) (Dz (Z.of_nat r)) (Z.of_nat r) ages1 ltac:(apply by_age_small; lia) ltac:(lia) ltac:(by left) ltac:(by right)) as Hb. rewrite MLN_small by lia.
  wp_step. apply (wp_row_even p false r c); [done|done|lia|]. intros fe Hfe. wp_step. rewrite Hf in Hfe.
  eapply wp_lift; [apply mac_plus; [by right|lia|done|exact Hfe|apply by_age_small; lia|lia]|]. rewrite A0.
  apply (finish_sample (Z.of_nat r) _ (by_age f p false r) (by_age f p true (r - 1)) (P_lo hist (Z.of_nat r)) (P_hi hist (Z.of_nat (r - 1) + 1)) (Dz (Z.of_nat r)) (-1)); [by right|apply lo_close; lia|apply hi_close; lia|apply window_sums; lia|lia| |done].
  replace (Z.of_nat (r - 1) + 1) with (Z.of_nat r) by lia. apply polyphase_low. lia.
Qed.

Lemma finish_high (r : nat) acc : (1 <= r <= 15)%nat -> stored (32 - Z.of_nat r) ->
  acc = zsum (fun a => by_age f p false r a * Dz (Z.of_nat r) (15 - a)) ages0 + 1 * zsum (fun a => by_age f p true (r - 1) a * Dz (Z.of_nat r) (15 - a)) ages1 ->
  wp (put_pcm i (PCM_SHIFT (MLZ acc))) Q c.
Proof.
  intros Hr HQ Ha. apply (finish_sample (32 - Z.of_nat r) _ (by_age f p false r) (by_age f p true (r - 1)) (P_lo hist (Z.of_nat r)) (P_hi hist (Z.of_nat (r - 1) + 1)) (fun a => Dz (Z.of_nat r) (15 - a)) 1);
    [by left|apply lo_close; lia|apply hi_close; lia|apply window_sums; lia|done| |done].
  replace (Z.of_nat (r - 1) + 1) with (Z.of_nat r) by lia. apply polyphase_high. lia.
Qed.

Lemma wp_high_sample (r : nat) : (1 <= r <= 15)%nat -> stored (32 - Z.of_nat r) -> wp (high_sample p (Z.of_nat r) i) Q c.
Proof.
  intros Hr HQ. destruct Hh as (Hsh & Hp & _). destruct (phase_facts p Hp) as (_ & _ & _ & _ & _ & A0 & A1). destruct (phase_ranges p Hp) as [Re Ro]. rewrite <- Hf in Hsh.
  unfold high_sample. replace (Z.of_nat r - 1) with (Z.of_nat (r - 1)) by lia.
  wp_step. apply (wp_row_even p false r c); [done|done|lia|]. intros fe Hfe. wp_step. rewrite Hf in Hfe.
  eapply wp_lift; [apply mac_minus; [by left|lia|done|exact Hfe|apply by_age_small; lia|done]|]. rewrite A0, Z.add_0_l.
  pose proof (eight_small (by_age f p false r) (fun a => Dz (Z.of_nat r) (15 - a)) (Z.of_nat r) ages0 ltac:(apply by_age_small; lia) ltac:(lia) ltac:(by right) ltac:(by left)) as Hb.
  wp_step. apply (wp_row_odd p true (r - 1) c); [done|done|lia|]. intros fo Hfo. wp_step. rewrite Hf in Hfo.
  eapply wp_lift; [apply mac_minus; [by right|lia|done|exact Hfo|apply by_age_small; lia|lia]|]. rewrite A1. apply (finish_high r); [done|done|lia].
Qed.

Lemma wp_high_sample_half (r : nat) : (1 <= r <= 15)%nat -> stored (32 - Z.of_nat r) -> wp (high_sample_half p (Z.of_nat r) i) Q c.
Proof.
  intros Hr HQ. destruct Hh as (Hsh & Hp & _). destruct (phase_facts p Hp) as (_ & _ & _ & _ & _ & A0 & A1). destruct (phase_ranges p Hp) as [Re Ro]. rewrite <- Hf in Hsh.
  unfold high_sample_half. replace (Z.of_nat r - 1) with (Z.of_nat (r - 1)) by lia.
  wp_step. apply (wp_row_odd p true (r - 1) c); [done|done|lia|]. intros fo Hfo. wp_step. rewrite Hf in Hfo.
  eapply wp_lift; [apply mac_minus; [by right|lia|done|exact Hfo|apply by_age_small; lia|done]|]. rewrite A1, Z.add_0_l.
  pose proof (eight_small (by_age f p true (r - 1)) (fun a => Dz (Z.of_nat r) (15 - a)) (Z.of_nat r) ages1 ltac:(apply by_age_small; lia) ltac:(lia) ltac:(by right) ltac:(by right)) as Hb.
  wp_step. apply (wp_row_even p false r c); [done|done|lia|]. intros fe Hfe. wp_step. rewrite Hf in Hfe.
  eapply wp_lift; [apply mac_minus; [by left|lia|done|exact Hfe|apply by_age_small; lia|lia]|]. rewrite A0. apply (finish_high r); [done|done|lia].
Qed.

Lemma wp_middle_sample : stored 16 -> wp (middle_sample p i) Q c.
Proof.
  intros HQ. destruct Hh as (Hsh & Hp & _). destruct (phase_facts p Hp) as (_ & _ & _ & _ & _ & A0 & A1). destruct (phase_ranges p Hp) as [Re Ro]. rewrite <- Hf in Hsh.
  unfold middle_sample. wp_step. apply (wp_row_odd p true 15 c); [done|done|lia|]. intros fo Hfo. wp_step. rewrite Hf in Hfo.
  eapply wp_lift; [apply mac_plus; [by left|lia|done|exact Hfo|apply by_age_small; lia|done]|]. rewrite A1, Z.add_0_l.
  destruct (close_sample (zsum (fun a => by_age f p true 15 a * Dz 16 a) ages1) (- polyphase 16 hist) (fun _ => 0) (by_age f p true 15) (P_lo hist 16) (P_hi hist 16) (Dz 16) 1) as [Hr Hc].
  - by left.
  - intros a Ha. unfold P_lo. change (16 + 16) with 32. rewrite dct_32, Rminus_diag, Rabs_R0. lra.
  - apply (hi_close 15). lia.
  - by apply window_sums.
  - unfold ages0. cbn [zsum]. lia.
  - pose proof (polyphase_low 16 hist ltac:(lia)) as E. rewrite (rsum_ext _ (fun a => 0 * IZR (Dz 16 a))%R ages0), rsum_scale in E |- *;
      try (intros a Ha; unfold P_lo; change (16 + 16) with 32; by rewrite dct_32). lra.
  - wp_step. eapply wp_lift; [apply fits_32; lia|]. unfold PCM_SHIFT. rewrite Harm. apply wp_put_pcm; [done|]. rewrite Hf. apply HQ. unfold close_to. rewrite opp_IZR.
    apply Rabs_le_inv in Hc. apply Rabs_le. lra.
Qed.
End One.
End Samples.

(** ** One input *)

Lemma wp_set_part eo peo x (c : chan_t) (Q : unit -> chan_t -> Prop) a : part (cf c) eo peo = Some a ->
  (forall f', (forall e q, part f' e q = if decide (e = eo /\ q = peo) then Some x else part (cf c) e q) -> Q tt (Chan f' (cp c))) -> wp (set_part eo peo x) Q c.
Proof.
  intros Hp HQ. unfold set_part. wp_steps. unfold part in Hp. destruct (zget (cf c) eo) as [b|] eqn:Eb; [|done]. cbn [obind] in *.
  destruct (zset b peo x) as [b'|] eqn:Eb'; [|apply zget_range in Hp; rewrite zset_some in Eb' by lia; done]. cbn [obind].
  destruct (zset (cf c) eo b') as [f'|] eqn:Ef; [|apply zget_range in Eb; rewrite zset_some in Ef by lia; done]. eapply wp_lift; [done|]. wp_steps. apply HQ. intros e q.
  unfold part. destruct (decide (e = eo)) as [->|Hne].
  - rewrite (zget_zset_eq _ _ _ _ Ef), Eb. cbn [obind]. destruct (decide (q = peo)) as [->|Hq].
    + rewrite decide_True by done. exact (zget_zset_eq _ _ _ _ Eb').
    + rewrite decide_False by naive_solver. apply (zget_zset_ne _ _ _ _ _ Eb'). congruence.
  - rewrite decide_False by naive_solver. rewrite (zget_zset_ne _ _ _ _ _ Ef) by congruence. done.
Qed.

Lemma wp_synth_dct input p hist (c : chan_t) (Q : unit -> chan_t -> Prop) : 0 <= p < 16 -> holds (cf c) ((p - 1) mod 16) hist -> length input = 32%nat -> norm1 input <= span ->
  (forall f', holds f' p (input :: hist) -> Q tt (Chan f' (cp c))) -> wp (synth_dct input p) Q c.
Proof.
  intros Hp (Hsh & _ & Hn & Hv) Hl Hi HQ. destruct (phase_facts p Hp) as (_ & _ & _ & El & Es & _). unfold synth_dct, f_part. rewrite El, Es.
  destruct (Hsh 0 (p mod 2) ltac:(lia) ltac:(lia)) as (lo & Elo & Hlo). destruct (Hsh 1 (p mod 2) ltac:(lia) ltac:(lia)) as (hi & Ehi & Hhi).
  wp_steps. eapply wp_lift; [exact Elo|]. wp_steps. eapply wp_lift; [exact Ehi|].
  destruct (dct32_close input (p / 2) lo hi Harm Hl Hi ltac:(lia) Hlo Hhi) as (lo' & hi' & E & Hlo' & Hhi' & Hnew & Hold). wp_steps. eapply wp_lift; [exact E|]. cbn [fst snd].
  wp_steps. eapply wp_set_part; [exact Elo|]. intros f1 H1. eapply wp_set_part; [cbn [cf]; rewrite H1, decide_False by lia; exact Ehi|]. cbn [cf cp]. intros f2 H2. apply HQ.
  assert (Hpart : forall (b : bool) peo, 0 <= peo < 2 -> part f2 (if b then 1 else 0) peo = if decide (peo = p mod 2) then Some (if b then hi' else lo') else part (cf c) (if b then 1 else 0) peo).
  { intros b peo Hpeo. rewrite H2, H1. destruct b; repeat case_decide; try lia; done. }
  clear H1 H2 E. assert (Hcell : forall (b : bool) q r, 0 <= q < 16 -> fcell f2 (if b then 1 else 0) q r = if decide (q = p) then cell (if b then hi' else lo') r (p / 2) else fcell (cf c) (if b then 1 else 0) q r).
  { intros b q r Hq. unfold fcell. rewrite Hpart by lia. destruct (decide (q mod 2 = p mod 2)) as [Em|Em]; [|rewrite decide_False by congruence; done]. cbn [obind].
    destruct (decide (q = p)) as [->|Hne]; [done|]. rewrite Hold by lia. rewrite Em. by destruct b; rewrite ?Ehi, ?Elo. }
  split; [|split; [done|split]].
  - intros eo peo Heo Hpeo. assert (Hb : exists b : bool, eo = if b then 1 else 0) by (destruct (Z.eqb_spec eo 0); [exists false|exists true]; lia). destruct Hb as [b ->]. rewrite Hpart by done.
    case_decide; [eexists; split; [done|by destruct b]|by apply Hsh].
  - intros a Ha. unfold aged. destruct (Z.to_nat a) as [|n] eqn:En; [done|]. cbn [nth]. replace n with (Z.to_nat (a - 1)) by lia. apply Hn. lia.
  - intros b a r Ha Hr. unfold fvalue. rewrite Hcell by lia. unfold aged. destruct (Z.to_nat a) as [|n] eqn:En; cbn [nth].
    + rewrite decide_True by lia. destruct (Hnew b r Hr) as (v & -> & Hd). exact Hd.
    + rewrite decide_False by lia. specialize (Hv b (a - 1) r ltac:(lia) Hr). unfold fvalue, aged in Hv.
      replace (((p - 1) mod 16 - (a - 1)) mod 16) with ((p - a) mod 16) in Hv by lia. by replace (Z.to_nat (a - 1)) with n in Hv by lia.
Qed.

(** ** One round *)

(** Of the samples behind [base], those with [done] are the reference, and the others are as before. *)
Definition written (done : Z -> option Z) (hist : list (list Z)) (base : Z) (l l' : list Z) : Prop :=
  zlen l' = zlen l /\ forall i, 0 <= i < zlen l ->
    match done (i - base) with
    | Some j => exists v, zget l' i = Some v /\ close_to hist j v
    | None => zget l' i = zget l i
    end.
(** Position [d] holds sample [k d] of 32: [k] is 1 for [synth_full] and 2 for [synth_half]. *)
Definition all_done (k d : Z) : option Z := if (0 <=? k * d) && (k * d <? 32) then Some (k * d) else None.
(** After the first [n] subbands. *)
Definition done_upto (k n d : Z) : option Z := if (0 <=? k * d) && (k * d <? n) || (32 - n <? k * d) && (k * d <? 32) then Some (k * d) else None.

Lemma zget_insert l (i k v : Z) : 0 <= i < zlen l -> zget (<[Z.to_nat i := v]> l) k = if k =? i then Some v else zget l k.
Proof.
  intros Hi. pose proof (zset_some l i v Hi) as E. destruct (Z.eqb_spec k i) as [->|Hne]; [exact (zget_zset_eq _ _ _ _ E)|]. apply (zget_zset_ne _ _ _ _ _ E). congruence.
Qed.
Lemma written_refl hist base l : written (fun _ => None) hist base l l.
Proof. done. Qed.

Lemma written_step (d1 d2 : Z -> option Z) hist base l l1 i j v : written d1 hist base l l1 -> 0 <= i < zlen l -> close_to hist j v ->
  d2 (i - base) = Some j -> (forall d, d <> i - base -> d2 d = d1 d) -> written d2 hist base l (<[Z.to_nat i := v]> l1).
Proof.
  intros [Hl Hw] Hi Hv H1 H2. split; [by rewrite zlen_insert|]. intros k Hk. rewrite zget_insert by lia. destruct (Z.eqb_spec k i) as [->|Hne].
  - rewrite H1. eauto.
  - rewrite H2 by lia. by apply Hw.
Qed.
Lemma written_ext (d1 d2 : Z -> option Z) hist base l l1 : written d1 hist base l l1 -> (forall d, d2 d = d1 d) -> written d2 hist base l l1.
Proof. intros [Hl Hw] H. split; [done|]. intros i Hi. rewrite H. by apply Hw. Qed.

Ltac done_cases := unfold done_upto, all_done; repeat match goal with |- context [?a <? ?b] => destruct (Z.ltb_spec a b) | |- context [?a <=? ?b] => destruct (Z.leb_spec a b) end; cbn [andb orb]; try done; try lia; try (f_equal; lia).

Section Round.
Context (input : list Z) (p base : Z) (hist : list (list Z)) (c : chan_t).
Hypothesis (Hp : 0 <= p < 16) (Hh : holds (cf c) ((p - 1) mod 16) hist) (Hlen : length input = 32%nat) (Hn : norm1 input <= span) (Hbase : 0 <= base).

Definition after_round (k : Z) (c' : chan_t) : Prop := holds (cf c') p (input :: hist) /\ written (all_done k) (input :: hist) base (cp c) (cp c').

(** What both loops have in common: the first and the middle sample, and the loop between. *)
Lemma wp_round k (body : Z -> M chan_t unit) : (k = 1 \/ k = 2) -> base + 32 / k <= zlen (cp c) ->
  (forall f' r c', holds f' p (input :: hist) -> (1 <= r <= 15)%nat -> cf c' = f' -> written (done_upto k (Z.of_nat r)) (input :: hist) base (cp c) (cp c') ->
     wp (body (Z.of_nat r)) (fun _ c'' => cf c'' = f' /\ written (done_upto k (Z.of_nat r + 1)) (input :: hist) base (cp c) (cp c'')) c') ->
  wp (synth_dct input p ;; first_sample p base ;; for_range 1 15 body ;; middle_sample p (base + 16 / k)) (fun _ => after_round k) c.
Proof.
  intros Hk Hroom Hbody. assert (Hk' : 32 / k = 2 * (16 / k)) by (destruct Hk as [-> | ->]; reflexivity). wp_step. apply (wp_synth_dct input p hist); [done..|]. intros f' Hf'.
  wp_step. apply (wp_first_sample f' p (input :: hist) Hf'); [done|cbn [cp]; destruct Hk as [-> | ->]; lia|]. intros v Hv. cbn [cp].
  wp_step. eapply wp_mono; [|apply (wp_for_range (fun n c' => cf c' = f' /\ written (done_upto k n) (input :: hist) base (cp c) (cp c')))].
  - intros _ c' [Hc' Hw]. change (1 + Z.of_nat 15) with 16 in Hw. apply (wp_middle_sample f' p (input :: hist) Hf'); [done|destruct Hw as [-> _]; destruct Hk as [-> | ->]; lia|].
    intros w Hw'. split; [done|]. cbn [cp]. eapply (written_step (done_upto k 16)); [done|destruct Hk as [-> | ->]; lia|done| |]; destruct Hk as [-> | ->]; [| |intros d Hd|intros d Hd]; done_cases.
  - intros i c' Hi [Hc' Hw]. rewrite <- (Z2Nat.id i) in Hw |- * by lia. eapply Hbody; [done|lia|done|done].
  - cbn [cf cp]. split; [done|]. eapply (written_step (fun _ => None)); [apply written_refl|destruct Hk as [-> | ->]; lia|done| |]; destruct Hk as [-> | ->]; [| |intros d Hd|intros d Hd]; done_cases.
Qed.

Lemma wp_full_round : base + 32 <= zlen (cp c) -> wp (full_round input p base) (fun _ => after_round 1) c.
Proof.
  intros Hroom. apply (wp_round 1); [by left|done|]. intros f' r c' Hf' Hr Hc' Hw.
  wp_step. apply (wp_low_sample f' p (input :: hist) Hf'); [done|destruct Hw as [-> _]; lia|done|]. intros v Hv.
  apply (wp_high_sample f' p (input :: hist) Hf'); [done|cbn [cp]; rewrite zlen_insert; destruct Hw as [-> _]; lia|done|]. intros w Hw'. split; [done|]. cbn [cp].
  eapply (written_step (fun d => if d =? Z.of_nat r then Some d else done_upto 1 (Z.of_nat r) d)); [eapply written_step; [exact Hw|lia|exact Hv| |]|lia|exact Hw'| |].
  - by replace (base + Z.of_nat r - base) with (Z.of_nat r) by lia; rewrite Z.eqb_refl.
  - intros d Hd. by destruct (Z.eqb_spec d (Z.of_nat r)); [lia|].
  - done_cases.
  - intros d Hd. destruct (Z.eqb_spec d (Z.of_nat r)); done_cases.
Qed.

Lemma wp_half_round : base + 16 <= zlen (cp c) -> wp (half_round input p base) (fun _ => after_round 2) c.
Proof.
  intros Hroom. apply (wp_round 2); [by right|done|]. intros f' r c' Hf' Hr Hc' Hw. assert (Hodd : Z.land (Z.of_nat r) 1 = Z.of_nat r mod 2) by (change 1 with (Z.ones 1) at 1; by rewrite Z.land_ones by lia).
  rewrite Hodd. apply wp_when; intros Hm; [apply Z.eqb_eq in Hm|apply Z.eqb_neq in Hm; split; [done|]; eapply written_ext; [exact Hw|]; intros d; done_cases].
  wp_step. apply (wp_low_sample f' p (input :: hist) Hf'); [done|destruct Hw as [-> _]; lia|done|]. intros v Hv.
  apply (wp_high_sample_half f' p (input :: hist) Hf'); [done|cbn [cp]; rewrite zlen_insert; destruct Hw as [-> _]; lia|done|]. intros w Hw'. split; [done|]. cbn [cp].
  eapply (written_step (fun d => if 2 * d =? Z.of_nat r then Some (2 * d) else done_upto 2 (Z.of_nat r) d)); [eapply written_step; [exact Hw|lia|exact Hv| |]|lia|exact Hw'| |].
  - replace (2 * (base + Z.of_nat r / 2 - base)) with (Z.of_nat r) by lia. by rewrite Z.eqb_refl.
  - intros d Hd. by destruct (Z.eqb_spec (2 * d) (Z.of_nat r)); [lia|].
  - done_cases.
  - intros d Hd. destruct (Z.eqb_spec (2 * d) (Z.of_nat r)); done_cases.
Qed.
End Round.

(** ** A channel *)

(** The inputs of [s] rounds, the last one first, and what was before. *)
Definition past (sbs : list (list Z)) (s : nat) (hist : list (list Z)) : list (list Z) := rev (take s sbs) ++ hist.
Lemma past_S sbs s hist x : sbs !! s = Some x -> past sbs (S s) hist = x :: past sbs s hist.
Proof. intros H. unfold past. rewrite (take_S_r _ _ _ H), rev_app_distr. done. Qed.

Definition inputs_ok (sbs : list (list Z)) : Prop := length sbs = 36%nat /\ Forall (fun x => length x = 32%nat /\ norm1 x <= span) sbs.

(** The samples of the rounds [s0] to [s1 - 1]. *)
Definition heard (k width : Z) (sbs : list (list Z)) (hist : list (list Z)) (s0 s1 : nat) (l : list Z) : Prop :=
  forall (s : nat) d, (s0 <= s < s1)%nat -> 0 <= d < width -> exists v, zget l (width * Z.of_nat s + d) = Some v /\ close_to (past sbs (S s) hist) (k * d) v.

(** [synth_full] with [full_round], 32 samples a round, and [synth_half] with [half_round], 16. *)
Definition round_of (k : Z) : list Z -> Z -> Z -> M chan_t unit := if k =? 1 then full_round else half_round.

Lemma wp_round_of k input p base hist c : (k = 1 \/ k = 2) -> 0 <= p < 16 -> holds (cf c) ((p - 1) mod 16) hist -> length input = 32%nat -> norm1 input <= span -> 0 <= base ->
  base + 32 / k <= zlen (cp c) -> wp (round_of k input p base) (fun _ => after_round input p base hist c k) c.
Proof. intros [-> | ->] **; [by apply wp_full_round|by apply wp_half_round]. Qed.

Lemma wp_synth_loop k sbs hist : (k = 1 \/ k = 2) -> inputs_ok sbs -> forall n (s : nat) p c, (s + n <= 36)%nat -> 0 <= p < 16 -> 32 / k * 36 <= zlen (cp c) ->
  holds (cf c) ((p - 1) mod 16) (past sbs s hist) ->
  wp (synth_loop (round_of k) (32 / k) sbs n (Z.of_nat s) p)
    (fun _ c' => holds (cf c') ((p + Z.of_nat n - 1) mod 16) (past sbs (s + n) hist) /\ zlen (cp c') = zlen (cp c) /\
       (forall i, 0 <= i < 32 / k * Z.of_nat s -> zget (cp c') i = zget (cp c) i) /\ heard k (32 / k) sbs hist s (s + n) (cp c')) c.
Proof.
  intros Hk [Hlen Hall]. set (width := 32 / k). assert (Hwd : 16 <= width <= 32 /\ 32 = k * width) by (subst width; destruct Hk as [-> | ->]; split; (done || lia)).
  induction n as [|n IH]; intros s p c Hs Hp Hroom Hh; cbn [synth_loop].
  - apply wp_ret. rewrite Nat.add_0_r, Z.add_0_r. split; [done|]. split; [done|]. split; [done|]. intros m d Hm. lia.
  - destruct (lookup_lt_is_Some_2 sbs s) as [x Hx]; [lia|]. destruct (Forall_lookup_1 _ _ _ _ Hall Hx) as [Hx32 Hxn].
    wp_step. eapply wp_lift; [by rewrite zget_nat|]. wp_step. eapply wp_mono; [|apply (wp_round_of k x p _ (past sbs s hist) c); try done; nia].
    intros _ c1 [Hh1 [Hl1 Hw1]]. replace (Z.of_nat s + 1) with (Z.of_nat (S s)) by lia. rewrite <- (past_S _ _ _ _ Hx) in Hh1, Hw1.
    eapply wp_mono; [|apply (IH (S s) ((p + 1) mod 16) c1)]; [|lia|lia|lia|replace (((p + 1) mod 16 - 1) mod 16) with p by lia; done].
    intros _ c2 (Hh2 & Hl2 & Hkeep & Hheard). replace (s + S n)%nat with (S s + n)%nat by lia. split; [|split; [lia|split]].
    + by replace ((p + Z.of_nat (S n) - 1) mod 16) with (((p + 1) mod 16 + Z.of_nat n - 1) mod 16) by lia.
    + intros i Hi. rewrite Hkeep by nia. specialize (Hw1 i ltac:(nia)). unfold all_done in Hw1. rewrite (proj2 (Z.leb_gt 0 (k * (i - width * Z.of_nat s)))) in Hw1 by nia. exact Hw1.
    + intros m d Hm Hd. destruct (decide (m = s)) as [->|Hne]; [|apply Hheard; [lia|done]]. rewrite Hkeep by nia. specialize (Hw1 (width * Z.of_nat s + d) ltac:(nia)). unfold all_done in Hw1.
      replace (width * Z.of_nat s + d - width * Z.of_nat s) with d in Hw1 by lia. rewrite (proj2 (Z.leb_le 0 (k * d))), (proj2 (Z.ltb_lt (k * d) 32)) in Hw1 by nia. exact Hw1.
Qed.

(** ** A frame *)

(** The channels from [lo] to [hi - 1] of the synthesis have heard [hist]. *)
Definition synth_ok (y : synth_t) (phase lo hi : Z) (hist : Z -> list (list Z)) : Prop :=
  forall ch, lo <= ch < hi -> exists f l, zget (sy_filter y) ch = Some f /\ holds f ((phase - 1) mod 16) (hist ch) /\ zget (sy_samples y) ch = Some l /\ zlen l = 1152.
Definition sb_of (frame : frame_t) (ch : Z) : list (list Z) := match zget (fr_sbsample frame) ch with Some x => x | None => [] end.
Definition frame_ok (nch : Z) (frame : frame_t) : Prop := forall ch, 0 <= ch < nch -> zget (fr_sbsample frame) ch = Some (sb_of frame ch) /\ inputs_ok (sb_of frame ch).
(** The samples of channel [ch]. *)
Definition chan_heard (k : Z) (frame : frame_t) (hist : Z -> list (list Z)) (ns : nat) (y : synth_t) (ch : Z) : Prop :=
  exists l, zget (sy_samples y) ch = Some l /\ heard k (32 / k) (sb_of frame ch) (hist ch) 0 ns l.
Definition hist_after (frame : frame_t) (ns : nat) (hist : Z -> list (list Z)) (ch : Z) : list (list Z) := past (sb_of frame ch) ns (hist ch).

Lemma synth_channels_ok k frame hist (ns : nat) nch : (k = 1 \/ k = 2) -> (ns <= 36)%nat -> frame_ok nch frame -> forall n ch y, ch + Z.of_nat n = nch -> 0 <= ch -> 0 <= sy_phase y < 16 ->
  synth_ok y (sy_phase y) ch nch hist ->
  exists y', synth_channels (round_of k) (32 / k) frame (Z.of_nat ns) n ch y = Done y' /\
    sy_phase y' = sy_phase y /\ sy_samplerate y' = sy_samplerate y /\ sy_channels y' = sy_channels y /\ sy_length y' = sy_length y /\
    (forall i, 0 <= i < ch -> zget (sy_filter y') i = zget (sy_filter y) i /\ zget (sy_samples y') i = zget (sy_samples y) i) /\
    synth_ok y' (sy_phase y + Z.of_nat ns) ch nch (hist_after frame ns hist) /\ (forall i, ch <= i < nch -> chan_heard k frame hist ns y' i).
Proof.
  intros Hk Hns Hfr. induction n as [|n IH]; intros ch y Hn Hch Hp Hy; cbn [synth_channels].
  { exists y. repeat split; try done; try (intros i Hi; lia). }
  destruct (Hy ch ltac:(lia)) as (f & l & Ef & Hh & El & Hl). destruct (Hfr ch ltac:(lia)) as [Esb Hsb]. rewrite Esb, Ef, El. cbn [res_opt res_bind]. rewrite Nat2Z.id.
  pose proof (wp_synth_loop k (sb_of frame ch) (hist ch) Hk Hsb ns 0 (sy_phase y) (Chan f l) ltac:(lia) Hp) as Hloop. cbn [cp cf past take rev app] in Hloop.
  specialize (Hloop ltac:(destruct Hk as [-> | ->]; cbn; lia) Hh). apply wp_run in Hloop as (u & c & o & Erun & Hh' & Hl' & _ & Hheard). change (Z.of_nat 0) with 0 in Erun. rewrite Erun. cbn [res_bind].
  rewrite (zset_some (sy_filter y)), (zset_some (sy_samples y)) by (by apply zget_range in Ef, El). cbn [res_opt res_bind].
  set (y1 := SynthT _ _ _ _ _ _).
  assert (Hf1 : forall i, zget (sy_filter y1) i = if i =? ch then Some (cf c) else zget (sy_filter y) i) by (intros i; subst y1; cbn [sy_filter]; pose proof (zset_some (sy_filter y) ch (cf c) (zget_range _ _ _ Ef)) as E; destruct (Z.eqb_spec i ch) as [->|Hne]; [exact (zget_zset_eq _ _ _ _ E)|apply (zget_zset_ne _ _ _ _ _ E); congruence]).
  assert (Hs1 : forall i, zget (sy_samples y1) i = if i =? ch then Some (cp c) else zget (sy_samples y) i) by (intros i; subst y1; cbn [sy_samples]; pose proof (zset_some (sy_samples y) ch (cp c) (zget_range _ _ _ El)) as E; destruct (Z.eqb_spec i ch) as [->|Hne]; [exact (zget_zset_eq _ _ _ _ E)|apply (zget_zset_ne _ _ _ _ _ E); congruence]).
  destruct (IH (ch + 1) y1) as (y' & E & A1 & A2 & A3 & A4 & Hkeep & Hok & Hall); [lia|lia|done| |].
  { intros i Hi. rewrite Hf1, Hs1. rewrite (proj2 (Z.eqb_neq i ch)) by lia. apply Hy. lia. }
  exists y'. do 5 (split; [done|]). destruct (Hkeep ch ltac:(lia)) as [Kf Ks]. rewrite Hf1, Z.eqb_refl in Kf. rewrite Hs1, Z.eqb_refl in Ks.
  split; [|split].
  - intros i Hi. destruct (Hkeep i ltac:(lia)) as [-> ->]. rewrite Hf1, Hs1, (proj2 (Z.eqb_neq i ch)) by lia. done.
  - intros i Hi. destruct (decide (i = ch)) as [->|Hne]; [|apply Hok; lia]. exists (cf c), (cp c). split; [done|]. split; [exact Hh'|]. split; [done|lia].
  - intros i Hi. destruct (decide (i = ch)) as [->|Hne]; [|apply Hall; lia]. exists (cp c). split; [done|]. exact Hheard.
Qed.

Definition halved (frame : frame_t) : Z := if negb (Z.land (fr_options frame) MAD_OPTION_HALFSAMPLERATE =? 0) then 2 else 1.
Definition ns_of (frame : frame_t) : nat := Z.to_nat (MAD_NSBSAMPLES (fr_header frame)).
Lemma ns_range frame : MAD_NSBSAMPLES (fr_header frame) = Z.of_nat (ns_of frame) /\ (ns_of frame <= 36)%nat.
Proof. unfold ns_of, MAD_NSBSAMPLES. repeat case_match; lia. Qed.

Definition ready (y : synth_t) (nch : Z) (hist : Z -> list (list Z)) : Prop := 0 <= sy_phase y < 16 /\ synth_ok y (sy_phase y) 0 nch hist.

Lemma synth_frame_ok y frame hist nch : MAD_NCHANNELS (fr_header frame) = nch -> frame_ok nch frame -> ready y nch hist ->
  exists y', mad_synth_frame y frame = Done y' /\ ready y' nch (hist_after frame (ns_of frame) hist) /\
    sy_channels y' = nch /\ sy_samplerate y' = hd_samplerate (fr_header frame) / halved frame /\ sy_length y' = 32 / halved frame * MAD_NSBSAMPLES (fr_header frame) /\
    (forall ch, 0 <= ch < nch -> chan_heard (halved frame) frame hist (ns_of frame) y' ch).
Proof.
  intros Hnch Hfr [Hp Hy]. destruct (ns_range frame) as [Ens Hns]. assert (Hn0 : 0 <= nch) by (subst nch; unfold MAD_NCHANNELS; case_match; lia).
  unfold mad_synth_frame. cbv zeta. rewrite Hnch, Ens. set (half := negb _). set (y0 := SynthT (sy_filter y) _ _ _ _ _).
  assert (Hk : halved frame = if half then 2 else 1) by done. clearbody half.
  destruct (synth_channels_ok (halved frame) frame hist (ns_of frame) nch) with (n := Z.to_nat nch) (ch := 0) (y := y0) as (y1 & E & A1 & A2 & A3 & A4 & _ & Hok & Hheard); [rewrite Hk; destruct half; lia|done|done|lia|lia|done|exact Hy|].
  replace ((if half then synth_half else synth_full) y0 frame nch (Z.of_nat (ns_of frame))) with (Done y1) by (rewrite <- E, Hk; by destruct half). cbn [res_bind].
  eexists. split; [done|]. cbn [sy_channels sy_samplerate sy_length sy_phase]. rewrite A1, A2, A3, A4. subst y0. cbn [sy_phase sy_channels sy_samplerate sy_length] in *.
  assert (Hu : u32 (sy_phase y + Z.of_nat (ns_of frame)) mod 16 = (sy_phase y + Z.of_nat (ns_of frame)) mod 16) by (unfold u32; rewrite (Z.mod_small _ 4294967296) by lia; done).
  split; [split; cbn [sy_phase]; [lia|]|].
  - intros ch Hch. destruct (Hok ch Hch) as (f & l & H1 & H2 & H3). exists f, l. split; [done|]. split; [|done]. rewrite Hu.
    by replace (((sy_phase y + Z.of_nat (ns_of frame)) mod 16 - 1) mod 16) with ((sy_phase y + Z.of_nat (ns_of frame) - 1) mod 16) by lia.
  - split; [done|]. split; [rewrite Hk; destruct half; [done|by rewrite Z.div_1_r]|]. split; [rewrite Hk; destruct half; [change (32 / 2) with 16; lia|done]|]. exact Hheard.
Qed.

(** ** A stream *)

Fixpoint synth_all (y : synth_t) (frames : list frame_t) : res synth_t :=
  match frames with [] => Done y | f :: frames => let! y := mad_synth_frame y f in synth_all y frames end.
(** All inputs of a channel, the last one first. *)
Definition history (frames : list frame_t) (ch : Z) : list (list Z) := fold_left (fun h f => past (sb_of f ch) (ns_of f) h) frames [].

Definition frames_ok (nch : Z) (frames : list frame_t) : Prop := Forall (fun f => MAD_NCHANNELS (fr_header f) = nch /\ frame_ok nch f) frames.
(** mad_fixed_t samples[2][1152] *)
Definition blank (y : synth_t) : Prop := forall ch, 0 <= ch < 2 -> exists l, zget (sy_samples y) ch = Some l /\ zlen l = 1152.

Lemma synth_all_ok nch frames : forall y hist, frames_ok nch frames -> ready y nch hist ->
  exists y', synth_all y frames = Done y' /\ ready y' nch (fun ch => fold_left (fun h f => past (sb_of f ch) (ns_of f) h) frames (hist ch)).
Proof.
  induction frames as [|f frames IH]; intros y hist Hf Hy; cbn [synth_all fold_left]; [by exists y|]. apply Forall_cons_1 in Hf as [[Hn Hfr] Hf].
  destruct (synth_frame_ok y f hist nch Hn Hfr Hy) as (y1 & E & Hy1 & _). rewrite E. cbn [res_bind]. exact (IH y1 _ Hf Hy1).
Qed.

Lemma fvalue_zero eo q r : 0 <= eo < 2 -> fvalue (repeat (repeat (repeat (repeat 0 8) 16) 2) 2) eo q r = 0.
Proof.
  intros He. unfold fvalue, fcell, part. destruct (zget _ eo) as [a|] eqn:Ea; [|done]. cbn [obind]. destruct (zget a _) as [b|] eqn:Eb; [|done]. cbn [obind].
  unfold cell. destruct (b !! r) as [row|] eqn:Er; [|done]. cbn [obind]. destruct (zget row _) as [v|] eqn:Ev; [|done].
  assert (Hin : forall {A} (l : list A) i x, zget l i = Some x -> In x l) by (intros A l i x Hx; unfold zget in Hx; case_match; [done|]; by apply list_elem_of_In, (list_elem_of_lookup_2 l (Z.to_nat i))).
  apply Hin in Ea, Eb, Ev. apply list_elem_of_lookup_2, list_elem_of_In in Er. apply repeat_spec in Ea. subst a. apply repeat_spec in Eb. subst b. apply repeat_spec in Er. subst row. by apply repeat_spec in Ev.
Qed.

Lemma init_ready y nch : blank y -> nch <= 2 -> ready (mad_synth_init y) nch (fun _ => []).
Proof.
  intros Hb Hn. split; [done|]. intros ch Hch. destruct (Hb ch ltac:(lia)) as (l & El & Hl). exists (repeat (repeat (repeat (repeat 0 8) 16) 2) 2), l.
  assert (Hc : ch = 0 \/ ch = 1) by lia. split; [by destruct Hc as [-> | ->]|]. split; [|done]. split; [|split; [by cbn|split]].
  - intros eo peo He Hpe. assert (Hc' : (eo = 0 \/ eo = 1) /\ (peo = 0 \/ peo = 1)) by lia. exists (repeat (repeat 0 8) 16).
    split; [by destruct Hc' as [[-> | ->] [-> | ->]]|split; [done|repeat constructor]].
  - intros a Ha. unfold aged. destruct (Z.to_nat a); cbn; unfold span; lia.
  - intros b a r Ha Hr. rewrite fvalue_zero by (destruct b; lia). unfold aged. replace (nth (Z.to_nat a) [] []) with (@nil Z) by (by destruct (Z.to_nat a)). unfold dct. cbn. rewrite Rminus_diag, Rabs_R0. lra.
Qed.
End Filter.

(** C7: The synthesis filter is the polyphase filter bank of ISO/IEC 11172-3.  On the board, after
    [mad_synth_init] and any sequence of frames with the same number of channels, [mad_synth_frame]
    succeeds, and every sample of every channel is within three steps of a 16-bit sample of the
    filter bank (window D times the vectors [V_i], the sums of [x_k cos((16 + i) (2 k + 1) pi / 64)])
    applied to all subband samples of the channel so far, where the magnitudes of the 32 samples of
    a round add up to at most 2.0.  With MAD_OPTION_HALFSAMPLERATE the samples are every second one. *)
Theorem synth_refines_polyphase `{T : Target} `{FP : Fpm} (y : synth_t) (frames : list frame_t) (frame : frame_t) (nch : Z) :
  fpm_arm = true -> blank y -> frames_ok nch (frames ++ [frame]) ->
  exists y', synth_all (mad_synth_init y) (frames ++ [frame]) = Done y' /\
    sy_channels y' = nch /\ sy_samplerate y' = hd_samplerate (fr_header frame) / halved frame /\
    sy_length y' = 32 / halved frame * MAD_NSBSAMPLES (fr_header frame) /\
    forall ch (s : nat) d, 0 <= ch < nch -> (s < ns_of frame)%nat -> 0 <= d < 32 / halved frame ->
      exists l v, zget (sy_samples y') ch = Some l /\ zget l (32 / halved frame * Z.of_nat s + d) = Some v /\
        (Rabs (IZR v - polyphase (halved frame * d) (past (sb_of frame ch) (S s) (history frames ch))) <= 3 * 8192)%R.
Proof.
  intros Harm Hb Hf. unfold frames_ok in Hf. rewrite Forall_app in Hf. destruct Hf as [Hfs Hl]. apply Forall_cons_1 in Hl as [[Hc Hfr] _].
  assert (Hn : nch <= 2) by (subst nch; unfold MAD_NCHANNELS; case_match; lia).
  destruct (synth_all_ok Harm nch frames (mad_synth_init y) (fun _ => []) Hfs (init_ready y nch Hb Hn)) as (y1 & E1 & Hy1).
  destruct (synth_frame_ok Harm y1 frame _ nch Hc Hfr Hy1) as (y2 & E2 & _ & A1 & A2 & A3 & Hh). exists y2.
  assert (Happ : forall a y0, synth_all y0 (a ++ [frame]) = let! y3 := synth_all y0 a in mad_synth_frame y3 frame).
  { induction a as [|f a IH]; intros y0; cbn [app synth_all res_bind]; [by destruct (mad_synth_frame y0 frame)|]. destruct (mad_synth_frame y0 f); cbn [res_bind]; [apply IH|done|done]. }
  rewrite Happ, E1. cbn [res_bind]. do 4 (split; [done|]). intros ch s d Hch Hs Hd. destruct (Hh ch Hch) as (l & El & Hl). destruct (Hl s d ltac:(lia) Hd) as (v & Ev & Hv).
  exists l, v. split; [done|]. split; [done|]. unfold close_to in Hv. fold (history frames ch) in Hv. lra.
Qed.

Definition quiet_synth : synth_t := SynthT [] 0 0 0 0 (repeat (repeat 0 1152) 2).
Definition tone_frame : frame_t := Frame (Header 1 0 0 0 0 44100 0 0 0 0 mad_timer_zero) 0 (repeat (repeat (map (fun k => 1000000 * Z.of_nat k) (seq 0 32)) 36) 2) None.

Lemma synth_refines_polyphase_witness : exists (y : synth_t) (frame : frame_t),
  let _ : Target := stm32_target in let _ : Fpm := {| fpm_arm := true |} in
  exists y' l v, synth_all (mad_synth_init y) [frame; frame] = Done y' /\ zget (sy_samples y') 0 = Some l /\ zget l 37 = Some v /\
    (Rabs (IZR v - polyphase 5 (past (sb_of frame 0) 2 (history [frame] 0))) <= 3 * 8192)%R.
Proof.
  exists quiet_synth, tone_frame. intros _T _F.
  destruct (synth_refines_polyphase quiet_synth [tone_frame] tone_frame 1) as (y' & E & _ & _ & _ & H).
  - reflexivity.
  - intros ch Hch. exists (repeat 0 1152). split; [|reflexivity]. assert (Hc : ch = 0 \/ ch = 1) by lia. destruct Hc as [-> | ->]; reflexivity.
  - assert (Hok : frame_ok 1 tone_frame).
    { intros ch Hch. replace ch with 0 by lia. split; [reflexivity|]. split; [reflexivity|]. apply Forall_forall. intros x Hx. change (sb_of tone_frame 0) with (repeat (map (fun k => 1000000 * Z.of_nat k) (seq 0 32)) 36) in Hx.
      apply repeat_spec in Hx. subst x. split; [reflexivity|]. vm_compute. discriminate. }
    apply Forall_cons; [exact (conj eq_refl Hok)|]. apply Forall_cons; [exact (conj eq_refl Hok)|apply Forall_nil].
  - assert (Hs : (1 < ns_of tone_frame)%nat) by (vm_compute; repeat constructor). assert (Hd : 0 <= 5 < 32 / halved tone_frame) by (split; [discriminate|reflexivity]).
    destruct (H 0 1%nat 5 (conj (Z.le_refl 0) Z.lt_0_1) Hs Hd) as (l & v & H1 & H2 & H3). exists y', l, v. split; [exact E|]. split; [exact H1|]. split; [exact H2|exact H3].
Defined.
