(* ===== verification/MadHuffman.v ===== *)
(** * libs/libmad-0.15.1b/huffman.c: the Huffman tables of Layer III

    A table is indexed with the next bits of the stream: an entry is a value with the
    length of the rest of its code word, or refers to another part of the table. *)

From S2P Require Import Prelude.

(** [union huffpair] *)
Inductive huffpair : Type :=
| PTR (offset bits : Z)
| V (x y hlen : Z).

(** [union huffquad] *)
Inductive huffquad : Type :=
| QPTR (offset bits : Z)
| QV (v w x y hlen : Z).

Definition hufftabA : list huffquad := [
  QPTR 16 2; QPTR 20 2; QPTR 24 1; QPTR 26 1; QV 0 0 1 0 4; QV 0 0 0 1 4; QV 0 1 0 0 4; QV 1 0 0 0 4;
  QV 0 0 0 0 1; QV 0 0 0 0 1; QV 0 0 0 0 1; QV 0 0 0 0 1; QV 0 0 0 0 1; QV 0 0 0 0 1; QV 0 0 0 0 1;
  QV 0 0 0 0 1; QV 1 0 1 1 2; QV 1 1 1 1 2; QV 1 1 0 1 2; QV 1 1 1 0 2; QV 0 1 1 1 2; QV 0 1 0 1 2;
  QV 1 0 0 1 1; QV 1 0 0 1 1; QV 0 1 1 0 1; QV 0 0 1 1 1; QV 1 0 1 0 1; QV 1 1 0 0 1
].

Definition hufftabB : list huffquad := [
  QV 1 1 1 1 4; QV 1 1 1 0 4; QV 1 1 0 1 4; QV 1 1 0 0 4; QV 1 0 1 1 4; QV 1 0 1 0 4; QV 1 0 0 1 4;
  QV 1 0 0 0 4; QV 0 1 1 1 4; QV 0 1 1 0 4; QV 0 1 0 1 4; QV 0 1 0 0 4; QV 0 0 1 1 4; QV 0 0 1 0 4;
  QV 0 0 0 1 4; QV 0 0 0 0 4
].

Definition hufftab0 : list huffpair := [
  V 0 0 0
].

Definition hufftab1 : list huffpair := [
  V 1 1 3; V 0 1 3; V 1 0 2; V 1 0 2; V 0 0 1; V 0 0 1; V 0 0 1; V 0 0 1
].

Definition hufftab2 : list huffpair := [
  PTR 8 3; V 1 1 3; V 0 1 3; V 1 0 3; V 0 0 1; V 0 0 1; V 0 0 1; V 0 0 1; V 2 2 3; V 0 2 3; V 1 2 2; V 1 2 2;
  V 2 1 2; V 2 1 2; V 2 0 2; V 2 0 2
].

Definition hufftab3 : list huffpair := [
  PTR 8 3; V 1 0 3; V 1 1 2; V 1 1 2; V 0 1 2; V 0 1 2; V 0 0 2; V 0 0 2; V 2 2 3; V 0 2 3; V 1 2 2; V 1 2 2;
  V 2 1 2; V 2 1 2; V 2 0 2; V 2 0 2
].

Definition hufftab5 : list huffpair := [
  PTR 8 4; V 1 1 3; V 0 1 3; V 1 0 3; V 0 0 1; V 0 0 1; V 0 0 1; V 0 0 1; PTR 24 1; V 3 2 4; V 3 1 3;
  V 3 1 3; V 1 3 4; V 0 3 4; V 3 0 4; V 2 2 4; V 1 2 3; V 1 2 3; V 2 1 3; V 2 1 3; V 0 2 3; V 0 2 3; V 2 0 3;
  V 2 0 3; V 3 3 1; V 2 3 1
].

Definition hufftab6 : list huffpair := [
  PTR 16 3; PTR 24 1; PTR 26 1; V 1 2 4; V 2 1 4; V 2 0 4; V 0 1 3; V 0 1 3; V 1 1 2; V 1 1 2; V 1 1 2;
  V 1 1 2; V 1 0 3; V 1 0 3; V 0 0 3; V 0 0 3; V 3 3 3; V 0 3 3; V 2 3 2; V 2 3 2; V 3 2 2; V 3 2 2; V 3 0 2;
  V 3 0 2; V 1 3 1; V 3 1 1; V 2 2 1; V 0 2 1
].

Definition hufftab7 : list huffpair := [
  PTR 16 4; PTR 32 4; PTR 48 2; V 1 1 4; V 0 1 3; V 0 1 3; V 1 0 3; V 1 0 3; V 0 0 1; V 0 0 1; V 0 0 1;
  V 0 0 1; V 0 0 1; V 0 0 1; V 0 0 1; V 0 0 1; PTR 52 2; PTR 56 1; PTR 58 1; V 1 5 4; V 5 1 4; PTR 60 1;
  V 5 0 4; PTR 62 1; V 2 4 4; V 4 2 4; V 1 4 3; V 1 4 3; V 4 1 3; V 4 1 3; V 4 0 3; V 4 0 3; V 0 4 4;
  V 2 3 4; V 3 2 4; V 0 3 4; V 1 3 3; V 1 3 3; V 3 1 3; V 3 1 3; V 3 0 3; V 3 0 3; V 2 2 3; V 2 2 3; V 1 2 2;
  V 1 2 2; V 1 2 2; V 1 2 2; V 2 1 1; V 2 1 1; V 0 2 2; V 2 0 2; V 5 5 2; V 4 5 2; V 5 4 2; V 5 3 2; V 3 5 1;
  V 4 4 1; V 2 5 1; V 5 2 1; V 0 5 1; V 3 4 1; V 4 3 1; V 3 3 1
].

Definition hufftab8 : list huffpair := [
  PTR 16 4; PTR 32 4; V 1 2 4; V 2 1 4; V 1 1 2; V 1 1 2; V 1 1 2; V 1 1 2; V 0 1 3; V 0 1 3; V 1 0 3;
  V 1 0 3; V 0 0 2; V 0 0 2; V 0 0 2; V 0 0 2; PTR 48 3; PTR 56 2; PTR 60 1; V 1 5 4; V 5 1 4; PTR 62 1;
  PTR 64 1; V 2 4 4; V 4 2 4; V 1 4 4; V 4 1 3; V 4 1 3; V 0 4 4; V 4 0 4; V 2 3 4; V 3 2 4; V 1 3 4;
  V 3 1 4; V 0 3 4; V 3 0 4; V 2 2 2; V 2 2 2; V 2 2 2; V 2 2 2; V 0 2 2; V 0 2 2; V 0 2 2; V 0 2 2; V 2 0 2;
  V 2 0 2; V 2 0 2; V 2 0 2; V 5 5 3; V 5 4 3; V 4 5 2; V 4 5 2; V 5 3 1; V 5 3 1; V 5 3 1; V 5 3 1; V 3 5 2;
  V 4 4 2; V 2 5 1; V 2 5 1; V 5 2 1; V 0 5 1; V 3 4 1; V 4 3 1; V 5 0 1; V 3 3 1
].

Definition hufftab9 : list huffpair := [
  PTR 16 4; PTR 32 3; PTR 40 2; PTR 44 2; PTR 48 1; V 1 2 4; V 2 1 4; V 2 0 4; V 1 1 3; V 1 1 3; V 0 1 3;
  V 0 1 3; V 1 0 3; V 1 0 3; V 0 0 3; V 0 0 3; PTR 50 1; V 3 5 4; V 5 3 4; PTR 52 1; V 4 4 4; V 2 5 4;
  V 5 2 4; V 1 5 4; V 5 1 3; V 5 1 3; V 3 4 3; V 3 4 3; V 4 3 3; V 4 3 3; V 5 0 4; V 0 4 4; V 2 4 3; V 4 2 3;
  V 3 3 3; V 4 0 3; V 1 4 2; V 1 4 2; V 4 1 2; V 4 1 2; V 2 3 2; V 3 2 2; V 1 3 1; V 1 3 1; V 3 1 1; V 3 1 1;
  V 0 3 2; V 3 0 2; V 2 2 1; V 0 2 1; V 5 5 1; V 4 5 1; V 5 4 1; V 0 5 1
].

Definition hufftab10 : list huffpair := [
  PTR 16 4; PTR 32 4; PTR 48 2; V 1 1 4; V 0 1 3; V 0 1 3; V 1 0 3; V 1 0 3; V 0 0 1; V 0 0 1; V 0 0 1;
  V 0 0 1; V 0 0 1; V 0 0 1; V 0 0 1; V 0 0 1; PTR 52 3; PTR 60 2; PTR 64 3; PTR 72 1; PTR 74 2; PTR 78 2;
  PTR 82 2; V 1 7 4; V 7 1 4; PTR 86 1; PTR 88 2; PTR 92 2; V 1 6 4; V 6 1 4; V 6 0 4; PTR 96 1; PTR 98 1;
  PTR 100 1; V 1 4 4; V 4 1 4; V 4 0 4; V 2 3 4; V 3 2 4; V 0 3 4; V 1 3 3; V 1 3 3; V 3 1 3; V 3 1 3;
  V 3 0 3; V 3 0 3; V 2 2 3; V 2 2 3; V 1 2 2; V 2 1 2; V 0 2 2; V 2 0 2; V 7 7 3; V 6 7 3; V 7 6 3; V 5 7 3;
  V 7 5 3; V 6 6 3; V 4 7 2; V 4 7 2; V 7 4 2; V 5 6 2; V 6 5 2; V 3 7 2; V 7 3 2; V 7 3 2; V 4 6 2; V 4 6 2;
  V 5 5 3; V 5 4 3; V 6 3 2; V 6 3 2; V 2 7 1; V 7 2 1; V 6 4 2; V 0 7 2; V 7 0 1; V 7 0 1; V 6 2 1; V 6 2 1;
  V 4 5 2; V 3 5 2; V 0 6 1; V 0 6 1; V 5 3 2; V 4 4 2; V 3 6 1; V 2 6 1; V 2 5 2; V 5 2 2; V 1 5 1; V 1 5 1;
  V 5 1 1; V 5 1 1; V 3 4 2; V 4 3 2; V 0 5 1; V 5 0 1; V 2 4 1; V 4 2 1; V 3 3 1; V 0 4 1
].

Definition hufftab11 : list huffpair := [
  PTR 16 4; PTR 32 4; PTR 48 4; PTR 64 3; V 1 2 4; PTR 72 1; V 1 1 3; V 1 1 3; V 0 1 3; V 0 1 3; V 1 0 3;
  V 1 0 3; V 0 0 2; V 0 0 2; V 0 0 2; V 0 0 2; PTR 74 2; PTR 78 3; PTR 86 2; PTR 90 1; PTR 92 2; V 2 7 4;
  V 7 2 4; PTR 96 1; V 7 1 3; V 7 1 3; V 1 7 4; V 7 0 4; V 3 6 4; V 6 3 4; V 6 0 4; PTR 98 1; PTR 100 1;
  V 1 5 4; V 6 2 3; V 6 2 3; V 2 6 4; V 0 6 4; V 1 6 3; V 1 6 3; V 6 1 3; V 6 1 3; V 5 1 4; V 3 4 4; V 5 0 4;
  PTR 102 1; V 2 4 4; V 4 2 4; V 1 4 4; V 4 1 4; V 0 4 4; V 4 0 4; V 2 3 3; V 2 3 3; V 3 2 3; V 3 2 3;
  V 1 3 2; V 1 3 2; V 1 3 2; V 1 3 2; V 3 1 2; V 3 1 2; V 3 1 2; V 3 1 2; V 0 3 3; V 3 0 3; V 2 2 2; V 2 2 2;
  V 2 1 1; V 2 1 1; V 2 1 1; V 2 1 1; V 0 2 1; V 2 0 1; V 7 7 2; V 6 7 2; V 7 6 2; V 7 5 2; V 6 6 2; V 6 6 2;
  V 4 7 2; V 4 7 2; V 7 4 2; V 7 4 2; V 5 7 3; V 5 5 3; V 5 6 2; V 6 5 2; V 3 7 1; V 3 7 1; V 7 3 1; V 4 6 1;
  V 4 5 2; V 5 4 2; V 3 5 2; V 5 3 2; V 6 4 1; V 0 7 1; V 4 4 1; V 2 5 1; V 5 2 1; V 0 5 1; V 4 3 1; V 3 3 1
].

Definition hufftab12 : list huffpair := [
  PTR 16 4; PTR 32 4; PTR 48 4; PTR 64 2; PTR 68 3; PTR 76 1; V 1 2 4; V 2 1 4; PTR 78 1; V 0 0 4; V 1 1 3;
  V 1 1 3; V 0 1 3; V 0 1 3; V 1 0 3; V 1 0 3; PTR 80 2; PTR 84 1; PTR 86 1; PTR 88 1; V 5 6 4; V 3 7 4;
  PTR 90 1; V 2 7 4; V 7 2 4; V 4 6 4; V 6 4 4; V 1 7 4; V 7 1 4; PTR 92 1; V 3 6 4; V 6 3 4; V 4 5 4;
  V 5 4 4; V 4 4 4; PTR 94 1; V 2 6 3; V 2 6 3; V 6 2 3; V 6 2 3; V 6 1 3; V 6 1 3; V 1 6 4; V 6 0 4;
  V 3 5 4; V 5 3 4; V 2 5 4; V 5 2 4; V 1 5 3; V 1 5 3; V 5 1 3; V 5 1 3; V 3 4 3; V 3 4 3; V 4 3 3; V 4 3 3;
  V 5 0 4; V 0 4 4; V 2 4 3; V 2 4 3; V 4 2 3; V 4 2 3; V 1 4 3; V 1 4 3; V 3 3 2; V 4 1 2; V 2 3 2; V 3 2 2;
  V 4 0 3; V 0 3 3; V 3 0 2; V 3 0 2; V 1 3 1; V 1 3 1; V 1 3 1; V 1 3 1; V 3 1 1; V 2 2 1; V 0 2 1; V 2 0 1;
  V 7 7 2; V 6 7 2; V 7 6 1; V 7 6 1; V 5 7 1; V 7 5 1; V 6 6 1; V 4 7 1; V 7 4 1; V 6 5 1; V 7 3 1; V 5 5 1;
  V 0 7 1; V 7 0 1; V 0 6 1; V 0 5 1
].

Definition hufftab13 : list huffpair := [
  PTR 16 4; PTR 32 4; PTR 48 4; PTR 64 2; V 1 1 4; V 0 1 4; V 1 0 3; V 1 0 3; V 0 0 1; V 0 0 1; V 0 0 1;
  V 0 0 1; V 0 0 1; V 0 0 1; V 0 0 1; V 0 0 1; PTR 68 4; PTR 84 4; PTR 100 4; PTR 116 4; PTR 132 4;
  PTR 148 4; PTR 164 3; PTR 172 3; PTR 180 3; PTR 188 3; PTR 196 3; PTR 204 3; PTR 212 1; PTR 214 2;
  PTR 218 3; PTR 226 1; PTR 228 2; PTR 232 2; PTR 236 2; PTR 240 2; V 8 1 4; PTR 244 1; PTR 246 1; PTR 248 1;
  PTR 250 2; PTR 254 1; V 1 5 4; V 5 1 4; PTR 256 1; PTR 258 1; PTR 260 1; V 1 4 4; V 4 1 3; V 4 1 3;
  V 0 4 4; V 4 0 4; V 2 3 4; V 3 2 4; V 1 3 3; V 1 3 3; V 3 1 3; V 3 1 3; V 0 3 3; V 0 3 3; V 3 0 3; V 3 0 3;
  V 2 2 3; V 2 2 3; V 1 2 2; V 2 1 2; V 0 2 2; V 2 0 2; PTR 262 4; PTR 278 4; PTR 294 4; PTR 310 3;
  PTR 318 2; PTR 322 2; PTR 326 3; PTR 334 2; PTR 338 1; PTR 340 2; PTR 344 2; PTR 348 2; PTR 352 2;
  PTR 356 2; V 1 15 4; V 15 1 4; V 15 0 4; PTR 360 1; PTR 362 1; PTR 364 1; V 14 2 4; PTR 366 1; V 1 14 4;
  V 14 1 4; PTR 368 1; PTR 370 1; PTR 372 1; PTR 374 1; PTR 376 1; PTR 378 1; V 12 6 4; V 3 13 4; PTR 380 1;
  V 2 13 4; V 13 2 4; V 1 13 4; V 11 7 4; PTR 382 1; PTR 384 1; V 12 3 4; PTR 386 1; V 4 11 4; V 13 1 3;
  V 13 1 3; V 0 13 4; V 13 0 4; V 8 10 4; V 10 8 4; V 4 12 4; V 12 4 4; V 6 11 4; V 11 6 4; V 3 12 3;
  V 3 12 3; V 2 12 3; V 2 12 3; V 12 2 3; V 12 2 3; V 5 11 3; V 5 11 3; V 11 5 4; V 8 9 4; V 1 12 3;
  V 1 12 3; V 12 1 3; V 12 1 3; V 9 8 4; V 0 12 4; V 12 0 3; V 12 0 3; V 11 4 4; V 6 10 4; V 10 6 4; V 7 9 4;
  V 3 11 3; V 3 11 3; V 11 3 3; V 11 3 3; V 8 8 4; V 5 10 4; V 2 11 3; V 2 11 3; V 10 5 4; V 6 9 4; V 10 4 3;
  V 10 4 3; V 7 8 4; V 8 7 4; V 9 4 3; V 9 4 3; V 7 7 4; V 7 6 4; V 11 2 2; V 11 2 2; V 11 2 2; V 11 2 2;
  V 1 11 2; V 1 11 2; V 11 1 2; V 11 1 2; V 0 11 3; V 11 0 3; V 9 6 3; V 4 10 3; V 3 10 3; V 10 3 3; V 5 9 3;
  V 9 5 3; V 2 10 2; V 2 10 2; V 10 2 2; V 10 2 2; V 1 10 2; V 1 10 2; V 10 1 2; V 10 1 2; V 0 10 3; V 6 8 3;
  V 10 0 2; V 10 0 2; V 8 6 3; V 4 9 3; V 9 3 2; V 9 3 2; V 3 9 3; V 5 8 3; V 8 5 3; V 6 7 3; V 2 9 2;
  V 2 9 2; V 9 2 2; V 9 2 2; V 5 7 3; V 7 5 3; V 3 8 2; V 3 8 2; V 8 3 2; V 8 3 2; V 6 6 3; V 4 7 3; V 7 4 3;
  V 5 6 3; V 6 5 3; V 7 3 3; V 1 9 1; V 9 1 1; V 0 9 2; V 9 0 2; V 4 8 2; V 8 4 2; V 7 2 2; V 7 2 2; V 4 6 3;
  V 6 4 3; V 2 8 1; V 2 8 1; V 2 8 1; V 2 8 1; V 8 2 1; V 1 8 1; V 3 7 2; V 2 7 2; V 1 7 1; V 1 7 1; V 7 1 1;
  V 7 1 1; V 5 5 2; V 0 7 2; V 7 0 2; V 3 6 2; V 6 3 2; V 4 5 2; V 5 4 2; V 2 6 2; V 6 2 2; V 3 5 2; V 0 8 1;
  V 8 0 1; V 1 6 1; V 6 1 1; V 0 6 1; V 6 0 1; V 5 3 2; V 4 4 2; V 2 5 1; V 2 5 1; V 5 2 1; V 0 5 1; V 3 4 1;
  V 4 3 1; V 5 0 1; V 2 4 1; V 4 2 1; V 3 3 1; PTR 388 3; V 15 15 4; V 14 15 4; V 13 15 4; V 14 14 4;
  V 12 15 4; V 13 14 4; V 11 15 4; V 15 11 4; V 12 14 4; V 13 12 4; PTR 396 1; V 14 12 3; V 14 12 3;
  V 13 13 3; V 13 13 3; V 15 10 4; V 12 13 4; V 11 14 3; V 11 14 3; V 14 11 3; V 14 11 3; V 9 15 3; V 9 15 3;
  V 15 9 3; V 15 9 3; V 14 10 3; V 14 10 3; V 11 13 3; V 11 13 3; V 13 11 3; V 13 11 3; V 8 15 3; V 8 15 3;
  V 15 8 3; V 15 8 3; V 12 12 3; V 12 12 3; V 10 14 4; V 9 14 4; V 8 14 3; V 8 14 3; V 7 15 4; V 7 14 4;
  V 15 7 2; V 15 7 2; V 15 7 2; V 15 7 2; V 13 10 2; V 13 10 2; V 10 13 3; V 11 12 3; V 12 11 3; V 15 6 3;
  V 6 15 2; V 6 15 2; V 14 8 2; V 5 15 2; V 9 13 2; V 13 9 2; V 15 5 2; V 14 7 2; V 10 12 2; V 11 11 2;
  V 4 15 2; V 4 15 2; V 15 4 2; V 15 4 2; V 12 10 3; V 14 6 3; V 15 3 2; V 15 3 2; V 3 15 1; V 3 15 1;
  V 8 13 2; V 13 8 2; V 2 15 1; V 15 2 1; V 6 14 2; V 9 12 2; V 0 15 1; V 0 15 1; V 12 9 2; V 5 14 2;
  V 10 11 1; V 10 11 1; V 7 13 2; V 13 7 2; V 4 14 1; V 4 14 1; V 12 8 2; V 13 6 2; V 3 14 1; V 3 14 1;
  V 11 9 1; V 11 9 1; V 9 11 2; V 10 10 2; V 11 10 1; V 14 5 1; V 14 4 1; V 8 12 1; V 6 13 1; V 14 3 1;
  V 2 14 1; V 0 14 1; V 14 0 1; V 5 13 1; V 13 5 1; V 7 12 1; V 12 7 1; V 4 13 1; V 8 11 1; V 11 8 1;
  V 13 4 1; V 9 10 1; V 10 9 1; V 6 12 1; V 13 3 1; V 7 11 1; V 5 12 1; V 12 5 1; V 9 9 1; V 7 10 1;
  V 10 7 1; V 9 7 1; V 15 14 3; V 15 12 3; V 15 13 2; V 15 13 2; V 14 13 1; V 14 13 1; V 14 13 1; V 14 13 1;
  V 10 15 1; V 14 9 1
].

Definition hufftab15 : list huffpair := [
  PTR 16 4; PTR 32 4; PTR 48 4; PTR 64 4; PTR 80 4; PTR 96 3; PTR 104 3; PTR 112 2; PTR 116 1; PTR 118 1;
  V 1 1 3; V 1 1 3; V 0 1 4; V 1 0 4; V 0 0 3; V 0 0 3; PTR 120 4; PTR 136 4; PTR 152 4; PTR 168 4;
  PTR 184 4; PTR 200 3; PTR 208 3; PTR 216 4; PTR 232 3; PTR 240 3; PTR 248 3; PTR 256 3; PTR 264 2;
  PTR 268 3; PTR 276 3; PTR 284 2; PTR 288 2; PTR 292 2; PTR 296 2; PTR 300 2; PTR 304 2; PTR 308 2;
  PTR 312 2; PTR 316 2; PTR 320 1; PTR 322 1; PTR 324 1; PTR 326 2; PTR 330 1; PTR 332 1; PTR 334 2;
  PTR 338 1; PTR 340 1; PTR 342 1; V 9 1 4; PTR 344 1; PTR 346 1; PTR 348 1; PTR 350 1; PTR 352 1; V 2 8 4;
  V 8 2 4; V 1 8 4; V 8 1 4; PTR 354 1; PTR 356 1; PTR 358 1; PTR 360 1; V 2 7 4; V 7 2 4; V 6 4 4; V 1 7 4;
  V 5 5 4; V 7 1 4; PTR 362 1; V 3 6 4; V 6 3 4; V 4 5 4; V 5 4 4; V 2 6 4; V 6 2 4; V 1 6 4; PTR 364 1;
  V 3 5 4; V 6 1 3; V 6 1 3; V 5 3 4; V 4 4 4; V 2 5 3; V 2 5 3; V 5 2 3; V 5 2 3; V 1 5 3; V 1 5 3; V 5 1 3;
  V 5 1 3; V 0 5 4; V 5 0 4; V 3 4 3; V 3 4 3; V 4 3 3; V 2 4 3; V 4 2 3; V 3 3 3; V 4 1 2; V 4 1 2; V 1 4 3;
  V 0 4 3; V 2 3 2; V 2 3 2; V 3 2 2; V 3 2 2; V 4 0 3; V 0 3 3; V 1 3 2; V 1 3 2; V 3 1 2; V 3 0 2; V 2 2 1;
  V 2 2 1; V 1 2 1; V 2 1 1; V 0 2 1; V 2 0 1; PTR 366 1; PTR 368 1; V 14 14 4; PTR 370 1; PTR 372 1;
  PTR 374 1; V 15 11 4; PTR 376 1; V 13 13 4; V 10 15 4; V 15 10 4; V 11 14 4; V 14 11 4; V 12 13 4;
  V 13 12 4; V 9 15 4; V 15 9 4; V 14 10 4; V 11 13 4; V 13 11 4; V 8 15 4; V 15 8 4; V 12 12 4; V 9 14 4;
  V 14 9 4; V 7 15 4; V 15 7 4; V 10 13 4; V 13 10 4; V 11 12 4; V 6 15 4; PTR 378 1; V 12 11 3; V 12 11 3;
  V 15 6 3; V 15 6 3; V 8 14 4; V 14 8 4; V 5 15 4; V 9 13 4; V 15 5 3; V 15 5 3; V 7 14 3; V 7 14 3;
  V 14 7 3; V 14 7 3; V 10 12 3; V 10 12 3; V 12 10 3; V 12 10 3; V 11 11 3; V 11 11 3; V 13 9 4; V 8 13 4;
  V 4 15 3; V 4 15 3; V 15 4 3; V 15 4 3; V 3 15 3; V 3 15 3; V 15 3 3; V 15 3 3; V 13 8 3; V 13 8 3;
  V 14 6 3; V 14 6 3; V 2 15 3; V 2 15 3; V 15 2 3; V 15 2 3; V 6 14 4; V 15 0 4; V 1 15 3; V 1 15 3;
  V 15 1 3; V 15 1 3; V 9 12 3; V 9 12 3; V 12 9 3; V 12 9 3; V 5 14 3; V 10 11 3; V 11 10 3; V 14 5 3;
  V 7 13 3; V 13 7 3; V 4 14 3; V 14 4 3; V 8 12 3; V 12 8 3; V 3 14 3; V 6 13 3; V 13 6 3; V 14 3 3;
  V 9 11 3; V 11 9 3; V 2 14 3; V 2 14 3; V 10 10 3; V 10 10 3; V 14 2 3; V 14 2 3; V 1 14 3; V 1 14 3;
  V 14 1 3; V 14 1 3; V 0 14 4; V 14 0 4; V 5 13 3; V 5 13 3; V 13 5 3; V 13 5 3; V 7 12 3; V 12 7 3;
  V 4 13 3; V 8 11 3; V 13 4 2; V 13 4 2; V 11 8 3; V 9 10 3; V 10 9 3; V 6 12 3; V 12 6 3; V 3 13 3;
  V 13 3 2; V 13 3 2; V 13 2 2; V 13 2 2; V 2 13 3; V 0 13 3; V 1 13 2; V 1 13 2; V 7 11 2; V 7 11 2;
  V 11 7 2; V 11 7 2; V 13 1 2; V 13 1 2; V 5 12 3; V 13 0 3; V 12 5 2; V 12 5 2; V 8 10 2; V 8 10 2;
  V 10 8 2; V 4 12 2; V 12 4 2; V 6 11 2; V 11 6 2; V 11 6 2; V 9 9 3; V 0 12 3; V 3 12 2; V 3 12 2;
  V 12 3 2; V 12 3 2; V 7 10 2; V 7 10 2; V 10 7 2; V 10 7 2; V 10 6 2; V 10 6 2; V 12 0 3; V 0 11 3;
  V 12 2 1; V 12 2 1; V 2 12 2; V 5 11 2; V 11 5 2; V 1 12 2; V 8 9 2; V 9 8 2; V 12 1 2; V 4 11 2; V 11 4 2;
  V 6 10 2; V 3 11 2; V 7 9 2; V 11 3 1; V 11 3 1; V 9 7 2; V 8 8 2; V 2 11 2; V 5 10 2; V 11 2 1; V 11 2 1;
  V 10 5 2; V 1 11 2; V 11 1 1; V 11 1 1; V 11 0 2; V 6 9 2; V 9 6 2; V 4 10 2; V 10 4 2; V 7 8 2; V 8 7 2;
  V 3 10 2; V 10 3 1; V 10 3 1; V 5 9 1; V 9 5 1; V 2 10 1; V 10 2 1; V 1 10 1; V 10 1 1; V 0 10 2; V 10 0 2;
  V 6 8 1; V 6 8 1; V 8 6 1; V 4 9 1; V 9 4 1; V 3 9 1; V 9 3 1; V 9 3 1; V 7 7 2; V 0 9 2; V 5 8 1; V 8 5 1;
  V 2 9 1; V 6 7 1; V 7 6 1; V 9 2 1; V 1 9 1; V 9 0 1; V 4 8 1; V 8 4 1; V 5 7 1; V 7 5 1; V 3 8 1; V 8 3 1;
  V 6 6 1; V 4 7 1; V 7 4 1; V 0 8 1; V 8 0 1; V 5 6 1; V 6 5 1; V 3 7 1; V 7 3 1; V 4 6 1; V 0 7 1; V 7 0 1;
  V 0 6 1; V 6 0 1; V 15 15 1; V 14 15 1; V 15 14 1; V 13 15 1; V 15 13 1; V 12 15 1; V 15 12 1; V 13 14 1;
  V 14 13 1; V 11 15 1; V 12 14 1; V 14 12 1; V 10 14 1; V 0 15 1
].

Definition hufftab16 : list huffpair := [
  PTR 16 4; PTR 32 4; PTR 48 4; PTR 64 2; V 1 1 4; V 0 1 4; V 1 0 3; V 1 0 3; V 0 0 1; V 0 0 1; V 0 0 1;
  V 0 0 1; V 0 0 1; V 0 0 1; V 0 0 1; V 0 0 1; PTR 68 3; PTR 76 3; PTR 84 2; V 15 15 4; PTR 88 2; PTR 92 1;
  PTR 94 4; V 15 2 4; PTR 110 1; V 1 15 4; V 15 1 4; PTR 112 4; PTR 128 4; PTR 144 4; PTR 160 4; PTR 176 4;
  PTR 192 4; PTR 208 3; PTR 216 3; PTR 224 3; PTR 232 3; PTR 240 3; PTR 248 3; PTR 256 3; PTR 264 2;
  PTR 268 2; PTR 272 1; PTR 274 2; PTR 278 2; PTR 282 1; V 5 1 4; PTR 284 1; PTR 286 1; PTR 288 1; PTR 290 1;
  V 1 4 4; V 4 1 4; PTR 292 1; V 2 3 4; V 3 2 4; V 1 3 3; V 1 3 3; V 3 1 3; V 3 1 3; V 0 3 4; V 3 0 4;
  V 2 2 3; V 2 2 3; V 1 2 2; V 2 1 2; V 0 2 2; V 2 0 2; V 14 15 3; V 15 14 3; V 13 15 3; V 15 13 3;
  V 12 15 3; V 15 12 3; V 11 15 3; V 15 11 3; V 10 15 2; V 10 15 2; V 15 10 3; V 9 15 3; V 15 9 3; V 15 8 3;
  V 8 15 2; V 8 15 2; V 7 15 2; V 15 7 2; V 6 15 2; V 15 6 2; V 5 15 2; V 15 5 2; V 4 15 1; V 4 15 1;
  V 15 4 1; V 15 3 1; V 15 0 1; V 15 0 1; V 15 0 1; V 15 0 1; V 15 0 1; V 15 0 1; V 15 0 1; V 15 0 1;
  V 3 15 2; V 3 15 2; V 3 15 2; V 3 15 2; PTR 294 4; PTR 310 3; PTR 318 3; PTR 326 3; V 2 15 1; V 0 15 1;
  PTR 334 2; PTR 338 2; PTR 342 2; PTR 346 1; PTR 348 2; PTR 352 2; PTR 356 1; PTR 358 2; PTR 362 2;
  PTR 366 2; PTR 370 2; V 14 3 4; PTR 374 1; PTR 376 1; PTR 378 1; PTR 380 1; PTR 382 1; PTR 384 1;
  PTR 386 1; V 0 13 4; PTR 388 1; PTR 390 1; PTR 392 1; V 3 12 4; PTR 394 1; V 1 12 4; V 12 0 4; PTR 396 1;
  V 14 2 3; V 14 2 3; V 2 14 4; V 1 14 4; V 13 3 4; V 2 13 4; V 13 2 4; V 13 1 4; V 3 11 4; PTR 398 1;
  V 1 13 3; V 1 13 3; V 12 4 4; V 6 11 4; V 12 3 4; V 10 7 4; V 2 12 3; V 2 12 3; V 12 2 4; V 11 5 4;
  V 12 1 4; V 0 12 4; V 4 11 4; V 11 4 4; V 6 10 4; V 10 6 4; V 11 3 3; V 11 3 3; V 5 10 4; V 10 5 4;
  V 2 11 3; V 2 11 3; V 11 2 3; V 11 2 3; V 1 11 3; V 1 11 3; V 11 1 3; V 11 1 3; V 0 11 4; V 11 0 4;
  V 6 9 4; V 9 6 4; V 4 10 4; V 10 4 4; V 7 8 4; V 8 7 4; V 10 3 3; V 10 3 3; V 3 10 4; V 5 9 4; V 2 10 3;
  V 2 10 3; V 9 5 4; V 6 8 4; V 10 1 3; V 10 1 3; V 8 6 4; V 7 7 4; V 9 4 3; V 9 4 3; V 4 9 4; V 5 7 4;
  V 6 7 3; V 6 7 3; V 10 2 2; V 10 2 2; V 10 2 2; V 10 2 2; V 1 10 2; V 1 10 2; V 0 10 3; V 10 0 3; V 3 9 3;
  V 9 3 3; V 5 8 3; V 8 5 3; V 2 9 2; V 2 9 2; V 9 2 2; V 9 2 2; V 7 6 3; V 0 9 3; V 1 9 2; V 1 9 2; V 9 1 2;
  V 9 1 2; V 9 0 3; V 4 8 3; V 8 4 3; V 7 5 3; V 3 8 3; V 8 3 3; V 6 6 3; V 2 8 3; V 8 2 2; V 8 2 2; V 4 7 3;
  V 7 4 3; V 1 8 2; V 1 8 2; V 8 1 2; V 8 1 2; V 8 0 2; V 8 0 2; V 0 8 3; V 5 6 3; V 3 7 2; V 3 7 2; V 7 3 2;
  V 7 3 2; V 6 5 3; V 4 6 3; V 2 7 2; V 2 7 2; V 7 2 2; V 7 2 2; V 6 4 3; V 5 5 3; V 0 7 2; V 0 7 2; V 1 7 1;
  V 1 7 1; V 1 7 1; V 1 7 1; V 7 1 1; V 7 1 1; V 7 0 2; V 3 6 2; V 6 3 2; V 4 5 2; V 5 4 2; V 2 6 2; V 6 2 1;
  V 1 6 1; V 6 1 1; V 6 1 1; V 0 6 2; V 6 0 2; V 5 3 1; V 5 3 1; V 3 5 2; V 4 4 2; V 2 5 1; V 5 2 1; V 1 5 1;
  V 0 5 1; V 3 4 1; V 4 3 1; V 5 0 1; V 2 4 1; V 4 2 1; V 3 3 1; V 0 4 1; V 4 0 1; V 12 14 4; PTR 400 1;
  V 13 14 3; V 13 14 3; V 14 9 3; V 14 9 3; V 14 10 4; V 13 9 4; V 14 14 2; V 14 14 2; V 14 14 2; V 14 14 2;
  V 14 13 3; V 14 13 3; V 14 11 3; V 14 11 3; V 11 14 2; V 11 14 2; V 12 13 2; V 12 13 2; V 13 12 3;
  V 13 11 3; V 10 14 2; V 10 14 2; V 12 12 2; V 12 12 2; V 10 13 3; V 13 10 3; V 7 14 3; V 10 12 3;
  V 12 10 2; V 12 10 2; V 12 9 3; V 7 13 3; V 5 14 2; V 5 14 2; V 11 13 1; V 11 13 1; V 11 13 1; V 11 13 1;
  V 9 14 1; V 9 14 1; V 11 12 2; V 12 11 2; V 8 14 2; V 14 8 2; V 9 13 2; V 14 7 2; V 11 11 2; V 8 13 2;
  V 13 8 2; V 6 14 2; V 14 6 1; V 9 12 1; V 10 11 2; V 11 10 2; V 14 5 2; V 13 7 2; V 4 14 1; V 4 14 1;
  V 14 4 2; V 8 12 2; V 12 8 1; V 3 14 1; V 6 13 1; V 6 13 1; V 13 6 2; V 9 11 2; V 11 9 2; V 10 10 2;
  V 14 1 1; V 14 1 1; V 13 4 1; V 13 4 1; V 11 8 2; V 10 9 2; V 7 11 1; V 7 11 1; V 11 7 2; V 13 0 2;
  V 0 14 1; V 14 0 1; V 5 13 1; V 13 5 1; V 7 12 1; V 12 7 1; V 4 13 1; V 8 11 1; V 9 10 1; V 6 12 1;
  V 12 6 1; V 3 13 1; V 5 12 1; V 12 5 1; V 8 10 1; V 10 8 1; V 9 9 1; V 4 12 1; V 11 6 1; V 7 10 1;
  V 5 11 1; V 8 9 1; V 9 8 1; V 7 9 1; V 9 7 1; V 8 8 1; V 14 12 1; V 13 13 1
].

Definition hufftab24 : list huffpair := [
  PTR 16 4; PTR 32 4; PTR 48 4; V 15 15 4; PTR 64 4; PTR 80 4; PTR 96 4; PTR 112 4; PTR 128 4; PTR 144 4;
  PTR 160 3; PTR 168 2; V 1 1 4; V 0 1 4; V 1 0 4; V 0 0 4; V 14 15 4; V 15 14 4; V 13 15 4; V 15 13 4;
  V 12 15 4; V 15 12 4; V 11 15 4; V 15 11 4; V 15 10 3; V 15 10 3; V 10 15 4; V 9 15 4; V 15 9 3; V 15 9 3;
  V 15 8 3; V 15 8 3; V 8 15 4; V 7 15 4; V 15 7 3; V 15 7 3; V 6 15 3; V 6 15 3; V 15 6 3; V 15 6 3;
  V 5 15 3; V 5 15 3; V 15 5 3; V 15 5 3; V 4 15 3; V 4 15 3; V 15 4 3; V 15 4 3; V 3 15 3; V 3 15 3;
  V 15 3 3; V 15 3 3; V 2 15 3; V 2 15 3; V 15 2 3; V 15 2 3; V 15 1 3; V 15 1 3; V 1 15 4; V 15 0 4;
  PTR 172 3; PTR 180 3; PTR 188 3; PTR 196 3; PTR 204 4; PTR 220 3; PTR 228 3; PTR 236 3; PTR 244 2;
  PTR 248 2; PTR 252 2; PTR 256 2; PTR 260 2; PTR 264 2; PTR 268 2; PTR 272 2; PTR 276 2; PTR 280 3;
  PTR 288 2; PTR 292 2; PTR 296 2; PTR 300 3; PTR 308 2; PTR 312 3; PTR 320 1; PTR 322 2; PTR 326 2;
  PTR 330 1; PTR 332 2; PTR 336 1; PTR 338 1; PTR 340 1; PTR 342 1; PTR 344 1; PTR 346 1; PTR 348 1;
  PTR 350 1; PTR 352 1; PTR 354 1; PTR 356 1; PTR 358 1; PTR 360 1; PTR 362 1; PTR 364 1; PTR 366 1;
  PTR 368 1; PTR 370 2; PTR 374 1; PTR 376 2; V 7 3 4; PTR 380 1; V 7 2 4; V 4 6 4; V 6 4 4; V 5 5 4;
  V 7 1 4; V 3 6 4; V 6 3 4; V 4 5 4; V 5 4 4; V 2 6 4; V 6 2 4; V 1 6 4; V 6 1 4; PTR 382 1; V 3 5 4;
  V 5 3 4; V 4 4 4; V 2 5 4; V 5 2 4; V 1 5 4; PTR 384 1; V 5 1 3; V 5 1 3; V 3 4 4; V 4 3 4; V 2 4 3;
  V 2 4 3; V 4 2 3; V 4 2 3; V 3 3 3; V 3 3 3; V 1 4 3; V 1 4 3; V 4 1 3; V 4 1 3; V 0 4 4; V 4 0 4; V 2 3 3;
  V 2 3 3; V 3 2 3; V 3 2 3; V 1 3 2; V 1 3 2; V 1 3 2; V 1 3 2; V 3 1 2; V 3 1 2; V 3 1 2; V 3 1 2; V 0 3 3;
  V 3 0 3; V 2 2 2; V 2 2 2; V 1 2 1; V 1 2 1; V 1 2 1; V 1 2 1; V 2 1 1; V 2 1 1; V 0 2 2; V 2 0 2;
  V 0 15 1; V 0 15 1; V 0 15 1; V 0 15 1; V 14 14 3; V 13 14 3; V 14 13 3; V 12 14 3; V 14 12 3; V 13 13 3;
  V 11 14 3; V 14 11 3; V 12 13 3; V 13 12 3; V 10 14 3; V 14 10 3; V 11 13 3; V 13 11 3; V 12 12 3;
  V 9 14 3; V 14 9 3; V 10 13 3; V 13 10 3; V 11 12 3; V 12 11 3; V 8 14 3; V 14 8 3; V 9 13 3; V 13 9 3;
  V 7 14 3; V 14 7 3; V 10 12 3; V 12 10 3; V 12 10 3; V 11 11 3; V 11 11 3; V 8 13 3; V 8 13 3; V 13 8 3;
  V 13 8 3; V 0 14 4; V 14 0 4; V 0 13 3; V 0 13 3; V 14 6 2; V 14 6 2; V 14 6 2; V 14 6 2; V 6 14 3;
  V 9 12 3; V 12 9 2; V 12 9 2; V 5 14 2; V 5 14 2; V 11 10 2; V 11 10 2; V 14 5 2; V 14 5 2; V 10 11 3;
  V 7 13 3; V 13 7 2; V 13 7 2; V 14 4 2; V 14 4 2; V 8 12 2; V 8 12 2; V 12 8 2; V 12 8 2; V 4 14 3;
  V 2 14 3; V 3 14 2; V 3 14 2; V 6 13 2; V 13 6 2; V 14 3 2; V 9 11 2; V 11 9 2; V 10 10 2; V 14 2 2;
  V 1 14 2; V 14 1 2; V 5 13 2; V 13 5 2; V 7 12 2; V 12 7 2; V 4 13 2; V 8 11 2; V 11 8 2; V 13 4 2;
  V 9 10 2; V 10 9 2; V 6 12 2; V 12 6 2; V 3 13 2; V 13 3 2; V 2 13 2; V 13 2 2; V 1 13 2; V 7 11 2;
  V 11 7 2; V 13 1 2; V 5 12 2; V 12 5 2; V 8 10 2; V 10 8 2; V 9 9 2; V 4 12 2; V 12 4 2; V 6 11 2;
  V 6 11 2; V 11 6 2; V 11 6 2; V 13 0 3; V 0 12 3; V 3 12 2; V 3 12 2; V 12 3 2; V 7 10 2; V 10 7 2;
  V 2 12 2; V 12 2 2; V 5 11 2; V 11 5 2; V 1 12 2; V 8 9 2; V 9 8 2; V 12 1 2; V 4 11 2; V 12 0 3; V 0 11 3;
  V 3 11 2; V 3 11 2; V 11 0 3; V 0 10 3; V 1 10 2; V 1 10 2; V 11 4 1; V 11 4 1; V 6 10 2; V 10 6 2;
  V 7 9 2; V 7 9 2; V 9 7 2; V 9 7 2; V 10 0 3; V 0 9 3; V 9 0 2; V 9 0 2; V 11 3 1; V 8 8 1; V 2 11 2;
  V 5 10 2; V 11 2 1; V 11 2 1; V 10 5 2; V 1 11 2; V 11 1 2; V 6 9 2; V 9 6 1; V 10 4 1; V 4 10 2; V 7 8 2;
  V 8 7 1; V 8 7 1; V 3 10 1; V 10 3 1; V 5 9 1; V 9 5 1; V 2 10 1; V 10 2 1; V 10 1 1; V 6 8 1; V 8 6 1;
  V 7 7 1; V 4 9 1; V 9 4 1; V 3 9 1; V 9 3 1; V 5 8 1; V 8 5 1; V 2 9 1; V 6 7 1; V 7 6 1; V 9 2 1; V 1 9 1;
  V 9 1 1; V 4 8 1; V 8 4 1; V 5 7 1; V 7 5 1; V 3 8 1; V 8 3 1; V 6 6 1; V 2 8 1; V 8 2 1; V 1 8 1; V 4 7 1;
  V 7 4 1; V 8 1 1; V 8 1 1; V 0 8 2; V 8 0 2; V 5 6 1; V 6 5 1; V 1 7 1; V 1 7 1; V 0 7 2; V 7 0 2; V 3 7 1;
  V 2 7 1; V 0 6 1; V 6 0 1; V 0 5 1; V 5 0 1
].

(** [struct hufftable] *)
Record hufftable : Type := HuffTable { ht_table : option (list huffpair); ht_linbits : Z; ht_startbits : Z }.

Definition mad_huff_quad_table : list (list huffquad) := [hufftabA; hufftabB].

Definition mad_huff_pair_table : list hufftable := [
  HuffTable (Some hufftab0) 0 0;
  HuffTable (Some hufftab1) 0 3;
  HuffTable (Some hufftab2) 0 3;
  HuffTable (Some hufftab3) 0 3;
  HuffTable None 0 0;
  HuffTable (Some hufftab5) 0 3;
  HuffTable (Some hufftab6) 0 4;
  HuffTable (Some hufftab7) 0 4;
  HuffTable (Some hufftab8) 0 4;
  HuffTable (Some hufftab9) 0 4;
  HuffTable (Some hufftab10) 0 4;
  HuffTable (Some hufftab11) 0 4;
  HuffTable (Some hufftab12) 0 4;
  HuffTable (Some hufftab13) 0 4;
  HuffTable None 0 0;
  HuffTable (Some hufftab15) 0 4;
  HuffTable (Some hufftab16) 1 4;
  HuffTable (Some hufftab16) 2 4;
  HuffTable (Some hufftab16) 3 4;
  HuffTable (Some hufftab16) 4 4;
  HuffTable (Some hufftab16) 6 4;
  HuffTable (Some hufftab16) 8 4;
  HuffTable (Some hufftab16) 10 4;
  HuffTable (Some hufftab16) 13 4;
  HuffTable (Some hufftab24) 4 4;
  HuffTable (Some hufftab24) 5 4;
  HuffTable (Some hufftab24) 6 4;
  HuffTable (Some hufftab24) 7 4;
  HuffTable (Some hufftab24) 8 4;
  HuffTable (Some hufftab24) 9 4;
  HuffTable (Some hufftab24) 11 4;
  HuffTable (Some hufftab24) 13 4
].
