(* ===== verification/MadTables3.v ===== *)
(** * libs/libmad-0.15.1b/layer3.c and rq_table.dat: the tables of Layer III *)

From S2P Require Import Prelude.

Definition sflen_table : list (Z * Z) := [
  (0, 0); (0, 1); (0, 2); (0, 3); (3, 0); (1, 1); (1, 2); (1, 3); (2, 1); (2, 2); (2, 3); (3, 1); (3, 2);
  (3, 3); (4, 2); (4, 3)
].

Definition nsfb_table : list (list (list Z)) := [
  [[6; 5; 5; 5]; [9; 9; 9; 9]; [6; 9; 9; 9]];
  [[6; 5; 7; 3]; [9; 9; 12; 6]; [6; 9; 12; 6]];
  [[11; 10; 0; 0]; [18; 18; 0; 0]; [15; 18; 0; 0]];
  [[7; 7; 7; 0]; [12; 12; 12; 0]; [6; 15; 12; 0]];
  [[6; 6; 6; 3]; [12; 9; 9; 6]; [6; 12; 9; 6]];
  [[8; 8; 5; 0]; [15; 12; 9; 0]; [6; 18; 9; 0]]
].

Definition sfb_48000_long : list Z := [
  4; 4; 4; 4; 4; 4; 6; 6; 6; 8; 10; 12; 16; 18; 22; 28; 34; 40; 46; 54; 54; 192
].

Definition sfb_44100_long : list Z := [
  4; 4; 4; 4; 4; 4; 6; 6; 8; 8; 10; 12; 16; 20; 24; 28; 34; 42; 50; 54; 76; 158
].

Definition sfb_32000_long : list Z := [
  4; 4; 4; 4; 4; 4; 6; 6; 8; 10; 12; 16; 20; 24; 30; 38; 46; 56; 68; 84; 102; 26
].

Definition sfb_48000_short : list Z := [
  4; 4; 4; 4; 4; 4; 4; 4; 4; 4; 4; 4; 6; 6; 6; 6; 6; 6; 10; 10; 10; 12; 12; 12; 14; 14; 14; 16; 16; 16; 20;
  20; 20; 26; 26; 26; 66; 66; 66
].

Definition sfb_44100_short : list Z := [
  4; 4; 4; 4; 4; 4; 4; 4; 4; 4; 4; 4; 6; 6; 6; 8; 8; 8; 10; 10; 10; 12; 12; 12; 14; 14; 14; 18; 18; 18; 22;
  22; 22; 30; 30; 30; 56; 56; 56
].

Definition sfb_32000_short : list Z := [
  4; 4; 4; 4; 4; 4; 4; 4; 4; 4; 4; 4; 6; 6; 6; 8; 8; 8; 12; 12; 12; 16; 16; 16; 20; 20; 20; 26; 26; 26; 34;
  34; 34; 42; 42; 42; 12; 12; 12
].

Definition sfb_48000_mixed : list Z := [
  4; 4; 4; 4; 4; 4; 6; 6; 4; 4; 4; 6; 6; 6; 6; 6; 6; 10; 10; 10; 12; 12; 12; 14; 14; 14; 16; 16; 16; 20;
  20; 20; 26; 26; 26; 66; 66; 66
].

Definition sfb_44100_mixed : list Z := [
  4; 4; 4; 4; 4; 4; 6; 6; 4; 4; 4; 6; 6; 6; 8; 8; 8; 10; 10; 10; 12; 12; 12; 14; 14; 14; 18; 18; 18; 22;
  22; 22; 30; 30; 30; 56; 56; 56
].

Definition sfb_32000_mixed : list Z := [
  4; 4; 4; 4; 4; 4; 6; 6; 4; 4; 4; 6; 6; 6; 8; 8; 8; 12; 12; 12; 16; 16; 16; 20; 20; 20; 26; 26; 26; 34;
  34; 34; 42; 42; 42; 12; 12; 12
].

Definition sfb_24000_long : list Z := [
  6; 6; 6; 6; 6; 6; 8; 10; 12; 14; 16; 18; 22; 26; 32; 38; 46; 54; 62; 70; 76; 36
].

Definition sfb_22050_long : list Z := [
  6; 6; 6; 6; 6; 6; 8; 10; 12; 14; 16; 20; 24; 28; 32; 38; 46; 52; 60; 68; 58; 54
].

Definition sfb_16000_long : list Z := sfb_22050_long.

Definition sfb_24000_short : list Z := [
  4; 4; 4; 4; 4; 4; 4; 4; 4; 6; 6; 6; 8; 8; 8; 10; 10; 10; 12; 12; 12; 14; 14; 14; 18; 18; 18; 24; 24; 24;
  32; 32; 32; 44; 44; 44; 12; 12; 12
].

Definition sfb_22050_short : list Z := [
  4; 4; 4; 4; 4; 4; 4; 4; 4; 6; 6; 6; 6; 6; 6; 8; 8; 8; 10; 10; 10; 14; 14; 14; 18; 18; 18; 26; 26; 26; 32;
  32; 32; 42; 42; 42; 18; 18; 18
].

Definition sfb_16000_short : list Z := [
  4; 4; 4; 4; 4; 4; 4; 4; 4; 6; 6; 6; 8; 8; 8; 10; 10; 10; 12; 12; 12; 14; 14; 14; 18; 18; 18; 24; 24; 24;
  30; 30; 30; 40; 40; 40; 18; 18; 18
].

Definition sfb_24000_mixed : list Z := [
  6; 6; 6; 6; 6; 6; 6; 6; 6; 8; 8; 8; 10; 10; 10; 12; 12; 12; 14; 14; 14; 18; 18; 18; 24; 24; 24; 32; 32;
  32; 44; 44; 44; 12; 12; 12
].

Definition sfb_22050_mixed : list Z := [
  6; 6; 6; 6; 6; 6; 6; 6; 6; 6; 6; 6; 8; 8; 8; 10; 10; 10; 14; 14; 14; 18; 18; 18; 26; 26; 26; 32; 32; 32;
  42; 42; 42; 18; 18; 18
].

Definition sfb_16000_mixed : list Z := [
  6; 6; 6; 6; 6; 6; 6; 6; 6; 8; 8; 8; 10; 10; 10; 12; 12; 12; 14; 14; 14; 18; 18; 18; 24; 24; 24; 30; 30;
  30; 40; 40; 40; 18; 18; 18
].

Definition sfb_12000_long : list Z := sfb_16000_long.

Definition sfb_11025_long : list Z := sfb_12000_long.

Definition sfb_8000_long : list Z := [
  12; 12; 12; 12; 12; 12; 16; 20; 24; 28; 32; 40; 48; 56; 64; 76; 90; 2; 2; 2; 2; 2
].

Definition sfb_12000_short : list Z := sfb_16000_short.

Definition sfb_11025_short : list Z := sfb_12000_short.

Definition sfb_8000_short : list Z := [
  8; 8; 8; 8; 8; 8; 8; 8; 8; 12; 12; 12; 16; 16; 16; 20; 20; 20; 24; 24; 24; 28; 28; 28; 36; 36; 36; 2; 2;
  2; 2; 2; 2; 2; 2; 2; 26; 26; 26
].

Definition sfb_12000_mixed : list Z := sfb_16000_mixed.

Definition sfb_11025_mixed : list Z := sfb_12000_mixed.

Definition sfb_8000_mixed : list Z := [
  12; 12; 12; 4; 4; 4; 8; 8; 8; 12; 12; 12; 16; 16; 16; 20; 20; 20; 24; 24; 24; 28; 28; 28; 36; 36; 36; 2;
  2; 2; 2; 2; 2; 2; 2; 2; 26; 26; 26
].

Record sfbwidths : Type := SfbWidths { sfb_l : list Z; sfb_s : list Z; sfb_m : list Z }.
Definition sfbwidth_table : list sfbwidths := [
  SfbWidths sfb_48000_long sfb_48000_short sfb_48000_mixed;
  SfbWidths sfb_44100_long sfb_44100_short sfb_44100_mixed;
  SfbWidths sfb_32000_long sfb_32000_short sfb_32000_mixed;
  SfbWidths sfb_24000_long sfb_24000_short sfb_24000_mixed;
  SfbWidths sfb_22050_long sfb_22050_short sfb_22050_mixed;
  SfbWidths sfb_16000_long sfb_16000_short sfb_16000_mixed;
  SfbWidths sfb_12000_long sfb_12000_short sfb_12000_mixed;
  SfbWidths sfb_11025_long sfb_11025_short sfb_11025_mixed;
  SfbWidths sfb_8000_long sfb_8000_short sfb_8000_mixed
].

Definition pretab : list Z := [
  0; 0; 0; 0; 0; 0; 0; 0; 0; 0; 0; 1; 1; 1; 1; 2; 2; 3; 3; 3; 2; 0
].

Definition root_table : list Z := [
  159612677; 189812531; 225726413; 268435456; 319225354; 379625062; 451452825
].

Definition cs : list Z := [
  230181505; 236690815; 254913999; 263956501; 267232279; 268210120; 268408396; 268433619
].

Definition ca : list Z := [
  -138108903; -126629586; -84121620; -48831953; -25387066; -10996615; -3811399; -993204
].

Definition window_l : list Z := [
  11708990; 35037858; 58100066; 80720098; 102725802; 123949700; 144230265; 163413152; 181352365; 197911378;
  212964166; 226396167; 238105157; 248002024; 256011445; 262072464; 266138953; 268179965; 268179965;
  266138953; 262072464; 256011445; 248002024; 238105157; 226396167; 212964166; 197911378; 181352365;
  163413152; 144230265; 123949700; 102725802; 80720098; 58100066; 35037858; 11708990
].

Definition window_s : list Z := [
  35037858; 102725802; 163413152; 212964166; 248002024; 266138953; 266138953; 248002024; 212964166;
  163413152; 102725802; 35037858
].

Definition is_table : list Z := [
  0; 56727087; 98254196; 134217728; 170181260; 211708369; 268435456
].

Definition is_lsf_table : list (list Z) := [
  [225726413; 189812531; 159612677; 134217728; 112863206; 94906266; 79806339; 67108864; 56431603; 47453133;
  39903169; 33554432; 28215802; 23726566; 19951585];
  [189812531; 134217728; 94906266; 67108864; 47453133; 33554432; 23726566; 16777216; 11863283; 8388608;
  5931642; 4194304; 2965821; 2097152; 1482910]
].

Definition imdct_s : list (list Z) := [
  [163413152; -248002024; -35037858; 266138953; -102725802; -212964166];
  [-212964166; 102725802; 266138953; 35037858; -248002024; -163413152];
  [102725802; -248002024; 248002024; -102725802; -102725802; 248002024];
  [-248002024; -102725802; 102725802; 248002024; 248002024; 102725802];
  [35037858; -102725802; 163413152; -212964166; 248002024; -266138953];
  [-266138953; -248002024; -212964166; -163413152; -102725802; -35037858]
].

(** [scale] of [sdctII] *)
Definition scale9 : list Z := [
  534827956; 518577479; 486570288; 439778905; 379625062; 307936504; 226891452; 138952417; 46791383
].

(** [scale] of [dctIV] *)
Definition scale18 : list Z := [
  536359930; 532277907; 524144928; 512022889; 496004047; 476210315; 452792335; 425928331; 395822756;
  362704731; 326826304; 288460531; 247899399; 205451603; 161440197; 116200133; 70075716; 23417980
].

(** [struct fixedfloat] and [rq_table[8207]], in parts *)
Record fixedfloat : Type := FixedFloat { mantissa : Z; exponent : Z }.
Abbreviation ff := (map (fun p : Z * Z => FixedFloat p.1 p.2)).

Definition rq_0 : list (Z * Z) := [
  (0, 0); (67108864, 2); (84551870, 3); (72590797, 4); (106528681, 4); (71721589, 5); (91458674, 5);
  (112327809, 5); (67108864, 6); (78520535, 6); (90363540, 6); (102608534, 6); (115230708, 6);
  (128208762, 6); (70762085, 7); (77580324, 7); (84551870, 7); (91670261, 7); (98929675, 7);
  (106324833, 7); (113850926, 7); (121503550, 7); (129278652, 7); (68586245, 8); (72590797, 8);
  (76651370, 8); (80766459, 8); (84934656, 8); (89154641, 8); (93425173, 8); (97745083, 8); (102113267, 8);
  (106528681, 8); (110990336, 8); (115497292, 8); (120048657, 8); (124643580, 8); (129281251, 8);
  (133960895, 8); (69340887, 9); (71721589, 9); (74122215, 9); (76542440, 9); (78981951, 9); (81440448, 9);
  (83917641, 9); (86413254, 9); (88927018, 9); (91458674, 9); (94007973, 9); (96574675, 9); (99158546, 9);
  (101759362, 9); (104376904, 9); (107010961, 9); (109661328, 9); (112327809, 9); (115010209, 9);
  (117708342, 9); (120422027, 9); (123151087, 9); (125895352, 9); (128654654, 9); (131428832, 9);
  (67108864, 10); (68510593, 10); (69919530, 10); (71335601, 10); (72758735, 10); (74188862, 10);
  (75625915, 10); (77069827, 10); (78520535, 10); (79977974, 10); (81442084, 10); (82912804, 10);
  (84390076, 10); (85873841, 10); (87364043, 10); (88860628, 10); (90363540, 10); (91872728, 10);
  (93388140, 10); (94909724, 10); (96437432, 10); (97971214, 10); (99511023, 10); (101056811, 10);
  (102608534, 10); (104166146, 10); (105729603, 10); (107298861, 10); (108873878, 10); (110454611, 10);
  (112041021, 10); (113633067, 10); (115230708, 10); (116833907, 10); (118442624, 10); (120056823, 10);
  (121676466, 10); (123301517, 10); (124931940, 10); (126567700, 10); (128208762, 10); (129855093, 10);
  (131506658, 10); (133163425, 10); (67412681, 11); (68246218, 11); (69082308, 11); (69920935, 11);
  (70762085, 11); (71605742, 11); (72451891, 11); (73300518, 11); (74151609, 11); (75005148, 11);
  (75861123, 11); (76719519, 11); (77580324, 11); (78443522, 11); (79309102, 11); (80177050, 11);
  (81047354, 11); (81920000, 11); (82794976, 11); (83672270, 11); (84551870, 11); (85433764, 11);
  (86317939, 11); (87204384, 11); (88093088, 11); (88984039, 11); (89877225, 11); (90772636, 11);
  (91670261, 11); (92570089, 11); (93472109, 11); (94376310, 11); (95282682, 11); (96191215, 11);
  (97101898, 11); (98014721, 11); (98929675, 11); (99846749, 11); (100765934, 11); (101687219, 11);
  (102610597, 11); (103536056, 11); (104463588, 11); (105393183, 11); (106324833, 11); (107258528, 11);
  (108194260, 11); (109132019, 11); (110071797, 11); (111013585, 11); (111957375, 11); (112903158, 11);
  (113850926, 11); (114800671, 11); (115752384, 11); (116706057, 11); (117661683, 11); (118619253, 11);
  (119578759, 11); (120540194, 11); (121503550, 11); (122468819, 11); (123435995, 11); (124405068, 11);
  (125376032, 11); (126348880, 11); (127323604, 11); (128300197, 11); (129278652, 11); (130258962, 11);
  (131241120, 11); (132225119, 11); (133210952, 11); (134198612, 11); (67594047, 12); (68089694, 12);
  (68586245, 12); (69083696, 12); (69582045, 12); (70081287, 12); (70581421, 12); (71082441, 12);
  (71584346, 12); (72087133, 12); (72590797, 12); (73095337, 12); (73600749, 12); (74107030, 12);
  (74614178, 12); (75122188, 12); (75631059, 12); (76140788, 12); (76651370, 12); (77162805, 12);
  (77675088, 12); (78188218, 12); (78702190, 12); (79217004, 12); (79732655, 12); (80249141, 12);
  (80766459, 12); (81284607, 12); (81803582, 12); (82323382, 12); (82844003, 12); (83365444, 12);
  (83887701, 12); (84410773, 12); (84934656, 12); (85459348, 12); (85984847, 12); (86511149, 12);
  (87038254, 12); (87566158, 12); (88094858, 12); (88624354, 12); (89154641, 12); (89685717, 12);
  (90217582, 12); (90750231, 12); (91283663, 12); (91817875, 12); (92352866, 12); (92888633, 12);
  (93425173, 12); (93962484, 12); (94500565, 12); (95039413, 12); (95579026, 12); (96119401, 12);
  (96660537, 12); (97202432, 12); (97745083, 12); (98288488, 12); (98832645, 12); (99377552, 12);
  (99923207, 12); (100469608, 12); (101016753, 12); (101564640, 12); (102113267, 12); (102662632, 12);
  (103212732, 12); (103763567, 12); (104315133, 12); (104867430, 12); (105420455, 12); (105974206, 12);
  (106528681, 12); (107083879, 12); (107639797, 12); (108196434, 12); (108753788, 12); (109311857, 12);
  (109870639, 12); (110430133, 12); (110990336, 12); (111551247, 12); (112112864, 12); (112675185, 12);
  (113238208, 12); (113801932, 12); (114366356, 12); (114931476, 12); (115497292, 12); (116063802, 12);
  (116631004, 12); (117198896, 12); (117767477, 12); (118336746, 12); (118906699, 12); (119477337, 12);
  (120048657, 12); (120620657, 12); (121193336, 12); (121766693, 12); (122340725, 12); (122915431, 12);
  (123490810, 12); (124066860, 12); (124643580, 12); (125220967, 12); (125799021, 12); (126377739, 12);
  (126957121, 12); (127537164, 12); (128117868, 12); (128699231, 12); (129281251, 12); (129863926, 12);
  (130447256, 12); (131031239, 12); (131615873, 12); (132201157, 12); (132787090, 12); (133373670, 12);
  (133960895, 12); (67274382, 13); (67568639, 13); (67863216, 13); (68158113, 13); (68453329, 13);
  (68748864, 13); (69044717, 13); (69340887, 13); (69637374, 13); (69934176, 13); (70231294, 13);
  (70528727, 13); (70826473, 13); (71124533, 13); (71422905, 13); (71721589, 13); (72020585, 13);
  (72319891, 13); (72619507, 13); (72919433, 13); (73219667, 13); (73520209, 13); (73821059, 13);
  (74122215, 13); (74423678, 13); (74725447, 13); (75027520, 13); (75329898, 13); (75632579, 13);
  (75935564, 13); (76238851, 13); (76542440, 13); (76846331, 13); (77150522, 13); (77455013, 13);
  (77759804, 13); (78064894, 13); (78370282, 13); (78675968, 13); (78981951, 13); (79288231, 13);
  (79594807, 13); (79901678, 13); (80208844, 13); (80516305, 13); (80824059, 13); (81132107, 13);
  (81440448, 13); (81749080, 13); (82058004, 13); (82367219, 13); (82676725, 13); (82986520, 13);
  (83296605, 13); (83606979, 13); (83917641, 13); (84228591, 13); (84539828, 13); (84851352, 13);
  (85163162, 13); (85475258, 13); (85787639, 13); (86100304, 13); (86413254, 13); (86726487, 13);
  (87040003, 13); (87353802, 13); (87667883, 13); (87982246, 13); (88296889, 13); (88611813, 13);
  (88927018, 13); (89242501, 13); (89558264, 13); (89874305, 13); (90190625, 13); (90507222, 13);
  (90824096, 13); (91141247, 13); (91458674, 13); (91776376, 13); (92094354, 13); (92412607, 13);
  (92731133, 13); (93049934, 13); (93369008, 13); (93688354, 13); (94007973, 13); (94327864, 13);
  (94648026, 13); (94968460, 13); (95289164, 13); (95610138, 13); (95931381, 13); (96252894, 13);
  (96574675, 13); (96896725, 13); (97219042, 13); (97541627, 13); (97864479, 13); (98187597, 13);
  (98510981, 13); (98834631, 13); (99158546, 13); (99482726, 13); (99807170, 13); (100131878, 13);
  (100456850, 13); (100782084, 13); (101107581, 13); (101433341, 13); (101759362, 13); (102085644, 13);
  (102412188, 13); (102738991, 13); (103066055, 13); (103393379, 13); (103720962, 13); (104048803, 13);
  (104376904, 13); (104705262, 13); (105033878, 13); (105362751, 13); (105691881, 13); (106021267, 13);
  (106350909, 13); (106680807, 13); (107010961, 13); (107341369, 13); (107672031, 13); (108002948, 13);
  (108334118, 13); (108665542, 13); (108997218, 13); (109329147, 13); (109661328, 13); (109993761, 13);
  (110326446, 13); (110659381, 13); (110992567, 13); (111326003, 13); (111659689, 13); (111993624, 13);
  (112327809, 13); (112662242, 13); (112996923, 13); (113331853, 13); (113667030, 13); (114002455, 13);
  (114338126, 13); (114674044, 13); (115010209, 13); (115346619, 13); (115683274, 13); (116020175, 13);
  (116357320, 13); (116694710, 13); (117032343, 13); (117370221, 13); (117708342, 13); (118046706, 13);
  (118385312, 13); (118724161, 13); (119063251, 13); (119402584, 13); (119742157, 13); (120081972, 13);
  (120422027, 13); (120762322, 13); (121102857, 13); (121443632, 13); (121784646, 13); (122125899, 13);
  (122467390, 13); (122809120, 13); (123151087, 13); (123493292, 13); (123835735, 13); (124178414, 13);
  (124521330, 13); (124864482, 13); (125207870, 13); (125551493, 13); (125895352, 13); (126239446, 13);
  (126583774, 13); (126928337, 13); (127273134, 13); (127618164, 13); (127963428, 13); (128308925, 13);
  (128654654, 13); (129000616, 13); (129346811, 13); (129693237, 13); (130039894, 13); (130386783, 13);
  (130733902, 13); (131081252, 13); (131428832, 13); (131776643, 13); (132124682, 13); (132472952, 13);
  (132821450, 13); (133170177, 13); (133519133, 13); (133868316, 13)
].

Definition rq_1 : list (Z * Z) := [
  (67108864, 14); (67283683, 14); (67458616, 14); (67633663, 14); (67808823, 14); (67984096, 14);
  (68159482, 14); (68334982, 14); (68510593, 14); (68686318, 14); (68862155, 14); (69038104, 14);
  (69214165, 14); (69390339, 14); (69566624, 14); (69743021, 14); (69919530, 14); (70096150, 14);
  (70272882, 14); (70449725, 14); (70626678, 14); (70803743, 14); (70980918, 14); (71158204, 14);
  (71335601, 14); (71513108, 14); (71690725, 14); (71868452, 14); (72046289, 14); (72224236, 14);
  (72402293, 14); (72580459, 14); (72758735, 14); (72937119, 14); (73115613, 14); (73294216, 14);
  (73472928, 14); (73651749, 14); (73830678, 14); (74009716, 14); (74188862, 14); (74368116, 14);
  (74547478, 14); (74726949, 14); (74906527, 14); (75086212, 14); (75266006, 14); (75445907, 14);
  (75625915, 14); (75806030, 14); (75986252, 14); (76166582, 14); (76347018, 14); (76527560, 14);
  (76708210, 14); (76888965, 14); (77069827, 14); (77250795, 14); (77431870, 14); (77613050, 14);
  (77794336, 14); (77975727, 14); (78157224, 14); (78338827, 14); (78520535, 14); (78702348, 14);
  (78884266, 14); (79066289, 14); (79248417, 14); (79430650, 14); (79612987, 14); (79795428, 14);
  (79977974, 14); (80160625, 14); (80343379, 14); (80526237, 14); (80709199, 14); (80892265, 14);
  (81075435, 14); (81258708, 14); (81442084, 14); (81625564, 14); (81809147, 14); (81992833, 14);
  (82176622, 14); (82360514, 14); (82544508, 14); (82728605, 14); (82912804, 14); (83097106, 14);
  (83281510, 14); (83466017, 14); (83650625, 14); (83835335, 14); (84020147, 14); (84205061, 14);
  (84390076, 14); (84575192, 14); (84760411, 14); (84945730, 14); (85131150, 14); (85316672, 14);
  (85502294, 14); (85688017, 14); (85873841, 14); (86059765, 14); (86245790, 14); (86431915, 14);
  (86618141, 14); (86804466, 14); (86990892, 14); (87177418, 14); (87364043, 14); (87550768, 14);
  (87737593, 14); (87924517, 14); (88111541, 14); (88298664, 14); (88485886, 14); (88673207, 14);
  (88860628, 14); (89048147, 14); (89235764, 14); (89423481, 14); (89611296, 14); (89799210, 14);
  (89987222, 14); (90175332, 14); (90363540, 14); (90551847, 14); (90740251, 14); (90928753, 14);
  (91117353, 14); (91306051, 14); (91494846, 14); (91683738, 14); (91872728, 14); (92061815, 14);
  (92251000, 14); (92440281, 14); (92629659, 14); (92819134, 14); (93008706, 14); (93198375, 14);
  (93388140, 14); (93578001, 14); (93767959, 14); (93958013, 14); (94148163, 14); (94338410, 14);
  (94528752, 14); (94719190, 14); (94909724, 14); (95100354, 14); (95291079, 14); (95481899, 14);
  (95672816, 14); (95863827, 14); (96054933, 14); (96246135, 14); (96437432, 14); (96628823, 14);
  (96820310, 14); (97011891, 14); (97203566, 14); (97395337, 14); (97587201, 14); (97779160, 14);
  (97971214, 14); (98163361, 14); (98355603, 14); (98547938, 14); (98740368, 14); (98932891, 14);
  (99125508, 14); (99318219, 14); (99511023, 14); (99703920, 14); (99896911, 14); (100089995, 14);
  (100283172, 14); (100476443, 14); (100669806, 14); (100863262, 14); (101056811, 14); (101250453, 14);
  (101444188, 14); (101638015, 14); (101831934, 14); (102025946, 14); (102220050, 14); (102414246, 14);
  (102608534, 14); (102802915, 14); (102997387, 14); (103191951, 14); (103386607, 14); (103581354, 14);
  (103776193, 14); (103971124, 14); (104166146, 14); (104361259, 14); (104556464, 14); (104751760, 14);
  (104947147, 14); (105142624, 14); (105338193, 14); (105533852, 14); (105729603, 14); (105925444, 14);
  (106121375, 14); (106317397, 14); (106513509, 14); (106709712, 14); (106906005, 14); (107102388, 14);
  (107298861, 14); (107495424, 14); (107692077, 14); (107888819, 14); (108085652, 14); (108282574, 14);
  (108479586, 14); (108676687, 14); (108873878, 14); (109071158, 14); (109268527, 14); (109465985, 14);
  (109663532, 14); (109861169, 14); (110058894, 14); (110256709, 14); (110454611, 14); (110652603, 14);
  (110850683, 14); (111048852, 14); (111247109, 14); (111445455, 14); (111643889, 14); (111842411, 14);
  (112041021, 14); (112239720, 14); (112438506, 14); (112637380, 14); (112836342, 14); (113035392, 14);
  (113234529, 14); (113433754, 14); (113633067, 14); (113832467, 14); (114031954, 14); (114231529, 14);
  (114431191, 14); (114630940, 14); (114830776, 14); (115030698, 14); (115230708, 14); (115430805, 14);
  (115630989, 14); (115831259, 14); (116031615, 14); (116232059, 14); (116432588, 14); (116633205, 14);
  (116833907, 14); (117034696, 14); (117235570, 14); (117436531, 14); (117637578, 14); (117838711, 14);
  (118039930, 14); (118241234, 14); (118442624, 14); (118644100, 14); (118845662, 14); (119047309, 14);
  (119249041, 14); (119450859, 14); (119652762, 14); (119854750, 14); (120056823, 14); (120258982, 14);
  (120461225, 14); (120663553, 14); (120865966, 14); (121068464, 14); (121271047, 14); (121473714, 14);
  (121676466, 14); (121879302, 14); (122082223, 14); (122285228, 14); (122488318, 14); (122691491, 14);
  (122894749, 14); (123098091, 14); (123301517, 14); (123505027, 14); (123708620, 14); (123912298, 14);
  (124116059, 14); (124319904, 14); (124523832, 14); (124727844, 14); (124931940, 14); (125136119, 14);
  (125340381, 14); (125544726, 14); (125749155, 14); (125953667, 14); (126158261, 14); (126362939, 14);
  (126567700, 14); (126772543, 14); (126977470, 14); (127182479, 14); (127387570, 14); (127592745, 14);
  (127798001, 14); (128003340, 14); (128208762, 14); (128414266, 14); (128619852, 14); (128825520, 14);
  (129031271, 14); (129237103, 14); (129443018, 14); (129649014, 14); (129855093, 14); (130061253, 14);
  (130267495, 14); (130473818, 14); (130680223, 14); (130886710, 14); (131093278, 14); (131299927, 14);
  (131506658, 14); (131713470, 14); (131920364, 14); (132127338, 14); (132334394, 14); (132541530, 14);
  (132748748, 14); (132956046, 14); (133163425, 14); (133370885, 14); (133578426, 14); (133786048, 14);
  (133993750, 14); (134201532, 14); (67204697, 15); (67308669, 15); (67412681, 15); (67516733, 15);
  (67620825, 15); (67724957, 15); (67829129, 15); (67933342, 15); (68037594, 15); (68141886, 15);
  (68246218, 15); (68350590, 15); (68455002, 15); (68559453, 15); (68663945, 15); (68768476, 15);
  (68873047, 15); (68977658, 15); (69082308, 15); (69186998, 15); (69291728, 15); (69396497, 15);
  (69501305, 15); (69606154, 15); (69711042, 15); (69815969, 15); (69920935, 15); (70025942, 15);
  (70130987, 15); (70236072, 15); (70341196, 15); (70446359, 15); (70551562, 15); (70656804, 15);
  (70762085, 15); (70867405, 15); (70972765, 15); (71078163, 15); (71183601, 15); (71289078, 15);
  (71394594, 15); (71500148, 15); (71605742, 15); (71711375, 15); (71817046, 15); (71922757, 15);
  (72028506, 15); (72134294, 15); (72240121, 15); (72345987, 15); (72451891, 15); (72557834, 15);
  (72663816, 15); (72769837, 15); (72875896, 15); (72981994, 15); (73088130, 15); (73194305, 15);
  (73300518, 15); (73406770, 15); (73513060, 15); (73619389, 15); (73725756, 15); (73832162, 15);
  (73938606, 15); (74045088, 15); (74151609, 15); (74258167, 15); (74364764, 15); (74471400, 15);
  (74578073, 15); (74684785, 15); (74791535, 15); (74898322, 15); (75005148, 15); (75112012, 15);
  (75218914, 15); (75325854, 15); (75432832, 15); (75539848, 15); (75646902, 15); (75753994, 15);
  (75861123, 15); (75968290, 15); (76075496, 15); (76182739, 15); (76290019, 15); (76397338, 15);
  (76504694, 15); (76612088, 15); (76719519, 15); (76826988, 15); (76934495, 15); (77042039, 15);
  (77149621, 15); (77257241, 15); (77364897, 15); (77472592, 15); (77580324, 15); (77688093, 15);
  (77795899, 15); (77903743, 15); (78011624, 15); (78119543, 15); (78227499, 15); (78335492, 15);
  (78443522, 15); (78551590, 15); (78659694, 15); (78767836, 15); (78876015, 15); (78984231, 15);
  (79092485, 15); (79200775, 15); (79309102, 15); (79417466, 15); (79525868, 15); (79634306, 15);
  (79742781, 15); (79851293, 15); (79959842, 15); (80068428, 15); (80177050, 15); (80285709, 15);
  (80394406, 15); (80503139, 15); (80611908, 15); (80720715, 15); (80829558, 15); (80938437, 15);
  (81047354, 15); (81156306, 15); (81265296, 15); (81374322, 15); (81483385, 15); (81592484, 15);
  (81701619, 15); (81810791, 15); (81920000, 15); (82029245, 15); (82138526, 15); (82247843, 15);
  (82357197, 15); (82466588, 15); (82576014, 15); (82685477, 15); (82794976, 15); (82904511, 15);
  (83014083, 15); (83123690, 15); (83233334, 15); (83343014, 15); (83452730, 15); (83562482, 15);
  (83672270, 15); (83782094, 15); (83891955, 15); (84001851, 15); (84111783, 15); (84221751, 15);
  (84331755, 15); (84441794, 15)
].

Definition rq_2 : list (Z * Z) := [
  (84551870, 15); (84661982, 15); (84772129, 15); (84882312, 15); (84992531, 15); (85102786, 15);
  (85213076, 15); (85323402, 15); (85433764, 15); (85544161, 15); (85654594, 15); (85765063, 15);
  (85875567, 15); (85986106, 15); (86096682, 15); (86207293, 15); (86317939, 15); (86428621, 15);
  (86539338, 15); (86650090, 15); (86760878, 15); (86871702, 15); (86982561, 15); (87093455, 15);
  (87204384, 15); (87315349, 15); (87426349, 15); (87537384, 15); (87648454, 15); (87759560, 15);
  (87870701, 15); (87981877, 15); (88093088, 15); (88204334, 15); (88315615, 15); (88426932, 15);
  (88538283, 15); (88649670, 15); (88761091, 15); (88872547, 15); (88984039, 15); (89095565, 15);
  (89207126, 15); (89318722, 15); (89430353, 15); (89542019, 15); (89653720, 15); (89765455, 15);
  (89877225, 15); (89989030, 15); (90100870, 15); (90212744, 15); (90324653, 15); (90436597, 15);
  (90548576, 15); (90660589, 15); (90772636, 15); (90884719, 15); (90996836, 15); (91108987, 15);
  (91221173, 15); (91333393, 15); (91445648, 15); (91557938, 15); (91670261, 15); (91782620, 15);
  (91895012, 15); (92007439, 15); (92119901, 15); (92232396, 15); (92344926, 15); (92457490, 15);
  (92570089, 15); (92682722, 15); (92795389, 15); (92908090, 15); (93020826, 15); (93133595, 15);
  (93246399, 15); (93359237, 15); (93472109, 15); (93585015, 15); (93697955, 15); (93810929, 15);
  (93923937, 15); (94036979, 15); (94150056, 15); (94263166, 15); (94376310, 15); (94489488, 15);
  (94602700, 15); (94715946, 15); (94829225, 15); (94942539, 15); (95055886, 15); (95169267, 15);
  (95282682, 15); (95396131, 15); (95509613, 15); (95623129, 15); (95736679, 15); (95850262, 15);
  (95963879, 15); (96077530, 15); (96191215, 15); (96304933, 15); (96418684, 15); (96532469, 15);
  (96646288, 15); (96760140, 15); (96874026, 15); (96987945, 15); (97101898, 15); (97215884, 15);
  (97329903, 15); (97443956, 15); (97558043, 15); (97672162, 15); (97786315, 15); (97900501, 15);
  (98014721, 15); (98128974, 15); (98243260, 15); (98357580, 15); (98471932, 15); (98586318, 15);
  (98700737, 15); (98815189, 15); (98929675, 15); (99044193, 15); (99158745, 15); (99273330, 15);
  (99387947, 15); (99502598, 15); (99617282, 15); (99731999, 15); (99846749, 15); (99961532, 15);
  (100076348, 15); (100191196, 15); (100306078, 15); (100420993, 15); (100535940, 15); (100650920, 15);
  (100765934, 15); (100880980, 15); (100996058, 15); (101111170, 15); (101226314, 15); (101341492, 15);
  (101456701, 15); (101571944, 15); (101687219, 15); (101802527, 15); (101917868, 15); (102033241, 15);
  (102148647, 15); (102264086, 15); (102379557, 15); (102495060, 15); (102610597, 15); (102726165, 15);
  (102841767, 15); (102957400, 15); (103073066, 15); (103188765, 15); (103304496, 15); (103420260, 15);
  (103536056, 15); (103651884, 15); (103767745, 15); (103883638, 15); (103999563, 15); (104115521, 15);
  (104231511, 15); (104347533, 15); (104463588, 15); (104579675, 15); (104695794, 15); (104811945, 15);
  (104928128, 15); (105044344, 15); (105160591, 15); (105276871, 15); (105393183, 15); (105509527, 15);
  (105625903, 15); (105742312, 15); (105858752, 15); (105975224, 15); (106091728, 15); (106208265, 15);
  (106324833, 15); (106441433, 15); (106558065, 15); (106674729, 15); (106791425, 15); (106908153, 15);
  (107024913, 15); (107141705, 15); (107258528, 15); (107375383, 15); (107492270, 15); (107609189, 15);
  (107726140, 15); (107843122, 15); (107960136, 15); (108077182, 15); (108194260, 15); (108311369, 15);
  (108428510, 15); (108545682, 15); (108662886, 15); (108780122, 15); (108897389, 15); (109014688, 15);
  (109132019, 15); (109249381, 15); (109366774, 15); (109484200, 15); (109601656, 15); (109719144, 15);
  (109836664, 15); (109954215, 15); (110071797, 15); (110189411, 15); (110307056, 15); (110424732, 15);
  (110542440, 15); (110660180, 15); (110777950, 15); (110895752, 15); (111013585, 15); (111131450, 15);
  (111249345, 15); (111367272, 15); (111485231, 15); (111603220, 15); (111721240, 15); (111839292, 15);
  (111957375, 15); (112075489, 15); (112193634, 15); (112311811, 15); (112430018, 15); (112548257, 15);
  (112666526, 15); (112784827, 15); (112903158, 15); (113021521, 15); (113139915, 15); (113258339, 15);
  (113376795, 15); (113495281, 15); (113613799, 15); (113732347, 15); (113850926, 15); (113969537, 15);
  (114088178, 15); (114206849, 15); (114325552, 15); (114444286, 15); (114563050, 15); (114681845, 15);
  (114800671, 15); (114919528, 15); (115038415, 15); (115157333, 15); (115276282, 15); (115395262, 15);
  (115514272, 15); (115633313, 15); (115752384, 15); (115871486, 15); (115990619, 15); (116109782, 15);
  (116228976, 15); (116348201, 15); (116467456, 15); (116586741, 15); (116706057, 15); (116825404, 15);
  (116944781, 15); (117064189, 15); (117183627, 15); (117303095, 15); (117422594, 15); (117542123, 15);
  (117661683, 15); (117781273, 15); (117900893, 15); (118020544, 15); (118140225, 15); (118259937, 15);
  (118379679, 15); (118499451, 15); (118619253, 15); (118739085, 15); (118858948, 15); (118978841, 15);
  (119098764, 15); (119218718, 15); (119338702, 15); (119458715, 15); (119578759, 15); (119698833, 15);
  (119818937, 15); (119939072, 15); (120059236, 15); (120179431, 15); (120299655, 15); (120419910, 15);
  (120540194, 15); (120660509, 15); (120780853, 15); (120901228, 15); (121021633, 15); (121142067, 15);
  (121262532, 15); (121383026, 15); (121503550, 15); (121624104, 15); (121744688, 15); (121865302, 15);
  (121985946, 15); (122106620, 15); (122227323, 15); (122348056, 15); (122468819, 15); (122589612, 15);
  (122710435, 15); (122831287, 15); (122952169, 15); (123073081, 15); (123194023, 15); (123314994, 15);
  (123435995, 15); (123557025, 15); (123678085, 15); (123799175, 15); (123920294, 15); (124041443, 15);
  (124162622, 15); (124283830, 15); (124405068, 15); (124526335, 15); (124647632, 15); (124768958, 15);
  (124890314, 15); (125011699, 15); (125133114, 15); (125254558, 15); (125376032, 15); (125497535, 15);
  (125619068, 15); (125740630, 15); (125862221, 15); (125983842, 15); (126105492, 15); (126227171, 15);
  (126348880, 15); (126470618, 15); (126592385, 15); (126714182, 15); (126836008, 15); (126957863, 15);
  (127079747, 15); (127201661, 15); (127323604, 15); (127445576, 15); (127567577, 15); (127689608, 15);
  (127811667, 15); (127933756, 15); (128055874, 15); (128178021, 15); (128300197, 15); (128422402, 15);
  (128544637, 15); (128666900, 15); (128789192, 15); (128911514, 15); (129033864, 15); (129156244, 15);
  (129278652, 15); (129401090, 15); (129523556, 15); (129646052, 15); (129768576, 15); (129891129, 15);
  (130013711, 15); (130136322, 15); (130258962, 15); (130381631, 15); (130504329, 15); (130627055, 15);
  (130749811, 15); (130872595, 15); (130995408, 15); (131118250, 15); (131241120, 15); (131364019, 15);
  (131486948, 15); (131609904, 15); (131732890, 15); (131855904, 15); (131978947, 15); (132102019, 15);
  (132225119, 15); (132348248, 15); (132471406, 15); (132594592, 15); (132717807, 15); (132841050, 15);
  (132964322, 15); (133087623, 15); (133210952, 15); (133334310, 15); (133457696, 15); (133581111, 15);
  (133704554, 15); (133828026, 15); (133951526, 15); (134075055, 15); (134198612, 15); (67161099, 16);
  (67222906, 16); (67284727, 16); (67346563, 16); (67408412, 16); (67470276, 16); (67532154, 16);
  (67594047, 16); (67655953, 16); (67717873, 16); (67779808, 16); (67841757, 16); (67903720, 16);
  (67965697, 16); (68027689, 16); (68089694, 16); (68151713, 16); (68213747, 16); (68275795, 16);
  (68337857, 16); (68399933, 16); (68462023, 16); (68524127, 16); (68586245, 16); (68648377, 16);
  (68710524, 16); (68772684, 16); (68834858, 16); (68897047, 16); (68959249, 16); (69021466, 16);
  (69083696, 16); (69145941, 16); (69208200, 16); (69270472, 16); (69332759, 16); (69395059, 16);
  (69457374, 16); (69519702, 16); (69582045, 16); (69644401, 16); (69706772, 16); (69769156, 16);
  (69831555, 16); (69893967, 16); (69956393, 16); (70018833, 16); (70081287, 16); (70143755, 16);
  (70206237, 16); (70268733, 16); (70331243, 16); (70393766, 16); (70456304, 16); (70518855, 16);
  (70581421, 16); (70644000, 16); (70706593, 16); (70769199, 16); (70831820, 16); (70894455, 16);
  (70957103, 16); (71019765, 16); (71082441, 16); (71145131, 16); (71207835, 16); (71270552, 16);
  (71333283, 16); (71396028, 16); (71458787, 16); (71521560, 16); (71584346, 16); (71647147, 16);
  (71709960, 16); (71772788, 16); (71835630, 16); (71898485, 16); (71961354, 16); (72024236, 16);
  (72087133, 16); (72150043, 16); (72212967, 16); (72275904, 16); (72338856, 16); (72401820, 16);
  (72464799, 16); (72527791, 16)
].

Definition rq_3 : list (Z * Z) := [
  (72590797, 16); (72653817, 16); (72716850, 16); (72779897, 16); (72842958, 16); (72906032, 16);
  (72969120, 16); (73032222, 16); (73095337, 16); (73158466, 16); (73221609, 16); (73284765, 16);
  (73347934, 16); (73411118, 16); (73474315, 16); (73537525, 16); (73600749, 16); (73663987, 16);
  (73727238, 16); (73790503, 16); (73853781, 16); (73917073, 16); (73980379, 16); (74043698, 16);
  (74107030, 16); (74170377, 16); (74233736, 16); (74297109, 16); (74360496, 16); (74423896, 16);
  (74487310, 16); (74550737, 16); (74614178, 16); (74677632, 16); (74741100, 16); (74804581, 16);
  (74868075, 16); (74931583, 16); (74995105, 16); (75058640, 16); (75122188, 16); (75185750, 16);
  (75249326, 16); (75312914, 16); (75376516, 16); (75440132, 16); (75503761, 16); (75567403, 16);
  (75631059, 16); (75694728, 16); (75758411, 16); (75822107, 16); (75885816, 16); (75949539, 16);
  (76013275, 16); (76077025, 16); (76140788, 16); (76204564, 16); (76268353, 16); (76332156, 16);
  (76395972, 16); (76459802, 16); (76523645, 16); (76587501, 16); (76651370, 16); (76715253, 16);
  (76779149, 16); (76843059, 16); (76906981, 16); (76970917, 16); (77034867, 16); (77098829, 16);
  (77162805, 16); (77226794, 16); (77290796, 16); (77354812, 16); (77418841, 16); (77482883, 16);
  (77546938, 16); (77611006, 16); (77675088, 16); (77739183, 16); (77803291, 16); (77867413, 16);
  (77931547, 16); (77995695, 16); (78059856, 16); (78124030, 16); (78188218, 16); (78252418, 16);
  (78316632, 16); (78380859, 16); (78445099, 16); (78509352, 16); (78573618, 16); (78637898, 16);
  (78702190, 16); (78766496, 16); (78830815, 16); (78895147, 16); (78959492, 16); (79023850, 16);
  (79088222, 16); (79152606, 16); (79217004, 16); (79281414, 16); (79345838, 16); (79410275, 16);
  (79474724, 16); (79539187, 16); (79603663, 16); (79668152, 16); (79732655, 16); (79797170, 16);
  (79861698, 16); (79926239, 16); (79990793, 16); (80055361, 16); (80119941, 16); (80184534, 16);
  (80249141, 16); (80313760, 16); (80378392, 16); (80443038, 16); (80507696, 16); (80572367, 16);
  (80637051, 16); (80701749, 16); (80766459, 16); (80831182, 16); (80895918, 16); (80960667, 16);
  (81025429, 16); (81090204, 16); (81154992, 16); (81219793, 16); (81284607, 16); (81349434, 16);
  (81414273, 16); (81479126, 16); (81543991, 16); (81608870, 16); (81673761, 16); (81738665, 16);
  (81803582, 16); (81868512, 16); (81933455, 16); (81998411, 16); (82063379, 16); (82128361, 16);
  (82193355, 16); (82258362, 16); (82323382, 16); (82388415, 16); (82453460, 16); (82518519, 16);
  (82583590, 16); (82648674, 16); (82713771, 16); (82778881, 16); (82844003, 16); (82909139, 16);
  (82974287, 16); (83039448, 16); (83104621, 16); (83169808, 16); (83235007, 16); (83300219, 16);
  (83365444, 16); (83430681, 16); (83495932, 16); (83561195, 16); (83626471, 16); (83691759, 16);
  (83757061, 16); (83822375, 16); (83887701, 16); (83953041, 16); (84018393, 16); (84083758, 16);
  (84149135, 16); (84214526, 16); (84279929, 16); (84345344, 16); (84410773, 16); (84476214, 16);
  (84541667, 16); (84607134, 16); (84672613, 16); (84738105, 16); (84803609, 16); (84869126, 16);
  (84934656, 16); (85000198, 16); (85065753, 16); (85131321, 16); (85196901, 16); (85262494, 16);
  (85328099, 16); (85393717, 16); (85459348, 16); (85524991, 16); (85590647, 16); (85656316, 16);
  (85721997, 16); (85787690, 16); (85853396, 16); (85919115, 16); (85984847, 16); (86050591, 16);
  (86116347, 16); (86182116, 16); (86247898, 16); (86313692, 16); (86379498, 16); (86445318, 16);
  (86511149, 16); (86576994, 16); (86642851, 16); (86708720, 16); (86774602, 16); (86840496, 16);
  (86906403, 16); (86972322, 16); (87038254, 16); (87104198, 16); (87170155, 16); (87236124, 16);
  (87302106, 16); (87368100, 16); (87434107, 16); (87500126, 16); (87566158, 16); (87632202, 16);
  (87698258, 16); (87764327, 16); (87830409, 16); (87896502, 16); (87962609, 16); (88028727, 16);
  (88094858, 16); (88161002, 16); (88227158, 16); (88293326, 16); (88359507, 16); (88425700, 16);
  (88491905, 16); (88558123, 16); (88624354, 16); (88690596, 16); (88756851, 16); (88823118, 16);
  (88889398, 16); (88955690, 16); (89021995, 16); (89088312, 16); (89154641, 16); (89220982, 16);
  (89287336, 16); (89353702, 16); (89420081, 16); (89486471, 16); (89552874, 16); (89619290, 16);
  (89685717, 16); (89752158, 16); (89818610, 16); (89885074, 16); (89951551, 16); (90018041, 16);
  (90084542, 16); (90151056, 16); (90217582, 16); (90284120, 16); (90350671, 16); (90417233, 16);
  (90483808, 16); (90550396, 16); (90616995, 16); (90683607, 16); (90750231, 16); (90816867, 16);
  (90883516, 16); (90950176, 16); (91016849, 16); (91083534, 16); (91150232, 16); (91216941, 16);
  (91283663, 16); (91350397, 16); (91417143, 16); (91483901, 16); (91550672, 16); (91617454, 16);
  (91684249, 16); (91751056, 16); (91817875, 16); (91884707, 16); (91951550, 16); (92018406, 16);
  (92085274, 16); (92152153, 16); (92219046, 16); (92285950, 16); (92352866, 16); (92419794, 16);
  (92486735, 16); (92553688, 16); (92620652, 16); (92687629, 16); (92754618, 16); (92821619, 16);
  (92888633, 16); (92955658, 16); (93022695, 16); (93089745, 16); (93156806, 16); (93223880, 16);
  (93290965, 16); (93358063, 16); (93425173, 16); (93492295, 16); (93559428, 16); (93626574, 16);
  (93693732, 16); (93760902, 16); (93828084, 16); (93895278, 16); (93962484, 16); (94029702, 16);
  (94096933, 16); (94164175, 16); (94231429, 16); (94298695, 16); (94365973, 16); (94433263, 16);
  (94500565, 16); (94567879, 16); (94635205, 16); (94702543, 16); (94769893, 16); (94837255, 16);
  (94904629, 16); (94972015, 16); (95039413, 16); (95106823, 16); (95174245, 16); (95241678, 16);
  (95309124, 16); (95376582, 16); (95444051, 16); (95511533, 16); (95579026, 16); (95646531, 16);
  (95714048, 16); (95781577, 16); (95849118, 16); (95916671, 16); (95984236, 16); (96051813, 16);
  (96119401, 16); (96187002, 16); (96254614, 16); (96322238, 16); (96389874, 16); (96457522, 16);
  (96525182, 16); (96592854, 16); (96660537, 16); (96728233, 16); (96795940, 16); (96863659, 16);
  (96931390, 16); (96999133, 16); (97066887, 16); (97134654, 16); (97202432, 16); (97270222, 16);
  (97338024, 16); (97405837, 16); (97473663, 16); (97541500, 16); (97609349, 16); (97677210, 16);
  (97745083, 16); (97812967, 16); (97880863, 16); (97948771, 16); (98016691, 16); (98084623, 16);
  (98152566, 16); (98220521, 16); (98288488, 16); (98356466, 16); (98424457, 16); (98492459, 16);
  (98560472, 16); (98628498, 16); (98696535, 16); (98764584, 16); (98832645, 16); (98900717, 16);
  (98968801, 16); (99036897, 16); (99105005, 16); (99173124, 16); (99241255, 16); (99309398, 16);
  (99377552, 16); (99445718, 16); (99513896, 16); (99582085, 16); (99650286, 16); (99718499, 16);
  (99786723, 16); (99854959, 16); (99923207, 16); (99991467, 16); (100059738, 16); (100128020, 16);
  (100196315, 16); (100264621, 16); (100332938, 16); (100401267, 16); (100469608, 16); (100537961, 16);
  (100606325, 16); (100674701, 16); (100743088, 16); (100811487, 16); (100879897, 16); (100948319, 16);
  (101016753, 16); (101085199, 16); (101153655, 16); (101222124, 16); (101290604, 16); (101359096, 16);
  (101427599, 16); (101496114, 16); (101564640, 16); (101633178, 16); (101701728, 16); (101770289, 16);
  (101838861, 16); (101907445, 16); (101976041, 16); (102044648, 16); (102113267, 16); (102181897, 16);
  (102250539, 16); (102319192, 16); (102387857, 16); (102456533, 16); (102525221, 16); (102593921, 16);
  (102662632, 16); (102731354, 16); (102800088, 16); (102868833, 16); (102937590, 16); (103006358, 16);
  (103075138, 16); (103143929, 16); (103212732, 16); (103281546, 16); (103350372, 16); (103419209, 16);
  (103488058, 16); (103556918, 16); (103625789, 16); (103694672, 16); (103763567, 16); (103832473, 16);
  (103901390, 16); (103970319, 16); (104039259, 16); (104108210, 16); (104177173, 16); (104246147, 16);
  (104315133, 16); (104384130, 16); (104453139, 16); (104522159, 16); (104591190, 16); (104660233, 16);
  (104729287, 16); (104798353, 16); (104867430, 16); (104936518, 16); (105005618, 16); (105074729, 16);
  (105143851, 16); (105212985, 16); (105282130, 16); (105351287, 16); (105420455, 16); (105489634, 16);
  (105558824, 16); (105628026, 16); (105697240, 16); (105766464, 16); (105835700, 16); (105904947, 16);
  (105974206, 16); (106043476, 16); (106112757, 16); (106182049, 16); (106251353, 16); (106320668, 16);
  (106389994, 16); (106459332, 16)
].

Definition rq_4 : list (Z * Z) := [
  (106528681, 16); (106598041, 16); (106667413, 16); (106736796, 16); (106806190, 16); (106875595, 16);
  (106945012, 16); (107014440, 16); (107083879, 16); (107153329, 16); (107222791, 16); (107292264, 16);
  (107361748, 16); (107431244, 16); (107500750, 16); (107570268, 16); (107639797, 16); (107709338, 16);
  (107778889, 16); (107848452, 16); (107918026, 16); (107987611, 16); (108057208, 16); (108126815, 16);
  (108196434, 16); (108266064, 16); (108335706, 16); (108405358, 16); (108475022, 16); (108544697, 16);
  (108614383, 16); (108684080, 16); (108753788, 16); (108823508, 16); (108893238, 16); (108962980, 16);
  (109032733, 16); (109102498, 16); (109172273, 16); (109242059, 16); (109311857, 16); (109381666, 16);
  (109451486, 16); (109521317, 16); (109591159, 16); (109661013, 16); (109730877, 16); (109800753, 16);
  (109870639, 16); (109940537, 16); (110010446, 16); (110080366, 16); (110150297, 16); (110220239, 16);
  (110290193, 16); (110360157, 16); (110430133, 16); (110500119, 16); (110570117, 16); (110640126, 16);
  (110710146, 16); (110780177, 16); (110850219, 16); (110920272, 16); (110990336, 16); (111060411, 16);
  (111130497, 16); (111200595, 16); (111270703, 16); (111340822, 16); (111410953, 16); (111481094, 16);
  (111551247, 16); (111621410, 16); (111691585, 16); (111761770, 16); (111831967, 16); (111902175, 16);
  (111972393, 16); (112042623, 16); (112112864, 16); (112183115, 16); (112253378, 16); (112323651, 16);
  (112393936, 16); (112464232, 16); (112534538, 16); (112604856, 16); (112675185, 16); (112745524, 16);
  (112815875, 16); (112886236, 16); (112956609, 16); (113026992, 16); (113097386, 16); (113167792, 16);
  (113238208, 16); (113308635, 16); (113379074, 16); (113449523, 16); (113519983, 16); (113590454, 16);
  (113660936, 16); (113731429, 16); (113801932, 16); (113872447, 16); (113942973, 16); (114013509, 16);
  (114084057, 16); (114154615, 16); (114225184, 16); (114295764, 16); (114366356, 16); (114436958, 16);
  (114507570, 16); (114578194, 16); (114648829, 16); (114719474, 16); (114790131, 16); (114860798, 16);
  (114931476, 16); (115002165, 16); (115072865, 16); (115143576, 16); (115214297, 16); (115285030, 16);
  (115355773, 16); (115426527, 16); (115497292, 16); (115568068, 16); (115638854, 16); (115709652, 16);
  (115780460, 16); (115851279, 16); (115922109, 16); (115992950, 16); (116063802, 16); (116134664, 16);
  (116205538, 16); (116276422, 16); (116347316, 16); (116418222, 16); (116489139, 16); (116560066, 16);
  (116631004, 16); (116701953, 16); (116772912, 16); (116843883, 16); (116914864, 16); (116985856, 16);
  (117056858, 16); (117127872, 16); (117198896, 16); (117269931, 16); (117340977, 16); (117412034, 16);
  (117483101, 16); (117554179, 16); (117625268, 16); (117696367, 16); (117767477, 16); (117838598, 16);
  (117909730, 16); (117980873, 16); (118052026, 16); (118123190, 16); (118194364, 16); (118265550, 16);
  (118336746, 16); (118407952, 16); (118479170, 16); (118550398, 16); (118621637, 16); (118692887, 16);
  (118764147, 16); (118835418, 16); (118906699, 16); (118977992, 16); (119049295, 16); (119120608, 16);
  (119191933, 16); (119263268, 16); (119334614, 16); (119405970, 16); (119477337, 16); (119548715, 16);
  (119620103, 16); (119691502, 16); (119762912, 16); (119834332, 16); (119905763, 16); (119977204, 16);
  (120048657, 16); (120120120, 16); (120191593, 16); (120263077, 16); (120334572, 16); (120406077, 16);
  (120477593, 16); (120549120, 16); (120620657, 16); (120692205, 16); (120763763, 16); (120835332, 16);
  (120906912, 16); (120978502, 16); (121050103, 16); (121121714, 16); (121193336, 16); (121264969, 16);
  (121336612, 16); (121408266, 16); (121479930, 16); (121551605, 16); (121623290, 16); (121694986, 16);
  (121766693, 16); (121838410, 16); (121910138, 16); (121981876, 16); (122053624, 16); (122125384, 16);
  (122197154, 16); (122268934, 16); (122340725, 16); (122412526, 16); (122484338, 16); (122556161, 16);
  (122627994, 16); (122699838, 16); (122771692, 16); (122843556, 16); (122915431, 16); (122987317, 16);
  (123059213, 16); (123131120, 16); (123203037, 16); (123274965, 16); (123346903, 16); (123418851, 16);
  (123490810, 16); (123562780, 16); (123634760, 16); (123706751, 16); (123778752, 16); (123850763, 16);
  (123922785, 16); (123994817, 16); (124066860, 16); (124138914, 16); (124210978, 16); (124283052, 16);
  (124355136, 16); (124427232, 16); (124499337, 16); (124571453, 16); (124643580, 16); (124715717, 16);
  (124787864, 16); (124860022, 16); (124932190, 16); (125004369, 16); (125076558, 16); (125148757, 16);
  (125220967, 16); (125293187, 16); (125365418, 16); (125437659, 16); (125509911, 16); (125582173, 16);
  (125654445, 16); (125726728, 16); (125799021, 16); (125871324, 16); (125943638, 16); (126015962, 16);
  (126088297, 16); (126160642, 16); (126232997, 16); (126305363, 16); (126377739, 16); (126450126, 16);
  (126522522, 16); (126594930, 16); (126667347, 16); (126739775, 16); (126812213, 16); (126884662, 16);
  (126957121, 16); (127029590, 16); (127102070, 16); (127174560, 16); (127247060, 16); (127319571, 16);
  (127392092, 16); (127464623, 16); (127537164, 16); (127609716, 16); (127682279, 16); (127754851, 16);
  (127827434, 16); (127900027, 16); (127972630, 16); (128045244, 16); (128117868, 16); (128190503, 16);
  (128263147, 16); (128335802, 16); (128408467, 16); (128481143, 16); (128553828, 16); (128626524, 16);
  (128699231, 16); (128771947, 16); (128844674, 16); (128917411, 16); (128990159, 16); (129062916, 16);
  (129135684, 16); (129208462, 16); (129281251, 16); (129354049, 16); (129426858, 16); (129499677, 16);
  (129572507, 16); (129645346, 16); (129718196, 16); (129791056, 16); (129863926, 16); (129936807, 16);
  (130009697, 16); (130082598, 16); (130155509, 16); (130228431, 16); (130301362, 16); (130374304, 16);
  (130447256, 16); (130520218, 16); (130593191, 16); (130666173, 16); (130739166, 16); (130812169, 16);
  (130885182, 16); (130958205, 16); (131031239, 16); (131104283, 16); (131177337, 16); (131250401, 16);
  (131323475, 16); (131396559, 16); (131469654, 16); (131542758, 16); (131615873, 16); (131688998, 16);
  (131762133, 16); (131835279, 16); (131908434, 16); (131981600, 16); (132054775, 16); (132127961, 16);
  (132201157, 16); (132274364, 16); (132347580, 16); (132420806, 16); (132494043, 16); (132567289, 16);
  (132640546, 16); (132713813, 16); (132787090, 16); (132860377, 16); (132933674, 16); (133006982, 16);
  (133080299, 16); (133153627, 16); (133226964, 16); (133300312, 16); (133373670, 16); (133447038, 16);
  (133520416, 16); (133593804, 16); (133667202, 16); (133740610, 16); (133814028, 16); (133887457, 16);
  (133960895, 16); (134034344, 16); (134107802, 16); (134181271, 16); (67127375, 17); (67164119, 17);
  (67200868, 17); (67237623, 17); (67274382, 17); (67311147, 17); (67347916, 17); (67384691, 17);
  (67421470, 17); (67458255, 17); (67495044, 17); (67531839, 17); (67568639, 17); (67605443, 17);
  (67642253, 17); (67679067, 17); (67715887, 17); (67752712, 17); (67789541, 17); (67826376, 17);
  (67863216, 17); (67900060, 17); (67936910, 17); (67973764, 17); (68010624, 17); (68047489, 17);
  (68084358, 17); (68121233, 17); (68158113, 17); (68194997, 17); (68231887, 17); (68268781, 17);
  (68305681, 17); (68342585, 17); (68379495, 17); (68416409, 17); (68453329, 17); (68490253, 17);
  (68527183, 17); (68564117, 17); (68601057, 17); (68638001, 17); (68674950, 17); (68711905, 17);
  (68748864, 17); (68785828, 17); (68822797, 17); (68859771, 17); (68896751, 17); (68933735, 17);
  (68970724, 17); (69007718, 17); (69044717, 17); (69081721, 17); (69118730, 17); (69155743, 17);
  (69192762, 17); (69229786, 17); (69266815, 17); (69303848, 17); (69340887, 17); (69377930, 17);
  (69414979, 17); (69452032, 17); (69489091, 17); (69526154, 17); (69563222, 17); (69600296, 17);
  (69637374, 17); (69674457, 17); (69711545, 17); (69748638, 17); (69785736, 17); (69822838, 17);
  (69859946, 17); (69897059, 17); (69934176, 17); (69971299, 17); (70008426, 17); (70045559, 17);
  (70082696, 17); (70119838, 17); (70156985, 17); (70194137, 17); (70231294, 17); (70268456, 17);
  (70305623, 17); (70342795, 17); (70379971, 17); (70417153, 17); (70454339, 17); (70491530, 17);
  (70528727, 17); (70565928, 17); (70603134, 17); (70640345, 17); (70677561, 17); (70714782, 17);
  (70752007, 17); (70789238, 17); (70826473, 17); (70863713, 17); (70900959, 17); (70938209, 17);
  (70975464, 17); (71012724, 17); (71049989, 17); (71087258, 17); (71124533, 17); (71161812, 17);
  (71199097, 17); (71236386, 17); (71273680, 17); (71310979, 17); (71348283, 17); (71385591, 17);
  (71422905, 17); (71460224, 17); (71497547, 17); (71534875, 17); (71572208, 17); (71609546, 17);
  (71646889, 17); (71684237, 17)
].

Definition rq_5 : list (Z * Z) := [
  (71721589, 17); (71758947, 17); (71796309, 17); (71833676, 17); (71871048, 17); (71908425, 17);
  (71945807, 17); (71983193, 17); (72020585, 17); (72057981, 17); (72095382, 17); (72132788, 17);
  (72170199, 17); (72207615, 17); (72245035, 17); (72282461, 17); (72319891, 17); (72357326, 17);
  (72394766, 17); (72432211, 17); (72469660, 17); (72507115, 17); (72544574, 17); (72582038, 17);
  (72619507, 17); (72656981, 17); (72694459, 17); (72731943, 17); (72769431, 17); (72806924, 17);
  (72844422, 17); (72881925, 17); (72919433, 17); (72956945, 17); (72994462, 17); (73031984, 17);
  (73069511, 17); (73107043, 17); (73144579, 17); (73182121, 17); (73219667, 17); (73257218, 17);
  (73294774, 17); (73332334, 17); (73369899, 17); (73407470, 17); (73445045, 17); (73482624, 17);
  (73520209, 17); (73557799, 17); (73595393, 17); (73632992, 17); (73670596, 17); (73708204, 17);
  (73745818, 17); (73783436, 17); (73821059, 17); (73858687, 17); (73896319, 17); (73933957, 17);
  (73971599, 17); (74009246, 17); (74046898, 17); (74084554, 17); (74122215, 17); (74159882, 17);
  (74197553, 17); (74235228, 17); (74272909, 17); (74310594, 17); (74348284, 17); (74385979, 17);
  (74423678, 17); (74461383, 17); (74499092, 17); (74536806, 17); (74574524, 17); (74612248, 17);
  (74649976, 17); (74687709, 17); (74725447, 17); (74763189, 17); (74800937, 17); (74838689, 17);
  (74876445, 17); (74914207, 17); (74951973, 17); (74989744, 17); (75027520, 17); (75065301, 17);
  (75103086, 17); (75140876, 17); (75178671, 17); (75216471, 17); (75254275, 17); (75292084, 17);
  (75329898, 17); (75367716, 17); (75405540, 17); (75443368, 17); (75481201, 17); (75519038, 17);
  (75556881, 17); (75594728, 17); (75632579, 17); (75670436, 17); (75708297, 17); (75746163, 17);
  (75784034, 17); (75821909, 17); (75859789, 17); (75897674, 17); (75935564, 17); (75973458, 17);
  (76011357, 17); (76049261, 17); (76087170, 17); (76125083, 17); (76163001, 17); (76200924, 17);
  (76238851, 17); (76276783, 17); (76314720, 17); (76352662, 17); (76390608, 17); (76428559, 17);
  (76466515, 17); (76504475, 17); (76542440, 17); (76580410, 17); (76618385, 17); (76656364, 17);
  (76694348, 17); (76732336, 17); (76770330, 17); (76808328, 17); (76846331, 17); (76884338, 17);
  (76922350, 17); (76960367, 17); (76998389, 17); (77036415, 17); (77074446, 17); (77112481, 17);
  (77150522, 17); (77188567, 17); (77226616, 17); (77264671, 17); (77302730, 17); (77340794, 17);
  (77378862, 17); (77416935, 17); (77455013, 17); (77493095, 17); (77531183, 17); (77569274, 17);
  (77607371, 17); (77645472, 17); (77683578, 17); (77721689, 17); (77759804, 17); (77797924, 17);
  (77836048, 17); (77874177, 17); (77912311, 17); (77950450, 17); (77988593, 17); (78026741, 17);
  (78064894, 17); (78103051, 17); (78141213, 17); (78179379, 17); (78217550, 17); (78255726, 17);
  (78293907, 17); (78332092, 17); (78370282, 17); (78408476, 17); (78446675, 17); (78484879, 17);
  (78523088, 17); (78561301, 17); (78599518, 17); (78637741, 17); (78675968, 17); (78714199, 17);
  (78752436, 17); (78790677, 17); (78828922, 17); (78867172, 17); (78905427, 17); (78943687, 17);
  (78981951, 17); (79020220, 17); (79058493, 17); (79096771, 17); (79135054, 17); (79173341, 17);
  (79211633, 17); (79249930, 17); (79288231, 17); (79326537, 17); (79364847, 17); (79403162, 17);
  (79441482, 17); (79479806, 17); (79518135, 17); (79556468, 17); (79594807, 17); (79633149, 17);
  (79671497, 17); (79709849, 17); (79748205, 17); (79786567, 17); (79824932, 17); (79863303, 17);
  (79901678, 17); (79940058, 17); (79978442, 17); (80016831, 17); (80055224, 17); (80093622, 17);
  (80132025, 17); (80170432, 17); (80208844, 17); (80247261, 17); (80285682, 17); (80324108, 17);
  (80362538, 17); (80400973, 17); (80439412, 17); (80477856, 17); (80516305, 17); (80554758, 17);
  (80593216, 17); (80631679, 17); (80670146, 17); (80708617, 17); (80747093, 17); (80785574, 17);
  (80824059, 17); (80862549, 17); (80901044, 17); (80939543, 17); (80978047, 17); (81016555, 17);
  (81055068, 17); (81093585, 17); (81132107, 17); (81170634, 17); (81209165, 17); (81247701, 17);
  (81286241, 17); (81324786, 17); (81363335, 17); (81401889, 17); (81440448, 17); (81479011, 17);
  (81517578, 17); (81556151, 17); (81594727, 17); (81633309, 17); (81671895, 17); (81710485, 17);
  (81749080, 17); (81787680, 17); (81826284, 17); (81864892, 17); (81903506, 17); (81942123, 17);
  (81980746, 17); (82019373, 17); (82058004, 17); (82096640, 17); (82135281, 17); (82173926, 17);
  (82212575, 17); (82251230, 17); (82289888, 17); (82328551, 17); (82367219, 17); (82405892, 17);
  (82444568, 17); (82483250, 17); (82521936, 17); (82560626, 17); (82599321, 17); (82638021, 17);
  (82676725, 17); (82715433, 17); (82754147, 17); (82792864, 17); (82831586, 17); (82870313, 17);
  (82909044, 17); (82947780, 17); (82986520, 17); (83025265, 17); (83064015, 17); (83102768, 17);
  (83141527, 17); (83180290, 17); (83219057, 17); (83257829, 17); (83296605, 17); (83335386, 17);
  (83374172, 17); (83412962, 17); (83451756, 17); (83490555, 17); (83529359, 17); (83568167, 17);
  (83606979, 17); (83645796, 17); (83684618, 17); (83723444, 17); (83762274, 17); (83801109, 17);
  (83839949, 17); (83878793, 17); (83917641, 17); (83956494, 17); (83995352, 17); (84034214, 17);
  (84073080, 17); (84111951, 17); (84150827, 17); (84189707, 17); (84228591, 17); (84267480, 17);
  (84306373, 17); (84345271, 17); (84384174, 17); (84423081, 17); (84461992, 17); (84500908, 17);
  (84539828, 17); (84578753, 17); (84617682, 17); (84656616, 17); (84695554, 17); (84734497, 17);
  (84773444, 17); (84812396, 17); (84851352, 17); (84890313, 17); (84929278, 17); (84968247, 17);
  (85007221, 17); (85046200, 17); (85085183, 17); (85124170, 17); (85163162, 17); (85202158, 17);
  (85241159, 17); (85280165, 17); (85319174, 17); (85358189, 17); (85397207, 17); (85436230, 17);
  (85475258, 17); (85514290, 17); (85553326, 17); (85592367, 17); (85631413, 17); (85670463, 17);
  (85709517, 17); (85748576, 17); (85787639, 17); (85826706, 17); (85865778, 17); (85904855, 17);
  (85943936, 17); (85983021, 17); (86022111, 17); (86061205, 17); (86100304, 17); (86139407, 17);
  (86178515, 17); (86217627, 17); (86256744, 17); (86295864, 17); (86334990, 17); (86374120, 17);
  (86413254, 17); (86452393, 17); (86491536, 17); (86530683, 17); (86569835, 17); (86608991, 17);
  (86648152, 17); (86687317, 17); (86726487, 17); (86765661, 17); (86804840, 17); (86844023, 17);
  (86883210, 17); (86922402, 17); (86961598, 17); (87000798, 17); (87040003, 17); (87079213, 17);
  (87118427, 17); (87157645, 17); (87196868, 17); (87236095, 17); (87275326, 17); (87314562, 17);
  (87353802, 17); (87393047, 17); (87432296, 17); (87471550, 17); (87510807, 17); (87550070, 17);
  (87589337, 17); (87628608, 17); (87667883, 17); (87707163, 17); (87746447, 17); (87785736, 17);
  (87825029, 17); (87864327, 17); (87903629, 17); (87942935, 17); (87982246, 17); (88021561, 17);
  (88060880, 17); (88100204, 17); (88139532, 17); (88178865, 17); (88218202, 17); (88257543, 17);
  (88296889, 17); (88336239, 17); (88375594, 17); (88414953, 17); (88454316, 17); (88493684, 17);
  (88533056, 17); (88572433, 17); (88611813, 17); (88651199, 17); (88690588, 17); (88729982, 17);
  (88769380, 17); (88808783, 17); (88848190, 17); (88887602, 17); (88927018, 17); (88966438, 17);
  (89005862, 17); (89045291, 17); (89084724, 17); (89124162, 17); (89163604, 17); (89203051, 17);
  (89242501, 17); (89281956, 17); (89321416, 17); (89360880, 17); (89400348, 17); (89439820, 17);
  (89479297, 17); (89518778, 17); (89558264, 17); (89597754, 17); (89637248, 17); (89676747, 17);
  (89716250, 17); (89755757, 17); (89795269, 17); (89834785, 17); (89874305, 17); (89913830, 17);
  (89953359, 17); (89992893, 17); (90032430, 17); (90071973, 17); (90111519, 17); (90151070, 17);
  (90190625, 17); (90230184, 17); (90269748, 17); (90309316, 17); (90348889, 17); (90388466, 17);
  (90428047, 17); (90467632, 17); (90507222, 17); (90546816, 17); (90586415, 17); (90626017, 17);
  (90665624, 17); (90705236, 17); (90744852, 17); (90784472, 17); (90824096, 17); (90863725, 17);
  (90903358, 17); (90942995, 17); (90982637, 17); (91022283, 17); (91061933, 17); (91101588, 17);
  (91141247, 17); (91180910, 17); (91220578, 17); (91260250, 17); (91299926, 17); (91339606, 17);
  (91379291, 17); (91418980, 17)
].

Definition rq_6 : list (Z * Z) := [
  (91458674, 17); (91498372, 17); (91538074, 17); (91577780, 17); (91617491, 17); (91657206, 17);
  (91696925, 17); (91736649, 17); (91776376, 17); (91816109, 17); (91855845, 17); (91895586, 17);
  (91935331, 17); (91975080, 17); (92014834, 17); (92054592, 17); (92094354, 17); (92134121, 17);
  (92173892, 17); (92213667, 17); (92253446, 17); (92293230, 17); (92333018, 17); (92372810, 17);
  (92412607, 17); (92452408, 17); (92492213, 17); (92532022, 17); (92571836, 17); (92611654, 17);
  (92651476, 17); (92691303, 17); (92731133, 17); (92770968, 17); (92810808, 17); (92850652, 17);
  (92890499, 17); (92930352, 17); (92970208, 17); (93010069, 17); (93049934, 17); (93089803, 17);
  (93129677, 17); (93169555, 17); (93209437, 17); (93249323, 17); (93289214, 17); (93329109, 17);
  (93369008, 17); (93408911, 17); (93448819, 17); (93488731, 17); (93528647, 17); (93568567, 17);
  (93608492, 17); (93648421, 17); (93688354, 17); (93728292, 17); (93768234, 17); (93808180, 17);
  (93848130, 17); (93888084, 17); (93928043, 17); (93968006, 17); (94007973, 17); (94047945, 17);
  (94087921, 17); (94127901, 17); (94167885, 17); (94207873, 17); (94247866, 17); (94287863, 17);
  (94327864, 17); (94367870, 17); (94407879, 17); (94447893, 17); (94487911, 17); (94527934, 17);
  (94567960, 17); (94607991, 17); (94648026, 17); (94688066, 17); (94728109, 17); (94768157, 17);
  (94808209, 17); (94848266, 17); (94888326, 17); (94928391, 17); (94968460, 17); (95008533, 17);
  (95048610, 17); (95088692, 17); (95128778, 17); (95168868, 17); (95208962, 17); (95249061, 17);
  (95289164, 17); (95329271, 17); (95369382, 17); (95409497, 17); (95449617, 17); (95489741, 17);
  (95529869, 17); (95570001, 17); (95610138, 17); (95650278, 17); (95690423, 17); (95730572, 17);
  (95770726, 17); (95810883, 17); (95851045, 17); (95891211, 17); (95931381, 17); (95971555, 17);
  (96011734, 17); (96051917, 17); (96092104, 17); (96132295, 17); (96172490, 17); (96212690, 17);
  (96252894, 17); (96293102, 17); (96333314, 17); (96373530, 17); (96413751, 17); (96453976, 17);
  (96494205, 17); (96534438, 17); (96574675, 17); (96614917, 17); (96655162, 17); (96695412, 17);
  (96735666, 17); (96775925, 17); (96816187, 17); (96856454, 17); (96896725, 17); (96937000, 17);
  (96977279, 17); (97017562, 17); (97057850, 17); (97098142, 17); (97138438, 17); (97178738, 17);
  (97219042, 17); (97259351, 17); (97299663, 17); (97339980, 17); (97380301, 17); (97420626, 17);
  (97460956, 17); (97501289, 17); (97541627, 17); (97581969, 17); (97622315, 17); (97662665, 17);
  (97703020, 17); (97743378, 17); (97783741, 17); (97824108, 17); (97864479, 17); (97904854, 17);
  (97945233, 17); (97985617, 17); (98026005, 17); (98066396, 17); (98106792, 17); (98147193, 17);
  (98187597, 17); (98228006, 17); (98268418, 17); (98308835, 17); (98349256, 17); (98389681, 17);
  (98430110, 17); (98470544, 17); (98510981, 17); (98551423, 17); (98591869, 17); (98632319, 17);
  (98672773, 17); (98713231, 17); (98753694, 17); (98794160, 17); (98834631, 17); (98875106, 17);
  (98915585, 17); (98956068, 17); (98996556, 17); (99037047, 17); (99077543, 17); (99118042, 17);
  (99158546, 17); (99199054, 17); (99239566, 17); (99280083, 17); (99320603, 17); (99361128, 17);
  (99401656, 17); (99442189, 17); (99482726, 17); (99523267, 17); (99563812, 17); (99604362, 17);
  (99644915, 17); (99685473, 17); (99726035, 17); (99766600, 17); (99807170, 17); (99847744, 17);
  (99888323, 17); (99928905, 17); (99969491, 17); (100010082, 17); (100050677, 17); (100091275, 17);
  (100131878, 17); (100172485, 17); (100213097, 17); (100253712, 17); (100294331, 17); (100334955, 17);
  (100375582, 17); (100416214, 17); (100456850, 17); (100497490, 17); (100538134, 17); (100578782, 17);
  (100619434, 17); (100660091, 17); (100700751, 17); (100741416, 17); (100782084, 17); (100822757, 17);
  (100863434, 17); (100904115, 17); (100944800, 17); (100985489, 17); (101026183, 17); (101066880, 17);
  (101107581, 17); (101148287, 17); (101188997, 17); (101229711, 17); (101270428, 17); (101311150, 17);
  (101351876, 17); (101392607, 17); (101433341, 17); (101474079, 17); (101514822, 17); (101555568, 17);
  (101596319, 17); (101637073, 17); (101677832, 17); (101718595, 17); (101759362, 17); (101800133, 17);
  (101840908, 17); (101881687, 17); (101922470, 17); (101963258, 17); (102004049, 17); (102044845, 17);
  (102085644, 17); (102126448, 17); (102167256, 17); (102208067, 17); (102248883, 17); (102289703, 17);
  (102330527, 17); (102371355, 17); (102412188, 17); (102453024, 17); (102493864, 17); (102534708, 17);
  (102575557, 17); (102616409, 17); (102657266, 17); (102698127, 17); (102738991, 17); (102779860, 17);
  (102820733, 17); (102861610, 17); (102902491, 17); (102943376, 17); (102984265, 17); (103025158, 17);
  (103066055, 17); (103106957, 17); (103147862, 17); (103188771, 17); (103229685, 17); (103270602, 17);
  (103311524, 17); (103352449, 17); (103393379, 17); (103434313, 17); (103475250, 17); (103516192, 17);
  (103557138, 17); (103598088, 17); (103639042, 17); (103680000, 17); (103720962, 17); (103761928, 17);
  (103802898, 17); (103843872, 17); (103884850, 17); (103925833, 17); (103966819, 17); (104007809, 17);
  (104048803, 17); (104089802, 17); (104130804, 17); (104171811, 17); (104212821, 17); (104253836, 17);
  (104294854, 17); (104335877, 17); (104376904, 17); (104417934, 17); (104458969, 17); (104500008, 17);
  (104541051, 17); (104582097, 17); (104623148, 17); (104664203, 17); (104705262, 17); (104746325, 17);
  (104787392, 17); (104828463, 17); (104869538, 17); (104910617, 17); (104951700, 17); (104992787, 17);
  (105033878, 17); (105074973, 17); (105116072, 17); (105157175, 17); (105198282, 17); (105239393, 17);
  (105280508, 17); (105321628, 17); (105362751, 17); (105403878, 17); (105445009, 17); (105486144, 17);
  (105527284, 17); (105568427, 17); (105609574, 17); (105650725, 17); (105691881, 17); (105733040, 17);
  (105774203, 17); (105815371, 17); (105856542, 17); (105897717, 17); (105938896, 17); (105980080, 17);
  (106021267, 17); (106062458, 17); (106103654, 17); (106144853, 17); (106186056, 17); (106227264, 17);
  (106268475, 17); (106309690, 17); (106350909, 17); (106392133, 17); (106433360, 17); (106474591, 17);
  (106515827, 17); (106557066, 17); (106598309, 17); (106639556, 17); (106680807, 17); (106722063, 17);
  (106763322, 17); (106804585, 17); (106845852, 17); (106887123, 17); (106928398, 17); (106969678, 17);
  (107010961, 17); (107052248, 17); (107093539, 17); (107134834, 17); (107176133, 17); (107217436, 17);
  (107258743, 17); (107300054, 17); (107341369, 17); (107382688, 17); (107424011, 17); (107465337, 17);
  (107506668, 17); (107548003, 17); (107589342, 17); (107630685, 17); (107672031, 17); (107713382, 17);
  (107754737, 17); (107796095, 17); (107837458, 17); (107878825, 17); (107920195, 17); (107961570, 17);
  (108002948, 17); (108044330, 17); (108085717, 17); (108127107, 17); (108168501, 17); (108209900, 17);
  (108251302, 17); (108292708, 17); (108334118, 17); (108375532, 17); (108416950, 17); (108458372, 17);
  (108499798, 17); (108541228, 17); (108582662, 17); (108624100, 17); (108665542, 17); (108706988, 17);
  (108748437, 17); (108789891, 17); (108831349, 17); (108872810, 17); (108914276, 17); (108955745, 17);
  (108997218, 17); (109038696, 17); (109080177, 17); (109121662, 17); (109163151, 17); (109204644, 17);
  (109246141, 17); (109287642, 17); (109329147, 17); (109370656, 17); (109412169, 17); (109453686, 17);
  (109495206, 17); (109536731, 17); (109578260, 17); (109619792, 17); (109661328, 17); (109702869, 17);
  (109744413, 17); (109785961, 17); (109827513, 17); (109869070, 17); (109910630, 17); (109952193, 17);
  (109993761, 17); (110035333, 17); (110076909, 17); (110118488, 17); (110160072, 17); (110201660, 17);
  (110243251, 17); (110284846, 17); (110326446, 17); (110368049, 17); (110409656, 17); (110451267, 17);
  (110492882, 17); (110534501, 17); (110576123, 17); (110617750, 17); (110659381, 17); (110701015, 17);
  (110742654, 17); (110784296, 17); (110825942, 17); (110867593, 17); (110909247, 17); (110950905, 17);
  (110992567, 17); (111034232, 17); (111075902, 17); (111117576, 17); (111159253, 17); (111200935, 17);
  (111242620, 17); (111284309, 17); (111326003, 17); (111367700, 17); (111409401, 17); (111451106, 17);
  (111492814, 17); (111534527, 17); (111576244, 17); (111617964, 17); (111659689, 17); (111701417, 17);
  (111743149, 17); (111784885, 17); (111826625, 17); (111868369, 17); (111910117, 17); (111951868, 17);
  (111993624, 17); (112035383, 17); (112077147, 17); (112118914, 17); (112160685, 17); (112202460, 17);
  (112244239, 17); (112286022, 17)
].

Definition rq_7 : list (Z * Z) := [
  (112327809, 17); (112369599, 17); (112411394, 17); (112453192, 17); (112494994, 17); (112536800, 17);
  (112578610, 17); (112620424, 17); (112662242, 17); (112704063, 17); (112745889, 17); (112787718, 17);
  (112829552, 17); (112871389, 17); (112913230, 17); (112955075, 17); (112996923, 17); (113038776, 17);
  (113080633, 17); (113122493, 17); (113164357, 17); (113206225, 17); (113248097, 17); (113289973, 17);
  (113331853, 17); (113373737, 17); (113415624, 17); (113457516, 17); (113499411, 17); (113541310, 17);
  (113583213, 17); (113625120, 17); (113667030, 17); (113708945, 17); (113750863, 17); (113792786, 17);
  (113834712, 17); (113876642, 17); (113918576, 17); (113960513, 17); (114002455, 17); (114044400, 17);
  (114086350, 17); (114128303, 17); (114170260, 17); (114212221, 17); (114254185, 17); (114296154, 17);
  (114338126, 17); (114380103, 17); (114422083, 17); (114464067, 17); (114506055, 17); (114548046, 17);
  (114590042, 17); (114632041, 17); (114674044, 17); (114716051, 17); (114758062, 17); (114800077, 17);
  (114842096, 17); (114884118, 17); (114926144, 17); (114968175, 17); (115010209, 17); (115052246, 17);
  (115094288, 17); (115136333, 17); (115178383, 17); (115220436, 17); (115262493, 17); (115304554, 17);
  (115346619, 17); (115388687, 17); (115430759, 17); (115472836, 17); (115514916, 17); (115556999, 17);
  (115599087, 17); (115641179, 17); (115683274, 17); (115725373, 17); (115767476, 17); (115809583, 17);
  (115851694, 17); (115893808, 17); (115935927, 17); (115978049, 17); (116020175, 17); (116062304, 17);
  (116104438, 17); (116146575, 17); (116188717, 17); (116230862, 17); (116273011, 17); (116315163, 17);
  (116357320, 17); (116399480, 17); (116441644, 17); (116483812, 17); (116525984, 17); (116568160, 17);
  (116610339, 17); (116652523, 17); (116694710, 17); (116736901, 17); (116779095, 17); (116821294, 17);
  (116863496, 17); (116905702, 17); (116947912, 17); (116990126, 17); (117032343, 17); (117074565, 17);
  (117116790, 17); (117159019, 17); (117201252, 17); (117243488, 17); (117285729, 17); (117327973, 17);
  (117370221, 17); (117412473, 17); (117454728, 17); (117496988, 17); (117539251, 17); (117581518, 17);
  (117623789, 17); (117666063, 17); (117708342, 17); (117750624, 17); (117792910, 17); (117835200, 17);
  (117877493, 17); (117919791, 17); (117962092, 17); (118004397, 17); (118046706, 17); (118089018, 17);
  (118131334, 17); (118173655, 17); (118215978, 17); (118258306, 17); (118300638, 17); (118342973, 17);
  (118385312, 17); (118427655, 17); (118470001, 17); (118512352, 17); (118554706, 17); (118597064, 17);
  (118639426, 17); (118681791, 17); (118724161, 17); (118766534, 17); (118808911, 17); (118851291, 17);
  (118893676, 17); (118936064, 17); (118978456, 17); (119020852, 17); (119063251, 17); (119105655, 17);
  (119148062, 17); (119190473, 17); (119232887, 17); (119275306, 17); (119317728, 17); (119360154, 17);
  (119402584, 17); (119445017, 17); (119487454, 17); (119529896, 17); (119572340, 17); (119614789, 17);
  (119657241, 17); (119699697, 17); (119742157, 17); (119784621, 17); (119827088, 17); (119869559, 17);
  (119912034, 17); (119954513, 17); (119996996, 17); (120039482, 17); (120081972, 17); (120124465, 17);
  (120166963, 17); (120209464, 17); (120251969, 17); (120294478, 17); (120336990, 17); (120379507, 17);
  (120422027, 17); (120464551, 17); (120507078, 17); (120549609, 17); (120592144, 17); (120634683, 17);
  (120677226, 17); (120719772, 17); (120762322, 17); (120804876, 17); (120847433, 17); (120889995, 17);
  (120932560, 17); (120975128, 17); (121017701, 17); (121060277, 17); (121102857, 17); (121145441, 17);
  (121188028, 17); (121230620, 17); (121273215, 17); (121315813, 17); (121358416, 17); (121401022, 17);
  (121443632, 17); (121486246, 17); (121528863, 17); (121571484, 17); (121614109, 17); (121656738, 17);
  (121699370, 17); (121742006, 17); (121784646, 17); (121827289, 17); (121869937, 17); (121912588, 17);
  (121955242, 17); (121997901, 17); (122040563, 17); (122083229, 17); (122125899, 17); (122168572, 17);
  (122211249, 17); (122253930, 17); (122296615, 17); (122339303, 17); (122381995, 17); (122424691, 17);
  (122467390, 17); (122510093, 17); (122552800, 17); (122595511, 17); (122638225, 17); (122680943, 17);
  (122723665, 17); (122766391, 17); (122809120, 17); (122851853, 17); (122894589, 17); (122937330, 17);
  (122980074, 17); (123022822, 17); (123065573, 17); (123108328, 17); (123151087, 17); (123193850, 17);
  (123236616, 17); (123279386, 17); (123322160, 17); (123364938, 17); (123407719, 17); (123450504, 17);
  (123493292, 17); (123536085, 17); (123578881, 17); (123621680, 17); (123664484, 17); (123707291, 17);
  (123750102, 17); (123792916, 17); (123835735, 17); (123878557, 17); (123921382, 17); (123964212, 17);
  (124007045, 17); (124049881, 17); (124092722, 17); (124135566, 17); (124178414, 17); (124221265, 17);
  (124264121, 17); (124306980, 17); (124349842, 17); (124392709, 17); (124435579, 17); (124478452, 17);
  (124521330, 17); (124564211, 17); (124607096, 17); (124649984, 17); (124692876, 17); (124735772, 17);
  (124778672, 17); (124821575, 17); (124864482, 17); (124907392, 17); (124950307, 17); (124993225, 17);
  (125036146, 17); (125079072, 17); (125122001, 17); (125164933, 17); (125207870, 17); (125250810, 17);
  (125293754, 17); (125336701, 17); (125379652, 17); (125422607, 17); (125465565, 17); (125508527, 17);
  (125551493, 17); (125594463, 17); (125637436, 17); (125680413, 17); (125723393, 17); (125766377, 17);
  (125809365, 17); (125852357, 17); (125895352, 17); (125938351, 17); (125981354, 17); (126024360, 17);
  (126067370, 17); (126110383, 17); (126153400, 17); (126196421, 17); (126239446, 17); (126282474, 17);
  (126325506, 17); (126368542, 17); (126411581, 17); (126454624, 17); (126497670, 17); (126540720, 17);
  (126583774, 17); (126626832, 17); (126669893, 17); (126712958, 17); (126756026, 17); (126799099, 17);
  (126842174, 17); (126885254, 17); (126928337, 17); (126971424, 17); (127014514, 17); (127057608, 17);
  (127100706, 17); (127143808, 17); (127186913, 17); (127230021, 17); (127273134, 17); (127316250, 17);
  (127359370, 17); (127402493, 17); (127445620, 17); (127488750, 17); (127531885, 17); (127575023, 17);
  (127618164, 17); (127661309, 17); (127704458, 17); (127747611, 17); (127790767, 17); (127833927, 17);
  (127877090, 17); (127920257, 17); (127963428, 17); (128006602, 17); (128049780, 17); (128092962, 17);
  (128136147, 17); (128179336, 17); (128222529, 17); (128265725, 17); (128308925, 17); (128352128, 17);
  (128395335, 17); (128438546, 17); (128481761, 17); (128524979, 17); (128568200, 17); (128611426, 17);
  (128654654, 17); (128697887, 17); (128741123, 17); (128784363, 17); (128827606, 17); (128870854, 17);
  (128914104, 17); (128957359, 17); (129000616, 17); (129043878, 17); (129087143, 17); (129130412, 17);
  (129173685, 17); (129216961, 17); (129260240, 17); (129303524, 17); (129346811, 17); (129390101, 17);
  (129433395, 17); (129476693, 17); (129519995, 17); (129563300, 17); (129606608, 17); (129649921, 17);
  (129693237, 17); (129736556, 17); (129779879, 17); (129823206, 17); (129866536, 17); (129909870, 17);
  (129953208, 17); (129996549, 17); (130039894, 17); (130083242, 17); (130126594, 17); (130169950, 17);
  (130213309, 17); (130256672, 17); (130300039, 17); (130343409, 17); (130386783, 17); (130430160, 17);
  (130473541, 17); (130516925, 17); (130560313, 17); (130603705, 17); (130647100, 17); (130690499, 17);
  (130733902, 17); (130777308, 17); (130820718, 17); (130864131, 17); (130907548, 17); (130950969, 17);
  (130994393, 17); (131037821, 17); (131081252, 17); (131124687, 17); (131168126, 17); (131211568, 17);
  (131255013, 17); (131298463, 17); (131341916, 17); (131385372, 17); (131428832, 17); (131472296, 17);
  (131515763, 17); (131559234, 17); (131602709, 17); (131646187, 17); (131689668, 17); (131733154, 17);
  (131776643, 17); (131820135, 17); (131863631, 17); (131907131, 17); (131950634, 17); (131994141, 17);
  (132037651, 17); (132081165, 17); (132124682, 17); (132168204, 17); (132211728, 17); (132255257, 17);
  (132298788, 17); (132342324, 17); (132385863, 17); (132429406, 17); (132472952, 17); (132516501, 17);
  (132560055, 17); (132603612, 17); (132647172, 17); (132690736, 17); (132734304, 17); (132777875, 17);
  (132821450, 17); (132865028, 17); (132908610, 17); (132952196, 17); (132995785, 17); (133039378, 17);
  (133082974, 17); (133126574, 17); (133170177, 17); (133213784, 17); (133257395, 17); (133301009, 17);
  (133344626, 17); (133388248, 17); (133431872, 17); (133475501, 17); (133519133, 17); (133562768, 17);
  (133606407, 17); (133650050, 17); (133693696, 17); (133737346, 17); (133780999, 17); (133824656, 17);
  (133868316, 17); (133911980, 17); (133955648, 17); (133999319, 17); (134042994, 17); (134086672, 17);
  (134130354, 17); (134174039, 17)
].

Definition rq_8 : list (Z * Z) := [
  (67108864, 18); (67130710, 18); (67152558, 18); (67174408, 18); (67196259, 18); (67218113, 18);
  (67239968, 18); (67261825, 18); (67283683, 18); (67305544, 18); (67327406, 18); (67349270, 18);
  (67371136, 18); (67393003, 18); (67414873, 18); (67436744, 18); (67458616, 18); (67480491, 18);
  (67502367, 18); (67524246, 18); (67546126, 18); (67568007, 18); (67589891, 18); (67611776, 18);
  (67633663, 18); (67655552, 18); (67677442, 18); (67699335, 18); (67721229, 18); (67743125, 18);
  (67765022, 18); (67786922, 18); (67808823, 18); (67830726, 18); (67852631, 18); (67874537, 18);
  (67896446, 18); (67918356, 18); (67940267, 18); (67962181, 18); (67984096, 18); (68006013, 18);
  (68027932, 18); (68049853, 18); (68071775, 18); (68093699, 18); (68115625, 18); (68137553, 18);
  (68159482, 18); (68181414, 18); (68203347, 18); (68225281, 18); (68247218, 18); (68269156, 18);
  (68291096, 18); (68313038, 18); (68334982, 18); (68356927, 18); (68378874, 18); (68400823, 18);
  (68422773, 18); (68444726, 18); (68466680, 18); (68488636, 18); (68510593, 18); (68532553, 18);
  (68554514, 18); (68576477, 18); (68598442, 18); (68620408, 18); (68642376, 18); (68664346, 18);
  (68686318, 18); (68708291, 18); (68730267, 18); (68752244, 18); (68774222, 18); (68796203, 18);
  (68818185, 18); (68840169, 18); (68862155, 18); (68884142, 18); (68906132, 18); (68928123, 18);
  (68950115, 18); (68972110, 18); (68994106, 18); (69016104, 18); (69038104, 18); (69060106, 18);
  (69082109, 18); (69104114, 18); (69126121, 18); (69148129, 18); (69170140, 18); (69192152, 18);
  (69214165, 18); (69236181, 18); (69258198, 18); (69280217, 18); (69302238, 18); (69324261, 18);
  (69346285, 18); (69368311, 18); (69390339, 18); (69412369, 18); (69434400, 18); (69456433, 18);
  (69478468, 18); (69500504, 18); (69522542, 18); (69544583, 18); (69566624, 18); (69588668, 18);
  (69610713, 18); (69632760, 18); (69654809, 18); (69676859, 18); (69698912, 18); (69720966, 18);
  (69743021, 18); (69765079, 18); (69787138, 18); (69809199, 18); (69831262, 18); (69853326, 18);
  (69875392, 18); (69897460, 18); (69919530, 18); (69941602, 18); (69963675, 18); (69985750, 18);
  (70007826, 18); (70029905, 18); (70051985, 18); (70074067, 18); (70096150, 18); (70118236, 18);
  (70140323, 18); (70162412, 18); (70184502, 18); (70206594, 18); (70228689, 18); (70250784, 18);
  (70272882, 18); (70294981, 18); (70317082, 18); (70339185, 18); (70361289, 18); (70383395, 18);
  (70405503, 18); (70427613, 18); (70449725, 18); (70471838, 18); (70493953, 18); (70516069, 18);
  (70538188, 18); (70560308, 18); (70582429, 18); (70604553, 18); (70626678, 18); (70648805, 18);
  (70670934, 18); (70693065, 18); (70715197, 18); (70737331, 18); (70759466, 18); (70781604, 18);
  (70803743, 18); (70825884, 18); (70848026, 18); (70870171, 18); (70892317, 18); (70914465, 18);
  (70936614, 18); (70958765, 18); (70980918, 18); (71003073, 18); (71025229, 18); (71047388, 18);
  (71069548, 18); (71091709, 18); (71113873, 18); (71136038, 18); (71158204, 18); (71180373, 18);
  (71202543, 18); (71224715, 18); (71246889, 18); (71269064, 18); (71291241, 18); (71313420, 18);
  (71335601, 18); (71357783, 18); (71379967, 18); (71402153, 18); (71424341, 18); (71446530, 18);
  (71468721, 18); (71490913, 18); (71513108, 18); (71535304, 18); (71557502, 18); (71579701, 18);
  (71601903, 18); (71624106, 18); (71646310, 18); (71668517, 18); (71690725, 18); (71712935, 18);
  (71735146, 18); (71757360, 18); (71779575, 18); (71801792, 18); (71824010, 18); (71846230, 18);
  (71868452, 18); (71890676, 18); (71912901, 18); (71935128, 18); (71957357, 18); (71979587, 18);
  (72001820, 18); (72024054, 18); (72046289, 18); (72068527, 18); (72090766, 18); (72113007, 18);
  (72135249, 18); (72157493, 18); (72179739, 18); (72201987, 18); (72224236, 18); (72246487, 18);
  (72268740, 18); (72290995, 18); (72313251, 18); (72335509, 18); (72357768, 18); (72380030, 18);
  (72402293, 18); (72424558, 18); (72446824, 18); (72469092, 18); (72491362, 18); (72513634, 18);
  (72535907, 18); (72558182, 18); (72580459, 18); (72602738, 18); (72625018, 18); (72647300, 18);
  (72669583, 18); (72691868, 18); (72714155, 18); (72736444, 18); (72758735, 18); (72781027, 18);
  (72803321, 18); (72825616, 18); (72847913, 18); (72870212, 18); (72892513, 18); (72914815, 18);
  (72937119, 18); (72959425, 18); (72981733, 18); (73004042, 18); (73026353, 18); (73048665, 18);
  (73070980, 18); (73093296, 18); (73115613, 18); (73137933, 18); (73160254, 18); (73182577, 18);
  (73204901, 18); (73227228, 18); (73249555, 18); (73271885, 18); (73294216, 18); (73316549, 18);
  (73338884, 18); (73361221, 18); (73383559, 18); (73405899, 18); (73428240, 18); (73450583, 18);
  (73472928, 18); (73495275, 18); (73517623, 18); (73539973, 18); (73562325, 18); (73584678, 18);
  (73607034, 18); (73629390, 18); (73651749, 18); (73674109, 18); (73696471, 18); (73718835, 18);
  (73741200, 18); (73763567, 18); (73785936, 18); (73808306, 18); (73830678, 18); (73853052, 18);
  (73875427, 18); (73897805, 18); (73920183, 18); (73942564, 18); (73964946, 18); (73987330, 18);
  (74009716, 18); (74032103, 18); (74054492, 18); (74076883, 18); (74099275, 18); (74121669, 18);
  (74144065, 18); (74166463, 18); (74188862, 18); (74211263, 18); (74233665, 18); (74256069, 18);
  (74278475, 18); (74300883, 18); (74323292, 18); (74345703, 18); (74368116, 18); (74390530, 18);
  (74412946, 18); (74435364, 18); (74457784, 18); (74480205, 18); (74502628, 18); (74525052, 18);
  (74547478, 18); (74569906, 18); (74592336, 18); (74614767, 18); (74637200, 18); (74659635, 18);
  (74682071, 18); (74704509, 18); (74726949, 18); (74749390, 18); (74771833, 18); (74794278, 18);
  (74816724, 18); (74839172, 18); (74861622, 18); (74884074, 18); (74906527, 18); (74928982, 18);
  (74951438, 18); (74973896, 18); (74996356, 18); (75018818, 18); (75041281, 18); (75063746, 18);
  (75086212, 18); (75108681, 18); (75131151, 18); (75153622, 18); (75176096, 18); (75198571, 18);
  (75221047, 18); (75243526, 18); (75266006, 18); (75288488, 18); (75310971, 18); (75333456, 18);
  (75355943, 18); (75378431, 18); (75400921, 18); (75423413, 18); (75445907, 18); (75468402, 18);
  (75490899, 18); (75513397, 18); (75535897, 18); (75558399, 18); (75580903, 18); (75603408, 18);
  (75625915, 18); (75648423, 18); (75670933, 18); (75693445, 18); (75715959, 18); (75738474, 18);
  (75760991, 18); (75783510, 18); (75806030, 18); (75828552, 18); (75851076, 18); (75873601, 18);
  (75896128, 18); (75918656, 18); (75941187, 18); (75963719, 18); (75986252, 18); (76008788, 18);
  (76031325, 18); (76053863, 18); (76076404, 18); (76098946, 18); (76121489, 18); (76144035, 18);
  (76166582, 18); (76189130, 18); (76211681, 18); (76234233, 18); (76256786, 18); (76279342, 18);
  (76301899, 18); (76324457, 18); (76347018, 18); (76369580, 18); (76392143, 18); (76414709, 18);
  (76437276, 18); (76459844, 18); (76482415, 18); (76504987, 18); (76527560, 18); (76550136, 18);
  (76572713, 18); (76595291, 18); (76617872, 18); (76640454, 18); (76663037, 18); (76685623, 18);
  (76708210, 18); (76730798, 18); (76753389, 18); (76775980, 18); (76798574, 18); (76821169, 18);
  (76843766, 18); (76866365, 18); (76888965, 18); (76911567, 18); (76934171, 18); (76956776, 18);
  (76979383, 18); (77001992, 18); (77024602, 18); (77047214, 18); (77069827, 18); (77092442, 18);
  (77115059, 18); (77137678, 18); (77160298, 18); (77182920, 18); (77205543, 18); (77228169, 18);
  (77250795, 18); (77273424, 18); (77296054, 18); (77318686, 18); (77341319, 18); (77363954, 18);
  (77386591, 18); (77409230, 18); (77431870, 18); (77454511, 18); (77477155, 18); (77499800, 18);
  (77522446, 18); (77545095, 18); (77567745, 18); (77590396, 18); (77613050, 18); (77635705, 18);
  (77658361, 18); (77681020, 18); (77703679, 18); (77726341, 18); (77749004, 18); (77771669, 18);
  (77794336, 18); (77817004, 18); (77839674, 18); (77862345, 18); (77885018, 18); (77907693, 18);
  (77930369, 18); (77953048, 18); (77975727, 18); (77998409, 18); (78021092, 18); (78043776, 18);
  (78066463, 18); (78089151, 18); (78111840, 18); (78134531, 18); (78157224, 18); (78179919, 18);
  (78202615, 18); (78225313, 18); (78248012, 18); (78270714, 18); (78293416, 18); (78316121, 18);
  (78338827, 18); (78361535, 18); (78384244, 18); (78406955, 18); (78429668, 18); (78452382, 18);
  (78475098, 18); (78497816, 18)
].

Definition rq_9 : list (Z * Z) := [
  (78520535, 18); (78543256, 18); (78565978, 18); (78588702, 18); (78611428, 18); (78634156, 18);
  (78656885, 18); (78679616, 18); (78702348, 18); (78725082, 18); (78747818, 18); (78770555, 18);
  (78793294, 18); (78816034, 18); (78838777, 18); (78861521, 18); (78884266, 18); (78907013, 18);
  (78929762, 18); (78952512, 18); (78975264, 18); (78998018, 18); (79020774, 18); (79043531, 18);
  (79066289, 18); (79089049, 18); (79111811, 18); (79134575, 18); (79157340, 18); (79180107, 18);
  (79202875, 18); (79225645, 18); (79248417, 18); (79271190, 18); (79293965, 18); (79316742, 18);
  (79339520, 18); (79362300, 18); (79385082, 18); (79407865, 18); (79430650, 18); (79453436, 18);
  (79476224, 18); (79499014, 18); (79521805, 18); (79544598, 18); (79567393, 18); (79590189, 18);
  (79612987, 18); (79635786, 18); (79658587, 18); (79681390, 18); (79704195, 18); (79727001, 18);
  (79749808, 18); (79772618, 18); (79795428, 18); (79818241, 18); (79841055, 18); (79863871, 18);
  (79886688, 18); (79909507, 18); (79932328, 18); (79955150, 18); (79977974, 18); (80000800, 18);
  (80023627, 18); (80046456, 18); (80069287, 18); (80092119, 18); (80114952, 18); (80137788, 18);
  (80160625, 18); (80183463, 18); (80206303, 18); (80229145, 18); (80251989, 18); (80274834, 18);
  (80297681, 18); (80320529, 18); (80343379, 18); (80366231, 18); (80389084, 18); (80411939, 18);
  (80434795, 18); (80457653, 18); (80480513, 18); (80503374, 18); (80526237, 18); (80549102, 18);
  (80571968, 18); (80594836, 18); (80617705, 18); (80640576, 18); (80663449, 18); (80686323, 18);
  (80709199, 18); (80732077, 18); (80754956, 18); (80777837, 18); (80800719, 18); (80823603, 18);
  (80846489, 18); (80869376, 18); (80892265, 18); (80915156, 18); (80938048, 18); (80960942, 18);
  (80983837, 18); (81006734, 18); (81029633, 18); (81052533, 18); (81075435, 18); (81098338, 18);
  (81121243, 18); (81144150, 18); (81167058, 18); (81189968, 18); (81212880, 18); (81235793, 18);
  (81258708, 18); (81281624, 18); (81304542, 18); (81327462, 18); (81350383, 18); (81373306, 18);
  (81396231, 18); (81419157, 18); (81442084, 18); (81465014, 18); (81487945, 18); (81510877, 18);
  (81533811, 18); (81556747, 18); (81579685, 18); (81602624, 18); (81625564, 18); (81648506, 18);
  (81671450, 18); (81694396, 18); (81717343, 18); (81740291, 18); (81763242, 18); (81786194, 18);
  (81809147, 18); (81832102, 18); (81855059, 18); (81878017, 18); (81900977, 18); (81923939, 18);
  (81946902, 18); (81969867, 18); (81992833, 18); (82015801, 18); (82038771, 18); (82061742, 18);
  (82084715, 18); (82107689, 18); (82130665, 18); (82153643, 18); (82176622, 18); (82199603, 18);
  (82222585, 18); (82245569, 18); (82268555, 18); (82291542, 18); (82314531, 18); (82337522, 18);
  (82360514, 18); (82383507, 18); (82406503, 18); (82429499, 18); (82452498, 18); (82475498, 18);
  (82498500, 18); (82521503, 18); (82544508, 18); (82567515, 18); (82590523, 18); (82613532, 18);
  (82636544, 18); (82659557, 18); (82682571, 18); (82705587, 18); (82728605, 18); (82751624, 18);
  (82774645, 18); (82797668, 18); (82820692, 18); (82843718, 18); (82866745, 18); (82889774, 18);
  (82912804, 18); (82935837, 18); (82958870, 18); (82981906, 18); (83004943, 18); (83027981, 18);
  (83051021, 18); (83074063, 18); (83097106, 18); (83120151, 18); (83143198, 18); (83166246, 18);
  (83189296, 18); (83212347, 18); (83235400, 18); (83258454, 18); (83281510, 18); (83304568, 18);
  (83327627, 18); (83350688, 18); (83373751, 18); (83396815, 18); (83419881, 18); (83442948, 18);
  (83466017, 18); (83489087, 18); (83512159, 18); (83535233, 18); (83558308, 18); (83581385, 18);
  (83604463, 18); (83627543, 18); (83650625, 18); (83673708, 18); (83696793, 18); (83719879, 18);
  (83742967, 18); (83766057, 18); (83789148, 18); (83812241, 18); (83835335, 18); (83858431, 18);
  (83881528, 18); (83904628, 18); (83927728, 18); (83950831, 18); (83973934, 18); (83997040, 18);
  (84020147, 18); (84043256, 18); (84066366, 18); (84089478, 18); (84112591, 18); (84135706, 18);
  (84158823, 18); (84181941, 18); (84205061, 18); (84228182, 18); (84251305, 18); (84274429, 18);
  (84297556, 18); (84320683, 18); (84343812, 18); (84366943, 18); (84390076, 18); (84413210, 18);
  (84436345, 18); (84459483, 18); (84482621, 18); (84505762, 18); (84528904, 18); (84552047, 18);
  (84575192, 18); (84598339, 18); (84621487, 18); (84644637, 18); (84667789, 18); (84690942, 18);
  (84714097, 18); (84737253, 18); (84760411, 18); (84783570, 18); (84806731, 18); (84829893, 18);
  (84853057, 18); (84876223, 18); (84899390, 18); (84922559, 18); (84945730, 18); (84968902, 18);
  (84992075, 18); (85015251, 18); (85038427, 18); (85061606, 18); (85084786, 18); (85107967, 18);
  (85131150, 18); (85154335, 18); (85177521, 18); (85200709, 18); (85223898, 18); (85247089, 18);
  (85270282, 18); (85293476, 18); (85316672, 18); (85339869, 18); (85363068, 18); (85386268, 18);
  (85409470, 18); (85432674, 18); (85455879, 18); (85479086, 18); (85502294, 18); (85525504, 18);
  (85548715, 18); (85571928, 18); (85595143, 18); (85618359, 18); (85641577, 18); (85664796, 18);
  (85688017, 18); (85711239, 18); (85734464, 18); (85757689, 18); (85780916, 18); (85804145, 18);
  (85827375, 18); (85850607, 18); (85873841, 18); (85897076, 18); (85920312, 18); (85943551, 18);
  (85966790, 18); (85990032, 18); (86013275, 18); (86036519, 18); (86059765, 18); (86083013, 18);
  (86106262, 18); (86129513, 18); (86152765, 18); (86176019, 18); (86199274, 18); (86222531, 18);
  (86245790, 18); (86269050, 18); (86292312, 18); (86315575, 18); (86338840, 18); (86362107, 18);
  (86385375, 18); (86408644, 18); (86431915, 18); (86455188, 18); (86478462, 18); (86501738, 18);
  (86525015, 18); (86548294, 18); (86571575, 18); (86594857, 18); (86618141, 18); (86641426, 18);
  (86664713, 18); (86688001, 18); (86711291, 18); (86734583, 18); (86757876, 18); (86781170, 18);
  (86804466, 18); (86827764, 18); (86851063, 18); (86874364, 18); (86897667, 18); (86920971, 18);
  (86944276, 18); (86967583, 18); (86990892, 18); (87014202, 18); (87037514, 18); (87060827, 18);
  (87084142, 18); (87107459, 18); (87130777, 18); (87154096, 18); (87177418, 18); (87200740, 18);
  (87224065, 18); (87247390, 18); (87270718, 18); (87294047, 18); (87317377, 18); (87340709, 18);
  (87364043, 18); (87387378, 18); (87410715, 18); (87434053, 18); (87457393, 18); (87480735, 18);
  (87504078, 18); (87527422, 18); (87550768, 18); (87574116, 18); (87597465, 18); (87620816, 18);
  (87644168, 18); (87667522, 18); (87690877, 18); (87714234, 18); (87737593, 18); (87760953, 18);
  (87784315, 18); (87807678, 18); (87831043, 18); (87854409, 18); (87877777, 18); (87901146, 18);
  (87924517, 18); (87947890, 18); (87971264, 18); (87994639, 18); (88018017, 18); (88041395, 18);
  (88064776, 18); (88088158, 18); (88111541, 18); (88134926, 18); (88158312, 18); (88181700, 18);
  (88205090, 18); (88228481, 18); (88251874, 18); (88275268, 18); (88298664, 18); (88322061, 18);
  (88345460, 18); (88368861, 18); (88392263, 18); (88415666, 18); (88439071, 18); (88462478, 18);
  (88485886, 18); (88509296, 18); (88532707, 18); (88556120, 18); (88579534, 18); (88602950, 18);
  (88626368, 18); (88649787, 18); (88673207, 18); (88696629, 18); (88720053, 18); (88743478, 18);
  (88766905, 18); (88790333, 18); (88813763, 18); (88837195, 18); (88860628, 18); (88884062, 18);
  (88907498, 18); (88930936, 18); (88954375, 18); (88977815, 18); (89001258, 18); (89024701, 18);
  (89048147, 18); (89071593, 18); (89095042, 18); (89118492, 18); (89141943, 18); (89165396, 18);
  (89188851, 18); (89212307, 18); (89235764, 18); (89259224, 18); (89282684, 18); (89306147, 18);
  (89329610, 18); (89353076, 18); (89376543, 18); (89400011, 18); (89423481, 18); (89446953, 18);
  (89470426, 18); (89493900, 18); (89517376, 18); (89540854, 18); (89564333, 18); (89587814, 18);
  (89611296, 18); (89634780, 18); (89658265, 18); (89681752, 18); (89705241, 18); (89728731, 18);
  (89752222, 18); (89775715, 18); (89799210, 18); (89822706, 18); (89846203, 18); (89869703, 18);
  (89893203, 18); (89916706, 18); (89940209, 18); (89963715, 18); (89987222, 18); (90010730, 18);
  (90034240, 18); (90057751, 18); (90081264, 18); (90104779, 18); (90128295, 18); (90151813, 18);
  (90175332, 18); (90198852, 18); (90222375, 18); (90245898, 18); (90269424, 18); (90292951, 18);
  (90316479, 18); (90340009, 18)
].

Definition rq_10 : list (Z * Z) := [
  (90363540, 18); (90387073, 18); (90410608, 18); (90434144, 18); (90457681, 18); (90481220, 18);
  (90504761, 18); (90528303, 18); (90551847, 18); (90575392, 18); (90598938, 18); (90622487, 18);
  (90646036, 18); (90669588, 18); (90693141, 18); (90716695, 18); (90740251, 18); (90763808, 18);
  (90787367, 18); (90810928, 18); (90834490, 18); (90858053, 18); (90881618, 18); (90905185, 18);
  (90928753, 18); (90952323, 18); (90975894, 18); (90999467, 18); (91023041, 18); (91046617, 18);
  (91070194, 18); (91093773, 18); (91117353, 18); (91140935, 18); (91164518, 18); (91188103, 18);
  (91211690, 18); (91235277, 18); (91258867, 18); (91282458, 18); (91306051, 18); (91329645, 18);
  (91353240, 18); (91376837, 18); (91400436, 18); (91424036, 18); (91447638, 18); (91471241, 18);
  (91494846, 18); (91518452, 18); (91542060, 18); (91565669, 18); (91589280, 18); (91612892, 18);
  (91636506, 18); (91660121, 18); (91683738, 18); (91707357, 18); (91730977, 18); (91754598, 18);
  (91778221, 18); (91801845, 18); (91825471, 18); (91849099, 18); (91872728, 18); (91896359, 18);
  (91919991, 18); (91943624, 18); (91967260, 18); (91990896, 18); (92014534, 18); (92038174, 18);
  (92061815, 18); (92085458, 18); (92109102, 18); (92132748, 18); (92156395, 18); (92180044, 18);
  (92203694, 18); (92227346, 18); (92251000, 18); (92274654, 18); (92298311, 18); (92321969, 18);
  (92345628, 18); (92369289, 18); (92392951, 18); (92416615, 18); (92440281, 18); (92463948, 18);
  (92487616, 18); (92511286, 18); (92534958, 18); (92558631, 18); (92582305, 18); (92605982, 18);
  (92629659, 18); (92653338, 18); (92677019, 18); (92700701, 18); (92724385, 18); (92748070, 18);
  (92771756, 18); (92795445, 18); (92819134, 18); (92842825, 18); (92866518, 18); (92890212, 18);
  (92913908, 18); (92937605, 18); (92961304, 18); (92985004, 18); (93008706, 18); (93032409, 18);
  (93056114, 18); (93079820, 18); (93103528, 18); (93127238, 18); (93150948, 18); (93174661, 18);
  (93198375, 18); (93222090, 18); (93245807, 18); (93269525, 18); (93293245, 18); (93316966, 18);
  (93340689, 18); (93364414, 18); (93388140, 18); (93411867, 18); (93435596, 18); (93459326, 18);
  (93483058, 18); (93506792, 18); (93530527, 18); (93554263, 18); (93578001, 18); (93601741, 18);
  (93625482, 18); (93649224, 18); (93672968, 18); (93696714, 18); (93720460, 18); (93744209, 18);
  (93767959, 18); (93791710, 18); (93815463, 18); (93839218, 18); (93862974, 18); (93886732, 18);
  (93910491, 18); (93934251, 18); (93958013, 18); (93981777, 18); (94005542, 18); (94029308, 18);
  (94053076, 18); (94076846, 18); (94100617, 18); (94124389, 18); (94148163, 18); (94171939, 18);
  (94195716, 18); (94219494, 18); (94243275, 18); (94267056, 18); (94290839, 18); (94314624, 18);
  (94338410, 18); (94362197, 18); (94385986, 18); (94409777, 18); (94433569, 18); (94457362, 18);
  (94481157, 18); (94504954, 18); (94528752, 18); (94552551, 18); (94576353, 18); (94600155, 18);
  (94623959, 18); (94647765, 18); (94671572, 18); (94695380, 18); (94719190, 18); (94743002, 18);
  (94766815, 18); (94790629, 18); (94814445, 18); (94838263, 18); (94862082, 18); (94885902, 18);
  (94909724, 18); (94933548, 18); (94957372, 18); (94981199, 18); (95005027, 18); (95028856, 18);
  (95052687, 18); (95076520, 18); (95100354, 18); (95124189, 18); (95148026, 18); (95171864, 18);
  (95195704, 18); (95219546, 18); (95243389, 18); (95267233, 18); (95291079, 18); (95314926, 18);
  (95338775, 18); (95362625, 18); (95386477, 18); (95410331, 18); (95434185, 18); (95458042, 18);
  (95481899, 18); (95505759, 18); (95529620, 18); (95553482, 18); (95577346, 18); (95601211, 18);
  (95625078, 18); (95648946, 18); (95672816, 18); (95696687, 18); (95720559, 18); (95744434, 18);
  (95768309, 18); (95792186, 18); (95816065, 18); (95839945, 18); (95863827, 18); (95887710, 18);
  (95911595, 18); (95935481, 18); (95959368, 18); (95983257, 18); (96007148, 18); (96031040, 18);
  (96054933, 18); (96078828, 18); (96102725, 18); (96126623, 18); (96150522, 18); (96174423, 18);
  (96198326, 18); (96222230, 18); (96246135, 18); (96270042, 18); (96293950, 18); (96317860, 18);
  (96341771, 18); (96365684, 18); (96389599, 18); (96413514, 18); (96437432, 18); (96461350, 18);
  (96485271, 18); (96509192, 18); (96533116, 18); (96557040, 18); (96580966, 18); (96604894, 18);
  (96628823, 18); (96652754, 18); (96676686, 18); (96700619, 18); (96724555, 18); (96748491, 18);
  (96772429, 18); (96796369, 18); (96820310, 18); (96844252, 18); (96868196, 18); (96892141, 18);
  (96916088, 18); (96940037, 18); (96963987, 18); (96987938, 18); (97011891, 18); (97035845, 18);
  (97059801, 18); (97083758, 18); (97107717, 18); (97131677, 18); (97155639, 18); (97179602, 18);
  (97203566, 18); (97227533, 18); (97251500, 18); (97275469, 18); (97299440, 18); (97323412, 18);
  (97347385, 18); (97371360, 18); (97395337, 18); (97419315, 18); (97443294, 18); (97467275, 18);
  (97491257, 18); (97515241, 18); (97539226, 18); (97563213, 18); (97587201, 18); (97611191, 18);
  (97635182, 18); (97659175, 18); (97683169, 18); (97707165, 18); (97731162, 18); (97755160, 18);
  (97779160, 18); (97803162, 18); (97827165, 18); (97851169, 18); (97875175, 18); (97899183, 18);
  (97923192, 18); (97947202, 18); (97971214, 18); (97995227, 18); (98019242, 18); (98043258, 18);
  (98067276, 18); (98091295, 18); (98115316, 18); (98139338, 18); (98163361, 18); (98187386, 18);
  (98211413, 18); (98235441, 18); (98259470, 18); (98283501, 18); (98307534, 18); (98331567, 18);
  (98355603, 18); (98379640, 18); (98403678, 18); (98427718, 18); (98451759, 18); (98475802, 18);
  (98499846, 18); (98523891, 18); (98547938, 18); (98571987, 18); (98596037, 18); (98620088, 18);
  (98644141, 18); (98668196, 18); (98692252, 18); (98716309, 18); (98740368, 18); (98764428, 18);
  (98788490, 18); (98812553, 18); (98836618, 18); (98860684, 18); (98884751, 18); (98908820, 18);
  (98932891, 18); (98956963, 18); (98981036, 18); (99005111, 18); (99029188, 18); (99053266, 18);
  (99077345, 18); (99101426, 18); (99125508, 18); (99149592, 18); (99173677, 18); (99197763, 18);
  (99221852, 18); (99245941, 18); (99270032, 18); (99294125, 18); (99318219, 18); (99342314, 18);
  (99366411, 18); (99390509, 18); (99414609, 18); (99438710, 18); (99462813, 18); (99486917, 18);
  (99511023, 18); (99535130, 18); (99559238, 18); (99583348, 18); (99607460, 18); (99631573, 18);
  (99655687, 18); (99679803, 18); (99703920, 18); (99728039, 18); (99752159, 18); (99776281, 18);
  (99800404, 18); (99824528, 18); (99848655, 18); (99872782, 18); (99896911, 18); (99921041, 18);
  (99945173, 18); (99969307, 18); (99993441, 18); (100017578, 18); (100041715, 18); (100065855, 18);
  (100089995, 18); (100114137, 18); (100138281, 18); (100162426, 18); (100186572, 18); (100210720, 18);
  (100234869, 18); (100259020, 18); (100283172, 18); (100307326, 18); (100331481, 18); (100355638, 18);
  (100379796, 18); (100403955, 18); (100428116, 18); (100452279, 18); (100476443, 18); (100500608, 18);
  (100524775, 18); (100548943, 18); (100573113, 18); (100597284, 18); (100621457, 18); (100645631, 18);
  (100669806, 18); (100693983, 18); (100718161, 18); (100742341, 18); (100766523, 18); (100790705, 18);
  (100814890, 18); (100839075, 18); (100863262, 18); (100887451, 18); (100911641, 18); (100935832, 18);
  (100960025, 18); (100984220, 18); (101008415, 18); (101032613, 18); (101056811, 18); (101081012, 18);
  (101105213, 18); (101129416, 18); (101153621, 18); (101177827, 18); (101202034, 18); (101226243, 18);
  (101250453, 18); (101274665, 18); (101298878, 18); (101323093, 18); (101347309, 18); (101371526, 18);
  (101395745, 18); (101419966, 18); (101444188, 18); (101468411, 18); (101492636, 18); (101516862, 18);
  (101541089, 18); (101565319, 18); (101589549, 18); (101613781, 18); (101638015, 18); (101662249, 18);
  (101686486, 18); (101710723, 18); (101734963, 18); (101759203, 18); (101783445, 18); (101807689, 18);
  (101831934, 18); (101856180, 18); (101880428, 18); (101904677, 18); (101928928, 18); (101953180, 18);
  (101977434, 18); (102001689, 18); (102025946, 18); (102050204, 18); (102074463, 18); (102098724, 18);
  (102122986, 18); (102147250, 18); (102171515, 18); (102195782, 18); (102220050, 18); (102244319, 18);
  (102268590, 18); (102292862, 18); (102317136, 18); (102341412, 18); (102365688, 18); (102389966, 18);
  (102414246, 18); (102438527, 18); (102462809, 18); (102487093, 18); (102511379, 18); (102535665, 18);
  (102559954, 18); (102584243, 18)
].

Definition rq_11 : list (Z * Z) := [
  (102608534, 18); (102632827, 18); (102657121, 18); (102681416, 18); (102705713, 18); (102730011, 18);
  (102754311, 18); (102778612, 18); (102802915, 18); (102827219, 18); (102851524, 18); (102875831, 18);
  (102900139, 18); (102924449, 18); (102948760, 18); (102973073, 18); (102997387, 18); (103021702, 18);
  (103046019, 18); (103070338, 18); (103094657, 18); (103118979, 18); (103143301, 18); (103167625, 18);
  (103191951, 18); (103216278, 18); (103240606, 18); (103264936, 18); (103289267, 18); (103313600, 18);
  (103337934, 18); (103362270, 18); (103386607, 18); (103410945, 18); (103435285, 18); (103459626, 18);
  (103483969, 18); (103508313, 18); (103532659, 18); (103557006, 18); (103581354, 18); (103605704, 18);
  (103630056, 18); (103654408, 18); (103678762, 18); (103703118, 18); (103727475, 18); (103751834, 18);
  (103776193, 18); (103800555, 18); (103824918, 18); (103849282, 18); (103873647, 18); (103898014, 18);
  (103922383, 18); (103946753, 18); (103971124, 18); (103995497, 18); (104019871, 18); (104044247, 18);
  (104068624, 18); (104093002, 18); (104117382, 18); (104141763, 18); (104166146, 18); (104190530, 18);
  (104214916, 18); (104239303, 18); (104263691, 18); (104288081, 18); (104312473, 18); (104336865, 18);
  (104361259, 18); (104385655, 18); (104410052, 18); (104434450, 18); (104458850, 18); (104483252, 18);
  (104507654, 18); (104532058, 18); (104556464, 18); (104580871, 18); (104605279, 18); (104629689, 18);
  (104654100, 18); (104678513, 18); (104702927, 18); (104727343, 18); (104751760, 18); (104776178, 18);
  (104800598, 18); (104825019, 18); (104849442, 18); (104873866, 18); (104898291, 18); (104922718, 18);
  (104947147, 18); (104971576, 18); (104996007, 18); (105020440, 18); (105044874, 18); (105069309, 18);
  (105093746, 18); (105118185, 18); (105142624, 18); (105167065, 18); (105191508, 18); (105215952, 18);
  (105240397, 18); (105264844, 18); (105289292, 18); (105313742, 18); (105338193, 18); (105362645, 18);
  (105387099, 18); (105411555, 18); (105436011, 18); (105460470, 18); (105484929, 18); (105509390, 18);
  (105533852, 18); (105558316, 18); (105582782, 18); (105607248, 18); (105631716, 18); (105656186, 18);
  (105680657, 18); (105705129, 18); (105729603, 18); (105754078, 18); (105778554, 18); (105803032, 18);
  (105827512, 18); (105851993, 18); (105876475, 18); (105900958, 18); (105925444, 18); (105949930, 18);
  (105974418, 18); (105998907, 18); (106023398, 18); (106047890, 18); (106072384, 18); (106096879, 18);
  (106121375, 18); (106145873, 18); (106170372, 18); (106194873, 18); (106219375, 18); (106243878, 18);
  (106268383, 18); (106292889, 18); (106317397, 18); (106341906, 18); (106366416, 18); (106390928, 18);
  (106415442, 18); (106439956, 18); (106464473, 18); (106488990, 18); (106513509, 18); (106538030, 18);
  (106562551, 18); (106587075, 18); (106611599, 18); (106636125, 18); (106660653, 18); (106685182, 18);
  (106709712, 18); (106734243, 18); (106758777, 18); (106783311, 18); (106807847, 18); (106832384, 18);
  (106856923, 18); (106881463, 18); (106906005, 18); (106930548, 18); (106955092, 18); (106979638, 18);
  (107004185, 18); (107028733, 18); (107053283, 18); (107077835, 18); (107102388, 18); (107126942, 18);
  (107151497, 18); (107176055, 18); (107200613, 18); (107225173, 18); (107249734, 18); (107274297, 18);
  (107298861, 18); (107323426, 18); (107347993, 18); (107372561, 18); (107397131, 18); (107421702, 18);
  (107446275, 18); (107470848, 18); (107495424, 18); (107520000, 18); (107544579, 18); (107569158, 18);
  (107593739, 18); (107618321, 18); (107642905, 18); (107667490, 18); (107692077, 18); (107716665, 18);
  (107741254, 18); (107765845, 18); (107790437, 18); (107815030, 18); (107839625, 18); (107864222, 18);
  (107888819, 18); (107913419, 18); (107938019, 18); (107962621, 18); (107987224, 18); (108011829, 18);
  (108036435, 18); (108061043, 18); (108085652, 18); (108110262, 18); (108134874, 18); (108159487, 18);
  (108184102, 18); (108208718, 18); (108233335, 18); (108257954, 18); (108282574, 18); (108307196, 18);
  (108331819, 18); (108356443, 18); (108381069, 18); (108405696, 18); (108430324, 18); (108454954, 18);
  (108479586, 18); (108504219, 18); (108528853, 18); (108553488, 18); (108578125, 18); (108602764, 18);
  (108627403, 18); (108652044, 18); (108676687, 18); (108701331, 18); (108725976, 18); (108750623, 18);
  (108775271, 18); (108799921, 18); (108824572, 18); (108849224, 18); (108873878, 18); (108898533, 18);
  (108923189, 18); (108947847, 18); (108972506, 18); (108997167, 18); (109021829, 18); (109046493, 18);
  (109071158, 18); (109095824, 18); (109120491, 18); (109145161, 18); (109169831, 18); (109194503, 18);
  (109219176, 18); (109243851, 18); (109268527, 18); (109293204, 18); (109317883, 18); (109342563, 18);
  (109367245, 18); (109391928, 18); (109416612, 18); (109441298, 18); (109465985, 18); (109490674, 18);
  (109515364, 18); (109540055, 18); (109564748, 18); (109589442, 18); (109614137, 18); (109638834, 18);
  (109663532, 18); (109688232, 18); (109712933, 18); (109737636, 18); (109762340, 18); (109787045, 18);
  (109811751, 18); (109836460, 18); (109861169, 18); (109885880, 18); (109910592, 18); (109935306, 18);
  (109960020, 18); (109984737, 18); (110009455, 18); (110034174, 18); (110058894, 18); (110083616, 18);
  (110108340, 18); (110133064, 18); (110157790, 18); (110182518, 18); (110207247, 18); (110231977, 18);
  (110256709, 18); (110281442, 18); (110306176, 18); (110330912, 18); (110355649, 18); (110380387, 18);
  (110405127, 18); (110429869, 18); (110454611, 18); (110479356, 18); (110504101, 18); (110528848, 18);
  (110553596, 18); (110578346, 18); (110603097, 18); (110627849, 18); (110652603, 18); (110677358, 18);
  (110702115, 18); (110726873, 18); (110751632, 18); (110776393, 18); (110801155, 18); (110825919, 18);
  (110850683, 18); (110875450, 18); (110900217, 18); (110924986, 18); (110949757, 18); (110974529, 18);
  (110999302, 18); (111024076, 18); (111048852, 18); (111073630, 18); (111098408, 18); (111123188, 18);
  (111147970, 18); (111172753, 18); (111197537, 18); (111222322, 18); (111247109, 18); (111271898, 18);
  (111296688, 18); (111321479, 18); (111346271, 18); (111371065, 18); (111395860, 18); (111420657, 18);
  (111445455, 18); (111470254, 18); (111495055, 18); (111519857, 18); (111544661, 18); (111569466, 18);
  (111594272, 18); (111619080, 18); (111643889, 18); (111668699, 18); (111693511, 18); (111718324, 18);
  (111743139, 18); (111767955, 18); (111792772, 18); (111817591, 18); (111842411, 18); (111867233, 18);
  (111892055, 18); (111916880, 18); (111941705, 18); (111966532, 18); (111991361, 18); (112016190, 18);
  (112041021, 18); (112065854, 18); (112090688, 18); (112115523, 18); (112140359, 18); (112165197, 18);
  (112190037, 18); (112214878, 18); (112239720, 18); (112264563, 18); (112289408, 18); (112314254, 18);
  (112339102, 18); (112363951, 18); (112388801, 18); (112413653, 18); (112438506, 18); (112463360, 18);
  (112488216, 18); (112513073, 18); (112537932, 18); (112562792, 18); (112587653, 18); (112612516, 18);
  (112637380, 18); (112662246, 18); (112687112, 18); (112711981, 18); (112736850, 18); (112761721, 18);
  (112786593, 18); (112811467, 18); (112836342, 18); (112861219, 18); (112886096, 18); (112910976, 18);
  (112935856, 18); (112960738, 18); (112985621, 18); (113010506, 18); (113035392, 18); (113060279, 18);
  (113085168, 18); (113110058, 18); (113134950, 18); (113159843, 18); (113184737, 18); (113209632, 18);
  (113234529, 18); (113259428, 18); (113284327, 18); (113309228, 18); (113334131, 18); (113359035, 18);
  (113383940, 18); (113408846, 18); (113433754, 18); (113458664, 18); (113483574, 18); (113508486, 18);
  (113533400, 18); (113558314, 18); (113583231, 18); (113608148, 18); (113633067, 18); (113657987, 18);
  (113682909, 18); (113707832, 18); (113732756, 18); (113757682, 18); (113782609, 18); (113807537, 18);
  (113832467, 18); (113857398, 18); (113882330, 18); (113907264, 18); (113932200, 18); (113957136, 18);
  (113982074, 18); (114007013, 18); (114031954, 18); (114056896, 18); (114081840, 18); (114106784, 18);
  (114131731, 18); (114156678, 18); (114181627, 18); (114206577, 18); (114231529, 18); (114256482, 18);
  (114281436, 18); (114306392, 18); (114331349, 18); (114356307, 18); (114381267, 18); (114406228, 18);
  (114431191, 18); (114456154, 18); (114481120, 18); (114506086, 18); (114531054, 18); (114556023, 18);
  (114580994, 18); (114605966, 18); (114630940, 18); (114655914, 18); (114680890, 18); (114705868, 18);
  (114730847, 18); (114755827, 18); (114780808, 18); (114805791, 18); (114830776, 18); (114855761, 18);
  (114880748, 18); (114905736, 18); (114930726, 18); (114955717, 18); (114980710, 18); (115005703, 18);
  (115030698, 18); (115055695, 18); (115080693, 18); (115105692, 18); (115130693, 18); (115155694, 18);
  (115180698, 18); (115205702, 18)
].

Definition rq_12 : list (Z * Z) := [
  (115230708, 18); (115255716, 18); (115280724, 18); (115305734, 18); (115330746, 18); (115355759, 18);
  (115380773, 18); (115405788, 18); (115430805, 18); (115455823, 18); (115480843, 18); (115505864, 18);
  (115530886, 18); (115555910, 18); (115580935, 18); (115605961, 18); (115630989, 18); (115656018, 18);
  (115681048, 18); (115706080, 18); (115731113, 18); (115756147, 18); (115781183, 18); (115806220, 18);
  (115831259, 18); (115856299, 18); (115881340, 18); (115906382, 18); (115931426, 18); (115956472, 18);
  (115981518, 18); (116006566, 18); (116031615, 18); (116056666, 18); (116081718, 18); (116106772, 18);
  (116131826, 18); (116156882, 18); (116181940, 18); (116206999, 18); (116232059, 18); (116257120, 18);
  (116282183, 18); (116307247, 18); (116332313, 18); (116357380, 18); (116382448, 18); (116407518, 18);
  (116432588, 18); (116457661, 18); (116482734, 18); (116507809, 18); (116532886, 18); (116557963, 18);
  (116583042, 18); (116608123, 18); (116633205, 18); (116658288, 18); (116683372, 18); (116708458, 18);
  (116733545, 18); (116758633, 18); (116783723, 18); (116808814, 18); (116833907, 18); (116859001, 18);
  (116884096, 18); (116909193, 18); (116934291, 18); (116959390, 18); (116984490, 18); (117009592, 18);
  (117034696, 18); (117059800, 18); (117084906, 18); (117110014, 18); (117135122, 18); (117160232, 18);
  (117185344, 18); (117210456, 18); (117235570, 18); (117260686, 18); (117285803, 18); (117310921, 18);
  (117336040, 18); (117361161, 18); (117386283, 18); (117411407, 18); (117436531, 18); (117461658, 18);
  (117486785, 18); (117511914, 18); (117537044, 18); (117562176, 18); (117587308, 18); (117612443, 18);
  (117637578, 18); (117662715, 18); (117687853, 18); (117712993, 18); (117738134, 18); (117763276, 18);
  (117788420, 18); (117813565, 18); (117838711, 18); (117863859, 18); (117889008, 18); (117914158, 18);
  (117939310, 18); (117964463, 18); (117989617, 18); (118014773, 18); (118039930, 18); (118065088, 18);
  (118090248, 18); (118115409, 18); (118140571, 18); (118165735, 18); (118190900, 18); (118216067, 18);
  (118241234, 18); (118266403, 18); (118291574, 18); (118316746, 18); (118341919, 18); (118367093, 18);
  (118392269, 18); (118417446, 18); (118442624, 18); (118467804, 18); (118492985, 18); (118518168, 18);
  (118543352, 18); (118568537, 18); (118593723, 18); (118618911, 18); (118644100, 18); (118669291, 18);
  (118694483, 18); (118719676, 18); (118744870, 18); (118770066, 18); (118795263, 18); (118820462, 18);
  (118845662, 18); (118870863, 18); (118896065, 18); (118921269, 18); (118946474, 18); (118971681, 18);
  (118996889, 18); (119022098, 18); (119047309, 18); (119072521, 18); (119097734, 18); (119122948, 18);
  (119148164, 18); (119173381, 18); (119198600, 18); (119223820, 18); (119249041, 18); (119274264, 18);
  (119299487, 18); (119324713, 18); (119349939, 18); (119375167, 18); (119400396, 18); (119425627, 18);
  (119450859, 18); (119476092, 18); (119501326, 18); (119526562, 18); (119551799, 18); (119577038, 18);
  (119602278, 18); (119627519, 18); (119652762, 18); (119678006, 18); (119703251, 18); (119728497, 18);
  (119753745, 18); (119778994, 18); (119804245, 18); (119829497, 18); (119854750, 18); (119880004, 18);
  (119905260, 18); (119930517, 18); (119955776, 18); (119981036, 18); (120006297, 18); (120031559, 18);
  (120056823, 18); (120082088, 18); (120107355, 18); (120132623, 18); (120157892, 18); (120183162, 18);
  (120208434, 18); (120233707, 18); (120258982, 18); (120284257, 18); (120309534, 18); (120334813, 18);
  (120360093, 18); (120385374, 18); (120410656, 18); (120435940, 18); (120461225, 18); (120486511, 18);
  (120511799, 18); (120537088, 18); (120562378, 18); (120587670, 18); (120612963, 18); (120638258, 18);
  (120663553, 18); (120688850, 18); (120714149, 18); (120739448, 18); (120764749, 18); (120790051, 18);
  (120815355, 18); (120840660, 18); (120865966, 18); (120891274, 18); (120916583, 18); (120941893, 18);
  (120967205, 18); (120992518, 18); (121017832, 18); (121043147, 18); (121068464, 18); (121093782, 18);
  (121119102, 18); (121144423, 18); (121169745, 18); (121195069, 18); (121220393, 18); (121245719, 18);
  (121271047, 18); (121296376, 18); (121321706, 18); (121347037, 18); (121372370, 18); (121397704, 18);
  (121423039, 18); (121448376, 18); (121473714, 18); (121499054, 18); (121524394, 18); (121549736, 18);
  (121575080, 18); (121600424, 18); (121625770, 18); (121651117, 18); (121676466, 18); (121701816, 18);
  (121727167, 18); (121752520, 18); (121777874, 18); (121803229, 18); (121828585, 18); (121853943, 18);
  (121879302, 18); (121904663, 18); (121930025, 18); (121955388, 18); (121980752, 18); (122006118, 18);
  (122031485, 18); (122056853, 18); (122082223, 18); (122107594, 18); (122132967, 18); (122158340, 18);
  (122183715, 18); (122209092, 18); (122234469, 18); (122259848, 18); (122285228, 18); (122310610, 18);
  (122335993, 18); (122361377, 18); (122386763, 18); (122412149, 18); (122437537, 18); (122462927, 18);
  (122488318, 18); (122513710, 18); (122539103, 18); (122564498, 18); (122589894, 18); (122615291, 18);
  (122640690, 18); (122666090, 18); (122691491, 18); (122716894, 18); (122742298, 18); (122767703, 18);
  (122793110, 18); (122818518, 18); (122843927, 18); (122869337, 18); (122894749, 18); (122920162, 18);
  (122945577, 18); (122970993, 18); (122996410, 18); (123021828, 18); (123047248, 18); (123072669, 18);
  (123098091, 18); (123123515, 18); (123148940, 18); (123174366, 18); (123199793, 18); (123225222, 18);
  (123250653, 18); (123276084, 18); (123301517, 18); (123326951, 18); (123352386, 18); (123377823, 18);
  (123403261, 18); (123428701, 18); (123454141, 18); (123479583, 18); (123505027, 18); (123530471, 18);
  (123555917, 18); (123581365, 18); (123606813, 18); (123632263, 18); (123657714, 18); (123683167, 18);
  (123708620, 18); (123734075, 18); (123759532, 18); (123784990, 18); (123810449, 18); (123835909, 18);
  (123861371, 18); (123886834, 18); (123912298, 18); (123937763, 18); (123963230, 18); (123988699, 18);
  (124014168, 18); (124039639, 18); (124065111, 18); (124090584, 18); (124116059, 18); (124141535, 18);
  (124167012, 18); (124192491, 18); (124217971, 18); (124243452, 18); (124268935, 18); (124294419, 18);
  (124319904, 18); (124345390, 18); (124370878, 18); (124396367, 18); (124421858, 18); (124447349, 18);
  (124472842, 18); (124498337, 18); (124523832, 18); (124549329, 18); (124574828, 18); (124600327, 18);
  (124625828, 18); (124651330, 18); (124676834, 18); (124702338, 18); (124727844, 18); (124753352, 18);
  (124778860, 18); (124804370, 18); (124829882, 18); (124855394, 18); (124880908, 18); (124906423, 18);
  (124931940, 18); (124957458, 18); (124982977, 18); (125008497, 18); (125034019, 18); (125059542, 18);
  (125085066, 18); (125110592, 18); (125136119, 18); (125161647, 18); (125187176, 18); (125212707, 18);
  (125238239, 18); (125263773, 18); (125289308, 18); (125314844, 18); (125340381, 18); (125365919, 18);
  (125391459, 18); (125417001, 18); (125442543, 18); (125468087, 18); (125493632, 18); (125519179, 18);
  (125544726, 18); (125570275, 18); (125595826, 18); (125621377, 18); (125646930, 18); (125672484, 18);
  (125698040, 18); (125723597, 18); (125749155, 18); (125774714, 18); (125800275, 18); (125825837, 18);
  (125851400, 18); (125876965, 18); (125902531, 18); (125928098, 18); (125953667, 18); (125979236, 18);
  (126004807, 18); (126030380, 18); (126055954, 18); (126081529, 18); (126107105, 18); (126132682, 18);
  (126158261, 18); (126183842, 18); (126209423, 18); (126235006, 18); (126260590, 18); (126286175, 18);
  (126311762, 18); (126337350, 18); (126362939, 18); (126388530, 18); (126414122, 18); (126439715, 18);
  (126465309, 18); (126490905, 18); (126516502, 18); (126542100, 18); (126567700, 18); (126593301, 18);
  (126618903, 18); (126644506, 18); (126670111, 18); (126695717, 18); (126721325, 18); (126746933, 18);
  (126772543, 18); (126798155, 18); (126823767, 18); (126849381, 18); (126874996, 18); (126900613, 18);
  (126926230, 18); (126951849, 18); (126977470, 18); (127003091, 18); (127028714, 18); (127054338, 18);
  (127079964, 18); (127105591, 18); (127131219, 18); (127156848, 18); (127182479, 18); (127208111, 18);
  (127233744, 18); (127259378, 18); (127285014, 18); (127310651, 18); (127336290, 18); (127361929, 18);
  (127387570, 18); (127413213, 18); (127438856, 18); (127464501, 18); (127490147, 18); (127515794, 18);
  (127541443, 18); (127567093, 18); (127592745, 18); (127618397, 18); (127644051, 18); (127669706, 18);
  (127695363, 18); (127721020, 18); (127746679, 18); (127772340, 18); (127798001, 18); (127823664, 18);
  (127849328, 18); (127874994, 18); (127900661, 18); (127926329, 18); (127951998, 18); (127977669, 18);
  (128003340, 18); (128029014, 18); (128054688, 18); (128080364, 18); (128106041, 18); (128131719, 18);
  (128157399, 18); (128183080, 18)
].

Definition rq_13 : list (Z * Z) := [
  (128208762, 18); (128234446, 18); (128260130, 18); (128285816, 18); (128311504, 18); (128337192, 18);
  (128362882, 18); (128388573, 18); (128414266, 18); (128439960, 18); (128465655, 18); (128491351, 18);
  (128517049, 18); (128542748, 18); (128568448, 18); (128594149, 18); (128619852, 18); (128645556, 18);
  (128671262, 18); (128696968, 18); (128722676, 18); (128748385, 18); (128774096, 18); (128799807, 18);
  (128825520, 18); (128851235, 18); (128876950, 18); (128902667, 18); (128928385, 18); (128954105, 18);
  (128979826, 18); (129005548, 18); (129031271, 18); (129056996, 18); (129082721, 18); (129108449, 18);
  (129134177, 18); (129159907, 18); (129185638, 18); (129211370, 18); (129237103, 18); (129262838, 18);
  (129288574, 18); (129314312, 18); (129340050, 18); (129365790, 18); (129391532, 18); (129417274, 18);
  (129443018, 18); (129468763, 18); (129494509, 18); (129520257, 18); (129546006, 18); (129571756, 18);
  (129597508, 18); (129623260, 18); (129649014, 18); (129674770, 18); (129700526, 18); (129726284, 18);
  (129752043, 18); (129777804, 18); (129803565, 18); (129829328, 18); (129855093, 18); (129880858, 18);
  (129906625, 18); (129932393, 18); (129958163, 18); (129983933, 18); (130009705, 18); (130035478, 18);
  (130061253, 18); (130087029, 18); (130112806, 18); (130138584, 18); (130164363, 18); (130190144, 18);
  (130215926, 18); (130241710, 18); (130267495, 18); (130293281, 18); (130319068, 18); (130344856, 18);
  (130370646, 18); (130396437, 18); (130422230, 18); (130448023, 18); (130473818, 18); (130499614, 18);
  (130525412, 18); (130551210, 18); (130577010, 18); (130602812, 18); (130628614, 18); (130654418, 18);
  (130680223, 18); (130706029, 18); (130731837, 18); (130757646, 18); (130783456, 18); (130809268, 18);
  (130835080, 18); (130860894, 18); (130886710, 18); (130912526, 18); (130938344, 18); (130964163, 18);
  (130989984, 18); (131015805, 18); (131041628, 18); (131067452, 18); (131093278, 18); (131119105, 18);
  (131144933, 18); (131170762, 18); (131196592, 18); (131222424, 18); (131248257, 18); (131274092, 18);
  (131299927, 18); (131325764, 18); (131351602, 18); (131377442, 18); (131403283, 18); (131429125, 18);
  (131454968, 18); (131480812, 18); (131506658, 18); (131532505, 18); (131558354, 18); (131584203, 18);
  (131610054, 18); (131635906, 18); (131661760, 18); (131687614, 18); (131713470, 18); (131739327, 18);
  (131765186, 18); (131791046, 18); (131816907, 18); (131842769, 18); (131868633, 18); (131894497, 18);
  (131920364, 18); (131946231, 18); (131972100, 18); (131997969, 18); (132023841, 18); (132049713, 18);
  (132075587, 18); (132101462, 18); (132127338, 18); (132153216, 18); (132179094, 18); (132204974, 18);
  (132230856, 18); (132256738, 18); (132282622, 18); (132308507, 18); (132334394, 18); (132360281, 18);
  (132386170, 18); (132412060, 18); (132437952, 18); (132463844, 18); (132489738, 18); (132515634, 18);
  (132541530, 18); (132567428, 18); (132593327, 18); (132619227, 18); (132645129, 18); (132671032, 18);
  (132696936, 18); (132722841, 18); (132748748, 18); (132774656, 18); (132800565, 18); (132826475, 18);
  (132852387, 18); (132878300, 18); (132904214, 18); (132930129, 18); (132956046, 18); (132981964, 18);
  (133007883, 18); (133033804, 18); (133059726, 18); (133085649, 18); (133111573, 18); (133137499, 18);
  (133163425, 18); (133189353, 18); (133215283, 18); (133241213, 18); (133267145, 18); (133293078, 18);
  (133319013, 18); (133344949, 18); (133370885, 18); (133396824, 18); (133422763, 18); (133448704, 18);
  (133474646, 18); (133500589, 18); (133526533, 18); (133552479, 18); (133578426, 18); (133604374, 18);
  (133630324, 18); (133656275, 18); (133682227, 18); (133708180, 18); (133734135, 18); (133760090, 18);
  (133786048, 18); (133812006, 18); (133837966, 18); (133863926, 18); (133889888, 18); (133915852, 18);
  (133941816, 18); (133967782, 18); (133993750, 18); (134019718, 18); (134045688, 18); (134071659, 18);
  (134097631, 18); (134123604, 18); (134149579, 18); (134175555, 18); (134201532, 18); (67113755, 19);
  (67126745, 19); (67139735, 19); (67152727, 19); (67165718, 19); (67178711, 19); (67191704, 19);
  (67204697, 19); (67217692, 19); (67230687, 19); (67243682, 19); (67256678, 19); (67269675, 19);
  (67282672, 19); (67295670, 19); (67308669, 19); (67321668, 19); (67334668, 19); (67347669, 19);
  (67360670, 19); (67373672, 19); (67386674, 19); (67399677, 19); (67412681, 19); (67425685, 19);
  (67438690, 19); (67451696, 19); (67464702, 19); (67477709, 19); (67490716, 19); (67503724, 19);
  (67516733, 19); (67529742, 19); (67542752, 19); (67555763, 19); (67568774, 19); (67581786, 19);
  (67594798, 19); (67607811, 19); (67620825, 19); (67633839, 19); (67646854, 19); (67659870, 19);
  (67672886, 19); (67685903, 19); (67698920, 19); (67711938, 19); (67724957, 19); (67737976, 19);
  (67750996, 19); (67764017, 19); (67777038, 19); (67790060, 19); (67803083, 19); (67816106, 19);
  (67829129, 19); (67842154, 19); (67855179, 19); (67868204, 19); (67881230, 19); (67894257, 19);
  (67907285, 19); (67920313, 19); (67933342, 19); (67946371, 19); (67959401, 19); (67972431, 19);
  (67985463, 19); (67998494, 19); (68011527, 19); (68024560, 19); (68037594, 19); (68050628, 19);
  (68063663, 19); (68076699, 19); (68089735, 19); (68102772, 19); (68115809, 19); (68128847, 19);
  (68141886, 19); (68154925, 19); (68167965, 19); (68181006, 19); (68194047, 19); (68207089, 19);
  (68220131, 19); (68233174, 19); (68246218, 19); (68259262, 19); (68272307, 19); (68285353, 19);
  (68298399, 19); (68311446, 19); (68324493, 19); (68337541, 19); (68350590, 19); (68363639, 19);
  (68376689, 19); (68389740, 19); (68402791, 19); (68415843, 19); (68428895, 19); (68441948, 19);
  (68455002, 19); (68468056, 19); (68481111, 19); (68494166, 19); (68507223, 19); (68520279, 19);
  (68533337, 19); (68546395, 19); (68559453, 19); (68572513, 19); (68585572, 19); (68598633, 19);
  (68611694, 19); (68624756, 19); (68637818, 19); (68650881, 19); (68663945, 19); (68677009, 19);
  (68690074, 19); (68703139, 19); (68716205, 19); (68729272, 19); (68742339, 19); (68755407, 19);
  (68768476, 19); (68781545, 19); (68794615, 19); (68807685, 19); (68820757, 19); (68833828, 19);
  (68846900, 19); (68859973, 19); (68873047, 19); (68886121, 19); (68899196, 19); (68912271, 19);
  (68925347, 19); (68938424, 19); (68951501, 19); (68964579, 19); (68977658, 19); (68990737, 19);
  (69003816, 19); (69016897, 19); (69029978, 19); (69043059, 19); (69056142, 19); (69069224, 19);
  (69082308, 19); (69095392, 19); (69108477, 19); (69121562, 19); (69134648, 19); (69147735, 19);
  (69160822, 19); (69173910, 19); (69186998, 19); (69200087, 19); (69213177, 19); (69226267, 19);
  (69239358, 19); (69252449, 19); (69265541, 19); (69278634, 19); (69291728, 19); (69304822, 19);
  (69317916, 19); (69331011, 19); (69344107, 19); (69357204, 19); (69370301, 19); (69383398, 19);
  (69396497, 19); (69409596, 19); (69422695, 19); (69435795, 19); (69448896, 19); (69461998, 19);
  (69475100, 19); (69488202, 19); (69501305, 19); (69514409, 19); (69527514, 19); (69540619, 19);
  (69553725, 19); (69566831, 19); (69579938, 19); (69593046, 19); (69606154, 19); (69619263, 19);
  (69632372, 19); (69645482, 19); (69658593, 19); (69671704, 19); (69684816, 19); (69697928, 19);
  (69711042, 19); (69724155, 19); (69737270, 19); (69750385, 19); (69763500, 19); (69776616, 19);
  (69789733, 19); (69802851, 19); (69815969, 19); (69829087, 19); (69842207, 19); (69855327, 19);
  (69868447, 19); (69881568, 19); (69894690, 19); (69907812, 19); (69920935, 19); (69934059, 19);
  (69947183, 19); (69960308, 19); (69973434, 19); (69986560, 19); (69999686, 19); (70012814, 19);
  (70025942, 19); (70039070, 19); (70052199, 19); (70065329, 19); (70078459, 19); (70091590, 19);
  (70104722, 19); (70117854, 19); (70130987, 19); (70144120, 19); (70157254, 19); (70170389, 19);
  (70183524, 19); (70196660, 19); (70209797, 19); (70222934, 19); (70236072, 19); (70249210, 19);
  (70262349, 19); (70275489, 19); (70288629, 19); (70301770, 19); (70314911, 19); (70328053, 19);
  (70341196, 19); (70354339, 19); (70367483, 19); (70380628, 19); (70393773, 19); (70406918, 19);
  (70420065, 19); (70433212, 19); (70446359, 19); (70459508, 19); (70472656, 19); (70485806, 19);
  (70498956, 19); (70512106, 19); (70525258, 19); (70538410, 19); (70551562, 19); (70564715, 19);
  (70577869, 19); (70591023, 19); (70604178, 19); (70617334, 19); (70630490, 19); (70643647, 19);
  (70656804, 19); (70669962, 19); (70683121, 19); (70696280, 19); (70709440, 19); (70722600, 19);
  (70735761, 19); (70748923, 19)
].

Definition rq_14 : list (Z * Z) := [
  (70762085, 19); (70775248, 19); (70788412, 19); (70801576, 19); (70814740, 19); (70827906, 19);
  (70841072, 19); (70854238, 19); (70867405, 19); (70880573, 19); (70893742, 19); (70906911, 19);
  (70920080, 19); (70933250, 19); (70946421, 19); (70959593, 19); (70972765, 19); (70985938, 19);
  (70999111, 19); (71012285, 19); (71025459, 19); (71038634, 19); (71051810, 19); (71064986, 19);
  (71078163, 19); (71091341, 19); (71104519, 19); (71117698, 19); (71130877, 19); (71144057, 19);
  (71157238, 19); (71170419, 19); (71183601, 19); (71196784, 19); (71209967, 19); (71223150, 19);
  (71236335, 19); (71249519, 19); (71262705, 19); (71275891, 19); (71289078, 19); (71302265, 19);
  (71315453, 19); (71328642, 19); (71341831, 19); (71355021, 19); (71368211, 19); (71381402, 19);
  (71394594, 19); (71407786, 19); (71420979, 19); (71434172, 19); (71447366, 19); (71460561, 19);
  (71473756, 19); (71486952, 19); (71500148, 19); (71513345, 19); (71526543, 19); (71539741, 19);
  (71552940, 19); (71566140, 19); (71579340, 19); (71592541, 19); (71605742, 19); (71618944, 19);
  (71632147, 19); (71645350, 19); (71658553, 19); (71671758, 19); (71684963, 19); (71698168, 19);
  (71711375, 19); (71724581, 19); (71737789, 19); (71750997, 19); (71764206, 19); (71777415, 19);
  (71790625, 19); (71803835, 19); (71817046, 19); (71830258, 19); (71843470, 19); (71856683, 19);
  (71869897, 19); (71883111, 19); (71896325, 19); (71909541, 19); (71922757, 19); (71935973, 19);
  (71949190, 19); (71962408, 19); (71975626, 19); (71988845, 19); (72002065, 19); (72015285, 19);
  (72028506, 19); (72041727, 19); (72054949, 19); (72068172, 19); (72081395, 19); (72094619, 19);
  (72107843, 19); (72121068, 19); (72134294, 19); (72147520, 19); (72160747, 19); (72173975, 19);
  (72187203, 19); (72200431, 19); (72213661, 19); (72226891, 19); (72240121, 19); (72253352, 19);
  (72266584, 19); (72279816, 19); (72293049, 19); (72306283, 19); (72319517, 19); (72332751, 19);
  (72345987, 19); (72359223, 19); (72372459, 19); (72385696, 19); (72398934, 19); (72412173, 19);
  (72425412, 19); (72438651, 19); (72451891, 19); (72465132, 19); (72478373, 19); (72491615, 19);
  (72504858, 19); (72518101, 19); (72531345, 19); (72544589, 19); (72557834, 19); (72571080, 19);
  (72584326, 19); (72597573, 19); (72610821, 19); (72624069, 19); (72637317, 19); (72650566, 19);
  (72663816, 19); (72677067, 19); (72690318, 19); (72703569, 19); (72716822, 19); (72730075, 19);
  (72743328, 19); (72756582, 19); (72769837, 19); (72783092, 19); (72796348, 19); (72809604, 19);
  (72822862, 19); (72836119, 19); (72849378, 19); (72862636, 19); (72875896, 19); (72889156, 19);
  (72902417, 19); (72915678, 19); (72928940, 19); (72942203, 19); (72955466, 19); (72968729, 19);
  (72981994, 19); (72995259, 19); (73008524, 19); (73021790, 19); (73035057, 19); (73048324, 19);
  (73061592, 19); (73074861, 19); (73088130, 19); (73101400, 19); (73114670, 19); (73127941, 19);
  (73141213, 19); (73154485, 19); (73167758, 19); (73181031, 19); (73194305, 19); (73207579, 19);
  (73220855, 19); (73234130, 19); (73247407, 19); (73260684, 19); (73273961, 19); (73287239, 19);
  (73300518, 19); (73313798, 19); (73327078, 19); (73340358, 19); (73353639, 19); (73366921, 19);
  (73380204, 19); (73393487, 19); (73406770, 19); (73420054, 19); (73433339, 19); (73446625, 19);
  (73459911, 19); (73473197, 19); (73486484, 19); (73499772, 19); (73513060, 19); (73526349, 19);
  (73539639, 19); (73552929, 19); (73566220, 19); (73579511, 19); (73592803, 19); (73606096, 19);
  (73619389, 19); (73632683, 19); (73645977, 19); (73659272, 19); (73672568, 19); (73685864, 19);
  (73699161, 19); (73712458, 19); (73725756, 19); (73739055, 19); (73752354, 19); (73765654, 19);
  (73778954, 19); (73792255, 19); (73805557, 19); (73818859, 19); (73832162, 19); (73845465, 19);
  (73858769, 19); (73872074, 19); (73885379, 19); (73898685, 19); (73911991, 19); (73925298, 19);
  (73938606, 19); (73951914, 19); (73965223, 19); (73978532, 19); (73991842, 19); (74005153, 19);
  (74018464, 19); (74031776, 19); (74045088, 19); (74058401, 19); (74071715, 19); (74085029, 19);
  (74098344, 19); (74111659, 19); (74124975, 19); (74138291, 19); (74151609, 19); (74164926, 19);
  (74178245, 19); (74191564, 19); (74204883, 19); (74218203, 19); (74231524, 19); (74244846, 19);
  (74258167, 19); (74271490, 19); (74284813, 19); (74298137, 19); (74311461, 19); (74324786, 19);
  (74338112, 19); (74351438, 19); (74364764, 19); (74378092, 19); (74391420, 19); (74404748, 19);
  (74418077, 19); (74431407, 19); (74444737, 19); (74458068, 19); (74471400, 19); (74484732, 19);
  (74498065, 19); (74511398, 19); (74524732, 19); (74538066, 19); (74551401, 19); (74564737, 19);
  (74578073, 19); (74591410, 19); (74604748, 19); (74618086, 19); (74631424, 19); (74644763, 19);
  (74658103, 19); (74671444, 19); (74684785, 19); (74698126, 19); (74711469, 19); (74724811, 19);
  (74738155, 19); (74751499, 19); (74764844, 19); (74778189, 19); (74791535, 19); (74804881, 19);
  (74818228, 19); (74831575, 19); (74844924, 19); (74858272, 19); (74871622, 19); (74884972, 19);
  (74898322, 19); (74911674, 19); (74925025, 19); (74938378, 19); (74951731, 19); (74965084, 19);
  (74978438, 19); (74991793, 19); (75005148, 19); (75018504, 19); (75031861, 19); (75045218, 19);
  (75058575, 19); (75071934, 19); (75085293, 19); (75098652, 19); (75112012, 19); (75125373, 19);
  (75138734, 19); (75152096, 19); (75165458, 19); (75178822, 19); (75192185, 19); (75205549, 19);
  (75218914, 19); (75232280, 19); (75245646, 19); (75259012, 19); (75272379, 19); (75285747, 19);
  (75299116, 19); (75312485, 19); (75325854, 19); (75339224, 19); (75352595, 19); (75365966, 19);
  (75379338, 19); (75392711, 19); (75406084, 19); (75419458, 19); (75432832, 19); (75446207, 19);
  (75459583, 19); (75472959, 19); (75486335, 19); (75499713, 19); (75513090, 19); (75526469, 19);
  (75539848, 19); (75553228, 19); (75566608, 19); (75579989, 19); (75593370, 19); (75606752, 19);
  (75620135, 19); (75633518, 19); (75646902, 19); (75660286, 19); (75673671, 19); (75687057, 19);
  (75700443, 19); (75713830, 19); (75727217, 19); (75740605, 19); (75753994, 19); (75767383, 19);
  (75780772, 19); (75794163, 19); (75807554, 19); (75820945, 19); (75834337, 19); (75847730, 19);
  (75861123, 19); (75874517, 19); (75887911, 19); (75901306, 19); (75914702, 19); (75928098, 19);
  (75941495, 19); (75954892, 19); (75968290, 19); (75981689, 19); (75995088, 19); (76008488, 19);
  (76021888, 19); (76035289, 19); (76048691, 19); (76062093, 19); (76075496, 19); (76088899, 19);
  (76102303, 19); (76115707, 19); (76129112, 19); (76142518, 19); (76155924, 19); (76169331, 19);
  (76182739, 19); (76196147, 19); (76209555, 19); (76222965, 19); (76236374, 19); (76249785, 19);
  (76263196, 19); (76276607, 19); (76290019, 19); (76303432, 19); (76316845, 19); (76330259, 19);
  (76343674, 19); (76357089, 19); (76370505, 19); (76383921, 19); (76397338, 19); (76410755, 19);
  (76424173, 19); (76437592, 19); (76451011, 19); (76464431, 19); (76477851, 19); (76491272, 19);
  (76504694, 19); (76518116, 19); (76531539, 19); (76544962, 19); (76558386, 19); (76571811, 19);
  (76585236, 19); (76598662, 19); (76612088, 19); (76625515, 19); (76638942, 19); (76652370, 19);
  (76665799, 19); (76679228, 19); (76692658, 19); (76706088, 19); (76719519, 19); (76732951, 19);
  (76746383, 19); (76759816, 19); (76773249, 19); (76786683, 19); (76800118, 19); (76813553, 19);
  (76826988, 19); (76840425, 19); (76853862, 19); (76867299, 19); (76880737, 19); (76894176, 19);
  (76907615, 19); (76921055, 19); (76934495, 19); (76947936, 19); (76961378, 19); (76974820, 19);
  (76988263, 19); (77001706, 19); (77015150, 19); (77028594, 19); (77042039, 19); (77055485, 19);
  (77068931, 19); (77082378, 19); (77095826, 19); (77109274, 19); (77122722, 19); (77136172, 19);
  (77149621, 19); (77163072, 19); (77176523, 19); (77189974, 19); (77203426, 19); (77216879, 19);
  (77230332, 19); (77243786, 19); (77257241, 19); (77270696, 19); (77284151, 19); (77297608, 19);
  (77311064, 19); (77324522, 19); (77337980, 19); (77351438, 19); (77364897, 19); (77378357, 19);
  (77391818, 19); (77405278, 19); (77418740, 19); (77432202, 19); (77445665, 19); (77459128, 19);
  (77472592, 19); (77486056, 19); (77499521, 19); (77512987, 19); (77526453, 19); (77539920, 19);
  (77553387, 19); (77566855, 19)
].

Definition rq_15 : list (Z * Z) := [
  (77580324, 19); (77593793, 19); (77607262, 19); (77620733, 19); (77634203, 19); (77647675, 19);
  (77661147, 19); (77674619, 19); (77688093, 19); (77701566, 19); (77715041, 19); (77728516, 19);
  (77741991, 19); (77755467, 19); (77768944, 19); (77782421, 19); (77795899, 19); (77809378, 19);
  (77822857, 19); (77836336, 19); (77849816, 19); (77863297, 19); (77876779, 19); (77890261, 19);
  (77903743, 19); (77917226, 19); (77930710, 19); (77944194, 19); (77957679, 19); (77971165, 19);
  (77984651, 19); (77998137, 19); (78011624, 19); (78025112, 19); (78038600, 19); (78052089, 19);
  (78065579, 19); (78079069, 19); (78092560, 19); (78106051, 19); (78119543, 19); (78133035, 19);
  (78146528, 19); (78160022, 19); (78173516, 19); (78187011, 19); (78200506, 19); (78214002, 19);
  (78227499, 19); (78240996, 19); (78254493, 19); (78267992, 19); (78281491, 19); (78294990, 19);
  (78308490, 19); (78321991, 19); (78335492, 19); (78348994, 19); (78362496, 19); (78375999, 19);
  (78389502, 19); (78403006, 19); (78416511, 19); (78430016, 19); (78443522, 19); (78457029, 19);
  (78470536, 19); (78484043, 19); (78497551, 19); (78511060, 19); (78524569, 19); (78538079, 19);
  (78551590, 19); (78565101, 19); (78578612, 19); (78592125, 19); (78605637, 19); (78619151, 19);
  (78632665, 19); (78646179, 19); (78659694, 19); (78673210, 19); (78686726, 19); (78700243, 19);
  (78713761, 19); (78727279, 19); (78740797, 19); (78754316, 19); (78767836, 19); (78781357, 19);
  (78794877, 19); (78808399, 19); (78821921, 19); (78835444, 19); (78848967, 19); (78862491, 19);
  (78876015, 19); (78889540, 19); (78903066, 19); (78916592, 19); (78930119, 19); (78943646, 19);
  (78957174, 19); (78970702, 19); (78984231, 19); (78997761, 19); (79011291, 19); (79024822, 19);
  (79038353, 19); (79051885, 19); (79065418, 19); (79078951, 19); (79092485, 19); (79106019, 19);
  (79119554, 19); (79133089, 19); (79146625, 19); (79160162, 19); (79173699, 19); (79187236, 19);
  (79200775, 19); (79214314, 19); (79227853, 19); (79241393, 19); (79254934, 19); (79268475, 19);
  (79282017, 19); (79295559, 19); (79309102, 19); (79322646, 19); (79336190, 19); (79349734, 19);
  (79363280, 19); (79376825, 19); (79390372, 19); (79403919, 19); (79417466, 19); (79431014, 19);
  (79444563, 19); (79458112, 19); (79471662, 19); (79485213, 19); (79498764, 19); (79512315, 19);
  (79525868, 19); (79539420, 19); (79552974, 19); (79566528, 19); (79580082, 19); (79593637, 19);
  (79607193, 19); (79620749, 19); (79634306, 19); (79647863, 19); (79661421, 19); (79674980, 19);
  (79688539, 19); (79702098, 19); (79715659, 19); (79729219, 19); (79742781, 19); (79756343, 19);
  (79769905, 19); (79783469, 19); (79797032, 19); (79810597, 19); (79824161, 19); (79837727, 19);
  (79851293, 19); (79864859, 19); (79878427, 19); (79891994, 19); (79905563, 19); (79919132, 19);
  (79932701, 19); (79946271, 19); (79959842, 19); (79973413, 19); (79986985, 19); (80000557, 19);
  (80014130, 19); (80027704, 19); (80041278, 19); (80054852, 19); (80068428, 19); (80082003, 19);
  (80095580, 19); (80109157, 19); (80122734, 19); (80136312, 19); (80149891, 19); (80163470, 19);
  (80177050, 19); (80190631, 19); (80204212, 19); (80217793, 19); (80231375, 19); (80244958, 19);
  (80258541, 19); (80272125, 19); (80285709, 19); (80299294, 19); (80312880, 19); (80326466, 19);
  (80340053, 19); (80353640, 19); (80367228, 19); (80380817, 19); (80394406, 19); (80407995, 19);
  (80421585, 19); (80435176, 19); (80448768, 19); (80462359, 19); (80475952, 19); (80489545, 19);
  (80503139, 19); (80516733, 19); (80530328, 19); (80543923, 19); (80557519, 19); (80571115, 19);
  (80584712, 19); (80598310, 19); (80611908, 19); (80625507, 19); (80639106, 19); (80652706, 19);
  (80666307, 19); (80679908, 19); (80693510, 19); (80707112, 19); (80720715, 19); (80734318, 19);
  (80747922, 19); (80761526, 19); (80775131, 19); (80788737, 19); (80802343, 19); (80815950, 19);
  (80829558, 19); (80843166, 19); (80856774, 19); (80870383, 19); (80883993, 19); (80897603, 19);
  (80911214, 19); (80924825, 19); (80938437, 19); (80952050, 19); (80965663, 19); (80979277, 19);
  (80992891, 19); (81006506, 19); (81020121, 19); (81033737, 19); (81047354, 19); (81060971, 19);
  (81074588, 19); (81088207, 19); (81101825, 19); (81115445, 19); (81129065, 19); (81142685, 19);
  (81156306, 19); (81169928, 19); (81183550, 19); (81197173, 19); (81210797, 19); (81224421, 19);
  (81238045, 19); (81251670, 19); (81265296, 19); (81278922, 19); (81292549, 19); (81306176, 19);
  (81319804, 19); (81333433, 19); (81347062, 19); (81360692, 19); (81374322, 19); (81387953, 19);
  (81401584, 19); (81415216, 19); (81428849, 19); (81442482, 19); (81456116, 19); (81469750, 19);
  (81483385, 19); (81497020, 19); (81510656, 19); (81524292, 19); (81537930, 19); (81551567, 19);
  (81565206, 19); (81578844, 19); (81592484, 19); (81606124, 19); (81619764, 19); (81633405, 19);
  (81647047, 19); (81660689, 19); (81674332, 19); (81687975, 19); (81701619, 19); (81715264, 19);
  (81728909, 19); (81742555, 19); (81756201, 19); (81769848, 19); (81783495, 19); (81797143, 19);
  (81810791, 19); (81824440, 19); (81838090, 19); (81851740, 19); (81865391, 19); (81879042, 19);
  (81892694, 19); (81906347, 19); (81920000, 19); (81933653, 19); (81947308, 19); (81960962, 19);
  (81974618, 19); (81988274, 19); (82001930, 19); (82015587, 19); (82029245, 19); (82042903, 19);
  (82056562, 19); (82070221, 19); (82083881, 19); (82097541, 19); (82111202, 19); (82124864, 19);
  (82138526, 19); (82152189, 19); (82165852, 19); (82179516, 19); (82193180, 19); (82206845, 19);
  (82220511, 19); (82234177, 19); (82247843, 19); (82261511, 19); (82275179, 19); (82288847, 19);
  (82302516, 19); (82316185, 19); (82329856, 19); (82343526, 19); (82357197, 19); (82370869, 19);
  (82384542, 19); (82398215, 19); (82411888, 19); (82425562, 19); (82439237, 19); (82452912, 19);
  (82466588, 19); (82480264, 19); (82493941, 19); (82507618, 19); (82521296, 19); (82534975, 19);
  (82548654, 19); (82562334, 19); (82576014, 19); (82589695, 19); (82603377, 19); (82617059, 19);
  (82630741, 19); (82644424, 19); (82658108, 19); (82671792, 19); (82685477, 19); (82699162, 19);
  (82712848, 19); (82726535, 19); (82740222, 19); (82753910, 19); (82767598, 19); (82781287, 19);
  (82794976, 19); (82808666, 19); (82822357, 19); (82836048, 19); (82849739, 19); (82863431, 19);
  (82877124, 19); (82890817, 19); (82904511, 19); (82918206, 19); (82931901, 19); (82945596, 19);
  (82959293, 19); (82972989, 19); (82986687, 19); (83000384, 19); (83014083, 19); (83027782, 19);
  (83041481, 19); (83055181, 19); (83068882, 19); (83082583, 19); (83096285, 19); (83109988, 19);
  (83123690, 19); (83137394, 19); (83151098, 19); (83164803, 19); (83178508, 19); (83192214, 19);
  (83205920, 19); (83219627, 19); (83233334, 19); (83247042, 19); (83260751, 19); (83274460, 19);
  (83288170, 19); (83301880, 19); (83315591, 19); (83329302, 19); (83343014, 19); (83356727, 19);
  (83370440, 19); (83384153, 19); (83397868, 19); (83411582, 19); (83425298, 19); (83439014, 19);
  (83452730, 19); (83466447, 19); (83480165, 19); (83493883, 19); (83507602, 19); (83521321, 19);
  (83535041, 19); (83548761, 19); (83562482, 19); (83576204, 19); (83589926, 19); (83603649, 19);
  (83617372, 19); (83631096, 19); (83644820, 19); (83658545, 19); (83672270, 19); (83685996, 19);
  (83699723, 19); (83713450, 19); (83727178, 19); (83740906, 19); (83754635, 19); (83768364, 19);
  (83782094, 19); (83795825, 19); (83809556, 19); (83823288, 19); (83837020, 19); (83850753, 19);
  (83864486, 19); (83878220, 19); (83891955, 19); (83905690, 19); (83919425, 19); (83933161, 19);
  (83946898, 19); (83960635, 19); (83974373, 19); (83988112, 19); (84001851, 19); (84015590, 19);
  (84029330, 19); (84043071, 19); (84056812, 19); (84070554, 19); (84084296, 19); (84098039, 19);
  (84111783, 19); (84125527, 19); (84139271, 19); (84153017, 19); (84166762, 19); (84180509, 19);
  (84194255, 19); (84208003, 19); (84221751, 19); (84235499, 19); (84249248, 19); (84262998, 19);
  (84276748, 19); (84290499, 19); (84304250, 19); (84318002, 19); (84331755, 19); (84345508, 19);
  (84359261, 19); (84373015, 19); (84386770, 19); (84400525, 19); (84414281, 19); (84428038, 19);
  (84441794, 19); (84455552, 19); (84469310, 19); (84483069, 19); (84496828, 19); (84510588, 19);
  (84524348, 19); (84538109, 19)
].

Definition rq_16 : list (Z * Z) := [
  (84551870, 19); (84565632, 19); (84579395, 19); (84593158, 19); (84606921, 19); (84620686, 19);
  (84634450, 19); (84648216, 19); (84661982, 19); (84675748, 19); (84689515, 19); (84703283, 19);
  (84717051, 19); (84730820, 19); (84744589, 19)
].

Definition rq_table : list fixedfloat := ff (concat [rq_0; rq_1; rq_2; rq_3; rq_4; rq_5; rq_6; rq_7; rq_8; rq_9; rq_10; rq_11; rq_12; rq_13; rq_14; rq_15; rq_16]).
