(* ===== verification/MadSide.v ===== *)
(** * libs/libmad-0.15.1b/layer3.c: side information and scalefactors

    A local array that is not initialised is a list of [None]; reading such a cell is
    undefined.  The pointer [sfbwidth], which the code only moves forward, is the rest of the
    table of widths.  A failed [assert] calls [abort], which never returns; it counts as
    [Fault]. *)

From S2P Require Import Prelude MadBit MadTimer MadStream MadFrame MadFixed MadLayer12 MadHuffman MadTables3.

Definition MAD_ERROR_BADBIGVALUES : Z := 562.
Definition MAD_ERROR_BADBLOCKTYPE : Z := 563.
Definition MAD_ERROR_BADSCFSI : Z := 564.
Definition MAD_ERROR_BADPART3LEN : Z := 566.
Definition MAD_ERROR_BADHUFFTABLE : Z := 567.
Definition MAD_ERROR_BADHUFFDATA : Z := 568.

Definition count1table_select : Z := 1.
Definition scalefac_scale : Z := 2.
Definition preflag : Z := 4.
Definition mixed_block_flag : Z := 8.
Definition I_STEREO : Z := 1.
Definition MS_STEREO : Z := 2.

(** A test of a flag, as a C condition. *)
Definition on (flags f : Z) : bool := negb (Z.land flags f =? 0).

(** [struct channel] and [struct sideinfo] *)
Record channel_t : Type := Channel {
  c_part2_3_length : Z;
  c_big_values : Z;
  c_global_gain : Z;
  c_scalefac_compress : Z;
  c_flags : Z;
  c_block_type : Z;
  c_table_select : cells;   (* [3] *)
  c_subblock_gain : cells;  (* [3] *)
  c_region0_count : Z;
  c_region1_count : Z;
  c_scalefac : cells        (* [39] *)
}.
Record sideinfo : Type := SideInfo {
  si_main_data_begin : Z;
  si_private_bits : Z;
  si_scfsi : cells;              (* [2] *)
  si_gr : list (list channel_t)  (* gr[2].ch[2] *)
}.
Definition set_c_flags x c := Channel (c_part2_3_length c) (c_big_values c) (c_global_gain c) (c_scalefac_compress c) x (c_block_type c) (c_table_select c) (c_subblock_gain c) (c_region0_count c) (c_region1_count c) (c_scalefac c).
Definition set_c_scalefac x c := Channel (c_part2_3_length c) (c_big_values c) (c_global_gain c) (c_scalefac_compress c) (c_flags c) (c_block_type c) (c_table_select c) (c_subblock_gain c) (c_region0_count c) (c_region1_count c) x.

Definition undefined (n : nat) : cells := repeat None n.
Definition blank_channel : channel_t := Channel 0 0 0 0 0 0 (undefined 3) (undefined 3) 0 0 (undefined 39).

Definition cget (a : cells) (i : Z) : res Z := res_opt (cell_get a (Some i)).
Definition cset (a : cells) (i v : Z) : res cells := res_opt (cell_set a (Some i) v).
Definition at_ {A} (l : list A) (i : Z) : res A := res_opt (zget l i).

(** [gr[gr].ch[ch]] *)
Definition gr_get (g : list (list channel_t)) (gr ch : Z) : res channel_t := let! row := at_ g gr in at_ row ch.
Definition gr_set (g : list (list channel_t)) (gr ch : Z) (c : channel_t) : res (list (list channel_t)) :=
  let! row := at_ g gr in let! row := res_opt (zset row ch c) in res_opt (zset g gr row).

(** [for (i = lo; i < lo + n; ++i)] *)
Fixpoint rfor {S} (lo : Z) (n : nat) (body : Z -> S -> res S) (s : S) : res S :=
  match n with
  | O => Done s
  | Datatypes.S n' => let! s := body lo s in rfor (lo + 1) n' body s
  end.

Section Layer3.
Context `{T : Target} `{FP : Fpm}.

Section Input.
Context (buf : list Z).
Abbreviation bit_read := (bit_read buf).

(** ** Side information *)

(** Bits into the cells [lo], ..., [lo + n - 1]. *)
Definition read_cells (lo : Z) (n : nat) (len : Z) (s : cells * mad_bitptr) : res (cells * mad_bitptr) :=
  rfor lo n (fun i s => let! (v, ptr) := bit_read s.2 len in let! a := cset s.1 i v in Done (a, ptr)) s.

Definition III_channel (lsf : bool) (scfsi : res Z) (result : Z) (ptr : mad_bitptr) : res (Z * channel_t * mad_bitptr) :=
  let! (part2_3_length, ptr) := bit_read ptr 12 in
  let! (big_values, ptr) := bit_read ptr 9 in
  let! (global_gain, ptr) := bit_read ptr 8 in
  let! (scalefac_compress, ptr) := bit_read ptr (if lsf then 9 else 4) in
  let result := if (288 <? big_values) && (result =? 0) then MAD_ERROR_BADBIGVALUES else result in
  let! (window_switching_flag, ptr) := bit_read ptr 1 in
  let! (result, channel, ptr) :=
    if negb (window_switching_flag =? 0) then
      let! (block_type, ptr) := bit_read ptr 2 in
      let result := if (block_type =? 0) && (result =? 0) then MAD_ERROR_BADBLOCKTYPE else result in
      let! result :=
        if negb lsf && (block_type =? 2) then
          let! s := scfsi in Done (if negb (s =? 0) && (result =? 0) then MAD_ERROR_BADSCFSI else result)
        else Done result in
      let! (mixed, ptr) := bit_read ptr 1 in
      let flags := if negb (mixed =? 0) then mixed_block_flag else 0 in
      let region0_count := if (mixed =? 0) && (block_type =? 2) then 8 else 7 in
      let! (table_select, ptr) := read_cells 0 2 5 (undefined 3, ptr) in
      let! (subblock_gain, ptr) := read_cells 0 3 3 (undefined 3, ptr) in
      Done (result, Channel part2_3_length big_values global_gain scalefac_compress flags block_type table_select subblock_gain region0_count 36 (undefined 39), ptr)
    else
      let! (table_select, ptr) := read_cells 0 3 5 (undefined 3, ptr) in
      let! (region0_count, ptr) := bit_read ptr 4 in
      let! (region1_count, ptr) := bit_read ptr 3 in
      Done (result, Channel part2_3_length big_values global_gain scalefac_compress 0 0 table_select (undefined 3) region0_count region1_count (undefined 39), ptr) in
  let! (flags, ptr) := bit_read ptr (if lsf then 2 else 3) in
  Done (result, set_c_flags (Z.lor (c_flags channel) flags) channel, ptr).

Definition priv_bits (lsf : bool) (nch : Z) : Z := if lsf then (if nch =? 1 then 1 else 2) else (if nch =? 1 then 5 else 3).

(** The result, the side information, [data_bitlen], [priv_bitlen] and the bit pointer. *)
Definition III_sideinfo (nch : Z) (lsf : bool) (ptr : mad_bitptr) : res (Z * sideinfo * Z * Z * mad_bitptr) :=
  let priv_bitlen := priv_bits lsf nch in
  let! (main_data_begin, ptr) := bit_read ptr (if lsf then 8 else 9) in
  let! (private_bits, ptr) := bit_read ptr priv_bitlen in
  let ngr := if lsf then 1%nat else 2%nat in
  let! (scfsi, ptr) := if lsf then Done (undefined 2, ptr) else read_cells 0 (Z.to_nat nch) 4 (undefined 2, ptr) in
  let! (result, gr, data_bitlen, ptr) :=
    rfor 0 ngr (fun gr s => rfor 0 (Z.to_nat nch) (fun ch s =>
      let '(result, g, data_bitlen, ptr) := s in
      let! (result, channel, ptr) := III_channel lsf (cget scfsi ch) result ptr in
      let! g := gr_set g gr ch channel in
      Done (result, g, u32 (data_bitlen + c_part2_3_length channel), ptr)) s)
      (MAD_ERROR_NONE, repeat (repeat blank_channel 2) 2, 0, ptr) in
  Done (result, SideInfo main_data_begin private_bits scfsi gr, data_bitlen, priv_bitlen, ptr).

(** ** Scalefactors *)

(** [slen], the row of [nsfb_table] and whether [preflag] is set, without and with intensity
    stereo. *)
Definition lsf_lengths (scalefac_compress : Z) : list Z * Z * bool :=
  if scalefac_compress <? 400 then
    ([Z.shiftr scalefac_compress 4 / 5; Z.shiftr scalefac_compress 4 mod 5; Z.shiftr (scalefac_compress mod 16) 2; scalefac_compress mod 4], 0, false)
  else if scalefac_compress <? 500 then
    let s := scalefac_compress - 400 in ([Z.shiftr s 2 / 5; Z.shiftr s 2 mod 5; s mod 4; 0], 1, false)
  else
    let s := scalefac_compress - 500 in ([s / 3; s mod 3; 0; 0], 2, true).
Definition lsf_lengths_is (scalefac_compress : Z) : list Z * Z :=
  let s := Z.shiftr scalefac_compress 1 in
  if s <? 180 then ([s / 36; s mod 36 / 6; (s mod 36) mod 6; 0], 3)
  else if s <? 244 then let s := s - 180 in ([Z.shiftr (s mod 64) 4; Z.shiftr (s mod 16) 2; s mod 4; 0], 4)
  else let s := s - 244 in ([s / 3; s mod 3; 0; 0], 5).

(** [while (n < 39) scalefac[n++] = 0] *)
Definition zero_rest (n : Z) (a : cells) : res cells := rfor n (Z.to_nat (39 - n)) (fun i a => cset a i 0) a.

Definition block_index (c : channel_t) : Z := if c_block_type c =? 2 then (if on (c_flags c) mixed_block_flag then 2 else 1) else 0.

(** The channel, [gr1ch] (when there is one), the number of bits and the bit pointer. *)
Definition III_scalefactors_lsf (channel : channel_t) (gr1ch : option channel_t) (mode_extension : Z) (ptr : mad_bitptr) : res (channel_t * option channel_t * Z * mad_bitptr) :=
  let start := ptr in
  match (if on mode_extension I_STEREO then gr1ch else None) with
  | None =>
      let '(slen, row, pre) := lsf_lengths (c_scalefac_compress channel) in
      let channel := if pre : bool then set_c_flags (Z.lor (c_flags channel) preflag) channel else channel in
      let! rows := at_ nsfb_table row in
      let! nsfb := at_ rows (block_index channel) in
      let! (n, a, ptr) :=
        rfor 0 4 (fun part s =>
          let '(n, a, ptr) := s in
          let! count := at_ nsfb part in
          let! len := at_ slen part in
          let! (a, ptr) := read_cells n (Z.to_nat count) len (a, ptr) in
          Done (n + count, a, ptr)) (0, c_scalefac channel, ptr) in
      let! a := zero_rest n a in
      Done (set_c_scalefac a channel, gr1ch, mad_bit_length start ptr, ptr)
  | Some gr1 =>
      let '(slen, row) := lsf_lengths_is (c_scalefac_compress channel) in
      let! rows := at_ nsfb_table row in
      let! nsfb := at_ rows (block_index channel) in
      let! (n, a, b, ptr) :=
        rfor 0 4 (fun part s =>
          let! count := at_ nsfb part in
          let! len := at_ slen part in
          let max := Z.shiftl 1 len - 1 in
          rfor 0 (Z.to_nat count) (fun _ s =>
            let '(n, a, b, ptr) := s in
            let! (is_pos, ptr) := bit_read ptr len in
            let! a := cset a n is_pos in
            let! b := cset b n (Z.b2z (is_pos =? max)) in
            Done (n + 1, a, b, ptr)) s) (0, c_scalefac channel, c_scalefac gr1, ptr) in
      let! a := zero_rest n a in
      let! b := zero_rest n b in
      Done (set_c_scalefac a channel, Some (set_c_scalefac b gr1), mad_bit_length start ptr, ptr)
  end.

(** One group of scalefactors of a long block: copied from the first granule, or read. *)
Definition scf_group (scfsi bit : Z) (gr0 : cells) (lo : Z) (n : nat) (len : Z) (s : cells * mad_bitptr) : res (cells * mad_bitptr) :=
  if on scfsi bit then
    rfor lo n (fun i s => let! v := cget gr0 i in let! a := cset s.1 i v in Done (a, s.2)) s
  else read_cells lo n len s.

Definition III_scalefactors (channel : channel_t) (gr0ch : channel_t) (scfsi : Z) (ptr : mad_bitptr) : res (channel_t * Z * mad_bitptr) :=
  let start := ptr in
  let! (slen1, slen2) := at_ sflen_table (c_scalefac_compress channel) in
  let! (a, ptr) :=
    if c_block_type channel =? 2 then
      let nsfb := if on (c_flags channel) mixed_block_flag then 8 + 3 * 3 else 6 * 3 in
      let! s := read_cells 0 (Z.to_nat nsfb) slen1 (c_scalefac channel, ptr) in
      let! (a, ptr) := read_cells nsfb 18 slen2 s in
      let! a := rfor (nsfb + 18) 3 (fun i a => cset a i 0) a in
      Done (a, ptr)
    else
      let! s := scf_group scfsi 8 (c_scalefac gr0ch) 0 6 slen1 (c_scalefac channel, ptr) in
      let! s := scf_group scfsi 4 (c_scalefac gr0ch) 6 5 slen1 s in
      let! s := scf_group scfsi 2 (c_scalefac gr0ch) 11 5 slen2 s in
      let! (a, ptr) := scf_group scfsi 1 (c_scalefac gr0ch) 16 5 slen2 s in
      let! a := cset a 21 0 in
      Done (a, ptr) in
  Done (set_c_scalefac a channel, mad_bit_length start ptr, ptr).
End Input.
End Layer3.
