(* ===== verification/MadHuff.v ===== *)
(** * libs/libmad-0.15.1b/layer3.c: requantization and Huffman decoding *)

From S2P Require Import Prelude MadBit MadTimer MadStream MadFrame MadFixed MadLayer12 MadHuffman MadTables3 MadSide.

Section Huff.
Context `{T : Target} `{FP : Fpm}.

(** ** Requantization *)

(** [while (l < limit)] over the scalefactor bands: [body sfbi l width]; the number of the next
    band, the lines so far and the rest of the widths. *)
Fixpoint bands {S} (limit : Z) (widths : list Z) (sfbi l : Z) (body : Z -> Z -> Z -> S -> res S) (s : S) : res (Z * Z * list Z * S) :=
  if l <? limit then
    match widths with
    | [] => Fault
    | n :: rest => let! s := body sfbi l n s in bands limit rest (sfbi + 1) (l + n) body s
    end
  else Done (sfbi, l, widths, s).

(** The bands of short blocks, three windows at a time. *)
Fixpoint exponents_short (widths : list Z) (gains : Z * Z * Z) (scalefac : cells) (mult sfbi l : Z) (exponents : cells) : res cells :=
  if l <? 576 then
    match widths with
    | [] => Fault
    | n :: rest =>
        let '(gain0, gain1, gain2) := gains in
        let! s0 := cget scalefac sfbi in
        let! e := cset exponents sfbi (gain0 - Z.shiftl s0 mult) in
        let! s1 := cget scalefac (sfbi + 1) in
        let! e := cset e (sfbi + 1) (gain1 - Z.shiftl s1 mult) in
        let! s2 := cget scalefac (sfbi + 2) in
        let! e := cset e (sfbi + 2) (gain2 - Z.shiftl s2 mult) in
        match rest with
        | _ :: _ :: rest => exponents_short rest gains scalefac mult (sfbi + 3) (l + 3 * n) e
        | _ => if l + 3 * n <? 576 then Fault else Done e
        end
    end
  else Done exponents.

Definition scalefac_multiplier (channel : channel_t) : Z := if on (c_flags channel) scalefac_scale then 2 else 1.
Definition gain_of (channel : channel_t) : Z := c_global_gain channel - 210.

(** One long band. *)
Definition exponent_long (channel : channel_t) (sfbi : Z) (e : cells) : res cells :=
  let! s := cget (c_scalefac channel) sfbi in
  let! p := if on (c_flags channel) preflag then at_ pretab sfbi else Done 0 in
  cset e sfbi (gain_of channel - Z.shiftl (s + p) (scalefac_multiplier channel)).

Definition III_exponents (channel : channel_t) (sfbwidth : list Z) : res cells :=
  let gain := gain_of channel in
  if c_block_type channel =? 2 then
    let! (sfbi, l, rest, e) :=
      if on (c_flags channel) mixed_block_flag then bands 36 sfbwidth 0 0 (fun sfbi _ _ => exponent_long channel sfbi) (undefined 39)
      else Done (0, 0, sfbwidth, undefined 39) in
    let! g0 := cget (c_subblock_gain channel) 0 in
    let! g1 := cget (c_subblock_gain channel) 1 in
    let! g2 := cget (c_subblock_gain channel) 2 in
    exponents_short rest (gain - 8 * g0, gain - 8 * g1, gain - 8 * g2) (c_scalefac channel) (scalefac_multiplier channel) sfbi l e
  else rfor 0 22 (exponent_long channel) (undefined 39).

Definition MAD_F_MAX : Z := 2147483647.
Definition long_bits : Z := if long64 then 64 else 32.

Definition III_requantize (value exp : Z) : res Z :=
  let frac := Z.rem exp 4 in
  let exp := Z.quot exp 4 in
  let! power := at_ rq_table value in
  let requantized := mantissa power in
  let exp := exp + exponent power in
  let! requantized :=
    if exp <? 0 then
      if - exp >=? long_bits then Done 0
      else let! x := res_opt (fits (requantized + Z.shiftl 1 (- exp - 1))) in Done (Z.shiftr x (- exp))
    else if exp >=? 5 then Done MAD_F_MAX
    else Done (Z.shiftl requantized exp) in
  if negb (frac =? 0) then let! root := at_ root_table (3 + frac) in res_opt (mad_f_mul requantized root)
  else Done requantized.

(** ** Huffman decoding *)

(** [peek], [bits_left], [cachesz] and [bitcache] *)
Record bits_t : Type := Bits { b_peek : mad_bitptr; b_left : Z; b_sz : Z; b_cache : Z }.
Definition drop_bits (n : Z) (b : bits_t) : bits_t := Bits (b_peek b) (b_left b) (b_sz b - n) (b_cache b).
(** [cachesz + bits_left] *)
Definition b_total (b : bits_t) : Z := b_sz b + b_left b.

(** [MASK(bitcache, cachesz, bits)] and [MASK1BIT(bitcache, cachesz)]: a shift by a negative number
    or by the width of the type is undefined. *)
Definition MASK (b : bits_t) (bits : Z) : res Z :=
  if (bits <=? b_sz b) && (b_sz b - bits <? long_bits) then Done (Z.land (Z.shiftr (b_cache b) (b_sz b - bits)) (Z.shiftl 1 bits - 1))
  else Fault.
Definition MASK1BIT (b : bits_t) : res bool :=
  if (1 <=? b_sz b) && (b_sz b <=? 31) then Done (Z.testbit (b_cache b) (b_sz b - 1)) else Fault.

(** Requantized values of the current band: [reqhits] and [reqcache]. *)
Record req_t : Type := Req { rq_hits : Z; rq_cache : cells }.

(** [sfbound], [sfbwidth], [exp] and [expptr] *)
Record band_t : Type := Band { bd_bound : Z; bd_width : list Z; bd_exp : Z; bd_expptr : Z }.

(** [rcount], [region], [table], [linbits] and [startbits] *)
Record region_t : Type := Region { rg_count : Z; rg_region : Z; rg_table : list huffpair; rg_linbits : Z; rg_startbits : Z }.

Context (buf : list Z).

(** [bitcache = (bitcache << bits) | mad_bit_read(&peek, bits)] *)
Definition refill (bits : Z) (b : bits_t) : res bits_t :=
  if bits <? long_bits then
    let! (v, peek) := bit_read buf (b_peek b) bits in
    Done (Bits peek (b_left b - bits) (b_sz b + bits) (Z.lor (ulong (Z.shiftl (b_cache b) bits)) v))
  else Fault.

(** The walk through a table, from the entry [entry] that [clumpsz] bits selected. *)
Fixpoint huff_walk (fuel : nat) (table : list huffpair) (clumpsz : Z) (entry : huffpair) (b : bits_t) : res (Z * Z * bits_t) :=
  match entry with
  | V x y hlen => Done (x, y, drop_bits hlen b)
  | PTR offset bits =>
      match fuel with
      | O => NoFuel
      | S fuel =>
          let b := drop_bits clumpsz b in
          let! i := MASK b bits in
          let! entry := at_ table (offset + i) in
          huff_walk fuel table bits entry b
      end
  end.
Definition HUFF_FUEL : nat := 8.
Definition huff_pair (rg : region_t) (b : bits_t) : res (Z * Z * bits_t) :=
  let! i := MASK b (rg_startbits rg) in
  let! entry := at_ (rg_table rg) i in
  huff_walk HUFF_FUEL (rg_table rg) (rg_startbits rg) entry b.

(** A value with its sign. *)
Definition signed_value (requantized : Z) (b : bits_t) : res (Z * bits_t) :=
  let! neg := MASK1BIT b in
  let! v := if neg : bool then res_opt (fits (- requantized)) else Done requantized in
  Done (v, drop_bits 1 b).

Definition req_cached (value exp : Z) (r : req_t) : res (Z * req_t) :=
  if Z.testbit (rq_hits r) value then let! v := cget (rq_cache r) value in Done (v, r)
  else
    let! v := III_requantize value exp in
    let! c := cset (rq_cache r) value v in
    Done (v, Req (Z.lor (rq_hits r) (Z.shiftl 1 value)) c).

(** One line of a pair: [extra] bits have to follow the linbits. *)
Definition huff_value (linbits extra exp value : Z) (s : bits_t * req_t) : res (Z * (bits_t * req_t)) :=
  let '(b, r) := s in
  if value =? 0 then Done (0, s)
  else if negb (linbits =? 0) && (value =? 15) then
    let! b := if u32 (b_sz b) <? linbits + extra then refill 16 b else Done b in
    let! more := MASK b linbits in
    let! requantized := III_requantize (value + more) exp in
    let! (v, b) := signed_value requantized (drop_bits linbits b) in
    Done (v, (b, r))
  else
    let! (requantized, r) := req_cached value exp r in
    let! (v, b) := signed_value requantized b in
    Done (v, (b, r)).

(** [xrptr[0]] and [xrptr[1]] *)
Definition put2 (xr : cells) (i v w : Z) : res cells := let! a := cset xr i v in cset a (i + 1) w.

(** The table of a region; 0 is reported as MAD_ERROR_BADHUFFTABLE. *)
Definition region_table (channel : channel_t) (region : Z) : res (option (list huffpair * Z * Z)) :=
  let! i := cget (c_table_select channel) region in
  let! entry := at_ mad_huff_pair_table i in
  Done (match ht_table entry with Some t => Some (t, ht_linbits entry, ht_startbits entry) | None => None end).

(** The region of the next band. *)
Definition next_region (channel : channel_t) (rg : region_t) : res (option region_t) :=
  let rcount := u32 (rg_count rg - 1) in
  if rcount =? 0 then
    let rcount := if rg_region rg =? 0 then c_region1_count channel + 1 else 0 in
    let! t := region_table channel (rg_region rg + 1) in
    Done (match t with Some (t, l, st) => Some (Region rcount (rg_region rg + 1) t l st) | None => None end)
  else Done (Some (Region rcount (rg_region rg) (rg_table rg) (rg_linbits rg) (rg_startbits rg))).

(** The next band; [true] when its exponent is another one. *)
Definition next_band (exponents : cells) (bd : band_t) : res (band_t * bool) :=
  match bd_width bd with
  | [] => Fault
  | n :: rest =>
      let! e := cget exponents (bd_expptr bd) in
      Done (Band (bd_bound bd + n) rest e (bd_expptr bd + 1), negb (bd_exp bd =? e))
  end.

(** The variables of the loop over big_values. *)
Record big_t : Type := Big { bg_bits : bits_t; bg_band : band_t; bg_region : region_t; bg_req : req_t; bg_xr : cells; bg_ptr : Z }.

(** At a band boundary; an error ends the function. *)
Definition big_boundary (channel : channel_t) (exponents : cells) (g : big_t) : res (Z + big_t) :=
  if bg_ptr g =? bd_bound (bg_band g) then
    let! rg := next_region channel (bg_region g) in
    match rg with
    | None => Done (inl MAD_ERROR_BADHUFFTABLE)
    | Some rg =>
        let! (bd, changed) := next_band exponents (bg_band g) in
        Done (inr (Big (bg_bits g) bd rg (if changed : bool then Req 0 (rq_cache (bg_req g)) else bg_req g) (bg_xr g) (bg_ptr g)))
    end
  else Done (inr g).

Definition big_pair (g : big_t) : res big_t :=
  let b := bg_bits g in
  let! b := if b_sz b <? 21 then refill (Z.land (32 - 1 - 21 + (21 - b_sz b)) (Z.lnot 7)) b else Done b in
  let linbits := rg_linbits (bg_region g) in
  let exp := bd_exp (bg_band g) in
  let! (x, y, b) := huff_pair (bg_region g) b in
  let! (v, s) := huff_value linbits 2 exp x (b, bg_req g) in
  let! (w, s) := huff_value linbits 1 exp y s in
  let! xr := put2 (bg_xr g) (bg_ptr g) v w in
  Done (Big s.1 (bg_band g) (bg_region g) s.2 xr (bg_ptr g + 2)).

Fixpoint big_loop (channel : channel_t) (exponents : cells) (big_values : nat) (g : big_t) : res (Z + big_t) :=
  match big_values with
  | O => Done (inr g)
  | S big_values =>
      if 0 <? b_total (bg_bits g) then
        let! e := big_boundary channel exponents g in
        match e with
        | inl error => Done (inl error)
        | inr g => let! g := big_pair g in big_loop channel exponents big_values g
        end
      else Done (inr g)
  end.

(** ** count1 *)

(** The variables of the loop over quadruples; [cn_req] is [requantized]. *)
Record cnt_t : Type := Cnt { cn_bits : bits_t; cn_band : band_t; cn_req : Z; cn_xr : cells; cn_ptr : Z }.

Definition huff_quad (table : list huffquad) (b : bits_t) : res (Z * Z * Z * Z * bits_t) :=
  let! i := MASK b 4 in
  let! quad := at_ table i in
  let! (quad, b) :=
    match quad with
    | QV _ _ _ _ _ => Done (quad, b)
    | QPTR offset bits =>
        let b := drop_bits 4 b in
        let! i := MASK b bits in
        let! quad := at_ table (offset + i) in
        Done (quad, b)
    end in
  match quad with
  | QV v w x y hlen => Done (v, w, x, y, drop_bits hlen b)
  | QPTR _ _ => Fault
  end.

Definition quad_value (requantized bit : Z) (b : bits_t) : res (Z * bits_t) :=
  if negb (bit =? 0) then signed_value requantized b else Done (0, b).

(** Two of the four lines, after a test for a band boundary. *)
Definition quad_half (exponents : cells) (v w : Z) (c : cnt_t) : res cnt_t :=
  let! (bd, requantized) :=
    if cn_ptr c =? bd_bound (cn_band c) then
      let! (bd, changed) := next_band exponents (cn_band c) in
      let! r := if changed : bool then III_requantize 1 (bd_exp bd) else Done (cn_req c) in
      Done (bd, r)
    else Done (cn_band c, cn_req c) in
  let! (v, b) := quad_value requantized v (cn_bits c) in
  let! (w, b) := quad_value requantized w b in
  let! xr := put2 (cn_xr c) (cn_ptr c) v w in
  Done (Cnt b bd requantized xr (cn_ptr c + 2)).

Fixpoint count1_loop (fuel : nat) (table : list huffquad) (exponents : cells) (c : cnt_t) : res cnt_t :=
  if (0 <? b_total (cn_bits c)) && (cn_ptr c <=? 572) then
    match fuel with
    | O => NoFuel
    | S fuel =>
        let b := cn_bits c in
        let! b := if b_sz b <? 10 then refill 16 b else Done b in
        let! (v, w, x, y, b) := huff_quad table b in
        let! c := quad_half exponents v w (Cnt b (cn_band c) (cn_req c) (cn_xr c) (cn_ptr c)) in
        let! c := quad_half exponents x y c in
        count1_loop fuel table exponents c
    end
  else Done c.
Definition COUNT1_FUEL : nat := 144.

(** The lines that are left are zero; a value that was read too much is dropped. *)
Definition rzero (c : cnt_t) : res cells :=
  let xrptr := if b_total (cn_bits c) <? 0 then cn_ptr c - 4 else cn_ptr c in
  if - b_left (cn_bits c) <=? MAD_BUFFER_GUARD * CHAR_BIT then
    rfor 0 (Z.to_nat ((576 - xrptr + 1) / 2)) (fun k xr => put2 xr (xrptr + 2 * k) 0 0) (cn_xr c)
  else Fault.

(** The cache that is filled first: up to a byte boundary. *)
Definition first_bits (peek : mad_bitptr) (bits_left : Z) : res bits_t :=
  let cachesz := bp_left peek in
  let cachesz := cachesz + Z.land (32 - 1 - 24 + (24 - cachesz)) (Z.lnot 7) in
  let! (bitcache, peek) := bit_read buf peek cachesz in
  Done (Bits peek (bits_left - cachesz) cachesz bitcache).

(** The bit pointer behind the granule, and an error or the 576 lines. *)
Definition III_huffdecode (channel : channel_t) (sfbwidth : list Z) (part2_length : Z) (ptr : mad_bitptr) : res (mad_bitptr * (Z + cells)) :=
  let bits_left := s32 (c_part2_3_length channel - part2_length) in
  if bits_left <? 0 then Done (ptr, inl MAD_ERROR_BADPART3LEN)
  else
    let! exponents := III_exponents channel sfbwidth in
    let peek := ptr in
    let! ptr := res_opt (mad_bit_skip buf ptr bits_left) in
    let! b := first_bits peek bits_left in
    match sfbwidth with
    | [] => Fault
    | width0 :: widths =>
        let! t := region_table channel 0 in
        match t with
        | None => Done (ptr, inl MAD_ERROR_BADHUFFTABLE)
        | Some (table, linbits, startbits) =>
            let! exp := cget exponents 0 in
            let! r := big_loop channel exponents (Z.to_nat (c_big_values channel))
                        (Big b (Band width0 widths exp 1) (Region (c_region0_count channel + 1) 0 table linbits startbits)
                           (Req 0 (undefined 16)) (undefined 576) 0) in
            match r with
            | inl error => Done (ptr, inl error)
            | inr g =>
                if b_total (bg_bits g) <? 0 then Done (ptr, inl MAD_ERROR_BADHUFFDATA)
                else
                  let! table := at_ mad_huff_quad_table (Z.land (c_flags channel) count1table_select) in
                  let! requantized := III_requantize 1 (bd_exp (bg_band g)) in
                  let! c := count1_loop COUNT1_FUEL table exponents (Cnt (bg_bits g) (bg_band g) requantized (bg_xr g) (bg_ptr g)) in
                  let! xr := rzero c in
                  Done (ptr, inr xr)
            end
        end
    end.
End Huff.
