(* ===== verification/MadHybrid.v ===== *)
(** * libs/libmad-0.15.1b/layer3.c: from the lines of a granule to subband samples

    Reordering, joint stereo, alias reduction, the inverse transforms with their windows,
    overlapping and frequency inversion.  The fast transform of long blocks is generic in the
    numbers, like [dct32]. *)

From S2P Require Import Prelude MadBit MadTimer MadStream MadFrame MadFixed MadLayer12 MadSynth MadTables3 MadSide MadHuff.

Definition MAD_ERROR_BADSTEREO : Z := 569.
Definition MAD_FLAG_MS_STEREO : Z := 512.

Definition aset {A} (l : list A) (i : Z) (v : A) : res (list A) := res_opt (zset l i v).

(** ** Reordering *)

(** The next window of the same band or of the next one: [f], [w] and the rest of the widths. *)
Definition reorder_next (f w : Z) (widths : list Z) : res (Z * Z * list Z) :=
  if f =? 0 then match widths with [] => Fault | n :: rest => Done (u32 (n - 1), (w + 1) mod 3, rest) end
  else Done (f - 1, w, widths).

(** [tmp[sbw[w]][w][sw[w]++] = x] *)
Definition reorder_put (x w : Z) (s : cells * list Z * list Z) : res (cells * list Z * list Z) :=
  let '(tmp, sbw, sw) := s in
  let! b := at_ sbw w in
  let! k := at_ sw w in
  if in_range b 32 then
    let! tmp := cset tmp (18 * b + 6 * w + k) x in
    let! sw := aset sw w (if k + 1 =? 6 then 0 else k + 1) in
    let! sbw := aset sbw w (if k + 1 =? 6 then b + 1 else b) in
    Done (tmp, sbw, sw)
  else Fault.

Definition III_reorder (xr : list Z) (channel : channel_t) (sfbwidth : list Z) : res (list Z) :=
  let! (sb, widths) :=
    if on (c_flags channel) mixed_block_flag then
      let! (_, _, rest, _) := bands 36 sfbwidth 0 0 (fun _ _ _ => @Done unit) tt in Done (2, rest)
    else Done (0, sfbwidth) in
  match widths with
  | [] => Fault
  | f :: widths =>
      let n := Z.to_nat (576 - 18 * sb) in
      let! (s, _, _, _) :=
        rfor (18 * sb) n (fun l s =>
          let '(t, f, w, widths) := s in
          let! (f, w, widths) := reorder_next f w widths in
          let! x := at_ xr l in
          let! t := reorder_put x w t in
          Done (t, f, w, widths)) ((undefined 576, repeat sb 3, repeat 0 3), f, 0, widths) in
      rfor (18 * sb) n (fun i xr => let! x := cget s.1.1 i in aset xr i x) xr
  end.

Section Hybrid.
Context `{T : Target} `{FP : Fpm}.

Definition rmul (x y : Z) : res Z := res_opt (mad_f_mul x y).
Definition rfits (x : Z) : res Z := res_opt (fits x).

(** ** Joint stereo *)

(** Whether a line of a band is not zero. *)
Fixpoint nonzero (xr : list Z) (i : Z) (n : nat) : res bool :=
  match n with
  | O => Done false
  | S n => let! x := at_ xr i in if x =? 0 then nonzero xr (i + 1) n else Done true
  end.

(** [modes[i] = mode_extension & ~I_STEREO] *)
Definition no_intensity (mode_extension i : Z) (modes : list Z) : res (list Z) := aset modes i (Z.ldiff mode_extension I_STEREO).

(** The bands below the last line of the right channel that is not zero. *)
Definition is_modes_short (mode_extension : Z) (mixed : bool) (right : list Z) (sfbwidth : list Z) (modes : list Z) : res (list Z) :=
  let! (sfbi, l, rest, lower) :=
    if mixed then bands 36 sfbwidth 0 0 (fun sfbi l n lower => let! z := nonzero right l (Z.to_nat n) in Done (if z : bool then sfbi + 1 else lower)) 0
    else Done (0, 0, sfbwidth, 0) in
  let start := if mixed then sfbi else 0 in
  let! (_, _, _, (max, bound, _)) :=
    bands 576 rest sfbi l (fun sfbi l n s =>
      let '(max, bound, w) := s in
      let! z := nonzero right l (Z.to_nat n) in
      let! (max, bound) := if z : bool then let! b := aset bound w (sfbi + 1) in Done (sfbi + 1, b) else Done (max, bound) in
      Done (max, bound, (w + 1) mod 3)) (0, [0; 0; 0], 0) in
  let lower := if negb (max =? 0) then start else lower in
  let! modes := rfor 0 (Z.to_nat lower) (no_intensity mode_extension) modes in
  let! (modes, _) :=
    rfor start (Z.to_nat (max - start)) (fun i s =>
      let! b := at_ bound s.2 in
      let! modes := if i <? b then no_intensity mode_extension i s.1 else Done s.1 in
      Done (modes, (s.2 + 1) mod 3)) (modes, 0) in
  Done modes.

Definition is_modes_long (mode_extension : Z) (right : list Z) (sfbwidth : list Z) (modes : list Z) : res (list Z) :=
  let! (_, _, _, bound) := bands 576 sfbwidth 0 0 (fun sfbi l n bound => let! z := nonzero right l (Z.to_nat n) in Done (if z : bool then sfbi + 1 else bound)) 0 in
  rfor 0 (Z.to_nat bound) (no_intensity mode_extension) modes.

(** The modes and the lines of both channels. *)
Abbreviation stereo_t := (list Z * list Z * list Z)%type.

(** Intensity stereo of MPEG-2, one line and one band. *)
Definition is_lsf_line (lsf_scale : list Z) (is_pos i : Z) (x : list Z * list Z) : res (list Z * list Z) :=
  let! lft := at_ x.1 i in
  if is_pos =? 0 then let! r := aset x.2 i lft in Done (x.1, r)
  else
    let! scale := at_ lsf_scale ((is_pos - 1) / 2) in
    let! opposite := rmul lft scale in
    if on is_pos 1 then
      let! l := aset x.1 i opposite in let! r := aset x.2 i lft in Done (l, r)
    else let! r := aset x.2 i opposite in Done (x.1, r).
Definition is_lsf_band (lsf_scale : list Z) (illegal_pos scalefac : cells) (sfbi l n : Z) (s : stereo_t) : res stereo_t :=
  let '(modes, x0, x1) := s in
  let! m := at_ modes sfbi in
  if negb (on m I_STEREO) then Done s
  else
    let! illegal := cget illegal_pos sfbi in
    if negb (illegal =? 0) then let! modes := aset modes sfbi (Z.ldiff m I_STEREO) in Done (modes, x0, x1)
    else
      let! is_pos := cget scalefac sfbi in
      let! x := rfor l (Z.to_nat n) (is_lsf_line lsf_scale is_pos) (x0, x1) in
      Done (modes, x.1, x.2).

(** Intensity stereo of MPEG-1. *)
Definition is_band (scalefac : cells) (sfbi l n : Z) (s : stereo_t) : res stereo_t :=
  let '(modes, x0, x1) := s in
  let! m := at_ modes sfbi in
  if negb (on m I_STEREO) then Done s
  else
    let! is_pos := cget scalefac sfbi in
    if is_pos >=? 7 then let! modes := aset modes sfbi (Z.ldiff m I_STEREO) in Done (modes, x0, x1)
    else
      let! x := rfor l (Z.to_nat n) (fun i x =>
        let! lft := at_ x.1 i in
        let! f := at_ is_table is_pos in
        let! v := rmul lft f in
        let! x0 := aset x.1 i v in
        let! f := at_ is_table (6 - is_pos) in
        let! v := rmul lft f in
        let! x1 := aset x.2 i v in
        Done (x0, x1)) (x0, x1) in
      Done (modes, x.1, x.2).

(** Middle/side stereo. *)
Definition ms_band (sfbi l n : Z) (s : stereo_t) : res stereo_t :=
  let '(modes, x0, x1) := s in
  let! mode := at_ modes sfbi in
  if negb (mode =? MS_STEREO) then Done s
  else
    let! invsqrt2 := at_ root_table (3 + -2) in
    let! x := rfor l (Z.to_nat n) (fun i x =>
      let! m := at_ x.1 i in
      let! s := at_ x.2 i in
      let! a := rfits (m + s) in
      let! v := rmul a invsqrt2 in
      let! x0 := aset x.1 i v in
      let! a := rfits (m - s) in
      let! v := rmul a invsqrt2 in
      let! x1 := aset x.2 i v in
      Done (x0, x1)) (x0, x1) in
    Done (modes, x.1, x.2).

(** The error, the header and the lines of both channels; [gr] is the granule, [gr1] the scalefactors of
    [granule[1].ch[1]]. *)
Definition III_stereo (left_ch right_ch : channel_t) (gr1 : cells) (header : header_t) (sfbwidth x0 x1 : list Z) : res (Z * header_t * (list Z * list Z)) :=
  if negb (c_block_type left_ch =? c_block_type right_ch) ||
     negb (Z.land (c_flags left_ch) mixed_block_flag =? Z.land (c_flags right_ch) mixed_block_flag) then Done (MAD_ERROR_BADSTEREO, header, (x0, x1))
  else
    let ext := hd_mode_extension header in
    let modes := repeat ext 39 in
    let! (header, (modes, x0, x1)) :=
      if on ext I_STEREO then
        let header := or_flag true MAD_FLAG_I_STEREO header in
        let! modes :=
          if c_block_type right_ch =? 2 then is_modes_short ext (on (c_flags right_ch) mixed_block_flag) x1 sfbwidth modes
          else is_modes_long ext x1 sfbwidth modes in
        let! (_, _, _, s) :=
          if lsf header then
            let! lsf_scale := at_ is_lsf_table (Z.land (c_scalefac_compress right_ch) 1) in
            bands 576 sfbwidth 0 0 (is_lsf_band lsf_scale gr1 (c_scalefac right_ch)) (modes, x0, x1)
          else bands 576 sfbwidth 0 0 (is_band (c_scalefac right_ch)) (modes, x0, x1) in
        Done (header, s)
      else Done (header, (modes, x0, x1)) in
    if on ext MS_STEREO then
      let header := or_flag true MAD_FLAG_MS_STEREO header in
      let! (_, _, _, (_, x0, x1)) := bands 576 sfbwidth 0 0 ms_band (modes, x0, x1) in
      Done (MAD_ERROR_NONE, header, (x0, x1))
    else Done (MAD_ERROR_NONE, header, (x0, x1)).

(** ** Alias reduction *)

(** The accumulator of fixed.h, with MAD_F_SCALEBITS as it is there. *)
Definition F_ML0 (x y : Z) : res Z := if fpm_arm then Done (x * y) else let! p := rmul x y in Done (ulong p).
Definition F_MLA (acc x y : Z) : res Z := if fpm_arm then Done (s64 (acc + x * y)) else let! p := rmul x y in Done (ulong (acc + p)).
Definition F_MLZ (acc : Z) : Z :=
  if fpm_arm then
    let lo := u32 acc in
    let hi := Z.shiftr acc 32 in
    s32 (Z.shiftr lo MAD_F_SCALEBITS + Z.shiftl hi (32 - MAD_F_SCALEBITS) + Z.b2z (Z.testbit lo (MAD_F_SCALEBITS - 1)))
  else slong acc.

Definition butterfly (off i : Z) (xr : list Z) : res (list Z) :=
  let! a := at_ xr (off - 1 - i) in
  let! b := at_ xr (off + i) in
  let! c := at_ cs i in
  let! d := at_ ca i in
  let! nb := rfits (- b) in
  let! acc := F_ML0 a c in
  let! acc := F_MLA acc nb d in
  let! xr := aset xr (off - 1 - i) (F_MLZ acc) in
  let! acc := F_ML0 b c in
  let! acc := F_MLA acc a d in
  aset xr (off + i) (F_MLZ acc).

Definition III_aliasreduce (xr : list Z) (lines : Z) : res (list Z) :=
  rfor 1 (Z.to_nat ((lines - 1) / 18)) (fun k xr => rfor 0 8 (butterfly (18 * k)) xr) xr.
End Hybrid.

(** ** The inverse transform of long blocks *)

(** The operations of the fast transform; [i_mul] multiplies with a constant, [i_half] is a division. *)
Record iops (A : Type) : Type := Iops {
  i_add : A -> A -> option A;
  i_sub : A -> A -> option A;
  i_neg : A -> option A;
  i_mul : A -> Z -> option A;
  i_twice : A -> option A;
  i_half : A -> option A
}.
Arguments Iops {A}.
Arguments i_add {A}.
Arguments i_sub {A}.
Arguments i_neg {A}.
Arguments i_mul {A}.
Arguments i_twice {A}.
Arguments i_half {A}.

Section Transform.
Context {A : Type} (O : iops A).
Notation "'let?' x := m 'in' k" := (obind m (fun x => k)) (at level 10, x name, m at level 100, k at level 200).
Notation "a +? b" := (i_add O a b) (at level 50).
Notation "a -? b" := (i_sub O a b) (at level 50).

(** 2 cos(n PI / 18) for n = 1, 3, 4, 5, 7, 8, 16 *)
Definition c0 : Z := 528714637.
Definition c1 : Z := 464943848.
Definition c2 : Z := 411266979.
Definition c3 : Z := 345093970.
Definition c4 : Z := 183620666.
Definition c5 : Z := 93226656.
Definition c6 : Z := -504493634.

(** The nine values are stored in every other slot. *)
Definition fastsdct (x0 x1 x2 x3 x4 x5 x6 x7 x8 : A) : option (list A) :=
  let? a0 := x3 +? x5 in
  let? a1 := x3 -? x5 in
  let? a2 := x6 +? x2 in
  let? a3 := x6 -? x2 in
  let? a4 := x1 +? x7 in
  let? a5 := x1 -? x7 in
  let? a6 := x8 +? x0 in
  let? a7 := x8 -? x0 in
  let? a8 := a0 +? a2 in
  let? a9 := a0 -? a2 in
  let? a10 := a0 -? a6 in
  let? a11 := a2 -? a6 in
  let? a12 := a8 +? a6 in
  let? a13 := a1 -? a3 in
  let? a14 := a13 +? a7 in
  let? a15 := a3 +? a7 in
  let? a16 := a1 -? a7 in
  let? a17 := a1 +? a3 in
  let? m0 := i_mul O a17 (- c3) in
  let? m1 := i_mul O a16 (- c0) in
  let? m2 := i_mul O a15 (- c4) in
  let? m3 := i_mul O a14 (- c1) in
  let? m4 := i_mul O a5 (- c1) in
  let? m5 := i_mul O a11 (- c6) in
  let? m6 := i_mul O a10 (- c5) in
  let? m7 := i_mul O a9 (- c2) in
  let? a18 := x4 +? a4 in
  let? d := i_twice O x4 in
  let? a19 := d -? a4 in
  let? a20 := a19 +? m5 in
  let? a21 := a19 -? m5 in
  let? a22 := a19 +? m6 in
  let? a23 := m4 +? m2 in
  let? a24 := m4 -? m2 in
  let? a25 := m4 +? m1 in
  let? y0 := a18 +? a12 in
  let? y2 := m0 -? a25 in
  let? y4 := m7 -? a20 in
  let y6 := m3 in
  let? y8 := a21 -? m6 in
  let? y10 := a24 -? m1 in
  let? d := i_twice O a18 in
  let? y12 := a12 -? d in
  let? y14 := a23 +? m0 in
  let? y16 := a22 +? m7 in
  Some [y0; y2; y4; y6; y8; y10; y12; y14; y16].

Definition fastsdct_list (l : list A) : option (list A) :=
  match l with [x0; x1; x2; x3; x4; x5; x6; x7; x8] => fastsdct x0 x1 x2 x3 x4 x5 x6 x7 x8 | _ => None end.

Fixpoint omap {B C D} (f : B -> C -> option D) (l : list B) (m : list C) : option (list D) :=
  match l, m with
  | x :: l, y :: m => let? z := f x y in let? r := omap f l m in Some (z :: r)
  | _, _ => Some []
  end.
Fixpoint interleave (l m : list A) : list A := match l, m with x :: l, y :: m => x :: y :: interleave l m | _, _ => [] end.
(** [X[i] -= X[i - 2]] for the odd slots, in this order. *)
Fixpoint accumulate (prev : A) (l : list A) : option (list A) :=
  match l with [] => Some [] | x :: l => let? y := x -? prev in let? r := accumulate y l in Some (y :: r) end.

Definition sdctII (x : list A) : option (list A) :=
  let a := take 9 x in
  let b := rev (drop 9 x) in
  let? tmp := omap (i_add O) a b in
  let? even := fastsdct_list tmp in
  let? tmp := omap (i_sub O) a b in
  let? tmp := omap (i_mul O) tmp scale9 in
  let? odd := fastsdct_list tmp in
  match odd with
  | [] => None
  | first :: odd => let? odd := accumulate first odd in Some (interleave even (first :: odd))
  end.

(** [X[i] = X[i] / 2 - X[i - 1]] *)
Fixpoint halve_accumulate (prev : A) (l : list A) : option (list A) :=
  match l with [] => Some [] | x :: l => let? h := i_half O x in let? y := h -? prev in let? r := halve_accumulate y l in Some (y :: r) end.

Definition dctIV (y : list A) : option (list A) :=
  let? tmp := omap (i_mul O) y scale18 in
  let? X := sdctII tmp in
  match X with
  | [] => None
  | x :: X => let? x := i_half O x in let? X := halve_accumulate x X in Some (x :: X)
  end.

Fixpoint negate_all (l : list A) : option (list A) :=
  match l with [] => Some [] | x :: l => let? y := i_neg O x in let? r := negate_all l in Some (y :: r) end.

(** [tmp[9], ..., tmp[17], -tmp[17], ..., -tmp[0], -tmp[0], ..., -tmp[8]] *)
Definition imdct36 (x : list A) : option (list A) :=
  let? tmp := dctIV x in
  let? a := negate_all (rev tmp) in
  let? b := negate_all (take 9 tmp) in
  Some (drop 9 tmp ++ a ++ b).
End Transform.

Section Hybrid2.
Context `{T : Target} `{FP : Fpm}.

Definition fixed_iops : iops Z := {|
  i_add a b := fits (a + b);
  i_sub a b := fits (a - b);
  i_neg a := fits (- a);
  i_mul := mad_f_mul;
  i_twice a := fits (2 * a);
  i_half a := Some (Z.quot a 2)
|}.

Fixpoint rmapi {A B} (f : Z -> A -> res B) (i : Z) (l : list A) : res (list B) :=
  match l with [] => Done [] | x :: l => let! y := f i x in let! r := rmapi f (i + 1) l in Done (y :: r) end.

(** The window of a block type, at [z[i]]. *)
Definition windowed (block_type i z : Z) : res Z :=
  let by_l := let! w := at_ window_l i in rmul z w in
  let by_s k := let! w := at_ window_s k in rmul z w in
  if block_type =? 0 then by_l
  else if block_type =? 1 then if i <? 18 then by_l else if i <? 24 then Done z else if i <? 30 then by_s (i - 18) else Done 0
  else if block_type =? 3 then if i <? 6 then Done 0 else if i <? 12 then by_s (i - 6) else if i <? 18 then Done z else by_l
  else Done z.

Definition III_imdct_l (X : list Z) (block_type : Z) : res (list Z) :=
  let! z := res_opt (imdct36 fixed_iops X) in
  rmapi (windowed block_type) 0 z.

(** ** Short blocks *)

(** Six products with a row of [imdct_s]. *)
Fixpoint dot (X s : list Z) (acc : Z) : res Z :=
  match X, s with
  | x :: X, c :: s => let! acc := F_MLA acc x c in dot X s acc
  | _, _ => Done acc
  end.
Definition short_line (X s : list Z) : res Z :=
  match X, s with
  | x :: X, c :: s => let! acc := F_ML0 x c in let! acc := dot X s acc in Done (F_MLZ acc)
  | _, _ => Fault
  end.

(** [yptr[0]] to [yptr[11]] of one window. *)
Definition short_window (X : list Z) : res (list Z) :=
  let! v := rmapi (fun _ s => short_line X s) 0 imdct_s in
  match v with
  | [a0; b0; a1; b1; a2; b2] =>
      let! n0 := rfits (- a0) in
      let! n1 := rfits (- a1) in
      let! n2 := rfits (- a2) in
      Done [a0; a1; a2; n2; n1; n0; b0; b1; b2; b2; b1; b0]
  | _ => Fault
  end.

Definition six (l : list Z) (k : Z) : list Z := take 6 (drop (Z.to_nat k) l).

Definition III_imdct_s (X : list Z) : res (list Z) :=
  let! y0 := short_window (six X 0) in
  let! y1 := short_window (six X 6) in
  let! y2 := short_window (six X 12) in
  let one y k i := let! v := at_ y (i + k) in let! w := at_ window_s (i + k) in rmul v w in
  let two y y' i :=
    let! v := at_ y (i + 6) in
    let! w := at_ window_s (i + 6) in
    let! acc := F_ML0 v w in
    let! v := at_ y' i in
    let! w := at_ window_s i in
    let! acc := F_MLA acc v w in
    Done (F_MLZ acc) in
  let part f := rmapi (fun _ i => f i) 0 [0; 1; 2; 3; 4; 5] in
  let! z1 := part (one y0 0) in
  let! z2 := part (two y0 y1) in
  let! z3 := part (two y1 y2) in
  let! z4 := part (one y2 6) in
  Done (repeat 0 6 ++ z1 ++ z2 ++ z3 ++ z4 ++ repeat 0 6).

(** ** Overlapping *)

(** [sample[i][sb] = v], where [sample] is row [base] of [sbsample[ch]]. *)
Definition put_sample (rows : list (list Z)) (base i sb v : Z) : res (list (list Z)) :=
  let! row := at_ rows (base + i) in let! row := aset row sb v in aset rows (base + i) row.

Definition III_overlap (output : list Z) (base sb : Z) (s : list Z * list (list Z)) : res (list Z * list (list Z)) :=
  rfor 0 18 (fun i s =>
    let! o := at_ output i in
    let! p := at_ s.1 i in
    let! v := rfits (o + p) in
    let! rows := put_sample s.2 base i sb v in
    let! o := at_ output (i + 18) in
    let! overlap := aset s.1 i o in
    Done (overlap, rows)) s.

Definition III_overlap_z (base sb : Z) (s : list Z * list (list Z)) : res (list Z * list (list Z)) :=
  rfor 0 18 (fun i s =>
    let! p := at_ s.1 i in
    let! rows := put_sample s.2 base i sb p in
    let! overlap := aset s.1 i 0 in
    Done (overlap, rows)) s.

(** The odd rows; the code loads two of them ahead. *)
Definition III_freqinver (base sb : Z) (rows : list (list Z)) : res (list (list Z)) :=
  rfor 0 9 (fun k rows =>
    let i := 2 * k + 1 in
    let! row := at_ rows (base + i) in
    let! v := at_ row sb in
    let! v := rfits (- v) in
    put_sample rows base i sb v) rows.
End Hybrid2.
