(* ===== verification/MadLayer3.v ===== *)
(** * libs/libmad-0.15.1b/layer3.c: the frames of Layer III

    The main data of a frame is in the input or, when it begins in an earlier frame, in the
    buffer [main_data] of the stream, to which the rest of it is copied. *)

From S2P Require Import Prelude MadBit MadTimer MadStream MadFrame MadFixed MadLayer12 MadSynth MadTables3 MadSide MadHuff MadHybrid.

Definition MAD_ERROR_BADFRAMELEN : Z := 561.
Definition MAD_BUFFER_MDLEN : Z := 511 + 2048 + MAD_BUFFER_GUARD.

(** What the allocator of the host answers to the two requests of the decoder: the bytes in the
    memory that [lma_malloc] hands out, and whether [lma_calloc] succeeds. *)
Class Pool := {
  pool_malloc : Z -> option (list Z);
  pool_calloc : Z -> Z -> bool
}.

Definition set_md_len x s := Stream (st_bufend s) (st_skiplen s) (st_sync s) (st_freerate s) (st_this_frame s) (st_next_frame s) (st_ptr s) (st_anc_ptr s) (st_anc_bitlen s) (st_main_data s) x (st_options s) (st_error s).

(** [uc_memcpy]: the bytes read, and the bytes written. *)
Definition bytes_from (src : list Z) (off n : Z) : res (list Z) :=
  if n =? 0 then Done []
  else if (0 <=? off) && (0 <=? n) && (off + n <=? zlen src) then Done (take (Z.to_nat n) (drop (Z.to_nat off) src))
  else Fault.
Definition bytes_to (dst : list Z) (off : Z) (b : list Z) : res (list Z) :=
  if zlen b =? 0 then Done dst
  else if (0 <=? off) && (off + zlen b <=? zlen dst) then Done (take (Z.to_nat off) dst ++ b ++ drop (Z.to_nat (off + zlen b)) dst)
  else Fault.

Section Layer3.
Context `{T : Target} `{FP : Fpm}.

(** ** Granules *)

Definition sfreq_index (header : header_t) : Z :=
  let ext := has_flag MAD_FLAG_MPEG_2_5_EXT header in
  let sfreq := if ext then u32 (hd_samplerate header * 2) else hd_samplerate header in
  let i := u32 (Z.land (Z.shiftr sfreq 7) 15 + Z.land (Z.shiftr sfreq 15) 1 - 8) in
  if ext then u32 (i + 3) else i.

Definition channel_widths (w : sfbwidths) (channel : channel_t) : list Z :=
  if c_block_type channel =? 2 then (if on (c_flags channel) mixed_block_flag then sfb_m w else sfb_s w) else sfb_l w.

(** The scalefactors of a channel: the channel, the side information, their bits. *)
Definition channel_scalefactors (buf : list Z) (header : header_t) (gr ch : Z) (si : sideinfo) (channel : channel_t) (ptr : mad_bitptr) : res (channel_t * list (list channel_t) * Z * mad_bitptr) :=
  if lsf header then
    let! gr1 := gr_get (si_gr si) 1 1 in
    let! (channel, gr1, len, ptr) := III_scalefactors_lsf buf channel (if ch =? 0 then None else Some gr1) (hd_mode_extension header) ptr in
    let! g := match gr1 with Some c => gr_set (si_gr si) 1 1 c | None => Done (si_gr si) end in
    Done (channel, g, len, ptr)
  else
    let! gr0 := gr_get (si_gr si) 0 ch in
    let! scfsi := if gr =? 0 then Done 0 else cget (si_scfsi si) ch in
    let! (channel, len, ptr) := III_scalefactors buf channel gr0 scfsi ptr in
    Done (channel, si_gr si, len, ptr).

(** Scalefactors and lines of one channel of a granule: an error, or the lines. *)
Definition decode_channel (buf : list Z) (header : header_t) (w : sfbwidths) (gr ch : Z) (s : mad_bitptr * sideinfo) : res (mad_bitptr * sideinfo * (Z + list Z)) :=
  let '(ptr, si) := s in
  let! channel := gr_get (si_gr si) gr ch in
  let sfbwidth := channel_widths w channel in
  let! (channel, g, part2_length, ptr) := channel_scalefactors buf header gr ch si channel ptr in
  let! g := gr_set g gr ch channel in
  let si := SideInfo (si_main_data_begin si) (si_private_bits si) (si_scfsi si) g in
  let! (ptr, r) := III_huffdecode buf channel sfbwidth part2_length ptr in
  match r with
  | inl error => Done (ptr, si, inl error)
  | inr xr => let! xr := res_opt (mapM id xr) in Done (ptr, si, inr xr)
  end.

(** The channels [ch], ..., [ch + n - 1]; the first error ends the function. *)
Fixpoint decode_channels (buf : list Z) (header : header_t) (w : sfbwidths) (gr : Z) (n : nat) (ch : Z) (s : mad_bitptr * sideinfo) : res (mad_bitptr * sideinfo * (Z + list (list Z))) :=
  match n with
  | O => Done (s, inr [])
  | S n =>
      let! (ptr, si, r) := decode_channel buf header w gr ch s in
      match r with
      | inl error => Done (ptr, si, inl error)
      | inr xr =>
          let! (ptr, si, r) := decode_channels buf header w gr n (ch + 1) (ptr, si) in
          Done (ptr, si, match r with inl error => inl error | inr l => inr (xr :: l) end)
      end
  end.

(** [while (i > 36 && xr[i - 1] == 0) --i]: the subbands that are not zero. *)
Fixpoint last_line (xr : list Z) (n : nat) : res Z :=
  match n with
  | O => Done 36
  | S n' => let! x := at_ xr (36 + Z.of_nat n') in if x =? 0 then last_line xr n' else Done (36 + Z.of_nat n)
  end.

(** The overlap and the samples of one channel. *)
Abbreviation over_t := (list (list Z) * list (list Z))%type.
Definition eighteen (xr : list Z) (l : Z) : res (list Z) := bytes_from xr l 18.

(** One subband: transform, overlap and frequency inversion. *)
Definition overlap_with (sb : Z) (f : list Z * list (list Z) -> res (list Z * list (list Z))) (s : over_t) : res over_t :=
  let! o := at_ s.1 sb in
  let! (o, rows) := f (o, s.2) in
  let! over := aset s.1 sb o in
  Done (over, rows).
Definition invert_odd (base sb : Z) (s : over_t) : res over_t :=
  if on sb 1 then let! rows := III_freqinver base sb s.2 in Done (s.1, rows) else Done s.
Definition subband_l (xr : list Z) (block_type base sb : Z) (s : over_t) : res over_t :=
  let! X := eighteen xr (18 * sb) in
  let! output := III_imdct_l X block_type in
  overlap_with sb (III_overlap output base sb) s.
Definition subband_s (xr : list Z) (base sb : Z) (s : over_t) : res over_t :=
  let! X := eighteen xr (18 * sb) in
  let! output := III_imdct_s X in
  overlap_with sb (III_overlap output base sb) s.

(** Reordering and alias reduction. *)
Definition reorder_alias (channel : channel_t) (sfbwidth xr : list Z) : res (list Z) :=
  if c_block_type channel =? 2 then
    let! xr := III_reorder xr channel sfbwidth in
    if on (c_flags channel) mixed_block_flag then III_aliasreduce xr 36 else Done xr
  else III_aliasreduce xr 576.

(** The samples of one channel of a granule, into the rows from [base] on. *)
Definition synthesize (channel : channel_t) (xr : list Z) (base : Z) (s : over_t) : res over_t :=
  let mixed := on (c_flags channel) mixed_block_flag in
  let short := c_block_type channel =? 2 in
  let! s :=
    if negb short || mixed then
      let block_type := if mixed then 0 else c_block_type channel in
      rfor 0 2 (subband_l xr block_type base) s
    else rfor 0 2 (subband_s xr base) s in
  let! rows := III_freqinver base 1 s.2 in
  let! i := last_line xr 540 in
  let sblimit := 32 - (576 - i) / 18 in
  let! s :=
    rfor 2 (Z.to_nat (sblimit - 2)) (fun sb s =>
      let! s := (if short then subband_s xr base sb else subband_l xr (c_block_type channel) base sb) s in
      invert_odd base sb s) (s.1, rows) in
  rfor sblimit (Z.to_nat (32 - sblimit)) (fun sb s => let! s := overlap_with sb (III_overlap_z base sb) s in invert_odd base sb s) s.

(** The state of [III_decode]: bit pointer, header, side information, samples and overlap. *)
Record dec3_t : Type := Dec3 { d3_ptr : mad_bitptr; d3_header : header_t; d3_si : sideinfo; d3_sb : list (list (list Z)); d3_over : list (list (list Z)) }.

(** The second half of a granule: the channel [ch] with the lines [xr]. *)
Definition finish_channel (w : sfbwidths) (gr ch : Z) (xr : list Z) (d : dec3_t) : res dec3_t :=
  let! channel := gr_get (si_gr (d3_si d)) gr ch in
  let! xr := reorder_alias channel (channel_widths w channel) xr in
  let! rows := at_ (d3_sb d) ch in
  let! over := at_ (d3_over d) ch in
  let! (over, rows) := synthesize channel xr (18 * gr) (over, rows) in
  let! sb := aset (d3_sb d) ch rows in
  let! ov := aset (d3_over d) ch over in
  Done (Dec3 (d3_ptr d) (d3_header d) (d3_si d) sb ov).
Fixpoint finish_channels (w : sfbwidths) (gr ch : Z) (xrs : list (list Z)) (d : dec3_t) : res dec3_t :=
  match xrs with [] => Done d | xr :: xrs => let! d := finish_channel w gr ch xr d in finish_channels w gr (ch + 1) xrs d end.

Definition joint_stereo (w : sfbwidths) (gr : Z) (xrs : list (list Z)) (d : dec3_t) : res (Z * header_t * list (list Z)) :=
  let header := d3_header d in
  if (hd_mode header =? MAD_MODE_JOINT_STEREO) && negb (hd_mode_extension header =? 0) then
    let! left_ch := gr_get (si_gr (d3_si d)) gr 0 in
    let! right_ch := gr_get (si_gr (d3_si d)) gr 1 in
    (* [granule[1].ch[1]], which is used with one granule only *)
    let! gr1 := if lsf header then gr_get (si_gr (d3_si d)) (gr + 1) 1 else Done right_ch in
    match xrs with
    | [x0; x1] =>
        let! (error, header, (x0, x1)) := III_stereo left_ch right_ch (c_scalefac gr1) header (channel_widths w left_ch) x0 x1 in
        Done (error, header, [x0; x1])
    | _ => Fault
    end
  else Done (MAD_ERROR_NONE, header, xrs).

Definition granule (buf : list Z) (w : sfbwidths) (nch gr : Z) (d : dec3_t) : res (Z * dec3_t) :=
  let! (ptr, si, r) := decode_channels buf (d3_header d) w gr (Z.to_nat nch) 0 (d3_ptr d, d3_si d) in
  let d := Dec3 ptr (d3_header d) si (d3_sb d) (d3_over d) in
  match r with
  | inl error => Done (error, d)
  | inr xrs =>
      let! (error, header, xrs) := joint_stereo w gr xrs d in
      let d := Dec3 ptr header si (d3_sb d) (d3_over d) in
      if negb (error =? 0) then Done (error, d)
      else let! d := finish_channels w gr 0 xrs d in Done (MAD_ERROR_NONE, d)
  end.

Fixpoint granules (buf : list Z) (w : sfbwidths) (nch gr : Z) (n : nat) (d : dec3_t) : res (Z * dec3_t) :=
  match n with
  | O => Done (MAD_ERROR_NONE, d)
  | S n => let! (error, d) := granule buf w nch gr d in if negb (error =? 0) then Done (error, d) else granules buf w nch (gr + 1) n d
  end.

Definition III_decode (buf : list Z) (ptr : mad_bitptr) (frame : frame_t) (si : sideinfo) (nch : Z) : res (Z * mad_bitptr * frame_t) :=
  let header := fr_header frame in
  let ngr := if lsf header then 1%nat else 2%nat in
  let! over := res_opt (fr_overlap frame) in
  let! w := at_ sfbwidth_table (sfreq_index header) in
  let! (error, d) := granules buf w nch 0 ngr (Dec3 ptr header si (fr_sbsample frame) over) in
  Done (error, d3_ptr d, Frame (d3_header d) (fr_options frame) (d3_sb d) (Some (d3_over d))).

(** ** Frames *)

Definition si_length (header : header_t) (nch : Z) : Z :=
  if lsf header then (if nch =? 1 then 9 else 17) else (if nch =? 1 then 17 else 32).

(** [main_data_begin] of the frame at [next_frame], 0 when there is none of Layer III. *)
Definition next_main_data (buf : list Z) (next_frame : Z) : res Z :=
  let! (header, peek) := bit_read buf (mad_bit_init next_frame) 32 in
  if Z.land header 4293263360 =? 4293001216 then
    let! peek := if Z.land header 65536 =? 0 then res_opt (mad_bit_skip buf peek 16) else Done peek in
    let! (begin, _) := bit_read buf peek (if Z.land header 524288 =? 0 then 8 else 9) in
    Done begin
  else Done 0.

(** Where the main data is: the buffer and the place of its first bit, or nowhere; and how many bytes of this frame are used.
    The memory [main_data] and [md_len] change. *)
Record main_t : Type := MainData { mn_data : list Z; mn_len : Z }.
Definition find_main_data (buf : list Z) (ptr : mad_bitptr) (main_data_begin md_len : Z) (m : main_t) : res (option (list Z * mad_bitptr) * Z * main_t) :=
  if main_data_begin =? 0 then Done (Some (buf, ptr), md_len, MainData (mn_data m) 0)
  else if mn_len m <? main_data_begin then Done (None, 0, m)
  else
    let start := mad_bit_init (mn_len m - main_data_begin) in
    if main_data_begin <? md_len then
      if u32 (u32 (mn_len m + md_len) - main_data_begin) <=? MAD_BUFFER_MDLEN then
        let frame_used := md_len - main_data_begin in
        let! bytes := bytes_from buf (mad_bit_nextbyte ptr) frame_used in
        let! data := bytes_to (mn_data m) (mn_len m) bytes in
        Done (Some (data, start), frame_used, MainData data (u32 (mn_len m + frame_used)))
      else Fault
    else Done (Some (mn_data m, start), 0, m).

(** Up to 511 bytes for the next frames. *)
Definition preload (buf : list Z) (next_frame main_data_begin md_len frame_free next_md_begin : Z) (m : main_t) : res main_t :=
  if next_md_begin <=? frame_free then
    let! bytes := bytes_from buf (next_frame - next_md_begin) next_md_begin in
    let! data := bytes_to (mn_data m) 0 bytes in
    Done (MainData data next_md_begin)
  else
    let! m :=
      if md_len <? main_data_begin then
        let extra := main_data_begin - md_len in
        let extra := if next_md_begin <? u32 (extra + frame_free) then next_md_begin - frame_free else extra in
        if extra <? mn_len m then
          let! bytes := bytes_from (mn_data m) (mn_len m - extra) extra in
          let! data := bytes_to (mn_data m) 0 bytes in
          Done (MainData data extra)
        else Done m
      else Done (MainData (mn_data m) 0) in
    let! bytes := bytes_from buf (next_frame - frame_free) frame_free in
    let! data := bytes_to (mn_data m) (mn_len m) bytes in
    Done (MainData data (u32 (mn_len m + frame_free))).

(** [if (result == 0)]: the error, and the result. *)
Definition fail_with (error : Z) (r : Z * stream_t) : Z * stream_t :=
  if r.1 =? 0 then (-1, set_error error r.2) else r.

(** With the memory of the stream and of the frame. *)
Definition layer_III (buf main_data : list Z) (stream : stream_t) (frame : frame_t) : res (Z * stream_t * frame_t) :=
  let header := fr_header frame in
  let nch := MAD_NCHANNELS header in
  let si_len := si_length header nch in
  let! next_frame := res_opt (st_next_frame stream) in
  if next_frame - mad_bit_nextbyte (st_ptr stream) <? si_len then
    Done (-1, set_md_len 0 (set_error MAD_ERROR_BADFRAMELEN stream), frame)
  else
    let! (ok, header) := crc_checked buf (st_ptr stream) (si_len * CHAR_BIT) (fr_options frame) header in
    let r := if ok : bool then (0, stream) else (-1, set_error MAD_ERROR_BADCRC stream) in
    let! (error, si, data_bitlen, priv_bitlen, ptr) := III_sideinfo buf nch (lsf header) (st_ptr stream) in
    let '(result, stream) := if negb (error =? 0) then fail_with error r else r in
    let stream := set_ptr ptr stream in
    let header := set_private_bits (Z.lor (hd_private_bits header) (si_private_bits si)) (set_flags (Z.lor (hd_flags header) priv_bitlen) header) in
    let frame := set_fr_header header frame in
    let! next_md_begin := next_main_data buf next_frame in
    let main_data_begin := si_main_data_begin si in
    let frame_space := u32 (next_frame - mad_bit_nextbyte ptr) in
    let next_md_begin := if u32 (main_data_begin + frame_space) <? next_md_begin then 0 else next_md_begin in
    let md_len := u32 (main_data_begin + frame_space - next_md_begin) in
    let! (place, frame_used, m) := find_main_data buf ptr main_data_begin md_len (MainData main_data (st_md_len stream)) in
    let '(result, stream) := if place is Some _ then (result, stream) else fail_with MAD_ERROR_BADDATAPTR (result, stream) in
    let frame_free := u32 (frame_space - frame_used) in
    let! (result, stream, frame) :=
      if result =? 0 then
        let! (data, ptr) := res_opt place in
        let! (error, ptr, frame) := III_decode data ptr frame si nch in
        let '(result, stream) := if negb (error =? 0) then (-1, set_error error stream) else (result, stream) in
        Done (result, set_anc ptr (u32 (md_len * CHAR_BIT - data_bitlen)) stream, frame)
      else Done (result, stream, frame) in
    let! m := preload buf next_frame main_data_begin md_len frame_free next_md_begin m in
    Done (result, set_md_len (mn_len m) (set_main_data (Some (mn_data m)) stream), frame).

(** [anc_ptr] is a place in the buffer that the main data was read from. *)
Definition mad_layer_III `{P : Pool} (buf : list Z) (stream : stream_t) (frame : frame_t) : res (Z * stream_t * frame_t) :=
  match (if st_main_data stream is Some d then Some d else pool_malloc MAD_BUFFER_MDLEN) with
  | None => Done (-1, set_error MAD_ERROR_NOMEM stream, frame)
  | Some main_data =>
      let stream := set_main_data (Some main_data) stream in
      match (if fr_overlap frame is Some o then Some o else if pool_calloc (2 * 32 * 18) (if long64 then 8 else 4) then Some (zero_block 32 18) else None) with
      | None => Done (-1, set_error MAD_ERROR_NOMEM stream, frame)
      | Some overlap => layer_III buf main_data stream (Frame (fr_header frame) (fr_options frame) (fr_sbsample frame) (Some overlap))
      end
  end.
End Layer3.
