(* ===== verification/MadRun.v ===== *)
(** * Computations of the decoder without a state

    Two logics over [res], as [wp] and [pp] are over the monad: [yields] (a result that
    satisfies the postcondition) and [may] (it ends, with a fault or with such a result), with
    the rules for the loops of layer3.c and a tactic that runs through a function body. *)

From S2P Require Import Prelude MadBit MadFrame MadLayer12 MadSide MadHuff.

Definition yields {A} (r : res A) (Q : A -> Prop) : Prop := match r with Done a => Q a | _ => False end.
Definition may {A} (r : res A) (Q : A -> Prop) : Prop := match r with Done a => Q a | Fault => True | NoFuel => False end.

Section Rules.
Context {A B : Type}.
Implicit Types (r : res A) (k : A -> res B).

Lemma yields_mono r (P Q : A -> Prop) : (forall a, P a -> Q a) -> yields r P -> yields r Q.
Proof. destruct r; naive_solver. Qed.
Lemma yields_bind r k Q : yields r (fun a => yields (k a) Q) -> yields (res_bind r k) Q.
Proof. by destruct r. Qed.
Lemma yields_opt (o : option A) a (Q : A -> Prop) : o = Some a -> Q a -> yields (res_opt o) Q.
Proof. by intros ->. Qed.
Lemma yields_done r Q : yields r Q <-> exists a, r = Done a /\ Q a.
Proof. destruct r; cbn; naive_solver. Qed.
Lemma yields_conj r (P Q : A -> Prop) : yields r P -> yields r Q -> yields r (fun a => P a /\ Q a).
Proof. by destruct r. Qed.

Lemma may_mono r (P Q : A -> Prop) : (forall a, P a -> Q a) -> may r P -> may r Q.
Proof. destruct r; naive_solver. Qed.
Lemma may_bind r k Q : may r (fun a => may (k a) Q) -> may (res_bind r k) Q.
Proof. by destruct r. Qed.
Lemma may_opt (o : option A) (Q : A -> Prop) : (forall a, o = Some a -> Q a) -> may (res_opt o) Q.
Proof. destruct o; cbn; auto. Qed.
Lemma may_done r Q : may r Q <-> r <> NoFuel /\ forall a, r = Done a -> Q a.
Proof. destruct r; cbn; naive_solver. Qed.
Lemma yields_may r Q : yields r Q -> may r Q.
Proof. by destruct r. Qed.
End Rules.

(** The loops preserve what their bodies preserve. *)
Section Loops.
Context {S : Type}.

Lemma yields_rfor (I : Z -> S -> Prop) n : forall lo (body : Z -> S -> res S) s,
  (forall i s, lo <= i < lo + Z.of_nat n -> I i s -> yields (body i s) (I (i + 1))) ->
  I lo s -> yields (rfor lo n body s) (I (lo + Z.of_nat n)).
Proof.
  induction n as [|n IH]; intros lo body s Hb Hs; [by rewrite Z.add_0_r|]. cbn [rfor]. apply yields_bind.
  eapply yields_mono; [|apply (Hb lo s); [lia|done]]. intros s1 H1. cbn beta.
  replace (lo + Z.of_nat (Datatypes.S n)) with (lo + 1 + Z.of_nat n) by lia. apply IH; [|done]. intros i s2 Hi. apply Hb. lia.
Qed.

Lemma may_rfor (I : S -> Prop) n : forall lo (body : Z -> S -> res S) s,
  (forall i s, I s -> may (body i s) I) -> I s -> may (rfor lo n body s) I.
Proof.
  induction n as [|n IH]; intros lo body s Hb Hs; [done|]. cbn [rfor]. apply may_bind.
  eapply may_mono; [|by apply Hb]. intros s1 H1. by apply IH.
Qed.

Lemma may_bands (I : S -> Prop) limit ws : forall sfbi l (body : Z -> Z -> Z -> S -> res S) s,
  (forall sfbi l n s, I s -> may (body sfbi l n s) I) -> I s -> may (bands limit ws sfbi l body s) (fun r => I r.2).
Proof.
  induction ws as [|n ws IH]; intros sfbi l body s Hb Hs; cbn [bands]; destruct (l <? limit); try done.
  apply may_bind. eapply may_mono; [|by apply Hb]. intros s1 H1. by apply IH.
Qed.
End Loops.

(** ** Computations that end *)

Abbreviation over r := (may r (fun _ => True)).

Lemma over_bind {A B} (r : res A) (k : A -> res B) : over r -> (forall a, over (k a)) -> over (res_bind r k).
Proof. destruct r; cbn; auto. Qed.
Lemma over_opt {A} (o : option A) : over (res_opt o).
Proof. by destruct o. Qed.
Lemma over_done {A} (a : A) : over (Done a).
Proof. done. Qed.
Lemma over_fault {A} : over (@Fault A).
Proof. done. Qed.
Lemma over_rfor {S} lo n (body : Z -> S -> res S) s : (forall i s, over (body i s)) -> over (rfor lo n body s).
Proof. intros Hb. apply may_rfor; auto. Qed.
Lemma over_bands {S} limit ws sfbi l (body : Z -> Z -> Z -> S -> res S) s :
  (forall sfbi l n s, over (body sfbi l n s)) -> over (bands limit ws sfbi l body s).
Proof. intros Hb. eapply may_mono; [|apply (may_bands (fun _ => True)); auto]. done. Qed.

Create HintDb over.
#[export] Hint Resolve over_opt over_done over_fault : over.

Ltac over_head t := lazymatch t with ?f _ => over_head f | _ => t end.
Ltac over_step :=
  cbn beta iota zeta;
  lazymatch goal with
  | |- forall _, _ => intros ?
  | |- over (res_bind _ _) => apply over_bind; [|intros ?]
  | |- over (rfor _ _ _ _) => apply over_rfor; intros ? ?
  | |- over (bands _ _ _ _ _ _) => apply over_bands; intros ? ? ? ?
  | |- over (if ?b then _ else _) => destruct b
  | |- over (match ?x with _ => _ end) => destruct x
  | |- over ?r => first [solve [auto with over nocore] | let h := over_head r in unfold h]
  end.
Ltac over := repeat over_step.

(** ** Computations with a state that do not run out of fuel *)

Section Ends.
Context {S : Type}.

Definition halts {A} (m : M S A) : Prop := forall s, m s <> NoFuel.

Lemma halts_ret {A} (a : A) : halts (ret a).
Proof. done. Qed.
Lemma halts_get : halts get.
Proof. done. Qed.
Lemma halts_modify f : halts (modify f).
Proof. done. Qed.
Lemma halts_lift {A} (o : option A) : halts (lift o).
Proof. intros s. unfold lift. by destruct o. Qed.
Lemma halts_bind {A B} (m : M S A) (k : A -> M S B) : halts m -> (forall a, halts (k a)) -> halts (bind m k).
Proof.
  intros Hm Hk s. unfold bind. pose proof (Hm s). destruct (m s) as [[[a s1] o]| |]; [|done|done].
  pose proof (Hk a s1). by destruct (k a s1) as [[[b s2] o2]| |].
Qed.
Lemma halts_when b (m : M S unit) : halts m -> halts (when b m).
Proof. by destruct b. Qed.
Lemma halts_for_range lo n (body : Z -> M S unit) : (forall i, halts (body i)) -> halts (for_range lo n body).
Proof. intros Hb. revert lo. induction n as [|n IH]; intros lo; cbn [for_range]; [done|]. by apply halts_bind. Qed.
Lemma halts_for_ok lo n (body : Z -> M S bool) : (forall i, halts (body i)) -> halts (for_ok lo n body).
Proof. intros Hb. revert lo. induction n as [|n IH]; intros lo; cbn [for_ok]; [done|]. apply halts_bind; [done|]. by intros []. Qed.
End Ends.

Lemma over_halts {S A} (m : M S A) s : halts m -> over (m s).
Proof. intros Hm. specialize (Hm s). by destruct (m s). Qed.

Create HintDb halts.
#[export] Hint Resolve halts_ret halts_get halts_modify halts_lift : halts.

Ltac halts_head t := lazymatch t with ?f _ => halts_head f | _ => t end.
Ltac halts_step :=
  cbn beta iota zeta;
  lazymatch goal with
  | |- forall _, _ => intros ?
  | |- halts (bind _ _) => apply halts_bind; [|intros ?]
  | |- halts (when _ _) => apply halts_when
  | |- halts (for_range _ _ _) => apply halts_for_range; intros ?
  | |- halts (for_ok _ _ _) => apply halts_for_ok; intros ?
  | |- halts (if ?b then _ else _) => destruct b
  | |- halts (match ?x with _ => _ end) => destruct x
  | |- halts ?m => first [solve [auto with halts nocore] | let h := halts_head m in unfold h]
  end.
Ltac halts := repeat halts_step.
