(* ===== verification/MadHuffProps.v ===== *)
(** * The Huffman tables of Layer III

    Every table is a complete prefix code for its pairs of values, and the walk through it
    finds the code word at the head of the bit cache. *)

From S2P Require Import Prelude MadBit MadTimer MadStream MadFrame MadFixed MadLayer12 MadHuffman MadTables3 MadSide MadHuff MadRun MadFrameProps MadLayer12Props.

(** ** Code words *)

(** A code word: its bits as a number, how many, and the values. *)
Record code_t : Type := Code { cd_word : Z; cd_len : Z; cd_x : Z; cd_y : Z }.

Definition range (n : Z) : list Z := seqZ 0 n.

(** The code words below the part of a table at [off], which [bits] bits select; [w] are the [len] bits
    before them.  A code word that does not use all bits of the last step is listed once for every rest. *)
Fixpoint leaves (fuel : nat) (table : list huffpair) (off bits w len : Z) : list code_t :=
  flat_map (fun i =>
    match zget table (off + i) with
    | Some (V x y hlen) => [Code (w * 2 ^ hlen + Z.shiftr i (bits - hlen)) (len + hlen) x y]
    | Some (PTR off' bits') =>
        match fuel with O => [] | S fuel => leaves fuel table off' bits' (w * 2 ^ bits + i) (len + bits) end
    | None => []
    end) (range (2 ^ bits)).

(** The walk from there stays in the table, ends, and needs [room] bits at most. *)
Fixpoint walks (fuel : nat) (table : list huffpair) (off bits room : Z) : bool :=
  (0 <=? bits) && (bits <=? room) &&
  forallb (fun i =>
    match zget table (off + i) with
    | Some (V x y hlen) => (0 <=? hlen) && (hlen <=? bits)
    | Some (PTR off' bits') => match fuel with O => false | S fuel => walks fuel table off' bits' (room - bits) end
    | None => false
    end) (range (2 ^ bits)).

Definition CODE_ROOM : Z := 19.
Definition table_walks (h : hufftable) : bool :=
  if ht_table h is Some t then walks HUFF_FUEL t 0 (ht_startbits h) CODE_ROOM else true.

Lemma tables_walk : forallb table_walks mad_huff_pair_table = true.
Proof. vm_compute. reflexivity. Qed.

Lemma in_range_list n i : 0 <= i < n -> In i (range n).
Proof. intros Hi. apply list_elem_of_In, elem_of_seqZ. lia. Qed.

(** ** The bit cache *)

Section Cache.
Context `{T : Target}.

Lemma land_mask x n : 0 <= n -> Z.land x (Z.shiftl 1 n - 1) = x mod 2 ^ n.
Proof. intros Hn. rewrite Z.shiftl_1_l, Z.sub_1_r, <- Z.ones_equiv. by apply Z.land_ones. Qed.

(** [MASK] delivers a number of [bits] bits. *)
Lemma may_MASK b bits (Q : Z -> Prop) : 0 <= bits -> (forall i, 0 <= i < 2 ^ bits -> Q i) -> may (MASK b bits) Q.
Proof. intros Hb HQ. unfold MASK. case_match; [|done]. apply HQ. rewrite land_mask by done. apply Z.mod_pos_bound. lia. Qed.

Lemma long_bits_32 : 32 <= long_bits.
Proof. unfold long_bits. destruct long64; lia. Qed.

Section Stream.
Context (buf : list Z).
Abbreviation bits_at p n := (bits_val buf p (Z.to_nat n)).

(** The cache holds the bits from bit [p] of the buffer on, [end_] is where the granule ends. *)
Record cached (end_ p : Z) (b : bits_t) : Prop := {
  ca_size : 0 <= b_sz b <= 31;
  ca_bits : b_cache b mod 2 ^ b_sz b = bits_at p (b_sz b);
  ca_peek : at_bit buf (b_peek b) (p + b_sz b);
  ca_left : b_left b = end_ - (p + b_sz b)
}.

Lemma cached_total end_ p b : cached end_ p b -> b_total b = end_ - p.
Proof. intros H. unfold b_total. rewrite (ca_left _ _ _ H). lia. Qed.

Lemma bits_top c p s n : 0 <= n <= s -> c mod 2 ^ s = bits_at p s -> (c / 2 ^ (s - n)) mod 2 ^ n = bits_at p n.
Proof.
  intros Hn Hc. pose proof (bits_split buf p n (s - n) ltac:(lia) ltac:(lia)) as Hs. replace (n + (s - n)) with s in Hs by lia.
  pose proof (bits_val_range buf p (Z.to_nat n)) as H1. pose proof (bits_val_range buf (p + n) (Z.to_nat (s - n))) as H2. rewrite Z2Nat.id in H1, H2 by lia.
  assert (Hp : 0 < 2 ^ (s - n)) by (apply Z.pow_pos_nonneg; lia). assert (Hq : 0 < 2 ^ n) by (apply Z.pow_pos_nonneg; lia).
  assert (Hpq : 2 ^ s = 2 ^ (s - n) * 2 ^ n) by (rewrite <- Z.pow_add_r by lia; f_equal; lia).
  rewrite (Z.div_mod c (2 ^ s)), Hc, Hs, Hpq by lia. set (q := c / _).
  replace (2 ^ (s - n) * 2 ^ n * q + (bits_at p n * 2 ^ (s - n) + bits_at (p + n) (s - n))) with ((2 ^ n * q + bits_at p n) * 2 ^ (s - n) + bits_at (p + n) (s - n)) by ring.
  rewrite Z.div_add_l, (Z.div_small (bits_at (p + n) (s - n))), Z.add_0_r by lia.
  rewrite (Z.mul_comm (2 ^ n)), Z.add_comm, Z.mod_add, Z.mod_small by lia. done.
Qed.

Lemma bits_rest c p s n : 0 <= n <= s -> c mod 2 ^ s = bits_at p s -> c mod 2 ^ (s - n) = bits_at (p + n) (s - n).
Proof.
  intros Hn Hc. pose proof (bits_split buf p n (s - n) ltac:(lia) ltac:(lia)) as Hs. replace (n + (s - n)) with s in Hs by lia.
  pose proof (bits_val_range buf (p + n) (Z.to_nat (s - n))) as H2. rewrite Z2Nat.id in H2 by lia.
  assert (Hp : 0 < 2 ^ (s - n)) by (apply Z.pow_pos_nonneg; lia). assert (Hq : 0 < 2 ^ n) by (apply Z.pow_pos_nonneg; lia).
  assert (Hpq : 2 ^ s = 2 ^ (s - n) * 2 ^ n) by (rewrite <- Z.pow_add_r by lia; f_equal; lia).
  rewrite (Z.div_mod c (2 ^ s)), Hc, Hs, Hpq by lia. set (q := c / _).
  replace (2 ^ (s - n) * 2 ^ n * q + (bits_at p n * 2 ^ (s - n) + bits_at (p + n) (s - n))) with (bits_at (p + n) (s - n) + (2 ^ n * q + bits_at p n) * 2 ^ (s - n)) by ring.
  by rewrite Z.mod_add, Z.mod_small by lia.
Qed.

Lemma cached_drop end_ p b n : cached end_ p b -> 0 <= n <= b_sz b -> cached end_ (p + n) (drop_bits n b).
Proof.
  intros [Hs Hb Hp Hl] Hn. constructor; cbn [drop_bits b_sz b_cache b_peek b_left]; [lia|by apply bits_rest| |lia].
  by replace (p + n + (b_sz b - n)) with (p + b_sz b) by lia.
Qed.

Lemma MASK_at end_ p b n : cached end_ p b -> 0 <= n <= b_sz b -> MASK b n = Done (bits_at p n).
Proof.
  intros [Hs Hb Hp Hl] Hn. unfold MASK. pose proof long_bits_32. rewrite (proj2 (Z.leb_le _ _)), (proj2 (Z.ltb_lt _ _)) by lia. cbn [andb].
  f_equal. rewrite land_mask, Z.shiftr_div_pow2 by lia. by apply bits_top.
Qed.

Lemma MASK1BIT_at end_ p b : cached end_ p b -> 1 <= b_sz b -> MASK1BIT b = Done (bit_at buf p).
Proof.
  intros [Hs Hb Hp Hl] Hn. unfold MASK1BIT. rewrite !(proj2 (Z.leb_le _ _)) by lia. cbn [andb]. f_equal.
  pose proof (bits_top (b_cache b) p (b_sz b) 1 ltac:(lia) Hb) as Ht. change (Z.to_nat 1) with 1%nat in Ht. cbn [bits_val] in Ht.
  change (Z.of_nat 0) with 0 in Ht. rewrite Z.add_0_r in Ht. change (2 ^ 1) with 2 in Ht. rewrite <- Z.testbit_spec' in Ht by lia. destruct (Z.testbit _ _), (bit_at buf p); done.
Qed.

(** More bits, up to 31. *)
Lemma refill_at end_ p b n : cached end_ p b -> 1 <= n -> b_sz b + n <= 31 -> p + b_sz b + n <= 8 * zlen buf ->
  exists b', refill buf n b = Done b' /\ cached end_ p b' /\ b_sz b' = b_sz b + n.
Proof.
  intros [Hs Hb Hp Hl] Hn Hsn Hend. unfold refill. pose proof long_bits_32. rewrite (proj2 (Z.ltb_lt _ _)) by lia.
  destruct (bit_read_at buf (b_peek b) _ n Hp ltac:(lia) ltac:(lia)) as (bp & -> & Hbp). cbn [res_bind].
  eexists. split; [done|]. split; [|done]. constructor; cbn [b_sz b_cache b_peek b_left]; [lia| |by rewrite Z.add_assoc|lia].
  pose proof (bits_val_range buf (p + b_sz b) (Z.to_nat n)) as Hr. rewrite Z2Nat.id in Hr by lia.
  rewrite bits_split, <- Hb by lia. set (v := bits_at (p + b_sz b) n) in *. set (c := b_cache b). set (s := b_sz b) in *.
  assert (Hw : exists W, s + n <= W /\ ulong (Z.shiftl c n) = (c * 2 ^ n) mod 2 ^ W).
  { unfold ulong. rewrite Z.shiftl_mul_pow2 by lia. destruct long64; [exists 64|exists 32]; split; lia || done. }
  destruct Hw as (W & HW & ->).
  assert (Hc : (c * 2 ^ n) mod 2 ^ W = (c mod 2 ^ (W - n)) * 2 ^ n).
  { replace (2 ^ W) with (2 ^ (W - n) * 2 ^ n) by (rewrite <- Z.pow_add_r by lia; f_equal; lia). apply Z.mul_mod_distr_r; apply Z.pow_nonzero; lia. }
  rewrite Hc, lor_low by lia.
  rewrite (Z.add_comm _ v), (Z.pow_add_r 2 s n) by lia.
  assert (Hps : 0 < 2 ^ s) by (apply Z.pow_pos_nonneg; lia). assert (Hpn : 0 < 2 ^ n) by (apply Z.pow_pos_nonneg; lia).
  assert (Hcs : (c mod 2 ^ (W - n)) mod 2 ^ s = c mod 2 ^ s).
  { replace (2 ^ (W - n)) with (2 ^ s * 2 ^ (W - n - s)) by (rewrite <- Z.pow_add_r by lia; f_equal; lia).
    rewrite Z.rem_mul_r, (Z.mul_comm (2 ^ s)), Z.mod_add, Z.mod_mod by lia || (apply Z.pow_nonzero; lia) || (apply Z.pow_pos_nonneg; lia). done. }
  rewrite <- Hcs. set (d := c mod 2 ^ (W - n)). pose proof (Z.mod_pos_bound d (2 ^ s) Hps).
  rewrite (Z.div_mod d (2 ^ s)) at 1 by lia. set (q := d / 2 ^ s). set (m := d mod 2 ^ s) in *.
  replace (v + (2 ^ s * q + m) * 2 ^ n) with (m * 2 ^ n + v + q * (2 ^ s * 2 ^ n)) by ring. rewrite Z.mod_add by nia.
  apply Z.mod_small. nia.
Qed.
End Stream.
End Cache.

(** ** The walk *)

Section Walk.
Context `{T : Target}.

Lemma walks_bits fuel table off bits room : walks fuel table off bits room = true -> 0 <= bits <= room.
Proof. destruct fuel; cbn [walks]; lia. Qed.

Lemma walks_entry fuel table off bits room i : walks fuel table off bits room = true -> 0 <= i < 2 ^ bits ->
  0 <= bits <= room /\
  match zget table (off + i) with
  | Some (V x y hlen) => 0 <= hlen <= bits
  | Some (PTR off' bits') => exists fuel', fuel = S fuel' /\ walks fuel' table off' bits' (room - bits) = true
  | None => False
  end.
Proof.
  intros Hw Hi. assert (Hin : In i (range (2 ^ bits))) by by apply in_range_list.
  destruct fuel as [|fuel]; cbn [walks] in Hw; apply andb_prop in Hw as [Hb Hw]; rewrite forallb_forall in Hw; specialize (Hw i Hin);
    (split; [lia|]); destruct (zget table (off + i)) as [[o n|x y h]|]; try done; try lia. by exists fuel.
Qed.

Lemma leaves_here fuel table off bits w len i x y hlen : 0 <= i < 2 ^ bits -> zget table (off + i) = Some (V x y hlen) ->
  In (Code (w * 2 ^ hlen + Z.shiftr i (bits - hlen)) (len + hlen) x y) (leaves fuel table off bits w len).
Proof. intros Hi Hz. destruct fuel; cbn [leaves]; apply in_flat_map; exists i; (split; [by apply in_range_list|rewrite Hz; by left]). Qed.

Lemma leaves_below fuel table off bits w len i off' bits' c : 0 <= i < 2 ^ bits -> zget table (off + i) = Some (PTR off' bits') ->
  In c (leaves fuel table off' bits' (w * 2 ^ bits + i) (len + bits)) -> In c (leaves (S fuel) table off bits w len).
Proof. intros Hi Hz Hc. cbn [leaves]. apply in_flat_map. exists i. split; [by apply in_range_list|]. by rewrite Hz. Qed.

(** The walk ends in every state of the cache. *)
Lemma may_walk table fuel : forall off bits room i b entry, walks fuel table off bits room = true -> 0 <= i < 2 ^ bits ->
  zget table (off + i) = Some entry -> over (huff_walk fuel table bits entry b).
Proof.
  induction fuel as [|fuel IH]; intros off bits room i b entry Hw Hi Hz; destruct (walks_entry _ _ _ _ _ _ Hw Hi) as [Hb He]; rewrite Hz in He.
  { destruct entry as [o n|x y h]; [|done]. by destruct He as (? & [=] & _). }
  destruct entry as [o n|x y h]; [|done]. destruct He as (fuel' & [= <-] & Hw'). cbn [huff_walk].
  pose proof (walks_bits _ _ _ _ _ Hw') as Hn.
  apply may_bind, may_MASK; [lia|]. intros j Hj. apply may_bind, may_opt. intros entry' Hz'. by apply (IH _ _ _ j _ _ Hw' Hj).
Qed.

Lemma word_extend buf p len bits h : 0 <= len -> 0 <= h <= bits ->
  bits_val buf p (Z.to_nat len) * 2 ^ h + Z.shiftr (bits_val buf (p + len) (Z.to_nat bits)) (bits - h) = bits_val buf p (Z.to_nat (len + h)).
Proof.
  intros Hlen Hh. rewrite (bits_split buf p len h), Z.shiftr_div_pow2 by lia. f_equal.
  pose proof (bits_split buf (p + len) h (bits - h) ltac:(lia) ltac:(lia)) as Hs. replace (h + (bits - h)) with bits in Hs by lia. rewrite Hs.
  pose proof (bits_val_range buf (p + len + h) (Z.to_nat (bits - h))) as Hr. rewrite Z2Nat.id in Hr by lia.
  by rewrite Z.div_add_l, (Z.div_small (bits_val buf (p + len + h) _)), Z.add_0_r by lia.
Qed.

(** The code word at the head of the cache. *)
Lemma walk_finds buf table end_ p fuel : forall off bits room w len q b,
  walks fuel table off bits room = true -> q = p + len -> 0 <= len -> w = bits_val buf p (Z.to_nat len) ->
  cached buf end_ q b -> room <= b_sz b ->
  exists entry c, zget table (off + bits_val buf q (Z.to_nat bits)) = Some entry /\
    huff_walk fuel table bits entry b = Done (cd_x c, cd_y c, drop_bits (cd_len c - len) b) /\
    In c (leaves fuel table off bits w len) /\ cd_word c = bits_val buf p (Z.to_nat (cd_len c)) /\ len <= cd_len c <= len + room.
Proof.
  induction fuel as [|fuel IH]; intros off bits room w len q b Hw -> Hlen -> Hb Hroom.
  all: pose proof (walks_bits _ _ _ _ _ Hw) as Hbits.
  all: pose proof (bits_val_range buf (p + len) (Z.to_nat bits)) as Hi; rewrite Z2Nat.id in Hi by lia; set (i := bits_val buf (p + len) (Z.to_nat bits)) in *.
  all: destruct (walks_entry _ _ _ _ _ _ Hw Hi) as [_ He].
  all: destruct (zget table (off + i)) as [[o n|x y h]|] eqn:Hz; [| |done].
  1: by destruct He as (? & [=] & _).
  1, 3: eexists _, (Code _ (len + h) x y); split; [done|]; cbn [cd_x cd_y cd_len cd_word]; split;
    [cbn [huff_walk]; replace (len + h - len) with h by lia; done|];
    split; [apply (leaves_here _ _ _ _ _ _ i x y h Hi Hz)|]; split; [by apply word_extend|lia].
  destruct He as (fuel' & [= <-] & Hw').
  destruct (IH o n (room - bits) (bits_val buf p (Z.to_nat (len + bits))) (len + bits) (p + len + bits) (drop_bits bits b) Hw' ltac:(lia) ltac:(lia) eq_refl) as (e & c & Hz' & Hk & Hin & Hword & Hl).
  { apply cached_drop; [done|lia]. }
  { cbn [drop_bits b_sz]. lia. }
  exists (PTR o n), c. split; [done|]. split_and!; [| |done|lia|lia].
  - cbn [huff_walk]. rewrite (MASK_at buf end_ (p + len + bits)).
    + cbn [res_bind]. unfold at_. rewrite Hz'. cbn [res_opt res_bind]. rewrite Hk. do 2 f_equal.
      unfold drop_bits. cbn [b_peek b_left b_sz b_cache]. f_equal. lia.
    + apply cached_drop; [done|lia].
    + cbn [drop_bits b_sz]. apply walks_bits in Hw'. lia.
  - apply (leaves_below _ _ _ _ _ _ i o n c Hi Hz). rewrite (bits_split buf p len bits) in Hin by lia. done.
Qed.
End Walk.

(** ** Complete prefix codes *)

#[export] Instance code_eq_dec : EqDecision code_t.
Proof. solve_decision. Defined.

Definition codes (h : hufftable) : list code_t :=
  if ht_table h is Some t then remove_dups (leaves HUFF_FUEL t 0 (ht_startbits h) 0 0) else [].

Definition is_prefix (c d : code_t) : bool := (cd_len c <=? cd_len d) && (Z.shiftr (cd_word d) (cd_len d - cd_len c) =? cd_word c).
Definition prefix_free (l : list code_t) : bool := forallb (fun c => forallb (fun d => implb (is_prefix c d) (bool_decide (c = d))) l) l.
(** The shares of all bit sequences that begin with a code word, in units of 2^-19. *)
Definition kraft (l : list code_t) : Z := foldr (fun c n => 2 ^ (CODE_ROOM - cd_len c) + n) 0 l.
(** The values of both lines are 0, ..., [n - 1], and every pair has one code word. *)
Definition covers (n : Z) (l : list code_t) : bool :=
  forallb (fun x => forallb (fun y => bool_decide (length (filter (fun c => cd_x c = x /\ cd_y c = y) l) = 1%nat)) (range n)) (range n) &&
  forallb (fun c => in_range (cd_x c) n && in_range (cd_y c) n && in_range (cd_len c) (CODE_ROOM + 1)) l.

(** The values of the tables 0, ..., 31; 4 and 14 are not used. *)
Definition pair_values : list Z := [1; 2; 3; 3; 0; 4; 4; 6; 6; 6; 8; 8; 8; 16; 0; 16] ++ repeat 16 16.

Definition complete_code (n : Z) (h : hufftable) : bool :=
  if ht_table h is Some _ then prefix_free (codes h) && (kraft (codes h) =? 2 ^ CODE_ROOM) && covers n (codes h) else n =? 0.

Lemma tables_complete : forallb (fun x => complete_code x.1 x.2) (zip pair_values mad_huff_pair_table) = true.
Proof. vm_compute. reflexivity. Qed.

Lemma table_complete i n h t : zget pair_values i = Some n -> zget mad_huff_pair_table i = Some h -> ht_table h = Some t ->
  prefix_free (codes h) = true /\ kraft (codes h) = 2 ^ CODE_ROOM /\ covers n (codes h) = true.
Proof.
  intros Hn Hh Ht. pose proof tables_complete as Hc. rewrite forallb_forall in Hc. specialize (Hc (n, h)).
  assert (Hin : In (n, h) (zip pair_values mad_huff_pair_table)).
  { apply list_elem_of_In, (list_elem_of_lookup_2 _ (Z.to_nat i)), lookup_zip_Some. by split; apply zget_lookup. }
  specialize (Hc Hin). cbn [fst snd] in Hc. unfold complete_code in Hc. rewrite Ht in Hc.
  apply andb_prop in Hc as [[H1 H2]%andb_prop H3]. split_and!; [done|by apply Z.eqb_eq|done].
Qed.

Lemma table_walks_at i h t : zget mad_huff_pair_table i = Some h -> ht_table h = Some t -> walks HUFF_FUEL t 0 (ht_startbits h) CODE_ROOM = true.
Proof.
  intros Hh Ht. pose proof tables_walk as Hc. rewrite forallb_forall in Hc. specialize (Hc h). unfold table_walks in Hc. rewrite Ht in Hc. apply Hc.
  apply list_elem_of_In, (list_elem_of_lookup_2 _ (Z.to_nat i)). by apply zget_lookup.
Qed.

Lemma codes_leaves h t c : ht_table h = Some t -> In c (codes h) <-> In c (leaves HUFF_FUEL t 0 (ht_startbits h) 0 0).
Proof. intros Ht. unfold codes. rewrite Ht, <- !list_elem_of_In. apply elem_of_remove_dups. Qed.

Lemma codes_prefix_free l c d : prefix_free l = true -> In c l -> In d l -> is_prefix c d = true -> c = d.
Proof.
  intros Hp Hc Hd Hcd. unfold prefix_free in Hp. rewrite forallb_forall in Hp. specialize (Hp c Hc). rewrite forallb_forall in Hp. specialize (Hp d Hd).
  rewrite Hcd in Hp. by apply bool_decide_eq_true in Hp.
Qed.

(** The only code word of a pair. *)
Lemma covers_code n l x y : covers n l = true -> 0 <= x < n -> 0 <= y < n ->
  exists c, In c l /\ cd_x c = x /\ cd_y c = y /\ forall d, In d l -> cd_x d = x -> cd_y d = y -> d = c.
Proof.
  intros Hc Hx Hy. apply andb_prop in Hc as [Hc _]. rewrite forallb_forall in Hc. specialize (Hc x ltac:(by apply in_range_list)).
  rewrite forallb_forall in Hc. specialize (Hc y ltac:(by apply in_range_list)). apply bool_decide_eq_true in Hc.
  destruct (filter _ l) as [|c [|? ?]] eqn:Hf; try done. exists c.
  assert (Hin : forall d, d ∈ l /\ cd_x d = x /\ cd_y d = y <-> d = c).
  { intros d. rewrite <- (list_elem_of_singleton d c), <- Hf, list_elem_of_filter. tauto. }
  destruct (proj2 (Hin c) eq_refl) as (H1 & H2 & H3). split_and!; [by apply list_elem_of_In|done|done|].
  intros d Hd ? ?. apply Hin. by rewrite list_elem_of_In.
Qed.

Lemma covers_in n l c : covers n l = true -> In c l -> 0 <= cd_x c < n /\ 0 <= cd_y c < n /\ 0 <= cd_len c <= CODE_ROOM.
Proof.
  intros Hc Hin. apply andb_prop in Hc as [_ Hc]. rewrite forallb_forall in Hc. specialize (Hc c Hin). unfold in_range in Hc. lia.
Qed.

Lemma match_prefix buf p c d : 0 <= cd_len c <= cd_len d -> cd_word c = bits_val buf p (Z.to_nat (cd_len c)) -> cd_word d = bits_val buf p (Z.to_nat (cd_len d)) ->
  is_prefix c d = true.
Proof.
  intros Hl Hc Hd. unfold is_prefix. rewrite (proj2 (Z.leb_le _ _)) by lia. apply Z.eqb_eq. rewrite Hc, Hd.
  pose proof (word_extend buf p 0 (cd_len d) (cd_len c) ltac:(lia) ltac:(lia)) as He.
  change (bits_val buf p (Z.to_nat 0)) with 0 in He. by rewrite Z.add_0_r, !Z.add_0_l in He.
Qed.

(** Only one code word is at the head of a bit sequence. *)
Lemma code_unique buf p l c d : prefix_free l = true -> In c l -> In d l -> 0 <= cd_len c -> 0 <= cd_len d ->
  cd_word c = bits_val buf p (Z.to_nat (cd_len c)) -> cd_word d = bits_val buf p (Z.to_nat (cd_len d)) -> c = d.
Proof.
  intros Hp Hc Hd Hlc Hld Hwc Hwd.
  destruct (Z.le_ge_cases (cd_len c) (cd_len d)) as [Hle|Hle].
  - apply (codes_prefix_free l c d Hp Hc Hd), (match_prefix buf p); [lia|done|done].
  - symmetry. apply (codes_prefix_free l d c Hp Hd Hc), (match_prefix buf p); [lia|done|done].
Qed.

Section Pair.
Context `{T : Target}.

(** The pair at the head of the cache, and its code word. *)
Lemma huff_pair_walks buf end_ p b t linbits startbits room rcount region :
  walks HUFF_FUEL t 0 startbits room = true -> cached buf end_ p b -> room <= b_sz b ->
  exists c, In c (leaves HUFF_FUEL t 0 startbits 0 0) /\ 0 <= cd_len c <= room /\ cd_word c = bits_val buf p (Z.to_nat (cd_len c)) /\
    huff_pair (Region rcount region t linbits startbits) b = Done (cd_x c, cd_y c, drop_bits (cd_len c) b).
Proof.
  intros Hw Hb Hroom.
  destruct (walk_finds buf t end_ p HUFF_FUEL 0 startbits room 0 0 p b Hw) as (e & c & Hz & Hk & Hin & Hword & Hl); [lia|lia|done|done|done|].
  exists c. split_and!; [done|lia|lia|done|]. unfold huff_pair. cbn [rg_startbits rg_table].
  rewrite (MASK_at buf end_ p b) by (done || (apply walks_bits in Hw; lia)).
  cbn [res_bind]. rewrite Z.add_0_l in Hz. unfold at_. rewrite Hz. cbn [res_opt res_bind]. by rewrite Hk, Z.sub_0_r.
Qed.

Lemma huff_pair_finds buf end_ p b i h t rcount region :
  zget mad_huff_pair_table i = Some h -> ht_table h = Some t -> cached buf end_ p b -> CODE_ROOM <= b_sz b ->
  exists c, In c (codes h) /\ 0 <= cd_len c <= CODE_ROOM /\ cd_word c = bits_val buf p (Z.to_nat (cd_len c)) /\
    huff_pair (Region rcount region t (ht_linbits h) (ht_startbits h)) b = Done (cd_x c, cd_y c, drop_bits (cd_len c) b).
Proof.
  intros Hh Ht Hb Hroom. destruct (huff_pair_walks buf end_ p b t (ht_linbits h) (ht_startbits h) _ rcount region (table_walks_at i h t Hh Ht) Hb Hroom) as (c & Hin & H).
  exists c. by rewrite (codes_leaves h t) by done.
Qed.

(** The tables of quadruples, with two lines as one number. *)
Definition as_pair (q : huffquad) : huffpair := match q with QPTR off bits => PTR off bits | QV v w x y hlen => V (2 * v + w) (2 * x + y) hlen end.
Definition quad_table (tab : list huffquad) : hufftable := HuffTable (Some (map as_pair tab)) 0 4.
Definition QUAD_ROOM : Z := 6.

(** Two steps at most, and every line is 0 or 1. *)
Definition two_steps (tab : list huffquad) : bool :=
  forallb (fun q => match q with QPTR off bits => (16 <=? off) && (0 <=? bits) | QV v w x y _ => in_range v 2 && in_range w 2 && in_range x 2 && in_range y 2 end) tab &&
  forallb (fun q => match q with QV _ _ _ _ _ => true | QPTR _ _ => false end) (drop 16 tab).

Lemma quad_tables_complete : forallb (fun tab => complete_code 4 (quad_table tab) && walks HUFF_FUEL (map as_pair tab) 0 4 QUAD_ROOM && two_steps tab) mad_huff_quad_table = true.
Proof. vm_compute. reflexivity. Qed.

Lemma zget_map {A B} (f : A -> B) l i : zget (map f l) i = option_map f (zget l i).
Proof. unfold zget. case_match; [done|]. by rewrite list_lookup_fmap. Qed.

Lemma halves v w : 0 <= v < 2 -> 0 <= w < 2 -> v = (2 * v + w) / 2 /\ w = (2 * v + w) mod 2.
Proof. lia. Qed.

(** The walk through a table of quadruples is the walk through the table of pairs. *)
Lemma huff_quad_pair tab b X Y b' rcount region linbits : two_steps tab = true ->
  huff_pair (Region rcount region (map as_pair tab) linbits 4) b = Done (X, Y, b') -> huff_quad tab b = Done (X / 2, X mod 2, Y / 2, Y mod 2, b').
Proof.
  intros H2. apply andb_prop in H2 as [Hall Hlast]. rewrite forallb_forall in Hall, Hlast.
  assert (Hin : forall i q, zget tab i = Some q -> In q tab) by (intros i q Hq; by apply list_elem_of_In, (list_elem_of_lookup_2 _ _ _ (zget_lookup _ _ _ Hq))).
  unfold huff_pair, huff_quad. cbn [rg_startbits rg_table]. destruct (MASK b 4) as [i| |]; cbn [res_bind]; [|done|done].
  unfold at_. rewrite zget_map. destruct (zget tab i) as [q|] eqn:Hq; cbn [option_map res_opt res_bind]; [|done]. pose proof (Hall q (Hin _ _ Hq)) as Ho.
  change HUFF_FUEL with 8%nat. destruct q as [off bits|v w x y hlen]; cbn [as_pair huff_walk res_bind].
  2: { unfold in_range in Ho. intros [= <- <- <-]. destruct (halves v w ltac:(lia) ltac:(lia)) as [<- <-], (halves x y ltac:(lia) ltac:(lia)) as [<- <-]; done. }
  destruct (MASK (drop_bits 4 b) bits) as [j| |] eqn:Hj; cbn [res_bind]; [|done|done].
  assert (H0 : 0 <= j) by (unfold MASK in Hj; case_match; [injection Hj as <-; rewrite land_mask by lia; apply Z.mod_pos_bound, Z.pow_pos_nonneg; lia|done]).
  unfold at_. rewrite zget_map. destruct (zget tab (off + j)) as [q'|] eqn:Hq'; cbn [option_map res_opt res_bind]; [|done]. pose proof (Hall q' (Hin _ _ Hq')) as Ho'.
  assert (Hd : In q' (drop 16 tab)).
  { apply list_elem_of_In, (list_elem_of_lookup_2 _ (Z.to_nat (off + j) - 16)). rewrite lookup_drop. apply zget_lookup in Hq'. rewrite <- Hq'. f_equal. lia. }
  specialize (Hlast q' Hd). destruct q' as [|v w x y hlen]; [done|]. cbn [as_pair huff_walk res_bind].
  unfold in_range in Ho'. intros [= <- <- <-]. destruct (halves v w ltac:(lia) ltac:(lia)) as [<- <-], (halves x y ltac:(lia) ltac:(lia)) as [<- <-]; done.
Qed.

(** C23: The tables of huffman.c are complete prefix codes, and the table walk is their decoder: for each of the 30 tables and each pair of values that the table is for there is one code word of
    at most 19 bits, and whenever the bit cache holds at least 19 bits the walk returns this pair and drops exactly the code word if and only if the code word is at the
    head of the bits; the code words of a table share no prefix and leave no bit sequence without a meaning. *)
Theorem huff_pair_decodes i n h t : zget pair_values i = Some n -> zget mad_huff_pair_table i = Some h -> ht_table h = Some t ->
  (forall c d, In c (codes h) -> In d (codes h) -> is_prefix c d = true -> c = d) /\ kraft (codes h) = 2 ^ CODE_ROOM /\
  forall x y, 0 <= x < n -> 0 <= y < n -> exists c, In c (codes h) /\ cd_x c = x /\ cd_y c = y /\ 0 <= cd_len c <= CODE_ROOM /\
    forall buf end_ p b rcount region, cached buf end_ p b -> CODE_ROOM <= b_sz b ->
      (bits_val buf p (Z.to_nat (cd_len c)) = cd_word c <->
       huff_pair (Region rcount region t (ht_linbits h) (ht_startbits h)) b = Done (x, y, drop_bits (cd_len c) b)).
Proof.
  intros Hn Hh Ht. destruct (table_complete i n h t Hn Hh Ht) as (Hp & Hk & Hc). split; [intros c d; by apply codes_prefix_free|]. split; [done|].
  intros x y Hx Hy. destruct (covers_code n _ x y Hc Hx Hy) as (c & Hin & <- & <- & Hu). exists c. do 3 (split; [done|]). split; [by apply (covers_in n _ c Hc)|].
  intros buf end_ p b rcount region Hb Hroom. destruct (huff_pair_finds buf end_ p b i h t rcount region Hh Ht Hb Hroom) as (d & Hd & Hl & Hw & ->). split.
  - intros Hm. pose proof (covers_in n _ c Hc Hin) as (_ & _ & Hlc). by rewrite (code_unique buf p (codes h) c d) by (done || lia).
  - intros [= H1 H2 _]. rewrite <- (Hu d Hd H1 H2). by symmetry.
Qed.
End Pair.

Section PairWitness.
#[local] Existing Instance stm32_target.

(** Table 1: the pair (0, 1) has the code word 001. *)
Lemma huff_pair_decodes_witness :
  let b := Bits (BitPtr 3 0 8) 0 24 2097152 in
  cached [32; 0; 0; 0] 24 0 b /\ bits_val [32; 0; 0; 0] 0 3 = 1 /\ huff_pair (Region 1 0 hufftab1 0 3) b = Done (0, 1, drop_bits 3 b).
Proof.
  intros b. assert (Hb : cached [32; 0; 0; 0] 24 0 b) by (constructor; vm_compute; intuition (discriminate || reflexivity)).
  split; [exact Hb|]. split; [vm_compute; reflexivity|].
  destruct (huff_pair_decodes 1 2 (HuffTable (Some hufftab1) 0 3) hufftab1 eq_refl eq_refl eq_refl) as (_ & _ & H).
  destruct (H 0 1 ltac:(lia) ltac:(lia)) as (c & Hin & Hx & Hy & _ & Hdec).
  change (codes (HuffTable (Some hufftab1) 0 3)) with [Code 0 3 1 1; Code 1 3 0 1; Code 1 2 1 0; Code 1 1 0 0] in Hin.
  cbn [In] in Hin. destruct_or! Hin; subst c; try discriminate. apply (Hdec [32; 0; 0; 0] 24 0 b 1 0 Hb); [done|]. vm_compute. reflexivity.
Defined.
End PairWitness.
