(* ===== verification/MadHuffRef.v ===== *)
(** * Huffman decoding of a granule, bit by bit

    The reference decoder works on bit positions: it has no bit cache, no cache of requantized
    values and no pointers that move from band to band.  [III_huffdecode] computes the same. *)

From S2P Require Import Prelude MadBit MadTimer MadStream MadFrame MadFrameProps MadFixed MadLayer12 MadLayer12Props MadHuffman MadTables3 MadSide MadHuff MadRun MadHuffProps.

(** ** Requantization on the board *)

Definition RQ_VALUES : Z := 8207.

Lemma rq_table_length : zlen rq_table = RQ_VALUES.
Proof. vm_compute. reflexivity. Qed.

Lemma rq_table_bounds : Forall (fun f => 0 <= mantissa f < 134217728 /\ 0 <= exponent f <= 19) rq_table.
Proof.
  apply Forall_forall. intros f Hf. assert (H : forallb (fun f => (0 <=? mantissa f) && (mantissa f <? 134217728) && (0 <=? exponent f) && (exponent f <=? 19)) rq_table = true) by (vm_compute; reflexivity).
  rewrite forallb_forall in H. specialize (H f Hf). lia.
Qed.

Section Requantize.
Context `{T : Target} `{FP : Fpm}.

Definition requant (v e : Z) : Z := match III_requantize v e with Done q => q | _ => 0 end.

(** A product that is not the smallest number: the factor is a multiple of 16, or the largest number. *)
Lemma root_product q root : 0 <= q < 2147483648 -> (q < 1073741824 \/ q mod 16 = 0 \/ q = MAD_F_MAX) -> In root root_table -> below 2147483648 (mul_arm q root).
Proof.
  intros Hq Hc Hr. rewrite mul_arm_rounds. unfold below, s32, MAD_F_ONE, MAD_F_MAX in *.
  cbn [root_table In] in Hr. destruct_or! Hr; subst; try done; lia.
Qed.

(** Half of the last bit that is kept. *)
Lemma fits_rounding m k : 0 <= m < 134217728 -> 0 < k < long_bits -> fits (m + Z.shiftl 1 (k - 1)) = Some (m + 2 ^ (k - 1)).
Proof.
  intros Hm Hk. rewrite Z.shiftl_1_l. assert (0 < 2 ^ (k - 1)) by (apply Z.pow_pos_nonneg; lia). unfold fits, slong, s32, long_bits in *. destruct long64.
  - assert (2 ^ (k - 1) <= 2 ^ 62) by (apply Z.pow_le_mono_r; lia). rewrite Z.mod_small by lia. by rewrite Z.add_simpl_r, Z.eqb_refl.
  - assert (2 ^ (k - 1) <= 2 ^ 30) by (apply Z.pow_le_mono_r; lia). rewrite Z.mod_small by lia. by rewrite Z.add_simpl_r, Z.eqb_refl.
Qed.

Lemma requantize_arm v e : fpm_arm = true -> 0 <= v < RQ_VALUES -> III_requantize v e = Done (requant v e) /\ below 2147483648 (requant v e).
Proof.
  intros Harm Hv. rewrite <- rq_table_length in Hv. destruct (zget_some rq_table v Hv) as [power Hp].
  pose proof (zget_Forall _ _ _ _ rq_table_bounds Hp) as [Hm Hx].
  assert (H : yields (III_requantize v e) (below 2147483648)); [|unfold requant; by destruct (III_requantize v e)].
  unfold III_requantize, at_. rewrite Hp. cbn [res_opt res_bind]. set (m := mantissa power) in *. set (x := Z.quot e 4 + exponent power). cbv zeta.
  apply yields_bind. apply (yields_mono _ (fun q => 0 <= q < 2147483648 /\ (q < 1073741824 \/ q mod 16 = 0 \/ q = MAD_F_MAX))).
  { intros q [Hq Hc]. cbn beta. destruct (Z.eqb_spec (Z.rem e 4) 0) as [_|Hf]; cbn [negb]; [unfold below; cbn; lia|].
    pose proof (Z.rem_bound_abs e 4 ltac:(lia)) as Hb. destruct (zget_some root_table (3 + Z.rem e 4)) as [root Hr]; [change (zlen root_table) with 7; lia|].
    rewrite Hr. cbn [res_opt res_bind]. unfold mad_f_mul. rewrite Harm. cbn [res_opt yields]. apply root_product; [done|done|].
    apply zget_lookup in Hr. by apply list_elem_of_In, (list_elem_of_lookup_2 _ _ _ Hr). }
  pose proof long_bits_32. destruct (Z.ltb_spec x 0) as [Hneg|Hpos].
  - destruct (Z.geb_spec (- x) long_bits) as [_|Hl]; [cbn; lia|].
    assert (Hpow : 0 < 2 ^ (- x - 1)) by (apply Z.pow_pos_nonneg; lia).
    rewrite fits_rounding by lia. cbn [res_opt res_bind yields]. rewrite Z.shiftr_div_pow2 by lia.
    assert (He : 2 ^ (- x) = 2 * 2 ^ (- x - 1)) by (rewrite <- Z.pow_succ_r by lia; f_equal; lia). rewrite He.
    set (h := 2 ^ (- x - 1)) in *. assert (0 <= (m + h) / (2 * h)) by (apply Z.div_pos; lia).
    assert ((m + h) / (2 * h) <= 134217728) by (apply Z.div_le_upper_bound; nia). lia.
  - destruct (Z.geb_spec x 5); [unfold MAD_F_MAX; cbn; lia|]. cbn [yields]. rewrite Z.shiftl_mul_pow2 by lia.
    assert (Hcase : x = 0 \/ x = 1 \/ x = 2 \/ x = 3 \/ x = 4) by lia. destruct_or! Hcase; rewrite Hcase; cbn; lia.
Qed.
End Requantize.

(** The number of bits to read is a multiple of eight. *)
Lemma round8 x : Z.land x (Z.lnot 7) = x / 8 * 8.
Proof. rewrite <- Z.ldiff_land. change 7 with (Z.ones 3). by rewrite Z.ldiff_ones_r, Z.shiftl_mul_pow2, Z.shiftr_div_pow2 by lia. Qed.

(** ** The reference *)

Section Reference.
Context `{T : Target} `{FP : Fpm} (buf : list Z).
Abbreviation bits_at p n := (bits_val buf p (Z.to_nat n)).

(** The code word at bit [p]. *)
Definition find_code (h : hufftable) (p : Z) : option code_t := List.find (fun c => bits_at p (cd_len c) =? cd_word c) (codes h).

(** A line at bit [p] behind the code word for [x]: its value and the next bit. *)
Definition line_at (linbits e p x : Z) : Z * Z :=
  let signed v p := ((if bit_at buf p then - requant v e else requant v e), p + 1) in
  if x =? 0 then (0, p)
  else if negb (linbits =? 0) && (x =? 15) then signed (15 + bits_at p linbits) (p + linbits)
  else signed x p.

Definition pair_at (h : hufftable) (e p : Z) : Z * Z * Z :=
  match find_code h p with
  | None => (0, 0, p)
  | Some c =>
      let '(v, p) := line_at (ht_linbits h) e (p + cd_len c) (cd_x c) in
      let '(w, p) := line_at (ht_linbits h) e p (cd_y c) in
      (v, w, p)
  end.
End Reference.

(** ** One pair *)

Section Pair.
Context `{T : Target} `{FP : Fpm} (buf : list Z) (end_ : Z).
Context (Harm : fpm_arm = true) (Hend : end_ + MAD_BUFFER_GUARD * CHAR_BIT <= 8 * zlen buf).
Abbreviation bits_at p n := (bits_val buf p (Z.to_nat n)).
Abbreviation cached := (cached buf end_).

(** The requantized values that are remembered are those for the exponent [e]. *)
Definition req_ok (e : Z) (r : req_t) : Prop :=
  zlen (rq_cache r) = 16 /\ forall v, 0 <= v -> Z.testbit (rq_hits r) v = true -> cget (rq_cache r) v = Done (requant v e).

Lemma req_ok_empty e c : zlen c = 16 -> req_ok e (Req 0 c).
Proof. intros Hc. split; [done|]. intros v _. cbn [rq_hits]. by rewrite Z.testbit_0_l. Qed.

Lemma cset_in (a : cells) i v : 0 <= i < zlen a -> cset a i v = Done (<[Z.to_nat i := Some v]> a).
Proof. intros Hi. unfold cset, cell_set. by rewrite zset_some. Qed.

Lemma cget_insert (a : cells) i j v : 0 <= i < zlen a -> cget (<[Z.to_nat i := Some v]> a) j = if j =? i then Done v else cget a j.
Proof.
  intros Hi. unfold cget, cell_get, zget. destruct (Z.eqb_spec j i) as [->|Hj].
  - destruct (Z.ltb_spec i 0); [lia|]. rewrite list_lookup_insert_eq; [done|]. unfold zlen in Hi. lia.
  - destruct (Z.ltb_spec j 0); [done|]. rewrite list_lookup_insert_ne by lia. done.
Qed.

Lemma req_cached_at v e r : req_ok e r -> 0 <= v < 16 -> exists r', req_cached v e r = Done (requant v e, r') /\ req_ok e r'.
Proof.
  intros [Hl Hr] Hv. unfold req_cached. destruct (Z.testbit (rq_hits r) v) eqn:Ht.
  { rewrite Hr by lia || done. by exists r. }
  destruct (requantize_arm v e Harm) as [-> _]; [unfold RQ_VALUES; lia|]. cbn [res_bind].
  rewrite cset_in by lia. cbn [res_bind]. eexists. split; [done|]. split; cbn [rq_cache rq_hits]; [by rewrite zlen_insert|].
  intros w Hw. rewrite Z.lor_spec, Z.shiftl_1_l, Z.pow2_bits_eqb by lia. rewrite cget_insert by lia.
  destruct (Z.eqb_spec w v) as [->|Hne]; [done|]. rewrite (proj2 (Z.eqb_neq v w)), orb_false_r by lia. by apply Hr.
Qed.

Lemma signed_value_at v e p b : cached p b -> 1 <= b_sz b -> 0 <= v < RQ_VALUES ->
  signed_value (requant v e) b = Done (if bit_at buf p then - requant v e else requant v e, drop_bits 1 b).
Proof.
  intros Hb Hs Hv. unfold signed_value. rewrite (MASK1BIT_at buf end_ p b) by done. cbn [res_bind].
  destruct (requantize_arm v e Harm Hv) as [_ Hq]. unfold below in Hq. destruct (bit_at buf p); [|done]. by rewrite fits_32 by lia.
Qed.

Lemma huff_value_at linbits extra e x p b r : cached p b -> req_ok e r -> 0 <= linbits <= 13 -> 1 <= extra <= 2 -> extra <= b_sz b ->
  0 <= x < 16 -> p + b_sz b + 16 <= 8 * zlen buf ->
  exists b' r', huff_value buf linbits extra e x (b, r) = Done ((line_at buf linbits e p x).1, (b', r')) /\
    cached (line_at buf linbits e p x).2 b' /\ req_ok e r' /\ extra - 1 <= b_sz b' /\
    (line_at buf linbits e p x).2 + b_sz b' <= p + b_sz b + 16 /\ p <= (line_at buf linbits e p x).2.
Proof.
  intros Hb Hr Hlb Hex Hsz Hx Hbuf. pose proof (ca_size _ _ _ _ Hb) as Hs. unfold huff_value, line_at.
  destruct (x =? 0); [exists b, r; cbn; split_and!; (done || lia)|].
  destruct (negb (linbits =? 0) && (x =? 15)) eqn:Hesc.
  - assert (x = 15) as -> by lia.
    assert (Hfill : exists b1, (if u32 (b_sz b) <? linbits + extra then refill buf 16 b else Done b) = Done b1 /\ cached p b1 /\
        linbits + extra <= b_sz b1 /\ b_sz b1 <= b_sz b + 16).
    { replace (u32 (b_sz b)) with (b_sz b) by (wraps; lia). destruct (Z.ltb_spec (b_sz b) (linbits + extra)); [|exists b; split_and!; (done || lia)].
      destruct (refill_at buf end_ p b 16 Hb) as (b1 & -> & Hb1 & Hs1); [lia|lia|lia|]. exists b1. split_and!; (done || lia). }
    destruct Hfill as (b1 & -> & Hb1 & Hs1 & Hs1'). cbn [res_bind]. rewrite (MASK_at buf end_ p b1) by (done || lia). cbn [res_bind].
    pose proof (bits_val_range buf p (Z.to_nat linbits)) as Hm. rewrite Z2Nat.id in Hm by lia.
    assert (2 ^ linbits <= 2 ^ 13) by (apply Z.pow_le_mono_r; lia). change (2 ^ 13) with 8192 in *.
    assert (Hv : 0 <= 15 + bits_at p linbits < RQ_VALUES) by (unfold RQ_VALUES; lia).
    destruct (requantize_arm (15 + bits_at p linbits) e Harm Hv) as [-> _]. cbn [res_bind].
    pose proof (cached_drop buf end_ p b1 linbits Hb1 ltac:(lia)) as Hb2. rewrite (signed_value_at _ _ _ _ Hb2) by (done || (cbn [drop_bits b_sz]; lia)). cbn [res_bind].
    eexists _, r. split; [done|]. cbn [fst snd]. split; [apply cached_drop; [done|cbn [drop_bits b_sz]; lia]|]. cbn [drop_bits b_sz]. split_and!; (done || lia).
  - destruct (req_cached_at x e r Hr Hx) as (r' & -> & Hr'). cbn [res_bind].
    rewrite (signed_value_at _ _ _ _ Hb) by (lia || (unfold RQ_VALUES; lia)). cbn [res_bind].
    eexists _, r'. split; [done|]. cbn [fst snd]. split; [apply cached_drop; [done|lia]|]. cbn [drop_bits b_sz]. split_and!; (done || lia).
Qed.

(** The region uses the table [h]. *)
Definition region_is (rg : region_t) (h : hufftable) : Prop :=
  (exists i, zget mad_huff_pair_table i = Some h) /\ ht_table h = Some (rg_table rg) /\ rg_linbits rg = ht_linbits h /\ rg_startbits rg = ht_startbits h.

Lemma tables_linbits h : In h mad_huff_pair_table -> 0 <= ht_linbits h <= 13.
Proof.
  assert (H : forallb (fun h => in_range (ht_linbits h) 14) mad_huff_pair_table = true) by (vm_compute; reflexivity).
  rewrite forallb_forall in H. intros Hin. specialize (H h Hin). unfold in_range in H. lia.
Qed.

Lemma pair_values_small i h : zget mad_huff_pair_table i = Some h -> exists n, zget pair_values i = Some n /\ n <= 16.
Proof.
  intros Hh. apply zget_range in Hh. change (zlen mad_huff_pair_table) with 32 in Hh. destruct (zget_some pair_values i) as [n Hn]; [by change (zlen pair_values) with 32|].
  exists n. split; [done|]. assert (H : Forall (fun n => n <= 16) pair_values) by (repeat constructor; lia). by apply (zget_Forall _ _ _ _ H Hn).
Qed.

Lemma huff_pair_at rg h p b : region_is rg h -> cached p b -> CODE_ROOM <= b_sz b ->
  exists c, find_code buf h p = Some c /\ huff_pair rg b = Done (cd_x c, cd_y c, drop_bits (cd_len c) b) /\
    0 <= cd_len c <= CODE_ROOM /\ 0 <= cd_x c < 16 /\ 0 <= cd_y c < 16.
Proof.
  intros ((i & Hi) & Ht & Hl & Hs) Hb Hroom. destruct rg as [rc re t lb sb]. cbn [rg_table rg_linbits rg_startbits] in *. subst lb sb.
  destruct (huff_pair_finds buf end_ p b i h t rc re Hi Ht Hb Hroom) as (c & Hin & Hlen & Hw & Hp).
  destruct (pair_values_small i h Hi) as (n & Hn & H16). destruct (table_complete i n h t Hn Hi Ht) as (Hpf & _ & Hc). exists c.
  pose proof (covers_in n _ c Hc Hin) as (Hx & Hy & _). split_and!; try (done || lia).
  unfold find_code. destruct (List.find _ (codes h)) as [d|] eqn:Hf.
  - apply find_some in Hf as [Hd Hm]. apply Z.eqb_eq in Hm. f_equal. pose proof (covers_in n _ d Hc Hd) as (_ & _ & Hld). by apply (code_unique buf p (codes h)); (done || lia).
  - pose proof (find_none _ _ Hf c Hin) as Hm. cbn beta in Hm. apply Z.eqb_neq in Hm. by rewrite <- Hw in Hm.
Qed.

(** One round of the loop over big_values, behind the test for a boundary. *)
Lemma big_pair_at b bd rg r xr i h p : region_is rg h -> cached p b -> req_ok (bd_exp bd) r -> p < end_ -> 0 <= i -> i + 2 <= zlen xr ->
  let '(v, w, p') := pair_at buf h (bd_exp bd) p in
  exists b' r', big_pair buf (Big b bd rg r xr i) = Done (Big b' bd rg r' (<[Z.to_nat (i + 1) := Some w]> (<[Z.to_nat i := Some v]> xr)) (i + 2)) /\
    cached p' b' /\ req_ok (bd_exp bd) r' /\ p <= p' /\ p' + b_sz b' <= end_ + 62.
Proof.
  intros Hrg Hb Hr Hp Hi Hxr. pose proof Hrg as ((k & Hk) & _ & Hl & _). unfold CHAR_BIT, MAD_BUFFER_GUARD in Hend.
  pose proof (tables_linbits h) as Hlb. specialize (Hlb ltac:(apply list_elem_of_In, (list_elem_of_lookup_2 _ _ _ (zget_lookup _ _ _ Hk)))).
  unfold big_pair, pair_at. cbn [bg_bits bg_region bg_band bg_req bg_xr bg_ptr]. rewrite Hl. pose proof (ca_size _ _ _ _ Hb) as Hs.
  assert (Hfill : exists b1, (if b_sz b <? 21 then refill buf (Z.land (32 - 1 - 21 + (21 - b_sz b)) (Z.lnot 7)) b else Done b) = Done b1 /\ cached p b1 /\ 21 <= b_sz b1).
  { destruct (Z.ltb_spec (b_sz b) 21); [|by exists b]. replace (32 - 1 - 21 + (21 - b_sz b)) with (31 - b_sz b) by lia.
    rewrite round8. destruct (refill_at buf end_ p b ((31 - b_sz b) / 8 * 8) Hb) as (b1 & -> & Hb1 & Hs1); [lia|lia|lia|]. exists b1. split_and!; (done || lia). }
  destruct Hfill as (b1 & -> & Hb1 & Hs1). cbn [res_bind]. pose proof (ca_size _ _ _ _ Hb1) as Hs1'.
  destruct (huff_pair_at rg h p b1 Hrg Hb1 ltac:(unfold CODE_ROOM; lia)) as (c & -> & -> & Hlen & Hx & Hy). cbn [res_bind]. unfold CODE_ROOM in Hlen.
  pose proof (cached_drop buf end_ p b1 (cd_len c) Hb1 ltac:(lia)) as Hb2.
  destruct (huff_value_at (ht_linbits h) 2 (bd_exp bd) (cd_x c) (p + cd_len c) (drop_bits (cd_len c) b1) r Hb2 Hr) as (b3 & r3 & -> & Hb3 & Hr3 & Hs3 & Hp3 & Hq3);
    [lia|lia|cbn [drop_bits b_sz]; lia|lia|cbn [drop_bits b_sz]; lia|]. cbn [res_bind]. cbn [drop_bits b_sz] in Hp3.
  destruct (line_at buf (ht_linbits h) (bd_exp bd) (p + cd_len c) (cd_x c)) as [v p3]. cbn [fst snd] in *.
  destruct (huff_value_at (ht_linbits h) 1 (bd_exp bd) (cd_y c) p3 b3 r3 Hb3 Hr3) as (b4 & r4 & -> & Hb4 & Hr4 & Hs4 & Hp4 & Hq4); [lia|lia|lia|lia|lia|]. cbn [res_bind].
  destruct (line_at buf (ht_linbits h) (bd_exp bd) p3 (cd_y c)) as [w p4]. cbn [fst snd] in *.
  unfold put2. rewrite cset_in by lia. cbn [res_bind]. rewrite cset_in by (rewrite zlen_insert; lia). cbn [res_bind].
  exists b4, r4. split_and!; (done || lia).
Qed.
End Pair.

(** ** Bands and regions *)

(** The widths of the bands, in lines. *)
Definition lines_in (ws : list Z) : Z := foldr Z.add 0 ws.
Definition widths_ok (ws : list Z) : Prop := Forall (fun n => 0 < n /\ n mod 2 = 0) ws /\ lines_in ws = 576.

(** The band of the line [i], and the region of the band [k]. *)
Fixpoint band_of (ws : list Z) (i : Z) : Z := match ws with [] => 0 | n :: ws => if i <? n then 0 else 1 + band_of ws (i - n) end.
Definition region_of (channel : channel_t) (k : Z) : Z :=
  if k <=? c_region0_count channel then 0 else if k <=? c_region0_count channel + c_region1_count channel + 1 then 1 else 2.

Lemma lines_in_app a b : lines_in (a ++ b) = lines_in a + lines_in b.
Proof. unfold lines_in. induction a as [|x a IH]; cbn [app foldr]; lia. Qed.

Lemma lines_in_pos ws : Forall (fun n => 0 < n /\ n mod 2 = 0) ws -> 0 <= lines_in ws /\ lines_in ws mod 2 = 0.
Proof. induction 1 as [|n ws Hn Hws IH]; cbn; [done|]. unfold lines_in in *. lia. Qed.

Lemma band_of_here pre n rest : forall i, Forall (fun n => 0 < n /\ n mod 2 = 0) pre -> lines_in pre <= i < lines_in pre + n -> band_of (pre ++ n :: rest) i = zlen pre.
Proof.
  induction pre as [|m pre IH]; intros i Hp Hi; cbn [app band_of].
  - cbn in Hi. destruct (Z.ltb_spec i n); [done|lia].
  - inversion Hp as [|? ? Hm Hp']; subst. pose proof (lines_in_pos pre Hp'). cbn [lines_in foldr] in Hi. fold (lines_in pre) in Hi.
    destruct (Z.ltb_spec i m); [lia|]. rewrite IH, zlen_cons by (done || lia). done.
Qed.

(** The table of a region. *)
Definition table_of (channel : channel_t) (region : Z) : option hufftable :=
  match cget (c_table_select channel) region with
  | Done t => match zget mad_huff_pair_table t with Some h => if ht_table h is Some _ then Some h else None | None => None end
  | _ => None
  end.

(** What the side information says of the regions of [n] bands. *)
Record channel_ok (channel : channel_t) (n : Z) : Prop := {
  ck_count : 0 <= c_region0_count channel <= 63 /\ 0 <= c_region1_count channel <= 63;
  ck_table r : 0 <= r <= 2 -> (r = 2 -> c_region0_count channel + c_region1_count channel + 2 < n) ->
    exists t, cget (c_table_select channel) r = Done t /\ 0 <= t < 32
}.

(** The first lines of [xr] are [d]. *)
Definition filled (xr : cells) (d : list Z) : Prop := zlen xr = 576 /\ forall j x, d !! j = Some x -> xr !! j = Some (Some x).

Lemma filled_snoc xr d v : filled xr d -> zlen d < 576 -> filled (<[Z.to_nat (zlen d) := Some v]> xr) (d ++ [v]).
Proof.
  intros [Hl Hf] Hd. split; [by rewrite zlen_insert|]. intros j x Hj. unfold zlen in *. rewrite Nat2Z.id.
  apply lookup_app_Some in Hj as [Hj|[Hlen Hj]].
  - rewrite list_lookup_insert_ne; [by apply Hf|]. apply lookup_lt_Some in Hj. lia.
  - assert (j = length d) as -> by (apply lookup_lt_Some in Hj; cbn in Hj; lia). rewrite Nat.sub_diag in Hj. injection Hj as <-. apply list_lookup_insert_eq. lia.
Qed.

Lemma filled_pair xr d v w : filled xr d -> zlen d + 2 <= 576 ->
  filled (<[Z.to_nat (zlen d + 1) := Some w]> (<[Z.to_nat (zlen d) := Some v]> xr)) (d ++ [v; w]).
Proof.
  intros Hf Hd. pose proof (filled_snoc _ _ v Hf ltac:(lia)) as H1. pose proof (filled_snoc _ _ w H1) as H2.
  rewrite zlen_app in H2. change (zlen [v]) with 1 in H2. rewrite <- app_assoc in H2. apply H2. lia.
Qed.

Lemma filled_take xr d m : filled xr d -> filled xr (take m d).
Proof. intros [Hl Hf]. split; [done|]. intros j x Hj. apply lookup_take_Some in Hj as [Hj _]. by apply Hf. Qed.

Lemma filled_all xr d : filled xr d -> zlen d = 576 -> xr = map Some d.
Proof.
  intros [Hl Hf] Hd. apply list_eq. intros j. destruct (d !! j) as [x|] eqn:Hj.
  - rewrite (Hf j x Hj). symmetry. rewrite list_lookup_fmap, Hj. done.
  - assert (map Some d !! j = None) as -> by (by rewrite list_lookup_fmap, Hj). apply lookup_ge_None in Hj. apply lookup_ge_None. unfold zlen in *. lia.
Qed.

Section Loop.
Context `{T : Target} `{FP : Fpm} (buf : list Z) (end_ : Z).
Context (channel : channel_t) (ws : list Z) (exponents : cells).
Context (Harm : fpm_arm = true) (Hend : end_ + MAD_BUFFER_GUARD * CHAR_BIT <= 8 * zlen buf).
Context (Hws : widths_ok ws) (Hch : channel_ok channel (zlen ws)).
Context (Hexp : forall k, 0 <= k < zlen ws -> exists e, cget exponents k = Done e).
Abbreviation cached := (cached buf end_).

Definition exp_of (i : Z) : Z := match cget exponents (band_of ws i) with Done e => e | _ => 0 end.

Lemma region_table_at r t : cget (c_table_select channel) r = Done t -> 0 <= t < 32 ->
  match table_of channel r with
  | None => region_table channel r = Done None
  | Some h => exists tb, ht_table h = Some tb /\ region_table channel r = Done (Some (tb, ht_linbits h, ht_startbits h)) /\ exists i, zget mad_huff_pair_table i = Some h
  end.
Proof.
  intros Ht Hr. unfold table_of, region_table, at_. rewrite Ht. cbn [res_bind]. destruct (zget_some mad_huff_pair_table t Hr) as [h Hh]. rewrite Hh.
  cbn [res_opt res_bind]. destruct (ht_table h) as [tb|] eqn:Htb; [|done]. exists tb. split_and!; [done|done|by exists t].
Qed.

(** The state of the loops at the line [i], which is in the band [zlen pre] or behind it. *)
Record at_band (i : Z) (pre : list Z) (n : Z) (bd : band_t) : Prop := {
  ab_split : ws = pre ++ n :: bd_width bd;
  ab_line : lines_in pre <= i <= lines_in pre + n;
  ab_bound : bd_bound bd = lines_in pre + n;
  ab_exp : cget exponents (zlen pre) = Done (bd_exp bd);
  ab_ptr : bd_expptr bd = zlen pre + 1
}.

Lemma at_band_widths i pre n bd : at_band i pre n bd -> Forall (fun n => 0 < n /\ n mod 2 = 0) pre /\ (0 < n /\ n mod 2 = 0) /\ lines_in pre + n <= 576 /\
  (lines_in pre + n = 576 -> bd_width bd = []) /\ (lines_in pre + n < 576 -> exists m rest, bd_width bd = m :: rest).
Proof.
  intros H. destruct Hws as [Hf Hsum]. rewrite (ab_split _ _ _ _ H) in Hf, Hsum. rewrite Forall_app in Hf. destruct Hf as [H1 H2]. inversion H2 as [|? ? Hn H3]; subst.
  rewrite lines_in_app in Hsum. cbn [lines_in foldr] in Hsum. fold (lines_in (bd_width bd)) in Hsum. pose proof (lines_in_pos _ H3) as [Hp _].
  split_and!; [done|by destruct Hn|by destruct Hn|lia| |].
  - intros He. destruct (bd_width bd) as [|m rest]; [done|]. inversion H3 as [|? ? Hm H4]; subst. pose proof (lines_in_pos _ H4). cbn [lines_in foldr] in Hsum. fold (lines_in rest) in Hsum. lia.
  - intros Hlt. destruct (bd_width bd) as [|m rest]; [cbn in Hsum; lia|eauto].
Qed.

(** In the band. *)
Lemma at_band_exp i pre n bd : at_band i pre n bd -> i <> bd_bound bd -> bd_exp bd = exp_of i /\ band_of ws i = zlen pre.
Proof.
  intros H Hi. pose proof (at_band_widths _ _ _ _ H) as (Hp & _). pose proof (ab_line _ _ _ _ H). rewrite (ab_bound _ _ _ _ H) in Hi.
  assert (Hb : band_of ws i = zlen pre) by (rewrite (ab_split _ _ _ _ H); apply band_of_here; [done|lia]).
  unfold exp_of. by rewrite Hb, (ab_exp _ _ _ _ H).
Qed.

(** To the next band. *)
Lemma next_band_at i pre n bd : at_band i pre n bd -> i = bd_bound bd -> i < 576 ->
  exists m bd', next_band exponents bd = Done (bd', negb (bd_exp bd =? bd_exp bd')) /\ at_band i (pre ++ [n]) m bd' /\ i <> bd_bound bd'.
Proof.
  intros H Hi Hlt. pose proof (at_band_widths _ _ _ _ H) as (_ & _ & _ & _ & Hw). rewrite (ab_bound _ _ _ _ H) in Hi. destruct (Hw ltac:(lia)) as (m & rest & Hr).
  pose proof (ab_split _ _ _ _ H) as Hs. rewrite Hr in Hs. unfold next_band. rewrite Hr, (ab_ptr _ _ _ _ H).
  assert (Hk : 0 <= zlen pre + 1 < zlen ws) by (rewrite Hs, zlen_app, !zlen_cons; pose proof (zlen_nonneg pre); pose proof (zlen_nonneg rest); lia).
  destruct (Hexp _ Hk) as [e He]. rewrite He. cbn [res_bind]. exists m, (Band (bd_bound bd + m) rest e (zlen pre + 1 + 1)). split; [done|].
  assert (Hm : 0 < m) by (destruct Hws as [Hf _]; rewrite Hs, Forall_app in Hf; destruct Hf as [_ Hf]; inversion Hf as [|? ? ? Hf2]; subst; inversion Hf2; subst; lia).
  split; [|cbn [bd_bound]; rewrite (ab_bound _ _ _ _ H); lia].
  constructor; cbn [bd_width bd_bound bd_exp bd_expptr]; rewrite ?lines_in_app, ?zlen_app, ?zlen_cons, ?zlen_nil, ?(ab_bound _ _ _ _ H); cbn [lines_in foldr].
  - by rewrite <- app_assoc.
  - lia.
  - lia.
  - by rewrite Z.add_0_r.
  - lia.
Qed.

(** The region of the band [k]. *)
Definition region_next (r : Z) : Z := if r =? 0 then c_region0_count channel + 1 else c_region0_count channel + c_region1_count channel + 2.
Record at_region (k : Z) (rg : region_t) (h : hufftable) : Prop := {
  ar_region : rg_region rg = region_of channel k;
  ar_count : rg_count rg = u32 (region_next (region_of channel k) - k);
  ar_table : table_of channel (region_of channel k) = Some h;
  ar_is : region_is rg h
}.

Lemma region_range k : region_of channel k = 0 /\ k <= c_region0_count channel \/
  region_of channel k = 1 /\ c_region0_count channel < k <= c_region0_count channel + c_region1_count channel + 1 \/
  region_of channel k = 2 /\ c_region0_count channel < k /\ c_region0_count channel + c_region1_count channel + 1 < k.
Proof. unfold region_of. destruct (Z.leb_spec k (c_region0_count channel)), (Z.leb_spec k (c_region0_count channel + c_region1_count channel + 1)); lia. Qed.

#[local] Ltac region_cases k :=
  let E := fresh "Er" in let E' := fresh "Es" in
  destruct (region_range k) as [[E ?]|[[E ?]|[E ?]]], (region_range (k + 1)) as [[E' ?]|[[E' ?]|[E' ?]]]; rewrite ?E, ?E' in *;
  unfold region_next in *; cbn [Z.eqb Pos.eqb] in *; wraps; lia.

Lemma next_region_at k rg h : at_region k rg h -> 0 <= k -> k + 1 < zlen ws -> zlen ws <= 100 ->
  match table_of channel (region_of channel (k + 1)) with
  | None => next_region channel rg = Done None
  | Some h' => exists rg', next_region channel rg = Done (Some rg') /\ at_region (k + 1) rg' h'
  end.
Proof.
  intros [Hr Hc Ht Hi] Hk Hn Hmax. pose proof (ck_count _ _ Hch) as [H0 H1]. unfold next_region. rewrite Hc, Hr.
  assert (Hcnt : u32 (u32 (region_next (region_of channel k) - k) - 1) = u32 (region_next (region_of channel k) - (k + 1))) by (wraps; lia). rewrite Hcnt.
  destruct (Z.eqb_spec (u32 (region_next (region_of channel k) - (k + 1))) 0) as [Hz|Hz].
  - assert (Hstep : region_of channel (k + 1) = region_of channel k + 1 /\ (if region_of channel k =? 0 then c_region1_count channel + 1 else 0) = u32 (region_next (region_of channel (k + 1)) - (k + 1)) /\
      0 <= region_of channel k + 1 <= 2 /\ (region_of channel k + 1 = 2 -> c_region0_count channel + c_region1_count channel + 2 < zlen ws)).
    { region_cases k. }
    destruct Hstep as (Hs & Hcount & Hr2 & Hlast). rewrite Hs in *. destruct (ck_table _ _ Hch _ Hr2 Hlast) as (t & Ht' & Ht2). pose proof (region_table_at _ _ Ht' Ht2) as Htab.
    destruct (table_of channel (region_of channel k + 1)) as [h'|] eqn:Htb; [|by rewrite Htab].
    destruct Htab as (tb & Htb2 & -> & Hi'). cbn [res_bind]. eexists. split; [done|]. constructor; cbn [rg_region rg_count]; rewrite ?Hs; try done.
  - assert (Hs : region_of channel (k + 1) = region_of channel k).
    { region_cases k. }
    rewrite Hs, Ht. eexists. split; [done|]. constructor; cbn [rg_region rg_count]; rewrite ?Hs; done.
Qed.

(** ** The pairs *)

(** The reference: the lines and the next bit, or a region without a table. *)
Fixpoint big_ref (n : nat) (i p : Z) : option (list Z * Z) :=
  match n with
  | O => Some ([], p)
  | S n =>
      if p <? end_ then
        match table_of channel (region_of channel (band_of ws i)) with
        | None => None
        | Some h =>
            let '(v, w, p) := pair_at buf h (exp_of i) p in
            match big_ref n (i + 2) p with Some (l, q) => Some (v :: w :: l, q) | None => None end
        end
      else Some ([], p)
  end.

Record big_inv (p : Z) (d : list Z) (pre : list Z) (n : Z) (h : hufftable) (g : big_t) : Prop := {
  bi_band : at_band (zlen d) pre n (bg_band g);
  bi_region : at_region (zlen pre) (bg_region g) h;
  bi_cached : cached p (bg_bits g);
  bi_ahead : p + b_sz (bg_bits g) <= end_ + 62;
  bi_req : req_ok (bd_exp (bg_band g)) (bg_req g);
  bi_filled : filled (bg_xr g) d;
  bi_ptr : bg_ptr g = zlen d;
  bi_even : zlen d mod 2 = 0
}.

Lemma big_boundary_at p d pre n h g : zlen ws <= 100 -> big_inv p d pre n h g -> zlen d < 576 ->
  match table_of channel (region_of channel (band_of ws (zlen d))) with
  | None => big_boundary channel exponents g = Done (inl MAD_ERROR_BADHUFFTABLE)
  | Some h' => exists g' pre' n', big_boundary channel exponents g = Done (inr g') /\ big_inv p d pre' n' h' g' /\ zlen d <> bd_bound (bg_band g') /\ bd_exp (bg_band g') = exp_of (zlen d)
  end.
Proof.
  intros Hmax H Hd. unfold big_boundary. rewrite (bi_ptr _ _ _ _ _ _ H). destruct (Z.eqb_spec (zlen d) (bd_bound (bg_band g))) as [Hb|Hb].
  - destruct (next_band_at _ _ _ _ (bi_band _ _ _ _ _ _ H) Hb Hd) as (m & bd' & Hn & Hab & Hne). destruct (at_band_exp _ _ _ _ Hab Hne) as [He Hband].
    rewrite Hband, zlen_app. change (zlen [n]) with 1.
    assert (Hk : zlen pre + 1 < zlen ws) by (rewrite (ab_split _ _ _ _ Hab), !zlen_app, !zlen_cons, zlen_nil; pose proof (zlen_nonneg (bd_width bd')); lia).
    pose proof (next_region_at _ _ _ (bi_region _ _ _ _ _ _ H) (zlen_nonneg pre) Hk Hmax) as Hreg.
    destruct (table_of channel (region_of channel (zlen pre + 1))) as [h'|]; [|by rewrite Hreg].
    destruct Hreg as (rg' & -> & Hreg). cbn [res_bind]. rewrite Hn. cbn [res_bind]. eexists _, _, _. split; [done|]. split; [|by cbn [bg_band]].
    destruct H as [_ _ Hc Ha Hr Hf Hp Hev]. constructor; cbn [bg_band bg_region bg_bits bg_req bg_xr bg_ptr]; try done.
    + rewrite zlen_app. exact Hreg.
    + destruct (Z.eqb_spec (bd_exp (bg_band g)) (bd_exp bd')) as [<-|_]; cbn [negb]; [done|]. apply req_ok_empty. by destruct Hr.
  - destruct (at_band_exp _ _ _ _ (bi_band _ _ _ _ _ _ H) Hb) as [He Hband]. rewrite Hband, (ar_table _ _ _ (bi_region _ _ _ _ _ _ H)).
    by exists g, pre, n.
Qed.

Lemma big_loop_at m : forall p d pre n h g, zlen ws <= 100 -> big_inv p d pre n h g -> zlen d + 2 * Z.of_nat m <= 576 ->
  match big_ref m (zlen d) p with
  | None => big_loop buf channel exponents m g = Done (inl MAD_ERROR_BADHUFFTABLE)
  | Some (l, q) => exists g' pre' n' h', big_loop buf channel exponents m g = Done (inr g') /\ big_inv q (d ++ l) pre' n' h' g' /\ zlen l <= 2 * Z.of_nat m /\ zlen l mod 2 = 0
  end.
Proof.
  induction m as [|m IH]; intros p d pre n h g Hmax H Hm; cbn [big_ref big_loop].
  { exists g, pre, n, h. rewrite app_nil_r. done. }
  rewrite (cached_total _ _ _ _ (bi_cached _ _ _ _ _ _ H)). replace (0 <? end_ - p) with (p <? end_) by lia.
  destruct (Z.ltb_spec p end_) as [Hp|Hp].
  2: { exists g, pre, n, h. rewrite app_nil_r. by split_and!. }
  pose proof (big_boundary_at _ _ _ _ _ _ Hmax H ltac:(lia)) as Hb. destruct (table_of channel _) as [h1|]; [|by rewrite Hb].
  destruct Hb as (g1 & pre1 & n1 & -> & H1 & Hne & He). cbn [res_bind]. pose proof H1 as [Hab Hreg Hc Ha Hr Hf Hptr Hev].
  pose proof (big_pair_at buf end_ Harm Hend (bg_bits g1) (bg_band g1) (bg_region g1) (bg_req g1) (bg_xr g1) (bg_ptr g1) h1 p (ar_is _ _ _ Hreg) Hc Hr Hp) as Hpair.
  rewrite Hptr, He in Hpair. specialize (Hpair (zlen_nonneg d)). destruct Hf as [Hl Hf]. rewrite Hl in Hpair. specialize (Hpair ltac:(lia)).
  destruct (pair_at buf h1 (exp_of (zlen d)) p) as [[v w] p2]. destruct Hpair as (b2 & r2 & Hpair & Hc2 & Hr2 & Hpp & Ha2).
  replace g1 with (Big (bg_bits g1) (bg_band g1) (bg_region g1) (bg_req g1) (bg_xr g1) (zlen d)) by (rewrite <- Hptr; by destruct g1). rewrite Hpair. cbn [res_bind].
  assert (H2 : big_inv p2 (d ++ [v; w]) pre1 n1 h1 (Big b2 (bg_band g1) (bg_region g1) r2 (<[Z.to_nat (zlen d + 1) := Some w]> (<[Z.to_nat (zlen d) := Some v]> (bg_xr g1))) (zlen d + 2))).
  { constructor; cbn [bg_band bg_region bg_bits bg_req bg_xr bg_ptr]; rewrite ?zlen_app; change (zlen [v; w]) with 2; try done.
    - destruct Hab as [A1 A2 A3 A4 A5]. constructor; try done. rewrite A3 in Hne.
      pose proof (at_band_widths (zlen d) pre1 n1 (bg_band g1) ltac:(done)) as (Hp1 & [_ Hn1] & _). pose proof (lines_in_pos _ Hp1) as [_ Hpe]. lia.
    - by rewrite He.
    - by apply filled_pair; [|lia].
    - lia. }
  specialize (IH _ _ _ _ _ _ Hmax H2). rewrite zlen_app in IH. change (zlen [v; w]) with 2 in IH. specialize (IH ltac:(lia)).
  destruct (big_ref m (zlen d + 2) p2) as [[l q]|]; [|done]. destruct IH as (g' & pre' & n' & h' & -> & H' & Hl' & Hev').
  exists g', pre', n', h'. rewrite <- app_assoc in H'. split_and!; try done; rewrite !zlen_cons; lia.
Qed.

(** ** The quadruples *)

Context (tab : list huffquad) (Htab : In tab mad_huff_quad_table).

Fixpoint quad_ref (n : nat) (i p : Z) : list Z * Z :=
  match n with
  | O => ([], p)
  | S n =>
      if (p <? end_) && (i <=? 572) then
        match find_code buf (quad_table tab) p with
        | None => ([], p)
        | Some c =>
            let '(v, p) := line_at buf 0 (exp_of i) (p + cd_len c) (cd_x c / 2) in
            let '(w, p) := line_at buf 0 (exp_of i) p (cd_x c mod 2) in
            let '(x, p) := line_at buf 0 (exp_of (i + 2)) p (cd_y c / 2) in
            let '(y, p) := line_at buf 0 (exp_of (i + 2)) p (cd_y c mod 2) in
            let '(l, q) := quad_ref n (i + 4) p in
            (v :: w :: x :: y :: l, q)
        end
      else ([], p)
  end.

Lemma huff_quad_at p b : cached p b -> QUAD_ROOM <= b_sz b ->
  exists c, find_code buf (quad_table tab) p = Some c /\ huff_quad tab b = Done (cd_x c / 2, cd_x c mod 2, cd_y c / 2, cd_y c mod 2, drop_bits (cd_len c) b) /\
    0 <= cd_len c <= QUAD_ROOM /\ 0 <= cd_x c < 4 /\ 0 <= cd_y c < 4.
Proof.
  intros Hb Hroom. pose proof quad_tables_complete as Hq. rewrite forallb_forall in Hq. specialize (Hq tab Htab).
  apply andb_prop in Hq as [[Hc Hw]%andb_prop H2]. apply andb_prop in Hc as [[Hpf _]%andb_prop Hc].
  destruct (huff_pair_walks buf end_ p b _ 0 4 QUAD_ROOM 0 0 Hw Hb Hroom) as (c & Hin & Hlen & Hword & Hp). exists c.
  apply (codes_leaves (quad_table tab) _ c eq_refl) in Hin. pose proof (covers_in 4 _ c Hc Hin) as (Hx & Hy & _).
  split_and!; try (done || lia); [|by apply (huff_quad_pair tab b _ _ _ 0 0 0)].
  unfold find_code. destruct (List.find _ _) as [d|] eqn:Hf.
  - apply find_some in Hf as [Hd Hm]. apply Z.eqb_eq in Hm. pose proof (covers_in 4 _ d Hc Hd) as (_ & _ & Hld). f_equal.
    by apply (code_unique buf p (codes (quad_table tab))); (done || lia).
  - pose proof (find_none _ _ Hf c Hin) as Hm. cbn beta in Hm. apply Z.eqb_neq in Hm. by rewrite <- Hword in Hm.
Qed.

Record cnt_inv (p : Z) (d : list Z) (pre : list Z) (n : Z) (c : cnt_t) : Prop := {
  ci_band : at_band (zlen d) pre n (cn_band c);
  ci_cached : cached p (cn_bits c);
  ci_ahead : p + b_sz (cn_bits c) <= end_ + 62;
  ci_req : cn_req c = requant 1 (bd_exp (cn_band c));
  ci_filled : filled (cn_xr c) d;
  ci_ptr : cn_ptr c = zlen d;
  ci_even : zlen d mod 2 = 0
}.

Lemma quad_value_at e bit p b : cached p b -> 1 <= b_sz b -> 0 <= bit < 2 ->
  exists b', quad_value (requant 1 e) bit b = Done ((line_at buf 0 e p bit).1, b') /\ cached (line_at buf 0 e p bit).2 b' /\ b_sz b - 1 <= b_sz b' /\
    (line_at buf 0 e p bit).2 + b_sz b' = p + b_sz b.
Proof.
  intros Hb Hs Hbit. unfold quad_value, line_at. destruct (Z.eqb_spec bit 0) as [_|Hne]; cbn [negb andb].
  - exists b. cbn. split_and!; (done || lia).
  - change (negb (0 =? 0)) with false. cbn [andb]. assert (bit = 1) as -> by lia. rewrite (signed_value_at buf end_ Harm 1 e p b Hb Hs) by (unfold RQ_VALUES; lia).
    eexists. split; [done|]. cbn [fst snd]. split; [apply cached_drop; [done|lia]|]. cbn [drop_bits b_sz]. lia.
Qed.

Lemma quad_half_at v w p d pre n c : cnt_inv p d pre n c -> zlen d + 2 <= 576 -> 0 <= v < 2 -> 0 <= w < 2 -> 2 <= b_sz (cn_bits c) ->
  let '(x, p1) := line_at buf 0 (exp_of (zlen d)) p v in
  let '(y, p2) := line_at buf 0 (exp_of (zlen d)) p1 w in
  exists c' pre' n', quad_half exponents v w c = Done c' /\ cnt_inv p2 (d ++ [x; y]) pre' n' c' /\ b_sz (cn_bits c) - 2 <= b_sz (cn_bits c').
Proof.
  intros H Hd Hv Hw Hs. unfold quad_half. rewrite (ci_ptr _ _ _ _ _ H).
  assert (Hb : exists bd pre' n', (if zlen d =? bd_bound (cn_band c) then
      let! (bd, changed) := next_band exponents (cn_band c) in
      let! r := if changed : bool then III_requantize 1 (bd_exp bd) else Done (cn_req c) in Done (bd, r)
      else Done (cn_band c, cn_req c)) = Done (bd, requant 1 (exp_of (zlen d))) /\ at_band (zlen d) pre' n' bd /\ zlen d <> bd_bound bd /\ bd_exp bd = exp_of (zlen d)).
  { destruct (Z.eqb_spec (zlen d) (bd_bound (cn_band c))) as [Hb|Hb].
    - destruct (next_band_at _ _ _ _ (ci_band _ _ _ _ _ H) Hb ltac:(lia)) as (m & bd' & -> & Hab & Hne). destruct (at_band_exp _ _ _ _ Hab Hne) as [He _].
      exists bd', (pre ++ [n]), m. split; [|done]. cbn [res_bind]. destruct (requantize_arm 1 (bd_exp bd') Harm) as [Hr _]; [unfold RQ_VALUES; lia|].
      destruct (Z.eqb_spec (bd_exp (cn_band c)) (bd_exp bd')) as [E|_]; cbn [negb res_bind]; [|by rewrite Hr, He]. by rewrite (ci_req _ _ _ _ _ H), E, He.
    - destruct (at_band_exp _ _ _ _ (ci_band _ _ _ _ _ H) Hb) as [He _]. exists (cn_band c), pre, n. rewrite (ci_req _ _ _ _ _ H), He. split_and!; try done. apply (ci_band _ _ _ _ _ H). }
  destruct Hb as (bd & pre' & n' & -> & Hab & Hne & He). cbn [res_bind]. set (e := exp_of (zlen d)) in *.
  destruct (quad_value_at e v p _ (ci_cached _ _ _ _ _ H) ltac:(lia) Hv) as (b1 & -> & Hb1 & Hs1 & Hp1). cbn [res_bind].
  destruct (line_at buf 0 e p v) as [x p1]. cbn [fst snd] in *.
  destruct (quad_value_at e w p1 b1 Hb1 ltac:(lia) Hw) as (b2 & -> & Hb2 & Hs2 & Hp2). cbn [res_bind].
  destruct (line_at buf 0 e p1 w) as [y p2]. cbn [fst snd] in *. destruct H as [_ _ Ha _ Hf Hptr Hev]. pose proof Hf as [Hl _]. pose proof (zlen_nonneg d).
  unfold put2. rewrite cset_in by lia. cbn [res_bind]. rewrite cset_in by (rewrite zlen_insert; lia). cbn [res_bind].
  eexists _, pre', n'. split; [done|]. split; [|cbn [cn_bits]; lia].
  constructor; cbn [cn_band cn_bits cn_req cn_xr cn_ptr]; rewrite ?zlen_app; change (zlen [x; y]) with 2; try done.
  - destruct (at_band_widths _ _ _ _ Hab) as (Hpre & [_ Hn] & _). pose proof (lines_in_pos _ Hpre) as [_ Hpe]. destruct Hab as [A1 A2 A3 A4 A5]. constructor; try done. lia.
  - lia.
  - by rewrite He.
  - by apply filled_pair; [|lia].
  - lia.
Qed.

Lemma count1_loop_at m : forall p d pre n c, cnt_inv p d pre n c -> zlen d <= 576 -> 576 <= zlen d + 4 * Z.of_nat m ->
  let '(l, q) := quad_ref m (zlen d) p in
  exists c' pre' n', count1_loop buf m tab exponents c = Done c' /\ cnt_inv q (d ++ l) pre' n' c' /\ zlen d + zlen l <= 576 /\ (q <= end_ \/ end_ < p \/ 4 <= zlen l).
Proof.
  induction m as [|m IH]; intros p d pre n c H Hd Hm; cbn [quad_ref count1_loop]; rewrite (cached_total _ _ _ _ (ci_cached _ _ _ _ _ H)), (ci_ptr _ _ _ _ _ H).
  all: replace (0 <? end_ - p) with (p <? end_) by lia.
  { destruct ((p <? end_) && (zlen d <=? 572)) eqn:Hc; [lia|]. exists c, pre, n. rewrite app_nil_r. change (zlen []) with 0. split_and!; (done || lia). }
  destruct ((p <? end_) && (zlen d <=? 572)) eqn:Hc.
  2: { exists c, pre, n. rewrite app_nil_r. change (zlen []) with 0. split_and!; (done || lia). }
  unfold CHAR_BIT, MAD_BUFFER_GUARD in Hend. pose proof (ca_size _ _ _ _ (ci_cached _ _ _ _ _ H)) as Hs.
  assert (Hfill : exists b1, (if b_sz (cn_bits c) <? 10 then refill buf 16 (cn_bits c) else Done (cn_bits c)) = Done b1 /\ cached p b1 /\ 10 <= b_sz b1 /\ p + b_sz b1 <= end_ + 62).
  { pose proof (ci_cached _ _ _ _ _ H) as Hb. destruct (Z.ltb_spec (b_sz (cn_bits c)) 10); [|exists (cn_bits c); pose proof (ci_ahead _ _ _ _ _ H); split_and!; (done || lia)].
    destruct (refill_at buf end_ p (cn_bits c) 16 Hb) as (b1 & -> & Hb1 & Hs1); [lia|lia|lia|]. exists b1. split_and!; (done || lia). }
  destruct Hfill as (b1 & -> & Hb1 & Hs1 & Ha1). cbn [res_bind].
  destruct (huff_quad_at p b1 Hb1 ltac:(unfold QUAD_ROOM; lia)) as (k & -> & -> & Hlen & Hx & Hy). cbn [res_bind]. unfold QUAD_ROOM in Hlen.
  assert (H1 : cnt_inv (p + cd_len k) d pre n (Cnt (drop_bits (cd_len k) b1) (cn_band c) (cn_req c) (cn_xr c) (zlen d))).
  { destruct H as [A1 A2 A3 A4 A5 A6 A7]. constructor; cbn [cn_band cn_bits cn_req cn_xr cn_ptr]; try done; [apply cached_drop; [done|lia]|]. cbn [drop_bits b_sz]. lia. }
  pose proof (quad_half_at (cd_x k / 2) (cd_x k mod 2) _ _ _ _ _ H1 ltac:(lia) ltac:(lia) ltac:(lia) ltac:(cbn [cn_bits drop_bits b_sz]; lia)) as Q1.
  destruct (line_at buf 0 (exp_of (zlen d)) (p + cd_len k) (cd_x k / 2)) as [v p1]. destruct (line_at buf 0 (exp_of (zlen d)) p1 (cd_x k mod 2)) as [w p2].
  destruct Q1 as (c2 & pre2 & n2 & -> & H2 & Hs2). cbn [res_bind]. cbn [cn_bits drop_bits b_sz] in Hs2.
  pose proof (quad_half_at (cd_y k / 2) (cd_y k mod 2) _ _ _ _ _ H2) as Q2. rewrite zlen_app in Q2. change (zlen [v; w]) with 2 in Q2.
  specialize (Q2 ltac:(lia) ltac:(lia) ltac:(lia) ltac:(lia)).
  destruct (line_at buf 0 (exp_of (zlen d + 2)) p2 (cd_y k / 2)) as [x p3]. destruct (line_at buf 0 (exp_of (zlen d + 2)) p3 (cd_y k mod 2)) as [y p4].
  destruct Q2 as (c3 & pre3 & n3 & -> & H3 & _). cbn [res_bind]. rewrite <- app_assoc in H3.
  specialize (IH _ _ _ _ _ H3). rewrite zlen_app in IH. change (zlen ([v; w] ++ [x; y])) with 4 in IH. specialize (IH ltac:(lia) ltac:(lia)).
  destruct (quad_ref m (zlen d + 4) p4) as [l q]. destruct IH as (c' & pre' & n' & -> & H' & Hl & _). exists c', pre', n'.
  rewrite <- app_assoc in H'. rewrite !zlen_cons. pose proof (zlen_nonneg l). split_and!; (done || lia).
Qed.

(** ** A granule *)

(** The lines behind the last quadruple are zero. *)
Lemma zeros_at xr d : filled xr d -> zlen d mod 2 = 0 -> zlen d <= 576 ->
  exists xr', rfor 0 (Z.to_nat ((576 - zlen d + 1) / 2)) (fun k xr => put2 xr (zlen d + 2 * k) 0 0) xr = Done xr' /\ filled xr' (d ++ repeat 0 (Z.to_nat (576 - zlen d))).
Proof.
  intros Hf He Hd. pose proof (zlen_nonneg d). set (n := Z.to_nat ((576 - zlen d + 1) / 2)).
  assert (H1 : yields (rfor 0 n (fun k xr => put2 xr (zlen d + 2 * k) 0 0) xr) (fun xr' => filled xr' (d ++ repeat 0 (Z.to_nat (2 * (0 + Z.of_nat n)))))).
  { apply (yields_rfor (fun k xr => filled xr (d ++ repeat 0 (Z.to_nat (2 * k))))); [|by rewrite app_nil_r].
    intros k x Hk Hx. assert (Hz : zlen (d ++ repeat 0 (Z.to_nat (2 * k))) = zlen d + 2 * k) by (rewrite zlen_app, zlen_repeat; lia).
    pose proof Hx as [Hl _]. unfold put2. rewrite cset_in by lia. cbn [res_bind]. rewrite cset_in by (rewrite zlen_insert; lia). cbn [yields].
    pose proof (filled_pair _ _ 0 0 Hx ltac:(lia)) as H2. rewrite Hz in H2. rewrite <- app_assoc in H2.
    replace (Z.to_nat (2 * (k + 1))) with (Z.to_nat (2 * k) + 2)%nat by lia. by rewrite repeat_app. }
  apply yields_done in H1 as (xr' & E & H1). exists xr'. split; [done|]. replace (Z.to_nat (576 - zlen d)) with (Z.to_nat (2 * (0 + Z.of_nat n))) by lia. done.
Qed.

(** The reference: an error, or the lines. *)
Definition huff_ref (p : Z) : Z + list Z :=
  match table_of channel 0, big_ref (Z.to_nat (c_big_values channel)) 0 p with
  | Some _, Some (l, q) =>
      if end_ <? q then inl MAD_ERROR_BADHUFFDATA
      else
        let '(l2, q2) := quad_ref COUNT1_FUEL (zlen l) q in
        let lines := l ++ (if end_ <? q2 then take (length l2 - 4) l2 else l2) in
        inr (lines ++ repeat 0 (Z.to_nat (576 - zlen lines)))
  | _, _ => inl MAD_ERROR_BADHUFFTABLE
  end.

Lemma rzero_at q d l pre n c : cnt_inv q (d ++ l) pre n c -> zlen d + zlen l <= 576 -> q <= end_ \/ 4 <= zlen l ->
  let lines := d ++ (if end_ <? q then take (length l - 4) l else l) in
  exists xr, rzero c = Done xr /\ filled xr (lines ++ repeat 0 (Z.to_nat (576 - zlen lines))) /\ zlen lines <= 576.
Proof.
  intros H Hl Hq lines. unfold rzero. rewrite (cached_total _ _ _ _ (ci_cached _ _ _ _ _ H)), (ci_ptr _ _ _ _ _ H), (ca_left _ _ _ _ (ci_cached _ _ _ _ _ H)).
  pose proof (ci_ahead _ _ _ _ _ H) as Ha. change (MAD_BUFFER_GUARD * CHAR_BIT) with 64. rewrite (proj2 (Z.leb_le _ 64)) by lia.
  replace (end_ - q <? 0) with (end_ <? q) by lia. pose proof (ci_filled _ _ _ _ _ H) as Hf. pose proof (ci_even _ _ _ _ _ H) as He. rewrite zlen_app in *.
  assert (Hlines : filled (cn_xr c) lines /\ zlen lines = (if end_ <? q then zlen d + zlen l - 4 else zlen d + zlen l)).
  { subst lines. destruct (Z.ltb_spec end_ q); [|by rewrite zlen_app]. split.
    - replace (d ++ take (length l - 4) l) with (take (length d + (length l - 4)) (d ++ l)) by (rewrite take_app_add; done). by apply filled_take.
    - rewrite zlen_app. unfold zlen in *. rewrite length_take. lia. }
  destruct Hlines as [Hfl Hll]. rewrite <- Hll. destruct (zeros_at (cn_xr c) lines Hfl) as (xr & E & Hx).
  - rewrite Hll. case_match; lia.
  - rewrite Hll. case_match; lia.
  - exists xr. split_and!; try done. rewrite Hll. case_match; lia.
Qed.
End Loop.

(** The cache that is filled first. *)
Lemma first_bits_at `{T : Target} buf peek p bits_left : at_bit buf peek p -> 0 <= bits_left -> p + bits_left + 64 <= 8 * zlen buf ->
  exists b, first_bits buf peek bits_left = Done b /\ cached buf (p + bits_left) p b.
Proof.
  intros Hp Hl Hbuf. pose proof Hp as [(_ & Hleft & _) _]. unfold first_bits. set (left0 := bp_left peek) in *.
  replace (32 - 1 - 24 + (24 - left0)) with (31 - left0) by lia. rewrite round8. set (sz := left0 + (31 - left0) / 8 * 8). assert (Hsz : 24 <= sz <= 31) by lia.
  destruct (bit_read_at buf peek p sz Hp ltac:(lia) ltac:(lia)) as (bp & -> & Hbp). cbn [res_bind]. eexists. split; [done|].
  constructor; cbn [b_sz b_cache b_peek b_left]; [lia| |done|lia]. apply Z.mod_small. pose proof (bits_val_range buf p (Z.to_nat sz)) as Hr. by rewrite Z2Nat.id in Hr by lia.
Qed.

(** The table of the quadruples. *)
Definition count1_table (channel : channel_t) : list huffquad := default [] (zget mad_huff_quad_table (Z.land (c_flags channel) count1table_select)).

Lemma count1_table_at channel : at_ mad_huff_quad_table (Z.land (c_flags channel) count1table_select) = Done (count1_table channel) /\ In (count1_table channel) mad_huff_quad_table.
Proof.
  unfold count1_table, at_, count1table_select. change 1 with (Z.ones 1). rewrite Z.land_ones by lia. change (2 ^ 1) with 2.
  assert (H : c_flags channel mod 2 = 0 \/ c_flags channel mod 2 = 1) by lia. destruct H as [-> | ->]; (split; [reflexivity|]); [by left|by right; left].
Qed.

Section Granule.
Context `{T : Target} `{FP : Fpm}.

Lemma huffdecode_refines buf ptr p channel ws exponents part2_length bits_left :
  fpm_arm = true -> at_bit buf ptr p -> bits_left = c_part2_3_length channel - part2_length -> 0 <= bits_left < 65536 -> p + bits_left + 64 <= 8 * zlen buf ->
  widths_ok ws -> zlen ws <= 100 -> channel_ok channel (zlen ws) -> 0 <= c_big_values channel <= 288 ->
  III_exponents channel ws = Done exponents -> (forall k, 0 <= k < zlen ws -> exists e, cget exponents k = Done e) ->
  exists ptr', at_bit buf ptr' (p + bits_left) /\
    match huff_ref buf (p + bits_left) channel ws exponents (count1_table channel) p with
    | inl error => III_huffdecode buf channel ws part2_length ptr = Done (ptr', inl error)
    | inr l => III_huffdecode buf channel ws part2_length ptr = Done (ptr', inr (map Some l)) /\ zlen l = 576
    end.
Proof.
  intros Harm Hp Hbits Hrange Hbuf Hws Hmax Hch Hbig Hex Hdef. unfold III_huffdecode. rewrite <- Hbits.
  replace (s32 bits_left) with bits_left by (unfold s32; wraps; lia). destruct (Z.ltb_spec bits_left 0) as [|_]; [lia|]. rewrite Hex. cbn [res_bind].
  destruct (bit_skip_at buf ptr p bits_left Hp) as (ptr' & -> & Hptr'); [lia|lia|]. cbn [res_opt res_bind]. exists ptr'. split; [done|].
  destruct (first_bits_at buf ptr p bits_left Hp) as (b & -> & Hb); [lia|lia|]. cbn [res_bind].
  destruct ws as [|width0 widths]; [by destruct Hws|].
  destruct (ck_table _ _ Hch 0) as (t & Ht & Ht32); [lia|lia|]. pose proof (region_table_at channel 0 t Ht Ht32) as Htab. unfold huff_ref.
  destruct (table_of channel 0) as [h|] eqn:Hh; [|by rewrite Htab]. destruct Htab as (tb & Htb & -> & Hi). cbn [res_bind].
  destruct (Hdef 0) as [e He]; [rewrite zlen_cons; pose proof (zlen_nonneg widths); lia|]. rewrite He. cbn [res_bind].
  pose proof (ck_count _ _ Hch) as [Hr0 Hr1]. assert (Hreg0 : region_of channel 0 = 0) by (unfold region_of; destruct (Z.leb_spec 0 (c_region0_count channel)); lia).
  assert (Hw0 : 0 < width0) by (destruct Hws as [Hf _]; inversion Hf; lia). pose proof (ca_size _ _ _ _ Hb).
  assert (H0 : big_inv buf (p + bits_left) channel (width0 :: widths) exponents p [] [] width0 h
    (Big b (Band width0 widths e 1) (Region (c_region0_count channel + 1) 0 tb (ht_linbits h) (ht_startbits h)) (Req 0 (undefined 16)) (undefined 576) 0)).
  { constructor; cbn [bg_band bg_region bg_bits bg_req bg_xr bg_ptr]; try done.
    - constructor; try done. change (zlen []) with 0. cbn [lines_in foldr]. lia.
    - change (zlen []) with 0. constructor; cbn [rg_region rg_count]; rewrite ?Hreg0; try done. unfold region_next. cbn [Z.eqb]. wraps. lia.
    - lia.
    - by apply req_ok_empty. }
  pose proof (big_loop_at buf (p + bits_left) channel (width0 :: widths) exponents Harm ltac:(unfold MAD_BUFFER_GUARD, CHAR_BIT; lia) Hws Hch Hdef
    (Z.to_nat (c_big_values channel)) _ _ _ _ _ _ Hmax H0 ltac:(change (zlen []) with 0; lia)) as Hloop. change (zlen []) with 0 in Hloop.
  destruct (big_ref _ _ _ _ _ _ _ _) as [[l q]|]; [|by rewrite Hloop]. destruct Hloop as (g & pre & n & h' & -> & Hg & Hl & Hev). cbn [res_bind].
  rewrite (cached_total _ _ _ _ (bi_cached _ _ _ _ _ _ _ _ _ _ _ Hg)). replace (p + bits_left - q <? 0) with (p + bits_left <? q) by lia.
  destruct (Z.ltb_spec (p + bits_left) q) as [|Hq]; [done|]. destruct (count1_table_at channel) as [-> Hin]. cbn [res_bind].
  destruct (requantize_arm 1 (bd_exp (bg_band g)) Harm) as [-> _]; [unfold RQ_VALUES; lia|]. cbn [res_bind].
  assert (H1 : cnt_inv buf (p + bits_left) (width0 :: widths) exponents q l pre n (Cnt (bg_bits g) (bg_band g) (requant 1 (bd_exp (bg_band g))) (bg_xr g) (bg_ptr g))).
  { destruct Hg. by constructor. }
  assert (Hfuel : 576 <= zlen l + 4 * Z.of_nat COUNT1_FUEL) by (pose proof (zlen_nonneg l); unfold COUNT1_FUEL; lia).
  pose proof (count1_loop_at buf (p + bits_left) (width0 :: widths) exponents Harm ltac:(unfold MAD_BUFFER_GUARD, CHAR_BIT; lia) Hws Hdef (count1_table channel) Hin
    COUNT1_FUEL q l pre n _ H1 ltac:(lia) Hfuel) as Hcnt.
  destruct (quad_ref _ _ _ _ _ _ _ _) as [l2 q2]. destruct Hcnt as (c & pre' & n' & -> & Hc & Hl2 & Hover). cbn [res_bind].
  destruct (rzero_at _ _ _ _ _ _ _ _ _ _ Hc Hl2 ltac:(lia)) as (xr & -> & Hf & Hlen). cbn [res_bind].
  set (lines := l ++ (if p + bits_left <? q2 then take (length l2 - 4) l2 else l2)) in *.
  assert (H576 : zlen (lines ++ repeat 0 (Z.to_nat (576 - zlen lines))) = 576) by (rewrite zlen_app, zlen_repeat; lia).
  split; [|done]. by rewrite (filled_all _ _ Hf H576).
Qed.
End Granule.

(** What overflows is saturated and then multiplied: the loudest value of all is negative on the board. *)
Section Wrap.
#[local] Existing Instance stm32_target.

Lemma requantize_wraps : III_requantize (FP := {| fpm_arm := true |}) 8206 (255 - 210) = Done (-1741164465).
Proof. vm_compute. reflexivity. Qed.
End Wrap.
