(* ===== verification/MadLines.v ===== *)
(** * The lines of a granule: requantization and the order of short blocks

    [III_requantize] computes [value^(4/3) 2^(exp/4)] from a table of mantissas and exponents and a table of
    roots; the entries are checked by integer arithmetic: third powers against fourth powers.  The lines of a
    short block come by bands and, within a band, by windows; [III_reorder] sorts them by subbands and
    windows.  The function moves its lines without looking at them, so that it is enough to run it on the
    line numbers, for each of the nine tables of band widths. *)

From Stdlib Require Import Reals Lra Rpower.
From S2P Require Import Prelude MadFixed MadLayer12 MadCos MadTables3 MadSide MadHuff MadHybrid MadLayer3 MadHuffProps MadHuffRef.
Open Scope Z_scope.

(** * The order of short blocks *)

(** ** Moving without looking *)

Definition res_map {A B} (h : A -> B) (r : res A) : res B := let! x := r in Done (h x).

Section Natural.
Context (g : Z -> Z).

Lemma res_map_bind {A A' B B'} (h : A -> A') (h' : B -> B') (r : res A) k k' :
  (forall x, k' (h x) = res_map h' (k x)) -> res_bind (res_map h r) k' = res_map h' (res_bind r k).
Proof. intros Hk. by destruct r; cbn. Qed.

Lemma rfor_natural {S S'} (h : S -> S') n : forall lo (body : Z -> S -> res S) body' s,
  (forall i s, body' i (h s) = res_map h (body i s)) -> rfor lo n body' (h s) = res_map h (rfor lo n body s).
Proof.
  induction n as [|n IH]; intros lo body body' s Hb; [done|]. cbn [rfor]. rewrite Hb. apply res_map_bind. intros s1. by apply IH.
Qed.

Lemma at_natural {A B} (h : A -> B) l i : at_ (map h l) i = res_map h (at_ l i).
Proof. unfold at_, zget. case_match; [done|]. rewrite list_lookup_fmap. by destruct (l !! Z.to_nat i). Qed.
Lemma aset_natural {A B} (h : A -> B) l i v : aset (map h l) i (h v) = res_map (map h) (aset l i v).
Proof.
  unfold aset, zset. rewrite length_map. case_match; [|done]. cbn. f_equal. symmetry. apply list_fmap_insert.
Qed.

Definition mark (o : option Z) : option Z := option_map g o.
Lemma cget_natural a i : cget (map mark a) i = res_map g (cget a i).
Proof. unfold cget, cell_get. pose proof (at_natural mark a i) as H. unfold at_ in H. destruct (zget (map mark a) i) as [o|], (zget a i) as [o'|]; cbn in *; try done. injection H as ->. by destruct o'. Qed.
Lemma cset_natural a i v : cset (map mark a) i (g v) = res_map (map mark) (cset a i v).
Proof. unfold cset, cell_set. apply (aset_natural mark a i (Some v)). Qed.

Abbreviation marked := (fun s : cells * list Z * list Z => (map mark s.1.1, s.1.2, s.2)).
Lemma reorder_put_natural x w s : reorder_put (g x) w (marked s) = res_map marked (reorder_put x w s).
Proof.
  destruct s as [[tmp sbw] sw]. cbn [fst snd]. unfold reorder_put. destruct (at_ sbw w) as [b| |]; [|done..]. cbn [res_bind]. destruct (at_ sw w) as [k| |]; [|done..]. cbn [res_bind].
  destruct (in_range b 32); [|done]. rewrite cset_natural. destruct (cset tmp _ x) as [t| |]; [|done..]. cbn [res_map res_bind].
  destruct (aset sw w _) as [sw'| |]; [|done..]. cbn [res_bind]. by destruct (aset sbw w _).
Qed.

Lemma III_reorder_natural channel widths xr : III_reorder (map g xr) channel widths = res_map (map g) (III_reorder xr channel widths).
Proof.
  unfold III_reorder. set (start := if on _ _ then _ else _). destruct start as [[sb [|f rest]]| |]; [done| |done..]. cbn [res_bind].
  set (h := fun s : cells * list Z * list Z * Z * Z * list Z => let '(t, f, w, widths) := s in (marked t, f, w, widths)).
  change (undefined 576, repeat sb 3, repeat 0 3, f, 0, rest) with (h (undefined 576, repeat sb 3, repeat 0 3, f, 0, rest)) at 1.
  erewrite (rfor_natural h).
  - apply res_map_bind. intros [[[s f'] w'] ws]. cbn [h]. apply (rfor_natural (map g)). intros i ys. cbn [fst snd]. rewrite cget_natural. apply res_map_bind. intros x. apply aset_natural.
  - intros l [[[t f'] w'] ws]. cbn [h]. destruct (reorder_next f' w' ws) as [[[f1 w1] ws1]| |]; [|done..]. cbn [res_bind]. rewrite at_natural. apply res_map_bind. intros x.
    rewrite (reorder_put_natural x w1 t). apply res_map_bind. by intros s.
Qed.
End Natural.

(** ** The order of the standard *)

(** The place of line [l] of window [k]: the bands begin at line [s] of each window, at place [start] of all. *)
Fixpoint line_place (widths : list Z) (s start l k : Z) : Z :=
  match widths with
  | n :: _ :: _ :: rest => if l <? s + n then start + k * n + (l - s) else line_place rest (s + n) (start + 3 * n) l k
  | _ => -1
  end.

(** The short bands of a block, behind the first [base] lines. *)
Definition short_base (channel : channel_t) : Z := if on (c_flags channel) mixed_block_flag then 36 else 0.
Fixpoint short_bands (l limit : Z) (widths : list Z) : list Z :=
  match widths with n :: rest => if l <? limit then short_bands (l + n) limit rest else widths | [] => [] end.

(** Output [j] is line [6 q + r] of window [k], where [j - base] is [18 q + 6 k + r]. *)
Definition source (channel : channel_t) (widths : list Z) (j : Z) : Z :=
  let base := short_base channel in
  if j <? base then j
  else
    let i := j - base in
    line_place (short_bands 0 base widths) 0 base (6 * (i / 18) + i mod 6) (i mod 18 / 6).

Definition numbers : list Z := map Z.of_nat (seq 0 576).
Definition short_channel (flags : Z) : channel_t := Channel 0 0 0 0 flags 2 [] [] 0 0 [].

(** The nine tables, for short and for mixed blocks. *)
Definition order_ok (flags : Z) (w : sfbwidths) : bool :=
  let channel := short_channel flags in
  let widths := channel_widths w channel in
  let order := map (source channel widths) numbers in
  match III_reorder numbers channel widths with
  | Done out => bool_decide (out = order) && bool_decide (NoDup order) && forallb (fun i => (0 <=? i) && (i <? 576)) order
  | _ => false
  end.
Lemma orders_ok : forallb (order_ok 0) sfbwidth_table = true /\ forallb (order_ok mixed_block_flag) sfbwidth_table = true.
Proof. split; vm_compute; reflexivity. Qed.

Lemma order_ok_spec flags w xr : order_ok flags w = true -> length xr = 576%nat -> let channel := short_channel flags in let widths := channel_widths w channel in
  exists out, III_reorder xr channel widths = Done out /\ out ≡ₚ xr /\ forall j, 0 <= j < 576 -> zget out j = zget xr (source channel widths j).
Proof.
  intros Hok Hl channel widths. unfold order_ok in Hok. cbv zeta in Hok. fold channel in Hok. fold widths in Hok. set (order := map (source channel widths) numbers) in *.
  set (g := fun i => default 0 (zget xr i)). assert (Hg : forall i, 0 <= i < 576 -> zget xr i = Some (g i)).
  { intros i Hi. unfold g. destruct (zget_some xr i) as [x ->]; [unfold zlen; lia|done]. }
  assert (Hxr : xr = map g numbers).
  { apply list_eq. intros i. unfold numbers. rewrite !list_lookup_fmap. destruct (decide (i < 576)%nat) as [Hi|Hi].
    - rewrite lookup_seq_lt by done. cbn. specialize (Hg (Z.of_nat i) ltac:(lia)). by rewrite zget_nat in Hg.
    - rewrite lookup_ge_None_2, lookup_seq_ge by lia. done. }
  destruct (III_reorder numbers channel widths) as [out| |] eqn:E; [|done..]. rewrite !andb_true_iff, !bool_decide_eq_true, forallb_forall in Hok. destruct Hok as ((-> & Hnd) & Hin).
  exists (map g order). split; [rewrite Hxr, (III_reorder_natural g), E; done|]. split.
  - rewrite Hxr. apply Permutation_map, NoDup_Permutation_bis; [by apply NoDup_ListNoDup|unfold order; by rewrite length_map|].
    intros i Hi. specialize (Hin i Hi). unfold numbers. apply in_map_iff. exists (Z.to_nat i). rewrite in_seq. lia.
  - intros j Hj. unfold order. replace j with (Z.of_nat (Z.to_nat j)) at 1 by lia. rewrite zget_nat, !list_lookup_fmap. unfold numbers. rewrite list_lookup_fmap, lookup_seq_lt by lia. cbn.
    rewrite Z2Nat.id by lia. symmetry. apply Hg. cut (In (source channel widths j) order); [intros Hj'; specialize (Hin _ Hj'); rewrite andb_true_iff, Z.leb_le, Z.ltb_lt in Hin; exact Hin|].
    unfold order. apply in_map. unfold numbers. apply in_map_iff. exists (Z.to_nat j). rewrite in_seq. lia.
Qed.

(** C21: Reordering sorts the lines of a short block by subbands and windows.  For each of the nine tables of band widths, short blocks and mixed blocks, whatever the lines,
    [III_reorder] ends without a fault, the lines are permuted, and place [base + 18 q + 6 k + r] of the result holds line [6 q + r] of window [k], which in the
    order of the bands is at [start + k n + (6 q + r - s)] when its band begins at place [start], is [n] lines wide and begins at line [s] of each window; the [base] lines of the long
    bands of a mixed block stay where they are. *)
Theorem III_reorder_order w channel xr : In w sfbwidth_table -> c_block_type channel = 2 -> length xr = 576%nat -> let widths := channel_widths w channel in
  exists out, III_reorder xr channel widths = Done out /\ out ≡ₚ xr /\ forall j, 0 <= j < 576 -> zget out j = zget xr (source channel widths j).
Proof.
  intros Hw Hb Hl widths. destruct orders_ok as [O0 O1]. rewrite forallb_forall in O0, O1. specialize (O0 w Hw). specialize (O1 w Hw).
  set (flags := if on (c_flags channel) mixed_block_flag then mixed_block_flag else 0).
  assert (Ho : on flags mixed_block_flag = on (c_flags channel) mixed_block_flag) by (unfold flags; by destruct (on (c_flags channel) _)).
  destruct (order_ok_spec flags w xr) as (out & E & Hp & Hs); [unfold flags; by destruct (on _ _)|done|].
  assert (Ew : channel_widths w (short_channel flags) = widths) by (unfold widths, channel_widths; cbn [short_channel c_flags c_block_type]; by rewrite Hb, Ho).
  rewrite Ew in E, Hs. exists out. split; [|split; [done|]].
  - unfold III_reorder in *. cbn [short_channel c_flags] in E. by rewrite Ho in E.
  - intros j Hj. rewrite (Hs j Hj). unfold source, short_base. cbn [short_channel c_flags]. by rewrite Ho.
Qed.

(** A mixed block at 44100 Hz: line 0 of the second window comes fifth behind the long bands and goes to place 42. *)
Lemma III_reorder_order_witness :
  let w := nth 1 sfbwidth_table (SfbWidths [] [] []) in
  let channel := short_channel mixed_block_flag in
  exists out, III_reorder numbers channel (channel_widths w channel) = Done out /\ zget out 42 = Some 40.
Proof.
  intros w channel. destruct (III_reorder_order w channel numbers) as (out & E & _ & H); [vm_compute; tauto|reflexivity|reflexivity|].
  exists out. split; [exact E|]. rewrite H by lia. vm_compute. reflexivity.
Defined.

(** * Requantization *)

(** ** Powers *)

Definition p2 (k : Z) : R := Rpower 2 (IZR k).
Lemma p2_add j k : p2 (j + k) = (p2 j * p2 k)%R.
Proof. unfold p2. by rewrite plus_IZR, Rpower_plus. Qed.
Lemma p2_pos k : (0 < p2 k)%R.
Proof. apply exp_pos. Qed.
Lemma p2_nonneg k : 0 <= k -> p2 k = IZR (2 ^ k).
Proof.
  intros Hk. unfold p2. rewrite <- (Z2Nat.id k) by done. rewrite <- INR_IZR_INZ, Rpower_pow by lra. by rewrite pow_IZR.
Qed.
Lemma p2_opp k : (p2 k * p2 (- k) = 1)%R.
Proof. rewrite <- p2_add, Z.add_opp_diag_r. unfold p2. apply Rpower_O. lra. Qed.

Lemma cube_le a b : (0 <= b -> a * a * a <= b * b * b -> a <= b)%R.
Proof. intros Hb H. destruct (Rle_lt_dec a b) as [|Hab]; [done|]. exfalso. assert (b * b < a * a)%R by nra. assert (b * b * b < a * a * a)%R by nra. lra. Qed.
Lemma square_le a b : (0 <= b -> a * a <= b * b -> a <= b)%R.
Proof. intros Hb H. destruct (Rle_lt_dec a b) as [|Hab]; [done|]. exfalso. nra. Qed.

(** [value^(4/3)] *)
Definition power43 (v : Z) : R := Rpower (IZR v) (4 / 3).
Lemma power43_cube v : 0 < v -> (power43 v * power43 v * power43 v = IZR (v ^ 4))%R.
Proof.
  intros Hv. apply IZR_lt in Hv. unfold power43. rewrite <- !Rpower_plus. replace (4 / 3 + 4 / 3 + 4 / 3)%R with (INR 4) by (cbn; lra). rewrite Rpower_pow by done.
  change 4 with (Z.of_nat 4). by rewrite <- pow_IZR.
Qed.

(** ** The tables *)

Definition entry_close (v : Z) (p : fixedfloat) : bool :=
  let t := 64 * v ^ 4 * 2 ^ (84 - 3 * exponent p) in
  (67108864 <=? mantissa p) && (mantissa p <? 134217728) && (0 <=? exponent p) && (exponent p <=? 19) && ((4 * mantissa p - 3) ^ 3 <=? t) && (t <=? (4 * mantissa p + 3) ^ 3).
Fixpoint entries_close (v : Z) (l : list fixedfloat) : bool := match l with [] => true | p :: l => entry_close v p && entries_close (v + 1) l end.
Lemma entries_close_at l : forall v i p, entries_close v l = true -> l !! i = Some p -> entry_close (v + Z.of_nat i) p = true.
Proof.
  induction l as [|q l IH]; intros v i p H Hi; [done|]. cbn [entries_close] in H. apply andb_true_iff in H as [Hq H]. destruct i as [|i]; [injection Hi as <-; by rewrite Z.add_0_r|].
  replace (v + Z.of_nat (S i)) with (v + 1 + Z.of_nat i) by lia. by apply IH.
Qed.
Lemma rq_table_close : entries_close 1 (tail rq_table) = true.
Proof. vm_compute. reflexivity. Qed.

Lemma entry_spec v : 0 < v < RQ_VALUES -> exists p, zget rq_table v = Some p /\ 67108864 <= mantissa p < 134217728 /\ 0 <= exponent p <= 19 /\
  (Rabs (IZR (mantissa p) - 268435456 * power43 v * p2 (- exponent p)) <= 3 / 4)%R.
Proof.
  intros Hv. rewrite <- rq_table_length in Hv. destruct (zget_some rq_table v) as [p Hp]; [lia|]. exists p. split; [done|]. apply zget_lookup in Hp.
  assert (He : entry_close v p = true).
  { replace v with (1 + Z.of_nat (Z.to_nat (v - 1))) by lia. apply (entries_close_at (tail rq_table)); [exact rq_table_close|]. replace (Z.to_nat v) with (S (Z.to_nat (v - 1))) in Hp by lia. by destruct rq_table. }
  unfold entry_close in He. cbv zeta in He. rewrite !andb_true_iff, !Z.leb_le, Z.ltb_lt in He. destruct He as (((((H1 & H2) & H3) & H4) & H5) & H6).
  set (m := mantissa p) in *. set (x := exponent p) in *. clearbody m x. split; [lia|]. split; [lia|].
  set (t := (268435456 * power43 v * p2 (- x))%R).
  assert (Ht0 : (0 < t)%R) by (unfold t; pose proof (p2_pos (- x)); assert (0 < power43 v)%R by apply exp_pos; nra).
  assert (Hc : (4 * t * (4 * t) * (4 * t) = IZR (64 * v ^ 4 * 2 ^ (84 - 3 * x)))%R).
  { rewrite !mult_IZR, <- p2_nonneg by lia. replace (84 - 3 * x) with (28 + - x + (28 + - x) + (28 + - x)) by lia. rewrite !p2_add, <- (power43_cube v) by lia.
    rewrite (p2_nonneg 28) by lia. change (2 ^ 28) with 268435456. unfold t. ring. }
  apply IZR_le in H5, H6. rewrite <- Hc in H5, H6.
  assert (L : (4 * IZR m - 3 <= 4 * t)%R).
  { apply cube_le; [lra|]. eapply Rle_trans; [|exact H5]. right. replace ((4 * m - 3) ^ 3) with ((4 * m - 3) * (4 * m - 3) * (4 * m - 3)) by ring. rewrite !mult_IZR, !minus_IZR, !mult_IZR. lra. }
  assert (U : (4 * t <= 4 * IZR m + 3)%R).
  { apply IZR_le in H1. apply cube_le; [lra|]. eapply Rle_trans; [exact H6|]. right. replace ((4 * m + 3) ^ 3) with ((4 * m + 3) * (4 * m + 3) * (4 * m + 3)) by ring. rewrite !mult_IZR, !plus_IZR, !mult_IZR. lra. }
  apply Rabs_le. lra.
Qed.

(** The roots 2^(f/4). *)
Definition root_close (f : Z) : bool :=
  match zget root_table (3 + f) with
  | Some r => (0 <=? r) && (r <=? 451452825) && (8 * (2 * r - 1) ^ 4 <=? 16 * 2 ^ (115 + f)) && (16 * 2 ^ (115 + f) <=? 8 * (2 * r + 1) ^ 4)
  | None => false end.
Lemma root_spec f : -3 <= f <= 3 -> exists r, at_ root_table (3 + f) = Done r /\ 0 <= r <= 451452825 /\ (Rabs (IZR r - 268435456 * Rpower 2 (IZR f / 4)) <= 1 / 2)%R.
Proof.
  intros Hf. assert (H : forallb root_close [-3; -2; -1; 0; 1; 2; 3] = true) by (vm_compute; reflexivity). rewrite forallb_forall in H. specialize (H f ltac:(cbn; lia)). unfold root_close in H. unfold at_.
  destruct (zget root_table (3 + f)) as [r|]; [|done]. rewrite !andb_true_iff, !Z.leb_le in H. destruct H as (((H1 & H2) & H3) & H4). exists r. split; [done|]. split; [done|].
  set (w := Rpower 2 (IZR f / 4)). assert (Hw : (0 < w)%R) by apply exp_pos.
  assert (Hc : (8 * (2 * (268435456 * w) * (2 * (268435456 * w)) * (2 * (268435456 * w) * (2 * (268435456 * w)))) = IZR (16 * 2 ^ (115 + f)))%R).
  { assert (E : (w * w * (w * w) = p2 f)%R) by (unfold w, p2; rewrite <- !Rpower_plus; f_equal; lra). rewrite mult_IZR, <- p2_nonneg, p2_add, <- E by lia. rewrite (p2_nonneg 115) by lia. change (2 ^ 115) with 41538374868278621028243970633760768. lra. }
  apply IZR_le in H3, H4. rewrite <- Hc in H3, H4. apply IZR_le in H1.
  assert (Hp : forall a : Z, IZR (8 * a ^ 4) = (8 * (IZR a * IZR a * (IZR a * IZR a)))%R) by (intros a; replace (8 * a ^ 4) with (8 * (a * a * (a * a))) by ring; by rewrite !mult_IZR).
  rewrite Hp in H3, H4. rewrite minus_IZR, mult_IZR in H3. rewrite plus_IZR, mult_IZR in H4.
  assert (U : (2 * (268435456 * w) <= 2 * IZR r + 1)%R) by (apply square_le; [lra|]; apply square_le; [nra|]; lra).
  assert (L : (2 * IZR r - 1 <= 2 * (268435456 * w))%R).
  { destruct (Rle_lt_dec (2 * IZR r - 1) 0); [nra|]. apply square_le; [nra|]. apply square_le; [nra|]. lra. }
  apply Rabs_le. lra.
Qed.

(** ** The power law *)

Section Accurate.
Context `{T : Target} `{FP : Fpm} (Harm : fpm_arm = true).

(** What the standard defines, in fixed point. *)
Definition ideal (v e : Z) : R := (268435456 * power43 v * Rpower 2 (IZR e / 4))%R.

(** The number before its root: the table's entry, shifted. *)
Definition shifted (m x : Z) : res Z :=
  if x <? 0 then
    if - x >=? long_bits then Done 0
    else let! y := res_opt (fits (m + Z.shiftl 1 (- x - 1))) in Done (Z.shiftr y (- x))
  else if x >=? 5 then Done MAD_F_MAX
  else Done (Z.shiftl m x).

Lemma shifted_close m x t : 67108864 <= m < 134217728 -> (Rabs (IZR m - t) <= 3 / 4)%R -> (t * p2 x < 1073741824)%R ->
  exists q, shifted m x = Done q /\ (Rabs (IZR q - t * p2 x) <= 12)%R.
Proof.
  intros Hm Ht Hy. apply Rabs_le_inv in Ht. assert (Hm0 : (67108864 <= IZR m <= 134217727)%R) by (split; apply IZR_le; lia). unfold shifted. pose proof long_bits_32 as Hlb.
  destruct (Z.ltb_spec x 0) as [Hx|Hx].
  - set (k := - x). assert (Hk : 0 < k) by (unfold k; lia). assert (Hp : (p2 k * p2 x = 1)%R) by (unfold k; rewrite Rmult_comm; apply p2_opp). pose proof (p2_pos x) as Hx0.
    assert (Hk2 : p2 k = IZR (2 ^ k)) by (apply p2_nonneg; lia). destruct (Z.geb_spec k long_bits) as [Hl|Hl].
    + exists 0. split; [done|]. assert (Hbig : 2 ^ 32 <= 2 ^ k) by (apply Z.pow_le_mono_r; lia). apply IZR_le in Hbig. rewrite <- Hk2 in Hbig. change (2 ^ 32) with 4294967296 in Hbig. apply Rabs_le. nra.
    + rewrite fits_rounding by lia. cbn [res_opt res_bind]. eexists. split; [done|]. rewrite Z.shiftr_div_pow2 by lia.
      assert (E : 2 ^ k = 2 * 2 ^ (k - 1)) by (rewrite <- Z.pow_succ_r by lia; f_equal; lia). set (h := 2 ^ (k - 1)) in *. assert (Hh : 1 <= h) by (unfold h; pose proof (Z.pow_pos_nonneg 2 (k - 1)); lia).
      set (q := (m + h) / 2 ^ k). assert (Hq : - h <= 2 ^ k * q - m <= h).
      { pose proof (Z.mul_div_le (m + h) (2 ^ k) ltac:(lia)) as D1. pose proof (Z.mul_succ_div_gt (m + h) (2 ^ k) ltac:(lia)) as D2. fold q in D1, D2. lia. }
      destruct Hq as [Q1 Q2]. apply IZR_le in Q1, Q2, Hh. rewrite opp_IZR, minus_IZR, mult_IZR in Q1. rewrite minus_IZR, mult_IZR in Q2. rewrite <- Hk2 in Q1, Q2.
      assert (E2 : p2 k = (2 * IZR h)%R) by (rewrite Hk2, E; apply mult_IZR). rewrite E2 in *. apply Rabs_le. assert (Hd : (IZR h * p2 x = 1 / 2)%R) by lra.
      assert (Hq' : (IZR q = 2 * IZR h * IZR q * p2 x)%R) by nra. assert (Hx1 : (p2 x <= 1 / 2)%R) by nra.
      replace (IZR q - t * p2 x)%R with ((2 * IZR h * IZR q - IZR m) * p2 x + (IZR m - t) * p2 x)%R by lra. nra.
  - rewrite (p2_nonneg x Hx) in *. destruct (Z.geb_spec x 5) as [H5|H5].
    { exfalso. assert (Hbig : 2 ^ 5 <= 2 ^ x) by (apply Z.pow_le_mono_r; lia). apply IZR_le in Hbig. change (2 ^ 5) with 32 in Hbig. nra. }
    eexists. split; [done|]. rewrite Z.shiftl_mul_pow2, mult_IZR by lia. assert (Hb : 1 <= 2 ^ x <= 2 ^ 4) by (split; [pose proof (Z.pow_pos_nonneg 2 x); lia|apply Z.pow_le_mono_r; lia]).
    destruct Hb as [B1 B2]. apply IZR_le in B1, B2. change (2 ^ 4) with 16 in B2. replace (IZR m * IZR (2 ^ x) - t * IZR (2 ^ x))%R with ((IZR m - t) * IZR (2 ^ x))%R by lra. apply Rabs_le. nra.
Qed.

(** C18: Requantization is the power law of the standard.  On the board, for each of the values 1 to 8206 and every exponent [e] for which [value^(4/3) 2^(e quot 4)] is
    below 4, which is four times the range of a sample, [III_requantize] returns a number within 23 units of the last place (of 2^-28) of [value^(4/3) 2^(e/4)]. *)
Theorem III_requantize_accurate v e : 0 < v < RQ_VALUES -> (power43 v * p2 (Z.quot e 4) < 4)%R ->
  exists q, III_requantize v e = Done q /\ (Rabs (IZR q - ideal v e) <= 23)%R.
Proof.
  intros Hv Hy. destruct (entry_spec v Hv) as (p & Ep & Hm & Hx & Hcl). set (f := Z.rem e 4). set (d := Z.quot e 4) in *. assert (He : e = 4 * d + f) by apply Z.quot_rem'.
  assert (Hf : -3 <= f <= 3) by (pose proof (Z.rem_bound_abs e 4 ltac:(lia)); unfold f; lia).
  set (t := (268435456 * power43 v * p2 (- exponent p))%R) in *. assert (Et : (t * p2 (d + exponent p) = 268435456 * power43 v * p2 d)%R).
  { unfold t. rewrite p2_add. pose proof (p2_opp (exponent p)). replace (268435456 * power43 v * p2 (- exponent p) * (p2 d * p2 (exponent p)))%R with (268435456 * power43 v * p2 d * (p2 (exponent p) * p2 (- exponent p)))%R by ring. rewrite H. lra. }
  destruct (shifted_close (mantissa p) (d + exponent p) t Hm Hcl) as (q1 & E1 & H1); [rewrite Et; lra|]. rewrite Et in H1.
  assert (Ei : ideal v e = (268435456 * power43 v * p2 d * Rpower 2 (IZR f / 4))%R).
  { unfold ideal, p2. rewrite He, plus_IZR, mult_IZR. replace ((4 * IZR d + IZR f) / 4)%R with (IZR d + IZR f / 4)%R by lra. rewrite Rpower_plus. ring. }
  unfold III_requantize, at_. rewrite Ep. cbn [res_opt res_bind]. fold d. fold f. fold (shifted (mantissa p) (d + exponent p)). rewrite E1. cbn [res_bind]. rewrite Ei.
  set (Y := (268435456 * power43 v * p2 d)%R) in *. assert (HY : (0 <= Y < 1073741824)%R).
  { unfold Y. pose proof (p2_pos d). assert (0 < power43 v)%R by apply exp_pos. assert (0 < power43 v * p2 d)%R by nra. lra. }
  destruct (Z.eqb_spec f 0) as [->|Hf0]; cbn [negb].
  { exists q1. split; [done|]. rewrite Rdiv_0_l, Rpower_O, Rmult_1_r by lra. lra. }
  destruct (root_spec f Hf) as (r & Er & Hr & Hrc). unfold at_ in Er. rewrite Er. cbn [res_bind]. unfold mad_f_mul. rewrite Harm. cbn [res_opt]. eexists. split; [done|].
  apply Rabs_le_inv in H1. assert (Hq1 : Z.abs q1 <= 1073741836) by (apply Z.abs_le; split; apply le_IZR; rewrite ?opp_IZR; lra).
  assert (Hprod : Z.abs (q1 * r) <= 1073741836 * 451452825) by (rewrite Z.abs_mul; apply Z.mul_le_mono_nonneg; lia).
  pose proof (mul_arm_error q1 r ltac:(lia)) as Hm2. unfold MAD_F_ONE in Hm2. set (w := mul_arm q1 r) in *. clearbody w. set (rho := Rpower 2 (IZR f / 4)) in *. assert (Hrho : (0 < rho)%R) by apply exp_pos. clearbody rho Y.
  assert (Hm3 : (Rabs (268435456 * IZR w - IZR q1 * IZR r) <= 134217728)%R) by (rewrite <- !mult_IZR, <- minus_IZR, <- abs_IZR; by apply IZR_le).
  apply IZR_le in Hq1. rewrite abs_IZR in Hq1. destruct Hr as [R1 R2]. apply IZR_le in R1, R2. apply Rabs_le_inv in Hm3.
  destruct (Rabs_mult_le (IZR q1) (IZR r - 268435456 * rho) 1073741836 (1 / 2)) as [P1 P2]; [done|done|]. apply Rabs_le_inv in Hrc.
  destruct (Rabs_mult_le rho (IZR q1 - Y) (16818 / 10000 + 1 / 100000) 12) as [P3 P4]; [rewrite Rabs_right; lra|apply Rabs_le; lra|]. apply Rabs_le. lra.
Qed.

End Accurate.

(** 8^(4/3) 2^(-13/4), which is 2^(3/4). *)
Section RequantWitness.
#[local] Existing Instance stm32_target.
#[local] Instance arm_requant : Fpm := {| fpm_arm := true |}.

Lemma III_requantize_accurate_witness : exists q, III_requantize 8 (-13) = Done q /\ (Rabs (IZR q - ideal 8 (-13)) <= 23)%R.
Proof.
  apply (III_requantize_accurate (FP := arm_requant) eq_refl 8 (-13)); [split; reflexivity|]. change (Z.quot (-13) 4) with (- (3)).
  assert (H : (power43 8 <= 16)%R) by (apply cube_le; [lra|]; rewrite power43_cube by lia; change (8 ^ 4) with 4096; lra).
  pose proof (p2_opp 3) as E. rewrite (p2_nonneg 3) in E by lia. change (2 ^ 3) with 8 in E.
  assert (E8 : (p2 (- (3)) = 1 / 8)%R) by lra. rewrite E8. lra.
Defined.
End RequantWitness.
