(* ===== verification/MadImdct.v ===== *)
(** * The inverse transforms of layer3.c are the inverse modified cosine transforms

    [imdct36] goes through a type IV and two type II transforms of nine points.  It is run on linear
    forms in the 18 lines, with the cosines of the multiples of pi/72. *)

From Stdlib Require Import Reals Lra Rtrigo1.
From S2P Require Import Prelude MadFixed MadTables3 MadSide MadSynth MadHybrid MadRun MadCos.
Open Scope Z_scope.

#[export] Instance base_36 : Base 36 := eq_refl.
Abbreviation C := (MadCos.C 36).
Abbreviation veval := (veval_from 36 0).
Abbreviation full v := (zlen v = 36).

(** ** The cosines of the multiples of pi/72 *)

(** Bounds times 2^60: those of pi/3 and pi/9, the others follow by half angles. *)
Definition cos_bounds36 : list (Z * Z) := [
  (1151824178800950102, 1151824178800950103);
  (1148534290205298928, 1148534290205298930);
  (1143058101309820321, 1143058101309820322);
  (1135406036351323052, 1135406036351323054);
  (1125592661470370564, 1125592661470370565);
  (1113636656983804514, 1113636656983804515);
  (1099560781825699954, 1099560781825699956);
  (1083391830224440781, 1083391830224440782);
  (1065160580698383124, 1065160580698383125);
  (1044901737467196318, 1044901737467196319);
  (1022653864390408305, 1022653864390408306);
  (998459311558907193, 998459311558907194);
  (972364134679136233, 972364134679136235);
  (944418007403438965, 944418007403438967);
  (914674126773438719, 914674126773438720);
  (883189111956446360, 883189111956446362);
  (850022896467657293, 850022896467657296);
  (815238614083298888, 815238614083298889);
  (778902478661899136, 778902478661899139);
  (741083658102443605, 741083658102443607);
  (701854142679348460, 701854142679348462);
  (661288608004881462, 661288608004881464);
  (619464272879889727, 619464272879889729);
  (576460752303423488, 576460752303423488);
  (532359905921060373, 532359905921060375);
  (487245682200417465, 487245682200417467);
  (441203958630471859, 441203958630471861);
  (394322378248879446, 394322378248879449);
  (346690182808471425, 346690182808471428);
  (298398042900505626, 298398042900505628);
  (249537885358042659, 249537885358042661);
  (200202718267994419, 200202718267994422);
  (150486453924944404, 150486453924944407);
  (100483730063757350, 100483730063757356);
  (50289729711272066, 50289729711272079)
].
Abbreviation bounded := (MadCos.bounded 36 cos_bounds36).

Lemma C_24 : C 24 = (1 / 2)%R.
Proof. unfold MadCos.C. rewrite <- cos_PI3. f_equal. change (2 * 36) with 72. lra. Qed.
Lemma C_triple m : C (3 * m) = (4 * C m * C m * C m - 3 * C m)%R.
Proof. pose proof (C_product 36 (2 * m) m) as H. replace (2 * m + m) with (3 * m) in H by lia. replace (2 * m - m) with m in H by lia. pose proof (C_half 36 m). nra. Qed.

Lemma bounded_24 : bounded 24.
Proof. unfold MadCos.bounded. rewrite C_24. unfold one60. vm_compute bound_lo. vm_compute bound_hi. lra. Qed.
Lemma cubic_increases x y : (1 / 2 < x -> x < y -> 4 * x * x * x - 3 * x < 4 * y * y * y - 3 * y)%R.
Proof.
  intros Hx Hxy. assert (0 < (y - x) * (4 * (y * y + y * x + x * x) - 3))%R; [|lra]. apply Rmult_lt_0_compat; [lra|].
  assert (1 / 2 * (1 / 2) < x * x)%R by (apply Rmult_gt_0_lt_compat; lra). assert (1 / 2 * (1 / 2) < y * x)%R by (apply Rmult_gt_0_lt_compat; lra).
  assert (1 / 2 * (1 / 2) < y * y)%R by (apply Rmult_gt_0_lt_compat; lra). lra.
Qed.
Lemma bounded_8 : bounded 8.
Proof.
  assert (H2 : (1 / 2 <= C 8)%R).
  { rewrite <- C_24. pose proof PI_RGT_0. unfold MadCos.C. change (IZR (2 * 36)) with 72%R. apply cos_decr_1; lra. }
  pose proof (C_triple 8) as E. change (3 * 8) with 24 in E. rewrite C_24 in E. unfold MadCos.bounded, one60.
  set (l := bound_lo cos_bounds36 8). set (h := bound_hi cos_bounds36 8). vm_compute in l, h.
  pose proof cubic_increases as Hmono.
  pose proof (Rtotal_order (C 8) (IZR l / 1152921504606846976)) as Hl. pose proof (Rtotal_order (IZR h / 1152921504606846976) (C 8)) as Hh. subst l h. split.
  - destruct Hl as [Hl|Hl]; [|lra]. destruct (Req_dec (C 8) (1 / 2)) as [He|He]; [rewrite He in E; lra|]. specialize (Hmono (C 8) _ ltac:(lra) Hl). lra.
  - destruct Hh as [Hh|Hh]; [|lra]. specialize (Hmono (1083391830224440782 / 1152921504606846976)%R (C 8) ltac:(lra) Hh). lra.
Qed.

Ltac bound_next m :=
  assert (bounded m) by (apply bounded_half; [apply _|lia|intros ?; first [exfalso; lia|assumption]|intros ?; first [exfalso; lia|assumption]|vm_compute; reflexivity]).

Lemma all_bounded36 m : 1 <= m <= 35 -> bounded m.
Proof.
  intros Hm. pose proof bounded_24. pose proof bounded_8.
  bound_next 12. bound_next 6. bound_next 30. bound_next 3. bound_next 33. bound_next 15. bound_next 21. bound_next 18. bound_next 9. bound_next 27.
  bound_next 32. bound_next 4. bound_next 16. bound_next 20. bound_next 28. bound_next 2. bound_next 34. bound_next 10. bound_next 26. bound_next 14. bound_next 22.
  bound_next 1. bound_next 35. bound_next 17. bound_next 19. bound_next 5. bound_next 31. bound_next 13. bound_next 23. bound_next 7. bound_next 29. bound_next 11. bound_next 25.
  assert (Hin : In m (map Z.of_nat (seq 1 35))) by (apply in_map_iff; exists (Z.to_nat m); rewrite in_seq; lia).
  cbn [seq map] in Hin. repeat (destruct Hin as [<-|Hin]; [assumption|]). done.
Qed.

(** ** Two runs of the transform *)

(** What succeeds on the right succeeds on the left, with a related result. *)
Definition agrees {A B} (R : A -> B -> Prop) (p : option A) (q : option B) : Prop := forall y, q = Some y -> exists x, p = Some x /\ R x y.

Lemma agrees_bind {A B A' B'} (R : A -> B -> Prop) (R' : A' -> B' -> Prop) p q f g :
  agrees R p q -> (forall x y, R x y -> agrees R' (f x) (g y)) -> agrees R' (obind p f) (obind q g).
Proof. intros Hp Hf z Hz. destruct q as [y|]; [|done]. destruct (Hp y eq_refl) as (x & -> & H). by apply (Hf x y H). Qed.
Lemma agrees_some {A B} (R : A -> B -> Prop) x y : R x y -> agrees R (Some x) (Some y).
Proof. intros H z [= <-]. eauto. Qed.
Lemma agrees_none {A B} (R : A -> B -> Prop) p : agrees R p (@None B).
Proof. by intros z Hz. Qed.

Section Agree.
Context {A B : Type} (R : A -> B -> Prop) (P : iops A) (Q : iops B).

Record iops_agree : Prop := {
  agree_add x y x' y' : R x y -> R x' y' -> agrees R (i_add P x x') (i_add Q y y');
  agree_sub x y x' y' : R x y -> R x' y' -> agrees R (i_sub P x x') (i_sub Q y y');
  agree_neg x y : R x y -> agrees R (i_neg P x) (i_neg Q y);
  agree_mul x y c : R x y -> agrees R (i_mul P x c) (i_mul Q y c);
  agree_twice x y : R x y -> agrees R (i_twice P x) (i_twice Q y);
  agree_half x y : R x y -> agrees R (i_half P x) (i_half Q y)
}.
Context (H : iops_agree).

Ltac agree_op := first [apply (agree_add H) | apply (agree_sub H) | apply (agree_neg H) | apply (agree_mul H) | apply (agree_twice H) | apply (agree_half H)]; assumption.
Ltac agree_step := eapply agrees_bind; [agree_op|intros ? ? ?].

Lemma agree_fastsdct l m : Forall2 R l m -> agrees (Forall2 R) (fastsdct_list P l) (fastsdct_list Q m).
Proof.
  intros F. do 9 (destruct F as [|? ? l m ? F]; [apply agrees_none|]). destruct F; [|apply agrees_none]. cbn [fastsdct_list].
  unfold fastsdct. repeat agree_step. apply agrees_some. repeat (constructor; [assumption|]). constructor.
Qed.

Lemma Forall2_rev {A1 B1} {R1 : A1 -> B1 -> Prop} {l l'} : Forall2 R1 l l' -> Forall2 R1 (rev l) (rev l').
Proof. induction 1; cbn [rev]; [constructor|]. apply Forall2_app; [done|]. by repeat constructor. Qed.

Lemma agree_omap {A1 B1 A2 B2 A3 B3} (R1 : A1 -> B1 -> Prop) (R2 : A2 -> B2 -> Prop) (R3 : A3 -> B3 -> Prop) f g l l' m m' :
  (forall x y x' y', R1 x y -> R2 x' y' -> agrees R3 (f x x') (g y y')) -> Forall2 R1 l l' -> Forall2 R2 m m' -> agrees (Forall2 R3) (omap f l m) (omap g l' m').
Proof.
  intros Hf Hl. revert m m'. induction Hl as [|x y l l' Hx _ IH]; intros m m' Hm; [by apply agrees_some|]. destruct Hm as [|x' y' m m' Hx' Hm]; [by apply agrees_some|].
  cbn [omap]. eapply agrees_bind; [by apply Hf|]. intros z w Hz. eapply agrees_bind; [by apply IH|]. intros r s Hr. apply agrees_some. by constructor.
Qed.

Lemma agree_interleave l l' m m' : Forall2 R l l' -> Forall2 R m m' -> Forall2 R (interleave l m) (interleave l' m').
Proof. intros Hl. revert m m'. induction Hl; intros m m' [|? ? ? ? ? Hm]; cbn [interleave]; repeat constructor; try assumption. by apply IHHl. Qed.

Lemma agree_accumulate x y l m : R x y -> Forall2 R l m -> agrees (Forall2 R) (accumulate P x l) (accumulate Q y m).
Proof.
  intros Hxy F. revert x y Hxy. induction F as [|v w l m Hv F IH]; intros x y Hxy; [by apply agrees_some|]. cbn [accumulate]. agree_step.
  eapply agrees_bind; [by apply IH|]. intros r s Hr. apply agrees_some. by constructor.
Qed.
Lemma agree_halve x y l m : R x y -> Forall2 R l m -> agrees (Forall2 R) (halve_accumulate P x l) (halve_accumulate Q y m).
Proof.
  intros Hxy F. revert x y Hxy. induction F as [|v w l m Hv F IH]; intros x y Hxy; [by apply agrees_some|]. cbn [halve_accumulate]. agree_step. agree_step.
  eapply agrees_bind; [by apply IH|]. intros r s Hr. apply agrees_some. by constructor.
Qed.
Lemma agree_negate l m : Forall2 R l m -> agrees (Forall2 R) (negate_all P l) (negate_all Q m).
Proof.
  induction 1 as [|v w l m Hv F IH]; [by apply agrees_some|]. cbn [negate_all]. agree_step. eapply agrees_bind; [exact IH|]. intros r s Hr. apply agrees_some. by constructor.
Qed.

Lemma agree_scale l m c : Forall2 R l m -> agrees (Forall2 R) (omap (i_mul P) l c) (omap (i_mul Q) m c).
Proof. intros F. eapply (agree_omap R eq); [|exact F|by apply Forall_Forall2_diag, Forall_true]. intros x y c1 ? Hx <-. by apply (agree_mul H). Qed.

Lemma agree_sdctII l m : Forall2 R l m -> agrees (Forall2 R) (sdctII P l) (sdctII Q m).
Proof.
  intros F. unfold sdctII. cbv zeta. assert (Fa := Forall2_take _ _ _ 9 F). assert (Fb := Forall2_rev (Forall2_drop _ _ _ 9 F)).
  eapply agrees_bind; [eapply agree_omap; [apply (agree_add H)|exact Fa|exact Fb]|]. intros t t' Ht. eapply agrees_bind; [by apply agree_fastsdct|]. intros e e' He.
  eapply agrees_bind; [eapply agree_omap; [apply (agree_sub H)|exact Fa|exact Fb]|]. intros s s' Hs. eapply agrees_bind; [by apply agree_scale|]. intros u u' Hu.
  eapply agrees_bind; [by apply agree_fastsdct|]. intros o o' Ho. destruct Ho as [|f f' o o' Hf Ho]; [apply agrees_none|].
  eapply agrees_bind; [by apply agree_accumulate|]. intros r r' Hr. apply agrees_some, agree_interleave; [done|by constructor].
Qed.
Lemma agree_dctIV l m : Forall2 R l m -> agrees (Forall2 R) (dctIV P l) (dctIV Q m).
Proof.
  intros F. unfold dctIV. eapply agrees_bind; [by apply agree_scale|]. intros t t' Ht. eapply agrees_bind; [by apply agree_sdctII|]. intros X X' HX.
  destruct HX as [|x x' X X' Hx HX]; [apply agrees_none|]. agree_step. eapply agrees_bind; [by apply agree_halve|]. intros r r' Hr. apply agrees_some. by constructor.
Qed.
Lemma agree_imdct36 l m : Forall2 R l m -> agrees (Forall2 R) (imdct36 P l) (imdct36 Q m).
Proof.
  intros F. unfold imdct36. eapply agrees_bind; [by apply agree_dctIV|]. intros t t' Ht.
  eapply agrees_bind; [apply agree_negate; by apply Forall2_rev|]. intros a a' Ha. eapply agrees_bind; [apply agree_negate; by apply Forall2_take|]. intros b b' Hb.
  apply agrees_some. repeat apply Forall2_app; try done. by apply Forall2_drop.
Qed.
End Agree.

(** ** The approximate run *)

(** The value of a combination, from the bounds of the cosines. *)
Fixpoint weigh (j : Z) (v : list Z) : Z := match v with [] => 0 | x :: v => x * (if j =? 0 then one60 else bound_lo cos_bounds36 j) + weigh (j + 1) v end.
Definition vmag36 (v : list Z) : Z := (Z.abs (weigh 0 v) + 64 * norm1 v) / one60 + 1.

Lemma weigh_close v : forall j, 0 <= j -> j + zlen v <= 36 -> (Rabs (IZR one60 * veval_from 36 j v - IZR (weigh j v)) <= 64 * IZR (norm1 v))%R.
Proof.
  induction v as [|x v IH]; intros j Hj Hl; cbn [veval_from weigh norm1]; [rewrite Rmult_0_r, Rminus_diag, Rabs_R0; lra|]. rewrite zlen_cons in Hl. pose proof (zlen_nonneg v).
  specialize (IH (j + 1) ltac:(lia) ltac:(lia)). rewrite !plus_IZR, mult_IZR, abs_IZR. set (c := if j =? 0 then one60 else _).
  assert (Hc : (Rabs (IZR one60 * C j - IZR c) <= 64)%R).
  { subst c. destruct (Z.eqb_spec j 0) as [->|Hn]; [rewrite C_0, Rmult_1_r, Rminus_diag, Rabs_R0; lra|]. destruct (all_bounded36 j ltac:(lia)) as [H1 H2].
    assert (Hw : forallb (fun m => bound_hi cos_bounds36 m - bound_lo cos_bounds36 m <=? 64) (map Z.of_nat (seq 1 35)) = true) by (vm_compute; reflexivity).
    rewrite forallb_forall in Hw. specialize (Hw j ltac:(apply in_map_iff; exists (Z.to_nat j); rewrite in_seq; lia)). apply Z.leb_le, IZR_le in Hw. rewrite minus_IZR in Hw. apply Rabs_le. lra. }
  replace (IZR one60 * (IZR x * C j + veval_from 36 (j + 1) v) - (IZR x * IZR c + IZR (weigh (j + 1) v)))%R
    with (IZR x * (IZR one60 * C j - IZR c) + (IZR one60 * veval_from 36 (j + 1) v - IZR (weigh (j + 1) v)))%R by lra.
  eapply Rle_trans; [apply Rabs_triang|]. rewrite Rabs_mult. pose proof (Rabs_pos (IZR x)). nra.
Qed.

#[export] Instance vmag36_magnitude : Magnitude 36 vmag36.
Proof.
  split; intros v.
  - unfold vmag36. assert (0 <= (Z.abs (weigh 0 v) + 64 * norm1 v) / one60); [|lia]. apply Z.div_pos; [|done]. pose proof (norm1_nonneg v). lia.
  - intros Hv. pose proof (weigh_close v 0 ltac:(lia) ltac:(lia)) as H. unfold vmag36. set (s := Z.abs (weigh 0 v) + 64 * norm1 v).
    assert (Hs : s <= one60 * (s / one60 + 1)) by (pose proof (Z.mul_succ_div_gt s one60 ltac:(done)); lia). apply IZR_le in Hs. rewrite mult_IZR in Hs. unfold s in Hs at 1. rewrite plus_IZR, mult_IZR, abs_IZR in Hs.
    assert (H0 : (Rabs (IZR one60 * veval v) <= Rabs (IZR (weigh 0 v)) + 64 * IZR (norm1 v))%R).
    { replace (IZR one60 * veval v)%R with ((IZR one60 * veval v - IZR (weigh 0 v)) + IZR (weigh 0 v))%R by lra. eapply Rle_trans; [apply Rabs_triang|]. lra. }
    rewrite Rabs_mult, (Rabs_right (IZR one60)) in H0 by (apply Rle_ge, IZR_le; done).
    apply (Rmult_le_reg_l (IZR one60)); [by apply IZR_lt|]. lra.
Qed.

(** The magnitudes of the lines add up to 1 at most, in fixed point. *)
Definition span36 : Z := 268435456.
Abbreviation approx := (form * Z)%type.
Abbreviation guard := (MadCos.guard vmag36 span36).
Abbreviation near := (MadCos.near 36 vmag36 18 span36).
Abbreviation inputs := (MadCos.inputs 36 18).

(** The angle of a constant, which is twice a cosine. *)
Definition factor (c : Z) : option Z := find (fun m => close_to cos_bounds36 2 (Z.abs c) m) (map Z.of_nat (seq 1 35)).
Definition fmul2 (c m : Z) (f : form) : form := map (fun v => map (Z.mul (Z.sgn c)) (vmul_from 36 m 0 v (zeros 36))) f.
Definition halves (f : form) : option form :=
  if forallb (forallb Z.even) f then Some (map (map (fun x => x / 2)) f) else None.

Definition approx_iops : iops approx := {|
  i_add a b := guard (fcomb 1 a.1 b.1, a.2 + b.2);
  i_sub a b := guard (fcomb (-1) a.1 b.1, a.2 + b.2);
  i_neg a := guard (map (map Z.opp) a.1, a.2);
  i_mul a c := obind (factor c) (fun m =>
    if reach vmag36 span36 a * Z.abs c <=? 590295809000000000000 then guard (fmul2 c m a.1, mul_err vmag36 span36 c a) else None);
  i_twice a := guard (fcomb 1 a.1 a.1, a.2 + a.2);
  i_half a := obind (halves a.1) (fun f => guard (f, a.2 / 2 + 513))
|}.

Section Near.
Context `{T : Target} `{FP : Fpm} (x : list Z) (Harm : fpm_arm = true) (Hx : norm1 x <= span36).

Lemma factor_spec c m : factor c = Some m -> 1 <= m <= 35 /\ (Rabs (IZR c - 268435456 * (2 * IZR (Z.sgn c) * C m)) <= 9 / 16)%R.
Proof.
  unfold factor. intros Hf. apply find_some in Hf as [Hin Hc]. assert (Hm : 1 <= m <= 35) by (apply in_map_iff in Hin as (k & <- & Hk); rewrite in_seq in Hk; lia). split; [done|].
  pose proof (close_to_spec 36 cos_bounds36 2 (Z.abs c) m ltac:(lia) (all_bounded36 m Hm) Hc) as H. assert (Hs : (IZR c = IZR (Z.sgn c) * IZR (Z.abs c))%R) by (rewrite <- mult_IZR; f_equal; lia).
  destruct (Z.sgn_spec c) as [[_ E]|[[_ E]|[_ E]]]; rewrite E in *; rewrite Hs; change (- (1)) with (-1); apply Rabs_le_inv in H; apply Rabs_le; lra.
Qed.

Lemma near_negate z a r : near x z a -> guard (map (map Z.opp) a.1, a.2) = Some r -> near x (- z) r.
Proof.
  intros ([La Fa] & He & _ & Hn) (-> & H0 & H1)%guard_some. destruct (feval_map 36 (-1) (map Z.opp) a.1 Fa) as [H2 H3].
  - intros v Hv. split; [unfold zlen; by rewrite length_map|]. apply veval_map. intros y _. rewrite opp_IZR. lra.
  - split; [split; [cbn; by rewrite length_map|done]|]. do 2 (split; [done|]). cbn [fst snd]. rewrite H3, opp_IZR. apply Rabs_le_inv in Hn. apply Rabs_le. lra.
Qed.

Lemma near_half z a f r : near x z a -> halves a.1 = Some f -> guard (f, a.2 / 2 + 513) = Some r -> near x (Z.quot z 2) r.
Proof.
  intros ([La Fa] & He & _ & Hn) Hf (-> & H0 & H1)%guard_some. unfold halves in Hf. destruct (forallb _ _) eqn:Ev; [|done]. injection Hf as <-. rewrite forallb_forall in Ev.
  assert (Hev : rows_full 36 (map (map (fun x => x / 2)) a.1) /\ forall y, feval 36 (map (map (fun x => x / 2)) a.1) y = (/ 2 * feval 36 a.1 y)%R).
  { clear - Fa Ev. induction a.1 as [|v f IH]; [split; [constructor|intros [|]; cbn; lra]|]. apply Forall_cons_1 in Fa as [Hv Ff]. destruct (IH Ff) as [IH1 IH2]; [intros w Hw; apply Ev; by right|].
    split; [constructor; [unfold zlen in *; by rewrite length_map|done]|]. intros [|k y]; cbn [map feval]; [lra|]. rewrite IH2, (veval_map 36 _ (/ 2)); [lra|].
    intros y' Hy. specialize (Ev v (or_introl eq_refl)). rewrite forallb_forall in Ev. apply Ev, Z.even_spec in Hy as [q ->]. replace (2 * q / 2) with q by (rewrite Z.mul_comm, Z.div_mul; lia). rewrite mult_IZR. lra. }
  destruct Hev as [H2 H3]. split; [split; [cbn; by rewrite length_map|done]|]. do 2 (split; [done|]). cbn [fst snd]. rewrite H3.
  assert (Hq : Z.abs (2 * Z.quot z 2 - z) <= 1) by lia. assert (Hd : a.2 <= 2 * (a.2 / 2) + 1) by lia.
  apply IZR_le in Hq, Hd. rewrite abs_IZR, minus_IZR, mult_IZR in Hq. rewrite plus_IZR, mult_IZR in Hd. rewrite plus_IZR. apply Rabs_le_inv in Hq, Hn. apply Rabs_le. lra.
Qed.

Lemma near_factor z a c m r : near x z a -> factor c = Some m -> reach vmag36 span36 a * Z.abs c <= 590295809000000000000 ->
  guard (fmul2 c m a.1, mul_err vmag36 span36 c a) = Some r -> near x (mul_arm z c) r.
Proof.
  intros Hn Hm Hc Hg. destruct (factor_spec c m Hm) as [Hr Hcl]. pose proof Hn as ((La & Fa) & _).
  destruct (feval_map 36 (2 * IZR (Z.sgn c) * C m) (fun v => map (Z.mul (Z.sgn c)) (vmul_from 36 m 0 v (zeros 36))) a.1 Fa) as [H1 H2].
  { intros v Hv. destruct (veval_vmul 36 m v 0 (zeros 36)) as [H1 H2]; [apply zeros_full, _|lia|lia|lia|]. split; [unfold zlen in *; by rewrite length_map|].
    rewrite (veval_map 36 _ (IZR (Z.sgn c))), H2 by (intros; apply mult_IZR). unfold zeros. rewrite veval_zeros. lra. }
  eapply (near_mul 36 vmag36 18 span36 x Hx _ c z a (fmul2 c m a.1)); [exact Hcl|exact Hc|exact Hn|split; [unfold fmul2; by rewrite length_map|exact H1]|apply H2|exact Hg].
Qed.

Lemma near_iops : iops_agree (near x) fixed_iops approx_iops.
Proof.
  constructor; cbn [fixed_iops approx_iops i_add i_sub i_neg i_mul i_twice i_half].
  - intros z a w c Ha Hc r Hr. destruct (near_comb 36 vmag36 18 span36 x Hx 1 z w a c r) as [E N]; [by left|done..|]. rewrite Z.mul_1_l in *. eauto.
  - intros z a w c Ha Hc r Hr. destruct (near_comb 36 vmag36 18 span36 x Hx (-1) z w a c r) as [E N]; [by right|done..|]. replace (z + -1 * w) with (z - w) in * by lia. eauto.
  - intros z a Ha r Hr. pose proof (near_negate z a r Ha Hr) as N. destruct (near_bound 36 vmag36 18 span36 x Hx _ _ N) as [_ Hb]. rewrite fits_32 by lia. eauto.
  - intros z a c Ha r Hr. destruct (factor c) as [m|] eqn:Hm; [|done]. cbn [obind] in Hr. destruct (Z.leb_spec (reach vmag36 span36 a * Z.abs c) 590295809000000000000) as [Hl|]; [|done].
    unfold mad_f_mul. rewrite Harm. eexists. split; [done|]. by apply (near_factor z a c m r).
  - intros z a Ha r Hr. destruct (near_comb 36 vmag36 18 span36 x Hx 1 z z a a r) as [E N]; [by left|done..|]. replace (z + 1 * z) with (2 * z) in * by lia. eauto.
  - intros z a Ha r Hr. destruct (halves a.1) as [f|] eqn:Hf; [|done]. eexists. split; [done|]. by apply (near_half z a f r).
Qed.
End Near.

(** ** The symbolic result *)

(** cos(pi/3 + t) + cos(pi/3 - t) = cos t removes the cosines of 24 to 35; the result is twice the combination. *)
Fixpoint normal_from (i : Z) (l w : list Z) : list Z :=
  match l with [] => w | x :: l => normal_from (i + 1) l (add_at (48 - i) (-2 * x) (add_at (i - 24) (2 * x) w)) end.
Definition normal (v : list Z) : list Z :=
  match drop 24 v with x :: l => normal_from 25 l (add_at 0 x (map (Z.mul 2) (take 24 v) ++ repeat 0 12)) | [] => [] end.
Definition vanishes (v : list Z) : bool := (length v =? 36)%nat && forallb (Z.eqb 0) (normal v).

Lemma C_third i : C i = (C (i - 24) - C (48 - i))%R.
Proof. pose proof (C_product 36 24 (i - 24)) as H. rewrite C_24 in H. replace (24 + (i - 24)) with i in H by lia. replace (24 - (i - 24)) with (48 - i) in H by lia. lra. Qed.

Lemma veval_app v : forall w j, veval_from 36 j (v ++ w) = (veval_from 36 j v + veval_from 36 (j + zlen v) w)%R.
Proof.
  induction v as [|x v IH]; intros w j; cbn [app veval_from]; [change (zlen []) with 0; rewrite Z.add_0_r; lra|]. rewrite IH, zlen_cons. replace (j + 1 + zlen v) with (j + (1 + zlen v)) by lia. lra.
Qed.

Lemma normal_from_value l : forall i w, full w -> 25 <= i -> i + zlen l <= 36 -> full (normal_from i l w) /\ veval (normal_from i l w) = (veval w + 2 * veval_from 36 i l)%R.
Proof.
  induction l as [|x l IH]; intros i w Hw Hi Hl; cbn [normal_from veval_from]; [split; [done|lra]|]. rewrite zlen_cons in Hl. pose proof (zlen_nonneg l).
  destruct (IH (i + 1) (add_at (48 - i) (-2 * x) (add_at (i - 24) (2 * x) w))) as [H1 H2]; [by rewrite !add_at_length|lia|lia|]. split; [done|].
  rewrite H2, !veval_add_at by (rewrite ?add_at_length; (done || lia)). rewrite !mult_IZR, (C_third i). lra.
Qed.

Lemma vanishes_value v : vanishes v = true -> veval v = 0%R.
Proof.
  unfold vanishes. rewrite andb_true_iff, Nat.eqb_eq. intros [Hl Hz]. assert (Hn : veval (normal v) = (2 * veval v)%R).
  { rewrite <- (take_drop 24 v) at 2. rewrite veval_app. unfold zlen. rewrite length_take_le by lia. unfold normal. pose proof (length_drop v 24) as Hd. rewrite Hl in Hd.
    destruct (drop 24 v) as [|x l]; [done|]. cbn in Hd. assert (Hf : full (map (Z.mul 2) (take 24 v) ++ repeat 0 12)) by (unfold zlen; rewrite length_app, length_map, length_take_le, repeat_length by lia; done).
    destruct (normal_from_value l 25 (add_at 0 x (map (Z.mul 2) (take 24 v) ++ repeat 0 12))) as [_ ->]; [by rewrite add_at_length|lia|unfold zlen; lia|].
    rewrite veval_add_at by (done || lia). rewrite veval_app, veval_zeros, (veval_map 36 _ 2) by (intros; apply mult_IZR). cbn [veval_from]. change (0 + Z.of_nat 24) with 24. change (24 + 1) with 25. rewrite C_0, C_24. lra. }
  assert (H0 : forall w j, forallb (Z.eqb 0) w = true -> veval_from 36 j w = 0%R).
  { induction w as [|y w IH]; intros j Hw; [done|]. cbn [forallb] in Hw. apply andb_true_iff in Hw as [<-%Z.eqb_eq Hw]. cbn [veval_from]. rewrite IH by done. lra. }
  rewrite H0 in Hn by done. lra.
Qed.

(** ** The transform of 18 lines *)

(** The sum of [X_k cos(pi/72 (2 i + 1 + 18) (2 k + 1))], from [k] on. *)
Fixpoint imdct_from (k i : Z) (X : list Z) : R :=
  match X with [] => 0%R | v :: X => (IZR v * cos (PI / 72 * IZR ((2 * i + 1 + 18) * (2 * k + 1))) + imdct_from (k + 1) i X)%R end.
Definition imdct (i : Z) (X : list Z) : R := imdct_from 0 i X.

Fixpoint imdct_form (n : nat) (k i : Z) : form :=
  match n with O => [] | S n => add_cos 36 (reduce 36 ((2 * i + 1 + 18) * (2 * k + 1))) 1024 (zeros 36) :: imdct_form n (k + 1) i end.
Lemma imdct_form_value i X : forall k, rows_full 36 (imdct_form (length X) k i) /\ feval 36 (imdct_form (length X) k i) X = (1024 * imdct_from k i X)%R.
Proof.
  induction X as [|v X IH]; intros k; cbn [length imdct_form feval imdct_from]; [split; [constructor|lra]|]. destruct (IH (k + 1)) as [H1 H2]. pose proof (zeros_full 36) as Hz.
  split; [constructor; [by rewrite add_cos_length|done]|]. rewrite H2, veval_add_cos, C_reduce by (apply _ || done || apply (reduce_range 36)). unfold zeros. rewrite veval_zeros. unfold MadCos.C. change (IZR (2 * 36)) with 72%R.
  replace (IZR ((2 * i + 1 + 18) * (2 * k + 1)) * PI / 72)%R with (PI / 72 * IZR ((2 * i + 1 + 18) * (2 * k + 1)))%R by lra. lra.
Qed.

Definition IMDCT_ERROR : Z := 1544.
Definition output_ok (i : Z) (a : approx) : bool :=
  (a.2 <=? IMDCT_ERROR * 1024) && (length a.1 =? 18)%nat && forallb vanishes (fcomb (-1) a.1 (imdct_form 18 0 i)).

Lemma imdct_symbolic : exists l, imdct36 approx_iops inputs = Some l /\ length l = 36%nat /\ forall i a, l !! i = Some a -> output_ok (Z.of_nat i) a = true.
Proof.
  assert (H : match imdct36 approx_iops inputs with
              | Some l => (length l =? 36)%nat && forallb (fun i => match l !! i with Some a => output_ok (Z.of_nat i) a | None => false end) (seq 0 36)
              | None => false end = true) by (vm_compute; reflexivity).
  destruct (imdct36 approx_iops inputs) as [l|]; [|discriminate H]. exists l. rewrite andb_true_iff, Nat.eqb_eq, forallb_forall in H. destruct H as [Hl H]. split; [done|]. split; [done|].
  intros i a Hi. specialize (H i). rewrite Hi in H. apply H, in_seq. apply lookup_lt_Some in Hi. lia.
Qed.

Lemma vanishes_form f : forall X, (forall v, In v f -> vanishes v = true) -> feval 36 f X = 0%R.
Proof.
  induction f as [|w f IH]; intros [|k X] Hf; cbn [feval]; [done..|]. rewrite (IH X (fun u Hu => Hf u (or_intror Hu))), (vanishes_value w (Hf w (or_introl eq_refl))). lra.
Qed.

Section Close.
Context `{T : Target} `{FP : Fpm} (Harm : fpm_arm = true).

Lemma imdct36_close X : length X = 18%nat -> norm1 X <= span36 ->
  exists y, imdct36 fixed_iops X = Some y /\ length y = 36%nat /\ forall i v, y !! i = Some v -> (Rabs (IZR v - imdct (Z.of_nat i) X) <= IZR IMDCT_ERROR)%R.
Proof.
  intros Hl Hn. destruct imdct_symbolic as (l & El & Hll & Hok). pose proof (near_inputs 36 vmag36 18 span36 X Hl eq_refl) as Hin.
  destruct (agree_imdct36 (near X) fixed_iops approx_iops (near_iops X Harm Hn) X inputs Hin l El) as (y & Ey & F). exists y. split; [done|]. split; [by rewrite (Forall2_length F)|].
  intros i v Hv. destruct (Forall2_lookup_l _ _ _ _ _ F Hv) as (a & Ha & (La & Fa) & _ & _ & Hnear). specialize (Hok i a Ha). unfold output_ok in Hok.
  rewrite !andb_true_iff, Z.leb_le, Nat.eqb_eq in Hok. destruct Hok as ((He & Hlen) & Hz). rewrite forallb_forall in Hz.
  destruct (imdct_form_value (Z.of_nat i) X 0) as [H1 H2]. rewrite Hl in H1, H2. pose proof (feval_fcomb 36 (-1) a.1 (imdct_form 18 0 (Z.of_nat i)) X ltac:(by rewrite Hlen) Fa H1) as H3.
  rewrite (vanishes_form _ X Hz), H2 in H3. apply IZR_le in He. rewrite mult_IZR in He. apply Rabs_le_inv in Hnear. fold (imdct (Z.of_nat i) X) in H3. apply Rabs_le. lra.
Qed.

Lemma imdct_norm i X : (Rabs (imdct i X) <= IZR (norm1 X))%R.
Proof.
  unfold imdct. generalize 0. induction X as [|v X IH]; intros k; cbn [imdct_from norm1]; [rewrite Rabs_R0; lra|].
  rewrite plus_IZR, abs_IZR. eapply Rle_trans; [apply Rabs_triang|]. apply Rplus_le_compat; [|apply IH]. rewrite Rabs_mult.
  assert (Rabs (cos (PI / 72 * IZR ((2 * i + 1 + 18) * (2 * k + 1)))) <= 1)%R by (apply Rabs_le, COS_bound). pose proof (Rabs_pos (IZR v)). nra.
Qed.

(** ** The windows *)

Definition win_l (i : Z) : R := sin (PI / 36 * (IZR i + 1 / 2)).
Definition win_s (i : Z) : R := sin (PI / 12 * (IZR i + 1 / 2)).
Definition window (block_type i : Z) : R :=
  if block_type =? 0 then win_l i
  else if block_type =? 1 then if i <? 18 then win_l i else if i <? 24 then 1%R else if i <? 30 then win_s (i - 18) else 0%R
  else if block_type =? 3 then if i <? 6 then 0%R else if i <? 12 then win_s (i - 6) else if i <? 18 then 1%R else win_l i
  else 1%R.

Lemma win_l_C i : win_l i = C (35 - 2 * i).
Proof. unfold win_l, MadCos.C. change (IZR (2 * 36)) with 72%R. rewrite <- sin_shift. f_equal. rewrite minus_IZR, mult_IZR. lra. Qed.
Lemma win_s_C i : win_s i = C (33 - 6 * i).
Proof. unfold win_s, MadCos.C. change (IZR (2 * 36)) with 72%R. rewrite <- sin_shift. f_equal. rewrite minus_IZR, mult_IZR. lra. Qed.

(** A table of cosines. *)
Definition table_close36 (tab : list Z) (angle : Z -> Z) : bool :=
  forallb (fun i => match zget tab i with Some w => (Z.abs w <=? 268435456) && close_to cos_bounds36 1 w (Z.abs (angle i)) && (1 <=? Z.abs (angle i)) && (Z.abs (angle i) <=? 35) | None => false end)
    (map Z.of_nat (seq 0 (length tab))).
Lemma table_close_spec tab angle i : table_close36 tab angle = true -> 0 <= i < zlen tab ->
  exists w, at_ tab i = Done w /\ Z.abs w <= 268435456 /\ (Rabs (IZR w - 268435456 * C (angle i)) <= 9 / 16)%R.
Proof.
  intros H Hi. unfold table_close36 in H. rewrite forallb_forall in H. specialize (H i ltac:(apply in_map_iff; exists (Z.to_nat i); rewrite in_seq; unfold zlen in Hi; lia)).
  unfold at_. destruct (zget tab i) as [w|]; [|done]. rewrite !andb_true_iff, !Z.leb_le in H. destruct H as (((Hw & Hc) & H1) & H2). exists w. split; [done|]. split; [done|].
  pose proof (close_to_spec 36 cos_bounds36 1 w _ ltac:(lia) (all_bounded36 (Z.abs (angle i)) ltac:(lia)) Hc) as H. by rewrite Rmult_1_l, C_abs in H.
Qed.
Lemma window_l_close i : 0 <= i < 36 -> exists w, at_ window_l i = Done w /\ Z.abs w <= 268435456 /\ (Rabs (IZR w - 268435456 * win_l i) <= 9 / 16)%R.
Proof. intros Hi. rewrite win_l_C. apply (table_close_spec window_l (fun i => 35 - 2 * i)); [vm_compute; reflexivity|done]. Qed.
Lemma window_s_close i : 0 <= i < 12 -> exists w, at_ window_s i = Done w /\ Z.abs w <= 268435456 /\ (Rabs (IZR w - 268435456 * win_s i) <= 9 / 16)%R.
Proof. intros Hi. rewrite win_s_C. apply (table_close_spec window_s (fun i => 33 - 6 * i)); [vm_compute; reflexivity|done]. Qed.

(** A product with a number of the table: [e] is how far the other factor is from [Y]. *)
Lemma product_close z w W Y e : (Rabs (IZR z) <= 536870912)%R -> Z.abs w <= 268435456 -> (Rabs (IZR w - 268435456 * W) <= 9 / 16)%R -> (Rabs W <= 1)%R ->
  (Rabs (IZR z - Y) <= e)%R -> (Rabs (IZR (mul_arm z w) - W * Y) <= e + 2)%R.
Proof.
  intros Hz Hw Hcl HW He. assert (Hz' : Z.abs z <= 536870912) by (apply le_IZR; by rewrite abs_IZR). assert (Hzw : Z.abs (z * w) <= 536870912 * 268435456) by (rewrite Z.abs_mul; apply Z.mul_le_mono_nonneg; lia).
  pose proof (mul_arm_error z w ltac:(lia)) as Hm. unfold MAD_F_ONE in Hm. set (m := mul_arm z w) in *. clearbody m.
  assert (Hm' : (Rabs (268435456 * IZR m - IZR z * IZR w) <= 134217728)%R) by (rewrite <- !mult_IZR, <- minus_IZR, <- abs_IZR; by apply IZR_le).
  apply Rabs_le_inv in Hm'. destruct (Rabs_mult_le (IZR z) (IZR w - 268435456 * W) 536870912 (9 / 16)) as [P1 P2]; [done|done|].
  destruct (Rabs_mult_le W (IZR z - Y) 1 e) as [P3 P4]; [done|done|]. apply Rabs_le. nra.
Qed.

Lemma windowed_close block_type i z Y : 0 <= i < 36 -> (Rabs Y <= 268435456)%R -> (Rabs (IZR z - Y) <= IZR IMDCT_ERROR)%R ->
  exists v, windowed block_type i z = Done v /\ (Rabs (IZR v - window block_type i * Y) <= IZR IMDCT_ERROR + 2)%R.
Proof.
  intros Hi HY Hz. assert (Hz' : (Rabs (IZR z) <= 536870912)%R) by (apply Rabs_le_inv in HY, Hz; unfold IMDCT_ERROR in Hz; apply Rabs_le; lra).
  assert (Hself : exists v, Done z = Done v /\ (Rabs (IZR v - 1 * Y) <= IZR IMDCT_ERROR + 2)%R) by (exists z; split; [done|]; apply Rabs_le_inv in Hz; apply Rabs_le; lra).
  assert (Hzero : exists v, Done 0 = Done v /\ (Rabs (IZR v - 0 * Y) <= IZR IMDCT_ERROR + 2)%R) by (exists 0; split; [done|]; unfold IMDCT_ERROR; apply Rabs_le; lra).
  assert (Hl : exists v, (let! w := at_ window_l i in rmul z w) = Done v /\ (Rabs (IZR v - win_l i * Y) <= IZR IMDCT_ERROR + 2)%R).
  { destruct (window_l_close i Hi) as (w & -> & Hw & Hcl). cbn [res_bind]. unfold rmul, mad_f_mul. rewrite Harm. eexists. split; [done|]. apply product_close; try done. rewrite win_l_C. apply C_one. }
  assert (Hs : forall k, 0 <= k < 12 -> exists v, (let! w := at_ window_s k in rmul z w) = Done v /\ (Rabs (IZR v - win_s k * Y) <= IZR IMDCT_ERROR + 2)%R).
  { intros k Hk. destruct (window_s_close k Hk) as (w & -> & Hw & Hcl). cbn [res_bind]. unfold rmul, mad_f_mul. rewrite Harm. eexists. split; [done|]. apply product_close; try done. rewrite win_s_C. apply C_one. }
  unfold windowed, window. cbv zeta. destruct (block_type =? 0); [done|]. destruct (block_type =? 1).
  { destruct (Z.ltb_spec i 18); [done|]. destruct (Z.ltb_spec i 24); [done|]. destruct (Z.ltb_spec i 30); [apply Hs; lia|done]. }
  destruct (block_type =? 3); [|done]. destruct (Z.ltb_spec i 6); [done|]. destruct (Z.ltb_spec i 12); [apply Hs; lia|]. by destruct (Z.ltb_spec i 18).
Qed.

Lemma rmapi_spec {A B} (f : Z -> A -> res B) (P : Z -> B -> Prop) l : forall i, (forall k x, l !! k = Some x -> exists y, f (i + Z.of_nat k) x = Done y /\ P (i + Z.of_nat k) y) ->
  exists r, rmapi f i l = Done r /\ length r = length l /\ forall k y, r !! k = Some y -> P (i + Z.of_nat k) y.
Proof.
  induction l as [|x l IH]; intros i Hf; cbn [rmapi]; [exists []; by repeat split|]. destruct (Hf 0%nat x eq_refl) as (y & Hy & Py). change (Z.of_nat 0) with 0 in *. rewrite Z.add_0_r in *. rewrite Hy. cbn [res_bind].
  destruct (IH (i + 1)) as (r & -> & Hl & Hr). { intros k z Hk. specialize (Hf (S k) z Hk). by replace (i + Z.of_nat (S k)) with (i + 1 + Z.of_nat k) in Hf by lia. }
  cbn [res_bind]. eexists. split; [done|]. split; [cbn; lia|]. intros [|k] z Hk; [injection Hk as <-; change (Z.of_nat 0) with 0; by rewrite Z.add_0_r|].
  specialize (Hr k z Hk). by replace (i + Z.of_nat (S k)) with (i + 1 + Z.of_nat k) by lia.
Qed.

Lemma III_imdct_l_close X block_type : length X = 18%nat -> norm1 X <= MAD_F_ONE ->
  exists z, III_imdct_l X block_type = Done z /\ length z = 36%nat /\
    forall i v, z !! i = Some v -> (Rabs (IZR v - window block_type (Z.of_nat i) * imdct (Z.of_nat i) X) <= 1546)%R.
Proof.
  intros Hl Hn. destruct (imdct36_close X Hl Hn) as (y & Ey & Hly & Hy). unfold III_imdct_l. rewrite Ey. cbn [res_opt res_bind].
  destruct (rmapi_spec (windowed block_type) (fun i v => (Rabs (IZR v - window block_type i * imdct i X) <= 1546)%R) y 0) as (z & Ez & Hlz & Hz).
  - intros i v Hv. rewrite Z.add_0_l. apply lookup_lt_Some in Hv as Hi. destruct (windowed_close block_type (Z.of_nat i) v (imdct (Z.of_nat i) X)) as (w & Ew & Hw); [lia| |by apply Hy|].
    { eapply Rle_trans; [apply imdct_norm|]. by apply (IZR_le _ 268435456). }
    exists w. split; [done|]. eapply Rle_trans; [exact Hw|]. unfold IMDCT_ERROR. lra.
  - exists z. split; [done|]. split; [lia|]. intros i v Hv. exact (Hz i v Hv).
Qed.

(** C19: The inverse transform of a long block is the IMDCT of the standard.  On the board, for 18 lines whose
    magnitudes add up to at most 1.0, no addition overflows, and each of the 36 values is within 1546 units of the last place, a fifth of the step of a 16-bit
    sample, of the window of the block type (sine, start or stop) times the sum of [X_k cos(pi/72 (2 i + 1 + 18) (2 k + 1))]. *)
Theorem III_imdct_l_accurate X block_type : length X = 18%nat -> norm1 X <= MAD_F_ONE ->
  exists z, III_imdct_l X block_type = Done z /\ length z = 36%nat /\
    forall i v, z !! i = Some v -> (Rabs (IZR v - window block_type (Z.of_nat i) * imdct (Z.of_nat i) X) <= 1546)%R.
Proof. apply III_imdct_l_close. Qed.
End Close.

(** ** Short blocks *)

Section Short.
Context `{T : Target} `{FP : Fpm} (Harm : fpm_arm = true).

(** The sum of [X_k cos(pi/24 (2 i + 1 + 6) (2 k + 1))], from [k] on. *)
Fixpoint simdct_from (k i : Z) (X : list Z) : R :=
  match X with [] => 0%R | v :: X => (IZR v * cos (PI / 24 * IZR ((2 * i + 1 + 6) * (2 * k + 1))) + simdct_from (k + 1) i X)%R end.
Definition simdct (i : Z) (X : list Z) : R := simdct_from 0 i X.

Definition angle (i k : Z) : Z := 3 * (2 * i + 7) * (2 * k + 1).
Lemma angle_C i k : cos (PI / 24 * IZR ((2 * i + 1 + 6) * (2 * k + 1))) = C (angle i k).
Proof.
  unfold MadCos.C, angle. change (IZR (2 * 36)) with 72%R. f_equal. replace (3 * (2 * i + 7) * (2 * k + 1)) with (3 * ((2 * i + 1 + 6) * (2 * k + 1))) by lia. rewrite (mult_IZR 3). lra.
Qed.

Lemma simdct_norm i X : (Rabs (simdct i X) <= IZR (norm1 X))%R.
Proof.
  unfold simdct. generalize 0. induction X as [|v X IH]; intros k; cbn [simdct_from norm1]; [rewrite Rabs_R0; lra|].
  rewrite plus_IZR, abs_IZR. eapply Rle_trans; [apply Rabs_triang|]. apply Rplus_le_compat; [|apply IH]. rewrite Rabs_mult, angle_C.
  pose proof (C_one 36 (angle i k)). pose proof (Rabs_pos (IZR v)). nra.
Qed.

(** The second half of each output mirrors the first. *)
Lemma simdct_mirror i X : simdct (5 - i) X = (- simdct i X)%R.
Proof.
  unfold simdct. generalize 0. induction X as [|v X IH]; intros k; cbn [simdct_from]; [lra|]. rewrite IH, !angle_C.
  replace (angle (5 - i) k) with (2 * 36 - angle i k + 4 * 36 * k) by (unfold angle; lia). rewrite (C_period 36), (C_mirror 36). lra.
Qed.
Lemma simdct_mirror_up i X : simdct (17 - i) X = simdct i X.
Proof.
  unfold simdct. generalize 0. induction X as [|v X IH]; intros k; cbn [simdct_from]; [lra|]. rewrite IH, !angle_C.
  replace (angle (17 - i) k) with (- angle i k + 4 * 36 * (2 * k + 1)) by (unfold angle; lia). by rewrite (C_period 36), C_opp.
Qed.

(** A constant of [imdct_s]. *)
Definition close_angle (c n : Z) : bool :=
  let m := Z.abs (reduce 36 n) in
  (Z.abs c <=? 268435456) && if m <? 36 then (1 <=? m) && close_to cos_bounds36 1 c m else (m <? 72) && (36 <? m) && close_to cos_bounds36 1 (- c) (72 - m).
Lemma close_angle_spec c n : close_angle c n = true -> Z.abs c <= 268435456 /\ (Rabs (IZR c - 268435456 * C n) <= 9 / 16)%R.
Proof.
  unfold close_angle. cbv zeta. set (m := Z.abs (reduce 36 n)). rewrite andb_true_iff, Z.leb_le. intros [Hc H]. split; [done|].
  assert (Em : C m = C n) by (unfold m; by rewrite C_abs, C_reduce). destruct (Z.ltb_spec m 36).
  - rewrite andb_true_iff, Z.leb_le in H. destruct H as [H1 H2]. pose proof (close_to_spec 36 cos_bounds36 1 c m ltac:(lia) (all_bounded36 m ltac:(lia)) H2) as H3. by rewrite Rmult_1_l, Em in H3.
  - rewrite !andb_true_iff, !Z.ltb_lt in H. destruct H as [[Hlt H1] H2]. pose proof (close_to_spec 36 cos_bounds36 1 (- c) (72 - m) ltac:(lia) (all_bounded36 (72 - m) ltac:(lia)) H2) as H3.
    change 72 with (2 * 36) in H3. rewrite Rmult_1_l, (C_mirror 36), Em, opp_IZR in H3. apply Rabs_le_inv in H3. apply Rabs_le. lra.
Qed.

(** [MAD_F_MLZ] rounds the accumulator like [mad_f_mul] rounds the product. *)
Lemma F_MLZ_rounds acc : F_MLZ acc = mul_arm acc 1.
Proof. unfold F_MLZ, mul_arm. by rewrite Harm, Z.mul_1_r. Qed.
Lemma F_MLZ_error acc : - 576460752303423488 <= acc < 576460752169205760 -> (Rabs (268435456 * IZR (F_MLZ acc) - IZR acc) <= 134217728)%R.
Proof.
  intros Ha. rewrite F_MLZ_rounds. pose proof (mul_arm_error acc 1 ltac:(lia)) as H. rewrite Z.mul_1_r in H. unfold MAD_F_ONE in H. rewrite <- mult_IZR, <- minus_IZR, <- abs_IZR. by apply IZR_le.
Qed.
Lemma F_MLA_exact acc x y : - 9223372036854775808 <= acc + x * y < 9223372036854775808 -> F_MLA acc x y = Done (acc + x * y).
Proof. intros H. unfold F_MLA, s64. rewrite Harm, Z.mod_small by lia. f_equal. lia. Qed.

(** The six products. *)
Fixpoint products (X s : list Z) : Z := match X, s with x :: X, c :: s => x * c + products X s | _, _ => 0 end.
Lemma products_bound X : forall s, Forall (fun c => Z.abs c <= 268435456) s -> Z.abs (products X s) <= norm1 X * 268435456.
Proof.
  induction X as [|x X IH]; intros [|c s] Hs; cbn [products norm1]; [lia..|pose proof (norm1_nonneg X); lia|]. apply Forall_cons_1 in Hs as [Hc Hs]. specialize (IH s Hs).
  assert (Z.abs (x * c) <= Z.abs x * 268435456) by (rewrite Z.abs_mul; apply Z.mul_le_mono_nonneg_l; lia). lia.
Qed.
Lemma dot_products X : forall s acc, Forall (fun c => Z.abs c <= 268435456) s -> Z.abs acc + norm1 X * 268435456 < 9223372036854775808 -> dot X s acc = Done (acc + products X s).
Proof.
  induction X as [|x X IH]; intros [|c s] acc Hs Hb; cbn [dot products norm1] in *; [by rewrite Z.add_0_r..|]. apply Forall_cons_1 in Hs as [Hc Hs]. pose proof (norm1_nonneg X).
  assert (Z.abs (x * c) <= Z.abs x * 268435456) by (rewrite Z.abs_mul; apply Z.mul_le_mono_nonneg_l; lia). rewrite F_MLA_exact by lia. cbn [res_bind].
  rewrite IH by (done || lia). f_equal. lia.
Qed.
Lemma short_line_products X s : X <> [] -> s <> [] -> Forall (fun c => Z.abs c <= 268435456) s -> norm1 X <= 268435456 -> short_line X s = Done (F_MLZ (products X s)).
Proof.
  intros HX Hs Hc Hn. destruct X as [|x X]; [done|]. destruct s as [|c s]; [done|]. cbn [short_line products norm1] in *. unfold F_ML0. rewrite Harm. cbn [res_bind].
  apply Forall_cons_1 in Hc as [Hc0 Hc]. pose proof (norm1_nonneg X). assert (Z.abs (x * c) <= Z.abs x * 268435456) by (rewrite Z.abs_mul; apply Z.mul_le_mono_nonneg_l; lia).
  rewrite dot_products by (done || lia). done.
Qed.

(** A row of [imdct_s] is the one for output [i]. *)
Fixpoint row_close (k i : Z) (s : list Z) : bool := match s with [] => true | c :: s => close_angle c (angle i k) && row_close (k + 1) i s end.
Lemma products_close i X : forall k s, length X = length s -> row_close k i s = true -> (Rabs (IZR (products X s) - 268435456 * simdct_from k i X) <= 9 / 16 * IZR (norm1 X))%R.
Proof.
  induction X as [|x X IH]; intros k [|c s] Hl H; try done; cbn [products simdct_from norm1 row_close] in *; [rewrite Rmult_0_r, Rminus_diag, Rabs_R0; lra|].
  apply andb_true_iff in H as [Hc H]. destruct (close_angle_spec _ _ Hc) as [_ Hcl]. injection Hl as Hl. specialize (IH (k + 1) s Hl H). rewrite angle_C, !plus_IZR, mult_IZR, abs_IZR.
  replace (IZR x * IZR c + IZR (products X s) - 268435456 * (IZR x * C (angle i k) + simdct_from (k + 1) i X))%R
    with (IZR x * (IZR c - 268435456 * C (angle i k)) + (IZR (products X s) - 268435456 * simdct_from (k + 1) i X))%R by lra.
  eapply Rle_trans; [apply Rabs_triang|]. rewrite Rabs_mult. pose proof (Rabs_pos (IZR x)). nra.
Qed.

Lemma short_line_close X s i : length X = 6%nat -> length s = 6%nat -> row_close 0 i s = true -> norm1 X <= 268435456 ->
  exists v, short_line X s = Done v /\ (Rabs (IZR v - simdct i X) <= 17 / 16)%R.
Proof.
  intros HX Hs Hr Hn. assert (Hc : Forall (fun c => Z.abs c <= 268435456) s).
  { clear - Hr. revert Hr. generalize 0. induction s as [|c s IH]; intros k Hr; [constructor|]. cbn in Hr. apply andb_true_iff in Hr as [H1 H2]. constructor; [by apply close_angle_spec in H1 as [H1 _]|by apply (IH (k + 1))]. }
  rewrite short_line_products; [|by destruct X|by destruct s|done|done]. eexists. split; [done|]. pose proof (products_bound X s Hc) as Hb. pose proof (F_MLZ_error (products X s) ltac:(lia)) as He.
  pose proof (products_close i X 0 s ltac:(lia) Hr) as Hp. fold (simdct i X) in Hp. apply IZR_le in Hn. apply Rabs_le_inv in He, Hp. apply Rabs_le. lra.
Qed.

(** ** One window *)

Definition short_ok (X y : list Z) : Prop := length y = 12%nat /\ forall i v, y !! i = Some v -> (Rabs (IZR v - simdct (Z.of_nat i) X) <= 17 / 16)%R.

Lemma imdct_s_rows : forall r s, imdct_s !! r = Some s -> length s = 6%nat /\ row_close 0 (Z.of_nat (r / 2) + if Nat.even r then 0 else 6) s = true.
Proof. intros r s. do 6 (destruct r as [|r]; [intros [= <-]; vm_compute; by split|]). done. Qed.

Lemma short_window_close X : length X = 6%nat -> norm1 X <= 268435456 -> exists y, short_window X = Done y /\ short_ok X y.
Proof.
  intros HX Hn. unfold short_window.
  destruct (rmapi_spec (fun _ s => short_line X s) (fun r v => (Rabs (IZR v - simdct (Z.of_nat (Z.to_nat r / 2) + if Nat.even (Z.to_nat r) then 0 else 6) X) <= 17 / 16)%R) imdct_s 0) as (l & -> & Hl & Hv).
  { intros r s Hr. destruct (imdct_s_rows r s Hr) as [Hs Hrow]. destruct (short_line_close X s _ HX Hs Hrow Hn) as (v & Hv & Hcl). exists v. split; [exact Hv|].
    by rewrite Z.add_0_l, Nat2Z.id. }
  cbn [res_bind]. change (length imdct_s) with 6%nat in Hl. destruct l as [|a0 [|b0 [|a1 [|b1 [|a2 [|b2 [|]]]]]]]; try done.
  pose proof (Hv 0%nat _ eq_refl) as V0. pose proof (Hv 1%nat _ eq_refl) as V1. pose proof (Hv 2%nat _ eq_refl) as V2. pose proof (Hv 3%nat _ eq_refl) as V3. pose proof (Hv 4%nat _ eq_refl) as V4. pose proof (Hv 5%nat _ eq_refl) as V5.
  cbn in V0, V1, V2, V3, V4, V5. clear Hv.
  assert (Hneg : forall a i, (Rabs (IZR a - simdct i X) <= 17 / 16)%R -> rfits (- a) = Done (- a) /\ (Rabs (IZR (- a) - simdct (5 - i) X) <= 17 / 16)%R).
  { intros a i Ha. pose proof (simdct_norm i X) as Hs. apply IZR_le in Hn. apply Rabs_le_inv in Ha, Hs. split.
    - unfold rfits. rewrite fits_32; [done|]. assert (- 268435458 <= a <= 268435458); [|lia]. split; apply le_IZR; lra.
    - rewrite simdct_mirror, opp_IZR. apply Rabs_le. lra. }
  destruct (Hneg a0 0 V0) as [-> N0]. destruct (Hneg a1 1 V2) as [-> N1]. destruct (Hneg a2 2 V4) as [-> N2]. cbn [res_bind]. eexists. split; [done|]. split; [done|].
  assert (Hup : forall b i, (Rabs (IZR b - simdct i X) <= 17 / 16)%R -> (Rabs (IZR b - simdct (17 - i) X) <= 17 / 16)%R) by (intros b i Hb; by rewrite simdct_mirror_up).
  intros i v Hi. do 12 (destruct i as [|i]; [injection Hi as <-; first [exact V0|exact V2|exact V4|exact N2|exact N1|exact N0|exact V1|exact V3|exact V5|exact (Hup b2 8 V5)|exact (Hup b1 7 V3)|exact (Hup b0 6 V1)]|]). done.
Qed.
End Short.

(** ** Three windows *)

Section Windows.
Context `{T : Target} `{FP : Fpm} (Harm : fpm_arm = true).

Lemma norm1_take n v : norm1 (take n v) <= norm1 v.
Proof. revert n. induction v as [|x v IH]; intros [|n]; cbn [take norm1]; [lia|lia|pose proof (norm1_nonneg v); lia|specialize (IH n); lia]. Qed.
Lemma norm1_drop n v : norm1 (drop n v) <= norm1 v.
Proof. revert n. induction v as [|x v IH]; intros [|n]; cbn [drop norm1]; [lia|lia|lia|specialize (IH n); lia]. Qed.

(** What a value of a window is: the product with the window, without rounding. *)
Lemma short_at X y i : short_ok X y -> norm1 X <= 268435456 -> 0 <= i < 12 -> exists v w, at_ y i = Done v /\ at_ window_s i = Done w /\ Z.abs v <= 268435458 /\ Z.abs w <= 268435456 /\
  (Rabs (IZR v - simdct i X) <= 17 / 16)%R /\ (Rabs (IZR w - 268435456 * win_s i) <= 9 / 16)%R.
Proof.
  intros [Hl Hy] Hn Hi. destruct (window_s_close i Hi) as (w & Ew & Hw & Hcl). destruct (zget_some y i) as [v Hv]; [unfold zlen; lia|]. apply zget_lookup in Hv as Hv'. specialize (Hy _ _ Hv'). rewrite Z2Nat.id in Hy by lia.
  exists v, w. unfold at_ at 1. rewrite Hv. split_and!; try done. pose proof (simdct_norm i X) as Hs. apply IZR_le in Hn. apply Rabs_le_inv in Hy, Hs. apply Z.abs_le. split; apply le_IZR; rewrite ?opp_IZR; lra.
Qed.

Lemma one_close X y i : short_ok X y -> norm1 X <= 268435456 -> 0 <= i < 12 ->
  exists v, (let! v := at_ y i in let! w := at_ window_s i in rmul v w) = Done v /\ (Rabs (IZR v - win_s i * simdct i X) <= 4)%R.
Proof.
  intros Hy Hn Hi. destruct (short_at X y i Hy Hn Hi) as (v & w & -> & -> & Hv & Hw & Hcv & Hcw). cbn [res_bind]. unfold rmul, mad_f_mul. rewrite Harm. eexists. split; [done|].
  eapply Rle_trans; [apply (product_close v w (win_s i) (simdct i X) (17 / 16)); try done|lra].
  - rewrite <- abs_IZR. apply IZR_le. lia.
  - rewrite win_s_C. apply C_one.
Qed.

Lemma two_close X X' y y' i : short_ok X y -> short_ok X' y' -> norm1 X <= 268435456 -> norm1 X' <= 268435456 -> 0 <= i < 6 ->
  exists v, (let! v := at_ y (i + 6) in let! w := at_ window_s (i + 6) in let! acc := F_ML0 v w in let! v := at_ y' i in let! w := at_ window_s i in
             let! acc := F_MLA acc v w in Done (F_MLZ acc)) = Done v /\
    (Rabs (IZR v - (win_s (i + 6) * simdct (i + 6) X + win_s i * simdct i X')) <= 4)%R.
Proof.
  intros Hy Hy' Hn Hn' Hi. destruct (short_at X y (i + 6) Hy Hn ltac:(lia)) as (v & w & -> & -> & Hv & Hw & Hcv & Hcw). destruct (short_at X' y' i Hy' Hn' ltac:(lia)) as (v' & w' & -> & -> & Hv' & Hw' & Hcv' & Hcw').
  cbn [res_bind]. unfold F_ML0. rewrite Harm. cbn [res_bind].
  assert (Hp : forall a b, Z.abs a <= 268435458 -> Z.abs b <= 268435456 -> Z.abs (a * b) <= 268435458 * 268435456) by (intros a b Ha Hb; rewrite Z.abs_mul; apply Z.mul_le_mono_nonneg; lia).
  pose proof (Hp v w Hv Hw) as B1. pose proof (Hp v' w' Hv' Hw') as B2. rewrite F_MLA_exact by (done || lia). cbn [res_bind]. eexists. split; [done|].
  pose proof (F_MLZ_error Harm (v * w + v' * w') ltac:(lia)) as He. rewrite plus_IZR, !mult_IZR in He.
  assert (Hone : forall a b (W Y : R), Z.abs a <= 268435458 -> (Rabs (IZR b - 268435456 * W) <= 9 / 16)%R -> (Rabs W <= 1)%R -> (Rabs (IZR a - Y) <= 17 / 16)%R ->
    (- 436207620 <= IZR a * IZR b - 268435456 * (W * Y) <= 436207620)%R).
  { intros a b W Y Ha Hb HW HY. apply IZR_le in Ha. rewrite abs_IZR in Ha. destruct (Rabs_mult_le (IZR a) (IZR b - 268435456 * W) 268435458 (9 / 16)) as [P1 P2]; [done|done|].
    destruct (Rabs_mult_le W (IZR a - Y) 1 (17 / 16)) as [P3 P4]; [done|done|]. nra. }
  assert (HC : forall k, (Rabs (win_s k) <= 1)%R) by (intros k; rewrite win_s_C; apply C_one).
  pose proof (Hone v w _ _ Hv Hcw (HC _) Hcv) as E1. pose proof (Hone v' w' _ _ Hv' Hcw' (HC _) Hcv') as E2. apply Rabs_le_inv in He. apply Rabs_le. lra.
Qed.

(** Output [j] of three transforms that overlap. *)
Definition overlapped (j : Z) (X : list Z) : R :=
  let one w := let i := j - 6 * w - 6 in if (0 <=? i) && (i <? 12) then (win_s i * simdct i (six X (6 * w)))%R else 0%R in
  (one 0%Z + one 1%Z + one 2%Z)%R.

Lemma part_spec f (P : Z -> Z -> Prop) : (forall i, 0 <= i < 6 -> exists v, f i = Done v /\ P i v) ->
  exists l, rmapi (fun _ i => f i) 0 [0; 1; 2; 3; 4; 5] = Done l /\ length l = 6%nat /\ forall i v, l !! i = Some v -> P (Z.of_nat i) v.
Proof.
  intros Hf. destruct (rmapi_spec (fun _ i => f i) P [0; 1; 2; 3; 4; 5] 0) as (l & E & Hl & Hp); [|eauto].
  intros k x Hk. rewrite Z.add_0_l. assert (x = Z.of_nat k) as -> by (do 6 (destruct k as [|k]; [by injection Hk as <-|]); done). apply lookup_lt_Some in Hk. cbn in Hk. apply Hf. lia.
Qed.

(** Which windows a value is in. *)
Lemma overlapped_at j i X : 0 <= i < 6 ->
  let one k w := (win_s k * simdct k (six X w))%R in
  (j = i \/ j = i + 30 -> overlapped j X = 0%R) /\
  (j = i + 6 -> overlapped j X = one i 0) /\
  (j = i + 12 -> overlapped j X = (one (i + 6)%Z 0%Z + one i 6%Z)%R) /\
  (j = i + 18 -> overlapped j X = (one (i + 6)%Z 6%Z + one i 12%Z)%R) /\
  (j = i + 24 -> overlapped j X = one (i + 6) 12).
Proof.
  intros Hi. unfold overlapped. cbv zeta. change (6 * 0) with 0. change (6 * 1) with 6. change (6 * 2) with 12.
  set (a := j - 0 - 6). set (b := j - 6 - 6). set (c := j - 12 - 6). assert (Ha : a = j - 6) by (unfold a; lia). assert (Hb : b = j - 12) by (unfold b; lia). assert (Hc : c = j - 18) by (unfold c; lia). clearbody a b c.
  destruct (Z.leb_spec 0 a), (Z.ltb_spec a 12), (Z.leb_spec 0 b), (Z.ltb_spec b 12), (Z.leb_spec 0 c), (Z.ltb_spec c 12); cbn [andb]; split_and!; intros Hj; try lia; try lra;
    repeat match goal with H : ?x = j - _ |- _ => first [replace x with i by lia | replace x with (i + 6) by lia]; clear H end; lra.
Qed.

Lemma III_imdct_s_close X : length X = 18%nat -> norm1 X <= MAD_F_ONE ->
  exists z, III_imdct_s X = Done z /\ length z = 36%nat /\ forall j v, z !! j = Some v -> (Rabs (IZR v - overlapped (Z.of_nat j) X) <= 4)%R.
Proof.
  intros Hl Hn. assert (Hsix : forall k, (k <= 12)%nat -> length (six X (Z.of_nat k)) = 6%nat /\ norm1 (six X (Z.of_nat k)) <= 268435456).
  { intros k Hk. unfold six. rewrite Nat2Z.id, length_take, length_drop, Hl. split; [lia|]. etransitivity; [apply norm1_take|]. etransitivity; [apply norm1_drop|exact Hn]. }
  destruct (Hsix 0%nat ltac:(lia)) as [L0 N0]. destruct (Hsix 6%nat ltac:(lia)) as [L1 N1]. destruct (Hsix 12%nat ltac:(lia)) as [L2 N2]. cbn [Z.of_nat] in *.
  unfold III_imdct_s. cbv zeta. change (Z.of_nat 6) with 6 in *. change (Z.of_nat 12) with 12 in *. change (Z.of_nat 0) with 0 in *.
  destruct (short_window_close Harm (six X 0) L0 N0) as (y0 & -> & K0). destruct (short_window_close Harm (six X 6) L1 N1) as (y1 & -> & K1). destruct (short_window_close Harm (six X 12) L2 N2) as (y2 & -> & K2). cbn [res_bind].
  destruct (part_spec (fun i => let! v := at_ y0 (i + 0) in let! w := at_ window_s (i + 0) in rmul v w) (fun i v => (Rabs (IZR v - win_s i * simdct i (six X 0)) <= 4)%R)) as (z1 & E1 & M1 & P1).
  { intros i Hi. rewrite Z.add_0_r. apply one_close; (done || lia). }
  destruct (part_spec _ _ (fun i => two_close (six X 0) (six X 6) y0 y1 i K0 K1 N0 N1)) as (z2 & E2 & M2 & P2).
  destruct (part_spec _ _ (fun i => two_close (six X 6) (six X 12) y1 y2 i K1 K2 N1 N2)) as (z3 & E3 & M3 & P3).
  destruct (part_spec (fun i => let! v := at_ y2 (i + 6) in let! w := at_ window_s (i + 6) in rmul v w) (fun i v => (Rabs (IZR v - win_s (i + 6) * simdct (i + 6) (six X 12)) <= 4)%R)) as (z4 & E4 & M4 & P4).
  { intros i Hi. apply one_close; (done || lia). }
  rewrite E1, E2, E3, E4. cbn [res_bind]. eexists. split; [done|]. split; [rewrite !length_app, !repeat_length; lia|].
  assert (Hzero : forall k w, repeat 0 6 !! k = Some w -> (Rabs (IZR w - 0) <= 4)%R).
  { intros k w Hk. apply list_elem_of_lookup_2, list_elem_of_In, repeat_spec in Hk as ->. rewrite Rminus_diag, Rabs_R0. lra. }
  intros j v Hj. rewrite !lookup_app_Some, !repeat_length, M1, M2, M3, M4 in Hj.
  destruct Hj as [Hj|[? [Hj|[? [Hj|[? [Hj|[? [Hj|[? Hj]]]]]]]]]]; pose proof (lookup_lt_Some _ _ _ Hj) as Hr; rewrite ?M1, ?M2, ?M3, ?M4, ?repeat_length in Hr;
    (match type of Hr with (?k < _)%nat => destruct (overlapped_at (Z.of_nat j) (Z.of_nat k) X ltac:(lia)) as (O0 & O1 & O2 & O3 & O4) end);
    [rewrite O0 by lia; by eapply Hzero | rewrite O1 by lia; by apply P1 | rewrite O2 by lia; by apply P2 | rewrite O3 by lia; by apply P3 | rewrite O4 by lia; by apply P4 | rewrite O0 by lia; by eapply Hzero].
Qed.

(** C20: The inverse transform of a short block is three overlapping IMDCTs of the standard.  On the board, for 18 lines whose
    magnitudes add up to at most 1.0, no accumulator overflows, and each of the 36 values is within 4 units of the last place of the sum over the three windows [w] of
    the sine window of twelve values, from place [6 w + 6] on, times the sum of [X_k cos(pi/24 (2 i + 1 + 6) (2 k + 1))] over the six lines of [w]. *)
Theorem III_imdct_s_accurate X : length X = 18%nat -> norm1 X <= MAD_F_ONE ->
  exists z, III_imdct_s X = Done z /\ length z = 36%nat /\ forall j v, z !! j = Some v -> (Rabs (IZR v - overlapped (Z.of_nat j) X) <= 4)%R.
Proof. apply III_imdct_s_close. Qed.
End Windows.

Section Witnesses.
#[local] Existing Instance stm32_target.
#[local] Instance arm36 : Fpm := {| fpm_arm := true |}.

Definition lines36 : list Z := map (fun k => 10000000 * Z.of_nat k) (seq 0 7) ++ repeat (-1000000) 11.

Lemma III_imdct_l_accurate_witness : exists z v, III_imdct_l lines36 1 = Done z /\ z !! 25%nat = Some v /\ (Rabs (IZR v - window 1 25 * imdct 25 lines36) <= 1546)%R.
Proof.
  destruct (III_imdct_l_accurate (FP := arm36) eq_refl lines36 1) as (z & E & Hl & H); [reflexivity|vm_compute; discriminate|].
  destruct (lookup_lt_is_Some_2 z 25) as [v Hv]; [rewrite Hl; repeat constructor|]. exists z, v. split; [exact E|]. split; [exact Hv|]. exact (H 25%nat v Hv).
Defined.

Lemma III_imdct_s_accurate_witness : exists z v, III_imdct_s lines36 = Done z /\ z !! 14%nat = Some v /\ (Rabs (IZR v - overlapped 14 lines36) <= 4)%R.
Proof.
  destruct (III_imdct_s_accurate (FP := arm36) eq_refl lines36) as (z & E & Hl & H); [reflexivity|vm_compute; discriminate|].
  destruct (lookup_lt_is_Some_2 z 14) as [v Hv]; [rewrite Hl; repeat constructor|]. exists z, v. split; [exact E|]. split; [exact Hv|]. exact (H 14%nat v Hv).
Defined.
End Witnesses.
