(* ===== verification/MadHybridProps.v ===== *)
(** * The hybrid filter bank of Layer III

    Every subband of a granule is transformed, overlapped with the second half of the granule before, and inverted in its
    odd samples when the subband is odd: the function [synthesize] of MadLayer3 in closed form. *)

From Stdlib Require Import Reals Lra.
From S2P Require Import Prelude MadFixed MadLayer12 MadLayer12Props MadSynth MadTables3 MadSide MadHuff MadHybrid MadLayer3 MadRun MadCos MadImdct.
Open Scope Z_scope.

(** ** Tables of samples *)

Definition nthz (l : list Z) (i : Z) : Z := default 0 (zget l i).
Definition cell2 (t : list (list Z)) (r s : Z) : option Z := obind (zget t r) (fun row => zget row s).
(** [n] rows of [m] numbers *)
Definition shape2 (n m : Z) (t : list (list Z)) : Prop := zlen t = n /\ Forall (fun row => zlen row = m) t.
Abbreviation sample_rows := (shape2 36 32).
Abbreviation overlap_rows := (shape2 32 18).

Lemma nthz_zget l i : 0 <= i < zlen l -> zget l i = Some (nthz l i).
Proof. intros Hi. unfold nthz. destruct (zget_some l i Hi) as [x ->]. done. Qed.

Lemma shape2_row n m t r : shape2 n m t -> 0 <= r < n -> exists row, zget t r = Some row /\ zlen row = m.
Proof.
  intros [Hn Hm] Hr. destruct (zget_some t r) as [row Hrow]; [lia|]. exists row. split; [done|]. apply zget_lookup in Hrow. by eapply Forall_lookup_1 in Hrow; [|exact Hm].
Qed.
Lemma cell2_some n m t r s : shape2 n m t -> 0 <= r < n -> 0 <= s < m -> exists v, cell2 t r s = Some v.
Proof. intros Ht Hr Hs. destruct (shape2_row _ _ _ _ Ht Hr) as (row & Hrow & Hl). unfold cell2. rewrite Hrow. apply zget_some. lia. Qed.

Lemma set_row n m t r row : shape2 n m t -> 0 <= r < n -> zlen row = m -> exists t', aset t r row = Done t' /\ shape2 n m t' /\
  forall i s, cell2 t' i s = if decide (i = r) then zget row s else cell2 t i s.
Proof.
  intros [Hn Hm] Hr Hrow. destruct (zset_in t r row) as (t' & Ht' & Hl); [lia|]. exists t'. unfold aset. rewrite Ht'. split; [done|]. split.
  - split; [unfold zlen in *; lia|]. by eapply zset_Forall.
  - intros i s. unfold cell2. rewrite (zget_zset _ _ i _ _ Ht'). destruct (decide (r = i)) as [->|Hne]; [by rewrite decide_True|]. rewrite decide_False by congruence. done.
Qed.

Lemma put_sample_ok rows base i sb v : sample_rows rows -> 0 <= base + i < 36 -> 0 <= sb < 32 -> exists rows', put_sample rows base i sb v = Done rows' /\ sample_rows rows' /\
  forall r s, cell2 rows' r s = if decide (r = base + i /\ s = sb) then Some v else cell2 rows r s.
Proof.
  intros Ht Hr Hs. destruct (shape2_row _ _ _ _ Ht Hr) as (row & Hrow & Hl). unfold put_sample, at_. rewrite Hrow. cbn [res_opt res_bind]. unfold aset at 1.
  destruct (zset_in row sb v) as (row' & Hrow' & Hl'); [lia|]. rewrite Hrow'. cbn [res_opt res_bind]. destruct (set_row _ _ rows (base + i) row' Ht Hr) as (rows' & E & Ht' & Hc); [unfold zlen in *; lia|].
  exists rows'. split; [done|]. split; [done|]. intros r s. rewrite Hc. destruct (decide (r = base + i)) as [->|Hne]; [|rewrite decide_False by tauto; done].
  rewrite (zget_zset _ _ s _ _ Hrow'). destruct (decide (sb = s)) as [->|Hne]; [by rewrite decide_True|]. rewrite decide_False by (intros [_ ?]; congruence). unfold cell2. by rewrite Hrow.
Qed.

(** One column of 18 samples, from row [base] on, is set. *)
Definition col_set (base sb : Z) (f : Z -> Z) (rows rows' : list (list Z)) : Prop :=
  sample_rows rows' /\ forall r s, cell2 rows' r s = if decide (base <= r < base + 18 /\ s = sb) then Some (f (r - base)) else cell2 rows r s.

Lemma col_set_trans base sb f g rows r1 r2 : col_set base sb f rows r1 -> col_set base sb g r1 r2 -> col_set base sb g rows r2.
Proof. intros [_ H1] [Hs H2]. split; [done|]. intros r s. rewrite H2. case_decide; [done|]. rewrite H1. by case_decide. Qed.
Lemma col_set_ext base sb f g rows rows' : (forall i, 0 <= i < 18 -> f i = g i) -> col_set base sb f rows rows' -> col_set base sb g rows rows'.
Proof. intros Hfg [Hs H]. split; [done|]. intros r s. rewrite H. case_decide as Hd; [|done]. by rewrite Hfg by lia. Qed.
Lemma col_set_get base sb f rows rows' i : col_set base sb f rows rows' -> 0 <= i < 18 -> cell2 rows' (base + i) sb = Some (f i).
Proof. intros [_ H] Hi. rewrite H, decide_True by lia. by replace (base + i - base) with i by lia. Qed.

Section Hybrid.
Context `{T : Target} `{FP : Fpm}.

(** ** Overlapping *)

Section Overlap.
Context (base sb : Z) (Hbase : base = 0 \/ base = 18) (Hsb : 0 <= sb < 32).

(** The first [k] samples are set, and so are the overlaps. *)
Definition overlap_inv (f tl : Z -> Z) (o : list Z) (rows : list (list Z)) (k : Z) (s : list Z * list (list Z)) : Prop :=
  zlen s.1 = 18 /\ sample_rows s.2 /\ (forall j, 0 <= j < 18 -> nthz s.1 j = if j <? k then tl j else nthz o j) /\
  forall r c, cell2 s.2 r c = if decide (base <= r < base + k /\ c = sb) then Some (f (r - base)) else cell2 rows r c.

Lemma overlap_loop body f tl o rows : zlen o = 18 -> sample_rows rows ->
  (forall i s, 0 <= i < 18 -> zlen s.1 = 18 -> nthz s.1 i = nthz o i -> body i s =
     let! rows := put_sample s.2 base i sb (f i) in let! overlap := aset s.1 i (tl i) in Done (overlap, rows)) ->
  exists o' rows', rfor 0 18 body (o, rows) = Done (o', rows') /\ col_set base sb f rows rows' /\ zlen o' = 18 /\ forall j, 0 <= j < 18 -> nthz o' j = tl j.
Proof.
  intros Ho Hrows Hbody. assert (H : yields (rfor 0 18 body (o, rows)) (overlap_inv f tl o rows (0 + Z.of_nat 18))).
  { apply (yields_rfor (overlap_inv f tl o rows)).
    - intros i [o1 rows1] Hi (Hl & Hs & Hov & Hc). cbn [fst snd] in *. rewrite Hbody by (done || lia || (cbn [fst]; rewrite Hov by lia; by rewrite (proj2 (Z.ltb_ge i i)) by lia)). cbn [fst snd].
      destruct (put_sample_ok rows1 base i sb (f i) Hs ltac:(lia) Hsb) as (rows2 & -> & Hs2 & Hc2). cbn [res_bind]. unfold aset. destruct (zset_in o1 i (tl i)) as (o2 & Ho2 & Hl2); [lia|]. rewrite Ho2. cbn [res_opt res_bind yields].
      split; [cbn [fst]; unfold zlen in *; lia|]. split; [done|]. cbn [fst snd]. split.
      + intros j Hj. unfold nthz. rewrite (zget_zset _ _ j _ _ Ho2). destruct (decide (i = j)) as [->|Hne]; [by rewrite (proj2 (Z.ltb_lt _ _)) by lia|]. fold (nthz o1 j). rewrite Hov by done.
        destruct (Z.ltb_spec j i), (Z.ltb_spec j (i + 1)); (done || lia).
      + intros r c. rewrite Hc2. destruct (decide (r = base + i /\ c = sb)) as [[-> ->]|Hne]; [rewrite decide_True by lia; by replace (base + i - base) with i by lia|].
        rewrite Hc. destruct (decide (base <= r < base + i /\ c = sb)) as [Hd|Hd]; [by rewrite decide_True by lia|]. rewrite decide_False by (intros [? ->]; lia). done.
    - split; [done|]. split; [done|]. split; [intros j Hj; by rewrite (proj2 (Z.ltb_ge _ _)) by lia|]. intros r c. by rewrite decide_False by lia. }
  apply yields_done in H as ([o' rows'] & E & Hl & Hs & Hov & Hc). exists o', rows'. split; [done|]. split; [by split|]. split; [done|].
  intros j Hj. cbn [fst] in Hov. rewrite Hov by done. by rewrite (proj2 (Z.ltb_lt _ _)) by lia.
Qed.

Lemma III_overlap_ok output o rows : zlen output = 36 -> zlen o = 18 -> sample_rows rows -> (forall i, 0 <= i < 18 -> - 2147483648 <= nthz output i + nthz o i < 2147483648) ->
  exists o' rows', III_overlap output base sb (o, rows) = Done (o', rows') /\ col_set base sb (fun i => nthz output i + nthz o i) rows rows' /\
    zlen o' = 18 /\ forall j, 0 <= j < 18 -> nthz o' j = nthz output (j + 18).
Proof.
  intros Hout Ho Hrows Hfit. apply (overlap_loop _ _ (fun j => nthz output (j + 18))); [done|done|]. intros i [o1 rows1] Hi Hl Hov. cbn [fst snd] in *.
  unfold at_. rewrite (nthz_zget output i), (nthz_zget o1 i), (nthz_zget output (i + 18)) by lia. cbn [res_opt res_bind]. rewrite Hov. unfold rfits. rewrite fits_32 by auto. done.
Qed.

Lemma III_overlap_z_ok o rows : zlen o = 18 -> sample_rows rows ->
  exists o' rows', III_overlap_z base sb (o, rows) = Done (o', rows') /\ col_set base sb (nthz o) rows rows' /\ zlen o' = 18 /\ forall j, 0 <= j < 18 -> nthz o' j = 0.
Proof.
  intros Ho Hrows. apply (overlap_loop _ _ (fun _ => 0)); [done|done|]. intros i [o1 rows1] Hi Hl Hov. cbn [fst snd] in *. unfold at_. rewrite (nthz_zget o1 i) by lia. cbn [res_opt res_bind]. by rewrite Hov.
Qed.

Definition flip (i v : Z) : Z := if Z.odd i then - v else v.

Lemma III_freqinver_ok rows f : sample_rows rows -> (forall i, 0 <= i < 18 -> cell2 rows (base + i) sb = Some (f i) /\ - 2147483647 <= f i <= 2147483647) ->
  exists rows', III_freqinver base sb rows = Done rows' /\ col_set base sb (fun i => flip i (f i)) rows rows'.
Proof.
  intros Hrows Hf.
  set (I := fun k rows1 => sample_rows rows1 /\ forall r c, cell2 rows1 r c = if decide (base <= r < base + 2 * k /\ c = sb) then Some (flip (r - base) (f (r - base))) else cell2 rows r c).
  assert (H : yields (III_freqinver base sb rows) (I (0 + Z.of_nat 9))).
  { apply (yields_rfor I).
    - intros k rows1 Hk (Hs & Hc). cbv zeta. destruct (Hf (2 * k + 1) ltac:(lia)) as [Hcell Hb]. assert (Hcell1 : cell2 rows1 (base + (2 * k + 1)) sb = Some (f (2 * k + 1))) by (rewrite Hc, decide_False by lia; done).
      unfold at_. unfold cell2 in Hcell1. destruct (zget rows1 (base + (2 * k + 1))) as [row|]; [|done]. cbn [obind res_opt res_bind] in *. rewrite Hcell1. cbn [res_opt res_bind]. unfold rfits. rewrite fits_32 by lia. cbn [res_opt res_bind].
      destruct (put_sample_ok rows1 base (2 * k + 1) sb (- f (2 * k + 1)) Hs ltac:(lia) Hsb) as (rows2 & -> & Hs2 & Hc2). split; [done|]. intros r c. rewrite Hc2.
      destruct (decide (r = base + (2 * k + 1) /\ c = sb)) as [[-> ->]|Hne].
      + rewrite decide_True by lia. replace (base + (2 * k + 1) - base) with (2 * k + 1) by lia. unfold flip. by rewrite Z.odd_add_mul_2 || (replace (Z.odd (2 * k + 1)) with true by (rewrite Z.add_comm, Z.odd_add_mul_2; done)).
      + rewrite Hc. destruct (decide (base <= r < base + 2 * k /\ c = sb)) as [Hd|Hd]; [by rewrite decide_True by lia|]. destruct (decide (base <= r < base + 2 * (k + 1) /\ c = sb)) as [[Hd2 ->]|]; [|done].
        assert (r = base + 2 * k) as -> by lia. destruct (Hf (2 * k) ltac:(lia)) as [-> _]. replace (base + 2 * k - base) with (2 * k) by lia. unfold flip. by rewrite Z.odd_mul.
    - split; [done|]. intros r c. by rewrite decide_False by lia. }
  apply yields_done in H as (rows' & E & Hs & Hc). exists rows'. split; [done|]. split; [done|]. exact Hc.
Qed.
End Overlap.
End Hybrid.

(** ** The transform of a subband *)

Section Subbands.
Context `{T : Target} `{FP : Fpm} (Harm : fpm_arm = true).

(** Short windows: in a short block, but not in the two lowest subbands of a mixed one; those have the normal window. *)
Definition short_subband (channel : channel_t) (sb : Z) : bool := (c_block_type channel =? 2) && (negb (on (c_flags channel) mixed_block_flag) || (2 <=? sb)).
Definition long_type (channel : channel_t) (sb : Z) : Z := if on (c_flags channel) mixed_block_flag && (sb <? 2) then 0 else c_block_type channel.
Definition transform (channel : channel_t) (sb : Z) (X : list Z) : res (list Z) :=
  if short_subband channel sb then III_imdct_s X else III_imdct_l X (long_type channel sb).
(** What the standard defines. *)
Definition hybrid (channel : channel_t) (sb i : Z) (X : list Z) : R :=
  if short_subband channel sb then overlapped i X else (window (long_type channel sb) i * imdct i X)%R.

Definition HYBRID_MAX : Z := 268435456 + 1546.

Lemma norm1_app v w : norm1 (v ++ w) = norm1 v + norm1 w.
Proof. induction v as [|x v IH]; cbn [app norm1]; lia. Qed.
Lemma window_one block_type i : (Rabs (window block_type i) <= 1)%R.
Proof.
  assert (H1 : (Rabs 1 <= 1)%R) by (rewrite Rabs_R1; lra). assert (H0 : (Rabs 0 <= 1)%R) by (rewrite Rabs_R0; lra).
  unfold window. repeat case_match; try done; rewrite ?win_l_C, ?win_s_C; apply C_one.
Qed.
Lemma Rabs_mult_one x y b : (Rabs x <= 1 -> Rabs y <= b -> Rabs (x * y) <= b)%R.
Proof. intros Hx Hy. rewrite Rabs_mult. pose proof (Rabs_pos x). pose proof (Rabs_pos y). nra. Qed.

Lemma hybrid_norm channel sb i X : length X = 18%nat -> (Rabs (hybrid channel sb i X) <= IZR (norm1 X))%R.
Proof.
  intros Hl. unfold hybrid. destruct (short_subband _ _); [|apply Rabs_mult_one; [apply window_one|apply imdct_norm]].
  assert (E : norm1 X = norm1 (six X 0) + norm1 (six X 6) + norm1 (six X 12)).
  { assert (EX : X = six X 0 ++ six X 6 ++ six X 12) by (do 18 (destruct X as [|? X]; [done|]); by destruct X). rewrite EX at 1. rewrite !norm1_app. lia. }
  rewrite E, !plus_IZR. unfold overlapped. cbv zeta. change (6 * 0) with 0. change (6 * 1) with 6. change (6 * 2) with 12.
  assert (H : forall k w, (Rabs (if ((0 <=? k) && (k <? 12))%Z then win_s k * simdct k (six X w) else 0) <= IZR (norm1 (six X w)))%R).
  { intros k w. destruct (_ && _); [apply Rabs_mult_one; [rewrite win_s_C; apply C_one|apply simdct_norm]|]. rewrite Rabs_R0. apply IZR_le, norm1_nonneg. }
  pose proof (H (i - 0 - 6) 0) as A0. pose proof (H (i - 6 - 6) 6) as A1. pose proof (H (i - 12 - 6) 12) as A2.
  eapply Rle_trans; [apply Rabs_triang|]. apply Rplus_le_compat; [|exact A2]. eapply Rle_trans; [apply Rabs_triang|]. by apply Rplus_le_compat.
Qed.

Lemma transform_ok channel sb X : length X = 18%nat -> norm1 X <= MAD_F_ONE ->
  exists z, transform channel sb X = Done z /\ zlen z = 36 /\ forall i, 0 <= i < 36 -> (Rabs (IZR (nthz z i) - hybrid channel sb i X) <= 1546)%R /\ Z.abs (nthz z i) <= HYBRID_MAX.
Proof.
  intros Hl Hn. assert (H : exists z, transform channel sb X = Done z /\ length z = 36%nat /\ forall i v, z !! i = Some v -> (Rabs (IZR v - hybrid channel sb (Z.of_nat i) X) <= 1546)%R).
  { unfold transform, hybrid. destruct (short_subband channel sb); [|by apply III_imdct_l_close].
    destruct (III_imdct_s_close Harm X Hl Hn) as (z & E & Hz & H). exists z. split; [done|]. split; [done|]. intros i v Hv. eapply Rle_trans; [by apply H|lra]. }
  destruct H as (z & E & Hz & H). exists z. split; [done|]. split; [unfold zlen; by rewrite Hz|]. intros i Hi.
  destruct (lookup_lt_is_Some_2 z (Z.to_nat i)) as [v Hv]; [lia|]. specialize (H _ _ Hv). rewrite Z2Nat.id in H by lia.
  assert (En : nthz z i = v) by (unfold nthz; replace i with (Z.of_nat (Z.to_nat i)) by lia; by rewrite zget_nat, Hv). rewrite En. split; [done|].
  pose proof (hybrid_norm channel sb i X Hl) as Hb. apply IZR_le in Hn. unfold MAD_F_ONE in Hn. apply Rabs_le_inv in H, Hb. unfold HYBRID_MAX. apply Z.abs_le. split; apply le_IZR; rewrite ?opp_IZR, plus_IZR; lra.
Qed.

(** Lines that are zero give zero. *)
Lemma hybrid_zero channel sb i X : length X = 18%nat -> norm1 X = 0 -> hybrid channel sb i X = 0%R.
Proof. intros Hl Hn. pose proof (hybrid_norm channel sb i X Hl) as H. rewrite Hn in H. apply Rabs_le_inv in H. lra. Qed.
End Subbands.

(** ** All subbands of a channel *)

(** The overlap and the samples of a channel. *)
Abbreviation over_t := (list (list Z) * list (list Z))%type.

Section Channel.
Context `{T : Target} `{FP : Fpm} (Harm : fpm_arm = true).
Context (channel : channel_t) (xr : list Z) (base : Z) (over0 rows0 : list (list Z)).

(** The 18 lines of a subband. *)
Definition lines (sb : Z) : list Z := take 18 (drop (Z.to_nat (18 * sb)) xr).
(** The second half of the granule before. *)
Definition old (sb i : Z) : Z := default 0 (cell2 over0 sb i).

Context (Hbase : base = 0 \/ base = 18) (Hxr : length xr = 576%nat) (Hloud : forall sb, 0 <= sb < 32 -> norm1 (lines sb) <= MAD_F_ONE).
Context (Hover : overlap_rows over0) (Hold : forall sb i, 0 <= sb < 32 -> 0 <= i < 18 -> Z.abs (old sb i) <= HYBRID_MAX).

Lemma lines_length sb : 0 <= sb < 32 -> length (lines sb) = 18%nat.
Proof. intros Hs. unfold lines. rewrite length_take, length_drop. lia. Qed.
Lemma eighteen_lines sb : 0 <= sb < 32 -> eighteen xr (18 * sb) = Done (lines sb).
Proof.
  intros Hs. unfold eighteen, bytes_from. change (18 =? 0) with false. cbv iota. unfold zlen. rewrite Hxr. rewrite (proj2 (Z.leb_le 0 (18 * sb))), (proj2 (Z.leb_le (18 * sb + 18) _)) by lia. done.
Qed.

(** Odd samples of odd subbands are negated. *)
Definition sign (sb i v : Z) : Z := if Z.odd sb then flip i v else v.
Lemma sign_range sb i v b : Z.abs v <= b -> Z.abs (sign sb i v) <= b.
Proof. unfold sign, flip. repeat case_match; lia. Qed.

(** [zs sb] is the transformed subband. *)
Definition transformed (sb : Z) (z : list Z) : Prop :=
  zlen z = 36 /\ forall i, 0 <= i < 36 -> (Rabs (IZR (nthz z i) - hybrid channel sb i (lines sb)) <= 1546)%R /\ Z.abs (nthz z i) <= HYBRID_MAX.
Definition sum_of (z : list Z) (sb i : Z) : Z := nthz z i + old sb i.
Lemma sum_range sb z i : transformed sb z -> 0 <= sb < 32 -> 0 <= i < 18 -> Z.abs (sum_of z sb i) <= 2 * HYBRID_MAX.
Proof. intros [_ Hz] Hs Hi. destruct (Hz i ltac:(lia)) as [_ H1]. specialize (Hold sb i Hs Hi). unfold sum_of. lia. Qed.

(** What the subbands below [k] have left: in the overlap, and, with the signs [sg], in the samples. *)
Definition over_upto (zs : Z -> list Z) (k : Z) (over : list (list Z)) : Prop :=
  overlap_rows over /\ forall sb i, 0 <= sb < 32 -> 0 <= i < 18 -> cell2 over sb i = if sb <? k then Some (nthz (zs sb) (i + 18)) else cell2 over0 sb i.
Definition rows_upto (sg : Z -> Z -> Z -> Z) (zs : Z -> list Z) (k : Z) (rows : list (list Z)) : Prop :=
  sample_rows rows /\ forall r sb, cell2 rows r sb = if decide (base <= r < base + 18 /\ 0 <= sb < k) then Some (sg sb (r - base) (sum_of (zs sb) sb (r - base))) else cell2 rows0 r sb.

Lemma rows_upto_step sg zs k rows rows' : 0 <= k -> rows_upto sg zs k rows -> col_set base k (fun i => sg k i (sum_of (zs k) k i)) rows rows' -> rows_upto sg zs (k + 1) rows'.
Proof.
  intros Hk [_ Hr] [Hs Hc]. split; [done|]. intros r sb. rewrite Hc, Hr. destruct (decide (base <= r < base + 18 /\ sb = k)) as [[Hd ->]|Hd]; [by rewrite decide_True by lia|].
  destruct (decide (base <= r < base + 18 /\ 0 <= sb < k)) as [Hd'|Hd']; [by rewrite decide_True by lia|]. rewrite decide_False by lia. done.
Qed.

(** One subband: an operation that overlaps its transform. *)
Lemma overlap_with_ok zs k f over rows : 0 <= k < 32 -> over_upto zs k over -> sample_rows rows ->
  (forall o rows, zlen o = 18 -> sample_rows rows -> (forall i, 0 <= i < 18 -> nthz o i = old k i) -> exists o' rows',
     f (o, rows) = Done (o', rows') /\ col_set base k (sum_of (zs k) k) rows rows' /\ zlen o' = 18 /\ forall j, 0 <= j < 18 -> nthz o' j = nthz (zs k) (j + 18)) ->
  exists over' rows', overlap_with k f (over, rows) = Done (over', rows') /\ over_upto zs (k + 1) over' /\ col_set base k (sum_of (zs k) k) rows rows'.
Proof.
  intros Hk [Ho Hc] Hrows Hf. unfold overlap_with. cbn [fst snd]. destruct (shape2_row _ _ _ _ Ho Hk) as (o & Eo & Hl). unfold at_. rewrite Eo. cbn [res_opt res_bind].
  destruct (Hf o rows Hl Hrows) as (o' & rows' & -> & Hcol & Hl' & Ho').
  { intros i Hi. specialize (Hc k i Hk Hi). rewrite (proj2 (Z.ltb_ge k k)) in Hc by lia. unfold old. rewrite <- Hc. unfold cell2. by rewrite Eo. }
  cbn [res_bind]. destruct (set_row _ _ over k o' Ho Hk Hl') as (over' & -> & Hs' & Hc'). cbn [res_bind]. exists over', rows'. split; [done|]. split; [|done]. split; [done|].
  intros sb i Hsb Hi. rewrite Hc'. destruct (decide (sb = k)) as [->|Hne]; [rewrite (proj2 (Z.ltb_lt _ _)) by lia; rewrite nthz_zget by lia; by rewrite Ho'|].
  rewrite Hc by done. destruct (Z.ltb_spec sb k), (Z.ltb_spec sb (k + 1)); (done || lia).
Qed.

Lemma invert_odd_ok zs k over rows rows' : 0 <= k < 32 -> transformed k (zs k) -> col_set base k (sum_of (zs k) k) rows rows' ->
  exists rows2, invert_odd base k (over, rows') = Done (over, rows2) /\ col_set base k (fun i => sign k i (sum_of (zs k) k i)) rows rows2.
Proof.
  intros Hk Hz Hcol. unfold invert_odd. assert (Eon : on k 1 = Z.odd k) by (unfold on; change 1 with (Z.ones 1); rewrite Z.land_ones by lia; change (2 ^ 1) with 2; rewrite Zmod_odd; by destruct (Z.odd k)).
  rewrite Eon. unfold sign. destruct (Z.odd k); [|by exists rows']. cbn [fst snd].
  destruct (III_freqinver_ok base k ltac:(done) Hk rows' (sum_of (zs k) k)) as (rows2 & -> & Hcol2); [apply Hcol| |].
  - intros i Hi. split; [by apply (col_set_get _ _ _ _ _ i Hcol)|]. pose proof (sum_range k (zs k) i Hz Hk Hi) as H. unfold HYBRID_MAX in H. lia.
  - exists rows2. split; [done|]. by apply (col_set_trans base k _ _ rows rows' rows2 Hcol).
Qed.

(** The operations of [synthesize] on a subband. *)
Lemma subband_ok zs k z over rows : 0 <= k < 32 -> over_upto zs k over -> sample_rows rows -> zs k = z -> transformed k z ->
  exists over' rows', overlap_with k (III_overlap z base k) (over, rows) = Done (over', rows') /\ over_upto zs (k + 1) over' /\ col_set base k (sum_of z k) rows rows'.
Proof.
  intros Hk Ho Hr <- Hz. apply overlap_with_ok; [done..|]. intros o rows1 Hl Hs Hold1.
  destruct (III_overlap_ok base k Hbase Hk (zs k) o rows1 (proj1 Hz) Hl Hs) as (o' & rows' & E & Hcol & Hl' & Ho').
  - intros i Hi. rewrite Hold1 by done. pose proof (sum_range k (zs k) i Hz Hk Hi) as H. unfold HYBRID_MAX, sum_of in H. lia.
  - exists o', rows'. split; [done|]. split; [|done]. apply (col_set_ext base k _ _ _ _ (fun i Hi => f_equal (Z.add (nthz (zs k) i)) (Hold1 i Hi)) Hcol).
Qed.

Definition silence : list Z := repeat 0 36.
Lemma nthz_silence i : nthz silence i = 0.
Proof. unfold nthz, zget. case_match; [done|]. destruct (silence !! Z.to_nat i) as [v|] eqn:E; [|done]. apply list_elem_of_lookup_2, list_elem_of_In, repeat_spec in E. done. Qed.
Lemma subband_zero_ok zs k over rows : 0 <= k < 32 -> over_upto zs k over -> sample_rows rows -> zs k = silence ->
  exists over' rows', overlap_with k (III_overlap_z base k) (over, rows) = Done (over', rows') /\ over_upto zs (k + 1) over' /\ col_set base k (sum_of (zs k) k) rows rows'.
Proof.
  intros Hk Ho Hr Ez. apply overlap_with_ok; [done..|]. intros o rows1 Hl Hs Hold1. destruct (III_overlap_z_ok base k Hbase Hk o rows1 Hl Hs) as (o' & rows' & E & Hcol & Hl' & Ho').
  exists o', rows'. split; [done|]. rewrite Ez. split; [|split; [done|]].
  - apply (col_set_ext base k (nthz o)); [|done]. intros i Hi. unfold sum_of. by rewrite nthz_silence, Hold1.
  - intros j Hj. by rewrite Ho', nthz_silence.
Qed.

(** ** Silent subbands *)

Lemma last_line_ok n : 36 + Z.of_nat n <= 576 -> exists i, last_line xr n = Done i /\ 36 <= i <= 36 + Z.of_nat n /\ forall j, i <= j < 36 + Z.of_nat n -> nthz xr j = 0.
Proof.
  induction n as [|n IH]; intros Hn; [exists 36; split; [done|]; split; [lia|]; intros j Hj; lia|]. cbn [last_line]. unfold at_. rewrite nthz_zget by (unfold zlen; lia). cbn [res_opt res_bind].
  destruct (Z.eqb_spec (nthz xr (36 + Z.of_nat n)) 0) as [E|E].
  - destruct IH as (i & -> & Hi & Hz); [lia|]. exists i. split; [done|]. split; [lia|]. intros j Hj. destruct (Z.eq_dec j (36 + Z.of_nat n)) as [->|]; [done|]. apply Hz. lia.
  - eexists. split; [done|]. split; [lia|]. intros j Hj. lia.
Qed.

Lemma norm1_zero l : (forall k v, l !! k = Some v -> v = 0) -> norm1 l = 0.
Proof. induction l as [|x l IH]; intros H; [done|]. cbn [norm1]. rewrite (H 0%nat x eq_refl), IH by (intros k v Hk; by apply (H (S k))). done. Qed.
Lemma lines_silent sb : 0 <= sb < 32 -> (forall j, 18 * sb <= j < 576 -> nthz xr j = 0) -> norm1 (lines sb) = 0.
Proof.
  intros Hs Hz. apply norm1_zero. intros k v Hk. unfold lines in Hk. apply lookup_take_Some in Hk as [Hk Hlt]. rewrite lookup_drop in Hk. specialize (Hz (18 * sb + Z.of_nat k) ltac:(lia)).
  unfold nthz in Hz. replace (18 * sb + Z.of_nat k) with (Z.of_nat (Z.to_nat (18 * sb) + k)) in Hz by lia. by rewrite zget_nat, Hk in Hz.
Qed.
Lemma silence_transformed sb : 0 <= sb < 32 -> norm1 (lines sb) = 0 -> transformed sb silence.
Proof.
  intros Hs Hn. split; [done|]. intros i Hi. rewrite nthz_silence, (hybrid_zero channel sb i (lines sb)) by (done || by apply lines_length). unfold HYBRID_MAX. rewrite Rminus_diag, Rabs_R0. split; [lra|done].
Qed.

(** ** The loops *)

Definition plain (sb i v : Z) : Z := v.
Definition upto (sg : Z -> Z -> Z -> Z) (zs : Z -> list Z) (k : Z) (s : over_t) : Prop := over_upto zs k s.1 /\ rows_upto sg zs k s.2.
Definition subband (sb : Z) (s : over_t) : res over_t :=
  let! X := eighteen xr (18 * sb) in let! z := transform channel sb X in overlap_with sb (III_overlap z base sb) s.

Lemma subband_step zs k s : 0 <= k < 32 -> transform channel k (lines k) = Done (zs k) -> transformed k (zs k) -> upto plain zs k s -> yields (subband k s) (upto plain zs (k + 1)).
Proof.
  intros Hk Hz Ht [Ho Hr]. unfold subband. rewrite eighteen_lines by done. cbn [res_bind]. rewrite Hz. cbn [res_bind]. destruct s as [over rows].
  destruct (subband_ok zs k (zs k) over rows Hk Ho (proj1 Hr) eq_refl Ht) as (over' & rows' & -> & Ho' & Hcol). split; [done|]. apply (rows_upto_step plain zs k rows); [lia|done|done].
Qed.

Lemma subband_sign_step zs k s (op : over_t -> res over_t) : 0 <= k < 32 -> transformed k (zs k) -> upto sign zs k s ->
  (exists over' rows', op s = Done (over', rows') /\ over_upto zs (k + 1) over' /\ col_set base k (sum_of (zs k) k) s.2 rows') ->
  yields (let! s := op s in invert_odd base k s) (upto sign zs (k + 1)).
Proof.
  intros Hk Ht [Ho Hr] (over' & rows' & -> & Ho' & Hcol). cbn [res_bind]. destruct (invert_odd_ok zs k over' s.2 rows' Hk Ht Hcol) as (rows2 & -> & Hcol2).
  split; [done|]. apply (rows_upto_step sign zs k s.2); [lia|done|done].
Qed.

Lemma invert_first zs s : upto plain zs 2 s -> transformed 1 (zs 1) -> exists rows', III_freqinver base 1 s.2 = Done rows' /\ upto sign zs 2 (s.1, rows').
Proof.
  intros [Ho Hr] Ht. assert (Hcell : forall i, 0 <= i < 18 -> cell2 s.2 (base + i) 1 = Some (sum_of (zs 1) 1 i)).
  { intros i Hi. destruct Hr as [_ Hr]. rewrite Hr, decide_True by lia. by replace (base + i - base) with i by lia. }
  destruct (III_freqinver_ok base 1 Hbase ltac:(lia) s.2 (sum_of (zs 1) 1) (proj1 Hr)) as (rows' & E & Hs & Hc).
  - intros i Hi. split; [by apply Hcell|]. pose proof (sum_range 1 (zs 1) i Ht ltac:(lia) Hi) as H. unfold HYBRID_MAX in H. lia.
  - exists rows'. split; [done|]. split; [done|]. split; [done|]. intros r sb. rewrite Hc. destruct Hr as [_ Hr]. destruct (decide (base <= r < base + 18 /\ sb = 1)) as [[Hd ->]|Hd]; [by rewrite decide_True by lia|].
    rewrite Hr. case_decide as Hd2; [|done]. assert (sb = 0) as -> by lia. done.
Qed.

(** What one granule of a channel leaves. *)
Definition granule_done (s : over_t) : Prop :=
  overlap_rows s.1 /\ sample_rows s.2 /\
  (forall sb i, 0 <= sb < 32 -> 0 <= i < 18 ->
     (exists v, cell2 s.2 (base + i) sb = Some v /\ (Rabs (IZR v - (if Z.odd sb && Z.odd i then -1 else 1) * (hybrid channel sb i (lines sb) + IZR (old sb i))) <= 1546)%R) /\
     (exists w, cell2 s.1 sb i = Some w /\ (Rabs (IZR w - hybrid channel sb (i + 18) (lines sb)) <= 1546)%R /\ Z.abs w <= HYBRID_MAX)) /\
  (forall r sb, ~ base <= r < base + 18 -> cell2 s.2 r sb = cell2 rows0 r sb).

Lemma upto_granule zs s : (forall sb, 0 <= sb < 32 -> transformed sb (zs sb)) -> upto sign zs 32 s -> granule_done s.
Proof.
  intros Hz [[Ho Hoc] [Hr Hrc]]. split; [done|]. split; [done|]. split; [|intros r sb Hr'; by rewrite Hrc, decide_False by lia].
  intros sb i Hsb Hi. destruct (Hz sb Hsb) as [_ Hi1]. split.
  - rewrite Hrc, decide_True by lia. replace (base + i - base) with i by lia. eexists. split; [done|]. destruct (Hi1 i ltac:(lia)) as [H _]. unfold sign, flip, sum_of.
    apply Rabs_le_inv in H. apply Rabs_le. destruct (Z.odd sb), (Z.odd i); cbn [andb]; rewrite ?opp_IZR, plus_IZR; lra.
  - rewrite Hoc, (proj2 (Z.ltb_lt sb 32)) by lia. eexists. split; [done|]. apply Hi1. lia.
Qed.
End Channel.

Section Synthesize.
Context `{T : Target} `{FP : Fpm} (Harm : fpm_arm = true).

(** The two lowest subbands and the others, as [synthesize] calls them. *)
Lemma first_subbands channel xr base sb s : sb = 0 \/ sb = 1 ->
  (if negb (c_block_type channel =? 2) || on (c_flags channel) mixed_block_flag
   then subband_l xr (if on (c_flags channel) mixed_block_flag then 0 else c_block_type channel) base sb s else subband_s xr base sb s) = subband channel xr base sb s.
Proof.
  intros Hsb. unfold subband, subband_l, subband_s, transform, short_subband, long_type. rewrite (proj2 (Z.leb_gt 2 sb)), (proj2 (Z.ltb_lt sb 2)), andb_true_r, orb_false_r by lia.
  destruct (c_block_type channel =? 2), (on (c_flags channel) mixed_block_flag); done.
Qed.
Lemma other_subbands channel xr base sb s : 2 <= sb ->
  (if c_block_type channel =? 2 then subband_s xr base sb else subband_l xr (c_block_type channel) base sb) s = subband channel xr base sb s.
Proof.
  intros Hsb. unfold subband, subband_l, subband_s, transform, short_subband, long_type. rewrite (proj2 (Z.leb_le 2 sb)), (proj2 (Z.ltb_ge sb 2)), andb_false_r, orb_true_r by lia.
  by destruct (c_block_type channel =? 2).
Qed.

Lemma rfor_ext {S} n : forall lo (f g : Z -> S -> res S) s, (forall i s, lo <= i < lo + Z.of_nat n -> f i s = g i s) -> rfor lo n f s = rfor lo n g s.
Proof.
  induction n as [|n IH]; intros lo f g s H; [done|]. cbn [rfor]. rewrite H by lia. destruct (g lo s); [|done..]. cbn [res_bind]. apply IH. intros i s1 Hi. apply H. lia.
Qed.

(** C17: [synthesize] is the hybrid filter bank of the standard.  On the board, for any block type and for mixed blocks, when the lines of no subband add up to more than 1.0 and the overlap is in range, the function ends
    without a fault.  Each sample [i] of subband [sb] is within 1546 units of the last place, a fifth of the step of a 16-bit sample, of what the standard defines: the windowed IMDCT of the 18 lines plus the overlap, negated when
    both [sb] and [i] are odd; the second half of the windowed IMDCT is left in the overlap, in range again; and the samples of the other granule are not touched.  Subbands behind the last line that is not zero, for which
    the code skips the transform, are no exception. *)
Theorem synthesize_hybrid channel xr base over rows : base = 0 \/ base = 18 -> length xr = 576%nat -> (forall sb, 0 <= sb < 32 -> norm1 (lines xr sb) <= MAD_F_ONE) ->
  overlap_rows over -> (forall sb i, 0 <= sb < 32 -> 0 <= i < 18 -> Z.abs (old over sb i) <= HYBRID_MAX) -> sample_rows rows ->
  exists s, synthesize channel xr base (over, rows) = Done s /\ granule_done channel xr base over rows s.
Proof.
  intros Hbase Hxr Hloud Hover Hold Hrows. destruct (last_line_ok xr Hxr 540) as (i & Ei & Hi & Hzero); [lia|]. set (sblimit := 32 - (576 - i) / 18). assert (Hlim : 2 <= sblimit <= 32 /\ i <= 18 * sblimit) by (unfold sblimit; lia).
  set (zs := fun sb => if sb <? sblimit then match transform channel sb (lines xr sb) with Done z => z | _ => [] end else silence).
  assert (Hlow : forall sb, 0 <= sb < sblimit -> transform channel sb (lines xr sb) = Done (zs sb) /\ transformed channel xr sb (zs sb)).
  { intros sb Hsb. unfold zs. rewrite (proj2 (Z.ltb_lt _ _)) by lia. destruct (transform_ok Harm channel sb (lines xr sb)) as (z & E & Hz); [apply lines_length; (done || lia)|apply Hloud; lia|]. rewrite E. by split. }
  assert (Hhigh : forall sb, sblimit <= sb < 32 -> zs sb = silence /\ transformed channel xr sb (zs sb)).
  { intros sb Hsb. unfold zs. rewrite (proj2 (Z.ltb_ge _ _)) by lia. split; [done|]. apply silence_transformed; [done|lia|]. apply lines_silent; [done|lia|]. intros j Hj. apply Hzero. lia. }
  assert (H0 : upto base over rows plain zs 0 (over, rows)).
  { split; (split; [done|]); [intros sb k Hsb Hk; by rewrite (proj2 (Z.ltb_ge sb 0)) by lia|intros r sb; by rewrite decide_False by lia]. }
  cut (yields (synthesize channel xr base (over, rows)) (granule_done channel xr base over rows)); [by intros (s & ? & ?)%yields_done; eauto|].
  unfold synthesize. cbv zeta. apply yields_bind. apply (yields_mono _ (upto base over rows plain zs 2)).
  2: { match goal with |- yields ?e _ => assert (Ef : e = rfor 0 2 (subband channel xr base) (over, rows)) end.
       { rewrite <- (rfor_ext 2 0 _ _ (over, rows) (fun sb s Hsb => first_subbands channel xr base sb s ltac:(lia))). by destruct (negb _ || _). }
       rewrite Ef. apply (yields_rfor (upto base over rows plain zs) 2 0); [|done]. intros k s Hk Hs. destruct (Hlow k ltac:(lia)) as [E Ht]. by apply subband_step; try (done || lia). }
  intros s1 H1. destruct (invert_first channel xr base over rows Hbase Hxr Hold zs s1 H1 (proj2 (Hlow 1 ltac:(lia)))) as (rows' & -> & H2). cbn [res_bind]. rewrite Ei. cbn [res_bind]. fold sblimit.
  apply yields_bind. apply (yields_mono _ (upto base over rows sign zs sblimit)).
  2: { replace sblimit with (2 + Z.of_nat (Z.to_nat (sblimit - 2))) at 2 by lia. apply yields_rfor; [|done]. intros k s Hk Hs. destruct (Hlow k ltac:(lia)) as [E Ht].
       rewrite other_subbands by lia. apply (subband_sign_step channel xr base over rows Hbase Hxr Hold zs k s); [lia|done|done|]. unfold subband. rewrite eighteen_lines by (done || lia). cbn [res_bind]. rewrite E. cbn [res_bind].
       destruct s as [o r]. apply (subband_ok channel xr base over Hbase Hxr Hold); [lia|apply Hs|apply Hs|done|done]. }
  intros s2 Hs2. apply (yields_mono _ (upto base over rows sign zs 32)).
  { intros s Hs. apply (upto_granule channel xr base over rows Hxr zs); [|done]. intros sb Hsb. destruct (Z_lt_ge_dec sb sblimit); [apply Hlow; lia|apply Hhigh; lia]. }
  replace 32 with (sblimit + Z.of_nat (Z.to_nat (32 - sblimit))) at 2 by lia. apply yields_rfor; [|done]. intros k s Hk Hs. destruct (Hhigh k ltac:(lia)) as [E Ht].
  apply (subband_sign_step channel xr base over rows Hbase Hxr Hold zs k s); [lia|done|done|]. destruct s as [o r]. apply (subband_zero_ok xr base over Hbase Hxr); [lia|apply Hs|apply Hs|done].
Qed.
End Synthesize.

(** A long block that begins after silence. *)
Section SynthesizeWitness.
#[local] Existing Instance stm32_target.
#[local] Instance arm_hybrid : Fpm := {| fpm_arm := true |}.

Definition hybrid_lines : list Z := [0; 50000000; -20000000] ++ repeat 0 20 ++ [1000000] ++ repeat 0 552.
Definition long_channel : channel_t := Channel 0 0 0 0 0 0 [] [] 0 0 [].

Lemma synthesize_hybrid_witness : exists s, synthesize long_channel hybrid_lines 18 (repeat (repeat 0 18) 32, repeat (repeat 7 32) 36) = Done s /\
  exists v, cell2 s.2 (18 + 3) 1 = Some v /\ (Rabs (IZR v - -1 * (hybrid long_channel 1 3 (lines hybrid_lines 1) + 0)) <= 1546)%R.
Proof.
  assert (Hshape : forall n m v, shape2 (Z.of_nat n) (Z.of_nat m) (repeat (repeat v m) n)) by (intros n m v; split; [apply zlen_repeat|apply Forall_forall; intros row ->%repeat_spec; apply zlen_repeat]).
  assert (Hold : forall sb i, 0 <= sb < 32 -> 0 <= i < 18 -> old (repeat (repeat 0 18) 32) sb i = 0).
  { intros sb i Hsb Hi. assert (H : forallb (fun sb => forallb (fun i => old (repeat (repeat 0 18) 32) sb i =? 0) (map Z.of_nat (seq 0 18))) (map Z.of_nat (seq 0 32)) = true) by (vm_compute; reflexivity).
    rewrite forallb_forall in H. specialize (H sb ltac:(apply in_map_iff; exists (Z.to_nat sb); rewrite in_seq; lia)). rewrite forallb_forall in H.
    specialize (H i ltac:(apply in_map_iff; exists (Z.to_nat i); rewrite in_seq; lia)). by apply Z.eqb_eq. }
  destruct (synthesize_hybrid (FP := arm_hybrid) eq_refl long_channel hybrid_lines 18 (repeat (repeat 0 18) 32) (repeat (repeat 7 32) 36)) as (s & E & Hd).
  - by right.
  - reflexivity.
  - intros sb Hsb. assert (H : forallb (fun sb => norm1 (lines hybrid_lines sb) <=? MAD_F_ONE) (map Z.of_nat (seq 0 32)) = true) by (vm_compute; reflexivity).
    rewrite forallb_forall in H. specialize (H sb ltac:(apply in_map_iff; exists (Z.to_nat sb); rewrite in_seq; lia)). by apply Z.leb_le.
  - apply (Hshape 32%nat 18%nat 0).
  - intros sb i Hsb Hi. rewrite Hold by done. done.
  - apply (Hshape 36%nat 32%nat 7).
  - exists s. split; [exact E|]. destruct Hd as (_ & _ & H & _). destruct (H 1 3 ltac:(lia) ltac:(lia)) as [(v & Hv & Hcl) _]. exists v. split; [exact Hv|].
    rewrite (Hold 1 3) in Hcl by lia. exact Hcl.
Defined.
End SynthesizeWitness.
