(* ===== verification/MadGranule.v ===== *)
(** * The channels of a granule: what the side information and the scalefactors provide

    The exponents of all bands, the regions and their tables are defined wherever the Huffman
    decoder reads them, so that it returns an error or 576 lines. *)

From S2P Require Import Prelude MadBit MadTimer MadStream MadFrame MadFrameProps MadFixed MadLayer12 MadLayer12Props MadHuffman MadTables3 MadSide MadHuff MadSynth MadHybrid MadLayer3 MadRun MadHuffProps MadHuffRef.

(** ** The tables of band widths *)

(** Three windows of the same width. *)
Fixpoint triples (ws : list Z) : bool :=
  match ws with [] => true | a :: b :: c :: ws => (0 <? a) && (a =? b) && (a =? c) && triples ws | _ => false end.
(** Long bands up to the line 36, then short ones. *)
Fixpoint mixed_from (ws : list Z) (l : Z) : bool :=
  if l <? 36 then match ws with [] => false | n :: ws => (2 <=? n) && mixed_from ws (l + n) end else (l =? 36) && triples ws.

Definition check_widths (ws : list Z) : bool := forallb (fun n => (0 <? n) && (n mod 2 =? 0)) ws && (lines_in ws =? 576).
Definition check_table (w : sfbwidths) : bool :=
  check_widths (sfb_l w) && check_widths (sfb_m w) && check_widths (sfb_s w) && triples (sfb_s w) && mixed_from (sfb_m w) 0 &&
  (zlen (sfb_l w) =? 22) && (zlen (sfb_m w) <=? 39) && (zlen (sfb_s w) =? 39).

Lemma sfbwidth_tables : forallb check_table sfbwidth_table = true.
Proof. vm_compute. reflexivity. Qed.

Lemma check_widths_ok ws : check_widths ws = true -> widths_ok ws.
Proof.
  intros [H1 H2]%andb_prop. split; [|by apply Z.eqb_eq]. rewrite forallb_forall in H1. apply Forall_forall. intros n Hn. specialize (H1 n Hn). lia.
Qed.

(** ** Exponents *)

(** The cells below [n] have a value. *)
Definition set_below (a : cells) (n : Z) : Prop := forall k, 0 <= k < n -> exists v, cget a k = Done v.

Lemma set_below_snoc a n v : zlen a >= n + 1 -> 0 <= n -> set_below a n -> set_below (<[Z.to_nat n := Some v]> a) (n + 1).
Proof.
  intros Hl Hn Ha k Hk. rewrite cget_insert by lia. destruct (Z.eqb_spec k n); [eauto|]. apply Ha. lia.
Qed.

Lemma set_below_le a n m : set_below a n -> m <= n -> set_below a m.
Proof. intros Ha Hm k Hk. apply Ha. lia. Qed.

Section Exponents.
Context (channel : channel_t).

(** The bands at the front of a mixed block. *)
Lemma bands_mixed (body : Z -> Z -> Z -> cells -> res cells) N ws : forall sfbi l s,
  mixed_from ws l = true -> 0 <= 2 * sfbi <= l -> set_below s sfbi -> zlen s = 39 -> sfbi + zlen ws = N ->
  (forall sfbi l n s, 0 <= sfbi < 18 -> sfbi < N -> set_below s sfbi -> zlen s = 39 -> yields (body sfbi l n s) (fun s => set_below s (sfbi + 1) /\ zlen s = 39)) ->
  yields (bands 36 ws sfbi l body s) (fun '(sfbi', l', rest, s') =>
    triples rest = true /\ l' + lines_in rest = l + lines_in ws /\ sfbi' + zlen rest = sfbi + zlen ws /\ sfbi <= sfbi' /\ set_below s' sfbi' /\ zlen s' = 39).
Proof.
  induction ws as [|n ws IH]; intros sfbi l s Hm H0 Hs Hl Hn Hb; cbn [bands mixed_from] in *.
  - destruct (Z.ltb_spec l 36); [done|]. apply andb_prop in Hm as [_ Ht]. cbn. split_and!; (done || lia).
  - destruct (Z.ltb_spec l 36).
    + apply andb_prop in Hm as [Hpos Hm]. rewrite zlen_cons in Hn. pose proof (zlen_nonneg ws). apply yields_bind.
      eapply yields_mono; [|apply (Hb sfbi l n s); (done || lia)]. intros s1 [Hs1 Hs1l]. cbn beta.
      eapply yields_mono; [|apply IH; (done || lia)]. intros [[[sfbi' l'] rest] s'] (A & B & C & D & E & F). rewrite zlen_cons. cbn [lines_in foldr]. fold (lines_in ws).
      split_and!; (done || lia).
    + apply andb_prop in Hm as [_ Ht]. cbn [yields]. split_and!; (done || lia).
Qed.

Lemma exponents_short_at scalefac mult gains ws : forall sfbi l e,
  triples ws = true -> l + lines_in ws = 576 -> 0 <= sfbi -> sfbi + zlen ws <= 39 -> zlen e = 39 -> set_below e sfbi -> set_below scalefac (sfbi + zlen ws) ->
  yields (exponents_short ws gains scalefac mult sfbi l e) (fun e => set_below e (sfbi + zlen ws)).
Proof.
  assert (H : forall n ws, (length ws <= n)%nat -> forall sfbi l e,
    triples ws = true -> l + lines_in ws = 576 -> 0 <= sfbi -> sfbi + zlen ws <= 39 -> zlen e = 39 -> set_below e sfbi -> set_below scalefac (sfbi + zlen ws) ->
    yields (exponents_short ws gains scalefac mult sfbi l e) (fun e => set_below e (sfbi + zlen ws))); [|by apply (H (length ws))].
  clear ws. induction n as [|n IH]; intros ws Hlen sfbi l e Ht Hl H0 Hn Hz He Hs.
  { destruct ws; [|cbn in Hlen; lia]. cbn in Hl |- *. rewrite (proj2 (Z.ltb_ge l 576)) by lia. cbn. by rewrite Z.add_0_r. }
  destruct ws as [|a ws]; [cbn in Hl |- *; rewrite (proj2 (Z.ltb_ge l 576)) by lia; cbn; by rewrite Z.add_0_r|].
  destruct ws as [|b [|c rest]]; [done|done|]. cbn [triples] in Ht. apply andb_prop in Ht as [[[Ha Hab]%andb_prop Hac]%andb_prop Ht].
  assert (b = a) as -> by lia. assert (c = a) as -> by lia. rewrite !zlen_cons in *. cbn [lines_in foldr] in Hl. fold (lines_in rest) in Hl. pose proof (zlen_nonneg rest).
  assert (Hrest : 0 <= lines_in rest).
  { clear -Ht. revert Ht. assert (H : forall n rest, (length rest <= n)%nat -> triples rest = true -> 0 <= lines_in rest); [|by apply (H (length rest))].
    clear. induction n as [|n IH]; intros rest Hlen Ht; [by destruct rest; [|cbn in Hlen; lia]|]. destruct rest as [|a [|b [|c rest]]]; try done.
    cbn [triples] in Ht. apply andb_prop in Ht as [[[Ha Hab]%andb_prop Hac]%andb_prop Ht]. cbn [lines_in foldr]. fold (lines_in rest). cbn in Hlen. specialize (IH rest ltac:(lia) Ht). lia. }
  cbn [exponents_short]. rewrite (proj2 (Z.ltb_lt l 576)) by lia. destruct gains as [[g0 g1] g2].
  destruct (Hs sfbi ltac:(lia)) as [s0 ->], (Hs (sfbi + 1) ltac:(lia)) as [s1 ->], (Hs (sfbi + 2) ltac:(lia)) as [s2 ->]. cbn [res_bind].
  rewrite cset_in by lia. cbn [res_bind]. rewrite cset_in by (rewrite zlen_insert; lia). cbn [res_bind]. rewrite cset_in by (rewrite !zlen_insert; lia). cbn [res_bind].
  replace (sfbi + (1 + (1 + (1 + zlen rest)))) with (sfbi + 3 + zlen rest) in * by lia. apply IH; try done.
  - cbn in Hlen. lia.
  - lia.
  - lia.
  - by rewrite !zlen_insert.
  - replace (sfbi + 3) with (sfbi + 1 + 1 + 1) by lia. replace (sfbi + 2) with (sfbi + 1 + 1) by lia.
    repeat (apply set_below_snoc; rewrite ?zlen_insert; [lia|lia|]). done.
Qed.
End Exponents.

Lemma table_checked w : In w sfbwidth_table -> check_table w = true.
Proof. intros Hw. pose proof sfbwidth_tables as H. rewrite forallb_forall in H. by apply H. Qed.

(** The widths the decoder uses are those of one of the three lists of a table. *)
Lemma channel_widths_ok w channel : In w sfbwidth_table -> let ws := channel_widths w channel in
  widths_ok ws /\ 0 < zlen ws <= 39 /\
  (if c_block_type channel =? 2 then (if on (c_flags channel) mixed_block_flag then mixed_from ws 0 = true else triples ws = true) else zlen ws = 22).
Proof.
  intros Hw ws. pose proof (table_checked w Hw) as H. unfold check_table in H.
  apply andb_prop in H as [[[[[[[A%check_widths_ok B%check_widths_ok]%andb_prop C%check_widths_ok]%andb_prop D]%andb_prop E]%andb_prop F]%andb_prop G]%andb_prop I].
  subst ws. unfold channel_widths. destruct (c_block_type channel =? 2); [destruct (on _ _)|]; split_and!; try done; try lia.
  destruct (sfb_m w); [by destruct B|]. rewrite zlen_cons. pose proof (zlen_nonneg l). lia.
Qed.

Lemma III_exponents_total w channel : In w sfbwidth_table -> set_below (c_scalefac channel) (zlen (channel_widths w channel)) ->
  (c_block_type channel = 2 -> set_below (c_subblock_gain channel) 3) ->
  yields (III_exponents channel (channel_widths w channel)) (fun e => set_below e (zlen (channel_widths w channel))).
Proof.
  intros Hw Hs Hg. destruct (channel_widths_ok w channel Hw) as ([_ Hsum] & Hlen & Hshape). set (ws := channel_widths w channel) in *. clearbody ws.
  unfold III_exponents. set (gain := gain_of channel). cbv zeta.
  set (long := exponent_long channel). assert (Hlong : forall sfbi e, 0 <= sfbi < 22 -> sfbi < zlen ws -> set_below e sfbi -> zlen e = 39 -> yields (long sfbi e) (fun e => set_below e (sfbi + 1) /\ zlen e = 39)).
  { intros sfbi e Hi Hz He Hl. subst long. unfold exponent_long. destruct (Hs sfbi ltac:(lia)) as [s ->]. cbn [res_bind].
    assert (Hp : yields (if on (c_flags channel) preflag then at_ pretab sfbi else Done 0) (fun _ => True)).
    { destruct (on (c_flags channel) preflag); [|exact I]. unfold at_. destruct (zget_some pretab sfbi) as [p ->]; [change (zlen pretab) with 22; lia|exact I]. }
    apply yields_done in Hp as (p & -> & _). cbn [res_bind]. rewrite cset_in by lia. cbn [yields]. split; [|by rewrite zlen_insert]. apply set_below_snoc; [lia|lia|done]. }
  clearbody long. destruct (Z.eqb_spec (c_block_type channel) 2) as [E2|E2].
  2: { rewrite Hshape. eapply yields_mono; [|apply (yields_rfor (fun k e => set_below e k /\ zlen e = 39))]; [by intros e [He _]| |].
       - intros k e Hk [He Hl]. apply Hlong; (done || lia).
       - split; [intros k Hk; lia|done]. }
  destruct (Hg E2 0) as [g0 H0]; [lia|]. destruct (Hg E2 1) as [g1 H1]; [lia|]. destruct (Hg E2 2) as [g2 H2]; [lia|].
  apply yields_bind. apply (yields_mono _ (fun '(sfbi', l', rest, s') =>
    triples rest = true /\ l' + lines_in rest = 576 /\ sfbi' + zlen rest = zlen ws /\ 0 <= sfbi' /\ set_below s' sfbi' /\ zlen s' = 39)).
  { intros [[[sfbi l] rest] s] (A & B & C & D & E & F). rewrite H0, H1, H2. cbn [res_bind].
    eapply yields_mono; [|apply exponents_short_at; rewrite ?C; (done || lia)]. by rewrite C. }
  destruct (on (c_flags channel) mixed_block_flag).
  - assert (Hb : yields (bands 36 ws 0 0 (fun sfbi _ _ => long sfbi) (undefined 39)) (fun '(sfbi', l', rest, s') =>
      triples rest = true /\ l' + lines_in rest = 0 + lines_in ws /\ sfbi' + zlen rest = 0 + zlen ws /\ 0 <= sfbi' /\ set_below s' sfbi' /\ zlen s' = 39)).
    { apply (bands_mixed _ (zlen ws)); try done; try lia; [intros k Hk; lia|]. intros sfbi l n s Hi Hn Hset Hz. apply Hlong; (done || lia). }
    eapply yields_mono; [|exact Hb]. intros [[[sfbi l] rest] s]. by rewrite Hsum, !Z.add_0_l.
  - cbn [yields]. split_and!; (done || lia || (intros k Hk; lia)).
Qed.

(** ** Reading *)

Section Read.
Context `{T : Target} (buf : list Z).

(** A field, which may be empty. *)
Lemma yields_read ptr p n (Q : Z * mad_bitptr -> Prop) : at_bit buf ptr p -> 0 <= n <= 32 -> p + Z.max n 1 <= 8 * zlen buf ->
  (forall v ptr', v = bits_val buf p (Z.to_nat n) -> 0 <= v < 2 ^ n -> at_bit buf ptr' (p + n) -> Q (v, ptr')) -> yields (bit_read buf ptr n) Q.
Proof.
  intros Hp Hn Hl HQ. destruct (Z.eq_dec n 0) as [-> |Hne].
  - rewrite Z.add_0_r in HQ. assert (H : exists ptr', mad_bit_read buf ptr 0 = Some (0, ptr') /\ at_bit buf ptr' p).
    2: { destruct H as (ptr' & E & Hp'). unfold bit_read. rewrite E. cbn [res_opt yields]. apply HQ; [done|lia|done]. }
    destruct Hp as [(Hb & Hlft & Hc) Hp]. unfold bp_pos in Hp. unfold mad_bit_read.
    assert (Hcache : (if bp_left ptr =? CHAR_BIT then load buf (bp_byte ptr) else Some (bp_cache ptr)) = Some (byte_at buf (bp_byte ptr))).
    { unfold CHAR_BIT. destruct (Z.eqb_spec (bp_left ptr) 8); [apply load_byte; lia|]. f_equal. apply Hc. lia. }
    rewrite Hcache. cbv zeta. destruct (Z.ltb_spec 0 (bp_left ptr)).
    + eexists. rewrite Z.sub_0_r, rest_all by lia. pose proof (bits_val_range buf (8 * bp_byte ptr + 8 - bp_left ptr) (Z.to_nat (bp_left ptr))) as Hr. rewrite Z2Nat.id in Hr by lia.
      rewrite Z.shiftr_div_pow2, Z.div_small by lia. split; [done|]. unfold at_bit, bp_ok, bp_pos. cbn [bp_byte bp_left bp_cache]. split_and!; (done || lia).
    + assert (bp_left ptr = 0) as Hz by lia. rewrite Hz. cbn. rewrite Z.land_0_r. eexists. split; [done|].
      unfold at_bit, bp_ok, bp_pos, CHAR_BIT. cbn [bp_byte bp_left bp_cache]. split_and!; (done || lia).
  - destruct (bit_read_at buf ptr p n Hp ltac:(lia) ltac:(lia)) as (ptr' & -> & Hp'). pose proof (bits_val_range buf p (Z.to_nat n)) as Hr. rewrite Z2Nat.id in Hr by lia.
    cbn [yields]. by apply HQ.
Qed.

(** Cells that are read. *)
Definition cells_read (a a' : cells) (lo n len : Z) : Prop :=
  zlen a' = zlen a /\ (forall k, lo <= k < lo + n -> exists v, cget a' k = Done v /\ 0 <= v < 2 ^ len) /\ (forall k, ~ (lo <= k < lo + n) -> cget a' k = cget a k).

Lemma read_cells_at a ptr p lo n len : at_bit buf ptr p -> 0 <= len <= 32 -> p + Z.of_nat n * len + 1 <= 8 * zlen buf -> 0 <= lo -> lo + Z.of_nat n <= zlen a ->
  yields (read_cells buf lo n len (a, ptr)) (fun s => cells_read a s.1 lo (Z.of_nat n) len /\ at_bit buf s.2 (p + Z.of_nat n * len)).
Proof.
  intros Hp Hlen Hl Hlo Hn. unfold read_cells.
  eapply yields_mono; [|apply (yields_rfor (fun i s => cells_read a s.1 lo (i - lo) len /\ at_bit buf s.2 (p + (i - lo) * len)))].
  - intros s. by replace (lo + Z.of_nat n - lo) with (Z.of_nat n) by lia.
  - intros i s Hi [(Hz & Hset & Hkeep) Hp1]. cbn beta.
    assert (Hmul : (i - lo) * len + len <= Z.of_nat n * len) by (replace ((i - lo) * len + len) with ((i - lo + 1) * len) by ring; apply Z.mul_le_mono_nonneg_r; lia).
    assert (0 <= (i - lo) * len) by (apply Z.mul_nonneg_nonneg; lia).
    apply yields_bind, (yields_read _ _ _ _ Hp1); [lia|lia|]. intros v ptr' _ Hv Hp2. cbn beta iota. rewrite cset_in by lia. cbn [res_bind yields fst snd].
    split; [|by replace (p + (i + 1 - lo) * len) with (p + (i - lo) * len + len) by ring]. split_and!; [by rewrite zlen_insert| |].
    + intros k Hk. rewrite cget_insert by lia. destruct (Z.eqb_spec k i); [by exists v|]. apply Hset. lia.
    + intros k Hk. rewrite cget_insert by lia. destruct (Z.eqb_spec k i); [lia|]. apply Hkeep. lia.
  - rewrite Z.sub_diag, Z.mul_0_l, Z.add_0_r. split; [|done]. split_and!; [done|lia|done].
Qed.
End Read.

(** ** Side information *)

(** A channel of the side information. *)
Record side_ok (lsf : bool) (c : channel_t) : Prop := {
  sd_length : 0 <= c_part2_3_length c < 4096;
  sd_big : 0 <= c_big_values c < 512;
  sd_compress : 0 <= c_scalefac_compress c < (if lsf then 512 else 16);
  sd_region : 0 <= c_region0_count c <= 63 /\ 0 <= c_region1_count c <= 63;
  sd_table01 r : 0 <= r <= 1 -> exists t, cget (c_table_select c) r = Done t /\ 0 <= t < 32;
  sd_table2 : 43 <= c_region0_count c + c_region1_count c \/ exists t, cget (c_table_select c) 2 = Done t /\ 0 <= t < 32;
  sd_gain : c_block_type c = 2 -> set_below (c_subblock_gain c) 3;
  sd_scalefac : zlen (c_scalefac c) = 39
}.

Lemma side_channel_ok lsf c n : side_ok lsf c -> n <= 39 -> channel_ok c n.
Proof.
  intros H Hn. constructor; [apply H|]. intros r Hr Hr2. destruct (Z.eq_dec r 2) as [-> |Hne].
  - specialize (Hr2 eq_refl). destruct (sd_table2 _ _ H) as [H2|H2]; [lia|done].
  - apply (sd_table01 _ _ H). lia.
Qed.

Lemma side_ok_flags lsf c f : side_ok lsf c -> side_ok lsf (set_c_flags f c).
Proof. by intros []. Qed.

Section Channel.
Context `{T : Target} (buf : list Z).

#[local] Ltac read_field :=
  match goal with H : at_bit buf ?ptr ?p |- yields (res_bind (bit_read buf ?ptr ?n) _) _ =>
    apply yields_bind, (yields_read buf ptr p n _ H); [lia|lia|];
    let v := fresh "v" in let ptr' := fresh "ptr" in let Hv := fresh "Hv" in let Hp := fresh "Hp" in intros v ptr' _ Hv Hp; cbn beta iota; clear H
  end.

Lemma III_channel_ok lsf scfsi result ptr p : at_bit buf ptr p -> p + 64 <= 8 * zlen buf -> (lsf = false -> exists v, scfsi = Done v) ->
  yields (III_channel buf lsf scfsi result ptr) (fun '(result', c, ptr') =>
    side_ok lsf c /\ at_bit buf ptr' (p + if lsf then 63 else 59) /\ (result' = 0 -> result = 0 /\ c_big_values c <= 288)).
Proof.
  intros Hp Hbuf Hscfsi. unfold III_channel. do 3 read_field. set (len := if lsf then 9 else 4). assert (Hlen : len = 9 \/ len = 4) by (subst len; destruct lsf; lia).
  read_field. assert (Hcomp : 0 <= v2 < (if lsf then 512 else 16)) by (subst len; destruct lsf; cbn in *; lia).
  set (result1 := if (288 <? v0) && (result =? 0) then MAD_ERROR_BADBIGVALUES else result).
  assert (Hresult1 : result1 = 0 -> result = 0 /\ v0 <= 288) by (subst result1; unfold MAD_ERROR_BADBIGVALUES; destruct (Z.ltb_spec 288 v0), (Z.eqb_spec result 0); cbn [andb]; lia).
  read_field. apply yields_bind.
  apply (yields_mono _ (fun '(result', c, ptr') => side_ok lsf c /\ at_bit buf ptr' (p + 12 + 9 + 8 + len + 1 + 22) /\ (result' = 0 -> result = 0 /\ c_big_values c <= 288))).
  { intros [[result' c] ptr8] (Hc & Hp8 & Hr). apply yields_bind, (yields_read buf ptr8 _ _ _ Hp8); [destruct lsf; lia|destruct lsf; lia|]. intros f ptr9 _ Hf Hp9. cbn beta iota.
    cbn [yields]. split_and!; [by apply side_ok_flags| |done]. revert Hp9. subst len. destruct lsf; intros Hp9.
    - by replace (p + 63) with (p + 12 + 9 + 8 + 9 + 1 + 22 + 2) by lia.
    - by replace (p + 59) with (p + 12 + 9 + 8 + 4 + 1 + 22 + 3) by lia. }
  destruct (negb (v3 =? 0)).
  - read_field. set (result2 := if (v4 =? 0) && (result1 =? 0) then MAD_ERROR_BADBLOCKTYPE else result1).
    assert (Hresult2 : result2 = 0 -> result1 = 0) by (subst result2; unfold MAD_ERROR_BADBLOCKTYPE; destruct ((v4 =? 0) && _); lia).
    apply yields_bind, (yields_mono _ (fun result3 => result3 = 0 -> result2 = 0)).
    2: { destruct (negb lsf && (v4 =? 2)) eqn:Hl; [|cbn [yields]; tauto]. destruct Hscfsi as [s ->]; [by destruct lsf|]. cbn [res_bind yields]. unfold MAD_ERROR_BADSCFSI. destruct (negb (s =? 0) && _); lia. }
    intros result3 Hresult3. read_field. apply yields_bind.
    eapply yields_mono; [|apply (read_cells_at buf (undefined 3) _ _ 0 2 5 Hp0); [lia|lia|lia|change (zlen (undefined 3)) with 3; lia]].
    intros [table ptrA] [(Hlt & Htab & _) HpA]. cbn [fst snd] in *. cbn beta iota. apply yields_bind.
    eapply yields_mono; [|apply (read_cells_at buf (undefined 3) _ _ 0 3 3 HpA); [lia|lia|lia|change (zlen (undefined 3)) with 3; lia]].
    intros [gain ptrB] [(Hlg & Hgain & _) HpB]. cbn [fst snd] in *. cbn beta iota. cbn [yields]. split_and!.
    + constructor; cbn [c_part2_3_length c_big_values c_scalefac_compress c_region0_count c_region1_count c_table_select c_subblock_gain c_block_type c_scalefac]; try lia; try done.
      * destruct ((v5 =? 0) && (v4 =? 2)); lia.
      * intros r Hr. apply Htab. lia.
      * left. destruct ((v5 =? 0) && (v4 =? 2)); lia.
      * intros _ k Hk. destruct (Hgain k) as (x & Hx & _); [lia|eauto].
    + by replace (p + 12 + 9 + 8 + len + 1 + 22) with (p + 12 + 9 + 8 + len + 1 + 2 + 1 + Z.of_nat 2 * 5 + Z.of_nat 3 * 3) by lia.
    + cbn [c_big_values]. auto.
  - apply yields_bind. eapply yields_mono; [|apply (read_cells_at buf (undefined 3) _ _ 0 3 5 Hp0); [lia|lia|lia|change (zlen (undefined 3)) with 3; lia]].
    intros [table ptrA] [(Hlt & Htab & _) HpA]. cbn [fst snd] in *. cbn beta iota. clear Hp0. do 2 read_field. cbn [yields]. split_and!.
    + constructor; cbn [c_part2_3_length c_big_values c_scalefac_compress c_region0_count c_region1_count c_table_select c_subblock_gain c_block_type c_scalefac]; try lia; try done.
      * intros r Hr. apply Htab. lia.
      * right. apply Htab. lia.
    + by replace (p + 12 + 9 + 8 + len + 1 + 22) with (p + 12 + 9 + 8 + len + 1 + Z.of_nat 3 * 5 + 4 + 3) by lia.
    + cbn [c_big_values]. auto.
Qed.
End Channel.

(** ** Scalefactors *)

Section Scalefactors.
Context `{T : Target} (buf : list Z).

Lemma bit_length_at b e p q : at_bit buf b p -> at_bit buf e q -> 0 <= q - p < 4294967296 -> mad_bit_length b e = q - p.
Proof.
  intros [_ Hb] [_ He] Hq. unfold bp_pos in *. unfold mad_bit_length, CHAR_BIT.
  replace (bp_left b + 8 * (bp_byte e - (bp_byte b + 1)) + (8 - bp_left e)) with (q - p) by lia. wraps. lia.
Qed.

(** The cells [lo], ..., behind those that are set. *)
Lemma cells_read_below a a' lo n len : cells_read a a' lo n len -> 0 <= n -> set_below a lo -> set_below a' (lo + n).
Proof.
  intros (_ & Hset & Hkeep) Hn Ha k Hk. destruct (Z_lt_le_dec k lo); [rewrite Hkeep by lia; apply Ha; lia|]. destruct (Hset k) as (v & Hv & _); [lia|eauto].
Qed.

Lemma zero_cells_at a lo n : 0 <= lo -> lo + Z.of_nat n <= zlen a -> set_below a lo ->
  yields (rfor lo n (fun i a => cset a i 0) a) (fun a' => zlen a' = zlen a /\ set_below a' (lo + Z.of_nat n)).
Proof.
  intros Hlo Hn Ha. apply (yields_rfor (fun i a' => zlen a' = zlen a /\ set_below a' i)); [|done].
  intros i s Hi [Hl Hs]. rewrite cset_in by lia. cbn [yields]. split; [by rewrite zlen_insert|]. apply set_below_snoc; (done || lia).
Qed.

Lemma scf_group_at scfsi bit gr0 a ptr p lo n len : at_bit buf ptr p -> 0 <= len <= 4 -> p + Z.of_nat n * 4 + 1 <= 8 * zlen buf -> 0 <= lo -> lo + Z.of_nat n <= zlen a ->
  set_below a lo -> (scfsi = 0 \/ set_below gr0 (lo + Z.of_nat n)) ->
  yields (scf_group buf scfsi bit gr0 lo n len (a, ptr)) (fun s => zlen s.1 = zlen a /\ set_below s.1 (lo + Z.of_nat n) /\ exists q, at_bit buf s.2 q /\ p <= q <= p + Z.of_nat n * 4).
Proof.
  intros Hp Hlen Hbuf Hlo Hn Ha Hg. unfold scf_group. destruct (on scfsi bit) eqn:Hon.
  - apply (yields_mono _ (fun s => (zlen s.1 = zlen a /\ set_below s.1 (lo + Z.of_nat n)) /\ s.2 = ptr)); [intros s [[H1 H2] ->]; split_and!; [done|done|exists p; split; [done|lia]]|].
    apply (yields_rfor (fun i s => (zlen s.1 = zlen a /\ set_below s.1 i) /\ s.2 = ptr)); [|done].
    destruct Hg as [-> |Hg]; [done|]. intros i s Hi [[Hl Hs] Hptr]. destruct (Hg i) as [v ->]; [lia|]. cbn [res_bind]. rewrite cset_in by lia. cbn [res_bind yields fst snd].
    split_and!; [by rewrite zlen_insert|apply set_below_snoc; (done || lia)|done].
  - assert (Hmul : 0 <= Z.of_nat n * len <= Z.of_nat n * 4) by nia.
    eapply yields_mono; [|apply (read_cells_at buf a ptr p lo n len Hp); lia]. intros s [Hc Hq]. pose proof Hc as (Hl & _).
    split_and!; [done|eapply cells_read_below; [done|lia|done]|]. eexists. split; [done|lia].
Qed.

Lemma sflen_small i : 0 <= i < 16 -> exists a b, zget sflen_table i = Some (a, b) /\ 0 <= a <= 4 /\ 0 <= b <= 3.
Proof.
  intros Hi. destruct (zget_some sflen_table i) as [[a b] H]; [by change (zlen sflen_table) with 16|]. exists a, b. split; [done|].
  assert (Hf : Forall (fun x : Z * Z => 0 <= x.1 <= 4 /\ 0 <= x.2 <= 3) sflen_table) by (repeat constructor; cbn; lia). apply (zget_Forall _ _ _ _ Hf H).
Qed.

(** The scalefactors that a channel of MPEG-1 has. *)
Definition scalefac_top (channel : channel_t) : Z := if c_block_type channel =? 2 then (if on (c_flags channel) mixed_block_flag then 38 else 39) else 22.

Lemma III_scalefactors_ok channel gr0 scfsi ptr p : side_ok false channel -> (scfsi = 0 \/ set_below (c_scalefac gr0) 21) -> at_bit buf ptr p -> p + 200 <= 8 * zlen buf ->
  yields (III_scalefactors buf channel gr0 scfsi ptr) (fun '(c, len, ptr') => exists a, c = set_c_scalefac a channel /\ zlen a = 39 /\
    set_below a (scalefac_top channel) /\ 0 <= len <= 200 /\ at_bit buf ptr' (p + len)).
Proof.
  intros Hc Hg Hp Hbuf. unfold III_scalefactors. destruct (sflen_small _ (sd_compress _ _ Hc)) as (slen1 & slen2 & Hs & H1 & H2). unfold at_. rewrite Hs. cbn [res_opt res_bind].
  pose proof (sd_scalefac _ _ Hc) as Hl. assert (Hg' : forall n, n <= 21 -> scfsi = 0 \/ set_below (c_scalefac gr0) n) by (intros n Hn; destruct Hg; [by left|right; by apply (set_below_le _ 21)]).
  set (top := scalefac_top channel). apply yields_bind.
  apply (yields_mono _ (fun s => zlen s.1 = 39 /\ set_below s.1 top /\ exists q, at_bit buf s.2 q /\ p <= q <= p + 200)).
  { intros [a ptr'] (Ha & Hset & q & Hq & Hpq). cbn [fst snd] in *. cbn [yields]. exists a. rewrite (bit_length_at ptr ptr' p q) by (done || lia).
    split_and!; try done; try lia. by replace (p + (q - p)) with q by lia. }
  subst top. unfold scalefac_top. assert (H0 : set_below (c_scalefac channel) 0) by (intros k Hk; lia). destruct (c_block_type channel =? 2).
  - set (nsfb := if on _ _ then 8 + 3 * 3 else 6 * 3). assert (Hn : (nsfb = 17 \/ nsfb = 18) /\ (if on (c_flags channel) mixed_block_flag then 38 else 39) = nsfb + 21) by (subst nsfb; destruct (on _ _); lia).
    destruct Hn as [Hn ->]. apply yields_bind. eapply yields_mono; [|apply (read_cells_at buf _ ptr p 0 (Z.to_nat nsfb) slen1 Hp); lia || nia].
    intros [a1 ptr1] [Hr1 Hp1]. cbn [fst snd] in *. pose proof Hr1 as (Hl1 & _). apply (cells_read_below _ _ _ _ _ Hr1) in H0; [|lia]. apply yields_bind.
    eapply yields_mono; [|apply (read_cells_at buf a1 ptr1 _ nsfb 18 slen2 Hp1); lia || nia].
    intros [a2 ptr2] [Hr2 Hp2]. cbn [fst snd] in *. pose proof Hr2 as (Hl2 & _). rewrite Z.add_0_l, Z2Nat.id in H0 by lia. apply (cells_read_below _ _ _ _ _ Hr2) in H0; [|lia]. cbn beta iota.
    apply yields_bind. eapply yields_mono; [|apply zero_cells_at; [lia|lia|exact H0]]. intros a3 [Hl3 H3]. cbn [yields fst snd].
    split_and!; [lia|by replace (nsfb + 21) with (nsfb + 18 + Z.of_nat 3) by lia|]. eexists. split; [done|nia].
  - apply yields_bind. eapply yields_mono; [|apply (scf_group_at scfsi 8 (c_scalefac gr0) (c_scalefac channel) ptr p 0 6 slen1); try done; try lia; apply Hg'; lia].
    intros [a1 ptr1] (Hl1 & S1 & q1 & Hp1 & Hq1). cbn [fst snd] in *. apply yields_bind.
    eapply yields_mono; [|apply (scf_group_at scfsi 4 (c_scalefac gr0) a1 ptr1 q1 6 5 slen1); try done; try lia; apply Hg'; lia].
    intros [a2 ptr2] (Hl2 & S2 & q2 & Hp2 & Hq2). cbn [fst snd] in *. apply yields_bind.
    eapply yields_mono; [|apply (scf_group_at scfsi 2 (c_scalefac gr0) a2 ptr2 q2 11 5 slen2); try done; try lia; apply Hg'; lia].
    intros [a3 ptr3] (Hl3 & S3 & q3 & Hp3 & Hq3). cbn [fst snd] in *. apply yields_bind.
    eapply yields_mono; [|apply (scf_group_at scfsi 1 (c_scalefac gr0) a3 ptr3 q3 16 5 slen2); try done; try lia; apply Hg'; lia].
    intros [a4 ptr4] (Hl4 & S4 & q4 & Hp4 & Hq4). cbn [fst snd] in *. cbn beta iota. rewrite cset_in by lia. cbn [res_bind yields fst snd].
    split_and!; [rewrite zlen_insert; lia|apply (set_below_snoc a4 21); (done || lia)|]. exists q4. split; [done|lia].
Qed.
End Scalefactors.

(** The lengths and the row of [nsfb_table]: four parts, 39 scalefactors at most, of up to five bits. *)
Definition small_counts (l : list Z) : bool := match l with [a; b; c; d] => forallb (fun n => 0 <=? n) l && (a + b + c + d <=? 39) | _ => false end.
Definition small_lengths (l : list Z) : bool := (zlen l =? 4) && forallb (fun n => in_range n 6) l.
Definition lsf_row (slen : list Z) (row : Z) : bool :=
  small_lengths slen && match zget nsfb_table row with Some rows => forallb (fun bi => if zget rows bi is Some l then small_counts l else false) [0; 1; 2] | None => false end.

Lemma lsf_lengths_small i : 0 <= i < 512 -> lsf_row (lsf_lengths i).1.1 (lsf_lengths i).1.2 = true /\ lsf_row (lsf_lengths_is i).1 (lsf_lengths_is i).2 = true.
Proof.
  intros Hi. assert (H : forallb (fun i => lsf_row (lsf_lengths i).1.1 (lsf_lengths i).1.2 && lsf_row (lsf_lengths_is i).1 (lsf_lengths_is i).2) (range 512) = true) by (vm_compute; reflexivity).
  rewrite forallb_forall in H. specialize (H i ltac:(by apply in_range_list)). by apply andb_prop in H.
Qed.

Lemma lsf_row_at slen row c : lsf_row slen row = true ->
  exists s0 s1 s2 s3 rows n0 n1 n2 n3, slen = [s0; s1; s2; s3] /\ zget nsfb_table row = Some rows /\ zget rows (block_index c) = Some [n0; n1; n2; n3] /\
    (0 <= s0 <= 5 /\ 0 <= s1 <= 5 /\ 0 <= s2 <= 5 /\ 0 <= s3 <= 5) /\ 0 <= n0 /\ 0 <= n1 /\ 0 <= n2 /\ 0 <= n3 /\ n0 + n1 + n2 + n3 <= 39.
Proof.
  intros [Hs Hr]%andb_prop. apply andb_prop in Hs as [Hl Hs]. destruct slen as [|s0 [|s1 [|s2 [|s3 [|? l]]]]]; try done.
  2: { rewrite !zlen_cons in Hl. pose proof (zlen_nonneg l). lia. }
  destruct (zget nsfb_table row) as [rows|] eqn:Hrow; [|done]. rewrite forallb_forall in Hr. specialize (Hr (block_index c)).
  assert (Hb : In (block_index c) [0; 1; 2]) by (unfold block_index; destruct (_ =? 2); [destruct (on _ _)|]; cbn; auto).
  specialize (Hr Hb). destruct (zget rows (block_index c)) as [nsfb|] eqn:Hn; [|done]. destruct nsfb as [|n0 [|n1 [|n2 [|n3 [|? ?]]]]]; try done.
  apply andb_prop in Hr as [Hpos Hsum]. cbn [forallb] in Hpos, Hs. unfold in_range in Hs. eexists _, _, _, _, rows, n0, n1, n2, n3. split_and!; try done; lia.
Qed.

Lemma preflag_mixed f : Z.land (Z.lor f preflag) mixed_block_flag = Z.land f mixed_block_flag.
Proof. rewrite Z.land_lor_distr_l. change (Z.land preflag mixed_block_flag) with 0. apply Z.lor_0_r. Qed.

Lemma four_parts {S} (I : Z -> S -> Prop) (f : Z -> S -> res S) n0 n1 n2 n3 s : I 0 s -> (forall s, I 0 s -> yields (f 0 s) (I (0 + n0))) ->
  (forall s, I n0 s -> yields (f 1 s) (I (n0 + n1))) -> (forall s, I (n0 + n1) s -> yields (f 2 s) (I (n0 + n1 + n2))) ->
  (forall s, I (n0 + n1 + n2) s -> yields (f 3 s) (I (n0 + n1 + n2 + n3))) -> yields (rfor 0 4 f s) (I (n0 + n1 + n2 + n3)).
Proof.
  intros H0 F0 F1 F2 F3. cbn [rfor]. apply yields_bind. eapply yields_mono; [|by apply F0]. intros s1 H1. apply yields_bind. eapply yields_mono; [|by apply F1].
  intros s2 H2. apply yields_bind. eapply yields_mono; [|by apply F2]. intros s3 H3. apply yields_bind. eapply yields_mono; [|by apply F3]. done.
Qed.

Section Scalefactors_lsf.
Context `{T : Target} (buf : list Z).

Lemma zero_rest_at n a : 0 <= n <= 39 -> zlen a = 39 -> set_below a n -> yields (zero_rest n a) (fun a' => zlen a' = 39 /\ set_below a' 39).
Proof.
  intros Hn Hl Ha. unfold zero_rest. eapply yields_mono; [|apply zero_cells_at; [lia|lia|done]]. intros a' [Hl' Ha']. split; [lia|].
  by replace 39 with (n + Z.of_nat (Z.to_nat (39 - n))) by lia.
Qed.

(** A part of the scalefactors. *)
Definition part_inv (p n : Z) (s : Z * cells * mad_bitptr) : Prop :=
  s.1.1 = n /\ zlen s.1.2 = 39 /\ set_below s.1.2 n /\ exists q, at_bit buf s.2 q /\ p <= q <= p + 5 * n.
Lemma part_step p n s count len : part_inv p n s -> 0 <= n -> 0 <= count -> n + count <= 39 -> 0 <= len <= 5 -> p + 200 <= 8 * zlen buf ->
  yields (let '(n, a, ptr) := s in let! (a, ptr) := read_cells buf n (Z.to_nat count) len (a, ptr) in Done (n + count, a, ptr)) (part_inv p (n + count)).
Proof.
  intros (<- & Hl & Hs & q & Hq & Hpq) Hn Hc Hsum Hlen Hbuf. destruct s as [[n a] ptr]. cbn [fst snd] in *. apply yields_bind.
  assert (Hmul : 0 <= Z.of_nat (Z.to_nat count) * len <= 5 * count) by nia.
  eapply yields_mono; [|apply (read_cells_at buf a ptr q n (Z.to_nat count) len Hq); lia].
  intros [a' ptr'] [Hr Hq']. cbn [fst snd] in *. cbn beta iota. cbn [yields]. pose proof Hr as (Hl' & _). split_and!; cbn [fst snd]; [done|lia| |].
  - replace (n + count) with (n + Z.of_nat (Z.to_nat count)) by lia. eapply cells_read_below; [done|lia|done].
  - eexists. split; [done|lia].
Qed.

(** A part with intensity stereo: the positions and which of them are illegal. *)
Definition is_inv (p n : Z) (s : Z * cells * cells * mad_bitptr) : Prop :=
  s.1.1.1 = n /\ zlen s.1.1.2 = 39 /\ set_below s.1.1.2 n /\ zlen s.1.2 = 39 /\ set_below s.1.2 n /\ exists q, at_bit buf s.2 q /\ p <= q <= p + 5 * n.
Lemma is_part_step p n s count len max : is_inv p n s -> 0 <= n -> 0 <= count -> n + count <= 39 -> 0 <= len <= 5 -> p + 200 <= 8 * zlen buf ->
  yields (rfor 0 (Z.to_nat count) (fun _ s =>
    let '(n, a, b, ptr) := s in
    let! (is_pos, ptr) := bit_read buf ptr len in
    let! a := cset a n is_pos in
    let! b := cset b n (Z.b2z (is_pos =? max)) in
    Done (n + 1, a, b, ptr)) s) (is_inv p (n + count)).
Proof.
  intros Hs Hn Hc Hsum Hlen Hbuf. replace (n + count) with (n + (0 + Z.of_nat (Z.to_nat count))) by lia.
  apply (yields_rfor (fun k s => is_inv p (n + k) s)); [|by rewrite Z.add_0_r].
  intros i [[[m a] b] ptr] Hi (Hm & Hla & Ha & Hlb & Hb & q & Hq & Hpq). cbn [fst snd] in *. subst m. apply yields_bind, (yields_read _ _ _ _ _ Hq); [lia|lia|].
  intros v ptr' _ Hv Hq'. cbn beta iota. rewrite !cset_in by lia. cbn [res_bind yields]. rewrite Z.add_assoc.
  split_and!; cbn [fst snd]; try (by rewrite zlen_insert); try (apply set_below_snoc; (done || lia)); [done|]. eexists. split; [done|lia].
Qed.

Lemma III_scalefactors_lsf_ok channel gr1 ext ptr p : side_ok true channel -> (forall g, gr1 = Some g -> zlen (c_scalefac g) = 39) -> at_bit buf ptr p -> p + 200 <= 8 * zlen buf ->
  yields (III_scalefactors_lsf buf channel gr1 ext ptr) (fun '(c, gr1', len, ptr') => exists a f, c = set_c_scalefac a (set_c_flags f channel) /\
    Z.land f mixed_block_flag = Z.land (c_flags channel) mixed_block_flag /\ zlen a = 39 /\ set_below a 39 /\
    (gr1' = gr1 \/ exists g b, gr1 = Some g /\ gr1' = Some (set_c_scalefac b g) /\ zlen b = 39 /\ set_below b 39) /\ 0 <= len <= 200 /\ at_bit buf ptr' (p + len)).
Proof.
  intros Hc Hg Hp Hbuf. pose proof (sd_compress _ _ Hc) as Hi. destruct (lsf_lengths_small _ Hi) as [H1 H2]. pose proof (sd_scalefac _ _ Hc) as Hl. unfold III_scalefactors_lsf.
  assert (H0 : forall a, set_below a 0) by (intros a k Hk; lia).
  destruct (if on ext I_STEREO then gr1 else None) as [g|] eqn:Hgr.
  - assert (gr1 = Some g) as -> by (destruct (on ext I_STEREO); done). specialize (Hg g eq_refl). destruct (lsf_lengths_is (c_scalefac_compress channel)) as [slen row]. cbn [fst snd] in H2.
    destruct (lsf_row_at slen row channel H2) as (s0 & s1 & s2 & s3 & rows & n0 & n1 & n2 & n3 & -> & Hr & Hn & Hs & P0 & P1 & P2 & P3 & Hsum).
    unfold at_. rewrite Hr. cbn [res_opt res_bind]. rewrite Hn. cbn [res_opt res_bind]. apply yields_bind.
    apply (yields_mono _ (is_inv p (n0 + n1 + n2 + n3))).
    + intros [[[n a] b] ptr'] (Hm & Hla & Ha & Hlb & Hb & q & Hq & Hpq). cbn [fst snd] in *. subst n. cbn beta iota. apply yields_bind.
      eapply yields_mono; [|apply zero_rest_at; [|exact Hla|exact Ha]; lia]. intros a' [Hla' Ha']. apply yields_bind.
      eapply yields_mono; [|apply zero_rest_at; [|exact Hlb|exact Hb]; lia]. intros b' [Hlb' Hb']. cbn [yields].
      rewrite (bit_length_at buf ptr ptr' p q) by (done || lia). exists a', (c_flags channel). split_and!; try done; try lia.
      * right. by exists g, b'.
      * by replace (p + (q - p)) with q by lia.
    + apply (four_parts (is_inv p)); [split_and!; cbn [fst snd]; try done; exists p; split; (done || lia)| | | |];
        intros s Hs1; (eapply is_part_step; (exact Hs1 || lia)).
  - destruct (lsf_lengths (c_scalefac_compress channel)) as [[slen row] pre]. cbn [fst snd] in H1. set (chan := if pre then _ else channel).
    assert (Hchan : c_scalefac chan = c_scalefac channel /\ exists f, chan = set_c_flags f channel /\ Z.land f mixed_block_flag = Z.land (c_flags channel) mixed_block_flag).
    { subst chan. destruct pre; (split; [done|]); [eexists; split; [done|apply preflag_mixed]|exists (c_flags channel); split; [by destruct channel|done]]. }
    destruct Hchan as (Hsc & f & Hf & Hmix). rewrite <- Hsc in Hl.
    destruct (lsf_row_at slen row chan H1) as (s0 & s1 & s2 & s3 & rows & n0 & n1 & n2 & n3 & -> & Hr & Hn & Hs & P0 & P1 & P2 & P3 & Hsum).
    unfold at_. rewrite Hr. cbn [res_opt res_bind]. rewrite Hn. cbn [res_opt res_bind]. apply yields_bind.
    apply (yields_mono _ (part_inv p (n0 + n1 + n2 + n3))).
    + intros [[n a] ptr'] (Hm & Hla & Ha & q & Hq & Hpq). cbn [fst snd] in *. subst n. cbn beta iota. apply yields_bind.
      eapply yields_mono; [|apply zero_rest_at; [|exact Hla|exact Ha]; lia]. intros a' [Hla' Ha']. cbn [yields].
      rewrite (bit_length_at buf ptr ptr' p q) by (done || lia). exists a', f. rewrite <- Hf. split_and!; try done; try lia; [by left|].
      by replace (p + (q - p)) with q by lia.
    + apply (four_parts (part_inv p)); [split_and!; cbn [fst snd]; try done; exists p; split; (done || lia)| | | |];
        intros s Hs1; (eapply part_step; (exact Hs1 || lia)).
Qed.
End Scalefactors_lsf.

(** ** One channel of a granule *)

Lemma gr_set_spec g i j c c' : gr_get g i j = Done c ->
  exists g', gr_set g i j c' = Done g' /\ forall i' j', gr_get g' i' j' = if decide (i = i' /\ j = j') then Done c' else gr_get g i' j'.
Proof.
  unfold gr_get, gr_set, at_. destruct (zget g i) as [row|] eqn:Hrow; [|done]. cbn [res_opt res_bind]. destruct (zget row j) as [x|] eqn:Hx; [|done]. intros _.
  destruct (zset_in row j c' (zget_range _ _ _ Hx)) as (row' & Hr & _). rewrite Hr. cbn [res_opt res_bind].
  destruct (zset_in g i row' (zget_range _ _ _ Hrow)) as (g' & Hg & _). rewrite Hg. exists g'. split; [done|]. intros i' j'. rewrite (zget_zset _ _ _ _ _ Hg).
  destruct (decide (i = i')) as [<-|Hi]; [|by rewrite decide_False by (intros [? _]; done)]. rewrite Hrow. cbn [res_opt res_bind]. rewrite (zget_zset _ _ _ _ _ Hr).
  destruct (decide (j = j')) as [<-|Hj]; [by rewrite decide_True|by rewrite decide_False by (intros [_ ?]; done)].
Qed.

Lemma gr_set_get g i j c c' : gr_get g i j = Done c -> exists g', gr_set g i j c' = Done g' /\ gr_get g' i j = Done c'.
Proof. intros Hg. destruct (gr_set_spec g i j c c' Hg) as (g' & Hs & H). exists g'. by rewrite H, decide_True. Qed.

Lemma gr_set_get_any g i j c c' i' j' : gr_get g i j = Done c -> (exists d, gr_get g i' j' = Done d) -> exists g', gr_set g i j c' = Done g' /\ exists d, gr_get g' i' j' = Done d.
Proof. intros Hg [d Hd]. destruct (gr_set_spec g i j c c' Hg) as (g' & Hs & H). exists g'. split; [done|]. rewrite H. case_decide; eauto. Qed.

(** What decoding a channel needs of the side information. *)
Record channel_ready (header : header_t) (w : sfbwidths) (gr ch : Z) (si : sideinfo) (c : channel_t) : Prop := {
  cr_channel : gr_get (si_gr si) gr ch = Done c;
  cr_side : side_ok (lsf header) c;
  cr_big : c_big_values c <= 288;
  cr_lsf : lsf header = true -> exists g, gr_get (si_gr si) 1 1 = Done g /\ zlen (c_scalefac g) = 39;
  cr_mpeg1 : lsf header = false -> zlen (sfb_m w) <= 38 /\
    exists g0, gr_get (si_gr si) 0 ch = Done g0 /\ (gr = 0 \/ set_below (c_scalefac g0) 21 /\ exists s, cget (si_scfsi si) ch = Done s)
}.

(** ** The side information of a frame *)

Section Sideinfo.
Context `{T : Target} (buf : list Z).

Definition channel_bits (lsf : bool) : Z := if lsf then 63 else 59.

(** Two granules of two channels. *)
Definition square (g : list (list channel_t)) : Prop := forall i j, 0 <= i < 2 -> 0 <= j < 2 -> exists c, gr_get g i j = Done c /\ zlen (c_scalefac c) = 39.

(** The first [k] channels of the frame have been read. *)
Definition side_inv (lsf : bool) (nch p k : Z) (s : Z * list (list channel_t) * Z * mad_bitptr) : Prop :=
  let '(result, g, _, ptr) := s in
  square g /\ at_bit buf ptr (p + k * channel_bits lsf) /\
  (result = 0 -> forall i j, 0 <= i < 2 -> 0 <= j < nch -> i * nch + j < k -> exists c, gr_get g i j = Done c /\ side_ok lsf c /\ c_big_values c <= 288).

Lemma III_sideinfo_ok nch lsf ptr p : nch = 1 \/ nch = 2 -> at_bit buf ptr p -> p + 320 <= 8 * zlen buf ->
  yields (III_sideinfo buf nch lsf ptr) (fun '(result, si, _, _, ptr') =>
    at_bit buf ptr' (p + 8 * (if lsf then (if nch =? 1 then 9 else 17) else (if nch =? 1 then 17 else 32))) /\
    (result = 0 -> 0 <= si_main_data_begin si < 512 /\ square (si_gr si) /\ (lsf = false -> set_below (si_scfsi si) nch) /\
      forall gr ch, 0 <= gr < (if lsf then 1 else 2) -> 0 <= ch < nch -> exists c, gr_get (si_gr si) gr ch = Done c /\ side_ok lsf c /\ c_big_values c <= 288)).
Proof.
  intros Hn Hp Hbuf. unfold III_sideinfo. set (pb := priv_bits lsf nch). assert (Hpb : pb = (if lsf then (if nch =? 1 then 1 else 2) else (if nch =? 1 then 5 else 3))) by done.
  assert (Hpb2 : 1 <= pb <= 5) by (rewrite Hpb; repeat case_match; lia). set (mb := if lsf then 8 else 9). assert (Hmb : 8 <= mb <= 9) by (subst mb; destruct lsf; lia).
  apply yields_bind, (yields_read buf _ _ _ _ Hp); [lia|lia|]. intros mdb ptr1 _ Hmdb Hp1. cbn beta iota.
  apply yields_bind, (yields_read buf _ _ _ _ Hp1); [lia|lia|]. intros priv ptr2 _ Hpriv Hp2. cbn beta iota.
  set (q := p + mb + pb + (if lsf then 0 else nch * 4)). apply yields_bind.
  apply (yields_mono _ (fun s => (lsf = false -> set_below s.1 nch) /\ at_bit buf s.2 q)).
  2: { subst q. destruct lsf; [rewrite Z.add_0_r; by split|]. eapply yields_mono; [|apply (read_cells_at buf (undefined 2) ptr2 _ 0 (Z.to_nat nch) 4 Hp2); try lia].
       - intros s [(_ & Hset & _) Hq]. rewrite Z2Nat.id in Hq by lia. split; [|done]. intros _ k Hk. destruct (Hset k) as (v & Hv & _); [lia|eauto].
       - change (zlen (undefined 2)) with 2. lia. }
  intros [scfsi ptr3] [Hscfsi Hp3]. cbn [fst snd] in *. cbn beta iota. apply yields_bind. set (ngr := if lsf then 1 else 2).
  assert (Hmdb2 : mdb < 512) by (assert (2 ^ mb <= 2 ^ 9) by (apply Z.pow_le_mono_r; lia); change (2 ^ 9) with 512 in *; lia).
  apply (yields_mono _ (side_inv lsf nch q (ngr * nch))).
  { intros [[[result g] len] ptr4] (Hsq & Hp4 & Hall). cbn [yields]. split.
    - replace (p + 8 * _) with (q + ngr * nch * channel_bits lsf); [done|]. subst q ngr mb. rewrite Hpb. unfold channel_bits. destruct lsf, Hn as [-> | ->]; cbn; lia.
    - intros ->. cbn [si_main_data_begin si_gr si_scfsi]. split_and!; try done; try lia. intros gr ch Hgr Hch. apply Hall; try lia; subst ngr; destruct lsf; nia. }
  replace (if lsf then 1%nat else 2%nat) with (Z.to_nat ngr) by (subst ngr; by destruct lsf). assert (Hngr : 1 <= ngr <= 2) by (subst ngr; destruct lsf; lia).
  assert (Hroom : q + ngr * nch * channel_bits lsf + 16 <= 8 * zlen buf) by (subst q ngr mb; rewrite Hpb in *; unfold channel_bits; destruct lsf, Hn as [-> | ->]; cbn in *; lia).
  replace (ngr * nch) with ((0 + Z.of_nat (Z.to_nat ngr)) * nch) by (rewrite Z2Nat.id by lia; lia).
  apply (yields_rfor (fun gr s => side_inv lsf nch q (gr * nch) s)).
  2: { split_and!; [|by rewrite Z.mul_0_l, Z.add_0_r|intros _ i j Hi Hj Hij; nia].
       intros i j Hi Hj. assert (Hi2 : i = 0 \/ i = 1) by lia. assert (Hj2 : j = 0 \/ j = 1) by lia. exists blank_channel. by destruct Hi2 as [-> | ->], Hj2 as [-> | ->]. }
  intros gr s Hgr Hs. replace ((gr + 1) * nch) with (gr * nch + (0 + Z.of_nat (Z.to_nat nch))) by (rewrite Z2Nat.id by lia; lia).
  apply (yields_rfor (fun ch s => side_inv lsf nch q (gr * nch + ch) s)); [|by rewrite Z.add_0_r].
  intros ch [[[result g] len] ptr4] Hch (Hsq & Hp4 & Hall). cbn beta iota.
  assert (Hk : (gr * nch + ch + 1) * channel_bits lsf <= ngr * nch * channel_bits lsf) by (apply Z.mul_le_mono_nonneg_r; [unfold channel_bits; destruct lsf; lia|nia]).
  assert (Hcb : 59 <= channel_bits lsf <= 63) by (unfold channel_bits; destruct lsf; lia).
  apply yields_bind. eapply yields_mono; [|apply (III_channel_ok buf lsf (cget scfsi ch) result ptr4 _ Hp4)]; [| |intros Hl; apply Hscfsi; [done|lia]].
  2: { clear -Hk Hroom Hcb. destruct lsf; unfold channel_bits in *; lia. }
  intros [[result' c] ptr5] (Hc & Hp5 & Hbig). cbn beta iota. destruct (Hsq gr ch) as (c0 & Hc0 & _); [lia|lia|].
  destruct (gr_set_spec g gr ch c0 c Hc0) as (g' & -> & Hg'). cbn [res_bind yields]. split_and!.
  - intros i j Hi Hj. rewrite Hg'. destruct (decide (gr = i /\ ch = j)); [exists c; split; [done|apply (sd_scalefac _ _ Hc)]|by apply Hsq].
  - replace (q + (gr * nch + (ch + 1)) * channel_bits lsf) with (q + (gr * nch + ch) * channel_bits lsf + channel_bits lsf) by ring. exact Hp5.
  - intros H0 i j Hi Hj Hij. destruct (Hbig H0) as [Hr0 Hb]. rewrite Hg'. destruct (decide (gr = i /\ ch = j)) as [_|Hne]; [eauto|]. apply Hall; try done.
    assert (i * nch + j <> gr * nch + ch); [|lia]. intros E. apply Hne. assert (i = gr) by nia. subst i. split; [done|lia].
Qed.
End Sideinfo.

(** The same channel with scalefactors. *)
Definition scaled (c c' : channel_t) (n : Z) : Prop :=
  exists a f, c' = set_c_scalefac a (set_c_flags f c) /\ Z.land f mixed_block_flag = Z.land (c_flags c) mixed_block_flag /\ zlen a = 39 /\ set_below a n.

Lemma scaled_side ls c c' n : scaled c c' n -> side_ok ls c -> side_ok ls c'.
Proof. intros (a & f & -> & _ & Hl & _) []. by constructor. Qed.
Lemma scaled_widths w c c' n : scaled c c' n -> channel_widths w c' = channel_widths w c.
Proof. intros (a & f & -> & Hf & _). unfold channel_widths, on. cbn [c_flags c_block_type set_c_scalefac set_c_flags]. by rewrite Hf. Qed.

Lemma mapM_Some {A} (l : list A) : mapM id (map Some l) = Some l.
Proof. induction l as [|x l IH]; [done|]. cbn. by rewrite IH. Qed.

Section Channel_lines.
Context `{T : Target} `{FP : Fpm}.

Definition exponents_of (c : channel_t) (ws : list Z) : cells := match III_exponents c ws with Done e => e | _ => [] end.

(** The reference for a channel whose scalefactors are [len] bits long. *)
Definition channel_ref (buf : list Z) (w : sfbwidths) (c : channel_t) (len p : Z) : Z + list Z :=
  let ws := channel_widths w c in
  if c_part2_3_length c <? len then inl MAD_ERROR_BADPART3LEN
  else huff_ref buf (p + c_part2_3_length c) c ws (exponents_of c ws) (count1_table c) (p + len).

(** Huffman decoding with the scalefactors that have been read. *)
Lemma scaled_huffdecode buf w c c' len ptr p : fpm_arm = true -> In w sfbwidth_table -> side_ok true c \/ side_ok false c -> c_big_values c <= 288 ->
  scaled c c' (zlen (channel_widths w c)) -> 0 <= len <= 200 -> at_bit buf ptr (p + len) -> p + c_part2_3_length c + 400 <= 8 * zlen buf ->
  exists ptr' q, at_bit buf ptr' q /\ p <= q <= p + c_part2_3_length c + 200 /\
    match channel_ref buf w c' len p with
    | inl error => III_huffdecode buf c' (channel_widths w c) len ptr = Done (ptr', inl error)
    | inr l => III_huffdecode buf c' (channel_widths w c) len ptr = Done (ptr', inr (map Some l)) /\ zlen l = 576
    end.
Proof.
  intros Harm Hw Hside Hbig Hsc Hlen Hp Hbuf. destruct (channel_widths_ok w c Hw) as (Hws & Hz & _). pose proof (scaled_widths w _ _ _ Hsc) as Heq.
  assert (Hlsf : exists ls, side_ok ls c) by (destruct Hside; eauto). destruct Hlsf as [ls Hc]. pose proof (scaled_side ls _ _ _ Hsc Hc) as Hc'.
  assert (Hsame : c_part2_3_length c' = c_part2_3_length c /\ c_big_values c' = c_big_values c) by (destruct Hsc as (a & f & -> & _); done). destruct Hsame as [H23 Hbv].
  pose proof (sd_length _ _ Hc) as Hl23. unfold channel_ref. rewrite Heq, H23. destruct (Z.ltb_spec (c_part2_3_length c) len).
  { exists ptr, (p + len). split; [done|]. split; [lia|]. unfold III_huffdecode. rewrite H23. replace (s32 (c_part2_3_length c - len)) with (c_part2_3_length c - len) by (unfold s32; wraps; lia).
    destruct (Z.ltb_spec (c_part2_3_length c - len) 0); [done|lia]. }
  assert (He : yields (III_exponents c' (channel_widths w c)) (fun e => set_below e (zlen (channel_widths w c)))).
  { rewrite <- Heq. apply III_exponents_total; [done| |by apply (sd_gain _ _ Hc')]. rewrite Heq. by destruct Hsc as (a & f & -> & _ & _ & Ha). }
  apply yields_done in He as (e & He & Hset). unfold exponents_of. rewrite He.
  destruct (huffdecode_refines buf ptr (p + len) c' (channel_widths w c) e len (c_part2_3_length c - len) Harm Hp) as (ptr' & Hptr' & Hdec).
  { by rewrite H23. } { lia. } { lia. } { done. } { lia. } { apply (side_channel_ok ls); [done|lia]. } { pose proof (sd_big _ _ Hc'). lia. } { done. } { exact Hset. }
  replace (p + len + (c_part2_3_length c - len)) with (p + c_part2_3_length c) in * by lia. eexists ptr', _. split; [done|]. split; [lia|done].
Qed.

Lemma channel_scalefactors_ok buf header w gr ch si c ptr p : In w sfbwidth_table -> channel_ready header w gr ch si c -> at_bit buf ptr p -> p + 200 <= 8 * zlen buf ->
  yields (channel_scalefactors buf header gr ch si c ptr) (fun '(c', g, len, ptr') =>
    scaled c c' (zlen (channel_widths w c)) /\ (exists d, gr_get g gr ch = Done d) /\ 0 <= len <= 200 /\ at_bit buf ptr' (p + len)).
Proof.
  intros Hw [Hc Hside Hbig Hlsf Hm1] Hp Hbuf. destruct (channel_widths_ok w c Hw) as (_ & Hz & _). unfold channel_scalefactors. destruct (lsf header).
  - destruct (Hlsf eq_refl) as (g & Hg & Hgl). rewrite Hg. cbn [res_bind]. apply yields_bind.
    eapply yields_mono; [|apply (III_scalefactors_lsf_ok buf c (if ch =? 0 then None else Some g) (hd_mode_extension header) ptr p Hside); [intros g' Hg'; destruct (ch =? 0); by simplify_eq|done|done]].
    intros [[[c' gr1] len] ptr'] (a & f & -> & Hf & Hla & Ha & Hgr1 & Hlen & Hp'). cbn beta iota. apply yields_bind.
    assert (Hset : exists g', match gr1 with Some c => gr_set (si_gr si) 1 1 c | None => Done (si_gr si) end = Done g' /\ exists d, gr_get g' gr ch = Done d).
    { destruct gr1 as [g1|]; [|eauto]. apply (gr_set_get_any _ _ _ g); eauto. }
    destruct Hset as (g' & -> & Hd). cbn [yields]. split_and!; try done; try lia. exists a, f. split_and!; try done. by apply (set_below_le _ 39); [|lia].
  - destruct (Hm1 eq_refl) as (Hmix & g0 & Hg0 & Hgr). rewrite Hg0. cbn [res_bind].
    assert (Hs : exists s, (if gr =? 0 then Done 0 else cget (si_scfsi si) ch) = Done s /\ (s = 0 \/ set_below (c_scalefac g0) 21)).
    { destruct (Z.eqb_spec gr 0); [exists 0; auto|]. destruct Hgr as [?|[? [s Hs]]]; [done|]. exists s. auto. }
    destruct Hs as (s & -> & Hs). cbn [res_bind]. apply yields_bind.
    eapply yields_mono; [|apply (III_scalefactors_ok buf c g0 s ptr p Hside Hs Hp Hbuf)].
    intros [[c' len] ptr'] (a & -> & Hla & Ha & Hlen & Hp'). cbn [yields]. split_and!; try done; try lia; [|eauto]. exists a, (c_flags c). split_and!; try done.
    apply (set_below_le _ _ _ Ha). pose proof (table_checked w Hw) as Hchk. unfold check_table in Hchk. unfold scalefac_top, channel_widths.
    apply andb_prop in Hchk as [[[_ F]%andb_prop _]%andb_prop I]. destruct (c_block_type c =? 2); [destruct (on _ _)|]; lia.
Qed.

(** C16: Decoding the main data of a channel is what the bit-by-bit reference does.  On the board, for every channel of a frame whose side information is that of [III_sideinfo] with no more than 288
    big_values, all nine tables of band widths and both versions of MPEG, the function reads the scalefactors, and then ends, without a fault and without an assertion that fails, with
    an error or with the 576 lines of the reference decoder, which has no bit cache, no cache of requantized values and looks up the band, the region and the code word of each pair anew.  The
    buffer has to reach 400 bits beyond [part2_3_length]. *)
Theorem decode_channel_reference buf header w gr ch si c ptr p : fpm_arm = true -> In w sfbwidth_table -> channel_ready header w gr ch si c ->
  at_bit buf ptr p -> p + c_part2_3_length c + 400 <= 8 * zlen buf ->
  exists ptr' si' c' len q, scaled c c' (zlen (channel_widths w c)) /\ gr_get (si_gr si') gr ch = Done c' /\ 0 <= len <= 200 /\
    decode_channel buf header w gr ch (ptr, si) = Done (ptr', si', channel_ref buf w c' len p) /\
    (forall l, channel_ref buf w c' len p = inr l -> zlen l = 576) /\ at_bit buf ptr' q /\ p <= q <= p + c_part2_3_length c + 200.
Proof.
  intros Harm Hw Hr Hp Hbuf. pose proof (sd_length _ _ (cr_side _ _ _ _ _ _ Hr)) as Hl.
  pose proof (channel_scalefactors_ok buf header w gr ch si c ptr p Hw Hr Hp ltac:(lia)) as Hs. apply yields_done in Hs as ([[[c' g] len] ptr1] & Es & Hsc & [d Hd] & Hlen & Hp1).
  destruct (gr_set_get g gr ch d c' Hd) as (g' & Eg & Hg').
  assert (Hside : side_ok true c \/ side_ok false c) by (pose proof (cr_side _ _ _ _ _ _ Hr); destruct (lsf header); auto).
  destruct (scaled_huffdecode buf w c c' len ptr1 p Harm Hw Hside (cr_big _ _ _ _ _ _ Hr) Hsc Hlen Hp1 Hbuf) as (ptr' & q & Hq & Hpq & Hdec).
  exists ptr', (SideInfo (si_main_data_begin si) (si_private_bits si) (si_scfsi si) g'), c', len, q. split_and!; try done; try lia.
  - unfold decode_channel. rewrite (cr_channel _ _ _ _ _ _ Hr). cbn [res_bind]. rewrite Es. cbn [res_bind]. rewrite Eg. cbn [res_bind].
    destruct (channel_ref buf w c' len p) as [e|l]; [by rewrite Hdec|]. destruct Hdec as [-> _]. cbn [res_bind]. by rewrite mapM_Some.
  - intros l Hcl. rewrite Hcl in Hdec. apply Hdec.
Qed.
End Channel_lines.

(** A channel of ten bits: the pair (0, 1) of table 1, its sign and six zero quadruples of one bit each. *)
Section ChannelWitness.
#[local] Instance arm_fpm : Fpm := {| fpm_arm := true |}.
#[local] Existing Instance stm32_target.

Definition ten_bits : channel_t := Channel 10 1 210 0 0 0 [Some 1; Some 1; Some 1] [None; None; None] 0 0 (undefined 39).
Definition ten_side : sideinfo := SideInfo 0 0 [Some 0; Some 0] [[ten_bits; ten_bits]; [ten_bits; ten_bits]].
Definition ten_header : header_t := mad_header_init.
Definition ten_widths : sfbwidths := nth 2 sfbwidth_table (SfbWidths [] [] []).
Definition ten_bytes : list Z := 47 :: repeat 255 63.

Lemma decode_channel_reference_witness :
  (exists ptr' si' c' len, decode_channel ten_bytes ten_header ten_widths 0 0 (mad_bit_init 0, ten_side) = Done (ptr', si', channel_ref ten_bytes ten_widths c' len 0)) /\
  match decode_channel ten_bytes ten_header ten_widths 0 0 (mad_bit_init 0, ten_side) with Done (_, _, inr l) => take 4 l | _ => [] end = [0; MAD_F_ONE; 0; 0].
Proof.
  split; [|vm_compute; reflexivity].
  assert (Hr : channel_ready ten_header ten_widths 0 0 ten_side ten_bits).
  { constructor; try done; [|intros _; split; [vm_compute; discriminate|exists ten_bits; auto]].
    constructor; try done; [intros r Hr; exists 1; split; [|lia]; by assert (r = 0 \/ r = 1) as [-> | ->] by lia|].
    right. exists 1. split; [done|lia]. }
  destruct (decode_channel_reference (FP := arm_fpm) ten_bytes ten_header ten_widths 0 0 ten_side ten_bits (mad_bit_init 0) 0 eq_refl) as (ptr' & si' & c' & len & q & _ & _ & _ & E & _).
  - vm_compute. tauto.
  - exact Hr.
  - apply (at_bit_init ten_bytes 0). lia.
  - vm_compute. discriminate.
  - exists ptr', si', c', len. exact E.
Defined.
End ChannelWitness.
