(* ===== verification/MadDecoder.v ===== *)
(** * libmad as the decoder of the player

    The structures [mad_stream], [mad_frame], [mad_timer_t] and [mad_synth] of
    common/libmad.c and the functions of the library on them, as an instance of the
    interface [Mad], over the decoders of the three layers ([Layers]).  The laws of the interface hold, so what is proved of the player for
    every decoder holds of this one. *)

From S2P Require Import Prelude Libc MadBit MadTimer MadStream MadFrame MadFrameProps MadFixed MadSynth MadRun Snd IoBuffer Id3tag Resfs State Fs LcdPanel Libmad Keeps.

(** What the layer decoders leave alone (layer12.c, layer3.c): they move the bit
    pointer, fill the subband samples and report errors, but the place of the frame in
    the buffer is not theirs. *)
Class LayerLaws (L : Layers) := {
  law_layer n buf s f : mad_layer n buf s f <> NoFuel;
  law_layer_place n buf s f r s' f' : mad_layer n buf s f = Done (r, s', f') ->
    same_place s s' /\ st_freerate s' = st_freerate s
}.

(** The variables of libmad.c beside the fields of [Stream] that the player reads. *)
Record dec_t : Type := Dec {
  dec_stream : stream_t;
  dec_frame : frame_t;
  dec_timer : mad_timer_t;
  dec_synth : synth_t
}.

(** [struct mad_stream] out of the fields libmad.c reads and the others, and back. *)
Definition to_stream (st : mad_stream) (s : stream_t) : stream_t :=
  Stream (bufend st) (skiplen st) (st_sync s) (st_freerate s) (this_frame st) (next_frame st)
    (st_ptr s) (st_anc_ptr s) (st_anc_bitlen s) (st_main_data s) (st_md_len s) (st_options s) (ms_error st).
Definition of_stream (s : stream_t) : mad_stream :=
  MadStream (st_this_frame s) (st_next_frame s) (st_bufend s) (st_error s) (st_skiplen s).

Section Decoder.
Context `{T : Target} `{FP : Fpm} `{L : Layers}.
Abbreviation D := dec_t.

(** [struct mad_pcm] *)
Definition synth_pcm (y : synth_t) : mad_pcm :=
  MadPcm (sy_samplerate y) (sy_channels y) (sy_length y) (default [] (zget (sy_samples y) 0)) (default [] (zget (sy_samples y) 1)).

(** The calls in [libmad_init] and [libmad_done]. *)
Definition dec_init (d : D) : D :=
  Dec mad_stream_init (mad_frame_init (dec_frame d)) mad_timer_zero (mad_synth_init (dec_synth d)).
Definition dec_finish (d : D) : D :=
  Dec (mad_stream_finish (dec_stream d)) (mad_frame_finish (dec_frame d)) (dec_timer d) (dec_synth d).

(** [mad_stream_buffer], as far as it is not about the fields libmad.c reads. *)
Definition dec_buffered (d : D) : D :=
  Dec (set_sync 1 (set_ptr (mad_bit_init 0) (dec_stream d))) (dec_frame d) (dec_timer d) (dec_synth d).

Definition dec_header (buf : list Z) (st : mad_stream) (d : D) : res (Z * mad_stream * D) :=
  let! (r, h, s) := MadFrame.mad_header_decode buf (fr_header (dec_frame d)) (to_stream st (dec_stream d)) in
  Done (r, of_stream s, Dec s (set_fr_header h (dec_frame d)) (dec_timer d) (dec_synth d)).

Definition dec_decode (buf : list Z) (st : mad_stream) (d : D) : res (Z * mad_stream * D) :=
  let! (r, f, s) := MadFrame.mad_frame_decode buf (dec_frame d) (to_stream st (dec_stream d)) in
  Done (r, of_stream s, Dec s f (dec_timer d) (dec_synth d)).

#[export] Instance mad_decoder : Mad D := {|
  mad_init := dec_init;
  mad_finish := dec_finish;
  mad_buffered := dec_buffered;
  mad_header_decode := dec_header;
  mad_frame_decode := dec_decode;
  State.mad_frame_mute d := Dec (dec_stream d) (MadFrame.mad_frame_mute (dec_frame d)) (dec_timer d) (dec_synth d);
  State.mad_timer_add d := Dec (dec_stream d) (dec_frame d) (timer_add (dec_timer d) (hd_duration (fr_header (dec_frame d)))) (dec_synth d);
  State.mad_synth_frame d := let! y := MadSynth.mad_synth_frame (dec_synth d) (dec_frame d) in Done (Dec (dec_stream d) (dec_frame d) (dec_timer d) y);
  mad_get_header d :=
    let h := fr_header (dec_frame d) in MadHeader (hd_layer h) (hd_mode h) (hd_bitrate h) (hd_samplerate h) (hd_flags h);
  mad_get_pcm d := synth_pcm (dec_synth d);
  mad_errorstr := mad_stream_errorstr;
  mad_timer_text d :=
    let! o := mad_timer_string (dec_timer d) &"%lu:%02lu.%03u" MAD_UNITS_MINUTES MAD_UNITS_MILLISECONDS 0 in
    Done (default [] o)
|}.

(** The two halves of [mad_stream_buffer] together. *)
Lemma buffered_is_stream_buffer total st (d : D) :
  to_stream (MadStream (Some 0) (Some 0) (Some total) (ms_error st) (skiplen st)) (dec_stream (dec_buffered d)) =
  mad_stream_buffer 0 total (to_stream st (dec_stream d)).
Proof. reflexivity. Qed.

(** ** The laws *)

Definition fraction_ok (t : mad_timer_t) : Prop := 0 <= fraction t < 2 ^ 64.

Definition dec_inv (d : D) : Prop := free_ok (st_freerate (dec_stream d)) /\ fraction_ok (dec_timer d).

Definition dec_ok (st : mad_stream) (d : D) : Prop :=
  fraction_ok (dec_timer d) /\
  exists e t n, stream_ok (to_stream st (dec_stream d)) e t n /\ e <= LIBMAD_BUFFER_SIZE.

Definition dec_work (st : mad_stream) (d : D) : nat :=
  match next_frame st, bufend st with Some n, Some e => Z.to_nat (e - n) | _, _ => O end.

Lemma ulong_64 x : 0 <= ulong x < 2 ^ 64.
Proof. unfold ulong. destruct long64; wraps; lia. Qed.

Lemma timer_add_fraction t u : fraction_ok (timer_add t u).
Proof.
  unfold fraction_ok, timer_add, reduce_timer, MAD_TIMER_RESOLUTION. cbn [fraction].
  pose proof (ulong_64 (fraction t + fraction u)). destruct (_ >=? _); cbn [fraction]; lia.
Qed.

Lemma dec_ok_inv st d : dec_ok st d -> 0 <= skiplen st /\ dec_inv d.
Proof. intros (Hf & e & t & n & (_ & _ & _ & _ & _ & _ & _ & Hk & Hfr) & _). done. Qed.

(** The stream a call leaves behind: the end, or a place further on. *)
Lemma header_result_on buf n e r h s : header_result buf n e r h s -> 0 <= st_skiplen s -> e <= MAX_STREAM -> 0 <= n ->
  free_ok (st_freerate s) /\
  ((r = -1 /\ MAD_RECOVERABLE (st_error s) = false) \/ exists t n', stream_ok s e t n' /\ n < n').
Proof.
  intros (He & Hf & Hr) Hk Hmax Hn. split; [done|]. unfold MAD_BUFFER_GUARD in Hr.
  destruct Hr as [(-> & Hs & _ & _ & t & N & Ht & Hn' & ? & ? & ? & _)|[(-> & _ & -> & _)|(-> & Hs & _ & t & Ht & Hn' & ? & ?)]].
  - right. exists t, (t + N). split; [|lia]. unfold stream_ok. split_and!; try done; try lia.
  - by left.
  - right. exists t, (t + 1). split; [|lia]. unfold stream_ok. split_and!; try done; try lia.
Qed.

(** ... in the terms of the interface. *)
Lemma stream_ok_dec s e t n f tm (y : synth_t) : stream_ok s e t n -> e <= LIBMAD_BUFFER_SIZE -> fraction_ok tm ->
  dec_ok (of_stream s) (Dec s f tm y) /\ dec_work (of_stream s) (Dec s f tm y) = Z.to_nat (e - n).
Proof.
  intros Hs He Hf. split; [split; [done|]; exists e, t, n; by destruct s|].
  destruct Hs as (Hb & _ & _ & _ & Hn & _). unfold dec_work, of_stream. cbn. by rewrite Hb, Hn.
Qed.

Lemma dec_work_ok st d e t n : stream_ok (to_stream st (dec_stream d)) e t n -> dec_work st d = Z.to_nat (e - n).
Proof. intros (Hb & _ & _ & _ & Hn & _). cbn in Hb, Hn. unfold dec_work. by rewrite Hb, Hn. Qed.

Lemma dec_header_law buf st d : dec_ok st d -> zlen buf = MAD_BUFFER_BYTES ->
  decoded dec_inv (fun st' d' => dec_ok st' d' /\ (dec_work st' d' < dec_work st d)%nat) (dec_header buf st d).
Proof.
  intros (Hf & e & t & n & Hs & He) Hl. pose proof (dec_work_ok _ _ _ _ _ Hs) as Hw. unfold dec_header.
  unfold MAD_BUFFER_BYTES, MAD_BUFFER_GUARD in Hl.
  destruct (mad_header_decode_result buf (fr_header (dec_frame d)) _ e t n Hs) as (r & h & s & -> & Hk & Hr); [lia|].
  cbn [res_bind decoded]. destruct Hs as (_ & Hmax & _ & _ & _ & Hne & _).
  destruct (header_result_on _ _ _ _ _ _ Hr Hk Hmax ltac:(lia)) as [Hfr Hon]. split; [done|].
  destruct Hon as [?|(t' & n' & Hs' & Hlt)]; [by left|right].
  destruct (stream_ok_dec s e t' n' (set_fr_header h (dec_frame d)) (dec_timer d) (dec_synth d) Hs' He Hf) as [Hok ->].
  split; [done|]. rewrite Hw. destruct Hs' as (_ & _ & _ & _ & _ & ? & _). lia.
Qed.

Context {LL : LayerLaws L}.

Lemma stream_ok_place s s' e t n : same_place s s' -> st_freerate s' = st_freerate s -> stream_ok s e t n -> stream_ok s' e t n.
Proof. intros (H1 & H2 & H3 & H4 & H5) H6. unfold stream_ok. by rewrite H1, H2, H3, H4, H5, H6. Qed.

(** The data of a frame, once its header has been read. *)
Lemma frame_data_law buf n e t fr s tm (y : synth_t) w : stream_ok s e t n -> e <= LIBMAD_BUFFER_SIZE -> fraction_ok tm -> (Z.to_nat (e - n) <= w)%nat ->
  decoded dec_inv (fun st' d' => dec_ok st' d' /\ (dec_work st' d' <= w)%nat)
    (let! (r, f, s) := frame_data buf fr s in Done (r, of_stream s, Dec s f tm y)).
Proof.
  intros Hs He Hf Hw. unfold frame_data. destruct (_ || _); [done|].
  destruct (mad_layer _ buf s _) as [[[r s1] f1]| |] eqn:Hlay; [|done|by apply law_layer in Hlay].
  apply law_layer_place in Hlay as [Hp Hfr]. pose proof (stream_ok_place _ _ _ _ _ Hp Hfr Hs) as Hs1.
  pose proof Hs1 as (_ & _ & _ & _ & Hn1 & _ & _ & Hk1 & Hfr1). cbn [res_bind].
  assert (Hgo : forall r s2 f2, same_place s1 s2 -> st_freerate s2 = st_freerate s1 ->
    decoded dec_inv (fun st' d' => dec_ok st' d' /\ (dec_work st' d' <= w)%nat) (Done (r, of_stream s2, Dec s2 f2 tm y))).
  { intros r0 s2 f2 Hp2 Hfr2. pose proof (stream_ok_place _ _ _ _ _ Hp2 Hfr2 Hs1) as Hs2.
    destruct (stream_ok_dec s2 e t n f2 tm y Hs2 He Hf) as [Hok Hww]. cbn [decoded].
    pose proof (dec_ok_inv _ _ Hok). split; [done|]. right. split; [done|lia]. }
  destruct (r =? -1).
  - unfold frame_fail. cbn [res_bind]. destruct (MAD_RECOVERABLE (st_error s1)) eqn:Hrec; cbn [negb]; [by apply Hgo|].
    cbn [decoded]. split; [done|]. by left.
  - destruct (negb _); [rewrite Hn1|]; cbn [res_opt res_bind]; by apply Hgo.
Qed.

Lemma dec_decode_law buf st d : dec_ok st d -> zlen buf = MAD_BUFFER_BYTES ->
  decoded dec_inv (fun st' d' => dec_ok st' d' /\ (dec_work st' d' <= dec_work st d)%nat) (dec_decode buf st d).
Proof.
  intros (Hf & e & t & n & Hs & He) Hl. pose proof (dec_work_ok _ _ _ _ _ Hs) as Hw. unfold dec_decode, MadFrame.mad_frame_decode.
  rewrite Hw. cbn [fr_header]. destruct (negb _).
  - unfold MAD_BUFFER_BYTES, MAD_BUFFER_GUARD in Hl.
    destruct (mad_header_decode_result buf (fr_header (dec_frame d)) _ e t n Hs) as (r & h & s & -> & Hk & Hr); [lia|].
    cbn [res_bind]. destruct Hs as (_ & Hmax & _ & _ & _ & Hne & _).
    destruct (header_result_on _ _ _ _ _ _ Hr Hk Hmax ltac:(lia)) as [Hfr Hon].
    destruct (Z.eqb_spec r (-1)) as [->|Hr0].
    + unfold frame_fail. cbn [res_bind decoded]. split; [done|]. destruct Hon as [?|(t' & n' & Hs' & Hlt)]; [by left|right].
      destruct (stream_ok_dec (set_anc_bitlen 0 s) e t' n' (set_fr_header h (Frame (fr_header (dec_frame d)) (st_options (to_stream st (dec_stream d))) (fr_sbsample (dec_frame d)) (fr_overlap (dec_frame d)))) (dec_timer d) (dec_synth d) Hs' He Hf) as [Hok ->].
      split; [done|]. lia.
    + destruct Hon as [[? _]|(t' & n' & Hs' & Hlt)]; [done|]. eapply frame_data_law; [done|done|done|lia].
  - cbn [res_bind]. change (0 =? -1) with false. cbn iota. eapply frame_data_law; [done|done|done|lia].
Qed.

Lemma dec_text_ends d : dec_inv d -> mad_timer_text (d : D) <> NoFuel.
Proof.
  intros [_ Hf]. cbn. unfold mad_timer_string, string_parts.
  change (existsb (Z.eqb MAD_UNITS_MILLISECONDS) metric_units) with true. cbn iota.
  change (MAD_TIMER_RESOLUTION / MAD_UNITS_MILLISECONDS) with 352800.
  rewrite scale_0; [|lia|done]. cbn [res_bind].
  change (MAD_UNITS_MINUTES =? MAD_UNITS_HOURS) with false. change (MAD_UNITS_MINUTES =? MAD_UNITS_MINUTES) with true. cbn iota.
  unfold sprintf_bytes, xvprintf. match goal with |- context [xvprintf_loop ?n ?f ?a] =>
    pose proof (xvprintf_loop_ends n f a ltac:(lia)); destruct (xvprintf_loop n f a) end; done.
Qed.

Lemma dec_skip_law st d k : dec_ok st d -> 0 <= k ->
  let st' := MadStream (this_frame st) (next_frame st) (bufend st) (ms_error st) k in
  dec_ok st' d /\ (dec_work st' d <= dec_work st d)%nat.
Proof.
  intros (Hf & e & t & n & (? & ? & ? & ? & ? & ? & ? & ? & ?) & He) Hk st'. split; [|done]. split; [done|].
  exists e, t, n. split; [|done]. cbn in *. unfold stream_ok. cbn. split_and!; try done; lia.
Qed.

Lemma dec_buffered_law k er sk d : dec_inv d -> 0 <= k <= LIBMAD_BUFFER_SIZE -> 0 <= sk ->
  let st := MadStream (Some 0%Z) (Some 0%Z) (Some k) er sk in
  dec_ok st (dec_buffered d) /\ (dec_work st (dec_buffered d) <= Z.to_nat k)%nat.
Proof.
  intros [Hfr Hf] Hk Hsk st. unfold LIBMAD_BUFFER_SIZE in *. split; [|unfold dec_work; cbn; lia]. split; [done|].
  exists k, 0, 0. split; [|unfold LIBMAD_BUFFER_SIZE; lia]. unfold stream_ok, MAX_STREAM. cbn. split_and!; try done; lia.
Qed.

(** The synthesis filter ends. *)
Lemma synth_loop_halts (round : list Z -> Z -> Z -> M chan_t unit) width sb n : (forall i p b, halts (round i p b)) -> forall s phase, halts (synth_loop round width sb n s phase).
Proof. intros Hr. induction n as [|n IH]; intros s phase; cbn [synth_loop]; [done|]. apply halts_bind; [halts|intros i]. apply halts_bind; [apply Hr|intros _; apply IH]. Qed.

Lemma synth_channels_over (round : list Z -> Z -> Z -> M chan_t unit) width f ns n : (forall i p b, halts (round i p b)) -> forall ch y, over (synth_channels round width f ns n ch y).
Proof.
  intros Hr. induction n as [|n IH]; intros ch y; cbn [synth_channels]; [done|]. do 3 (apply over_bind; [over|intros ?]).
  apply over_bind; [by apply over_halts, synth_loop_halts|intros [[u c] o]]. do 2 (apply over_bind; [over|intros ?]). apply IH.
Qed.

Lemma synth_frame_over y f : over (MadSynth.mad_synth_frame y f).
Proof.
  unfold MadSynth.mad_synth_frame. cbv zeta. apply over_bind; [|done]. destruct (negb _); apply synth_channels_over; intros i p b; [unfold half_round|unfold full_round]; halts.
Qed.

Lemma dec_synth_law st d : dec_ok st d ->
  match State.mad_synth_frame d with Done d' => dec_ok st d' /\ (dec_work st d' <= dec_work st d)%nat | Fault => True | NoFuel => False end.
Proof.
  intros Hd. cbn. pose proof (synth_frame_over (dec_synth d) (dec_frame d)) as H. destruct (MadSynth.mad_synth_frame _ _); cbn [res_bind may] in *; [|done|done]. exact (conj Hd (le_n _)).
Qed.

#[export] Instance mad_decoder_laws : MadLaws D mad_decoder := {|
  mad_inv := dec_inv;
  mad_ok := dec_ok;
  mad_work := dec_work;
  law_init d := conj (or_introl eq_refl) (conj (Z.le_refl 0) eq_refl);
  law_text := dec_text_ends;
  law_finish d Hd := Hd;
  law_ok := dec_ok_inv;
  law_header := dec_header_law;
  law_frame := dec_decode_law;
  law_mute st d Hd := conj Hd (le_n _);
  law_skip := dec_skip_law;
  law_timer st d Hd := conj (conj (timer_add_fraction _ _) (proj2 Hd)) (le_n _);
  law_synth := dec_synth_law;
  law_buffered := dec_buffered_law
|}.
End Decoder.
