(* ===== verification/MadLayers.v ===== *)
(** * The laws of the layer decoders

    The decoders of the three layers end and leave the place of the frame alone: they obey the laws
    that the frame decoder needs, so that [decoder_table] of frame.c is complete. *)

From S2P Require Import Prelude MadBit MadTimer MadStream MadFrame MadFrameProps MadFixed MadLayer12 MadLayer12Props MadSynth MadHuffman MadTables3 MadSide MadHuff.
From S2P Require Import MadHybrid MadLayer3 MadRun MadHuffProps MadHuffRef MadDecoder.

(** * Layers I and II *)

Section Table.
Context `{T : Target} `{FP : Fpm}.

(** The results of a decoder that keeps to the laws. *)
Definition lawful (r : res (Z * stream_t * frame_t)) (s : stream_t) : Prop :=
  r <> NoFuel /\ forall x s' f', r = Done (x, s', f') -> same_place s s' /\ st_freerate s' = st_freerate s.

Lemma crc_checked_ends buf bp len options h : crc_checked buf bp len options h <> NoFuel.
Proof. unfold crc_checked. destruct (has_flag _ _); [|done]. by destruct (mad_bit_crc _ _ _ _). Qed.

Lemma layer_I_lawful buf s f : lawful (mad_layer_I buf s f) s.
Proof.
  unfold mad_layer_I. destruct (stereo_bound _) as [bound h].
  pose proof (crc_checked_ends buf (st_ptr s) (4 * (bound * MAD_NCHANNELS (fr_header f) + (32 - bound))) (fr_options f) h) as Hc.
  destruct (crc_checked _ _ _ _ _) as [[[] h']| |]; cbn [res_bind negb]; [|by split; [|intros ? ? ? [= <- <- <-]]|by split|done].
  assert (He : halts (I_data buf (MAD_NCHANNELS (fr_header f)) bound)) by halts. specialize (He (lay_start (st_ptr s) 64 (fr_sbsample f))).
  destruct (I_data _ _ _ _) as [[[ok x] o]| |]; cbn [res_bind lay_done]; [|by split|done]. by destruct ok; split; [|intros ? ? ? [= <- <- <-]| |intros ? ? ? [= <- <- <-]].
Qed.

Lemma layer_II_lawful buf s f : lawful (mad_layer_II buf s f) s.
Proof.
  unfold mad_layer_II. destruct (II_index _ _) as [i|]; [|by split; [|intros ? ? ? [= <- <- <-]]].
  destruct (zget sbquant_table i) as [[sblimit offsets]|]; [|by split]. cbn [res_opt res_bind]. destruct (stereo_bound _) as [bound h].
  match goal with |- context [(?m1 ;; ?m2) ?x] => assert (He : halts (m1 ;; m2)) by halts; specialize (He x); destruct ((m1 ;; m2) x) as [[[? x1] ?]| |] end; [|by split|done].
  cbn [res_bind]. match goal with |- context [crc_checked ?a ?b ?c ?d ?e] => pose proof (crc_checked_ends a b c d e) as Hc; destruct (crc_checked a b c d e) as [[[] h']| |] end;
    cbn [res_bind negb lay_done]; [|by split; [|intros ? ? ? [= <- <- <-]]|by split|done].
  match goal with |- context [(?m1 ;; ?m2) ?x] => assert (He2 : halts (m1 ;; m2)) by halts; specialize (He2 x); destruct ((m1 ;; m2) x) as [[[? x2] ?]| |] end; [|by split|done].
  cbn [res_bind lay_done]. by split; [|intros ? ? ? [= <- <- <-]].
Qed.
End Table.

(** * Layer III *)

Section Ends.
Context `{T : Target} `{FP : Fpm}.

Definition region_good (rg : region_t) : Prop := exists h, region_is rg h.

Lemma may_region_table channel r : may (region_table channel r) (fun t => forall tb lb sb rc re, t = Some (tb, lb, sb) -> region_good (Region rc re tb lb sb)).
Proof.
  unfold region_table. apply may_bind. apply (may_mono _ (fun _ => True)); [|apply over_opt]. intros i _. apply may_bind, may_opt. intros h Hh. cbn [may].
  destruct (ht_table h) as [t|] eqn:Ht; [|done]. intros tb lb sb rc re [= <- <- <-]. exists h. split; [by exists i|done].
Qed.

Lemma over_huff_pair rg b : region_good rg -> over (huff_pair rg b).
Proof.
  intros (h & (i & Hi) & Ht & Hl & Hs). unfold huff_pair. pose proof (table_walks_at i h _ Hi Ht) as Hw. rewrite <- Hs in Hw.
  apply may_bind, may_MASK; [apply walks_bits in Hw; lia|]. intros j Hj. apply may_bind, may_opt. intros entry He. by apply (may_walk _ _ 0 _ _ _ _ _ Hw Hj).
Qed.

Lemma over_MASK b n : over (MASK b n).
Proof. unfold MASK. over. Qed.
Lemma over_MASK1BIT b : over (MASK1BIT b).
Proof. unfold MASK1BIT. over. Qed.
#[local] Hint Resolve over_MASK over_MASK1BIT : over.

Lemma over_exponents_short ws : forall gains scalefac mult sfbi l e, over (exponents_short ws gains scalefac mult sfbi l e).
Proof.
  assert (H : forall n ws, (length ws <= n)%nat -> forall gains scalefac mult sfbi l e, over (exponents_short ws gains scalefac mult sfbi l e)); [|by apply (H (length ws))].
  clear ws. induction n as [|n IH]; intros ws Hn gains scalefac mult sfbi l e; (destruct ws as [|a ws]; cbn [exponents_short]; [over|]); [cbn in Hn; lia|].
  destruct (l <? 576); [|done]. destruct gains as [[g0 g1] g2]. do 6 (apply over_bind; [over|intros ?]). destruct ws as [|b [|c ws]]; [over|over|]. apply IH. cbn in Hn. lia.
Qed.
Lemma over_requantize v e : over (III_requantize v e).
Proof. over. Qed.
Lemma over_exponents channel ws : over (III_exponents channel ws).
Proof.
  unfold III_exponents. cbv zeta. destruct (_ =? 2); [|over]. apply over_bind; [destruct (on _ _); over|]. intros [[[sfbi l] rest] e].
  do 3 (apply over_bind; [over|intros ?]). apply over_exponents_short.
Qed.
#[local] Hint Resolve over_exponents over_requantize : over.

Section Loops.
Context (buf : list Z).

Lemma over_huff_value lb extra e x s : over (huff_value buf lb extra e x s).
Proof. destruct s as [b r]. unfold huff_value. over. Qed.
#[local] Hint Resolve over_huff_value : over.

(** Every turn of the first loop moves on by two lines. *)
Definition big_good (g : big_t) : Prop := region_good (bg_region g) /\ 0 <= bg_ptr g.

Lemma may_big_boundary channel e g : big_good g -> may (big_boundary channel e g) (fun r => match r with inr g' => big_good g' | inl _ => True end).
Proof.
  intros [Hr Hp]. unfold big_boundary. destruct (_ =? _); [|done]. apply may_bind.
  apply (may_mono _ (fun r => match r with Some rg => region_good rg | None => True end)).
  - intros [rg|] Hrg; [|done]. apply may_bind. apply (may_mono _ (fun _ => True)); [intros [bd changed] _; by split|]. unfold next_band. over.
  - unfold next_region. destruct (_ =? 0); [|done]. apply may_bind. eapply may_mono; [|apply may_region_table]. intros [[[tb lb] sb]|] Ht; [|done]. cbn [may]. by apply Ht.
Qed.

Lemma may_big_pair g : big_good g -> may (big_pair buf g) big_good.
Proof.
  intros [Hr Hp]. unfold big_pair. cbv zeta. apply may_bind. apply (may_mono _ (fun _ => True)); [|unfold refill; over]. intros b _.
  apply may_bind. apply (may_mono _ (fun _ => True)); [|by apply over_huff_pair]. intros [[x y] b1] _.
  apply may_bind. apply (may_mono _ (fun _ => True)); [|apply over_huff_value]. intros [v s1] _.
  apply may_bind. apply (may_mono _ (fun _ => True)); [|apply over_huff_value]. intros [w s2] _.
  apply may_bind. apply (may_mono _ (fun _ => True)); [|over]. intros xr _. split; [done|]. cbn [bg_ptr]. lia.
Qed.

Lemma may_big_loop channel e n : forall g, big_good g -> may (big_loop buf channel e n g) (fun r => match r with inr g' => big_good g' | inl _ => True end).
Proof.
  induction n as [|n IH]; intros g Hg; cbn [big_loop]; [done|]. destruct (0 <? _); [|done]. apply may_bind.
  eapply may_mono; [|by apply may_big_boundary]. intros [err|g1] H1; [done|]. apply may_bind. eapply may_mono; [|by apply may_big_pair]. intros g2 H2. by apply IH.
Qed.

Lemma may_quad_half e v w c : may (quad_half e v w c) (fun c' => cn_ptr c' = cn_ptr c + 2).
Proof.
  unfold quad_half. apply may_bind. apply (may_mono _ (fun _ => True)); [|unfold next_band; over]. intros [bd r] _.
  apply may_bind. apply (may_mono _ (fun _ => True)); [|over]. intros [x b] _. apply may_bind. apply (may_mono _ (fun _ => True)); [|over]. intros [y b2] _.
  apply may_bind. apply (may_mono _ (fun _ => True)); [|over]. by intros xr _.
Qed.

(** Every turn of the second one moves on by four. *)
Lemma over_count1_loop t e n : forall c, 576 <= cn_ptr c + 4 * Z.of_nat n -> over (count1_loop buf n t e c).
Proof.
  induction n as [|n IH]; intros c Hn; cbn [count1_loop]; (destruct (_ && _) eqn:Hc; [|done]); [lia|]. cbv zeta.
  apply may_bind. apply (may_mono _ (fun _ => True)); [|unfold refill; over]. intros b _.
  apply may_bind. apply (may_mono _ (fun _ => True)); [|unfold huff_quad; over]. intros [[[[v w] x] y] b1] _.
  apply may_bind. eapply may_mono; [|apply may_quad_half]. intros c1 H1. apply may_bind. eapply may_mono; [|apply may_quad_half]. intros c2 H2.
  cbn beta in H1, H2. cbn [cn_ptr] in H1. apply IH. lia.
Qed.

Lemma over_huffdecode channel ws len ptr : over (III_huffdecode buf channel ws len ptr).
Proof.
  unfold III_huffdecode. cbv zeta. destruct (_ <? 0); [done|]. apply over_bind; [over|intros e]. apply over_bind; [over|intros p]. apply over_bind; [unfold first_bits; over|intros b].
  destruct ws as [|n ws]; [done|]. apply may_bind. eapply may_mono; [|apply may_region_table]. intros [[[tb lb] sb]|] Ht; [|done]. apply over_bind; [over|intros x].
  apply may_bind. eapply may_mono; [|apply may_big_loop; split; [by eapply Ht|cbn [bg_ptr]; lia]]. intros [err|g] Hg; [done|]. destruct Hg as [_ Hg]. destruct (_ <? 0); [done|].
  apply over_bind; [over|intros t]. apply over_bind; [over|intros r].
  apply over_bind; [apply over_count1_loop; cbn [cn_ptr]; change (Z.of_nat COUNT1_FUEL) with 144; lia|intros c]. apply over_bind; [unfold rzero; over|done].
Qed.
End Loops.

(** ** The rest of the granule *)

Lemma over_nonzero n : forall xr i, over (nonzero xr i n).
Proof. induction n as [|n IH]; intros xr i; cbn [nonzero]; [done|]. apply over_bind; [over|intros x]. destruct (x =? 0); [apply IH|done]. Qed.
Lemma over_dot X : forall s acc, over (dot X s acc).
Proof. induction X as [|x X IH]; intros [|c s] acc; cbn [dot]; try done. apply over_bind; [unfold F_MLA; over|intros a]. apply IH. Qed.
Lemma over_rmapi {A B} (f : Z -> A -> res B) l : (forall i x, over (f i x)) -> forall i, over (rmapi f i l).
Proof. intros Hf. induction l as [|x l IH]; intros i; cbn [rmapi]; [done|]. apply over_bind; [apply Hf|intros y]. apply over_bind; [apply IH|done]. Qed.
Lemma over_last_line xr n : over (last_line xr n).
Proof. induction n as [|n IH]; cbn [last_line]; [done|]. apply over_bind; [over|intros x]. by destruct (x =? 0). Qed.
Lemma over_short_line X s : over (short_line X s).
Proof. destruct X, s; cbn [short_line]; try done. apply over_bind; [unfold F_ML0; over|intros a]. apply over_bind; [apply over_dot|done]. Qed.
Lemma over_short_window X : over (short_window X).
Proof.
  unfold short_window. apply over_bind; [apply over_rmapi; intros; apply over_short_line|intros v]. repeat (destruct v as [|? v]; [done|]). destruct v; [|done]. over.
Qed.
#[local] Hint Resolve over_nonzero over_last_line over_short_window over_huffdecode : over.

Lemma over_imdct_l X bt : over (III_imdct_l X bt).
Proof. unfold III_imdct_l. apply over_bind; [over|intros z]. apply over_rmapi. intros i x. unfold windowed. over. Qed.
Lemma over_imdct_s X : over (III_imdct_s X).
Proof.
  unfold III_imdct_s. do 3 (apply over_bind; [over|intros ?]). cbv zeta.
  do 4 (apply over_bind; [apply over_rmapi; intros _ i; unfold F_ML0, F_MLA; over|intros ?]). done.
Qed.
#[local] Hint Resolve over_imdct_l over_imdct_s : over.

Lemma over_overlap o base sb s : over (III_overlap o base sb s).
Proof. over. Qed.
Lemma over_overlap_z base sb s : over (III_overlap_z base sb s).
Proof. over. Qed.
Lemma over_freqinver base sb rows : over (III_freqinver base sb rows).
Proof. over. Qed.
#[local] Hint Resolve over_overlap over_overlap_z over_freqinver : over.

Lemma over_overlap_with sb f s : (forall x, over (f x)) -> over (overlap_with sb f s).
Proof. intros Hf. unfold overlap_with. apply over_bind; [over|intros o]. apply over_bind; [apply Hf|over]. Qed.
Lemma over_subband_l xr bt base sb s : over (subband_l xr bt base sb s).
Proof. unfold subband_l. apply over_bind; [over|intros X]. apply over_bind; [over|intros o]. by apply over_overlap_with; auto with over. Qed.
Lemma over_subband_s xr base sb s : over (subband_s xr base sb s).
Proof. unfold subband_s. apply over_bind; [over|intros X]. apply over_bind; [over|intros o]. by apply over_overlap_with; auto with over. Qed.
#[local] Hint Resolve over_subband_l over_subband_s : over.

Lemma over_synthesize c xr base s : over (synthesize c xr base s).
Proof.
  unfold synthesize. cbv zeta. apply over_bind; [destruct (_ || _); apply over_rfor; auto with over|intros s1]. apply over_bind; [over|intros rows]. apply over_bind; [over|intros i].
  apply over_bind; [apply over_rfor; intros sb s2; apply over_bind; [destruct (_ =? 2); auto with over|intros s3; unfold invert_odd; over]|intros s2].
  apply over_rfor. intros sb s3. apply over_bind; [apply over_overlap_with; auto with over|intros s4]. unfold invert_odd. over.
Qed.

Lemma over_reorder xr c ws : over (III_reorder xr c ws).
Proof.
  unfold III_reorder. apply over_bind; [destruct (on _ _); over|intros [sb widths]]. destruct widths as [|f widths]; [done|]. apply over_bind; [|intros [[s w] rest]; destruct s as [[? ?] ?]; over].
  apply over_rfor. intros l [[[t f'] w] ws']. apply over_bind; [unfold reorder_next; over|intros [[f2 w2] ws2]]. apply over_bind; [over|intros x]. apply over_bind; [|done].
  destruct t as [[tmp sbw] sw]. unfold reorder_put. over.
Qed.
#[local] Hint Resolve over_synthesize over_reorder : over.

Lemma over_stereo l r gr1 h ws x0 x1 : over (III_stereo l r gr1 h ws x0 x1).
Proof. unfold III_stereo. over. Qed.
#[local] Hint Resolve over_stereo : over.

Lemma over_finish_channel w gr ch xr d : over (finish_channel w gr ch xr d).
Proof. unfold finish_channel, reorder_alias. over. Qed.

Lemma over_finish_channels w gr xrs : forall ch d, over (finish_channels w gr ch xrs d).
Proof. induction xrs as [|xr xrs IH]; intros ch d; cbn [finish_channels]; [done|]. apply over_bind; [apply over_finish_channel|intros d1; apply IH]. Qed.

Lemma over_scalefactors_lsf buf c gr1 ext ptr : over (III_scalefactors_lsf buf c gr1 ext ptr).
Proof. unfold III_scalefactors_lsf. over. Qed.
Lemma over_scalefactors buf c gr0 s ptr : over (III_scalefactors buf c gr0 s ptr).
Proof. unfold III_scalefactors. over. Qed.
#[local] Hint Resolve over_finish_channels over_scalefactors_lsf over_scalefactors : over.

Lemma over_decode_channel buf h w gr ch s : over (decode_channel buf h w gr ch s).
Proof.
  destruct s as [ptr si]. unfold decode_channel. apply over_bind; [over|intros c]. cbv zeta.
  apply over_bind; [unfold channel_scalefactors; destruct (lsf h); over|intros [[[c' g] len] ptr']]. apply over_bind; [over|intros g']. apply over_bind; [auto with over|intros [ptr2 [e|xr]]]; over.
Qed.
Lemma over_decode_channels buf h w gr n : forall ch s, over (decode_channels buf h w gr n ch s).
Proof.
  induction n as [|n IH]; intros ch s; cbn [decode_channels]; [done|]. apply over_bind; [apply over_decode_channel|intros [[ptr si] [e|xr]]]; [done|].
  apply over_bind; [apply IH|intros [[ptr2 si2] r]; done].
Qed.
#[local] Hint Resolve over_decode_channels : over.

Lemma over_granule buf w nch gr d : over (granule buf w nch gr d).
Proof.
  unfold granule. apply over_bind; [auto with over|intros [[ptr si] [e|xrs]]]; [done|]. cbv zeta. apply over_bind; [unfold joint_stereo; over|intros [[e h] xrs2]].
  destruct (negb (e =? 0)); [done|]. over.
Qed.
Lemma over_granules buf w nch n : forall gr d, over (granules buf w nch gr n d).
Proof.
  induction n as [|n IH]; intros gr d; cbn [granules]; [done|]. apply over_bind; [apply over_granule|intros [e d1]]. destruct (negb (e =? 0)); [done|apply IH].
Qed.
Lemma over_decode buf ptr f si nch : over (III_decode buf ptr f si nch).
Proof. unfold III_decode. cbv zeta. do 2 (apply over_bind; [over|intros ?]). apply over_bind; [apply over_granules|intros [e d]; done]. Qed.
Lemma over_sideinfo buf nch ls ptr : over (III_sideinfo buf nch ls ptr).
Proof.
  unfold III_sideinfo. cbv zeta. do 2 (apply over_bind; [over|intros [? ?]]). apply over_bind; [destruct ls; over|intros [scfsi ptr2]].
  apply over_bind; [|intros [[[? ?] ?] ?]; done]. apply over_rfor. intros gr s. apply over_rfor. intros ch [[[r g] len] ptr3].
  apply over_bind; [unfold III_channel, cget; over|intros [[r' c] ptr4]]. over.
Qed.

(** ** The decoder *)

Lemma fail_with_place error r s f : same_place s (fail_with error (r, f)).2 <-> same_place s f.
Proof. unfold fail_with. cbn [fst snd]. by destruct (r =? 0). Qed.
Lemma fail_with_free error r f : st_freerate (fail_with error (r, f)).2 = st_freerate f.
Proof. unfold fail_with. cbn [fst snd]. by destruct (r =? 0). Qed.

(** A stream at the place of [s] with its free rate. *)
Definition kept (s s' : stream_t) : Prop := same_place s s' /\ st_freerate s' = st_freerate s.

Lemma kept_fail s error r f : kept s f -> kept s (fail_with error (r, f)).2.
Proof. intros [H1 H2]. split; [by apply fail_with_place|by rewrite fail_with_free]. Qed.

Lemma layer_III_kept buf data s f : may (layer_III buf data s f) (fun '(_, s', _) => kept s s').
Proof.
  unfold layer_III. cbv zeta. apply may_bind, may_opt. intros next _. destruct (_ <? _); [done|].
  apply may_bind. apply (may_mono _ (fun _ => True)); [|pose proof (crc_checked_ends buf (st_ptr s) (si_length (fr_header f) (MAD_NCHANNELS (fr_header f)) * CHAR_BIT) (fr_options f) (fr_header f)); by destruct (crc_checked _ _ _ _ _)].
  intros [ok h] _. set (r := if ok then _ else _). assert (Hr : kept s r.2) by (subst r; by destruct ok).
  apply may_bind. eapply may_mono; [|apply over_sideinfo]. intros [[[[error si] dbl] pbl] ptr] _.
  destruct (if negb (error =? 0) then fail_with error r else r) as [result s1] eqn:E1.
  assert (H1 : kept s s1) by (change s1 with (result, s1).2; rewrite <- E1; destruct (negb (error =? 0)); [destruct r; by apply kept_fail|done]).
  apply may_bind. apply (may_mono _ (fun _ => True)); [|unfold next_main_data; over]. intros nmb _. cbv zeta.
  apply may_bind. apply (may_mono _ (fun _ => True)); [|unfold find_main_data, bytes_from, bytes_to; over]. intros [[place used] m] _.
  match goal with |- may (let '(a, b) := ?x in _) _ => destruct x as [result2 s2] eqn:E2 end.
  assert (H2 : kept s s2) by (change s2 with (result2, s2).2; rewrite <- E2; destruct place; [exact H1|by apply kept_fail]).
  apply may_bind. apply (may_mono _ (fun x => kept s x.1.2)).
  { intros [[result3 s3] f3] H3. apply may_bind. apply (may_mono _ (fun _ => True)); [|unfold preload, bytes_from, bytes_to; over]. intros m' _. exact H3. }
  destruct (result2 =? 0); [|done]. apply may_bind, may_opt. intros [data2 ptr2] _. apply may_bind. eapply may_mono; [|apply over_decode]. intros [[error2 ptr3] f3] _.
  by destruct (negb (error2 =? 0)).
Qed.

Lemma layer_III_lawful `{P : Pool} buf s f : lawful (mad_layer_III buf s f) s.
Proof.
  assert (H : may (mad_layer_III buf s f) (fun '(_, s', _) => kept s s')).
  { unfold mad_layer_III. destruct (if st_main_data s is Some d then Some d else _) as [d|]; [|done]. cbv zeta. destruct (if fr_overlap f is Some o then Some o else _) as [o|]; [|done].
    eapply may_mono; [|apply layer_III_kept]. by intros [[r s'] f']. }
  apply may_done in H as [H1 H2]. split; [done|]. intros x s' f' E. apply (H2 _ E).
Qed.

End Ends.

(** ** The table of frame.c *)

Section Table.
Context `{T : Target} `{FP : Fpm} `{P : Pool}.

#[export] Instance decoder_table : Layers := {|
  mad_layer n := if n =? 1 then mad_layer_I else if n =? 2 then mad_layer_II else mad_layer_III
|}.

#[export] Instance decoder_table_laws : LayerLaws decoder_table.
Proof.
  assert (H : forall n buf s f, lawful (mad_layer n buf s f) s).
  { intros n buf s f. cbn. destruct (n =? 1); [apply layer_I_lawful|]. destruct (n =? 2); [apply layer_II_lawful|apply layer_III_lawful]. }
  constructor; intros; [apply H|eapply H; eassumption].
Qed.
End Table.
