(* ===== verification/MadReservoir.v ===== *)
(** * The bit reservoir of Layer III

    The main data of the frames is one sequence of bytes, in which the data of a frame begins up
    to 511 bytes before the frame.  The buffer [main_data] holds the end of this sequence. *)

From S2P Require Import Prelude MadBit MadTimer MadStream MadFrame MadFrameProps MadFixed MadLayer12 MadHuffman MadTables3 MadSide MadHuff MadSynth MadHybrid MadLayer3 MadRun.

Definition sub (l : list Z) (off n : Z) : list Z := take (Z.to_nat n) (drop (Z.to_nat off) l).

Lemma sub_0 l n : sub l 0 n = take (Z.to_nat n) l.
Proof. done. Qed.

Lemma zlen_sub l off n : 0 <= off -> 0 <= n -> off + n <= zlen l -> zlen (sub l off n) = n.
Proof. intros Ho Hn Hl. unfold sub, zlen in *. rewrite length_take, length_drop. lia. Qed.

Lemma sub_split l off a b : 0 <= off -> 0 <= a -> 0 <= b -> sub l off (a + b) = sub l off a ++ sub l (off + a) b.
Proof.
  intros Ho Ha Hb. unfold sub. rewrite !Z2Nat.inj_add by lia. rewrite <- drop_drop. generalize (drop (Z.to_nat off) l). intros k.
  by rewrite take_take_drop.
Qed.

Lemma sub_app_r a b off n : zlen a <= off -> sub (a ++ b) off n = sub b (off - zlen a) n.
Proof. intros Ho. unfold sub, zlen in *. rewrite drop_app_ge by lia. f_equal. f_equal. lia. Qed.

Lemma bytes_from_sub src off n : 0 <= off -> 0 <= n -> off + n <= zlen src -> bytes_from src off n = Done (sub src off n).
Proof.
  intros Ho Hn Hl. unfold bytes_from. destruct (Z.eqb_spec n 0) as [-> |_]; [done|].
  rewrite !(proj2 (Z.leb_le _ _)) by lia. done.
Qed.

(** What is written, behind what was there. *)
Lemma bytes_to_front dst off b : 0 <= off -> off + zlen b <= zlen dst ->
  exists dst', bytes_to dst off b = Done dst' /\ zlen dst' = zlen dst /\ sub dst' 0 (off + zlen b) = sub dst 0 off ++ b.
Proof.
  intros Ho Hl. pose proof (zlen_nonneg b) as Hb. unfold bytes_to. destruct (Z.eqb_spec (zlen b) 0) as [Hz|_].
  - exists dst. split_and!; try done. assert (b = []) as -> by (destruct b; [done|rewrite zlen_cons in Hz; pose proof (zlen_nonneg b); lia]).
    by rewrite Z.add_0_r, app_nil_r.
  - rewrite !(proj2 (Z.leb_le _ _)) by lia. cbn [andb]. eexists. split; [done|]. rewrite !sub_0. unfold zlen in *. split.
    + rewrite !length_app, length_take, length_drop. lia.
    + rewrite app_assoc, take_app_le by (rewrite length_app, length_take; lia). apply take_ge. rewrite length_app, length_take. lia.
Qed.

(** The buffer holds the end of the main data [R]. *)
Record holds (m : main_t) (R : list Z) : Prop := {
  ho_room : zlen (mn_data m) = MAD_BUFFER_MDLEN;
  ho_len : 0 <= mn_len m <= 511;
  ho_end : sub (mn_data m) 0 (mn_len m) `suffix_of` R
}.

(** The last [n] of the bytes. *)
Lemma suffix_last (K R : list Z) n : K `suffix_of` R -> 0 <= n <= zlen K -> sub R (zlen R - n) n = sub K (zlen K - n) n.
Proof.
  intros [pre ->] Hn. rewrite zlen_app, sub_app_r by lia. f_equal. lia.
Qed.

(** The data of a frame: [n] bytes from byte [begin] before the frame on. *)
Definition frame_data (R P : list Z) (begin n : Z) : list Z := sub (R ++ P) (zlen R - begin) n.

Section Reservoir.
Context `{T : Target} (buf : list Z) (ptr : mad_bitptr) (start space begin next md_len : Z) (Hmd : md_len = begin + space - next).
Context (Hptr : mad_bit_nextbyte ptr = start) (H0 : 0 <= start) (Hspace : 0 <= space <= 2048) (Hbuf : start + space <= zlen buf).
Context (Hbegin : 0 <= begin <= 511) (Hnext : 0 <= next <= 511) (Hpast : next <= begin + space).
Abbreviation P := (sub buf start space).

Lemma zlen_P : zlen P = space.
Proof. apply zlen_sub; lia. Qed.

(** The bytes at the end of the frame. *)
Lemma frame_end n : 0 <= n <= space -> sub buf (start + space - n) n `suffix_of` P.
Proof.
  intros Hn. exists (sub buf start (space - n)). replace space with (space - n + n) at 1 by lia. rewrite sub_split by lia. f_equal. f_equal. lia.
Qed.

Lemma find_main_data_ok m R : holds m R ->
  exists place used m', find_main_data buf ptr begin md_len m = Done (place, used, m') /\ zlen (mn_data m') = MAD_BUFFER_MDLEN /\ 0 <= used <= space /\
    match place with
    | None => mn_len m < begin /\ used = 0 /\ m' = m
    | Some (data, p) => begin <= mn_len m \/ begin = 0
    end /\
    match place with
    | None => True
    | Some (data, p) => 0 <= mad_bit_nextbyte p /\ mad_bit_nextbyte p + md_len <= zlen data /\ sub data (mad_bit_nextbyte p) md_len = frame_data R P begin md_len /\
        (space - used = next \/ used = 0 /\ m' = m /\ md_len <= begin /\ 0 < begin)
    end.
Proof.
  intros [Hroom Hlen Hend]. pose proof zlen_P as HP. unfold find_main_data. destruct (Z.eqb_spec begin 0) as [Hb|Hb].
  - exists (Some (buf, ptr)), md_len, (MainData (mn_data m) 0). split_and!; try done; try lia. rewrite Hptr.
    unfold frame_data. rewrite sub_app_r by lia. replace (zlen R - begin - zlen R) with 0 by lia. rewrite <- (Z.add_0_r start) at 1.
    rewrite sub_0. unfold sub. rewrite Z.add_0_r, take_take. f_equal. lia.
  - destruct (Z.ltb_spec (mn_len m) begin); [exists None, 0, m; split_and!; (done || lia)|].
    set (K := sub (mn_data m) 0 (mn_len m)) in *. assert (HK : zlen K = mn_len m) by (apply zlen_sub; unfold MAD_BUFFER_MDLEN, MAD_BUFFER_GUARD in *; lia).
    assert (Hback : sub R (zlen R - begin) begin = sub K (mn_len m - begin) begin) by (rewrite <- HK; apply suffix_last; [done|lia]).
    assert (Hnb : mad_bit_nextbyte (mad_bit_init (mn_len m - begin)) = mn_len m - begin) by done.
    assert (HR : begin <= zlen R) by (destruct Hend as [pre ->]; rewrite zlen_app; pose proof (zlen_nonneg pre); lia).
    destruct (Z.ltb_spec begin md_len).
    + replace (u32 (u32 (mn_len m + md_len) - begin)) with (mn_len m + md_len - begin) by (wraps; lia). unfold MAD_BUFFER_MDLEN, MAD_BUFFER_GUARD in *.
      rewrite (proj2 (Z.leb_le _ _)) by lia. cbv zeta. rewrite Hptr, bytes_from_sub by lia. cbn [res_bind]. set (b := sub buf start (md_len - begin)).
      assert (Hzb : zlen b = md_len - begin) by (apply zlen_sub; lia).
      destruct (bytes_to_front (mn_data m) (mn_len m) b) as (data & -> & Hzd & Hd); [lia|lia|]. cbn [res_bind]. rewrite Hzb in Hd.
      eexists (Some (data, _)), _, _. split; [done|]. cbn [mn_data mn_len]. rewrite Hnb. split_and!; try lia.
      unfold frame_data. replace md_len with (begin + (md_len - begin)) at 2 by lia. rewrite sub_split by lia. rewrite (sub_app_r R P (zlen R - begin + begin)) by lia.
      replace (zlen R - begin + begin - zlen R) with 0 by lia.
      assert (Ha : sub (R ++ P) (zlen R - begin) begin = sub R (zlen R - begin) begin).
      { unfold sub. unfold zlen in *. rewrite drop_app_le by lia. apply take_app_le. rewrite length_drop. lia. }
      rewrite Ha, Hback. assert (Hb2 : sub P 0 (md_len - begin) = b) by (rewrite sub_0; unfold b, sub; rewrite take_take; f_equal; lia). rewrite Hb2.
      assert (Hsplit : sub data 0 (mn_len m + (md_len - begin)) = sub data 0 (mn_len m - begin) ++ sub data (mn_len m - begin) md_len).
      { replace (mn_len m + (md_len - begin)) with (mn_len m - begin + md_len) by lia. rewrite sub_split by lia. by rewrite Z.add_0_l. }
      rewrite Hsplit in Hd. fold K in Hd. assert (HKs : K = sub K 0 (mn_len m - begin) ++ sub K (mn_len m - begin) begin).
      { pose proof (sub_split K 0 (mn_len m - begin) begin ltac:(lia) ltac:(lia) ltac:(lia)) as Hk. rewrite Z.add_0_l in Hk. rewrite <- Hk, sub_0. symmetry. apply take_ge. unfold zlen in HK. lia. }
      rewrite HKs, <- app_assoc in Hd.
      assert (Hl1 : zlen (sub data 0 (mn_len m - begin)) = mn_len m - begin) by (apply zlen_sub; lia). assert (Hl2 : zlen (sub K 0 (mn_len m - begin)) = mn_len m - begin) by (apply zlen_sub; lia).
      unfold zlen in Hl1, Hl2. apply app_inj_1 in Hd as [_ Hd]; [exact Hd|lia].
    + eexists (Some (mn_data m, _)), 0, m. split; [done|]. rewrite Hnb. unfold MAD_BUFFER_MDLEN, MAD_BUFFER_GUARD in *. split_and!; try done; try lia.
      2: { right. split_and!; (done || lia). }
      unfold frame_data. assert (Ha : sub (R ++ P) (zlen R - begin) md_len = sub R (zlen R - begin) md_len).
      { unfold sub. unfold zlen in *. rewrite drop_app_le by lia. apply take_app_le. rewrite length_drop. lia. }
      rewrite Ha. assert (Hs1 : sub R (zlen R - begin) md_len = sub (sub R (zlen R - begin) begin) 0 md_len) by (rewrite sub_0; unfold sub; rewrite take_take; f_equal; lia).
      rewrite Hs1, Hback, sub_0. unfold K. rewrite sub_0. unfold sub. rewrite take_take, skipn_firstn_comm, take_take. f_equal. lia.
Qed.

(** The end of the frame alone. *)
Lemma preload_frame m R free : zlen (mn_data m) = MAD_BUFFER_MDLEN -> next <= free -> next <= space ->
  exists m', preload buf (start + space) begin md_len free next m = Done m' /\ holds m' (R ++ P) /\ mn_len m' = next.
Proof.
  intros Hroom Hfree Hsp. unfold preload. rewrite (proj2 (Z.leb_le _ _)) by lia. rewrite bytes_from_sub by lia. cbn [res_bind].
  set (b := sub buf (start + space - next) next). assert (Hzb : zlen b = next) by (apply zlen_sub; lia).
  destruct (bytes_to_front (mn_data m) 0 b) as (data & -> & Hzd & Hd); [lia|unfold MAD_BUFFER_MDLEN, MAD_BUFFER_GUARD in *; lia|]. cbn [res_bind].
  eexists. split; [done|]. split; [|done]. rewrite Hzb, Z.add_0_l in Hd. constructor; cbn [mn_data mn_len]; [lia|lia|]. rewrite Hd. change (sub (mn_data m) 0 0) with (@nil Z).
  cbn [app]. destruct (frame_end next) as [pre ->]; [lia|]. exists (R ++ pre). by rewrite app_assoc.
Qed.

(** The end of what is there, and the frame. *)
Lemma preload_rest m R : holds m R -> space < next ->
  exists m', preload buf (start + space) begin md_len space next m = Done m' /\ holds m' (R ++ P) /\ mn_len m' = Z.min (next - space) (mn_len m) + space.
Proof.
  intros [Hroom Hlen Hend] Hlt. unfold preload. unfold MAD_BUFFER_MDLEN, MAD_BUFFER_GUARD in *.
  destruct (Z.leb_spec next space); [lia|]. rewrite (proj2 (Z.ltb_lt _ _)) by lia. replace (begin - md_len) with (next - space) by lia.
  replace (u32 (next - space + space)) with next by (wraps; lia). rewrite Z.ltb_irrefl. cbv zeta.
  assert (Hmove : exists m1, (if next - space <? mn_len m then
      let! bytes := bytes_from (mn_data m) (mn_len m - (next - space)) (next - space) in let! data := bytes_to (mn_data m) 0 bytes in Done (MainData data (next - space))
      else Done m) = Done m1 /\ zlen (mn_data m1) = 2567 /\ mn_len m1 = Z.min (next - space) (mn_len m) /\ sub (mn_data m1) 0 (mn_len m1) `suffix_of` R).
  { destruct (Z.ltb_spec (next - space) (mn_len m)); [|exists m; split_and!; (done || lia)]. rewrite bytes_from_sub by lia. cbn [res_bind].
    set (b := sub _ _ _). assert (Hzb : zlen b = next - space) by (apply zlen_sub; lia).
    destruct (bytes_to_front (mn_data m) 0 b) as (data & -> & Hzd & Hd); [lia|lia|]. cbn [res_bind]. eexists. split; [done|]. cbn [mn_data mn_len]. split_and!; [lia|lia|].
    rewrite Hzb, Z.add_0_l in Hd. rewrite Hd. change (sub (mn_data m) 0 0) with (@nil Z). cbn [app]. destruct Hend as [pre ->].
    exists (pre ++ sub (mn_data m) 0 (mn_len m - (next - space))). rewrite <- app_assoc. f_equal. subst b.
    pose proof (sub_split (mn_data m) 0 (mn_len m - (next - space)) (next - space) ltac:(lia) ltac:(lia) ltac:(lia)) as Hsp. rewrite Z.add_0_l in Hsp. rewrite <- Hsp. f_equal. lia. }
  destruct Hmove as (m1 & -> & Hroom1 & Hlen1 & Hend1). cbn [res_bind]. rewrite bytes_from_sub by lia. cbn [res_bind]. replace (start + space - space) with start by lia.
  pose proof zlen_P as HP. destruct (bytes_to_front (mn_data m1) (mn_len m1) P) as (data & -> & Hzd & Hd); [lia|lia|]. cbn [res_bind].
  replace (u32 (mn_len m1 + space)) with (mn_len m1 + space) by (wraps; lia). eexists. split; [done|]. split; [|cbn [mn_len]; lia].
  constructor; cbn [mn_data mn_len]; [unfold MAD_BUFFER_MDLEN, MAD_BUFFER_GUARD; lia|lia|]. rewrite HP in Hd. rewrite Hd. destruct Hend1 as [pre ->]. exists pre. by rewrite app_assoc.
Qed.

(** C22: The bit reservoir is a window on one sequence of bytes.  Let [R] be the main data of the frames so far and [P] that of this one, and let the buffer [main_data] hold the end of
    [R], 511 bytes at most.  Then the decoder finds the bytes from [main_data_begin] before the frame on, as many as belong to the frame, in the buffer or in the input, unless the
    buffer does not go back that far, which is the case it reports; and afterwards the buffer holds the end of [R ++ P], exactly the bytes that the next frame asks for when the data was found, and no
    access is outside of the memory of 2567 bytes.  The frame has 2048 bytes at most behind its side information. *)
Theorem reservoir_refines m R : holds m R ->
  exists place used m1 m2, find_main_data buf ptr begin md_len m = Done (place, used, m1) /\
    preload buf (start + space) begin md_len (space - used) next m1 = Done m2 /\
    holds m2 (R ++ P) /\ mn_len m2 <= next /\
    match place with
    | Some (data, p) => (begin <= mn_len m \/ begin = 0) /\ sub data (mad_bit_nextbyte p) md_len = frame_data R P begin md_len /\ zlen (sub data (mad_bit_nextbyte p) md_len) = md_len /\ mn_len m2 = next
    | None => mn_len m < begin
    end.
Proof.
  intros Hm. destruct (find_main_data_ok m R Hm) as (place & used & m1 & Hf & Hroom & Hused & Hwhy & Hdata).
  assert (Hcase : space - used = next \/ used = 0 /\ m1 = m) by (destruct place as [[data p]|]; [destruct Hdata as (_ & _ & _ & [?|(? & ? & _)]); auto|right; tauto]).
  assert (Hpre : exists m2, preload buf (start + space) begin md_len (space - used) next m1 = Done m2 /\ holds m2 (R ++ P) /\ mn_len m2 <= next /\ (begin <= mn_len m \/ next <= space -> mn_len m2 = next)).
  { destruct (Z_le_gt_dec next (space - used)) as [Hle|Hgt].
    - destruct (preload_frame m1 R (space - used) Hroom) as (m2 & E & Hh & Hl); [lia|lia|]. exists m2. split_and!; (done || lia).
    - destruct Hcase as [?|[-> ->]]; [lia|]. rewrite Z.sub_0_r in *. destruct (preload_rest m R Hm) as (m2 & E & Hh & Hl); [lia|]. exists m2. split_and!; try done; lia. }
  destruct Hpre as (m2 & Hp & Hh & Hl & Hex). exists place, used, m1, m2. split_and!; try done. destruct place as [[data p]|]; [|tauto]. destruct Hdata as (H1 & H2 & H3 & _).
  split_and!; [done|done|apply zlen_sub; lia|]. apply Hex. destruct Hwhy; lia.
Qed.
End Reservoir.

(** The third of three bytes begins two bytes before a frame of three more, and the next one begins one byte before its end. *)
Section ReservoirWitness.
#[local] Existing Instance stm32_target.

Lemma reservoir_refines_witness :
  let m := MainData ([7; 8; 9] ++ repeat 0 2564) 3 in
  exists place used m1 m2, find_main_data [1; 2; 3; 4] (mad_bit_init 1) 2 4 m = Done (place, used, m1) /\ preload [1; 2; 3; 4] 4 2 4 (3 - used) 1 m1 = Done m2 /\ holds m2 ([7; 8; 9] ++ [2; 3; 4]) /\ mn_len m2 = 1.
Proof.
  intros m. assert (Hm : holds m [7; 8; 9]) by (constructor; [reflexivity|cbn; lia|by exists []]).
  destruct (reservoir_refines [1; 2; 3; 4] (mad_bit_init 1) 1 3 2 1 4 eq_refl eq_refl ltac:(lia) ltac:(lia) ltac:(vm_compute; discriminate) ltac:(lia) ltac:(lia) ltac:(lia) m [7; 8; 9] Hm)
    as (place & used & m1 & m2 & E1 & E2 & Hh & Hle & Hp).
  exists place, used, m1, m2. split; [exact E1|]. split; [exact E2|]. split; [exact Hh|]. destruct place as [[data p]|]; [apply Hp|]. cbn in Hp. lia.
Defined.
End ReservoirWitness.
