(* ===== verification/LibmadProps.v ===== *)
(** * Theorems about common/libmad.c *)

From S2P Require Import Prelude Strings Libc MadStream Snd IoBuffer Console Event Cmd Id3tag Net Resfs Salloc.
From S2P Require Import State Fs LcdPanel Libmad Player Main Keeps FsKeeps System HostNull.

(** ** Samples *)

(** The fixed-point value [x], one being 2^28, rounded to 16 bits and clipped. *)
Definition pcm16 (x : Z) : Z := Z.max (-32768) (Z.min 32767 ((x + 4096) / 8192)).

Section Scale.
Context `{T : Target}.

(** [scale] rounds to the nearest 16-bit step and clips, for every decoder output whose rounding does not leave [int]. *)
Lemma scale_rounds x : -2147483648 <= x < 2147479552 -> scale x = Some (pcm16 x).
Proof.
  intros Hx. unfold scale, long_sum, pcm16, MAD_F_FRACBITS, MAD_F_ONE.
  change (Z.shiftl 1 (28 - 16)) with 4096. change (28 + 1 - 16) with 13.
  assert (Hs : slong (x + 4096) = x + 4096) by (unfold slong; destruct long64; wraps; lia). rewrite Hs, Z.eqb_refl.
  cbn [mbind option_bind]. f_equal. rewrite s32_id by lia. rewrite Z.shiftr_div_pow2 by lia. change (2 ^ 13) with 8192.
  destruct (Z.geb_spec (x + 4096) 268435456); [lia|].
  destruct (Z.ltb_spec (x + 4096) (Z.opp 268435456)); lia.
Qed.
End Scale.

Lemma pcm16_range x : -32768 <= pcm16 x <= 32767.
Proof. unfold pcm16. lia. Qed.

(** A 16-bit sample read back from the bytes of a buffer. *)
Definition sample_at (b : list Z) (off : Z) : option Z := s16 <$> le16 b off.

Lemma sample_bytes_back x rest : -32768 <= x <= 32767 -> sample_at (sample_bytes x ++ rest) 0 = Some x.
Proof.
  intros Hx. unfold sample_at, le16, sample_bytes. cbn [app]. change (zget (u8 x :: _) 0) with (Some (u8 x)).
  change (zget (u8 x :: u8 (Z.shiftr x 8) :: rest) (0 + 1)) with (Some (u8 (Z.shiftr x 8))). simpl. f_equal.
  rewrite Z.shiftr_div_pow2 by lia. change (2 ^ 8) with 256. unfold u8, s16. lia.
Qed.

Lemma sample_at_skip b1 b2 off : 0 <= off -> sample_at (b1 ++ b2) (zlen b1 + off) = sample_at b2 off.
Proof.
  intros Ho. unfold sample_at, le16.
  assert (Hg : forall k, 0 <= k -> zget (b1 ++ b2) (zlen b1 + k) = zget b2 k).
  { intros k Hk. unfold zget, zlen. pose proof (zlen_nonneg b1).
    rewrite (proj2 (Z.ltb_ge (Z.of_nat (length b1) + k) 0)), (proj2 (Z.ltb_ge k 0)) by lia.
    rewrite lookup_app_r by lia. f_equal. lia. }
  by rewrite Hg, <- Z.add_assoc, Hg by lia.
Qed.

(** The samples of one instant: left, or left and right. *)
Definition width_of (channels : Z) : Z := if channels =? 2 then 4 else 2.
Definition instant (channels x y : Z) : list Z :=
  sample_bytes (pcm16 x) ++ (if channels =? 2 then sample_bytes (pcm16 y) else []).

Lemma instant_len channels x y : zlen (instant channels x y) = width_of channels.
Proof. unfold instant, width_of. by destruct (channels =? 2). Qed.

Lemma instant_left channels x y rest : sample_at (instant channels x y ++ rest) 0 = Some (pcm16 x).
Proof. unfold instant. rewrite <- app_assoc. apply sample_bytes_back, pcm16_range. Qed.

Lemma instant_right x y rest : sample_at (instant 2 x y ++ rest) 2 = Some (pcm16 y).
Proof.
  unfold instant. change (2 =? 2) with true. cbn iota. rewrite <- app_assoc.
  change 2 with (zlen (sample_bytes (pcm16 x)) + 0).
  rewrite sample_at_skip by lia. apply sample_bytes_back, pcm16_range.
Qed.

(** The decoder's samples of one channel: there are [n] of them from [i] on, and rounding them stays in [int]. *)
Definition roundable (l : list Z) (i : Z) (n : nat) : Prop :=
  forall k, i <= k < i + Z.of_nat n -> exists x, zget l k = Some x /\ -2147483648 <= x < 2147479552.

Lemma roundable_S l i n : roundable l i (S n) -> exists x, zget l i = Some x /\ -2147483648 <= x < 2147479552 /\ roundable l (i + 1) n.
Proof.
  intros Hl. destruct (Hl i ltac:(lia)) as (x & Hx & Hr). exists x. split_and!; [done|lia|lia|]. intros k Hk. apply Hl. lia.
Qed.

Lemma pcm_bytes_cons `{T : Target} channels l r i n rest x y : zget l i = Some x -> -2147483648 <= x < 2147479552 ->
  (channels = 2 -> zget r i = Some y /\ -2147483648 <= y < 2147479552) ->
  pcm_bytes channels l r (i + 1) n = Some rest -> pcm_bytes channels l r i (S n) = Some (instant channels x y ++ rest).
Proof.
  intros Hx Hxr Hy Hr. cbn [pcm_bytes]. rewrite Hx. cbn [mbind option_bind]. rewrite (scale_rounds x Hxr). unfold instant.
  destruct (Z.eqb_spec channels 2) as [Hc|Hc].
  - destruct (Hy Hc) as [-> Hyr]. cbn [mbind option_bind]. rewrite (scale_rounds y Hyr), Hr. by rewrite <- app_assoc.
  - rewrite Hr. by rewrite <- app_assoc.
Qed.

Lemma pcm_bytes_samples `{T : Target} channels l r : forall n i, roundable l i n -> (channels = 2 -> roundable r i n) ->
  exists b, pcm_bytes channels l r i n = Some b /\ zlen b = width_of channels * Z.of_nat n /\
  forall k, 0 <= k < Z.of_nat n ->
    sample_at b (width_of channels * k) = pcm16 <$> zget l (i + k) /\
    (channels = 2 -> sample_at b (4 * k + 2) = pcm16 <$> zget r (i + k)).
Proof.
  induction n as [|n IH]; intros i Hl Hr.
  { exists []. split_and!; [done|by rewrite Z.mul_0_r|intros; lia]. }
  apply roundable_S in Hl as (x & Hx & Hxr & Hl).
  assert (Hy : exists y, (channels = 2 -> zget r i = Some y /\ -2147483648 <= y < 2147479552) /\ (channels = 2 -> roundable r (i + 1) n)).
  { destruct (decide (channels = 2)) as [Hc|Hc]; [|by exists 0]. destruct (roundable_S _ _ _ (Hr Hc)) as (y & ? & ? & ?). by exists y. }
  destruct Hy as (y & Hy & Hr'). destruct (IH (i + 1) Hl Hr') as (rest & Hrest & Hlen & Hs).
  exists (instant channels x y ++ rest). pose proof (instant_len channels x y) as Hi.
  split; [by apply pcm_bytes_cons|]. split; [rewrite zlen_app, Hlen, Hi; lia|]. intros k Hk. destruct (Z.eq_dec k 0) as [->|Hk0].
  - rewrite Z.mul_0_r, Z.add_0_r, Hx, instant_left. split; [done|].
    intros Hc. destruct (Hy Hc) as [-> _]. rewrite Hc. apply instant_right.
  - destruct (Hs (k - 1) ltac:(lia)) as [H1 H2]. replace (i + 1 + (k - 1)) with (i + k) in * by lia.
    rewrite <- H1. split.
    + replace (width_of channels * k) with (zlen (instant channels x y) + width_of channels * (k - 1)) by lia.
      apply sample_at_skip. unfold width_of. destruct (channels =? 2); lia.
    + intros Hc. rewrite <- (H2 Hc).
      replace (4 * k + 2) with (zlen (instant channels x y) + (4 * (k - 1) + 2)); [apply sample_at_skip; lia|].
      rewrite Hi, Hc. change (width_of 2) with 4. lia.
Qed.

(** ** What [libmad_output] puts into the output ring *)

Section Output.
Context {H D : Type} `{T : Target} `{C : Config} `{P : Platform H} `{MD : Mad D}.

(** C13: A decoded frame goes into the output ring as one block, when the ring has room and the
    frame fits into a block: the pending blocks stay as they are, the new one comes behind them
    with the number of bytes, the rate and the channels of the frame, and its bytes are the
    frame's samples, 16 bits each, little endian, left before right: each is the decoder's
    fixed-point value [x] (one is 2^28) divided by 2^13, rounded to the nearest number and
    clipped to -32768 and 32767.  The samples are below 2^31 - 4096, so that the rounding does
    not overflow. *)
Theorem libmad_output_block s qi qo pcm :
  queues (s_io s) qi qo -> zlen qo < max_buffers (io_o (s_io s)) -> head (io_o (s_io s)) < 4294967295 ->
  mad_get_pcm (m_dec (s_mad s)) = pcm ->
  (pcm_channels pcm = 1 \/ pcm_channels pcm = 2) -> 0 <= pcm_length pcm ->
  pcm_channels pcm * pcm_length pcm * 2 <= IO_OUTPUT_BUFFER_SIZE ->
  roundable (pcm_left pcm) 0 (Z.to_nat (pcm_length pcm)) ->
  (pcm_channels pcm = 2 -> roundable (pcm_right pcm) 0 (Z.to_nat (pcm_length pcm))) ->
  wp libmad_output (fun _ s' => exists b bytes, queues (s_io s') qi (qo ++ [b]) /\
    out_used b = 2 * pcm_channels pcm * pcm_length pcm /\ out_rate b = snd_freq2rate (pcm_samplerate pcm) /\
    out_channels b = pcm_channels pcm /\ take (Z.to_nat (out_used b)) (out_data b) = bytes /\
    forall k, 0 <= k < pcm_length pcm ->
      let rounded x := Z.max (-32768) (Z.min 32767 ((x + 2 ^ 12) / 2 ^ 13)) in
      (exists x, zget (pcm_left pcm) k = Some x /\ sample_at bytes (2 * pcm_channels pcm * k) = Some (rounded x)) /\
      (pcm_channels pcm = 2 -> exists y, zget (pcm_right pcm) k = Some y /\ sample_at bytes (4 * k + 2) = Some (rounded y))) (s : state H D).
Proof.
  intros Hq Hroom Hlt Hpcm Hch Hlen Hfit Hleft Hright. unfold libmad_output. wp_step. apply wp_get. rewrite Hpcm.
  destruct (pcm_bytes_samples (pcm_channels pcm) _ _ _ _ Hleft Hright) as (bytes & Hbytes & Hbl & Hs). rewrite Z2Nat.id in Hbl, Hs by done.
  assert (Hw : width_of (pcm_channels pcm) = 2 * pcm_channels pcm) by (by destruct Hch as [->| ->]).
  rewrite Hw in *. unfold IO_OUTPUT_BUFFER_SIZE in Hfit.
  wp_step. unfold on_io at 1. wp_step. eapply wp_o_push_last; [done|done|done|]. intros i io Hl.
  wp_step. unfold on_io at 1. wp_step. eapply wp_with_output_last; [exact Hl|]. clear Hl.
  intros io1 Hl. destruct (o_last_queues _ _ _ _ _ Hl) as [_ Hg].
  wp_step. apply wp_get. wp_step. eapply wp_lift; [exact Hg|]. cbn [out_used out_size fresh_output].
  rewrite u16_id by lia. unfold IO_OUTPUT_BUFFER_SIZE.
  destruct (Z.gtb_spec (pcm_channels pcm * pcm_length pcm * 2) 4608); [lia|].
  wp_step. eapply wp_lift; [exact Hbytes|]. wp_step.
  eapply wp_lift.
  { unfold fill. rewrite (proj2 (Z.leb_le (zlen bytes) _)); [reflexivity|]. cbn [out_data fresh_output].
    change (zlen (repeat 0 _)) with 4608. lia. }
  unfold on_io. wp_step. eapply wp_with_output_last; [exact Hl|]. clear Hl. intros io2 Hl.
  destruct (o_last_queues _ _ _ _ _ Hl) as [Hq' _]. eexists _, bytes. split; [exact Hq'|].
  cbn [out_used out_rate out_channels out_data]. rewrite ?u16_id by lia.
  split_and!; [lia|done|done| |].
  - replace (Z.to_nat _) with (length bytes) by (unfold zlen in Hbl; lia). by rewrite take_app_length.
  - intros k Hk. cbv zeta. destruct (Hs k Hk) as [H1 H2]. rewrite Z.add_0_l in H1, H2. split.
    + destruct (Hleft k ltac:(lia)) as (x & Hx & _). exists x. split; [done|]. by rewrite H1, Hx.
    + intros Hc. destruct (Hright Hc k ltac:(lia)) as (y & Hy & _). exists y. split; [done|]. by rewrite (H2 Hc), Hy.
Qed.

(** ** What [libmad_input] gives to the decoder *)

Lemma wp_i_pop s b qi qo (Q : option Z -> io_t -> Prop) : queues s (b :: qi) qo ->
  (forall k s', zget (input s') k = Some b -> queues s' qi qo -> Q (Some k) s') -> wp i_pop Q s.
Proof.
  intros ((Hi & Hil & Ho & Hol) & Hqi & Hqo) HQ. unfold i_pop. do 2 wp_step. apply wp_io_pop; [done| |]; intros Hht.
  - unfold i_queue in Hqi. by rewrite pending_nil in Hqi.
  - destruct (pending_pop _ _ Hi Hil Hht) as (x & Hg & Hp). rewrite slot_index_valid by done. wp_steps.
    unfold i_queue in Hqi. rewrite Hp in Hqi. injection Hqi as -> Hqi.
    apply HQ; [exact Hg|]. unfold queues, io_ok, i_queue. simpl. split_and!; try done. by apply ring_ok_pop.
Qed.

Lemma fill_some data buf : zlen data <= zlen buf -> fill data buf = Some (data ++ drop (length data) buf).
Proof. intros Hle. unfold fill. by rewrite (proj2 (Z.leb_le _ _)). Qed.

(** The bytes moved to the start of the buffer. *)
Lemma keep_remaining_spec st n e buf : next_frame st = Some n -> 0 <= n <= e -> e <= zlen buf ->
  exists buf', keep_remaining st (e - n) buf = Some buf' /\ zlen buf' = zlen buf /\
    take (Z.to_nat (e - n)) buf' = take (Z.to_nat (e - n)) (drop (Z.to_nat n) buf).
Proof.
  intros Hn He Hl. unfold keep_remaining. destruct (Z.eqb_spec (e - n) 0) as [Hz|Hz].
  { exists buf. split_and!; [done|done|]. by rewrite Hz. }
  rewrite Hn, slice_some by lia. set (d := take _ (drop _ buf)).
  assert (Hd : length d = Z.to_nat (e - n)).
  { unfold d, zlen in *. rewrite length_take, length_drop. lia. }
  exists (d ++ drop (length d) buf). rewrite fill_some by (unfold zlen in *; lia). split_and!; [done| |].
  - rewrite zlen_app. unfold zlen in *. rewrite length_drop. lia.
  - rewrite <- Hd at 1. by rewrite take_app_length.
Qed.

Lemma append_block_spec k block buf : 0 <= k -> k + zlen block <= zlen buf ->
  exists buf', append_block k block buf = Some buf' /\ zlen buf' = zlen buf /\
    take (Z.to_nat (k + zlen block)) buf' = take (Z.to_nat k) buf ++ block.
Proof.
  intros Hk Hle. unfold append_block. destruct (Z.ltb_spec k 0); [lia|].
  destruct (Z.ltb_spec (zlen buf) (k + zlen block)); [lia|]. eexists. split; [reflexivity|].
  assert (Hl : length (take (Z.to_nat k) buf) = Z.to_nat k) by (unfold zlen in *; rewrite length_take; lia).
  split.
  - rewrite !zlen_app. unfold zlen in *. rewrite Hl, length_drop. lia.
  - rewrite app_assoc. rewrite take_app_length'; [done|]. rewrite length_app, Hl. unfold zlen. lia.
Qed.

(** C34: as long as it fits, a compressed block is appended to what the decoder has
    not used up: the decoder then sees the unused bytes followed by the bytes of
    the block, without a gap and in order, and the buffer keeps its size; the block
    is taken off the input ring, the output ring is untouched. *)
Theorem libmad_input_appends s n e b qi qo :
  next_frame (m_stream (s_mad s)) = Some n -> bufend (m_stream (s_mad s)) = Some e ->
  0 <= n <= e -> e <= LIBMAD_BUFFER_SIZE -> zlen (libmad_buffer (s_mad s)) = LIBMAD_BUFFER_SIZE + MAD_BUFFER_GUARD ->
  queues (s_io s) (b :: qi) qo -> 0 <= in_used b <= zlen (in_data b) ->
  0 < e - n + in_used b <= LIBMAD_BUFFER_SIZE ->
  wp libmad_input (fun flow s' =>
    let total := e - n + in_used b in
    flow = MAD_FLOW_CONTINUE /\ queues (s_io s') qi qo /\
    this_frame (m_stream (s_mad s')) = Some 0 /\ next_frame (m_stream (s_mad s')) = Some 0 /\
    bufend (m_stream (s_mad s')) = Some total /\
    zlen (libmad_buffer (s_mad s')) = zlen (libmad_buffer (s_mad s)) /\
    take (Z.to_nat total) (libmad_buffer (s_mad s')) =
      take (Z.to_nat (e - n)) (drop (Z.to_nat n) (libmad_buffer (s_mad s)))
      ++ take (Z.to_nat (in_used b)) (in_data b)) (s : state H D).
Proof.
  intros Hnf Hbe Hne Hemax Hbl Hq Hu Ht. unfold LIBMAD_BUFFER_SIZE, MAD_BUFFER_GUARD in *.
  destruct (keep_remaining_spec _ n e (libmad_buffer (s_mad s)) Hnf Hne ltac:(lia)) as (buf1 & Hk & Hl1 & Ht1).
  unfold libmad_input. wp_step. apply wp_get. wp_step.
  eapply wp_lift; [unfold mad_remain; rewrite Hbe, Hnf; reflexivity|]. rewrite u32_id by lia.
  wp_step. eapply wp_lift; [exact Hk|]. unfold upd_mad. wp_steps. unfold on_io at 1. wp_step.
  eapply wp_i_pop; [exact Hq|]. intros k io Hg Hq1. wp_step. apply wp_get. wp_step.
  eapply wp_lift; [exact Hg|]. rewrite u32_id by lia. cbv zeta. unfold LIBMAD_BUFFER_SIZE.
  destruct (Z.gtb_spec (in_used b + (e - n)) (2 * 1024 + 32)); [lia|]. wp_step.
  eapply wp_lift; [apply slice_some; lia|]. change (Z.to_nat 0) with O. rewrite drop_0.
  assert (Hbk : zlen (take (Z.to_nat (in_used b)) (in_data b)) = in_used b).
  { unfold zlen in *. rewrite length_take. lia. }
  destruct (append_block_spec (e - n) (take (Z.to_nat (in_used b)) (in_data b)) buf1) as (buf2 & Ha & Hl2 & Ht2); [lia|lia|].
  wp_step. cbn [set_io set_mad s_mad set_m_buffer libmad_buffer]. eapply wp_lift; [exact Ha|]. wp_steps.
  destruct (Z.eqb_spec (in_used b + (e - n)) 0); [lia|]. wp_steps. cbn. rewrite Hbk, Ht1 in Ht2.
  split_and!; try done; [f_equal; lia|lia].
Qed.

(** ** When the decoder runs *)

(** The decoder is only fed when every output buffer is free: as long as one
    block is pending for the sound device, [libmad_loop] does nothing. *)
Theorem libmad_loop_waits fuel s :
  ring_ok (io_o (s_io s)) -> max_buffers (io_o (s_io s)) = MAX_OUTPUT_BUFFERS ->
  o_queue (s_io s) <> [] ->
  libmad_loop fuel (s : state H D) = Done (tt, s, []).
Proof.
  intros Hr Hm Hq. unfold libmad_loop, bind, get. cbn.
  destruct (negb _); [done|]. destruct (bool_decide _); [done|].
  unfold on_io, zoom, i_used, gets. cbn. replace (set_io (s_io s) s) with s by (by destruct s).
  destruct (io_used (io_i (s_io s)) =? 0); [done|]. cbn.
  unfold o_free_size, gets. cbn. rewrite io_free_ok by done.
  destruct (Z.eq_dec (head (io_o (s_io s))) (tail (io_o (s_io s)))) as [He|Hne].
  { exfalso. apply Hq. by apply pending_nil. }
  destruct Hr as (_ & ? & _ & ?). rewrite Hm in *. unfold MAX_OUTPUT_BUFFERS, IO_OUTPUT_BUFFER_SIZE in *.
  rewrite (u16_id ((4 - _) * 4608)) by lia. unfold DECOMPRESS_SIZE, LIBMAD_BUFFER_SIZE.
  rewrite (proj2 (Z.ltb_lt ((4 - _) * 4608) _)) by lia. by destruct s.
Qed.
End Output.

(** ** Witnesses *)

#[local] Existing Instance linux_target.
#[local] Existing Instance demo_config.

Definition demo_block : input_s := Input (repeat 7 1024) 1024 10.

Lemma libmad_output_block_witness :
  wp libmad_output (fun _ s' => exists b, queues (s_io s') [demo_block] [b] /\ out_used b = 4) (compressed 10).
Proof.
  assert (Hone : forall l, l = [0] -> roundable l 0 1).
  { intros l -> k Hk. exists 0. replace k with 0 by lia. split; [done|lia]. }
  eapply wp_mono; [|apply (libmad_output_block (compressed 10) [demo_block] [] one_sample)].
  - intros [] s' (b & bytes & Hq & Hu & _). by exists b.
  - apply compressed_queues.
  - reflexivity.
  - reflexivity.
  - reflexivity.
  - by right.
  - done.
  - done.
  - by apply Hone.
  - intros _. by apply Hone.
Defined.

Lemma libmad_loop_waits_witness : libmad_loop 1 sounding = Done (tt, sounding, []).
Proof.
  apply (libmad_loop_waits 1 sounding).
  - unfold ring_ok. vm_compute. split_and!; done || (intros ?; discriminate).
  - vm_compute. reflexivity.
  - vm_compute. discriminate.
Defined.

(** The stream after [libmad_init] has no buffer; here three bytes are left in it. *)
Definition three_left : demo_state :=
  final (upd_mad (set_m_stream (MadStream (Some 2) (Some 5) (Some 8) 0 0))) (compressed 10).

Lemma libmad_input_appends_witness :
  wp libmad_input (fun flow s' => flow = MAD_FLOW_CONTINUE /\ queues (s_io s') [] [] /\
    bufend (m_stream (s_mad s')) = Some 13) three_left.
Proof.
  eapply wp_mono; [|apply (libmad_input_appends three_left 5 8 demo_block [] [])].
  - intros flow s' (? & ? & ? & ? & ? & _). done.
  - reflexivity.
  - reflexivity.
  - done.
  - done.
  - vm_compute. reflexivity.
  - exact compressed_queues.
  - split; [done|]. vm_compute. discriminate.
  - done.
Defined.

(** ** Many short frames *)

(** The room is checked once per compressed block, not once per frame.  A
    block that holds more frames than there are output buffers overruns the ring:
    after ten frames the ring counts five blocks in four buffers, so that
    [o_free()] is 65535 and [o_free_size()] claims 60928 free bytes; the decoder
    goes on, and the first frames are lost. *)
Theorem libmad_loop_overruns :
  is_done (libmad_loop LIBMAD_FUEL) (compressed 10) = true /\
  let io := s_io (final (libmad_loop LIBMAD_FUEL) (compressed 10)) in
  m_frames (s_mad (final (libmad_loop LIBMAD_FUEL) (compressed 10))) = 10 /\
  io_used (io_o io) = 5 /\ io_free (io_o io) = 65535 /\
  wp o_free_size (fun n _ => n = 60928) io.
Proof. vm_compute. split_and!; reflexivity. Qed.
