(* ===== verification/FsProps.v ===== *)
(** * Theorems about common/fs.c *)

From S2P Require Import Prelude Strings Libc Snd IoBuffer Console Event Cmd Id3tag Net Resfs Salloc State.
From S2P Require Import Fs LcdPanel Libmad Player Main Keeps FsKeeps System HostNull LibmadProps.

(** ** The chunks of a RIFF file

    [chunks debug buff off fmt w]: from offset [off] on, with [fmt] the last "fmt " chunk
    seen, there is a row of "fmt " and "fact" chunks of any size inside the first 128
    bytes, and then the chunk that [w] tells: the "data" chunk at its offset with the last
    "fmt " chunk before it, or a chunk of another kind.  With debug messages the code also
    prints the fields of a chunk, which must then lie in the 128 bytes even when the chunk
    says that it is shorter. *)
Inductive chunks (debug : bool) (buff : list Z) : Z -> option Z -> riff_walk -> Prop :=
| chunks_data off fmt : le32 buff off = Some RIFF_DATA -> off + 8 <= 128 -> chunks debug buff off fmt (RiffData off fmt)
| chunks_other off fmt sig : le32 buff off = Some sig -> sig <> RIFF_DATA -> sig <> RIFF_FMT -> sig <> RIFF_FACT -> off + 8 <= 128 ->
    chunks debug buff off fmt (RiffUnknown sig)
| chunks_fmt off fmt size w :
    le32 buff off = Some RIFF_FMT -> le32 buff (off + 4) = Some size -> off + 8 + size <= 128 -> (debug = true -> off + 24 <= 128) ->
    chunks debug buff (off + 8 + size) (Some (off + 8)) w -> chunks debug buff off fmt w
| chunks_fact off fmt size w :
    le32 buff off = Some RIFF_FACT -> le32 buff (off + 4) = Some size -> off + 8 + size <= 128 -> (debug = true -> off + 12 <= 128) ->
    chunks debug buff (off + 8 + size) fmt w -> chunks debug buff off fmt w.

Lemma le16_some l off : 0 <= off -> off + 2 <= zlen l -> exists x, le16 l off = Some x.
Proof.
  intros Ho Hl. unfold le16. destruct (zget_some l off) as [a ->]; [lia|].
  destruct (zget_some l (off + 1)) as [b ->]; [lia|]. eauto.
Qed.
Lemma le32_some l off : 0 <= off -> off + 4 <= zlen l -> exists x, le32 l off = Some x.
Proof.
  intros Ho Hl. unfold le32. destruct (le16_some l off) as [a ->]; [lia|lia|].
  destruct (le16_some l (off + 2)) as [b ->]; [lia|lia|]. eauto.
Qed.

Section Riff.
Context {H D : Type} `{T : Target} `{C : Config} `{P : Platform H}.
Implicit Types s : state H D.

Lemma next_block_small off size : 0 <= size < 4294967296 -> off + 8 + size <= 128 -> 0 <= off ->
  next_block off size = Some (off + 8 + size).
Proof.
  intros Hs Hle Ho. unfold next_block, ulong.
  replace (if long64 then u64 (size + 8) else u32 (size + 8)) with (size + 8) by (destruct long64; wraps; lia).
  rewrite (proj2 (Z.leb_le (off + (size + 8)) 128)) by lia. f_equal. lia.
Qed.

(** Debug messages change nothing. *)
Definition quiet (m : M (state H D) unit) : Prop := forall s (Q : unit -> state H D -> Prop), Q tt s -> wp m Q s.

Lemma quiet_debug fmt args : fmt_ok fmt args = true -> quiet (fs_debug fmt args).
Proof. intros Hf s Q HQ. unfold fs_debug. apply wp_when; intros _; [by apply wp_xprintf|done]. Qed.

Lemma quiet_debug_fmt buff fmt : 0 <= fmt -> (CONFIG_FS_DEBUG = true -> fmt + 16 <= zlen buff) -> quiet (debug_fmt buff fmt).
Proof.
  intros Hf Hl s Q HQ. unfold debug_fmt. apply wp_when; intros Hd; [specialize (Hl Hd)|done].
  destruct (le16_some buff fmt) as [x1 H1]; [lia|lia|]. destruct (le16_some buff (fmt + 2)) as [x2 H2]; [lia|lia|].
  destruct (le32_some buff (fmt + 4)) as [x3 H3]; [lia|lia|]. destruct (le32_some buff (fmt + 8)) as [x4 H4]; [lia|lia|].
  destruct (le16_some buff (fmt + 12)) as [x5 H5]; [lia|lia|]. destruct (le16_some buff (fmt + 14)) as [x6 H6]; [lia|lia|].
  repeat first [wp_step; eapply wp_lift; [eassumption|] | wp_step; apply wp_xprintf; [reflexivity|] | apply wp_xprintf; [reflexivity|done]].
Qed.

(** The messages before a chunk is looked at. *)
Lemma wp_block_head buff off sig (k : Z -> M (state H D) riff_walk) Q s :
  zlen buff = 128 -> 0 <= off -> off + 8 <= 128 -> le32 buff off = Some sig -> wp (k sig) Q s ->
  wp (fs_debug &"%s: RIFF block (0x%x):\n" [AStr fn_open_riff; ALong off] ;;
      let* signature := lift (le32 buff off) in
      when CONFIG_FS_DEBUG
        (let* size := lift (le32 buff (off + 4)) in
         xprintf &"%s:  size: %d (0x%x)\n" [AStr fn_open_riff; AInt size; AInt size] ;;
         xprintf &"%s:  signature: 0x%x (%c%c%c%c)\n"
           [AStr fn_open_riff; AInt signature; AInt (Z.land signature 255);
            AInt (Z.land (Z.shiftr signature 8) 255); AInt (Z.land (Z.shiftr signature 16) 255);
            AInt (Z.land (Z.shiftr signature 24) 255)]) ;;
      k signature) Q s.
Proof.
  intros Hl Ho Ho8 Hsig Hk. destruct (le32_some buff (off + 4)) as [sz Hsz]; [lia|lia|].
  wp_step. apply quiet_debug; [reflexivity|]. wp_step. eapply wp_lift; [exact Hsig|]. wp_step.
  apply wp_when; intros _; [|done]. wp_step. eapply wp_lift; [exact Hsz|].
  wp_step. apply wp_xprintf; [reflexivity|]. by apply wp_xprintf.
Qed.

Lemma wp_riff_blocks buff off fmt w s : zlen buff = 128 -> chunks CONFIG_FS_DEBUG buff off fmt w ->
  forall fuel, 0 <= off <= 128 -> 128 - off < 8 * Z.of_nat fuel ->
  wp (riff_blocks fuel buff off fmt) (fun r s' => r = w /\ s' = s) s.
Proof.
  intros Hlen Hc.
  induction Hc as [off fmt Hd Hle|off fmt sig Hg Hn1 Hn2 Hn3 Hle|off fmt size w Hf Hs Hle Hdbg _ IH|off fmt size w Hf Hs Hle Hdbg _ IH];
    intros [|fuel] Ho Hfuel; try lia; cbn [riff_blocks].
  - apply (wp_block_head _ off RIFF_DATA); [done|lia|lia|done|]. change (RIFF_DATA =? RIFF_FMT) with false.
    change (RIFF_DATA =? RIFF_FACT) with false. change (RIFF_DATA =? RIFF_DATA) with true. cbn iota.
    wp_step. apply quiet_debug; [reflexivity|]. by apply wp_ret.
  - apply (wp_block_head _ off sig); [done|lia|lia|done|]. rewrite !(proj2 (Z.eqb_neq _ _)) by done. by apply wp_ret.
  - pose proof (le32_range _ _ _ Hs). apply (wp_block_head _ off RIFF_FMT); [done|lia|lia|done|].
    change (RIFF_FMT =? RIFF_FMT) with true. cbn iota. wp_step. apply quiet_debug; [reflexivity|].
    wp_step. apply quiet_debug_fmt; [lia|intros Hd; specialize (Hdbg Hd); lia|]. wp_step. eapply wp_lift; [exact Hs|]. wp_step.
    eapply wp_lift; [apply next_block_small; lia|]. apply IH; lia.
  - pose proof (le32_range _ _ _ Hs). apply (wp_block_head _ off RIFF_FACT); [done|lia|lia|done|].
    change (RIFF_FACT =? RIFF_FMT) with false. change (RIFF_FACT =? RIFF_FACT) with true. cbn iota.
    wp_step. apply quiet_debug; [reflexivity|]. wp_step.
    apply wp_when; intros Hd; [destruct (le32_some buff (off + 8)) as [sl Hsl]; [lia|specialize (Hdbg Hd); lia|];
      wp_step; eapply wp_lift; [exact Hsl|]; apply wp_xprintf; [reflexivity|]|];
      (wp_step; eapply wp_lift; [exact Hs|]; wp_step; eapply wp_lift; [apply next_block_small; lia|]; apply IH; lia).
Qed.

(** C35: On every file whose first 128 bytes hold the chunks up to the header of the first one
    that is neither "fmt " nor "fact", the walk of [fs_open_riff] ends there, on 32-bit and
    64-bit targets, however many "fmt " and "fact" chunks come first and whatever their sizes,
    zero included: it finds the "data" chunk and the last format chunk before it, or reports
    the signature of the other chunk.  When debug messages are switched on, the fields they
    print must lie in the 128 bytes too: 16 bytes of every "fmt " and 4 of every "fact" chunk. *)
Theorem riff_walk_finds_data buff w s :
  zlen buff = 128 -> chunks CONFIG_FS_DEBUG buff 12 None w ->
  wp (riff_blocks RIFF_FUEL buff 12 None) (fun r s' => r = w /\ s' = s) s.
Proof. intros Hl Hc. by apply wp_riff_blocks. Qed.
End Riff.

(** ** Chunk sizes on a 32-bit target *)

(** "RIFF", a size, "WAVE", then a "fact" chunk of size 0xFFFFFFF8. *)
Definition looping_header : list Z :=
  &"RIFF" ++ [0; 0; 0; 0] ++ &"WAVE" ++ &"fact" ++ [248; 255; 255; 255] ++ repeat 0 108.

Lemma bind_NoFuel {S A B} (m : M S A) (k : A -> M S B) s :
  wp m (fun a s' => k a s' = NoFuel) s -> bind m k s = NoFuel.
Proof. unfold wp, bind. destruct (m s) as [[[a s'] o]| |]; [|done|done]. by intros ->. Qed.

(** On the STM32 [size_t] has 32 bits, and a chunk of size 0xFFFFFFF8 moves
    the pointer by nothing: the walk visits it again and again, and no number of
    rounds is enough.  A file that starts like this stops the player for good. *)
Theorem riff_walk_loops_on_32_bit {H D} (C : Config) (P : Platform H) (s : state H D) fmt fuel :
  @riff_blocks H D stm32_target C fuel looping_header 12 fmt s = NoFuel.
Proof.
  induction fuel as [|fuel IH]; [done|]. cbn [riff_blocks].
  apply bind_NoFuel, quiet_debug; [reflexivity|].
  change (le32 looping_header 12) with (Some RIFF_FACT). apply bind_NoFuel, wp_ret, bind_NoFuel.
  apply (wp_mono _ (fun _ s' => s' = s)).
  2: { apply wp_when; intros _; [|done]. change (le32 looping_header (12 + 4)) with (Some 4294967288).
       wp_step. apply wp_ret. wp_step. wp_print. by wp_print. }
  intros [] s' ->. change (RIFF_FACT =? RIFF_FMT) with false. change (RIFF_FACT =? RIFF_FACT) with true. cbn iota.
  apply bind_NoFuel, quiet_debug; [reflexivity|]. apply bind_NoFuel.
  apply (wp_mono _ (fun _ s' => s' = s)).
  2: { apply wp_when; intros _; [|done]. change (le32 looping_header (12 + 8)) with (Some 0).
       wp_step. apply wp_ret. by wp_print. }
  intros [] s' ->. change (le32 looping_header (12 + 4)) with (Some 4294967288). apply bind_NoFuel, wp_ret.
  change (@next_block stm32_target 12 4294967288) with (Some 12). apply bind_NoFuel, wp_ret. exact IH.
Qed.

(** ** Handles *)

Definition sources (f : fss_t) : list fssource_e := map fh_source (fss_handles f).

Lemma sources_zset f i h l : zset (fss_handles f) i h = Some l ->
  sources (set_fhandles l f) = <[Z.to_nat i := fh_source h]> (sources f).
Proof.
  unfold zset, sources. destruct (_ && _); [|done]. intros [= <-]. simpl. by rewrite list_fmap_insert.
Qed.

Section Handles.
Context {H D : Type} `{T : Target} `{C : Config} `{P : Platform H} `{PL : !PlatformLaws H P}
  `{MD : Mad D} `{ML : !MadLaws D MD}.
Context (c : con_t) (e : ev_t) (p : pl_t).
Abbreviation B := (@base H D P PL MD ML c e p).

(** Closing an open handle marks its slot closed. *)
Lemma pp_fs_close_source f i h s (Q : unit -> state H D -> Prop) : B f s ->
  0 <= i < MAX_OPEN_FILES -> zget (fss_handles f) i = Some h -> fh_source h <> FSO_CLOSED ->
  (forall f' s', B f' s' -> sources f' = <[Z.to_nat i := FSO_CLOSED]> (sources f) ->
     fss_handle f' = fss_handle f -> fss_state f' = fss_state f -> fss_type f' = fss_type f -> Q tt s') ->
  pp (fs_close i) Q s.
Proof.
  intros Hb Hi Hg Ho HQ. unfold fs_close. pp_step. eapply keeps_pp; [apply keeps_fs_debug|exact Hb|]. intros _ s1 Hb1.
  unfold bad_handle, MAX_OPEN_FILES in *. replace ((i <? 0) || (i >? 3)) with false by lia.
  pp_step. unfold get_handle. pp_step. apply pp_get. rewrite (base_fss _ _ _ _ _ Hb1), Hg. apply pp_lift. intros ? [= <-].
  assert (Hset : forall s2, B f s2 -> pp (set_handle i (FsHandle FSO_CLOSED (fh_handle h))) Q s2).
  { intros s2 Hb2. eapply pp_set_handle; [done|]. intros l s3 Hl Hb3. eapply HQ; [exact Hb3| |done|done|done].
    by rewrite (sources_zset _ _ _ _ Hl). }
  destruct (fh_source h); [done| |]; (pp_step; eapply (keeps_pp (B f)); [keep|exact Hb1|]; intros ? ? ?; by apply Hset).
Qed.

Lemma sources_open_close f i h0 h l : zget (fss_handles f) i = Some h0 -> fh_source h0 = FSO_CLOSED ->
  zset (fss_handles f) i h = Some l ->
  <[Z.to_nat i := FSO_CLOSED]> (sources (set_fhandles l f)) = sources f.
Proof.
  intros Hg Hc Hset. rewrite (sources_zset _ _ _ _ Hset), list_insert_insert_eq.
  apply list_insert_id. unfold sources. rewrite list_lookup_fmap.
  unfold zget in Hg. destruct (i <? 0); [done|]. by rewrite Hg; simpl; rewrite Hc.
Qed.
End Handles.

Section Release.
Context {H D : Type} `{T : Target} `{C : Config} `{P : Platform H} `{PL : !PlatformLaws H P}
  `{MD : Mad D} `{ML : !MadLaws D MD}.

(** Looking at the type of a file gives back the handle it took: afterwards the
    same slots are open as before, the file that is played is still played, and its
    type and state are unchanged. *)
Theorem fs_type_releases_handle name s :
  host_ok (s_host s) -> io_wf (s_io s) -> lcd_wf (s_lcd s) -> mad_wf (s_mad s) ->
  pp (fs_type name) (fun _ s' => sources (s_fss s') = sources (s_fss s) /\
    fss_handle (s_fss s') = fss_handle (s_fss s) /\ fss_state (s_fss s') = fss_state (s_fss s) /\
    fss_type (s_fss s') = fss_type (s_fss s)) (s : state H D).
Proof.
  intros Hh Hio Hl Hm. set (c := s_con s). set (e := s_ev s). set (p := s_pl s).
  assert (Hb : base c e p (s_fss s) s) by (by split_and!). generalize dependent (s_fss s). intros f Hb.
  unfold fs_type. pp_step. eapply pp_fs_open; [exact Hb| |].
  - intros s1 Hb1. change (-1 =? -1) with true. cbn iota. eapply (keeps_pp (base c e p f)); [keep|exact Hb1|].
    intros _ s2 Hb2. by rewrite (base_fss _ _ _ _ _ Hb2).
  - intros i h0 h l s1 Hi Hg Hc Ho Hset Hb1. destruct (Z.eqb_spec i (-1)); [lia|].
    pp_step. eapply keeps_pp; [apply keeps_fs_read|exact Hb1|]. intros [got buff] s2 Hb2.
    pp_step. eapply pp_fs_close_source; [exact Hb2|done|by eapply zget_zset_eq|done|].
    intros f' s3 Hb3 Hsrc Hhd Hst Hty. rewrite (sources_open_close _ _ _ _ _ Hg Hc Hset) in Hsrc.
    eapply (keeps_pp (base c e p f')); [keep|exact Hb3|]. intros _ s4 Hb4.
    by rewrite (base_fss _ _ _ _ _ Hb4).
Qed.
End Release.

(** ** Handles that are never given back *)

#[local] Existing Instance linux_target.
#[local] Existing Instance demo_config.

(** A sound file whose first chunk is neither "fmt " nor "fact": "LIST", as many
    programs write it. *)
Definition list_wav : list Z :=
  &"RIFF" ++ [92; 0; 0; 0] ++ &"WAVE" ++ &"LIST" ++ [26; 0; 0; 0] ++ repeat 0 108.
Definition wav_res (data : list Z) : rs_t :=
  Rs 0 [RsEntry (Some &"a.wav") (zlen data) data 4096 0; null_entry].
Definition with_wav (data : list Z) : demo_state := final init_linux (boot demo_heap tt (wav_res data)).

Fixpoint play_times (n : nat) : M demo_state unit :=
  match n with O => ret tt | S n => fs_play &"a.wav" ;; play_times n end.

(** [fs_open_riff] stops without closing the file it opened when it does not
    like the file.  The read position of the resource stays behind as well, so
    that every other attempt finds the file too small; after five attempts the
    three handles are used up, and no file can be opened any more. *)
Theorem fs_open_riff_leaks :
  let s := final (play_times 5) (with_wav list_wav) in
  is_done (play_times 5) (with_wav list_wav) = true /\
  sources (s_fss (with_wav list_wav)) = [FSO_CLOSED; FSO_CLOSED; FSO_CLOSED] /\
  sources (s_fss s) = [FSO_RESOURCE; FSO_RESOURCE; FSO_RESOURCE] /\ fss_handle (s_fss s) = -1 /\
  wp (fs_open &"a.wav") (fun r _ => r = -1) s.
Proof. vm_compute. split_and!; reflexivity. Qed.

(** ** Playing a sound file *)

(** A canonical file: 16 bytes of format, then [n] bytes of data. *)
Definition pcm_wav : list Z :=
  &"RIFF" ++ [236; 0; 0; 0] ++ &"WAVE" ++ &"fmt " ++ [16; 0; 0; 0] ++
  [1; 0; 2; 0] ++ [68; 172; 0; 0] ++ [16; 177; 2; 0] ++ [4; 0; 16; 0] ++
  &"data" ++ [200; 0; 0; 0] ++ repeat 9 200.

(** Playing a canonical stereo file of 44100 Hz opens it with this rate and
    these channels, but the file is positioned on the header of the data chunk, 8
    bytes before the first sample: the first block that is played starts with the
    bytes of the word "data" and of the chunk's size. *)
Theorem fs_play_starts_at_chunk_header :
  let m := fs_play &"a.wav" ;; fs_poll in
  let s := final m (with_wav pcm_wav) in
  is_done m (with_wav pcm_wav) = true /\
  fss_state (s_fss s) = FSS_OPEN /\ fss_type (s_fss s) = FST_RIFF /\
  fss_rate (s_fss s) = SR_44100_HZ /\ fss_channels (s_fss s) = 2 /\
  match o_queue (s_io s) with
  | [b] => out_used b = 208 /\ out_rate b = SR_44100_HZ /\ out_channels b = 2 /\
      take 10 (out_data b) = &"data" ++ [200; 0; 0; 0; 9; 9]
  | _ => False
  end.
Proof. vm_compute. split_and!; reflexivity. Qed.

(** ** The poller of sound files *)

Section Poll.
Context {H D : Type} `{T : Target} `{C : Config} `{P : Platform H}.

(** Reading through a handle of fs.c that stands for a resource. *)
Lemma wp_fs_read_res hd n rh e (s : state H D) (Q : Z * list Z -> state H D -> Prop) :
  0 <= hd < MAX_OPEN_FILES -> zget (fss_handles (s_fss s)) hd = Some (FsHandle FSO_RESOURCE rh) ->
  res_ok (s_res s) -> 0 <= rh < rs_count (s_res s) -> zget (entries (s_res s)) rh = Some e ->
  0 < n -> rs_size e + n <= 2147483647 -> 0 <= rs_pos e <= rs_size e ->
  (forall r, let k := Z.min n (rs_size e - rs_pos e) in
     zget (entries r) rh = Some (set_pos (rs_pos e + k) e) ->
     Q (k, take (Z.to_nat k) (drop (Z.to_nat (rs_pos e)) (rs_data e))) (set_res r s)) ->
  wp (fs_read hd n) Q s.
Proof.
  intros Hh Hg Hr Hrh He Hn Hmax Hp HQ. unfold fs_read, bad_handle, MAX_OPEN_FILES in *.
  replace ((hd <? 0) || (hd >? 3)) with false by lia. rewrite (proj2 (Z.eqb_neq n 0)) by lia.
  wp_step. unfold get_handle. wp_steps. eapply wp_lift; [exact Hg|]. cbn [fh_source fh_handle].
  wp_step. unfold on_res. wp_step. eapply wp_mono; [|apply (wp_res_read _ _ e n); try done; lia].
  intros [k d] r ([= -> ->] & _ & _ & Hnew & _). apply wp_ret. rewrite u32_id by lia. by apply HQ.
Qed.

(** C12: While a sound file out of the resources is played, its read position is before its end and
    an output buffer is free, a poll appends exactly the next bytes of the file, up to one buffer full,
    as a block with the rate and the channels of the file, behind the blocks that
    are pending, and moves the read position behind them. *)
Theorem fs_poll_next_block (s : state H D) hd rh e qi qo :
  fss_handle (s_fss s) = hd -> 0 <= hd < MAX_OPEN_FILES -> fss_type (s_fss s) = FST_RIFF ->
  zget (fss_handles (s_fss s)) hd = Some (FsHandle FSO_RESOURCE rh) ->
  res_ok (s_res s) -> 0 <= rh < rs_count (s_res s) -> zget (entries (s_res s)) rh = Some e ->
  0 <= rs_pos e < rs_size e -> rs_size e = zlen (rs_data e) -> rs_size e <= 2147479039 ->
  queues (s_io s) qi qo -> zlen qo < max_buffers (io_o (s_io s)) -> head (io_o (s_io s)) < 4294967295 ->
  wp fs_poll (fun _ s' => exists b, let n := Z.min IO_OUTPUT_BUFFER_SIZE (rs_size e - rs_pos e) in
    queues (s_io s') qi (qo ++ [b]) /\ out_used b = n /\
    take (Z.to_nat n) (out_data b) = take (Z.to_nat n) (drop (Z.to_nat (rs_pos e)) (rs_data e)) /\
    out_rate b = fss_rate (s_fss s) /\ out_channels b = fss_channels (s_fss s) /\
    zget (entries (s_res s')) rh = Some (set_pos (rs_pos e + n) e) /\ s_fss s' = s_fss s) s.
Proof.
  intros Hhd Hr Hty Hg Hrok Hrh He Hp Hsz Hmax Hq Hroom Hlt.
  unfold fs_poll. wp_step. apply wp_get. rewrite Hhd. destruct (Z.eqb_spec hd (-1)); [lia|]. rewrite Hty.
  assert (Hrel : head (io_o (s_io s)) - tail (io_o (s_io s)) < max_buffers (io_o (s_io s))).
  { destruct Hq as ((_ & _ & ? & Hol) & _ & Hqo). rewrite <- Hqo in Hroom. unfold o_queue in Hroom.
    by rewrite pending_length in Hroom. }
  unfold fs_poll_riff. wp_step. unfold on_io at 1, o_free. wp_steps.
  rewrite io_free_ok by apply Hq. rewrite (proj2 (Z.eqb_neq _ 0)) by lia.
  wp_step. unfold on_io at 1. wp_step. eapply wp_o_push_last; [exact Hq|done|done|]. intros i io1 Hl.
  destruct (o_last_queues _ _ _ _ _ Hl) as [_ Hg1].
  wp_step. unfold read_into_output. wp_step. apply wp_get. wp_step. eapply wp_lift; [exact Hg1|].
  wp_step. cbn [set_io s_fss fresh_output out_size]. rewrite Hhd. unfold IO_OUTPUT_BUFFER_SIZE in *.
  eapply (wp_fs_read_res hd 4608 rh e); try done; cbn [set_io s_res s_fss]; try done; try lia.
  intros r Hnew. set (k := 4608 `min` (rs_size e - rs_pos e)) in *. set (data := take _ _). assert (Hk : 0 < k <= 4608) by lia.
  assert (Hdl : length data = Z.to_nat k).
  { unfold data, zlen in *. rewrite length_take, length_drop. lia. }
  wp_step. eapply wp_lift.
  { apply fill_some. cbn [fresh_output out_data]. change (zlen (repeat 0 _)) with 4608. unfold zlen. lia. }
  wp_step. unfold on_io at 1. wp_step. eapply wp_with_output_last; [exact Hl|]. clear Hl. intros io2 Hl.
  wp_step. destruct (Z.eqb_spec k MINUS1) as [E|_]; [unfold MINUS1 in E; lia|].
  rewrite (proj2 (Z.eqb_neq k 0)) by lia. wp_step. apply wp_get. unfold on_io. wp_step.
  eapply wp_with_output_last; [exact Hl|]. clear Hl. intros io3 Hl.
  destruct (o_last_queues _ _ _ _ _ Hl) as [Hq3 _]. eexists. cbv zeta. split; [exact Hq3|].
  cbn [out_used out_data out_rate out_channels set_io set_res s_res s_fss]. rewrite u16_id by lia.
  fold k data. split_and!; try done. rewrite <- Hdl. by rewrite take_app_length.
Qed.
End Poll.

(** ** Witnesses *)

Definition pcm_head : list Z := take 128 pcm_wav.

Lemma pcm_chunks debug : chunks debug pcm_head 12 None (RiffData 36 (Some 20)).
Proof.
  eapply (chunks_fmt _ _ _ _ 16); [reflexivity|reflexivity|lia|lia|]. by apply chunks_data.
Qed.

Lemma riff_walk_finds_data_witness :
  wp (riff_blocks RIFF_FUEL pcm_head 12 None) (fun w s' => w = RiffData 36 (Some 20) /\ s' = started) started.
Proof. apply (riff_walk_finds_data pcm_head (RiffData 36 (Some 20)) started); [reflexivity|apply pcm_chunks]. Defined.

Lemma fs_type_releases_handle_witness :
  pp (fs_type &"a.wav") (fun _ s' => sources (s_fss s') = sources (s_fss started) /\
    fss_handle (s_fss s') = -1 /\ fss_state (s_fss s') = FSS_CLOSED /\ fss_type (s_fss s') = FST_UNKNOWN) started.
Proof. apply (fs_type_releases_handle &"a.wav" started); [exact I|apply started_inv..|exact started_mad]. Defined.

Definition playing_wav : demo_state := final (fs_play &"a.wav") (with_wav pcm_wav).

Definition wav_entry : rsentry_s := RsEntry (Some &"a.wav") 244 pcm_wav 4096 36.

Lemma playing_wav_res : s_res playing_wav = Rs 1 [wav_entry; null_entry].
Proof. vm_compute. reflexivity. Qed.

Lemma playing_wav_ok : res_ok (s_res playing_wav).
Proof.
  rewrite playing_wav_res. exists [wav_entry], null_entry, []. split_and!; try done. constructor; [|done].
  split; [exists (&"a.wav"); split; [done|repeat constructor]|]. cbn. done.
Qed.

Lemma playing_wav_queues : queues (s_io playing_wav) [] [].
Proof. unfold queues, io_ok, ring_ok. vm_compute. split_and!; try done; intros ?; discriminate. Qed.

Lemma fs_poll_next_block_witness :
  wp fs_poll (fun _ s' => exists b, queues (s_io s') [] [b] /\ out_used b = 208) playing_wav.
Proof.
  eapply wp_mono; [|apply (fs_poll_next_block playing_wav 0 0 wav_entry [] [])].
  - intros [] s' (b & Hq & Hu & _). by exists b.
  - vm_compute. reflexivity.
  - done.
  - vm_compute. reflexivity.
  - vm_compute. reflexivity.
  - apply playing_wav_ok.
  - rewrite playing_wav_res. done.
  - rewrite playing_wav_res. done.
  - done.
  - reflexivity.
  - done.
  - apply playing_wav_queues.
  - vm_compute. reflexivity.
  - vm_compute. reflexivity.
Defined.
