(* ===== verification/PlayerProps.v ===== *)
(** * Theorems about common/player.c and the commands *)

From S2P Require Import Prelude Strings Libc Snd IoBuffer Console Event Cmd Id3tag Net Resfs Salloc.
From S2P Require Import State Fs LcdPanel Libmad Player Main Keeps FsKeeps System HostNull.

(** ** The player's state machine

    What one [pl_poll] makes of the player's state, from the states of the other
    components and the fill levels of the rings. *)
Definition poll_spec (st : pl_state_e) (src : pl_source_e) (net : net_state_e) (snd : sound_state_e)
    (mad : libmad_state_e) (fs : fs_state_e) (full starving : bool) : pl_state_e :=
  if negb (pl_running st) then st
  else if bool_decide (net = NET_ERROR) || bool_decide (snd = SS_ERROR) || bool_decide (mad = LM_ERROR) then PL_STOP
  else if bool_decide (src = PS_FILE) && bool_decide (fs = FSS_CLOSED) then PL_STOP
  else if bool_decide (src = PS_NET) && bool_decide (net = NET_CLOSED) then PL_STOP
  else
    let st := if bool_decide (st = PL_BUFFERING) && full then PL_PLAYING else st in
    if bool_decide (st = PL_PLAYING) && starving then PL_BUFFERING else st.

Definition starving (io : io_t) : bool := (io_used (io_i io) =? 0) && (io_used (io_o io) =? 0).

Section Poll.
Context {H D : Type} `{T : Target} `{C : Config} `{P : Platform H} `{PL : !PlatformLaws H P}
  `{MD : Mad D} `{ML : !MadLaws D MD}.
Context (c : con_t) (e : ev_t).
Abbreviation J := (@plJ H D P PL MD ML c e).

Definition stopped (s : state H D) : Prop := J s /\ pl_st (s_pl s) = PL_STOP.

Lemma pp_pl_stop_running s (Q : unit -> state H D -> Prop) : J s -> pl_running (pl_st (s_pl s)) = true ->
  (forall s', stopped s' -> Q tt s') -> pp pl_stop Q s.
Proof.
  intros Hs Hr HQ.
  assert (Hst : pp pl_stop (fun _ s' => pl_st (s_pl s') = PL_STOP) s).
  { destruct Hs as (p & f & Hb & Hok & Hpl). rewrite (base_pl _ _ _ _ _ Hb) in Hr.
    unfold pl_stop. pp_step. eapply keeps_pp; [apply keeps_pl_debug|exact Hb|]. clear s Hb. intros _ s Hb.
    pp_step. apply pp_get. rewrite (base_pl _ _ _ _ _ Hb), Hr.
    pp_step. eapply pp_fs_stop; [done|done|]. clear s Hb. intros f' s Hb _ _ _.
    pp_step. eapply keeps_pp; [apply keeps_net_close|exact Hb|]. clear s Hb. intros _ s Hb.
    pp_step. eapply keeps_pp; [apply keeps_libmad_done|exact Hb|]. clear s Hb. intros _ s Hb.
    pp_step. eapply pp_upd_pl; [exact Hb|]. clear s Hb. intros s Hb.
    eapply keeps_pp; [apply keeps_lcd_stop|exact Hb|]. intros [] s5 Hb5. by rewrite (base_pl _ _ _ _ _ Hb5). }
  eapply pp_mono; [|apply pp_conj; [by apply keeps_pl_stop|exact Hst]]. intros [] s' [? ?]. by apply HQ.
Qed.

Lemma pp_pl_stop_stopped s (Q : unit -> state H D -> Prop) : stopped s -> Q tt s -> pp pl_stop Q s.
Proof.
  intros [_ Hst] HQ. unfold pl_stop, pl_debug. pp_step. apply pp_when; intros _; [apply pp_xprintf|];
    (pp_step; apply pp_get; rewrite Hst; by apply pp_ret).
Qed.

Lemma plJ_switch s st : J s -> pl_running (pl_st (s_pl s)) = true -> pl_running st = true ->
  J (set_pl (set_pl_st st (s_pl s)) s).
Proof.
  intros (p & f & (? & ? & ? & ? & ? & ? & Hp & ?) & Hok & (? & ? & ? & Hs & Hf)) Hr Hr'. rewrite Hp in *.
  exists (set_pl_st st p), f. split; [by split_and!|]. split; [done|]. unfold pl_ok. simpl.
  split_and!; try done; [lia|lia|by intros ->|auto|]. intros Hne. split; [done|by apply Hf].
Qed.

(** A failure is shown and the player stops. *)
Lemma pp_pl_poll_errors n sn m fs s (Q : unit -> state H D -> Prop) : J s -> pl_running (pl_st (s_pl s)) = true ->
  (forall s', stopped s' -> Q tt s') -> pp (pl_poll_errors n sn m fs) Q s.
Proof.
  intros (p & f & Hb & Hok & Hpl) Hr HQ. rewrite (base_pl _ _ _ _ _ Hb) in Hr. unfold pl_poll_errors.
  do 4 (pp_step; eapply (keeps_pp (base c e p f)); [keep|exact Hb|]; clear s Hb; intros _ s Hb).
  apply pp_pl_stop_running; [by exists p, f|by rewrite (base_pl _ _ _ _ _ Hb)|done].
Qed.

(** What is left of [pl_poll] when the player has stopped. *)
Definition poll_rest (n : net_state_e) (fs : fs_state_e) : M (state H D) unit :=
  pl_poll_source n fs ;;
  let* s := get in
  let* starving := on_io io_starving in
  when (bool_decide (pl_st (s_pl s) = PL_PLAYING) && starving)
    (upd_pl (set_pl_st PL_BUFFERING) ;; pl_debug &"%s: buffering.\n" [AStr &"pl_poll"]).

Lemma wp_io_starving (io : io_t) (Q : bool -> io_t -> Prop) : Q (starving io) io -> wp io_starving Q io.
Proof.
  intros HQ. unfold io_starving, i_used, o_used, starving in *. wp_steps. destruct (io_used (io_i io) =? 0); by wp_steps.
Qed.

Lemma set_io_id (s : state H D) : set_io (s_io s) s = s.
Proof. by destruct s. Qed.

Lemma pp_starving s (k : bool -> M (state H D) unit) (Q : unit -> state H D -> Prop) :
  pp (k (starving (s_io s))) Q s -> pp (let* b := on_io io_starving in k b) Q s.
Proof. intros Hk. pp_step. unfold on_io. pp_step. apply wp_pp, wp_io_starving. by rewrite set_io_id. Qed.

Lemma poll_rest_stopped n fs s : stopped s -> pp (poll_rest n fs) (fun _ s' => pl_st (s_pl s') = PL_STOP) s.
Proof.
  intros [_ Hst]. unfold poll_rest, pl_poll_source. pp_step. pp_step. apply pp_get. rewrite Hst.
  apply pp_when; intros Hw; [by cbv in Hw|]. pp_step. apply pp_get. apply pp_starving. rewrite Hst.
  by apply pp_ret.
Qed.

Lemma poll_rest_running n fs s : J s -> pl_running (pl_st (s_pl s)) = true ->
  pp (poll_rest n fs) (fun _ s' => pl_st (s_pl s') =
    let src := source_type (s_pl s) in
    if bool_decide (src = PS_FILE) && bool_decide (fs = FSS_CLOSED) then PL_STOP
    else if bool_decide (src = PS_NET) && bool_decide (n = NET_CLOSED) then PL_STOP
    else if bool_decide (pl_st (s_pl s) = PL_PLAYING) && starving (s_io s) then PL_BUFFERING
    else pl_st (s_pl s)) s.
Proof.
  intros Hj Hr. cbv zeta.
  assert (Hend : forall s', stopped s' -> pp
    (let* s := get in let* starving := on_io io_starving in
     when (bool_decide (pl_st (s_pl s) = PL_PLAYING) && starving)
       (upd_pl (set_pl_st PL_BUFFERING) ;; pl_debug &"%s: buffering.\n" [AStr &"pl_poll"]))
    (fun _ s'' => pl_st (s_pl s'') = PL_STOP) s').
  { intros s' [_ Hst]. pp_step. apply pp_get. apply pp_starving. rewrite Hst. by apply pp_ret. }
  unfold poll_rest, pl_poll_source. pp_step. pp_step. apply pp_get. rewrite Hr. apply pp_when; [intros _|done].
  pp_step. apply pp_get. pp_step.
  destruct (bool_decide (source_type (s_pl s) = PS_FILE) && bool_decide (fs = FSS_CLOSED)) eqn:Hf.
  { apply pp_when; [intros _|done]. apply pp_pl_stop_running; [done|done|]. intros s1 Hs1. pp_step. apply pp_get.
    apply pp_when; intros _; [|by apply Hend]. apply pp_pl_stop_stopped; [done|by apply Hend]. }
  apply pp_when; [done|intros _]. pp_step. apply pp_get.
  destruct (bool_decide (source_type (s_pl s) = PS_NET) && bool_decide (n = NET_CLOSED)) eqn:Hn.
  { apply pp_when; [intros _|done]. apply pp_pl_stop_running; [done|done|]. intros s1 Hs1. by apply Hend. }
  apply pp_when; [done|intros _]. pp_step. apply pp_get. apply pp_starving.
  destruct (bool_decide (pl_st (s_pl s) = PL_PLAYING) && starving (s_io s)); [|by apply pp_ret].
  unfold upd_pl, pl_debug. pp_steps; done || by apply pp_xprintf.
Qed.
End Poll.

Section PlayerClaims.
Context {H D : Type} `{T : Target} `{C : Config} `{P : Platform H} `{PL : !PlatformLaws H P}
  `{MD : Mad D} `{ML : !MadLaws D MD}.
(** The host answers questions about its state without changing it. *)
Context (net_of : H -> net_state_e) (snd_of : H -> sound_state_e).

(** C6: In every state that satisfies the invariant, and unless a component it calls runs into
    undefined behaviour, [pl_poll] is the state machine [poll_spec]: it leaves a player that is not
    running alone, stops it on an error of network, sound or decoder and at the end
    of the source, whatever is still buffered, starts playing when the input ring
    has filled up, and falls back to buffering when both rings are empty. *)
Theorem pl_poll_state_machine B s :
  host_net_state = gets net_of -> host_snd_state = gets snd_of -> inv B s ->
  pp pl_poll (fun _ s' => pl_st (s_pl s') =
    poll_spec (pl_st (s_pl s)) (source_type (s_pl s)) (net_of (s_host s)) (snd_of (s_host s))
      (m_state (s_mad s)) (fss_state (s_fss s)) (io_free (io_i (s_io s)) =? 0) (starving (s_io s))) (s : state H D).
Proof.
  intros Hnet Hsnd Hinv. apply inv_evJ in Hinv as (c & (e & Hj & _) & _).
  assert (Hid : set_host (s_host s) s = s) by (by destruct s).
  unfold pl_poll, net_state, snd_state, fs_state, libmad_state. rewrite Hnet, Hsnd.
  pp_step. unfold on_host at 1. pp_steps. rewrite Hid. unfold on_host at 1. pp_steps. rewrite Hid.
  unfold poll_spec. destruct (pl_running (pl_st (s_pl s))) eqn:Hr; [|by apply pp_ret]. cbn [negb].
  pp_step. unfold on_io at 1, i_free. pp_step. apply pp_gets. rewrite set_io_id. pp_step.
  set (st1 := if bool_decide (pl_st (s_pl s) = PL_BUFFERING) && (io_free (io_i (s_io s)) =? 0) then PL_PLAYING
              else pl_st (s_pl s)).
  set (s1 := set_pl (set_pl_st st1 (s_pl s)) s).
  assert (Hr1 : pl_running st1 = true) by (unfold st1; by destruct (_ && _)).
  assert (Hj1 : plJ c e s1) by (by apply plJ_switch).
  apply (pp_mono _ (fun _ s' => s' = s1)).
  - intros [] s' ->. pp_step. change (source_type (s_pl s)) with (source_type (s_pl s1)).
    destruct (_ || _ || _).
    + apply pp_when; [intros _|done]. eapply (pp_pl_poll_errors c e); [done|done|]. intros s2 Hs2.
      by apply (poll_rest_stopped c e).
    + apply pp_when; [done|intros _]. apply (poll_rest_running c e _ _ s1 Hj1 Hr1).
  - unfold s1, st1. apply pp_when; intros ->.
    + unfold upd_pl, pl_debug. pp_steps; done || by apply pp_xprintf.
    + by destruct s as [? ? ? ? ? ? ? ? [] ? ?].
Qed.

(** ** The volume *)

Lemma volume_pl_ok B (s : state H D) : inv B s -> PL_MIN_VOLUME <= volume (s_pl s) <= PL_MAX_VOLUME.
Proof. by intros (_ & _ & _ & _ & _ & _ & _ & _ & ? & _). Qed.

Lemma pp_pl_volume_set B v (s : state H D) : inv B s ->
  pp (pl_volume_set v) (fun _ s' => volume (s_pl s') = Z.min (u8 v) PL_MAX_VOLUME) s.
Proof.
  intros Hinv. apply inv_evJ in Hinv as (c & (e & (p & f & Hb & _ & _) & _) & _).
  unfold pl_volume_set, pl_volume_get, PL_MAX_VOLUME, PL_MIN_VOLUME. pose proof (u8_range v).
  pp_step. eapply pp_upd_pl; [done|]. intros s1 Hb1. pp_step. apply pp_gets. rewrite (base_pl _ _ _ _ _ Hb1). simpl.
  pp_step. apply pp_when; intros Hlt; [lia|]. pp_step. apply pp_gets. rewrite (base_pl _ _ _ _ _ Hb1). simpl.
  pp_step. apply pp_when; intros Hgt.
  - eapply pp_upd_pl; [done|]. intros s2 Hb2. eapply (keeps_pp (base c e _ f)); [keep|exact Hb2|].
    intros [] s3 Hb3. rewrite (base_pl _ _ _ _ _ Hb3). simpl. lia.
  - eapply (keeps_pp (base c e _ f)); [keep|exact Hb1|].
    intros [] s3 Hb3. rewrite (base_pl _ _ _ _ _ Hb3). simpl. lia.
Qed.

(** One step louder stops at the maximum; one step quieter goes down by one,
    except at the bottom: from volume 0 [pl_volume_down] goes to the maximum, 16,
    because the volume is unsigned and wraps around before it is clipped. *)
Theorem volume_steps B s :
  inv B s ->
  pp pl_volume_up (fun _ s' => volume (s_pl s') = Z.min (volume (s_pl s) + 1) PL_MAX_VOLUME) s /\
  pp pl_volume_down (fun _ s' => volume (s_pl s') =
    if volume (s_pl s) =? 0 then PL_MAX_VOLUME else volume (s_pl s) - 1) (s : state H D).
Proof.
  intros Hinv. pose proof (volume_pl_ok _ _ Hinv) as Hv. unfold PL_MIN_VOLUME, PL_MAX_VOLUME in *.
  unfold pl_volume_up, pl_volume_down, pl_volume_get.
  split; (pp_step; apply pp_gets; eapply pp_mono; [|by eapply pp_pl_volume_set]); intros [] s' ->; unfold PL_MAX_VOLUME.
  - rewrite u8_id by lia. done.
  - destruct (Z.eqb_spec (volume (s_pl s)) 0) as [Hz|Hz]; [by rewrite Hz|]. rewrite u8_id by lia. lia.
Qed.
End PlayerClaims.

(** ** From the keyboard to the player *)

(** The text of a number is a word of digits, with a sign before them when it is negative. *)
Lemma dec_text_word z : -2147483648 < z < 2147483648 ->
  word (dec_text z) /\ zlen (dec_text z) <= 11 /\
  exists c l, dec_text z = c :: l /\ (48 <= c <= 57 \/ c = 45 /\ exists d l', l = d :: l' /\ 48 <= d <= 57).
Proof.
  intros Hz. pose proof (num_digits_ascii 10 (Z.abs z) (ch "d") ltac:(lia)) as Hd.
  destruct (num_digits_length 10 (Z.abs z) (ch "d")) as [Hl1 Hl2]; [change (10 ^ Z.of_nat 10) with 10000000000; lia|lia|].
  unfold dec_text, word, zlen. set (l := num_digits 10 (Z.abs z) 10 (ch "d")) in *. clearbody l.
  apply Forall_rev in Hd. rewrite <- length_rev in Hl1, Hl2. destruct (rev l) as [|c r]; [cbn in Hl1; lia|].
  inversion Hd as [|? ? Hc Hr]; subst. assert (Hw : Forall (fun c => 32 < c < 127) (c :: r)) by (eapply List.Forall_impl; [|exact Hd]; cbn; lia).
  destruct (z <? 0); cbn [app hd length] in *; (split; [|split; [lia|]]).
  - split_and!; [done| |lia]. constructor; [lia|done].
  - exists 45, (c :: r). split; [done|]. right. split; [done|]. by exists c, r.
  - split_and!; [done|done|lia].
  - exists c, r. split; [done|]. by left.
Qed.

(** The comparison of a parameter with a keyword, over the length of the parameter. *)
Lemma memcmp_eq_prefix a b : cstring a -> cstring b -> memcmp_eq a b (zlen a) = Some (bool_decide (a `prefix_of` b)).
Proof.
  intros Ha Hb. unfold memcmp_eq, zlen. rewrite Nat2Z.id. destruct (memcmp_prefix b a Hb Ha) as (r & Hr & Hp).
  rewrite memcmp_opp, Hr. cbn [fmap option_fmap option_map]. f_equal. destruct (Z.eqb_spec (- r) 0) as [H0|H0]; symmetry.
  - apply bool_decide_true, Hp. lia.
  - apply bool_decide_false. intros Hpre%Hp. lia.
Qed.

(** The parameters of [svol] that are not numbers. *)
Definition volume_keywords : list (list Z) := [&"up"; &"+"; &"down"; &"-"; &"mute"].

Lemma dec_text_no_keyword z kw : -2147483648 < z < 2147483648 -> In kw volume_keywords -> memcmp_eq (dec_text z) kw (zlen (dec_text z)) = Some false.
Proof.
  intros Hz Hin. destruct (dec_text_word z Hz) as (Hw & _ & c & l & Hcl & Hc).
  assert (Hkw : cstring kw) by (cbn in Hin; decompose [or] Hin; subst; try done; repeat constructor).
  rewrite memcmp_eq_prefix; [|by apply cstring_word|done]. f_equal. apply bool_decide_false. rewrite Hcl. clear Hcl Hkw Hw.
  cbn in Hin. decompose [or] Hin; try done; subst kw; intros [k Hk]; destruct Hc as [Hc|[-> (d & l' & -> & Hd)]]; inversion Hk; lia.
Qed.

Section Keyboard.
Context {H D : Type} `{T : Target} `{C : Config} `{P : Platform H} `{MD : Mad D}.
(** The clock and the display of the host answer. *)
Context (Hclock : forall h, wp get_local_time (fun _ _ => True) h) (Hdraw : forall r h, wp (host_lcd_draw r) (fun _ _ => True) h).
Abbreviation MS := (M (state H D)).

(** A line comes in: its characters, then the event that says so. *)
Fixpoint type_line (l : list Z) : MS unit :=
  match l with
  | [] => on_con con_input_lock ;; push_event E_CON_INPUT 0 PNull
  | ch :: l => on_con (con_input_push ch) ;; type_line l
  end.

Lemma wp_con k (s : state H D) st (Q : unit -> state H D -> Prop) : con_rep (s_con s) st ->
  (forall c, con_rep c (line_step st k) -> Q tt (set_con c s)) -> wp (on_con (con_step k)) Q s.
Proof. intros Hr HQ. unfold on_con. apply wp_zoom. eapply wp_mono; [|by apply wp_con_step]. intros [] c Hc. by apply HQ. Qed.

Lemma wp_push type par p (s : state H D) (Q : unit -> state H D -> Prop) : ev_ok (s_ev s) -> ev_head (s_ev s) < 4294967295 -> ev_queue (s_ev s) = [] ->
  (forall h t e, ev_ok e -> ev_head e = ev_head (s_ev s) + 1 -> ev_queue e = [Event t type (u32 par) p] -> Q tt (set_ev e (set_host h s))) ->
  wp (push_event type par p) Q s.
Proof.
  intros He Hh Hq HQ. unfold push_event, local_time, on_host, on_ev. wp_step. apply wp_zoom. eapply wp_mono; [|apply Hclock]. intros t h _.
  apply wp_zoom, wp_event_push; [exact He|exact Hh|]. intros e He' Hh' Hq'. cbn [set_host s_ev] in Hh', Hq'. rewrite Hq in Hq'. by apply (HQ h (u32 t) e).
Qed.

(** After the line only the console, the queue and the host's clock have changed. *)
Lemma wp_type_line l : forall (s : state H D) l0 (Q : unit -> state H D -> Prop),
  con_rep (s_con s) (false, l0) -> zlen (l0 ++ l) <= MAX_CONSOLE_INPUT -> Forall is_byte l ->
  ev_ok (s_ev s) -> ev_head (s_ev s) < 4294967295 -> ev_queue (s_ev s) = [] ->
  (forall c h t e, con_rep c (true, l0 ++ l) -> ev_ok e -> ev_head e = ev_head (s_ev s) + 1 -> ev_queue e = [Event t E_CON_INPUT 0 PNull] ->
     Q tt (set_ev e (set_host h (set_con c s)))) ->
  wp (type_line l) Q s.
Proof.
  induction l as [|x l IH]; intros s l0 Q Hc Hlen Hl He Hh Hq HQ; cbn [type_line]; wp_step.
  - apply (wp_con KeyLock _ (false, l0)); [done|]. intros c Hc'. apply wp_push; [done|done|done|]. intros h t e He' Hh' Hq'.
    rewrite app_nil_r in HQ. by eapply HQ.
  - apply (wp_con (KeyPush x) _ (false, l0)); [done|]. intros c Hc'. inversion Hl as [|? ? Hx Hl']; subst.
    rewrite zlen_app, zlen_cons in Hlen. pose proof (zlen_nonneg l). cbn [line_step orb] in Hc'.
    rewrite (proj2 (Z.leb_gt _ _)) in Hc' by lia. rewrite (u8_id x) in Hc' by exact Hx.
    apply (IH _ (l0 ++ [x])); try done; [rewrite !zlen_app, zlen_cons, (zlen_nil (A:=Z)); lia|].
    intros c1 h t e Hc1 He1 Hh1 Hq1. rewrite <- app_assoc in Hc1. by apply (HQ c1 h t e).
Qed.

Lemma wp_arg c ts i (s : state H D) (Q : list Z -> state H D -> Prop) : s_cmd s = c -> cmd_rep c ts -> Forall cstring ts -> 0 <= i ->
  Q (nth (Z.to_nat i) ts []) s -> wp (on_cmd (cmd_arg i)) Q s.
Proof.
  intros <- Hr Hts Hi HQ. unfold on_cmd. apply wp_zoom. eapply wp_cmd_arg; [done|done|done|]. by destruct s.
Qed.

Lemma wp_argc ts (s : state H D) (Q : Z -> state H D -> Prop) : cmd_rep (s_cmd s) ts -> Q (zlen ts) s -> wp (on_cmd cmd_Argc) Q s.
Proof. intros Hr HQ. unfold on_cmd, cmd_Argc. wp_steps. rewrite (proj1 Hr). by destruct s. Qed.

(** The volume the command asks for, inside its range. *)
Definition clip_volume (n : Z) : Z := Z.max 0 (Z.min 16 n).

Lemma wp_svol n (s : state H D) (Q : unit -> state H D -> Prop) : -2147483648 < n < 2147483648 -> cmd_rep (s_cmd s) [&"svol"; dec_text n] ->
  ev_ok (s_ev s) -> ev_head (s_ev s) < 4294967295 -> ev_queue (s_ev s) = [] ->
  (forall h t e, ev_ok e -> ev_head e = ev_head (s_ev s) + 1 -> ev_queue e = [Event t E_PL_VOLSET (clip_volume n) PNull] -> Q tt (set_ev e (set_host h s))) ->
  wp cmd_snd_volume Q s.
Proof.
  intros Hn Hr He Hh Hq HQ. destruct (dec_text_word n Hn) as (Hw & _).
  assert (Hts : Forall cstring [&"svol"; dec_text n]) by (constructor; [repeat constructor|constructor; [by apply cstring_word|constructor]]).
  unfold cmd_snd_volume, pl_volume_get. wp_steps. eapply wp_argc; [exact Hr|]. change (negb (zlen [&"svol"; dec_text n] =? 2)) with false. cbn iota.
  wp_step. eapply wp_arg; [done|exact Hr|exact Hts|lia|]. change (nth (Z.to_nat 1) [&"svol"; dec_text n] []) with (dec_text n). cbv zeta. unfold memcmp_is.
  do 5 (wp_step; eapply wp_lift; [apply dec_text_no_keyword; [exact Hn|cbn; tauto]|]; cbv iota).
  wp_step. eapply wp_lift; [by apply atoi_dec_text|]. unfold push_volume, PL_MIN_VOLUME, PL_MAX_VOLUME. cbv zeta.
  assert (E : forall v, (if (if v <? 0 then 0 else v) >? 16 then 16 else if v <? 0 then 0 else v) = clip_volume v).
  { intros v. unfold clip_volume. destruct (Z.ltb_spec v 0); [cbn; lia|]. destruct (Z.gtb_spec v 16); lia. }
  rewrite E. wp_step. apply wp_push; [done|done|done|]. intros h t e He' Hh' Hq'. wp_print. eapply HQ; [done|done|]. rewrite Hq'.
  by rewrite u32_id by (unfold clip_volume; lia).
Qed.

Lemma wp_cmd_input cmds n c (s : state H D) (Q : unit -> state H D -> Prop) : -2147483648 < n < 2147483648 ->
  find_command &"svol" cmds = Some (Some CVolume) -> s_con s = c -> con_rep c (true, &"svol " ++ dec_text n) -> zlen (cmd_argv (s_cmd s)) = MAX_TOKENS ->
  ev_ok (s_ev s) -> ev_head (s_ev s) < 4294967295 -> ev_queue (s_ev s) = [] ->
  (forall m h t e, ev_ok e -> ev_head e = ev_head (s_ev s) + 1 -> ev_queue e = [Event t E_PL_VOLSET (clip_volume n) PNull] -> Q tt (set_ev e (set_host h (set_cmd m s)))) ->
  wp (cmd_input cmds) Q s.
Proof.
  intros Hn Hf <- (_ & _ & _ & _ & Hin) Hargv He Hh Hq HQ. destruct (dec_text_word n Hn) as (Hw & Hlen & _).
  assert (Hsvol : word &"svol") by (split_and!; [done|repeat constructor|done]).
  assert (Hws : Forall word [&"svol"; dec_text n]) by (constructor; [exact Hsvol|by constructor]).
  cbn [snd] in Hin. change (&"svol " ++ dec_text n) with (join [&"svol"; dec_text n]) in Hin.
  assert (Hl : zlen (join [&"svol"; dec_text n]) <= 16).
  { change (join [&"svol"; dec_text n]) with (&"svol " ++ dec_text n). rewrite zlen_app. change (zlen &"svol ") with 5. lia. }
  replace (Z.to_nat (MAX_CONSOLE_INPUT - zlen (join [&"svol"; dec_text n]))) with (S (Z.to_nat (MAX_CONSOLE_INPUT - zlen (join [&"svol"; dec_text n]) - 1))) in Hin
    by (unfold MAX_CONSOLE_INPUT; lia). cbn [repeat] in Hin.
  unfold cmd_input, on_con, con_input_data. wp_steps. rewrite Hin. unfold on_cmd at 1. wp_step. replace (set_con (s_con s) s) with s by (by destruct s).
  apply wp_cmd_tokenize; [by apply cstring_join|unfold CMD_INPUT_BUFFER_SIZE, MAX_CONSOLE_INPUT; lia|exact Hargv|]. intros m Hm.
  change (Z.to_nat MAX_TOKENS) with 16%nat in Hm. rewrite tokens_join in Hm; [|exact Hws|cbn; lia|done].
  assert (Hts : Forall cstring [&"svol"; dec_text n]) by (constructor; [repeat constructor|constructor; [by apply cstring_word|constructor]]).
  unfold cmd_exec. wp_step. eapply wp_argc; [exact Hm|]. change (zlen [&"svol"; dec_text n] =? 0) with false. cbn iota.
  wp_step. eapply wp_arg; [done|exact Hm|exact Hts|lia|]. wp_step. eapply wp_lift; [exact Hf|]. cbn [run_command].
  eapply wp_svol; [exact Hn|exact Hm|done|done|done|]. intros h t e He' Hh' Hq'. by eapply HQ.
Qed.
(** The volume is stored; only the display, the host and the player change. *)
Lemma wp_volset v (s : state H D) (Q : unit -> state H D -> Prop) : 0 <= v <= 16 ->
  (forall h l, Q tt (set_lcd l (set_host h (set_pl (set_volume v (s_pl s)) s)))) -> wp (pl_volume_set v) Q s.
Proof.
  intros Hv HQ. unfold pl_volume_set, pl_volume_get, upd_pl, PL_MIN_VOLUME, PL_MAX_VOLUME. wp_steps. cbn [set_pl s_pl set_volume volume]. rewrite u8_id by lia.
  rewrite (proj2 (Z.ltb_ge v 0)) by lia. cbn [when]. wp_steps. cbn [set_pl s_pl set_volume volume].
  rewrite Z.gtb_ltb, (proj2 (Z.ltb_ge 16 v)) by lia. cbn [when]. wp_steps. unfold lcd_volume, lcd_on.
  destruct NO_LCD; [wp_step; destruct s as [? ? ? ? ? ? l ? ? h ?]; apply (HQ h l)|]. wp_steps.
  apply (wp_mono _ (fun _ s1 => exists h, s1 = set_host h (set_pl (set_volume v (s_pl s)) s))).
  - intros [] s1 (h & ->). unfold local_time, on_host, upd_lcd. wp_steps. eapply wp_mono; [|apply Hclock]. intros t h' _. wp_steps. apply HQ.
  - unfold lcd_draw. wp_steps. destruct (negb _); [wp_step; exists (s_host s); by destruct s|]. unfold on_host. wp_step.
    eapply wp_mono; [|apply Hdraw]. intros [] h _. by exists h.
Qed.

(** One round of the dispatcher when one event is pending, and the last one. *)
Lemma wp_event_round x fuel cmds (s : state H D) (Q : unit -> state H D -> Prop) : ev_ok (s_ev s) -> ev_queue (s_ev s) = [x] -> e_type x <> E_NONE ->
  (forall e, ev_ok e -> ev_head e = ev_head (s_ev s) -> ev_queue e = [] -> wp (handle_event cmds x ;; event_loop_n fuel cmds) Q (set_ev e s)) ->
  wp (event_loop_n (S fuel) cmds) Q s.
Proof.
  intros He Hq Hx HQ. cbn [event_loop_n]. wp_step. unfold on_ev. wp_step. apply wp_event_pop; [exact He|by rewrite Hq|].
  intros y q e Hq' He' Hqe Hh. rewrite Hq in Hq'. injection Hq' as <- <-. rewrite bool_decide_false by done. by apply HQ.
Qed.

Lemma wp_last_round fuel cmds (s : state H D) (Q : unit -> state H D -> Prop) : ev_ok (s_ev s) -> ev_queue (s_ev s) = [] -> Q tt s ->
  wp (event_loop_n (S fuel) cmds) Q s.
Proof.
  intros He Hq HQ. cbn [event_loop_n]. wp_step. unfold on_ev. wp_step. apply wp_event_pop; [exact He| |intros y q e Hq'; by rewrite Hq in Hq'].
  intros _. unfold handle_event. wp_steps. cbn [event_zero e_type]. rewrite bool_decide_true by done. wp_step. by destruct s.
Qed.

(** C11: Typing "svol" and a number sets the volume.  For every host whose clock and display
    answer, every command table in which "svol" is the volume command, and every state in which
    the line is empty and unlocked and no event is pending: when "svol ", the text of any number
    [n] that fits [int] (but the smallest) and the end of the line come in, and then the event loop
    runs, nothing undefined happens, and the volume is [n], clipped to 0 and 16: the line
    goes through the console, the tokenizer, the command table, the number parser and a second
    event, all in the same frame.  The queue is empty again, and the console empty and unlocked. *)
Theorem typed_volume_command cmds n (s : state H D) :
  -2147483648 < n < 2147483648 -> find_command &"svol" cmds = Some (Some CVolume) ->
  con_rep (s_con s) (false, []) -> zlen (cmd_argv (s_cmd s)) = MAX_TOKENS ->
  ev_ok (s_ev s) -> ev_queue (s_ev s) = [] -> ev_head (s_ev s) < 4294967294 ->
  wp (type_line (&"svol " ++ dec_text n) ;; event_loop cmds)
    (fun _ s' => volume (s_pl s') = Z.max 0 (Z.min 16 n) /\ ev_queue (s_ev s') = [] /\ con_line (s_con s') = [] /\
       con_lock (s_con s') = 0) s.
Proof.
  intros Hn Hf Hc Hargv He Hq Hh. destruct (dec_text_word n Hn) as ((_ & Hw & _) & Hlen & _). wp_step.
  apply (wp_type_line _ _ []); [exact Hc| | |exact He|lia|exact Hq|].
  { change ([] ++ &"svol " ++ dec_text n) with (&"svol " ++ dec_text n). rewrite zlen_app. change (zlen &"svol ") with 5. unfold MAX_CONSOLE_INPUT. lia. }
  { apply Forall_app. split; [repeat constructor; discriminate|]. eapply List.Forall_impl; [|exact Hw]. unfold is_byte. cbn. lia. }
  intros c h t e Hc1 He1 Hh1 Hq1. unfold event_loop. change 28%nat with (S (S (S 25))).
  eapply wp_event_round; [exact He1|exact Hq1|done|]. intros e2 He2 Hh2 Hq2. cbn [handle_event e_type]. cbn [set_ev s_ev] in Hh2. wp_step. wp_step.
  eapply (wp_cmd_input cmds n c); [exact Hn|exact Hf|done|exact Hc1|exact Hargv|exact He2|cbn [set_ev s_ev]; lia|exact Hq2|].
  intros m h3 t3 e3 He3 Hh3 Hq3. wp_step. apply (wp_con KeyReset _ (true, &"svol " ++ dec_text n)); [exact Hc1|]. intros c4 Hc4. wp_print.
  eapply wp_event_round; [exact He3|exact Hq3|done|]. intros e5 He5 Hh5 Hq5. cbn [handle_event e_type e_par]. wp_step.
  apply wp_volset; [unfold clip_volume; lia|]. intros h6 l6. apply wp_last_round; [exact He5|exact Hq5|].
  cbn. split; [done|]. split; [exact Hq5|]. split; [by apply (con_rep_line _ _ Hc4)|apply Hc4].
Qed.
End Keyboard.

#[local] Existing Instance linux_target.
#[local] Existing Instance demo_config.

Lemma typed_volume_command_witness :
  wp (type_line (&"svol " ++ dec_text 12) ;; event_loop commands_linux)
    (fun _ s' => volume (s_pl s') = 12 /\ ev_queue (s_ev s') = [] /\ con_line (s_con s') = [] /\
       con_lock (s_con s') = 0) started.
Proof.
  assert (Ec : s_con started = con_zero) by (vm_compute; reflexivity).
  assert (Eh : (ev_head (s_ev started) <? 4294967294) = true) by (vm_compute; reflexivity).
  apply (typed_volume_command (H := heap) (D := unit)); [done|done|lia|reflexivity| |vm_compute; reflexivity| |vm_compute; reflexivity|by apply Z.ltb_lt].
  - rewrite Ec. apply con_rep_zero.
  - apply started_inv.
Defined.

(** A network stream is being buffered, and the connection is closed. *)
Definition buffer_net (s : demo_state) : demo_state := set_pl (Pl (source_addr (s_pl s)) PS_NET PL_BUFFERING 8) s.
Definition buffering : demo_state := buffer_net started.

Lemma buffer_net_inv s : fss_handle (s_fss s) = -1 -> inv 0 s -> inv 0 (buffer_net s).
Proof.
  intros Eh (Hh & Hio & Hl & Hm & Hc & He & Hb & Hf & (_ & Ha & _)). unfold inv, buffer_net.
  cbn [set_pl s_host s_io s_lcd s_mad s_con s_ev s_fss s_pl].
  split_and!; [exact Hh|exact Hio|exact Hl|exact Hm|exact Hc|exact He|exact Hb|exact Hf|].
  split; [change (0 <= 8 <= 16); lia|]. split; [exact Ha|]. split; [discriminate|]. split; [discriminate|].
  intros Hne. by rewrite Eh in Hne.
Qed.

Lemma buffering_inv : inv 0 buffering.
Proof. apply buffer_net_inv; [vm_compute; reflexivity|exact started_inv]. Qed.

Lemma pl_poll_state_machine_witness :
  pp pl_poll (fun _ s' => pl_st (s_pl s') = PL_STOP) buffering.
Proof.
  apply (pl_poll_state_machine (fun _ => NET_CLOSED) (fun _ => SS_UNKNOWN) 0 buffering);
    [reflexivity|reflexivity|apply buffering_inv].
Defined.

Lemma volume_steps_witness :
  pp pl_volume_up (fun _ s' => volume (s_pl s') = 9) started /\
  pp pl_volume_down (fun _ s' => volume (s_pl s') = 7) started.
Proof. apply (volume_steps 0 started), started_inv. Defined.
