(* ===== verification/Properties.v ===== *)
(** * The theorems about the whole player

    What main.c and the components under it guarantee for every host and every
    decoder that obey their laws; the witnesses run the null host. *)

From S2P Require Import Prelude Strings Libc Snd IoBuffer Console Event Cmd Id3tag Net Resfs Salloc.
From S2P Require Import State Fs LcdPanel Libmad Player Main Keeps FsKeeps System HostNull.

#[local] Existing Instance linux_target.
#[local] Existing Instance demo_config.

Section Claims.
Context {H D : Type} `{T : Target} `{C : Config} `{P : Platform H} `{PL : !PlatformLaws H P}
  `{MD : Mad D} `{ML : !MadLaws D MD}.

(** C1: on a 64-bit target, from the start of the program on and for 143 million
    frames, every frame of the main loop ends, whatever the user types and the
    host delivers; and unless the run hits undefined behaviour, every component
    keeps its invariant: the console line fits its array, the event queue is a
    queue, the rings and the display are well formed, the handle of the played
    file is open exactly while the state says so, the volume is in range, and a
    file is only open while the player plays from a file. *)
Theorem run_keeps_invariant h d r cmds n :
  long64 = true -> cmds_ok cmds -> host_ok h -> mad_inv d -> FRAME_EVENTS * Z.of_nat n < 4294967295 ->
  pp (init_linux ;; run n LIBMAD_FUEL cmds)
    (fun _ s' => inv (FRAME_EVENTS * Z.of_nat n) s') (boot (H := H) (D := D) h d r).
Proof. apply pp_program. Qed.

(** C5: On a 64-bit target, in every state that satisfies the invariant and for any events that
    are pending, the loop of the dispatcher ends within 28 rounds.  Unless a command or the
    player runs into undefined behaviour, no event is pending afterwards, also none that the
    commands have pushed, the invariant holds again, and when console input was pending, its line
    has been taken: the console is empty and unlocked.  (On a 32-bit target playing a file may
    never end, and with it the loop: [riff_walk_loops_on_32_bit].) *)
Theorem event_loop_drains cmds B s :
  long64 = true -> cmds_ok cmds -> B + 28 < 4294967295 -> inv B s ->
  pp (event_loop cmds) (fun _ s' => inv (B + 28) s' /\ ev_queue (s_ev s') = [] /\
    (Exists is_input (ev_queue (s_ev s)) -> con_line (s_con s') = [] /\ con_lock (s_con s') = 0)) (s : state H D).
Proof. apply pp_event_loop. Qed.

(** C36: the decoder's loop is bounded by the bytes it was given: with the fuel of
    one round per byte of [libmad_buffer] it always ends, for every decoder that
    consumes input or reports an error it cannot recover from. *)
Theorem libmad_loop_ends s :
  host_ok (s_host s) -> io_wf (s_io s) -> lcd_wf (s_lcd s) -> mad_wf (s_mad s) ->
  libmad_loop LIBMAD_FUEL (s : state H D) <> NoFuel.
Proof.
  intros Hh Hi Hl Hm. pose proof (keeps_libmad_loop (s_con s) (s_ev s) (s_pl s) (s_fss s) s) as Hk.
  unfold pp in Hk. intros Hn. rewrite Hn in Hk. by apply Hk; split_and!.
Qed.

(** After [pl_stop] nothing is played any more: the player does not run, no
    handle is kept for playing and the file system says closed, and the volume and
    the rest of the invariant are untouched. *)
Theorem pl_stop_stops B s :
  inv B s ->
  pp pl_stop (fun _ s' => inv B s' /\ pl_running (pl_st (s_pl s')) = false /\
    fss_handle (s_fss s') = -1 /\ fss_state (s_fss s') = FSS_CLOSED) (s : state H D).
Proof.
  intros Hs. apply inv_evJ in Hs as (c & (e & Hj & Hr) & Hc). eapply pp_pl_stop; [exact Hj|].
  intros p f s' Hb Hok Hpl Hst Hh. pose proof (fss_ok_idle f Hok Hh) as [_ Hcl].
  pose proof Hb as (_ & _ & _ & _ & _ & _ & -> & ->). split_and!; [|done|done|done].
  apply (evJ_inv _ 27). exists c. split; [|done]. exists e. split; [|done]. by exists p, f.
Qed.

End Claims.

Lemma run_keeps_invariant_witness :
  pp (init_linux ;; run 3 LIBMAD_FUEL commands_linux) (fun _ s' => inv 90 s') demo_boot.
Proof.
  apply (run_keeps_invariant demo_heap tt demo_res commands_linux 3);
    [reflexivity|apply linux_cmds_ok|exact I|exact I|reflexivity].
Defined.

(** A command has been typed, and an event of the player is pending behind it. *)
Definition pending : demo_state :=
  set_ev (Ev ([Event 5 E_CON_INPUT 0 PNull; Event 6 E_PL_VOLUP 0 PNull] ++ repeat event_zero 6) 2 0) (set_con (con_typed &"stop") started).

Lemma pending_inv : inv 2 pending.
Proof.
  destruct started_inv as (Hh & Hio & Hl & Hm & _ & _ & _ & Hf & Hp). unfold inv, pending.
  cbn [set_ev set_con s_host s_io s_lcd s_mad s_con s_ev s_fss s_pl].
  split_and!; [exact Hh|exact Hio|exact Hl|exact Hm| | |done|exact Hf|exact Hp].
  - exists (true, &"stop"). unfold con_rep. simpl. split_and!; try done. repeat constructor; discriminate.
  - unfold ev_inv, ev_ok. cbn [events ev_head ev_tail]. split_and!; try done. vm_compute. repeat constructor; discriminate.
Qed.

Lemma event_loop_drains_witness :
  pp (event_loop commands_linux) (fun _ s' => inv 30 s' /\ ev_queue (s_ev s') = [] /\ con_line (s_con s') = [] /\ con_lock (s_con s') = 0) pending.
Proof.
  eapply pp_mono; [|apply (event_loop_drains commands_linux 2 pending); [reflexivity|apply linux_cmds_ok|reflexivity|apply pending_inv]].
  intros [] s' (Hi & Hq & Hc). split; [exact Hi|]. split; [exact Hq|]. apply Hc. apply Exists_cons_hd. reflexivity.
Defined.

Lemma libmad_loop_ends_witness : libmad_loop LIBMAD_FUEL started <> NoFuel.
Proof. apply (libmad_loop_ends started); [exact I|apply started_inv..|exact started_mad]. Defined.

Lemma pl_stop_stops_witness :
  pp pl_stop (fun _ s' => inv 0 s' /\ pl_running (pl_st (s_pl s')) = false /\
    fss_handle (s_fss s') = -1 /\ fss_state (s_fss s') = FSS_CLOSED) started.
Proof. apply (pl_stop_stops 0 started), started_inv. Defined.
