(* ===== verification/Posix.v ===== *)
(** * The libraries of the Linux host

    What linux/*.c calls outside of the repository, as one class: the clock, file
    descriptors, stdio, the resolver and sockets, ALSA and SDL.  [W] is the state
    of the world behind these calls; a call takes it and gives its result and the
    world afterwards.  [PosixLaws] are the documented facts the theorems use. *)

From S2P Require Import Prelude.

(** [SDL_Surface]: the fields lcd.c reads; [None] is a surface without palette. *)
Record SDL_Surface : Type := Surface {
  sf_w : Z; sf_h : Z;
  BytesPerPixel : Z;
  pitch : Z;
  palette : option (list Z);
  pixels : list Z
}.

Class Posix (W : Type) := {
  (** time.h: seconds and nanoseconds of [CLOCK_MONOTONIC]. *)
  clock_gettime : W -> (Z * Z) * W;
  (** poll.h, unistd.h, fcntl.h.  [poll] is given the old [revents]; [read] of one
      byte gives its result and the byte. *)
  poll : Z -> Z -> Z -> Z -> W -> (Z * Z) * W;
  read1 : Z -> W -> (Z * Z) * W;
  fcntl_getfl : Z -> W -> Z * W;
  fcntl_setfl : Z -> Z -> W -> W;
  close : Z -> W -> W;
  (** The bytes the terminal will deliver before [read] has to wait. *)
  term : W -> list Z;
  (** stdio.h: a [FILE *] is a number, 0 is NULL. *)
  fopen : list Z -> W -> Z * W;
  fclose : Z -> W -> W;
  fread : Z -> Z -> W -> (Z * list Z) * W;
  fseek : Z -> Z -> W -> W;
  (** netdb.h, sys/socket.h; [gethostbyname] gives the first address. *)
  gethostbyname : list Z -> W -> option Z * W;
  socket : W -> Z * W;
  setsockopt_linger : Z -> Z -> Z -> W -> Z * W;
  connect : Z -> Z -> Z -> W -> Z * W;
  send : Z -> list Z -> W -> Z * W;
  recv : Z -> Z -> W -> (Z * list Z) * W;
  errno : W -> Z;
  strerror : Z -> list Z;
  (** The value of an automatic variable that has not been assigned. *)
  indeterminate : W -> Z * W;
  (** alsa/asoundlib.h *)
  SND_LIB_VERSION_STR : list Z;
  snd_pcm_open : list Z -> W -> (Z * Z) * W;
  snd_pcm_set_params : Z -> Z -> Z -> Z -> Z -> W -> Z * W;
  snd_pcm_drop : Z -> W -> W;
  snd_pcm_close : Z -> W -> W;
  snd_pcm_drain : Z -> W -> W;
  snd_pcm_prepare : Z -> W -> W;
  snd_pcm_writei : Z -> list Z -> Z -> W -> Z * W;
  snd_pcm_state : Z -> W -> Z * W;
  snd_strerror : Z -> list Z;
  (** SDL/SDL.h *)
  SDL_VERSION : Z * Z * Z;
  SDL_Init : W -> Z * W;
  SDL_SetVideoMode : Z -> Z -> Z -> W -> option SDL_Surface * W;
  SDL_FillRect : SDL_Surface -> Z -> W -> SDL_Surface * W;
  SDL_MapRGB : SDL_Surface -> Z -> Z -> Z -> Z;
  SDL_UpdateRect : SDL_Surface -> Z -> Z -> Z -> Z -> W -> W;
  SDL_LoadBMP : list Z -> W -> option SDL_Surface * W;
  SDL_SetColors : SDL_Surface -> list Z -> W -> SDL_Surface * W;
  SDL_BlitSurface : SDL_Surface -> SDL_Surface -> W -> (Z * SDL_Surface) * W;
  SDL_FreeSurface : SDL_Surface -> W -> W;
  SDL_GetError : W -> list Z;
  SDL_Quit : W -> W
}.

(** What the manual pages promise.  In non-blocking mode a [read] takes the next
    byte of the terminal or takes none; the clock does not touch the terminal. *)
Class PosixLaws (W : Type) (OS : Posix W) := {
  law_read1 w r b w' : read1 1 w = ((r, b), w') ->
    (r <= 0 /\ term w' = term w) \/ (0 < r /\ is_byte b /\ term w = b :: term w');
  law_clock_term w : term (clock_gettime w).2 = term w;
  law_clock w sec nsec w' : clock_gettime w = ((sec, nsec), w') -> 0 <= sec /\ 0 <= nsec < 1000000000;
  law_fread f n w k d w' : 0 <= n -> fread f n w = ((k, d), w') -> k = zlen d /\ 0 <= k <= n;
  law_recv s n w k d w' : 0 <= n -> recv s n w = ((k, d), w') ->
    (k = -1 /\ d = []) \/ (k = zlen d /\ 0 <= k <= n)
}.
