(* ===== verification/HostLinux.v ===== *)
(** * The Linux host (linux/*.c without main.c)

    Terminal, timer, files, network, sound and window of the Linux program over
    the operating system of [Posix].  The functions are an instance of [Platform];
    the record [linux_t] holds the static variables of the files. *)

From S2P Require Import Prelude Strings Libc Snd IoBuffer HostShared Console Event Cmd Net Resfs State Fs Posix.

(** ** The static variables *)

(** sound.c: [ss] *)
Record ss_t : Type := Ss {
  ss_state : sound_state_e;
  ss_rate : sound_rate_e;
  ss_channels : Z;
  ss_handle : Z
}.

(** net.c: [ns]; [conn_poll] is its three fields. *)
Record ns_t : Type := Ns {
  ns_state : net_state_e;
  ns_sock : Z;
  conn_fd : Z; conn_events : Z; conn_revents : Z;
  ns_rx : Z;             (* unsigned long, as the next three *)
  packet_size : Z; packet_count : Z; packet_max : Z
}.

(** lcd.c: [lcd] *)
Inductive lcd_state_e : Type := LCDS_UNKNOWN | LCDS_INIT | LCDS_ERROR.
#[export] Instance lcd_state_eq_dec : EqDecision lcd_state_e.
Proof. solve_decision. Defined.

Record sdl_t : Type := Sdl {
  screen : option SDL_Surface;
  sdl_state : lcd_state_e;
  sdl_width : Z;
  sdl_height : Z
}.

Record linux_t (W : Type) : Type := LinuxHost {
  l_os : W;
  start_time : Z;        (* uint32_t *)
  con_fds : Z * Z;       (* fd, events *)
  hfs : list Z;          (* FILE *f of every slot *)
  l_ss : ss_t;
  l_ns : ns_t;
  l_lcd : sdl_t
}.
Arguments LinuxHost {W}.
Arguments l_os {W}.
Arguments start_time {W}.
Arguments con_fds {W}.
Arguments hfs {W}.
Arguments l_ss {W}.
Arguments l_ns {W}.
Arguments l_lcd {W}.

Definition ss_zero : ss_t := Ss SS_UNKNOWN SR_UNKNOWN 0 0.
Definition ns_zero : ns_t := Ns NET_UNKNOWN 0 0 0 0 0 0 0 0.
Definition sdl_zero : sdl_t := Sdl None LCDS_UNKNOWN 0 0.

(** The program's memory before [init]. *)
Definition linux_boot {W} (w : W) : linux_t W :=
  LinuxHost w 0 (0, 0) (repeat 0 (Z.to_nat MAX_OPEN_FILES)) ss_zero ns_zero sdl_zero.

Definition set_ss_state (x : sound_state_e) (s : ss_t) : ss_t := Ss x (ss_rate s) (ss_channels s) (ss_handle s).
Definition set_ns_state (x : net_state_e) (n : ns_t) : ns_t :=
  Ns x (ns_sock n) (conn_fd n) (conn_events n) (conn_revents n) (ns_rx n) (packet_size n) (packet_count n) (packet_max n).
Definition set_ns_sock (x : Z) (n : ns_t) : ns_t :=
  Ns (ns_state n) x (conn_fd n) (conn_events n) (conn_revents n) (ns_rx n) (packet_size n) (packet_count n) (packet_max n).
Definition set_ns_poll (fd events revents : Z) (n : ns_t) : ns_t :=
  Ns (ns_state n) (ns_sock n) fd events revents (ns_rx n) (packet_size n) (packet_count n) (packet_max n).
Definition set_ns_counts (rx size count max : Z) (n : ns_t) : ns_t :=
  Ns (ns_state n) (ns_sock n) (conn_fd n) (conn_events n) (conn_revents n) rx size count max.

(** poll.h and fcntl.h *)
Definition POLLIN : Z := 1.
Definition POLLERR : Z := 8.
Definition POLLHUP : Z := 16.
Definition POLLRDHUP : Z := 8192.
Definition O_NONBLOCK : Z := 2048.

Definition has_bit (x mask : Z) : bool := negb (Z.land x mask =? 0).

Module Linux.
Section Host.
Context {W : Type} `{OS : Posix W} `{T : Target} `{C : Config}.
Abbreviation MH := (M (linux_t W)).

Definition set_os (w : W) (h : linux_t W) : linux_t W :=
  LinuxHost w (start_time h) (con_fds h) (hfs h) (l_ss h) (l_ns h) (l_lcd h).

(** A call of the operating system with and without a result. *)
Definition call {A} (f : W -> A * W) : MH A := fun h =>
  let '(a, w) := f (l_os h) in Done (a, set_os w h, []).
Definition call_ (f : W -> W) : MH unit := modify (fun h => set_os (f (l_os h)) h).

Definition upd_ss (f : ss_t -> ss_t) : MH unit :=
  modify (fun h => LinuxHost (l_os h) (start_time h) (con_fds h) (hfs h) (f (l_ss h)) (l_ns h) (l_lcd h)).
Definition upd_ns (f : ns_t -> ns_t) : MH unit :=
  modify (fun h => LinuxHost (l_os h) (start_time h) (con_fds h) (hfs h) (l_ss h) (f (l_ns h)) (l_lcd h)).
Definition upd_sdl (f : sdl_t -> sdl_t) : MH unit :=
  modify (fun h => LinuxHost (l_os h) (start_time h) (con_fds h) (hfs h) (l_ss h) (l_ns h) (f (l_lcd h))).
Definition set_hfs (l : list Z) : MH unit :=
  modify (fun h => LinuxHost (l_os h) (start_time h) (con_fds h) l (l_ss h) (l_ns h) (l_lcd h)).

(** ** timer.c *)

Definition get_local_time : MH Z :=
  let* (sec, nsec) := call clock_gettime in
  let* h := get in
  if start_time h =? 0 then
    modify (fun h => LinuxHost (l_os h) (u32 sec) (con_fds h) (hfs h) (l_ss h) (l_ns h) (l_lcd h)) ;;
    ret (u32 (Z.quot nsec 1000000))
  else
    let curtime := s32 ((sec - start_time h) * 1000 + Z.quot nsec 1000000) in
    ret (u32 curtime).

(** ** console.c *)

Definition POLL_INTERVAL : Z := 20.
Definition STDIN : Z := 1.

Definition host_con_init : MH unit :=
  modify (fun h => LinuxHost (l_os h) (start_time h) (STDIN, Z.lor POLLIN POLLERR) (hfs h) (l_ss h) (l_ns h) (l_lcd h)) ;;
  let* flags := call (fcntl_getfl STDIN) in
  call_ (fcntl_setfl STDIN (Z.lor flags O_NONBLOCK)).

Definition on_h {A} : MH A -> M (linux_t W * con_t * ev_t) A :=
  zoom (fun x => x.1.1) (fun h x => (h, x.1.2, x.2)).
Definition on_c {A} : M con_t A -> M (linux_t W * con_t * ev_t) A :=
  zoom (fun x => x.1.2) (fun c x => (x.1.1, c, x.2)).
Definition on_e {A} : M ev_t A -> M (linux_t W * con_t * ev_t) A :=
  zoom snd (fun e x => (x.1.1, x.1.2, e)).

(** The loop that reads what is ready, byte by byte. *)
Fixpoint con_read_loop (fuel : nat) : M (linux_t W * con_t * ev_t) unit :=
  match fuel with
  | O => nofuel
  | S fuel' =>
      let* (r, b) := on_h (call (read1 STDIN)) in
      (if r >? 0 then
         let* locked := on_c con_input_islocked in
         when (locked =? 0)
           (when (Z.land b 255 =? 10)
              (on_c con_input_lock ;;
               let* time := on_h get_local_time in
               on_e (event_push time E_CON_INPUT 0 PNull)) ;;
            on_c (con_input_push b))
       else ret tt) ;;
      if r >? 0 then con_read_loop fuel' else ret tt
  end.

(** One round for every byte that is ready and one that finds none. *)
Definition host_con_poll : M (linux_t W * con_t * ev_t) unit :=
  let* x := get in
  let '(fd, events) := con_fds x.1.1 in
  let* (r, _) := on_h (call (poll fd events 0 POLL_INTERVAL)) in
  if negb (r =? 0) then
    let* x := get in con_read_loop (S (length (term (l_os x.1.1))))
  else ret tt.

(** ** fs.c: [MAX_OPEN_FILES] is the one of fs.h *)

Definition file_slot (i : Z) : MH Z := let* h := get in lift (zget (hfs h) i).
Definition set_file_slot (i f : Z) : MH unit :=
  let* h := get in let* l := lift (zset (hfs h) i f) in set_hfs l.

Definition host_fs_init : MH unit :=
  set_hfs (repeat 0 (Z.to_nat MAX_OPEN_FILES)) ;;
  for_range 0 (Z.to_nat MAX_OPEN_FILES) (fun i => set_file_slot i 0).

Definition host_fs_close (handle : Z) : MH unit :=
  if bad_handle handle then ret tt
  else
    let* f := file_slot handle in
    when (negb (f =? 0))
      (call_ (fclose f) ;;
       set_file_slot handle 0 ;;
       fs_debug &"%s (handle = %d)\n" [AStr &"host_fs_close"; AInt handle]).

Definition host_fs_done : MH unit :=
  for_range 0 (Z.to_nat MAX_OPEN_FILES) host_fs_close.

(** The search for a free slot; [-1]: none is free, or the file does not open. *)
Fixpoint fs_open_loop (name : list Z) (i : Z) (n : nat) : MH Z :=
  match n with
  | O => fs_debug &"failed\n" [] ;; ret (-1)
  | S n' =>
      let* f := file_slot i in
      if f =? 0 then
        let* f := call (fopen name) in
        set_file_slot i f ;;
        if f =? 0 then fs_debug &"failed\n" [] ;; ret (-1)
        else fs_debug &"OK\n" [] ;; ret i
      else fs_open_loop name (i + 1) n'
  end.

Definition host_fs_open (name : list Z) : MH Z :=
  fs_debug &"%s ('%s'): " [AStr &"host_fs_open"; AStr name] ;;
  fs_open_loop name 0 (Z.to_nat MAX_OPEN_FILES).

(** The buffer of the callers is never NULL. *)
Definition host_fs_read (handle size : Z) : MH (Z * list Z) :=
  if bad_handle handle then
    fs_debug &"%s (handle = %d): Failed. Bad handle index\n" [AStr &"host_fs_read"; AInt handle] ;;
    ret (0, [])
  else
    let* f := file_slot handle in
    if f =? 0 then
      fs_debug &"%s (handle = %d): Failed. File is not open\n" [AStr &"host_fs_read"; AInt handle] ;;
      ret (0, [])
    else if size =? 0 then
      fs_debug &"%s (handle = %d): Failed. Reading into empty buffer.\n" [AStr &"host_fs_read"; AInt handle] ;;
      ret (0, [])
    else
      let* (got, data) := call (fread f size) in
      ret (u32 got, data).

Definition host_fs_seek (handle offset : Z) : MH unit :=
  if bad_handle handle then
    fs_debug &"%s (handle = %d): Failed. Bad handle index\n" [AStr &"host_fs_seek"; AInt handle]
  else
    let* f := file_slot handle in
    if f =? 0 then
      fs_debug &"%s (handle = %d): Failed. File is not open\n" [AStr &"host_fs_seek"; AInt handle]
    else call_ (fseek f offset).

(** ** net.c *)

Definition CONN_POLL_INT : Z := 20.

Definition host_net_init : MH unit :=
  upd_ns (fun _ => ns_zero) ;;
  upd_ns (set_ns_state NET_CLOSED) ;;
  net_debug &"%s\n" [AStr &"host_net_init"].

Definition host_net_close : MH unit :=
  let* h := get in
  when (negb (ns_sock (l_ns h) =? 0)) (call_ (close (ns_sock (l_ns h)))) ;;
  upd_ns (set_ns_state NET_CLOSED) ;;
  net_debug &"%s\n" [AStr &"host_net_close"].

Definition host_net_done : MH unit :=
  host_net_close ;;
  net_debug &"%s\n" [AStr &"host_net_done"].

Definition net_fail (text : list Z) : MH unit :=
  net_debug text [] ;; upd_ns (set_ns_state NET_ERROR).

Definition host_net_open_tcp (address : list Z) (port : Z) : MH unit :=
  net_debug &"%s: " [AStr &"host_net_open_tcp"] ;;
  let* host := call (gethostbyname address) in
  match host with
  | None => net_fail &"dns error\n"
  | Some addr =>
      let* sock := call socket in
      upd_ns (set_ns_sock sock) ;;
      if sock =? -1 then net_fail &"socket error\n"
      else
        let* r := call (setsockopt_linger sock 1 5) in
        if r <? 0 then net_fail &"setsockopt error\n"
        else
          let* r := call (connect sock addr (u16 port)) in
          if r <? 0 then net_fail &"connect error\n"
          else net_debug &"OK\n" []
  end.

(** [%s] of an array. *)
Definition array_text (buf : list Z) : MH (list Z) := lift (cstr buf).

Definition HTTP_BUFFER : Z := 1024.

Definition net_error (fmt : list Z) : MH unit :=
  xprintf fmt [AStr &"host_net_request"] ;; upd_ns (set_ns_state NET_ERROR).

Definition host_net_request (hostname filename : list Z) : MH unit :=
  let* text := request_text HTTP_BUFFER filename hostname in
  net_debug &"%s: request len: %d\n" [AStr &"host_net_request"; AInt (zlen text)] ;;
  let* h := get in
  let* r := call (send (ns_sock (l_ns h)) text) in
  if r <? 0 then upd_ns (set_ns_state NET_ERROR)
  else
    let* (r, data) := call (recv (ns_sock (l_ns h)) HTTP_BUFFER) in
    let* httprequest := lift (fill data (repeat 0 (Z.to_nat HTTP_BUFFER))) in
    if r <? 0 then upd_ns (set_ns_state NET_ERROR)
    else
      net_debug &"%s: response len: %d\n" [AStr &"host_net_request"; AInt r] ;;
      let* no_media := lift (strstr_in httprequest &"404") in
      if no_media : bool then net_error &"%s: Error 404, media not found.\n"
      else
        let* ogg := lift (strstr_in httprequest &"application/ogg") in
        if ogg : bool then net_error &"%s: Requested media is OGG, which is not supported.\n"
        else
          let* mpeg := lift (strstr_in httprequest &"audio/mpeg") in
          if mpeg : bool then ret tt
          else
            xprintf &"%s: net_request: unknown media type.\n" [AStr &"host_net_request"] ;;
            let* text := array_text httprequest in
            xprintf &"'%s'\n" [AStr text] ;;
            upd_ns (set_ns_state NET_ERROR).

(** The parsed parts go into zeroed arrays; [port] keeps its indeterminate value
    when the address names no port. *)
Definition host_net_open (url : list Z) : MH unit :=
  upd_ns (set_ns_state NET_OPEN) ;;
  upd_ns (set_ns_counts 0 0 0 0) ;;
  net_debug &"%s\n" [AStr &"host_net_open"] ;;
  let* garbage := call indeterminate in
  let* (hostname, port, filename) := net_parse_url url in
  let* hostname := lift (fill hostname (repeat 0 (Z.to_nat MAX_HOSTNAME))) in
  let* filename := lift (fill filename (repeat 0 (Z.to_nat MAX_URL))) in
  let port := default garbage port in
  let* hostname := array_text hostname in
  host_net_open_tcp hostname port ;;
  let* h := get in
  if negb (bool_decide (ns_state (l_ns h) = NET_OPEN)) then
    xprintf &"%s: Error opening socket.\n" [AStr &"host_net_open"]
  else
    net_debug &"%s: Connected to '%s':'%d'\n" [AStr &"host_net_open"; AStr hostname; AInt port] ;;
    let* filename := array_text filename in
    host_net_request hostname filename ;;
    let* h := get in
    if negb (bool_decide (ns_state (l_ns h) = NET_OPEN)) then
      xprintf &"%s: Error requesting media.\n" [AStr &"host_net_open"] ;;
      call_ (close (ns_sock (l_ns h)))
    else
      upd_ns (fun n => set_ns_poll (ns_sock n)
        (Z.lor (Z.lor (Z.lor POLLIN POLLERR) POLLHUP) POLLRDHUP) (conn_revents n) n) ;;
      let* flags := call (fcntl_getfl (ns_sock (l_ns h))) in
      call_ (fcntl_setfl (ns_sock (l_ns h)) (Z.lor flags O_NONBLOCK)).

Definition on_hh {A} : MH A -> M (linux_t W * io_t) A := zoom fst (fun h x => (h, x.2)).
Definition on_ii {A} : M io_t A -> M (linux_t W * io_t) A := zoom snd (fun i x => (x.1, i)).

(** What is received goes into a new input buffer; the result of [recv], also -1,
    is stored as the number of used bytes and added to the counters. *)
Definition net_receive : M (linux_t W * io_t) unit :=
  let* index := on_ii i_push in
  let* x := get in
  let* buff := lift (zget (input x.2) index) in
  let* (r, data) := on_hh (call (recv (ns_sock (l_ns x.1)) (in_size buff))) in
  let* buf := lift (fill data (in_data buff)) in
  on_ii (with_input index (fun b => Input buf (in_size b) (u16 r))) ;;
  on_hh (upd_ns (fun n => set_ns_counts (ulong (ns_rx n + r)) (ulong (packet_size n + r))
    (ulong (packet_count n + 1)) (if ulong r >? packet_max n then ulong r else packet_max n) n)).

Definition net_hangup : MH unit :=
  let* h := get in
  let revents := conn_revents (l_ns h) in
  if has_bit revents (Z.lor POLLHUP POLLRDHUP) then
    xprintf &"%s: connection hangup (%d).\n" [AStr &"host_net_poll"; AInt revents] ;;
    upd_ns (set_ns_state NET_ERROR)
  else if has_bit revents POLLERR then
    xprintf &"%s: connection error (%d).\n" [AStr &"host_net_poll"; AInt (conn_events (l_ns h))] ;;
    upd_ns (set_ns_state NET_ERROR)
  else ret tt.

Definition host_net_poll : M (linux_t W * io_t) unit :=
  let* x := get in
  if negb (bool_decide (ns_state (l_ns x.1) = NET_OPEN)) then ret tt
  else
    let* free := on_ii i_free in
    if free <? 1 then ret tt
    else
      let n := l_ns x.1 in
      let* (r, revents) := on_hh (call (poll (conn_fd n) (conn_events n) (conn_revents n) CONN_POLL_INT)) in
      on_hh (upd_ns (fun n => set_ns_poll (conn_fd n) (conn_events n) revents n)) ;;
      if (r >? 0) && has_bit revents POLLIN then net_receive ;; on_hh net_hangup
      else if r <? 0 then
        let* x := get in
        let error := errno (l_os x.1) in
        on_hh (xprintf &"%s: failed with error %d (%s).\n"
          [AStr &"host_net_poll"; AInt error; AStr (strerror error)] ;;
          upd_ns (set_ns_state NET_ERROR))
      else on_hh net_hangup.

Definition host_net_state : MH net_state_e := gets (fun h => ns_state (l_ns h)).

Definition cmd_nstop : MH unit := host_net_close.

Definition net_state_text (st : net_state_e) : list Z :=
  match st with
  | NET_CLOSED => &"closed"
  | NET_OPEN => &"open"
  | NET_ERROR => &"error"
  | NET_PENDING => &"pending(?!)"
  | NET_UNKNOWN => &"not initialized"
  end.

Definition cmd_net_state : MH unit :=
  let* h := get in
  let n := l_ns h in
  xprintf &"Connection state: " [] ;;
  xprintf (net_state_text (ns_state n)) [] ;;
  xprintf &", rx: %d KB.\n" [ALong (ns_rx n / 1024)] ;;
  when (negb (packet_count n =? 0))
    (xprintf &"Received %d packet of average size %d. Maximum was %d.\n"
       [ALong (packet_count n); ALong (packet_size n / packet_count n); ALong (packet_max n)]) ;;
  xprintf &"\n" [].

(** ** sound.c *)

Definition device : list Z := &"default".

Definition s_debug {S} (fmt : list Z) (args : list arg) : M S unit :=
  when CONFIG_SOUND_DEBUG (xprintf fmt args).

(** The names of [snd_pcm_state_t], in its order; an unknown state prints nothing. *)
Definition pcm_state_names : list (list Z) := [
  &"Open"; &"Setup installed"; &"Ready to start"; &"Running";
  &"Stopped: underrun (playback) or overrun (capture) detected";
  &"Draining: running (playback) or stopped (capture)";
  &"Paused"; &"Hardware is suspended"; &"Hardware is disconnected"].
Definition SND_PCM_STATE_PRIVATE1 : Z := 1024.

Definition pcm_state (st : Z) : MH unit :=
  if st =? SND_PCM_STATE_PRIVATE1 then xprintf &"Private - used internally in the library" []
  else match zget pcm_state_names st with Some name => xprintf name [] | None => ret tt end.

Definition alsa_setup (new_rate : sound_rate_e) (new_channels : Z) : MH unit :=
  let freq := snd_rate2freq new_rate in
  s_debug &"alsa_setup (%d, %d)\n" [AInt freq; AInt new_channels] ;;
  upd_ss (fun s => Ss (ss_state s) new_rate new_channels (ss_handle s)) ;;
  let* h := get in
  let* err := call (snd_pcm_set_params (ss_handle (l_ss h)) new_channels freq 1 500000) in
  when (err <? 0)
    (upd_ss (set_ss_state SS_ERROR) ;;
     xprintf &"alsa_setup: error setting new alsa parameters (freq %d, channels %d)\n"
       [AInt freq; AInt new_channels]).

Definition host_snd_init : MH unit :=
  s_debug &"%s: alsa version: %s\n" [AStr &"host_snd_init"; AStr SND_LIB_VERSION_STR] ;;
  upd_ss (fun _ => ss_zero) ;;
  let* (err, handle) := call (snd_pcm_open device) in
  upd_ss (fun s => Ss (ss_state s) (ss_rate s) (ss_channels s) handle) ;;
  if err <? 0 then
    xprintf &"   alsa initialization failed: %d.\n" [AInt err] ;; upd_ss (set_ss_state SS_ERROR)
  else upd_ss (set_ss_state SS_INIT).

Definition host_snd_done : MH unit :=
  let* h := get in
  call_ (snd_pcm_drop (ss_handle (l_ss h))) ;;
  call_ (snd_pcm_close (ss_handle (l_ss h))) ;;
  s_debug &"%s\n" [AStr &"host_snd_done"].

(** Pausing the device: drain it and remember. *)
Definition snd_pause : MH unit :=
  let* h := get in
  call_ (snd_pcm_drain (ss_handle (l_ss h))) ;;
  upd_ss (set_ss_state SS_PAUSE).

(** The volume is applied in place, to the samples in use. *)
Definition scale_output (index volume : Z) (buff : output_s) : M io_t (list Z) :=
  let* samples := lift (pcm_apply_volume (Some (samples_of_bytes (out_data buff)))
                          (Z.to_nat (out_used buff / 2)) volume) in
  with_output index (fun o => Output (bytes_of_samples samples) (out_size o) (out_used o) (out_rate o) (out_channels o)) ;;
  ret (bytes_of_samples samples).

Definition host_snd_poll (volume : Z) : M (linux_t W * io_t) unit :=
  let* r := on_ii o_pop in
  match r with
  | None =>
      on_hh (xprintf &"%s: buff is null!\n" [AStr &"host_snd_poll"] ;; upd_ss (set_ss_state SS_ERROR))
  | Some index =>
      let* x := get in
      let* buff := lift (zget (output x.2) index) in
      if bogus_frame buff then
        on_hh (s_debug &"%s: bogus frame (rate: %d, channels: %d, size: %d)\n"
          [AStr &"host_snd_poll"; AInt (rate_code (out_rate buff)); AInt (out_channels buff); AInt (out_size buff)] ;;
          when (bool_decide (ss_state (l_ss x.1) = SS_PLAYING)) snd_pause)
      else
        on_hh (when (negb (bool_decide (out_rate buff = ss_rate (l_ss x.1)))
                     || negb (out_channels buff =? ss_channels (l_ss x.1)))
          (alsa_setup (out_rate buff) (out_channels buff))) ;;
        let* data := on_ii (scale_output index volume buff) in
        let* x := get in
        on_hh (when (bool_decide (ss_state (l_ss x.1) = SS_PAUSE))
          (call_ (snd_pcm_prepare (ss_handle (l_ss x.1))))) ;;
        let samples := u32 (Z.quot (out_used buff) (out_channels buff * 2)) in
        let* frames := on_hh (call (snd_pcm_writei (ss_handle (l_ss x.1)) data samples)) in
        on_hh (upd_ss (set_ss_state SS_PLAYING)) ;;
        on_hh (when (frames <? 0)
          (xprintf &"%s: error writing to sound device (frames = %d) %s\n"
             [AStr &"host_snd_poll"; ALong frames; AStr (snd_strerror (s32 frames))] ;;
           upd_ss (set_ss_state SS_ERROR)))
  end.

Fixpoint snd_loop_n (fuel : nat) (st : pl_state_e) (volume : Z) : M (linux_t W * io_t) unit :=
  match fuel with
  | O => nofuel
  | S fuel' =>
      let* x := get in
      if bool_decide (ss_state (l_ss x.1) = SS_ERROR) then ret tt
      else
        let* used := on_ii o_used in
        if used =? 0 then
          on_hh (when (bool_decide (ss_state (l_ss x.1) = SS_PLAYING))
            (snd_pause ;;
             s_debug &"%s: suspending sound device.\n" [AStr &"host_snd_loop"]))
        else if negb (bool_decide (st = PL_PLAYING)) then ret tt
        else
          host_snd_poll volume ;;
          let* used := on_ii o_used in
          if negb (used =? 0) then snd_loop_n fuel' st volume else ret tt
  end.

(** Every round takes one block, or finds none and sets the error state: two
    rounds more than there are blocks are enough. *)
Definition host_snd_loop (st : pl_state_e) (volume : Z) : M (linux_t W * io_t) unit :=
  let* used := on_ii o_used in
  snd_loop_n (S (S (Z.to_nat used))) st volume.

Definition host_snd_state : MH sound_state_e := gets (fun h => ss_state (l_ss h)).

Definition snd_state_text (st : sound_state_e) : list Z :=
  match st with
  | SS_UNKNOWN => &"not initialized.\n"
  | SS_INIT => &"initialized.\n"
  | SS_PLAYING => &"playing.\n"
  | SS_PAUSE => &"paused.\n"
  | SS_ERROR => &"sum ting wong.\n"
  end.

Definition cmd_snd_state (volume : Z) : MH unit :=
  let* h := get in
  xprintf &"snd_state: " [] ;;
  xprintf (snd_state_text (ss_state (l_ss h))) [] ;;
  xprintf &"pcm_state: " [] ;;
  let* st := call (snd_pcm_state (ss_handle (l_ss h))) in
  pcm_state st ;;
  xprintf &"\n" [] ;;
  xprintf &"snd_rate: " [] ;;
  let freq := snd_rate2freq (ss_rate (l_ss h)) in
  (if freq =? 0 then xprintf &"not set yet.\n" [] else xprintf &"%dHz\n" [AInt freq]) ;;
  xprintf &"channels: %d\n" [AInt (ss_channels (l_ss h))] ;;
  xprintf &"volume: %d\n" [AInt volume] ;;
  xprintf &"\n" [].

(** ** lcd.c *)

Definition LCD_FACTOR : Z := 4.
Definition LCD_WIDTH : Z := 84 * LCD_FACTOR.
Definition LCD_HEIGHT : Z := 48 * LCD_FACTOR.
Definition LCD_BPP : Z := 8.

Definition sdl_debug {S} (fmt : list Z) (args : list arg) : M S unit :=
  when CONFIG_LCD_DEBUG (xprintf fmt args).

(** The bytes of a pixel, in the order of a little-endian machine; other depths
    write nothing. *)
Definition pixel_bytes (bpp pixel : Z) : list Z :=
  if bpp =? 1 then [u8 pixel]
  else if bpp =? 2 then [u8 pixel; u8 (Z.shiftr pixel 8)]
  else if bpp =? 3 then [u8 pixel; u8 (Z.shiftr pixel 8); u8 (Z.shiftr pixel 16)]
  else if bpp =? 4 then [u8 pixel; u8 (Z.shiftr pixel 8); u8 (Z.shiftr pixel 16); u8 (Z.shiftr pixel 24)]
  else [].

(** Storing bytes into the pixel memory; [None]: outside of it. *)
Definition write_at (off : Z) (data mem : list Z) : option (list Z) :=
  if (off <? 0) || (zlen mem <? off + zlen data) then None
  else Some (take (Z.to_nat off) mem ++ data ++ drop (Z.to_nat off + length data) mem).

Definition set_pixels (l : list Z) (sf : SDL_Surface) : SDL_Surface :=
  Surface (sf_w sf) (sf_h sf) (BytesPerPixel sf) (pitch sf) (palette sf) l.

Definition putpixel (sf : SDL_Surface) (x y pixel : Z) : option SDL_Surface :=
  let bpp := BytesPerPixel sf in
  let p := y * pitch sf + x * bpp in
  match pixel_bytes bpp (u32 pixel) with
  | [] => Some sf
  | data => (fun l => set_pixels l sf) <$> write_at p data (pixels sf)
  end.

(** [lcd.screen->...]: a NULL screen is dereferenced. *)
Definition the_screen : MH SDL_Surface := let* h := get in lift (screen (l_lcd h)).
Definition set_screen (x : option SDL_Surface) : MH unit :=
  upd_sdl (fun l => Sdl x (sdl_state l) (sdl_width l) (sdl_height l)).
Definition set_sdl_state (st : lcd_state_e) : MH unit :=
  upd_sdl (fun l => Sdl (screen l) st (sdl_width l) (sdl_height l)).

Definition display_bmp (file_name : list Z) : MH unit :=
  let* image := call (SDL_LoadBMP file_name) in
  match image with
  | None =>
      let* h := get in
      xprintf &"Couldn't load %s: %s\n" [AStr file_name; AStr (SDL_GetError (l_os h))]
  | Some image =>
      match palette image with
      | Some colors =>
          let* sf := the_screen in
          match palette sf with
          | Some _ => let* sf := call (SDL_SetColors sf colors) in set_screen (Some sf)
          | None => ret tt
          end
      | None => ret tt
      end ;;
      let* sf := the_screen in
      let* (r, sf) := call (SDL_BlitSurface image sf) in
      set_screen (Some sf) ;;
      let* h := get in
      when (r <? 0) (xprintf &"BlitSurface error: %s\n" [AStr (SDL_GetError (l_os h))]) ;;
      call_ (SDL_UpdateRect sf 0 0 (sf_w image) (sf_h image)) ;;
      call_ (SDL_FreeSurface image)
  end.

Definition white (sf : SDL_Surface) : Z := SDL_MapRGB sf 255 255 255.

Definition host_lcd_init : MH unit :=
  upd_sdl (fun _ => Sdl None LCDS_UNKNOWN LCD_WIDTH LCD_HEIGHT) ;;
  let '(major, minor, patch) := SDL_VERSION in
  sdl_debug &"%s: SDL version %d.%d.%d\n" [AStr &"host_lcd_init"; AInt major; AInt minor; AInt patch] ;;
  sdl_debug &"%s: (%dx%d) " [AStr &"host_lcd_init"; AInt LCD_WIDTH; AInt LCD_HEIGHT] ;;
  let* r := call SDL_Init in
  if negb (r =? 0) then sdl_debug &"failed (init)\n" [] ;; set_sdl_state LCDS_ERROR
  else
    let* sf := call (SDL_SetVideoMode LCD_WIDTH LCD_HEIGHT LCD_BPP) in
    set_screen sf ;;
    match sf with
    | None =>
        let* h := get in
        sdl_debug &"failed (set mode) '%s'\n" [AStr (SDL_GetError (l_os h))] ;;
        set_sdl_state LCDS_ERROR
    | Some sf =>
        let* sf := call (SDL_FillRect sf (white sf)) in
        set_screen (Some sf) ;;
        call_ (SDL_UpdateRect sf 0 0 LCD_WIDTH LCD_HEIGHT) ;;
        sdl_debug &"OK\n" [] ;;
        set_sdl_state LCDS_INIT
    end.

Definition host_lcd_done : MH unit :=
  call_ SDL_Quit ;; sdl_debug &"%s\n" [AStr &"host_lcd_done"].

(** The debug text and the picture of every resource, from [LR_BLANK] on. *)
Definition lcd_pictures : list (list Z * list Z) := [
  (&"blank", &"libs/artwork/bmp/blank.bmp");
  (&"startup", &"libs/artwork/bmp/boot.bmp");
  (&"wellcome", &"libs/artwork/bmp/wellcome.bmp");
  (&"error", &"libs/artwork/bmp/error.bmp");
  (&"", &"libs/artwork/bmp/error_init.bmp");
  (&"", &"libs/artwork/bmp/error_net.bmp");
  (&"", &"libs/artwork/bmp/error_file.bmp");
  (&"", &"libs/artwork/bmp/error_snd.bmp");
  (&"", &"libs/artwork/bmp/error_mp3.bmp");
  (&"radio", &"libs/artwork/bmp/radio.bmp");
  (&"file", &"libs/artwork/bmp/file.bmp");
  (&"play", &"libs/artwork/bmp/play.bmp");
  (&"stop", &"libs/artwork/bmp/stop.bmp");
  (&"", &"libs/artwork/bmp/volume_00.bmp");
  (&"", &"libs/artwork/bmp/volume_01.bmp");
  (&"", &"libs/artwork/bmp/volume_02.bmp");
  (&"", &"libs/artwork/bmp/volume_03.bmp");
  (&"", &"libs/artwork/bmp/volume_04.bmp");
  (&"", &"libs/artwork/bmp/volume_05.bmp");
  (&"", &"libs/artwork/bmp/volume_06.bmp");
  (&"", &"libs/artwork/bmp/volume_07.bmp");
  (&"", &"libs/artwork/bmp/volume_08.bmp");
  (&"", &"libs/artwork/bmp/volume_09.bmp");
  (&"", &"libs/artwork/bmp/volume_10.bmp");
  (&"", &"libs/artwork/bmp/volume_11.bmp");
  (&"", &"libs/artwork/bmp/volume_12.bmp");
  (&"", &"libs/artwork/bmp/volume_13.bmp");
  (&"", &"libs/artwork/bmp/volume_14.bmp");
  (&"", &"libs/artwork/bmp/volume_15.bmp")
].

Definition host_lcd_draw (resource : Z) : MH unit :=
  let* h := get in
  if bool_decide (sdl_state (l_lcd h) = LCDS_ERROR) then ret tt
  else
    sdl_debug &"%s: %d " [AStr &"host_lcd_draw"; AInt resource] ;;
    match zget lcd_pictures resource with
    | Some (text, file_name) => sdl_debug text [] ;; display_bmp file_name
    | None => ret tt
    end ;;
    sdl_debug &"\n" [].

Definition host_lcd_putpixel (x y color : Z) : MH unit :=
  let* h := get in
  when ((x <? sdl_width (l_lcd h)) && (y <? sdl_height (l_lcd h)))
    (let* sf := the_screen in
     let* sf := lift (putpixel sf x y color) in
     set_screen (Some sf)).

(** SDL is handed the screen pointer; it does not accept NULL. *)
Definition host_lcd_update_screen : MH unit :=
  let* h := get in
  let* sf := the_screen in
  call_ (SDL_UpdateRect sf 0 0 (sdl_width (l_lcd h)) (sdl_height (l_lcd h))).

Definition host_lcd_clean_screen : MH unit :=
  let* sf := the_screen in
  let* sf := call (SDL_FillRect sf (white sf)) in
  set_screen (Some sf).

Definition host_lcd_get_cfg : MH lcd_cfg_s :=
  gets (fun h => LcdCfg (sdl_width (l_lcd h)) (sdl_height (l_lcd h)) LCD_BPP).

End Host.
End Linux.

#[export] Instance linux_platform {W} `{OS : Posix W} `{T : Target} `{C : Config} : Platform (linux_t W) := {|
  get_local_time := Linux.get_local_time;
  host_con_init := Linux.host_con_init;
  host_con_poll := Linux.host_con_poll;
  host_fs_init := Linux.host_fs_init;
  host_fs_open := Linux.host_fs_open;
  host_fs_close := Linux.host_fs_close;
  host_fs_read := Linux.host_fs_read;
  host_fs_seek := Linux.host_fs_seek;
  host_net_init := Linux.host_net_init;
  host_net_done := Linux.host_net_done;
  host_net_open := Linux.host_net_open;
  host_net_close := Linux.host_net_close;
  host_net_poll := Linux.host_net_poll;
  host_net_state := Linux.host_net_state;
  host_snd_init := Linux.host_snd_init;
  host_snd_done := Linux.host_snd_done;
  host_snd_loop := Linux.host_snd_loop;
  host_snd_state := Linux.host_snd_state;
  host_lcd_init := Linux.host_lcd_init;
  host_lcd_done := Linux.host_lcd_done;
  host_lcd_draw := Linux.host_lcd_draw;
  host_lcd_get_cfg := Linux.host_lcd_get_cfg;
  host_lcd_putpixel := Linux.host_lcd_putpixel;
  host_lcd_update_screen := Linux.host_lcd_update_screen;
  host_lcd_clean_screen := Linux.host_lcd_clean_screen;
  host_cmd_net_state := Linux.cmd_net_state;
  host_cmd_snd_state := Linux.cmd_snd_state
|}.
