(* ===== verification/HostLinuxProps.v ===== *)
(** * The Linux host obeys the laws of a platform

    The laws of [PlatformLaws] for the functions of [HostLinux], over every
    operating system that obeys [PosixLaws], and what the drivers do: which line
    the terminal makes, which files the slots hold, which samples go to the sound
    device and what is sent to and received from the network. *)

From S2P Require Import Prelude Strings Libc Snd Ring IoBuffer HostShared Console Event Cmd Net Resfs State Fs.
From S2P Require Import LcdPanel Libmad Player Main Keeps FsKeeps System Posix HostLinux.

Section Ends.
Context {W : Type} `{OS : Posix W} `{OL : !PosixLaws W OS} `{T : Target} `{C : Config}.
Abbreviation LH := (linux_t W).

Lemma keeps_true_call {A} (f : W -> A * W) : keeps (fun _ : LH => True) (Linux.call f).
Proof. intros h _. unfold Linux.call, pp. by destruct (f (l_os h)). Qed.
Lemma keeps_true_upd {S} (f : S -> S) : keeps (fun _ => True) (modify f).
Proof. by intros s _. Qed.
Lemma keeps_true_zoom {S A C'} proj upd (m : M C' A) : keeps (fun _ => True) m -> keeps (S := S) (fun _ => True) (zoom proj upd m).
Proof. intros Hm. by apply (keeps_zoom _ (fun _ => True)). Qed.
#[local] Hint Resolve keeps_true_call keeps_true_upd : keeps.

(** [ending m]: a computation of the host without loops ends. *)
Ltac ending := repeat (progress unfold Linux.call_, Linux.upd_ss, Linux.upd_ns, Linux.upd_sdl, Linux.set_hfs,
  Linux.file_slot, Linux.set_file_slot, Linux.array_text, Linux.net_fail, Linux.net_error, Linux.the_screen,
  Linux.set_screen, Linux.set_sdl_state, Linux.s_debug, Linux.sdl_debug, fs_debug, net_debug); keep.

Lemma keeps_get_local_time : keeps (fun _ : LH => True) Linux.get_local_time.
Proof. unfold Linux.get_local_time. ending. Qed.
Lemma keeps_host_con_init : keeps (fun _ : LH => True) Linux.host_con_init.
Proof. unfold Linux.host_con_init. ending. Qed.
Lemma keeps_host_fs_init : keeps (fun _ : LH => True) Linux.host_fs_init.
Proof. unfold Linux.host_fs_init. ending. Qed.
Lemma keeps_fs_open_loop name n : forall i, keeps (fun _ : LH => True) (Linux.fs_open_loop name i n).
Proof. induction n as [|n IH]; intros i; cbn [Linux.fs_open_loop]; ending; apply IH. Qed.
Lemma keeps_host_fs_open name : keeps (fun _ : LH => True) (Linux.host_fs_open name).
Proof. unfold Linux.host_fs_open. pose proof keeps_fs_open_loop. ending. Qed.
Lemma keeps_host_fs_close k : keeps (fun _ : LH => True) (Linux.host_fs_close k).
Proof. unfold Linux.host_fs_close. ending. Qed.
Lemma keeps_host_fs_read k n : keeps (fun _ : LH => True) (Linux.host_fs_read k n).
Proof. unfold Linux.host_fs_read. ending. Qed.
Lemma keeps_host_fs_seek k n : keeps (fun _ : LH => True) (Linux.host_fs_seek k n).
Proof. unfold Linux.host_fs_seek. ending. Qed.
Lemma keeps_host_net_init : keeps (fun _ : LH => True) Linux.host_net_init.
Proof. unfold Linux.host_net_init. ending. Qed.
Lemma keeps_host_net_close : keeps (fun _ : LH => True) Linux.host_net_close.
Proof. unfold Linux.host_net_close. ending. Qed.

Lemma keeps_request_text n f h : keeps (fun _ : LH => True) (request_text n f h).
Proof.
  intros s _. unfold request_text, pp. destruct (sprintf_bytes _ _) eqn:Hs; [|done|].
  - by destruct (_ <? _).
  - unfold sprintf_bytes in Hs. destruct (xvprintf _ _) eqn:Hx; try done.
    exact (xvprintf_loop_ends _ _ _ (Nat.lt_succ_diag_r _) Hx).
Qed.
Lemma keeps_parse_url url : keeps (fun _ : LH => True) (net_parse_url url).
Proof. unfold net_parse_url, net_debug. keep. Qed.
Hint Resolve keeps_request_text keeps_parse_url : keeps.

Lemma keeps_host_net_request a b : keeps (fun _ : LH => True) (Linux.host_net_request a b).
Proof. unfold Linux.host_net_request. ending. Qed.
Lemma keeps_host_net_open_tcp a b : keeps (fun _ : LH => True) (Linux.host_net_open_tcp a b).
Proof. unfold Linux.host_net_open_tcp. ending. Qed.
Hint Resolve keeps_host_net_request keeps_host_net_open_tcp : keeps.
Lemma keeps_host_net_open url : keeps (fun _ : LH => True) (Linux.host_net_open url).
Proof. unfold Linux.host_net_open. ending. Qed.

Lemma keeps_alsa_setup r n : keeps (fun _ : LH => True) (Linux.alsa_setup r n).
Proof. unfold Linux.alsa_setup. ending. Qed.
Lemma keeps_host_snd_init : keeps (fun _ : LH => True) Linux.host_snd_init.
Proof. unfold Linux.host_snd_init. ending. Qed.
Lemma keeps_snd_pause : keeps (fun _ : LH => True) Linux.snd_pause.
Proof. unfold Linux.snd_pause. ending. Qed.
Lemma keeps_display_bmp f : keeps (fun _ : LH => True) (Linux.display_bmp f).
Proof. unfold Linux.display_bmp. ending. Qed.
Hint Resolve keeps_alsa_setup keeps_snd_pause keeps_display_bmp : keeps.
Lemma keeps_host_lcd_init : keeps (fun _ : LH => True) Linux.host_lcd_init.
Proof. unfold Linux.host_lcd_init. ending. Qed.
Lemma keeps_host_lcd_draw r : keeps (fun _ : LH => True) (Linux.host_lcd_draw r).
Proof. unfold Linux.host_lcd_draw. ending. Qed.
Lemma keeps_cmd_net_state : keeps (fun _ : LH => True) Linux.cmd_net_state.
Proof. unfold Linux.cmd_net_state. ending. Qed.
Lemma keeps_cmd_snd_state v : keeps (fun _ : LH => True) (Linux.cmd_snd_state v).
Proof. unfold Linux.cmd_snd_state, Linux.pcm_state. ending. Qed.

(** *** The pollers that work on the rings *)

(** The rings are well formed and the output ring holds [k] blocks. *)
Definition ringsJ (k : Z) (x : LH * io_t) : Prop := io_wf x.2 /\ io_used (io_o x.2) = k.

Lemma keeps_on_hh {A} (m : M LH A) (J : io_t -> Prop) :
  keeps (fun _ => True) m -> keeps (fun x => J x.2) (Linux.on_hh m).
Proof. intros Hm. by apply (keeps_zoom _ (fun _ => True)). Qed.
Lemma keeps_on_ii {A} (m : M io_t A) (J : io_t -> Prop) :
  keeps J m -> keeps (fun x : LH * io_t => J x.2) (Linux.on_ii m).
Proof. intros Hm. by apply (keeps_zoom _ J). Qed.
Hint Resolve keeps_on_hh keeps_on_ii : keeps.

Lemma keeps_net_receive : keeps (fun x : LH * io_t => io_wf x.2) Linux.net_receive.
Proof.
  unfold Linux.net_receive, Linux.upd_ns. keep; try (apply keeps_on_ii; auto with keeps);
    apply keeps_on_hh; auto with keeps.
Qed.
Lemma keeps_net_hangup : keeps (fun _ : LH => True) Linux.net_hangup.
Proof. unfold Linux.net_hangup. ending. Qed.
Hint Resolve keeps_net_receive keeps_net_hangup : keeps.
Lemma keeps_host_net_poll : keeps (fun x : LH * io_t => io_wf x.2) Linux.host_net_poll.
Proof.
  unfold Linux.host_net_poll, i_free. keep; try (apply keeps_on_ii; keep);
    try (apply keeps_on_hh; ending).
Qed.

Lemma io_used_pop io : head io > tail io -> io_used io <> 0 ->
  io_used (set_tail (u32 (tail io + 1)) io) = io_used io - 1.
Proof. unfold io_used. simpl. wraps. lia. Qed.

(** Taking a block leaves one less, or there was none to take. *)
Lemma pp_o_pop io : io_wf io ->
  pp o_pop (fun r io' => io_wf io' /\ (r <> None -> io_used (io_o io) <> 0 ->
    io_used (io_o io') = io_used (io_o io) - 1)) io.
Proof.
  intros Hw. apply pp_conj; [by apply keeps_o_pop|]. unfold o_pop, io_pop. pp_steps.
  destruct (head (io_o io) >? tail (io_o io)) eqn:Hgt.
  - destruct (_ =? 0); [done|]. pp_steps. destruct (_ =? 65535).
    + pp_step. apply pp_debug. by pp_steps.
    + pp_steps. intros _ Hu. apply io_used_pop; [lia|done].
  - pp_step. apply pp_debug. pp_step. cbn. pp_step. apply pp_debug. by pp_step.
Qed.

Lemma keeps_used_with_output k i f : keeps (fun io => io_wf io /\ io_used (io_o io) = k) (with_output i f).
Proof.
  intros io [Hw Hk]. apply pp_conj; [by apply keeps_with_output|]. unfold with_output. by pp_steps.
Qed.
Lemma keeps_scale_output k i v b : keeps (fun io => io_wf io /\ io_used (io_o io) = k) (Linux.scale_output i v b).
Proof. pose proof keeps_used_with_output. unfold Linux.scale_output. keep. Qed.

Lemma pp_host_snd_poll v k x : ringsJ k x -> k <> 0 ->
  pp (Linux.host_snd_poll v) (fun _ x' => io_wf x'.2 /\
    (ss_state (l_ss x'.1) = SS_ERROR \/ io_used (io_o x'.2) = k - 1)) x.
Proof.
  intros [Hw Hk] Hk0. unfold Linux.host_snd_poll, Linux.on_ii at 1. pp_steps.
  eapply pp_mono; [|by apply pp_o_pop]. intros r io [Hw' Hpop]. destruct r as [i|].
  - rewrite Hk in Hpop. specialize (Hpop ltac:(done) Hk0).
    assert (HJ : ringsJ (k - 1) (x.1, io)) by done.
    eapply (keeps_pp (ringsJ (k - 1))); [|exact HJ|intros [] x' [? ?]; by split; [|right]].
    pose proof (keeps_scale_output (k - 1)) as Hs.
    keep; try (apply (keeps_on_hh _ (fun io => io_wf io /\ io_used (io_o io) = k - 1)); ending).
    by apply (keeps_on_ii _ (fun io => io_wf io /\ io_used (io_o io) = k - 1)).
  - unfold Linux.on_hh, Linux.upd_ss. pp_steps. apply pp_xprintf. pp_steps. by split; [|left].
Qed.

Lemma pp_snd_loop_n st v fuel : forall x, io_wf x.2 ->
  (ss_state (l_ss x.1) = SS_ERROR /\ (0 < fuel)%nat) \/ (Z.to_nat (io_used (io_o x.2)) + 1 < fuel)%nat ->
  pp (Linux.snd_loop_n (W := W) fuel st v) (fun _ x' => io_wf x'.2) x.
Proof.
  induction fuel as [|fuel IH]; intros x Hw Hf; [lia|]. cbn [Linux.snd_loop_n]. pp_steps.
  destruct (decide (ss_state (l_ss x.1) = SS_ERROR)) as [He|Hne].
  { rewrite bool_decide_eq_true_2 by done. by pp_step. }
  rewrite bool_decide_eq_false_2 by done. destruct Hf as [[? _]|Hf]; [done|].
  unfold Linux.on_ii at 1, o_used. pp_steps. destruct (Z.eqb_spec (io_used (io_o x.2)) 0) as [|Hu].
  { eapply (keeps_pp (fun x : LH * io_t => io_wf x.2)); [|done|done]. apply keeps_on_hh. ending. }
  destruct (negb _); [by pp_step|]. pp_step.
  eapply pp_mono; [|apply (pp_host_snd_poll v (io_used (io_o x.2))); [by destruct x|done]].
  intros [] x' [Hw' Hx']. unfold Linux.on_ii, o_used. pp_steps.
  destruct (negb _) eqn:Hn; [|by pp_step]. apply IH; [done|].
  destruct Hx' as [He|Hk]; [left; split; [done|lia]|right]. simpl. unfold io_used in *. wraps. lia.
Qed.
End Ends.

(** ** The terminal *)

(** What one byte does to the lock and the line: a line feed locks the console and
    is not stored, and a locked console swallows everything. *)
Definition type_byte (st : bool * list Z) (b : Z) : bool * list Z :=
  if st.1 then st
  else if b =? 10 then (true, st.2)
  else if MAX_CONSOLE_INPUT <=? zlen st.2 then st
  else (false, st.2 ++ [b]).

Definition new_line (st : bool * list Z) (bs : list Z) : bool := negb st.1 && existsb (Z.eqb 10) bs.

(** The events of a poll: one when the line has been ended, none otherwise. *)
Definition line_event (new : bool) (e e' : ev_t) : Prop :=
  if new then ev_head e' = ev_head e + 1 /\ exists time,
    ev_queue e' = ev_push_spec (ev_queue e) (Event (u32 time) E_CON_INPUT 0 PNull)
  else e' = e.

Section Terminal.
Context {W : Type} `{OS : Posix W} `{OL : !PosixLaws W OS} `{T : Target} `{C : Config}.
Abbreviation LH := (linux_t W).

Definition typed (w w' : W) (st : bool * list Z) (c' : con_t) (e e' : ev_t) : Prop :=
  exists bs, term w = bs ++ term w' /\ con_rep c' (fold_left type_byte bs st) /\
    ev_ok e' /\ line_event (new_line st bs) e e'.

Lemma land_255_byte b : is_byte b -> Z.land b 255 = b.
Proof. intros Hb. change 255 with (Z.ones 8). rewrite Z.land_ones by lia. by apply Z.mod_small. Qed.

Lemma wp_con_lock c st : con_rep c st -> wp con_input_lock (fun _ c' => con_rep c' (true, st.2)) c.
Proof. intros Hc. eapply wp_mono; [|by apply (wp_con_step KeyLock)]. by destruct st. Qed.

Lemma wp_con_push b c st : is_byte b -> con_rep c st ->
  wp (con_input_push b) (fun _ c' => con_rep c' (if st.1 || (MAX_CONSOLE_INPUT <=? zlen st.2) then st else (false, st.2 ++ [b]))) c.
Proof.
  intros Hb Hc. eapply wp_mono; [|by apply (wp_con_step (KeyPush b))]. intros [] c'. destruct st as [[] l]; simpl; [done|].
  rewrite u8_id by done. done.
Qed.

Lemma wp_call {A} (f : W -> A * W) (Q : A -> LH -> Prop) h :
  (forall a w, f (l_os h) = (a, w) -> Q a (Linux.set_os w h)) -> wp (Linux.call f) Q h.
Proof. intros HQ. unfold wp, Linux.call. destruct (f (l_os h)) as [a w]. by apply HQ. Qed.

(** Reading the clock: the terminal is left alone. *)
Lemma wp_linux_time h (Q : Z -> LH -> Prop) :
  (forall t h', term (l_os h') = term (l_os h) -> Q t h') -> wp Linux.get_local_time Q h.
Proof.
  intros HQ. unfold Linux.get_local_time. wp_step. apply wp_call. intros [sec nsec] w Hc.
  pose proof (law_clock_term (l_os h)) as Ht. rewrite Hc in Ht. wp_steps.
  destruct (_ =? 0); wp_steps; by apply HQ.
Qed.

(** A line feed: lock, then the event, then a push that the lock swallows. *)
Lemma wp_con_newline h c e l : con_rep c (false, l) -> ev_ok e -> ev_head e < 4294967295 ->
  wp (Linux.on_c con_input_lock ;;
      let* time := Linux.on_h Linux.get_local_time in
      Linux.on_e (event_push time E_CON_INPUT 0 PNull))
    (fun _ x => term (l_os x.1.1) = term (l_os h) /\ con_rep x.1.2 (true, l) /\ ev_ok x.2 /\
       line_event true e x.2) (h, c, e).
Proof.
  intros Hc He Hlt. unfold Linux.on_c, Linux.on_h, Linux.on_e. wp_step. wp_step. cbn [fst snd].
  eapply wp_mono; [|by apply wp_con_lock]. intros [] c' Hc'. wp_step. wp_step. cbn [fst snd].
  apply wp_linux_time. intros t h' Ht. wp_step. cbn [fst snd].
  apply wp_event_push; [done|done|]. intros e' He' Hh Hq. do 3 (split; [done|]). split; [done|by exists t].
Qed.

Lemma typed_nil w w' st c e : term w' = term w -> con_rep c st -> ev_ok e -> typed w w' st c e e.
Proof.
  intros Ht Hc He. exists []. rewrite Ht. split_and!; try done. unfold new_line. cbn. by rewrite andb_false_r.
Qed.

Lemma typed_cons w w' w'' b st c e e' e'' :
  term w = b :: term w' -> typed w' w'' (type_byte st b) c e' e'' ->
  (if new_line st [b] then line_event true e e' else e' = e) -> typed w w'' st c e e''.
Proof.
  intros Ht (bs & Hbs & Hc & He & Hl) Hev. exists (b :: bs). rewrite Ht, Hbs.
  split_and!; [done|done|done|]. revert Hl Hev. destruct st as [[] l]; unfold new_line, type_byte; cbn [fst snd existsb negb andb]; [congruence|].
  rewrite (Z.eqb_sym 10 b), orb_false_r. destruct (b =? 10); cbn [fst snd existsb negb andb orb line_event]; [by intros ->|].
  intros Hl ->. revert Hl. by destruct (_ <=? _).
Qed.

Lemma wp_con_read_loop fuel : forall h c e st,
  con_rep c st -> ev_ok e -> (st.1 = false -> ev_head e < 4294967295) -> (length (term (l_os h)) < fuel)%nat ->
  wp (Linux.con_read_loop fuel) (fun _ x => typed (l_os h) (l_os x.1.1) st x.1.2 e x.2) (h, c, e).
Proof.
  induction fuel as [|fuel IH]; intros h c e st Hc He Hlt Hf; [lia|]. cbn [Linux.con_read_loop].
  wp_step. unfold Linux.on_h at 1. wp_step. cbn [fst snd]. apply wp_call. intros [r b] w Hr. cbn [fst snd].
  destruct (law_read1 _ _ _ _ Hr) as [[Hneg Hterm]|(Hpos & Hb & Hterm)].
  { replace (r >? 0) with false by lia. wp_steps. by apply typed_nil. }
  replace (r >? 0) with true by lia. wp_step. unfold Linux.on_c at 1, con_input_islocked. wp_steps. cbn [fst snd].
  rewrite Hterm in Hf. cbn [length] in Hf.
  assert (Hgo : forall h' c' e', term (l_os h') = term w -> con_rep c' (type_byte st b) -> ev_ok e' ->
    (if new_line st [b] then line_event true e e' else e' = e) ->
    wp (Linux.con_read_loop fuel) (fun _ x => typed (l_os h) (l_os x.1.1) st x.1.2 e x.2) (h', c', e')).
  { intros h' c' e' Ht' Hc' He' Hev. eapply wp_mono; [|apply (IH h' c' e' _ Hc' He')].
    - intros [] x Hx. eapply typed_cons; [by rewrite Ht'|exact Hx|exact Hev].
    - revert Hev Hlt. unfold type_byte, new_line. destruct st as [[] l]; [done|]. cbn [fst snd existsb negb andb].
      rewrite (Z.eqb_sym 10 b), orb_false_r. destruct (b =? 10); [done|]. intros ->. destruct (_ <=? _); auto.
    - rewrite Ht'. lia. }
  destruct st as [locked l]. pose proof (proj1 Hc) as Hlock. cbn [fst snd] in Hlock.
  destruct locked; rewrite Hlock; cbn [Z.eqb when].
  { wp_step. by apply Hgo. }
  wp_step. rewrite land_255_byte by done. destruct (b =? 10) eqn:Hnl; cbn [when].
  - eapply wp_mono; [|by apply wp_con_newline; [exact Hc|exact He|apply Hlt]].
    intros [] [[h1 c1] e1] (Ht1 & Hc1 & He1 & Hev1). cbn [fst snd] in *. unfold Linux.on_c. wp_step. cbn [fst snd].
    eapply wp_mono; [|by apply (wp_con_push b c1 (true, l))]. intros [] c2 Hc2. apply Hgo; [done| |done|].
    + unfold type_byte. cbn [fst snd]. by rewrite Hnl.
    + unfold new_line. cbn [fst existsb negb andb]. by rewrite (Z.eqb_sym 10 b), Hnl.
  - wp_step. unfold Linux.on_c. wp_step. cbn [fst snd].
    eapply wp_mono; [|by apply (wp_con_push b c (false, l))]. intros [] c2 Hc2. apply Hgo; [done| |done|].
    + unfold type_byte. cbn [fst snd]. rewrite Hnl. exact Hc2.
    + unfold new_line. cbn [fst existsb negb andb]. by rewrite (Z.eqb_sym 10 b), Hnl.
Qed.

Lemma wp_host_con_poll h c e st :
  con_rep c st -> ev_ok e -> ev_head e < 4294967295 ->
  wp Linux.host_con_poll
    (fun _ x => typed (poll (con_fds h).1 (con_fds h).2 0 Linux.POLL_INTERVAL (l_os h)).2
       (l_os x.1.1) st x.1.2 e x.2) (h, c, e).
Proof.
  intros Hc He Hlt. unfold Linux.host_con_poll. wp_steps. cbn [fst snd]. destruct (con_fds h) as [fd events].
  wp_step. unfold Linux.on_h. wp_step. cbn [fst snd]. apply wp_call. intros [r rev] w Hp. rewrite Hp. cbn [fst snd].
  destruct (negb _).
  - wp_steps. cbn [fst snd]. apply wp_con_read_loop; try done. cbn. lia.
  - wp_step. by apply typed_nil.
Qed.

Lemma typed_laws w w' st c e e' : typed w w' st c e e' -> ev_inv e ->
  con_inv c /\ ev_inv e' /\ ev_head e' <= ev_head e + 2.
Proof.
  intros (bs & _ & Hc & He & Hl) [_ Hq]. split; [by exists (fold_left type_byte bs st)|].
  unfold line_event in Hl. destruct (new_line st bs); [|subst; split; [done|lia]].
  destruct Hl as [Hh [t Hq']]. split; [|lia]. split; [done|]. rewrite Hq'. by apply ev_push_spec_Forall.
Qed.
End Terminal.

(** ** The instance *)

#[export] Program Instance linux_laws {W} `{OS : Posix W} `{OL : !PosixLaws W OS} `{T : Target} `{C : Config} :
  PlatformLaws (linux_t W) linux_platform := {| host_ok _ := True |}.
Next Obligation. intros. by apply keeps_get_local_time. Qed.
Next Obligation. intros. by apply keeps_host_con_init. Qed.
Next Obligation.
  intros W OS OL T C h c e _ [st Hc] [He Hq] Hlt. apply wp_pp.
  refine (wp_mono _ _ _ _ _ (wp_host_con_poll h c e st Hc He ltac:(lia))).
  intros [] x Hx. split; [done|]. by apply (typed_laws _ _ _ _ _ _ Hx).
Qed.
Next Obligation. intros. by apply keeps_host_fs_init. Qed.
Next Obligation. intros. by apply keeps_host_fs_open. Qed.
Next Obligation. intros. by apply keeps_host_fs_close. Qed.
Next Obligation. intros. by apply keeps_host_fs_read. Qed.
Next Obligation. intros. by apply keeps_host_fs_seek. Qed.
Next Obligation. intros. by apply keeps_host_net_init. Qed.
Next Obligation. intros. by apply keeps_host_net_open. Qed.
Next Obligation. intros. by apply keeps_host_net_close. Qed.
Next Obligation.
  intros W OS OL T C h io _ Hio. refine (pp_mono _ _ _ _ _ (keeps_host_net_poll (h, io) Hio)). intros [] x Hx. by split.
Qed.
Next Obligation. done. Qed.
Next Obligation. intros. by apply keeps_host_snd_init. Qed.
Next Obligation.
  intros W OS OL T C h io st v _ Hio. change (pp (Linux.host_snd_loop st v) (fun _ x => True /\ io_wf x.2) (h, io)).
  unfold Linux.host_snd_loop, Linux.on_ii, o_used. pp_steps. cbn [fst snd].
  eapply pp_mono; [|apply pp_snd_loop_n; [exact Hio|right; cbn; lia]]. intros [] x Hx. by split.
Qed.
Next Obligation. done. Qed.
Next Obligation. intros. by apply keeps_host_lcd_init. Qed.
Next Obligation. intros. by apply keeps_host_lcd_draw. Qed.
Next Obligation. done. Qed.
Next Obligation. intros. by apply keeps_cmd_net_state. Qed.
Next Obligation. intros. by apply keeps_cmd_snd_state. Qed.
