(* ===== verification/LinuxProps.v ===== *)
(** * Theorems about the Linux host *)

From S2P Require Import Prelude Strings Libc Snd Ring IoBuffer HostShared Console Event Cmd Net Resfs State Fs.
From S2P Require Import LcdPanel Libmad Player Main Keeps FsKeeps System Posix HostLinux HostLinuxProps HostNull.

(** ** Sound *)

(** A sound device that accepts what it is given; [played] are the blocks written
    to it, each with its number of frames. *)
Class SoundLaws (W : Type) (OS : Posix W) := {
  played : W -> list (list Z * Z);
  law_writei h d n w : 0 <= (snd_pcm_writei h d n w).1 /\
    played (snd_pcm_writei h d n w).2 = played w ++ [(d, n)];
  law_params h c r s l w : 0 <= (snd_pcm_set_params h c r s l w).1 /\
    played (snd_pcm_set_params h c r s l w).2 = played w;
  law_prepare h w : played (snd_pcm_prepare h w) = played w;
  law_drain h w : played (snd_pcm_drain h w) = played w
}.

Section Sound.
Context {W : Type} `{OS : Posix W} `{SL : !SoundLaws W OS} `{T : Target} `{C : Config}.
Abbreviation LH := (linux_t W).

(** What the device gets for a block: the scaled bytes and the number of frames. *)
Definition sound_of (volume : Z) (b : output_s) : list Z * Z :=
  (bytes_of_samples (scaled volume b), u32 (Z.quot (out_used b) (out_channels b * 2))).

(** The device is in state [st] and has played [l]. *)
Definition device_ok (st : sound_state_e) (l : list (list Z * Z)) (h : LH) : Prop :=
  ss_state (l_ss h) = st /\ played (l_os h) = l.

(** The state after a pause, after a block, and after all pending blocks: a bogus block
    pauses the device like an empty ring does. *)
Definition paused (st : sound_state_e) : sound_state_e := if decide (st = SS_PLAYING) then SS_PAUSE else st.
Definition after_block (st : sound_state_e) (b : output_s) : sound_state_e := if bogus_frame b then paused st else SS_PLAYING.
Definition after_blocks (st : sound_state_e) (qo : list output_s) : sound_state_e :=
  match qo with [] => paused st | _ => fold_left after_block qo st end.

(** The blocks that are played. *)
Definition heard (qo : list output_s) : list output_s := List.filter (fun b => negb (bogus_frame b)) qo.

Lemma after_block_works st b : st <> SS_ERROR -> after_block st b <> SS_ERROR.
Proof. intros Hs. unfold after_block, paused. destruct (bogus_frame b); [|done]. by case_decide. Qed.

Lemma wp_s_debug {S} fmt args (Q : unit -> S -> Prop) s :
  fmt_ok fmt args = true -> Q tt s -> wp (Linux.s_debug fmt args) Q s.
Proof. intros Hf HQ. apply wp_when; intros _; [by apply wp_xprintf|done]. Qed.

Lemma wp_snd_pause st l h : device_ok st l h ->
  wp (when (bool_decide (ss_state (l_ss h) = SS_PLAYING)) Linux.snd_pause) (fun _ => device_ok (paused st) l) h.
Proof.
  intros [Hs Hp]. unfold paused. rewrite Hs. apply wp_when; intros Hd.
  - rewrite decide_True by (by apply bool_decide_eq_true_1 in Hd). unfold Linux.snd_pause, Linux.call_, Linux.upd_ss. wp_steps.
    split; [done|]. cbn. by rewrite law_drain.
  - by rewrite decide_False by (by apply bool_decide_eq_false_1 in Hd).
Qed.

Lemma wp_alsa_setup r n st l h : device_ok st l h -> wp (Linux.alsa_setup r n) (fun _ => device_ok st l) h.
Proof.
  intros [Hs Hp]. unfold Linux.alsa_setup. wp_step. apply wp_s_debug; [done|]. unfold Linux.upd_ss. wp_steps.
  apply wp_call. cbn [l_os]. intros err w Hc. pose proof (law_params (ss_handle (l_ss h)) n (snd_rate2freq r) 1 500000 (l_os h)) as [He Hl].
  cbn [ss_handle l_ss] in Hc. rewrite Hc in He, Hl. cbn [fst snd] in He, Hl.
  apply wp_when; [cbn; lia|]. intros _. split; [done|]. cbn. congruence.
Qed.

(** A bogus block leaves the ring and is dropped. *)
Lemma wp_snd_poll_bogus v h io qi qo b st l :
  queues io qi (b :: qo) -> bogus_frame b = true -> device_ok st l h ->
  wp (Linux.host_snd_poll v) (fun _ x => queues x.2 qi qo /\ device_ok (paused st) l x.1) (h, io).
Proof.
  intros Hq Hb Hh. unfold Linux.host_snd_poll, Linux.on_ii at 1. do 2 wp_step. cbn [fst snd].
  eapply wp_o_pop_some; [exact Hq|]. intros i io1 Hpop. pose proof Hpop as (Hq1 & Hg & _). wp_steps. cbn [fst snd].
  eapply wp_lift; [exact Hg|]. rewrite Hb. unfold Linux.on_hh. wp_step. cbn [fst snd]. wp_step. apply wp_s_debug; [done|].
  eapply wp_mono; [|by apply wp_snd_pause]. intros [] h' Hh'. by split.
Qed.

(** One block: it leaves the ring and goes to the device. *)
Lemma wp_host_snd_poll v h io qi qo b st l :
  queues io qi (b :: qo) -> playable b -> device_ok st l h ->
  wp (Linux.host_snd_poll v) (fun _ x => queues x.2 qi qo /\ device_ok SS_PLAYING (l ++ [sound_of v b]) x.1) (h, io).
Proof.
  intros Hq Hb Hh. unfold Linux.host_snd_poll, Linux.on_ii at 1. do 2 wp_step. cbn [fst snd].
  eapply wp_o_pop_some; [exact Hq|]. intros i io1 Hpop. pose proof Hpop as (_ & Hg & _). wp_steps. cbn [fst snd].
  eapply wp_lift; [exact Hg|]. rewrite (proj1 Hb). wp_step. unfold Linux.on_hh at 1. wp_step. cbn [fst snd].
  apply (wp_mono _ (fun _ => device_ok st l)); [|apply wp_when; [intros _; by apply wp_alsa_setup|done]].
  intros [] h1 Hh1. wp_step. unfold Linux.on_ii at 1, Linux.scale_output. do 2 wp_step. cbn [fst snd].
  eapply wp_lift; [by apply pcm_apply_playable|]. wp_step.
  eapply wp_with_output_popped; [exact Hpop|]. intros io2 (Hq2 & _). wp_steps. cbn [fst snd].
  unfold Linux.on_hh at 1. wp_step. cbn [fst snd]. apply (wp_mono _ (fun _ => device_ok st l)).
  2: { destruct Hh1 as [Hs1 Hp1]. apply wp_when; [|done]. intros _. unfold Linux.call_. wp_step. split; [done|]. cbn.
       by rewrite law_prepare. }
  intros [] h2 [Hs2 Hp2]. wp_step. unfold Linux.on_hh at 1. wp_step. cbn [fst snd]. apply wp_call. intros fr w Hc.
  match type of Hc with snd_pcm_writei ?a ?d ?n _ = _ => pose proof (law_writei a d n (l_os h2)) as [Hf Hl] end.
  rewrite Hc in Hf, Hl. cbn [fst snd] in Hf, Hl. wp_step. unfold Linux.on_hh, Linux.upd_ss. wp_steps. cbn [fst snd].
  apply wp_when; [intros Hneg; lia|]. intros _. cbn. split; [done|]. split; [done|]. cbn. by rewrite Hl, Hp2.
Qed.

Lemma wp_snd_poll_any v h io qi qo b st l :
  queues io qi (b :: qo) -> bogus_frame b = true \/ playable b -> device_ok st l h ->
  wp (Linux.host_snd_poll v) (fun _ x => queues x.2 qi qo /\ device_ok (after_block st b) (l ++ map (sound_of v) (heard [b])) x.1) (h, io).
Proof.
  intros Hq Hb Hh. unfold after_block, heard. cbn [List.filter]. destruct (bogus_frame b) eqn:E; cbn [negb map].
  - rewrite app_nil_r. by eapply wp_snd_poll_bogus.
  - destruct Hb as [Hb|Hb]; [congruence|]. by eapply wp_host_snd_poll.
Qed.

Lemma wp_snd_loop_n v qi qo : forall fuel h io st l,
  queues io qi qo -> Forall (fun b => bogus_frame b = true \/ playable b) qo -> st <> SS_ERROR -> device_ok st l h -> (length qo < fuel)%nat ->
  wp (Linux.snd_loop_n fuel PL_PLAYING v) (fun _ x => queues x.2 qi [] /\
    device_ok (after_blocks st qo) (l ++ map (sound_of v) (heard qo)) x.1) (h, io).
Proof.
  induction qo as [|b qo IH]; intros fuel h io st l Hq Hp Hst Hh Hf; (destruct fuel as [|fuel]; [lia|]);
    cbn [Linux.snd_loop_n]; wp_steps; cbn [fst snd]; rewrite bool_decide_eq_false_2 by (by rewrite (proj1 Hh)); cbn iota;
    wp_step; unfold Linux.on_ii at 1, o_used; wp_steps; cbn [fst snd]; rewrite (o_used_queue _ _ _ Hq).
  - change (zlen (@nil output_s) =? 0) with true. cbn iota. unfold Linux.on_hh. wp_step. cbn [fst snd]. cbn [heard List.filter map]. rewrite app_nil_r.
    apply (wp_mono _ (fun _ => device_ok (paused st) l)); [by intros [] h' Hh'; cbn [fst snd]; split_and!|].
    destruct Hh as [Hs Hl]. unfold paused. rewrite Hs. apply wp_when; intros Hd.
    + rewrite decide_True by (by apply bool_decide_eq_true_1 in Hd). unfold Linux.snd_pause, Linux.call_, Linux.upd_ss. wp_steps.
      apply wp_s_debug; [done|]. split; [done|]. cbn. by rewrite law_drain.
    + by rewrite decide_False by (by apply bool_decide_eq_false_1 in Hd).
  - rewrite zlen_cons. destruct (Z.eqb_spec (1 + zlen qo) 0); [pose proof (zlen_nonneg qo); lia|].
    cbn [bool_decide decide_rel negb]. rewrite bool_decide_eq_true_2 by done. cbn [negb]. inversion Hp as [|? ? Hb Hp']; subst.
    wp_step. eapply wp_mono; [|by apply (wp_snd_poll_any v h io qi qo b st l)].
    intros [] [h1 io1] (Hq1 & Hh1). cbn [fst snd] in *. wp_step. unfold Linux.on_ii, o_used. wp_steps. cbn [fst snd].
    change (heard (b :: qo)) with (List.filter (fun b => negb (bogus_frame b)) ([b] ++ qo)). rewrite List.filter_app, map_app, app_assoc.
    rewrite (o_used_queue _ _ _ Hq1). destruct qo as [|b' qo].
    { wp_steps. cbn [fst snd List.filter map] in *. rewrite app_nil_r. by split. }
    rewrite zlen_cons. destruct (Z.eqb_spec (1 + zlen qo) 0); [pose proof (zlen_nonneg qo); lia|]. cbn [negb].
    change (after_blocks st (b :: b' :: qo)) with (after_blocks (after_block st b) (b' :: qo)).
    apply (IH fuel h1 io1); try done; [by apply after_block_works|simpl in *; lia].
Qed.

(** C27: As long as the player plays, the sound device works and accepts what it is given, one
    call of the sound loop empties the output ring: it writes every pending block that has a
    rate, channels and a size to the device, in order, at the player's volume and with the right
    number of frames; the others, which are bogus, are dropped.  The device is playing
    afterwards when the last block was played; it is paused, if it was playing, when the last
    block was bogus or the ring was empty.  Played blocks must not claim to use more bytes
    than they hold. *)
Theorem linux_snd_loop_plays v h io qi qo :
  queues io qi qo -> Forall (fun b => bogus_frame b = true \/ playable b) qo -> ss_state (l_ss h) <> SS_ERROR ->
  wp (Linux.host_snd_loop PL_PLAYING v) (fun _ x => queues x.2 qi [] /\
    played (l_os x.1) = played (l_os h) ++ map (sound_of v) (List.filter (fun b => negb (bogus_frame b)) qo) /\
    ss_state (l_ss x.1) = after_blocks (ss_state (l_ss h)) qo) (h, io).
Proof.
  intros Hq Hp Hs. unfold Linux.host_snd_loop, Linux.on_ii, o_used. wp_steps. cbn [fst snd].
  rewrite (o_used_queue _ _ _ Hq).
  eapply wp_mono; [|apply (wp_snd_loop_n v qi qo _ h io (ss_state (l_ss h)) (played (l_os h))); try done; unfold zlen; lia].
  intros [] x (Hqx & Hst & Hl). done.
Qed.
End Sound.

(** ** Network *)

Section Network.
Context {W : Type} `{OS : Posix W} `{OL : !PosixLaws W OS} `{T : Target} `{C : Config}.
Abbreviation LH := (linux_t W).

(** The block that is made of what [recv] gave. *)
Definition received (k : Z) (data : list Z) : input_s :=
  Input (data ++ drop (length data) (in_data fresh_input)) IO_INPUT_BUFFER_SIZE (u16 k).

Definition count_packet (k : Z) (n : ns_t) : ns_t :=
  set_ns_counts (ulong (ns_rx n + k)) (ulong (packet_size n + k)) (ulong (packet_count n + 1))
    (if ulong k >? packet_max n then ulong k else packet_max n) n.

Definition set_ns (n : ns_t) (h : LH) : LH :=
  LinuxHost (l_os h) (start_time h) (con_fds h) (hfs h) (l_ss h) n (l_lcd h).

Lemma fresh_data_len : length (in_data fresh_input) = 1024%nat.
Proof. apply repeat_length. Qed.

Lemma wp_net_receive h io qi qo k data w :
  queues io qi qo -> zlen qi < max_buffers (io_i io) -> head (io_i io) < 4294967295 ->
  recv (ns_sock (l_ns h)) IO_INPUT_BUFFER_SIZE (l_os h) = ((k, data), w) ->
  wp Linux.net_receive (fun _ x => queues x.2 (qi ++ [received k data]) qo /\
    x.1 = set_ns (count_packet k (l_ns h)) (Linux.set_os w h)) (h, io).
Proof.
  intros Hq Hroom Hlt Hr. unfold Linux.net_receive, Linux.on_ii at 1. do 2 wp_step. cbn [fst snd].
  eapply wp_i_push_last; [exact Hq|done|done|]. intros i io1 Hl _. pose proof (proj1 Hl) as Hg. wp_steps. cbn [fst snd].
  eapply wp_lift; [exact Hg|]. wp_step. unfold Linux.on_hh at 1. wp_step. cbn [fst snd].
  apply wp_call. intros [k' data'] w' Hc. change (in_size fresh_input) with IO_INPUT_BUFFER_SIZE in Hc.
  rewrite Hr in Hc. injection Hc as <- <- <-. wp_step.
  assert (Hlen : zlen data <= zlen (in_data fresh_input)).
  { unfold zlen at 2. rewrite fresh_data_len. destruct (law_recv _ IO_INPUT_BUFFER_SIZE _ _ _ _ ltac:(done) Hr) as [[_ ->]|[<- ?]]; [done|].
    unfold IO_INPUT_BUFFER_SIZE in *. lia. }
  eapply wp_lift; [unfold fill; by rewrite (proj2 (Z.leb_le _ _) Hlen)|]. wp_step. unfold Linux.on_ii. wp_step. cbn [fst snd].
  eapply wp_with_input_last; [exact Hl|]. intros buf Hq'. unfold Linux.on_hh, Linux.upd_ns. wp_steps. cbn [fst snd].
  split; [exact Hq'|done].
Qed.

(** C32: When the connection is open, a buffer is free and the socket is readable,
    a poll appends exactly one block behind the pending ones; it holds the bytes
    [recv] delivered.  Their number is added to the bytes received and to the sum of the
    packet sizes, one packet more is counted, and the largest size is kept, all as unsigned
    numbers of the width of [long]; beside these only the events that poll reported and the
    state change, which becomes the error state exactly when they are a hangup or an error.  A
    [recv] that fails is not noticed: -1 is stored as 65535 used bytes, and counted. *)
Theorem linux_net_poll_appends h io qi qo r revents w1 k data w2 :
  queues io qi qo -> zlen qi < max_buffers (io_i io) -> head (io_i io) < 4294967295 ->
  ns_state (l_ns h) = NET_OPEN ->
  poll (conn_fd (l_ns h)) (conn_events (l_ns h)) (conn_revents (l_ns h)) Linux.CONN_POLL_INT (l_os h)
    = ((r, revents), w1) -> 0 < r -> has_bit revents POLLIN = true ->
  recv (ns_sock (l_ns h)) IO_INPUT_BUFFER_SIZE w1 = ((k, data), w2) ->
  wp Linux.host_net_poll (fun _ x =>
    (exists b, queues x.2 (qi ++ [b]) qo /\ in_used b = u16 k /\
       take (Z.to_nat (zlen data)) (in_data b) = data /\ (0 <= k -> in_used b = zlen data)) /\
    l_ns x.1 = Ns (if has_bit revents (Z.lor POLLHUP POLLRDHUP) || has_bit revents POLLERR then NET_ERROR else NET_OPEN) (ns_sock (l_ns h))
      (conn_fd (l_ns h)) (conn_events (l_ns h)) revents
      (ulong (ns_rx (l_ns h) + k)) (ulong (packet_size (l_ns h) + k)) (ulong (packet_count (l_ns h) + 1))
      (Z.max (packet_max (l_ns h)) (ulong k)) /\
    l_os x.1 = w2) (h, io).
Proof.
  change (Z.lor POLLHUP POLLRDHUP) with 8208.
  intros Hq Hroom Hlt Hst Hp Hr Hin Hrecv. unfold Linux.host_net_poll. wp_steps. cbn [fst snd].
  rewrite bool_decide_eq_true_2 by done. cbn [negb]. wp_step. unfold Linux.on_ii at 1, i_free. wp_steps. cbn [fst snd].
  rewrite (i_free_queue _ _ _ Hq). destruct (Z.ltb_spec (max_buffers (io_i io) - zlen qi) 1); [lia|].
  wp_step. unfold Linux.on_hh at 1. wp_step. cbn [fst snd]. apply wp_call. intros [r' rev'] w' Hc.
  rewrite Hp in Hc. injection Hc as <- <- <-. wp_step. unfold Linux.on_hh at 1, Linux.upd_ns. wp_steps. cbn [fst snd].
  replace (r >? 0) with true by lia. rewrite Hin. cbn [andb]. wp_step.
  eapply wp_mono; [|eapply (wp_net_receive _ io qi qo k data w2); try done].
  intros [] [h1 io1] [Hq1 Hx]. cbn [fst snd] in Hq1, Hx. subst h1.
  assert (Hb : in_used (received k data) = u16 k /\ take (Z.to_nat (zlen data)) (in_data (received k data)) = data /\
    (0 <= k -> in_used (received k data) = zlen data)).
  { split_and!; [done|unfold received, zlen; cbn [in_data]; rewrite Nat2Z.id; by apply take_app_length|].
    intros Hk. cbn. destruct (law_recv _ IO_INPUT_BUFFER_SIZE _ _ _ _ ltac:(done) Hrecv) as [[-> _]|[-> Hle]]; [lia|].
    unfold IO_INPUT_BUFFER_SIZE in Hle. apply u16_id. lia. }
  unfold Linux.on_hh, Linux.net_hangup. wp_steps. cbn [fst snd]. change (Z.lor POLLHUP POLLRDHUP) with 8208.
  change (conn_revents (l_ns (set_ns _ _))) with revents.
  assert (Emax : forall m, (if ulong k >? m then ulong k else m) = Z.max m (ulong k)) by (intros m; destruct (Z.gtb_spec (ulong k) m); lia).
  destruct (has_bit revents 8208); cbn [orb].
  - wp_step. apply wp_xprintf; [done|]. unfold Linux.upd_ns. wp_steps. cbn [fst snd].
    split; [by exists (received k data)|by rewrite <- Emax].
  - destruct (has_bit revents POLLERR).
    + wp_step. apply wp_xprintf; [done|]. unfold Linux.upd_ns. wp_steps. cbn [fst snd].
      split; [by exists (received k data)|by rewrite <- Emax].
    + wp_steps. cbn [fst snd]. split; [by exists (received k data)|by rewrite <- Emax, <- Hst].
Qed.
End Network.

(** ** Files *)

Section Files.
Context {W : Type} `{OS : Posix W} `{T : Target} `{C : Config}.
Abbreviation LH := (linux_t W).

(** The first free slot from [j] on gets the file. *)
Lemma wp_fs_open_loop name n : forall j i h f w (Q : Z -> LH -> Prop),
  j <= i < j + Z.of_nat n -> zget (hfs h) i = Some 0 ->
  (forall k, j <= k < i -> exists g, zget (hfs h) k = Some g /\ g <> 0) -> 0 <= j ->
  fopen name (l_os h) = (f, w) -> f <> 0 ->
  (forall l, zset (hfs h) i f = Some l ->
     Q i (LinuxHost w (start_time h) (con_fds h) l (l_ss h) (l_ns h) (l_lcd h))) ->
  wp (Linux.fs_open_loop name j n) Q h.
Proof.
  induction n as [|n IH]; intros j i h f w Q Hi Hfree Hused Hj Hf Hf0 HQ; [lia|]. cbn [Linux.fs_open_loop].
  unfold Linux.file_slot. wp_steps. destruct (Z.eq_dec j i) as [->|Hne].
  - eapply wp_lift; [exact Hfree|]. cbn [Z.eqb]. wp_step. apply wp_call. intros f' w' Hc. rewrite Hf in Hc. injection Hc as <- <-.
    unfold Linux.set_file_slot, Linux.set_hfs. wp_steps. cbn [hfs Linux.set_os].
    destruct (zset (hfs h) i f) as [l|] eqn:Hs; [|rewrite zset_some in Hs by (by eapply zget_range); done].
    eapply wp_lift; [reflexivity|]. wp_steps. rewrite (proj2 (Z.eqb_neq f 0)) by done. wp_step. apply wp_fs_debug; [done|].
    wp_steps. by apply HQ.
  - destruct (Hused j ltac:(lia)) as (g & Hg & Hg0). eapply wp_lift; [exact Hg|].
    rewrite (proj2 (Z.eqb_neq g 0)) by done. apply (IH (j + 1) i h f w); try done; [lia| |lia].
    intros k Hk. apply Hused. lia.
Qed.

(** A file that can be opened goes into the first free slot, and closing the
    handle that was returned closes exactly this file and leaves the slots as they
    were. *)
Theorem linux_open_close name h i f w :
  length (hfs h) = Z.to_nat MAX_OPEN_FILES -> zget (hfs h) i = Some 0 ->
  (forall k, 0 <= k < i -> zget (hfs h) k <> Some 0) -> fopen name (l_os h) = (f, w) -> f <> 0 ->
  wp (let* k := Linux.host_fs_open name in Linux.host_fs_close k ;; ret k)
    (fun k h' => k = i /\ hfs h' = hfs h /\ l_os h' = fclose f w) h.
Proof.
  intros Hlen Hfree Hused Hf Hf0. pose proof (zget_range _ _ _ Hfree) as Hi.
  assert (Hz : zlen (hfs h) = MAX_OPEN_FILES) by (unfold zlen; rewrite Hlen; done).
  unfold Linux.host_fs_open. do 2 wp_step. apply wp_fs_debug; [done|].
  eapply (wp_fs_open_loop name _ 0 i h f w); [unfold MAX_OPEN_FILES in *; lia|done| |done|done|done|].
  { intros k Hk. destruct (zget_some (hfs h) k) as [g Hg]; [lia|]. exists g. split; [done|]. intros ->. by apply (Hused k Hk). }
  intros l Hs. wp_step. unfold Linux.host_fs_close, bad_handle.
  replace ((i <? 0) || (i >? MAX_OPEN_FILES)) with false by lia. unfold Linux.file_slot. wp_steps. cbn [hfs].
  eapply wp_lift; [by eapply zget_zset_eq|]. rewrite (proj2 (Z.eqb_neq f 0)) by done. cbn [negb when].
  unfold Linux.call_, Linux.set_file_slot, Linux.set_hfs. wp_steps. cbn [hfs Linux.set_os l_os].
  assert (Hi' : 0 <= i < zlen l) by (unfold zlen; rewrite (zset_length _ _ _ _ Hs); exact Hi).
  eapply wp_lift; [by apply zset_some|]. wp_steps. apply wp_fs_debug; [done|]. wp_steps.
  split_and!; [done| |done]. cbn [hfs]. rewrite zset_some in Hs by done. injection Hs as <-.
  rewrite list_insert_insert_eq. apply list_insert_id. unfold zget in Hfree. by destruct (i <? 0).
Qed.
End Files.

(** ** Errors of the sound device *)

Section Errors.
Context {W : Type} `{OS : Posix W} `{T : Target} `{C : Config}.
Abbreviation LH := (linux_t W).

(** An error of [snd_pcm_set_params] is forgotten: when the device refuses
    the rate of a block but accepts the write that follows, the sound state is
    [SS_PLAYING] and not [SS_ERROR], and the player goes on at the wrong rate. *)
Theorem linux_setup_error_lost v h io qi qo b err w1 frames w2 :
  queues io qi (b :: qo) -> playable b -> out_rate b <> ss_rate (l_ss h) ->
  snd_pcm_set_params (ss_handle (l_ss h)) (out_channels b) (snd_rate2freq (out_rate b)) 1 500000 (l_os h) = (err, w1) ->
  err < 0 ->
  snd_pcm_writei (ss_handle (l_ss h)) (sound_of v b).1 (sound_of v b).2 w1 = (frames, w2) -> 0 <= frames ->
  wp (Linux.host_snd_poll v) (fun _ x => ss_state (l_ss x.1) = SS_PLAYING /\
    ss_rate (l_ss x.1) = out_rate b /\ queues x.2 qi qo) (h, io).
Proof.
  intros Hq Hb Hrate Hset Herr Hwr Hfr. unfold Linux.host_snd_poll, Linux.on_ii at 1. do 2 wp_step. cbn [fst snd].
  eapply wp_o_pop_some; [exact Hq|]. intros i io1 Hpop. pose proof Hpop as (_ & Hg & _). wp_steps. cbn [fst snd].
  eapply wp_lift; [exact Hg|]. rewrite (proj1 Hb). rewrite bool_decide_eq_false_2 by done. cbn [negb orb when].
  wp_step. unfold Linux.on_hh at 1, Linux.alsa_setup, Linux.upd_ss. do 2 wp_step. cbn [fst snd]. apply wp_s_debug; [done|].
  wp_steps. apply wp_call. intros err' w' Hc. cbn [l_ss ss_handle l_os] in Hc. rewrite Hset in Hc. injection Hc as <- <-.
  rewrite (proj2 (Z.ltb_lt _ _) Herr). cbn [when]. wp_steps. apply wp_xprintf; [done|]. wp_step.
  unfold Linux.on_ii at 1, Linux.scale_output. do 2 wp_step. cbn [fst snd].
  eapply wp_lift; [by apply pcm_apply_playable|]. wp_step.
  eapply wp_with_output_popped; [exact Hpop|]. intros io2 (Hq2 & _). wp_steps. cbn [fst snd].
  unfold Linux.on_hh at 1. wp_step. cbn [fst snd set_ss_state ss_state l_ss]. rewrite bool_decide_eq_false_2 by done. cbn [when].
  wp_steps. unfold Linux.on_hh at 1. wp_step. cbn [fst snd]. apply wp_call. intros fr w Hc.
  cbn [l_ss set_ss_state ss_handle l_os Linux.set_os] in Hc. unfold sound_of in Hwr. cbn [fst snd] in Hwr.
  rewrite Hwr in Hc. injection Hc as <- <-. wp_step. unfold Linux.on_hh, Linux.upd_ss. wp_steps. cbn [fst snd].
  apply wp_when; [intros Hneg; lia|]. intros _. by split_and!.
Qed.
End Errors.

(** ** The whole program *)

Section Program.
Context {W D : Type} `{OS : Posix W} `{OL : !PosixLaws W OS} `{T : Target} `{C : Config}
  `{MD : Mad D} `{ML : !MadLaws D MD}.

(** C2: The drivers of the Linux host keep the laws of a host, so that the invariant holds of the
    Linux program: on a 64-bit target, whatever terminal, files, network, sound device and window
    deliver within what the manual pages promise, and for every decoder library that obeys its
    laws, [init] and every frame of the main loop end, for 143 million frames, and unless the run
    hits undefined behaviour every component keeps its invariant. *)
Theorem linux_program_invariant (w : W) (d : D) r n :
  long64 = true -> mad_inv d -> FRAME_EVENTS * Z.of_nat n < 4294967295 ->
  pp (init_linux ;; run n LIBMAD_FUEL commands_linux)
    (fun _ s => inv (FRAME_EVENTS * Z.of_nat n) s) (boot (linux_boot w) d r).
Proof. intros H64 Hd Hn. by apply pp_program; [|apply linux_cmds_ok| | |]. Qed.

(** A poll of the console turns the bytes the terminal delivers into the
    edited line: up to the first line feed they are appended (128 at most), the
    line feed locks the console and makes exactly one event of type [E_CON_INPUT],
    and what comes behind it, like everything that comes while the console is
    locked, is read and dropped. *)
Theorem linux_con_poll_line (h : linux_t W) c e st :
  con_rep c st -> ev_ok e -> ev_head e < 4294967295 ->
  wp Linux.host_con_poll
    (fun _ x => typed (poll (con_fds h).1 (con_fds h).2 0 Linux.POLL_INTERVAL (l_os h)).2
       (l_os x.1.1) st x.1.2 e x.2) (h, c, e).
Proof. apply wp_host_con_poll. Qed.
End Program.

(** ** A small world for the witnesses

    A terminal with text, a clock that ticks, a server that answers, a device that
    records; every file opens. *)
Record toy : Type := Toy {
  toy_time : Z; toy_term : list Z; toy_net : list Z; toy_sound : list (list Z * Z)
}.

Definition toy_read (fd : Z) (w : toy) : (Z * Z) * toy :=
  match toy_term w with
  | [] => ((-1, 0), w)
  | b :: l => ((1, b mod 256), Toy (toy_time w) l (toy_net w) (toy_sound w))
  end.

Definition toy_recv (s n : Z) (w : toy) : (Z * list Z) * toy :=
  let k := Z.to_nat n in
  let d := take k (toy_net w) in
  ((zlen d, d), Toy (toy_time w) (toy_term w) (drop k (toy_net w)) (toy_sound w)).

(** [params] is the answer of [snd_pcm_set_params]. *)
Definition toy_os (params : Z) : Posix toy := {|
  clock_gettime w := ((Z.abs (toy_time w), 0), Toy (toy_time w + 1) (toy_term w) (toy_net w) (toy_sound w));
  poll fd events revents timeout w := ((1, POLLIN), w);
  read1 := toy_read;
  fcntl_getfl fd w := (0, w);
  fcntl_setfl fd flags w := w;
  close fd w := w;
  term w := map (fun x => x mod 256) (toy_term w);
  fopen name w := (7, w);
  fclose f w := w;
  fread f n w := ((0, []), w);
  fseek f n w := w;
  gethostbyname name w := (Some 2130706433, w);
  socket w := (5, w);
  setsockopt_linger s a b w := (0, w);
  connect s a p w := (0, w);
  send s d w := (zlen d, w);
  recv := toy_recv;
  errno w := 0;
  strerror e := &"error";
  indeterminate w := (0, w);
  SND_LIB_VERSION_STR := &"1.0";
  snd_pcm_open name w := ((0, 3), w);
  snd_pcm_set_params h c r s l w := (params, w);
  snd_pcm_drop h w := w;
  snd_pcm_close h w := w;
  snd_pcm_drain h w := w;
  snd_pcm_prepare h w := w;
  snd_pcm_writei h d n w := (0, Toy (toy_time w) (toy_term w) (toy_net w) (toy_sound w ++ [(d, n)]));
  snd_pcm_state h w := (0, w);
  snd_strerror e := &"error";
  SDL_VERSION := (1, 2, 15);
  SDL_Init w := (-1, w);
  SDL_SetVideoMode x y z w := (None, w);
  SDL_FillRect sf c w := (sf, w);
  SDL_MapRGB sf r g b := 0;
  SDL_UpdateRect sf a b c d w := w;
  SDL_LoadBMP name w := (None, w);
  SDL_SetColors sf l w := (sf, w);
  SDL_BlitSurface a b w := ((0, b), w);
  SDL_FreeSurface a w := w;
  SDL_GetError w := &"error";
  SDL_Quit w := w
|}.

#[export] Instance toy_laws p : PosixLaws toy (toy_os p).
Proof.
  split.
  - intros w r b w' Hr. cbn in Hr. unfold toy_read in Hr. destruct w as [t [|x l] n s]; cbn in Hr; injection Hr as <- <- <-.
    + left. split; [lia|done].
    + right. split_and!; [lia| |done]. apply Z.mod_pos_bound. lia.
  - done.
  - intros w sec nsec w' Hc. injection Hc as <- <- <-. lia.
  - intros f n w k d w' Hn Hc. injection Hc as <- <- <-. by split.
  - intros s n w k d w' Hn Hc. injection Hc as <- <- <-. right. split; [done|]. unfold zlen. rewrite length_take. lia.
Qed.

#[export] Instance toy_posix : Posix toy := toy_os 0.
#[export] Program Instance toy_device : SoundLaws toy toy_posix := {| played := toy_sound |}.
Solve All Obligations with done.

#[local] Existing Instance linux_target.
#[local] Existing Instance demo_config.

Definition toy_world : toy := Toy 5 &"svol 3\nx" [1; 2; 3] [].
Definition toy_host : linux_t toy := linux_boot toy_world.

(** A stereo block of two samples at 44100 Hz. *)
Definition toy_block : output_s := Output [0; 1; 0; 2; 0; 3; 0; 4] 8 8 SR_44100_HZ 2.
Definition toy_io : io_t :=
  IoState (Io &"input" 0 0 4) (Io &"output" 1 0 4) (repeat fresh_input 4)
    (toy_block :: repeat fresh_output 3).

Lemma toy_queues : queues toy_io [] [toy_block].
Proof. unfold queues, io_ok, ring_ok. vm_compute. split_and!; try done; intros ?; discriminate. Qed.

Lemma toy_playable : playable toy_block.
Proof. split; [reflexivity|]. vm_compute. lia. Qed.

(** A block that was pushed and not set up, as [fs_poll_riff] leaves one at the end of a file, comes second. *)
Definition toy_io2 : io_t :=
  IoState (Io &"input" 0 0 4) (Io &"output" 2 0 4) (repeat fresh_input 4)
    (toy_block :: repeat fresh_output 3).

Lemma toy_queues2 : queues toy_io2 [] [toy_block; fresh_output].
Proof. unfold queues, io_ok, ring_ok. vm_compute. split_and!; try done; intros ?; discriminate. Qed.

Lemma linux_snd_loop_plays_witness :
  wp (Linux.host_snd_loop PL_PLAYING 8) (fun _ x => queues x.2 [] [] /\
    played (l_os x.1) = [sound_of 8 toy_block] /\ ss_state (l_ss x.1) = SS_PAUSE) (toy_host, toy_io2).
Proof.
  assert (E : List.filter (fun b => negb (bogus_frame b)) [toy_block; fresh_output] = [toy_block]) by reflexivity.
  assert (E2 : after_blocks (ss_state (l_ss toy_host)) [toy_block; fresh_output] = SS_PAUSE) by reflexivity.
  eapply wp_mono; [|apply (linux_snd_loop_plays 8 toy_host toy_io2 [] [toy_block; fresh_output]); [exact toy_queues2| |discriminate]].
  - intros [] x (Hq & Hp & Hs). rewrite E in Hp. rewrite E2 in Hs. split; [exact Hq|]. split; [|exact Hs]. rewrite Hp. reflexivity.
  - constructor; [right; exact toy_playable|]. constructor; [left; reflexivity|constructor].
Defined.

Definition open_host : linux_t toy :=
  LinuxHost toy_world 0 (0, 0) [0; 0; 0] ss_zero (set_ns_state NET_OPEN ns_zero) sdl_zero.

Lemma linux_net_poll_appends_witness :
  wp Linux.host_net_poll (fun _ x =>
    (exists b, queues x.2 ([] ++ [b]) [toy_block] /\ in_used b = u16 3 /\
       take (Z.to_nat (zlen [1; 2; 3])) (in_data b) = [1; 2; 3] /\ (0 <= 3 -> in_used b = zlen [1; 2; 3])) /\
    l_ns x.1 = Ns NET_OPEN 0 0 0 POLLIN 3 3 1 3 /\ l_os x.1 = Toy 5 &"svol 3\nx" [] []) (open_host, toy_io).
Proof.
  eapply wp_mono; [|apply (linux_net_poll_appends open_host toy_io [] [toy_block] 1 POLLIN toy_world 3 [1; 2; 3] (Toy 5 &"svol 3\nx" [] []));
    [exact toy_queues|reflexivity|reflexivity|reflexivity|reflexivity|lia|reflexivity|reflexivity]].
  intros [] x (Hb & Hn & Ho). split; [exact Hb|]. split; [|exact Ho]. rewrite Hn. vm_compute. reflexivity.
Defined.

Lemma linux_open_close_witness :
  wp (let* k := Linux.host_fs_open &"a.mp3" in Linux.host_fs_close k ;; ret k)
    (fun k h' => k = 0 /\ hfs h' = hfs toy_host /\ l_os h' = fclose 7 toy_world) toy_host.
Proof.
  apply (linux_open_close &"a.mp3" toy_host 0 7 toy_world); [reflexivity|reflexivity|intros k Hk; lia|reflexivity|lia].
Defined.

Lemma linux_setup_error_lost_witness :
  wp (Linux.host_snd_poll (OS := toy_os (-22)) 8) (fun _ x => ss_state (l_ss x.1) = SS_PLAYING /\
    ss_rate (l_ss x.1) = SR_44100_HZ /\ queues x.2 [] []) (toy_host, toy_io).
Proof.
  apply (linux_setup_error_lost (OS := toy_os (-22)) 8 toy_host toy_io [] [] toy_block (-22) toy_world 0
    (Toy 5 &"svol 3\nx" [1; 2; 3] [sound_of 8 toy_block]));
    [exact toy_queues|exact toy_playable|done|reflexivity|lia|reflexivity|lia].
Defined.

Lemma linux_con_poll_line_witness :
  wp Linux.host_con_poll
    (fun _ x => typed (poll (con_fds toy_host).1 (con_fds toy_host).2 0 Linux.POLL_INTERVAL (l_os toy_host)).2
       (l_os x.1.1) (false, []) x.1.2 ev_zero x.2) (toy_host, con_zero, ev_zero).
Proof.
  apply (linux_con_poll_line toy_host con_zero ev_zero (false, [])); [exact con_rep_zero|exact ev_ok_zero|reflexivity].
Defined.

(** What that poll leaves behind. *)
Example linux_typed_line :
  let x := final Linux.host_con_poll (toy_host, con_zero, ev_zero) in
  con_line x.1.2 = &"svol 3" /\ con_lock x.1.2 = 1 /\ map e_type (ev_queue x.2) = [E_CON_INPUT] /\ toy_term (l_os x.1.1) = [].
Proof. vm_compute. done. Qed.

Lemma linux_program_invariant_witness :
  pp (init_linux ;; run 2 LIBMAD_FUEL commands_linux) (fun _ s => inv 60 s) (boot (linux_boot toy_world) tt demo_res).
Proof. apply (linux_program_invariant toy_world tt demo_res 2); [reflexivity|exact I|reflexivity]. Defined.
