(* ===== verification/MadProps.v ===== *)
(** * Theorems about libmad's front end, and the player over it *)

From S2P Require Import Prelude Strings Libc MadBit MadTimer MadStream MadFrame MadFrameProps Snd IoBuffer Console Event Cmd Id3tag Net Resfs.
From S2P Require Import State Fs LcdPanel Libmad Player Main Keeps FsKeeps System HostNull Posix HostLinux HostLinuxProps LinuxProps MadFixed MadSynth MadLayer3 MadDecoder MadLayers.

Section Headers.
Context `{T : Target} (buf : list Z).

(** [mad_stream_sync] finds the first sync word behind the bit pointer that has
    the eight guard bytes of the buffer behind it, and fails, leaving the stream as it
    is, only when no sync word is left before them. *)
Theorem mad_stream_sync_first s e p :
  st_bufend s = Some e -> e <= zlen buf -> mad_bit_nextbyte (st_ptr s) = p -> 0 <= p ->
  exists q, p <= q /\ (forall k, p <= k < q -> k < e - 1 -> sync_at buf k = false) /\
    ((mad_stream_sync buf s = Some (-1, s) /\ e - q < MAD_BUFFER_GUARD) \/
     (mad_stream_sync buf s = Some (0, set_ptr (mad_bit_init q) s) /\ q + MAD_BUFFER_GUARD <= e /\ sync_at buf q = true)).
Proof. intros He Hl <- Hp. by apply mad_stream_sync_spec. Qed.

(** C15: [decode_header] reads no more than the six bytes of a header, and it succeeds
    exactly when no field has a forbidden value; then every field of the header is
    the one the standard puts at its place, the bit rate and the sampling rate are
    those of the tables, and the checksum over the protected part is the bit-serial
    CRC. *)
Theorem decode_header_correct h s p :
  at_bit buf (st_ptr s) (8 * p) -> 0 <= p -> p + 6 <= zlen buf ->
  match header_error buf p with
  | Some e => exists h' bp, decode_header buf h s = Done (-1, h', set_error e (set_ptr bp s))
  | None => exists bitrate samplerate bp,
      header_bitrate buf p = Some bitrate /\ header_samplerate buf p = Some samplerate /\
      decode_header buf h s = Done (0, header_at buf p bitrate samplerate h, set_ptr bp s) /\
      at_bit buf bp (8 * (p + if header_protected buf p then 6 else 4))
  end.
Proof. apply decode_header_run. Qed.

(** C14: Looking for a header always ends and reads nothing outside of the buffer, whatever the
    bytes are.  The stream is one that [mad_stream_buffer] and earlier calls leave: it ends at [e]
    inside the buffer, at most 16384 bytes behind its start; the places [t] of the current frame and
    [n] of the next one are before the end, and when sync is lost [n] is at most one byte behind [t];
    no negative number of bytes is to be skipped, and the free bit rate is one that was found before.
    The call gives a header whose frame lies in the buffer with the guard bytes behind it; or the error that the buffer is used up; or an error the caller can recover from and a
    place further on than the one it started from. *)
Theorem mad_header_decode_progress h s e t n :
  stream_ok s e t n -> e <= zlen buf ->
  exists r h' s', MadFrame.mad_header_decode buf h s = Done (r, h', s') /\ 0 <= st_skiplen s' /\ header_result buf n e r h' s'.
Proof. apply mad_header_decode_result. Qed.
End Headers.

Section Player.
Context {W : Type} `{OS : Posix W} `{OL : !PosixLaws W OS} `{C : Config} `{FP : Fpm} `{P : Pool}.
#[local] Existing Instance linux_target.

(** On Linux the command [libmad] is undefined behaviour whenever it is used: the
    time is printed with a format that reads the seconds as a [long] while
    [mad_timer_string] passes them as an [int]. *)
Theorem cmd_libmad_state_undefined (s : state (linux_t W) dec_t) :
  0 <= fraction (dec_timer (m_dec (s_mad s))) < MAD_TIMER_RESOLUTION -> cmd_libmad_state s = Fault.
Proof.
  intros Hf. unfold cmd_libmad_state, bind at 1, get. cbn. rewrite mad_timer_string_linux; [done|].
  by apply abs_fraction.
Qed.
End Player.

(** ** Witnesses: a first header of a 128 kbit/s stream *)

#[local] Existing Instance linux_target.
#[local] Existing Instance demo_config.

Definition mp3_start : list Z := [255; 251; 144; 100] ++ repeat 0 20.
Definition mp3_stream : stream_t := mad_stream_buffer 0 24 mad_stream_init.

#[local] Instance default_fpm : Fpm := {| fpm_arm := false |}.
#[local] Instance toy_pool : Pool := {| pool_malloc n := Some (repeat 0 (Z.to_nat n)); pool_calloc n size := true |}.

Definition toy_dec : dec_t :=
  Dec mad_stream_init (mad_frame_init (Frame mad_header_init 0 (zero_block 36 32) None)) mad_timer_zero (SynthT zero_filter 0 0 0 0 [repeat 0 1152; repeat 0 1152]).

Lemma mad_stream_sync_first_witness :
  exists q, 0 <= q /\ (forall k, 0 <= k < q -> k < 24 - 1 -> sync_at mp3_start k = false) /\
    ((mad_stream_sync mp3_start mp3_stream = Some (-1, mp3_stream) /\ 24 - q < MAD_BUFFER_GUARD) \/
     (mad_stream_sync mp3_start mp3_stream = Some (0, set_ptr (mad_bit_init q) mp3_stream) /\
      q + MAD_BUFFER_GUARD <= 24 /\ sync_at mp3_start q = true)).
Proof. apply (mad_stream_sync_first mp3_start mp3_stream 24 0); [reflexivity|done|reflexivity|lia]. Defined.

Lemma decode_header_correct_witness :
  exists bitrate samplerate bp,
    header_bitrate mp3_start 0 = Some bitrate /\ header_samplerate mp3_start 0 = Some samplerate /\
    decode_header mp3_start mad_header_init mp3_stream = Done (0, header_at mp3_start 0 bitrate samplerate mad_header_init, set_ptr bp mp3_stream) /\
    at_bit mp3_start bp (8 * (0 + if header_protected mp3_start 0 then 6 else 4)).
Proof. apply (decode_header_correct mp3_start mad_header_init mp3_stream 0); [apply (at_bit_init mp3_start 0); lia|lia|done]. Defined.

Example mp3_header : header_bitrate mp3_start 0 = Some 128000 /\ header_samplerate mp3_start 0 = Some 44100.
Proof. done. Qed.

Lemma mad_header_decode_progress_witness :
  exists r h' s', MadFrame.mad_header_decode mp3_start mad_header_init mp3_stream = Done (r, h', s') /\
    0 <= st_skiplen s' /\ header_result mp3_start 0 24 r h' s'.
Proof.
  apply (mad_header_decode_progress mp3_start mad_header_init mp3_stream 24 0 0); [|done].
  unfold stream_ok, MAX_STREAM. cbn. split_and!; try done; try lia. by left.
Defined.

Lemma cmd_libmad_state_undefined_witness :
  cmd_libmad_state (boot (linux_boot toy_world) toy_dec demo_res) = Fault.
Proof. apply (cmd_libmad_state_undefined (boot (linux_boot toy_world) toy_dec demo_res)). done. Defined.
