(* ===== verification/Board.v ===== *)
(** * The STM32 board

    What the files of src/stm32 and libs/Audio use of the hardware and of the
    peripheral library: calls that configure it, registers that are read and written
    directly, flags that are polled, interrupts.  [W] is the state of the hardware.
    [BoardLaws] are the facts of the reference manuals that the theorems use: polling
    ends, the DMA stream transfers the buffer its registers name when it is enabled and
    interrupts when it is done, and the display controller interprets the bytes it is
    sent. *)

From S2P Require Import Prelude.

(** ** The peripheral library *)

Inductive port : Type := GPIOA | GPIOB | GPIOC | GPIOD | GPIOE.
#[export] Instance port_eq_dec : EqDecision port.
Proof. solve_decision. Defined.

Definition GPIO_Pin (n : Z) : Z := Z.shiftl 1 n.

Inductive gpio_mode : Type := GPIO_Mode_OUT | GPIO_Mode_AF.
Inductive gpio_otype : Type := GPIO_OType_PP | GPIO_OType_OD.
Inductive gpio_speed : Type := GPIO_Speed_50MHz | GPIO_Speed_100MHz.
Inductive gpio_pupd : Type := GPIO_PuPd_NOPULL | GPIO_PuPd_UP.

Record GPIO_InitTypeDef : Type := GpioInit {
  gi_pin : Z; gi_mode : gpio_mode; gi_otype : gpio_otype; gi_speed : gpio_speed; gi_pupd : gpio_pupd
}.

Record USART_InitTypeDef : Type := UsartInit {
  USART_BaudRate : Z; USART_WordLength : Z; USART_StopBits : Z; USART_Parity : Z;
  USART_HardwareFlowControl : Z; USART_Mode : Z
}.

Record SPI_InitTypeDef : Type := SpiInit {
  SPI_Direction : Z; SPI_Mode : Z; SPI_DataSize : Z; SPI_CPOL : Z; SPI_CPHA : Z;
  SPI_NSS : Z; SPI_BaudRatePrescaler : Z; SPI_FirstBit : Z; SPI_CRCPolynomial : Z
}.

Record ETH_InitTypeDef : Type := EthInit {
  ETH_AutoNegotiation : Z; ETH_LoopbackMode : Z; ETH_RetryTransmission : Z; ETH_AutomaticPadCRCStrip : Z;
  ETH_ReceiveAll : Z; ETH_BroadcastFramesReception : Z; ETH_PromiscuousMode : Z; ETH_MulticastFramesFilter : Z;
  ETH_UnicastFramesFilter : Z; ETH_ChecksumOffload : Z; ETH_DropTCPIPChecksumErrorFrame : Z;
  ETH_ReceiveStoreForward : Z; ETH_TransmitStoreForward : Z; ETH_ForwardErrorFrames : Z;
  ETH_ForwardUndersizedGoodFrames : Z; ETH_SecondFrameOperate : Z; ETH_AddressAlignedBeats : Z;
  ETH_FixedBurst : Z; ETH_RxDMABurstLength : Z; ETH_TxDMABurstLength : Z; ETH_DMAArbitration : Z
}.

(** The calls of the peripheral library without a result. *)
Inductive hw : Type :=
| RCC_AHB1PeriphClockCmd (periph : Z)
| RCC_AHB2PeriphClockCmd (periph : Z)
| RCC_APB1PeriphClockCmd (periph : Z)
| RCC_APB2PeriphClockCmd (periph : Z)
| RCC_APB1PeriphResetCmd (periph : Z) (on : bool)
| GPIO_PinAFConfig (p : port) (source af : Z)
| GPIO_Init (p : port) (i : GPIO_InitTypeDef)
| GPIO_SetBits (p : port) (pins : Z)
| GPIO_ResetBits (p : port) (pins : Z)
| USART_Init (i : USART_InitTypeDef)
| USART_ITConfig (it : Z)
| USART_Cmd
| USART_SendData (data : Z)
| NVIC_Init (irq : Z)
| NVIC_EnableIRQ (irq : Z)
| NVIC_DisableIRQ (irq : Z)
| NVIC_SetPriority (irq priority : Z)
| SPI_Init (i : SPI_InitTypeDef)
| SPI_Cmd
| RNG_Cmd
| SYSCFG_ETH_MediaInterfaceConfig (mode : Z)
| ETH_DeInit
| ETH_SoftwareReset
| STM_EVAL_LEDInit (led : Z)
| STM_EVAL_LEDOn (led : Z)
| STM_EVAL_LEDOff (led : Z)
| SysTick_Config (ticks : Z).

(** The registers the sources access themselves. *)
Inductive reg : Type :=
| SPI1_DR
| SPI3_CR2 | SPI3_SR | SPI3_DR | SPI3_I2SCFGR | SPI3_I2SPR
| I2C1_CR1 | I2C1_CR2 | I2C1_OAR1 | I2C1_CCR | I2C1_TRISE | I2C1_SR1 | I2C1_SR2 | I2C1_DR
| RCC_CR | RCC_CFGR | RCC_PLLI2SCFGR
| GPIOD_BSRRL | GPIOD_BSRRH
| DMA1_Stream7_CR | DMA1_Stream7_NDTR | DMA1_Stream7_PAR | DMA1_Stream7_M0AR | DMA1_Stream7_FCR
| DMA1_HIFCR.

(** The flags that library functions report. *)
Inductive flag : Type :=
| USART_FLAG_TXE | USART_FLAG_RXNE
| SPI1_FLAG_TXE | SPI1_FLAG_RXNE | SPI1_FLAG_BSY
| RNG_FLAG_DRDY
| ETH_SoftwareResetStatus.

Class Board (W : Type) := {
  hw_call : hw -> W -> W;
  reg_get : reg -> W -> Z * W;
  reg_set : reg -> Z -> W -> W;
  get_flag : flag -> W -> bool * W;
  USART_ReceiveData : W -> Z * W;
  RNG_GetRandomNumber : W -> Z * W;
  HCLK_Frequency : W -> Z * W;
  ETH_Init : ETH_InitTypeDef -> Z -> W -> Z * W;
  ETH_CheckFrameReceived : W -> bool * W;
  (** Whether the SysTick interrupt comes before the next instruction. *)
  systick : W -> bool * W;
  (** [wfi]: whether the interrupt it waited for is the one of the audio DMA. *)
  wfi : W -> bool * W;
  (** How often a condition has to be polled at most, until it holds. *)
  max_polls : nat
}.

(** ** The display controller, PCD8544

    Its data RAM has six banks of 84 bytes; a byte is a column of eight pixels. *)
Record panel_t : Type := Panel {
  p_ce : bool;       (* chip enable, active low *)
  p_dc : bool;       (* data (high) or command *)
  p_ext : bool;      (* extended instruction set *)
  p_x : Z; p_y : Z;  (* address of the next byte *)
  p_ram : list Z
}.

Definition PANEL_X : Z := 84.
Definition PANEL_Y : Z := 6.

Definition PIN_CE : Z := GPIO_Pin 13.
Definition PIN_DC : Z := GPIO_Pin 14.
Definition PIN_RST : Z := GPIO_Pin 15.

Definition masks (x m : Z) : bool := negb (Z.land x m =? 0).

(** A command byte: function set, set Y and set X of the normal instruction set; the
    others do not touch address and RAM. *)
Definition panel_command (b : Z) (p : panel_t) : panel_t :=
  if Z.land b 248 =? 32 then Panel (p_ce p) (p_dc p) (masks b 1) (p_x p) (p_y p) (p_ram p)
  else if p_ext p then p
  else if Z.land b 128 =? 128 then Panel (p_ce p) (p_dc p) (p_ext p) (Z.land b 127) (p_y p) (p_ram p)
  else if Z.land b 192 =? 64 then Panel (p_ce p) (p_dc p) (p_ext p) (p_x p) (Z.land b 63) (p_ram p)
  else p.

(** A data byte is stored, and the address moves on through the bank. *)
Definition panel_data (b : Z) (p : panel_t) : panel_t :=
  let ram := default (p_ram p) (zset (p_ram p) (p_y p * PANEL_X + p_x p) b) in
  let wrap := p_x p + 1 =? PANEL_X in
  Panel (p_ce p) (p_dc p) (p_ext p)
    (if wrap then 0 else p_x p + 1)
    (if wrap then (if p_y p + 1 =? PANEL_Y then 0 else p_y p + 1) else p_y p) ram.

Definition panel_byte (b : Z) (p : panel_t) : panel_t :=
  if p_ce p then p else if p_dc p then panel_data b p else panel_command b p.

Definition panel_pins (pins : Z) (v : bool) (p : panel_t) : panel_t :=
  let p := if masks pins PIN_CE then Panel v (p_dc p) (p_ext p) (p_x p) (p_y p) (p_ram p) else p in
  let p := if masks pins PIN_DC then Panel (p_ce p) v (p_ext p) (p_x p) (p_y p) (p_ram p) else p in
  if masks pins PIN_RST && negb v then Panel (p_ce p) (p_dc p) false 0 0 (p_ram p) else p.

Definition panel_hw (c : hw) (p : panel_t) : panel_t :=
  match c with
  | GPIO_SetBits GPIOC pins => panel_pins pins true p
  | GPIO_ResetBits GPIOC pins => panel_pins pins false p
  | _ => p
  end.

Definition panel_reg (r : reg) (v : Z) (p : panel_t) : panel_t :=
  match r with SPI1_DR => panel_byte v p | _ => p end.

(** ** The DMA stream of the audio output *)
Record dma_t : Type := Dma {
  d_addr : Z;                  (* M0AR *)
  d_len : Z;                   (* NDTR *)
  d_active : bool;             (* a transfer is running *)
  d_started : list (Z * Z)     (* the transfers so far, with the running one *)
}.

Definition DMA_SxCR_EN : Z := 1.

(** While the stream is enabled its address and length cannot be changed; writing the
    control register with the enable bit starts a transfer, without it stops it. *)
Definition dma_reg (r : reg) (v : Z) (d : dma_t) : dma_t :=
  match r with
  | DMA1_Stream7_M0AR => if d_active d then d else Dma v (d_len d) (d_active d) (d_started d)
  | DMA1_Stream7_NDTR => if d_active d then d else Dma (d_addr d) v (d_active d) (d_started d)
  | DMA1_Stream7_CR =>
      if masks v DMA_SxCR_EN then
        if d_active d then d
        else Dma (d_addr d) (d_len d) true (d_started d ++ [(d_addr d, d_len d)])
      else Dma (d_addr d) (d_len d) false (d_started d)
  | _ => d
  end.

Definition dma_done (d : dma_t) : dma_t := Dma (d_addr d) (d_len d) false (d_started d).

(** ** What the manuals promise *)

(** The conditions the drivers wait for: flags with the value they wait for, bits of
    registers, a tick of the timer, the end of a DMA transfer.  Nothing is promised about
    the arrival of input. *)
Inductive polled : Type :=
| PFlag (f : flag)
| PReg (r : reg) (mask : Z)
| PTick
| PDma.

Definition awaited_flag (f : flag) : option bool :=
  match f with
  | USART_FLAG_RXNE => None
  | SPI1_FLAG_BSY | ETH_SoftwareResetStatus => Some false
  | _ => Some true
  end.

(** I2C1: the bus is free, start bit, address sent, data register empty, transfer
    finished; RCC: PLLI2S ready; DMA: stream disabled; SPI3: transmit buffer empty. *)
Definition awaited_reg (r : reg) (mask : Z) : option bool :=
  match r with
  | I2C1_SR2 => if mask =? 2 then Some false else None
  | I2C1_SR1 => if (mask =? 1) || (mask =? 2) || (mask =? 4) || (mask =? 128) then Some true else None
  | RCC_CR => if mask =? 134217728 then Some true else None
  | DMA1_Stream7_CR => if mask =? DMA_SxCR_EN then Some false else None
  | SPI3_SR => if mask =? 2 then Some true else None
  | _ => None
  end.

Class BoardLaws (W : Type) (B : Board W) := {
  panel : W -> panel_t;
  dma : W -> dma_t;
  (** The polls until the condition holds; the drivers poll it after the step that
      brings it about. *)
  polls : polled -> W -> nat;
  law_max c w : (polls c w <= max_polls)%nat;
  law_flag f v w b w' : awaited_flag f = Some v -> get_flag f w = (b, w') ->
    b = v \/ (polls (PFlag f) w' < polls (PFlag f) w)%nat;
  law_reg_poll r m v w x w' : awaited_reg r m = Some v -> reg_get r w = (x, w') ->
    masks x m = v \/ (polls (PReg r m) w' < polls (PReg r m) w)%nat;
  law_tick w b w' : systick w = (b, w') -> b = true \/ (polls PTick w' < polls PTick w)%nat;
  law_wfi w b w' : d_active (dma w) = true -> wfi w = (b, w') ->
    b = true \/ (polls PDma w' < polls PDma w)%nat;
  (** The display. *)
  law_panel_hw c w : panel (hw_call c w) = panel_hw c (panel w);
  law_panel_set r v w : panel (reg_set r v w) = panel_reg r v (panel w);
  law_panel_get r w : panel (reg_get r w).2 = panel w;
  law_panel_flag f w : panel (get_flag f w).2 = panel w;
  law_panel_tick w : panel (systick w).2 = panel w;
  (** The DMA: only writing its registers and the end of a transfer change it. *)
  law_dma_hw c w : dma (hw_call c w) = dma w;
  law_dma_set r v w : dma (reg_set r v w) = dma_reg r v (dma w);
  law_dma_get r w : dma (reg_get r w).2 = dma w;
  law_dma_flag f w : dma (get_flag f w).2 = dma w;
  law_dma_wfi w b w' : wfi w = (b, w') ->
    if b then d_active (dma w) = true /\ dma w' = dma_done (dma w) else dma w' = dma w
}.

(** ** Drivers

    A driver works on its static variables [X] and on the hardware. *)
Section Drivers.
Context {X W : Type} `{B : Board W}.
Abbreviation MX := (M (X * W)).

Definition hw_do (f : W -> W) : MX unit := modify (fun s => (s.1, f s.2)).
Definition hw_ask {A} (f : W -> A * W) : MX A := fun s =>
  let '(a, w) := f s.2 in Done (a, (s.1, w), []).
Definition upd_x (f : X -> X) : MX unit := modify (fun s => (f s.1, s.2)).
Definition get_x {A} (f : X -> A) : MX A := gets (fun s => f s.1).

Definition calls (l : list hw) : MX unit := hw_do (fun w => fold_left (fun w c => hw_call c w) l w).
Definition put_reg (r : reg) (v : Z) : MX unit := hw_do (reg_set r v).
Definition read_reg (r : reg) : MX Z := hw_ask (reg_get r).
(** [r |= bits] and [r &= ~bits] *)
Definition set_bits (r : reg) (bits : Z) : MX unit := let* x := read_reg r in put_reg r (Z.lor x bits).
Definition clear_bits (r : reg) (bits : Z) : MX unit := let* x := read_reg r in put_reg r (Z.ldiff x bits).

(** [while (poll() != v);] *)
Fixpoint poll_loop (fuel : nat) (ask : W -> bool * W) (v : bool) : MX unit :=
  match fuel with
  | O => nofuel
  | S fuel' => let* b := hw_ask ask in if Bool.eqb b v then ret tt else poll_loop fuel' ask v
  end.

Definition wait_flag (f : flag) (v : bool) : MX unit := poll_loop (S max_polls) (get_flag f) v.
Definition wait_reg (r : reg) (mask : Z) (v : bool) : MX unit :=
  poll_loop (S max_polls) (fun w => let '(x, w') := reg_get r w in (masks x mask, w')) v.
End Drivers.

(** ** Waiting ends *)

Section Waiting.
Context {X W : Type} `{B : Board W} `{L : !BoardLaws W B}.

Lemma wp_hw_do (f : W -> W) (Q : unit -> X * W -> Prop) s : Q tt (s.1, f s.2) -> wp (hw_do f) Q s.
Proof. done. Qed.
Lemma wp_hw_ask {A} (f : W -> A * W) (Q : A -> X * W -> Prop) s :
  (forall a w, f s.2 = (a, w) -> Q a (s.1, w)) -> wp (hw_ask f) Q s.
Proof. unfold wp, hw_ask. destruct (f s.2) as [a w] eqn:Hf. intros HQ. by apply HQ. Qed.
Lemma wp_upd_x f (Q : unit -> X * W -> Prop) s : Q tt (f s.1, s.2) -> wp (upd_x f) Q s.
Proof. done. Qed.
Lemma wp_get_x {A} (f : X -> A) (Q : A -> X * W -> Prop) s : Q (f s.1) s -> wp (get_x f) Q s.
Proof. done. Qed.

(** A poll loop ends with the condition, in a world that differs by polls only. *)
Lemma wp_poll_loop c (ask : W -> bool * W) v (P : W -> Prop) :
  (forall w b w', ask w = (b, w') -> b = v \/ (polls c w' < polls c w)%nat) ->
  (forall w, P w -> P (ask w).2) ->
  forall fuel (x : X) w (Q : unit -> X * W -> Prop),
  (polls c w < fuel)%nat -> P w -> (forall w', P w' -> Q tt (x, w')) -> wp (poll_loop fuel ask v) Q (x, w).
Proof.
  intros Hpoll HP. induction fuel as [|fuel IH]; intros x w Q Hf Hw HQ; [lia|].
  cbn [poll_loop]. apply wp_bind, wp_hw_ask. cbn [fst snd]. intros b w' Ha.
  pose proof (HP w Hw) as Hw'. rewrite Ha in Hw'. destruct (Bool.eqb b v) eqn:Hb; [by apply HQ|].
  destruct (Hpoll w b w' Ha) as [->|Hlt]; [by rewrite Bool.eqb_reflx in Hb|]. apply IH; [lia|done|done].
Qed.

Lemma wp_wait_flag f v (P : W -> Prop) x w (Q : unit -> X * W -> Prop) : awaited_flag f = Some v ->
  (forall w, P w -> P (get_flag f w).2) -> P w -> (forall w', P w' -> Q tt (x, w')) -> wp (wait_flag f v) Q (x, w).
Proof.
  intros Hv HP Hw HQ. unfold wait_flag. apply (wp_poll_loop (PFlag f) _ _ P); try done.
  - intros w0 b w' Ha. by eapply law_flag.
  - apply Nat.lt_succ_r, law_max.
Qed.

Lemma wp_wait_reg r m v (P : W -> Prop) x w (Q : unit -> X * W -> Prop) : awaited_reg r m = Some v ->
  (forall w, P w -> P (reg_get r w).2) -> P w -> (forall w', P w' -> Q tt (x, w')) -> wp (wait_reg r m v) Q (x, w).
Proof.
  intros Hv HP Hw HQ. unfold wait_reg. apply (wp_poll_loop (PReg r m) _ _ P); try done.
  - intros w0 b w' Ha. destruct (reg_get r w0) as [y w1] eqn:Hr. injection Ha as <- <-. by eapply law_reg_poll.
  - intros w0 H0. specialize (HP w0 H0). by destruct (reg_get r w0).
  - apply Nat.lt_succ_r, law_max.
Qed.
End Waiting.

(** ** A board for concrete runs

    Every condition holds when it is polled, the timer ticks at every instruction, a
    transfer is done at the next [wfi], and the serial line has some text. *)
Record demo_board : Type := DemoBoard { b_panel : panel_t; b_dma : dma_t; b_serial : list Z }.

Definition demo_reg (r : reg) : Z :=
  match r with I2C1_SR1 => 135 | RCC_CR => 134217728 | SPI3_SR => 2 | _ => 0 end.

#[export] Instance demo_board_ops : Board demo_board := {|
  hw_call c w := DemoBoard (panel_hw c (b_panel w)) (b_dma w) (b_serial w);
  reg_get r w := (demo_reg r, w);
  reg_set r v w := DemoBoard (panel_reg r v (b_panel w)) (dma_reg r v (b_dma w)) (b_serial w);
  get_flag f w := (default true (awaited_flag f), w);
  USART_ReceiveData w := (List.hd 0 (b_serial w), DemoBoard (b_panel w) (b_dma w) (List.tl (b_serial w)));
  RNG_GetRandomNumber w := (4, w);
  HCLK_Frequency w := (168000000, w);
  ETH_Init i phy w := (1, w);
  ETH_CheckFrameReceived w := (true, w);
  systick w := (true, w);
  wfi w := (d_active (b_dma w), DemoBoard (b_panel w) (dma_done (b_dma w)) (b_serial w));
  max_polls := 0
|}.

#[export] Instance demo_board_laws : BoardLaws demo_board demo_board_ops.
Proof.
  refine {| panel := b_panel; dma := b_dma; polls _ _ := O |}; try done.
  - intros f v w b w' Hv Hf. injection Hf as <- <-. left. by rewrite Hv.
  - intros r m v w x w' Hv Hr. injection Hr as <- <-. left. destruct r; try done; cbn in Hv |- *.
    all: repeat match type of Hv with context [if ?b then _ else _] => destruct b eqn:?; try done end.
    all: injection Hv as <-; repeat match goal with H : _ || _ = true |- _ => apply orb_prop in H as [H|H] end.
    all: repeat match goal with H : (?m =? _) = true |- _ => apply Z.eqb_eq in H; subst m end; reflexivity.
  - intros w b w' Hw. injection Hw as <- <-. by left.
  - intros w b w' Ha Hw. injection Hw as <- <-. by left.
  - intros w b w' Hw. injection Hw as <- <-. destruct (b_dma w) as [a l [] s]; done.
Defined.

Definition demo_panel : panel_t := Panel true false true 3 2 (repeat 255 504).
Definition demo_world : demo_board := DemoBoard demo_panel (Dma 0 0 false []) (&"stop" ++ [13]).
