(* ===== verification/Stm32Timer.v ===== *)
(** * stm32/timer.c and stm32/rng.c: the clock and the random numbers of the board *)

From S2P Require Import Prelude Board.

Definition SYSTEMTICK_PERIOD_MS : Z := 10.

(** The variables of timer.c, both [uint32_t]. *)
Record tim_t : Type := Tim { LocalTime : Z; timingdelay : Z }.
Definition tim_zero : tim_t := Tim 0 0.

Section Timer.
Context {W : Type} `{B : Board W}.

(** The handler of the SysTick interrupt. *)
Definition timer_handle_it : M (tim_t * W) unit :=
  upd_x (fun t => Tim (u32 (LocalTime t + SYSTEMTICK_PERIOD_MS)) (timingdelay t)).

Definition get_local_time : M (tim_t * W) Z := get_x LocalTime.

(** [while (timingdelay > LocalTime);], interrupted by the timer. *)
Fixpoint delay_loop (fuel : nat) : M (tim_t * W) unit :=
  match fuel with
  | O => nofuel
  | S fuel' =>
      let* tick := hw_ask systick in
      when tick timer_handle_it ;;
      let* t := get_x id in
      if timingdelay t >? LocalTime t then delay_loop fuel' else ret tt
  end.

(** The ticks that pass, and the polls until each of them comes. *)
Definition delay_fuel (nCount : Z) : nat := (Z.to_nat (nCount / SYSTEMTICK_PERIOD_MS) + 2) * S max_polls.

Definition Delay (nCount : Z) : M (tim_t * W) unit :=
  upd_x (fun t => Tim (LocalTime t) (u32 (LocalTime t + nCount))) ;;
  delay_loop (delay_fuel nCount).

Definition rng_init : M (tim_t * W) unit := calls [RCC_AHB2PeriphClockCmd 64; RNG_Cmd].

Definition rng_rand : M (tim_t * W) Z :=
  wait_flag RNG_FLAG_DRDY true ;;
  let* number := hw_ask RNG_GetRandomNumber in
  ret (u32 number).
End Timer.

Section Waits.
Context {W : Type} `{B : Board W} `{L : !BoardLaws W B}.

(** The loop with [k] ticks missing. *)
Lemma wp_delay_loop (P : W -> Prop) target :
  (forall w, P w -> P (systick w).2) -> target < 4294967286 ->
  forall fuel k now w (Q : unit -> tim_t * W -> Prop), P w -> 0 <= now <= target ->
  (polls PTick w + k * S max_polls < fuel)%nat -> target - now <= SYSTEMTICK_PERIOD_MS * Z.of_nat k ->
  (forall now' w', P w' -> target <= now' <= target + SYSTEMTICK_PERIOD_MS -> Q tt (Tim now' target, w')) ->
  wp (delay_loop fuel) Q (Tim now target, w).
Proof.
  intros HP Ht. unfold SYSTEMTICK_PERIOD_MS. induction fuel as [|fuel IH]; intros k now w Q Hw Hn Hf Hk HQ; [lia|].
  cbn [delay_loop]. apply wp_bind, wp_hw_ask. cbn [fst snd]. intros b w' Hs.
  pose proof (HP w Hw) as Hw'. rewrite Hs in Hw'. cbn [snd] in Hw'. apply wp_bind.
  pose proof (law_max PTick w') as Hmax. pose proof (law_tick w b w' Hs) as Hp. destruct b.
  - unfold timer_handle_it, SYSTEMTICK_PERIOD_MS. apply wp_upd_x. cbn [fst snd LocalTime timingdelay].
    rewrite u32_id by lia. apply wp_bind, wp_get_x. cbn [fst snd id LocalTime timingdelay].
    destruct (Z.gtb_spec target (now + 10)) as [Hgt|Hle]; [|apply HQ; [done|lia]].
    apply (IH (k - 1)%nat); [done|lia| |lia|done]. destruct k as [|k]; [lia|]. cbn [Nat.sub]. rewrite Nat.sub_0_r. lia.
  - destruct Hp as [|Hp]; [done|]. apply wp_ret, wp_bind, wp_get_x. cbn [fst snd id LocalTime timingdelay].
    destruct (Z.gtb_spec target now) as [Hgt|Hle]; [|apply HQ; [done|lia]]. apply (IH k); [done|lia|lia|lia|done].
Qed.

(** [Delay] ends, and not before its time, unless the clock is about to wrap around. *)
Lemma wp_Delay (P : W -> Prop) n t w (Q : unit -> tim_t * W -> Prop) :
  (forall w, P w -> P (systick w).2) -> P w -> 0 <= n -> 0 <= LocalTime t -> LocalTime t + n < 4294967286 ->
  (forall now w', P w' -> LocalTime t + n <= now <= LocalTime t + n + SYSTEMTICK_PERIOD_MS ->
     Q tt (Tim now (LocalTime t + n), w')) ->
  wp (Delay n) Q (t, w).
Proof.
  intros HP Hw Hn Ht Hlt HQ. unfold Delay. apply wp_bind, wp_upd_x. cbn [fst snd]. rewrite u32_id by lia.
  apply (wp_delay_loop P _ HP Hlt _ (Z.to_nat (n / SYSTEMTICK_PERIOD_MS) + 1)); [done|lia| | |done].
  - unfold delay_fuel. pose proof (law_max PTick w). lia.
  - unfold SYSTEMTICK_PERIOD_MS. lia.
Qed.
End Waits.
