(* ===== verification/Gfx.v ===== *)
(** * stm32/gfx.h: the pictures of the display

    A picture has six rows of 84 bytes; a byte holds eight pixels of a column, the upper
    one in its lowest bit. *)

From S2P Require Import Prelude.

Module Gfx.

Definition error : list Z := [
  0; 0; 0; 0; 0; 0; 0; 0; 0; 0; 0; 0; 0; 0; 0; 0; 0; 0; 0; 0; 0; 0; 0; 0; 0; 0; 0; 0;
  0; 0; 0; 0; 0; 0; 0; 0; 0; 0; 0; 0; 128; 192; 192; 128; 0; 0; 0; 0; 0; 0; 0; 0; 0; 0; 0; 0;
  0; 0; 0; 0; 0; 0; 0; 0; 0; 0; 0; 0; 0; 0; 0; 0; 0; 0; 0; 0; 0; 0; 0; 0; 0; 0; 0; 0;
  0; 0; 0; 0; 0; 0; 0; 0; 0; 0; 0; 0; 0; 0; 0; 0; 0; 0; 0; 0; 0; 0; 0; 0; 0; 0; 0; 0;
  0; 0; 0; 0; 0; 0; 0; 128; 224; 248; 254; 223; 31; 31; 31; 31; 223; 254; 248; 224; 128; 0; 0; 0; 0; 0; 0; 0;
  0; 0; 0; 0; 0; 0; 0; 0; 0; 0; 0; 0; 0; 0; 0; 0; 0; 0; 0; 0; 0; 0; 0; 0; 0; 0; 0; 0;
  0; 0; 0; 0; 0; 0; 0; 0; 0; 0; 0; 0; 0; 0; 0; 0; 0; 0; 0; 0; 0; 0; 0; 0; 0; 0; 0; 0;
  0; 0; 0; 192; 240; 252; 254; 255; 255; 255; 255; 255; 0; 0; 0; 0; 255; 255; 255; 255; 255; 255; 252; 240; 192; 0; 0; 0;
  0; 0; 0; 0; 0; 0; 0; 0; 0; 0; 0; 0; 0; 0; 0; 0; 0; 0; 0; 0; 0; 0; 0; 0; 0; 0; 0; 0;
  0; 0; 0; 0; 0; 0; 0; 0; 0; 0; 0; 0; 0; 0; 0; 0; 0; 0; 0; 0; 0; 0; 0; 0; 0; 0; 0; 192;
  240; 252; 255; 255; 255; 255; 255; 255; 255; 255; 255; 255; 254; 192; 192; 254; 255; 255; 255; 255; 255; 255; 255; 255; 255; 255; 252; 248;
  224; 128; 0; 0; 0; 0; 0; 0; 0; 0; 0; 0; 0; 0; 0; 0; 0; 0; 0; 0; 0; 0; 0; 0; 0; 0; 0; 0;
  0; 0; 0; 0; 0; 0; 0; 0; 0; 0; 0; 0; 0; 0; 0; 0; 0; 0; 0; 0; 0; 0; 0; 224; 248; 254; 255; 255;
  255; 255; 255; 255; 255; 255; 255; 255; 255; 255; 255; 243; 225; 192; 192; 225; 243; 255; 255; 255; 255; 255; 255; 255; 255; 255; 255; 255;
  255; 255; 255; 252; 248; 224; 0; 0; 0; 0; 0; 0; 0; 0; 0; 0; 0; 0; 0; 0; 0; 0; 0; 0; 0; 0; 0; 0;
  0; 0; 0; 0; 0; 0; 0; 0; 0; 0; 0; 0; 0; 0; 0; 0; 0; 0; 0; 0; 0; 0; 0; 1; 1; 3; 3; 3;
  3; 3; 3; 3; 3; 3; 3; 3; 3; 3; 3; 3; 3; 3; 3; 3; 3; 3; 3; 3; 3; 3; 3; 3; 3; 3; 3; 3;
  3; 3; 3; 3; 1; 1; 0; 0; 0; 0; 0; 0; 0; 0; 0; 0; 0; 0; 0; 0; 0; 0; 0; 0; 0; 0; 0; 0
].

Definition error_fs : list Z := [
  0; 0; 0; 0; 0; 0; 0; 0; 0; 0; 0; 0; 0; 0; 0; 0; 0; 0; 0; 0; 0; 0; 0; 0; 0; 0; 0; 0;
  0; 0; 0; 0; 0; 0; 0; 0; 0; 0; 0; 0; 128; 192; 192; 128; 0; 0; 0; 0; 0; 0; 0; 0; 0; 0; 0; 0;
  0; 0; 0; 0; 0; 0; 0; 0; 0; 0; 0; 0; 0; 0; 0; 0; 0; 0; 0; 0; 0; 0; 0; 0; 0; 0; 0; 0;
  0; 0; 0; 0; 0; 0; 0; 0; 0; 0; 0; 0; 0; 0; 0; 0; 0; 0; 0; 0; 0; 0; 0; 0; 0; 0; 0; 0;
  0; 0; 0; 0; 0; 0; 0; 128; 224; 248; 254; 223; 31; 31; 31; 31; 223; 254; 248; 224; 128; 0; 0; 0; 0; 0; 0; 0;
  0; 128; 128; 128; 128; 128; 128; 128; 128; 128; 0; 0; 0; 0; 0; 0; 0; 0; 0; 0; 0; 0; 0; 0; 0; 0; 0; 0;
  0; 0; 0; 0; 0; 0; 0; 0; 0; 0; 0; 0; 0; 0; 0; 0; 0; 0; 0; 0; 0; 0; 0; 0; 0; 0; 0; 0;
  0; 0; 0; 192; 240; 252; 254; 255; 255; 255; 255; 255; 0; 0; 0; 0; 255; 255; 63; 143; 199; 243; 248; 124; 124; 126; 127; 255;
  255; 127; 127; 127; 127; 127; 127; 127; 127; 127; 127; 255; 255; 126; 124; 124; 248; 240; 192; 128; 0; 0; 0; 0; 0; 0; 0; 0;
  0; 0; 0; 0; 0; 0; 0; 0; 0; 0; 0; 0; 0; 0; 0; 0; 0; 0; 0; 0; 0; 0; 0; 0; 0; 0; 0; 192;
  240; 252; 255; 255; 255; 255; 255; 255; 255; 255; 255; 255; 254; 192; 192; 254; 7; 0; 252; 255; 255; 255; 1; 0; 0; 0; 0; 193;
  199; 134; 4; 196; 196; 196; 196; 196; 4; 134; 199; 193; 0; 0; 0; 0; 0; 255; 255; 255; 252; 0; 0; 0; 0; 0; 0; 0;
  0; 0; 0; 0; 0; 0; 0; 0; 0; 0; 0; 0; 0; 0; 0; 0; 0; 0; 0; 0; 0; 0; 0; 224; 248; 254; 255; 255;
  255; 255; 255; 255; 255; 255; 255; 255; 255; 255; 255; 243; 225; 192; 192; 193; 224; 224; 135; 63; 127; 255; 240; 192; 192; 192; 192; 193;
  193; 192; 192; 193; 193; 193; 193; 193; 192; 192; 193; 193; 192; 192; 192; 192; 224; 255; 127; 31; 7; 0; 0; 0; 0; 0; 0; 0;
  0; 0; 0; 0; 0; 0; 0; 0; 0; 0; 0; 0; 0; 0; 0; 0; 0; 0; 0; 0; 0; 0; 0; 1; 1; 3; 3; 3;
  3; 3; 3; 3; 3; 3; 3; 3; 3; 3; 3; 3; 3; 3; 3; 3; 3; 3; 3; 2; 0; 1; 3; 7; 7; 15; 31; 31;
  31; 63; 63; 63; 63; 63; 63; 63; 63; 63; 31; 31; 15; 15; 7; 7; 3; 1; 0; 0; 0; 0; 0; 0; 0; 0; 0; 0
].

Definition error_init : list Z := [
  0; 0; 0; 0; 0; 0; 0; 0; 0; 0; 0; 0; 0; 0; 0; 0; 0; 0; 0; 0; 0; 0; 0; 0; 0; 0; 0; 0;
  0; 0; 0; 0; 0; 0; 0; 0; 0; 0; 0; 0; 128; 192; 192; 128; 0; 0; 0; 0; 0; 0; 0; 0; 0; 0; 0; 0;
  0; 0; 0; 0; 0; 0; 0; 0; 0; 0; 0; 0; 0; 0; 0; 0; 0; 0; 0; 0; 0; 0; 0; 0; 0; 0; 0; 0;
  0; 0; 0; 0; 0; 0; 0; 0; 0; 0; 0; 0; 0; 0; 0; 0; 0; 0; 0; 0; 0; 0; 0; 0; 0; 0; 0; 0;
  0; 0; 0; 0; 0; 0; 0; 128; 224; 248; 254; 223; 31; 31; 31; 31; 223; 254; 248; 224; 128; 0; 0; 0; 0; 0; 0; 0;
  0; 128; 128; 128; 128; 128; 128; 128; 128; 128; 0; 0; 0; 0; 0; 0; 0; 0; 0; 0; 0; 0; 0; 0; 0; 0; 0; 0;
  0; 0; 0; 0; 0; 0; 0; 0; 0; 0; 0; 0; 0; 0; 0; 0; 0; 0; 0; 0; 0; 0; 0; 0; 0; 0; 0; 0;
  0; 0; 0; 192; 240; 252; 254; 255; 255; 255; 255; 255; 0; 0; 0; 0; 255; 255; 63; 143; 199; 243; 248; 252; 252; 222; 31; 31;
  223; 223; 223; 223; 223; 223; 223; 223; 223; 223; 223; 31; 31; 222; 252; 252; 248; 240; 192; 128; 0; 0; 0; 0; 0; 0; 0; 0;
  0; 0; 0; 0; 0; 0; 0; 0; 0; 0; 0; 0; 0; 0; 0; 0; 0; 0; 0; 0; 0; 0; 0; 0; 0; 0; 0; 192;
  240; 252; 255; 255; 255; 255; 255; 255; 255; 255; 255; 255; 254; 192; 192; 254; 7; 0; 252; 255; 255; 255; 255; 255; 255; 255; 252; 240;
  227; 71; 31; 177; 225; 129; 225; 57; 31; 71; 225; 248; 254; 255; 255; 255; 255; 255; 255; 255; 252; 0; 0; 0; 0; 0; 0; 0;
  0; 0; 0; 0; 0; 0; 0; 0; 0; 0; 0; 0; 0; 0; 0; 0; 0; 0; 0; 0; 0; 0; 0; 224; 248; 254; 255; 255;
  255; 255; 255; 255; 255; 255; 255; 255; 255; 255; 255; 243; 225; 192; 192; 193; 224; 224; 135; 63; 127; 255; 255; 255; 255; 127; 15; 3;
  80; 76; 70; 67; 65; 64; 65; 67; 70; 76; 112; 3; 15; 127; 255; 255; 255; 255; 127; 31; 7; 0; 0; 0; 0; 0; 0; 0;
  0; 0; 0; 0; 0; 0; 0; 0; 0; 0; 0; 0; 0; 0; 0; 0; 0; 0; 0; 0; 0; 0; 0; 1; 1; 3; 3; 3;
  3; 3; 3; 3; 3; 3; 3; 3; 3; 3; 3; 3; 3; 3; 3; 3; 3; 3; 3; 2; 0; 1; 3; 7; 7; 14; 30; 30;
  30; 62; 62; 62; 62; 62; 62; 62; 62; 62; 30; 30; 14; 14; 7; 7; 3; 1; 0; 0; 0; 0; 0; 0; 0; 0; 0; 0
].

Definition error_libmad : list Z := [
  0; 0; 0; 0; 0; 0; 0; 0; 0; 0; 0; 0; 0; 0; 0; 0; 0; 0; 0; 0; 0; 0; 0; 0; 0; 0; 0; 0;
  0; 0; 0; 0; 0; 0; 0; 0; 0; 0; 0; 0; 128; 192; 192; 128; 0; 0; 0; 0; 0; 0; 0; 0; 0; 0; 0; 0;
  0; 0; 0; 0; 0; 0; 0; 0; 0; 0; 0; 0; 0; 0; 0; 0; 0; 0; 0; 0; 0; 0; 0; 0; 0; 0; 0; 0;
  0; 0; 0; 0; 0; 0; 0; 0; 0; 0; 0; 0; 0; 0; 0; 0; 0; 0; 0; 0; 0; 0; 0; 0; 0; 0; 0; 0;
  0; 0; 0; 0; 0; 0; 0; 128; 224; 248; 254; 223; 31; 31; 31; 31; 223; 254; 248; 224; 128; 0; 0; 0; 0; 0; 0; 0;
  0; 128; 128; 128; 128; 128; 128; 128; 128; 128; 0; 0; 0; 0; 0; 0; 0; 0; 0; 0; 0; 0; 0; 0; 0; 0; 0; 0;
  0; 0; 0; 0; 0; 0; 0; 0; 0; 0; 0; 0; 0; 0; 0; 0; 0; 0; 0; 0; 0; 0; 0; 0; 0; 0; 0; 0;
  0; 0; 0; 192; 240; 252; 254; 255; 255; 255; 255; 255; 0; 0; 0; 0; 255; 255; 63; 143; 199; 243; 248; 252; 252; 254; 127; 127;
  127; 127; 127; 255; 255; 255; 255; 255; 255; 255; 255; 255; 255; 254; 252; 252; 248; 240; 192; 128; 0; 0; 0; 0; 0; 0; 0; 0;
  0; 0; 0; 0; 0; 0; 0; 0; 0; 0; 0; 0; 0; 0; 0; 0; 0; 0; 0; 0; 0; 0; 0; 0; 0; 0; 0; 192;
  240; 252; 255; 255; 255; 255; 255; 255; 255; 255; 255; 255; 254; 192; 192; 254; 7; 0; 252; 63; 15; 247; 251; 253; 254; 62; 31; 159;
  31; 31; 159; 94; 29; 31; 127; 31; 31; 159; 95; 31; 31; 255; 255; 175; 55; 7; 71; 239; 252; 0; 0; 0; 0; 0; 0; 0;
  0; 0; 0; 0; 0; 0; 0; 0; 0; 0; 0; 0; 0; 0; 0; 0; 0; 0; 0; 0; 0; 0; 0; 224; 248; 254; 255; 255;
  255; 255; 255; 255; 255; 255; 255; 255; 255; 255; 255; 243; 225; 192; 192; 225; 224; 224; 135; 62; 120; 243; 231; 207; 204; 204; 206; 205;
  196; 230; 241; 248; 252; 243; 240; 248; 252; 253; 254; 254; 255; 252; 253; 253; 254; 254; 127; 31; 7; 0; 0; 0; 0; 0; 0; 0;
  0; 0; 0; 0; 0; 0; 0; 0; 0; 0; 0; 0; 0; 0; 0; 0; 0; 0; 0; 0; 0; 0; 0; 1; 1; 3; 3; 3;
  3; 3; 3; 3; 3; 3; 3; 3; 3; 3; 3; 3; 3; 3; 3; 3; 3; 3; 3; 2; 0; 1; 3; 7; 7; 15; 31; 31;
  31; 63; 63; 63; 63; 63; 63; 63; 63; 63; 31; 31; 15; 15; 7; 7; 3; 1; 0; 0; 0; 0; 0; 0; 0; 0; 0; 0
].

Definition error_net : list Z := [
  0; 0; 0; 0; 0; 0; 0; 0; 0; 0; 0; 0; 0; 0; 0; 0; 0; 0; 0; 0; 0; 0; 0; 0; 0; 0; 0; 0;
  0; 0; 0; 0; 0; 0; 0; 0; 0; 0; 0; 0; 128; 192; 192; 128; 0; 0; 0; 0; 0; 0; 0; 0; 0; 0; 0; 0;
  0; 0; 0; 0; 0; 0; 0; 0; 0; 0; 0; 0; 0; 0; 0; 0; 0; 0; 0; 0; 0; 0; 0; 0; 0; 0; 0; 0;
  0; 0; 0; 0; 0; 0; 0; 0; 0; 0; 0; 0; 0; 0; 0; 0; 0; 0; 0; 0; 0; 0; 0; 0; 0; 0; 0; 0;
  0; 0; 0; 0; 0; 0; 0; 128; 224; 248; 254; 223; 31; 31; 31; 31; 223; 254; 248; 224; 128; 0; 0; 0; 0; 0; 0; 0;
  0; 128; 128; 128; 128; 128; 128; 128; 128; 128; 0; 0; 0; 0; 0; 0; 0; 0; 0; 0; 0; 0; 0; 0; 0; 0; 0; 0;
  0; 0; 0; 0; 0; 0; 0; 0; 0; 0; 0; 0; 0; 0; 0; 0; 0; 0; 0; 0; 0; 0; 0; 0; 0; 0; 0; 0;
  0; 0; 0; 192; 240; 252; 254; 255; 255; 255; 255; 255; 0; 0; 0; 0; 255; 255; 63; 143; 199; 243; 248; 252; 252; 254; 255; 255;
  255; 255; 255; 255; 255; 255; 127; 143; 7; 3; 3; 3; 3; 6; 140; 252; 248; 240; 192; 128; 0; 0; 0; 0; 0; 0; 0; 0;
  0; 0; 0; 0; 0; 0; 0; 0; 0; 0; 0; 0; 0; 0; 0; 0; 0; 0; 0; 0; 0; 0; 0; 0; 0; 0; 0; 192;
  240; 252; 255; 255; 255; 255; 255; 255; 255; 255; 255; 255; 254; 192; 192; 254; 7; 0; 252; 255; 15; 7; 7; 7; 7; 7; 79; 239;
  231; 243; 251; 253; 252; 254; 255; 255; 255; 254; 254; 254; 254; 255; 255; 255; 255; 255; 255; 255; 252; 0; 0; 0; 0; 0; 0; 0;
  0; 0; 0; 0; 0; 0; 0; 0; 0; 0; 0; 0; 0; 0; 0; 0; 0; 0; 0; 0; 0; 0; 0; 224; 248; 254; 255; 255;
  255; 255; 255; 255; 255; 255; 255; 255; 255; 255; 255; 243; 225; 192; 192; 193; 224; 224; 135; 63; 126; 252; 252; 252; 252; 252; 254; 254;
  253; 251; 251; 247; 247; 239; 223; 63; 31; 15; 15; 15; 15; 31; 63; 255; 255; 255; 127; 31; 7; 0; 0; 0; 0; 0; 0; 0;
  0; 0; 0; 0; 0; 0; 0; 0; 0; 0; 0; 0; 0; 0; 0; 0; 0; 0; 0; 0; 0; 0; 0; 1; 1; 3; 3; 3;
  3; 3; 3; 3; 3; 3; 3; 3; 3; 3; 3; 3; 3; 3; 3; 3; 3; 3; 3; 2; 0; 1; 3; 7; 7; 15; 31; 31;
  31; 63; 63; 63; 63; 63; 63; 62; 60; 56; 24; 24; 8; 12; 6; 7; 3; 1; 0; 0; 0; 0; 0; 0; 0; 0; 0; 0
].

Definition error_sound : list Z := [
  0; 0; 0; 0; 0; 0; 0; 0; 0; 0; 0; 0; 0; 0; 0; 0; 0; 0; 0; 0; 0; 0; 0; 0; 0; 0; 0; 0;
  0; 0; 0; 0; 0; 0; 0; 0; 0; 0; 0; 0; 128; 192; 192; 128; 0; 0; 0; 0; 0; 0; 0; 0; 0; 0; 0; 0;
  0; 0; 0; 0; 0; 0; 0; 0; 0; 0; 0; 0; 0; 0; 0; 0; 0; 0; 0; 0; 0; 0; 0; 0; 0; 0; 0; 0;
  0; 0; 0; 0; 0; 0; 0; 0; 0; 0; 0; 0; 0; 0; 0; 0; 0; 0; 0; 0; 0; 0; 0; 0; 0; 0; 0; 0;
  0; 0; 0; 0; 0; 0; 0; 128; 224; 248; 254; 223; 31; 31; 31; 31; 223; 254; 248; 224; 128; 0; 0; 0; 0; 0; 0; 0;
  0; 128; 128; 128; 128; 128; 128; 128; 128; 128; 0; 0; 0; 0; 0; 0; 0; 0; 0; 0; 0; 0; 0; 0; 0; 0; 0; 0;
  0; 0; 0; 0; 0; 0; 0; 0; 0; 0; 0; 0; 0; 0; 0; 0; 0; 0; 0; 0; 0; 0; 0; 0; 0; 0; 0; 0;
  0; 0; 0; 192; 240; 252; 254; 255; 255; 255; 255; 255; 0; 0; 0; 0; 255; 255; 63; 143; 199; 243; 248; 252; 252; 254; 255; 255;
  255; 255; 255; 255; 127; 63; 63; 31; 15; 15; 7; 3; 255; 254; 252; 252; 248; 240; 192; 128; 0; 0; 0; 0; 0; 0; 0; 0;
  0; 0; 0; 0; 0; 0; 0; 0; 0; 0; 0; 0; 0; 0; 0; 0; 0; 0; 0; 0; 0; 0; 0; 0; 0; 0; 0; 192;
  240; 252; 255; 255; 255; 255; 255; 255; 255; 255; 255; 255; 254; 192; 192; 254; 7; 0; 252; 255; 255; 255; 255; 3; 3; 3; 3; 3;
  3; 1; 1; 0; 0; 0; 0; 0; 0; 0; 0; 0; 255; 255; 255; 255; 255; 255; 255; 255; 252; 0; 0; 0; 0; 0; 0; 0;
  0; 0; 0; 0; 0; 0; 0; 0; 0; 0; 0; 0; 0; 0; 0; 0; 0; 0; 0; 0; 0; 0; 0; 224; 248; 254; 255; 255;
  255; 255; 255; 255; 255; 255; 255; 255; 255; 255; 255; 243; 225; 192; 192; 193; 224; 224; 135; 63; 127; 255; 255; 248; 248; 248; 248; 248;
  248; 248; 240; 224; 224; 192; 128; 128; 0; 0; 0; 0; 255; 255; 255; 255; 255; 255; 127; 31; 7; 0; 0; 0; 0; 0; 0; 0;
  0; 0; 0; 0; 0; 0; 0; 0; 0; 0; 0; 0; 0; 0; 0; 0; 0; 0; 0; 0; 0; 0; 0; 1; 1; 3; 3; 3;
  3; 3; 3; 3; 3; 3; 3; 3; 3; 3; 3; 3; 3; 3; 3; 3; 3; 3; 3; 2; 0; 1; 3; 7; 7; 15; 31; 31;
  31; 63; 63; 63; 63; 63; 63; 63; 63; 62; 28; 28; 15; 15; 7; 7; 3; 1; 0; 0; 0; 0; 0; 0; 0; 0; 0; 0
].

Definition file : list Z := [
  0; 0; 0; 0; 0; 0; 0; 0; 0; 0; 0; 0; 0; 0; 0; 0; 0; 0; 0; 0; 0; 0; 0; 0; 0; 0; 0; 0;
  0; 0; 0; 0; 0; 128; 128; 192; 192; 224; 224; 224; 224; 224; 224; 224; 224; 224; 224; 192; 192; 192; 128; 128; 0; 0; 0; 0;
  0; 0; 0; 0; 0; 0; 0; 0; 0; 0; 0; 0; 0; 0; 0; 0; 0; 0; 0; 0; 0; 0; 0; 0; 0; 0; 0; 0;
  0; 0; 0; 0; 0; 0; 0; 0; 0; 0; 0; 0; 0; 0; 0; 0; 0; 0; 0; 0; 0; 0; 0; 0; 0; 128; 224; 240;
  120; 124; 126; 127; 127; 255; 255; 255; 127; 127; 127; 127; 127; 127; 127; 127; 127; 127; 127; 127; 255; 255; 255; 127; 127; 126; 126; 124;
  248; 224; 192; 0; 0; 0; 0; 0; 0; 0; 0; 0; 0; 0; 0; 0; 0; 0; 0; 0; 0; 0; 0; 0; 0; 0; 0; 0;
  0; 0; 0; 0; 0; 0; 0; 0; 0; 0; 0; 0; 0; 0; 0; 0; 0; 0; 0; 0; 0; 0; 0; 248; 254; 255; 255; 255;
  0; 0; 0; 0; 0; 0; 131; 135; 14; 12; 12; 140; 140; 140; 140; 140; 140; 12; 12; 14; 135; 129; 0; 0; 0; 0; 0; 0;
  1; 255; 255; 255; 248; 0; 0; 0; 0; 0; 0; 0; 0; 0; 0; 0; 0; 0; 0; 0; 0; 0; 0; 0; 0; 0; 0; 0;
  0; 0; 0; 0; 0; 0; 0; 0; 0; 0; 0; 0; 0; 0; 0; 0; 0; 0; 0; 0; 0; 0; 0; 31; 255; 255; 255; 255;
  0; 0; 0; 0; 0; 3; 7; 7; 3; 0; 0; 7; 7; 7; 7; 7; 7; 0; 0; 3; 7; 7; 3; 0; 0; 0; 0; 0;
  128; 255; 255; 255; 63; 0; 0; 0; 0; 0; 0; 0; 0; 0; 0; 0; 0; 0; 0; 0; 0; 0; 0; 0; 0; 0; 0; 0;
  0; 0; 0; 0; 0; 0; 0; 0; 0; 0; 0; 0; 0; 0; 0; 0; 0; 0; 0; 0; 0; 0; 0; 0; 0; 3; 7; 31;
  62; 124; 124; 252; 252; 252; 252; 252; 252; 252; 252; 252; 252; 252; 252; 252; 252; 252; 252; 252; 252; 252; 252; 252; 252; 252; 124; 62;
  31; 15; 3; 0; 0; 0; 0; 0; 0; 0; 0; 0; 0; 0; 0; 0; 0; 0; 0; 0; 0; 0; 0; 0; 0; 0; 0; 0;
  0; 0; 0; 0; 0; 0; 0; 0; 0; 0; 0; 0; 0; 0; 0; 0; 0; 0; 0; 0; 0; 0; 0; 0; 0; 0; 0; 0;
  0; 0; 0; 0; 1; 1; 3; 3; 3; 7; 7; 7; 7; 7; 7; 7; 7; 7; 7; 7; 3; 3; 1; 1; 0; 0; 0; 0;
  0; 0; 0; 0; 0; 0; 0; 0; 0; 0; 0; 0; 0; 0; 0; 0; 0; 0; 0; 0; 0; 0; 0; 0; 0; 0; 0; 0
].

Definition play : list Z := [
  0; 0; 0; 0; 0; 0; 0; 0; 0; 0; 0; 0; 0; 0; 0; 0; 0; 0; 0; 0; 0; 0; 0; 0; 0; 0; 0; 0;
  0; 0; 0; 0; 0; 128; 128; 192; 192; 224; 224; 224; 224; 224; 224; 224; 224; 224; 224; 192; 192; 192; 128; 128; 0; 0; 0; 0;
  0; 0; 0; 0; 0; 0; 0; 0; 0; 0; 0; 0; 0; 0; 0; 0; 0; 0; 0; 0; 0; 0; 0; 0; 0; 0; 0; 0;
  0; 0; 0; 0; 0; 0; 0; 0; 0; 0; 0; 0; 0; 0; 0; 0; 0; 0; 0; 0; 0; 0; 0; 0; 0; 128; 224; 240;
  248; 252; 254; 255; 255; 255; 255; 255; 63; 127; 255; 255; 255; 255; 255; 255; 255; 255; 255; 255; 255; 255; 255; 255; 255; 254; 254; 252;
  248; 224; 192; 0; 0; 0; 0; 0; 0; 0; 0; 0; 0; 0; 0; 0; 0; 0; 0; 0; 0; 0; 0; 0; 0; 0; 0; 0;
  0; 0; 0; 0; 0; 0; 0; 0; 0; 0; 0; 0; 0; 0; 0; 0; 0; 0; 0; 0; 0; 0; 0; 248; 254; 255; 255; 255;
  255; 255; 255; 255; 255; 255; 255; 255; 0; 0; 0; 0; 1; 1; 3; 3; 7; 7; 15; 15; 31; 31; 63; 63; 127; 127; 255; 255;
  255; 255; 255; 255; 248; 0; 0; 0; 0; 0; 0; 0; 0; 0; 0; 0; 0; 0; 0; 0; 0; 0; 0; 0; 0; 0; 0; 0;
  0; 0; 0; 0; 0; 0; 0; 0; 0; 0; 0; 0; 0; 0; 0; 0; 0; 0; 0; 0; 0; 0; 0; 31; 255; 255; 255; 255;
  255; 255; 255; 255; 255; 255; 255; 255; 0; 0; 0; 0; 0; 0; 128; 128; 192; 224; 224; 240; 240; 248; 248; 252; 254; 254; 255; 255;
  255; 255; 255; 255; 63; 0; 0; 0; 0; 0; 0; 0; 0; 0; 0; 0; 0; 0; 0; 0; 0; 0; 0; 0; 0; 0; 0; 0;
  0; 0; 0; 0; 0; 0; 0; 0; 0; 0; 0; 0; 0; 0; 0; 0; 0; 0; 0; 0; 0; 0; 0; 0; 0; 3; 7; 31;
  63; 127; 127; 255; 255; 255; 255; 255; 248; 252; 254; 254; 255; 255; 255; 255; 255; 255; 255; 255; 255; 255; 255; 255; 255; 255; 127; 63;
  31; 15; 3; 0; 0; 0; 0; 0; 0; 0; 0; 0; 0; 0; 0; 0; 0; 0; 0; 0; 0; 0; 0; 0; 0; 0; 0; 0;
  0; 0; 0; 0; 0; 0; 0; 0; 0; 0; 0; 0; 0; 0; 0; 0; 0; 0; 0; 0; 0; 0; 0; 0; 0; 0; 0; 0;
  0; 0; 0; 0; 1; 1; 3; 3; 3; 7; 7; 7; 7; 7; 7; 7; 7; 7; 7; 7; 3; 3; 1; 1; 0; 0; 0; 0;
  0; 0; 0; 0; 0; 0; 0; 0; 0; 0; 0; 0; 0; 0; 0; 0; 0; 0; 0; 0; 0; 0; 0; 0; 0; 0; 0; 0
].

Definition radio : list Z := [
  0; 0; 0; 0; 0; 0; 0; 0; 0; 0; 0; 0; 0; 0; 0; 0; 0; 0; 0; 0; 0; 0; 0; 0; 0; 0; 0; 0;
  0; 0; 0; 0; 0; 128; 128; 192; 192; 224; 224; 224; 224; 224; 224; 224; 224; 224; 224; 192; 192; 192; 128; 128; 0; 0; 0; 0;
  0; 0; 0; 0; 0; 0; 0; 0; 0; 0; 0; 0; 0; 0; 0; 0; 0; 0; 0; 0; 0; 0; 0; 0; 0; 0; 0; 0;
  0; 0; 0; 0; 0; 0; 0; 0; 0; 0; 0; 0; 0; 0; 0; 0; 0; 0; 0; 0; 0; 0; 0; 0; 0; 128; 224; 240;
  248; 252; 254; 255; 255; 255; 255; 255; 255; 255; 255; 255; 255; 255; 254; 253; 243; 231; 207; 159; 63; 127; 255; 255; 255; 254; 254; 252;
  248; 224; 192; 0; 0; 0; 0; 0; 0; 0; 0; 0; 0; 0; 0; 0; 0; 0; 0; 0; 0; 0; 0; 0; 0; 0; 0; 0;
  0; 0; 0; 0; 0; 0; 0; 0; 0; 0; 0; 0; 0; 0; 0; 0; 0; 0; 0; 0; 0; 0; 0; 248; 254; 255; 255; 127;
  3; 249; 93; 92; 92; 94; 94; 94; 94; 94; 94; 94; 94; 222; 62; 30; 206; 238; 110; 110; 238; 206; 30; 124; 220; 93; 253; 195;
  31; 255; 255; 255; 248; 0; 0; 0; 0; 0; 0; 0; 0; 0; 0; 0; 0; 0; 0; 0; 0; 0; 0; 0; 0; 0; 0; 0;
  0; 0; 0; 0; 0; 0; 0; 0; 0; 0; 0; 0; 0; 0; 0; 0; 0; 0; 0; 0; 0; 0; 0; 31; 255; 255; 255; 224;
  0; 255; 171; 171; 171; 171; 171; 171; 171; 171; 171; 171; 171; 175; 184; 176; 167; 143; 140; 140; 143; 167; 176; 168; 171; 171; 255; 31;
  192; 255; 255; 255; 63; 0; 0; 0; 0; 0; 0; 0; 0; 0; 0; 0; 0; 0; 0; 0; 0; 0; 0; 0; 0; 0; 0; 0;
  0; 0; 0; 0; 0; 0; 0; 0; 0; 0; 0; 0; 0; 0; 0; 0; 0; 0; 0; 0; 0; 0; 0; 0; 0; 3; 7; 31;
  62; 120; 123; 251; 243; 227; 243; 251; 251; 251; 243; 243; 243; 243; 243; 243; 243; 243; 251; 251; 251; 243; 227; 243; 251; 251; 121; 60;
  31; 15; 3; 0; 0; 0; 0; 0; 0; 0; 0; 0; 0; 0; 0; 0; 0; 0; 0; 0; 0; 0; 0; 0; 0; 0; 0; 0;
  0; 0; 0; 0; 0; 0; 0; 0; 0; 0; 0; 0; 0; 0; 0; 0; 0; 0; 0; 0; 0; 0; 0; 0; 0; 0; 0; 0;
  0; 0; 0; 0; 1; 1; 3; 3; 3; 7; 7; 7; 7; 7; 7; 7; 7; 7; 7; 7; 3; 3; 1; 1; 0; 0; 0; 0;
  0; 0; 0; 0; 0; 0; 0; 0; 0; 0; 0; 0; 0; 0; 0; 0; 0; 0; 0; 0; 0; 0; 0; 0; 0; 0; 0; 0
].

Definition startup : list Z := [
  0; 0; 0; 0; 0; 0; 0; 0; 0; 0; 0; 0; 0; 0; 0; 0; 0; 0; 0; 0; 0; 0; 0; 0; 0; 0; 128; 192;
  192; 192; 192; 192; 192; 192; 192; 192; 192; 192; 192; 192; 192; 192; 192; 192; 192; 192; 192; 192; 192; 192; 192; 192; 192; 192; 192; 192;
  192; 128; 0; 0; 0; 0; 0; 0; 0; 0; 0; 0; 0; 0; 0; 0; 0; 0; 0; 0; 0; 0; 0; 0; 0; 0; 0; 0;
  0; 0; 0; 0; 0; 0; 0; 0; 0; 0; 0; 0; 0; 0; 0; 0; 0; 0; 0; 0; 0; 0; 0; 0; 0; 0; 1; 3;
  7; 63; 255; 255; 227; 131; 3; 3; 3; 131; 195; 195; 195; 195; 195; 195; 195; 195; 131; 3; 3; 3; 3; 195; 255; 255; 127; 7;
  3; 1; 0; 0; 0; 0; 0; 0; 0; 0; 0; 0; 0; 0; 0; 0; 0; 0; 0; 0; 0; 0; 0; 0; 0; 0; 0; 0;
  0; 0; 0; 0; 0; 0; 0; 0; 0; 0; 0; 0; 0; 0; 0; 0; 0; 0; 0; 0; 0; 0; 0; 0; 0; 0; 0; 0;
  0; 0; 1; 3; 15; 63; 126; 248; 240; 224; 131; 15; 31; 255; 255; 31; 15; 131; 192; 240; 248; 124; 63; 15; 7; 1; 0; 0;
  0; 0; 0; 0; 0; 0; 0; 0; 0; 0; 0; 0; 0; 0; 0; 0; 0; 0; 0; 0; 0; 0; 0; 0; 0; 0; 0; 0;
  0; 0; 0; 0; 0; 0; 0; 0; 0; 0; 0; 0; 0; 0; 0; 0; 0; 0; 0; 0; 0; 0; 0; 0; 0; 0; 0; 0;
  0; 0; 0; 192; 240; 248; 126; 31; 15; 135; 195; 192; 224; 252; 252; 240; 224; 193; 135; 15; 31; 126; 252; 240; 224; 128; 0; 0;
  0; 0; 0; 0; 0; 0; 0; 0; 0; 0; 0; 0; 0; 0; 0; 0; 0; 0; 0; 0; 0; 0; 0; 0; 0; 0; 0; 0;
  0; 0; 0; 0; 0; 0; 0; 0; 0; 0; 0; 0; 0; 0; 0; 0; 0; 0; 0; 0; 0; 0; 0; 0; 0; 0; 128; 128;
  224; 252; 255; 255; 135; 145; 152; 158; 159; 159; 159; 159; 159; 159; 159; 159; 159; 159; 159; 159; 158; 152; 144; 131; 191; 255; 254; 224;
  128; 128; 0; 0; 0; 0; 0; 0; 0; 0; 0; 0; 0; 0; 0; 0; 0; 0; 0; 0; 0; 0; 0; 0; 0; 0; 0; 0;
  0; 0; 0; 0; 0; 0; 0; 0; 0; 0; 0; 0; 0; 0; 0; 0; 0; 0; 0; 0; 0; 0; 0; 0; 0; 0; 1; 3;
  3; 3; 3; 3; 3; 3; 3; 3; 3; 3; 3; 3; 3; 3; 3; 3; 3; 3; 3; 3; 3; 3; 3; 3; 3; 3; 3; 3;
  3; 1; 0; 0; 0; 0; 0; 0; 0; 0; 0; 0; 0; 0; 0; 0; 0; 0; 0; 0; 0; 0; 0; 0; 0; 0; 0; 0
].

Definition stop : list Z := [
  0; 0; 0; 0; 0; 0; 0; 0; 0; 0; 0; 0; 0; 0; 0; 0; 0; 0; 0; 0; 0; 0; 0; 0; 0; 0; 0; 0;
  0; 0; 0; 0; 0; 128; 128; 192; 192; 224; 224; 224; 224; 224; 224; 224; 224; 224; 224; 192; 192; 192; 128; 128; 0; 0; 0; 0;
  0; 0; 0; 0; 0; 0; 0; 0; 0; 0; 0; 0; 0; 0; 0; 0; 0; 0; 0; 0; 0; 0; 0; 0; 0; 0; 0; 0;
  0; 0; 0; 0; 0; 0; 0; 0; 0; 0; 0; 0; 0; 0; 0; 0; 0; 0; 0; 0; 0; 0; 0; 0; 0; 128; 224; 240;
  248; 252; 254; 255; 63; 63; 63; 63; 63; 63; 63; 63; 63; 63; 63; 63; 63; 63; 63; 63; 63; 63; 63; 63; 255; 254; 254; 252;
  248; 224; 192; 0; 0; 0; 0; 0; 0; 0; 0; 0; 0; 0; 0; 0; 0; 0; 0; 0; 0; 0; 0; 0; 0; 0; 0; 0;
  0; 0; 0; 0; 0; 0; 0; 0; 0; 0; 0; 0; 0; 0; 0; 0; 0; 0; 0; 0; 0; 0; 0; 248; 254; 255; 255; 255;
  255; 255; 255; 255; 0; 0; 0; 0; 0; 0; 0; 0; 0; 0; 0; 0; 0; 0; 0; 0; 0; 0; 0; 0; 255; 255; 255; 255;
  255; 255; 255; 255; 248; 0; 0; 0; 0; 0; 0; 0; 0; 0; 0; 0; 0; 0; 0; 0; 0; 0; 0; 0; 0; 0; 0; 0;
  0; 0; 0; 0; 0; 0; 0; 0; 0; 0; 0; 0; 0; 0; 0; 0; 0; 0; 0; 0; 0; 0; 0; 31; 255; 255; 255; 255;
  255; 255; 255; 255; 0; 0; 0; 0; 0; 0; 0; 0; 0; 0; 0; 0; 0; 0; 0; 0; 0; 0; 0; 0; 255; 255; 255; 255;
  255; 255; 255; 255; 63; 0; 0; 0; 0; 0; 0; 0; 0; 0; 0; 0; 0; 0; 0; 0; 0; 0; 0; 0; 0; 0; 0; 0;
  0; 0; 0; 0; 0; 0; 0; 0; 0; 0; 0; 0; 0; 0; 0; 0; 0; 0; 0; 0; 0; 0; 0; 0; 0; 3; 7; 31;
  63; 127; 127; 255; 252; 252; 252; 252; 252; 252; 252; 252; 252; 252; 252; 252; 252; 252; 252; 252; 252; 252; 252; 252; 255; 255; 127; 63;
  31; 15; 3; 0; 0; 0; 0; 0; 0; 0; 0; 0; 0; 0; 0; 0; 0; 0; 0; 0; 0; 0; 0; 0; 0; 0; 0; 0;
  0; 0; 0; 0; 0; 0; 0; 0; 0; 0; 0; 0; 0; 0; 0; 0; 0; 0; 0; 0; 0; 0; 0; 0; 0; 0; 0; 0;
  0; 0; 0; 0; 1; 1; 3; 3; 3; 7; 7; 7; 7; 7; 7; 7; 7; 7; 7; 7; 3; 3; 1; 1; 0; 0; 0; 0;
  0; 0; 0; 0; 0; 0; 0; 0; 0; 0; 0; 0; 0; 0; 0; 0; 0; 0; 0; 0; 0; 0; 0; 0; 0; 0; 0; 0
].

Definition volume_00 : list Z := [
  0; 0; 0; 0; 0; 0; 0; 0; 0; 0; 0; 0; 0; 0; 0; 0; 0; 0; 0; 0; 0; 0; 0; 0; 0; 0; 0; 0;
  0; 0; 0; 0; 0; 128; 128; 192; 192; 224; 224; 224; 224; 224; 224; 224; 224; 224; 224; 192; 192; 192; 128; 128; 0; 0; 0; 0;
  0; 0; 0; 0; 0; 0; 0; 0; 0; 0; 0; 0; 0; 0; 0; 0; 0; 0; 0; 0; 0; 0; 0; 0; 0; 0; 0; 0;
  0; 0; 0; 0; 0; 0; 0; 0; 0; 0; 0; 0; 0; 0; 0; 0; 0; 0; 0; 0; 0; 0; 0; 0; 0; 128; 224; 240;
  248; 252; 254; 255; 255; 255; 255; 255; 255; 255; 255; 255; 255; 255; 255; 255; 255; 255; 255; 255; 255; 255; 255; 255; 255; 254; 254; 252;
  248; 224; 192; 0; 0; 0; 0; 0; 0; 0; 0; 0; 0; 0; 0; 0; 0; 0; 0; 0; 0; 0; 0; 0; 0; 0; 0; 0;
  0; 0; 0; 0; 0; 0; 0; 0; 0; 0; 0; 0; 0; 0; 0; 0; 0; 0; 0; 0; 0; 0; 0; 248; 254; 255; 255; 255;
  255; 255; 255; 255; 255; 255; 255; 31; 31; 31; 31; 31; 15; 15; 7; 3; 3; 1; 0; 255; 255; 255; 255; 255; 255; 255; 255; 255;
  255; 255; 255; 255; 248; 0; 0; 0; 0; 0; 0; 0; 0; 0; 0; 0; 0; 0; 0; 0; 0; 0; 0; 0; 0; 0; 0; 0;
  0; 0; 0; 0; 0; 0; 0; 0; 0; 0; 0; 0; 0; 0; 0; 0; 0; 0; 0; 0; 0; 0; 0; 31; 255; 255; 255; 255;
  255; 255; 255; 255; 255; 255; 255; 248; 248; 248; 248; 248; 240; 224; 224; 192; 128; 128; 0; 255; 255; 255; 255; 255; 255; 255; 255; 255;
  255; 255; 255; 255; 63; 0; 0; 0; 0; 0; 0; 0; 0; 0; 0; 0; 0; 0; 0; 0; 0; 0; 0; 0; 0; 0; 0; 0;
  0; 0; 0; 0; 0; 0; 0; 0; 0; 0; 0; 0; 0; 0; 0; 0; 0; 0; 0; 0; 0; 0; 0; 0; 0; 3; 7; 31;
  63; 127; 127; 255; 255; 255; 255; 255; 255; 255; 255; 255; 255; 255; 255; 255; 255; 255; 255; 255; 255; 255; 255; 255; 255; 255; 127; 63;
  31; 15; 3; 0; 0; 0; 0; 0; 0; 0; 0; 0; 0; 0; 0; 0; 0; 0; 0; 0; 0; 0; 0; 0; 0; 0; 0; 0;
  0; 0; 0; 0; 0; 0; 0; 0; 0; 0; 0; 0; 0; 0; 0; 0; 0; 0; 0; 0; 0; 0; 0; 0; 0; 0; 0; 0;
  0; 0; 0; 0; 1; 1; 3; 3; 3; 7; 7; 7; 7; 7; 7; 7; 7; 7; 7; 7; 3; 3; 1; 1; 0; 0; 0; 0;
  0; 0; 0; 0; 0; 0; 0; 0; 0; 0; 0; 0; 0; 0; 0; 0; 0; 0; 0; 0; 0; 0; 0; 0; 0; 0; 0; 0
].

Definition volume_01 : list Z := [
  0; 0; 0; 0; 0; 0; 0; 0; 0; 0; 0; 0; 0; 0; 0; 0; 0; 0; 0; 0; 0; 0; 0; 0; 0; 0; 0; 0;
  0; 0; 0; 0; 0; 128; 128; 192; 192; 224; 224; 224; 224; 224; 224; 224; 224; 224; 224; 192; 192; 192; 128; 128; 0; 0; 0; 0;
  0; 0; 0; 0; 0; 0; 0; 0; 0; 0; 0; 0; 0; 0; 0; 0; 0; 0; 0; 0; 0; 0; 0; 0; 0; 0; 0; 0;
  0; 0; 0; 0; 0; 0; 0; 0; 0; 0; 0; 0; 0; 0; 0; 0; 0; 0; 0; 0; 0; 0; 0; 0; 0; 128; 224; 240;
  248; 252; 254; 255; 255; 255; 255; 255; 255; 255; 255; 255; 255; 255; 255; 255; 255; 255; 255; 255; 255; 255; 255; 255; 255; 254; 254; 252;
  248; 224; 192; 0; 0; 0; 0; 0; 0; 0; 0; 0; 0; 0; 0; 0; 0; 0; 0; 0; 0; 0; 0; 0; 0; 0; 0; 0;
  0; 0; 0; 0; 0; 0; 0; 0; 0; 0; 0; 0; 0; 0; 0; 0; 0; 0; 0; 0; 0; 0; 0; 248; 254; 255; 255; 255;
  255; 255; 255; 255; 255; 255; 255; 31; 31; 31; 31; 31; 15; 15; 7; 3; 3; 1; 0; 255; 255; 255; 255; 255; 255; 255; 255; 255;
  255; 255; 255; 255; 248; 0; 0; 0; 0; 0; 0; 0; 0; 0; 0; 0; 0; 0; 0; 0; 0; 0; 0; 0; 0; 0; 0; 0;
  0; 0; 0; 0; 0; 0; 0; 0; 0; 0; 0; 0; 0; 0; 0; 0; 0; 0; 0; 0; 0; 0; 0; 31; 255; 255; 255; 255;
  255; 255; 255; 255; 255; 255; 255; 248; 248; 248; 248; 248; 240; 224; 224; 192; 128; 128; 0; 255; 255; 255; 255; 255; 255; 255; 255; 255;
  255; 255; 255; 255; 63; 0; 0; 0; 0; 0; 0; 0; 0; 0; 0; 0; 0; 0; 0; 0; 0; 0; 0; 0; 0; 0; 0; 0;
  0; 0; 0; 0; 0; 0; 0; 0; 0; 0; 0; 0; 0; 0; 0; 0; 0; 0; 0; 0; 0; 0; 0; 0; 0; 3; 7; 31;
  63; 127; 127; 255; 255; 255; 255; 255; 255; 255; 255; 255; 7; 7; 231; 7; 7; 255; 255; 255; 255; 255; 255; 255; 255; 255; 127; 63;
  31; 15; 3; 0; 0; 0; 0; 0; 0; 0; 0; 0; 0; 0; 0; 0; 0; 0; 0; 0; 0; 0; 0; 0; 0; 0; 0; 0;
  0; 0; 0; 0; 0; 0; 0; 0; 0; 0; 0; 0; 0; 0; 0; 0; 0; 0; 0; 0; 0; 0; 0; 0; 0; 0; 0; 0;
  0; 0; 0; 0; 1; 1; 3; 3; 3; 7; 7; 7; 6; 6; 7; 6; 6; 7; 7; 7; 3; 3; 1; 1; 0; 0; 0; 0;
  0; 0; 0; 0; 0; 0; 0; 0; 0; 0; 0; 0; 0; 0; 0; 0; 0; 0; 0; 0; 0; 0; 0; 0; 0; 0; 0; 0
].

Definition volume_02 : list Z := [
  0; 0; 0; 0; 0; 0; 0; 0; 0; 0; 0; 0; 0; 0; 0; 0; 0; 0; 0; 0; 0; 0; 0; 0; 0; 0; 0; 0;
  0; 0; 0; 0; 0; 128; 128; 192; 192; 224; 224; 224; 224; 224; 224; 224; 224; 224; 224; 192; 192; 192; 128; 128; 0; 0; 0; 0;
  0; 0; 0; 0; 0; 0; 0; 0; 0; 0; 0; 0; 0; 0; 0; 0; 0; 0; 0; 0; 0; 0; 0; 0; 0; 0; 0; 0;
  0; 0; 0; 0; 0; 0; 0; 0; 0; 0; 0; 0; 0; 0; 0; 0; 0; 0; 0; 0; 0; 0; 0; 0; 0; 128; 224; 240;
  248; 252; 254; 255; 255; 255; 255; 255; 255; 255; 255; 255; 255; 255; 255; 255; 255; 255; 255; 255; 255; 255; 255; 255; 255; 254; 254; 252;
  248; 224; 192; 0; 0; 0; 0; 0; 0; 0; 0; 0; 0; 0; 0; 0; 0; 0; 0; 0; 0; 0; 0; 0; 0; 0; 0; 0;
  0; 0; 0; 0; 0; 0; 0; 0; 0; 0; 0; 0; 0; 0; 0; 0; 0; 0; 0; 0; 0; 0; 0; 248; 254; 255; 255; 255;
  255; 255; 255; 255; 255; 255; 255; 31; 31; 31; 31; 31; 15; 15; 7; 3; 3; 1; 0; 255; 255; 255; 255; 255; 255; 255; 255; 255;
  255; 255; 255; 255; 248; 0; 0; 0; 0; 0; 0; 0; 0; 0; 0; 0; 0; 0; 0; 0; 0; 0; 0; 0; 0; 0; 0; 0;
  0; 0; 0; 0; 0; 0; 0; 0; 0; 0; 0; 0; 0; 0; 0; 0; 0; 0; 0; 0; 0; 0; 0; 31; 255; 255; 255; 255;
  255; 255; 255; 255; 255; 255; 255; 248; 248; 248; 248; 248; 240; 224; 224; 192; 128; 128; 0; 255; 255; 255; 255; 255; 255; 255; 255; 255;
  255; 255; 255; 255; 63; 0; 0; 0; 0; 0; 0; 0; 0; 0; 0; 0; 0; 0; 0; 0; 0; 0; 0; 0; 0; 0; 0; 0;
  0; 0; 0; 0; 0; 0; 0; 0; 0; 0; 0; 0; 0; 0; 0; 0; 0; 0; 0; 0; 0; 0; 0; 0; 0; 3; 7; 31;
  63; 127; 127; 255; 255; 255; 255; 255; 63; 7; 3; 231; 7; 7; 231; 7; 7; 195; 7; 15; 63; 255; 255; 255; 255; 255; 127; 63;
  31; 15; 3; 0; 0; 0; 0; 0; 0; 0; 0; 0; 0; 0; 0; 0; 0; 0; 0; 0; 0; 0; 0; 0; 0; 0; 0; 0;
  0; 0; 0; 0; 0; 0; 0; 0; 0; 0; 0; 0; 0; 0; 0; 0; 0; 0; 0; 0; 0; 0; 0; 0; 0; 0; 0; 0;
  0; 0; 0; 0; 1; 1; 3; 3; 2; 6; 7; 6; 6; 6; 7; 6; 6; 7; 7; 6; 2; 3; 1; 1; 0; 0; 0; 0;
  0; 0; 0; 0; 0; 0; 0; 0; 0; 0; 0; 0; 0; 0; 0; 0; 0; 0; 0; 0; 0; 0; 0; 0; 0; 0; 0; 0
].

Definition volume_03 : list Z := [
  0; 0; 0; 0; 0; 0; 0; 0; 0; 0; 0; 0; 0; 0; 0; 0; 0; 0; 0; 0; 0; 0; 0; 0; 0; 0; 0; 0;
  0; 0; 0; 0; 0; 128; 128; 192; 192; 224; 224; 224; 224; 224; 224; 224; 224; 224; 224; 192; 192; 192; 128; 128; 0; 0; 0; 0;
  0; 0; 0; 0; 0; 0; 0; 0; 0; 0; 0; 0; 0; 0; 0; 0; 0; 0; 0; 0; 0; 0; 0; 0; 0; 0; 0; 0;
  0; 0; 0; 0; 0; 0; 0; 0; 0; 0; 0; 0; 0; 0; 0; 0; 0; 0; 0; 0; 0; 0; 0; 0; 0; 128; 224; 240;
  248; 252; 254; 255; 255; 255; 255; 255; 255; 255; 255; 255; 255; 255; 255; 255; 255; 255; 255; 255; 255; 255; 255; 255; 255; 254; 254; 252;
  248; 224; 192; 0; 0; 0; 0; 0; 0; 0; 0; 0; 0; 0; 0; 0; 0; 0; 0; 0; 0; 0; 0; 0; 0; 0; 0; 0;
  0; 0; 0; 0; 0; 0; 0; 0; 0; 0; 0; 0; 0; 0; 0; 0; 0; 0; 0; 0; 0; 0; 0; 248; 254; 255; 255; 255;
  255; 255; 255; 255; 255; 255; 255; 31; 31; 31; 31; 31; 15; 15; 7; 3; 3; 1; 0; 255; 255; 255; 255; 255; 255; 255; 255; 255;
  255; 255; 255; 255; 248; 0; 0; 0; 0; 0; 0; 0; 0; 0; 0; 0; 0; 0; 0; 0; 0; 0; 0; 0; 0; 0; 0; 0;
  0; 0; 0; 0; 0; 0; 0; 0; 0; 0; 0; 0; 0; 0; 0; 0; 0; 0; 0; 0; 0; 0; 0; 31; 255; 255; 255; 255;
  255; 255; 255; 255; 255; 255; 255; 248; 248; 248; 248; 248; 240; 224; 224; 192; 128; 128; 0; 255; 255; 255; 255; 255; 255; 255; 255; 255;
  255; 255; 255; 255; 63; 0; 0; 0; 0; 0; 0; 0; 0; 0; 0; 0; 0; 0; 0; 0; 0; 0; 0; 0; 0; 0; 0; 0;
  0; 0; 0; 0; 0; 0; 0; 0; 0; 0; 0; 0; 0; 0; 0; 0; 0; 0; 0; 0; 0; 0; 0; 0; 0; 3; 7; 31;
  63; 127; 127; 255; 255; 159; 7; 195; 33; 3; 3; 231; 7; 7; 231; 7; 7; 195; 3; 11; 97; 131; 143; 191; 255; 255; 127; 63;
  31; 15; 3; 0; 0; 0; 0; 0; 0; 0; 0; 0; 0; 0; 0; 0; 0; 0; 0; 0; 0; 0; 0; 0; 0; 0; 0; 0;
  0; 0; 0; 0; 0; 0; 0; 0; 0; 0; 0; 0; 0; 0; 0; 0; 0; 0; 0; 0; 0; 0; 0; 0; 0; 0; 0; 0;
  0; 0; 0; 0; 1; 1; 3; 3; 2; 6; 7; 7; 6; 6; 7; 6; 6; 7; 6; 6; 3; 3; 1; 1; 0; 0; 0; 0;
  0; 0; 0; 0; 0; 0; 0; 0; 0; 0; 0; 0; 0; 0; 0; 0; 0; 0; 0; 0; 0; 0; 0; 0; 0; 0; 0; 0
].

Definition volume_04 : list Z := [
  0; 0; 0; 0; 0; 0; 0; 0; 0; 0; 0; 0; 0; 0; 0; 0; 0; 0; 0; 0; 0; 0; 0; 0; 0; 0; 0; 0;
  0; 0; 0; 0; 0; 128; 128; 192; 192; 224; 224; 224; 224; 224; 224; 224; 224; 224; 224; 192; 192; 192; 128; 128; 0; 0; 0; 0;
  0; 0; 0; 0; 0; 0; 0; 0; 0; 0; 0; 0; 0; 0; 0; 0; 0; 0; 0; 0; 0; 0; 0; 0; 0; 0; 0; 0;
  0; 0; 0; 0; 0; 0; 0; 0; 0; 0; 0; 0; 0; 0; 0; 0; 0; 0; 0; 0; 0; 0; 0; 0; 0; 128; 224; 240;
  248; 252; 254; 255; 255; 255; 255; 255; 255; 255; 255; 255; 255; 255; 255; 255; 255; 255; 255; 255; 255; 255; 255; 255; 255; 254; 254; 252;
  248; 224; 192; 0; 0; 0; 0; 0; 0; 0; 0; 0; 0; 0; 0; 0; 0; 0; 0; 0; 0; 0; 0; 0; 0; 0; 0; 0;
  0; 0; 0; 0; 0; 0; 0; 0; 0; 0; 0; 0; 0; 0; 0; 0; 0; 0; 0; 0; 0; 0; 0; 248; 254; 255; 255; 255;
  255; 255; 255; 255; 255; 255; 255; 31; 31; 31; 31; 31; 15; 15; 7; 3; 3; 1; 0; 255; 255; 255; 255; 255; 255; 255; 255; 255;
  255; 255; 255; 255; 248; 0; 0; 0; 0; 0; 0; 0; 0; 0; 0; 0; 0; 0; 0; 0; 0; 0; 0; 0; 0; 0; 0; 0;
  0; 0; 0; 0; 0; 0; 0; 0; 0; 0; 0; 0; 0; 0; 0; 0; 0; 0; 0; 0; 0; 0; 0; 31; 255; 255; 255; 255;
  255; 255; 255; 255; 255; 255; 255; 248; 248; 248; 248; 248; 240; 224; 224; 192; 128; 128; 0; 255; 255; 255; 255; 255; 255; 255; 255; 255;
  255; 255; 255; 255; 63; 0; 0; 0; 0; 0; 0; 0; 0; 0; 0; 0; 0; 0; 0; 0; 0; 0; 0; 0; 0; 0; 0; 0;
  0; 0; 0; 0; 0; 0; 0; 0; 0; 0; 0; 0; 0; 0; 0; 0; 0; 0; 0; 0; 0; 0; 0; 0; 0; 3; 7; 31;
  63; 127; 111; 195; 225; 144; 0; 193; 33; 3; 3; 231; 7; 7; 231; 7; 7; 195; 3; 11; 97; 128; 136; 177; 227; 231; 127; 63;
  31; 15; 3; 0; 0; 0; 0; 0; 0; 0; 0; 0; 0; 0; 0; 0; 0; 0; 0; 0; 0; 0; 0; 0; 0; 0; 0; 0;
  0; 0; 0; 0; 0; 0; 0; 0; 0; 0; 0; 0; 0; 0; 0; 0; 0; 0; 0; 0; 0; 0; 0; 0; 0; 0; 0; 0;
  0; 0; 0; 0; 1; 1; 3; 3; 2; 6; 7; 6; 6; 6; 7; 6; 6; 7; 6; 6; 3; 3; 1; 1; 0; 0; 0; 0;
  0; 0; 0; 0; 0; 0; 0; 0; 0; 0; 0; 0; 0; 0; 0; 0; 0; 0; 0; 0; 0; 0; 0; 0; 0; 0; 0; 0
].

Definition volume_05 : list Z := [
  0; 0; 0; 0; 0; 0; 0; 0; 0; 0; 0; 0; 0; 0; 0; 0; 0; 0; 0; 0; 0; 0; 0; 0; 0; 0; 0; 0;
  0; 0; 0; 0; 0; 128; 128; 192; 192; 224; 224; 224; 224; 224; 224; 224; 224; 224; 224; 192; 192; 192; 128; 128; 0; 0; 0; 0;
  0; 0; 0; 0; 0; 0; 0; 0; 0; 0; 0; 0; 0; 0; 0; 0; 0; 0; 0; 0; 0; 0; 0; 0; 0; 0; 0; 0;
  0; 0; 0; 0; 0; 0; 0; 0; 0; 0; 0; 0; 0; 0; 0; 0; 0; 0; 0; 0; 0; 0; 0; 0; 0; 128; 224; 240;
  248; 252; 254; 255; 255; 255; 255; 255; 255; 255; 255; 255; 255; 255; 255; 255; 255; 255; 255; 255; 255; 255; 255; 255; 255; 254; 254; 252;
  248; 224; 192; 0; 0; 0; 0; 0; 0; 0; 0; 0; 0; 0; 0; 0; 0; 0; 0; 0; 0; 0; 0; 0; 0; 0; 0; 0;
  0; 0; 0; 0; 0; 0; 0; 0; 0; 0; 0; 0; 0; 0; 0; 0; 0; 0; 0; 0; 0; 0; 0; 248; 254; 255; 255; 255;
  255; 255; 255; 255; 255; 255; 255; 31; 31; 31; 31; 31; 15; 15; 7; 3; 3; 1; 0; 255; 255; 255; 255; 255; 255; 255; 255; 255;
  255; 255; 255; 255; 248; 0; 0; 0; 0; 0; 0; 0; 0; 0; 0; 0; 0; 0; 0; 0; 0; 0; 0; 0; 0; 0; 0; 0;
  0; 0; 0; 0; 0; 0; 0; 0; 0; 0; 0; 0; 0; 0; 0; 0; 0; 0; 0; 0; 0; 0; 0; 31; 255; 255; 255; 255;
  255; 255; 127; 127; 63; 127; 255; 248; 248; 248; 248; 248; 240; 224; 224; 192; 128; 128; 0; 255; 255; 255; 127; 63; 63; 127; 127; 255;
  255; 255; 255; 255; 63; 0; 0; 0; 0; 0; 0; 0; 0; 0; 0; 0; 0; 0; 0; 0; 0; 0; 0; 0; 0; 0; 0; 0;
  0; 0; 0; 0; 0; 0; 0; 0; 0; 0; 0; 0; 0; 0; 0; 0; 0; 0; 0; 0; 0; 0; 0; 0; 0; 3; 7; 31;
  57; 120; 108; 192; 224; 144; 0; 193; 33; 3; 3; 231; 7; 7; 231; 7; 7; 195; 3; 11; 97; 128; 136; 177; 226; 228; 124; 56;
  29; 15; 3; 0; 0; 0; 0; 0; 0; 0; 0; 0; 0; 0; 0; 0; 0; 0; 0; 0; 0; 0; 0; 0; 0; 0; 0; 0;
  0; 0; 0; 0; 0; 0; 0; 0; 0; 0; 0; 0; 0; 0; 0; 0; 0; 0; 0; 0; 0; 0; 0; 0; 0; 0; 0; 0;
  0; 0; 0; 0; 1; 1; 3; 3; 2; 6; 7; 6; 6; 6; 7; 6; 6; 7; 6; 6; 3; 3; 1; 1; 0; 0; 0; 0;
  0; 0; 0; 0; 0; 0; 0; 0; 0; 0; 0; 0; 0; 0; 0; 0; 0; 0; 0; 0; 0; 0; 0; 0; 0; 0; 0; 0
].

Definition volume_06 : list Z := [
  0; 0; 0; 0; 0; 0; 0; 0; 0; 0; 0; 0; 0; 0; 0; 0; 0; 0; 0; 0; 0; 0; 0; 0; 0; 0; 0; 0;
  0; 0; 0; 0; 0; 128; 128; 192; 192; 224; 224; 224; 224; 224; 224; 224; 224; 224; 224; 192; 192; 192; 128; 128; 0; 0; 0; 0;
  0; 0; 0; 0; 0; 0; 0; 0; 0; 0; 0; 0; 0; 0; 0; 0; 0; 0; 0; 0; 0; 0; 0; 0; 0; 0; 0; 0;
  0; 0; 0; 0; 0; 0; 0; 0; 0; 0; 0; 0; 0; 0; 0; 0; 0; 0; 0; 0; 0; 0; 0; 0; 0; 128; 224; 240;
  248; 252; 254; 255; 255; 255; 255; 255; 255; 255; 255; 255; 255; 255; 255; 255; 255; 255; 255; 255; 255; 255; 255; 255; 255; 254; 254; 252;
  248; 224; 192; 0; 0; 0; 0; 0; 0; 0; 0; 0; 0; 0; 0; 0; 0; 0; 0; 0; 0; 0; 0; 0; 0; 0; 0; 0;
  0; 0; 0; 0; 0; 0; 0; 0; 0; 0; 0; 0; 0; 0; 0; 0; 0; 0; 0; 0; 0; 0; 0; 248; 254; 255; 255; 255;
  255; 255; 255; 255; 255; 255; 255; 31; 31; 31; 31; 31; 15; 15; 7; 3; 3; 1; 0; 255; 255; 255; 255; 255; 255; 255; 255; 255;
  255; 255; 255; 255; 248; 0; 0; 0; 0; 0; 0; 0; 0; 0; 0; 0; 0; 0; 0; 0; 0; 0; 0; 0; 0; 0; 0; 0;
  0; 0; 0; 0; 0; 0; 0; 0; 0; 0; 0; 0; 0; 0; 0; 0; 0; 0; 0; 0; 0; 0; 0; 31; 255; 255; 63; 63;
  31; 159; 15; 79; 31; 127; 255; 248; 248; 248; 248; 248; 240; 224; 224; 192; 128; 128; 0; 255; 255; 255; 127; 63; 15; 79; 15; 159;
  31; 31; 255; 255; 63; 0; 0; 0; 0; 0; 0; 0; 0; 0; 0; 0; 0; 0; 0; 0; 0; 0; 0; 0; 0; 0; 0; 0;
  0; 0; 0; 0; 0; 0; 0; 0; 0; 0; 0; 0; 0; 0; 0; 0; 0; 0; 0; 0; 0; 0; 0; 0; 0; 3; 7; 31;
  57; 120; 108; 192; 224; 144; 0; 193; 33; 3; 3; 231; 7; 7; 231; 7; 7; 195; 3; 11; 97; 128; 136; 177; 226; 228; 124; 56;
  29; 15; 3; 0; 0; 0; 0; 0; 0; 0; 0; 0; 0; 0; 0; 0; 0; 0; 0; 0; 0; 0; 0; 0; 0; 0; 0; 0;
  0; 0; 0; 0; 0; 0; 0; 0; 0; 0; 0; 0; 0; 0; 0; 0; 0; 0; 0; 0; 0; 0; 0; 0; 0; 0; 0; 0;
  0; 0; 0; 0; 1; 1; 3; 3; 2; 6; 7; 6; 6; 6; 7; 6; 6; 7; 6; 6; 3; 3; 1; 1; 0; 0; 0; 0;
  0; 0; 0; 0; 0; 0; 0; 0; 0; 0; 0; 0; 0; 0; 0; 0; 0; 0; 0; 0; 0; 0; 0; 0; 0; 0; 0; 0
].

Definition volume_07 : list Z := [
  0; 0; 0; 0; 0; 0; 0; 0; 0; 0; 0; 0; 0; 0; 0; 0; 0; 0; 0; 0; 0; 0; 0; 0; 0; 0; 0; 0;
  0; 0; 0; 0; 0; 128; 128; 192; 192; 224; 224; 224; 224; 224; 224; 224; 224; 224; 224; 192; 192; 192; 128; 128; 0; 0; 0; 0;
  0; 0; 0; 0; 0; 0; 0; 0; 0; 0; 0; 0; 0; 0; 0; 0; 0; 0; 0; 0; 0; 0; 0; 0; 0; 0; 0; 0;
  0; 0; 0; 0; 0; 0; 0; 0; 0; 0; 0; 0; 0; 0; 0; 0; 0; 0; 0; 0; 0; 0; 0; 0; 0; 128; 224; 240;
  248; 252; 254; 255; 255; 255; 255; 255; 255; 255; 255; 255; 255; 255; 255; 255; 255; 255; 255; 255; 255; 255; 255; 255; 255; 254; 254; 252;
  248; 224; 192; 0; 0; 0; 0; 0; 0; 0; 0; 0; 0; 0; 0; 0; 0; 0; 0; 0; 0; 0; 0; 0; 0; 0; 0; 0;
  0; 0; 0; 0; 0; 0; 0; 0; 0; 0; 0; 0; 0; 0; 0; 0; 0; 0; 0; 0; 0; 0; 0; 248; 254; 255; 255; 255;
  255; 255; 255; 255; 255; 255; 255; 31; 31; 31; 31; 31; 15; 15; 7; 3; 3; 1; 0; 255; 255; 255; 255; 255; 255; 255; 255; 255;
  255; 255; 255; 255; 248; 0; 0; 0; 0; 0; 0; 0; 0; 0; 0; 0; 0; 0; 0; 0; 0; 0; 0; 0; 0; 0; 0; 0;
  0; 0; 0; 0; 0; 0; 0; 0; 0; 0; 0; 0; 0; 0; 0; 0; 0; 0; 0; 0; 0; 0; 0; 31; 255; 231; 35; 35;
  19; 147; 3; 67; 31; 127; 255; 248; 248; 248; 248; 248; 240; 224; 224; 192; 128; 128; 0; 255; 255; 255; 127; 63; 7; 65; 1; 147;
  19; 19; 227; 255; 63; 0; 0; 0; 0; 0; 0; 0; 0; 0; 0; 0; 0; 0; 0; 0; 0; 0; 0; 0; 0; 0; 0; 0;
  0; 0; 0; 0; 0; 0; 0; 0; 0; 0; 0; 0; 0; 0; 0; 0; 0; 0; 0; 0; 0; 0; 0; 0; 0; 3; 7; 31;
  57; 120; 108; 192; 224; 144; 0; 193; 33; 3; 3; 103; 7; 7; 231; 7; 7; 195; 3; 11; 97; 128; 136; 144; 226; 228; 124; 56;
  29; 15; 3; 0; 0; 0; 0; 0; 0; 0; 0; 0; 0; 0; 0; 0; 0; 0; 0; 0; 0; 0; 0; 0; 0; 0; 0; 0;
  0; 0; 0; 0; 0; 0; 0; 0; 0; 0; 0; 0; 0; 0; 0; 0; 0; 0; 0; 0; 0; 0; 0; 0; 0; 0; 0; 0;
  0; 0; 0; 0; 1; 1; 3; 3; 2; 6; 7; 6; 4; 4; 7; 4; 6; 7; 6; 6; 3; 3; 1; 1; 0; 0; 0; 0;
  0; 0; 0; 0; 0; 0; 0; 0; 0; 0; 0; 0; 0; 0; 0; 0; 0; 0; 0; 0; 0; 0; 0; 0; 0; 0; 0; 0
].

Definition volume_08 : list Z := [
  0; 0; 0; 0; 0; 0; 0; 0; 0; 0; 0; 0; 0; 0; 0; 0; 0; 0; 0; 0; 0; 0; 0; 0; 0; 0; 0; 0;
  0; 0; 0; 0; 0; 128; 128; 192; 192; 224; 224; 224; 224; 224; 224; 224; 224; 224; 224; 192; 192; 192; 128; 128; 0; 0; 0; 0;
  0; 0; 0; 0; 0; 0; 0; 0; 0; 0; 0; 0; 0; 0; 0; 0; 0; 0; 0; 0; 0; 0; 0; 0; 0; 0; 0; 0;
  0; 0; 0; 0; 0; 0; 0; 0; 0; 0; 0; 0; 0; 0; 0; 0; 0; 0; 0; 0; 0; 0; 0; 0; 0; 128; 224; 240;
  248; 252; 254; 255; 255; 255; 255; 255; 255; 255; 255; 255; 255; 255; 255; 255; 255; 255; 255; 255; 255; 255; 255; 255; 255; 254; 254; 252;
  248; 224; 192; 0; 0; 0; 0; 0; 0; 0; 0; 0; 0; 0; 0; 0; 0; 0; 0; 0; 0; 0; 0; 0; 0; 0; 0; 0;
  0; 0; 0; 0; 0; 0; 0; 0; 0; 0; 0; 0; 0; 0; 0; 0; 0; 0; 0; 0; 0; 0; 0; 248; 254; 127; 127; 127;
  127; 127; 127; 255; 255; 255; 255; 31; 31; 31; 31; 31; 15; 15; 7; 3; 3; 1; 0; 255; 255; 255; 255; 255; 255; 127; 127; 127;
  127; 127; 127; 127; 248; 0; 0; 0; 0; 0; 0; 0; 0; 0; 0; 0; 0; 0; 0; 0; 0; 0; 0; 0; 0; 0; 0; 0;
  0; 0; 0; 0; 0; 0; 0; 0; 0; 0; 0; 0; 0; 0; 0; 0; 0; 0; 0; 0; 0; 0; 0; 31; 255; 228; 32; 32;
  16; 146; 2; 67; 31; 127; 255; 248; 248; 248; 248; 248; 240; 224; 224; 192; 128; 128; 0; 255; 255; 255; 127; 63; 15; 64; 0; 146;
  18; 18; 226; 254; 63; 0; 0; 0; 0; 0; 0; 0; 0; 0; 0; 0; 0; 0; 0; 0; 0; 0; 0; 0; 0; 0; 0; 0;
  0; 0; 0; 0; 0; 0; 0; 0; 0; 0; 0; 0; 0; 0; 0; 0; 0; 0; 0; 0; 0; 0; 0; 0; 0; 3; 7; 31;
  57; 120; 108; 192; 224; 144; 0; 193; 33; 3; 3; 231; 7; 7; 231; 7; 7; 195; 3; 11; 97; 128; 136; 177; 226; 228; 124; 56;
  29; 15; 3; 0; 0; 0; 0; 0; 0; 0; 0; 0; 0; 0; 0; 0; 0; 0; 0; 0; 0; 0; 0; 0; 0; 0; 0; 0;
  0; 0; 0; 0; 0; 0; 0; 0; 0; 0; 0; 0; 0; 0; 0; 0; 0; 0; 0; 0; 0; 0; 0; 0; 0; 0; 0; 0;
  0; 0; 0; 0; 1; 1; 3; 3; 2; 6; 7; 6; 6; 4; 7; 6; 6; 7; 6; 6; 3; 3; 1; 1; 0; 0; 0; 0;
  0; 0; 0; 0; 0; 0; 0; 0; 0; 0; 0; 0; 0; 0; 0; 0; 0; 0; 0; 0; 0; 0; 0; 0; 0; 0; 0; 0
].

Definition volume_09 : list Z := [
  0; 0; 0; 0; 0; 0; 0; 0; 0; 0; 0; 0; 0; 0; 0; 0; 0; 0; 0; 0; 0; 0; 0; 0; 0; 0; 0; 0;
  0; 0; 0; 0; 0; 128; 128; 192; 192; 224; 224; 224; 224; 224; 224; 224; 224; 224; 224; 192; 192; 192; 128; 128; 0; 0; 0; 0;
  0; 0; 0; 0; 0; 0; 0; 0; 0; 0; 0; 0; 0; 0; 0; 0; 0; 0; 0; 0; 0; 0; 0; 0; 0; 0; 0; 0;
  0; 0; 0; 0; 0; 0; 0; 0; 0; 0; 0; 0; 0; 0; 0; 0; 0; 0; 0; 0; 0; 0; 0; 0; 0; 128; 224; 240;
  248; 252; 254; 255; 255; 255; 255; 255; 255; 255; 255; 255; 255; 255; 255; 255; 255; 255; 255; 255; 255; 255; 255; 255; 255; 254; 254; 252;
  248; 224; 192; 0; 0; 0; 0; 0; 0; 0; 0; 0; 0; 0; 0; 0; 0; 0; 0; 0; 0; 0; 0; 0; 0; 0; 0; 0;
  0; 0; 0; 0; 0; 0; 0; 0; 0; 0; 0; 0; 0; 0; 0; 0; 0; 0; 0; 0; 0; 0; 0; 248; 254; 79; 79; 79;
  15; 15; 31; 255; 255; 255; 255; 31; 31; 31; 31; 31; 15; 15; 7; 3; 3; 1; 0; 255; 255; 255; 255; 255; 255; 15; 15; 79;
  79; 71; 71; 127; 248; 0; 0; 0; 0; 0; 0; 0; 0; 0; 0; 0; 0; 0; 0; 0; 0; 0; 0; 0; 0; 0; 0; 0;
  0; 0; 0; 0; 0; 0; 0; 0; 0; 0; 0; 0; 0; 0; 0; 0; 0; 0; 0; 0; 0; 0; 0; 31; 255; 228; 32; 32;
  16; 146; 2; 67; 31; 127; 255; 248; 248; 248; 248; 248; 240; 224; 224; 192; 128; 128; 0; 255; 255; 255; 127; 63; 15; 64; 0; 146;
  18; 18; 226; 254; 63; 0; 0; 0; 0; 0; 0; 0; 0; 0; 0; 0; 0; 0; 0; 0; 0; 0; 0; 0; 0; 0; 0; 0;
  0; 0; 0; 0; 0; 0; 0; 0; 0; 0; 0; 0; 0; 0; 0; 0; 0; 0; 0; 0; 0; 0; 0; 0; 0; 3; 7; 31;
  57; 120; 108; 192; 224; 144; 0; 193; 33; 3; 3; 231; 7; 7; 231; 7; 7; 195; 3; 11; 97; 128; 136; 177; 226; 228; 124; 56;
  29; 15; 3; 0; 0; 0; 0; 0; 0; 0; 0; 0; 0; 0; 0; 0; 0; 0; 0; 0; 0; 0; 0; 0; 0; 0; 0; 0;
  0; 0; 0; 0; 0; 0; 0; 0; 0; 0; 0; 0; 0; 0; 0; 0; 0; 0; 0; 0; 0; 0; 0; 0; 0; 0; 0; 0;
  0; 0; 0; 0; 1; 1; 3; 3; 2; 6; 7; 6; 6; 4; 7; 6; 6; 7; 6; 6; 3; 3; 1; 1; 0; 0; 0; 0;
  0; 0; 0; 0; 0; 0; 0; 0; 0; 0; 0; 0; 0; 0; 0; 0; 0; 0; 0; 0; 0; 0; 0; 0; 0; 0; 0; 0
].

Definition volume_10 : list Z := [
  0; 0; 0; 0; 0; 0; 0; 0; 0; 0; 0; 0; 0; 0; 0; 0; 0; 0; 0; 0; 0; 0; 0; 0; 0; 0; 0; 0;
  0; 0; 0; 0; 0; 128; 128; 192; 192; 224; 224; 224; 224; 224; 224; 224; 224; 224; 224; 192; 192; 192; 128; 128; 0; 0; 0; 0;
  0; 0; 0; 0; 0; 0; 0; 0; 0; 0; 0; 0; 0; 0; 0; 0; 0; 0; 0; 0; 0; 0; 0; 0; 0; 0; 0; 0;
  0; 0; 0; 0; 0; 0; 0; 0; 0; 0; 0; 0; 0; 0; 0; 0; 0; 0; 0; 0; 0; 0; 0; 0; 0; 128; 224; 240;
  248; 252; 254; 255; 255; 255; 255; 255; 255; 255; 255; 255; 255; 255; 255; 255; 255; 255; 255; 255; 255; 255; 255; 255; 255; 254; 254; 252;
  248; 224; 192; 0; 0; 0; 0; 0; 0; 0; 0; 0; 0; 0; 0; 0; 0; 0; 0; 0; 0; 0; 0; 0; 0; 0; 0; 0;
  0; 0; 0; 0; 0; 0; 0; 0; 0; 0; 0; 0; 0; 0; 0; 0; 0; 0; 0; 0; 0; 0; 0; 248; 254; 79; 72; 73;
  1; 1; 19; 195; 255; 255; 255; 31; 31; 31; 31; 31; 15; 15; 7; 3; 3; 1; 0; 255; 255; 255; 255; 255; 227; 3; 1; 73;
  72; 68; 71; 127; 248; 0; 0; 0; 0; 0; 0; 0; 0; 0; 0; 0; 0; 0; 0; 0; 0; 0; 0; 0; 0; 0; 0; 0;
  0; 0; 0; 0; 0; 0; 0; 0; 0; 0; 0; 0; 0; 0; 0; 0; 0; 0; 0; 0; 0; 0; 0; 31; 255; 228; 32; 32;
  16; 146; 2; 67; 31; 127; 255; 248; 248; 248; 248; 248; 240; 224; 224; 192; 128; 128; 0; 255; 255; 255; 127; 63; 15; 64; 0; 146;
  18; 18; 226; 254; 63; 0; 0; 0; 0; 0; 0; 0; 0; 0; 0; 0; 0; 0; 0; 0; 0; 0; 0; 0; 0; 0; 0; 0;
  0; 0; 0; 0; 0; 0; 0; 0; 0; 0; 0; 0; 0; 0; 0; 0; 0; 0; 0; 0; 0; 0; 0; 0; 0; 3; 7; 31;
  57; 120; 108; 192; 224; 144; 0; 193; 33; 3; 3; 231; 7; 7; 231; 7; 7; 195; 3; 11; 97; 128; 136; 177; 226; 228; 124; 56;
  29; 15; 3; 0; 0; 0; 0; 0; 0; 0; 0; 0; 0; 0; 0; 0; 0; 0; 0; 0; 0; 0; 0; 0; 0; 0; 0; 0;
  0; 0; 0; 0; 0; 0; 0; 0; 0; 0; 0; 0; 0; 0; 0; 0; 0; 0; 0; 0; 0; 0; 0; 0; 0; 0; 0; 0;
  0; 0; 0; 0; 1; 1; 3; 3; 2; 6; 7; 6; 6; 4; 7; 6; 6; 7; 6; 6; 3; 3; 1; 1; 0; 0; 0; 0;
  0; 0; 0; 0; 0; 0; 0; 0; 0; 0; 0; 0; 0; 0; 0; 0; 0; 0; 0; 0; 0; 0; 0; 0; 0; 0; 0; 0
].

Definition volume_11 : list Z := [
  0; 0; 0; 0; 0; 0; 0; 0; 0; 0; 0; 0; 0; 0; 0; 0; 0; 0; 0; 0; 0; 0; 0; 0; 0; 0; 0; 0;
  0; 0; 0; 0; 0; 128; 128; 192; 192; 224; 224; 224; 224; 224; 224; 224; 224; 224; 224; 192; 192; 192; 128; 128; 0; 0; 0; 0;
  0; 0; 0; 0; 0; 0; 0; 0; 0; 0; 0; 0; 0; 0; 0; 0; 0; 0; 0; 0; 0; 0; 0; 0; 0; 0; 0; 0;
  0; 0; 0; 0; 0; 0; 0; 0; 0; 0; 0; 0; 0; 0; 0; 0; 0; 0; 0; 0; 0; 0; 0; 0; 0; 128; 224; 240;
  24; 60; 62; 127; 255; 255; 255; 255; 255; 255; 255; 255; 255; 255; 255; 255; 255; 255; 255; 255; 255; 255; 255; 255; 127; 62; 30; 28;
  184; 224; 192; 0; 0; 0; 0; 0; 0; 0; 0; 0; 0; 0; 0; 0; 0; 0; 0; 0; 0; 0; 0; 0; 0; 0; 0; 0;
  0; 0; 0; 0; 0; 0; 0; 0; 0; 0; 0; 0; 0; 0; 0; 0; 0; 0; 0; 0; 0; 0; 0; 248; 254; 79; 72; 73;
  1; 0; 18; 192; 248; 253; 255; 31; 31; 31; 31; 31; 15; 15; 7; 3; 3; 1; 0; 255; 255; 255; 254; 248; 224; 2; 1; 73;
  72; 68; 71; 127; 248; 0; 0; 0; 0; 0; 0; 0; 0; 0; 0; 0; 0; 0; 0; 0; 0; 0; 0; 0; 0; 0; 0; 0;
  0; 0; 0; 0; 0; 0; 0; 0; 0; 0; 0; 0; 0; 0; 0; 0; 0; 0; 0; 0; 0; 0; 0; 31; 255; 228; 32; 32;
  16; 146; 2; 67; 31; 127; 255; 248; 248; 248; 248; 248; 240; 224; 224; 192; 128; 128; 0; 255; 255; 255; 127; 63; 15; 64; 0; 146;
  18; 18; 226; 254; 63; 0; 0; 0; 0; 0; 0; 0; 0; 0; 0; 0; 0; 0; 0; 0; 0; 0; 0; 0; 0; 0; 0; 0;
  0; 0; 0; 0; 0; 0; 0; 0; 0; 0; 0; 0; 0; 0; 0; 0; 0; 0; 0; 0; 0; 0; 0; 0; 0; 3; 7; 31;
  57; 120; 108; 192; 224; 144; 0; 193; 33; 3; 3; 231; 7; 7; 231; 7; 7; 195; 3; 11; 97; 128; 136; 177; 226; 228; 124; 56;
  29; 15; 3; 0; 0; 0; 0; 0; 0; 0; 0; 0; 0; 0; 0; 0; 0; 0; 0; 0; 0; 0; 0; 0; 0; 0; 0; 0;
  0; 0; 0; 0; 0; 0; 0; 0; 0; 0; 0; 0; 0; 0; 0; 0; 0; 0; 0; 0; 0; 0; 0; 0; 0; 0; 0; 0;
  0; 0; 0; 0; 1; 1; 3; 3; 2; 6; 7; 6; 6; 4; 7; 6; 6; 7; 6; 6; 3; 3; 1; 1; 0; 0; 0; 0;
  0; 0; 0; 0; 0; 0; 0; 0; 0; 0; 0; 0; 0; 0; 0; 0; 0; 0; 0; 0; 0; 0; 0; 0; 0; 0; 0; 0
].

Definition volume_12 : list Z := [
  0; 0; 0; 0; 0; 0; 0; 0; 0; 0; 0; 0; 0; 0; 0; 0; 0; 0; 0; 0; 0; 0; 0; 0; 0; 0; 0; 0;
  0; 0; 0; 0; 0; 128; 128; 192; 192; 224; 224; 224; 224; 224; 224; 224; 224; 224; 224; 192; 192; 192; 128; 128; 0; 0; 0; 0;
  0; 0; 0; 0; 0; 0; 0; 0; 0; 0; 0; 0; 0; 0; 0; 0; 0; 0; 0; 0; 0; 0; 0; 0; 0; 0; 0; 0;
  0; 0; 0; 0; 0; 0; 0; 0; 0; 0; 0; 0; 0; 0; 0; 0; 0; 0; 0; 0; 0; 0; 0; 0; 0; 128; 224; 240;
  24; 60; 38; 71; 143; 31; 63; 255; 255; 255; 255; 255; 255; 255; 255; 255; 255; 255; 255; 255; 255; 63; 31; 143; 71; 38; 30; 28;
  184; 224; 192; 0; 0; 0; 0; 0; 0; 0; 0; 0; 0; 0; 0; 0; 0; 0; 0; 0; 0; 0; 0; 0; 0; 0; 0; 0;
  0; 0; 0; 0; 0; 0; 0; 0; 0; 0; 0; 0; 0; 0; 0; 0; 0; 0; 0; 0; 0; 0; 0; 248; 254; 79; 72; 73;
  1; 0; 18; 192; 248; 252; 255; 31; 31; 31; 31; 31; 15; 15; 7; 3; 3; 1; 0; 255; 255; 255; 254; 248; 224; 2; 1; 73;
  72; 68; 71; 127; 248; 0; 0; 0; 0; 0; 0; 0; 0; 0; 0; 0; 0; 0; 0; 0; 0; 0; 0; 0; 0; 0; 0; 0;
  0; 0; 0; 0; 0; 0; 0; 0; 0; 0; 0; 0; 0; 0; 0; 0; 0; 0; 0; 0; 0; 0; 0; 31; 255; 228; 32; 32;
  16; 146; 2; 67; 31; 127; 255; 248; 248; 248; 248; 248; 240; 224; 224; 192; 128; 128; 0; 255; 255; 255; 127; 63; 15; 64; 0; 146;
  18; 18; 226; 254; 63; 0; 0; 0; 0; 0; 0; 0; 0; 0; 0; 0; 0; 0; 0; 0; 0; 0; 0; 0; 0; 0; 0; 0;
  0; 0; 0; 0; 0; 0; 0; 0; 0; 0; 0; 0; 0; 0; 0; 0; 0; 0; 0; 0; 0; 0; 0; 0; 0; 3; 7; 31;
  57; 120; 108; 192; 224; 144; 0; 193; 33; 3; 3; 231; 7; 7; 231; 7; 7; 195; 3; 11; 97; 128; 136; 177; 226; 228; 124; 56;
  29; 15; 3; 0; 0; 0; 0; 0; 0; 0; 0; 0; 0; 0; 0; 0; 0; 0; 0; 0; 0; 0; 0; 0; 0; 0; 0; 0;
  0; 0; 0; 0; 0; 0; 0; 0; 0; 0; 0; 0; 0; 0; 0; 0; 0; 0; 0; 0; 0; 0; 0; 0; 0; 0; 0; 0;
  0; 0; 0; 0; 1; 1; 3; 3; 2; 6; 7; 6; 6; 4; 7; 6; 6; 7; 6; 6; 3; 3; 1; 1; 0; 0; 0; 0;
  0; 0; 0; 0; 0; 0; 0; 0; 0; 0; 0; 0; 0; 0; 0; 0; 0; 0; 0; 0; 0; 0; 0; 0; 0; 0; 0; 0
].

Definition volume_13 : list Z := [
  0; 0; 0; 0; 0; 0; 0; 0; 0; 0; 0; 0; 0; 0; 0; 0; 0; 0; 0; 0; 0; 0; 0; 0; 0; 0; 0; 0;
  0; 0; 0; 0; 128; 128; 192; 192; 192; 224; 224; 224; 224; 224; 224; 224; 224; 224; 224; 192; 192; 192; 128; 128; 0; 0; 0; 0;
  0; 0; 0; 0; 0; 0; 0; 0; 0; 0; 0; 0; 0; 0; 0; 0; 0; 0; 0; 0; 0; 0; 0; 0; 0; 0; 0; 0;
  0; 0; 0; 0; 0; 0; 0; 0; 0; 0; 0; 0; 0; 0; 0; 0; 0; 0; 0; 0; 0; 0; 0; 0; 0; 192; 224; 184;
  28; 62; 102; 71; 13; 17; 1; 135; 143; 255; 255; 255; 255; 255; 255; 255; 255; 255; 223; 143; 131; 32; 9; 135; 67; 38; 30; 156;
  184; 224; 192; 0; 0; 0; 0; 0; 0; 0; 0; 0; 0; 0; 0; 0; 0; 0; 0; 0; 0; 0; 0; 0; 0; 0; 0; 0;
  0; 0; 0; 0; 0; 0; 0; 0; 0; 0; 0; 0; 0; 0; 0; 0; 0; 0; 0; 0; 0; 0; 0; 248; 255; 79; 72; 73;
  73; 0; 18; 224; 248; 254; 255; 31; 31; 31; 31; 31; 15; 7; 7; 3; 1; 1; 1; 255; 255; 255; 254; 248; 224; 0; 73; 73;
  72; 68; 103; 255; 248; 0; 0; 0; 0; 0; 0; 0; 0; 0; 0; 0; 0; 0; 0; 0; 0; 0; 0; 0; 0; 0; 0; 0;
  0; 0; 0; 0; 0; 0; 0; 0; 0; 0; 0; 0; 0; 0; 0; 0; 0; 0; 0; 0; 0; 0; 0; 31; 255; 230; 34; 2;
  146; 146; 0; 7; 31; 127; 255; 248; 248; 248; 248; 248; 240; 224; 224; 192; 128; 128; 128; 255; 255; 255; 127; 31; 7; 72; 0; 146;
  146; 18; 242; 255; 31; 0; 0; 0; 0; 0; 0; 0; 0; 0; 0; 0; 0; 0; 0; 0; 0; 0; 0; 0; 0; 0; 0; 0;
  0; 0; 0; 0; 0; 0; 0; 0; 0; 0; 0; 0; 0; 0; 0; 0; 0; 0; 0; 0; 0; 0; 0; 0; 0; 3; 7; 29;
  57; 120; 100; 194; 160; 144; 4; 193; 49; 3; 131; 55; 7; 7; 231; 7; 7; 195; 3; 17; 225; 128; 136; 176; 226; 102; 124; 56;
  29; 7; 3; 0; 0; 0; 0; 0; 0; 0; 0; 0; 0; 0; 0; 0; 0; 0; 0; 0; 0; 0; 0; 0; 0; 0; 0; 0;
  0; 0; 0; 0; 0; 0; 0; 0; 0; 0; 0; 0; 0; 0; 0; 0; 0; 0; 0; 0; 0; 0; 0; 0; 0; 0; 0; 0;
  0; 0; 0; 0; 1; 1; 3; 3; 3; 6; 7; 6; 6; 6; 7; 6; 6; 7; 6; 3; 3; 3; 1; 1; 0; 0; 0; 0;
  0; 0; 0; 0; 0; 0; 0; 0; 0; 0; 0; 0; 0; 0; 0; 0; 0; 0; 0; 0; 0; 0; 0; 0; 0; 0; 0; 0
].

Definition volume_14 : list Z := [
  0; 0; 0; 0; 0; 0; 0; 0; 0; 0; 0; 0; 0; 0; 0; 0; 0; 0; 0; 0; 0; 0; 0; 0; 0; 0; 0; 0;
  0; 0; 0; 0; 128; 128; 192; 192; 192; 96; 224; 224; 224; 224; 224; 224; 224; 224; 96; 192; 192; 192; 128; 128; 0; 0; 0; 0;
  0; 0; 0; 0; 0; 0; 0; 0; 0; 0; 0; 0; 0; 0; 0; 0; 0; 0; 0; 0; 0; 0; 0; 0; 0; 0; 0; 0;
  0; 0; 0; 0; 0; 0; 0; 0; 0; 0; 0; 0; 0; 0; 0; 0; 0; 0; 0; 0; 0; 0; 0; 0; 0; 192; 224; 184;
  28; 62; 102; 71; 13; 17; 1; 135; 136; 192; 195; 255; 255; 255; 255; 255; 239; 193; 192; 140; 131; 32; 9; 135; 67; 38; 30; 156;
  184; 224; 192; 0; 0; 0; 0; 0; 0; 0; 0; 0; 0; 0; 0; 0; 0; 0; 0; 0; 0; 0; 0; 0; 0; 0; 0; 0;
  0; 0; 0; 0; 0; 0; 0; 0; 0; 0; 0; 0; 0; 0; 0; 0; 0; 0; 0; 0; 0; 0; 0; 248; 255; 79; 72; 73;
  73; 0; 18; 224; 248; 254; 255; 31; 31; 31; 31; 31; 15; 7; 7; 3; 1; 1; 1; 255; 255; 255; 254; 248; 224; 0; 73; 73;
  72; 68; 103; 255; 248; 0; 0; 0; 0; 0; 0; 0; 0; 0; 0; 0; 0; 0; 0; 0; 0; 0; 0; 0; 0; 0; 0; 0;
  0; 0; 0; 0; 0; 0; 0; 0; 0; 0; 0; 0; 0; 0; 0; 0; 0; 0; 0; 0; 0; 0; 0; 31; 255; 230; 34; 2;
  146; 146; 0; 7; 31; 127; 255; 248; 248; 248; 248; 248; 240; 224; 224; 192; 128; 128; 128; 255; 255; 255; 127; 31; 7; 72; 0; 146;
  146; 18; 242; 255; 31; 0; 0; 0; 0; 0; 0; 0; 0; 0; 0; 0; 0; 0; 0; 0; 0; 0; 0; 0; 0; 0; 0; 0;
  0; 0; 0; 0; 0; 0; 0; 0; 0; 0; 0; 0; 0; 0; 0; 0; 0; 0; 0; 0; 0; 0; 0; 0; 0; 3; 7; 29;
  57; 120; 100; 194; 160; 144; 4; 193; 49; 3; 131; 55; 7; 7; 231; 7; 7; 195; 3; 17; 225; 128; 136; 176; 226; 102; 124; 56;
  29; 7; 3; 0; 0; 0; 0; 0; 0; 0; 0; 0; 0; 0; 0; 0; 0; 0; 0; 0; 0; 0; 0; 0; 0; 0; 0; 0;
  0; 0; 0; 0; 0; 0; 0; 0; 0; 0; 0; 0; 0; 0; 0; 0; 0; 0; 0; 0; 0; 0; 0; 0; 0; 0; 0; 0;
  0; 0; 0; 0; 1; 1; 3; 3; 3; 6; 7; 6; 6; 6; 7; 6; 6; 7; 6; 3; 3; 3; 1; 1; 0; 0; 0; 0;
  0; 0; 0; 0; 0; 0; 0; 0; 0; 0; 0; 0; 0; 0; 0; 0; 0; 0; 0; 0; 0; 0; 0; 0; 0; 0; 0; 0
].

Definition volume_15 : list Z := [
  0; 0; 0; 0; 0; 0; 0; 0; 0; 0; 0; 0; 0; 0; 0; 0; 0; 0; 0; 0; 0; 0; 0; 0; 0; 0; 0; 0;
  0; 0; 0; 0; 128; 128; 192; 192; 192; 96; 224; 96; 96; 224; 96; 96; 96; 224; 96; 192; 192; 192; 128; 128; 0; 0; 0; 0;
  0; 0; 0; 0; 0; 0; 0; 0; 0; 0; 0; 0; 0; 0; 0; 0; 0; 0; 0; 0; 0; 0; 0; 0; 0; 0; 0; 0;
  0; 0; 0; 0; 0; 0; 0; 0; 0; 0; 0; 0; 0; 0; 0; 0; 0; 0; 0; 0; 0; 0; 0; 0; 0; 192; 224; 184;
  28; 62; 102; 71; 13; 17; 1; 135; 136; 192; 195; 224; 224; 231; 224; 224; 236; 193; 192; 140; 131; 32; 9; 135; 67; 38; 30; 156;
  184; 224; 192; 0; 0; 0; 0; 0; 0; 0; 0; 0; 0; 0; 0; 0; 0; 0; 0; 0; 0; 0; 0; 0; 0; 0; 0; 0;
  0; 0; 0; 0; 0; 0; 0; 0; 0; 0; 0; 0; 0; 0; 0; 0; 0; 0; 0; 0; 0; 0; 0; 248; 255; 79; 72; 73;
  73; 0; 18; 224; 248; 254; 255; 31; 31; 31; 31; 31; 15; 7; 7; 3; 1; 1; 1; 255; 255; 255; 254; 248; 224; 0; 73; 73;
  72; 68; 103; 255; 248; 0; 0; 0; 0; 0; 0; 0; 0; 0; 0; 0; 0; 0; 0; 0; 0; 0; 0; 0; 0; 0; 0; 0;
  0; 0; 0; 0; 0; 0; 0; 0; 0; 0; 0; 0; 0; 0; 0; 0; 0; 0; 0; 0; 0; 0; 0; 31; 255; 230; 34; 2;
  146; 146; 0; 7; 31; 127; 255; 248; 248; 248; 248; 248; 240; 224; 224; 192; 128; 128; 128; 255; 255; 255; 127; 31; 7; 72; 0; 146;
  146; 18; 242; 255; 31; 0; 0; 0; 0; 0; 0; 0; 0; 0; 0; 0; 0; 0; 0; 0; 0; 0; 0; 0; 0; 0; 0; 0;
  0; 0; 0; 0; 0; 0; 0; 0; 0; 0; 0; 0; 0; 0; 0; 0; 0; 0; 0; 0; 0; 0; 0; 0; 0; 3; 7; 29;
  57; 120; 100; 194; 160; 144; 4; 193; 49; 3; 131; 55; 7; 7; 231; 7; 7; 195; 3; 17; 225; 128; 136; 176; 226; 102; 124; 56;
  29; 7; 3; 0; 0; 0; 0; 0; 0; 0; 0; 0; 0; 0; 0; 0; 0; 0; 0; 0; 0; 0; 0; 0; 0; 0; 0; 0;
  0; 0; 0; 0; 0; 0; 0; 0; 0; 0; 0; 0; 0; 0; 0; 0; 0; 0; 0; 0; 0; 0; 0; 0; 0; 0; 0; 0;
  0; 0; 0; 0; 1; 1; 3; 3; 3; 6; 7; 6; 6; 6; 7; 6; 6; 7; 6; 3; 3; 3; 1; 1; 0; 0; 0; 0;
  0; 0; 0; 0; 0; 0; 0; 0; 0; 0; 0; 0; 0; 0; 0; 0; 0; 0; 0; 0; 0; 0; 0; 0; 0; 0; 0; 0
].

Definition wellcome : list Z := [
  0; 0; 0; 0; 0; 0; 0; 0; 0; 0; 0; 0; 0; 0; 128; 128; 128; 192; 192; 192; 192; 192; 192; 192; 192; 128; 128; 128;
  0; 0; 0; 0; 0; 0; 0; 0; 0; 0; 0; 0; 0; 0; 0; 0; 0; 0; 0; 0; 0; 0; 0; 0; 0; 0; 0; 0;
  0; 0; 0; 0; 0; 0; 0; 0; 0; 0; 0; 0; 0; 0; 0; 0; 0; 0; 0; 0; 0; 0; 0; 0; 0; 0; 0; 0;
  0; 0; 0; 0; 0; 128; 224; 240; 248; 252; 254; 254; 255; 15; 15; 15; 15; 15; 31; 31; 31; 63; 63; 31; 63; 31; 15; 3;
  1; 0; 0; 0; 128; 224; 224; 128; 0; 0; 0; 0; 0; 0; 0; 0; 0; 0; 0; 0; 0; 0; 0; 0; 0; 0; 0; 0;
  0; 0; 0; 0; 0; 0; 0; 0; 0; 0; 0; 0; 0; 0; 0; 0; 0; 0; 0; 0; 0; 0; 0; 0; 0; 0; 0; 0;
  0; 0; 0; 224; 254; 255; 255; 255; 255; 255; 255; 255; 255; 255; 254; 252; 248; 8; 0; 0; 0; 0; 0; 0; 128; 192; 32; 192;
  128; 0; 0; 0; 1; 129; 199; 255; 254; 240; 0; 0; 0; 0; 0; 0; 0; 0; 0; 0; 0; 0; 0; 0; 0; 0; 0; 0;
  0; 0; 0; 0; 0; 0; 0; 0; 0; 0; 0; 0; 0; 0; 0; 0; 0; 0; 0; 0; 0; 0; 0; 0; 0; 0; 0; 0;
  0; 0; 0; 3; 63; 255; 255; 255; 255; 255; 255; 255; 255; 255; 255; 255; 255; 255; 254; 252; 252; 252; 252; 254; 255; 255; 255; 255;
  255; 255; 255; 255; 255; 255; 255; 255; 63; 7; 0; 0; 0; 0; 0; 0; 0; 0; 0; 0; 0; 0; 0; 0; 0; 0; 0; 0;
  0; 0; 0; 0; 0; 0; 0; 0; 0; 0; 0; 0; 0; 0; 0; 0; 0; 0; 0; 0; 0; 0; 0; 0; 0; 0; 0; 0;
  0; 0; 0; 0; 0; 0; 1; 7; 15; 31; 31; 63; 127; 127; 127; 255; 255; 255; 255; 255; 255; 255; 255; 255; 255; 255; 255; 127;
  127; 63; 31; 31; 15; 7; 3; 0; 0; 0; 0; 0; 0; 0; 0; 0; 0; 0; 0; 0; 0; 0; 0; 0; 0; 0; 0; 0;
  0; 0; 0; 0; 0; 0; 0; 0; 0; 0; 0; 0; 0; 0; 0; 0; 0; 0; 0; 0; 0; 0; 0; 0; 0; 0; 0; 0;
  0; 0; 0; 0; 0; 0; 0; 0; 0; 0; 0; 0; 0; 0; 0; 0; 0; 1; 1; 1; 1; 1; 1; 1; 1; 0; 0; 0;
  0; 0; 0; 0; 0; 0; 0; 0; 0; 0; 0; 0; 0; 0; 0; 0; 0; 0; 0; 0; 0; 0; 0; 0; 0; 0; 0; 0;
  0; 0; 0; 0; 0; 0; 0; 0; 0; 0; 0; 0; 0; 0; 0; 0; 0; 0; 0; 0; 0; 0; 0; 0; 0; 0; 0; 0
].
End Gfx.
