(* ===== verification/Pcd8544.v ===== *)
(** * stm32/lcd.c: the display of the board

    A frame buffer with a box around what has changed, and its transfer to the display
    controller byte by byte over SPI. *)

From S2P Require Import Prelude Libc Snd IoBuffer State Board Stm32Timer Gfx.

Definition PCD8544_WIDTH : Z := 84.
Definition PCD8544_HEIGHT : Z := 48.
Definition PCD8544_BYTES : Z := PCD8544_WIDTH * PCD8544_HEIGHT / 8.

(** [pcd]; the members are [unsigned char]. *)
Record pcd_t : Type := Pcd {
  pcd_data : list Z;
  min_x : Z; min_y : Z; max_x : Z; max_y : Z
}.
Definition pcd_zero : pcd_t := Pcd (repeat 0 (Z.to_nat PCD8544_BYTES)) 0 0 0 0.

(** General commands, and those of the normal and the extended instruction set *)
Definition PCD8544_EXTENDEDINSTRUCTION : Z := 1.
Definition PCD8544_DISPLAYNORMAL : Z := 4.
Definition PCD8544_DISPLAYINVERTED : Z := 5.
Definition PCD8544_FUNCTIONSET : Z := 32.
Definition PCD8544_DISPLAYCONTROL : Z := 8.
Definition PCD8544_SETYADDR : Z := 64.
Definition PCD8544_SETXADDR : Z := 128.
Definition PCD8544_SETBIAS : Z := 16.
Definition PCD8544_SETVOP : Z := 128.

Inductive pcd8544_mode : Type := PCD_DATA | PCD_COMMAND.

Module Lcd.
Section Driver.
Context {W : Type} `{B : Board W} `{T : Target} `{C : Config}.
Abbreviation ML := (M (pcd_t * W)).

(** The pins and the SPI of the display; [SPI_StructInit] leaves the polynomial 7. *)
Definition pcd8544_init_calls : list hw :=
  let pins p mode := GpioInit p mode GPIO_OType_PP GPIO_Speed_100MHz GPIO_PuPd_NOPULL in
  [ RCC_AHB1PeriphClockCmd 2; RCC_AHB1PeriphClockCmd 4; RCC_APB2PeriphClockCmd 4096;
    GPIO_Init GPIOC (pins (Z.lor (Z.lor PIN_RST PIN_DC) PIN_CE) GPIO_Mode_OUT);
    GPIO_Init GPIOB (pins (Z.lor (Z.lor (GPIO_Pin 3) (GPIO_Pin 4)) (GPIO_Pin 5)) GPIO_Mode_AF);
    GPIO_SetBits GPIOC PIN_RST; GPIO_SetBits GPIOC PIN_CE;
    GPIO_PinAFConfig GPIOB 3 5; GPIO_PinAFConfig GPIOB 4 5; GPIO_PinAFConfig GPIOB 5 5;
    SPI_Init (SpiInit 0 260 0 0 0 512 32 0 7); SPI_Cmd ].

Definition pcd8544_init_hw : ML unit := calls pcd8544_init_calls.

Definition pcd8544_setmode (mode : pcd8544_mode) : ML unit :=
  match mode with
  | PCD_DATA => calls [GPIO_SetBits GPIOC PIN_DC]
  | PCD_COMMAND => calls [GPIO_ResetBits GPIOC PIN_DC]
  end.

Definition pcd8544_write (data : Z) : ML unit :=
  calls [GPIO_ResetBits GPIOC PIN_CE] ;;
  put_reg SPI1_DR data ;;
  wait_flag SPI1_FLAG_TXE true ;;
  wait_flag SPI1_FLAG_RXNE true ;;
  wait_flag SPI1_FLAG_BSY false ;;
  calls [GPIO_SetBits GPIOC PIN_CE].

Definition pcd8544_setcontrast (contrast : Z) : ML unit :=
  pcd8544_write (Z.lor PCD8544_SETVOP (if contrast >? 127 then 127 else contrast)).

Definition pcd8544_invert (val : Z) : ML unit :=
  if negb (val =? 0) then pcd8544_write (Z.lor PCD8544_DISPLAYCONTROL PCD8544_DISPLAYINVERTED)
  else pcd8544_write (Z.lor PCD8544_DISPLAYCONTROL PCD8544_DISPLAYNORMAL).

(** The second test stores into [min_x], as the source does. *)
Definition updatebox (new_min_x new_min_y new_max_x new_max_y : Z) (p : pcd_t) : pcd_t :=
  let x := if new_min_x <? min_x p then new_min_x else min_x p in
  let x := if new_min_y <? min_y p then new_min_y else x in
  Pcd (pcd_data p) x (min_y p)
    (if new_max_x >? max_x p then new_max_x else max_x p)
    (if new_max_y >? max_y p then new_max_y else max_y p).
Definition pcd8544_updatebox (x0 y0 x1 y1 : Z) : ML unit := upd_x (updatebox x0 y0 x1 y1).

Definition pcd8544_putpixel_lazy (x y color : Z) : ML unit :=
  if x >=? PCD8544_WIDTH then ret tt
  else if y >=? PCD8544_HEIGHT then ret tt
  else
    let i := x + y / 8 * PCD8544_WIDTH in
    let* p := get_x id in
    let* b := lift (zget (pcd_data p) i) in
    let b := if negb (color =? 0) then Z.lor b (Z.shiftl 1 (y mod 8)) else Z.ldiff b (Z.shiftl 1 (y mod 8)) in
    let* data := lift (zset (pcd_data p) i (u8 b)) in
    upd_x (fun p => Pcd data (min_x p) (min_y p) (max_x p) (max_y p)).

Definition pcd8544_putpixel (x y color : Z) : ML unit :=
  if x >=? PCD8544_WIDTH then ret tt
  else if y >=? PCD8544_HEIGHT then ret tt
  else pcd8544_putpixel_lazy x y color ;; pcd8544_updatebox x y x y.

(** [for (j = pcd.min_x; j <= pcd.max_x; j++)] with an [unsigned char]. *)
Fixpoint update_row (fuel : nat) (i j : Z) : ML unit :=
  match fuel with
  | O => nofuel
  | S fuel' =>
      let* p := get_x id in
      if j <=? max_x p then
        let* b := lift (zget (pcd_data p) (i * PCD8544_WIDTH + j)) in
        pcd8544_write b ;;
        update_row fuel' i (u8 (j + 1))
      else ret tt
  end.

(** The rows from [i] on, [n] of them. *)
Fixpoint update_rows (n : nat) (i : Z) : ML unit :=
  match n with
  | O => ret tt
  | S n' =>
      let* p := get_x id in
      if min_y p >? (i + 1) * 8 then update_rows n' (i + 1)
      else if i * 8 >? max_y p then ret tt
      else
        pcd8544_setmode PCD_COMMAND ;;
        pcd8544_write (Z.lor PCD8544_SETYADDR i) ;;
        pcd8544_write (u8 (Z.lor PCD8544_SETXADDR (min_x p))) ;;
        pcd8544_setmode PCD_DATA ;;
        update_row 257 i (min_x p) ;;
        update_rows n' (i + 1)
  end.

Definition pcd8544_update : ML unit :=
  update_rows 6 0 ;;
  pcd8544_updatebox 0 0 (PCD8544_WIDTH - 1) (PCD8544_HEIGHT - 1).

Definition pcd8544_clean : ML unit := upd_x (fun _ => pcd_zero) ;; pcd8544_update.

(** [uc_memcpy(pcd.data, data, sizeof(pcd.data))] *)
Definition pcd8544_draw_resource (data : list Z) : ML unit :=
  if zlen data <? PCD8544_BYTES then fault
  else upd_x (fun p => Pcd (take (Z.to_nat PCD8544_BYTES) data) (min_x p) (min_y p) (max_x p) (max_y p)).

(** Starting up waits with the clock of timer.c. *)
Abbreviation MT := (M ((pcd_t * tim_t) * W)).
Definition on_pcd {A} : ML A -> MT A := zoom (fun s => (s.1.1, s.2)) (fun x s => ((x.1, s.1.2), x.2)).
Definition on_tim {A} : M (tim_t * W) A -> MT A := zoom (fun s => (s.1.2, s.2)) (fun x s => ((s.1.1, x.1), x.2)).

Definition pcd8544_reset : MT unit :=
  calls [GPIO_ResetBits GPIOC PIN_RST] ;;
  on_tim (Delay 100) ;;
  calls [GPIO_SetBits GPIOC PIN_RST].

Definition pcd8544_init (contrast : Z) : MT unit :=
  on_pcd pcd8544_init_hw ;;
  pcd8544_reset ;;
  on_pcd (
    pcd8544_setmode PCD_COMMAND ;;
    pcd8544_write (Z.lor PCD8544_FUNCTIONSET PCD8544_EXTENDEDINSTRUCTION) ;;
    pcd8544_write (Z.lor PCD8544_SETBIAS 4) ;;
    pcd8544_setcontrast contrast ;;
    pcd8544_write PCD8544_FUNCTIONSET ;;
    pcd8544_write (Z.lor PCD8544_DISPLAYCONTROL PCD8544_DISPLAYNORMAL) ;;
    pcd8544_clean).

(** ** The functions of platform.h *)

Definition host_lcd_init : MT unit := pcd8544_init 56 ;; on_pcd pcd8544_update.

Definition host_lcd_done : ML unit := ret tt.

Definition host_lcd_putpixel (x y color : Z) : ML unit :=
  when ((x <? PCD8544_WIDTH) && (y <? PCD8544_HEIGHT))
    (pcd8544_putpixel_lazy x y (if color =? 0 then 0 else 1)).

Definition host_lcd_update_screen : ML unit := pcd8544_update.

Definition host_lcd_clean_screen : ML unit := upd_x (fun _ => pcd_zero).

Definition host_lcd_get_cfg : ML lcd_cfg_s := ret (LcdCfg PCD8544_WIDTH PCD8544_HEIGHT 1).

(** The picture of every resource from [LR_STARTUP] on; [LR_BLANK] and numbers that are
    not of the enumeration draw nothing. *)
Definition lcd_images : list (list Z) := [
  Gfx.startup; Gfx.wellcome; Gfx.error; Gfx.error_init; Gfx.error_net; Gfx.error_fs;
  Gfx.error_sound; Gfx.error_libmad; Gfx.radio; Gfx.file; Gfx.play; Gfx.stop;
  Gfx.volume_00; Gfx.volume_01; Gfx.volume_02; Gfx.volume_03; Gfx.volume_04; Gfx.volume_05;
  Gfx.volume_06; Gfx.volume_07; Gfx.volume_08; Gfx.volume_09; Gfx.volume_10; Gfx.volume_11;
  Gfx.volume_12; Gfx.volume_13; Gfx.volume_14; Gfx.volume_15 ].

Definition lcd_debug (fmt : list Z) (args : list arg) : ML unit := when CONFIG_LCD_DEBUG (xprintf fmt args).

Definition host_lcd_draw (resource : Z) : ML unit :=
  lcd_debug &"host_lcd_draw (resource = %d)\n" [AInt resource] ;;
  pcd8544_clean ;;
  match zget lcd_images (resource - LR_STARTUP) with
  | Some image => pcd8544_draw_resource image
  | None => ret tt
  end ;;
  pcd8544_update.
End Driver.
End Lcd.
