(* ===== verification/Pcd8544Props.v ===== *)
(** * The display of the board shows what was drawn

    The driver of stm32/lcd.c against the display controller of [Board]. *)

From S2P Require Import Prelude Libc Snd IoBuffer State Board Stm32Timer Gfx Pcd8544.

(** The first [k] bytes are those of [l], the others those of [m]. *)
Definition upto (k : Z) (l m : list Z) : list Z := take (Z.to_nat k) l ++ drop (Z.to_nat k) m.

Lemma upto_set k l m b : zget l k = Some b -> length l = length m ->
  zset (upto k l m) k b = Some (upto (k + 1) l m).
Proof.
  intros Hb Hl. pose proof (zget_range _ _ _ Hb) as Hk. unfold upto, zset, zlen in *.
  rewrite length_app, length_take, length_drop. replace (Z.to_nat (k + 1)) with (S (Z.to_nat k)) by lia.
  destruct (Z.leb_spec 0 k); [|lia]. destruct (Z.ltb_spec k (Z.of_nat (Init.Nat.min (Z.to_nat k) (length l) + (length m - Z.to_nat k)))); [|lia].
  cbn [andb]. f_equal. unfold zget in Hb. destruct (k <? 0); [done|].
  rewrite insert_app_r_alt by (rewrite length_take; lia). rewrite length_take.
  replace (Z.to_nat k - Init.Nat.min (Z.to_nat k) (length l))%nat with O by lia.
  rewrite (take_S_r _ _ b) by done. rewrite <- app_assoc. f_equal.
  destruct (drop (Z.to_nat k) m) as [|c t] eqn:Hd; [apply (f_equal length) in Hd; rewrite length_drop in Hd; cbn in Hd; lia|].
  cbn. f_equal. replace (S (Z.to_nat k)) with (Z.to_nat k + 1)%nat by lia. by rewrite <- drop_drop, Hd.
Qed.

Lemma upto_0 l m : upto 0 l m = m.
Proof. done. Qed.

Lemma upto_all l m : length l = length m -> upto (zlen l) l m = l.
Proof. intros Hl. unfold upto, zlen. rewrite Nat2Z.id, take_ge, drop_ge by lia. apply app_nil_r. Qed.

Lemma upto_length k l m : length l = length m -> length (upto k l m) = length m.
Proof. intros Hl. unfold upto. rewrite length_app, length_take, length_drop. lia. Qed.

Section Panel.
Context {W : Type} `{B : Board W} `{L : !BoardLaws W B} `{T : Target} `{C : Config}.
Implicit Types (w : W) (p : pcd_t).

Lemma panel_pins_CE v q : panel_pins PIN_CE v q = Panel v (p_dc q) (p_ext q) (p_x q) (p_y q) (p_ram q).
Proof. by destruct q, v. Qed.

(** One call of the peripheral library. *)
Lemma wp_calls1 {X} c (x : X) w (Q : unit -> X * W -> Prop) :
  (forall w', panel w' = panel_hw c (panel w) -> Q tt (x, w')) -> wp (calls [c]) Q (x, w).
Proof. intros HQ. apply wp_hw_do. cbn [fst snd fold_left]. apply HQ, law_panel_hw. Qed.

Lemma wp_wait_panel {X} f v (x : X) w (Q : unit -> X * W -> Prop) : awaited_flag f = Some v ->
  (forall w', panel w' = panel w -> Q tt (x, w')) -> wp (wait_flag f v) Q (x, w).
Proof.
  intros Hv HQ. apply (wp_wait_flag f v (fun w1 => panel w1 = panel w)); [done| |reflexivity|exact HQ].
  intros w1 H1. by rewrite law_panel_flag.
Qed.

(** A byte reaches the controller, which is left disabled. *)
Lemma wp_write b x w (Q : unit -> pcd_t * W -> Prop) ce dc ext px py ram :
  panel w = Panel ce dc ext px py ram ->
  (forall w', panel w' = (if dc then panel_data else panel_command) b (Panel true dc ext px py ram) -> Q tt (x, w')) ->
  wp (Lcd.pcd8544_write b) Q (x, w).
Proof.
  intros Hp HQ. unfold Lcd.pcd8544_write. apply wp_bind, wp_calls1. intros w1 H1. rewrite Hp in H1.
  apply wp_bind, wp_hw_do. cbn [fst snd]. apply wp_bind, wp_wait_panel; [done|]. intros w2 H2. rewrite law_panel_set, H1 in H2.
  apply wp_bind, wp_wait_panel; [done|]. intros w3 H3. apply wp_bind, wp_wait_panel; [done|]. intros w4 H4. apply wp_calls1. intros w5 H5.
  apply HQ. rewrite H5, H4, H3, H2. destruct dc.
  - done.
  - unfold panel_hw, panel_reg, panel_byte. rewrite !panel_pins_CE. cbn [p_ce p_dc]. unfold panel_command.
    cbn [p_ce p_dc p_ext p_x p_y p_ram]. destruct (Z.land b 248 =? 32), ext, (Z.land b 128 =? 128), (Z.land b 192 =? 64); done.
Qed.

Lemma wp_setmode mode x w (Q : unit -> pcd_t * W -> Prop) ce dc ext px py ram :
  panel w = Panel ce dc ext px py ram ->
  (forall w', panel w' = Panel ce (match mode with PCD_DATA => true | PCD_COMMAND => false end) ext px py ram -> Q tt (x, w')) ->
  wp (Lcd.pcd8544_setmode mode) Q (x, w).
Proof. intros Hp HQ. destruct mode; apply wp_calls1; intros w' Hw'; apply HQ; by rewrite Hw', Hp. Qed.

Lemma panel_set_y i dc x y ram : 0 <= i < 6 ->
  panel_command (Z.lor PCD8544_SETYADDR i) (Panel true dc false x y ram) = Panel true dc false x i ram.
Proof. intros Hi. assert (H6 : In i [0; 1; 2; 3; 4; 5]) by (cbn; lia). cbn in H6. by destruct_or! H6; subst i. Qed.

(** What the controller holds: the first [k] bytes are new. *)
Definition shown (k : Z) (data ram0 : list Z) (w : W) : Prop :=
  exists ce dc x y, panel w = Panel ce dc false x y (upto k data ram0).

(** A row from column [j] on, up to the right edge of the box. *)
Lemma wp_update_row q ram0 i : zlen (pcd_data q) = PCD8544_BYTES -> length (pcd_data q) = length ram0 ->
  0 <= i < 6 -> max_x q < PCD8544_WIDTH ->
  forall fuel j w ce px py (Q : unit -> pcd_t * W -> Prop), 0 <= j <= max_x q + 1 -> max_x q + 1 - j < Z.of_nat fuel ->
  panel w = Panel ce true false px py (upto (i * PCD8544_WIDTH + j) (pcd_data q) ram0) ->
  (j <= max_x q -> px = j /\ py = i) ->
  (forall w', shown (i * PCD8544_WIDTH + max_x q + 1) (pcd_data q) ram0 w' -> Q tt (q, w')) ->
  wp (Lcd.update_row fuel i j) Q (q, w).
Proof.
  intros Hz Hl Hi Hmax. assert (HB : PCD8544_BYTES = 504) by done. unfold PCD8544_WIDTH in *.
  induction fuel as [|fuel IH]; intros j w ce px py Q Hj Hf Hp Hpos HQ; [lia|].
  cbn [Lcd.update_row]. apply wp_bind, wp_get_x. cbn [fst id]. unfold PCD8544_WIDTH. destruct (Z.leb_spec j (max_x q)) as [Hle|Hgt].
  - destruct (Hpos Hle) as [-> ->]. destruct (zget_some (pcd_data q) (i * 84 + j)) as [b Hb]; [lia|].
    apply wp_bind. eapply wp_lift; [exact Hb|]. apply wp_bind. eapply wp_write; [exact Hp|]. cbn beta iota.
    intros w' Hw'. unfold panel_data in Hw'. cbn [p_x p_y p_ram p_ce p_dc p_ext] in Hw'. unfold PANEL_X in Hw'.
    rewrite (upto_set _ _ _ _ Hb Hl) in Hw'. cbn [default] in Hw'. rewrite u8_id by lia.
    eapply (IH (j + 1)); [lia|lia|rewrite Hw', Z.add_assoc; reflexivity| |done].
    intros Hj'. destruct (Z.eqb_spec (j + 1) 84); [lia|]. done.
  - apply wp_ret, HQ. exists ce, true, px, py. rewrite Hp. do 2 f_equal. lia.
Qed.

(** All rows, when the box is the whole screen. *)
Lemma wp_update_rows q ram0 : zlen (pcd_data q) = PCD8544_BYTES -> length (pcd_data q) = length ram0 ->
  min_x q = 0 -> min_y q = 0 -> max_x q = PCD8544_WIDTH - 1 -> PCD8544_HEIGHT - 8 <= max_y q ->
  forall n i w (Q : unit -> pcd_t * W -> Prop), 0 <= i -> i + Z.of_nat n = 6 ->
  shown (i * PCD8544_WIDTH) (pcd_data q) ram0 w ->
  (forall w', shown PCD8544_BYTES (pcd_data q) ram0 w' -> Q tt (q, w')) ->
  wp (Lcd.update_rows n i) Q (q, w).
Proof.
  intros Hz Hl Hx0 Hy0 Hx1 Hy1. assert (HB : PCD8544_BYTES = 504) by done. unfold PCD8544_WIDTH, PCD8544_HEIGHT in *.
  induction n as [|n IH]; intros i w Q Hi Hn (ce & dc & px & py & Hp) HQ; cbn [Lcd.update_rows].
  { apply wp_ret, HQ. exists ce, dc, px, py. rewrite Hp. do 2 f_equal. lia. }
  apply wp_bind, wp_get_x. cbn [fst id]. rewrite Hy0. destruct (Z.gtb_spec 0 ((i + 1) * 8)); [lia|].
  destruct (Z.gtb_spec (i * 8) (max_y q)); [lia|]. rewrite Hx0.
  apply wp_bind. eapply wp_setmode; [exact Hp|]. intros w1 H1. apply wp_bind. eapply wp_write; [exact H1|]. cbn beta iota. intros w2 H2.
  rewrite panel_set_y in H2 by lia. apply wp_bind. eapply wp_write; [exact H2|]. cbn beta iota. intros w3 H3.
  change (panel w3 = Panel true false false 0 i (upto (i * 84) (pcd_data q) ram0)) in H3.
  apply wp_bind. eapply wp_setmode; [exact H3|]. intros w4 H4. apply wp_bind.
  eapply (wp_update_row q ram0 i); [done|done|lia|unfold PCD8544_WIDTH; lia|lia|lia| unfold PCD8544_WIDTH; rewrite Z.add_0_r; exact H4|done|].
  intros w5 Hs. apply (IH (i + 1)); [lia|lia| |done]. unfold PCD8544_WIDTH in Hs. by replace ((i + 1) * 84) with (i * 84 + max_x q + 1) by lia.
Qed.

(** ** Updates *)

Definition full_box q : Prop := min_x q = 0 /\ min_y q = 0 /\ max_x q = PCD8544_WIDTH - 1 /\ max_y q = PCD8544_HEIGHT - 1.

(** With the whole screen in the box the frame buffer is shown. *)
Lemma wp_update_full q w (Q : unit -> pcd_t * W -> Prop) : full_box q -> zlen (pcd_data q) = PCD8544_BYTES ->
  length (p_ram (panel w)) = length (pcd_data q) -> p_ext (panel w) = false ->
  (forall w', p_ram (panel w') = pcd_data q -> p_ext (panel w') = false -> Q tt (q, w')) ->
  wp Lcd.pcd8544_update Q (q, w).
Proof.
  intros (Hx0 & Hy0 & Hx1 & Hy1) Hz Hl He HQ. unfold Lcd.pcd8544_update. apply wp_bind.
  apply (wp_update_rows q (p_ram (panel w))); [done|done|done|done|done|lia|lia|done| |].
  - exists (p_ce (panel w)), (p_dc (panel w)), (p_x (panel w)), (p_y (panel w)). rewrite upto_0, <- He. by destruct (panel w).
  - intros w' (ce & dc & x & y & Hw'). apply wp_upd_x. cbn [fst snd].
    assert (Hu : Lcd.updatebox 0 0 (PCD8544_WIDTH - 1) (PCD8544_HEIGHT - 1) q = q).
    { unfold Lcd.updatebox. rewrite Hx0, Hy0, Hx1, Hy1. cbn. rewrite <- Hx0 at 1. rewrite <- Hy0 at 1. rewrite Hx0. destruct q; cbn in *. by subst. }
    rewrite Hu. apply HQ; rewrite Hw'; [|done]. cbn [p_ram]. rewrite <- Hz. by apply upto_all.
Qed.

(** With an empty box only the first byte is sent, and the box becomes the whole
    screen. *)
Lemma wp_update_empty data w (Q : unit -> pcd_t * W -> Prop) : zlen data = PCD8544_BYTES ->
  length (p_ram (panel w)) = length data -> p_ext (panel w) = false ->
  (forall w', p_ram (panel w') = upto 1 data (p_ram (panel w)) -> p_ext (panel w') = false ->
     Q tt (Pcd data 0 0 (PCD8544_WIDTH - 1) (PCD8544_HEIGHT - 1), w')) ->
  wp Lcd.pcd8544_update Q (Pcd data 0 0 0 0, w).
Proof.
  intros Hz Hl He HQ. unfold Lcd.pcd8544_update. apply wp_bind. cbn [Lcd.update_rows]. apply wp_bind, wp_get_x.
  cbn [fst id min_y max_y min_x Z.gtb Z.compare Z.mul Z.add]. destruct (panel w) as [ce dc ext x y ram] eqn:Hp. cbn [p_ram p_ext] in *. subst ext.
  apply wp_bind. eapply wp_setmode; [exact Hp|]. intros w1 H1. apply wp_bind. eapply wp_write; [exact H1|]. cbn beta iota. intros w2 H2.
  rewrite panel_set_y in H2 by lia. apply wp_bind. eapply wp_write; [exact H2|]. cbn beta iota. intros w3 H3.
  change (panel w3 = Panel true false false 0 0 ram) in H3.
  apply wp_bind. eapply wp_setmode; [exact H3|]. intros w4 H4. apply wp_bind.
  eapply (wp_update_row (Pcd data 0 0 0 0) ram 0); [done|done|lia|done|cbn; lia|cbn; lia|exact H4|done|].
  intros w5 (ce5 & dc5 & x5 & y5 & H5). cbn [max_x pcd_data] in H5. apply wp_bind, wp_get_x. cbn [fst id min_y max_y Z.gtb Z.compare Z.mul Z.add].
  apply wp_ret, wp_upd_x. cbn [fst snd]. apply HQ; by rewrite H5.
Qed.

(** ** Drawing *)

(** The picture of a resource. *)
Definition picture (resource : Z) : list Z :=
  match zget Lcd.lcd_images (resource - LR_STARTUP) with
  | Some image => image
  | None => repeat 0 (Z.to_nat PCD8544_BYTES)
  end.

Lemma images_size : Forall (fun image => zlen image = PCD8544_BYTES) Lcd.lcd_images.
Proof. rewrite <- (bool_decide_spec (Forall _ _)). vm_compute. exact I. Qed.

Lemma picture_size r : zlen (picture r) = PCD8544_BYTES.
Proof.
  unfold picture. destruct (zget Lcd.lcd_images (r - LR_STARTUP)) as [l|] eqn:Hz; [|done].
  unfold zget in Hz. destruct (_ <? 0); [done|]. apply (proj1 (Forall_lookup _ _) images_size _ _ Hz).
Qed.

(** The display is ready: normal instructions, and the RAM of the controller. *)
Definition display_ready w : Prop := p_ext (panel w) = false /\ zlen (p_ram (panel w)) = PCD8544_BYTES.

Lemma wp_pcd8544_clean q w (Q : unit -> pcd_t * W -> Prop) : display_ready w ->
  (forall w', display_ready w' ->
     Q tt (Pcd (pcd_data pcd_zero) 0 0 (PCD8544_WIDTH - 1) (PCD8544_HEIGHT - 1), w')) ->
  wp Lcd.pcd8544_clean Q (q, w).
Proof.
  intros [He Hl] HQ. unfold Lcd.pcd8544_clean. apply wp_bind, wp_upd_x. cbn [fst snd]. unfold pcd_zero.
  assert (Hlen : length (p_ram (panel w)) = length (repeat 0 (Z.to_nat PCD8544_BYTES))).
  { unfold zlen in Hl. rewrite repeat_length. lia. }
  apply wp_update_empty; [done|done|done|]. intros w' Hr He'. apply HQ. split; [done|].
  rewrite Hr. unfold zlen. rewrite upto_length by done. done.
Qed.

Lemma wp_host_lcd_draw r q w (Q : unit -> pcd_t * W -> Prop) : display_ready w ->
  (forall q' w', display_ready w' -> p_ram (panel w') = picture r -> Q tt (q', w')) ->
  wp (Lcd.host_lcd_draw r) Q (q, w).
Proof.
  intros Hd HQ. unfold Lcd.host_lcd_draw. apply wp_bind. apply wp_when; [intros _; apply wp_xprintf; [done|]|intros _].
  all: apply wp_bind, wp_pcd8544_clean; [done|]; intros w1 [He Hl]; apply wp_bind.
  all: assert (Hgo : forall data, zlen data = PCD8544_BYTES -> data = picture r ->
    wp Lcd.pcd8544_update Q (Pcd data 0 0 (PCD8544_WIDTH - 1) (PCD8544_HEIGHT - 1), w1)).
  1, 3: intros data Hz ->; apply wp_update_full; [done|done|unfold zlen in *; cbn [pcd_data]; lia|done|];
    intros w2 Hr He2; apply HQ; [split; [done|by rewrite Hr]|exact Hr].
  all: pose proof (picture_size r) as Hs; unfold picture in Hs, Hgo.
  all: destruct (zget Lcd.lcd_images (r - LR_STARTUP)) as [l|]; [|by apply wp_ret, Hgo].
  all: unfold Lcd.pcd8544_draw_resource; rewrite Hs, Z.ltb_irrefl; apply wp_upd_x; cbn [fst snd min_x min_y max_x max_y];
    unfold zlen in Hs; rewrite take_ge by lia; by apply Hgo.
Qed.

(** ** Starting up *)

Lemma wp_calls {X} l (x : X) w (Q : unit -> X * W -> Prop) :
  (forall w', panel w' = fold_left (fun (p : panel_t) c => panel_hw c p) l (panel w) -> Q tt (x, w')) -> wp (calls l) Q (x, w).
Proof.
  intros HQ. apply wp_hw_do. cbn [fst snd]. apply HQ. clear HQ. revert w.
  induction l as [|c l IH]; intros w; [done|]. cbn [fold_left]. by rewrite IH, law_panel_hw.
Qed.

(** The command bytes of [pcd8544_init] leave the controller in the normal mode. *)
Lemma wp_init_commands k q w (Q : unit -> pcd_t * W -> Prop) :
  zlen (p_ram (panel w)) = PCD8544_BYTES ->
  (forall w', display_ready w' -> wp k Q (q, w')) ->
  wp (Lcd.pcd8544_setmode PCD_COMMAND ;;
      Lcd.pcd8544_write (Z.lor PCD8544_FUNCTIONSET PCD8544_EXTENDEDINSTRUCTION) ;;
      Lcd.pcd8544_write (Z.lor PCD8544_SETBIAS 4) ;;
      Lcd.pcd8544_setcontrast 56 ;;
      Lcd.pcd8544_write PCD8544_FUNCTIONSET ;;
      Lcd.pcd8544_write (Z.lor PCD8544_DISPLAYCONTROL PCD8544_DISPLAYNORMAL) ;; k) Q (q, w).
Proof.
  intros Hl HQ. destruct (panel w) as [ce dc ext x y ram] eqn:Hp. cbn [p_ram] in Hl.
  apply wp_bind. eapply wp_setmode; [exact Hp|]. intros w1 H1. cbn beta iota in H1.
  apply wp_bind. eapply wp_write; [exact H1|]. intros w2 H2. change (panel w2 = Panel true false true x y ram) in H2.
  apply wp_bind. eapply wp_write; [exact H2|]. intros w3 H3. change (panel w3 = Panel true false true x y ram) in H3.
  apply wp_bind. eapply wp_write; [exact H3|]. intros w4 H4. change (panel w4 = Panel true false true x y ram) in H4.
  apply wp_bind. eapply wp_write; [exact H4|]. intros w5 H5. change (panel w5 = Panel true false false x y ram) in H5.
  apply wp_bind. eapply wp_write; [exact H5|]. intros w6 H6. change (panel w6 = Panel true false false x y ram) in H6.
  apply HQ. split; by rewrite H6.
Qed.

Lemma wp_host_lcd_init q t w (Q : unit -> (pcd_t * tim_t) * W -> Prop) :
  zlen (p_ram (panel w)) = PCD8544_BYTES -> 0 <= LocalTime t -> LocalTime t + 100 < 4294967286 ->
  (forall q' t' w', display_ready w' -> p_ram (panel w') = picture LR_BLANK -> Q tt ((q', t'), w')) ->
  wp Lcd.host_lcd_init Q ((q, t), w).
Proof.
  intros Hl Ht0 Ht HQ. unfold Lcd.host_lcd_init, Lcd.pcd8544_init, Lcd.pcd8544_reset. do 2 apply wp_bind.
  unfold Lcd.on_pcd at 1, Lcd.pcd8544_init_hw. apply wp_zoom, wp_calls. cbn [fst snd]. intros w1 H1.
  assert (L1 : zlen (p_ram (panel w1)) = PCD8544_BYTES) by (rewrite H1; by destruct (panel w)).
  do 2 apply wp_bind. apply wp_calls1. intros w2 H2.
  assert (L2 : zlen (p_ram (panel w2)) = PCD8544_BYTES) by (rewrite H2; by destruct (panel w1)).
  apply wp_bind. unfold Lcd.on_tim. apply wp_zoom. cbn [fst snd].
  apply (wp_Delay (fun w' => panel w' = panel w2)); [intros w' Hw'; by rewrite law_panel_tick|done|done|done|done|].
  intros now w3 H3 _. cbn [fst snd]. apply wp_calls1. intros w4 H4.
  assert (L4 : zlen (p_ram (panel w4)) = PCD8544_BYTES) by (rewrite H4, H3; by destruct (panel w2)).
  unfold Lcd.on_pcd at 1. apply wp_zoom. cbn [fst snd].
  apply wp_init_commands; [done|]. intros w5 H5. apply wp_pcd8544_clean; [done|]. intros w6 [He6 Hl6].
  unfold Lcd.on_pcd. apply wp_zoom. cbn [fst snd].
  apply wp_update_full; [done|done|apply Nat2Z.inj; exact Hl6|done|]. intros w7 Hr He7. apply HQ; [|exact Hr].
  split; [exact He7|]. cbn [fst snd]. by rewrite Hr.
Qed.

(** The sequence of pictures the player asks for. *)
Fixpoint draw_all (l : list Z) : M (pcd_t * W) unit :=
  match l with [] => ret tt | r :: l' => Lcd.host_lcd_draw r ;; draw_all l' end.

Lemma wp_draw_all l : forall r0 q w, display_ready w -> p_ram (panel w) = picture r0 ->
  wp (draw_all l) (fun _ s => p_ram (panel s.2) = picture (List.last l r0)) (q, w).
Proof.
  induction l as [|r l IH]; intros r0 q w Hd Hr; [done|]. cbn [draw_all]. apply wp_bind, wp_host_lcd_draw; [done|].
  intros q' w' Hd' Hr'. eapply wp_mono; [|by apply (IH r)]. intros [] s Hs. cbn beta in Hs. rewrite Hs. destruct l; [done|].
  f_equal. clear. revert r z. induction l as [|a l IH]; intros r z; [done|]. apply (IH r a).
Qed.

(** C8: from power-on, whatever the RAM of the controller holds then, the display is
    blank after [host_lcd_init] and shows exactly the picture of the last resource after
    any sequence of [host_lcd_draw]: every byte of the picture arrives at its place over
    the serial interface, although the driver sends only what lies in its box. *)
Theorem lcd_shows_last_picture l q t w :
  zlen (p_ram (panel w)) = PCD8544_BYTES -> 0 <= LocalTime t -> LocalTime t + 100 < 4294967286 ->
  wp (Lcd.host_lcd_init ;; Lcd.on_pcd (draw_all l))
    (fun _ s => p_ram (panel s.2) = picture (List.last l LR_BLANK)) ((q, t), w).
Proof.
  intros Hl Ht0 Ht. apply wp_bind, wp_host_lcd_init; [done|done|done|]. intros q' t' w' Hd Hr.
  apply wp_zoom. cbn [fst snd]. by apply wp_draw_all.
Qed.

(** ** Pixels *)

Definition pixel (data : list Z) (x y : Z) : option bool :=
  match zget data (x + y / 8 * PCD8544_WIDTH) with
  | Some b => Some (Z.testbit b (y mod 8))
  | None => None
  end.

Definition on_screen (x y : Z) : Prop := 0 <= x < PCD8544_WIDTH /\ 0 <= y < PCD8544_HEIGHT.

(** Setting or clearing one bit of a byte. *)
Lemma put_bit b k i (c : bool) : is_byte b -> 0 <= k < 8 -> 0 <= i < 8 ->
  Z.testbit (u8 (if c then Z.lor b (Z.shiftl 1 k) else Z.ldiff b (Z.shiftl 1 k))) i =
  if i =? k then c else Z.testbit b i.
Proof.
  intros Hb Hk Hi. unfold u8. change 256 with (2 ^ 8). rewrite Z.mod_pow2_bits_low by lia.
  assert (H1 : Z.testbit (Z.shiftl 1 k) i = (i =? k)) by (rewrite Z.shiftl_1_l, Z.pow2_bits_eqb by lia; apply Z.eqb_sym).
  destruct c; [rewrite Z.lor_spec|rewrite Z.ldiff_spec]; rewrite H1; destruct (i =? k); cbn; rewrite ?orb_true_r, ?orb_false_r, ?andb_false_r, ?andb_true_r; done.
Qed.

Lemma wp_putpixel_lazy x y color q w (Q : unit -> pcd_t * W -> Prop) :
  on_screen x y -> zlen (pcd_data q) = PCD8544_BYTES -> Forall is_byte (pcd_data q) ->
  (forall data, zlen data = PCD8544_BYTES -> Forall is_byte data ->
     pixel data x y = Some (negb (color =? 0)) ->
     (forall x' y', on_screen x' y' -> (x', y') <> (x, y) -> pixel data x' y' = pixel (pcd_data q) x' y') ->
     Q tt (Pcd data (min_x q) (min_y q) (max_x q) (max_y q), w)) ->
  wp (Lcd.pcd8544_putpixel_lazy x y color) Q (q, w).
Proof.
  intros [Hx Hy] Hz Hb HQ. unfold Lcd.pcd8544_putpixel_lazy. assert (HB : PCD8544_BYTES = 504) by done.
  unfold on_screen, PCD8544_WIDTH, PCD8544_HEIGHT in *. destruct (Z.geb_spec x 84); [lia|]. destruct (Z.geb_spec y 48); [lia|].
  apply wp_bind, wp_get_x. cbn [fst id]. destruct (zget_some (pcd_data q) (x + y / 8 * 84)) as [b Hgb]; [lia|].
  apply wp_bind. eapply wp_lift; [exact Hgb|]. apply wp_bind.
  set (b' := u8 _). eapply wp_lift; [apply zset_some; lia|]. apply wp_upd_x. cbn [fst snd].
  assert (Hset : zset (pcd_data q) (x + y / 8 * 84) b' = Some (<[Z.to_nat (x + y / 8 * 84) := b']> (pcd_data q))) by (apply zset_some; lia).
  assert (Hbyte : is_byte b).
  { unfold zget in Hgb. destruct (_ <? 0); [done|]. by apply (proj1 (Forall_lookup _ _) Hb _ _ Hgb). }
  apply HQ.
  - unfold zlen. by rewrite length_insert.
  - apply Forall_insert; [done|]. apply u8_range.
  - unfold pixel, PCD8544_WIDTH. rewrite (zget_zset_eq _ _ _ _ Hset). f_equal. unfold b'. rewrite put_bit by (done || lia). by rewrite Z.eqb_refl.
  - intros x' y' [Hx' Hy'] Hne. unfold pixel, PCD8544_WIDTH.
    destruct (decide (x' + y' / 8 * 84 = x + y / 8 * 84)) as [He|Hn].
    + rewrite He, (zget_zset_eq _ _ _ _ Hset), Hgb. f_equal. unfold b'. rewrite put_bit by (done || lia).
      destruct (Z.eqb_spec (y' mod 8) (y mod 8)); [|done]. exfalso. apply Hne. f_equal; lia.
    + by rewrite (zget_zset_ne _ _ _ _ _ Hset) by done.
Qed.

(** A pixel inside the screen is set or cleared in the frame buffer and no other
    pixel changes; one outside changes nothing. *)
Theorem lcd_putpixel_correct x y color q w :
  0 <= x -> 0 <= y -> zlen (pcd_data q) = PCD8544_BYTES -> Forall is_byte (pcd_data q) ->
  wp (Lcd.host_lcd_putpixel x y color) (fun _ s =>
    forall x' y', on_screen x' y' -> pixel (pcd_data s.1) x' y' =
      if bool_decide ((x', y') = (x, y)) then Some (negb (color =? 0)) else pixel (pcd_data q) x' y') (q, w).
Proof.
  intros Hx Hy Hz Hb. unfold Lcd.host_lcd_putpixel. apply wp_when.
  - intros Hin. assert (Hs : on_screen x y) by (unfold on_screen; lia). apply wp_putpixel_lazy; [done|done|done|].
    intros data Hz' Hb' Hp Hother x' y' Hs'. cbn [fst pcd_data]. case_bool_decide as He.
    + injection He as -> ->. rewrite Hp. by destruct (color =? 0).
    + by apply Hother.
  - intros Hout x' y' [Hx' Hy']. rewrite bool_decide_eq_false_2; [done|]. intros [= -> ->]. lia.
Qed.

(** After [host_lcd_clean_screen] the box is empty and drawing pixels does not
    enlarge it: the first [host_lcd_update_screen] transfers the first byte only, so that
    a pixel elsewhere is not shown; the second one transfers everything. *)
Theorem lcd_first_update_incomplete x y q w :
  on_screen x y -> display_ready w ->
  wp (Lcd.host_lcd_clean_screen ;; Lcd.host_lcd_putpixel x y 1 ;; Lcd.host_lcd_update_screen)
    (fun _ s => pixel (pcd_data s.1) x y = Some true /\ p_ram (panel s.2) = upto 1 (pcd_data s.1) (p_ram (panel w)) /\
       wp Lcd.host_lcd_update_screen (fun _ s' => p_ram (panel s'.2) = pcd_data s.1) s) (q, w).
Proof.
  intros Hs [He Hl]. unfold Lcd.host_lcd_clean_screen, Lcd.host_lcd_putpixel, Lcd.host_lcd_update_screen.
  apply wp_bind, wp_upd_x. cbn [fst snd]. apply wp_bind.
  assert (Hin : (x <? PCD8544_WIDTH) && (y <? PCD8544_HEIGHT) = true) by (unfold on_screen in Hs; lia). rewrite Hin. cbn [when].
  apply wp_putpixel_lazy; [done|done|by apply List.Forall_forall; intros z ->%repeat_spec|]. intros data Hz Hb Hp _.
  unfold zlen in Hl, Hz. cbn [min_x min_y max_x max_y pcd_zero].
  apply wp_update_empty; [done|lia|done|]. intros w' Hr He'. cbn [fst snd pcd_data]. split_and!; [done|done|].
  apply wp_update_full; [done|done|rewrite Hr; cbn [pcd_data]; rewrite upto_length; lia|done|]. by intros w'' Hr' _.
Qed.
End Panel.

(** ** Witnesses *)

#[local] Existing Instance stm32_target.
Definition lcd_demo_config : Config := default_config false.
#[local] Existing Instance lcd_demo_config.

Lemma lcd_shows_last_picture_witness :
  wp (Lcd.host_lcd_init ;; Lcd.on_pcd (draw_all [LR_STARTUP; LR_VOLUME_15]))
    (fun _ s => p_ram (panel s.2) = picture (List.last [LR_STARTUP; LR_VOLUME_15] LR_BLANK))
    ((pcd_zero, tim_zero), demo_world).
Proof. apply (lcd_shows_last_picture [LR_STARTUP; LR_VOLUME_15] pcd_zero tim_zero demo_world); done. Defined.

Lemma lcd_putpixel_correct_witness :
  wp (Lcd.host_lcd_putpixel 83 47 1) (fun _ s =>
    forall x' y', on_screen x' y' -> pixel (pcd_data s.1) x' y' =
      if bool_decide ((x', y') = (83, 47)) then Some (negb (1 =? 0)) else pixel (pcd_data pcd_zero) x' y') (pcd_zero, demo_world).
Proof.
  apply (lcd_putpixel_correct 83 47 1 pcd_zero demo_world); try done.
  apply List.Forall_forall. by intros z ->%repeat_spec.
Defined.

Definition ready_world : demo_board := DemoBoard (Panel true false false 0 0 (repeat 255 504)) (Dma 0 0 false []) [].

Lemma lcd_first_update_incomplete_witness :
  wp (Lcd.host_lcd_clean_screen ;; Lcd.host_lcd_putpixel 10 20 1 ;; Lcd.host_lcd_update_screen)
    (fun _ s => pixel (pcd_data s.1) 10 20 = Some true /\
       p_ram (panel s.2) = upto 1 (pcd_data s.1) (p_ram (panel ready_world)) /\
       wp Lcd.host_lcd_update_screen (fun _ s' => p_ram (panel s'.2) = pcd_data s.1) s) (pcd_zero, ready_world).
Proof. apply (lcd_first_update_incomplete 10 20 pcd_zero ready_world); done. Defined.
