(* ===== verification/Audio.v ===== *)
(** * libs/Audio/Audio.c: the audio output of the board

    Samples leave memory through a DMA stream.  The program provides buffers; one is
    being transferred, one more may wait, and the interrupt at the end of a transfer
    starts the next one. *)

From S2P Require Import Prelude Board.

Definition DMA1_Stream7_IRQn : Z := 47.

(** The static variables.  A pointer to samples is [None] when it is NULL; the callback is
    the one that [PlayAudioWithCallback] was given, or NULL. *)
Record audio_t : Type := Audio {
  CallbackFunction : bool;
  CallbackContext : Z;
  NextBufferSamples : option Z;
  NextBufferLength : Z;
  BufferNumber : Z;
  DMARunning : bool
}.
Definition audio_zero : audio_t := Audio false 0 None 0 0 false.

Section Setters.
Implicit Types a : audio_t.
Definition set_callback f c a := Audio f c (NextBufferSamples a) (NextBufferLength a) (BufferNumber a) (DMARunning a).
Definition set_next s l a := Audio (CallbackFunction a) (CallbackContext a) s l (BufferNumber a) (DMARunning a).
Definition set_number n a := Audio (CallbackFunction a) (CallbackContext a) (NextBufferSamples a) (NextBufferLength a) n (DMARunning a).
Definition set_running r a := Audio (CallbackFunction a) (CallbackContext a) (NextBufferSamples a) (NextBufferLength a) (BufferNumber a) r.
End Setters.

Section Driver.
Context {W : Type} `{B : Board W} (callback : Z -> Z -> W -> W).
Abbreviation MA := (M (audio_t * W)).

(** One register of the codec over I2C. *)
Definition WriteRegister (address value : Z) : MA unit :=
  wait_reg I2C1_SR2 2 false ;;
  set_bits I2C1_CR1 256 ;;
  wait_reg I2C1_SR1 1 true ;;
  put_reg I2C1_DR 148 ;;
  wait_reg I2C1_SR1 2 true ;;
  (let* _ := read_reg I2C1_SR2 in ret tt) ;;
  put_reg I2C1_DR address ;;
  wait_reg I2C1_SR1 128 true ;;
  put_reg I2C1_DR value ;;
  wait_reg I2C1_SR1 4 true ;;
  set_bits I2C1_CR1 512.

Definition SetAudioVolume (volume : Z) : MA unit :=
  WriteRegister 32 (Z.land (volume + 25) 255) ;;
  WriteRegister 33 (Z.land (volume + 25) 255).

(** The peripherals and pins of codec, I2C and I2S. *)
Definition audio_init_calls : list hw :=
  let pins p mode otype := GpioInit p mode otype GPIO_Speed_50MHz GPIO_PuPd_NOPULL in
  [ RCC_AHB1PeriphClockCmd 1; RCC_AHB1PeriphClockCmd 2; RCC_AHB1PeriphClockCmd 4;
    RCC_AHB1PeriphClockCmd 8; RCC_AHB1PeriphClockCmd 2097152;
    RCC_APB1PeriphClockCmd 2097152; RCC_APB1PeriphClockCmd 32768;
    GPIO_Init GPIOD (pins (GPIO_Pin 4) GPIO_Mode_OUT GPIO_OType_PP);
    GPIO_Init GPIOB (pins (Z.lor (GPIO_Pin 6) (GPIO_Pin 9)) GPIO_Mode_AF GPIO_OType_OD);
    GPIO_PinAFConfig GPIOB 6 4; GPIO_PinAFConfig GPIOB 9 4;
    GPIO_Init GPIOC (pins (Z.lor (Z.lor (GPIO_Pin 7) (GPIO_Pin 10)) (GPIO_Pin 12)) GPIO_Mode_AF GPIO_OType_PP);
    GPIO_PinAFConfig GPIOC 7 6; GPIO_PinAFConfig GPIOC 10 6; GPIO_PinAFConfig GPIOC 12 6;
    GPIO_Init GPIOA (pins (GPIO_Pin 4) GPIO_Mode_AF GPIO_OType_PP);
    GPIO_PinAFConfig GPIOA 4 6 ].

Definition I2S_ON : Z := 3584.

(** The speed register of I2C, from 42 MHz for 100 kHz. *)
Definition ccrspeed : Z :=
  let c := 42000000 / (100000 * 2) in if c <? 4 then 4 else c.

(** Between the two writes to [GPIOD] the source waits for 20479 [nop]s. *)
Definition InitializeAudio (plln pllr i2sdiv i2sodd : Z) : MA unit :=
  upd_x (fun _ => audio_zero) ;;
  calls audio_init_calls ;;
  put_reg GPIOD_BSRRH 16 ;;
  put_reg GPIOD_BSRRL 16 ;;
  calls [RCC_APB1PeriphResetCmd 2097152 true; RCC_APB1PeriphResetCmd 2097152 false] ;;
  put_reg I2C1_CR2 (42000000 / 1000000) ;;
  put_reg I2C1_OAR1 (Z.lor 32768 51) ;;
  put_reg I2C1_CCR ccrspeed ;;
  put_reg I2C1_TRISE (42000000 / 1000000 + 1) ;;
  put_reg I2C1_CR1 (Z.lor 1024 1) ;;
  WriteRegister 2 1 ;;
  WriteRegister 4 175 ;;
  WriteRegister 5 129 ;;
  WriteRegister 6 4 ;;
  SetAudioVolume 255 ;;
  WriteRegister 2 158 ;;
  WriteRegister 10 0 ;;
  WriteRegister 14 4 ;;
  WriteRegister 39 0 ;;
  WriteRegister 31 15 ;;
  WriteRegister 26 10 ;;
  WriteRegister 27 10 ;;
  put_reg SPI3_I2SCFGR 0 ;;
  clear_bits RCC_CFGR 8388608 ;;
  put_reg RCC_PLLI2SCFGR (Z.lor (Z.shiftl pllr 28) (Z.shiftl plln 6)) ;;
  set_bits RCC_CR 67108864 ;;
  wait_reg RCC_CR 134217728 true ;;
  put_reg SPI3_I2SPR (Z.lor (Z.lor i2sdiv (Z.shiftl i2sodd 8)) 512) ;;
  put_reg SPI3_I2SCFGR I2S_ON.

Definition AudioOn : MA unit := WriteRegister 2 158 ;; put_reg SPI3_I2SCFGR I2S_ON.
Definition AudioOff : MA unit := WriteRegister 2 1 ;; put_reg SPI3_I2SCFGR 0.

Definition OutputAudioSampleWithoutBlocking (sample : Z) : MA unit := put_reg SPI3_DR (u32 sample).
Definition OutputAudioSample (sample : Z) : MA unit :=
  wait_reg SPI3_SR 2 true ;; OutputAudioSampleWithoutBlocking sample.

Definition StopAudioDMA : MA unit :=
  clear_bits DMA1_Stream7_CR DMA_SxCR_EN ;;
  wait_reg DMA1_Stream7_CR DMA_SxCR_EN false ;;
  upd_x (set_running false).

(** [if (CallbackFunction) CallbackFunction(CallbackContext, BufferNumber)] *)
Definition run_callback : MA unit :=
  let* a := get_x id in
  when (CallbackFunction a) (hw_do (callback (CallbackContext a) (BufferNumber a))).

Definition PlayAudioWithCallback (context : Z) : MA unit :=
  StopAudioDMA ;;
  calls [NVIC_EnableIRQ DMA1_Stream7_IRQn; NVIC_SetPriority DMA1_Stream7_IRQn 4] ;;
  set_bits SPI3_CR2 2 ;;
  upd_x (set_callback true context) ;;
  upd_x (set_number 0) ;;
  run_callback.

Definition StopAudio : MA unit :=
  StopAudioDMA ;;
  clear_bits SPI3_CR2 2 ;;
  calls [NVIC_DisableIRQ DMA1_Stream7_IRQn] ;;
  upd_x (fun a => set_callback false (CallbackContext a) a).

(** Channel 0, priority 1, 16 bit to 16 bit, memory to peripheral, interrupt when done *)
Definition DMA_CONFIG : Z := 76880.
Definition SPI3_DR_ADDRESS : Z := 1073757196.

Definition StartAudioDMAAndRequestBuffers : MA unit :=
  let* a := get_x id in
  put_reg DMA1_Stream7_CR DMA_CONFIG ;;
  put_reg DMA1_Stream7_NDTR (NextBufferLength a) ;;
  put_reg DMA1_Stream7_PAR SPI3_DR_ADDRESS ;;
  put_reg DMA1_Stream7_M0AR (default 0 (NextBufferSamples a)) ;;
  put_reg DMA1_Stream7_FCR 4 ;;
  set_bits DMA1_Stream7_CR DMA_SxCR_EN ;;
  upd_x (fun a => set_next None (NextBufferLength a) a) ;;
  upd_x (fun a => set_number (Z.lxor (BufferNumber a) 1) a) ;;
  upd_x (set_running true) ;;
  run_callback.

(** The part of [ProvideAudioBufferWithoutBlocking] that runs with the interrupt off. *)
Definition provide_critical (samples numsamples : Z) : MA unit :=
  calls [NVIC_DisableIRQ DMA1_Stream7_IRQn] ;;
  upd_x (set_next (Some samples) numsamples) ;;
  let* a := get_x id in
  when (negb (DMARunning a)) StartAudioDMAAndRequestBuffers ;;
  calls [NVIC_EnableIRQ DMA1_Stream7_IRQn].

Definition ProvideAudioBufferWithoutBlocking (samples numsamples : Z) : MA bool :=
  let* a := get_x id in
  match NextBufferSamples a with
  | Some _ => ret false
  | None => provide_critical samples numsamples ;; ret true
  end.

(** The handler of the interrupt at the end of a transfer. *)
Definition DMA1_Stream7_IRQHandler : MA unit :=
  set_bits DMA1_HIFCR 134217728 ;;
  let* a := get_x id in
  match NextBufferSamples a with
  | Some _ => StartAudioDMAAndRequestBuffers
  | None => upd_x (set_running false)
  end.

(** [while (!ProvideAudioBufferWithoutBlocking(...)) wfi] *)
Fixpoint provide_loop (fuel : nat) (samples numsamples : Z) : MA unit :=
  match fuel with
  | O => nofuel
  | S fuel' =>
      let* ok := ProvideAudioBufferWithoutBlocking samples numsamples in
      if ok : bool then ret tt
      else
        let* irq := hw_ask wfi in
        when irq DMA1_Stream7_IRQHandler ;;
        provide_loop fuel' samples numsamples
  end.

Definition ProvideAudioBuffer (samples numsamples : Z) : MA unit :=
  provide_loop (S (S max_polls)) samples numsamples.
End Driver.
