(* ===== verification/AudioProps.v ===== *)
(** * The audio output plays what it is given

    The double buffering of libs/Audio/Audio.c, against the DMA stream of [Board] and its
    interrupt. *)

From stdpp Require Import relations.
From S2P Require Import Prelude Board Audio.

Section Dma.
Context {W : Type} `{B : Board W} `{L : !BoardLaws W B} (callback : Z -> Z -> W -> W).
Hypothesis callback_dma : forall c n w, dma (callback c n w) = dma w.
Implicit Types (w : W) (a : audio_t).

Lemma wp_put_dma r v a w (Q : unit -> audio_t * W -> Prop) :
  (forall w', dma w' = dma_reg r v (dma w) -> Q tt (a, w')) -> wp (put_reg r v) Q (a, w).
Proof. intros HQ. apply wp_hw_do, HQ, law_dma_set. Qed.

Lemma wp_set_bits_dma r bits a w (Q : unit -> audio_t * W -> Prop) :
  (forall x w', dma w' = dma_reg r (Z.lor x bits) (dma w) -> Q tt (a, w')) -> wp (set_bits r bits) Q (a, w).
Proof.
  intros HQ. unfold set_bits. apply wp_bind, wp_hw_ask. cbn [fst snd]. intros x w' Hr.
  apply wp_put_dma. intros w2 Hw. apply (HQ x). rewrite Hw. f_equal. pose proof (law_dma_get r w) as Hd. by rewrite Hr in Hd.
Qed.

Lemma wp_calls_dma l a w (Q : unit -> audio_t * W -> Prop) :
  (forall w', dma w' = dma w -> Q tt (a, w')) -> wp (calls l) Q (a, w).
Proof.
  intros HQ. apply wp_hw_do. cbn [fst snd]. apply HQ. clear HQ. revert w.
  induction l as [|c l IH]; intros w; [done|]. cbn [fold_left]. by rewrite IH, law_dma_hw.
Qed.

Lemma wp_run_callback a w (Q : unit -> audio_t * W -> Prop) :
  (forall w', dma w' = dma w -> Q tt (a, w')) -> wp (run_callback callback) Q (a, w).
Proof.
  intros HQ. unfold run_callback. apply wp_bind, wp_get_x. cbn [fst id].
  apply wp_when; intros _; [apply wp_hw_do, HQ, callback_dma|by apply HQ].
Qed.

Lemma masks_enabled x : masks (Z.lor x DMA_SxCR_EN) DMA_SxCR_EN = true.
Proof.
  unfold masks, DMA_SxCR_EN. rewrite Z.land_lor_distr_l. change (Z.land 1 1) with 1.
  destruct (Z.eqb_spec (Z.lor (Z.land x 1) 1) 0) as [He|]; [|done]. apply Z.lor_eq_0_iff in He as [_ He]. done.
Qed.

(** A new transfer: of the buffer that waits. *)
Lemma wp_start a w p (Q : unit -> audio_t * W -> Prop) :
  NextBufferSamples a = Some p -> d_active (dma w) = false ->
  (forall a' w', NextBufferSamples a' = None -> DMARunning a' = true ->
     dma w' = Dma p (NextBufferLength a) true (d_started (dma w) ++ [(p, NextBufferLength a)]) -> Q tt (a', w')) ->
  wp (StartAudioDMAAndRequestBuffers callback) Q (a, w).
Proof.
  intros Hp Ha HQ. unfold StartAudioDMAAndRequestBuffers. apply wp_bind, wp_get_x. cbn [fst id]. rewrite Hp. cbn [default].
  apply wp_bind, wp_put_dma. intros w1 H1. apply wp_bind, wp_put_dma. intros w2 H2. apply wp_bind, wp_put_dma. intros w3 H3.
  apply wp_bind, wp_put_dma. intros w4 H4. apply wp_bind, wp_put_dma. intros w5 H5. apply wp_bind, wp_set_bits_dma. intros x w6 H6.
  do 3 apply wp_bind, wp_upd_x. cbn [fst snd]. apply wp_run_callback. intros w7 H7. apply HQ; [done|done|].
  rewrite H7, H6, H5, H4, H3, H2, H1. unfold dma_reg at 1. rewrite masks_enabled. done.
Qed.

(** ** The invariant *)

Definition waiting a : list (Z * Z) :=
  match NextBufferSamples a with Some p => [(p, NextBufferLength a)] | None => [] end.

(** The buffers handed to the driver: those that were or are being transferred, and the
    one that waits. *)
Definition handed (s : audio_t * W) : list (Z * Z) := d_started (dma s.2) ++ waiting s.1.

(** The driver knows whether the stream runs, and a buffer waits only behind a transfer. *)
Definition audio_ok (s : audio_t * W) : Prop :=
  DMARunning s.1 = d_active (dma s.2) /\ (NextBufferSamples s.1 <> None -> DMARunning s.1 = true).

Lemma wp_critical p n a w (Q : unit -> audio_t * W -> Prop) :
  audio_ok (a, w) -> NextBufferSamples a = None ->
  (forall s, audio_ok s -> handed s = handed (a, w) ++ [(p, n)] -> Q tt s) ->
  wp (provide_critical callback p n) Q (a, w).
Proof.
  intros [Hr Hn] Hnone HQ. cbn [fst snd] in Hr, Hn. unfold provide_critical. apply wp_bind, wp_calls_dma. intros w1 H1.
  apply wp_bind, wp_upd_x. cbn [fst snd]. apply wp_bind, wp_get_x. cbn [fst id]. apply wp_bind.
  assert (Hw : waiting a = []) by (unfold waiting; by rewrite Hnone).
  apply wp_when; cbn [DMARunning set_next]; intros Hrun.
  - apply (wp_start _ _ p); [done|rewrite H1, <- Hr; by destruct (DMARunning a)|]. intros a' w2 Hn' Hr' Hd.
    apply wp_calls_dma. intros w3 H3. apply HQ.
    + split; cbn [fst snd]; [by rewrite Hr', H3, Hd|done].
    + unfold handed. cbn [fst snd]. rewrite H3, Hd, H1, Hw. unfold waiting. rewrite Hn'. by rewrite !app_nil_r.
  - apply wp_calls_dma. intros w3 H3. apply HQ.
    + split; cbn [fst snd set_next DMARunning NextBufferSamples]; [by rewrite H3, H1|]. intros _. by destruct (DMARunning a).
    + unfold handed. cbn [fst snd]. rewrite H3, H1, Hw, app_nil_r. done.
Qed.

(** The end of a transfer. *)
Lemma wp_irq a w w1 (Q : unit -> audio_t * W -> Prop) :
  audio_ok (a, w) -> d_active (dma w) = true -> dma w1 = dma_done (dma w) ->
  (forall s, audio_ok s -> handed s = handed (a, w) -> NextBufferSamples s.1 = None -> Q tt s) ->
  wp (DMA1_Stream7_IRQHandler callback) Q (a, w1).
Proof.
  intros [Hr Hn] Ha Hd HQ. cbn [fst snd] in Hr, Hn. unfold DMA1_Stream7_IRQHandler. apply wp_bind, wp_set_bits_dma.
  intros x w2 H2. change (dma w2 = dma w1) in H2. apply wp_bind, wp_get_x. cbn [fst id].
  destruct (NextBufferSamples a) as [p|] eqn:Hp.
  - apply (wp_start _ _ p); [done|by rewrite H2, Hd|]. intros a' w3 Hn' Hr' H3. apply HQ; [|..|done].
    + split; cbn [fst snd]; [by rewrite Hr', H3|done].
    + unfold handed, waiting. cbn [fst snd]. rewrite H3, Hn', Hp, H2, Hd. by rewrite app_nil_r.
  - apply wp_upd_x. cbn [fst snd]. apply HQ; [| |exact Hp].
    + split; cbn [fst snd set_running DMARunning NextBufferSamples]; [by rewrite H2, Hd|]. intros Hc. by rewrite Hp in Hc.
    + unfold handed, waiting. cbn [fst snd set_running NextBufferSamples]. by rewrite Hp, H2, Hd.
Qed.

Lemma wp_provide_loop p n l : forall fuel a w (Q : unit -> audio_t * W -> Prop),
  audio_ok (a, w) -> handed (a, w) = l ->
  (match NextBufferSamples a with None => 0 | Some _ => S (polls PDma w) end < fuel)%nat ->
  (forall s, audio_ok s -> handed s = l ++ [(p, n)] -> Q tt s) ->
  wp (provide_loop callback fuel p n) Q (a, w).
Proof.
  induction fuel as [|fuel IH]; intros a w Q Hok Hh Hf HQ; [lia|]. cbn [provide_loop].
  unfold ProvideAudioBufferWithoutBlocking. apply wp_bind, wp_bind, wp_get_x. cbn [fst id].
  destruct (NextBufferSamples a) as [q|] eqn:Hn.
  - apply wp_ret. cbn beta iota. apply wp_bind, wp_hw_ask. cbn [fst snd]. intros irq w1 Hw.
    assert (Hact : d_active (dma w) = true) by (destruct Hok as [Hr Hp]; cbn [fst snd] in *; rewrite <- Hr; apply Hp; by rewrite Hn).
    pose proof (law_dma_wfi w irq w1 Hw) as Hd. apply wp_bind. destruct irq; cbn [when].
    + destruct Hd as [_ Hd]. apply (wp_irq a w w1); [done|done|done|]. intros [a' w'] Hok' Hh' Hn'. cbn [fst] in Hn'.
      apply IH; [done|by rewrite Hh'|rewrite Hn'; lia|done].
    + apply wp_ret. destruct (law_wfi w false w1 Hact Hw) as [|Hlt]; [done|]. apply IH; [| |rewrite Hn; lia|done].
      * destruct Hok as [Hr Hp]. split; cbn [fst snd] in *; by rewrite ?Hd.
      * rewrite <- Hh. unfold handed. cbn [fst snd]. by rewrite Hd.
  - apply wp_bind, wp_critical; [done|done|]. intros s Hs Hh'. apply wp_ret. apply wp_ret, HQ; [done|]. by rewrite Hh', Hh.
Qed.

(** ** Interleavings

    The interrupt may come at every moment outside of the critical section, in
    particular between the test of [NextBufferSamples] and the critical section. *)
Inductive pc : Type := Idle | Accepting (b : Z * Z).

Inductive audio_step : pc * list (Z * Z) * (audio_t * W) -> pc * list (Z * Z) * (audio_t * W) -> Prop :=
| step_refuse l s : NextBufferSamples s.1 <> None -> audio_step (Idle, l, s) (Idle, l, s)
| step_test l s b : NextBufferSamples s.1 = None -> audio_step (Idle, l, s) (Accepting b, l, s)
| step_accept l s b s' o :
    provide_critical callback b.1 b.2 s = Done (tt, s', o) -> audio_step (Accepting b, l, s) (Idle, l ++ [b], s')
| step_interrupt p l a w w1 s' o :
    d_active (dma w) = true -> dma w1 = dma_done (dma w) ->
    DMA1_Stream7_IRQHandler callback (a, w1) = Done (tt, s', o) -> audio_step (p, l, (a, w)) (p, l, s').

(** The accepted buffers are the ones handed to the stream. *)
Definition audio_inv (x : pc * list (Z * Z) * (audio_t * W)) : Prop :=
  let '(p, l, s) := x in
  audio_ok s /\ handed s = l /\ (p <> Idle -> NextBufferSamples s.1 = None).

Lemma audio_step_inv x y : audio_step x y -> audio_inv x -> audio_inv y.
Proof.
  intros Hs Hx. destruct Hs as [l s Hn|l s b Hn|l [a w] b s' o Hc|p l a w w1 s' o Ha Hd Hi]; destruct Hx as (Hok & Hh & Hp).
  - done.
  - split_and!; [done|done|]. by intros _.
  - assert (Hwp : wp (provide_critical callback b.1 b.2) (fun _ s => audio_ok s /\ handed s = handed (a, w) ++ [(b.1, b.2)]) (a, w)).
    { apply wp_critical; [done|by apply Hp|]. done. }
    unfold wp in Hwp. rewrite Hc in Hwp. destruct Hwp as [Hok' Hh']. split_and!; [done| |done].
    rewrite Hh', Hh. by destruct b.
  - assert (Hwp : wp (DMA1_Stream7_IRQHandler callback) (fun _ s => audio_ok s /\ handed s = handed (a, w) /\ NextBufferSamples s.1 = None) (a, w1)).
    { apply (wp_irq a w w1); [done|done|done|]. done. }
    unfold wp in Hwp. rewrite Hi in Hwp. destruct Hwp as (Hok' & Hh' & Hn). split_and!; [done|by rewrite Hh'|]. by intros _.
Qed.

(** C3: From one initialization of the audio output to the next, with the interrupt at any moment,
    the buffers the driver has accepted go to the
    DMA stream one after the other, in the order in which they were accepted, none of them
    twice and none lost; at most one waits, and only while another one is transferred.  (Setting
    the output up again drops the buffer that waits: [rate_change_loses_buffer].) *)
Theorem audio_buffers_in_order p l s p' l' s' :
  audio_inv (p, l, s) -> rtc audio_step (p, l, s) (p', l', s') ->
  d_started (dma s'.2) ++ waiting s'.1 = l' /\ (waiting s'.1 <> [] -> d_active (dma s'.2) = true).
Proof.
  intros Hi Hr. assert (Hi' : audio_inv (p', l', s')).
  { revert Hi. refine (rtc_ind_l (fun x => audio_inv x -> _) _ _ _ _ Hr); [done|]. intros x y Hxy _ IH Hx. eauto using audio_step_inv. }
  destruct Hi' as ([Hrun Hw] & Hh & _). split; [exact Hh|]. intros Hne. rewrite <- Hrun. apply Hw.
  unfold waiting in Hne. by destruct (NextBufferSamples s'.1).
Qed.

Lemma wp_provide samples n s : audio_ok s ->
  wp (ProvideAudioBuffer callback samples n) (fun _ s' => audio_ok s' /\ handed s' = handed s ++ [(samples, n)]) s.
Proof.
  intros Hok. destruct s as [a w]. apply (wp_provide_loop _ _ (handed (a, w))); [done|done| |done].
  pose proof (law_max PDma w). destruct (NextBufferSamples a); lia.
Qed.

(** C29: [ProvideAudioBuffer] always returns: it waits for the interrupt when a buffer is
    already waiting, and its buffer is then the last one handed to the stream. *)
Theorem provide_audio_buffer_returns samples n s :
  audio_ok s ->
  wp (ProvideAudioBuffer callback samples n) (fun _ s' => audio_ok s' /\ handed s' = handed s ++ [(samples, n)]) s.
Proof. apply wp_provide. Qed.

(** ** A change of the sampling rate *)

Lemma wp_wait_dma r m v a w (Q : unit -> audio_t * W -> Prop) : awaited_reg r m = Some v ->
  (forall w', dma w' = dma w -> Q tt (a, w')) -> wp (wait_reg r m v) Q (a, w).
Proof.
  intros Hv HQ. apply (wp_wait_reg r m v (fun w1 => dma w1 = dma w)); [done| |reflexivity|exact HQ].
  intros w1 H1. by rewrite law_dma_get.
Qed.

Definition not_dma (r : reg) : Prop := forall v d, dma_reg r v d = d.

Lemma wp_put_other r v a w (Q : unit -> audio_t * W -> Prop) : not_dma r ->
  (forall w', dma w' = dma w -> Q tt (a, w')) -> wp (put_reg r v) Q (a, w).
Proof. intros Hr HQ. apply wp_put_dma. intros w' Hw. apply HQ. by rewrite Hw, Hr. Qed.

Lemma wp_set_other r v a w (Q : unit -> audio_t * W -> Prop) : not_dma r ->
  (forall w', dma w' = dma w -> Q tt (a, w')) -> wp (set_bits r v) Q (a, w).
Proof. intros Hr HQ. apply wp_set_bits_dma. intros x w' Hw. apply HQ. by rewrite Hw, Hr. Qed.

Lemma wp_clear_other r v a w (Q : unit -> audio_t * W -> Prop) : not_dma r ->
  (forall w', dma w' = dma w -> Q tt (a, w')) -> wp (clear_bits r v) Q (a, w).
Proof.
  intros Hr HQ. unfold clear_bits. apply wp_bind, wp_hw_ask. cbn [fst snd]. intros x w' Hg. apply wp_put_other; [done|].
  intros w2 H2. apply HQ. rewrite H2. pose proof (law_dma_get r w) as Hd. by rewrite Hg in Hd.
Qed.

Lemma wp_WriteRegister address value a w (Q : unit -> audio_t * W -> Prop) :
  (forall w', dma w' = dma w -> Q tt (a, w')) -> wp (WriteRegister address value) Q (a, w).
Proof.
  intros HQ. unfold WriteRegister. apply wp_bind, wp_wait_dma; [done|]. intros w1 H1.
  apply wp_bind, wp_set_other; [done|]. intros w2 H2. apply wp_bind, wp_wait_dma; [done|]. intros w3 H3.
  apply wp_bind, wp_put_other; [done|]. intros w4 H4. apply wp_bind, wp_wait_dma; [done|]. intros w5 H5.
  do 2 apply wp_bind. apply wp_hw_ask. cbn [fst snd]. intros y w6 H6. pose proof (law_dma_get I2C1_SR2 w5) as Hd. rewrite H6 in Hd. cbn [snd] in Hd.
  apply wp_ret, wp_bind, wp_put_other; [done|]. intros w7 H7. apply wp_bind, wp_wait_dma; [done|]. intros w8 H8.
  apply wp_bind, wp_put_other; [done|]. intros w9 H9. apply wp_bind, wp_wait_dma; [done|]. intros w10 H10.
  apply wp_set_other; [done|]. intros w11 H11. apply HQ. congruence.
Qed.

Ltac other_step :=
  lazymatch goal with
  | |- wp (bind _ _) _ _ => apply wp_bind
  | |- wp (calls _) _ _ => apply wp_calls_dma; intros
  | |- wp (WriteRegister _ _) _ _ => apply wp_WriteRegister; intros
  | |- wp (put_reg _ _) _ _ => apply wp_put_other; [done|]; intros
  | |- wp (set_bits _ _) _ _ => apply wp_set_other; [done|]; intros
  | |- wp (clear_bits _ _) _ _ => apply wp_clear_other; [done|]; intros
  | |- wp (wait_reg _ _ _) _ _ => apply wp_wait_dma; [done|]; intros
  end.

(** The set-up leaves the stream alone and forgets what the driver knew about it. *)
Lemma wp_InitializeAudio n r d o a w (Q : unit -> audio_t * W -> Prop) :
  (forall w', dma w' = dma w -> Q tt (audio_zero, w')) -> wp (InitializeAudio n r d o) Q (a, w).
Proof.
  intros HQ. unfold InitializeAudio, SetAudioVolume. apply wp_bind, wp_upd_x. cbn [fst snd].
  repeat other_step. apply HQ. congruence.
Qed.

(** A change of the sampling rate calls [InitializeAudio] while the stream may be
    running: the buffer that waits is forgotten and never transferred, and the driver
    believes that no transfer is running. *)
Theorem rate_change_loses_buffer plln pllr i2sdiv i2sodd a w :
  audio_ok (a, w) -> waiting a <> [] ->
  wp (InitializeAudio plln pllr i2sdiv i2sodd)
    (fun _ s' => handed (a, w) = handed s' ++ waiting a /\ waiting s'.1 = [] /\
       DMARunning s'.1 = false /\ d_active (dma s'.2) = true) (a, w).
Proof.
  intros [Hr Hw] Hne. apply wp_InitializeAudio. intros w1 H1. cbn [fst snd] in *. split_and!; [|done|done|].
  - unfold handed. cbn [fst snd]. by rewrite H1, app_nil_r.
  - rewrite H1, <- Hr. apply Hw. unfold waiting in Hne. by destruct (NextBufferSamples a).
Qed.
End Dma.

(** ** Witnesses *)

Definition no_callback : Z -> Z -> demo_board -> demo_board := fun _ _ w => w.
Definition idle_audio : audio_t * demo_board := (audio_zero, demo_world).
Definition busy_audio : audio_t * demo_board :=
  (Audio false 0 (Some 2) 512 1 true, DemoBoard demo_panel (Dma 1 512 true [(1, 512)]) []).

Lemma idle_audio_inv : audio_inv (Idle, [], idle_audio).
Proof. by split_and!. Qed.

Lemma audio_buffers_in_order_witness :
  exists s', rtc (audio_step no_callback) (Idle, [], idle_audio) (Idle, [(1, 512)], s') /\
    d_started (dma s'.2) ++ waiting s'.1 = [(1, 512)] /\ (waiting s'.1 <> [] -> d_active (dma s'.2) = true).
Proof.
  eexists. assert (Hr : rtc (audio_step no_callback) (Idle, [], idle_audio)
    (Idle, [(1, 512)], final (provide_critical no_callback 1 512) idle_audio)).
  { eapply rtc_l; [by apply (step_test _ _ _ (1, 512))|]. eapply rtc_l; [by eapply (step_accept _ [])|apply rtc_refl]. }
  split; [exact Hr|]. exact (audio_buffers_in_order no_callback (fun _ _ _ => eq_refl) _ _ _ _ _ _ idle_audio_inv Hr).
Defined.

Lemma provide_audio_buffer_returns_witness :
  wp (ProvideAudioBuffer no_callback 3 512)
    (fun _ s' => audio_ok s' /\ handed s' = handed busy_audio ++ [(3, 512)]) busy_audio.
Proof. apply (provide_audio_buffer_returns no_callback (fun _ _ _ => eq_refl) 3 512 busy_audio). by split. Defined.

Lemma rate_change_loses_buffer_witness :
  wp (InitializeAudio 256 5 12 1)
    (fun _ s' => handed busy_audio = handed s' ++ waiting busy_audio.1 /\ waiting s'.1 = [] /\
       DMARunning s'.1 = false /\ d_active (dma s'.2) = true) busy_audio.
Proof. apply (rate_change_loses_buffer 256 5 12 1 busy_audio.1 busy_audio.2); [by split|done]. Defined.
