(* ===== verification/Stm32Sound.v ===== *)
(** * stm32/sound.c: the sound driver of the board, over libs/Audio *)

From S2P Require Import Prelude Libc Snd IoBuffer HostShared State Board Audio.

Definition LED_SOUND : Z := 2.

(** [ss], and the variables of Audio.c behind it. *)
Record snd_t : Type := Snd32 {
  ss_state : sound_state_e;
  ss_rate : sound_rate_e;
  ss_channels : Z;
  ss_audio : audio_t
}.
Definition snd_zero : snd_t := Snd32 SS_UNKNOWN SR_UNKNOWN 0 audio_zero.

Module Sound.
Section Driver.
Context {W : Type} `{B : Board W} `{T : Target} `{C : Config}.
Abbreviation MS := (M (snd_t * W)).
Abbreviation MI := (M ((snd_t * W) * io_t)).

Definition on_audio {A} : M (audio_t * W) A -> MS A :=
  zoom (fun s => (ss_audio s.1, s.2)) (fun x s => (Snd32 (ss_state s.1) (ss_rate s.1) (ss_channels s.1) x.1, x.2)).
Definition on_s {A} : MS A -> MI A := zoom fst (fun h x => (h, x.2)).
Definition on_i {A} : M io_t A -> MI A := zoom snd (fun i x => (x.1, i)).

Definition set_state (st : sound_state_e) : MS unit :=
  upd_x (fun s => Snd32 st (ss_rate s) (ss_channels s) (ss_audio s)).

Definition s_debug {S} (fmt : list Z) (args : list arg) : M S unit := when CONFIG_SOUND_DEBUG (xprintf fmt args).

(** The settings of Audio.h: PLLI2S and the divider of I2S. *)
Definition audio_settings (rate : sound_rate_e) : option (Z * Z * Z * Z) :=
  match rate with
  | SR_8000_HZ => Some (256, 5, 12, 1)
  | SR_16000_HZ => Some (213, 2, 13, 0)
  | SR_22050_HZ => Some (429, 4, 9, 1)
  | SR_32000_HZ => Some (213, 2, 6, 1)
  | SR_44100_HZ => Some (271, 2, 6, 0)
  | SR_48000_HZ => Some (258, 3, 3, 1)
  | _ => None
  end.

Definition audio_setup (new_rate : sound_rate_e) (new_channels : Z) : MS unit :=
  let freq := snd_rate2freq new_rate in
  s_debug &"%s (%d, %d)\n" [AStr &"audio_setup"; AInt freq; AInt new_channels] ;;
  match audio_settings new_rate with
  | Some (plln, pllr, i2sdiv, i2sodd) =>
      on_audio (InitializeAudio plln pllr i2sdiv i2sodd) ;;
      upd_x (fun s => Snd32 (ss_state s) new_rate new_channels (ss_audio s))
  | None => xprintf &"%s: Unsupported frequency %dHz\n" [AStr &"audio_setup"; AInt freq]
  end.

(** The LED follows the number of the buffer. *)
Definition audio_callback (context buffer : Z) : W -> W :=
  hw_call (if negb (buffer =? 0) then STM_EVAL_LEDOn LED_SOUND else STM_EVAL_LEDOff LED_SOUND).

Definition host_snd_init : MS unit :=
  s_debug (&"%s\n" ++ [9]) [AStr &"host_snd_init"] ;;
  upd_x (fun s => Snd32 SS_UNKNOWN SR_UNKNOWN 0 (ss_audio s)) ;;
  audio_setup SR_44100_HZ 2 ;;
  on_audio (SetAudioVolume 255) ;;
  on_audio (PlayAudioWithCallback audio_callback 0) ;;
  set_state SS_INIT.

Definition host_snd_done : MS unit := ret tt.

(** The volume is applied in place, to the samples in use. *)
Definition scale_output (index volume : Z) (buff : output_s) : M io_t unit :=
  let* samples := lift (pcm_apply_volume (Some (samples_of_bytes (out_data buff)))
                          (Z.to_nat (out_used buff / 2)) volume) in
  with_output index (fun o => Output (bytes_of_samples samples) (out_size o) (out_used o) (out_rate o) (out_channels o)).

(** The buffer that is handed to the audio output is the slot of the output ring. *)
Definition host_snd_poll (volume : Z) : MI unit :=
  let* r := on_i o_pop in
  match r with
  | None => on_s (xprintf &"%s: buff is null!\n" [AStr &"host_snd_poll"] ;; set_state SS_ERROR)
  | Some index =>
      let* x := get in
      let* buff := lift (zget (output x.2) index) in
      if bogus_frame buff then
        on_s (s_debug &"%s: bogus frame (rate: %d, channels: %d, size: %d)\n"
          [AStr &"host_snd_poll"; AInt (rate_code (out_rate buff)); AInt (out_channels buff); AInt (out_size buff)])
      else
        on_s (when (negb (bool_decide (out_rate buff = ss_rate x.1.1)) || negb (out_channels buff =? ss_channels x.1.1))
          (audio_setup (out_rate buff) (out_channels buff))) ;;
        let* x := get in
        if bool_decide (ss_state x.1.1 = SS_ERROR) then ret tt
        else
          on_s (when (bool_decide (ss_state x.1.1 = SS_PAUSE)) (on_audio AudioOn)) ;;
          on_i (scale_output index volume buff) ;;
          let samples := u32 (Z.quot (out_used buff) (out_channels buff)) in
          on_s (on_audio (ProvideAudioBuffer audio_callback index (s32 samples)) ;;
                set_state SS_PLAYING)
  end.

Fixpoint snd_loop_n (fuel : nat) (st : pl_state_e) (volume : Z) : MI unit :=
  match fuel with
  | O => nofuel
  | S fuel' =>
      let* x := get in
      if bool_decide (ss_state x.1.1 = SS_ERROR) then ret tt
      else
        let* used := on_i o_used in
        if used =? 0 then on_s (when (bool_decide (ss_state x.1.1 = SS_PLAYING)) (set_state SS_PAUSE))
        else if negb (bool_decide (st = PL_PLAYING)) then ret tt
        else
          host_snd_poll volume ;;
          let* used := on_i o_used in
          if negb (used =? 0) then snd_loop_n fuel' st volume else ret tt
  end.

(** Every round takes one block, or finds none and sets the error state. *)
Definition host_snd_loop (st : pl_state_e) (volume : Z) : MI unit :=
  let* used := on_i o_used in
  snd_loop_n (S (S (Z.to_nat used))) st volume.

Definition host_snd_state : MS sound_state_e := get_x ss_state.

Definition snd_state_text (st : sound_state_e) : list Z :=
  match st with
  | SS_UNKNOWN => &"not initialized.\n"
  | SS_INIT => &"initialized.\n"
  | SS_PLAYING => &"playing.\n"
  | SS_PAUSE => &"paused.\n"
  | SS_ERROR => &"sum ting wong.\n"
  end.

Definition cmd_snd_state (volume : Z) : MS unit :=
  let* s := get_x id in
  xprintf &"snd_state: " [] ;;
  xprintf (snd_state_text (ss_state s)) [] ;;
  xprintf &"snd_rate: " [] ;;
  let freq := snd_rate2freq (ss_rate s) in
  (if freq =? 0 then xprintf &"not set yet.\n" [] else xprintf &"%dHz\n" [AInt freq]) ;;
  xprintf &"channels: %d\n" [AInt (ss_channels s)] ;;
  xprintf &"volume: %d\n" [AInt volume] ;;
  xprintf &"\n" [].
End Driver.
End Sound.
