(* ===== verification/Stm32SoundProps.v ===== *)
(** * The sound loop of the board

    Every block of the output ring reaches the DMA stream; the blocks stay where they are,
    in the slots of the ring, while the stream reads them. *)

From stdpp Require Import sets.
From S2P Require Import Prelude Libc Snd Ring IoBuffer HostShared State Board Audio AudioProps Stm32Sound.

Section Loop.
Context {W : Type} `{B : Board W} `{L : !BoardLaws W B} `{T : Target} `{C : Config}.
Implicit Types (w : W) (s : snd_t) (io : io_t).

Lemma callback_quiet c n w : dma (Sound.audio_callback c n w) = dma w.
Proof. apply law_dma_hw. Qed.

(** The number of 16-bit words that are transferred for a block. *)
Definition words (b : output_s) : Z := s32 (u32 (Z.quot (out_used b) (out_channels b))).

Definition scaled_block (v : Z) (b : output_s) : output_s :=
  Output (bytes_of_samples (scaled v b)) (out_size b) (out_used b) (out_rate b) (out_channels b).

(** The slots of the blocks from position [t] of the ring on, and their lengths. *)
Fixpoint transfers (m t : Z) (l : list output_s) : list (Z * Z) :=
  match l with [] => [] | b :: l' => (t mod m, words b) :: transfers m (t + 1) l' end.

(** The driver plays at the rate of the block. *)
Definition tuned s (b : output_s) : Prop := playable b /\ out_rate b = ss_rate s /\ out_channels b = ss_channels s.

Definition player_ok (x : snd_t * W) : Prop := ss_state x.1 <> SS_ERROR /\ audio_ok (ss_audio x.1, x.2).
Definition given (x : snd_t * W) : list (Z * Z) := handed (ss_audio x.1, x.2).

Lemma wp_AudioOn a w (Q : unit -> audio_t * W -> Prop) :
  (forall w', dma w' = dma w -> Q tt (a, w')) -> wp AudioOn Q (a, w).
Proof.
  intros HQ. unfold AudioOn. apply wp_bind, wp_WriteRegister. intros w1 H1. apply wp_put_other; [done|].
  intros w2 H2. apply HQ. congruence.
Qed.

(** One block. *)
Lemma wp_stm32_snd_poll v s w io qi qo b :
  queues io qi (b :: qo) -> tuned s b -> player_ok (s, w) ->
  let i := tail (io_o io) mod max_buffers (io_o io) in
  wp (Sound.host_snd_poll v) (fun _ x =>
    queues x.2 qi qo /\ tail (io_o x.2) = tail (io_o io) + 1 /\ max_buffers (io_o x.2) = max_buffers (io_o io) /\
    output x.2 = <[Z.to_nat i := scaled_block v b]> (output io) /\
    ss_rate x.1.1 = ss_rate s /\ ss_channels x.1.1 = ss_channels s /\ ss_state x.1.1 = SS_PLAYING /\
    player_ok x.1 /\ given x.1 = given (s, w) ++ [(i, words b)]) ((s, w), io).
Proof.
  intros Hq (Hb & Hr & Hc) [Hs Ha] i. cbn [fst snd] in Hs, Ha. unfold Sound.host_snd_poll, Sound.on_i at 1. do 2 wp_step. cbn [fst snd].
  eapply wp_o_pop_at; [exact Hq|]. intros io1 Hpop Ht Hm Ho. fold i in Hpop |- *. pose proof Hpop as (_ & Hg & _).
  wp_steps. cbn [fst snd]. eapply wp_lift; [exact Hg|]. rewrite (proj1 Hb), Hr, Hc, Z.eqb_refl, bool_decide_eq_true_2 by done.
  cbn [negb orb when]. wp_step. unfold Sound.on_s at 1. wp_steps. cbn [fst snd]. rewrite bool_decide_eq_false_2 by done.
  wp_step. unfold Sound.on_s at 1. wp_step. cbn [fst snd].
  assert (Hon : wp (when (bool_decide (ss_state s = SS_PAUSE)) (Sound.on_audio AudioOn))
    (fun _ x => x.1 = s /\ dma x.2 = dma w) (s, w)).
  { apply wp_when; [|done]. intros _. unfold Sound.on_audio. wp_step. cbn [fst snd]. apply wp_AudioOn. intros w1 H1. cbn. by destruct s. }
  refine (wp_mono _ _ _ _ _ Hon). intros [] [s1 w1] [Hs1 Hd1]. cbn [fst snd] in Hs1, Hd1. subst s1.
  wp_step. unfold Sound.on_i at 1, Sound.scale_output. do 2 wp_step. cbn [fst snd].
  eapply wp_lift; [by apply pcm_apply_playable|]. unfold with_output. wp_steps. eapply wp_lift; [exact Hg|]. wp_step.
  pose proof (zget_range _ _ _ Hg) as Hi. eapply wp_lift; [by apply zset_some|]. wp_steps. cbn [fst snd].
  unfold Sound.on_s. do 2 wp_step. cbn [fst snd]. unfold Sound.on_audio at 1. wp_step. cbn [fst snd].
  assert (Ha1 : audio_ok (ss_audio s, w1)) by (destruct Ha as [H1 H2]; split; cbn [fst snd] in *; by rewrite ?Hd1).
  refine (wp_mono _ _ _ _ _ (wp_provide Sound.audio_callback callback_quiet i _ (ss_audio s, w1) Ha1)).
  intros [] [a2 w2] [Ha2 Hh2]. apply wp_upd_x. cbn [fst snd ss_state ss_rate ss_channels ss_audio].
  destruct Hpop as (_ & _ & Hqs). split_and!; try done.
  - eapply Hqs. by apply zset_some.
  - cbn [set_output output]. by rewrite Ho.
  - unfold given. cbn [fst snd ss_audio]. rewrite Hh2. unfold handed, words. cbn [fst snd]. by rewrite Hd1, Hc.
Qed.

Lemma queue_length io qi qo : queues io qi qo -> zlen qo <= max_buffers (io_o io) /\ ring_ok (io_o io) /\ zlen (output io) = max_buffers (io_o io).
Proof.
  intros ((_ & _ & Ho & Hol) & _ & Hqo). split_and!; [|done|done]. rewrite <- Hqo. unfold o_queue.
  rewrite pending_length by done. destruct Ho as (_ & _ & _ & Hn). lia.
Qed.

(** What the loop does with the pending blocks: their slots go to the stream, in order,
    and hold the samples at the volume; no other slot changes. *)
Definition played_blocks (v m t : Z) (qo : list output_s) (before after : io_t) : Prop :=
  (forall k b, qo !! k = Some b -> zget (output after) ((t + Z.of_nat k) mod m) = Some (scaled_block v b)) /\
  (forall j, (forall k, (k < length qo)%nat -> j <> (t + Z.of_nat k) mod m) -> zget (output after) j = zget (output before) j).

Lemma played_cons v m t b qo io io1 io2 : 0 < m -> 1 + zlen qo <= m -> zlen (output io) = m ->
  output io1 = <[Z.to_nat (t mod m) := scaled_block v b]> (output io) ->
  played_blocks v m (t + 1) qo io1 io2 -> played_blocks v m t (b :: qo) io io2.
Proof.
  intros Hm Hlen Hz H1 [Hin Hout]. pose proof (Z.mod_pos_bound t m Hm) as Ht.
  assert (Hs : zset (output io) (t mod m) (scaled_block v b) = Some (output io1)) by (rewrite H1; apply zset_some; lia).
  split.
  - intros [|k] c Hc; cbn in Hc.
    + injection Hc as <-. rewrite Z.add_0_r, Hout; [by eapply zget_zset_eq|].
      intros k Hk. unfold zlen in *. rewrite <- Z.add_assoc. intros He. apply (mod_distinct t (t + (1 + Z.of_nat k)) m); [lia..|done].
    + specialize (Hin k c Hc). by replace (t + Z.of_nat (S k)) with (t + 1 + Z.of_nat k) by lia.
  - intros j Hj. rewrite Hout.
    + eapply zget_zset_ne; [exact Hs|]. intros He. apply (Hj O); [cbn; lia|]. rewrite Z.add_0_r. congruence.
    + intros k Hk He. apply (Hj (S k)); [cbn; lia|]. rewrite He. f_equal. lia.
Qed.

Lemma wp_stm32_snd_loop v qi qo : forall fuel s w io,
  queues io qi qo -> Forall (tuned s) qo -> player_ok (s, w) -> (length qo < fuel)%nat ->
  wp (Sound.snd_loop_n fuel PL_PLAYING v) (fun _ x =>
    queues x.2 qi [] /\ tail (io_o x.2) = tail (io_o io) + zlen qo /\ max_buffers (io_o x.2) = max_buffers (io_o io) /\
    player_ok x.1 /\ given x.1 = given (s, w) ++ transfers (max_buffers (io_o io)) (tail (io_o io)) qo /\
    (qo <> [] -> ss_state x.1.1 = SS_PLAYING) /\
    played_blocks v (max_buffers (io_o io)) (tail (io_o io)) qo io x.2) ((s, w), io).
Proof.
  induction qo as [|b qo IH]; intros fuel s w io Hq Hp Hh Hf; (destruct fuel as [|fuel]; [lia|]);
    cbn [Sound.snd_loop_n]; wp_steps; cbn [fst snd]; rewrite bool_decide_eq_false_2 by apply Hh; cbn iota;
    wp_step; unfold Sound.on_i at 1, o_used; wp_steps; cbn [fst snd]; rewrite (o_used_queue _ _ _ Hq).
  - change (zlen (@nil output_s) =? 0) with true. cbn iota. unfold Sound.on_s. wp_step. cbn [fst snd transfers].
    apply wp_when; intros _; [apply wp_upd_x; cbn [fst snd]|].
    all: rewrite zlen_nil, Z.add_0_r, app_nil_r; split_and!; try done; try (split; [done|apply Hh]); by split; intros ? ? || done.
  - rewrite zlen_cons. destruct (Z.eqb_spec (1 + zlen qo) 0); [pose proof (zlen_nonneg qo); lia|].
    rewrite bool_decide_eq_true_2 by done. cbn [negb]. inversion Hp as [|? ? Hb Hp']; subst.
    destruct (queue_length _ _ _ Hq) as (Hlen & (Hm & _) & Hz). rewrite zlen_cons in Hlen.
    wp_step. eapply wp_mono; [|by apply (wp_stm32_snd_poll v s w io qi qo b)].
    intros [] [[s1 w1] io1] (Hq1 & Ht1 & Hm1 & Ho1 & Hr1 & Hc1 & Hs1 & Hh1 & Hg1). cbn [fst snd] in *. wp_step. unfold Sound.on_i, o_used.
    wp_steps. cbn [fst snd]. rewrite (o_used_queue _ _ _ Hq1).
    assert (Hgo : forall io2, played_blocks v (max_buffers (io_o io)) (tail (io_o io) + 1) qo io1 io2 ->
      played_blocks v (max_buffers (io_o io)) (tail (io_o io)) (b :: qo) io io2) by (intros io2; apply played_cons; done || lia).
    destruct qo as [|b' qo].
    { wp_steps. rewrite zlen_nil. cbn [fst snd transfers]. split_and!; try done. apply Hgo. by split; intros ? ? || done. }
    rewrite zlen_cons. destruct (Z.eqb_spec (1 + zlen qo) 0); [pose proof (zlen_nonneg qo); lia|]. cbn [negb].
    eapply wp_mono; [|apply (IH fuel s1 w1 io1); try done; [|simpl in *; lia]].
    + intros [] x (Hqx & Htx & Hmx & Hpx & Hgx & Hst & Hpl). rewrite Ht1, Hm1 in *. split_and!; try done.
      * rewrite zlen_cons in Htx. lia.
      * rewrite Hgx, Hg1, <- app_assoc. done.
      * intros _. by apply Hst.
      * by apply Hgo.
    + revert Hp'. apply List.Forall_impl. intros c (H1 & H2 & H3). split_and!; [done|by rewrite Hr1|by rewrite Hc1].
Qed.
(** C28: On the board, when every pending block has the rate and the channels that the audio
    output is set to and none is bogus, one call of the sound loop hands all of them to the audio
    output, in order: the transfers are those of the slots of the ring, which then
    hold the samples at the player's volume; the other slots are not touched, the output
    ring is empty, and the wait for the DMA ends each time.  (A block of another rate sets the
    output up again, and the block that still waits is lost: [rate_change_loses_buffer].) *)
Theorem stm32_snd_loop_plays v s w io qi qo :
  queues io qi qo -> Forall (tuned s) qo -> player_ok (s, w) ->
  wp (Sound.host_snd_loop PL_PLAYING v) (fun _ x =>
    queues x.2 qi [] /\ player_ok x.1 /\
    given x.1 = given (s, w) ++ transfers (max_buffers (io_o io)) (tail (io_o io)) qo /\
    (qo <> [] -> ss_state x.1.1 = SS_PLAYING) /\
    played_blocks v (max_buffers (io_o io)) (tail (io_o io)) qo io x.2) ((s, w), io).
Proof.
  intros Hq Hp Hh. unfold Sound.host_snd_loop, Sound.on_i, o_used. wp_steps. cbn [fst snd].
  rewrite (o_used_queue _ _ _ Hq).
  eapply wp_mono; [|apply (wp_stm32_snd_loop v qi qo _ s w io); try done; unfold zlen; lia].
  intros [] x (Hqx & _ & _ & Hpx & Hg & Hst & Hpl). done.
Qed.

(** ** Slots that the stream still reads *)

(** The slot of the running transfer and the one that waits. *)
Definition in_use (x : snd_t * W) : list Z :=
  (if d_active (dma x.2) then match list.last (d_started (dma x.2)) with Some b => [b.1] | None => [] end else [])
  ++ map fst (waiting (ss_audio x.1)).

(** The last two blocks that were handed over. *)
Lemma in_use_last_two x g b1 b2 : given x = g ++ [b1; b2] -> player_ok x ->
  forall i, i ∈ in_use x -> i = b1.1 \/ i = b2.1.
Proof.
  unfold given, handed, in_use, waiting. cbn [fst snd]. intros Hg _ i. change [b1; b2] with ([b1] ++ [b2]) in Hg. rewrite app_assoc in Hg.
  destruct (NextBufferSamples _) as [p|]; cbn [map].
  - apply app_inj_tail in Hg as [Hd <-]. rewrite Hd, last_snoc. destruct (d_active _); set_solver.
  - rewrite !app_nil_r in *. rewrite Hg, last_snoc. destruct (d_active _); set_solver.
Qed.

(** While a buffer waits both of them are. *)
Lemma in_use_both x g b1 b2 : given x = g ++ [b1; b2] -> player_ok x -> waiting (ss_audio x.1) <> [] ->
  b1.1 ∈ in_use x.
Proof.
  unfold given, handed, in_use, waiting. cbn [fst snd]. intros Hg [_ [Hr Hn]] Hw. change [b1; b2] with ([b1] ++ [b2]) in Hg. rewrite app_assoc in Hg.
  cbn [fst snd] in Hr, Hn. destruct (NextBufferSamples _) as [p|] eqn:Hp; [|done].
  apply app_inj_tail in Hg as [Hd _]. rewrite Hd, last_snoc, <- Hr, Hn by done. set_solver.
Qed.

Lemma wp_o_push_slot io (Q : Z -> io_t -> Prop) : io_ok io ->
  head (io_o io) - tail (io_o io) < max_buffers (io_o io) -> head (io_o io) < 4294967295 ->
  (forall io', Q (head (io_o io) mod max_buffers (io_o io)) io') -> wp o_push Q io.
Proof.
  intros (_ & _ & Ho & Hol) Hroom Hn HQ. unfold o_push. do 2 wp_step. apply wp_io_push; [done|lia|lia|].
  unfold io_output_reset_buffer. wp_steps. simpl. eapply wp_lift; [apply zset_some; by apply slot_in_range|]. wp_steps. apply HQ.
Qed.

(** The decoder may write into a slot that the DMA stream is still reading.  After
    two blocks were handed to the audio output, a ring of [m] slots has [m - 2] free ones:
    the block pushed when [m - 3] or fewer are pending gets one of them, but with [m - 2]
    pending, while the ring itself still counts two free slots, [o_push] clears the slot
    of the running transfer. *)
Theorem output_slot_reuse s w io qi qo g n1 n2 :
  let m := max_buffers (io_o io) in let t := tail (io_o io) in
  queues io qi qo -> 3 <= m -> head (io_o io) < 4294967295 -> player_ok (s, w) ->
  given (s, w) = g ++ [((t - 2) mod m, n1); ((t - 1) mod m, n2)] ->
  zlen qo < m ->
  wp o_push (fun i _ =>
    (zlen qo <= m - 3 -> i ∉ in_use (s, w)) /\
    (zlen qo = m - 2 -> waiting (ss_audio s) <> [] -> i ∈ in_use (s, w))) io.
Proof.
  intros m t Hq Hm Hlt Hok Hg Hn.
  assert (Hlen : head (io_o io) = t + zlen qo).
  { destruct Hq as ((_ & _ & Ho & Hol) & _ & <-). unfold o_queue. rewrite pending_length by done. unfold t. lia. }
  apply wp_o_push_slot; [apply Hq|unfold m, t in *; lia|done|]. intros _. fold m. rewrite Hlen. split.
  - intros Hle Hi. pose proof (zlen_nonneg qo). destruct (in_use_last_two _ _ _ _ Hg Hok _ Hi) as [He|He]; cbn [fst] in He.
    + symmetry in He. revert He. apply mod_distinct; lia.
    + symmetry in He. revert He. apply mod_distinct; lia.
  - intros He Hw. replace (t + zlen qo) with (t - 2 + 1 * m) by lia. rewrite Z.mod_add by lia.
    exact (in_use_both _ _ _ _ Hg Hok Hw).
Qed.

(** The length of a transfer counts 16-bit words: it covers the samples in use of a stereo
    block, but of a mono block it covers twice as many bytes as are in use. *)
Lemma words_of_block b : 0 <= out_used b < 65536 ->
  (out_channels b = 2 -> 2 * words b = out_used b - out_used b mod 2) /\
  (out_channels b = 1 -> 2 * words b = 2 * out_used b).
Proof.
  intros Hu. unfold words. split; intros ->.
  - rewrite Z.quot_div_nonneg by lia. pose proof (Z.div_mod (out_used b) 2). pose proof (Z.mod_pos_bound (out_used b) 2).
    assert (0 <= out_used b / 2 < 65536) by (split; [apply Z.div_pos; lia|apply Z.div_lt_upper_bound; lia]). wraps. lia.
  - rewrite Z.quot_1_r. wraps. lia.
Qed.
End Loop.

(** ** Concrete runs *)

#[local] Existing Instances demo_board_ops demo_board_laws.

Definition stereo_block : output_s := Output [0; 1; 0; 2; 0; 3; 0; 4] 8 8 SR_44100_HZ 2.
Definition one_pending : io_t :=
  IoState (Io &"input" 0 0 4) (Io &"output" 1 0 4) (repeat fresh_input 4) (stereo_block :: repeat fresh_output 3).

Lemma one_pending_queues : queues one_pending [] [stereo_block].
Proof. unfold queues, io_ok, ring_ok. vm_compute. split_and!; try done; intros ?; discriminate. Qed.

Definition ready_sound : snd_t := Snd32 SS_INIT SR_44100_HZ 2 (Audio true 0 None 0 0 false).

Lemma stm32_snd_loop_plays_witness :
  wp (@Sound.host_snd_loop _ _ stm32_target (default_config false) PL_PLAYING 8) (fun _ x =>
    queues x.2 [] [] /\ player_ok x.1 /\
    given x.1 = given (ready_sound, demo_world) ++ transfers 4 0 [stereo_block] /\
    ([stereo_block] <> [] -> ss_state x.1.1 = SS_PLAYING) /\
    played_blocks 8 4 0 [stereo_block] one_pending x.2) ((ready_sound, demo_world), one_pending).
Proof.
  apply (@stm32_snd_loop_plays _ _ _ stm32_target (default_config false) 8 ready_sound demo_world one_pending [] [stereo_block]);
    [exact one_pending_queues| |by repeat split].
  constructor; [|constructor]. split; [|done]. split; [reflexivity|]. vm_compute. lia.
Defined.

(** Two blocks were handed over, two more are pending. *)
Definition busy_sound : snd_t := Snd32 SS_PLAYING SR_44100_HZ 2 (Audio true 0 (Some 1) 4 1 true).
Definition busy_world : demo_board := DemoBoard demo_panel (Dma 0 4 true [(0, 4)]) [].
Definition two_pending : io_t :=
  IoState (Io &"input" 0 0 4) (Io &"output" 4 2 4) (repeat fresh_input 4) (repeat stereo_block 4).

Lemma output_slot_reuse_witness :
  wp (@o_push stm32_target) (fun i _ =>
    (2 <= 4 - 3 -> i ∉ in_use (busy_sound, busy_world)) /\
    (2 = 4 - 2 -> waiting (ss_audio busy_sound) <> [] -> i ∈ in_use (busy_sound, busy_world))) two_pending.
Proof.
  apply (@output_slot_reuse _ _ _ stm32_target busy_sound busy_world two_pending [] [stereo_block; stereo_block] [] 4 4);
    [|done|done| |reflexivity|reflexivity].
  - unfold queues, io_ok, ring_ok. vm_compute. split_and!; try done; intros ?; discriminate.
  - repeat split; done.
Defined.
