(* ===== verification/Stm32Console.v ===== *)
(** * stm32/console.c: the serial console of the board

    Characters arrive by interrupt.  The handler edits the line and queues events for the
    main loop; from the end of a line until the main loop has run the command, the line is
    locked and the handler drops what arrives. *)

From S2P Require Import Prelude Libc Console Event Board Stm32Timer.

Definition USART3_IRQn : Z := 39.
Definition USART_IT_RXNE : Z := 1317.

Module Serial.
Section Driver.
Context {W : Type} `{B : Board W} `{T : Target}.
Abbreviation MT := (M (tim_t * W)).
Abbreviation MC := (M ((tim_t * W) * con_t * ev_t)).

Definition sendchar (val : Z) : MT unit :=
  wait_flag USART_FLAG_TXE true ;;
  calls [USART_SendData val].

Definition getchar : MT Z :=
  wait_flag USART_FLAG_RXNE true ;;
  hw_ask USART_ReceiveData.

Definition usart3_init_calls : list hw :=
  let pin p := GpioInit p GPIO_Mode_AF GPIO_OType_PP GPIO_Speed_50MHz GPIO_PuPd_UP in
  [ RCC_AHB1PeriphClockCmd 8; RCC_APB1PeriphClockCmd 262144;
    GPIO_PinAFConfig GPIOD 8 7; GPIO_PinAFConfig GPIOD 9 7;
    GPIO_Init GPIOD (pin (GPIO_Pin 8)); GPIO_Init GPIOD (pin (GPIO_Pin 9));
    USART_Init (UsartInit 115200 0 0 0 0 (Z.lor 4 8));
    NVIC_Init USART3_IRQn; USART_ITConfig USART_IT_RXNE; USART_Cmd ].

Definition usart3_init : MT unit := calls usart3_init_calls.

Definition on_h {A} : MT A -> MC A := zoom (fun x => x.1.1) (fun h x => (h, x.1.2, x.2)).
Definition on_c {A} : M con_t A -> MC A := zoom (fun x => x.1.2) (fun c x => (x.1.1, c, x.2)).
Definition on_e {A} : M ev_t A -> MC A := zoom snd (fun e x => (x.1.1, x.1.2, e)).

Definition con_event (type : event_type_e) (par : Z) : MC unit :=
  let* time := on_h get_local_time in on_e (event_push time type par PNull).

(** The handler of the interrupt. *)
Definition usart3_handle_it : MC unit :=
  let* ch := on_h (hw_ask USART_ReceiveData) in
  let* locked := on_c con_input_islocked in
  when (locked =? 0)
    (if ch =? 13 then
       on_c con_input_lock ;;
       con_event E_CON_ECHO 10 ;;
       con_event E_CON_INPUT 0
     else
       let* n := on_c con_input_hasinput in
       if (ch =? 8) && negb (n =? 0) then
         on_c con_input_del ;;
         con_event E_CON_DEL 0
       else
         on_c (con_input_push ch) ;;
         con_event E_CON_ECHO ch).

(** [xdev_out(sendchar)] makes the serial line the device that [xprintf] writes to. *)
Definition host_con_init : MT unit := usart3_init.

Definition host_con_poll : MC unit := ret tt.
End Driver.
End Serial.
