(* ===== verification/Stm32ConsoleProps.v ===== *)
(** * The serial console of the board keeps what is typed *)

From S2P Require Import Prelude Libc Ring Console Event Board Stm32Timer Stm32Console.

Section Typing.
Context {W : Type} `{B : Board W} `{T : Target}.
Implicit Types (w : W) (t : tim_t) (c : con_t) (e : ev_t).

(** The characters that the serial line delivers next. *)
Fixpoint arrives w (cs : list Z) : Prop :=
  match cs with [] => True | ch :: cs' => exists w', USART_ReceiveData w = (ch, w') /\ arrives w' cs' end.

(** Some interrupts, one after the other. *)
Fixpoint keys (n : nat) : M ((tim_t * W) * con_t * ev_t) unit :=
  match n with O => ret tt | S n' => Serial.usart3_handle_it ;; keys n' end.

(** What a character makes of an unlocked line. *)
Definition edit1 (l : list Z) (ch : Z) : list Z :=
  if (ch =? 8) && negb (zlen l =? 0) then removelast l
  else if MAX_CONSOLE_INPUT <=? zlen l then l else l ++ [u8 ch].

(** The line after some characters; the return key locks it. *)
Definition edit (st : bool * list Z) (ch : Z) : bool * list Z :=
  if st.1 then st else if ch =? 13 then (true, st.2) else (false, edit1 st.2 ch).

Definition con_input_event (x : event_t) : Prop := e_type x = E_CON_INPUT.

(** Events that the dispatcher handles. *)
Definition no_none (q : list event_t) : Prop := Forall (fun x => e_type x <> E_NONE) q.

(** A locked line has a command on the way. *)
Definition lock_answered (locked : bool) (q : list event_t) : Prop := locked = true -> Exists con_input_event q.

Lemma ev_push_spec_new q x : In x (ev_push_spec q x).
Proof. unfold ev_push_spec. destruct (_ <? _); [|destruct (_ =? _)]; [apply in_or_app; right|..]; by left. Qed.

Lemma wp_con_event type par t w c e (Q : unit -> (tim_t * W) * con_t * ev_t -> Prop) :
  ev_ok e -> ev_head e < 4294967295 ->
  (forall e' x, ev_ok e' -> ev_head e' = ev_head e + 1 -> e_type x = type -> ev_queue e' = ev_push_spec (ev_queue e) x ->
     Q tt ((t, w), c, e')) ->
  wp (Serial.con_event type par) Q ((t, w), c, e).
Proof.
  intros He Hh HQ. unfold Serial.con_event, Serial.on_h, get_local_time. do 2 wp_step. apply wp_get_x. cbn [fst snd].
  unfold Serial.on_e. wp_step. cbn [fst snd]. apply wp_event_push; [done|done|]. intros e' He' Hh' Hq'. eapply HQ; [done|done| |exact Hq']. done.
Qed.

(** One interrupt. *)
Lemma wp_usart3_handle_it ch t w w' c e st :
  USART_ReceiveData w = (ch, w') -> con_rep c st -> ev_ok e -> ev_head e < 4294967294 ->
  lock_answered st.1 (ev_queue e) ->
  wp Serial.usart3_handle_it (fun _ x => x.1.1 = (t, w') /\ con_rep x.1.2 (edit st ch) /\ ev_ok x.2 /\
    ev_head e <= ev_head x.2 <= ev_head e + 2 /\ lock_answered (edit st ch).1 (ev_queue x.2) /\
    (no_none (ev_queue e) -> no_none (ev_queue x.2))) ((t, w), c, e).
Proof.
  assert (Hpush : forall q x type, e_type x = type -> type <> E_NONE -> no_none q -> no_none (ev_push_spec q x)).
  { intros q x type <- Hx Hq. by apply ev_push_spec_Forall. }
  intros Hr Hc He Hh Hl. unfold Serial.usart3_handle_it, Serial.on_h. do 2 wp_step. apply wp_hw_ask. cbn [fst snd].
  intros a w1 Ha. rewrite Ha in Hr. injection Hr as -> ->. unfold Serial.on_c, con_input_islocked. do 3 wp_step. cbn [fst snd].
  destruct st as [locked l]. pose proof Hc as (Hlock & Hidx & _). cbn [fst snd] in Hlock, Hidx. rewrite Hlock. unfold edit. cbn [fst snd] in *.
  destruct locked; cbn [when Z.eqb]; [wp_step; cbn; split_and!; done || lia|].
  destruct (Z.eqb_spec ch 13) as [->|Hne].
  - wp_step. wp_step. cbn [fst snd]. eapply wp_mono; [|apply (wp_con_step KeyLock), Hc]. intros [] c1 Hc1. cbn [fst snd] in *.
    apply wp_bind, wp_con_event; [done|lia|]. intros e1 x1 He1 Hh1 Ht1 Hq1.
    apply wp_con_event; [done|lia|]. intros e2 x2 He2 Hh2 Ht2 Hq2. cbn [fst snd]. split_and!; try done; try lia.
    + intros _. apply Exists_exists. exists x2. split; [rewrite Hq2; apply ev_push_spec_new|done].
    + intros Hq. rewrite Hq2, Hq1. by eapply Hpush, Hpush.
  - unfold con_input_hasinput. do 3 wp_step. cbn [fst snd]. rewrite Hidx. unfold edit1.
    destruct ((ch =? 8) && negb (zlen l =? 0)); wp_step; wp_step; cbn [fst snd].
    + eapply wp_mono; [|apply (wp_con_step KeyDel), Hc]. intros [] c1 Hc1. cbn [fst snd] in *.
      apply wp_con_event; [done|lia|]. intros e1 x1 He1 Hh1 Ht1 Hq1. cbn [fst snd]. split_and!; try done; try lia.
      intros Hq. rewrite Hq1. by eapply Hpush.
    + eapply wp_mono; [|apply (wp_con_step (KeyPush ch)), Hc]. intros [] c1 Hc1. cbn [fst snd line_step orb] in *.
      apply wp_con_event; [done|lia|]. intros e1 x1 He1 Hh1 Ht1 Hq1. cbn [fst snd]. split_and!; try done; try lia.
      * by destruct (_ <=? _).
      * intros Hq. rewrite Hq1. by eapply Hpush.
Qed.

Lemma wp_keys cs : forall t w c e st,
  arrives w cs -> con_rep c st -> ev_ok e -> ev_head e + 2 * zlen cs < 4294967295 -> lock_answered st.1 (ev_queue e) ->
  wp (keys (length cs)) (fun _ x => con_rep x.1.2 (fold_left edit cs st) /\ ev_ok x.2 /\
    lock_answered (fold_left edit cs st).1 (ev_queue x.2)) ((t, w), c, e).
Proof.
  induction cs as [|ch cs IH]; intros t w c e st Ha Hc He Hh Hl; cbn [keys length]; [by wp_step|].
  destruct Ha as (w' & Hr & Ha). rewrite zlen_cons in Hh. pose proof (zlen_nonneg cs). wp_step.
  eapply wp_mono; [|apply (wp_usart3_handle_it ch t w w' c e st); done || lia].
  intros [] [[[t1 w1] c1] e1] (Hw & Hc1 & He1 & Hh1 & Hl1 & _). cbn [fst snd] in *. injection Hw as -> ->.
  cbn [fold_left]. apply IH; done || lia.
Qed.

Lemma edit_locked cs l : fold_left edit cs (true, l) = (true, l).
Proof. by induction cs. Qed.

Lemma edit_typed cs : forall l, Forall (fun ch => ch <> 13) cs ->
  fold_left edit cs (false, l) = (false, fold_left edit1 cs l).
Proof.
  induction cs as [|ch cs IH]; intros l Hcs; [done|]. inversion Hcs as [|? ? Hch Hcs']; subst. cbn [fold_left].
  unfold edit at 2. cbn [fst snd]. rewrite (proj2 (Z.eqb_neq _ _) Hch). by apply IH.
Qed.

(** A line that is typed on the serial console arrives as it was edited, whatever is
    already in the event queue and whatever is typed after the return key: the console
    holds exactly the edited line, is locked, and the event that runs the command is
    pending.  A full event queue costs only echoes. *)
Theorem stm32_typed_line cs more t w c e :
  con_rep c (false, []) -> ev_ok e -> ev_head e + 2 * zlen (cs ++ 13 :: more) < 4294967295 ->
  Forall (fun ch => ch <> 13) cs -> arrives w (cs ++ 13 :: more) ->
  wp (keys (length (cs ++ 13 :: more))) (fun _ x =>
    con_rep x.1.2 (true, fold_left edit1 cs []) /\ ev_ok x.2 /\ Exists con_input_event (ev_queue x.2)) ((t, w), c, e).
Proof.
  intros Hc He Hh Hcs Ha. eapply wp_mono; [|by apply (wp_keys _ t w c e (false, []))].
  assert (Hf : fold_left edit (cs ++ 13 :: more) (false, []) = (true, fold_left edit1 cs [])).
  { rewrite fold_left_app, edit_typed by done. cbn [fold_left]. apply edit_locked. }
  rewrite Hf. intros [] x (Hx1 & Hx2 & Hx3). split_and!; [done|done|]. by apply Hx3.
Qed.
End Typing.

Lemma stm32_typed_line_witness :
  wp (@keys _ _ stm32_target 5) (fun _ x =>
    con_rep x.1.2 (true, fold_left edit1 &"stop" []) /\ ev_ok x.2 /\ Exists con_input_event (ev_queue x.2))
    ((tim_zero, demo_world), con_zero, ev_zero).
Proof.
  apply (@stm32_typed_line _ _ stm32_target &"stop" [] tim_zero demo_world con_zero ev_zero);
    [exact con_rep_zero|exact ev_ok_zero|reflexivity| |].
  - repeat constructor; discriminate.
  - cbn. do 5 (eexists; split; [reflexivity|]). exact I.
Defined.
