(* ===== verification/Stm32Fs.v ===== *)
(** * stm32/fs.c: files on a USB stick

    FatFs (libs/ff) is the class [FatFs]: its results are numbers, a file object is named
    by its slot in [fs.f]. *)

From S2P Require Import Prelude Libc State Fs Board.

Record FILINFO : Type := FilInfo {
  fsize : Z; fdate : Z; ftime : Z; fattrib : Z; fname : list Z; lfname : list Z
}.

Class FatFs (F : Type) := {
  f_mount : bool -> F -> Z * F;
  f_open : Z -> list Z -> F -> Z * F;
  f_close : Z -> F -> Z * F;
  (** The result and the bytes that were read. *)
  f_read : Z -> Z -> F -> Z * list Z * F;
  f_lseek : Z -> Z -> F -> Z * F;
  f_opendir : list Z -> F -> Z * F;
  f_readdir : F -> Z * FILINFO * F;
  f_closedir : F -> Z * F;
  f_chdir : list Z -> F -> Z * F;
  f_getcwd : Z -> F -> Z * list Z * F;
  (** The entries of the open directory that were not read yet. *)
  dir_left : F -> nat
}.

Definition FR_NOT_ENOUGH_CORE : Z := 17.

(** What its manual says: the end of a directory is reported; an object is valid from a
    successful [f_open] until it is closed or the volume is mounted again; the results are
    those below [FR_TIMEOUT], except [FR_NOT_ENOUGH_CORE] from [f_getcwd] for a long path. *)
Class FatFsLaws (F : Type) (FF : FatFs F) := {
  valid : F -> Z -> Prop;
  law_readdir f i f' : f_readdir f = (0, i, f') -> fname i <> [] -> (dir_left f' < dir_left f)%nat;
  law_open i name f r f' : f_open i name f = (r, f') ->
    0 <= r < 15 /\ (r = 0 -> valid f' i) /\ forall j, j <> i -> valid f j -> valid f' j;
  law_close i f r f' : f_close i f = (r, f') -> forall j, j <> i -> valid f j -> valid f' j;
  law_mount on f r f' : f_mount on f = (r, f') -> 0 <= r < 15;
  law_read i n f r data f' : f_read i n f = (r, data, f') ->
    0 <= r < 15 /\ forall j, valid f j -> valid f' j;
  law_seek i n f r f' : f_lseek i n f = (r, f') -> 0 <= r < 15 /\ forall j, valid f j -> valid f' j;
  law_opendir p f r f' : f_opendir p f = (r, f') -> 0 <= r < 15 /\ forall j, valid f j -> valid f' j;
  law_readdir_valid f r i f' : f_readdir f = (r, i, f') -> forall j, valid f j -> valid f' j;
  law_closedir f r f' : f_closedir f = (r, f') -> forall j, valid f j -> valid f' j;
  law_chdir p f r f' : f_chdir p f = (r, f') -> 0 <= r < 15 /\ forall j, valid f j -> valid f' j;
  law_getcwd n f r l f' : f_getcwd n f = (r, l, f') -> (0 <= r < 15 \/ r = FR_NOT_ENOUGH_CORE) /\ forall j, valid f j -> valid f' j
}.

Definition LED_FS : Z := 1.

(** [fs]; [F] holds the objects of FatFs. *)
Record fs32_t : Type := Fs32 { mounted : Z; fs_slots : list Z }.
Definition fs32_zero : fs32_t := Fs32 0 (repeat 0 (Z.to_nat MAX_OPEN_FILES)).

Definition fs_message : list (list Z * list Z) := [
  (&"FR_OK", &"Succeeded");
  (&"FR_DISK_ERR", &" A hard error occurred in the low level disk I/O layer");
  (&"FR_INT_ERR", &"Assertion failed");
  (&"FR_NOT_READY", &"The physical drive cannot work");
  (&"FR_NO_FILE", &"Could not find the file");
  (&"FR_NO_PATH", &"Could not find the path");
  (&"FR_INVALID_NAME", &"The path name format is invalid");
  (&"FR_DENIED", &"Access denied due to prohibited access or directory full");
  (&"FR_EXIST", &"Access denied due to prohibited access");
  (&"FR_INVALID_OBJECT", &"The file/directory object is invalid");
  (&"FR_WRITE_PROTECTED", &"The physical drive is write protected");
  (&"FR_INVALID_DRIVE", &"The logical drive number is invalid");
  (&"FR_NOT_ENABLED", &"The volume has no work area");
  (&"FR_NO_FILESYSTEM", &"There is no valid FAT volume");
  (&"FR_MKFS_ABORTED", &"The f_mkfs() aborted due to any parameter error") ].

Module FatFiles.
Section Driver.
Context {F W : Type} `{FF : FatFs F} `{B : Board W} `{T : Target} `{C : Config}.
Abbreviation MF := (M ((fs32_t * F) * W)).

Definition ff {A} (g : F -> A * F) : MF A := fun s =>
  let '(a, f) := g s.1.2 in Done (a, ((s.1.1, f), s.2), []).
Definition get_fs : MF fs32_t := get_x fst.
Definition slot_open (i : Z) : MF Z := let* x := get_fs in lift (zget (fs_slots x) i).
Definition set_slot (i v : Z) : MF unit :=
  let* x := get_fs in
  let* l := lift (zset (fs_slots x) i v) in
  upd_x (fun y => (Fs32 (mounted y.1) l, y.2)).
Definition set_mounted (v : Z) : MF unit := upd_x (fun y => (Fs32 v (fs_slots y.1), y.2)).

(** [message[15]] has NULL pointers, and nothing is behind it. *)
Definition fs_error (res : Z) : MF unit :=
  let* m := lift (zget fs_message res) in
  xprintf &"%s: %s\n" [AStr m.1; AStr m.2].

Definition host_fs_init : MF unit :=
  upd_x (fun y => (fs32_zero, y.2)) ;;
  for_range 0 (Z.to_nat MAX_OPEN_FILES) (fun i => set_slot i 0) ;;
  fs_debug &"    fs_host_init\n" [].

Definition host_fd_done : MF unit := ret tt.

Definition bad_slot (handle : Z) : bool := (handle <? 0) || (handle >? MAX_OPEN_FILES).

Definition host_fs_close (handle : Z) : MF unit :=
  if bad_slot handle then ret tt
  else
    let* o := slot_open handle in
    if negb (o =? 1) then ret tt
    else
      (let* _ := ff (f_close handle) in ret tt) ;;
      set_slot handle 0 ;;
      fs_debug &"fs_close\n" [].

(** The loop does not stop at the slot it has opened. *)
Fixpoint open_slots (n : nat) (i : Z) (name : list Z) : MF unit :=
  match n with
  | O => ret tt
  | S n' =>
      let* o := slot_open i in
      if o =? 0 then
        let* res := ff (f_open i name) in
        if negb (res =? 0) then fs_error res
        else set_slot i 1 ;; open_slots n' (i + 1) name
      else open_slots n' (i + 1) name
  end.

(** The name is never NULL. *)
Definition host_fs_open (name : list Z) : MF Z :=
  fs_debug &"fs_host_open\n" [] ;;
  let* x := get_fs in
  if mounted x =? 0 then ret (-1)
  else open_slots (Z.to_nat MAX_OPEN_FILES) 0 name ;; ret (-1).

Definition host_fs_read (handle size : Z) : MF (Z * list Z) :=
  when (bad_slot handle)
    (fs_debug &"host_fs_read (handle = %d): Failed. Bad handle index\n" [AInt handle]) ;;
  let* x := get_fs in
  if mounted x =? 0 then fs_debug &"host_fs_read: FS is not mounted.\n" [] ;; ret (u32 (-1), [])
  else
    let* o := slot_open handle in
    if o =? 0 then
      fs_debug &"host_fs_read (handle = %d): file is not open.\n" [AInt handle] ;; ret (u32 (-1), [])
    else if size =? 0 then
      fs_debug &"host_fs_fread: Failed. Reading into empty buffer.\n" [] ;; ret (u32 (-1), [])
    else
      let* (res, data) := ff (f_read handle size) in
      if negb (res =? 0) then fs_error res ;; ret (u32 (-1), data)
      else ret (u32 (zlen data), data).

Definition host_fs_seek (handle offset : Z) : MF unit :=
  when (bad_slot handle)
    (fs_debug &"host_fs_read (handle = %d): Failed. Bad handle index\n" [AInt handle]) ;;
  let* x := get_fs in
  if mounted x =? 0 then fs_debug &"host_fs_read: FS is not mounted.\n" []
  else
    let* o := slot_open handle in
    if o =? 0 then fs_debug &"host_fs_read (handle = %d): file is not open.\n" [AInt handle]
    else
      let* res := ff (f_lseek handle offset) in
      when (negb (res =? 0)) (fs_error res).

Definition fs_mount : MF unit :=
  let* res := ff (f_mount true) in
  if negb (res =? 0) then xprintf &"ff_mount: " [] ;; fs_error res
  else
    set_mounted 1 ;;
    calls [STM_EVAL_LEDOn LED_FS] ;;
    fs_debug &"FS mounted\n" [].

Definition fs_umount : MF unit :=
  let* x := get_fs in
  if mounted x =? 0 then ret tt
  else
    for_range 0 (Z.to_nat MAX_OPEN_FILES) host_fs_close ;;
    (let* _ := ff (f_mount false) in ret tt) ;;
    set_mounted 0 ;;
    calls [STM_EVAL_LEDOff LED_FS] ;;
    fs_debug &"FS is unmounted.\n" [].

Definition fs_ismounted : MF Z := let* x := get_fs in ret (mounted x).

(** ** The commands; those with arguments are with the command table *)

Definition AM_RDO : Z := 1.
Definition AM_HID : Z := 2.
Definition AM_SYS : Z := 4.
Definition AM_DIR : Z := 16.
Definition AM_ARC : Z := 32.

Definition attrib (i : FILINFO) (bit c : Z) : arg :=
  AInt (if negb (Z.land (fattrib i) bit =? 0) then c else ch "-").

Definition fs_entry (i : FILINFO) : MF unit :=
  xprintf &"%c%c%c%c%c %u/%02u/%02u %02u:%02u %9lu  %s "
    [attrib i AM_DIR (ch "D"); attrib i AM_RDO (ch "R"); attrib i AM_HID (ch "H");
     attrib i AM_SYS (ch "S"); attrib i AM_ARC (ch "A");
     AInt (Z.shiftr (fdate i) 9 + 1980); AInt (Z.land (Z.shiftr (fdate i) 5) 15);
     AInt (Z.land (fdate i) 31); AInt (Z.shiftr (ftime i) 11);
     AInt (Z.land (Z.shiftr (ftime i) 5) 63); ALong (fsize i); AStr (fname i)] ;;
  for_range (zlen (fname i)) (Z.to_nat (16 - zlen (fname i))) (fun _ => xprintf &" " []) ;;
  xprintf &"%s" [AStr (lfname i)] ;;
  xprintf &"\n" [].

Fixpoint list_loop (fuel : nat) : MF unit :=
  match fuel with
  | O => nofuel
  | S fuel' =>
      let* (res, i) := ff f_readdir in
      if negb (res =? 0) || (zlen (fname i) =? 0) then ret tt
      else fs_entry i ;; list_loop fuel'
  end.

Definition fs_list (path : list Z) : MF unit :=
  let* res := ff (f_opendir path) in
  if negb (res =? 0) then xprintf &"ff_list: " [] ;; fs_error res
  else
    let* s := get in
    list_loop (S (dir_left s.1.2)) ;;
    let* _ := ff f_closedir in ret tt.

Definition fs_cd (path : list Z) : MF unit :=
  let* res := ff (f_chdir path) in
  when (negb (res =? 0)) (xprintf &"ff_cd: " [] ;; fs_error res).

Definition cmd_fs_pwd : MF unit :=
  let* (res, line) := ff (f_getcwd 256) in
  if negb (res =? 0) then xprintf &"fat_pwd: " [] ;; fs_error res
  else xprintf &"'%s'\n\n" [AStr line].

Definition cmd_fs : MF unit :=
  let* x := get_fs in
  xprintf &"FS is %s.\n" [AStr (if negb (mounted x =? 0) then &"mounted" else &"not mounted")] ;;
  xprintf &"\n" [].
End Driver.
End FatFiles.
