(* ===== verification/Stm32FsProps.v ===== *)
(** * Files on the board *)

From S2P Require Import Prelude Libc State Fs Board Stm32Fs.

Section Files.
Context {F W : Type} `{FF : FatFs F} `{FL : !FatFsLaws F FF} `{B : Board W} `{T : Target} `{C : Config}.
Implicit Types (f : F) (w : W) (x : fs32_t).
Abbreviation MF := (M ((fs32_t * F) * W)).

(** Every slot is open or closed; an open one belongs to a valid object of FatFs, and there
    are open slots only while the stick is mounted. *)
Definition files_ok (s : (fs32_t * F) * W) : Prop :=
  zlen (fs_slots s.1.1) = MAX_OPEN_FILES /\
  forall i o, zget (fs_slots s.1.1) i = Some o ->
    o = 0 \/ (o = 1 /\ mounted s.1.1 <> 0 /\ valid s.1.2 i).

Lemma wp_ff {A} (g : F -> A * F) x f w (Q : A -> (fs32_t * F) * W -> Prop) :
  (forall a f', g f = (a, f') -> Q a ((x, f'), w)) -> wp (FatFiles.ff g) Q ((x, f), w).
Proof. intros HQ. unfold wp, FatFiles.ff. cbn [fst snd]. destruct (g f) as [a f'] eqn:Hg. by apply HQ. Qed.

Lemma wp_fs_error r s (Q : unit -> (fs32_t * F) * W -> Prop) : 0 <= r < 15 -> Q tt s -> wp (FatFiles.fs_error r) Q s.
Proof.
  intros Hr HQ. destruct (zget_some fs_message r) as [m Hm]; [done|]. unfold FatFiles.fs_error. wp_step.
  eapply wp_lift; [exact Hm|]. by wp_print.
Qed.

Lemma wp_slot_open i s (Q : Z -> (fs32_t * F) * W -> Prop) : files_ok s -> 0 <= i < MAX_OPEN_FILES ->
  (forall o, zget (fs_slots s.1.1) i = Some o -> Q o s) -> wp (FatFiles.slot_open i) Q s.
Proof.
  intros [Hl _] Hi HQ. destruct (zget_some (fs_slots s.1.1) i) as [o Ho]; [by rewrite Hl|].
  unfold FatFiles.slot_open, FatFiles.get_fs. wp_step. apply wp_get_x. eapply wp_lift; [exact Ho|]. by apply HQ.
Qed.

Lemma wp_set_slot i v s (Q : unit -> (fs32_t * F) * W -> Prop) : zlen (fs_slots s.1.1) = MAX_OPEN_FILES -> 0 <= i < MAX_OPEN_FILES ->
  (forall l, zset (fs_slots s.1.1) i v = Some l -> Q tt ((Fs32 (mounted s.1.1) l, s.1.2), s.2)) -> wp (FatFiles.set_slot i v) Q s.
Proof.
  intros Hl Hi HQ. assert (Hs : zset (fs_slots s.1.1) i v = Some (<[Z.to_nat i := v]> (fs_slots s.1.1))) by (apply zset_some; by rewrite Hl).
  unfold FatFiles.set_slot, FatFiles.get_fs. wp_step. apply wp_get_x. wp_step. eapply wp_lift; [exact Hs|]. apply wp_upd_x. by apply HQ.
Qed.

(** Changing one slot. *)
Lemma files_ok_set x f f' w i v l : files_ok ((x, f), w) -> zset (fs_slots x) i v = Some l ->
  (forall j, j <> i -> valid f j -> valid f' j) -> (v = 0 \/ (v = 1 /\ mounted x <> 0 /\ valid f' i)) ->
  files_ok ((Fs32 (mounted x) l, f'), w).
Proof.
  intros [Hl Hok] Hs Hv Hi. split; cbn [fst snd fs_slots mounted] in *; [unfold zlen in *; by rewrite (zset_length _ _ _ _ Hs)|].
  intros j o Hj. destruct (decide (j = i)) as [->|Hne].
  - rewrite (zget_zset_eq _ _ _ _ Hs) in Hj. by injection Hj as <-.
  - rewrite (zget_zset_ne _ _ _ _ _ Hs (not_eq_sym Hne)) in Hj. destruct (Hok j o Hj) as [?|(? & ? & ?)]; [by left|right; auto].
Qed.

Lemma files_ok_valid x f f' w : files_ok ((x, f), w) -> (forall j, valid f j -> valid f' j) -> files_ok ((x, f'), w).
Proof. intros [Hl Hok] Hv. split; [done|]. intros i o Hi. destruct (Hok i o Hi) as [?|(? & ? & ?)]; [by left|right; auto]. Qed.

Lemma wp_close s k : files_ok s -> k <> MAX_OPEN_FILES ->
  wp (FatFiles.host_fs_close k) (fun _ s' => files_ok s' /\ mounted s'.1.1 = mounted s.1.1 /\
    (forall j, zget (fs_slots s'.1.1) j = if decide (j = k) then (fun _ => 0) <$> zget (fs_slots s.1.1) j else zget (fs_slots s.1.1) j)) s.
Proof.
  destruct s as [[x f] w]. intros Hok Hk. unfold FatFiles.host_fs_close, FatFiles.bad_slot. unfold MAX_OPEN_FILES in Hk |- *.
  pose proof Hok as [Hl Hv]. cbn [fst snd] in *. unfold MAX_OPEN_FILES in Hl.
  assert (Hout : forall j, j = k -> ~ (0 <= k < 3) -> zget (fs_slots x) j = None).
  { intros j -> Hn. destruct (zget (fs_slots x) k) eqn:Hg; [|done]. apply zget_range in Hg. rewrite Hl in Hg. lia. }
  destruct ((k <? 0) || (k >? 3)) eqn:Hb.
  { wp_step. split_and!; [done|done|]. intros j. cbn [fst snd]. case_decide; [|done]. by rewrite Hout by lia. }
  apply orb_false_iff in Hb as [Hb1 Hb2]. wp_step. apply wp_slot_open; [done|unfold MAX_OPEN_FILES; lia|]. cbn [fst snd]. intros o Ho.
  destruct (Hv k o Ho) as [->|(-> & Hm & _)]; cbn [Z.eqb Pos.eqb negb].
  { wp_step. split_and!; [done|done|]. intros j. cbn [fst snd]. case_decide; [|done]. subst j. by rewrite Ho. }
  wp_step. wp_step. apply wp_ff. intros r f' Hc. wp_steps. apply wp_set_slot; [done|unfold MAX_OPEN_FILES; lia|]. cbn [fst snd]. intros l Hs.
  apply wp_fs_debug; [vm_compute; reflexivity|]. split_and!; [|done|].
  - eapply files_ok_set; [exact Hok|exact Hs| |by left]. by eapply law_close.
  - intros j. cbn [fst snd fs_slots]. case_decide; [subst j; by rewrite (zget_zset_eq _ _ _ _ Hs), Ho|apply (zget_zset_ne _ _ _ _ _ Hs); congruence].
Qed.

Lemma wp_open_slots name n : forall i s, files_ok s -> mounted s.1.1 <> 0 -> 0 <= i -> i + Z.of_nat n <= MAX_OPEN_FILES ->
  wp (FatFiles.open_slots n i name) (fun _ s' => files_ok s' /\ mounted s'.1.1 = mounted s.1.1 /\
    (forall j, j < i -> zget (fs_slots s'.1.1) j = zget (fs_slots s.1.1) j) /\
    ((forall j f, (f_open j name f).1 = 0) -> forall j, i <= j < i + Z.of_nat n -> zget (fs_slots s'.1.1) j = Some 1)) s.
Proof.
  induction n as [|n IH]; intros i s Hok Hm Hi Hn; cbn [FatFiles.open_slots].
  { wp_step. split_and!; try done. intros _ j Hj. lia. }
  wp_step. apply wp_slot_open; [done|lia|]. intros o Ho.
  assert (Hnext : forall s1, files_ok s1 -> mounted s1.1.1 = mounted s.1.1 -> zget (fs_slots s1.1.1) i = Some 1 ->
    (forall j, j < i -> zget (fs_slots s1.1.1) j = zget (fs_slots s.1.1) j) ->
    wp (FatFiles.open_slots n (i + 1) name) (fun _ s' => files_ok s' /\ mounted s'.1.1 = mounted s.1.1 /\
      (forall j, j < i -> zget (fs_slots s'.1.1) j = zget (fs_slots s.1.1) j) /\
      ((forall j f, (f_open j name f).1 = 0) -> forall j, i <= j < i + Z.of_nat (S n) -> zget (fs_slots s'.1.1) j = Some 1)) s1).
  { intros s1 Hok1 Hm1 Hi1 Hbelow. eapply wp_mono; [|apply (IH (i + 1) s1); [done|by rewrite Hm1|lia|lia]].
    intros [] s' (Hok' & Hm' & Hlo & Hhi). split_and!; [done|congruence| |].
    - intros j Hj. rewrite Hlo by lia. by apply Hbelow.
    - intros Hall j Hj. destruct (decide (j = i)) as [->|]; [rewrite Hlo by lia; done|]. apply Hhi; [done|lia]. }
  pose proof Hok as [Hl Hv]. destruct (Hv i o Ho) as [->|(-> & _ & _)]; cbn [Z.eqb].
  - destruct s as [[x f] w]. cbn [fst snd] in *. wp_step. apply wp_ff. intros r f' Hf.
    destruct (law_open i name f r f' Hf) as (Hr & Hr0 & Hrest). destruct (Z.eqb_spec r 0) as [->|Hne]; cbn [negb].
    + wp_step. apply wp_set_slot; [done|lia|]. cbn [fst snd]. intros l Hs. apply Hnext.
      * eapply files_ok_set; [exact Hok|exact Hs|exact Hrest|]. right. auto.
      * done.
      * by eapply zget_zset_eq.
      * intros j Hj. cbn. apply (zget_zset_ne _ _ _ _ _ Hs). lia.
    + apply wp_fs_error; [lia|]. split_and!; [|done|done|].
      * split; [done|]. intros j o Hj. destruct (Hv j o Hj) as [?|(? & ? & ?)]; [by left|right]. split_and!; [done|done|].
        apply Hrest; [|done]. intros ->; cbn in Hj; rewrite Ho in Hj. congruence.
      * intros Hall. specialize (Hall i f). rewrite Hf in Hall. done.
  - by apply Hnext.
Qed.

Lemma wp_host_open name s : files_ok s ->
  wp (FatFiles.host_fs_open name) (fun r s' => r = -1 /\ files_ok s' /\
    (mounted s.1.1 <> 0 -> (forall j f, (f_open j name f).1 = 0) ->
     forall j, 0 <= j < MAX_OPEN_FILES -> zget (fs_slots s'.1.1) j = Some 1)) s.
Proof.
  intros Hok. unfold FatFiles.host_fs_open. wp_step. apply wp_fs_debug; [vm_compute; reflexivity|].
  unfold FatFiles.get_fs. wp_step. apply wp_get_x. destruct (Z.eqb_spec (mounted s.1.1) 0) as [Hm|Hm]; [by wp_step|].
  wp_step. eapply wp_mono; [|apply (wp_open_slots name (Z.to_nat MAX_OPEN_FILES) 0 s); done].
  intros [] s' (Hok' & _ & _ & Hall). wp_step. split_and!; [done|done|]. intros _. exact Hall.
Qed.

(** C39: [host_fs_open] of the board never gives a handle: its loop does not leave when a
    slot has been opened, and behind it stands only the error return.  A file that can be
    opened is opened in every free slot, so that afterwards no slot is free; the common part
    is told that the file does not open. *)
Theorem stm32_open_never_succeeds name s :
  files_ok s ->
  wp (FatFiles.host_fs_open name) (fun r s' => r = -1 /\ files_ok s' /\
    (mounted s.1.1 <> 0 -> (forall j f, (f_open j name f).1 = 0) ->
     forall j, 0 <= j < MAX_OPEN_FILES -> zget (fs_slots s'.1.1) j = Some 1)) s.
Proof. apply wp_host_open. Qed.

(** ** The other operations *)

(** With no slot open anything may happen to the objects. *)
Lemma files_ok_closed x f w : zlen (fs_slots x) = MAX_OPEN_FILES ->
  (forall i, 0 <= i < MAX_OPEN_FILES -> zget (fs_slots x) i = Some 0) -> files_ok ((x, f), w).
Proof.
  intros Hl Hz. split; [done|]. cbn [fst snd]. intros i o Hi. left. pose proof (zget_range _ _ _ Hi) as Hr. rewrite Hl in Hr.
  rewrite Hz in Hi by done. by injection Hi.
Qed.

Lemma wp_umount s : files_ok s ->
  wp FatFiles.fs_umount (fun _ s' => files_ok s' /\ mounted s'.1.1 = 0 /\
    (mounted s.1.1 <> 0 -> forall i, 0 <= i < MAX_OPEN_FILES -> zget (fs_slots s'.1.1) i = Some 0)) s.
Proof.
  intros Hok. unfold FatFiles.fs_umount, FatFiles.get_fs. wp_step. apply wp_get_x.
  destruct (Z.eqb_spec (mounted s.1.1) 0) as [Hm|Hm]; [by wp_step|]. wp_step. eapply wp_mono; [|apply (wp_for_range (fun i s' => files_ok s' /\
    forall j, 0 <= j < i -> zget (fs_slots s'.1.1) j = Some 0))].
  - cbn [Z.add]. intros [] [[x f] w] [Hok1 Hz]. change (Z.of_nat (Z.to_nat MAX_OPEN_FILES)) with MAX_OPEN_FILES in Hz. cbn [fst snd] in Hz.
    wp_step. wp_step. apply wp_ff. intros r f' _. wp_steps. unfold FatFiles.set_mounted. apply wp_upd_x. wp_step. cbn [fst snd].
    unfold calls. apply wp_hw_do. cbn [fst snd]. apply wp_fs_debug; [vm_compute; reflexivity|]. split_and!; [|done|by intros _].
    apply files_ok_closed; [apply Hok1|exact Hz].
  - intros i s' Hi [Hok1 Hz]. change (0 <= i < MAX_OPEN_FILES) in Hi. eapply wp_mono; [|by apply wp_close; [|lia]].
    intros [] s2 (Hok2 & _ & Hg). split; [done|]. intros j Hj. rewrite Hg. case_decide as Hd.
    + subst j. destruct (zget_some (fs_slots s'.1.1) i) as [o ->]; [|done]. destruct Hok1 as [-> _]. lia.
    + apply Hz. lia.
  - split; [done|]. intros j Hj. lia.
Qed.

(** [USBH_USR_MSC_Application] mounts a stick that is not mounted. *)
Definition plugged : MF unit :=
  let* m := FatFiles.fs_ismounted in when (m =? 0) FatFiles.fs_mount.

Lemma wp_plugged s : files_ok s -> wp plugged (fun _ s' => files_ok s') s.
Proof.
  intros Hok. unfold plugged, FatFiles.fs_ismounted, FatFiles.get_fs. do 2 wp_step. apply wp_get_x. wp_step.
  apply wp_when; [intros Hm%Z.eqb_eq|done]. destruct s as [[x f] w]. cbn [fst snd] in *.
  assert (Hz : forall f w, files_ok ((x, f), w)).
  { intros f1 w1. apply files_ok_closed; [apply Hok|]. intros i Hi. destruct Hok as [Hl Hv]. cbn [fst snd] in *.
    destruct (zget_some (fs_slots x) i) as [o Ho]; [by rewrite Hl|]. destruct (Hv i o Ho) as [->|(_ & ? & _)]; done. }
  unfold FatFiles.fs_mount. wp_step. apply wp_ff. intros r f' Hr%law_mount. destruct (Z.eqb_spec r 0) as [->|]; cbn [negb].
  - wp_step. unfold FatFiles.set_mounted. apply wp_upd_x. cbn [fst snd]. wp_step. unfold calls. apply wp_hw_do. cbn [fst snd].
    apply wp_fs_debug; [vm_compute; reflexivity|]. destruct (Hz f' w) as [Hl Hv]. split; [done|]. cbn [fst snd fs_slots mounted] in *.
    intros i o Hi. left. destruct (Hv i o Hi) as [?|(_ & ? & _)]; done.
  - wp_step. wp_print. apply wp_fs_error; [done|]. apply Hz.
Qed.

Lemma wp_read k n s : files_ok s -> 0 <= k < MAX_OPEN_FILES ->
  wp (FatFiles.host_fs_read k n) (fun r s' => files_ok s' /\ (r.1 <> 4294967295 -> r.1 = u32 (zlen r.2))) s.
Proof.
  intros Hok Hk. unfold FatFiles.host_fs_read, FatFiles.bad_slot. wp_step. unfold MAX_OPEN_FILES in *.
  rewrite (proj2 (Z.ltb_ge _ _)), (Z.gtb_ltb k 3), (proj2 (Z.ltb_ge _ _)) by lia. cbn [orb when]. wp_step.
  unfold FatFiles.get_fs. wp_step. apply wp_get_x. destruct (_ =? 0); [wp_step; apply wp_fs_debug; [vm_compute; reflexivity|by wp_step]|].
  wp_step. apply wp_slot_open; [done|done|]. intros o Ho. destruct (_ =? 0); [wp_step; apply wp_fs_debug; [vm_compute; reflexivity|by wp_step]|].
  destruct (_ =? 0); [wp_step; apply wp_fs_debug; [vm_compute; reflexivity|by wp_step]|].
  destruct s as [[x f] w]. wp_step. apply wp_ff. intros [r data] f' Hr. destruct (law_read _ _ _ _ _ _ Hr) as (Hr0 & Hv).
  destruct (_ =? 0); cbn [negb]; [wp_step|wp_step; apply wp_fs_error; [done|wp_step]]; (split; [by eapply files_ok_valid|done]).
Qed.

Lemma wp_seek k n s : files_ok s -> 0 <= k < MAX_OPEN_FILES -> wp (FatFiles.host_fs_seek k n) (fun _ s' => files_ok s') s.
Proof.
  intros Hok Hk. unfold FatFiles.host_fs_seek, FatFiles.bad_slot. wp_step. unfold MAX_OPEN_FILES in *.
  rewrite (proj2 (Z.ltb_ge _ _)), (Z.gtb_ltb k 3), (proj2 (Z.ltb_ge _ _)) by lia. cbn [orb when]. wp_step.
  unfold FatFiles.get_fs. wp_step. apply wp_get_x. destruct (_ =? 0); [by apply wp_fs_debug; [vm_compute; reflexivity|]|].
  wp_step. apply wp_slot_open; [done|done|]. intros o Ho. destruct (_ =? 0); [by apply wp_fs_debug; [vm_compute; reflexivity|]|].
  destruct s as [[x f] w]. wp_step. apply wp_ff. intros r f' Hr. destruct (law_seek _ _ _ _ _ Hr) as (Hr0 & Hv).
  apply wp_when; intros _; [apply wp_fs_error; [done|]|]; by eapply files_ok_valid.
Qed.

Lemma wp_entry i s (Q : unit -> (fs32_t * F) * W -> Prop) : Q tt s -> wp (FatFiles.fs_entry i) Q s.
Proof.
  intros HQ. unfold FatFiles.fs_entry. wp_step. wp_print. wp_step.
  eapply wp_mono; [|apply (wp_for_range (fun _ s' => s' = s)); [|done]; intros j s' _ ->; by wp_print].
  intros [] s' ->. wp_step. wp_print. by wp_print.
Qed.

Lemma wp_list_loop : forall fuel x f w, files_ok ((x, f), w) -> (dir_left f < fuel)%nat ->
  wp (FatFiles.list_loop fuel) (fun _ s' => files_ok s') ((x, f), w).
Proof.
  induction fuel as [|fuel IH]; intros x f w Hok Hf; [lia|]. cbn [FatFiles.list_loop]. wp_step. apply wp_ff. intros [r i] f' Hr.
  assert (Hok' : files_ok ((x, f'), w)) by (eapply files_ok_valid; [done|by eapply law_readdir_valid]).
  destruct (negb (r =? 0) || (zlen (fname i) =? 0)) eqn:Hend; [by wp_step|]. apply orb_false_iff in Hend as [Hr0 Hn].
  apply negb_false_iff, Z.eqb_eq in Hr0 as ->. wp_step. apply wp_entry, IH; [done|].
  enough (dir_left f' < dir_left f)%nat by lia. eapply law_readdir; [exact Hr|]. intros He. by rewrite He in Hn.
Qed.

Lemma wp_fs_list p s : files_ok s -> wp (FatFiles.fs_list p) (fun _ s' => files_ok s') s.
Proof.
  destruct s as [[x f] w]. intros Hok. unfold FatFiles.fs_list. wp_step. apply wp_ff. intros r f' Hr. destruct (law_opendir _ _ _ _ Hr) as [Hr0 Hv].
  assert (Hok' : files_ok ((x, f'), w)) by by eapply files_ok_valid.
  destruct (_ =? 0); cbn [negb]; [|wp_step; wp_print; by apply wp_fs_error]. wp_steps. cbn [fst snd].
  eapply wp_mono; [|apply wp_list_loop; [done|lia]]. intros [] [[x1 f1] w1] Hok1. wp_step. apply wp_ff. intros r1 f2 Hr1. wp_step.
  eapply files_ok_valid; [done|by eapply law_closedir].
Qed.

Lemma wp_fs_cd p s : files_ok s -> wp (FatFiles.fs_cd p) (fun _ s' => files_ok s') s.
Proof.
  destruct s as [[x f] w]. intros Hok. unfold FatFiles.fs_cd. wp_step. apply wp_ff. intros r f' Hr. destruct (law_chdir _ _ _ _ Hr) as [Hr0 Hv].
  apply wp_when; intros _; [wp_step; wp_print; apply wp_fs_error; [done|]|]; by eapply files_ok_valid.
Qed.

Lemma wp_fs_init x f w : wp FatFiles.host_fs_init (fun _ s' => files_ok s' /\ mounted s'.1.1 = 0) ((x, f), w).
Proof.
  unfold FatFiles.host_fs_init. wp_step. apply wp_upd_x. cbn [fst snd]. wp_step.
  eapply wp_mono; [|apply (wp_for_range (fun _ s' => s' = ((fs32_zero, f), w))); [|done]].
  - intros [] s' ->. apply wp_fs_debug; [vm_compute; reflexivity|]. split; [|done]. apply files_ok_closed; [reflexivity|].
    intros i Hi. assert (i = 0 \/ i = 1 \/ i = 2) as [-> | [-> | ->]] by (unfold MAX_OPEN_FILES in Hi; lia); reflexivity.
  - intros i s' Hi ->. change (0 <= i < MAX_OPEN_FILES) in Hi. apply wp_set_slot; [reflexivity|done|]. cbn [fst snd mounted fs32_zero fs_slots]. intros l Hs.
    assert (i = 0 \/ i = 1 \/ i = 2) as [-> | [-> | ->]] by (unfold MAX_OPEN_FILES in Hi; lia); by injection Hs as <-.
Qed.

(** What the program does with the stick: whatever handles are given, and every command. *)
Inductive fs_op : Type :=
| FsPlug | FsUnplug | FsOpen (name : list Z) | FsClose (k : Z) | FsRead (k n : Z) | FsSeek (k n : Z)
| FsList (path : list Z) | FsCd (path : list Z) | FsPwd | FsShow.

Definition fs_run1 (o : fs_op) : MF unit :=
  match o with
  | FsPlug => plugged
  | FsUnplug => FatFiles.fs_umount
  | FsOpen name => let* _ := FatFiles.host_fs_open name in ret tt
  | FsClose k => FatFiles.host_fs_close k
  | FsRead k n => let* _ := FatFiles.host_fs_read k n in ret tt
  | FsSeek k n => FatFiles.host_fs_seek k n
  | FsList path => FatFiles.fs_list path
  | FsCd path => FatFiles.fs_cd path
  | FsPwd => FatFiles.cmd_fs_pwd
  | FsShow => FatFiles.cmd_fs
  end.

Fixpoint fs_run (l : list fs_op) : MF unit :=
  match l with [] => ret tt | o :: l' => fs_run1 o ;; fs_run l' end.

(** The calls that the checks of the code let through to a slot behind or before the array, and
    the command that reads behind the table of messages when FatFs reports [FR_NOT_ENOUGH_CORE]. *)
Definition strays (o : fs_op) (s : (fs32_t * F) * W) : Prop :=
  match o with
  | FsClose k => k = MAX_OPEN_FILES
  | FsRead k _ | FsSeek k _ => mounted s.1.1 <> 0 /\ ~ 0 <= k < MAX_OPEN_FILES
  | FsPwd => (f_getcwd 256 s.1.2).1.1 = FR_NOT_ENOUGH_CORE
  | _ => False
  end.

Lemma wp_pwd s : files_ok s -> (f_getcwd 256 s.1.2).1.1 <> FR_NOT_ENOUGH_CORE -> wp FatFiles.cmd_fs_pwd (fun _ s' => files_ok s') s.
Proof.
  destruct s as [[x f] w]. intros Hok Hn. cbn [fst snd] in Hn. unfold FatFiles.cmd_fs_pwd. wp_step. apply wp_ff. intros [r line] f' Hr.
  rewrite Hr in Hn. cbn [fst] in Hn. destruct (law_getcwd _ _ _ _ _ Hr) as [[Hr0|Hr0] Hv]; [|done].
  assert (Hok' : files_ok ((x, f'), w)) by by eapply files_ok_valid.
  destruct (_ =? 0); cbn [negb]; [by wp_print|]. wp_step. wp_print. by apply wp_fs_error.
Qed.

Lemma wp_show s (Q : unit -> (fs32_t * F) * W -> Prop) : Q tt s -> wp FatFiles.cmd_fs Q s.
Proof.
  intros HQ. unfold FatFiles.cmd_fs, FatFiles.get_fs. wp_step. apply wp_get_x. wp_step. destruct (negb _); wp_print; by wp_print.
Qed.

(** Before the stick is mounted no slot is looked at. *)
Lemma wp_read_unmounted k n s (Q : Z * list Z -> (fs32_t * F) * W -> Prop) : mounted s.1.1 = 0 ->
  (forall r, Q r s) -> wp (FatFiles.host_fs_read k n) Q s.
Proof.
  intros Hm HQ. unfold FatFiles.host_fs_read. wp_step. apply (wp_mono _ (fun _ s' => s' = s)).
  2: { apply wp_when; intros _; [by apply wp_fs_debug; [vm_compute; reflexivity|]|done]. }
  intros [] s' ->. wp_step. unfold FatFiles.get_fs. apply wp_get_x. rewrite Hm. cbn [Z.eqb].
  wp_step. apply wp_fs_debug; [vm_compute; reflexivity|]. wp_step. apply HQ.
Qed.

Lemma wp_seek_unmounted k n s (Q : unit -> (fs32_t * F) * W -> Prop) : mounted s.1.1 = 0 ->
  Q tt s -> wp (FatFiles.host_fs_seek k n) Q s.
Proof.
  intros Hm HQ. unfold FatFiles.host_fs_seek. wp_step. apply (wp_mono _ (fun _ s' => s' = s)).
  2: { apply wp_when; intros _; [by apply wp_fs_debug; [vm_compute; reflexivity|]|done]. }
  intros [] s' ->. wp_step. unfold FatFiles.get_fs. apply wp_get_x. rewrite Hm. cbn [Z.eqb].
  by apply wp_fs_debug; [vm_compute; reflexivity|].
Qed.

Lemma wp_fs_run1 o s : ~ strays o s -> files_ok s -> wp (fs_run1 o) (fun _ s' => files_ok s') s.
Proof.
  intros Ho Hok. destruct o as [| |name|k|k n|k n|p|p| |]; cbn [fs_run1 strays] in *.
  - by apply wp_plugged.
  - eapply wp_mono; [|by apply wp_umount]. by intros [] s' [? _].
  - wp_step. eapply wp_mono; [|by apply wp_host_open]. intros r s' (_ & Hs' & _). by wp_step.
  - eapply wp_mono; [|by apply wp_close]. by intros [] s' [? _].
  - wp_step. destruct (decide (mounted s.1.1 = 0)); [apply wp_read_unmounted; [done|]; intros r; by wp_step|].
    eapply wp_mono; [|apply wp_read; [done|unfold MAX_OPEN_FILES in *; lia]]. intros r s' [Hs' _]. by wp_step.
  - destruct (decide (mounted s.1.1 = 0)); [by apply wp_seek_unmounted|]. apply wp_seek; [done|unfold MAX_OPEN_FILES in *; lia].
  - by apply wp_fs_list.
  - by apply wp_fs_cd.
  - by apply wp_pwd.
  - by apply wp_show.
Qed.

(** The command [pwd] in a directory whose path does not fit into 256 characters: FatFs
    reports [FR_NOT_ENOUGH_CORE], which the table of messages does not have. *)
Lemma pwd_long_path x f w line f' :
  f_getcwd 256 f = (17, line, f') -> FatFiles.cmd_fs_pwd ((x, f), w) = Fault.
Proof. intros Hg. unfold FatFiles.cmd_fs_pwd, bind, FatFiles.ff. cbn [fst snd]. rewrite Hg. destruct T as [[] []]; reflexivity. Qed.
(** A slot outside of the array. *)
Lemma stray_slot k s : files_ok s -> ~ 0 <= k < MAX_OPEN_FILES -> zget (fs_slots s.1.1) k = None.
Proof.
  intros [Hl _] Hk. destruct (zget (fs_slots s.1.1) k) eqn:Hg; [|done]. apply zget_range in Hg. by rewrite Hl in Hg.
Qed.

Lemma bind_Fault {S A E} (m : M S A) (k : A -> M S E) s : wp m (fun a s' => k a s' = Fault) s -> bind m k s = Fault.
Proof. unfold wp, bind. destruct (m s) as [[[a s'] o]| |]; [|done|done]. by intros ->. Qed.

Lemma slot_open_stray k s : files_ok s -> ~ 0 <= k < MAX_OPEN_FILES -> FatFiles.slot_open (W := W) k s = Fault.
Proof.
  intros Hok Hk. unfold FatFiles.slot_open, FatFiles.get_fs. apply bind_Fault, wp_get_x. by rewrite stray_slot.
Qed.
Lemma bind_stray {A} k s (c : Z -> MF A) : files_ok s -> ~ 0 <= k < MAX_OPEN_FILES -> bind (FatFiles.slot_open k) c s = Fault.
Proof. intros Hok Hk. unfold bind. by rewrite slot_open_stray. Qed.

Lemma stray_faults o s : strays o s -> files_ok s -> fs_run1 o s = Fault.
Proof.
  intros Ho Hok. destruct o as [| |name|k|k n|k n|p|p| |]; cbn [fs_run1 strays] in *; try done.
  - subst k. unfold FatFiles.host_fs_close, FatFiles.bad_slot. apply bind_stray; [done|unfold MAX_OPEN_FILES; lia].
  - destruct Ho as [Hm Hk]. assert (E : FatFiles.host_fs_read k n s = Fault); [|unfold bind at 1; by rewrite E].
    unfold FatFiles.host_fs_read. apply bind_Fault. apply (wp_mono _ (fun _ s' => s' = s)).
    2: { apply wp_when; intros _; [by apply wp_fs_debug; [vm_compute; reflexivity|]|done]. }
    intros [] s' ->. apply bind_Fault, wp_get_x. rewrite (proj2 (Z.eqb_neq _ 0)) by done. by apply bind_stray.
  - destruct Ho as [Hm Hk]. unfold FatFiles.host_fs_seek. apply bind_Fault. apply (wp_mono _ (fun _ s' => s' = s)).
    2: { apply wp_when; intros _; [by apply wp_fs_debug; [vm_compute; reflexivity|]|done]. }
    intros [] s' ->. apply bind_Fault, wp_get_x. rewrite (proj2 (Z.eqb_neq _ 0)) by done. by apply bind_stray.
  - destruct s as [[x f] w]. cbn [fst snd] in Ho. destruct (f_getcwd 256 f) as [[r line] f'] eqn:Hg. cbn [fst] in Ho. subst r.
    by eapply pwd_long_path.
Qed.

Lemma pp_fs_run1 o s : files_ok s -> pp (fs_run1 o) (fun _ s' => files_ok s') s /\ (fs_run1 o s = Fault <-> strays o s).
Proof.
  intros Hok. assert (Hc : strays o s \/ ~ strays o s).
  { assert (Hz : forall k, mounted s.1.1 <> 0 /\ ~ 0 <= k < MAX_OPEN_FILES \/ ~ (mounted s.1.1 <> 0 /\ ~ 0 <= k < MAX_OPEN_FILES)) by (intros k; lia).
    destruct o as [| |name|k|k n|k n|p|p| |]; cbn [strays]; auto; [destruct (Z.eq_dec k MAX_OPEN_FILES)|destruct (Z.eq_dec (f_getcwd 256 s.1.2).1.1 FR_NOT_ENOUGH_CORE)]; auto. }
  destruct Hc as [Hs|Hs].
  - pose proof (stray_faults o s Hs Hok) as E. split; [unfold pp; by rewrite E|done].
  - pose proof (wp_fs_run1 o s Hs Hok) as Hw. split; [by apply wp_pp|]. split; [|done]. intros E. unfold wp in Hw. by rewrite E in Hw.
Qed.

Lemma pp_fs_run l : forall s, files_ok s -> pp (fs_run l) (fun _ s' => files_ok s') s.
Proof.
  induction l as [|o l IH]; intros s Hok; cbn [fs_run]; [by apply pp_ret|]. pp_step.
  eapply pp_mono; [|by apply pp_fs_run1]. intros [] s' Hs'. by apply IH.
Qed.

(** C31: From [host_fs_init] on, however sticks are plugged in and pulled out, files are opened,
    read, moved in and closed, with any handles, and the commands are used: as long as nothing
    undefined happens, every open slot belongs to a valid file object of FatFs and no slot is
    open unless the stick is mounted.  The next operation [o] ends, keeps that, and is
    undefined exactly when it closes the handle 3, which the check [handle > MAX_OPEN_FILES]
    lets through, reads or moves in a handle that is none of the three slots while the stick
    is mounted, or is [pwd] in a directory whose path does not fit. *)
Theorem stm32_files_invariant l o x f w :
  pp (FatFiles.host_fs_init ;; fs_run l) (fun _ s =>
    files_ok s /\ pp (fs_run1 o) (fun _ s' => files_ok s') s /\ (fs_run1 o s = Fault <-> strays o s)) ((x, f), w).
Proof.
  pp_step. apply wp_pp. eapply wp_mono; [|apply wp_fs_init]. intros [] s [Hs _].
  eapply pp_mono; [|by apply pp_fs_run]. intros [] s' Hs'. split; [done|]. by apply pp_fs_run1.
Qed.
End Files.

(** ** A stick with two files *)

Record demo_stick : Type := DemoStick { st_open : list Z; st_dir : nat }.

#[export] Instance demo_fatfs : FatFs demo_stick := {|
  f_mount on f := (0, DemoStick [] 0);
  f_open i name f := (0, DemoStick (i :: st_open f) (st_dir f));
  f_close i f := (0, DemoStick (List.filter (fun j => negb (j =? i)) (st_open f)) (st_dir f));
  f_read i n f := (0, take (Z.to_nat n) [1; 2; 3], f);
  f_lseek i n f := (0, f);
  f_opendir p f := (0, DemoStick (st_open f) 2);
  f_readdir f := (0, FilInfo 3 0 0 0 (if (st_dir f =? 0)%nat then [] else &"A.MP3") [], DemoStick (st_open f) (pred (st_dir f)));
  f_closedir f := (0, f);
  f_chdir p f := (0, f);
  f_getcwd n f := (0, &"/", f);
  dir_left := st_dir
|}.

#[export] Instance demo_fatfs_laws : FatFsLaws demo_stick demo_fatfs.
Proof.
  refine {| valid f i := In i (st_open f) |}; cbn.
  - intros f i f' Hr Hn. injection Hr as <- <-. cbn in *. destruct (st_dir f); [done|cbn; lia].
  - intros i name f r f' Hr. injection Hr as <- <-. cbn. split_and!; [lia|lia|by left|by right].
  - intros i f r f' Hr j Hj Hv. injection Hr as <- <-. cbn. apply List.filter_In. split; [done|]. apply negb_true_iff, Z.eqb_neq. done.
  - intros on f r f' Hr. injection Hr as <- <-. lia.
  - intros i n f r data f' Hr. injection Hr as <- <- <-. split; [lia|done].
  - intros i n f r f' Hr. injection Hr as <- <-. split; [lia|done].
  - intros p f r f' Hr. injection Hr as <- <-. split; [lia|done].
  - intros f r i f' Hr. by injection Hr as <- <- <-.
  - intros f r f' Hr. by injection Hr as <- <-.
  - intros p f r f' Hr. injection Hr as <- <-. split; [lia|done].
  - intros n f r l f' Hr. injection Hr as <- <- <-. split; [left; lia|done].
Defined.

Definition empty_stick : demo_stick := DemoStick [] 0.
Definition stick_mounted : (fs32_t * demo_stick) * demo_board := ((Fs32 1 [0; 0; 0], empty_stick), demo_world).

Lemma stick_mounted_ok : files_ok stick_mounted.
Proof.
  apply files_ok_closed; [reflexivity|]. intros i Hi. change (0 <= i < 3) in Hi.
  assert (i = 0 \/ i = 1 \/ i = 2) as [-> | [-> | ->]] by lia; reflexivity.
Qed.

Lemma stm32_open_never_succeeds_witness :
  wp (@FatFiles.host_fs_open _ _ _ stm32_target (default_config false) &"a.mp3") (fun r s' => r = -1 /\ files_ok s' /\
    (1 <> 0 -> (forall j f, (f_open j &"a.mp3" f).1 = 0) ->
     forall j, 0 <= j < MAX_OPEN_FILES -> zget (fs_slots s'.1.1) j = Some 1)) stick_mounted.
Proof. apply (@stm32_open_never_succeeds _ _ _ _ stm32_target (default_config false)). exact stick_mounted_ok. Defined.

Lemma stm32_files_invariant_witness :
  pp (@FatFiles.host_fs_init _ _ stm32_target (default_config false) ;;
      @fs_run _ _ _ _ stm32_target (default_config false) [FsPlug; FsOpen &"a.mp3"; FsRead 1 2; FsList &"."])
    (fun _ s => files_ok s /\ @fs_run1 _ _ _ _ stm32_target (default_config false) (FsClose 3) s = Fault) stick_mounted.
Proof.
  eapply pp_mono; [|apply (@stm32_files_invariant _ _ _ _ _ stm32_target (default_config false) _ (FsClose 3))].
  intros [] s (Hs & _ & Hf). split; [exact Hs|]. by apply Hf.
Defined.
