(* ===== verification/Lwip.v ===== *)
(** * The TCP/IP stack of the board

    What stm32/net.c uses of lwIP (libs/lwip-2.0.3, with the Ethernet driver below it), as
    the class [Lwip].  [L] is the state of the stack.  A connection (PCB) is a number; the
    stack may free one on its own.  It calls back while it handles a frame or a timeout:
    the callbacks that are due are the results of [lwip_next]. *)

From S2P Require Import Prelude.

Definition ERR_OK : Z := 0.
Definition ERR_INPROGRESS : Z := -5.
Definition ERR_ARG : Z := -16.

(** A chain of buffers with the payload of each; [tot_len] is its total length. *)
Record pbuf : Type := Pbuf { tot_len : Z; payloads : list (list Z) }.

(** The functions that are registered for received data. *)
Inductive recv_fn : Type := recv_connect_fn | recv_stream_fn.

Record netif_t : Type := Netif {
  if_name : Z * Z; if_flags : Z; if_mtu : Z; if_addr : Z; if_mask : Z; if_gw : Z; if_hwaddr : list Z;
  rx_count : Z; rx_size : Z; tx_count : Z; tx_size : Z
}.

(** The calls without a result that is used. *)
Inductive lwip_call : Type :=
| lwip_init
| netif_add (ipaddr netmask gw : Z)
| netif_set_default
| netif_set_up
| netif_set_addr (ipaddr netmask gw : Z)
| dhcp_start
| dhcp_stop
| tcp_arg (pcb : Z)
| tcp_recv (pcb : Z) (f : option recv_fn)
| tcp_sent (pcb : Z) (on : bool)
| tcp_poll_off (pcb : Z)
| tcp_close (pcb : Z)
| tcp_recved (pcb len : Z)
| pbuf_free (p : pbuf).

(** A callback: the name is resolved, the connection is made, data arrived ([None]: the
    other side has closed) for the function that is registered, data was sent. *)
Inductive lwip_event : Type :=
| DnsFound (addr : option Z)
| Connected (pcb err : Z)
| Received (f : recv_fn) (pcb : Z) (p : option pbuf) (err : Z)
| Sent (pcb len : Z)
| Polled (pcb : Z).

Class Lwip (L : Type) := {
  lwip_do : lwip_call -> L -> L;
  (** The memory of the PCB is in use. *)
  pcb_valid : Z -> L -> bool;
  tcp_new : L -> option Z * L;
  tcp_connect : Z -> Z -> Z -> L -> Z * L;
  tcp_write : Z -> list Z -> L -> Z * L;
  dns_gethostbyname : list Z -> L -> Z * Z * L;
  dhcp_tries : L -> Z;
  ns_netif : L -> netif_t;
  netif_list : L -> list netif_t;
  ethernetif_input : L -> L;
  sys_check_timeouts : L -> L;
  lwip_next : L -> option lwip_event * L;
  (** The callbacks that are due. *)
  lwip_due : L -> nat
}.

(** What the manual of lwIP says: a PCB stays valid until it is closed, unless the stack
    itself frees it; the callbacks come to an end; a new PCB is valid. *)
Class LwipLaws (L : Type) (LW : Lwip L) := {
  law_pcb c p l : pcb_valid p l = true -> (forall q, c <> tcp_close q) -> c <> lwip_init -> pcb_valid p (lwip_do c l) = true;
  law_new l p l' : tcp_new l = (Some p, l') -> pcb_valid p l' = true;
  law_connect p addr port l r l' q : tcp_connect p addr port l = (r, l') -> pcb_valid q l = true -> pcb_valid q l' = true;
  law_tcp_write p data l r l' q : tcp_write p data l = (r, l') -> pcb_valid q l = true -> pcb_valid q l' = true
}.
