(* ===== verification/Stm32Net.v ===== *)
(** * stm32/net.c: the network driver of the board, over lwIP *)

From S2P Require Import Prelude Strings Libc IoBuffer Cmd Net HostShared State Fs Board Lwip.

Inductive eth_state_e : Type := ETH_UNKNOWN | ETH_INIT | ETH_FAILED.
#[export] Instance eth_state_eq_dec : EqDecision eth_state_e.
Proof. solve_decision. Defined.

(** [ns]; the interface itself is part of the stack. *)
Record ns32_t : Type := Ns32 {
  ns_server : Z;
  ns_pcb : option Z;
  ns_hostname : list Z;
  ns_filename : list Z;
  ns_port : Z;
  eth_state : eth_state_e;
  link_state : net_state_e;
  ns_led : Z
}.
Definition ns32_zero : ns32_t :=
  Ns32 0 None (repeat 0 (Z.to_nat MAX_HOSTNAME)) (repeat 0 (Z.to_nat MAX_URL)) 0 ETH_UNKNOWN NET_UNKNOWN 0.

Section Setters.
Implicit Types n : ns32_t.
Definition set_server x n := Ns32 x (ns_pcb n) (ns_hostname n) (ns_filename n) (ns_port n) (eth_state n) (link_state n) (ns_led n).
Definition set_pcb x n := Ns32 (ns_server n) x (ns_hostname n) (ns_filename n) (ns_port n) (eth_state n) (link_state n) (ns_led n).
Definition set_url h p f n := Ns32 (ns_server n) (ns_pcb n) h f p (eth_state n) (link_state n) (ns_led n).
Definition set_eth x n := Ns32 (ns_server n) (ns_pcb n) (ns_hostname n) (ns_filename n) (ns_port n) x (link_state n) (ns_led n).
Definition set_link x n := Ns32 (ns_server n) (ns_pcb n) (ns_hostname n) (ns_filename n) (ns_port n) (eth_state n) x (ns_led n).
Definition set_net_led x n := Ns32 (ns_server n) (ns_pcb n) (ns_hostname n) (ns_filename n) (ns_port n) (eth_state n) (link_state n) x.
End Setters.

Definition LED_NET : Z := 3.
Definition LAN8720_PHY_ADDRESS : Z := 1.
Definition TCP_MSS : Z := IO_INPUT_BUFFER_SIZE.
Definition LWIP_VERSION_STRING : list Z := &"2.0.3".

(** [IP4_ADDR] *)
Definition ip4_addr (a b c d : Z) : Z :=
  Z.lor (Z.lor (Z.lor a (Z.shiftl b 8)) (Z.shiftl c 16)) (Z.shiftl d 24).

Module Eth.
Section Driver.
Context {L W : Type} `{LW : Lwip L} `{B : Board W} `{T : Target} `{C : Config}.
Abbreviation MN := (M ((ns32_t * L) * W)).
Abbreviation MI := (M (((ns32_t * L) * W) * io_t)).

Definition lw {A} (g : L -> A * L) : MN A := fun s =>
  let '(a, l) := g s.1.2 in Done (a, ((s.1.1, l), s.2), []).
Definition lw_do (c : lwip_call) : MN unit := lw (fun l => (tt, lwip_do c l)).
Definition get_ns : MN ns32_t := get_x fst.
Definition upd_ns (f : ns32_t -> ns32_t) : MN unit := upd_x (fun y => (f y.1, y.2)).

(** A pointer to a PCB is used: it must not be NULL, and the PCB not be freed. *)
Definition deref_pcb (pcb : option Z) : MN Z :=
  match pcb with
  | None => fault
  | Some p => let* s := get in if pcb_valid p s.1.2 then ret p else fault
  end.
(** [tcp_arg], [tcp_recv] and [tcp_sent] accept NULL. *)
Definition if_pcb (pcb : option Z) (c : Z -> lwip_call) : MN unit :=
  match pcb with None => ret tt | Some _ => let* p := deref_pcb pcb in lw_do (c p) end.

(** ** Ethernet *)

Definition eth_gpio_calls : list hw :=
  let af p := GpioInit p GPIO_Mode_AF GPIO_OType_PP GPIO_Speed_100MHz GPIO_PuPd_NOPULL in
  [ RCC_AHB1PeriphClockCmd (Z.lor (Z.lor 1 2) 4);
    RCC_APB2PeriphClockCmd 16384;
    SYSCFG_ETH_MediaInterfaceConfig 1;
    GPIO_Init GPIOA (af (Z.lor (Z.lor (GPIO_Pin 1) (GPIO_Pin 2)) (GPIO_Pin 7)));
    GPIO_PinAFConfig GPIOA 1 11; GPIO_PinAFConfig GPIOA 2 11; GPIO_PinAFConfig GPIOA 7 11;
    GPIO_Init GPIOB (af (Z.lor (Z.lor (Z.lor (GPIO_Pin 10) (GPIO_Pin 11)) (GPIO_Pin 12)) (GPIO_Pin 13)));
    GPIO_PinAFConfig GPIOB 10 11; GPIO_PinAFConfig GPIOB 11 11;
    GPIO_PinAFConfig GPIOB 12 11; GPIO_PinAFConfig GPIOB 13 11;
    GPIO_Init GPIOC (af (Z.lor (Z.lor (GPIO_Pin 1) (GPIO_Pin 4)) (GPIO_Pin 5)));
    GPIO_PinAFConfig GPIOC 1 11; GPIO_PinAFConfig GPIOC 4 11; GPIO_PinAFConfig GPIOC 5 11;
    GPIO_Init GPIOE (GpioInit (GPIO_Pin 2) GPIO_Mode_OUT GPIO_OType_PP GPIO_Speed_50MHz GPIO_PuPd_UP);
    GPIO_ResetBits GPIOE (GPIO_Pin 2);
    GPIO_SetBits GPIOE (GPIO_Pin 2) ].

(** After each of the last two calls the source counts to 20000. *)
Definition ETH_GPIO_Config : MN unit := calls eth_gpio_calls.

Definition eth_init_structure : ETH_InitTypeDef := {|
  ETH_AutoNegotiation := 1; ETH_LoopbackMode := 0; ETH_RetryTransmission := 512; ETH_AutomaticPadCRCStrip := 0;
  ETH_ReceiveAll := 0; ETH_BroadcastFramesReception := 0; ETH_PromiscuousMode := 0; ETH_MulticastFramesFilter := 0;
  ETH_UnicastFramesFilter := 0; ETH_ChecksumOffload := 1024; ETH_DropTCPIPChecksumErrorFrame := 0;
  ETH_ReceiveStoreForward := 33554432; ETH_TransmitStoreForward := 2097152; ETH_ForwardErrorFrames := 0;
  ETH_ForwardUndersizedGoodFrames := 0; ETH_SecondFrameOperate := 4; ETH_AddressAlignedBeats := 33554432;
  ETH_FixedBurst := 65536; ETH_RxDMABurstLength := 4194304; ETH_TxDMABurstLength := 8192; ETH_DMAArbitration := 16384
|}.

Definition ETH_MACDMA_Config : MN Z :=
  calls [RCC_AHB1PeriphClockCmd (Z.lor (Z.lor 33554432 67108864) 134217728); ETH_DeInit; ETH_SoftwareReset] ;;
  wait_flag ETH_SoftwareResetStatus false ;;
  hw_ask (ETH_Init eth_init_structure LAN8720_PHY_ADDRESS).

Definition net_lwip_init : MN unit :=
  lw_do lwip_init ;;
  lw_do (netif_add 0 0 0) ;;
  lw_do netif_set_default ;;
  lw_do netif_set_up ;;
  lw_do dhcp_start.

(** ** Callbacks *)

Definition net_lwip_dhcp_tries : MN Z := let* s := get in ret (dhcp_tries s.1.2).

(** [uc_memcpy(buf + off, data, len)] *)
Definition store_at (buf : list Z) (off : Z) (data : list Z) : option (list Z) :=
  if off + zlen data <=? zlen buf
  then Some (take (Z.to_nat off) buf ++ data ++ drop (Z.to_nat (off + zlen data)) buf) else None.

Fixpoint copy_chain (buf : list Z) (off : Z) (l : list (list Z)) : option (list Z * Z) :=
  match l with
  | [] => Some (buf, off)
  | data :: l' => match store_at buf off data with Some buf' => copy_chain buf' (off + zlen data) l' | None => None end
  end.

(** The length, or -1, and the buffer.  Behind the error label [p] is used, NULL or not. *)
Definition net_lwip_build_buffer (tpcb : Z) (p : option pbuf) (buf_len : Z) : MN (Z * list Z) :=
  match p with
  | None =>
      net_debug &"%s: got a null pbuf.\n" [AStr &"net_lwip_build_buffer"] ;;
      upd_ns (set_link NET_ERROR) ;;
      fault
  | Some p =>
      let* r :=
        (if tot_len p >? buf_len then
           net_debug &"%s: received data do not fit into buffer (%d > %d).\n"
             [AStr &"net_lwip_build_buffer"; AInt (tot_len p); AInt buf_len] ;;
           upd_ns (set_link NET_ERROR) ;;
           ret (-1, [])
         else
           let* (buf, len) := lift (copy_chain (repeat 0 (Z.to_nat buf_len)) 0 (payloads p)) in
           ret (len, buf)) in
      let* pcb := deref_pcb (Some tpcb) in
      lw_do (tcp_recved pcb (tot_len p)) ;;
      lw_do (pbuf_free p) ;;
      ret r
  end.

Definition on_n {A} : MN A -> MI A := zoom fst (fun h x => (h, x.2)).
Definition on_i {A} : M io_t A -> MI A := zoom snd (fun i x => (x.1, i)).

Definition net_lwip_recv (tpcb : Z) (p : option pbuf) (err : Z) : MI Z :=
  let* free := on_i i_free in
  if free =? 0 then
    on_n (net_debug &"%s: no free space on input.\n" [AStr &"net_lwip_recv"] ;;
          let* q := lift p in
          let* pcb := deref_pcb (Some tpcb) in
          lw_do (tcp_recved pcb (tot_len q)) ;;
          lw_do (pbuf_free q)) ;;
    on_i cmd_io_state ;;
    ret err
  else if negb (err =? ERR_OK) then
    on_n (net_debug &"%s: got an error as a parameter.\n" [AStr &"net_lwip_recv"] ;;
          upd_ns (set_link NET_ERROR)) ;;
    ret err
  else
    let* (r, buf) := on_n (net_lwip_build_buffer tpcb p TCP_MSS) in
    if r <=? 0 then
      on_n (net_debug &"%s: build buffer error (%d).\n" [AStr &"net_lwip_recv"; AInt r]) ;; ret err
    else
      let* r :=
        (if r >? IO_INPUT_BUFFER_SIZE then
           on_n (net_debug &"%s: overflowing data on input.\n" [AStr &"net_lwip_recv"]) ;; ret IO_INPUT_BUFFER_SIZE
         else ret r) in
      let* index := on_i i_push in
      let* x := get in
      let* inp := lift (zget (input x.2) index) in
      let* data := lift (fill (take (Z.to_nat r) buf) (in_data inp)) in
      on_i (with_input index (fun b => Input data (in_size b) (u16 r))) ;;
      on_n (upd_ns (fun n => set_net_led (u8 (1 - ns_led n)) n) ;;
            let* n := get_ns in
            calls [if negb (ns_led n =? 0) then STM_EVAL_LEDOn LED_NET else STM_EVAL_LEDOff LED_NET]) ;;
      ret ERR_OK.

Definition net_lwip_recv_connect (tpcb : Z) (p : option pbuf) (err : Z) : MN Z :=
  let me := AStr &"net_lwip_recv_connect" in
  net_debug &"%s\n" [me] ;;
  if negb (err =? ERR_OK) then
    net_debug &"%s: got an error as a parameter.\n" [me] ;;
    upd_ns (set_link NET_ERROR) ;;
    ret err
  else
    let* (r, buf) := net_lwip_build_buffer tpcb p TCP_MSS in
    if r <=? 0 then net_debug &"%s: build buffer error (%d).\n" [me; AInt r] ;; ret err
    else
      when CONFIG_NET_DEBUG
        (let* text := lift (cstr buf) in
         xprintf &"%s: response len is %d\n" [me; AInt (zlen text)] ;;
         xprintf (&"%s: response \n--------------------\n%s\n" ++ [9; 9; 9; 9] ++ &"\n--------------------\n") [me; AStr text] ;;
         xprintf &"%s: connection is open\n" [me]) ;;
      let* no_media := lift (strstr_in buf &"404") in
      if no_media : bool then
        xprintf &"%s: no media found, got 404.\n" [me] ;; upd_ns (set_link NET_ERROR) ;; ret err
      else
        let* ogg := lift (strstr_in buf &"application/ogg") in
        if ogg : bool then
          xprintf &"%s: OGG is not supported.\n" [me] ;; upd_ns (set_link NET_ERROR) ;; ret err
        else
          let* mpeg := lift (strstr_in buf &"audio/mpeg") in
          if negb mpeg then
            xprintf &"%s: unknown media type.\n" [me] ;;
            let* text := lift (cstr buf) in
            xprintf &"'%s'\n" [AStr text] ;;
            upd_ns (set_link NET_ERROR) ;; ret err
          else
            upd_ns (set_link NET_OPEN) ;;
            net_debug &"%s: got media I want.\n" [me] ;;
            let* n := get_ns in
            if_pcb (ns_pcb n) (fun p => tcp_recv p (Some recv_stream_fn)) ;;
            ret ERR_OK.

Definition net_lwip_poll (pcb : Z) : MN Z := net_debug &"%s\n" [AStr &"net_lwip_poll"] ;; ret ERR_OK.
Definition net_lwip_sent (pcb len : Z) : MN Z :=
  net_debug &"%s (%d)\n" [AStr &"net_lwip_sent"; AInt len] ;; ret ERR_OK.

Definition HTTP_BUFFER : Z := 512.

Definition net_lwip_connected (pcb err : Z) : MN Z :=
  let me := AStr &"net_lwip_connected" in
  net_debug &"%s\n" [me] ;;
  if negb (err =? ERR_OK) then
    net_debug &"However connected with error.\n" [] ;;
    upd_ns (set_link NET_ERROR) ;;
    ret err
  else
    let* n := get_ns in
    let* filename := lift (cstr (ns_filename n)) in
    let* hostname := lift (cstr (ns_hostname n)) in
    let* text := request_text HTTP_BUFFER filename hostname in
    net_debug &"%s: request len: %d\n" [me; AInt (zlen text)] ;;
    net_debug &"%s: request: \n%s\n" [me; AStr text] ;;
    if_pcb (ns_pcb n) tcp_arg ;;
    if_pcb (ns_pcb n) (fun p => tcp_recv p (Some recv_connect_fn)) ;;
    if_pcb (ns_pcb n) (fun p => tcp_sent p true) ;;
    let* p := deref_pcb (ns_pcb n) in
    lw (tcp_write p text).

(** The result of [tcp_connect] is not looked at. *)
Definition net_lwip_open : MN unit :=
  net_debug &"%s\n" [AStr &"net_lwip_open"] ;;
  let* r := lw tcp_new in
  upd_ns (set_pcb r) ;;
  match r with
  | None =>
      xprintf &"%s: pcb allocation failed.\n" [AStr &"net_lwip_open"] ;;
      upd_ns (set_link NET_ERROR)
  | Some p =>
      let* n := get_ns in
      let* _ := lw (tcp_connect p (ns_server n) (u16 (ns_port n))) in
      ret tt
  end.

Definition net_lwip_close : MN unit :=
  upd_ns (set_link NET_CLOSED) ;;
  let* n := get_ns in
  if_pcb (ns_pcb n) (fun p => tcp_recv p None) ;;
  if_pcb (ns_pcb n) (fun p => tcp_sent p false) ;;
  (let* p := deref_pcb (ns_pcb n) in lw_do (tcp_poll_off p)) ;;
  (let* p := deref_pcb (ns_pcb n) in lw_do (tcp_close p)) ;;
  net_debug &"%s\n" [AStr &"net_lwip_close"].

Definition net_lwip_dns (ipaddr : option Z) : MN unit :=
  net_debug &"%s: " [AStr &"net_lwip_dns"] ;;
  let failed := net_debug &"Error resolving DNS.\n" [] ;; upd_ns (set_link NET_ERROR) in
  match ipaddr with
  | None => failed
  | Some a =>
      if a =? 0 then failed
      else upd_ns (set_server a) ;; net_debug &"OK\n" [] ;; net_lwip_open
  end.

(** ** The interface of the player *)

Definition host_net_init : MN unit :=
  net_debug &"%s: %s " [AStr &"host_net_init"; AStr LWIP_VERSION_STRING] ;;
  upd_ns (fun _ => ns32_zero) ;;
  ETH_GPIO_Config ;;
  let* r := ETH_MACDMA_Config in
  if r =? 0 then
    net_debug &"Failed!\n" [] ;;
    upd_ns (set_eth ETH_FAILED)
  else
    net_lwip_init ;;
    net_debug &"OK\n" [] ;;
    upd_ns (set_eth ETH_INIT) ;;
    upd_ns (set_link NET_CLOSED).

Definition host_net_done : MN unit := ret tt.

(** The macro [ETH_ERROR] is 0, which is [ETH_UNKNOWN]. *)
Definition host_net_open (url : list Z) : MN unit :=
  let me := AStr &"host_net_open" in
  let* n := get_ns in
  if bool_decide (eth_state n = ETH_UNKNOWN) then ret tt
  else
    net_debug &"%s '%s'\n" [me; AStr url] ;;
    let* (hostname, port, filename) := net_parse_url url in
    let* hostname := lift (fill hostname (repeat 0 (Z.to_nat MAX_HOSTNAME))) in
    let* filename := lift (fill filename (repeat 0 (Z.to_nat MAX_URL))) in
    upd_ns (fun n => set_url hostname (default (ns_port n) port) filename n) ;;
    let* name := lift (cstr hostname) in
    let* (r, addr) := lw (dns_gethostbyname name) in
    if r =? ERR_OK then
      upd_ns (set_server addr) ;;
      net_debug &"%s: DNS resolved, opening connection\n" [me] ;;
      upd_ns (set_link NET_PENDING) ;;
      net_lwip_open
    else if r =? ERR_INPROGRESS then
      net_debug &"%s: DNS is querring for data\n" [me] ;;
      upd_ns (set_link NET_PENDING)
    else if r =? ERR_ARG then
      net_debug &"%s: Error arguments for dns_gethostbyname\n" [me] ;;
      upd_ns (set_link NET_ERROR)
    else
      xprintf &"%s: Any other random error %d\n" [me; AInt r] ;;
      upd_ns (set_link NET_ERROR).

Definition host_net_close : MN unit :=
  net_lwip_close ;; net_debug &"%s\n" [AStr &"host_net_close"].

Definition host_net_poll : MN unit :=
  let* n := get_ns in
  if bool_decide (eth_state n = ETH_FAILED) then ret tt
  else
    let* tries := net_lwip_dhcp_tries in
    let* s := get in
    when ((tries >? 4) && (if_addr (ns_netif s.1.2) =? 0))
      (net_debug &"%s: dhcp request timed out.\n" [AStr &"host_net_poll"] ;;
       upd_ns (set_eth ETH_FAILED)).

Definition host_net_state : MN net_state_e := let* n := get_ns in ret (link_state n).

(** The stack calls back until nothing is due. *)
Definition net_callback (e : lwip_event) : MI unit :=
  match e with
  | DnsFound addr => on_n (net_lwip_dns addr)
  | Connected pcb err => let* _ := on_n (net_lwip_connected pcb err) in ret tt
  | Received recv_connect_fn pcb p err => let* _ := on_n (net_lwip_recv_connect pcb p err) in ret tt
  | Received recv_stream_fn pcb p err => let* _ := net_lwip_recv pcb p err in ret tt
  | Sent pcb len => let* _ := on_n (net_lwip_sent pcb len) in ret tt
  | Polled pcb => let* _ := on_n (net_lwip_poll pcb) in ret tt
  end.

Fixpoint callbacks (fuel : nat) : MI unit :=
  match fuel with
  | O => nofuel
  | S fuel' =>
      let* e := on_n (lw lwip_next) in
      match e with
      | None => ret tt
      | Some e => net_callback e ;; callbacks fuel'
      end
  end.

Definition run_callbacks : MI unit := let* x := get in callbacks (S (lwip_due x.1.1.2)).

Definition net_timers : MI unit :=
  let* got := on_n (hw_ask ETH_CheckFrameReceived) in
  when got (on_n (lw (fun l => (tt, ethernetif_input l))) ;; run_callbacks) ;;
  on_n (lw (fun l => (tt, sys_check_timeouts l))) ;;
  run_callbacks.

(** ** Commands *)

Definition cmd_set_addr : MN unit :=
  lw_do (netif_set_addr (ip4_addr 10 0 0 10) (ip4_addr 255 255 255 0) (ip4_addr 10 0 0 1)) ;;
  lw_do dhcp_stop ;;
  net_debug &"Static IP: %d.%d.%d.%d\n" [AInt 10; AInt 0; AInt 0; AInt 10].

Definition link_state_text (st : net_state_e) : list Z :=
  match st with
  | NET_CLOSED => &"is closed"
  | NET_OPEN => &"is open"
  | NET_ERROR => &"encountered error"
  | NET_PENDING => &"is waiting for response"
  | NET_UNKNOWN => &"encountered other error"
  end.

Definition cmd_net_state : MN unit :=
  let* n := get_ns in
  xprintf &"ETH link is " [] ;;
  xprintf (match eth_state n with
           | ETH_INIT => &"initalized."
           | ETH_FAILED => &"in error state.\n"
           | ETH_UNKNOWN => &"uninitialized.\n"
           end) [] ;;
  xprintf &"\n" [] ;;
  if negb (bool_decide (eth_state n = ETH_INIT)) then ret tt
  else
    xprintf &"Network connection " [] ;;
    xprintf (link_state_text (link_state n)) [] ;;
    xprintf &".\n" [] ;;
    xprintf &"\n" [].

Definition flag_names : list (Z * list Z) :=
  [(1, &"UP"); (2, &"BROADCAST"); (4, &"LINK"); (8, &"ARP"); (32, &"IGMP"); (64, &"MDL6")].

Fixpoint print_flags (flags : Z) (l : list (Z * list Z)) (comma : bool) : MN unit :=
  match l with
  | [] => ret tt
  | (flag, name) :: l' =>
      if negb (Z.land flags flag =? 0) then
        when comma (xprintf &"," []) ;; xprintf &"%s" [AStr name] ;; print_flags flags l' true
      else print_flags flags l' comma
  end.

(** The four parts of an address. *)
Definition octets (a : Z) : list arg :=
  map (fun k => AInt (Z.land (Z.shiftr a k) 255)) [0; 8; 16; 24].

Definition net_ifconfig (i : netif_t) : MN unit :=
  xprintf &"%c%c: " [AInt (if_name i).1; AInt (if_name i).2] ;;
  xprintf &"flags=%d<" [AInt (if_flags i)] ;;
  print_flags (if_flags i) flag_names false ;;
  xprintf &"> " [] ;;
  xprintf &"mtu %d\n" [AInt (if_mtu i)] ;;
  xprintf &"    inet %d.%d.%d.%d netmask %d.%d.%d.%d gw %d.%d.%d.%d\n"
    (octets (if_addr i) ++ octets (if_mask i) ++ octets (if_gw i)) ;;
  xprintf &"    ether %02x:%02x:%02x:%02x:%02x:%02x" (map AInt (if_hwaddr i)) ;;
  (let* tries := net_lwip_dhcp_tries in xprintf &" dhcp tries %d" [AInt tries]) ;;
  xprintf &"\n" [] ;;
  let* s := get in
  let me := ns_netif s.1.2 in
  xprintf &"    RX packets %d  bytes %d (%d KB)\n" [AInt (rx_count me); AInt (rx_size me); AInt (rx_size me / 1024)] ;;
  xprintf &"    TX packets %d  bytes %d (%d KB)\n" [AInt (tx_count me); AInt (tx_size me); AInt (tx_size me / 1024)] ;;
  xprintf &"\n" [].

Fixpoint ifconfig_all (l : list netif_t) : MN unit :=
  match l with [] => ret tt | i :: l' => net_ifconfig i ;; ifconfig_all l' end.

Definition cmd_net_ifconfig : MN unit := let* s := get in ifconfig_all (netif_list s.1.2).
End Driver.
End Eth.
