(* ===== verification/Stm32NetProps.v ===== *)
(** * The network driver of the board *)

From S2P Require Import Prelude Strings Libc IoBuffer HostShared Cmd Net State Fs Keeps Board Lwip Stm32Net.

Section Net.
Context {L W : Type} `{LW : Lwip L} `{LL : !LwipLaws L LW} `{B : Board W} `{T : Target} `{C : Config}.
Implicit Types (n : ns32_t) (l : L) (w : W).

Lemma wp_lw {A} (g : L -> A * L) n l w (Q : A -> (ns32_t * L) * W -> Prop) :
  Q (g l).1 ((n, (g l).2), w) -> wp (Eth.lw g) Q ((n, l), w).
Proof. intros HQ. unfold wp, Eth.lw. cbn [fst snd]. by destruct (g l). Qed.

Lemma wp_deref p n l w (Q : Z -> (ns32_t * L) * W -> Prop) :
  pcb_valid p l = true -> Q p ((n, l), w) -> wp (Eth.deref_pcb (Some p)) Q ((n, l), w).
Proof. intros Hp HQ. unfold Eth.deref_pcb. wp_steps. cbn [fst snd]. rewrite Hp. by wp_step. Qed.

(** ** Received data *)

(** A chain of buffers is copied to the start of the array, in order. *)
Lemma copy_chain_concat ls : forall done rest,
  zlen (concat ls) <= zlen rest ->
  Eth.copy_chain (done ++ rest) (zlen done) ls
    = Some (done ++ concat ls ++ drop (length (concat ls)) rest, zlen done + zlen (concat ls)).
Proof.
  induction ls as [|data ls IH]; intros done rest Hle; cbn [Eth.copy_chain concat].
  { cbn [length app]. rewrite drop_0, zlen_nil, Z.add_0_r. done. }
  cbn [concat] in Hle. rewrite zlen_app in Hle. pose proof (zlen_nonneg (concat ls)).
  unfold Eth.store_at. rewrite zlen_app, (proj2 (Z.leb_le _ _)) by lia.
  assert (Hs : take (Z.to_nat (zlen done)) (done ++ rest) ++ data ++ drop (Z.to_nat (zlen done + zlen data)) (done ++ rest)
    = (done ++ data) ++ drop (length data) rest).
  { unfold zlen. rewrite <- Nat2Z.inj_add, !Nat2Z.id, take_app_length, <- app_assoc. do 2 f_equal.
    rewrite drop_app_ge by lia. f_equal. lia. }
  rewrite Hs. replace (zlen done + zlen data) with (zlen (done ++ data)) by by rewrite zlen_app.
  rewrite IH by (unfold zlen in *; rewrite length_drop; lia). rewrite drop_drop, <- !app_assoc, !zlen_app, length_app. f_equal. f_equal. lia.
Qed.

(** What arrives in a chain that fits the array. *)
Definition chain_ok (p : pbuf) : Prop := tot_len p = zlen (concat (payloads p)) /\ tot_len p <= TCP_MSS.

Lemma wp_build_buffer tpcb p n l w (Q : Z * list Z -> (ns32_t * L) * W -> Prop) :
  chain_ok p -> pcb_valid tpcb l = true ->
  (Q (tot_len p, concat (payloads p) ++ repeat 0 (Z.to_nat (TCP_MSS - tot_len p)))
     ((n, lwip_do (pbuf_free p) (lwip_do (tcp_recved tpcb (tot_len p)) l)), w)) ->
  wp (Eth.net_lwip_build_buffer tpcb (Some p) TCP_MSS) Q ((n, l), w).
Proof.
  intros [Ht Hle] Hp HQ. unfold Eth.net_lwip_build_buffer. wp_step.
  replace (tot_len p >? TCP_MSS) with false by lia. wp_step.
  assert (Hc : Eth.copy_chain (repeat 0 (Z.to_nat TCP_MSS)) 0 (payloads p)
    = Some (concat (payloads p) ++ repeat 0 (Z.to_nat (TCP_MSS - tot_len p)), tot_len p)).
  { pose proof (copy_chain_concat (payloads p) [] (repeat 0 (Z.to_nat TCP_MSS))) as H. cbn [app] in H. change (zlen (@nil Z)) with 0 in H.
    rewrite H by (unfold zlen at 2; rewrite repeat_length; unfold TCP_MSS in *; lia). rewrite Ht, Z.add_0_l. do 3 f_equal.
    pose proof (zlen_nonneg (concat (payloads p))) as Hz. unfold zlen in *. rewrite <- Ht.
    replace (Z.to_nat TCP_MSS) with (length (concat (payloads p)) + Z.to_nat (TCP_MSS - tot_len p))%nat by lia.
    rewrite repeat_app, drop_app_ge by (rewrite repeat_length; lia). rewrite repeat_length, Nat.sub_diag. by rewrite drop_0. }
  eapply wp_lift; [exact Hc|]. wp_steps. apply wp_bind, wp_deref; [done|]. wp_step. apply wp_lw. cbn [fst snd]. wp_step. apply wp_lw. cbn [fst snd].
  wp_steps. exact HQ.
Qed.

(** The block that is made of what arrived. *)
Definition arrived (data : list Z) : input_s :=
  Input (data ++ drop (length data) (in_data fresh_input)) IO_INPUT_BUFFER_SIZE (zlen data).

(** C30: Data that arrives on an open connection while an input buffer is free, at least one byte
    and at most [TCP_MSS], as lwipopts.h makes sure, in a chain of any number of packets, is appended
    to the input ring as one block: the bytes of the chain in order, their number, nothing
    else; the stack is told that they were taken and gets its buffers back. *)
Theorem stm32_recv_appends tpcb p n l w io qi qo :
  queues io qi qo -> zlen qi < max_buffers (io_i io) -> head (io_i io) < 4294967295 ->
  chain_ok p -> 0 < tot_len p -> pcb_valid tpcb l = true ->
  wp (Eth.net_lwip_recv tpcb (Some p) ERR_OK) (fun r x =>
    r = ERR_OK /\ queues x.2 (qi ++ [arrived (concat (payloads p))]) qo /\
    x.1.1.2 = lwip_do (pbuf_free p) (lwip_do (tcp_recved tpcb (tot_len p)) l) /\
    link_state x.1.1.1 = link_state n) (((n, l), w), io).
Proof.
  intros Hq Hroom Hlt Hp Hpos Hv. unfold Eth.net_lwip_recv, Eth.on_i at 1, i_free. wp_steps. cbn [fst snd].
  rewrite (i_free_queue _ _ _ Hq). destruct (Z.eqb_spec (max_buffers (io_i io) - zlen qi) 0); [lia|]. cbn [Z.eqb ERR_OK negb].
  wp_step. unfold Eth.on_n at 1. wp_step. cbn [fst snd]. apply wp_build_buffer; [done|done|]. set (l' := lwip_do _ _).
  destruct Hp as [Ht Hle]. replace (tot_len p <=? 0) with false by lia. wp_step. change (TCP_MSS) with IO_INPUT_BUFFER_SIZE in Hle.
  replace (tot_len p >? IO_INPUT_BUFFER_SIZE) with false by lia. wp_steps. unfold Eth.on_i at 1. wp_step. cbn [fst snd].
  eapply wp_i_push_last; [exact Hq|done|done|]. intros i io1 Hl _. pose proof (proj1 Hl) as Hg. wp_steps. cbn [fst snd].
  eapply wp_lift; [exact Hg|]. wp_step.
  set (data := concat (payloads p)) in *. assert (Htake : take (Z.to_nat (tot_len p)) (data ++ repeat 0 (Z.to_nat (TCP_MSS - tot_len p))) = data).
  { rewrite Ht. unfold zlen. by rewrite Nat2Z.id, take_app_length. }
  rewrite Htake. assert (Hfit : zlen data <= zlen (in_data fresh_input)).
  { unfold zlen at 2. unfold fresh_input. cbn [in_data]. rewrite repeat_length. unfold IO_INPUT_BUFFER_SIZE in *. lia. }
  eapply wp_lift; [unfold fill; by rewrite (proj2 (Z.leb_le _ _) Hfit)|]. wp_step. unfold Eth.on_i. wp_step. cbn [fst snd].
  eapply wp_with_input_last; [exact Hl|]. intros buf Hq'. wp_step. unfold Eth.on_n. wp_step. cbn [fst snd]. wp_step.
  unfold Eth.upd_ns. apply wp_upd_x. cbn [fst snd]. unfold Eth.get_ns. wp_step. apply wp_get_x. unfold calls. apply wp_hw_do. cbn [fst snd]. wp_step.
  split_and!; [done| |done|done]. cbn [fst snd]. replace (u16 (tot_len p)) with (zlen data) in Hq'; [exact Hq'|].
  rewrite u16_id; [done|]. unfold IO_INPUT_BUFFER_SIZE in *. lia.
Qed.

(** ** The response *)

(** What the driver makes of the answer to its request. *)
Definition media_state (text : list Z) : net_state_e :=
  if strstr_found text &"404" || strstr_found text &"application/ogg" then NET_ERROR
  else if strstr_found text &"audio/mpeg" then NET_OPEN else NET_ERROR.

Lemma wp_if_pcb p c n l w (Q : unit -> (ns32_t * L) * W -> Prop) :
  pcb_valid p l = true -> Q tt ((n, lwip_do (c p) l), w) -> wp (Eth.if_pcb (Some p) c) Q ((n, l), w).
Proof. intros Hp HQ. unfold Eth.if_pcb. apply wp_bind, wp_deref; [done|]. by apply wp_lw. Qed.

(** The answer of the server decides about the connection: it is open exactly when the
    answer names the type audio/mpeg and neither 404 nor application/ogg; then, and only
    then, the function that takes the stream is registered.  In every other case the
    connection is in the error state. *)
Theorem stm32_response_decides tpcb p q n l w :
  chain_ok p -> 0 < tot_len p < TCP_MSS -> cstring (concat (payloads p)) ->
  ns_pcb n = Some q -> pcb_valid q l = true -> pcb_valid tpcb l = true ->
  let l' := lwip_do (pbuf_free p) (lwip_do (tcp_recved tpcb (tot_len p)) l) in
  wp (Eth.net_lwip_recv_connect tpcb (Some p) ERR_OK) (fun _ s =>
    link_state s.1.1 = media_state (concat (payloads p)) /\
    s.1.2 = if bool_decide (link_state s.1.1 = NET_OPEN) then lwip_do (tcp_recv q (Some recv_stream_fn)) l' else l')
    ((n, l), w).
Proof.
  intros Hp Hpos Hc Hq Hvq Hvt l'. unfold Eth.net_lwip_recv_connect. wp_step. apply wp_net_debug; [vm_compute; reflexivity|].
  cbn [Z.eqb ERR_OK negb]. wp_step. apply wp_build_buffer; [done|done|]. fold l'. replace (tot_len p <=? 0) with false by lia.
  destruct Hp as [Ht _]. set (text := concat (payloads p)) in *.
  assert (Hbuf : cstr (text ++ repeat 0 (Z.to_nat (TCP_MSS - tot_len p))) = Some text).
  { replace (Z.to_nat (TCP_MSS - tot_len p)) with (S (Z.to_nat (TCP_MSS - tot_len p - 1))) by lia. cbn [repeat]. by apply cstr_app. }
  assert (Hstr : forall needle, strstr_in (text ++ repeat 0 (Z.to_nat (TCP_MSS - tot_len p))) needle = Some (strstr_found text needle)).
  { intros needle. unfold strstr_in. by rewrite Hbuf. }
  assert (Hvq' : pcb_valid q l' = true) by (unfold l'; do 2 (apply law_pcb; [|done|done]); done).
  wp_step. apply wp_when; intros _; [wp_step; eapply wp_lift; [exact Hbuf|]; do 2 (wp_step; wp_print); wp_print|].
  all: wp_step; (eapply wp_lift; [apply Hstr|]); unfold media_state.
  all: destruct (strstr_found text &"404"); cbn [orb]; [wp_step; wp_print; wp_step; apply wp_upd_x; wp_step; done|].
  all: wp_step; (eapply wp_lift; [apply Hstr|]).
  all: destruct (strstr_found text &"application/ogg"); [wp_step; wp_print; wp_step; apply wp_upd_x; wp_step; done|].
  all: wp_step; (eapply wp_lift; [apply Hstr|]).
  all: destruct (strstr_found text &"audio/mpeg"); cbn [negb];
    [|wp_step; wp_print; wp_step; (eapply wp_lift; [exact Hbuf|]); wp_step; wp_print; wp_step; apply wp_upd_x; wp_step; done].
  all: wp_step; apply wp_upd_x; wp_step; apply wp_net_debug; [vm_compute; reflexivity|]; unfold Eth.get_ns; wp_step; apply wp_get_x;
    cbn [fst snd set_link ns_pcb]; rewrite Hq; wp_step; apply wp_if_pcb; [done|]; wp_step; done.
Qed.

(** ** The request *)

Lemma printable_cstring t : printable t -> cstring t.
Proof. apply List.Forall_impl. intros c Hc. lia. Qed.

(** When the connection is made, the driver sends exactly the request for the file and
    the host of the URL, registers the functions for the answer first, and leaves the state
    of the connection alone.  Names that fit the arrays of 128 bytes always fit the 512
    bytes of the request. *)
Theorem stm32_request_sent pcb q n l w filename hostname rest1 rest2 :
  ns_filename n = filename ++ 0 :: rest1 -> zlen (ns_filename n) = MAX_URL -> printable filename ->
  ns_hostname n = hostname ++ 0 :: rest2 -> zlen (ns_hostname n) = MAX_HOSTNAME -> printable hostname ->
  ns_pcb n = Some q -> pcb_valid q l = true ->
  let l' := lwip_do (tcp_sent q true) (lwip_do (tcp_recv q (Some recv_connect_fn)) (lwip_do (tcp_arg q) l)) in
  wp (Eth.net_lwip_connected pcb ERR_OK) (fun r s =>
    (r, s.1.2) = tcp_write q (http_text filename hostname) l' /\ s.1.1 = n) ((n, l), w).
Proof.
  intros Hf Hfl Hfp Hh Hhl Hhp Hq Hv l'. unfold Eth.net_lwip_connected. wp_step. apply wp_net_debug; [vm_compute; reflexivity|].
  cbn [Z.eqb ERR_OK negb]. unfold Eth.get_ns. wp_step. apply wp_get_x. cbn [fst snd]. rewrite Hf, Hh, zlen_app, zlen_cons in *.
  pose proof (zlen_nonneg rest1). pose proof (zlen_nonneg rest2).
  wp_step. eapply wp_lift; [apply cstr_app; by apply printable_cstring|]. wp_step. eapply wp_lift; [apply cstr_app; by apply printable_cstring|].
  assert (Hreq : request_text Eth.HTTP_BUFFER filename hostname (n, l, w) = Done (http_text filename hostname, (n, l, w), [])).
  { apply http_request_text; [done|done|]. unfold Eth.HTTP_BUFFER, HTTP_FIXED, MAX_URL, MAX_HOSTNAME, Console.MAX_CONSOLE_INPUT in *. lia. }
  wp_step. apply wp_run. eexists _, _, _. split; [exact Hreq|]. do 2 (wp_step; apply wp_net_debug; [vm_compute; reflexivity|]). rewrite Hq.
  assert (Hv1 : pcb_valid q (lwip_do (tcp_arg q) l) = true) by (apply law_pcb; done).
  assert (Hv2 : pcb_valid q (lwip_do (tcp_recv q (Some recv_connect_fn)) (lwip_do (tcp_arg q) l)) = true) by (apply law_pcb; done).
  assert (Hv3 : pcb_valid q l' = true) by (apply law_pcb; done).
  do 3 (wp_step; apply wp_if_pcb; [done|]). apply wp_bind, wp_deref; [done|]. apply wp_lw. cbn [fst snd].
  split; [by destruct (tcp_write _ _ _)|done].
Qed.

(** ** Ends of a connection *)

Lemma bind_fault {S A E} (m : M S A) (k : A -> M S E) s :
  wp m (fun a s' => k a s' = Fault) s -> bind m k s = Fault.
Proof. unfold wp, bind. destruct (m s) as [[[a s'] o]| |]; [|done|done]. by intros ->. Qed.

(** The end of a stream is undefined behaviour.  When the server closes the connection
    lwIP calls the receive function with NULL instead of a buffer; whether there is room or
    not, and in the middle of the stream as well as before the answer, the driver then reads
    the length of that buffer. *)
Theorem stm32_remote_close_undefined tpcb x :
  Eth.net_lwip_recv tpcb None ERR_OK x = Fault /\ Eth.net_lwip_recv_connect tpcb None ERR_OK x.1 = Fault.
Proof.
  assert (Hb : forall s : (ns32_t * L) * W, Eth.net_lwip_build_buffer tpcb None TCP_MSS s = Fault).
  { intros s. apply bind_fault, wp_net_debug; [vm_compute; reflexivity|]. apply bind_fault, wp_upd_x. done. }
  destruct x as [[[n l] w] io]. split.
  - unfold Eth.net_lwip_recv. apply bind_fault. unfold Eth.on_i, i_free. wp_steps. cbn [fst snd].
    destruct (_ =? 0).
    + unfold bind at 1, Eth.on_n, zoom. cbn [fst snd]. rewrite bind_fault; [done|]. apply wp_net_debug; [vm_compute; reflexivity|]. done.
    + cbn [Z.eqb ERR_OK negb]. unfold bind at 1, Eth.on_n, zoom. cbn [fst snd]. by rewrite Hb.
  - unfold Eth.net_lwip_recv_connect. apply bind_fault, wp_net_debug; [vm_compute; reflexivity|]. cbn [Z.eqb ERR_OK negb fst].
    unfold bind at 1. by rewrite Hb.
Qed.

(** Closing a connection that was never opened. *)
Lemma close_without_pcb (s : (ns32_t * L) * W) : ns_pcb s.1.1 = None -> Eth.host_net_close s = Fault.
Proof.
  intros Hn. unfold Eth.host_net_close, Eth.net_lwip_close, Eth.upd_ns, Eth.get_ns, Eth.if_pcb, upd_x, get_x, modify, gets, bind, ret.
  cbn [fst snd set_link ns_pcb]. by rewrite Hn.
Qed.

Lemma keeps_url (I : (ns32_t * L) * W -> Prop) url : keeps I (net_parse_url url).
Proof. unfold net_parse_url, net_debug. keep. Qed.

(** A host name that cannot be resolved brings the board down.  As long as the name is
    being looked up there is no connection; when the answer is that the name is unknown the
    driver only sets the error state, on which the player closes the network, and closing
    uses the pointer to the connection, which is NULL.  The same happens when the player is
    stopped while the name is looked up. *)
Theorem stm32_unknown_host_undefined url n l w :
  ns_pcb n = None -> eth_state n <> ETH_UNKNOWN -> (forall name l, (dns_gethostbyname name l).1.1 = ERR_INPROGRESS) ->
  pp (Eth.host_net_open url) (fun _ s => link_state s.1.1 = NET_PENDING /\ Eth.host_net_close s = Fault /\
    pp (Eth.net_lwip_dns None) (fun _ s' => link_state s'.1.1 = NET_ERROR /\ Eth.host_net_close s' = Fault) s) ((n, l), w).
Proof.
  intros Hp He Hd. unfold Eth.host_net_open, Eth.get_ns. apply pp_bind. change (pp (get_x fst) ?Q ((n, l), w)) with (Q n ((n, l), w)). cbn beta.
  rewrite bool_decide_eq_false_2 by done. apply pp_bind, pp_debug. apply pp_bind.
  eapply pp_mono; [|apply (keeps_url (fun s => s = ((n, l), w))); done]. intros [[hostname port] filename] s ->.
  apply pp_bind, pp_lift. intros h _. apply pp_bind, pp_lift. intros f _. apply pp_bind.
  change (pp (Eth.upd_ns ?g) ?Q ((n, l), w)) with (Q tt ((g n, l), w)). cbn beta. apply pp_bind, pp_lift. intros name _. apply pp_bind.
  unfold pp at 1, Eth.lw. cbn [fst snd]. specialize (Hd name l). destruct (dns_gethostbyname name l) as [[r addr] l'] eqn:Hl. cbn [fst snd] in Hd. subst r.
  cbn [Z.eqb ERR_INPROGRESS ERR_OK Pos.eqb]. apply pp_bind, pp_debug.
  change (pp (Eth.upd_ns ?g) ?Q ((?m, ?l), w)) with (Q tt ((g m, l), w)). cbn beta. cbn [fst snd set_link set_url link_state]. split_and!; [done|by apply close_without_pcb|].
  unfold Eth.net_lwip_dns. apply pp_bind, pp_debug. apply pp_bind, pp_debug.
  change (pp (Eth.upd_ns ?g) ?Q ((?m, ?l), w)) with (Q tt ((g m, l), w)). cbn beta. split; [done|by apply close_without_pcb].
Qed.
End Net.

(** ** A small stack

    Names are looked up for ever, and connections are numbered. *)
Record demo_stack : Type := DemoStack { k_next : Z; k_live : list Z; k_recv : option recv_fn; k_sent : list (list Z) }.

Definition demo_lwip_do (c : lwip_call) (l : demo_stack) : demo_stack :=
  match c with
  | lwip_init => DemoStack 1 [] None []
  | tcp_recv _ f => DemoStack (k_next l) (k_live l) f (k_sent l)
  | tcp_close p => DemoStack (k_next l) (List.filter (fun q => negb (q =? p)) (k_live l)) (k_recv l) (k_sent l)
  | _ => l
  end.

Definition demo_netif : netif_t := Netif (115, 116) 15 1500 (ip4_addr 10 0 0 2) (ip4_addr 255 255 255 0) (ip4_addr 10 0 0 1) [128; 134; 128; 136; 3; 134] 0 0 0 0.

#[export] Instance demo_lwip : Lwip demo_stack := {|
  lwip_do := demo_lwip_do;
  pcb_valid p l := existsb (Z.eqb p) (k_live l);
  tcp_new l := (Some (k_next l), DemoStack (k_next l + 1) (k_next l :: k_live l) (k_recv l) (k_sent l));
  tcp_connect p addr port l := (0, l);
  tcp_write p data l := (0, DemoStack (k_next l) (k_live l) (k_recv l) (k_sent l ++ [data]));
  dns_gethostbyname name l := (ERR_INPROGRESS, 0, l);
  dhcp_tries l := 0;
  ns_netif l := demo_netif;
  netif_list l := [demo_netif];
  ethernetif_input l := l;
  sys_check_timeouts l := l;
  lwip_next l := (None, l);
  lwip_due l := O
|}.

#[export] Instance demo_lwip_laws : LwipLaws demo_stack demo_lwip.
Proof.
  constructor; cbn.
  - intros c p l Hp Hc Hi. destruct c; try done. by destruct (Hc pcb).
  - intros l p l' Hn. injection Hn as <- <-. cbn. by rewrite Z.eqb_refl.
  - intros p addr port l r l' q Hc. by injection Hc as _ <-.
  - intros p data l r l' q Hc. by injection Hc as _ <-.
Defined.

Definition stack_up : demo_stack := DemoStack 2 [1] None [].
Definition ns_up : ns32_t :=
  Ns32 5 (Some 1) (&"radio.org" ++ repeat 0 119) (&"/a.mp3" ++ repeat 0 122) 80 ETH_INIT NET_PENDING 0.
Definition empty_io : io_t :=
  IoState (Io &"input" 0 0 4) (Io &"output" 0 0 4) (repeat fresh_input 4) (repeat fresh_output 4).
Definition two_parts : pbuf := Pbuf 4 [[1; 2]; [3; 4]].
Definition answer : pbuf := Pbuf 24 [&"Content-Type: "; &"audio/mpeg"].

Lemma empty_io_queues : queues empty_io [] [].
Proof. unfold queues, io_ok, ring_ok. vm_compute. split_and!; try done; intros ?; discriminate. Qed.

Lemma stm32_recv_appends_witness :
  wp (@Eth.net_lwip_recv _ _ _ _ stm32_target (default_config false) 1 (Some two_parts) ERR_OK) (fun r x =>
    r = ERR_OK /\ queues x.2 ([] ++ [arrived [1; 2; 3; 4]]) [] /\
    x.1.1.2 = lwip_do (pbuf_free two_parts) (lwip_do (tcp_recved 1 4) stack_up) /\
    link_state x.1.1.1 = NET_PENDING) (((ns_up, stack_up), demo_world), empty_io).
Proof.
  apply (@stm32_recv_appends _ _ _ _ stm32_target (default_config false) 1 two_parts ns_up stack_up demo_world empty_io [] []);
    [exact empty_io_queues|reflexivity|reflexivity|split; [reflexivity|vm_compute; discriminate]|reflexivity|reflexivity].
Defined.

Lemma stm32_response_decides_witness :
  let l' := lwip_do (pbuf_free answer) (lwip_do (tcp_recved 1 24) stack_up) in
  wp (@Eth.net_lwip_recv_connect _ _ _ stm32_target (default_config false) 1 (Some answer) ERR_OK) (fun _ s =>
    link_state s.1.1 = media_state &"Content-Type: audio/mpeg" /\
    s.1.2 = if bool_decide (link_state s.1.1 = NET_OPEN) then lwip_do (tcp_recv 1 (Some recv_stream_fn)) l' else l')
    ((ns_up, stack_up), demo_world).
Proof.
  apply (@stm32_response_decides _ _ _ _ stm32_target (default_config false) 1 answer 1 ns_up stack_up demo_world);
    [split; [reflexivity|vm_compute; discriminate]|split; reflexivity| |reflexivity|reflexivity|reflexivity].
  repeat constructor; discriminate.
Defined.

Lemma stm32_request_sent_witness :
  let l' := lwip_do (tcp_sent 1 true) (lwip_do (tcp_recv 1 (Some recv_connect_fn)) (lwip_do (tcp_arg 1) stack_up)) in
  wp (@Eth.net_lwip_connected _ _ _ stm32_target (default_config false) 1 ERR_OK) (fun r s =>
    (r, s.1.2) = tcp_write 1 (http_text &"/a.mp3" &"radio.org") l' /\ s.1.1 = ns_up) ((ns_up, stack_up), demo_world).
Proof.
  apply (@stm32_request_sent _ _ _ _ stm32_target (default_config false) 1 1 ns_up stack_up demo_world &"/a.mp3" &"radio.org" (repeat 0 121) (repeat 0 118));
    [reflexivity|reflexivity|unfold printable; repeat constructor; lia|reflexivity|reflexivity|unfold printable; repeat constructor; lia|reflexivity|reflexivity].
Defined.

#[local] Existing Instance stm32_target.
Definition net_config : Config := default_config false.
#[local] Existing Instance net_config.

Lemma stm32_unknown_host_undefined_witness :
  pp (@Eth.host_net_open _ demo_board _ _ _ &"http://nowhere/x") (fun _ s =>
    link_state s.1.1 = NET_PENDING /\ Eth.host_net_close s = Fault /\
    pp (Eth.net_lwip_dns None) (fun _ s' => link_state s'.1.1 = NET_ERROR /\ Eth.host_net_close s' = Fault) s)
    ((set_pcb None ns_up, stack_up), demo_world).
Proof.
  apply (@stm32_unknown_host_undefined _ _ _ _ _ &"http://nowhere/x" (set_pcb None ns_up) stack_up demo_world);
    [reflexivity|discriminate|reflexivity].
Defined.
