(* ===== verification/HostStm32.v ===== *)
(** * The host of the STM32 board: stm32/*.c

    The drivers of the board as an instance of [Platform], the entries of the command table
    that only this host has, the interrupts, and stm32/main.c. *)

From S2P Require Import Prelude Board Stm32Timer Pcd8544 Audio Stm32Sound Stm32Console Stm32Fs Lwip Stm32Net.
From S2P Require Import Strings Libc Snd IoBuffer Console Event Cmd Net Resfs Salloc State Fs LcdPanel Libmad Player Main.

(** usb.c: what is known of the USB device. *)
Record ud_t : Type := Ud { ud_present : Z; ud_speed : Z; ud_name : list Z; ud_serial : list Z; ud_manufact : list Z }.
Definition USB_MAX_NAME : Z := 32.
Definition USB_MAX_SERIAL : Z := 32.
Definition USB_MAX_MANUFACT : Z := 32.
Definition ud_zero : ud_t :=
  Ud 0 0 (repeat 0 (Z.to_nat USB_MAX_NAME)) (repeat 0 (Z.to_nat USB_MAX_SERIAL)) (repeat 0 (Z.to_nat USB_MAX_MANUFACT)).

(** The static variables of the drivers, FatFs, lwIP, the pool of allocs.c and the hardware. *)
Record stm32_t (F L W : Type) : Type := Stm32 {
  t_tim : tim_t;
  t_pcd : pcd_t;
  t_snd : snd_t;
  t_fs : fs32_t;
  t_ff : F;
  t_ns : ns32_t;
  t_lw : L;
  t_ud : ud_t;
  t_heap : heap;
  t_board : W
}.
Arguments Stm32 {F L W}.
Arguments t_tim {F L W}.
Arguments t_pcd {F L W}.
Arguments t_snd {F L W}.
Arguments t_fs {F L W}.
Arguments t_ff {F L W}.
Arguments t_ns {F L W}.
Arguments t_lw {F L W}.
Arguments t_ud {F L W}.
Arguments t_heap {F L W}.
Arguments t_board {F L W}.

Section Parts.
Context {F L W : Type}.
Abbreviation HT := (stm32_t F L W).
Implicit Types h : HT.

Definition with_tim (x : tim_t * W) h : HT :=
  Stm32 x.1 (t_pcd h) (t_snd h) (t_fs h) (t_ff h) (t_ns h) (t_lw h) (t_ud h) (t_heap h) x.2.
Definition with_pcd (x : pcd_t * W) h : HT :=
  Stm32 (t_tim h) x.1 (t_snd h) (t_fs h) (t_ff h) (t_ns h) (t_lw h) (t_ud h) (t_heap h) x.2.
Definition with_pcd_tim (x : (pcd_t * tim_t) * W) h : HT :=
  Stm32 x.1.2 x.1.1 (t_snd h) (t_fs h) (t_ff h) (t_ns h) (t_lw h) (t_ud h) (t_heap h) x.2.
Definition with_snd (x : snd_t * W) h : HT :=
  Stm32 (t_tim h) (t_pcd h) x.1 (t_fs h) (t_ff h) (t_ns h) (t_lw h) (t_ud h) (t_heap h) x.2.
Definition with_files (x : (fs32_t * F) * W) h : HT :=
  Stm32 (t_tim h) (t_pcd h) (t_snd h) x.1.1 x.1.2 (t_ns h) (t_lw h) (t_ud h) (t_heap h) x.2.
Definition with_net (x : (ns32_t * L) * W) h : HT :=
  Stm32 (t_tim h) (t_pcd h) (t_snd h) (t_fs h) (t_ff h) x.1.1 x.1.2 (t_ud h) (t_heap h) x.2.
Definition with_ud (x : ud_t) h : HT :=
  Stm32 (t_tim h) (t_pcd h) (t_snd h) (t_fs h) (t_ff h) (t_ns h) (t_lw h) x (t_heap h) (t_board h).
Definition with_heap (x : heap) h : HT :=
  Stm32 (t_tim h) (t_pcd h) (t_snd h) (t_fs h) (t_ff h) (t_ns h) (t_lw h) (t_ud h) x (t_board h).

Definition on_tim {A} : M (tim_t * W) A -> M HT A := zoom (fun h => (t_tim h, t_board h)) with_tim.
Definition on_pcd {A} : M (pcd_t * W) A -> M HT A := zoom (fun h => (t_pcd h, t_board h)) with_pcd.
Definition on_pcd_tim {A} : M ((pcd_t * tim_t) * W) A -> M HT A := zoom (fun h => ((t_pcd h, t_tim h), t_board h)) with_pcd_tim.
Definition on_snd {A} : M (snd_t * W) A -> M HT A := zoom (fun h => (t_snd h, t_board h)) with_snd.
Definition on_files {A} : M ((fs32_t * F) * W) A -> M HT A := zoom (fun h => ((t_fs h, t_ff h), t_board h)) with_files.
Definition on_net {A} : M ((ns32_t * L) * W) A -> M HT A := zoom (fun h => ((t_ns h, t_lw h), t_board h)) with_net.
Definition on_heap {A} : M heap A -> M HT A := zoom t_heap with_heap.

(** The drivers that use the buffer rings, and the interrupt of the console. *)
Definition on_snd_io {A} : M ((snd_t * W) * io_t) A -> M (HT * io_t) A :=
  zoom (fun x => ((t_snd x.1, t_board x.1), x.2)) (fun y x => (with_snd y.1 x.1, y.2)).
Definition on_net_io {A} : M (((ns32_t * L) * W) * io_t) A -> M (HT * io_t) A :=
  zoom (fun x => (((t_ns x.1, t_lw x.1), t_board x.1), x.2)) (fun y x => (with_net y.1 x.1, y.2)).
Definition on_serial {A} : M ((tim_t * W) * con_t * ev_t) A -> M (HT * con_t * ev_t) A :=
  zoom (fun x => ((t_tim x.1.1, t_board x.1.1), x.1.2, x.2)) (fun y x => (with_tim y.1.1 x.1.1, y.1.2, y.2)).
End Parts.

Section Host.
Context {F L W : Type} `{FF : FatFs F} `{LW : Lwip L} `{B : Board W} `{T : Target} `{C : Config}.

#[export] Instance stm32_platform : Platform (stm32_t F L W) := {|
  get_local_time := on_tim Stm32Timer.get_local_time;
  host_con_init := on_tim Serial.host_con_init;
  host_con_poll := on_serial Serial.host_con_poll;
  host_fs_init := on_files FatFiles.host_fs_init;
  host_fs_open name := on_files (FatFiles.host_fs_open name);
  host_fs_close k := on_files (FatFiles.host_fs_close k);
  host_fs_read k n := on_files (FatFiles.host_fs_read k n);
  host_fs_seek k n := on_files (FatFiles.host_fs_seek k n);
  host_net_init := on_net Eth.host_net_init;
  host_net_done := on_net Eth.host_net_done;
  host_net_open url := on_net (Eth.host_net_open url);
  host_net_close := on_net Eth.host_net_close;
  host_net_poll := zoom fst (fun h x => (h, x.2)) (on_net Eth.host_net_poll);
  host_net_state := on_net Eth.host_net_state;
  host_snd_init := on_snd Sound.host_snd_init;
  host_snd_done := on_snd Sound.host_snd_done;
  host_snd_loop st v := on_snd_io (Sound.host_snd_loop st v);
  host_snd_state := on_snd Sound.host_snd_state;
  host_lcd_init := on_pcd_tim Lcd.host_lcd_init;
  host_lcd_done := on_pcd Lcd.host_lcd_done;
  host_lcd_draw r := on_pcd (Lcd.host_lcd_draw r);
  host_lcd_get_cfg := on_pcd Lcd.host_lcd_get_cfg;
  host_lcd_putpixel x y c := on_pcd (Lcd.host_lcd_putpixel x y c);
  host_lcd_update_screen := on_pcd Lcd.host_lcd_update_screen;
  host_lcd_clean_screen := on_pcd Lcd.host_lcd_clean_screen;
  host_cmd_net_state := on_net Eth.cmd_net_state;
  host_cmd_snd_state v := on_snd (Sound.cmd_snd_state v)
|}.
End Host.

Module Stm32.
Section Program.
Context {F L W D : Type} `{FF : FatFs F} `{LW : Lwip L} `{B : Board W} `{T : Target} `{C : Config} `{MD : Mad D}.
Abbreviation HT := (stm32_t F L W).
Abbreviation MS := (M (state HT D)).

(** ** Commands *)

Definition cmd_fs_list : MS unit :=
  let* argc := on_cmd cmd_Argc in
  (if argc =? 1 then on_host (on_files (FatFiles.fs_list &"."))
   else let* path := on_cmd (cmd_arg 1) in on_host (on_files (FatFiles.fs_list path))) ;;
  xprintf &"\n" [].

Definition cmd_fs_chdir : MS unit :=
  let* argc := on_cmd cmd_Argc in
  if argc =? 1 then xprintf &"parameter required.\n" []
  else
    let* arg := on_cmd (cmd_arg 1) in
    on_host (on_files (FatFiles.fs_cd arg)) ;;
    xprintf &"\n" [].

(** ** usb.c *)

Definition usb_debug {S} (fmt : list Z) (args : list arg) : M S unit := when CONFIG_USB_DEBUG (xprintf fmt args).

Definition get_ud : MS ud_t := gets (fun s => t_ud (s_host s)).
Definition upd_ud (f : ud_t -> ud_t) : MS unit := on_host (modify (fun h => with_ud (f (t_ud h)) h)).

(** [while (1);] *)
Definition usb_over_current : MS unit := xprintf &"usb overcurrent\n" [] ;; nofuel.

Definition usb_ispresent : MS Z := let* u := get_ud in ret (ud_present u).

(** The arrays need not have a NUL. *)
Definition usb_device : MS unit :=
  let* u := get_ud in
  if ud_present u =? 1 then
    let* manufact := lift (cstr (ud_manufact u)) in
    let* name := lift (cstr (ud_name u)) in
    let* serial := lift (cstr (ud_serial u)) in
    xprintf &"Present USB device: '%s' '%s' '%s', speed: %d\n"
      [AStr manufact; AStr name; AStr serial; AInt (ud_speed u)]
  else usb_debug &"No USB device present.\n" [].

Definition cmd_usb : MS unit := usb_device ;; xprintf &"\n" [].

Definition USBH_USR_Init : MS unit := usb_debug &"USBH_USR_Init " [].
Definition USBH_USR_DeInit : MS unit := usb_debug &"USBH_USR_DeInit\n" [].
Definition USBH_USR_DeviceAttached : MS unit :=
  upd_ud (fun u => Ud 1 (ud_speed u) (ud_name u) (ud_serial u) (ud_manufact u)) ;;
  usb_debug &"USBH_USR_DeviceAttached\n" [].
Definition USBH_USR_ResetDevice : MS unit := usb_debug &"USBH_USR_ResetDevice\n" [].
Definition USBH_USR_DeviceDisconnected : MS unit :=
  on_host (on_files FatFiles.fs_umount) ;;
  upd_ud (fun _ => ud_zero) ;;
  usb_debug &"USBH_USR_DeviceDisconnected\n" [].
Definition USBH_USR_OverCurrentDetected : MS unit := usb_debug &"USBH_USR_OverCurrentDetected\n" [].
Definition USBH_USR_DeviceSpeedDetected (DeviceSpeed : Z) : MS unit :=
  let* u := get_ud in
  when (ud_present u =? 1)
    (upd_ud (fun u => Ud (ud_present u) DeviceSpeed (ud_name u) (ud_serial u) (ud_manufact u))) ;;
  usb_debug &"USBH_USR_DeviceSpeedDetected %d\n" [AInt DeviceSpeed].
Definition USBH_USR_Device_DescAvailable : MS unit := usb_debug &"USBH_USR_Device_DescAvailable\n" [].
Definition USBH_USR_DeviceAddressAssigned : MS unit := usb_debug &"USBH_USR_DeviceAddressAssigned\n" [].
Definition USBH_USR_Configuration_DescAvailable : MS unit := usb_debug &"USBH_USR_Configuration_DescAvailable\n" [].

(** [uc_memcpy] of at most [max] bytes of a string to the start of an array; the rest of
    the array stays. *)
Definition store_name (max : Z) (str arr : list Z) : option (list Z) :=
  let len := if zlen str >? max then max else zlen str in
  fill (take (Z.to_nat len) str) arr.

Definition USBH_USR_Manufacturer_String (str : list Z) : MS unit :=
  let* u := get_ud in
  when (ud_present u =? 1)
    (let* a := lift (store_name USB_MAX_MANUFACT str (ud_manufact u)) in
     upd_ud (fun u => Ud (ud_present u) (ud_speed u) (ud_name u) (ud_serial u) a)) ;;
  usb_debug &"USBH_USR_Manufacturer_String '%s'\n" [AStr str].
Definition USBH_USR_Product_String (str : list Z) : MS unit :=
  let* u := get_ud in
  when (ud_present u =? 1)
    (let* a := lift (store_name USB_MAX_NAME str (ud_name u)) in
     upd_ud (fun u => Ud (ud_present u) (ud_speed u) a (ud_serial u) (ud_manufact u))) ;;
  usb_debug &"USBH_USR_Product_String '%s'\n" [AStr str].
Definition USBH_USR_SerialNum_String (str : list Z) : MS unit :=
  let* u := get_ud in
  when (ud_present u =? 1)
    (let* a := lift (store_name USB_MAX_SERIAL str (ud_serial u)) in
     upd_ud (fun u => Ud (ud_present u) (ud_speed u) (ud_name u) a (ud_manufact u))) ;;
  usb_debug &"USBH_USR_SerialNum_String '%s'\n" [AStr str].

(** Before that the source waits for half a second. *)
Definition USBH_USR_EnumerationDone : MS unit :=
  usb_device ;;
  usb_debug &"USBH_USR_EnumerationDone\n" [].
Definition USBH_USR_UserInput : MS unit := usb_debug &"USBH_USR_UserInput\n" [].

Definition fs_poll_usb : MS unit := fs_poll.

Definition USBH_USR_MSC_Application : MS Z :=
  let* u := get_ud in
  if ud_present u =? 0 then ret 0
  else
    let* m := on_host (on_files FatFiles.fs_ismounted) in
    (if m =? 0 then on_host (on_files FatFiles.fs_mount) else fs_poll_usb) ;;
    ret 0.
Definition USBH_USR_DeviceNotSupported : MS unit := usb_debug &"USBH_USR_DeviceNotSupported\n" [].
Definition USBH_USR_UnrecoveredError : MS unit := usb_debug &"USBH_USR_UnrecoveredError\n" [].

(** ** The command table with its two STM32 blocks *)

Definition commands_stm32 : list (list Z * command (state HT D)) :=
  commands
    [(&"cd", CHost cmd_fs_chdir); (&"ls", CHost cmd_fs_list);
     (&"pwd", CHost (on_host (on_files FatFiles.cmd_fs_pwd)));
     (&"fs", CHost (on_host (on_files FatFiles.cmd_fs)));
     (&"usb", CHost cmd_usb); (&"ifc", CHost (on_host (on_net Eth.cmd_net_ifconfig)))]
    [(&"snd_init", CHost snd_init)] [].

(** ** stm32f4xx_it.c *)

Definition SysTick_Handler : MS unit := on_host (on_tim timer_handle_it).
Definition USART3_IRQHandler : MS unit := on_host_con (on_serial Serial.usart3_handle_it).
(** The handler of Audio.c, with the callback of sound.c *)
Definition DMA1_Stream7_IRQHandler : MS unit :=
  on_host (on_snd (Sound.on_audio (Audio.DMA1_Stream7_IRQHandler Sound.audio_callback))).

(** ** main.c *)

Definition LED_SYSTEM : Z := 0.

Definition board (l : list hw) : MS unit := on_host (on_tim (calls l)).

Definition init : MS unit :=
  board [STM_EVAL_LEDInit LED_FS; STM_EVAL_LEDInit LED_SYSTEM; STM_EVAL_LEDInit LED_SOUND; STM_EVAL_LEDInit LED_NET;
         STM_EVAL_LEDOff LED_FS; STM_EVAL_LEDOff LED_SYSTEM; STM_EVAL_LEDOff LED_SOUND; STM_EVAL_LEDOff LED_NET] ;;
  (let* f := on_host (on_tim (hw_ask HCLK_Frequency)) in board [SysTick_Config (f / 100)]) ;;
  con_init ;;
  xprintf &"\n\n==== Init start ====\n" [] ;;
  lcd_init ;;
  lcd_startup LSS_BLANK ;; lcd_startup LSS_INIT ;;
  on_host (on_tim rng_init) ;;
  on_io io_init ;; on_host (on_heap lma_init) ;; on_ev event_init ;; on_cmd cmd_init ;;
  fs_init ;; net_init ;; snd_init ;; pl_init ;;
  lcd_startup LSS_WELLCOME ;;
  version ;;
  xprintf &"==== Init done ====\n\n" [] ;;
  board [STM_EVAL_LEDOn LED_SYSTEM] ;;
  on_con con_input_unlock ;;
  con_prompt.

Definition net_timers : MS unit := on_host_io (on_net_io Eth.net_timers).

(** [main], for [n] rounds of its loop. *)
Fixpoint main_loop (n fuel : nat) : MS unit :=
  match n with
  | O => ret tt
  | S n' => frame_stm32 fuel commands_stm32 ;; net_timers ;; main_loop n' fuel
  end.

Definition main (n fuel : nat) : MS unit := init ;; main_loop n fuel.
End Program.
End Stm32.
