(* ===== verification/Apart.v ===== *)
(** * What leaves the console and the events alone

    Only the console's own functions, the pushes of commands and the dispatcher touch the
    input line and the event queue.  This is about every computation that returns, on every
    target; nothing is said here about those that do not. *)

From S2P Require Import Prelude Strings Libc Snd IoBuffer Console Event Cmd Net Resfs MadStream State Fs LcdPanel Libmad Player Main.

Section Rules.
Context {H D : Type}.
Abbreviation MS := (M (state H D)).

Definition apart {A} (m : MS A) : Prop :=
  forall s a s' o, m s = Done (a, s', o) -> s_con s' = s_con s /\ s_ev s' = s_ev s.

Lemma apart_state {A} (m : MS A) : (forall s a s' o, m s = Done (a, s', o) -> s' = s) -> apart m.
Proof. intros Hm s a s' o Hs. by rewrite (Hm _ _ _ _ Hs). Qed.
Lemma apart_ret {A} (a : A) : apart (ret a).
Proof. apply apart_state. intros ? ? ? ? Hs. unfold ret, get, gets, tell in Hs. congruence. Qed.
Lemma apart_get : apart get.
Proof. apply apart_state. intros ? ? ? ? Hs. unfold ret, get, gets, tell in Hs. congruence. Qed.
Lemma apart_gets {A} (f : state H D -> A) : apart (gets f).
Proof. apply apart_state. intros ? ? ? ? Hs. unfold ret, get, gets, tell in Hs. congruence. Qed.
Lemma apart_lift {A} (x : option A) : apart (lift x).
Proof. apply apart_state. unfold lift. destruct x; [|done]. intros ? ? ? ? Hs. unfold ret, get, gets, tell in Hs. congruence. Qed.
Lemma apart_lift_res {A} (x : res A) : apart (lift_res x).
Proof. apply apart_state. unfold lift_res. destruct x; try done. intros ? ? ? ? Hs. unfold ret, get, gets, tell in Hs. congruence. Qed.
Lemma apart_fault {A} : apart (@fault (state H D) A).
Proof. done. Qed.
Lemma apart_nofuel {A} : apart (@nofuel (state H D) A).
Proof. done. Qed.
Lemma apart_tell o : apart (tell o).
Proof. apply apart_state. intros ? ? ? ? Hs. unfold ret, get, gets, tell in Hs. congruence. Qed.
Lemma apart_xprintf `{Target} fmt args : apart (xprintf fmt args).
Proof. apply apart_state. unfold xprintf. intros s a s' o. destruct (xvprintf _ _); try done. congruence. Qed.
Lemma apart_modify f : (forall s, s_con (f s) = s_con s /\ s_ev (f s) = s_ev s) -> apart (modify f).
Proof. intros Hf s a s' o [= <- <-]. apply Hf. Qed.
Lemma apart_bind {A E} (m : MS A) (k : A -> MS E) : apart m -> (forall a, apart (k a)) -> apart (bind m k).
Proof.
  intros Hm Hk s b s' o. unfold bind. destruct (m s) as [[[a s1] o1]| |] eqn:H1; [|done|done].
  destruct (k a s1) as [[[b2 s2] o2]| |] eqn:H2; [|done|done]. intros Hd.
  destruct (Hm _ _ _ _ H1), (Hk _ _ _ _ _ H2). split; congruence.
Qed.
Lemma apart_when b (m : MS unit) : apart m -> apart (when b m).
Proof. intros Hm. destruct b; [done|apply apart_ret]. Qed.
Lemma apart_for_range lo n (body : Z -> MS unit) : (forall i, apart (body i)) -> apart (for_range lo n body).
Proof. intros Hb. revert lo. induction n as [|n IH]; intros lo; cbn [for_range]; [apply apart_ret|]. by apply apart_bind. Qed.
Lemma apart_zoom {C A} (proj : state H D -> C) upd (m : M C A) :
  (forall c s, s_con (upd c s) = s_con s /\ s_ev (upd c s) = s_ev s) -> apart (zoom proj upd m).
Proof. intros Hu s a s' o. unfold zoom. destruct (m (proj s)) as [[[b c] o']| |]; try done. intros [= _ <- _]. apply Hu. Qed.
End Rules.

Create HintDb apart.
#[export] Hint Resolve apart_ret apart_get apart_gets apart_lift apart_lift_res apart_fault apart_nofuel apart_tell apart_xprintf : apart.

Ltac head_of t := lazymatch t with ?f _ => head_of f | _ => t end.
Ltac apart_step :=
  cbn beta iota zeta;
  lazymatch goal with
  | |- forall _, _ => intros ?
  | |- apart (bind _ _) => apply apart_bind; [|intros ?]
  | |- apart (when _ _) => apply apart_when
  | |- apart (for_range _ _ _) => apply apart_for_range; intros ?
  | |- apart (if ?b then _ else _) => destruct b
  | |- apart (match ?x with _ => _ end) => destruct x
  | |- apart (zoom _ _ _) => apply apart_zoom; done
  | |- apart (modify _) => apply apart_modify; done
  | |- apart ?m => first [solve [auto with apart nocore] | let h := head_of m in unfold h]
  end.
Ltac apart := repeat apart_step.

Section Components.
Context {H D : Type} `{T : Target} `{C : Config} `{P : Platform H} `{MD : Mad D}.

Lemma apart_riff_blocks fuel : forall buff off fmt, apart (riff_blocks (H := H) (D := D) fuel buff off fmt).
Proof. induction fuel as [|fuel IH]; intros; cbn [riff_blocks]; apart. Qed.
Hint Resolve apart_riff_blocks : apart.

Lemma apart_decode_loop fuel : apart (decode_loop (H := H) (D := D) fuel).
Proof. induction fuel as [|fuel IH]; intros; cbn [decode_loop]; apart. Qed.
Lemma apart_help_names l : apart (help_names (H := H) (D := D) l).
Proof. induction l as [|[n k] l IH]; intros; cbn [help_names]; apart. Qed.
Lemma apart_list_radios l : forall i, apart (list_radios (H := H) (D := D) i l).
Proof. induction l as [|[n k] l IH]; intros; cbn [list_radios]; apart. Qed.
Hint Resolve apart_decode_loop apart_help_names apart_list_radios : apart.

(** The parts of a frame. *)
Lemma apart_frame_parts fuel :
  apart (fs_poll (H := H) (D := D)) /\ apart (net_poll (H := H) (D := D)) /\ apart (libmad_loop (H := H) (D := D) fuel) /\
  apart (snd_loop (H := H) (D := D)) /\ apart (pl_poll (H := H) (D := D)) /\ apart (lcd_poll (H := H) (D := D)).
Proof. split_and!; apart. Qed.

(** What the player does for an event. *)
Lemma apart_pl_stop : apart (pl_stop (H := H) (D := D)).
Proof. apart. Qed.
Lemma apart_pl_play what : apart (pl_play (H := H) (D := D) what).
Proof. apart. Qed.
Lemma apart_pl_volume v :
  apart (pl_volume_up (H := H) (D := D)) /\ apart (pl_volume_down (H := H) (D := D)) /\ apart (pl_volume_set (H := H) (D := D) v).
Proof. split_and!; apart. Qed.
End Components.

(** ** Commands

    A command queues at most one event; it is never console input, nor of type [E_NONE]. *)
Section Commands.
Context {H D : Type} `{T : Target} `{C : Config} `{P : Platform H} `{MD : Mad D}.
Abbreviation MS := (M (state H D)).

Definition one_push (e e' : ev_t) : Prop :=
  e' = e \/ exists time type par p o, type <> E_NONE /\ event_push time type par p e = Done (tt, e', o).

Definition queues_one {A} (m : MS A) : Prop :=
  forall s a s' o, m s = Done (a, s', o) -> s_con s' = s_con s /\ one_push (s_ev s) (s_ev s').

Lemma queues_apart {A} (m : MS A) : apart m -> queues_one m.
Proof. intros Hm s a s' o Hs. destruct (Hm _ _ _ _ Hs). split; [done|by left]. Qed.
Lemma queues_after {A E} (m : MS A) (k : A -> MS E) : apart m -> (forall a, queues_one (k a)) -> queues_one (bind m k).
Proof.
  intros Hm Hk s b s' o. unfold bind. destruct (m s) as [[[a s1] o1]| |] eqn:H1; [|done|done].
  destruct (k a s1) as [[[b2 s2] o2]| |] eqn:H2; [|done|done]. intros Hd. destruct (Hm _ _ _ _ H1) as [<- <-].
  destruct (Hk _ _ _ _ _ H2). by replace s' with s2 by congruence.
Qed.
Lemma queues_then {A E} (m : MS A) (k : A -> MS E) : queues_one m -> (forall a, apart (k a)) -> queues_one (bind m k).
Proof.
  intros Hm Hk s b s' o. unfold bind. destruct (m s) as [[[a s1] o1]| |] eqn:H1; [|done|done].
  destruct (k a s1) as [[[b2 s2] o2]| |] eqn:H2; [|done|done]. intros Hd. destruct (Hm _ _ _ _ H1) as [<- ?].
  destruct (Hk _ _ _ _ _ H2) as [Hc He]. replace s' with s2 by congruence. by rewrite He.
Qed.
Lemma queues_push_event type par p : type <> E_NONE -> queues_one (push_event type par p).
Proof.
  intros Ht. unfold push_event. apply queues_after; [apart|]. intros time s a s' o. unfold on_ev, zoom.
  destruct (event_push time type par p (s_ev s)) as [[[[] e] o']| |] eqn:He; [|done|done]. intros [= _ <- _]. split; [done|].
  right. by exists time, type, par, p, o'.
Qed.

Ltac queue_step :=
  cbn beta iota zeta;
  lazymatch goal with
  | |- forall _, _ => intros ?
  | |- queues_one (push_event _ _ _) => by apply queues_push_event
  | |- queues_one (bind (push_event _ _ _) _) => apply queues_then; [by apply queues_push_event|intros ?; apart]
  | |- queues_one (bind _ _) => apply queues_after; [solve [apart]|intros ?]
  | |- queues_one (if ?b then _ else _) => destruct b
  | |- queues_one (match ?x with _ => _ end) => destruct x
  | |- queues_one ?m => first [apply queues_apart; solve [apart] | let h := head_of m in unfold h]
  end.

Hint Resolve apart_help_names apart_list_radios : apart.

Lemma queues_cmd_radio : queues_one (cmd_radio (H := H) (D := D)).
Proof.
  unfold cmd_radio. apply queues_after; [apart|]. intros argc. apply queues_then; [repeat queue_step|]. intros ?. apart.
Qed.

(** The entries that only a host has must leave console and events alone. *)
Definition host_cmds_apart (cmds : list (list Z * command (state H D))) : Prop :=
  forall n m, (n, CHost m) ∈ cmds -> apart m.

Lemma queues_run_command cmds k : (forall m, k = CHost m -> apart m) -> queues_one (run_command (H := H) (D := D) cmds k).
Proof.
  intros Hk. pose proof queues_cmd_radio. destruct k; cbn [run_command]; try done; try solve [repeat queue_step].
  by apply queues_apart, Hk.
Qed.

Lemma queues_cmd_input cmds : host_cmds_apart cmds -> queues_one (cmd_input cmds).
Proof.
  intros Hc. unfold cmd_input. apply queues_after.
  { apply apart_state. unfold on_con, con_input_data, zoom, gets. intros s a s' o [= _ <- _]. by destruct s. }
  intros text. apply queues_after; [apart|]. intros _. unfold cmd_exec. apply queues_after; [apart|]. intros argc.
  destruct (argc =? 0); [apply queues_apart; apart|]. apply queues_after; [apart|]. intros arg s a s' o Hs.
  unfold bind in Hs at 1. unfold lift in Hs. destruct (find_command arg cmds) as [k|] eqn:Hf; [|done].
  destruct k as [k|].
  - destruct (run_command cmds k s) as [[[b s2] o2]| |] eqn:Hr; [|done|done]. replace s' with s2 by congruence.
    eapply queues_run_command; [|exact Hr]. intros m ->. destruct (find_command_In _ _ _ Hf) as [n Hin]. by eapply Hc.
  - destruct (xprintf _ _ s) as [[[b s2] o2]| |] eqn:Hr; [|done|done]. replace s' with s2 by congruence.
    eapply queues_apart; [|exact Hr]. apply apart_xprintf.
Qed.
End Commands.
