(* ===== verification/Stm32Props.v ===== *)
(** * Interrupts and the main loop of the board

    The interrupt of the serial line edits the input line and queues events; the dispatcher
    takes the events and unlocks the line after a command.  Interrupts may come between any
    two steps of the main loop. *)

From stdpp Require Import relations.
From S2P Require Import Board Stm32Timer Pcd8544 Audio Stm32Sound Stm32Console Stm32ConsoleProps Stm32Fs Lwip Stm32Net.
From S2P Require Import Prelude Libc Ring IoBuffer Console Event Cmd State Fs LcdPanel Libmad Player Main System HostNull Stm32FsProps Stm32NetProps Apart HostStm32.

Section Console.
Context {F L W D : Type} `{FF : FatFs F} `{LW : Lwip L} `{B : Board W} `{T : Target} `{C : Config} `{MD : Mad D}.
Abbreviation ST := (state (stm32_t F L W) D).
Implicit Types s : ST.

(** One round of the dispatcher's loop. *)
Definition event_round : M ST event_type_e :=
  let* e := on_ev event_pop in handle_event Stm32.commands_stm32 e ;; ret (e_type e).

(** The other parts of the main loop. *)
Definition work (fuel : nat) : list (M ST unit) :=
  [con_poll; fs_poll; net_poll; libmad_loop fuel; snd_loop; pl_poll; lcd_poll; Stm32.net_timers].

Inductive board_step : ST -> ST -> Prop :=
| step_key s s' o : Stm32.USART3_IRQHandler s = Done (tt, s', o) -> board_step s s'
| step_tick s s' o : Stm32.SysTick_Handler s = Done (tt, s', o) -> board_step s s'
| step_sound s s' o : Stm32.DMA1_Stream7_IRQHandler s = Done (tt, s', o) -> board_step s s'
| step_event s ty s' o : event_round s = Done (ty, s', o) -> board_step s s'
| step_work fuel m s s' o : In m (work fuel) -> m s = Done (tt, s', o) -> board_step s s'.

(** The line is an edited line, no event is of type [E_NONE], and a locked line has a
    command on the way; [n] bounds the number of events so far. *)
Definition console_inv (n : Z) s : Prop :=
  ev_inv (s_ev s) /\ ev_head (s_ev s) <= n /\
  exists st, con_rep (s_con s) st /\ lock_answered st.1 (ev_queue (s_ev s)).

Lemma console_inv_same n s s' : console_inv n s -> s_con s' = s_con s -> s_ev s' = s_ev s -> console_inv n s'.
Proof. unfold console_inv. by intros ? -> ->. Qed.

Lemma console_inv_mono n n' s : console_inv n s -> n <= n' -> console_inv n' s.
Proof. intros (? & ? & ?) ?. split_and!; [done|lia|done]. Qed.

Lemma work_apart fuel m : In m (work fuel) -> apart m.
Proof.
  destruct (apart_frame_parts (H := stm32_t F L W) (D := D) fuel) as (H1 & H2 & H3 & H4 & H5 & H6).
  intros [<-|[<-|[<-|[<-|[<-|[<-|[<-|[<-|[]]]]]]]]]; try done.
  - apply apart_state. unfold con_poll, on_host_con, zoom. cbn. unfold on_serial, zoom, Serial.host_con_poll, ret. intros s a s' o [= _ <- _].
    destruct s as [? ? ? ? ? ? ? ? ? h ?]. by destruct h.
  - unfold Stm32.net_timers. apart.
Qed.

Lemma commands_apart : host_cmds_apart (D := D) (Stm32.commands_stm32 (F := F) (L := L) (W := W)).
Proof.
  intros n m Hin. unfold Stm32.commands_stm32, commands in Hin. cbn [app] in Hin.
  repeat (apply elem_of_cons in Hin as [Hin|Hin]; [first [discriminate Hin | injection Hin as _ ->; solve [apart]]|]). by apply elem_of_nil in Hin.
Qed.

(** One event more. *)
Lemma ev_inv_push e e' n : ev_inv e -> ev_head e <= n -> n < 4294967295 -> one_push e e' -> ev_inv e' /\ ev_head e' <= n + 1.
Proof.
  intros [He Hn] Hh Hlt [->|(time & type & par & p & o & Ht & Hp)]; [split; [done|lia]|].
  assert (Hw : wp (event_push time type par p) (fun _ e2 => ev_inv e2 /\ ev_head e2 <= n + 1) e).
  { apply wp_event_push; [done|lia|]. intros e2 He2 Hh2 Hq2. split; [|lia]. split; [done|]. rewrite Hq2. by apply ev_push_spec_Forall. }
  unfold wp in Hw. by rewrite Hp in Hw.
Qed.

Lemma key_inv n s s' o : console_inv n s -> n < 4294967294 -> Stm32.USART3_IRQHandler s = Done (tt, s', o) -> console_inv (n + 2) s'.
Proof.
  intros ([He Hnone] & Hh & st & Hc & Hl) Hn. unfold Stm32.USART3_IRQHandler, on_host_con, on_serial, zoom. cbn [fst snd].
  set (x := (t_tim (s_host s), t_board (s_host s), s_con s, s_ev s)). destruct (USART_ReceiveData (t_board (s_host s))) as [ch w'] eqn:Hr.
  pose proof (wp_usart3_handle_it ch (t_tim (s_host s)) _ w' (s_con s) (s_ev s) st Hr Hc He ltac:(lia) Hl) as Hw.
  fold x in Hw. unfold wp in Hw. destruct (Serial.usart3_handle_it x) as [[[[] y] o']| |]; [|done|done].
  intros [= <- _]. destruct Hw as (_ & Hc' & He' & Hh' & Hl' & Hn'). split_and!; cbn; [by split; [|apply Hn']|lia|by exists (edit st ch)].
Qed.

(** Handling an event that is not console input. *)
Lemma apart_handle x : e_type x <> E_CON_INPUT -> apart (handle_event (H := stm32_t F L W) (D := D) Stm32.commands_stm32 x).
Proof.
  intros Hx. destruct (apart_pl_volume (H := stm32_t F L W) (D := D) (e_par x)) as (H1 & H2 & H3).
  unfold handle_event. destruct (e_type x); try done; try apply apart_pl_stop; try solve [apart].
  apply apart_bind; [apart|]. intros what. apply apart_pl_play.
Qed.

(** Console input: the command may queue an event, then the line is cleared and unlocked. *)
Lemma handle_input x s a s' o : e_type x = E_CON_INPUT ->
  handle_event Stm32.commands_stm32 x s = Done (a, s', o) -> con_rep (s_con s') (false, []) /\ one_push (s_ev s) (s_ev s').
Proof.
  intros Hx Hs. unfold handle_event in Hs. rewrite Hx in Hs. unfold bind in Hs at 1.
  destruct (cmd_input _ s) as [[[u s1] o1]| |] eqn:H1; [|done|done]. apply (queues_cmd_input _ commands_apart) in H1 as [_ Hp].
  unfold bind, on_con, con_reset, con_input_unlock, zoom, bind, modify in Hs. cbn in Hs.
  destruct (con_prompt _) as [[[u2 s2] o2]| |] eqn:H2; [|done|done].
  assert (Hap : apart (H := stm32_t F L W) (D := D) con_prompt) by (unfold con_prompt; apart). apply Hap in H2 as [Hc He]. cbn in Hc, He.
  replace s' with s2 by congruence. split; [rewrite Hc; apply con_rep_zero|by rewrite He].
Qed.

Lemma round_inv n s ty s' o : console_inv n s -> n < 4294967295 -> event_round s = Done (ty, s', o) ->
  console_inv (n + 1) s' /\ (ty = E_NONE -> ev_queue (s_ev s') = []).
Proof.
  intros ([He Hnone] & Hh & st & Hc & Hl) Hn Hs. unfold event_round in Hs. unfold bind in Hs at 1.
  destruct (on_ev event_pop s) as [[[x s1] o1]| |] eqn:H1; [|done|done].
  unfold on_ev, zoom in H1. assert (Hpop : wp event_pop (fun x e' => (x = event_zero /\ e' = s_ev s /\ ev_queue (s_ev s) = []) \/
    (ev_queue (s_ev s) = x :: ev_queue e' /\ ev_ok e' /\ ev_head e' = ev_head (s_ev s))) (s_ev s)).
  { apply wp_event_pop; [done|intros Hq; by left|]. intros e q e' Hq Hok <- Hh'. by right. }
  unfold wp in Hpop. destruct (event_pop (s_ev s)) as [[[y e'] oo]| |]; [|done|done].
  injection H1 as -> <- _. unfold bind in Hs. destruct (handle_event _ x _) as [[[u s2] o2]| |] eqn:H2; [|done|done].
  replace s' with s2 by (unfold ret in Hs; congruence). replace ty with (e_type x) by (unfold ret in Hs; congruence).
  destruct Hpop as [(-> & -> & Hq)|(Hq & He' & Hh')].
  - apply apart_handle in H2 as [Hc2 He2]; [|done]. cbn in Hc2, He2. rewrite He2. split; [|done].
    apply (console_inv_mono n); [|lia]. eapply (console_inv_same n s); [|done|done]. split_and!; [by split|done|by exists st].
  - rewrite Hq in Hnone. apply Forall_cons_1 in Hnone as [Hx Hnone]. split; [|done].
    destruct (decide (e_type x = E_CON_INPUT)) as [Hi|Hi].
    + destruct (handle_input x _ _ _ _ Hi H2) as [Hc2 Hp]. cbn in Hp.
      destruct (ev_inv_push e' (s_ev s2) n) as [Hi2 Hh2]; [by split|lia|lia|done|]. split_and!; [done|lia|]. by exists (false, []).
    + apply apart_handle in H2 as [Hc2 He2]; [|done]. cbn in Hc2, He2. unfold console_inv. rewrite He2, Hc2.
      split_and!; [by split|lia|]. exists st. split; [done|]. intros Hlk. specialize (Hl Hlk). rewrite Hq in Hl.
      apply Exists_cons in Hl as [Hl|Hl]; [by destruct Hi|done].
Qed.

Lemma step_inv n s s' : console_inv n s -> n < 4294967294 -> board_step s s' -> console_inv (n + 2) s'.
Proof.
  intros Hi Hn Hs. destruct Hs as [s s' o Hs|s s' o Hs|s s' o Hs|s ty s' o Hs|fuel m s s' o Hm Hs].
  - by eapply key_inv.
  - assert (Ha : apart (Stm32.SysTick_Handler (F := F) (L := L) (W := W) (D := D))) by apart.
    apply (console_inv_mono n); [|lia]. apply Ha in Hs as [? ?]. by eapply console_inv_same.
  - assert (Ha : apart (Stm32.DMA1_Stream7_IRQHandler (F := F) (L := L) (W := W) (D := D))) by apart.
    apply (console_inv_mono n); [|lia]. apply Ha in Hs as [? ?]. by eapply console_inv_same.
  - destruct (round_inv n s ty s' o Hi ltac:(lia) Hs) as [Hr _]. eapply console_inv_mono; [exact Hr|lia].
  - apply (console_inv_mono n); [|lia]. apply (work_apart fuel m Hm) in Hs as [? ?]. by eapply console_inv_same.
Qed.

Lemma steps_inv k : forall n s s', console_inv n s -> n + 2 * Z.of_nat k < 4294967295 -> nsteps board_step k s s' -> console_inv (n + 2 * Z.of_nat k) s'.
Proof.
  induction k as [|k IH]; intros n s s' Hi Hn Hs; inversion Hs as [|? ? y ? H1 H2]; subst.
  { by rewrite Z.add_0_r. }
  replace (n + 2 * Z.of_nat (S k)) with (n + 2 + 2 * Z.of_nat k) by lia. eapply IH; [|lia|exact H2]. eapply step_inv; [exact Hi|lia|exact H1].
Qed.

Lemma loop_unlocks fuel : forall n s u s' o, console_inv n s -> n + Z.of_nat fuel < 4294967295 ->
  event_loop_n fuel Stm32.commands_stm32 s = Done (u, s', o) -> ev_queue (s_ev s') = [] /\ con_lock (s_con s') = 0.
Proof.
  induction fuel as [|fuel IH]; intros n s u s' o Hi Hn Hs; [done|]. cbn [event_loop_n] in Hs.
  assert (Hr : forall ty s1 o1, event_round s = Done (ty, s1, o1) -> console_inv (n + 1) s1 /\ (ty = E_NONE -> ev_queue (s_ev s1) = [])).
  { intros ty s1 o1. apply round_inv; [done|lia]. }
  unfold event_round in Hr. unfold bind in Hs, Hr. destruct (on_ev event_pop s) as [[[x s1] o1]| |]; [|done|done].
  destruct (handle_event _ x s1) as [[[u2 s2] o2]| |]; [|done|done]. destruct (Hr _ _ _ eq_refl) as [Hi2 Hq2].
  case_bool_decide as Ht.
  - replace s' with s2 by (unfold ret in Hs; congruence). destruct Hi2 as (_ & _ & [locked l] & (Hlk & _) & Hl). rewrite Hq2 in * by done. split; [done|].
    cbn [fst] in *. rewrite Hlk. destruct locked; [|done]. specialize (Hl eq_refl). inversion Hl.
  - destruct (event_loop_n fuel _ s2) as [[[u3 s3] o3]| |] eqn:H3; [|done|done]. replace s' with s3 by congruence.
    eapply (IH (n + 1)); [exact Hi2|lia|exact H3].
Qed.

(** C4: The console is never locked for good, as long as fewer than 2^32 events have been pushed
    since the start.  However the interrupts of the serial
    line, the timer and the sound fall between the steps of the main loop, and whatever is typed, whenever
    the line is locked the event that unlocks it is in the queue, even when the queue has
    overflowed; and when the dispatcher's loop returns, the line is unlocked again and no event is
    pending. *)
Theorem stm32_console_never_stuck k n s s' :
  console_inv n s -> n + 2 * Z.of_nat k + 28 < 4294967295 -> nsteps board_step k s s' ->
  (con_lock (s_con s') <> 0 -> Exists con_input_event (ev_queue (s_ev s'))) /\
  (forall s2 o, event_loop Stm32.commands_stm32 s' = Done (tt, s2, o) -> ev_queue (s_ev s2) = [] /\ con_lock (s_con s2) = 0).
Proof.
  intros Hi Hn Hs. assert (Hi' : console_inv (n + 2 * Z.of_nat k) s') by (eapply steps_inv; [exact Hi|lia|exact Hs]). split.
  - destruct Hi' as (_ & _ & [locked l] & (Hlk & _) & Hl). intros Hne. apply Hl. cbn [fst] in *. by destruct locked.
  - intros s2 o Hl. eapply (loop_unlocks 28); [exact Hi'|lia|exact Hl].
Qed.
End Console.

(** ** Five keys *)

Definition board_boot : state (stm32_t demo_stick demo_stack demo_board) unit :=
  boot (Stm32 tim_zero pcd_zero snd_zero fs32_zero (DemoStick [] 0) ns32_zero stack_up ud_zero demo_heap demo_world) tt demo_res.

#[local] Existing Instance stm32_target.
#[local] Instance board_config : Config := default_config false.

(** The interrupt of one key. *)
Definition key (s : state (stm32_t demo_stick demo_stack demo_board) unit) := final Stm32.USART3_IRQHandler s.

Lemma console_inv_boot : console_inv 0 board_boot.
Proof.
  split_and!; [split; [exact ev_ok_zero|]|cbn; lia|]; [vm_compute; by constructor|].
  exists (false, []). split; [exact con_rep_zero|done].
Qed.

(** After "stop" and the return key the line is locked, and the dispatcher unlocks it. *)
Lemma stm32_console_never_stuck_witness :
  let s' := key (key (key (key (key board_boot)))) in
  con_lock (s_con s') <> 0 /\ Exists con_input_event (ev_queue (s_ev s')) /\
  exists s2 o, event_loop Stm32.commands_stm32 s' = Done (tt, s2, o) /\ con_lock (s_con s2) = 0.
Proof.
  intros s'. destruct (stm32_console_never_stuck 5 0 board_boot s') as [H1 H2]; [exact console_inv_boot|reflexivity| |].
  - repeat (eapply nsteps_l; [eapply step_key; vm_compute; reflexivity|]). apply nsteps_O.
  - assert (Hl : con_lock (s_con s') <> 0) by (vm_compute; discriminate). split_and!; [exact Hl|exact (H1 Hl)|].
    destruct (event_loop Stm32.commands_stm32 s') as [[[[] s2] o]| |] eqn:He; [|exfalso; vm_compute in He; discriminate He..].
    exists s2, o. split; [reflexivity|]. exact (proj2 (H2 s2 o eq_refl)).
Defined.
